(* ===== verification/_CoqProject ===== *)
-Q . S2P
Prelude.v
PyStr.v
Json.v
JsonText.v
Mapping.v
Status.v
Failures.v
RunLease.v
RunStore.v
RunCreate.v
RunLifecycle.v
RunMessages.v
RunEvolution.v
RunOutcome.v
RunDemo.v
RunTransitions.v
RunQueue.v
RunInterruption.v
RunCreation.v
RunMailbox.v
WorkerContracts.v
Handoff.v
FailureGuard.v
Models.v
ContextBudget.v
Sessions.v
SessionTheorems.v
SessionStore.v
Compaction.v
SemanticCompaction.v
WindowPolicy.v
LoopControl.v
LoopTheorems.v
ToolExecution.v
ToolTheorems.v
RunDeadlines.v
DeadlineTheorems.v
RunTheorems.v
Obligations.v
ObligationLedger.v
ObligationOps.v
ObligationTheorems.v
NoticeDelivery.v
NoticeProtocol.v
NoticeInvariant.v
NoticeTheorems.v
ThreadHandoff.v
ProviderErrors.v
ProviderCall.v
CallTheorems.v
AgentLoop.v
AgentFrame.v
AgentPairs.v
AgentCalls.v
AgentRun.v
AgentThread.v
AgentTheorems.v
RunEngine.v
EngineTheorems.v
EngineSettlement.v
EngineRuns.v
EvidenceHealth.v
EvidenceTheorems.v
Continuation.v
ContinuationTheorems.v
ContinuationRecovery.v
StatusQuestions.v
RunRouting.v
Admission.v
AdmissionTheorems.v
ReplyAdmission.v
ReplyTheorems.v
