(* ===== verification/Prelude.v ===== *)
(** * The control core of Illospace's brain, in Rocq

    Illospace's brain (src/brain) runs agents: a request becomes a row of the
    table agent_runs, a worker claims the row, runs the agent loop, writes events
    and artifacts, and settles the run.  Several workers, web replicas, a
    scheduler and deploy scripts act on the same rows.  This library models the
    part of the program that keeps them consistent, and proves what it promises.
    Paths below are relative to src/brain.

    ** The program's parts and the files that model them

    Foundations, shared by every component:
    - [Prelude]: Python exceptions as [exn], fallible calls as [result], generic
      lemmas on lists and on ordered lists, the class [StrEnum] of enumerations
      with string values, and the automation.
    - [PyStr], [Json], [JsonText]: Python's [str] methods, JSON values with the
      Python operations on them (dict access, truthiness, [==], [str], [int]) and
      JSON text ([json.dumps], [json.loads]).

    The agent run (systems/runs, contracts/statuses.py,
    platform/db/models/agent_run.py):
    - [Status]: contracts/statuses.py, systems/runs/status.py and
      systems/runs/domain.py: the status values, the transition table with its
      guard [ensure_run_transition], and request normalisation.
    - [Failures]: systems/runs/failures.py and failure_diagnostic.py: terminal
      messages and the failure envelope a row stores.
    - [RunStore], [RunCreate], [RunLifecycle], [RunMessages]: systems/runs/store.py,
      class AsyncAgentRunStore.  A method is a computation of the monad [DB] on a
      [store]; every operation keeps the order of its locks, reads, guarded
      UPDATEs, appended events, commits and rollbacks.  [RunStore] holds the
      tables, locks and the event log; [RunCreate] idempotent creation;
      [RunLifecycle] the execution claim, status changes and the queue;
      [RunMessages] metadata, steering, artifacts and interruption.
    - [RunLease]: the contract of the execution lease as an abstract machine, which
      the store implements.
    - [RunEvolution], [RunOutcome], [RunTransitions], [RunQueue],
      [RunInterruption], [RunCreation], [RunMailbox], [RunTheorems]: the theorems
      on the store, by subject; [RunDemo] is a concrete instance of the platform
      for their witnesses.
    - [RunDeadlines], [DeadlineTheorems]: systems/runs/deadlines.py, cancel.py and
      tool_event_read_model.py, clients of the store: the sweep that asks an overdue
      run to close out and later expires it, and cancellation.
    - [RunEngine]: systems/runs/engine.py with steering.py, stream.py and
      execution_failure.py, and the waiting loop and the lease of store.py: running a
      recipe under an execution lease and settling its run in one transaction.  What
      surrounds the store, the stream, the steering inbox and the scheduled tasks, is
      an [engine_world].  [EngineTheorems] states the laws of what the engine takes
      from others, [EngineSettlement] what a settlement does, [EngineRuns] what a
      whole run does.
    - [EvidenceHealth], [EvidenceTheorems]: systems/runs/evidence_health.py: the
      receipt of failed workers on a parent run and on the run of its cycle.
    - [Continuation]: systems/runs/chantier_continuation.py: when a parent and all
      the workers it spawned have settled, one run is queued that continues with
      their results.  [ContinuationTheorems] and [ContinuationRecovery] hold what is
      proved of it, and that it is a collaborator the engine accepts.
    - [StatusQuestions]: systems/runs/status_questions.py: whether a message asks how
      earlier work is going, its regular expressions as values of a small language of
      patterns, and what the runs of its thread say.
    - [RunRouting]: the builders of systems/runs/work_intake.py with
      work_intake_slack.py, direct_targets.py, skill_commands.py and
      interactive_reply.py: from an event to the request of a run.
    - [Admission]: [admit_work] and the rest of work_intake.py, and the status changes
      of systems/cortex/thought_lifecycle.py: the request of an event, its model and
      credentials, and the run with its open ask and its thought.
      [AdmissionTheorems] holds what is proved of it.
    - [ReplyAdmission], [ReplyTheorems]: outbound_reply_admission.py with
      direct_loop/reply_coordination.py, the same-thread part of
      direct_loop/final_reply_evidence.py and final_reply_checker.py, and
      execution_context.py; the opening of post_slack_reply, the call of a handler in
      tools.py, and the context run_agent_async is opened with: whether a reply takes
      account of the runs open on its thread, and the count of those that were blocked.
    - [Obligations]: platform/db/models/open_ask.py with obligation_specs.py,
      open_asks.py, open_ask_settlement.py, run_deferrals.py and open_ask_digest.py
      of systems/runs: the ledger of answers owed in Slack threads and the outbox of
      their notices.  [ObligationLedger] holds what makes the tables well formed,
      [ObligationOps] what each operation does to them, [ObligationTheorems] what
      they promise.
    - [NoticeDelivery]: systems/runs/obligation_notices.py: a delivery pass as a
      program over its requests to the database and to Slack.  [NoticeProtocol] runs
      such programs side by side in one world and states the discipline they keep,
      [NoticeInvariant] the invariant, [NoticeTheorems] the promises.
    - [LoopControl], [LoopTheorems]: systems/runs/direct_loop/loop_guard.py,
      tool_failure_policy.py and loop_control.py: one decision per tool result.
    - [ToolExecution], [ToolTheorems]: systems/runs/direct_loop/tool_execution.py and
      gates.py: what becomes of the tool calls of one model response: results and
      their truncation, the watchdog, batches of calls, gates, and the walk over the
      response that runs, skips or refuses each call.

    The agent loop (systems/runs/direct_agent.py, systems/runs/direct_loop):
    - [ProviderErrors]: platform/integrations/provider_error_sentinel.py,
      platform/providers/model_fallback.py and direct_loop/context_recovery.py: what a
      text or an exception of a provider means.
    - [ProviderCall]: direct_loop/request.py, retry.py and streaming.py with the beta
      flags and headers of platform/integrations/llm.py: one call of a provider.  A
      [wire] holds the process-wide flags, the requests handed over and what the
      callbacks were given; [CallTheorems] says what a call does.
    - [AgentLoop]: run_agent_async and its helpers: opening a client, turns, guidance
      and notices, compaction, the rounds of a model call with its fallbacks, tool
      turns, and what the run saves.  An [agent] holds the transcript with its raw
      archive, the route, the tools, the counters and the wire.  [AgentFrame] says
      what each part leaves alone, [AgentPairs] that transcripts stay in order,
      [AgentCalls] what a model call does, [AgentRun] what a whole run sends,
      [AgentThread] what is said in its turns, and [AgentTheorems] holds the promises.

    The transcript of a run (systems/sessions, systems/context):
    - [Models]: platform/effort.py, platform/model_catalog.py and the pure parts of
      platform/providers/model_policy.py and model_fallback.py: the catalog, the
      effort a model accepts, and what to fall back to.
    - [ContextBudget]: systems/context/budget.py: from a model and the environment to
      the token limits of a prompt.
    - [Sessions], [SessionTheorems], [SessionStore]: systems/sessions/__init__.py:
      the sanitizer that pairs tool calls with their results, content blocks, and
      the table agent_sessions with loading, saving and reading.
    - [Compaction], [SemanticCompaction]: systems/context/compaction.py and
      semantic_compaction.py: cutting a transcript into early, omitted and recent
      messages, the checkpoint that stands for the omitted ones, and the search for
      the largest cut that fits; the cut of recent messages of thread_handoff.py.
    - [ThreadHandoff]: the rest of systems/context/thread_handoff.py and its callers
      in direct_agent.py: the durable summary of a thread that a run starts from and
      brings up to date.
    - [WindowPolicy]: systems/context/window_policy.py: admission of a prompt, and
      when compaction is given up.

    Around the run:
    - [WorkerContracts]: contracts/worker_lifecycle.py and worker_swap.py, the
      files by which a worker tells deploy scripts what it is doing.
    - [Handoff]: contracts/scheduler_handoff.py and scheduler_outcomes.py, what a
      scheduled command prints and returns.
    - [FailureGuard]: systems/failure_guard/core.py, cycle_latches.py and
      state_repository.py, when a failure alerts and when it stays quiet.
    - [Mapping]: platform/mapping_expressions.py, where the fields of an external
      item come from.

    ** How the parts interact in the model

    The tables are one record [db]; a [store] holds the committed and the pending
    database of one transaction, the claims found lost, the locks it took, and
    the calls it made to other components ([hook_calls]).  Another worker is
    another computation on the same committed database: [RunTheorems] composes
    operations and steps of the environment into histories.  [WindowPolicy] plans
    with [SemanticCompaction], which cuts with [Compaction] and cleans with the
    sanitizer of [Sessions]; their theorems are proved from each other's lemmas.
    What the operations need and src/ does not hold is an argument:
    the class [Platform] (SHA-256, ISO dates, fresh tokens), [ToolCatalog] (the
    registered tools and their policies), [ProviderErrorTaxonomy], the process
    environment and the semantic compactor.  Where the source has a Protocol the
    model has a class with laws and the implementations are its instances:
    [FailureGuardStore] and [FailureGuardStateStore] in [FailureGuard].  How a batch
    of tool calls is run is the class [BatchExecutor] of [ToolExecution], with the
    sequential executor and the one of asyncio tasks as instances; the walk uses
    only its law, that each request is answered in order.  [ToolExecution] drives
    [LoopControl], and its results are the messages the sanitizer of [Sessions]
    judges.  [AgentLoop] composes all of these: a turn sanitizes with [Sessions],
    compacts with [WindowPolicy], calls through [ProviderCall], executes with
    [ToolExecution], and starts and ends with [ThreadHandoff]; the SDK of a provider
    ([LLMProvider]), the cancel event, the hooks of the session store and the
    summarizing models are its [services].

    The engine of [RunEngine] is a client of the store.  Recipes, cancel tokens and
    the durable steering drain are fields of its record, and [EngineLaws] says that
    they touch the tables only by operations that keep them in order; the tracker
    guarantee and the continuation of a fan-out are the class [Collaborators] with
    the laws [CollaboratorLaws].  The theorems are proved against these interfaces,
    and a concrete engine discharges them.  The continuation of [Continuation] is one
    such collaborator ([fanout_collaborators], [fanout_laws]); it works in the session
    of its caller through a store of its own that does not commit ([own_store]), and
    admission of the run it queues is the class [WorkIntake], whose law says that
    admission keeps the tables, leaves the commit to its caller and writes no event of
    a continuation.  [store_intake] makes the admission of [Admission] such an intake
    ([store_intake_laws]); it works on an [intake], the store together with the ledger
    of obligations, the thoughts and their log, and records its run and its open ask
    behind one savepoint ([nested]).  What admission reads from components that are not
    modelled, project contexts, thread contexts, default models and the state of
    credentials, is the class [AdmissionServices].

    What [StatusQuestions] finds on a thread is stored by [Admission] in the metadata of
    the run; an execution of the run opens its agent with them, and the reply tool of
    [ReplyAdmission] reads them back.  An [agent_world] holds the context of the task,
    which every tool call sees as a clone, the states the calls share, which are objects
    of a store of their own, and the tables.  The review of a completed answer is the
    class [FinalReplyReviewer].

    The obligations of [Obligations] live in tables of their own, a [ledger]; runs
    are rows of [RunStore] they refer to.  An INSERT first sees the rows other
    transactions committed while it waited, so a lost race is part of every
    operation.  A [delivery] program is what a task of [NoticeDelivery] still does;
    [acts] gives the effect of one request, [world_step] interleaves the requests of
    all tasks with the operations of [Obligations] and the passing of time.

    ** What the theorems show

    - The run store ([RunTheorems], [RunTransitions], [RunQueue],
      [RunInterruption], [RunCreation], [RunMailbox]): whatever operations of
      whatever workers are interleaved, tables stay well-formed, a run moves only
      along the transition table, a settled run never changes, a worker that lost
      its claim never gets it back; and what each operation does, branch by
      branch: acceptance and refusal of a status change, acquisition of a claim,
      the choice of the queue, requeue and expiry of an interrupted run, creation
      once per idempotency key, delivery of steering messages once, one final
      answer, row locks in ascending order.  Every history refines the lease
      machine of [RunLease].
    - The engine ([EngineSettlement], [EngineRuns]): a settlement is all or nothing, and
      a worker without the current claim settles nothing; a failure can always be
      recorded, with its category and stage, and is committed; whatever a recipe does,
      a run of the engine leaves its lease released, a settled run is not executed
      again, and a start is retried only if no tool ever ran, which puts the run back
      in the queue, and otherwise leaves every run as it is.
    - Fan-outs ([ContinuationTheorems], [ContinuationRecovery], [EvidenceTheorems]): a
      continuation is queued behind its barrier only, at most once whatever runs
      report in whatever order, and the last settlement does queue it; recovery of
      blocked continuations takes those that wait longest, survives every failure and
      counts what was continued; the failures of workers reach the
      receipt and are reported once each.  With [Admission] as the intake, the run that
      is queued carries the key of the fan-out.  [nested_fanout_lost] shows that the fan-out
      of a run that is itself a worker is not continued when it settles last.
    - Admission ([AdmissionTheorems]): building a request only reads; an event is
      admitted as a whole or refused without a trace, and admission never raises; a
      repeated event is answered with the run there is, however much later and whatever
      became of the run; no request asks for a retired
      profile or recipe; and the run of a continuation takes up where its fan-out left
      off.
    - Replies ([ReplyTheorems]): which replies of an execution are blocked, from the runs
      that were open on the thread, the declarations of the replies and the blocks
      before; and that a run is told so twice at most, over all its executions, whatever
      calls are cancelled and whatever else its metadata are given, as far as
      post_slack_reply goes: cortex_reply shares the count and is not modelled.
    - Deadlines ([DeadlineTheorems], [RunTheorems]): what the sweep does to each
      candidate and that it answers just that, that no run is expired before the
      close-out window it was given ends, whatever happens in between, and what
      cancelling a thread does.
    - Obligations ([ObligationTheorems]): through any history one row per
      obligation, nothing of a former life in an open ask, settled deferrals stay
      settled and settled asks come back only for a new request; recording is
      idempotent and survives lost races; what a delivered answer settles and a
      sweep expires; the policy survives its metadata.
    - Notices ([NoticeTheorems]): however passes interleave, raise or stop, a notice
      reaches Slack again only when a complete read of its destination did not show the
      earlier post, while posts land within the grace of their passes ([timely]); a post
      follows a check that the ask is open; a pass makes a bounded number of requests.
      The grace counts from the start of the pass, and [late_claim_posts_twice] shows
      what follows from that; the reads of the client come without the metadata that
      would show a post, and [unmarked_read_posts_twice] shows what follows from that.
    - Statuses and failures ([Status], [Failures]): terminal statuses absorb, open
      runs can settle, requeue needs an interruption; the failure envelope is
      read back.
    - The agent loop ([LoopTheorems]): when each stuck-loop detector fires, that a
      termination is final, when a tool is disabled.
    - Tool execution ([ToolTheorems]): every call of a response is answered exactly
      once, so a transcript that could be sent can still be sent; and only calls
      that handlers, gates, the failure policy and the termination allow are run,
      although they run in batches.
    - Provider calls ([CallTheorems], [ProviderErrors]): retries end after a bounded
      number of requests that repeat the first, a cancelled stream has shown exactly
      what came before, a sentinel is classified as what it stands for; and errors
      of a client that is not Anthropic's strip Anthropic's flags.
    - The run of the agent loop ([AgentTheorems]): every request it sends is in order
      and offers only tools that are not disabled, their number is bounded, a model
      call ends, withheld error texts are not shown, and the thread it saves is what was
      said in it, one exchange per answer of the model; a cancelled stream ends in an [AttributeError], and the tools of an error
      text run although their results are lost.
    - Thread handoffs ([ThreadHandoff]): every message of a thread is summarized once.
    - Worker contracts ([WorkerContracts], [Handoff]): round trips of the
      published phase, of the swap snapshot and of the handoff envelope, and that
      only well-formed documents are accepted.
    - Failure guards ([FailureGuard]): one alert per failure period, exclusive
      claims of a latch.
    - Sessions ([SessionTheorems], [SessionStore]): which calls, results and messages the
      sanitizer keeps, that its transcript answers every call at once and nothing else,
      that it leaves exactly those transcripts alone, that whatever is loaded can be
      sent, and that what was saved in order is loaded again, up to the order of keys.
    - Context ([Compaction], [SemanticCompaction], [WindowPolicy]): a cut loses and
      repeats nothing (but for one case, stated), a plan keeps its early and recent
      messages word for word and stays in order, the search takes the first fit,
      limits stay ordered and under the provider's ceiling, admission is decided by
      the smallest prompt, and futile compactions end in an error.
    - Models ([Models]): falling back ends.
    - Mapping ([Mapping]): the validator accepts exactly the language and what it
      accepts evaluates.

    ** Bounds and fuel

    Integers are Python's, unbounded.  [claim_loop] runs with one round more than
    the runs of the table; every round marks at least one queued run as seen, so
    the fuel is enough (proved with the theorem on claim_next).  [loads] runs with
    twice the length of its text and two more; [JsonText] proves that enough for
    every text [dumps] writes.  [candidate_limits] counts down with as much fuel as
    there are numbers between its ends ([count_down_spec] proves it reaches the
    lower one); [extend_early] takes the six steps the code's bound allows; a
    chain of fallbacks is followed for as many steps as the catalog has models,
    and proved to end within three.  [run_chunks] takes at least one pending call per
    chunk, so its fuel, the number of pending calls, is enough ([chunks_answers]).
    [read_pages] and [deliver_when_visible] count down the code's own limits, ten
    pages and five attempts.  [api_fuel] counts the delays left and the degradations
    of the flags, [rounds_left] the retry, the compaction and the fallback models
    left; both decrease with every round ([after_error_spec], [round_spec]), and more
    changes nothing ([loop_fuel], [rounds_fuel]).  [_wait_for_execution_retry] polls as
    often as the deadline of the wait allows and [acquire_lease] goes round as often
    as it is told: both numbers are the reader's, and the theorems hold for all of
    them.  [_chunks] takes at least one character per chunk ([chunks_roundtrip]).
    [_find_context_mapping] looks four levels deep, as the code does.
    [lineage_fuel] is one more than there are runs, and the walk never meets a run
    twice; [cycle_of_lineage] takes the 64 steps the code allows.  [slash_names]
    consumes a character per round, so the length of the text is fuel enough.
    Every other recursion is structural.

    ** What is not modelled, and why

    - Floating point, code points above 255, and the interpreter's recursion limit.
    - The asyncio scheduler: locks of the event loop and sleeping.  While a worker
      waits for a lease, the other workers are one argument, a computation on the
      store, and time is the number of polls before the deadline.
      The retry of a transaction after a database deadlock repeats the same
      transaction and is not a definition.
    - PostgreSQL itself: rows, unique and check constraints, row locks with SKIP
      LOCKED and savepoints are modelled as far as the code relies on them.
    - Timeouts of tool calls as floating-point numbers, and the tasks abandoned after a
      timeout: what the event loop observes of a call is an argument.
    - Regular expressions over failure texts (signatures of failures) and the
      registration checks of triggers.
    - Of admission: log lines, sessions that are not sessions of the database (a
      lookup of runs that fails), a target, actor or policy given as a dataclass, and
      thread messages and the settlement of thoughts.  Word boundaries in the
      patterns of [StatusQuestions] know the letters of Latin-1.
    - Content blocks that are objects of a provider's SDK (in a transcript read from
      the table they are JSON), model prices, and policies read from tables of settings.
      What PostgreSQL makes of the text of a JSONB column is the class [JsonbColumn]: it
      refuses some texts, in which case a save is logged and writes nothing, and
      [JsonbLaws] says that what it keeps is the value up to the order of keys.
    - The widths of text columns and the deletion of runs and organizations, the
      sleeping between passes of a delivery task, and what Slack does with a message
      beyond keeping it: a read of a destination answers with anything, and the messages
      a complete read does not show are noted ([sh_missed]); posts come from one bot user
      ([bots_ok]), and two tasks never read the same time from the clock.
    - Of run_agent_async: telemetry and log lines, the wording of progress labels, the
      prompts of the models that summarize, and the review of final replies by checks of
      their text and by a model.  Its context ([ReplyAdmission]) holds data, not the
      clock, the loop control or the client; of a tool call around its handler the
      events, policies, manifests and artifacts are left out, and of the Slack tool what comes
      after admission, which is an argument that does not write to the store.  The other
      tool that replies, cortex_reply, is left out.  The synchronous twins of provider calls are not
      definitions.
    - Model providers, Slack, browsers, GPUs, embeddings: network I/O.

    ** What comes next

    In this order: the cortex runner over [RunEngine] and [Admission]; the interruption
    notices and the Slack delivery of answers over [Obligations]; the cycle failure
    guard over [FailureGuard]; the scheduler's executor over [Handoff]. *)

From Stdlib Require Export Sorting.Sorted.
From stdpp Require Export base tactics option list numbers strings gmap.
#[export] Set Default Goal Selector "!".

(** * Exceptions and results

    A Python call either returns or raises.  The exception classes below are
    the ones the modelled code raises or catches by name. *)

(** What the code reads of an exception raised by a provider's SDK: its class and
    those of its causes, [str(exc)], attributes by name, and the response it
    carries.  A structured attribute has two texts, [str(value)] and
    [json.dumps(value)]. *)
Record error_attr : Type := { attr_name : string; attr_str : string; attr_dump : option string }.
Record error_response : Type := { response_attrs : list error_attr; response_headers : list (string * string) }.
Record api_error : Type := {
  error_class : string;
  error_causes : list string;
  error_message : string;
  error_attrs : list error_attr;
  error_status : option Z;
  error_carries : option error_response }.

Inductive exn : Type :=
| ValueError (msg : string)
| TypeError (msg : string)
| LookupError (msg : string)
| AttributeError (msg : string)
| RuntimeError (msg : string)
| TimeoutError (msg : string)
| IntegrityError
| RunTransitionError (from_status to_status : string) (outside_requeue : bool)
| ExecutionClaimLost (run_id attempt : Z)
| MappingExpressionError (errors : list string)
| DetachedAgentRunHandoffError (msg : string)
| ContextFloorExceedsBudgetError (floor ceiling tools min_messages : Z)
| ContextCompactionStalledError (estimated ceiling tools attempts : Z) (phase : string)
| ApiError (error : api_error)
| RunExecutionFailure (run_id : Z) (original : exn)
| ContinuationAdmissionError (msg : string) (invalid_target : bool).

Inductive result (A : Type) : Type :=
| Ok (a : A)
| Err (e : exn).
Arguments Ok {A} a.
Arguments Err {A} e.

Definition is_ok {A} (r : result A) : bool :=
  match r with Ok _ => true | Err _ => false end.

#[export] Instance result_ret : MRet result := fun A a => Ok a.
#[export] Instance result_bind : MBind result := fun A B f r =>
  match r with Ok a => f a | Err e => Err e end.
#[export] Instance result_fmap : FMap result := fun A B f r =>
  match r with Ok a => Ok (f a) | Err e => Err e end.

(** * A state and exception monad

    Python keeps the mutations made before an exception was raised, so the
    state is returned next to the result and not inside it. *)

Definition M (S A : Type) : Type := S -> S * result A.

Section monad.
Context {S : Type}.

Definition ret {A} (a : A) : M S A := fun s => (s, Ok a).
Definition raise {A} (e : exn) : M S A := fun s => (s, Err e).
Definition bind {A B} (m : M S A) (f : A -> M S B) : M S B := fun s =>
  match m s with
  | (s', Ok a) => f a s'
  | (s', Err e) => (s', Err e)
  end.
Definition get : M S S := fun s => (s, Ok s).
Definition gets {A} (f : S -> A) : M S A := fun s => (s, Ok (f s)).
Definition modify (f : S -> S) : M S unit := fun s => (f s, Ok tt).
Definition lift_result {A} (r : result A) : M S A := fun s => (s, r).
Definition when_ (b : bool) (m : M S unit) : M S unit :=
  if b then m else ret tt.

(** [try: m except e: h e]. *)
Definition catch {A} (m : M S A) (h : exn -> M S A) : M S A := fun s =>
  match m s with
  | (s', Ok a) => (s', Ok a)
  | (s', Err e) => h e s'
  end.

Fixpoint for_each {A} (f : A -> M S unit) (l : list A) : M S unit :=
  match l with
  | [] => ret tt
  | x :: l' => bind (f x) (fun _ => for_each f l')
  end.

Lemma bind_ok {A B} (m : M S A) (f : A -> M S B) s s' b :
  bind m f s = (s', Ok b) <->
  exists s1 a, m s = (s1, Ok a) /\ f a s1 = (s', Ok b).
Proof.
  unfold bind. destruct (m s) as [s1 [a|e]]; split.
  - intros H. by exists s1, a.
  - by intros (? & ? & [= -> ->] & ?).
  - done.
  - by intros (? & ? & ? & ?).
Qed.

Lemma bind_eq_ok {A B} (m : M S A) (f : A -> M S B) s s1 a :
  m s = (s1, Ok a) -> bind m f s = f a s1.
Proof. intros H. unfold bind. by rewrite H. Qed.

Lemma bind_eq_err {A B} (m : M S A) (f : A -> M S B) s s1 e :
  m s = (s1, Err e) -> bind m f s = (s1, Err e).
Proof. intros H. unfold bind. by rewrite H. Qed.

Lemma catch_ok {A} (m : M S A) h s s1 a : m s = (s1, Ok a) -> catch m h s = (s1, Ok a).
Proof. intros E. unfold catch. by rewrite E. Qed.

Lemma catch_err {A} (m : M S A) h s s1 e : m s = (s1, Err e) -> catch m h s = h e s1.
Proof. intros E. unfold catch. by rewrite E. Qed.

Lemma lift_ok_bind {A B} (a : A) (f : A -> M S B) : bind (lift_result (Ok a)) f = f a.
Proof. reflexivity. Qed.
End monad.

Declare Scope py_scope.
Delimit Scope py_scope with py.
Notation "x <- c ;; k" := (bind c (fun x => k))
  (at level 100, c at next level, right associativity) : py_scope.
Notation "c ;;; k" := (bind c (fun _ => k))
  (at level 100, right associativity) : py_scope.
#[global] Open Scope py_scope.

(** * Relations preserved by a computation

    [preserves R m]: whatever [m] does, it relates the state before to the
    state after by [R]; used for frame conditions and invariants. *)

Definition preserves {S A} (R : S -> S -> Prop) (m : M S A) : Prop :=
  forall s, R s (m s).1.

Section preserves.
Context {S : Type} (R : S -> S -> Prop) `{!Reflexive R} `{!Transitive R}.

Lemma preserves_ret {A} (a : A) : preserves R (ret a).
Proof. intros s. simpl. reflexivity. Qed.

Lemma preserves_raise {A} e : preserves R (raise (A:=A) e).
Proof. intros s. simpl. reflexivity. Qed.

Lemma preserves_gets {A} (f : S -> A) : preserves R (gets f).
Proof. intros s. simpl. reflexivity. Qed.

Lemma preserves_lift {A} (r : result A) : preserves R (lift_result r).
Proof. intros s. simpl. reflexivity. Qed.

Lemma preserves_modify f : (forall s, R s (f s)) -> preserves R (modify f).
Proof. intros H s. apply H. Qed.

Lemma preserves_bind {A B} (m : M S A) (f : A -> M S B) :
  preserves R m -> (forall a, preserves R (f a)) -> preserves R (bind m f).
Proof.
  intros Hm Hf s. unfold bind. specialize (Hm s).
  destruct (m s) as [s1 [a|e]]; simpl in *; [|done].
  etrans; [exact Hm|apply Hf].
Qed.

Lemma preserves_when b m : preserves R m -> preserves R (when_ b m).
Proof. destruct b; [done|intros _; apply preserves_ret]. Qed.

Lemma preserves_get : preserves R get.
Proof. intros s. simpl. reflexivity. Qed.

Lemma preserves_catch {A} (m : M S A) (h : exn -> M S A) :
  preserves R m -> (forall e, preserves R (h e)) -> preserves R (catch m h).
Proof.
  intros Hm Hh s. unfold catch. specialize (Hm s).
  destruct (m s) as [s1 [a|e]]; simpl in *; [done|]. etrans; [exact Hm|apply Hh].
Qed.

Lemma preserves_for_each {A} (f : A -> M S unit) l :
  (forall a, preserves R (f a)) -> preserves R (for_each f l).
Proof.
  intros Hf. induction l as [|x l IH]; [apply preserves_ret|].
  apply preserves_bind; [apply Hf|intros _; apply IH].
Qed.
End preserves.

(** [returning P m]: what [m] returns, if it does not raise, satisfies [P]. *)
Definition returning {S A} (P : A -> Prop) (m : M S A) : Prop := forall s a, (m s).2 = Ok a -> P a.

Section returning.
Context {S : Type}.

Lemma returning_ret {A} (P : A -> Prop) (a : A) : P a -> returning P (ret (S := S) a).
Proof. by intros Ha s a' [= <-]. Qed.

Lemma returning_raise {A} (P : A -> Prop) e : returning P (raise (S := S) (A := A) e).
Proof. done. Qed.

Lemma returning_bind {A B} (P : B -> Prop) (m : M S A) (f : A -> M S B) :
  (forall a, returning P (f a)) -> returning P (bind m f).
Proof. intros Hf s b. unfold bind. destruct (m s) as [s1 [a|e]]; [apply Hf|done]. Qed.

Lemma returning_with {A B} (P : A -> Prop) (Q : B -> Prop) (m : M S A) (f : A -> M S B) :
  returning P m -> (forall a, P a -> returning Q (f a)) -> returning Q (bind m f).
Proof.
  intros Hm Hf s b. unfold bind. specialize (Hm s). destruct (m s) as [s1 [a|x]]; [|done].
  apply Hf. by apply Hm.
Qed.

Lemma returning_lift {A} (P : A -> Prop) (r : result A) :
  (forall a, r = Ok a -> P a) -> returning P (lift_result (S := S) r).
Proof. intros Hr s a. apply Hr. Qed.

Lemma returning_catch {A} (P : A -> Prop) (m : M S A) (h : exn -> M S A) :
  returning P m -> (forall e, returning P (h e)) -> returning P (catch m h).
Proof.
  intros Hm Hh s a. unfold catch. specialize (Hm s). destruct (m s) as [s1 [b|e]]; [|apply Hh].
  intros [= <-]. by apply Hm.
Qed.
End returning.

(** * Generic helpers *)

(** Python's [x or d] on an optional string and on an optional integer: the
    falsy values are [None] and the empty string, respectively [None] and 0. *)
Definition str_or (o : option string) (d : string) : string :=
  match o with Some s => if String.eqb s "" then d else s | None => d end.
Definition int_or (o : option Z) (d : Z) : Z :=
  match o with Some z => if Z.eqb z 0 then d else z | None => d end.

(** [sorted(..)] on a key, stable. *)
Section insertion_sort.
Context {A : Type} (leb : A -> A -> bool).

Fixpoint insert_sorted (x : A) (l : list A) : list A :=
  match l with
  | [] => [x]
  | y :: l' => if leb x y then x :: y :: l' else y :: insert_sorted x l'
  end.

Fixpoint py_sorted (l : list A) : list A :=
  match l with [] => [] | x :: l' => insert_sorted x (py_sorted l') end.

Lemma insert_sorted_perm x l : insert_sorted x l ≡ₚ x :: l.
Proof.
  induction l as [|y l IH]; simpl; [done|]. destruct (leb x y); [done|].
  rewrite IH. apply Permutation_swap.
Qed.

Lemma py_sorted_perm l : py_sorted l ≡ₚ l.
Proof. induction l as [|x l IH]; simpl; [done|]. by rewrite insert_sorted_perm, IH. Qed.

Lemma py_sorted_length l : length (py_sorted l) = length l.
Proof. by rewrite py_sorted_perm. Qed.

Lemma elem_of_py_sorted x l : x ∈ py_sorted l <-> x ∈ l.
Proof. by rewrite py_sorted_perm. Qed.

  Section total.
    Hypothesis leb_total : forall x y, leb x y = true \/ leb y x = true.
    Hypothesis leb_trans : forall x y z,
      leb x y = true -> leb y z = true -> leb x z = true.

Definition ordered : list A -> Prop := StronglySorted (fun x y => leb x y = true).

Lemma insert_sorted_ordered x l : ordered l -> ordered (insert_sorted x l).
Proof.
  induction l as [|y l IH]; intros Hl; simpl.
  - repeat constructor.
  - inversion Hl as [|? ? Hs Hall]; subst.
    destruct (leb x y) eqn:E.
    + constructor; [done|]. constructor; [done|].
      eapply Forall_impl; [exact Hall|]. eauto.
    + constructor; [by apply IH|].
      assert (leb y x = true) as Hyx by (destruct (leb_total x y); congruence).
      apply Forall_forall. intros z Hz.
      rewrite insert_sorted_perm in Hz. apply elem_of_cons in Hz as [->|Hz]; [done|].
      rewrite Forall_forall in Hall. by apply Hall.
Qed.

Lemma py_sorted_ordered l : ordered (py_sorted l).
Proof. induction l; simpl; [constructor|by apply insert_sorted_ordered]. Qed.
  End total.
End insertion_sort.

(** What a limit leaves out comes after everything it keeps. *)
Lemma sorted_take {A} (R : A -> A -> Prop) n (l : list A) x :
  StronglySorted R l -> x ∈ l -> x ∉ take n l ->
  length (take n l) = n /\ Forall (fun y => R y x) (take n l).
Proof.
  revert n. induction l as [|y l IH]; intros n Hs Hx Hn; [by apply not_elem_of_nil in Hx|].
  destruct n as [|n]; [by split|]. cbn [take] in *. apply not_elem_of_cons in Hn as [Hne Hn].
  apply elem_of_cons in Hx as [->|Hx]; [done|]. inversion Hs as [|? ? Hs' Hall]; subst.
  destruct (IH n Hs' Hx Hn) as [Hlen Hf]. split; [simpl; by rewrite Hlen|].
  constructor; [|done]. rewrite Forall_forall in Hall. by apply Hall.
Qed.

(** Distinct sorted integers are strictly sorted. *)
Lemma sorted_strict (l : list Z) :
  StronglySorted (fun x y => Z.leb x y = true) l -> NoDup l -> StronglySorted Z.lt l.
Proof.
  induction l as [|x l IH]; intros Hle Hnd; [constructor|].
  inversion Hle as [|? ? Hs Hall]; subst. apply NoDup_cons in Hnd as [Hx Hnd].
  constructor; [by apply IH|]. rewrite Forall_forall in *. intros y Hy.
  specialize (Hall y Hy). apply Z.leb_le in Hall.
  destruct (decide (x = y)); [by subst|lia].
Qed.

Lemma strict_nodup (l : list Z) : StronglySorted Z.lt l -> NoDup l.
Proof.
  induction 1 as [|x l Hs IH Hall]; constructor; [|done].
  intros Hx. rewrite Forall_forall in Hall. specialize (Hall x Hx). lia.
Qed.

(** Sorting what is sorted changes nothing. *)
Lemma py_sorted_id {A} (leb : A -> A -> bool) l :
  StronglySorted (fun x y => leb x y = true) l -> py_sorted leb l = l.
Proof.
  induction 1 as [|x l Hs IH Hall]; [done|]. simpl. rewrite IH.
  destruct l as [|y l]; [done|]. simpl. by apply Forall_cons in Hall as [-> _].
Qed.

Lemma remove_dups_nodup {A} `{EqDecision A} (l : list A) :
  length (remove_dups l) = length l <-> NoDup l.
Proof.
  assert (Hle : forall l : list A, length (remove_dups l) <= length l).
  { intros l'. induction l' as [|x l' IH]; [done|]. simpl. case_decide; simpl; lia. }
  induction l as [|x l IH]; simpl; [split; [constructor|done]|].
  rewrite NoDup_cons. case_decide as Hx; simpl.
  - pose proof (Hle l). split; [lia|]. by intros [? _].
  - rewrite <- IH. split; [intros ?; split; [done|lia]|intros [_ ?]; lia].
Qed.

Lemma filter_all {A} (P : A -> Prop) `{!forall x, Decision (P x)} (l : list A) :
  (forall x, x ∈ l -> P x) -> filter P l = l.
Proof.
  induction l as [|x l IH]; intros Hl; [done|]. rewrite filter_cons_True by (apply Hl; by left).
  f_equal. apply IH. intros y Hy. apply Hl. by right.
Qed.

Lemma filter_agree {A} (P Q : A -> Prop) `{!forall x, Decision (P x)} `{!forall x, Decision (Q x)} (l : list A) :
  (forall x, x ∈ l -> P x <-> Q x) -> filter P l = filter Q l.
Proof.
  induction l as [|x l IH]; intros Hl; [done|].
  rewrite !filter_cons, IH by (intros; apply Hl; by right). apply decide_ext, Hl. by left.
Qed.

Lemma filter_nothing {A} (P : A -> Prop) `{!forall x, Decision (P x)} (l : list A) :
  (forall x, x ∈ l -> ~ P x) -> filter P l = [].
Proof.
  induction l as [|x l IH]; intros Hl; [done|].
  rewrite filter_cons_False by (apply Hl; by left). apply IH. intros y Hy. apply Hl. by right.
Qed.

(** [list(dict.fromkeys(l))]: the first occurrences, in order. *)
Fixpoint fromkeys {A} `{EqDecision A} (l : list A) : list A :=
  match l with
  | [] => []
  | x :: l' => x :: filter (fun y => y <> x) (fromkeys l')
  end.

Section fromkeys.
Context {A : Type} `{EqDecision A}.

Lemma elem_of_fromkeys (l : list A) x : x ∈ fromkeys l <-> x ∈ l.
Proof.
  induction l as [|y l IH]; simpl; [done|].
  rewrite !elem_of_cons, list_elem_of_filter, IH. destruct (decide (x = y)); naive_solver.
Qed.

Lemma fromkeys_nodup (l : list A) : NoDup (fromkeys l).
Proof.
  induction l as [|y l IH]; simpl; constructor; [|by apply NoDup_filter].
  rewrite list_elem_of_filter. naive_solver.
Qed.

Lemma fromkeys_id (l : list A) : NoDup l -> fromkeys l = l.
Proof.
  induction 1 as [|x l Hx _ IH]; simpl; [done|]. rewrite IH. f_equal.
  clear IH. induction l as [|y l IH]; [done|].
  rewrite filter_cons_True by (intros ->; apply Hx; by left). f_equal. apply IH.
  intros Hin. apply Hx. by right.
Qed.

Lemma fromkeys_idem (l : list A) : fromkeys (fromkeys l) = fromkeys l.
Proof. apply fromkeys_id, fromkeys_nodup. Qed.

Lemma filter_swap (P Q : A -> Prop) `{!forall x, Decision (P x)} `{!forall x, Decision (Q x)} (l : list A) :
  filter P (filter Q l) = filter Q (filter P l).
Proof.
  rewrite !list_filter_filter. induction l as [|x l IH]; [done|]. rewrite !filter_cons, IH.
  by repeat case_decide; try tauto.
Qed.

Lemma filter_fromkeys (P : A -> Prop) `{!forall x, Decision (P x)} (l : list A) :
  filter P (fromkeys l) = fromkeys (filter P l).
Proof.
  induction l as [|x l IH]; [done|]. simpl. rewrite (filter_cons _ x l). case_decide as Hx.
  - rewrite filter_cons_True by done. simpl. by rewrite filter_swap, IH.
  - rewrite filter_cons_False by done. rewrite filter_swap, IH. apply filter_all.
    intros y Hy%elem_of_fromkeys%list_elem_of_filter ->. tauto.
Qed.

Lemma fromkeys_app_filter (l k : list A) :
  fromkeys (l ++ k) = fromkeys l ++ filter (fun y => y ∉ l) (fromkeys k).
Proof.
  induction l as [|x l IH]; simpl.
  - symmetry. apply filter_all. intros y _. apply not_elem_of_nil.
  - f_equal. rewrite IH, filter_app. f_equal. rewrite list_filter_filter.
    apply list_filter_iff. intros y. rewrite not_elem_of_cons. tauto.
Qed.

(** What comes again changes nothing. *)
Lemma fromkeys_app (l k : list A) : (forall x, x ∈ k -> x ∈ l) -> fromkeys (l ++ k) = fromkeys l.
Proof.
  intros Hk. rewrite fromkeys_app_filter, (filter_nothing _ (fromkeys k)); [apply app_nil_r|].
  intros y Hy Hn. rewrite elem_of_fromkeys in Hy. exact (Hn (Hk y Hy)).
Qed.
End fromkeys.

Lemma Forall_kept {A} (P Q : A -> Prop) `{!forall x, Decision (P x)} (l : list A) :
  Forall Q l -> Forall Q (filter P l).
Proof. rewrite !Forall_forall. intros Hl x [_ Hx]%list_elem_of_filter. by apply Hl. Qed.

(** A sequence in the result monad. *)
Lemma result_bind_ok {A B} (m : result A) (f : A -> result B) b :
  (m ≫= f) = Ok b -> exists a, m = Ok a /\ f a = Ok b.
Proof. destruct m as [a|x]; [by exists a|done]. Qed.

(** A traversal in the result monad. *)
Lemma mapM_ok {A B} (f : A -> result B) l l' :
  mapM f l = Ok l' <-> Forall2 (fun x y => f x = Ok y) l l'.
Proof.
  revert l'. induction l as [|x l IH]; intros l'; cbn [mapM].
  - split; [by intros [= <-]|]. by inversion 1.
  - destruct (f x) as [y|e] eqn:E; cbn [mbind result_bind].
    + destruct (mapM f l) as [r|e] eqn:Er; cbn [mbind result_bind].
      * split; [intros [= <-]; constructor; [done|by apply IH]|].
        inversion 1 as [|? ? ? ? Hy Hl]; subst. rewrite E in Hy. injection Hy as ->.
        apply IH in Hl. by injection Hl as ->.
      * split; [done|]. inversion 1 as [|? ? ? ? Hy Hl]; subst. by apply IH in Hl.
    + split; [done|]. inversion 1; congruence.
Qed.

(** * Automation *)

Create HintDb py discriminated.
#[export] Hint Resolve preserves_ret preserves_raise preserves_gets
  preserves_lift preserves_bind preserves_when preserves_for_each : py.

(** Frame conditions by the structure of a computation; [tac] proves those of its
    primitive steps. *)
Ltac frame_step tac :=
  first
    [ progress intros
    | solve [tac]
    | apply preserves_ret, _ | apply preserves_raise, _ | apply preserves_gets, _
    | apply preserves_get, _ | apply preserves_lift, _
    | apply preserves_bind; [apply _| |intro]
    | apply preserves_when; [apply _|]
    | apply preserves_for_each; [apply _|apply _|intro]
    | apply preserves_catch; [apply _| |intro]
    | match goal with |- preserves _ (match ?x with _ => _ end) => destruct x end ].
Ltac frame_by tac := repeat frame_step tac.

(** Unfold the monad's operations in a goal or hypothesis. *)
Ltac unfold_monad :=
  unfold bind, ret, raise, get, gets, modify, lift_result, when_ in *.

(** Split a boolean conjunction or negation in the hypotheses. *)
Ltac bool_simpl :=
  repeat match goal with
  | H : _ && _ = true |- _ => apply andb_true_iff in H as [? ?]
  | H : _ || _ = false |- _ => apply orb_false_iff in H as [? ?]
  | H : negb _ = true |- _ => apply negb_true_iff in H
  | H : negb _ = false |- _ => apply negb_false_iff in H
  | H : String.eqb _ _ = true |- _ => apply String.eqb_eq in H
  | H : String.eqb _ _ = false |- _ => apply String.eqb_neq in H
  | H : Z.eqb _ _ = true |- _ => apply Z.eqb_eq in H
  | H : Z.eqb _ _ = false |- _ => apply Z.eqb_neq in H
  | H : Z.leb _ _ = true |- _ => apply Z.leb_le in H
  | H : Z.leb _ _ = false |- _ => apply Z.leb_gt in H
  | H : Z.ltb _ _ = true |- _ => apply Z.ltb_lt in H
  | H : Z.ltb _ _ = false |- _ => apply Z.ltb_ge in H
  | H : bool_decide _ = true |- _ => apply bool_decide_eq_true in H
  | H : bool_decide _ = false |- _ => apply bool_decide_eq_false in H
  end.

(** Finish a goal about closed data by computation. *)
Ltac by_compute := vm_compute; reflexivity.
