(* ===== verification/PyStr.v ===== *)
(** The part of Python's [str] the modelled code uses.  A string is a sequence
    of code points below 256 (one [ascii] each); code points above are outside
    the model.  [strip], [lower], [split], [int(..)] and [repr] follow CPython on
    that range. *)
From Stdlib Require Import Ascii DecimalString DecimalZ.
From S2P Require Import Prelude.
Open Scope string_scope.
Open Scope bool_scope.
Open Scope list_scope.

(** [str.isspace] on one code point: tab to carriage return, the four
    separators 0x1c-0x1f, the space, NEL and the no-break space. *)
Definition is_space (a : ascii) : bool :=
  let n := N_of_ascii a in
  (N.leb 9 n && N.leb n 13) || (N.leb 28 n && N.leb n 32)
  || N.eqb n 133 || N.eqb n 160.

(** [str.lower] on one code point: A-Z and the Latin-1 capitals. *)
Definition lower_ascii (a : ascii) : ascii :=
  let n := N_of_ascii a in
  if (N.leb 65 n && N.leb n 90)
     || (N.leb 192 n && N.leb n 222 && negb (N.eqb n 215))
  then ascii_of_N (n + 32) else a.

Definition is_digit (a : ascii) : bool :=
  let n := N_of_ascii a in N.leb 48 n && N.leb n 57.

Fixpoint lower (s : string) : string :=
  match s with
  | EmptyString => EmptyString
  | String a s' => String (lower_ascii a) (lower s')
  end.

Fixpoint lstrip (s : string) : string :=
  match s with
  | EmptyString => EmptyString
  | String a s' => if is_space a then lstrip s' else s
  end.

Fixpoint rstrip (s : string) : string :=
  match s with
  | EmptyString => EmptyString
  | String a s' =>
      let r := rstrip s' in
      if String.eqb r "" && is_space a then "" else String a r
  end.

Definition strip (s : string) : string := rstrip (lstrip s).

Definition newline : string := String (ascii_of_N 10) "".

(** [s.startswith(p)], [s[len(p):]] and [s.removeprefix(p)]. *)
Definition startswith (p s : string) : bool := String.prefix p s.

(** [s.endswith(p)]. *)
Fixpoint endswith (p s : string) : bool :=
  String.eqb s p || match s with String _ s' => endswith p s' | EmptyString => false end.

Fixpoint str_drop (n : nat) (s : string) : string :=
  match n, s with
  | O, _ => s
  | _, EmptyString => EmptyString
  | Datatypes.S n', String _ s' => str_drop n' s'
  end.

Fixpoint str_take (n : nat) (s : string) : string :=
  match n, s with
  | O, _ => EmptyString
  | _, EmptyString => EmptyString
  | Datatypes.S n', String a s' => String a (str_take n' s')
  end.

Definition removeprefix (p s : string) : string :=
  if startswith p s then str_drop (String.length p) s else s.

(** [s.splitlines()]: the line boundaries below 256; a carriage return and a line
    feed after it are one. *)
Definition is_line_break (a : ascii) : bool :=
  let n := N_of_ascii a in (N.leb 10 n && N.leb n 13) || (N.leb 28 n && N.leb n 30) || N.eqb n 133.

Fixpoint splitlines_acc (cur s : string) : list string :=
  match s with
  | EmptyString => if String.eqb cur "" then [] else [cur]
  | String a s' =>
      if negb (is_line_break a) then splitlines_acc (cur +:+ String a "") s'
      else
        match s' with
        | String b s'' =>
            if N.eqb (N_of_ascii a) 13 && N.eqb (N_of_ascii b) 10
            then cur :: splitlines_acc "" s''
            else cur :: splitlines_acc "" s'
        | EmptyString => [cur]
        end
  end.

Definition splitlines (s : string) : list string := splitlines_acc "" s.

(** [s.replace(c, t)] on a one-character [c]. *)
Fixpoint replace_char (c : ascii) (t s : string) : string :=
  match s with
  | EmptyString => ""
  | String a s' => if Ascii.eqb a c then t +:+ replace_char c t s' else String a (replace_char c t s')
  end.

(** [sub in s]. *)
Fixpoint str_contains (sub s : string) : bool :=
  startswith sub s ||
  match s with EmptyString => false | String _ s' => str_contains sub s' end.

(** [s.split()]: maximal runs of non-space characters. *)
Fixpoint split_acc (cur : string) (s : string) : list string :=
  match s with
  | EmptyString => if String.eqb cur "" then [] else [cur]
  | String a s' =>
      if is_space a
      then if String.eqb cur "" then split_acc "" s' else cur :: split_acc "" s'
      else split_acc (cur +:+ String a "") s'
  end.
Definition split_ws (s : string) : list string := split_acc "" s.

(** [sep.join(l)]. *)
Fixpoint join (sep : string) (l : list string) : string :=
  match l with
  | [] => ""
  | [x] => x
  | x :: l' => x +:+ sep +:+ join sep l'
  end.

(** [" ".join(s.split())]. *)
Definition squeeze (s : string) : string := join " " (split_ws s).

(** [str(z)] and [f"{z}"] for an integer. *)
Definition str_of_Z (z : Z) : string := NilZero.string_of_int (Z.to_int z).

(** [int(s)]: surrounding space, a sign, digits with single underscores. *)
Fixpoint digits_acc (acc : Z) (prev_digit : bool) (s : string) : option Z :=
  match s with
  | EmptyString => if prev_digit then Some acc else None
  | String a s' =>
      if is_digit a
      then digits_acc (10 * acc + (Z.of_N (N_of_ascii a) - 48)) true s'
      else if Ascii.eqb a "_" && prev_digit then digits_acc acc false s' else None
  end.

Definition int_of_str (s : string) : option Z :=
  match strip s with
  | String "-" s' => Z.opp <$> digits_acc 0 false s'
  | String "+" s' => digits_acc 0 false s'
  | s' => digits_acc 0 false s'
  end.

(** Order on strings: by code point, as [sorted] compares them. *)
Definition str_leb (s t : string) : bool := String.leb s t.

(** ** Lemmas *)

Lemma lower_ascii_idem a : lower_ascii (lower_ascii a) = lower_ascii a.
Proof. destruct a as [[] [] [] [] [] [] [] []]; reflexivity. Qed.

Lemma lower_idem s : lower (lower s) = lower s.
Proof. induction s as [|a s IH]; simpl; [done|]. by rewrite lower_ascii_idem, IH. Qed.

Lemma is_space_lower a : is_space (lower_ascii a) = is_space a.
Proof. destruct a as [[] [] [] [] [] [] [] []]; reflexivity. Qed.

Lemma lower_empty s : lower s = "" <-> s = "".
Proof. by destruct s. Qed.

Lemma lstrip_lower s : lstrip (lower s) = lower (lstrip s).
Proof. induction s as [|a s IH]; simpl; [done|]. rewrite is_space_lower. by destruct (is_space a). Qed.

Lemma rstrip_lower s : rstrip (lower s) = lower (rstrip s).
Proof.
  induction s as [|a s IH]; simpl; [done|]. rewrite IH, is_space_lower.
  destruct (rstrip s); simpl; [|done]. by destruct (is_space a).
Qed.

Lemma strip_lower s : strip (lower s) = lower (strip s).
Proof. unfold strip. by rewrite lstrip_lower, rstrip_lower. Qed.

Lemma rstrip_idem s : rstrip (rstrip s) = rstrip s.
Proof.
  induction s as [|a s IH]; simpl; [done|].
  destruct (String.eqb (rstrip s) "" && is_space a) eqn:E; [done|].
  simpl. by rewrite IH, E.
Qed.

Lemma lstrip_rstrip s : lstrip s = s -> lstrip (rstrip s) = rstrip s.
Proof.
  destruct s as [|a s]; simpl; [done|]. destruct (is_space a) eqn:E.
  - intros H. exfalso. assert (Hle : forall t, String.length (lstrip t) <= String.length t).
    { induction t as [|b t IHt]; simpl; [lia|]. destruct (is_space b); simpl; lia. }
    specialize (Hle s). rewrite H in Hle. simpl in Hle. lia.
  - intros _. rewrite andb_false_r. simpl. by rewrite E.
Qed.

Lemma lstrip_idem s : lstrip (lstrip s) = lstrip s.
Proof. induction s as [|a s IH]; simpl; [done|]. destruct (is_space a) eqn:E; [done|]. simpl. by rewrite E. Qed.

Lemma strip_idem s : strip (strip s) = strip s.
Proof. unfold strip. rewrite lstrip_rstrip by apply lstrip_idem. apply rstrip_idem. Qed.

Lemma str_take_length n s : String.length (str_take n s) <= n.
Proof. revert s. induction n as [|n IH]; intros [|a s]; cbn; try lia. specialize (IH s). lia. Qed.

Lemma str_take_drop n s : str_take n s +:+ str_drop n s = s.
Proof. revert s. induction n as [|n IH]; intros [|a s]; try done.
  change (String a (str_take n s +:+ str_drop n s) = String a s). by rewrite IH. Qed.

Lemma str_drop_shorter n a s : String.length (str_drop (S n) (String a s)) <= String.length s.
Proof. cbn. revert s. induction n as [|n IH]; intros [|b s]; cbn; try lia. specialize (IH s). lia. Qed.

(** Surrounding white space does not change a stripped string. *)
Definition all_space (s : string) : Prop := lstrip s = "".

Lemma lstrip_app_space w s : all_space w -> lstrip (w +:+ s) = lstrip s.
Proof.
  unfold all_space. induction w as [|a w IH]; simpl; [done|].
  destruct (is_space a); [done|discriminate].
Qed.

Lemma rstrip_all_space w : all_space w -> rstrip w = "".
Proof.
  unfold all_space. induction w as [|a w IH]; simpl; [done|].
  destruct (is_space a) eqn:E; [|discriminate]. intros H. by rewrite IH.
Qed.

Lemma rstrip_app_space s w : all_space w -> rstrip (s +:+ w) = rstrip s.
Proof.
  intros Hw. induction s as [|a s IH]; simpl; [by apply rstrip_all_space|].
  by rewrite IH.
Qed.

Lemma strip_pad w1 s w2 :
  all_space w1 -> all_space w2 -> lstrip s = s -> s <> "" ->
  strip (w1 +:+ s +:+ w2) = strip s.
Proof.
  intros H1 H2 Hs Hne. unfold strip. rewrite lstrip_app_space by done.
  destruct s as [|a s]; [done|]. simpl in *. destruct (is_space a) eqn:E.
  - exfalso. assert (Hle : forall t, String.length (lstrip t) <= String.length t).
    { induction t as [|b t IHt]; simpl; [lia|]. destruct (is_space b); simpl; lia. }
    specialize (Hle s). rewrite Hs in Hle. simpl in Hle. lia.
  - change (String a (s +:+ w2)) with (String a s +:+ w2).
    by rewrite rstrip_app_space by done.
Qed.

Lemma str_of_Z_inj z1 z2 : str_of_Z z1 = str_of_Z z2 -> z1 = z2.
Proof.
  intros H. apply (f_equal NilZero.int_of_string) in H. unfold str_of_Z in H.
  assert (Hn : forall z, Z.to_int z <> Decimal.Pos Decimal.Nil /\ Z.to_int z <> Decimal.Neg Decimal.Nil).
  { intros z. pose proof (DecimalZ.of_to z) as Hz. split; intros E; rewrite E in Hz;
      simpl in Hz; subst z; discriminate. }
  rewrite !NilZero.isi in H by apply Hn. injection H as H.
  rewrite <- (DecimalZ.of_to z1), <- (DecimalZ.of_to z2). by rewrite H.
Qed.

Create Rewrite HintDb py_str.
#[export] Hint Rewrite lower_idem strip_lower strip_idem lower_empty : py_str.
