(* ===== verification/Json.v ===== *)
(** JSON values as the code handles them after [json.loads] or from a JSONB
    column, with the Python operations applied to them: dictionary access and
    update, truthiness, [==], [str], [int] and [isinstance].  Dictionaries are
    association lists in insertion order whose keys are distinct ([jwf]).
    Floats are not modelled. *)
From Stdlib Require Import Ascii.
From S2P Require Import Prelude.
From S2P Require Import PyStr.
Open Scope string_scope.
Open Scope bool_scope.
Open Scope list_scope.

Inductive json : Type :=
| JNull
| JBool (b : bool)
| JInt (z : Z)
| JStr (s : string)
| JList (l : list json)
| JObj (kvs : list (string * json)).

Abbreviation dict := (list (string * json)).

(** ** Dictionaries *)

Fixpoint jget (k : string) (d : dict) : option json :=
  match d with
  | [] => None
  | (k', v) :: d' => if String.eqb k k' then Some v else jget k d'
  end.

(** [d[k] = v]: an existing key keeps its position. *)
Fixpoint jset (k : string) (v : json) (d : dict) : dict :=
  match d with
  | [] => [(k, v)]
  | (k', v') :: d' => if String.eqb k k' then (k, v) :: d' else (k', v') :: jset k v d'
  end.

(** [d.pop(k, None)]. *)
Fixpoint jpop (k : string) (d : dict) : dict :=
  match d with
  | [] => []
  | (k', v') :: d' => if String.eqb k k' then d' else (k', v') :: jpop k d'
  end.

(** [d.update(p)]. *)
Definition jupdate (d p : dict) : dict :=
  fold_left (fun acc kv => jset kv.1 kv.2 acc) p d.

Definition jhas (k : string) (d : dict) : bool :=
  match jget k d with Some _ => true | None => false end.

(** [d.get(k)], with [None] for an absent key. *)
Definition jget_or_null (k : string) (d : dict) : json := default JNull (jget k d).

(** [x if isinstance(x, dict) else {}]. *)
Definition as_dict (j : json) : dict := match j with JObj d => d | _ => [] end.

(** ** Truthiness, [str], [int] *)

Definition truthy (j : json) : bool :=
  match j with
  | JNull => false
  | JBool b => b
  | JInt z => negb (Z.eqb z 0)
  | JStr s => negb (String.eqb s "")
  | JList l => negb (Nat.eqb (length l) 0)
  | JObj d => negb (Nat.eqb (length d) 0)
  end.

(** [x or y]. *)
Definition jor (x y : json) : json := if truthy x then x else y.

Definition hex_digit (n : N) : string :=
  match String.get (N.to_nat n) "0123456789abcdef" with
  | Some a => String a ""
  | None => ""
  end.

(** [repr] of a string: quoted, with the escapes CPython writes. *)
Definition repr_char (quote : ascii) (a : ascii) : string :=
  let n := N_of_ascii a in
  if Ascii.eqb a quote || Ascii.eqb a "\" then String "\" (String a "")
  else if N.eqb n 10 then "\n"
  else if N.eqb n 13 then "\r"
  else if N.eqb n 9 then "\t"
  else if N.ltb n 32 || (N.leb 127 n && N.leb n 160) || N.eqb n 173
  then "\x" +:+ hex_digit (n / 16) +:+ hex_digit (n mod 16)
  else String a "".

Fixpoint str_has (a : ascii) (s : string) : bool :=
  match s with
  | EmptyString => false
  | String b s' => Ascii.eqb a b || str_has a s'
  end.

Fixpoint repr_body (quote : ascii) (s : string) : string :=
  match s with
  | EmptyString => ""
  | String a s' => repr_char quote a +:+ repr_body quote s'
  end.

Definition single_quote : ascii := "'".
Definition double_quote : ascii := ascii_of_N 34.

Definition repr_str (s : string) : string :=
  let q := if str_has single_quote s && negb (str_has double_quote s)
           then double_quote else single_quote in
  String q (repr_body q s +:+ String q "").

Fixpoint repr (j : json) : string :=
  match j with
  | JNull => "None"
  | JBool b => if b then "True" else "False"
  | JInt z => str_of_Z z
  | JStr s => repr_str s
  | JList l =>
      "[" +:+ join ", " ((fix go l := match l with [] => [] | x :: l' => repr x :: go l' end) l)
      +:+ "]"
  | JObj d =>
      "{" +:+ join ", " ((fix go d := match d with
        | [] => []
        | (k, v) :: d' => (repr_str k +:+ ": " +:+ repr v) :: go d'
        end) d) +:+ "}"
  end.

Definition py_str (j : json) : string :=
  match j with JStr s => s | _ => repr j end.

(** [str(x or "")]. *)
Definition str_or_empty (j : json) : string := if truthy j then py_str j else "".

(** [int(x)]; [None] stands for the [TypeError] or [ValueError]. *)
Definition py_int (j : json) : option Z :=
  match j with
  | JInt z => Some z
  | JBool b => Some (if b then 1%Z else 0%Z)
  | JStr s => int_of_str s
  | _ => None
  end.

(** [isinstance(x, int) and not isinstance(x, bool)]. *)
Definition strict_int (j : json) : option Z :=
  match j with JInt z => Some z | _ => None end.

Definition is_obj (j : json) : bool := match j with JObj _ => true | _ => false end.
Definition is_list (j : json) : bool := match j with JList _ => true | _ => false end.
Definition is_string (j : json) : bool := match j with JStr _ => true | _ => false end.
Definition is_bool (j : json) : bool := match j with JBool _ => true | _ => false end.

(** ** Equality

    Python's [==]: [True == 1], and dictionaries compare without order. *)
Fixpoint py_eqb (a b : json) : bool :=
  match a, b with
  | JNull, JNull => true
  | JBool x, JBool y => Bool.eqb x y
  | JBool x, JInt y | JInt y, JBool x => Z.eqb y (if x then 1 else 0)
  | JInt x, JInt y => Z.eqb x y
  | JStr x, JStr y => String.eqb x y
  | JList x, JList y =>
      (fix go x y := match x, y with
       | [], [] => true
       | u :: x', v :: y' => py_eqb u v && go x' y'
       | _, _ => false
       end) x y
  | JObj x, JObj y =>
      Nat.eqb (length x) (length y) &&
      (fix go x := match x with
       | [] => true
       | (k, u) :: x' =>
           match jget k y with Some v => py_eqb u v | None => false end && go x'
       end) x
  | _, _ => false
  end.

(** [x in l]. *)
Definition py_in (x : json) (l : list json) : bool := existsb (py_eqb x) l.

(** ** Well-formed values: distinct keys at every level *)
Fixpoint jwf (j : json) : Prop :=
  match j with
  | JList l => (fix go l := match l with [] => True | x :: l' => jwf x /\ go l' end) l
  | JObj d => NoDup (d.*1) /\
      (fix go d := match d with [] => True | (_, v) :: d' => jwf v /\ go d' end) d
  | _ => True
  end.

Section json_ind'.
Variable P : json -> Prop.
Hypothesis Hnull : P JNull.
Hypothesis Hbool : forall b, P (JBool b).
Hypothesis Hint : forall z, P (JInt z).
Hypothesis Hstr : forall s, P (JStr s).
Hypothesis Hlist : forall l, Forall P l -> P (JList l).
Hypothesis Hobj : forall d, Forall (fun kv => P kv.2) d -> P (JObj d).

Fixpoint json_ind' (j : json) : P j :=
  match j with
  | JNull => Hnull
  | JBool b => Hbool b
  | JInt z => Hint z
  | JStr s => Hstr s
  | JList l => Hlist l ((fix go l : Forall P l :=
      match l with
      | [] => List.Forall_nil _
      | x :: l' => @List.Forall_cons _ P x l' (json_ind' x) (go l')
      end) l)
  | JObj d => Hobj d ((fix go d : Forall (fun kv => P kv.2) d :=
      match d with
      | [] => List.Forall_nil _
      | kv :: d' => @List.Forall_cons _ (fun kv => P kv.2) kv d' (json_ind' kv.2) (go d')
      end) d)
  end.
End json_ind'.

(** ** Lemmas on dictionaries *)

Lemma jget_jset_eq k v d : jget k (jset k v d) = Some v.
Proof.
  induction d as [|[k' v'] d IH]; simpl; [by rewrite String.eqb_refl|].
  destruct (String.eqb k k') eqn:E; simpl; [by rewrite String.eqb_refl|]. by rewrite E.
Qed.

Lemma jget_jset_ne k k' v d : k <> k' -> jget k (jset k' v d) = jget k d.
Proof.
  intros Hne. induction d as [|[k1 v1] d IH]; simpl.
  - by rewrite (proj2 (String.eqb_neq k k') Hne).
  - destruct (String.eqb k' k1) eqn:E; simpl.
    + apply String.eqb_eq in E as <-. by rewrite (proj2 (String.eqb_neq k k') Hne).
    + by rewrite IH.
Qed.

Lemma jget_jset k k' v d :
  jget k (jset k' v d) = if String.eqb k k' then Some v else jget k d.
Proof.
  destruct (String.eqb k k') eqn:E.
  - apply String.eqb_eq in E as ->. apply jget_jset_eq.
  - apply jget_jset_ne. by apply String.eqb_neq.
Qed.

Lemma jget_jpop_ne k k' d : k <> k' -> jget k (jpop k' d) = jget k d.
Proof.
  intros Hne. induction d as [|[k1 v1] d IH]; simpl; [done|].
  destruct (String.eqb k' k1) eqn:E; simpl.
  - apply String.eqb_eq in E as <-. by rewrite (proj2 (String.eqb_neq k k') Hne).
  - by rewrite IH.
Qed.

Lemma jget_jupdate k p : forall d,
  jget k (jupdate d p) =
  match jget k (rev p) with Some v => Some v | None => jget k d end.
Proof.
  unfold jupdate. induction p as [|[k1 v1] p IH]; intros d; simpl; [done|].
  rewrite IH.
  assert (Happ : forall d1 d2, jget k (d1 ++ d2) =
    match jget k d1 with Some v => Some v | None => jget k d2 end).
  { induction d1 as [|[k2 v2] d1 IHd]; intros d2; simpl; [done|].
    by destruct (String.eqb k k2). }
  rewrite Happ. destruct (jget k (rev p)); [done|]. simpl. rewrite jget_jset.
  by destruct (String.eqb k k1).
Qed.

Lemma jget_elem k v d : jget k d = Some v -> (k, v) ∈ d.
Proof.
  induction d as [|[k1 v1] d IH]; simpl; [done|].
  destruct (String.eqb k k1) eqn:E; intros H.
  - apply String.eqb_eq in E as ->. injection H as ->. apply list_elem_of_here.
  - apply list_elem_of_further. auto.
Qed.

Lemma jget_nodup k v d : NoDup (d.*1) -> (k, v) ∈ d -> jget k d = Some v.
Proof.
  induction d as [|[k1 v1] d IH]; simpl; intros Hnd Hin; [by apply not_elem_of_nil in Hin|].
  apply NoDup_cons in Hnd as [Hk Hnd]. apply elem_of_cons in Hin as [[= -> ->]|Hin].
  - by rewrite String.eqb_refl.
  - destruct (String.eqb k k1) eqn:E; [|auto].
    apply String.eqb_eq in E as ->. exfalso. apply Hk.
    apply list_elem_of_fmap. by exists (k1, v).
Qed.

Lemma py_eqb_refl j : jwf j -> py_eqb j j = true.
Proof.
  induction j as [|b|z|s|l IH|d IH] using json_ind'; simpl; intros Hwf.
  - done.
  - by destruct b.
  - apply Z.eqb_refl.
  - apply String.eqb_refl.
  - induction IH as [|x l Hx Hl IHl]; [done|]. destruct Hwf as [H1 H2].
    by rewrite Hx, IHl.
  - destruct Hwf as [Hnd Hwf]. rewrite Nat.eqb_refl. simpl.
    assert (Hsub : forall kv, kv ∈ d -> jget kv.1 d = Some kv.2).
    { intros [k v] Hin. by apply jget_nodup. }
    clear Hnd. revert Hsub Hwf. generalize d at 2 4 as d0.
    induction IH as [|[k v] d Hv Hd IHd]; intros d0 Hsub Hwf; [done|].
    destruct Hwf as [H1 H2]. pose proof (Hsub (k, v) (list_elem_of_here _ _)) as Hk.
    simpl in *. rewrite Hk, Hv by done. simpl. apply IHd; [|done].
    intros kv Hin. apply Hsub. by apply list_elem_of_further.
Qed.

(** Equal dictionaries agree on every key. *)
Lemma py_eqb_obj_get k x y u :
  py_eqb (JObj x) (JObj y) = true -> jget k x = Some u ->
  exists v, jget k y = Some v /\ py_eqb u v = true.
Proof.
  simpl. intros [_ H]%andb_true_iff. induction x as [|[k' u'] x IH]; simpl in *; [done|].
  apply andb_true_iff in H as [H1 H2]. destruct (String.eqb k k') eqn:E; [|by apply IH].
  apply String.eqb_eq in E. subst. intros [= ->]. destruct (jget k' y) as [v|]; [by eauto|done].
Qed.

Lemma py_eqb_int z v : py_eqb (JInt z) v = true -> py_int v = Some z.
Proof.
  destruct v; simpl; try done; [by intros ->%Z.eqb_eq|by intros ->%Z.eqb_eq].
Qed.

Lemma jor_falsy x y : truthy x = false -> jor x y = y.
Proof. intros H. unfold jor. by rewrite H. Qed.

Create Rewrite HintDb py_json.
#[export] Hint Rewrite jget_jset_eq jget_jset : py_json.
