(* ===== verification/JsonText.v ===== *)
(** JSON text: [json.dumps] with its separators and [sort_keys], and
    [json.loads], on the values of [Json.v], with their round trip.

    Strings are sequences of code points below 256; a number with a fraction or
    an exponent, and an escape of a code point above 255, are outside the model
    and read as errors. *)
From Stdlib Require Import Ascii DecimalString DecimalZ.
From S2P Require Import Prelude.
From S2P Require Import PyStr.
From S2P Require Import Json.
Open Scope string_scope.
Open Scope bool_scope.
Open Scope list_scope.

Definition code (a : ascii) : N := N_of_ascii a.

(** * Writing *)

(** [ESCAPE_ASCII]: everything outside the printable ASCII range is escaped. *)
Definition escape_char (a : ascii) : string :=
  if N.eqb (code a) 34 then String "\" (String double_quote "")
  else if N.eqb (code a) 92 then "\\"
  else if N.eqb (code a) 10 then "\n"
  else if N.eqb (code a) 13 then "\r"
  else if N.eqb (code a) 9 then "\t"
  else if N.eqb (code a) 8 then "\b"
  else if N.eqb (code a) 12 then "\f"
  else if N.ltb (code a) 32 || N.ltb 126 (code a)
  then "\u00" +:+ hex_digit (code a / 16) +:+ hex_digit (code a mod 16)
  else String a "".

Fixpoint escape (s : string) : string :=
  match s with
  | "" => ""
  | String a s' => escape_char a +:+ escape s'
  end.

Definition quote (s : string) : string :=
  String double_quote (escape s +:+ String double_quote "").

Section dumps.
Variables item_sep key_sep : string.

Fixpoint dumps (j : json) : string :=
  match j with
  | JNull => "null"
  | JBool true => "true"
  | JBool false => "false"
  | JInt z => str_of_Z z
  | JStr s => quote s
  | JList l => "[" +:+
      (fix go l := match l with
       | [] => ""
       | [x] => dumps x
       | x :: l' => dumps x +:+ item_sep +:+ go l'
       end) l +:+ "]"
  | JObj d => "{" +:+
      (fix go d := match d with
       | [] => ""
       | [(k, v)] => quote k +:+ key_sep +:+ dumps v
       | (k, v) :: d' => quote k +:+ key_sep +:+ dumps v +:+ item_sep +:+ go d'
       end) d +:+ "}"
  end.

Definition dumps_list (l : list json) : string := join item_sep (dumps <$> l).
Definition dumps_dict (d : dict) : string :=
  join item_sep ((fun kv => quote kv.1 +:+ key_sep +:+ dumps kv.2) <$> d).
End dumps.

(** [sort_keys=True] sorts the keys of every dictionary. *)
Definition key_leb (a b : string * json) : bool := str_leb a.1 b.1.
Fixpoint sort_keys (j : json) : json :=
  match j with
  | JList l => JList ((fix go l := match l with [] => [] | x :: l' => sort_keys x :: go l' end) l)
  | JObj d => JObj (py_sorted key_leb
      ((fix go d := match d with [] => [] | (k, v) :: d' => (k, sort_keys v) :: go d' end) d))
  | _ => j
  end.

(** * Reading *)

Definition is_ws (a : ascii) : bool :=
  N.eqb (code a) 32 || N.eqb (code a) 9 || N.eqb (code a) 10 || N.eqb (code a) 13.

Fixpoint skip_ws (s : string) : string :=
  match s with
  | String a s' => if is_ws a then skip_ws s' else s
  | "" => ""
  end.

Fixpoint span (f : ascii -> bool) (s : string) : string * string :=
  match s with
  | String a s' => if f a then let '(t, r) := span f s' in (String a t, r) else ("", s)
  | "" => ("", "")
  end.

Definition hex_value (a : ascii) : option N :=
  let n := code a in
  if N.leb 48 n && N.leb n 57 then Some (n - 48)%N
  else if N.leb 97 n && N.leb n 102 then Some (n - 87)%N
  else if N.leb 65 n && N.leb n 70 then Some (n - 55)%N
  else None.

(** The body of a string after its opening quote, in strict mode. *)
Fixpoint scan_string (s : string) : option (string * string) :=
  match s with
  | "" => None
  | String a s1 =>
      if N.eqb (code a) 34 then Some ("", s1)
      else if N.eqb (code a) 92 then
        match s1 with
        | "" => None
        | String e s2 =>
            let put c := match scan_string s2 with
                         | Some (t, r) => Some (String c t, r)
                         | None => None
                         end in
            let n := code e in
            if N.eqb n 34 || N.eqb n 92 || N.eqb n 47 then put e
            else if N.eqb n 98 then put (ascii_of_N 8)
            else if N.eqb n 102 then put (ascii_of_N 12)
            else if N.eqb n 110 then put (ascii_of_N 10)
            else if N.eqb n 114 then put (ascii_of_N 13)
            else if N.eqb n 116 then put (ascii_of_N 9)
            else if N.eqb n 117 then
              match s2 with
              | String h1 (String h2 (String h3 (String h4 s3))) =>
                  match hex_value h1, hex_value h2, hex_value h3, hex_value h4 with
                  | Some 0%N, Some 0%N, Some x, Some y =>
                      match scan_string s3 with
                      | Some (t, r) => Some (String (ascii_of_N (16 * x + y)) t, r)
                      | None => None
                      end
                  | _, _, _, _ => None
                  end
              | _ => None
              end
            else None
        end
      else if N.ltb (code a) 32 then None
      else match scan_string s1 with
           | Some (t, r) => Some (String a t, r)
           | None => None
           end
  end.

Definition is_num_char (a : ascii) : bool := is_digit a || N.eqb (code a) 45.

(** An optional minus sign and a decimal number without leading zeros. *)
Definition number_of (t : string) : option Z :=
  match NilZero.int_of_string t with
  | Some i => let z := Z.of_int i in
              if String.eqb t (str_of_Z z) || String.eqb t "-0" then Some z else None
  | None => None
  end.

Definition scan_number (s : string) : option (json * string) :=
  let '(t, r) := span is_num_char s in
  match r with
  | String a _ => if N.eqb (code a) 46 || N.eqb (code a) 101 || N.eqb (code a) 69 then None
                  else match number_of t with Some z => Some (JInt z, r) | None => None end
  | "" => match number_of t with Some z => Some (JInt z, r) | None => None end
  end.

Definition bracket (a : ascii) (n : N) : bool := N.eqb (code a) n.

(** A value; the fuel bounds the nesting and the number of items. *)
Fixpoint parse_value (fuel : nat) (s : string) : option (json * string) :=
  match fuel with
  | O => None
  | Datatypes.S fuel' =>
      match s with
      | "" => None
      | String a s1 =>
          if bracket a 34 then
            match scan_string s1 with Some (t, r) => Some (JStr t, r) | None => None end
          else if bracket a 91 then
            match skip_ws s1 with
            | String b r => if bracket b 93 then Some (JList [], r)
                            else parse_items fuel' (skip_ws s1)
            | "" => None
            end
          else if bracket a 123 then
            match skip_ws s1 with
            | String b r => if bracket b 125 then Some (JObj [], r)
                            else match parse_pairs fuel' [] (skip_ws s1) with
                                 | Some (d, r) => Some (JObj d, r)
                                 | None => None
                                 end
            | "" => None
            end
          else if startswith "null" s then Some (JNull, removeprefix "null" s)
          else if startswith "true" s then Some (JBool true, removeprefix "true" s)
          else if startswith "false" s then Some (JBool false, removeprefix "false" s)
          else scan_number s
      end
  end
with parse_items (fuel : nat) (s : string) : option (json * string) :=
  match fuel with
  | O => None
  | Datatypes.S fuel' =>
      match parse_value fuel' s with
      | None => None
      | Some (x, r) =>
          match skip_ws r with
          | String b r' =>
              if bracket b 93 then Some (JList [x], r')
              else if bracket b 44 then
                match parse_items fuel' (skip_ws r') with
                | Some (JList l, r'') => Some (JList (x :: l), r'')
                | _ => None
                end
              else None
          | "" => None
          end
      end
  end
with parse_pairs (fuel : nat) (acc : dict) (s : string) : option (dict * string) :=
  match fuel with
  | O => None
  | Datatypes.S fuel' =>
      match s with
      | String a s1 =>
          if bracket a 34 then
            match scan_string s1 with
            | None => None
            | Some (k, r) =>
                match skip_ws r with
                | String c r1 =>
                    if bracket c 58 then
                      match parse_value fuel' (skip_ws r1) with
                      | None => None
                      | Some (v, r2) =>
                          match skip_ws r2 with
                          | String b r3 =>
                              if bracket b 125 then Some (jset k v acc, r3)
                              else if bracket b 44 then parse_pairs fuel' (jset k v acc) (skip_ws r3)
                              else None
                          | "" => None
                          end
                      end
                    else None
                | "" => None
                end
            end
          else None
      | "" => None
      end
  end.

(** [json.loads]; [None] stands for [JSONDecodeError].  Every call of the parser
    consumes a character or ends, so twice the length of the text is enough. *)
Definition loads (s : string) : option json :=
  let s := skip_ws s in
  match parse_value (2 * String.length s + 2) s with
  | Some (j, r) => if String.eqb (skip_ws r) "" then Some j else None
  | None => None
  end.


(** * Round trip *)

#[local] Arguments String.append !_ _ /.

Lemma str_app_assoc a b c : (a +:+ b) +:+ c = a +:+ (b +:+ c).
Proof. induction a; simpl; congruence. Qed.
Lemma str_app_nil a : a +:+ "" = a.
Proof. induction a; simpl; congruence. Qed.

(** Decide a statement about one character by going through all of them. *)
Ltac each_char a := destruct a as [[] [] [] [] [] [] [] []].

Lemma code_inj a n : code a = n -> a = ascii_of_N n.
Proof. intros <-. symmetry. apply ascii_N_embedding. Qed.

Lemma hex_digit_value n : (n < 16)%N -> exists h, hex_digit n = String h "" /\ hex_value h = Some n.
Proof.
  intros Hn. assert (Hc : In n (List.map N.of_nat (List.seq 0 16))).
  { apply in_map_iff. exists (N.to_nat n). split; [lia|]. apply in_seq. lia. }
  simpl in Hc. intuition (subst; eexists; split; reflexivity).
Qed.

Lemma scan_hex h1 h2 x y s t r :
  hex_value h1 = Some x -> hex_value h2 = Some y -> scan_string s = Some (t, r) ->
  scan_string ("\u00" +:+ String h1 (String h2 s)) =
  Some (String (ascii_of_N (16 * x + y)) t, r).
Proof. intros H1 H2 Hs. simpl. by rewrite H1, H2, Hs. Qed.

Lemma scan_escape_char a s t r :
  scan_string s = Some (t, r) -> scan_string (escape_char a +:+ s) = Some (String a t, r).
Proof.
  intros Hs. unfold escape_char.
  repeat match goal with
  | |- context [if N.eqb (code a) ?n then _ else _] =>
      destruct (N.eqb (code a) n) eqn:?;
      [match goal with H : N.eqb (code a) n = true |- _ =>
         apply N.eqb_eq, code_inj in H; subst a; simpl; by rewrite Hs end|]
  end.
  destruct (N.ltb (code a) 32 || N.ltb 126 (code a)) eqn:E.
  - assert (Ha : (code a < 256)%N) by apply N_ascii_bounded.
    destruct (hex_digit_value (code a / 16)) as (h1 & -> & H1); [apply N.Div0.div_lt_upper_bound; lia|].
    destruct (hex_digit_value (code a mod 16)) as (h2 & -> & H2); [apply N.mod_lt; lia|].
    pose proof (scan_hex h1 h2 _ _ s t r H1 H2 Hs) as Hh.
    assert (Hc : ascii_of_N (16 * (code a / 16) + code a mod 16) = a).
    { rewrite <- N.div_mod by lia. apply ascii_N_embedding. }
    rewrite Hc in Hh. exact Hh.
  - bool_simpl. change (String a "" +:+ s) with (String a s).
    cbn [scan_string]. by rewrite Heqb, Heqb0, H, Hs.
Qed.

Lemma scan_escape s r : scan_string (escape s +:+ String double_quote r) = Some (s, r).
Proof.
  induction s as [|a s IH]; [done|]. cbn [escape]. rewrite str_app_assoc.
  by apply scan_escape_char.
Qed.

Lemma span_app f t r :
  Forall (fun a => f a = true) (String.list_ascii_of_string t) ->
  match r with String a _ => f a = false | "" => True end -> span f (t +:+ r) = (t, r).
Proof.
  induction t as [|a t IH]; simpl; intros Ht Hr.
  - destruct r as [|a r]; [done|]. simpl. by rewrite Hr.
  - apply Forall_cons in Ht as [-> Ht]. by rewrite (IH Ht Hr).
Qed.

Lemma uint_digits u : Forall (fun a => is_num_char a = true)
  (String.list_ascii_of_string (NilEmpty.string_of_uint u)).
Proof. induction u; simpl; constructor; done. Qed.

Lemma str_of_Z_digits z :
  Forall (fun a => is_num_char a = true) (String.list_ascii_of_string (str_of_Z z)).
Proof.
  unfold str_of_Z. destruct (Z.to_int z) as [u|u]; simpl; [|constructor; [done|]];
    destruct u; simpl; repeat constructor; apply uint_digits.
Qed.

Lemma str_of_Z_cons z : exists a t, str_of_Z z = String a t /\ is_num_char a = true.
Proof.
  pose proof (str_of_Z_digits z) as Hd. destruct (str_of_Z z) as [|a t] eqn:E.
  - exfalso. unfold str_of_Z in E. destruct (Z.to_int z) as [u|u]; [destruct u|]; done.
  - apply Forall_cons in Hd as [Ha _]. by exists a, t.
Qed.

Lemma number_of_str z : number_of (str_of_Z z) = Some z.
Proof.
  unfold number_of.
  assert (NilZero.int_of_string (str_of_Z z) = Some (Z.to_int z)) as ->.
  { unfold str_of_Z. pose proof (DecimalZ.of_to z) as Hz. apply NilZero.isi;
      intros E; rewrite E in Hz; simpl in Hz; subst z; discriminate. }
  rewrite DecimalZ.of_to, String.eqb_refl. done.
Qed.

(** What may follow a value: the end, or a character that ends it. *)
Definition stops (r : string) : bool :=
  match r with
  | "" => true
  | String a _ => N.eqb (code a) 44 || N.eqb (code a) 93 || N.eqb (code a) 125 || is_ws a
  end.

Lemma scan_number_str z r :
  stops r = true -> scan_number (str_of_Z z +:+ r) = Some (JInt z, r).
Proof.
  intros Hr. unfold scan_number. rewrite span_app.
  - rewrite number_of_str. destruct r as [|a r]; [done|]. by each_char a.
  - apply str_of_Z_digits.
  - destruct r as [|a r]; [done|]. by each_char a.
Qed.

Section roundtrip.
Variables wi wk : string.
Hypothesis Hwi : forall s, skip_ws (wi +:+ s) = skip_ws s.
Hypothesis Hwk : forall s, skip_ws (wk +:+ s) = skip_ws s.
  #[local] Abbreviation text := (dumps (String "," wi) (String ":" wk)).

(** Fuel a value needs. *)
Fixpoint weight (j : json) : nat :=
  match j with
  | JList l => 2 + (fix go l := match l with [] => 0 | x :: l' => 1 + weight x + go l' end) l
  | JObj d => 2 + (fix go d := match d with [] => 0 | (_, v) :: d' => 1 + weight v + go d' end) d
  | _ => 1
  end.

Fixpoint items (l : list json) : string :=
  match l with
  | [] => "" | [x] => text x
  | x :: l' => text x +:+ String "," (wi +:+ items l')
  end.
Fixpoint pairs (d : dict) : string :=
  match d with
  | [] => ""
  | [(k, v)] => quote k +:+ String ":" (wk +:+ text v)
  | (k, v) :: d' => quote k +:+ String ":" (wk +:+ text v +:+ String "," (wi +:+ pairs d'))
  end.

Lemma text_list l : text (JList l) = "[" +:+ items l +:+ "]".
Proof. reflexivity. Qed.

Lemma text_obj d : text (JObj d) = "{" +:+ pairs d +:+ "}".
Proof. reflexivity. Qed.

(** A value's text starts with a character that is not white space. *)
Lemma text_start j r : skip_ws (text j +:+ r) = text j +:+ r.
Proof.
  destruct j as [|[]|z|s|l|d]; try done.
  destruct (str_of_Z_cons z) as (a & t & E & Ha). simpl. rewrite E. simpl. by each_char a.
Qed.

Lemma text_not_close j r : match text j +:+ r with
  | String b _ => bracket b 93 = false | "" => False end.
Proof.
  destruct j as [|[]|z|s|l|d]; try done.
  destruct (str_of_Z_cons z) as (a & t & E & Ha). simpl. rewrite E. simpl. by each_char a.
Qed.

Definition list_weight (l : list json) : nat := fold_right (fun x n => 1 + weight x + n) 0 l.

Lemma weight_list l : weight (JList l) = 2 + list_weight l.
Proof. reflexivity. Qed.
Lemma weight_obj d : weight (JObj d) = 2 + list_weight (d.*2).
Proof. simpl. do 2 f_equal. induction d as [|[k v] d IH]; [done|]. simpl. by rewrite IH. Qed.
Lemma jwf_list l : jwf (JList l) <-> Forall jwf l.
Proof.
  simpl. induction l as [|x l IH]; [by split|]. rewrite Forall_cons. by rewrite IH.
Qed.
Lemma jwf_obj d : jwf (JObj d) <-> NoDup (d.*1) /\ Forall (fun kv => jwf kv.2) d.
Proof.
  simpl. apply and_iff_compat_l. induction d as [|[k v] d IH]; [by split|].
  rewrite Forall_cons. by rewrite IH.
Qed.

(** A well-formed value is read back from its text, whatever follows. *)
Definition reads_back (j : json) : Prop :=
  forall fuel r, weight j <= fuel -> stops r = true ->
  parse_value fuel (text j +:+ r) = Some (j, r).

Lemma items_start l r : l <> [] -> skip_ws (items l +:+ r) = items l +:+ r.
Proof.
  destruct l as [|x [|y l]]; [done|intros _; apply text_start|intros _].
  cbn [items]. rewrite str_app_assoc. apply text_start.
Qed.

Lemma items_not_close l r : l <> [] -> match items l +:+ r with
  | String b _ => bracket b 93 = false | "" => False end.
Proof.
  destruct l as [|x [|y l]]; [done|intros _; apply text_not_close|intros _].
  cbn [items]. rewrite str_app_assoc. apply text_not_close.
Qed.

Lemma skip_comma s : skip_ws (String "," s) = String "," s.
Proof. reflexivity. Qed.
Lemma skip_colon s : skip_ws (String ":" s) = String ":" s.
Proof. reflexivity. Qed.

Lemma items_read l : Forall reads_back l -> l <> [] -> forall fuel r,
  list_weight l <= fuel -> parse_items fuel (items l +:+ String "]" r) = Some (JList l, r).
Proof using Hwi.
  induction l as [|x l IH]; intros Hl Hne fuel r Hf; [done|].
  apply Forall_cons in Hl as [Hx Hl]. simpl in Hf. destruct fuel as [|fuel]; [lia|].
  cbn [parse_items]. destruct l as [|y l].
  - cbn [items]. rewrite Hx by (done || lia). reflexivity.
  - change (items (x :: y :: l)) with (text x +:+ String "," (wi +:+ items (y :: l))).
    rewrite str_app_assoc. cbn [String.append]. rewrite str_app_assoc.
    rewrite Hx by (done || lia). rewrite skip_comma.
    change (bracket "," 93) with false. change (bracket "," 44) with true. cbn iota.
    rewrite Hwi, items_start by done. rewrite IH by (done || (simpl in *; lia)). done.
Qed.

Lemma jset_fresh k v acc : k ∉ acc.*1 -> jset k v acc = acc ++ [(k, v)].
Proof.
  induction acc as [|[k' v'] acc IH]; simpl; [done|]. rewrite not_elem_of_cons.
  intros [Hk Ha]. rewrite (proj2 (String.eqb_neq _ _)) by done. by rewrite IH.
Qed.

Lemma pairs_read d : Forall (fun kv => reads_back kv.2) d -> d <> [] -> forall fuel acc r,
  NoDup ((acc ++ d).*1) -> list_weight (d.*2) <= fuel ->
  parse_pairs fuel acc (pairs d +:+ String "}" r) = Some (acc ++ d, r).
Proof using Hwi Hwk.
  induction d as [|[k v] d IH]; intros Hd Hne fuel acc r Hnd Hf; [done|].
  apply Forall_cons in Hd as [Hv Hd]. simpl in Hf, Hv. destruct fuel as [|fuel]; [lia|].
  assert (Hk : k ∉ acc.*1).
  { rewrite fmap_app in Hnd. csimpl in Hnd. apply NoDup_app in Hnd as (_ & Hdis & _).
    intros Hin. apply (Hdis k Hin). by left. }
  assert (Hstep : forall rest, stops rest = true ->
    parse_pairs (Datatypes.S fuel) acc (quote k +:+ String ":" (wk +:+ text v +:+ rest)) =
    match skip_ws rest with
    | String b r3 => if bracket b 125 then Some (acc ++ [(k, v)], r3)
                     else if bracket b 44 then parse_pairs fuel (acc ++ [(k, v)]) (skip_ws r3)
                     else None
    | "" => None
    end).
  { intros rest Hrest. unfold quote. cbn [String.append parse_pairs]. simpl bracket. cbn iota.
    rewrite str_app_assoc. cbn [String.append]. rewrite scan_escape, skip_colon.
    change (bracket ":" 58) with true. cbn iota. rewrite Hwk, text_start, Hv by (done || lia). by rewrite jset_fresh. }
  destruct d as [|kv d].
  - cbn [pairs]. rewrite str_app_assoc. cbn [String.append]. rewrite str_app_assoc.
    rewrite Hstep by done. reflexivity.
  - change (pairs ((k, v) :: kv :: d)) with (quote k +:+ String ":"
      (wk +:+ text v +:+ String "," (wi +:+ pairs (kv :: d)))).
    rewrite str_app_assoc. cbn [String.append]. rewrite !str_app_assoc.
    cbn [String.append]. rewrite Hstep by done. rewrite skip_comma.
    change (bracket "," 125) with false. change (bracket "," 44) with true. cbn iota.
    rewrite ?str_app_assoc, Hwi.
    assert (Hs : forall s, skip_ws (pairs (kv :: d) +:+ s) = pairs (kv :: d) +:+ s)
      by (intros s; destruct kv as [k' v'], d; done).
    rewrite Hs, IH; [by rewrite <- app_assoc|done..|by rewrite <- app_assoc|simpl in *; lia].
Qed.

Lemma value_reads_back j : jwf j -> reads_back j.
Proof using Hwi Hwk.
  induction j as [|b|z|t|l IH|d IH] using json_ind'; intros Hj fuel r Hf Hr;
    (destruct fuel as [|fuel]; [simpl in Hf; lia|]).
  - cbn. by destruct r.
  - destruct b; cbn; by destruct r.
  - destruct (str_of_Z_cons z) as (a & t & E & Ha).
    assert (Hs : parse_value (Datatypes.S fuel) (text (JInt z) +:+ r) = scan_number (text (JInt z) +:+ r)).
    { simpl. rewrite E. simpl. by each_char a. }
    rewrite Hs. by apply scan_number_str.
  - change (text (JStr t) +:+ r) with (String double_quote ((escape t +:+ String double_quote "") +:+ r)).
    rewrite str_app_assoc. simpl. by rewrite scan_escape.
  - rewrite text_list. rewrite weight_list in Hf. apply jwf_list in Hj.
    change (("[" +:+ items l +:+ "]") +:+ r) with (String "[" ((items l +:+ "]") +:+ r)).
    rewrite str_app_assoc. cbn [String.append]. destruct (decide (l = [])) as [->|Hne]; [done|].
    assert (Hl : Forall reads_back l).
    { apply Forall_forall. intros x Hx. rewrite Forall_forall in IH, Hj. auto. }
    change (parse_value (Datatypes.S fuel) (String "[" ?x)) with
      (match skip_ws x with
       | String b r => if bracket b 93 then Some (JList [], r) else parse_items fuel (skip_ws x)
       | "" => None end).
    rewrite (items_start l _ Hne). pose proof (items_not_close l (String "]" r) Hne) as Hnc.
    rewrite items_read by (done || lia). destruct (items l +:+ String "]" r); [done|].
    by rewrite Hnc.
  - rewrite text_obj. rewrite weight_obj in Hf. apply jwf_obj in Hj as [Hnd Hj].
    change (("{" +:+ pairs d +:+ "}") +:+ r) with (String "{" ((pairs d +:+ "}") +:+ r)).
    rewrite str_app_assoc. cbn [String.append]. destruct (decide (d = [])) as [->|Hne]; [done|].
    assert (Hd : Forall (fun kv => reads_back kv.2) d).
    { apply Forall_forall. intros x Hx. rewrite Forall_forall in IH, Hj. auto. }
    change (parse_value (Datatypes.S fuel) (String "{" ?x)) with
      (match skip_ws x with
       | String b r => if bracket b 125 then Some (JObj [], r)
                       else match parse_pairs fuel [] (skip_ws x) with
                            | Some (d, r) => Some (JObj d, r) | None => None end
       | "" => None end).
    assert (Hs : exists s, pairs d +:+ String "}" r = String double_quote s).
    { destruct d as [|[k v] [|kv d]]; [done| |]; eexists; reflexivity. }
    destruct Hs as [s Hs].
    assert (skip_ws (pairs d +:+ String "}" r) = pairs d +:+ String "}" r) as -> by (by rewrite Hs).
    rewrite pairs_read by (done || lia). by rewrite Hs.
Qed.

Lemma length_app_str a b : String.length (a +:+ b) = String.length a + String.length b.
Proof. induction a; simpl; lia. Qed.

(** The fuel [loads] starts with is enough for any text [dumps] writes. *)
Lemma weight_length j : weight j + 1 <= 2 * String.length (text j).
Proof.
  induction j as [|b|z|t|l IH|d IH] using json_ind'.
  - simpl. lia.
  - destruct b; simpl; lia.
  - destruct (str_of_Z_cons z) as (a & t & E & _). simpl. rewrite E. simpl. lia.
  - simpl. lia.
  - rewrite text_list, weight_list, !length_app_str. change (String.length "]") with 1.
    change (String.length "[") with 1.
    enough (list_weight l <= 2 * String.length (items l)) by lia.
    induction l as [|x [|y l] IHl]; [simpl; lia| |].
    { apply Forall_cons in IH as [Hx _]. cbn beta in Hx. cbn [items list_weight fold_right]. lia. }
    apply Forall_cons in IH as [Hx IH]. cbn beta in Hx. specialize (IHl IH).
    change (items (x :: y :: l)) with (text x +:+ String "," (wi +:+ items (y :: l))).
    rewrite !length_app_str. cbn [String.length]. rewrite length_app_str.
    cbn [list_weight fold_right] in *. lia.
  - rewrite text_obj, weight_obj, !length_app_str. change (String.length "}") with 1.
    change (String.length "{") with 1.
    enough (list_weight (d.*2) <= 2 * String.length (pairs d)) by lia.
    induction d as [|[k v] [|kv d] IHd]; [simpl; lia| |].
    + apply Forall_cons in IH as [Hx _]. cbn [snd] in Hx. cbn [pairs]. rewrite length_app_str.
      cbn [String.length]. rewrite length_app_str. simpl list_weight. lia.
    + apply Forall_cons in IH as [Hx IH]. specialize (IHd IH). cbn [snd] in Hx.
      change (pairs ((k, v) :: kv :: d)) with (quote k +:+ String ":"
        (wk +:+ text v +:+ String "," (wi +:+ pairs (kv :: d)))).
      change (list_weight (((k, v) :: kv :: d).*2)) with (1 + weight v + list_weight ((kv :: d).*2)).
      rewrite length_app_str. cbn [String.length]. rewrite length_app_str.
      rewrite length_app_str. cbn [String.length]. rewrite length_app_str. lia.
Qed.

(** Round trip: a well-formed value is read back from its text, which white
    space may follow. *)
Lemma loads_text j r : jwf j -> stops r = true -> skip_ws r = "" -> loads (text j +:+ r) = Some j.
Proof using Hwi Hwk.
  intros Hj Hr Hws. unfold loads. rewrite text_start.
  rewrite (value_reads_back j Hj _ r); [by rewrite Hws| |done].
  rewrite length_app_str. pose proof (weight_length j). lia.
Qed.
End roundtrip.

(** The two separators the code uses. *)
Lemma loads_dumps j : jwf j -> loads (dumps ", " ": " j) = Some j.
Proof. intros Hj. rewrite <- (str_app_nil (dumps _ _ j)). by apply loads_text. Qed.
Lemma loads_dumps_compact j : jwf j -> loads (dumps "," ":" j) = Some j.
Proof. intros Hj. rewrite <- (str_app_nil (dumps _ _ j)). by apply loads_text. Qed.
Lemma loads_dumps_line j :
  jwf j -> loads (dumps "," ":" j +:+ String (ascii_of_N 10) "") = Some j.
Proof. intros Hj. by apply loads_text. Qed.

Lemma dumps_inj j1 j2 : jwf j1 -> jwf j2 -> dumps ", " ": " j1 = dumps ", " ": " j2 -> j1 = j2.
Proof.
  intros H1 H2 E. apply (f_equal loads) in E. rewrite !loads_dumps in E by done. congruence.
Qed.
