(* ===== verification/Mapping.v ===== *)
(** Mapping expressions, [brain/platform/mapping_expressions.py]: the language in
    which integrations say where the fields of an item come from, its validator,
    its evaluator and the two template renderers. *)
From Stdlib Require Import Ascii.
From S2P Require Import Prelude.
From S2P Require Import PyStr.
From S2P Require Import Json.
From S2P Require Import JsonText.
Open Scope string_scope.
Open Scope bool_scope.
Open Scope list_scope.

Definition MAPPING_KEYS : list string := ["const"; "path"; "template"; "if"; "now"].
Definition MAPPING_DESCRIPTION : string := "const, path, template, now, or if/then/else".

(** [\w] on code points below 256: [isalnum()] or the underscore. *)
Definition is_word (a : ascii) : bool :=
  let n := N_of_ascii a in
  let within lo hi := N.leb lo n && N.leb n hi in
  within 48%N 57%N || within 65%N 90%N || within 97%N 122%N || N.eqb n 95
  || bool_decide (n ∈ [170; 178; 179; 181; 185; 186; 188; 189; 190]%N)
  || within 192%N 214%N || within 216%N 246%N || within 248%N 255%N.

Definition is_name_start (a : ascii) : bool :=
  let n := N_of_ascii a in
  (N.leb 65 n && N.leb n 90) || (N.leb 97 n && N.leb n 122) || N.eqb n 95.
Definition is_name_char (a : ascii) : bool := is_word a || Ascii.eqb a "." || Ascii.eqb a "-".
Definition is_brace (a : ascii) : bool := Ascii.eqb a "{" || Ascii.eqb a "}".

(** The longest run of characters with [f], if a closing brace follows it. *)
Fixpoint until_close (f : ascii -> bool) (s : string) : option string :=
  match s with
  | "" => None
  | String a s' =>
      if Ascii.eqb a "}" then Some ""
      else if f a then String a <$> until_close f s' else None
  end.

(** What follows an opening brace in [_TEMPLATE_RE]: a letter or underscore, then
    word characters, dots and dashes up to the closing brace. *)
Definition placeholder (s : string) : option string :=
  match s with
  | String a _ => if is_name_start a then until_close is_name_char s else None
  | "" => None
  end.

Section mapping.
(** The caller's path lookup; [None] is the caller's [missing] sentinel, whose
    text is [missing_text].  A lookup may raise. *)
Context (resolve_path : dict -> string -> result (option json)).
Context (missing_text : string).
(** The caller's clock. *)
Context (clock : string).

(** [str(value)] of a looked-up value. *)
Definition value_str (v : option json) : string :=
  match v with Some j => py_str j | None => missing_text end.

Definition is_null (j : json) : bool := match j with JNull => true | _ => false end.
Definition is_true (j : json) : bool := match j with JBool b => b | _ => false end.

(** [_TEMPLATE_RE.sub(replace, template)]; [skip] counts the characters of a match
    that are already consumed. *)
Fixpoint sub_template (source : dict) (skip : nat) (s : string) : result string :=
  match s with
  | "" => Ok ""
  | String a s' =>
      match skip with
      | Datatypes.S k => sub_template source k s'
      | 0 =>
          match (if Ascii.eqb a "{" then placeholder s' else None) with
          | Some name =>
              v ← resolve_path source name;
              let text := match v with Some JNull => "" | _ => value_str v end in
              rest ← sub_template source (Datatypes.S (String.length name)) s';
              mret (text +:+ rest)
          | None => rest ← sub_template source 0 s'; mret (String a rest)
          end
      end
  end.

Definition render_mapping_template (template : string) (source : dict) : result string :=
  sub_template source 0 template.

Definition unmatched_brace : exn :=
  MappingExpressionError ["path template contains an unmatched brace"].
Definition empty_placeholder : exn :=
  MappingExpressionError ["path template placeholder requires a non-empty path"].

(** The values that make a whole path template missing. *)
Definition is_absent (v : option json) : bool :=
  match v with None | Some JNull => true | Some j => py_eqb j (JStr "") end.

(** [_PATH_TEMPLATE_RE.sub(replace, template)], with whether [has_missing] is set. *)
Fixpoint sub_path_template (source : dict) (skip : nat) (s : string) : result (bool * string) :=
  match s with
  | "" => Ok (false, "")
  | String a s' =>
      match skip with
      | Datatypes.S k => sub_path_template source k s'
      | 0 =>
          if negb (is_brace a) then
            '(m, rest) ← sub_path_template source 0 s'; mret (m, String a rest)
          else
            match s' with
            | String b _ =>
                if Ascii.eqb a b then
                  '(m, rest) ← sub_path_template source 1 s'; mret (m, String a rest)
                else
                  match (if Ascii.eqb a "{" then until_close (fun c => negb (is_brace c)) s' else None) with
                  | None => Err unmatched_brace
                  | Some path =>
                      if String.eqb (strip path) "" then Err empty_placeholder
                      else
                        v ← resolve_path source path;
                        '(m, rest) ← sub_path_template source (Datatypes.S (String.length path)) s';
                        if is_absent v then mret (true, rest) else mret (m, value_str v +:+ rest)
                  end
            | "" => Err unmatched_brace
            end
      end
  end.

(** [None] is the sentinel. *)
Definition render_path_template (template : string) (source : dict) : result (option json) :=
  if negb (str_has "{" template) then resolve_path source template
  else
    '(has_missing, rendered) ← sub_path_template source 0 template;
    mret (if (has_missing : bool) then None else Some (JStr rendered)).

Definition mapping_error {A} (msg : string) : result A := Err (MappingExpressionError [msg]).

Definition _condition_matches (condition source : dict) : result bool :=
  let path := if jhas "path" condition then jget_or_null "path" condition
              else jget_or_null "field" condition in
  if is_null path then mapping_error "mapping condition requires field or path"
  else
      v ← resolve_path source (py_str path);
      let value := default JNull v in
      match jget "exists" condition with
      | Some e => mret (Bool.eqb (negb (is_null value)) (truthy e))
      | None =>
        match jget "equals" condition with
        | Some e => mret (py_eqb value e)
        | None =>
          match jget "not_equals" condition with
          | Some e => mret (negb (py_eqb value e))
          | None =>
            match jget "in" condition with
            | Some (JList options) => mret (py_in value options)
            | Some _ => mapping_error "mapping condition.in must be a list"
            | None => mret (truthy value)
            end
          end
        end
      end.

Fixpoint evaluate_mapping_expression (source : dict) (expr : json) : result (option json) :=
  match expr with
  | JObj d =>
      (* [expr.get(key)], evaluated when it is a mapping *)
      let branch key :=
        (fix find d := match d with
         | [] => Ok (Some JNull)
         | (k, v) :: d' =>
             if String.eqb key k
             then (if is_obj v then evaluate_mapping_expression source v else Ok (Some v))
             else find d'
         end) d in
      match jget "const" d with
      | Some v => Ok (Some v)
      | None =>
      match jget "path" d with
      | Some p => resolve_path source (str_or_empty p)
      | None =>
      match jget "template" d with
      | Some t => text ← render_mapping_template (str_or_empty t) source; mret (Some (JStr text))
      | None =>
      match jget "now" d with
      | Some (JBool true) => Ok (Some (JStr clock))
      | Some _ => mapping_error "mapping expression.now must be true"
      | None =>
      match jget "if" d with
      | Some (JObj condition) =>
          matches ← _condition_matches condition source;
          if (matches : bool) then branch "then" else branch "else"
      | Some _ => mapping_error "mapping expression.if must be an object"
      | None => mapping_error
          "mapping expressions must use const, path, template, now, or if/then/else"
      end end end end end
  | JNull => Ok (Some JNull)
  | _ => resolve_path source (py_str expr)
  end.
End mapping.

(** ** Validation *)

Definition _collect_condition_errors (field_path : string) (condition : json) : list string :=
  match condition with
  | JObj d =>
      let path := if jhas "path" d then jget_or_null "path" d else jget_or_null "field" d in
      match path with
      | JStr p => if String.eqb (strip p) "" then [field_path +:+ " requires field or path"] else []
      | _ => [field_path +:+ " requires field or path"]
      end ++
      (if jhas "in" d && negb (is_list (jget_or_null "in" d))
       then [field_path +:+ ".in must be a list"] else []) ++
      (if jhas "exists" d && negb (is_bool (jget_or_null "exists" d))
       then [field_path +:+ ".exists must be a boolean"] else [])
  | _ => [field_path +:+ " must be an object"]
  end.

Fixpoint _collect_expression_errors (field_path : string) (expr : json) (branch_literal : bool)
    : list string :=
  match expr with
  | JObj d =>
      let branch key :=
        (fix find d := match d with
         | [] => None
         | (k, v) :: d' =>
             if String.eqb key k
             then Some (_collect_expression_errors (field_path +:+ "." +:+ key) v true)
             else find d'
         end) d in
      match filter (fun key => jhas key d = true) MAPPING_KEYS with
      | [] => [field_path +:+ " mapping expressions must use " +:+ MAPPING_DESCRIPTION]
      | _ :: _ :: _ =>
          [field_path +:+ " mapping expression must use only one of const, path, template, now, or if"]
      | [key] =>
          if String.eqb key "path" && negb (is_string (jget_or_null "path" d))
          then [field_path +:+ ".path must be a string"]
          else if String.eqb key "template" && negb (is_string (jget_or_null "template" d))
          then [field_path +:+ ".template must be a string"]
          else if String.eqb key "now" && negb (is_true (jget_or_null "now" d))
          then [field_path +:+ ".now must be true"]
          else if String.eqb key "if" then
            _collect_condition_errors (field_path +:+ ".if") (jget_or_null "if" d) ++
            match branch "then" with
            | None => [field_path +:+ ".then is required for conditional mapping expressions"]
            | Some errors => errors
            end ++
            default [] (branch "else")
          else []
      end
  | JNull => []
  | JStr s =>
      if negb branch_literal && String.eqb (strip s) ""
      then [field_path +:+ " mapping path must not be empty"] else []
  | _ =>
      if negb branch_literal
      then [field_path +:+ " mapping expression must be a string path or object"] else []
  end.

Definition validate_mapping_expression (field_path : string) (expr : json) (branch_literal : bool)
    : result unit :=
  match _collect_expression_errors field_path expr branch_literal with
  | [] => Ok tt
  | errors => Err (MappingExpressionError errors)
  end.

(** * The language *)

(** A mapping has exactly one of the keys that select a form. *)
Definition only (key : string) (d : dict) : Prop :=
  filter (fun k => jhas k d = true) MAPPING_KEYS = [key].

Record valid_condition (d : dict) : Prop := {
  vc_path : exists p, (if jhas "path" d then jget_or_null "path" d else jget_or_null "field" d) = JStr p
                      /\ strip p <> "";
  vc_in : forall v, jget "in" d = Some v -> is_list v = true;
  vc_exists : forall v, jget "exists" d = Some v -> is_bool v = true;
}.

(** The expressions of the language; [true] in the branches of a conditional,
    where what is not a mapping is a literal. *)
Inductive valid_expr : bool -> json -> Prop :=
| valid_null b : valid_expr b JNull
| valid_path s : strip s <> "" -> valid_expr false (JStr s)
| valid_literal j : is_obj j = false -> valid_expr true j
| valid_const b d : only "const" d -> valid_expr b (JObj d)
| valid_path_of b d p : only "path" d -> jget "path" d = Some (JStr p) -> valid_expr b (JObj d)
| valid_template b d t : only "template" d -> jget "template" d = Some (JStr t) -> valid_expr b (JObj d)
| valid_now b d : only "now" d -> jget "now" d = Some (JBool true) -> valid_expr b (JObj d)
| valid_if b d c t :
    only "if" d -> jget "if" d = Some (JObj c) -> valid_condition c ->
    jget "then" d = Some t -> valid_expr true t ->
    (forall e, jget "else" d = Some e -> valid_expr true e) ->
    valid_expr b (JObj d).

Lemma condition_errors_nil f c :
  _collect_condition_errors f c = [] <-> exists d, c = JObj d /\ valid_condition d.
Proof.
  destruct c as [| | | | |d]; try (split; [done|by intros (? & ? & _)]).
  cbn [_collect_condition_errors]. unfold jhas at 2 3, jget_or_null at 3 4.
  set (path := if jhas "path" d then _ else _).
  assert (Hp : (match path with
    | JStr p => if String.eqb (strip p) "" then [f +:+ " requires field or path"] else []
    | _ => [f +:+ " requires field or path"] end) = [] <-> exists p, path = JStr p /\ strip p <> "").
  { destruct path; try (split; [done|by intros (? & ? & _)]).
    destruct (String.eqb (strip _) "") eqn:E; [apply String.eqb_eq in E|apply String.eqb_neq in E].
    - split; [done|]. intros (? & [= <-] & ?). done.
    - split; [|done]. intros _. eauto. }
  split.
  - intros [[H1 H2]%app_nil H3]%app_nil || (intros [H1 [H2 H3]%app_nil]%app_nil).
    exists d. split; [done|]. split; [by apply Hp| |].
    + intros v Hv. rewrite Hv in H2. simpl in H2. by destruct (is_list v).
    + intros v Hv. rewrite Hv in H3. simpl in H3. by destruct (is_bool v).
  - intros (d' & [= <-] & [H1 H2 H3]). apply Hp in H1. rewrite H1. simpl.
    destruct (jget "in" d) as [v|] eqn:Ei; simpl; [rewrite (H2 v) by done|]; simpl;
    (destruct (jget "exists" d) as [u|] eqn:Ee; simpl; [rewrite (H3 u) by done|]; done).
Qed.

(** The branches of a conditional, by lookup. *)
Lemma find_branch {B} (g : json -> B) key d :
  (fix find d := match d with
   | [] => None
   | (k, v) :: d' => if String.eqb key k then Some (g v) else find d'
   end) d = g <$> jget key d.
Proof. induction d as [|[k v] d IH]; [done|]. simpl. by destruct (String.eqb key k). Qed.

Lemma jget_obj_ind (P : json -> Prop) key d v :
  Forall (fun kv => P kv.2) d -> jget key d = Some v -> P v.
Proof.
  intros Hd Hv. rewrite Forall_forall in Hd. apply jget_elem in Hv. by apply (Hd (key, v)).
Qed.

Lemma only_unique k k' d : only k d -> only k' d -> k = k'.
Proof. unfold only. congruence. Qed.

Lemma jhas_get k d : jhas k d = true -> exists v, jget k d = Some v.
Proof. unfold jhas. destruct (jget k d); [eauto|done]. Qed.

(** The errors of a mapping, in terms of its one selecting key. *)
Definition form_errors (f : string) (key : string) (d : dict) : list string :=
  if String.eqb key "path" && negb (is_string (jget_or_null "path" d))
  then [f +:+ ".path must be a string"]
  else if String.eqb key "template" && negb (is_string (jget_or_null "template" d))
  then [f +:+ ".template must be a string"]
  else if String.eqb key "now" && negb (is_true (jget_or_null "now" d))
  then [f +:+ ".now must be true"]
  else if String.eqb key "if" then
    _collect_condition_errors (f +:+ ".if") (jget_or_null "if" d) ++
    match jget "then" d with
    | None => [f +:+ ".then is required for conditional mapping expressions"]
    | Some t => _collect_expression_errors (f +:+ ".then") t true
    end ++
    match jget "else" d with
    | None => []
    | Some t => _collect_expression_errors (f +:+ ".else") t true
    end
  else [].

Lemma collect_obj f d b key :
  only key d -> _collect_expression_errors f (JObj d) b = form_errors f key d.
Proof.
  intros Ho. cbn [_collect_expression_errors].
  rewrite !(find_branch (fun v => _collect_expression_errors _ v true)).
  unfold only in Ho. rewrite Ho. unfold form_errors.
  by destruct (jget "then" d), (jget "else" d).
Qed.

Lemma collect_obj_other f d b :
  (forall key, ~ only key d) -> _collect_expression_errors f (JObj d) b <> [].
Proof.
  intros Hn. cbn [_collect_expression_errors]. unfold only in Hn.
  destruct (filter _ _) as [|key [|]] eqn:E; [done| |done].
  by destruct (Hn key).
Qed.

Lemma valid_obj b d :
  valid_expr b (JObj d) <->
  only "const" d \/ (only "path" d /\ exists p, jget "path" d = Some (JStr p)) \/
  (only "template" d /\ exists p, jget "template" d = Some (JStr p)) \/
  (only "now" d /\ jget "now" d = Some (JBool true)) \/
  (only "if" d /\ exists c t, jget "if" d = Some (JObj c) /\ valid_condition c /\
     jget "then" d = Some t /\ valid_expr true t /\
     forall e, jget "else" d = Some e -> valid_expr true e).
Proof.
  split.
  - inversion 1; subst; eauto 20; done.
  - intros [?|[(? & ? & ?)|[(? & ? & ?)|[(? & ?)|(? & c & t & ? & ? & ? & ? & ?)]]]].
    + by apply valid_const.
    + by eapply valid_path_of.
    + by eapply valid_template.
    + by apply valid_now.
    + by eapply valid_if.
Qed.

(** The validator accepts exactly the expressions of the language. *)
Lemma validator_accepts_language (field_path : string) (expr : json) (branch_literal : bool) :
  validate_mapping_expression field_path expr branch_literal = Ok tt <->
  valid_expr branch_literal expr.
Proof.
  unfold validate_mapping_expression.
  enough (Hnil : forall f b, _collect_expression_errors f expr b = [] <-> valid_expr b expr).
  { rewrite <- (Hnil field_path). by destruct (_collect_expression_errors _ _ _). }
  clear field_path branch_literal. induction expr as [|x|z|s|l _|d IH] using json_ind'; intros f b.
  - split; [constructor|done].
  - cbn. destruct b; simpl; (split; [try done; by constructor|by inversion 1]).
  - cbn. destruct b; simpl; (split; [try done; by constructor|by inversion 1]).
  - cbn. destruct b; simpl.
    + split; [by constructor|done].
    + destruct (String.eqb (strip s) "") eqn:E; [apply String.eqb_eq in E|apply String.eqb_neq in E].
      * split; [done|]. by inversion 1.
      * split; [by constructor|done].
  - cbn. destruct b; simpl; (split; [try done; by constructor|by inversion 1]).
  - rewrite valid_obj. destruct (filter (fun k => jhas k d = true) MAPPING_KEYS) as [|key [|]] eqn:E.
    + split; [intros []%collect_obj_other; unfold only; by rewrite E|]. unfold only. rewrite E. naive_solver.
    + assert (Hin : key ∈ MAPPING_KEYS /\ jhas key d = true).
      { enough (key ∈ filter (fun k => jhas k d = true) MAPPING_KEYS) as ?%list_elem_of_filter by naive_solver.
        rewrite E. by left. }
      destruct Hin as [Hin [v Hv]%jhas_get]. change (only key d) in E.
      assert (Honly : forall k, only k d <-> k = key)
        by (intros k; split; [intros Hk; by eapply only_unique|by intros ->]).
      rewrite (collect_obj f d b key E), !Honly. clear E Honly.
      unfold MAPPING_KEYS in Hin. rewrite !elem_of_cons, elem_of_nil in Hin.
      assert (Hnull : forall k, jget_or_null k d = default JNull (jget k d)) by done.
      unfold form_errors. rewrite !Hnull.
      destruct Hin as [->|[->|[->|[->|[->|[]]]]]]; rewrite ?Hv; cbn -[_collect_condition_errors].
      * split; [by left|done].
      * destruct v; naive_solver.
      * destruct v; naive_solver.
      * pose proof (fun k v => jget_obj_ind (fun e => forall f b,
          _collect_expression_errors f e b = [] <-> valid_expr b e) k d v IH) as IHg. cbn beta in IHg.
        rewrite !app_nil, condition_errors_nil. split.
        -- intros [(c & -> & Hc) [Ht He]]. do 4 right. split; [done|].
           destruct (jget "then" d) as [t|] eqn:Et; [|done].
           exists c, t. split; [done|]. split; [done|]. split; [done|]. split.
           ++ by apply (IHg _ _ Et _ true) in Ht.
           ++ intros e Ee. rewrite Ee in He. by apply (IHg _ _ Ee _ true) in He.
        -- intros [?|[[? _]|[[? _]|[[? _]|[_ (c & t & [= ->] & Hc & Ht & Hvt & He)]]]]]; try done.
           split; [by exists c|]. rewrite Ht. split; [by apply (IHg _ _ Ht _ true)|].
           destruct (jget "else" d) as [e|] eqn:Ee; [|done].
           apply (IHg _ _ Ee _ true). by apply He.
      * destruct v as [|[]| | | |]; naive_solver.
    + split; [intros []%collect_obj_other; unfold only; by rewrite E|]. unfold only. rewrite E. naive_solver.
Qed.

(** * Evaluation *)

Lemma result_bind_err {A B} (x : result A) (f : A -> result B) e :
  (x ≫= f) = Err e -> x = Err e \/ exists a, x = Ok a /\ f a = Err e.
Proof. destruct x as [a|e']; simpl; [eauto|by left; congruence]. Qed.

Section evaluation.
Context (resolve_path : dict -> string -> result (option json)) (missing_text clock : string).
Notation evaluate := (evaluate_mapping_expression resolve_path missing_text clock).

(** The branch of a conditional that is taken. *)
Definition branch_value (source : dict) (key : string) (d : dict) : result (option json) :=
  match jget key d with
  | Some v => if is_obj v then evaluate source v else Ok (Some v)
  | None => Ok (Some JNull)
  end.

Lemma find_value {B} (g : json -> B) (b : B) key d :
  (fix find d := match d with
   | [] => b
   | (k, v) :: d' => if String.eqb key k then g v else find d'
   end) d = match jget key d with Some v => g v | None => b end.
Proof. induction d as [|[k v] d IH]; [done|]. simpl. by destruct (String.eqb key k). Qed.

Lemma only_elem key d k :
  only key d -> k ∈ MAPPING_KEYS -> is_Some (jget k d) <-> k = key.
Proof.
  unfold only. intros Ho Hk.
  assert (Hin : k ∈ filter (fun k => jhas k d = true) MAPPING_KEYS <-> k = key)
    by (rewrite Ho; apply list_elem_of_singleton).
  rewrite <- Hin, list_elem_of_filter. unfold jhas. destruct (jget k d); simpl.
  - split; [done|]. by intros _.
  - split; [by intros [? ?]|by intros [? _]].
Qed.

Lemma only_none key d k : only key d -> k ∈ MAPPING_KEYS -> k <> key -> jget k d = None.
Proof. intros Ho Hk Hne. apply eq_None_not_Some. by rewrite (only_elem key). Qed.

Lemma evaluate_if source d c :
  only "if" d -> jget "if" d = Some (JObj c) ->
  evaluate source (JObj d) =
  (matches ← _condition_matches resolve_path c source;
   branch_value source (if (matches : bool) then "then" else "else") d).
Proof.
  intros Ho Hc. pose proof (fun k => only_none _ _ k Ho) as Hno.
  unfold MAPPING_KEYS in Hno. cbn [evaluate_mapping_expression].
  rewrite !(find_value (fun v => if is_obj v then evaluate source v else Ok (Some v))).
  rewrite !Hno, Hc by (set_solver || done). unfold branch_value.
  destruct (_condition_matches _ _ _) as [[]|]; done.
Qed.

(** The lookups of a template are the only thing that can raise in it. *)
Lemma template_err source skip t e :
  sub_template resolve_path missing_text source skip t = Err e ->
  exists path, resolve_path source path = Err e.
Proof.
  revert skip. induction t as [|a t IH]; intros skip; [done|].
  cbn [sub_template]. destruct skip as [|k]; [|apply IH].
  destruct (if Ascii.eqb a "{" then placeholder t else None) as [name|].
  - intros [?|(v & _ & [?|(rest & _ & [=])]%result_bind_err)]%result_bind_err; eauto.
  - intros [?|(rest & _ & [=])]%result_bind_err; eauto.
Qed.

Lemma condition_err source c e :
  valid_condition c -> _condition_matches resolve_path c source = Err e ->
  exists path, resolve_path source path = Err e.
Proof.
  intros [(p & Hp & _) Hin _]. unfold _condition_matches.
  rewrite Hp. cbn [is_null].
  intros [?|(v & _ & Hv)]%result_bind_err; [eauto|]. exfalso. revert Hv.
  destruct (jget "exists" c), (jget "equals" c), (jget "not_equals" c); try done.
  destruct (jget "in" c) as [x|] eqn:E; [|done]. specialize (Hin x eq_refl). by destruct x.
Qed.

(** A validated expression evaluates: whatever it raises was raised by the
    caller's path lookup, so with a lookup that does not raise there is a value. *)
Lemma valid_expression_evaluates (source : dict) (expr : json) (b : bool) (e : exn) :
  valid_expr b expr -> evaluate source expr = Err e ->
  exists path, resolve_path source path = Err e.
Proof.
  intros Hv. induction Hv as [b|s Hs|j Hj|b d Ho|b d p Ho Hp|b d t Ho Ht|b d Ho Hn
    |b d c t Ho Hi Hc Ht _ IHt _ IHe].
  - done.
  - cbn. eauto.
  - destruct j; cbn; eauto; done.
  - cbn. destruct (proj2 (only_elem _ d "const" Ho ltac:(set_solver)) eq_refl) as [v ->]. done.
  - pose proof (fun k => only_none _ _ k Ho) as Hno. cbn.
    rewrite !Hno, Hp by (set_solver || done). eauto.
  - pose proof (fun k => only_none _ _ k Ho) as Hno. cbn.
    rewrite !Hno, Ht by (set_solver || done).
    intros [?%template_err|(? & _ & [=])]%result_bind_err. done.
  - pose proof (fun k => only_none _ _ k Ho) as Hno. cbn.
    rewrite !Hno, Hn by (set_solver || done). done.
  - rewrite (evaluate_if source d c Ho Hi).
    intros [?%condition_err|(m & _ & Hb)]%result_bind_err; [done|done|].
    revert Hb. unfold branch_value. destruct m.
    + rewrite Ht. by destruct (is_obj t).
    + destruct (jget "else" d) as [u|] eqn:Eu; [|done]. destruct (is_obj u); [|done].
      by apply (IHe u).
Qed.

(** C39. Validation of mapping expressions.  The validator accepts exactly the
    expressions of the declared language, and an accepted expression evaluates:
    whatever its evaluation raises was raised by the caller's path lookup, so
    with a lookup that does not raise there is a value. *)
Theorem validated_expressions (field_path : string) (expr : json) (branch_literal : bool) :
  (validate_mapping_expression field_path expr branch_literal = Ok tt <->
   valid_expr branch_literal expr) /\
  (validate_mapping_expression field_path expr branch_literal = Ok tt ->
   forall source e, evaluate source expr = Err e -> exists path, resolve_path source path = Err e).
Proof.
  split; [apply validator_accepts_language|].
  intros H%validator_accepts_language source e. by eapply valid_expression_evaluates.
Qed.

(** ** Path templates *)

(** What a template means: literal text, written with doubled braces, and holes. *)
Inductive segment : Type := Lit (s : string) | Hole (path : string).

Fixpoint double_braces (s : string) : string :=
  match s with
  | "" => ""
  | String a s' => if is_brace a then String a (String a (double_braces s'))
                   else String a (double_braces s')
  end.

Definition unparse_segment (x : segment) : string :=
  match x with Lit s => double_braces s | Hole p => "{" +:+ p +:+ "}" end.
Fixpoint unparse (l : list segment) : string :=
  match l with [] => "" | x :: l' => unparse_segment x +:+ unparse l' end.

Definition segment_ok (x : segment) : Prop :=
  match x with
  | Lit _ => True
  | Hole p => str_has "{" p = false /\ str_has "}" p = false /\ strip p <> ""
  end.

(** Its value: the holes are looked up left to right, and one that is missing, null
    or empty makes the whole missing. *)
Fixpoint segments_value (source : dict) (l : list segment) : result (bool * string) :=
  match l with
  | [] => Ok (false, "")
  | Lit s :: l' => '(m, rest) ← segments_value source l'; mret (m, s +:+ rest)
  | Hole p :: l' =>
      v ← resolve_path source p;
      '(m, rest) ← segments_value source l';
      if is_absent v then mret (true, rest) else mret (m, value_str missing_text v +:+ rest)
  end.

Lemma sub_literal source s rest :
  sub_path_template resolve_path missing_text source 0 (double_braces s +:+ rest) =
  ('(m, r) ← sub_path_template resolve_path missing_text source 0 rest; mret (m, s +:+ r)).
Proof.
  induction s as [|a s IH].
  - change (double_braces "" +:+ rest) with rest.
    by destruct (sub_path_template _ _ _ 0 rest) as [[m r]|].
  - cbn [double_braces]. destruct (is_brace a) eqn:Ha.
    + change (String a (String a ?x) +:+ ?y) with (String a (String a (x +:+ y))).
      cbn [sub_path_template]. rewrite Ha, Ascii.eqb_refl, IH. cbn [negb].
      by destruct (sub_path_template _ _ _ 0 rest) as [[m r]|].
    + change (String a ?x +:+ ?y) with (String a (x +:+ y)).
      cbn [sub_path_template]. rewrite Ha, IH. cbn [negb].
      by destruct (sub_path_template _ _ _ 0 rest) as [[m r]|].
Qed.

Lemma sub_skip source p rest :
  sub_path_template resolve_path missing_text source (String.length p) (p +:+ rest) =
  sub_path_template resolve_path missing_text source 0 rest.
Proof. by induction p. Qed.

Lemma no_braces a p :
  str_has "{" (String a p) = false -> str_has "}" (String a p) = false ->
  is_brace a = false /\ str_has "{" p = false /\ str_has "}" p = false.
Proof.
  cbn [str_has]. rewrite !orb_false_iff. unfold is_brace. intros [H1 ?] [H2 ?].
  by rewrite (Ascii.eqb_sym a), H1, (Ascii.eqb_sym a), H2.
Qed.

Lemma until_close_path p rest :
  str_has "{" p = false -> str_has "}" p = false ->
  until_close (fun c => negb (is_brace c)) (p +:+ "}" +:+ rest) = Some p.
Proof.
  induction p as [|a p IH]; [done|]. intros H1 H2.
  destruct (no_braces a p H1 H2) as (Ha & H3 & H4).
  change (String a p +:+ ?y) with (String a (p +:+ y)). cbn [until_close].
  rewrite IH by done. rewrite Ha. unfold is_brace in Ha. apply orb_false_iff in Ha as [_ ->]. done.
Qed.

(** Path templates say what they are written for: a template written from
    literal text, its braces doubled, and holes evaluates to the text with every
    hole replaced by the value looked up there, left to right, and to the
    missing value when a hole is missing, null or empty; a lookup that raises
    stops it.  (A text without an opening brace is a plain path instead.) *)
Theorem path_template_meaning (source : dict) (l : list segment) :
  Forall segment_ok l -> str_has "{" (unparse l) = true ->
  render_path_template resolve_path missing_text (unparse l) source =
  ('(missing, text) ← segments_value source l;
   mret (if (missing : bool) then None else Some (JStr text))).
Proof.
  intros Hok Hb. unfold render_path_template. rewrite Hb. cbn [negb].
  enough (sub_path_template resolve_path missing_text source 0 (unparse l) =
          segments_value source l) as -> by done.
  clear Hb. induction Hok as [|[s|p] l Hx _ IH]; [done|..]; cbn [unparse unparse_segment].
  - by rewrite sub_literal, IH.
  - destruct Hx as (H1 & H2 & Hs). destruct p as [|b p]; [done|].
    destruct (no_braces b p H1 H2) as (Hb & H3 & H4).
    assert (Hbo : Ascii.eqb "{" b = false).
    { unfold is_brace in Hb. apply orb_false_iff in Hb as [Hb _]. by rewrite Ascii.eqb_sym. }
    rewrite (str_app_assoc "{"), (str_app_assoc (String b p)).
    change ("{" +:+ ?y) with (String "{" y).
    pose proof (until_close_path (String b p) (unparse l) H1 H2) as Hu.
    change (String b p +:+ ?y) with (String b (p +:+ y)) in *.
    cbn [sub_path_template]. change (is_brace "{") with true. cbn [negb].
    rewrite Hbo, Ascii.eqb_refl, Hu. apply String.eqb_neq in Hs. rewrite Hs.
    cbn [segments_value]. destruct (resolve_path source (String b p)) as [v|]; [|done].
    cbn [mbind result_bind]. rewrite <- IH.
    pose proof (sub_skip source (p +:+ "}") (unparse l)) as Hskip.
    rewrite str_app_assoc in Hskip.
    assert (String.length (p +:+ "}") = String.length (String b p)) as E
      by (clear; induction p as [|c p IH]; [done|]; change (Datatypes.S (String.length (p +:+ "}")) =
          Datatypes.S (String.length (String b p))); by rewrite IH).
    by rewrite <- E, Hskip.
Qed.
End evaluation.

(** ** Instances *)

(** A lookup of top-level keys. *)
Definition demo_lookup (source : dict) (path : string) : result (option json) := Ok (jget path source).

Definition demo_item : dict := [("status", JStr "open"); ("title", JStr "Bug")].

Lemma path_template_meaning_witness :
  render_path_template demo_lookup "" "{title} {{{status}}}" demo_item =
  Ok (Some (JStr "Bug {open}")).
Proof.
  apply (path_template_meaning demo_lookup "" demo_item
    [Hole "title"; Lit " {"; Hole "status"; Lit "}"]); [|reflexivity].
  repeat (apply Forall_cons; split; [try done; by split_and!|]). constructor.
Defined.
