(* ===== verification/Status.v ===== *)
(** Run statuses: the value contracts of [brain/contracts/statuses.py], the
    transition table and guards of [brain/systems/runs/status.py], and the
    enumerations and request normalisation of [brain/systems/runs/domain.py]. *)
From S2P Require Import Prelude.
From S2P Require Import PyStr.
From S2P Require Import Json.
Open Scope string_scope.
Open Scope bool_scope.
Open Scope list_scope.

(** * String enumerations *)

(** A [StrEnum]: its members in definition order and their values. *)
Class StrEnum (A : Type) := {
  members : list A;
  value : A -> string;
  enum_eq_dec :: EqDecision A;
  members_all : forall a, a ∈ members;
  value_inj : forall a b, value a = value b -> a = b;
}.

#[global] Arguments value : simpl never.

(** What a parameter annotated [str | Enum | None] can hold. *)
Inductive enum_arg (A : Type) : Type :=
| Member (a : A)
| Raw (s : string)
| Absent.
Arguments Member {A} a.
Arguments Raw {A} s.
Arguments Absent {A}.

(** [str(value or "").strip().lower()]. *)
Definition candidate_of (o : option string) : string := lower (strip (str_or o "")).

(** The loop [for item in enum_cls: if candidate == item.value: return item]. *)
Fixpoint first_member {A} `{StrEnum A} (candidate : string) (l : list A) : option A :=
  match l with
  | [] => None
  | a :: l' => if String.eqb candidate (value a) then Some a else first_member candidate l'
  end.

Definition _coerce_enum {A} `{StrEnum A} (v : enum_arg A) (dflt : A) : A :=
  match v with
  | Member a => a
  | Raw s => default dflt (first_member (candidate_of (Some s)) members)
  | Absent => default dflt (first_member (candidate_of None) members)
  end.

Ltac solve_enum :=
  lazymatch goal with
  | |- forall a, a ∈ _ => intros []; set_solver
  | |- forall a b, _ = _ -> a = b => intros [] []; (done || discriminate)
  end.

Section enum_facts.
Context {A : Type} `{StrEnum A}.

Lemma first_member_value a l : a ∈ l -> first_member (value a) l = Some a.
Proof.
  induction l as [|b l IH]; [by intros ?%not_elem_of_nil|].
  intros Hin. simpl. destruct (String.eqb (value a) (value b)) eqn:E.
  - apply String.eqb_eq, value_inj in E. by subst.
  - apply elem_of_cons in Hin as [->|Hin]; [|by apply IH].
    by rewrite String.eqb_refl in E.
Qed.

Lemma first_member_sound c l a : first_member c l = Some a -> a ∈ l /\ c = value a.
Proof.
  induction l as [|b l IH]; simpl; [done|].
  destruct (String.eqb c (value b)) eqn:E.
  - intros [= ->]. apply String.eqb_eq in E. split; [set_solver|done].
  - intros [? ?]%IH. split; [set_solver|done].
Qed.

Lemma first_member_none c l a : first_member c l = None -> a ∈ l -> c <> value a.
Proof. intros Hn Hin ->. by rewrite (first_member_value a l Hin) in Hn. Qed.
End enum_facts.

(** * brain/contracts/statuses.py *)

Inductive RunStatus : Type :=
| QUEUED | STARTING | RUNNING | PAUSED | VERIFYING
| COMPLETED | FAILED | CANCELED | EXPIRED.

#[export] Instance RunStatus_eq_dec : EqDecision RunStatus.
Proof. solve_decision. Defined.

Definition RunStatus_value (s : RunStatus) : string :=
  match s with
  | QUEUED => "queued" | STARTING => "starting" | RUNNING => "running"
  | PAUSED => "paused" | VERIFYING => "verifying" | COMPLETED => "completed"
  | FAILED => "failed" | CANCELED => "canceled" | EXPIRED => "expired"
  end.

Definition RunStatus_members : list RunStatus :=
  [QUEUED; STARTING; RUNNING; PAUSED; VERIFYING; COMPLETED; FAILED; CANCELED; EXPIRED].

#[export] Program Instance RunStatus_enum : StrEnum RunStatus :=
  {| members := RunStatus_members; value := RunStatus_value |}.
Next Obligation. solve_enum. Qed.
Next Obligation. solve_enum. Qed.

Definition RUN_STATUS_VALUES : list string := value <$> RunStatus_members.
Definition ACTIVE_RUN_STATUS_VALUES : list string :=
  [value STARTING; value RUNNING; value PAUSED; value VERIFYING].
Definition OPEN_RUN_STATUS_VALUES : list string := value QUEUED :: ACTIVE_RUN_STATUS_VALUES.
Definition TERMINAL_RUN_STATUS_VALUES : list string :=
  [value COMPLETED; value FAILED; value CANCELED; value EXPIRED].
Definition PROCESSING_RUN_STATUS_VALUES : list string :=
  [value STARTING; value RUNNING; value VERIFYING].
Definition RUN_FAILED_STATUS_VALUE : string := value FAILED.
Definition LEGACY_AGENT_RUN_STATUS_VALUES : list string := ["cancelled"; "error"; "blocked"].
Definition AGENT_RUN_DB_STATUS_VALUES : list string :=
  RUN_STATUS_VALUES ++ LEGACY_AGENT_RUN_STATUS_VALUES.
Definition RUN_STATUS_ALIASES : list (string * string) :=
  [("cancelled", value CANCELED); ("superseded", value CANCELED);
   ("timeout", RUN_FAILED_STATUS_VALUE); ("error", RUN_FAILED_STATUS_VALUE);
   ("blocked", RUN_FAILED_STATUS_VALUE)].
Definition PROJECTABLE_RUN_STATUS_VALUES : list string :=
  RUN_STATUS_VALUES ++ RUN_STATUS_ALIASES.*1.

(** [x in values] on a tuple of strings. *)
Definition str_in (x : string) (l : list string) : bool := existsb (String.eqb x) l.

(** [d.get(k, dflt)] on a string-to-string dictionary. *)
Fixpoint alias_get (d : list (string * string)) (k dflt : string) : string :=
  match d with
  | [] => dflt
  | (k', v) :: d' => if String.eqb k k' then v else alias_get d' k dflt
  end.

Definition project_run_status_value (status fallback : option string) : string :=
  let raw := lower (strip (str_or status (str_or fallback (value QUEUED)))) in
  if str_in raw PROJECTABLE_RUN_STATUS_VALUES then alias_get RUN_STATUS_ALIASES raw raw
  else raw.

(** * brain/systems/runs/status.py *)

Definition TERMINAL_RUN_STATUSES : list RunStatus := [COMPLETED; FAILED; CANCELED; EXPIRED].
Definition ACTIVE_RUN_STATUSES : list RunStatus := [STARTING; RUNNING; PAUSED; VERIFYING].
Definition OPEN_RUN_STATUSES : list RunStatus := QUEUED :: ACTIVE_RUN_STATUSES.
Definition PROCESSING_RUN_STATUSES : list RunStatus := [STARTING; RUNNING; VERIFYING].

Definition status_in (s : RunStatus) (l : list RunStatus) : bool := bool_decide (s ∈ l).

Definition is_terminal (s : RunStatus) : bool := status_in s TERMINAL_RUN_STATUSES.

Definition ALLOWED_RUN_TRANSITIONS (s : RunStatus) : list RunStatus :=
  match s with
  | QUEUED => [STARTING; CANCELED; EXPIRED; FAILED]
  | STARTING => [QUEUED; RUNNING; FAILED; CANCELED; EXPIRED]
  | RUNNING => [QUEUED; PAUSED; VERIFYING; COMPLETED; FAILED; CANCELED; EXPIRED]
  | PAUSED => [RUNNING; FAILED; CANCELED; EXPIRED]
  | VERIFYING => [QUEUED; RUNNING; COMPLETED; FAILED; CANCELED; EXPIRED]
  | COMPLETED | FAILED | CANCELED | EXPIRED => []
  end.

Definition coerce_run_status (v : enum_arg RunStatus) (dflt : RunStatus) : RunStatus :=
  match v with
  | Member s => s
  | Raw s => default dflt (first_member (candidate_of (Some s)) members)
  | Absent => default dflt (first_member (candidate_of None) members)
  end.

#[global] Arguments coerce_run_status : simpl never.

Definition ensure_run_transition (from_status to_status : enum_arg RunStatus)
    (allow_interrupted_requeue : bool) : result (RunStatus * RunStatus) :=
  let current := coerce_run_status from_status QUEUED in
  let target := coerce_run_status to_status QUEUED in
  if decide (target = current) then Ok (current, target)
  else if negb (status_in target (ALLOWED_RUN_TRANSITIONS current)) then
    Err (RunTransitionError (value current) (value target) false)
  else if status_in current PROCESSING_RUN_STATUSES
          && bool_decide (target = QUEUED) && negb allow_interrupted_requeue then
    Err (RunTransitionError (value current) (value target) true)
  else Ok (current, target).

(** * brain/systems/runs/domain.py *)

Inductive RunProfile : Type := PROFILE_FAST | PROFILE_DEEP.
Inductive RunRecipe : Type := RECIPE_FAST | RECIPE_DEEP | RECIPE_SCOUT | RECIPE_WORKER.
Inductive EventVisibility : Type := PUBLIC | INTERNAL_VISIBILITY | SECRET.
Inductive ArtifactType : Type :=
| FINAL_ANSWER | FILE_OBSERVATION | FILE_EDIT | COMMAND_OUTPUT | PR_LINK
| VERIFIER_EVIDENCE | CONTEXT_PACK | SCOUT_HANDOFF | DEEP_PLAN
| DEEP_PLAN_REVISION | PHASE_RESULT | WORKER_RESULT | COST_SUMMARY.

#[export] Instance RunProfile_eq_dec : EqDecision RunProfile.
Proof. solve_decision. Defined.
#[export] Instance RunRecipe_eq_dec : EqDecision RunRecipe.
Proof. solve_decision. Defined.
#[export] Instance EventVisibility_eq_dec : EqDecision EventVisibility.
Proof. solve_decision. Defined.
#[export] Instance ArtifactType_eq_dec : EqDecision ArtifactType.
Proof. solve_decision. Defined.

Definition RunProfile_value (p : RunProfile) : string :=
  match p with PROFILE_FAST => "fast" | PROFILE_DEEP => "deep" end.
Definition RunRecipe_value (r : RunRecipe) : string :=
  match r with
  | RECIPE_FAST => "fast" | RECIPE_DEEP => "deep"
  | RECIPE_SCOUT => "scout" | RECIPE_WORKER => "worker"
  end.
Definition EventVisibility_value (v : EventVisibility) : string :=
  match v with PUBLIC => "public" | INTERNAL_VISIBILITY => "internal" | SECRET => "secret" end.
Definition ArtifactType_value (t : ArtifactType) : string :=
  match t with
  | FINAL_ANSWER => "final_answer" | FILE_OBSERVATION => "file_observation"
  | FILE_EDIT => "file_edit" | COMMAND_OUTPUT => "command_output"
  | PR_LINK => "pr_link" | VERIFIER_EVIDENCE => "verifier_evidence"
  | CONTEXT_PACK => "context_pack" | SCOUT_HANDOFF => "scout_handoff"
  | DEEP_PLAN => "deep_plan" | DEEP_PLAN_REVISION => "deep_plan_revision"
  | PHASE_RESULT => "phase_result" | WORKER_RESULT => "worker_result"
  | COST_SUMMARY => "cost_summary"
  end.

#[export] Program Instance RunProfile_enum : StrEnum RunProfile :=
  {| members := [PROFILE_FAST; PROFILE_DEEP]; value := RunProfile_value |}.
Next Obligation. solve_enum. Qed.
Next Obligation. solve_enum. Qed.
#[export] Program Instance RunRecipe_enum : StrEnum RunRecipe :=
  {| members := [RECIPE_FAST; RECIPE_DEEP; RECIPE_SCOUT; RECIPE_WORKER];
     value := RunRecipe_value |}.
Next Obligation. solve_enum. Qed.
Next Obligation. solve_enum. Qed.
#[export] Program Instance ArtifactType_enum : StrEnum ArtifactType :=
  {| members := [FINAL_ANSWER; FILE_OBSERVATION; FILE_EDIT; COMMAND_OUTPUT; PR_LINK;
       VERIFIER_EVIDENCE; CONTEXT_PACK; SCOUT_HANDOFF; DEEP_PLAN; DEEP_PLAN_REVISION;
       PHASE_RESULT; WORKER_RESULT; COST_SUMMARY];
     value := ArtifactType_value |}.
Next Obligation. solve_enum. Qed.
Next Obligation. solve_enum. Qed.

(** Instants are microseconds since the epoch.  A naive [datetime] is read as
    UTC wherever the code meets one, so both kinds are the same instant here. *)
Abbreviation instant := Z.

Record AgentRunRequest : Type := {
  req_thread_id : string;
  req_message : string;
  req_org_id : string;
  req_user_id : option string;
  req_profile : enum_arg RunProfile;
  req_recipe : option (enum_arg RunRecipe);
  req_parent_run_id : option Z;
  req_root_run_id : option Z;
  req_target_ref : dict;
  req_workspace_ref : dict;
  req_model_policy : dict;
  req_metadata : dict;
  req_deadline_at : option instant;
}.

(** [AgentRunRequest.__post_init__]: a blank [org_id] is refused, any other is
    stored stripped. *)
Definition AgentRunRequest_post_init (r : AgentRunRequest) : result AgentRunRequest :=
  let org := strip (req_org_id r) in
  if String.eqb org "" then Err (ValueError "AgentRun requires workspace org_id")
  else Ok {| req_thread_id := req_thread_id r; req_message := req_message r;
             req_org_id := org; req_user_id := req_user_id r;
             req_profile := req_profile r; req_recipe := req_recipe r;
             req_parent_run_id := req_parent_run_id r; req_root_run_id := req_root_run_id r;
             req_target_ref := req_target_ref r; req_workspace_ref := req_workspace_ref r;
             req_model_policy := req_model_policy r; req_metadata := req_metadata r;
             req_deadline_at := req_deadline_at r |}.

Definition normalized_profile (r : AgentRunRequest) : RunProfile :=
  _coerce_enum (req_profile r) PROFILE_FAST.

Definition normalized_recipe (r : AgentRunRequest) : RunRecipe :=
  match req_recipe r with
  | Some v => _coerce_enum v RECIPE_FAST
  | None => RECIPE_FAST
  end.

(** * Transitions as a step relation *)

(** One accepted change of status, for a given value of
    [allow_interrupted_requeue]. *)
Definition transition (allow : bool) (s t : RunStatus) : Prop :=
  s <> t /\ ensure_run_transition (Member s) (Member t) allow = Ok (s, t).

Definition any_transition (s t : RunStatus) : Prop := exists allow, transition allow s t.

(** ** Lemmas *)

Lemma coerce_member s d : coerce_run_status (Member s) d = s.
Proof. done. Qed.

Lemma coerce_value s d : coerce_run_status (Raw (value s)) d = s.
Proof. by destruct s, d. Qed.

Lemma coerce_legacy s : s ∈ LEGACY_AGENT_RUN_STATUS_VALUES ->
  forall d, coerce_run_status (Raw s) d = d.
Proof.
  unfold LEGACY_AGENT_RUN_STATUS_VALUES. rewrite !elem_of_cons, elem_of_nil.
  intros [->|[->|[->|[]]]] []; done.
Qed.

Lemma is_terminal_spec s : is_terminal s = true <-> s ∈ TERMINAL_RUN_STATUSES.
Proof. apply bool_decide_eq_true. Qed.

Lemma db_status_cases s : s ∈ AGENT_RUN_DB_STATUS_VALUES ->
  (exists st : RunStatus, s = value st) \/ s ∈ LEGACY_AGENT_RUN_STATUS_VALUES.
Proof.
  unfold AGENT_RUN_DB_STATUS_VALUES, RUN_STATUS_VALUES. rewrite elem_of_app.
  intros [H|H]; [left|by right]. apply list_elem_of_fmap in H as (st & -> & _). eauto.
Qed.

Lemma ensure_member f t allow :
  ensure_run_transition f t allow =
  ensure_run_transition (Member (coerce_run_status f QUEUED))
    (Member (coerce_run_status t QUEUED)) allow.
Proof. done. Qed.

Lemma ensure_ok_inv f t allow c g :
  ensure_run_transition f t allow = Ok (c, g) ->
  c = coerce_run_status f QUEUED /\ g = coerce_run_status t QUEUED /\
  (g = c \/ transition allow c g).
Proof.
  rewrite ensure_member. generalize (coerce_run_status f QUEUED) (coerce_run_status t QUEUED).
  intros x y H.
  assert (x = c /\ y = g) as [-> ->].
  { unfold ensure_run_transition in H. simpl in H. repeat case_match; simplify_eq; done. }
  repeat split; auto. destruct (decide (g = c)); [by left|right]. by split.
Qed.

Lemma transition_source_open allow s t : transition allow s t -> is_terminal s = false.
Proof. intros [Hne H]. by destruct s, t, allow. Qed.

Lemma transition_target allow s t :
  transition allow s t -> t = QUEUED -> s ∈ PROCESSING_RUN_STATUSES /\ allow = true.
Proof. intros [Hne H] ->. destruct s, allow; (done || (split; [set_solver|done])). Qed.

(** ** Properties *)

(** A settled run never changes status again: from COMPLETED, FAILED,
    CANCELED or EXPIRED no sequence of accepted transitions, interrupted
    requeues included, leads to another status. *)
Lemma terminal_statuses_absorbing (s t : RunStatus) :
  is_terminal s = true -> rtc any_transition s t -> t = s.
Proof.
  intros Hs Hr. destruct Hr as [|s u t [allow Hstep] _]; [done|].
  apply transition_source_open in Hstep. congruence.
Qed.

(** Outside an interrupted requeue a run that has left the queue never goes
    back to it, whatever sequence of accepted transitions it takes; with the
    flag set, only a processing status can be put back, in one step. *)
Lemma requeue_only_when_interrupted (s t : RunStatus) :
  (s <> QUEUED -> rtc (transition false) s t -> t <> QUEUED) /\
  (transition true s QUEUED <-> s ∈ PROCESSING_RUN_STATUSES).
Proof.
  split.
  - intros Hs Hr. induction Hr as [|s u t Hstep _ IH]; [done|]. apply IH.
    intros Hu. by destruct (transition_target _ _ _ Hstep Hu).
  - split; [by intros [??]%transition_target|].
    intros H. split; [set_solver|]. revert H. destruct s; simpl; try done;
      intros H; exfalso; revert H; unfold PROCESSING_RUN_STATUSES; set_solver.
Qed.

(** No run can get stuck: every open status can be failed, canceled or
    expired in one accepted transition without the requeue flag, and COMPLETED
    is reachable from it by accepted transitions without the flag. *)
Lemma open_run_can_settle (s : RunStatus) :
  is_terminal s = false ->
  (forall t, t ∈ [FAILED; CANCELED; EXPIRED] -> transition false s t) /\
  rtc (transition false) s COMPLETED.
Proof.
  intros Hs. split.
  - intros t Ht. set_unfold in Ht. destruct Ht as [->|[->|[->|[]]]]; by destruct s.
  - assert (Hr : transition false RUNNING COMPLETED) by done.
    assert (Hst : transition false STARTING RUNNING) by done.
    destruct s; try done.
    + apply rtc_l with STARTING; [done|]. by eapply rtc_l, rtc_once.
    + by eapply rtc_l, rtc_once.
    + by apply rtc_once.
    + apply rtc_l with RUNNING; [done|]. by apply rtc_once.
    + by apply rtc_once.
Qed.

(** The life cycle the transition table allows.  A settled run keeps its
    status through every sequence of accepted transitions, interrupted requeues
    included.  Without the interruption flag a run that has left the queue never
    goes back to it; with the flag exactly the processing statuses can be put
    back, in one step.  And no run can get stuck: every open status can be
    failed, canceled or expired in one step, and can reach COMPLETED, without the
    flag. *)
Theorem status_lifecycle :
  (forall s t, is_terminal s = true -> rtc any_transition s t -> t = s) /\
  (forall s t, s <> QUEUED -> rtc (transition false) s t -> t <> QUEUED) /\
  (forall s, transition true s QUEUED <-> s ∈ PROCESSING_RUN_STATUSES) /\
  (forall s, is_terminal s = false ->
     (forall t, t ∈ [FAILED; CANCELED; EXPIRED] -> transition false s t) /\
     rtc (transition false) s COMPLETED).
Proof.
  split_and!; [apply terminal_statuses_absorbing| |apply (fun s => proj2 (requeue_only_when_interrupted s s))
    |apply open_run_can_settle].
  intros s t. apply requeue_only_when_interrupted.
Qed.

(** Reading a status ignores case and surrounding white space, and nothing
    else: a padded string in any case whose lower form is a status value is
    read as that status, and any other string is read as the default. *)
Theorem coerce_run_status_spec (w1 w2 s : string) (d : RunStatus) :
  all_space w1 -> all_space w2 -> lstrip s = s -> rstrip s = s -> s <> "" ->
  (forall st : RunStatus, lower s = value st -> coerce_run_status (Raw (w1 +:+ s +:+ w2)) d = st) /\
  ((forall st : RunStatus, lower s <> value st) -> coerce_run_status (Raw (w1 +:+ s +:+ w2)) d = d).
Proof.
  intros H1 H2 Hl Hr Hne.
  assert (Hc : candidate_of (Some (w1 +:+ s +:+ w2)) = lower s).
  { unfold candidate_of, str_or. destruct (String.eqb (w1 +:+ s +:+ w2) "") eqn:E.
    - apply String.eqb_eq in E. destruct w1, s; simpl in E; done.
    - rewrite strip_pad by done. unfold strip. by rewrite Hl, Hr. }
  unfold coerce_run_status. rewrite Hc. split.
  - intros st ->. by rewrite first_member_value by apply members_all.
  - intros Hn. destruct (first_member (lower s) members) as [a|] eqn:E; [|done].
    apply first_member_sound in E as [_ E]. by destruct (Hn a).
Qed.

(** Projection for presentation sends every status a database row may
    hold, legacy values included, to the value of a run status; it keeps the
    run statuses themselves, and projecting twice changes nothing. *)
Theorem project_run_status_value_spec (s : string) (fb : option string) :
  s ∈ AGENT_RUN_DB_STATUS_VALUES ->
  exists st : RunStatus, project_run_status_value (Some s) fb = value st /\
    (forall st' : RunStatus, s = value st' -> st = st') /\
    project_run_status_value (Some (value st)) fb = value st.
Proof.
  intros H. apply db_status_cases in H as [[st ->]|Hl].
  - exists st. repeat split; [by destruct st| |by destruct st].
    intros st'. apply value_inj.
  - unfold LEGACY_AGENT_RUN_STATUS_VALUES in Hl. set_unfold in Hl.
    destruct Hl as [->|[->|[->|[]]]]; [exists CANCELED|exists FAILED|exists FAILED];
      (split; [done|split; [intros []; done|done]]).
Qed.

(** ** Instances *)

Lemma coerce_run_status_spec_witness :
  coerce_run_status (Raw ("  " +:+ "RunNing" +:+ " ")) FAILED = RUNNING.
Proof.
  destruct (coerce_run_status_spec "  " " " "RunNing" FAILED) as [H1 _];
    [reflexivity|reflexivity|reflexivity|reflexivity|discriminate|].
  apply H1. reflexivity.
Defined.

Lemma project_run_status_value_spec_witness :
  exists st : RunStatus, project_run_status_value (Some "blocked") None = value st.
Proof.
  destruct (project_run_status_value_spec "blocked" None) as (st & H1 & _).
  - vm_compute. do 11 right. left.
  - exists st. exact H1.
Defined.
