(* ===== verification/Failures.v ===== *)
(** Typed run failures: [brain/systems/runs/failures.py] (categories and the
    user-safe terminal messages) and [brain/systems/runs/failure_diagnostic.py]
    (the failure envelope a run row stores, and its projection back into a
    diagnostic). *)
From S2P Require Import Prelude.
From S2P Require Import PyStr.
From S2P Require Import Json.
From S2P Require Import Status.
Open Scope string_scope.
Open Scope bool_scope.
Open Scope list_scope.

(** * failures.py *)

Inductive RunFailureCategory : Type :=
| CAT_INTERNAL | CAT_UPSTREAM | CAT_VERIFICATION | CAT_PRESERVATION_SETUP
| CAT_CREDENTIAL_EXPIRED.

#[export] Instance RunFailureCategory_eq_dec : EqDecision RunFailureCategory.
Proof. solve_decision. Defined.

Definition RunFailureCategory_value (c : RunFailureCategory) : string :=
  match c with
  | CAT_INTERNAL => "internal" | CAT_UPSTREAM => "upstream"
  | CAT_VERIFICATION => "verification" | CAT_PRESERVATION_SETUP => "preservation_setup"
  | CAT_CREDENTIAL_EXPIRED => "credential_expired"
  end.

#[export] Program Instance RunFailureCategory_enum : StrEnum RunFailureCategory :=
  {| members := [CAT_INTERNAL; CAT_UPSTREAM; CAT_VERIFICATION; CAT_PRESERVATION_SETUP;
       CAT_CREDENTIAL_EXPIRED];
     value := RunFailureCategory_value |}.
Next Obligation. solve_enum. Qed.
Next Obligation. solve_enum. Qed.

Definition DEFAULT_FAILED_RUN_MESSAGE : string :=
  "I failed on this and it is still open — I will come back.".
Definition UPSTREAM_FAILED_RUN_MESSAGE : string :=
  "I hit a temporary upstream problem on this and it is still open — I will come back.".
Definition VERIFICATION_FAILED_RUN_MESSAGE : string :=
  "I couldn't safely verify this and it is still open — I will come back.".
Definition PRESERVATION_SETUP_FAILED_RUN_MESSAGE : string :=
  "Illo could not start the preservation workflow before a durable-storage tool ran. Resubmit this with a new idempotency key. If it fails again, check the run provider and preservation-tool configuration.".
Definition CANCELED_RUN_MESSAGE : string :=
  "That run was canceled before it finished, but the ask is still open — I will come back.".
Definition EXPIRED_RUN_MESSAGE : string :=
  "That run timed out before it finished, but the ask is still open — I will come back.".
(** [str(CodexCredentialExpiredError())]. *)
Definition CREDENTIAL_EXPIRED_MESSAGE : string :=
  "credential_expired: OpenAI Codex / ChatGPT credentials expired or were revoked. Sign in again in Illo Settings.".

Definition coerce_failure_category (v : enum_arg RunFailureCategory) : RunFailureCategory :=
  match v with
  | Member c => c
  | Raw s => default CAT_INTERNAL (first_member (candidate_of (Some s)) members)
  | Absent => default CAT_INTERNAL (first_member (candidate_of None) members)
  end.

(** The status both message functions start from: an enum member as it is,
    anything else projected with FAILED as the fallback and then coerced. *)
Definition normalized_terminal_status (status : enum_arg RunStatus) : RunStatus :=
  match status with
  | Member s => coerce_run_status (Member s) FAILED
  | Raw s => coerce_run_status (Raw (project_run_status_value (Some s) (Some (value FAILED)))) FAILED
  | Absent => coerce_run_status (Raw (project_run_status_value None (Some (value FAILED)))) FAILED
  end.

Definition safe_terminal_run_message (status : enum_arg RunStatus)
    (category : enum_arg RunFailureCategory) : option string :=
  let run_status := normalized_terminal_status status in
  if decide (run_status = COMPLETED) then None
  else if decide (run_status = CANCELED) then Some CANCELED_RUN_MESSAGE
  else if decide (run_status = EXPIRED) then Some EXPIRED_RUN_MESSAGE
  else Some match coerce_failure_category category with
       | CAT_CREDENTIAL_EXPIRED => CREDENTIAL_EXPIRED_MESSAGE
       | CAT_UPSTREAM => UPSTREAM_FAILED_RUN_MESSAGE
       | CAT_VERIFICATION => VERIFICATION_FAILED_RUN_MESSAGE
       | CAT_PRESERVATION_SETUP => PRESERVATION_SETUP_FAILED_RUN_MESSAGE
       | CAT_INTERNAL => DEFAULT_FAILED_RUN_MESSAGE
       end.

Definition terminal_run_notice_condition (status : enum_arg RunStatus)
    (category : enum_arg RunFailureCategory) : option string :=
  let run_status := normalized_terminal_status status in
  if decide (run_status = COMPLETED) then None
  else Some ("terminal:" +:+ value run_status +:+ ":" +:+
             value (coerce_failure_category category)).

Record PublicRunFailure : Type := {
  public_status : string;
  public_category : string;
  public_message : string;
}.

Definition public_run_failure (status : enum_arg RunStatus)
    (category : enum_arg RunFailureCategory) : option PublicRunFailure :=
  let run_status := normalized_terminal_status status in
  match safe_terminal_run_message (Member run_status) category with
  | None => None
  | Some message =>
      Some {| public_status := value run_status;
              public_category := value (coerce_failure_category category);
              public_message := message |}
  end.

(** * failure_diagnostic.py *)

Definition _DIAGNOSTIC_SCHEMA : string := "typed_v1".
Definition _EXCEPTION_CLASS_WITHHELD : string := "exception_class_withheld".

Inductive RunFailureStage : Type :=
| RUNNER_EXECUTION | PROJECT_CONTEXT_MATERIALIZATION | RECIPE_EXECUTION
| AGENT_EXECUTION | COMPLETION_VERIFICATION | RUNNER_SETTLEMENT | STAGE_UNKNOWN.

#[export] Instance RunFailureStage_eq_dec : EqDecision RunFailureStage.
Proof. solve_decision. Defined.

Definition RunFailureStage_value (s : RunFailureStage) : string :=
  match s with
  | RUNNER_EXECUTION => "runner_execution"
  | PROJECT_CONTEXT_MATERIALIZATION => "project_context_materialization"
  | RECIPE_EXECUTION => "recipe_execution" | AGENT_EXECUTION => "agent_execution"
  | COMPLETION_VERIFICATION => "completion_verification"
  | RUNNER_SETTLEMENT => "runner_settlement" | STAGE_UNKNOWN => "unknown"
  end.

#[export] Program Instance RunFailureStage_enum : StrEnum RunFailureStage :=
  {| members := [RUNNER_EXECUTION; PROJECT_CONTEXT_MATERIALIZATION; RECIPE_EXECUTION;
       AGENT_EXECUTION; COMPLETION_VERIFICATION; RUNNER_SETTLEMENT; STAGE_UNKNOWN];
     value := RunFailureStage_value |}.
Next Obligation. solve_enum. Qed.
Next Obligation. solve_enum. Qed.

Definition _PRE_TOOL_PRESERVATION_FAILURE_STAGES : list RunFailureStage :=
  [RUNNER_EXECUTION; PROJECT_CONTEXT_MATERIALIZATION; RECIPE_EXECUTION; AGENT_EXECUTION].

Inductive DiagnosticValueState : Type := KNOWN | UNKNOWN | REDACTED.

(** An exception class, with its name and module; whether a class of that name
    is what the module holds is asked of [module_level] below. *)
Record exception_type : Type := {
  exc_name : string;
  exc_module : string;
}.

Section diagnostics.
(** [_module_level_exception_type(module, name)]: the exception class
    [sys.modules] holds under that name, if it holds one.  The interpreter's
    module table is an argument of the model. *)
  Variable module_level : string -> string -> option exception_type.

#[local] Instance exception_type_eq_dec : EqDecision exception_type.
Proof. solve_decision. Defined.

Definition failure_diagnostic_metadata (stage : RunFailureStage)
    (exc : option exception_type) : result dict :=
  if decide (stage = STAGE_UNKNOWN)
  then Err (ValueError "failure producers cannot write an unknown stage")
  else
    Ok ([("diagnostic_schema", JStr _DIAGNOSTIC_SCHEMA); ("stage", JStr (value stage))] ++
      match exc with
      | None => []
      | Some e =>
          if decide (module_level (exc_module e) (exc_name e) = Some e)
          then [("exception_class", JStr (exc_name e)); ("exception_module", JStr (exc_module e))]
          else [(_EXCEPTION_CLASS_WITHHELD, JBool true)]
      end).

Definition run_failure_metadata (category : RunFailureCategory) (stage : RunFailureStage)
    (exc : option exception_type) : result dict :=
  match failure_diagnostic_metadata stage exc with
  | Ok d => Ok (("category", JStr (value category)) :: d)
  | Err e => Err e
  end.

Definition _stage_projection (m : dict) : RunFailureStage * DiagnosticValueState :=
  match jget "stage" m with
  | None => (STAGE_UNKNOWN, UNKNOWN)
  | Some (JStr s) =>
      match first_member s members with
      | None => (STAGE_UNKNOWN, REDACTED)
      | Some STAGE_UNKNOWN => (STAGE_UNKNOWN, UNKNOWN)
      | Some stage => (stage, KNOWN)
      end
  | Some _ => (STAGE_UNKNOWN, REDACTED)
  end.

Definition _exception_class_projection (m : dict) : option string * DiagnosticValueState :=
  let typed := match jget "diagnostic_schema" m with
               | Some (JStr s) => String.eqb s _DIAGNOSTIC_SCHEMA
               | _ => false
               end in
  match jget "exception_class" m with
  | None =>
      match jget _EXCEPTION_CLASS_WITHHELD m with
      | Some (JBool true) => if typed then (None, REDACTED) else (None, UNKNOWN)
      | _ => (None, UNKNOWN)
      end
  | Some (JStr c) =>
      if negb typed || String.eqb c "" then (None, REDACTED)
      else match jget "exception_module" m with
           | Some (JStr md) =>
               match module_level md c with
               | Some _ => (Some c, KNOWN)
               | None => (None, REDACTED)
               end
           | _ => (None, REDACTED)
           end
  | Some _ => (None, REDACTED)
  end.

Definition agent_start_retry_diagnostic_metadata (stage : RunFailureStage)
    (exc : option exception_type) : result (option dict) :=
  if decide (stage = AGENT_EXECUTION) then
    match failure_diagnostic_metadata stage exc with
    | Err e => Err e
    | Ok m =>
        match _exception_class_projection m with
        | (Some c, KNOWN) => if String.eqb c "ConnectError" then Ok (Some m) else Ok None
        | _ => Ok None
        end
    end
  else Ok None.

Definition failure_category_for_run_context (category : enum_arg RunFailureCategory)
    (requires_durable_preservation tool_execution_started : bool)
    (failure_stage : RunFailureStage) : RunFailureCategory :=
  let resolved := coerce_failure_category category in
  if bool_decide (resolved = CAT_INTERNAL) && requires_durable_preservation
     && negb tool_execution_started
     && bool_decide (failure_stage ∈ _PRE_TOOL_PRESERVATION_FAILURE_STAGES)
  then CAT_PRESERVATION_SETUP else resolved.

Record RunFailureDiagnostic : Type := {
  diag_stage : RunFailureStage;
  diag_stage_state : DiagnosticValueState;
  diag_exception_class : option string;
  diag_exception_class_state : DiagnosticValueState;
  diag_tool_execution_started : bool;
  diag_terminal : bool;
  diag_retry_scheduled : bool;
}.

(** [x is b] against the booleans. *)
Definition is_jbool (b : bool) (j : json) : bool :=
  match j with JBool b' => Bool.eqb b b' | _ => false end.

Definition jstr_is (j : json) (s : string) : bool :=
  match j with JStr s' => String.eqb s' s | _ => false end.

(** [read_run_failure_diagnostic], from the row's status and metadata and the
    answer of [run_tool_execution_started]. *)
Definition read_run_failure_diagnostic (run_status : string) (metadata : dict)
    (tool_execution_started : bool) : option RunFailureDiagnostic :=
  let interruption := as_dict (jget_or_null "interruption" metadata) in
  let agent_start_interrupted :=
    jstr_is (jget_or_null "reason" interruption) "agent_start_connect_error"
    && is_obj (jget_or_null "failure" interruption) in
  let retry_scheduled :=
    String.eqb run_status "queued" && agent_start_interrupted
    && is_jbool true (jget_or_null "requeued" interruption) in
  let exhausted :=
    String.eqb run_status "expired" && agent_start_interrupted
    && is_jbool false (jget_or_null "requeued" interruption) in
  if negb (String.eqb run_status "failed") && negb retry_scheduled && negb exhausted
  then None
  else
    let stored_failure :=
      if retry_scheduled || exhausted then jget_or_null "failure" interruption
      else jget_or_null "failure" metadata in
    let failure_metadata := as_dict stored_failure in
    let '(stage, stage_state) := _stage_projection failure_metadata in
    let '(cls, cls_state) := _exception_class_projection failure_metadata in
    Some {| diag_stage := stage; diag_stage_state := stage_state;
            diag_exception_class := cls; diag_exception_class_state := cls_state;
            diag_tool_execution_started := tool_execution_started;
            diag_terminal := negb retry_scheduled;
            diag_retry_scheduled := retry_scheduled |}.

(** ** Properties *)

(** Round trip of the failure envelope: what [run_failure_metadata]
    writes for a stage and an exception class, the reader projects back as
    that stage, KNOWN, and as the class's name, KNOWN, exactly when the class
    is the one its module holds under its name; otherwise the name is
    REDACTED, and without an exception it is UNKNOWN. *)
Theorem failure_envelope_roundtrip category stage exc started d :
  run_failure_metadata category stage exc = Ok d ->
  (forall e, exc = Some e -> exc_name e <> "") ->
  read_run_failure_diagnostic "failed" [("failure", JObj d)] started =
  Some {| diag_stage := stage; diag_stage_state := KNOWN;
          diag_exception_class :=
            match exc with
            | Some e => if decide (module_level (exc_module e) (exc_name e) = Some e)
                        then Some (exc_name e) else None
            | None => None
            end;
          diag_exception_class_state :=
            match exc with
            | Some e => if decide (module_level (exc_module e) (exc_name e) = Some e)
                        then KNOWN else REDACTED
            | None => UNKNOWN
            end;
          diag_tool_execution_started := started;
          diag_terminal := true; diag_retry_scheduled := false |}.
Proof.
  intros Hm Hne. unfold run_failure_metadata, failure_diagnostic_metadata in Hm.
  destruct (decide (stage = STAGE_UNKNOWN)) as [|Hs]; [done|]. simplify_eq.
  unfold read_run_failure_diagnostic. simpl.
  assert (Hst : forall l, _stage_projection
    (("category", JStr (value category)) :: ("diagnostic_schema", JStr _DIAGNOSTIC_SCHEMA)
      :: ("stage", JStr (value stage)) :: l) = (stage, KNOWN)) by (by destruct stage).
  rewrite Hst. destruct exc as [e|]; [|done]. case_decide as Hd; [|done].
  unfold _exception_class_projection. simpl.
  rewrite (proj2 (String.eqb_neq _ _) (Hne e eq_refl)), Hd. done.
Qed.
End diagnostics.

(** ** Instances *)

Lemma failure_envelope_roundtrip_witness :
  let connect := {| exc_name := "ConnectError"; exc_module := "httpx" |} in
  let table m n := if String.eqb m "httpx" && String.eqb n "ConnectError" then Some connect else None in
  exists d, run_failure_metadata table CAT_UPSTREAM AGENT_EXECUTION (Some connect) = Ok d /\
    (diag_exception_class <$> read_run_failure_diagnostic table "failed" [("failure", JObj d)] true)
    = Some (Some "ConnectError").
Proof.
  intros connect table. eexists. split; [reflexivity|].
  rewrite (failure_envelope_roundtrip table CAT_UPSTREAM AGENT_EXECUTION (Some connect) true _).
  - reflexivity.
  - reflexivity.
  - intros e [= <-]. discriminate.
Defined.
