(* ===== verification/RunLease.v ===== *)
(** The contract of the execution lease, as an abstract machine.

    What a worker may rely on about a run is three things: where its life cycle
    stands, how many attempts were granted, and who holds the current one.  The
    machine below is the specification: an attempt is granted only when nobody
    holds the run, each grant has a number of its own, a holder may be dropped,
    and the status moves along the transition table, dropping the holder
    whenever the run settles, pauses or goes back to the queue.
    [RunEvolution] shows that the store's operations are steps of it. *)
From S2P Require Import Prelude.
From S2P Require Import PyStr.
From S2P Require Import Json.
From S2P Require Import Status.
Open Scope string_scope.
Open Scope bool_scope.
Open Scope list_scope.

(** * The machine *)

Record lease : Type := {
  phase : RunStatus;
  attempt : Z;
  holder : option string;
}.

(** Settling, pausing and requeueing give the run up. *)
Definition gives_up (target : RunStatus) : bool :=
  is_terminal target || status_in target [PAUSED; QUEUED].

Inductive lease_step : lease -> lease -> Prop :=
| lease_grant p n token :
    is_terminal p = false ->
    lease_step {| phase := p; attempt := n; holder := None |}
               {| phase := RUNNING; attempt := n + 1; holder := Some token |}
| lease_drop p n h :
    lease_step {| phase := p; attempt := n; holder := h |}
               {| phase := p; attempt := n; holder := None |}
| lease_move allow p q n h :
    transition allow p q ->
    lease_step {| phase := p; attempt := n; holder := h |}
               {| phase := q; attempt := n; holder := if gives_up q then None else h |}.

(** A lease is held only while the run is running or verifying. *)
Definition lease_ok (l : lease) : Prop :=
  (0 <= attempt l)%Z /\ (holder l <> None -> phase l = RUNNING \/ phase l = VERIFYING).

(** The table of all runs: one run takes a step, or a new one arrives. *)
Inductive table_step (m : gmap Z lease) : gmap Z lease -> Prop :=
| table_arrive i l : m !! i = None -> lease_ok l -> table_step m (<[i := l]> m)
| table_act i l l' : m !! i = Some l -> lease_step l l' -> table_step m (<[i := l']> m).

(** * What the machine guarantees *)

Lemma open_reaches_running st : is_terminal st = false -> rtc any_transition st RUNNING.
Proof.
  intros Hst. assert (H1 : any_transition STARTING RUNNING) by (by exists false).
  destruct st; try done.
  - eapply rtc_l; [|by apply rtc_once]. by exists false.
  - by apply rtc_once.
  - apply rtc_once. by exists false.
  - apply rtc_once. by exists false.
Qed.

Lemma lease_step_ok l l' : lease_step l l' -> lease_ok l -> lease_ok l'.
Proof.
  destruct 1 as [p n t Hp|p n h|a p q n h Ht]; intros [Hn Hh]; split; simpl in *;
    [lia|by left|lia|done|lia|].
  intros Hq. destruct (gives_up q) eqn:Eg; [done|]. destruct (Hh Hq) as [-> | ->];
    destruct q, a; try done; try (by left); try (by right); by destruct Ht.
Qed.

Lemma lease_status l l' : rtc lease_step l l' -> rtc any_transition (phase l) (phase l').
Proof.
  induction 1 as [|l m n [p k t Hp|p k h|a p q k h Ht] _ IH]; [done|simpl in *..|].
  - etrans; [by apply open_reaches_running|done].
  - done.
  - eapply rtc_l; [by exists a|done].
Qed.

Lemma lease_attempt l l' : rtc lease_step l l' -> (attempt l <= attempt l')%Z.
Proof. induction 1 as [|l m n [] _ IH]; [done|simpl in *; lia..]. Qed.

(** Within one attempt the holder is kept or dropped, never replaced. *)
Lemma lease_holder l l' : rtc lease_step l l' -> attempt l' = attempt l ->
  holder l' = holder l \/ holder l' = None.
Proof.
  induction 1 as [l|l m n Hs Hr IH]; [by left|]. intros E. apply lease_attempt in Hr.
  destruct Hs as [p k t Hp|p k h|a p q k h Ht]; simpl in *; [lia| |].
  - destruct (IH E); by right.
  - destruct (IH E) as [->|]; [|by right]. destruct (gives_up q); auto.
Qed.

(** * Tables of leases *)

Lemma table_absent m m' i : table_step m m' -> m' !! i = None -> m !! i = None.
Proof. destruct 1; by intros [? ?]%lookup_insert_None. Qed.

(** Steps of other runs leave one run alone. *)
Lemma table_frame m m' i l : rtc table_step m m' -> m' !! i = None ->
  m !! i = None /\ rtc table_step (<[i := l]> m) (<[i := l]> m').
Proof.
  intros Hr Hi. induction Hr as [m|m m1 m2 Hs _ IH]; [done|].
  destruct (IH Hi) as [H1 H2]. split; [by eapply table_absent|].
  eapply rtc_l; [|exact H2]. destruct Hs as [j k Hj Hk|j k k' Hj Hk];
    apply lookup_insert_None in H1 as [_ Hne]; rewrite insert_insert_ne by done.
  - apply table_arrive; [by rewrite lookup_insert_ne|done].
  - eapply table_act; [by rewrite lookup_insert_ne|done].
Qed.

Lemma table_one m i l l' : m !! i = Some l -> rtc lease_step l l' ->
  rtc table_step m (<[i := l']> m).
Proof.
  intros Hi Hr. revert m Hi. induction Hr as [l|l l1 l2 Hs _ IH]; intros m Hi;
    [by rewrite insert_id|].
  eapply rtc_l; [by eapply table_act|].
  rewrite <- (insert_insert_eq m i l2 l1). apply IH. by rewrite lookup_insert_eq.
Qed.

(** Runs that each evolve along the machine, and new ones that arrive in good
    order, evolve together as one table. *)
Lemma table_pointwise (m' m : gmap Z lease) :
  (forall i l, m !! i = Some l -> exists l', m' !! i = Some l' /\ rtc lease_step l l') ->
  (forall i l, m' !! i = Some l -> lease_ok l) ->
  rtc table_step m m'.
Proof.
  revert m. induction m' as [|i x m' Hi IH] using map_ind; intros m Hold Hok.
  - replace m with (∅ : gmap Z lease); [done|]. symmetry. apply map_eq. intros i.
    rewrite lookup_empty. destruct (m !! i) as [l|] eqn:E; [|done].
    by destruct (Hold i l E) as (? & ? & _).
  - assert (Hx : rtc table_step m (<[i := x]> m)).
    { destruct (m !! i) as [l|] eqn:E.
      - destruct (Hold i l E) as (l' & Hl & Hr). rewrite lookup_insert_eq in Hl.
        injection Hl as <-. by eapply table_one.
      - apply rtc_once, table_arrive; [done|]. apply (Hok i). by rewrite lookup_insert_eq. }
    etrans; [exact Hx|]. rewrite <- (insert_delete_eq m i x).
    apply table_frame; [|done]. apply IH.
    + intros j l Hj. apply lookup_delete_Some in Hj as [Hne Hj].
      destruct (Hold j l Hj) as (l' & Hl & Hr). rewrite lookup_insert_ne in Hl by done. eauto.
    + intros j l Hj. apply (Hok j). rewrite lookup_insert_ne; [done|]. congruence.
Qed.
