(* ===== verification/RunStore.v ===== *)
(** The persistence boundary of agent runs, [brain/systems/runs/store.py]: the
    tables it writes, the session it writes them through, and its operations.

    A session sees a [pending] database; [commit] publishes it and [rollback]
    returns to the [committed] one.  Every UPDATE the code issues is a list of
    column assignments guarded by a list of predicates on the row with the given
    id.  Row locks are recorded in [lock_log]; [foreign_locks] holds the runs
    other transactions have locked, which matters only to SKIP LOCKED.
    [incoming] are runs other transactions commit while this one waits on an
    insert.  Collaborators outside this component are called through
    [hook_calls]. *)
From S2P Require Import Prelude.
From S2P Require Import PyStr.
From S2P Require Import Json.
From S2P Require Import Status.
From S2P Require Import Failures.
Open Scope string_scope.
Open Scope bool_scope.
Open Scope list_scope.

(** * Tables *)

(** The columns of [agent_runs] the store writes only at insertion. *)
Record run_spec : Type := {
  trace_id : option string;
  org_id : option string;
  user_id : option string;
  thread_id : string;
  parent_run_id : option Z;
  root_run_id : option Z;
  profile : string;
  recipe : string;
  input_message : string;
  target_ref : dict;
  workspace_ref : dict;
  model_policy : dict;
  context_summary : option string;
  source_idempotency_scope : option string;
  source_idempotency_key : option string;
  parent_step_key_hash : option string;
  created_at : instant;
  deadline_at : option instant;
}.

(** [AgentRunRow]: the columns above and those updated later. *)
Record run_row : Type := {
  run_id : Z;
  spec : run_spec;
  status : string;
  metadata_ : dict;
  closeout_expires_at : option instant;
  execution_token : option string;
  execution_attempt : Z;
  started_at : option instant;
  paused_at : option instant;
  completed_at : option instant;
  failed_at : option instant;
  canceled_at : option instant;
  expired_at : option instant;
  updated_at : instant;
}.

Record event_row : Type := {
  ev_id : Z;
  ev_run_id : Z;
  ev_root_run_id : option Z;
  ev_sequence_no : Z;
  ev_type : string;
  ev_payload : dict;
  ev_producer : string;
  ev_visibility : string;
  ev_created_at : instant;
}.

Record artifact_row : Type := {
  art_id : Z;
  art_run_id : Z;
  art_root_run_id : option Z;
  art_type : string;
  art_title : option string;
  art_payload : dict;
  art_text : option string;
  art_uri : option string;
  art_visibility : string;
  art_created_at : instant;
}.

(** The columns of [cycle_runs] that runs read or write. *)
Record cycle_run : Type := {
  cyc_id : Z;
  cyc_run_id : option Z;
  context_snapshot : dict;
}.

Record db : Type := {
  runs : gmap Z run_row;
  events : list event_row;
  artifacts : list artifact_row;
  cycle_runs : gmap Z cycle_run;
  next_run_id : Z;
  next_event_id : Z;
  next_artifact_id : Z;
}.

(** The column assignments of an UPDATE. *)
Inductive assign : Type :=
| SetStatus (s : string)
| SetMetadata (m : dict)
| SetCloseoutExpiresAt (t : option instant)
| SetToken (t : option string)
| SetAttempt (n : Z)
| SetStartedAt (t : option instant)
| SetPausedAt (t : option instant)
| SetCompletedAt (t : option instant)
| SetFailedAt (t : option instant)
| SetCanceledAt (t : option instant)
| SetExpiredAt (t : option instant)
| SetUpdatedAt (t : instant).

Definition apply_assign (r : run_row) (a : assign) : run_row :=
  let 'Build_run_row i sp st m cl tok att sa pa co fa ca ex up := r in
  match a with
  | SetStatus st' => Build_run_row i sp st' m cl tok att sa pa co fa ca ex up
  | SetMetadata m' => Build_run_row i sp st m' cl tok att sa pa co fa ca ex up
  | SetCloseoutExpiresAt cl' => Build_run_row i sp st m cl' tok att sa pa co fa ca ex up
  | SetToken tok' => Build_run_row i sp st m cl tok' att sa pa co fa ca ex up
  | SetAttempt att' => Build_run_row i sp st m cl tok att' sa pa co fa ca ex up
  | SetStartedAt sa' => Build_run_row i sp st m cl tok att sa' pa co fa ca ex up
  | SetPausedAt pa' => Build_run_row i sp st m cl tok att sa pa' co fa ca ex up
  | SetCompletedAt co' => Build_run_row i sp st m cl tok att sa pa co' fa ca ex up
  | SetFailedAt fa' => Build_run_row i sp st m cl tok att sa pa co fa' ca ex up
  | SetCanceledAt ca' => Build_run_row i sp st m cl tok att sa pa co fa ca' ex up
  | SetExpiredAt ex' => Build_run_row i sp st m cl tok att sa pa co fa ca ex' up
  | SetUpdatedAt up' => Build_run_row i sp st m cl tok att sa pa co fa ca ex up'
  end.

Definition apply_assigns (l : list assign) (r : run_row) : run_row :=
  fold_left apply_assign l r.
#[global] Arguments apply_assigns : simpl never.

Definition with_runs (d : db) (rs : gmap Z run_row) : db :=
  {| runs := rs; events := events d; artifacts := artifacts d; cycle_runs := cycle_runs d;
     next_run_id := next_run_id d; next_event_id := next_event_id d;
     next_artifact_id := next_artifact_id d |}.

Definition with_cycle_runs (d : db) (cs : gmap Z cycle_run) : db :=
  {| runs := runs d; events := events d; artifacts := artifacts d; cycle_runs := cs;
     next_run_id := next_run_id d; next_event_id := next_event_id d;
     next_artifact_id := next_artifact_id d |}.

(** * The session *)

Inductive Dialect : Type := Postgresql | Sqlite | OtherDialect.
#[export] Instance Dialect_eq_dec : EqDecision Dialect.
Proof. solve_decision. Defined.

Inductive lock_mode : Type := FOR_KEY_SHARE | FOR_NO_KEY_UPDATE | FOR_UPDATE.
Inductive lock_event : Type :=
| LockRow (run : Z) (mode : lock_mode)
| LockStream (run : Z)
| LockCycleRun (cycle_run : Z).

(** Calls into components this file does not model, in order. *)
Inductive hook_call : Type :=
| ReconcileInboundTriage (run : Z)
| QueueChantierContinuation (run : Z)
| FinalizeCycleRun (run : Z) (status : string).

(** [ExecutionClaim]: the durable fence of one attempt.  Its [lost] event is
    shared between the holders of the object and lives in the store state. *)
Record ExecutionClaim : Type := {
  claim_of : Z;
  claim_token : string;
  claim_attempt : Z;
}.

Abbreviation claim_key := (Z * string * Z)%type.
Definition key_of (c : ExecutionClaim) : claim_key :=
  (claim_of c, claim_token c, claim_attempt c).

Record store : Type := {
  committed : db;
  pending : db;
  auto_commit : bool;
  dialect : Dialect;
  foreign_locks : gset Z;
  incoming : list run_row;
  lock_log : list lock_event;
  lost_claims : gset claim_key;
  hook_calls : list hook_call;
  now : instant;
}.

Definition set_pending (d : db) (s : store) : store :=
  Build_store (committed s) d (auto_commit s) (dialect s) (foreign_locks s) (incoming s)
    (lock_log s) (lost_claims s) (hook_calls s) (now s).
Definition set_committed (d : db) (s : store) : store :=
  Build_store d (pending s) (auto_commit s) (dialect s) (foreign_locks s) (incoming s)
    (lock_log s) (lost_claims s) (hook_calls s) (now s).
Definition set_auto_commit (b : bool) (s : store) : store :=
  Build_store (committed s) (pending s) b (dialect s) (foreign_locks s) (incoming s)
    (lock_log s) (lost_claims s) (hook_calls s) (now s).
Definition set_incoming (l : list run_row) (s : store) : store :=
  Build_store (committed s) (pending s) (auto_commit s) (dialect s) (foreign_locks s) l
    (lock_log s) (lost_claims s) (hook_calls s) (now s).
Definition log_locks (l : list lock_event) (s : store) : store :=
  Build_store (committed s) (pending s) (auto_commit s) (dialect s) (foreign_locks s) (incoming s)
    (lock_log s ++ l) (lost_claims s) (hook_calls s) (now s).
Definition set_lost (c : ExecutionClaim) (s : store) : store :=
  Build_store (committed s) (pending s) (auto_commit s) (dialect s) (foreign_locks s) (incoming s)
    (lock_log s) ({[key_of c]} ∪ lost_claims s) (hook_calls s) (now s).
Definition call_hook (h : hook_call) (s : store) : store :=
  Build_store (committed s) (pending s) (auto_commit s) (dialect s) (foreign_locks s) (incoming s)
    (lock_log s) (lost_claims s) (hook_calls s ++ [h]) (now s).

Abbreviation DB := (M store).

Definition commit : DB unit := modify (fun s => set_committed (pending s) s).
Definition rollback : DB unit := modify (fun s => set_pending (committed s) s).
Definition put_db (d : db) : DB unit := modify (set_pending d).
Definition commit_if_auto : DB unit :=
  s <- get ;; when_ (auto_commit s) commit.

(** [claim.lost.is_set()]. *)
Definition claim_lost (c : ExecutionClaim) (s : store) : bool :=
  bool_decide (key_of c ∈ lost_claims s).

(** * Queries *)

Definition all_runs (d : db) : list run_row := (map_to_list (runs d)).*2.

(** ORDER BY id ASC. *)
Definition by_id (l : list run_row) : list run_row :=
  py_sorted (fun a b => Z.leb (run_id a) (run_id b)) l.

(** ORDER BY created_at ASC, id ASC. *)
Definition created_leb (a b : run_row) : bool :=
  Z.ltb (created_at (spec a)) (created_at (spec b))
  || (Z.eqb (created_at (spec a)) (created_at (spec b)) && Z.leb (run_id a) (run_id b)).
Definition by_created (l : list run_row) : list run_row := py_sorted created_leb l.

(** SQL equality of a nullable column with a value: NULL equals nothing. *)
Definition sql_eq_str (c : option string) (v : string) : bool :=
  match c with Some s => String.eqb s v | None => false end.
Definition sql_eq_int (c : option Z) (v : Z) : bool :=
  match c with Some z => Z.eqb z v | None => false end.

(** [UPDATE agent_runs SET .. WHERE id = .. AND ..], with the column default
    [onupdate=now()] for [updated_at]; answers whether a row matched. *)
Definition update_run (id : Z) (preds : list (run_row -> bool)) (l : list assign) : DB bool :=
  s <- get ;;
  match runs (pending s) !! id with
  | Some r =>
      if forallb (fun p => p r) preds
      then put_db (with_runs (pending s)
             (<[id := apply_assigns (SetUpdatedAt (now s) :: l) r]> (runs (pending s)))) ;;;
           ret true
      else ret false
  | None => ret false
  end.

Definition refresh_run (id : Z) : DB run_row :=
  s <- get ;;
  match runs (pending s) !! id with
  | Some r => ret r
  | None => raise (LookupError "Run not found")
  end.

Definition _refresh_run_or_none (id : Z) : DB (option run_row) :=
  catch (r <- refresh_run id ;; ret (Some r))
    (fun e => match e with LookupError _ => ret None | _ => raise e end).

Definition get_run (id : Z) : DB (option run_row) :=
  gets (fun s => runs (pending s) !! id).

Definition require_run (id : Z) : DB run_row :=
  r <- get_run id ;;
  match r with Some r => ret r | None => raise (LookupError "Run not found") end.

Definition metadata_for_run (id : Z) : DB dict :=
  r <- require_run id ;; ret (metadata_ r).

(** * Locks *)

(** [sorted({..})] on run ids. *)
Definition sorted_ids (l : list Z) : list Z := py_sorted Z.leb (remove_dups l).

Definition _acquire_agent_run_locks (run_ids : list (option Z))
    (key_share no_key_update skip_locked : bool) : DB (list Z) :=
  let lock_ids := sorted_ids (omap id run_ids) in
  s <- get ;;
  if Nat.eqb (length lock_ids) 0 || negb (bool_decide (dialect s = Postgresql))
  then ret []
  else
    let mode := if key_share then FOR_KEY_SHARE
                else if no_key_update then FOR_NO_KEY_UPDATE else FOR_UPDATE in
    let locked := filter (fun i => is_Some (runs (pending s) !! i) /\
                                   (skip_locked = true -> i ∉ foreign_locks s)) lock_ids in
    modify (log_locks ((fun i => LockRow i mode) <$> locked)) ;;;
    ret locked.

(** [for lock_id in sorted({root_run_id, run_id}): ..]: the roots in share mode,
    the run itself in the mutable mode. *)
Fixpoint _lock_all (id : Z) (skip_locked : bool) (ids : list Z) : DB (option run_row) :=
  match ids with
  | [] => _refresh_run_or_none id
  | lock_id :: ids' =>
      locked <- _acquire_agent_run_locks [Some lock_id] (negb (Z.eqb lock_id id))
                  (Z.eqb lock_id id) skip_locked ;;
      if bool_decide (lock_id ∈ locked) then _lock_all id skip_locked ids' else ret None
  end.

Definition _lock_run (id : Z) (root : option Z) (skip_locked : bool) : DB (option run_row) :=
  s <- get ;;
  if negb (bool_decide (dialect s = Postgresql)) then _refresh_run_or_none id
  else
    match root with
    | None =>
        snapshot <- _refresh_run_or_none id ;;
        match snapshot with
        | None => ret None
        | Some r => _lock_all id skip_locked (sorted_ids [int_or (root_run_id (spec r)) id; id])
        end
    | Some rt => _lock_all id skip_locked (sorted_ids [int_or (Some rt) id; id])
    end.

Definition lock_run (id : Z) : DB (option run_row) := _lock_run id None false.

Definition _locked_run (id : Z) (root : option Z) : DB run_row :=
  r <- _lock_run id root false ;;
  match r with Some r => ret r | None => raise (LookupError "Run not found") end.

Definition lock_event_stream (id : Z) : DB unit :=
  s <- get ;;
  when_ (bool_decide (dialect s = Postgresql)) (modify (log_locks [LockStream id])).

(** The advisory lock is held by another transaction when its run is in
    [foreign_locks]. *)
Definition try_lock_event_stream (id : Z) : DB bool :=
  s <- get ;;
  if negb (bool_decide (dialect s = Postgresql)) then ret true
  else if bool_decide (id ∈ foreign_locks s) then ret false
  else modify (log_locks [LockStream id]) ;;; ret true.

Definition lock_terminal_boundary (id : Z) (anchor : option Z) : DB run_row :=
  let anchor_run_id := int_or anchor id in
  locked <- _acquire_agent_run_locks [Some anchor_run_id; Some id] false true false ;;
  s <- get ;;
  if bool_decide (dialect s = Postgresql) && negb (bool_decide (id ∈ locked))
  then raise (LookupError "Run not found")
  else refresh_run id.

Definition try_lock_maintenance_boundary (id : Z) : DB bool :=
  row <- _refresh_run_or_none id ;;
  match row with
  | None => ret false
  | Some r =>
      let lock_ids := [int_or (parent_run_id (spec r)) (run_id r); id] in
      locked <- _acquire_agent_run_locks (Some <$> lock_ids) false true true ;;
      s <- get ;;
      if bool_decide (dialect s = Postgresql)
         && negb (bool_decide (locked = sorted_ids lock_ids))
      then ret false
      else try_lock_event_stream id
  end.

(** On SQLite the rows are fenced by an UPDATE that assigns [updated_at] to itself,
    which leaves them as they are. *)
Definition lock_run_liveness (id : Z) (root : option Z)
    : DB (option (run_row * option run_row)) :=
  let root_run_id := int_or root id in
  s <- get ;;
  (if bool_decide (dialect s = Sqlite) then ret []
   else _acquire_agent_run_locks (Some <$> sorted_ids [id; root_run_id]) false false false) ;;;
  ok <- try_lock_event_stream id ;;
  if negb ok then ret None
  else
    row <- refresh_run id ;;
    root_row <- (if Z.eqb root_run_id id then ret (Some row) else get_run root_run_id) ;;
    ret (Some (row, root_row)).

(** * Events *)

(** [AgentRunEvent] and its builders in [brain/systems/runs/events.py]. *)
Record AgentRunEvent : Type := {
  e_run_id : Z;
  e_type : string;
  e_payload : dict;
  e_root_run_id : option Z;
  e_sequence_no : option Z;
  e_producer : string;
  e_visibility : EventVisibility;
}.

Definition run_event (id : Z) (event_type : string) (payload : dict)
    (root : option Z) (producer : string) : AgentRunEvent :=
  {| e_run_id := id; e_type := event_type; e_payload := payload; e_root_run_id := root;
     e_sequence_no := None; e_producer := producer; e_visibility := PUBLIC |}.

Definition AGENT_RUNTIME : string := "agent_runtime".

Definition status_changed_event (id : Z) (from_status to_status : string)
    (root : option Z) (reason : option string) : AgentRunEvent :=
  let payload := [("from_status", JStr from_status); ("to_status", JStr to_status)] in
  run_event id "run.status_changed"
    (if String.eqb (str_or reason "") "" then payload
     else jset "reason" (JStr (str_or reason "")) payload)
    root AGENT_RUNTIME.

Definition run_events (id : Z) (d : db) : list event_row :=
  filter (fun e => ev_run_id e = id) (events d).

(** [coalesce(max(sequence_no), 0)]. *)
Definition max_sequence (id : Z) (d : db) : Z :=
  fold_right Z.max 0%Z (ev_sequence_no <$> run_events id d).

Definition add_event (e : event_row) (d : db) : db :=
  {| runs := runs d; events := events d ++ [e]; artifacts := artifacts d; cycle_runs := cycle_runs d;
     next_run_id := next_run_id d; next_event_id := next_event_id d + 1;
     next_artifact_id := next_artifact_id d |}.

(** [append_event]; the unique constraint on (run_id, sequence_no) refuses a
    sequence number already used. *)
Definition append_event (e : AgentRunEvent) : DB event_row :=
  _acquire_agent_run_locks
    [Some (int_or (e_root_run_id e) (e_run_id e)); Some (e_run_id e)] true false false ;;;
  lock_event_stream (e_run_id e) ;;;
  s <- get ;;
  let d := pending s in
  let sequence_no := match e_sequence_no e with
                     | Some n => n
                     | None => (max_sequence (e_run_id e) d + 1)%Z
                     end in
  let row := {| ev_id := next_event_id d; ev_run_id := e_run_id e;
                ev_root_run_id := Some (int_or (e_root_run_id e) (e_run_id e));
                ev_sequence_no := sequence_no; ev_type := e_type e;
                ev_payload := e_payload e; ev_producer := e_producer e;
                ev_visibility := EventVisibility_value (e_visibility e);
                ev_created_at := now s |} in
  if existsb (fun r => Z.eqb (ev_sequence_no r) sequence_no) (run_events (e_run_id e) d)
  then raise IntegrityError
  else put_db (add_event row d) ;;; commit_if_auto ;;; ret row.

(** [for event in events: await self.append_event(event)]. *)
Definition append_events (l : list AgentRunEvent) : DB unit :=
  for_each (fun e => append_event e ;;; ret tt) l.

Definition commit_event_boundary : DB unit := commit.

Definition has_event_type (id : Z) (t : string) : DB bool :=
  gets (fun s => existsb (fun e => String.eqb (ev_type e) t) (run_events id (pending s))).
