(* ===== verification/RunCreate.v ===== *)
(** Creation of runs in [brain/systems/runs/store.py]: the helpers and settings
    of the module, [to_domain], the idempotency keys, [create_run] with its
    savepoint and unique constraints, and the creation of child runs. *)
From S2P Require Import Prelude.
From S2P Require Import PyStr.
From S2P Require Import Json.
From S2P Require Import Status.
From S2P Require Import Failures.
From S2P Require Import RunStore.
Open Scope string_scope.
Open Scope bool_scope.
Open Scope list_scope.

(** What the store takes from outside the component: SHA-256, the ISO-8601
    rendering and reading of an instant, the interpreter's module table, and the
    environment's settings. *)
Class Platform : Type := {
  sha256_hex : string -> string;
  isoformat : instant -> string;
  fromisoformat : string -> option instant;
  module_level : string -> string -> option exception_type;
  env_deadline_seconds : string;
  env_max_interruption_requeues : string;
}.

(** * Settings, enumerations and helpers of the module *)

Definition _CREATABLE_RUN_STATUSES : list RunStatus := [QUEUED; STARTING].
Definition _RUNNER_HEARTBEAT_STATUSES : list RunStatus := [STARTING; RUNNING; VERIFYING].
Definition _DEFERRED_RUN_ACTIVE_STATUS_VALUES : list string :=
  [value QUEUED; value STARTING; value RUNNING; value PAUSED; value VERIFYING].
Definition _SOURCE_IDEMPOTENCY_METADATA_KEYS : list string :=
  ["idempotency_key"; "idempotencyKey"].
Definition _DEFERRED_RUN_TARGET_METADATA_KEYS : list string :=
  ["queued_after_run_id"; "queue_after_run_id"].
Definition _CHILD_CREATION_TOKEN_METADATA_KEY : string := "parent_step_creation_token".

Section store.
Context `{Platform}.

Definition _agent_run_deadline_seconds : Z :=
  match int_of_str env_deadline_seconds with Some n => Z.max 1 n | None => 900 end.

Definition _agent_run_max_interruption_requeues : Z :=
  match int_of_str env_max_interruption_requeues with Some n => Z.max 0 n | None => 3 end.

Definition _coerce_int (j : json) (dflt : Z) : Z := default dflt (py_int j).

Definition _creatable_run_status (v : enum_arg RunStatus) : result RunStatus :=
  let member := match v with
                | Member s => Some s
                | Raw s => first_member (lower (strip s)) members
                | Absent => first_member "none" members
                end in
  match member with
  | None => Err (ValueError "Unsupported initial run status")
  | Some s => if status_in s _CREATABLE_RUN_STATUSES then Ok s
              else Err (ValueError "Initial run status must be queued or starting")
  end.

Definition _parent_step_key_hash (step_key : option string) : option string :=
  let normalized := strip (str_or step_key "") in
  if String.eqb normalized "" then None else Some (sha256_hex normalized).

(** [f"run:{run_id}"]. *)
Definition trace_id_for_run_id (id : Z) : string := "run:" +:+ str_of_Z id.

(** [AgentRun]: a snapshot of the row with its enumerations read. *)
Record AgentRun : Type := {
  ar_row : run_row;
  ar_trace_id : string;
  ar_profile : RunProfile;
  ar_recipe : RunRecipe;
  ar_status : RunStatus;
}.

Definition ar_id (a : AgentRun) : Z := run_id (ar_row a).

Definition to_domain (row : run_row) : result AgentRun :=
  match first_member (profile (spec row)) members, first_member (recipe (spec row)) members with
  | Some p, Some r =>
      Ok {| ar_row := row;
            ar_trace_id := str_or (trace_id (spec row)) (trace_id_for_run_id (run_id row));
            ar_profile := p; ar_recipe := r;
            ar_status := coerce_run_status (Raw (status row)) FAILED |}
  | _, _ => Err (ValueError "not a valid run profile or recipe")
  end.

Definition row_status (row : run_row) : RunStatus := coerce_run_status (Raw (status row)) FAILED.

(** The first key of [_DEFERRED_RUN_TARGET_METADATA_KEYS] that holds an integer;
    a run cannot wait for itself. *)
Fixpoint deferred_target (row_id : Z) (metadata : dict) (keys : list string) : option Z :=
  match keys with
  | [] => None
  | k :: keys' =>
      let raw := jget_or_null k metadata in
      if match raw with JNull => true | JStr s => String.eqb s "" | _ => false end
      then deferred_target row_id metadata keys'
      else match int_of_str (py_str raw) with
           | None => deferred_target row_id metadata keys'
           | Some target => if Z.eqb target row_id then None else Some target
           end
  end.

Definition _deferred_run_target_id (row : run_row) : option Z :=
  deferred_target (run_id row) (metadata_ row) _DEFERRED_RUN_TARGET_METADATA_KEYS.

(** [f(s.split(":", 1)[1])] on a string that starts with [trigger:]. *)
Definition _source_idempotency_parts (r : AgentRunRequest) : option string * option string :=
  let metadata := req_metadata r in
  let key := (fix go ks := match ks with
              | [] => ""
              | k :: ks' =>
                  let v := strip (str_or_empty (jget_or_null k metadata)) in
                  if String.eqb v "" then go ks' else v
              end) _SOURCE_IDEMPOTENCY_METADATA_KEYS in
  if String.eqb key "" then (None, None)
  else if negb (startswith "slack:" key || startswith "chantier:" key
                || startswith "worker:continuation:" key || startswith "knowledge:" key)
  then (None, None)
  else
    let from_intake := match jget_or_null "work_intake" metadata with
                       | JObj d => strip (str_or_empty (jget_or_null "source" d))
                       | _ => ""
                       end in
    let source := if String.eqb from_intake ""
                  then strip (str_or_empty (jget_or_null "source" metadata))
                  else from_intake in
    let source := if startswith "trigger:" source
                  then strip (removeprefix "trigger:" source) else source in
    (Some (str_take 80 (if String.eqb source "" then "unknown" else source)), Some key).

(** * Creation *)

Definition _run_for_source_idempotency (org scope key : option string) : DB (option run_row) :=
  let o := str_or org "" in let sc := str_or scope "" in let k := str_or key "" in
  if String.eqb o "" || String.eqb sc "" || String.eqb k "" then ret None
  else gets (fun s => head (by_id (filter (fun r =>
         sql_eq_str (org_id (spec r)) o && sql_eq_str (source_idempotency_scope (spec r)) sc
         && sql_eq_str (source_idempotency_key (spec r)) k) (all_runs (pending s))))).

Definition _run_for_parent_step (parent : option Z) (hash : option string) : DB (option run_row) :=
  match parent with
  | None => ret None
  | Some p =>
      let h := str_or hash "" in
      if String.eqb h "" then ret None
      else gets (fun s => head (by_id (filter (fun r =>
             sql_eq_int (parent_run_id (spec r)) p
             && sql_eq_str (parent_step_key_hash (spec r)) h) (all_runs (pending s)))))
  end.

(** Two rows break a unique constraint of [agent_runs] together: the NULLs of a
    unique index are distinct. *)
Definition unique_clash (a b : run_spec) : bool :=
  match org_id a, source_idempotency_scope a, source_idempotency_key a with
  | Some o, Some sc, Some k =>
      sql_eq_str (org_id b) o && sql_eq_str (source_idempotency_scope b) sc
      && sql_eq_str (source_idempotency_key b) k
  | _, _, _ => false
  end ||
  match parent_run_id a, parent_step_key_hash a with
  | Some p, Some h => sql_eq_int (parent_run_id b) p && sql_eq_str (parent_step_key_hash b) h
  | _, _ => false
  end.

(** The check constraint [ck_agent_runs_child_parent_step_hash]. *)
Definition check_child_step_hash (sp : run_spec) : bool :=
  match parent_run_id sp, parent_step_key_hash sp with
  | Some _, None => false
  | _, _ => true
  end.

(** Runs committed by other transactions become visible to both databases;
    their ids come from the same sequence as the ids allocated here. *)
Definition merge_run (d : db) (r : run_row) : db :=
  match runs d !! run_id r with
  | Some _ => d
  | None =>
      {| runs := <[run_id r := r]> (runs d); events := events d; artifacts := artifacts d; cycle_runs := cycle_runs d;
         next_run_id := Z.max (next_run_id d) (run_id r + 1);
         next_event_id := next_event_id d; next_artifact_id := next_artifact_id d |}
  end.

Definition merge_incoming (l : list run_row) (d : db) : db := fold_left merge_run l d.

Definition receive_incoming : DB unit :=
  modify (fun s => set_incoming [] (set_pending (merge_incoming (incoming s) (pending s))
                     (set_committed (merge_incoming (incoming s) (committed s)) s))).

(** The savepoint of [create_run]: insert, then fill [trace_id] and, for a root,
    [root_run_id] from the allocated id. *)
Definition insert_run (mk : Z -> run_row) : DB run_row :=
  receive_incoming ;;;
  s <- get ;;
  let d := pending s in
  let row := mk (next_run_id d) in
  if existsb (fun r => unique_clash (spec row) (spec r)) (all_runs d)
     || negb (check_child_step_hash (spec row))
  then raise IntegrityError
  else put_db {| runs := <[run_id row := row]> (runs d); events := events d;
                 artifacts := artifacts d; cycle_runs := cycle_runs d; next_run_id := next_run_id d + 1;
                 next_event_id := next_event_id d; next_artifact_id := next_artifact_id d |} ;;;
       ret row.

(** The row [create_run] inserts, once its id is known. *)
Definition new_run_row (r : AgentRunRequest) (st : RunStatus) (scope key hash : option string)
    (admitted_at : instant) (id : Z) : run_row :=
  {| run_id := id;
     spec := {| trace_id := Some (trace_id_for_run_id id); org_id := Some (req_org_id r);
                user_id := req_user_id r; thread_id := req_thread_id r;
                parent_run_id := req_parent_run_id r;
                root_run_id := match req_root_run_id r with Some x => Some x | None => Some id end;
                profile := value (normalized_profile r); recipe := value (normalized_recipe r);
                input_message := req_message r; target_ref := req_target_ref r;
                workspace_ref := req_workspace_ref r; model_policy := req_model_policy r;
                context_summary := None; source_idempotency_scope := scope;
                source_idempotency_key := key; parent_step_key_hash := hash;
                created_at := admitted_at;
                deadline_at := Some match req_deadline_at r with
                  | Some d => d
                  | None => (admitted_at + _agent_run_deadline_seconds * 1000000)%Z
                  end |};
     status := value st; metadata_ := req_metadata r; closeout_expires_at := None; execution_token := None;
     execution_attempt := 0;
     started_at := if decide (st = STARTING) then Some admitted_at else None;
     paused_at := None; completed_at := None; failed_at := None; canceled_at := None;
     expired_at := None; updated_at := admitted_at |}.

Definition create_run (r : AgentRunRequest) (initial_status : enum_arg RunStatus)
    (hash : option string) : DB AgentRun :=
  st <- lift_result (_creatable_run_status initial_status) ;;
  let h := strip (str_or hash "") in
  let hash := if String.eqb h "" then None else Some h in
  existing <- _run_for_parent_step (req_parent_run_id r) hash ;;
  match existing with
  | Some row => lift_result (to_domain row)
  | None =>
  let '(scope, key) := match req_parent_run_id r with
                       | None => _source_idempotency_parts r
                       | Some _ => (None, None)
                       end in
  existing <- _run_for_source_idempotency (Some (req_org_id r)) scope key ;;
  match existing with
  | Some row => lift_result (to_domain row)
  | None =>
  match req_parent_run_id r with
  | Some p => _acquire_agent_run_locks [Some (int_or (req_root_run_id r) p); Some p]
                true false false ;;; ret tt
  | None => ret tt
  end ;;;
  s <- get ;;
  inserted <- catch
    (row <- insert_run (new_run_row r st scope key hash (now s)) ;; ret (inl row))
    (fun e => match e with
     | IntegrityError =>
         existing <- _run_for_parent_step (req_parent_run_id r) hash ;;
         match existing with
         | Some row => ret (inr row)
         | None =>
             existing <- _run_for_source_idempotency (Some (req_org_id r)) scope key ;;
             match existing with
             | Some row => ret (inr row)
             | None => raise IntegrityError
             end
         end
     | _ => raise e
     end) ;;
  match inserted with
  | inr row => lift_result (to_domain row)
  | inl row =>
      append_event (run_event (run_id row) "run.created"
        [("profile", JStr (value (normalized_profile r)));
         ("recipe", JStr (value (normalized_recipe r))); ("status", JStr (value st))]
        (root_run_id (spec row)) AGENT_RUNTIME) ;;;
      lift_result (to_domain row)
  end end end.

Definition child_run_for_step (parent : Z) (step_key : string) : DB (option run_row) :=
  hashed <- _run_for_parent_step (Some parent) (_parent_step_key_hash (Some step_key)) ;;
  match hashed with
  | Some r => ret (Some r)
  | None => gets (fun s => find (fun r =>
      String.eqb (str_or_empty (jget_or_null "parent_step_key" (metadata_ r))) step_key)
      (by_id (filter (fun r => sql_eq_int (parent_run_id (spec r)) parent)
                (all_runs (pending s)))))
  end.

(** [any(int((event.payload or {}).get("child_run_id") or 0) == child.id ..)]. *)
Fixpoint child_event_exists (child : Z) (l : list event_row) : result bool :=
  match l with
  | [] => Ok false
  | e :: l' =>
      match py_int (jor (jget_or_null "child_run_id" (ev_payload e)) (JInt 0)) with
      | None => Err (ValueError "child_run_id")
      | Some n => if Z.eqb n child then Ok true else child_event_exists child l'
      end
  end.

Definition _append_child_created_once (parent : run_row) (child : AgentRun)
    (step_key : option string) : DB bool :=
  s <- get ;;
  already <- lift_result (child_event_exists (ar_id child)
    (filter (fun e => ev_type e = "run.child_created")
       (run_events (run_id parent) (pending s)))) ;;
  if (already : bool) then ret false
  else
    append_event (run_event (run_id parent) "run.child_created"
      [("child_run_id", JInt (ar_id child)); ("recipe", JStr (value (ar_recipe child)));
       ("step_key", match step_key with Some k => JStr k | None => JNull end)]
      (Some (int_or (root_run_id (spec parent)) (run_id parent))) AGENT_RUNTIME) ;;;
    ret true.

(** The keyword arguments of [create_child_run_with_result]. *)
Record child_kwargs : Type := {
  ck_recipe : enum_arg RunRecipe;
  ck_message : string;
  ck_step_key : option string;
  ck_thread_id : option string;
  ck_metadata : option dict;
  ck_profile : option (enum_arg RunProfile);
  ck_target_ref : option dict;
  ck_workspace_ref : option dict;
  ck_model_policy : option dict;
}.

Definition child_request (parent : run_row) (k : child_kwargs) (metadata : dict)
    : result AgentRunRequest :=
  AgentRunRequest_post_init
    {| req_thread_id := str_or (ck_thread_id k) (thread_id (spec parent));
       req_message := ck_message k; req_org_id := str_or (org_id (spec parent)) "";
       req_user_id := user_id (spec parent);
       req_profile := match ck_profile k with
         | Some (Raw "") | Some Absent | None => Raw (profile (spec parent))
         | Some p => p
         end;
       req_recipe := Some match ck_recipe k with
         | Member r => Raw (value r) | Raw s => Raw s | Absent => Raw "None" end;
       req_parent_run_id := Some (run_id parent);
       req_root_run_id := Some (int_or (root_run_id (spec parent)) (run_id parent));
       req_target_ref := default (target_ref (spec parent)) (ck_target_ref k);
       req_workspace_ref := default (workspace_ref (spec parent)) (ck_workspace_ref k);
       req_model_policy := default (model_policy (spec parent)) (ck_model_policy k);
       req_metadata := metadata;
       req_deadline_at := deadline_at (spec parent) |}.

(** [create_child_run_with_result], called with the parent's row;
    [creation_token] is the fresh [uuid4().hex]. *)
Definition create_child_run_with_result (parent : run_row) (initial_status : enum_arg RunStatus)
    (k : child_kwargs) (creation_token : string) : DB (AgentRun * bool) :=
  st <- lift_result (_creatable_run_status initial_status) ;;
  let step_key := str_or (ck_step_key k) "" in
  let has_step := negb (String.eqb step_key "") in
  let metadata := default [] (ck_metadata k) in
  s0 <- get ;;
  let commit_at_end := auto_commit s0 || bool_decide (st = STARTING) in
  modify (set_auto_commit false) ;;;
  outcome <- catch (r <- (
    parent <- (if bool_decide (dialect s0 = Sqlite) then ret parent
               else _locked_run (run_id parent)
                      (Some (int_or (root_run_id (spec parent)) (run_id parent)))) ;;
    let metadata := if has_step
      then jset _CHILD_CREATION_TOKEN_METADATA_KEY (JStr creation_token)
             (jset "parent_step_key" (JStr step_key) metadata)
      else metadata in
    existing <- (if has_step then child_run_for_step (run_id parent) step_key else ret None) ;;
    match existing with
    | Some row =>
        child <- lift_result (to_domain row) ;;
        _append_child_created_once parent child (ck_step_key k) ;;;
        when_ commit_at_end commit ;;;
        ret (child, false)
    | None =>
        req <- lift_result (child_request parent k metadata) ;;
        child <- create_run req (Member st) (_parent_step_key_hash (ck_step_key k)) ;;
        let created_here := negb has_step ||
          match jget _CHILD_CREATION_TOKEN_METADATA_KEY (metadata_ (ar_row child)) with
          | Some (JStr t) => String.eqb t creation_token
          | _ => false
          end in
        _append_child_created_once parent child (ck_step_key k) ;;;
        when_ commit_at_end commit ;;;
        ret (child, created_here)
    end) ;; ret (Ok r))
    (fun e => rollback ;;; ret (Err e)) ;;
  modify (set_auto_commit (auto_commit s0)) ;;;
  lift_result outcome.

Definition create_child_run (parent : run_row) (initial_status : enum_arg RunStatus)
    (k : child_kwargs) (creation_token : string) : DB AgentRun :=
  r <- create_child_run_with_result parent initial_status k creation_token ;;
  ret r.1.
End store.
