(* ===== verification/RunLifecycle.v ===== *)
(** Status changes of a run in [brain/systems/runs/store.py]: the fenced
    compare-and-set [_set_status_on_locked_run] and its callers, the durable
    execution claim, interruption with requeue, and claiming from the queue. *)
From S2P Require Import Prelude.
From S2P Require Import PyStr.
From S2P Require Import Json.
From S2P Require Import Status.
From S2P Require Import Failures.
From S2P Require Import RunStore.
From S2P Require Import RunCreate.
Open Scope string_scope.
Open Scope bool_scope.
Open Scope list_scope.

Section store.
Context `{Platform}.

(** * The execution claim *)

Definition claim_is_current (c : ExecutionClaim) (row : run_row) : bool :=
  String.eqb (str_or (execution_token row) "") (claim_token c)
  && Z.eqb (execution_attempt row) (claim_attempt c)
  && negb (is_terminal (row_status row)).

Definition claim_lost_error (c : ExecutionClaim) (id : Z) : exn :=
  ExecutionClaimLost id (claim_attempt c).

Definition assert_execution_claim (c : ExecutionClaim) : DB run_row :=
  row <- refresh_run (claim_of c) ;;
  s <- get ;;
  if claim_lost c s || negb (claim_is_current c row)
  then raise (claim_lost_error c (claim_of c))
  else ret row.

Definition _release_execution_claim (c : ExecutionClaim) : DB unit :=
  update_run (claim_of c)
    [fun r => sql_eq_str (execution_token r) (claim_token c);
     fun r => Z.eqb (execution_attempt r) (claim_attempt c)]
    [SetToken None] ;;;
  commit.

(** One transaction of [_try_acquire_execution_claim]. *)
Definition _try_acquire_execution_claim_transaction (row : run_row) (token : string)
    : DB (option ExecutionClaim) :=
  row <- _locked_run (run_id row) (Some (int_or (root_run_id (spec row)) (run_id row))) ;;
  let st := row_status row in
  if is_terminal st then ret None
  else
    s <- get ;;
    let initial_attempt := execution_attempt row in
    let attempt := (initial_attempt + 1)%Z in
    matched <- update_run (run_id row)
      [fun r => String.eqb (status r) (value st);
       fun r => Z.eqb (execution_attempt r) initial_attempt;
       fun r => str_in (status r) _DEFERRED_RUN_ACTIVE_STATUS_VALUES;
       fun r => bool_decide (execution_token r = None)]
      [SetStatus (value RUNNING); SetToken (Some token); SetAttempt attempt;
       SetStartedAt (Some (default (now s) (started_at row))); SetUpdatedAt (now s)] ;;
    if negb matched then rollback ;;; ret None
    else
      let root := Some (int_or (root_run_id (spec row)) (run_id row)) in
      append_events
        (if decide (st = QUEUED)
         then [status_changed_event (run_id row) (value QUEUED) (value STARTING) root
                 (Some "claimed");
               status_changed_event (run_id row) (value STARTING) (value RUNNING) root None]
         else if decide (st = RUNNING) then []
         else [status_changed_event (run_id row) (value st) (value RUNNING) root None]) ;;;
      append_event (run_event (run_id row)
        (if status_in st [RUNNING; PAUSED; VERIFYING] then "run.resumed" else "run.started")
        [("from_status", JStr (value st)); ("execution_attempt", JInt attempt)]
        root AGENT_RUNTIME) ;;;
      commit ;;;
      ret (Some {| claim_of := run_id row; claim_token := token; claim_attempt := attempt |}).

(** [_try_acquire_execution_claim] runs the transaction with [auto_commit] off
    and restores it; its retry on a PostgreSQL deadlock repeats the same
    transaction, and any other exception rolls back. *)
Definition _try_acquire_execution_claim (row : run_row) (token : string)
    : DB (option ExecutionClaim) :=
  s0 <- get ;;
  modify (set_auto_commit false) ;;;
  outcome <- catch
    (r <- _try_acquire_execution_claim_transaction row token ;; ret (Ok r))
    (fun e => rollback ;;; ret (Err e)) ;;
  modify (set_auto_commit (auto_commit s0)) ;;;
  lift_result outcome.

(** What one round of the loop of [execution_lease] decides. *)
Inductive lease_round : Type :=
| LeaseNone                       (** yields [None] and returns *)
| LeaseClaim (c : ExecutionClaim) (** yields the claim *)
| LeaseWait.                      (** waits for the owner, then tries again *)

Definition execution_lease_round (id : Z) (token : string) (observed_owner : bool)
    : DB lease_round :=
  row <- refresh_run id ;;
  let st := row_status row in
  if is_terminal st then rollback ;;; ret LeaseNone
  else if observed_owner && bool_decide (st = PAUSED)
          && String.eqb (str_or (execution_token row) "") ""
  then rollback ;;; ret LeaseNone
  else
    claim <- _try_acquire_execution_claim row token ;;
    match claim with
    | Some c => ret (LeaseClaim c)
    | None => ret LeaseWait
    end.

(** One poll of [_wait_for_execution_retry]: [Some false] stops waiting for
    good, [Some true] retries the claim, [None] sleeps and polls again. *)
Definition _wait_for_execution_retry_poll (id : Z) : DB (option bool) :=
  row <- refresh_run id ;;
  rollback ;;;
  let st := row_status row in
  let active_token := str_or (execution_token row) "" in
  if is_terminal st || (bool_decide (st = PAUSED) && String.eqb active_token "")
  then ret (Some false)
  else if String.eqb active_token "" then ret (Some true)
  else ret None.

(** * Status changes *)

(** The keyword arguments of [_set_status_on_locked_run]; an [expected_*] field
    is [None] for [_UNSET]. *)
Record status_kwargs : Type := {
  sk_reason : option string;
  sk_claim : option ExecutionClaim;
  sk_expected_updated_at : option (option instant);
  sk_expected_token : option (option string);
  sk_expected_attempt : option Z;
  sk_rollback_on_conflict : bool;
  sk_transitioned_at : option instant;
  sk_metadata_update : option dict;
  sk_allow_requeue : bool;
  sk_before : list AgentRunEvent;
  sk_after : list AgentRunEvent;
}.

Definition default_kwargs : status_kwargs :=
  {| sk_reason := None; sk_claim := None; sk_expected_updated_at := None;
     sk_expected_token := None; sk_expected_attempt := None;
     sk_rollback_on_conflict := true; sk_transitioned_at := None;
     sk_metadata_update := None; sk_allow_requeue := false;
     sk_before := []; sk_after := [] |}.

Definition with_reason (r : string) (k : status_kwargs) : status_kwargs :=
  {| sk_reason := Some r; sk_claim := sk_claim k;
     sk_expected_updated_at := sk_expected_updated_at k;
     sk_expected_token := sk_expected_token k; sk_expected_attempt := sk_expected_attempt k;
     sk_rollback_on_conflict := sk_rollback_on_conflict k;
     sk_transitioned_at := sk_transitioned_at k; sk_metadata_update := sk_metadata_update k;
     sk_allow_requeue := sk_allow_requeue k; sk_before := sk_before k; sk_after := sk_after k |}.

(** The dictionary [values] of the UPDATE. *)
Definition status_values (row : run_row) (target : RunStatus) (at_ : instant)
    (metadata_update : option dict) : list assign :=
  [SetStatus (value target); SetUpdatedAt at_] ++
  match target with
  | STARTING => [SetStartedAt (Some (default at_ (started_at row)))]
  | PAUSED => [SetPausedAt (Some at_)]
  | COMPLETED => [SetCompletedAt (Some at_)]
  | FAILED => [SetFailedAt (Some at_)]
  | CANCELED => [SetCanceledAt (Some at_)]
  | EXPIRED => [SetExpiredAt (Some at_)]
  | QUEUED => [SetPausedAt None]
  | _ => []
  end ++
  (if is_terminal target || status_in target [PAUSED; QUEUED] then [SetToken None] else []) ++
  match metadata_update with Some m => [SetMetadata m] | None => [] end.

(** The predicates of the UPDATE beyond the row's id. *)
Definition status_predicates (current : RunStatus) (k : status_kwargs)
    : list (run_row -> bool) :=
  [fun r => String.eqb (status r) (value current)] ++
  match sk_claim k with
  | Some c => [fun r => sql_eq_str (execution_token r) (claim_token c);
               fun r => Z.eqb (execution_attempt r) (claim_attempt c)]
  | None => []
  end ++
  match sk_expected_updated_at k with
  | Some u => [fun r => bool_decide (Some (updated_at r) = u)] | None => [] end ++
  match sk_expected_token k with
  | Some t => [fun r => bool_decide (execution_token r = t)] | None => [] end ++
  match sk_expected_attempt k with
  | Some n => [fun r => Z.eqb (execution_attempt r) n] | None => [] end.

Definition _reconcile_inbound_triage_run_if_needed (row : run_row) : DB unit :=
  match jget_or_null "inbound_event" (metadata_ row) with
  | JObj d => when_ (truthy (jget_or_null "event_id" d))
                (modify (call_hook (ReconcileInboundTriage (run_id row))))
  | _ => ret tt
  end.

(** The checks on a passed claim, before the row is touched. *)
Definition check_claim (row : run_row) (c : option ExecutionClaim) : DB unit :=
  match c with
  | None => ret tt
  | Some c =>
      s <- get ;;
      if claim_lost c s then raise (claim_lost_error c (run_id row))
      else if claim_is_current c row then ret tt
      else modify (set_lost c) ;;; raise (claim_lost_error c (run_id row))
  end.

Definition _set_status_on_locked_run (row : run_row) (st : enum_arg RunStatus)
    (k : status_kwargs) : DB (AgentRun * bool) :=
  check_claim row (sk_claim k) ;;;
  if is_terminal (row_status row) then a <- lift_result (to_domain row) ;; ret (a, false)
  else
    pair <- lift_result (ensure_run_transition (Raw (status row)) st (sk_allow_requeue k)) ;;
    let '(current, target) := pair in
    if decide (current = target) then
      match sk_claim k with
      | Some c => assert_execution_claim c ;;; ret tt
      | None => ret tt
      end ;;;
      a <- lift_result (to_domain row) ;; ret (a, false)
    else
      s <- get ;;
      let at_ := default (now s) (sk_transitioned_at k) in
      matched <- update_run (run_id row) (status_predicates current k)
                   (status_values row target at_ (sk_metadata_update k)) ;;
      if negb matched then
        when_ (sk_rollback_on_conflict k) rollback ;;;
        match sk_claim k with
        | Some c => modify (set_lost c) ;;; raise (claim_lost_error c (run_id row))
        | None =>
            row' <- refresh_run (run_id row) ;;
            a <- lift_result (to_domain row') ;; ret (a, false)
        end
      else
        append_events (sk_before k) ;;;
        append_event (status_changed_event (run_id row) (value current) (value target)
                        (root_run_id (spec row)) (sk_reason k)) ;;;
        append_events (sk_after k) ;;;
        row' <- refresh_run (run_id row) ;;
        when_ (is_terminal target) (_reconcile_inbound_triage_run_if_needed row') ;;;
        commit_if_auto ;;;
        a <- lift_result (to_domain row') ;; ret (a, true).

(** The check the public entry points make before taking the lock. *)
Definition check_claim_lost (id : Z) (c : option ExecutionClaim) : DB unit :=
  match c with
  | Some c => s <- get ;; when_ (claim_lost c s) (raise (claim_lost_error c id))
  | None => ret tt
  end.

(** The metadata [fail_run_with_result] stores: the typed envelope, or the
    internal-settlement envelope when the typed fields are malformed. *)
Definition failure_entry (category : RunFailureCategory) (stage : RunFailureStage)
    (exc : option exception_type) : dict :=
  match run_failure_metadata module_level category stage exc with
  | Ok d => d
  | Err _ => match run_failure_metadata module_level CAT_INTERNAL RUNNER_SETTLEMENT None with
             | Ok d => d
             | Err _ => []
             end
  end.

Definition with_metadata (m : dict) (k : status_kwargs) : status_kwargs :=
  {| sk_reason := sk_reason k; sk_claim := sk_claim k;
     sk_expected_updated_at := sk_expected_updated_at k;
     sk_expected_token := sk_expected_token k; sk_expected_attempt := sk_expected_attempt k;
     sk_rollback_on_conflict := sk_rollback_on_conflict k;
     sk_transitioned_at := sk_transitioned_at k; sk_metadata_update := Some m;
     sk_allow_requeue := sk_allow_requeue k; sk_before := sk_before k; sk_after := sk_after k |}.

Definition without_requeue (k : status_kwargs) : status_kwargs :=
  {| sk_reason := sk_reason k; sk_claim := sk_claim k;
     sk_expected_updated_at := sk_expected_updated_at k;
     sk_expected_token := sk_expected_token k; sk_expected_attempt := sk_expected_attempt k;
     sk_rollback_on_conflict := sk_rollback_on_conflict k;
     sk_transitioned_at := sk_transitioned_at k; sk_metadata_update := None;
     sk_allow_requeue := false; sk_before := sk_before k; sk_after := sk_after k |}.

Definition fail_run_with_result (id : Z) (category : RunFailureCategory)
    (stage : RunFailureStage) (exc : option exception_type) (k : status_kwargs)
    : DB (AgentRun * bool) :=
  check_claim_lost id (sk_claim k) ;;;
  row <- _locked_run id None ;;
  let metadata := jset "failure" (JObj (failure_entry category stage exc)) (metadata_ row) in
  _set_status_on_locked_run row (Member FAILED) (with_metadata metadata (without_requeue k)).

Definition fail_run (id : Z) (category : RunFailureCategory) (stage : RunFailureStage)
    (reason : option string) (exc : option exception_type) (claim : option ExecutionClaim)
    : DB AgentRun :=
  r <- fail_run_with_result id category stage exc
    {| sk_reason := reason; sk_claim := claim; sk_expected_updated_at := None;
       sk_expected_token := None; sk_expected_attempt := None;
       sk_rollback_on_conflict := true; sk_transitioned_at := None;
       sk_metadata_update := None; sk_allow_requeue := false;
       sk_before := []; sk_after := [] |} ;;
  ret r.1.

(** [status == RunStatus.FAILED or status == RunStatus.FAILED.value]. *)
Definition names_failed (st : enum_arg RunStatus) : bool :=
  match st with
  | Member s => bool_decide (s = FAILED)
  | Raw s => String.eqb s (value FAILED)
  | Absent => false
  end.

Definition set_status_with_result (id : Z) (st : enum_arg RunStatus) (k : status_kwargs)
    : DB (AgentRun * bool) :=
  if names_failed st
  then fail_run_with_result id CAT_INTERNAL RUNNER_SETTLEMENT None k
  else
    check_claim_lost id (sk_claim k) ;;;
    row <- _locked_run id None ;;
    _set_status_on_locked_run row st k.

Definition set_status (id : Z) (st : enum_arg RunStatus) (reason : option string)
    (claim : option ExecutionClaim) : DB AgentRun :=
  r <- set_status_with_result id st
    {| sk_reason := reason; sk_claim := claim; sk_expected_updated_at := None;
       sk_expected_token := None; sk_expected_attempt := None;
       sk_rollback_on_conflict := true; sk_transitioned_at := None;
       sk_metadata_update := None; sk_allow_requeue := false;
       sk_before := []; sk_after := [] |} ;;
  ret r.1.

(** * Claiming from the queue *)

(** [_deferred_run_dependency_active]: the run waits while its target is open,
    and then while an older root run of its thread is. *)
Definition deferred_dependency_active (d : db) (row : run_row) : bool :=
  match _deferred_run_target_id row with
  | None => false
  | Some target =>
      let target_status := match runs d !! target with
                           | Some t => lower (status t)
                           | None => ""
                           end in
      str_in target_status _DEFERRED_RUN_ACTIVE_STATUS_VALUES
      || (negb (String.eqb (thread_id (spec row)) "") &&
          existsb (fun r => String.eqb (thread_id (spec r)) (thread_id (spec row))
                    && bool_decide (parent_run_id (spec r) = None)
                    && Z.ltb (run_id r) (run_id row)
                    && str_in (status r) _DEFERRED_RUN_ACTIVE_STATUS_VALUES) (all_runs d))
  end.

Definition _deferred_run_dependency_active (row : run_row) : DB bool :=
  gets (fun s => deferred_dependency_active (pending s) row).

Definition batch_size : nat := 25.

(** The query of one batch. *)
Definition queued_batch (seen : list Z) (d : db) : list run_row :=
  take batch_size (by_created (filter (fun r =>
    status r = value QUEUED /\ run_id r ∉ seen) (all_runs d))).

(** The body of [for row in rows]: the first claimable row is claimed, the ids
    passed over are added to [seen]. *)
Fixpoint claim_from (rows : list run_row) (seen : list Z)
    : DB (list Z * option AgentRun) :=
  match rows with
  | [] => ret (seen, None)
  | row :: rows' =>
      s <- get ;;
      locked <- _lock_run (run_id row) (Some (int_or (root_run_id (spec row)) (run_id row)))
                  (bool_decide (dialect s = Postgresql)) ;;
      match locked with
      | None => claim_from rows' (seen ++ [run_id row])
      | Some locked_row =>
          if negb (String.eqb (status locked_row) (value QUEUED))
          then claim_from rows' (seen ++ [run_id row])
          else
            active <- _deferred_run_dependency_active locked_row ;;
            if (active : bool) then claim_from rows' (seen ++ [run_id row])
            else
              r <- _set_status_on_locked_run locked_row (Member STARTING)
                     (with_reason "claimed" default_kwargs) ;;
              ret (seen, Some r.1)
      end
  end.

(** The [while True] of [claim_next]; every round but the last adds a queued
    run to [seen], so one more round than there are runs is enough. *)
Fixpoint claim_loop (fuel : nat) (seen : list Z) : DB (option AgentRun) :=
  match fuel with
  | O => raise (RuntimeError "out of fuel")
  | Datatypes.S fuel' =>
      s <- get ;;
      match queued_batch seen (pending s) with
      | [] => ret None
      | rows =>
          r <- claim_from rows seen ;;
          match r with
          | (_, Some run) => ret (Some run)
          | (seen', None) => claim_loop fuel' seen'
          end
      end
  end.

Definition claim_next : DB (option AgentRun) :=
  s <- get ;; claim_loop (Datatypes.S (length (all_runs (pending s)))) [].

Fixpoint claim_next_run_ids (limit : nat) : DB (list Z) :=
  match limit with
  | O => ret []
  | Datatypes.S limit' =>
      claimed <- claim_next ;;
      match claimed with
      | None => ret []
      | Some run => ids <- claim_next_run_ids limit' ;; ret (ar_id run :: ids)
      end
  end.

Definition claim_run (id : Z) : DB (option AgentRun) :=
  row <- _locked_run id None ;;
  if negb (String.eqb (status row) (value QUEUED)) then ret None
  else r <- _set_status_on_locked_run row (Member STARTING)
              (with_reason "claimed" default_kwargs) ;;
       ret (Some r.1).
End store.
