(* ===== verification/RunMessages.v ===== *)
(** What a run writes besides its status in [brain/systems/runs/store.py]:
    metadata and heartbeats, steering messages and their cursor, artifacts and
    the final answer, and the interruption of an abandoned attempt. *)
From Stdlib Require Import Ascii.
From S2P Require Import Prelude.
From S2P Require Import PyStr.
From S2P Require Import Json.
From S2P Require Import Status.
From S2P Require Import Failures.
From S2P Require Import RunStore.
From S2P Require Import RunCreate.
From S2P Require Import RunLifecycle.
Open Scope string_scope.
Open Scope bool_scope.
Open Scope list_scope.

Definition _STEERING_SUBMITTED_EVENT : string := "run.steering_submitted".
Definition _STEERING_CURSOR_METADATA_KEY : string := "steering_cursor_sequence_no".
Definition _RUNNER_HEARTBEAT_METADATA_KEY : string := "runner_heartbeat".

(** [brain/platform/integrations/provider_error_sentinel.py]. *)
Definition PROVIDER_ERROR_SENTINEL_PREFIX : string := "upstream_provider_error:".
Definition _PROVIDER_ERROR_KIND_VALUES : list string :=
  ["server_error"; "overloaded_error"; "rate_limit_error"; "provider_error"].

Definition safe_provider_error_sentinel (kind : option string) : string :=
  let k := lower (strip (str_or kind "provider_error")) in
  let k := if str_in k _PROVIDER_ERROR_KIND_VALUES then k else "provider_error" in
  PROVIDER_ERROR_SENTINEL_PREFIX +:+ " " +:+ k.

(** The classifier of provider-error text, which the store calls. *)
Class ProviderErrorTaxonomy : Type := {
  provider_error_kind : string -> option string;
}.

Section store.
Context `{Platform} `{ProviderErrorTaxonomy}.

(** * Metadata and heartbeats *)

(** An ORM flush after [row.metadata_ = metadata]: no UPDATE when the value is
    equal to the one loaded. *)
Definition flush_metadata (row : run_row) (metadata : dict) : DB unit :=
  when_ (negb (py_eqb (JObj metadata) (JObj (metadata_ row))))
    (update_run (run_id row) [] [SetMetadata metadata] ;;; ret tt).

Definition update_metadata (id : Z) (patch : dict) : DB dict :=
  row <- _locked_run id None ;;
  let metadata := jupdate (metadata_ row) patch in
  flush_metadata row metadata ;;;
  ret metadata.

Definition _parse_datetime (j : json) : option instant :=
  match j with
  | JStr s => if String.eqb (strip s) "" then None
              else fromisoformat (replace_char "Z"%char "+00:00" s)
  | _ => None
  end.

(** [min_interval] and the elapsed time are in microseconds. *)
Definition _heartbeat_write_needed (row : run_row) (at_ : instant) (min_interval : Z) : bool :=
  if negb (status_in (row_status row) _RUNNER_HEARTBEAT_STATUSES) then false
  else if Z.leb min_interval 0 then true
  else
    let previous := as_dict (jget_or_null _RUNNER_HEARTBEAT_METADATA_KEY (metadata_ row)) in
    match _parse_datetime (jget_or_null "at" previous) with
    | None => true
    | Some previous_at => Z.leb min_interval (at_ - previous_at)
    end.

Definition heartbeat_run (id : Z) (token reason : option string) (min_interval : Z)
    (at_ : option instant) : DB bool :=
  s <- get ;;
  let at_ := default (now s) at_ in
  snapshot <- refresh_run id ;;
  if negb (_heartbeat_write_needed snapshot at_ min_interval) then ret false
  else
    row <- _locked_run id (Some (int_or (root_run_id (spec snapshot)) (run_id snapshot))) ;;
    if negb (_heartbeat_write_needed row at_ min_interval) then ret false
    else
      let previous := as_dict (jget_or_null _RUNNER_HEARTBEAT_METADATA_KEY (metadata_ row)) in
      let or_json (o : option string) (j : json) :=
        if String.eqb (str_or o "") "" then j else JStr (str_or o "") in
      let beat := [("at", JStr (isoformat at_));
                   ("token", or_json token (jget_or_null "token" previous));
                   ("reason", or_json reason
                      (jor (jget_or_null "reason" previous) (JStr "running")))] in
      flush_metadata row (jset _RUNNER_HEARTBEAT_METADATA_KEY (JObj beat) (metadata_ row)) ;;;
      ret true.

(** * Steering *)

(** [SteeringMessage] of [brain/systems/runs/steering.py]. *)
Record SteeringMessage : Type := {
  sm_run_id : Z;
  sm_content : string;
  sm_user_id : option string;
  sm_created_at : option instant;
}.

Definition normalized (m : SteeringMessage) (at_ : instant) : SteeringMessage :=
  {| sm_run_id := sm_run_id m; sm_content := squeeze (sm_content m);
     sm_user_id := sm_user_id m; sm_created_at := Some (default at_ (sm_created_at m)) |}.

Definition append_steering (id : Z) (content : string) (user : option string)
    (thread_message_id : option Z) : DB event_row :=
  run <- require_run id ;;
  let message := squeeze content in
  if String.eqb message "" then raise (ValueError "Steering content is required")
  else
    append_event (run_event (run_id run) _STEERING_SUBMITTED_EVENT
      ([("content", JStr message);
        ("user_id", match user with Some u => JStr u | None => JNull end)] ++
       match thread_message_id with Some t => [("thread_message_id", JInt t)] | None => [] end)
      (root_run_id (spec run)) "user").

Definition steering_cursor (row : run_row) : Z :=
  _coerce_int (jget_or_null _STEERING_CURSOR_METADATA_KEY (metadata_ row)) 0.

(** ORDER BY sequence_no ASC, id ASC over the submitted messages of the run
    past the cursor. *)
Definition pending_steering (id cursor : Z) (d : db) : list event_row :=
  py_sorted (fun a b => Z.ltb (ev_sequence_no a) (ev_sequence_no b)
               || (Z.eqb (ev_sequence_no a) (ev_sequence_no b) && Z.leb (ev_id a) (ev_id b)))
    (filter (fun e => ev_type e = _STEERING_SUBMITTED_EVENT /\ (cursor < ev_sequence_no e)%Z)
       (run_events id d)).

Definition steering_message (at_ : instant) (e : event_row) : option SteeringMessage :=
  let uid := jget_or_null "user_id" (ev_payload e) in
  let m := normalized {| sm_run_id := ev_run_id e;
                         sm_content := str_or_empty (jget_or_null "content" (ev_payload e));
                         sm_user_id := if truthy uid then Some (py_str uid) else None;
                         sm_created_at := Some (ev_created_at e) |} at_ in
  if String.eqb (sm_content m) "" then None else Some m.

Definition rollback_if_auto : DB unit := s <- get ;; when_ (auto_commit s) rollback.

Definition drain_steering (id : Z) : DB (list SteeringMessage) :=
  run <- require_run id ;;
  s <- get ;;
  let rows := pending_steering id (steering_cursor run) (pending s) in
  match rows with
  | [] => rollback_if_auto ;;; ret []
  | _ =>
    run <- _locked_run id None ;;
    let cursor := steering_cursor run in
    let rows := filter (fun e => (cursor < ev_sequence_no e)%Z) rows in
    match last rows with
    | None => rollback_if_auto ;;; ret []
    | Some final =>
        flush_metadata run
          (jset _STEERING_CURSOR_METADATA_KEY (JInt (ev_sequence_no final)) (metadata_ run)) ;;;
        s <- get ;;
        let messages := omap (steering_message (now s)) rows in
        commit_if_auto ;;;
        ret messages
    end
  end.

(** * Artifacts *)

Record AgentRunArtifact : Type := {
  a_run_id : Z;
  a_type : enum_arg ArtifactType;
  a_title : option string;
  a_payload : dict;
  a_text : option string;
  a_uri : option string;
  a_root_run_id : option Z;
  a_visibility : EventVisibility;
}.

Definition artifact_type_value (t : enum_arg ArtifactType) : string :=
  match t with Member a => value a | Raw s => s | Absent => "None" end.

Definition safe_cycle_provider_error_text (id : Z) (text : string) : DB string :=
  if startswith PROVIDER_ERROR_SENTINEL_PREFIX text then ret text
  else
    match provider_error_kind text with
    | None | Some "" => ret text
    | Some kind =>
        run <- get_run id ;;
        let metadata := match run with Some r => metadata_ r | None => [] end in
        if negb (py_eqb (jget_or_null "source" metadata) (JStr "cycle"))
           && negb (truthy (jget_or_null "cycle_run_id" metadata))
        then ret text
        else ret (safe_provider_error_sentinel (Some kind))
    end.

Definition add_artifact (a : artifact_row) (d : db) : db :=
  {| runs := runs d; events := events d; artifacts := artifacts d ++ [a]; cycle_runs := cycle_runs d;
     next_run_id := next_run_id d; next_event_id := next_event_id d;
     next_artifact_id := next_artifact_id d + 1 |}.

Definition append_artifact (a : AgentRunArtifact) : DB artifact_row :=
  let artifact_type := artifact_type_value (a_type a) in
  text <- match a_text a with
          | Some t => if String.eqb artifact_type (value FINAL_ANSWER)
                      then t' <- safe_cycle_provider_error_text (a_run_id a) t ;; ret (Some t')
                      else ret (Some t)
          | None => ret None
          end ;;
  let root := int_or (a_root_run_id a) (a_run_id a) in
  _acquire_agent_run_locks [Some root; Some (a_run_id a)] true false false ;;;
  s <- get ;;
  let d := pending s in
  let row := {| art_id := next_artifact_id d; art_run_id := a_run_id a;
                art_root_run_id := Some root; art_type := artifact_type;
                art_title := a_title a; art_payload := a_payload a; art_text := text;
                art_uri := a_uri a; art_visibility := EventVisibility_value (a_visibility a);
                art_created_at := now s |} in
  put_db (add_artifact row d) ;;;
  append_event (run_event (a_run_id a) "run.artifact_created"
    [("artifact_id", JInt (art_id row)); ("artifact_type", JStr artifact_type);
     ("title", match a_title a with Some t => JStr t | None => JNull end)]
    (Some root) AGENT_RUNTIME) ;;;
  ret row.

(** [final_answer_artifact] of [brain/systems/runs/artifacts.py]. *)
Definition final_answer_artifact (id : Z) (text : string) (root : option Z) : AgentRunArtifact :=
  {| a_run_id := id; a_type := Member FINAL_ANSWER; a_title := Some "Final answer";
     a_payload := []; a_text := Some text; a_uri := None; a_root_run_id := root;
     a_visibility := PUBLIC |}.

Definition append_final_answer_once (id : Z) (text_value : string) (root : option Z)
    : DB (option artifact_row) :=
  if String.eqb text_value "" then ret None
  else
    text <- safe_cycle_provider_error_text id text_value ;;
    s <- get ;;
    match head (filter (fun a => art_run_id a = id /\ art_type a = value FINAL_ANSWER
                          /\ art_text a = Some text) (artifacts (pending s))) with
    | Some existing => ret (Some existing)
    | None => row <- append_artifact (final_answer_artifact id text root) ;; ret (Some row)
    end.

(** ORDER BY created_at DESC, id DESC LIMIT 1. *)
Definition latest_artifact_text (id : Z) (t : enum_arg ArtifactType) : DB string :=
  gets (fun s =>
    match head (py_sorted (fun a b => Z.ltb (art_created_at b) (art_created_at a)
                  || (Z.eqb (art_created_at a) (art_created_at b) && Z.leb (art_id b) (art_id a)))
            (filter (fun a => art_run_id a = id /\ art_type a = artifact_type_value t)
               (artifacts (pending s)))) with
    | Some row => str_or (art_text row) ""
    | None => ""
    end).

Definition list_artifacts (id : Z) : DB (list artifact_row) :=
  gets (fun s => py_sorted (fun a b => Z.ltb (art_created_at a) (art_created_at b)
      || (Z.eqb (art_created_at a) (art_created_at b) && Z.leb (art_id a) (art_id b)))
    (filter (fun a => art_run_id a = id) (artifacts (pending s)))).

(** * Interruption *)

Definition interruption_count (metadata : dict) : Z :=
  _coerce_int (jget_or_null "interruption_count" metadata) 0.

Definition requeue_allowed_for (metadata : dict) : bool :=
  Z.ltb (interruption_count metadata) _agent_run_max_interruption_requeues.

(** The row the interruption works on: once the cap is reached, the terminal
    boundary of the run and its anchor is locked after publishing prior work. *)
Definition lock_for_interruption (id : Z) : DB run_row :=
  snapshot <- require_run id ;;
  if negb (requeue_allowed_for (metadata_ snapshot)) then
    commit_event_boundary ;;;
    lock_terminal_boundary id (Some (int_or (parent_run_id (spec snapshot)) (run_id snapshot)))
  else
    row <- _locked_run id None ;;
    if negb (requeue_allowed_for (metadata_ row)) then
      commit_event_boundary ;;;
      lock_terminal_boundary id (Some (int_or (parent_run_id (spec row)) (run_id row)))
    else ret row.

(** Everything written after an exhausted run was expired: the final answer,
    its completion event, the expiry event, and the continuation hook. *)
Definition settle_exhausted (row : run_row) (previous_count : Z) : DB unit :=
  let final_output := str_or (safe_terminal_run_message (Member EXPIRED) Absent) "" in
  when_ (negb (String.eqb final_output "")) (
    artifact <- append_final_answer_once (run_id row) final_output (root_run_id (spec row)) ;;
    let safe_output := str_or (match artifact with Some a => art_text a | None => None end)
                         final_output in
    delta <- has_event_type (run_id row) "run.text_delta" ;;
    when_ (negb delta)
      (append_event (run_event (run_id row) "run.text_completed" [("text", JStr safe_output)]
         (root_run_id (spec row)) "worker_shutdown") ;;; ret tt)) ;;;
  append_event (run_event (run_id row) "run.expired"
    [("reason", JStr "interruption_limit_exhausted");
     ("interruption_count", JInt (previous_count + 1))]
    (root_run_id (spec row)) "worker_shutdown") ;;;
  modify (call_hook (QueueChantierContinuation (run_id row))).

Definition interrupt_and_requeue (id : Z) (reason : string) (interrupted_at : option instant)
    (details : option dict) : DB (AgentRun * bool) :=
  row <- lock_for_interruption id ;;
  let metadata := metadata_ row in
  let previous_count := interruption_count metadata in
  let requeue_allowed := requeue_allowed_for metadata in
  let target_status := if requeue_allowed then QUEUED else EXPIRED in
  match ensure_run_transition (Member (row_status row)) (Member target_status) requeue_allowed with
  | Err _ => a <- lift_result (to_domain row) ;; ret (a, false)
  | Ok (current, target) =>
      if decide (current = target) then a <- lift_result (to_domain row) ;; ret (a, false)
      else
        s0 <- get ;;
        let at_ := default (now s0) interrupted_at in
        let reason := if String.eqb reason "" then "worker_shutdown" else reason in
        let interruption :=
          jset "requeued" (JBool requeue_allowed)
          (jset "execution_attempt" (JInt (execution_attempt row))
          (jset "from_status" (JStr (value current))
          (jset "interrupted_at" (JStr (isoformat at_))
          (jset "reason" (JStr reason) (default [] details))))) in
        let metadata := jpop "failure"
          (jset "interruption_count" (JInt (previous_count + 1))
          (jset "interruption" (JObj interruption) metadata)) in
        modify (set_auto_commit false) ;;;
        outcome <- catch (r <- (
          r <- _set_status_on_locked_run row (Member target)
            {| sk_reason := Some reason; sk_claim := None; sk_expected_updated_at := None;
               sk_expected_token := Some (execution_token row);
               sk_expected_attempt := Some (execution_attempt row);
               sk_rollback_on_conflict := true; sk_transitioned_at := Some at_;
               sk_metadata_update := Some metadata; sk_allow_requeue := requeue_allowed;
               sk_before := [run_event (run_id row) "run.interrupted" interruption
                               (root_run_id (spec row)) "worker_shutdown"];
               sk_after := [run_event (run_id row)
                              (if requeue_allowed then "run.requeued"
                               else "run.interruption_limit_exhausted") interruption
                              (root_run_id (spec row)) "worker_shutdown"] |} ;;
          when_ (r.2 && negb requeue_allowed) (settle_exhausted row previous_count) ;;;
          when_ (auto_commit s0) commit ;;;
          ret r) ;; ret (Ok r))
          (fun e => when_ (auto_commit s0) rollback ;;; ret (Err e)) ;;
        modify (set_auto_commit (auto_commit s0)) ;;;
        lift_result outcome
  end.
End store.
