(* ===== verification/RunEvolution.v ===== *)
(** How a run may change, whatever sequence of store operations is applied: the
    well-formedness invariant of the tables, the relation [db_evolves] between
    an earlier and a later database, and the proof that every operation of the
    store keeps both, on every branch, exceptions and rollbacks included. *)
From S2P Require Import Prelude.
From S2P Require Import PyStr.
From S2P Require Import Json.
From S2P Require Import Status.
From S2P Require Import Failures.
From S2P Require Import RunLease.
From S2P Require Import RunStore.
From S2P Require Import RunCreate.
From S2P Require Import RunLifecycle.
From S2P Require Import RunMessages.
Open Scope string_scope.
Open Scope bool_scope.
Open Scope list_scope.

(** * The invariant *)

(** A row the check constraints and the enumerations accept, whose execution
    token is held only while the run is running or verifying. *)
Record row_wf (r : run_row) : Prop := {
  wf_status : status r ∈ AGENT_RUN_DB_STATUS_VALUES;
  wf_profile : is_Some (first_member (A:=RunProfile) (profile (spec r)) members);
  wf_recipe : is_Some (first_member (A:=RunRecipe) (recipe (spec r)) members);
  wf_attempt : (0 <= execution_attempt r)%Z;
  wf_token : execution_token r <> None ->
             status r = value RUNNING \/ status r = value VERIFYING;
}.

Record db_wf (d : db) : Prop := {
  wf_rows : forall i r, runs d !! i = Some r -> row_wf r;
  wf_ids : forall i r, runs d !! i = Some r -> run_id r = i /\ (i < next_run_id d)%Z;
  wf_sequence : NoDup ((fun e => (ev_run_id e, ev_sequence_no e)) <$> events d);
}.

(** * Evolution *)

(** What a row says about its lease. *)
Definition lease_of (r : run_row) : lease :=
  {| phase := row_status r; attempt := execution_attempt r; holder := execution_token r |}.

(** A later state [r'] of the row [r]: the columns of [spec] never change, the
    lease takes steps of its machine, so that the status moves along accepted
    transitions, the attempt never decreases, and within one attempt the token is
    kept or cleared, never replaced; a close-out, once requested, is not moved. *)
Record row_evolves (r r' : run_row) : Prop := {
  ev_same_id : run_id r' = run_id r;
  ev_same_spec : spec r' = spec r;
  ev_lease : rtc lease_step (lease_of r) (lease_of r');
  ev_status : rtc any_transition (row_status r) (row_status r');
  ev_attempt : (execution_attempt r <= execution_attempt r')%Z;
  ev_token : execution_attempt r' = execution_attempt r ->
             execution_token r' = execution_token r \/ execution_token r' = None;
  ev_started : is_Some (started_at r) -> is_Some (started_at r');
  ev_closeout : is_Some (closeout_expires_at r) -> closeout_expires_at r' = closeout_expires_at r;
}.

Record db_evolves (d d' : db) : Prop := {
  ev_runs : forall i r, runs d !! i = Some r ->
            exists r', runs d' !! i = Some r' /\ row_evolves r r';
  ev_events : events d `prefix_of` events d';
  ev_artifacts : artifacts d `prefix_of` artifacts d';
  ev_next : (next_run_id d <= next_run_id d')%Z;
}.

Lemma row_evolves_intro r r' :
  run_id r' = run_id r -> spec r' = spec r -> rtc lease_step (lease_of r) (lease_of r') ->
  (is_Some (started_at r) -> is_Some (started_at r')) ->
  (is_Some (closeout_expires_at r) -> closeout_expires_at r' = closeout_expires_at r) -> row_evolves r r'.
Proof.
  intros Hi Hs Hl Hst Hcl. split; try done.
  - exact (lease_status _ _ Hl).
  - exact (lease_attempt _ _ Hl).
  - exact (lease_holder _ _ Hl).
Qed.

#[export] Instance row_evolves_preorder : PreOrder row_evolves.
Proof.
  split.
  - intros r. split; auto; done.
  - intros a b c [i1 s1 l1 _ _ _ u1 c1] [i2 s2 l2 _ _ _ u2 c2].
    apply row_evolves_intro; [congruence|congruence|by etrans|auto|].
    intros Hc. rewrite c2; [by apply c1|]. by rewrite (c1 Hc).
Qed.

#[export] Instance db_evolves_preorder : PreOrder db_evolves.
Proof.
  split.
  - intros d. split; try done. intros i r Hr. exists r. by split.
  - intros a b c [r1 e1 a1 n1] [r2 e2 a2 n2]. split; [|by etrans|by etrans|lia].
    intros i r Hr. destruct (r1 i r Hr) as (r' & H1 & H2).
    destruct (r2 i r' H1) as (r'' & H3 & H4). exists r''. split; [done|by etrans].
Qed.

Lemma evolves_absent d d' i : db_evolves d d' -> runs d' !! i = None -> runs d !! i = None.
Proof.
  intros Hev Hn. destruct (runs d !! i) as [r|] eqn:Hr; [|done].
  destruct (ev_runs _ _ Hev _ _ Hr) as (? & ? & _). congruence.
Qed.

(** The invariant of a session: both databases are well-formed, the pending one
    evolved from the committed one, and the runs about to arrive from other
    transactions are well-formed and carry ids not used here. *)
Record store_inv (s : store) : Prop := {
  inv_committed : db_wf (committed s);
  inv_pending : db_wf (pending s);
  inv_evolves : db_evolves (committed s) (pending s);
  inv_incoming : Forall (fun r => row_wf r /\ runs (pending s) !! run_id r = None) (incoming s);
  inv_incoming_ids : NoDup (run_id <$> incoming s);
}.

(** What every operation guarantees. *)
Definition store_step (s s' : store) : Prop :=
  store_inv s -> store_inv s' /\ db_evolves (committed s) (committed s').

#[export] Instance store_step_refl : Reflexive store_step.
Proof. intros s Hs. by split. Qed.

#[export] Instance store_step_trans : Transitive store_step.
Proof.
  intros a b c Hab Hbc Ha. destruct (Hab Ha) as [Hb E1]. destruct (Hbc Hb) as [Hc E2].
  split; [done|by etrans].
Qed.

Abbreviation safe m := (preserves store_step m).

(** ** Composition *)

Lemma safe_bind {A B} (m : DB A) (f : A -> DB B) :
  safe m -> (forall a, safe (f a)) -> safe (bind m f).
Proof. apply preserves_bind, _. Qed.
Lemma safe_ret {A} (a : A) : safe (ret a).
Proof. apply preserves_ret, _. Qed.
Lemma safe_raise {A} e : safe (raise (A:=A) e).
Proof. apply preserves_raise, _. Qed.
Lemma safe_get : safe get.
Proof. intros s. reflexivity. Qed.
Lemma safe_gets {A} (f : store -> A) : safe (gets f).
Proof. apply preserves_gets, _. Qed.
Lemma safe_lift {A} (r : result A) : safe (lift_result r).
Proof. apply preserves_lift, _. Qed.
Lemma safe_when b m : safe m -> safe (when_ b m).
Proof. apply preserves_when, _. Qed.
Lemma safe_for_each {A} (f : A -> DB unit) l : (forall a, safe (f a)) -> safe (for_each f l).
Proof. apply preserves_for_each; apply _. Qed.
Lemma safe_catch {A} (m : DB A) h : safe m -> (forall e, safe (h e)) -> safe (catch m h).
Proof.
  intros Hm Hh s. unfold catch. specialize (Hm s).
  destruct (m s) as [s1 [a|e]]; simpl in *; [done|]. etrans; [exact Hm|apply Hh].
Qed.
Lemma safe_if {A} (b : bool) (m1 m2 : DB A) : safe m1 -> safe m2 -> safe (if b then m1 else m2).
Proof. by destruct b. Qed.

(** A computation that starts by reading the state may use what it read. *)
Lemma safe_get_bind {A} (f : store -> DB A) :
  (forall s, store_step s (f s s).1) -> safe (bind get f).
Proof. intros Hf s. apply Hf. Qed.

Lemma step_bind {A B} (m : DB A) (f : A -> DB B) s :
  store_step s (m s).1 -> (forall a, safe (f a)) -> store_step s (bind m f s).1.
Proof.
  intros Hm Hf. unfold bind. destruct (m s) as [s1 [a|e]]; simpl in *; [|done].
  etrans; [exact Hm|apply Hf].
Qed.

(** ** State changes that leave both databases alone *)

Lemma safe_modify_same (f : store -> store) :
  (forall s, committed (f s) = committed s /\ pending (f s) = pending s /\
             incoming (f s) = incoming s) -> safe (modify f).
Proof.
  intros Hf s. simpl. destruct (Hf s) as (Hc & Hp & Hi). intros [H1 H2 H3 H4 H5].
  rewrite Hc. by split; [split; rewrite ?Hc, ?Hp, ?Hi|].
Qed.

Lemma safe_commit : safe commit.
Proof. intros s [H1 H2 H3 H4 H5]. split; [by split|done]. Qed.

Lemma safe_rollback : safe rollback.
Proof.
  intros s [H1 H2 H3 H4 H5]. split; [|done]. split; try done. simpl.
  eapply Forall_impl; [exact H4|]. intros r [? Hn]. split; [done|].
  by eapply evolves_absent.
Qed.

Create HintDb run_store discriminated.
#[export] Hint Resolve safe_bind safe_ret safe_raise safe_get safe_gets safe_lift
  safe_when safe_for_each safe_catch safe_if safe_commit safe_rollback : run_store.
#[export] Hint Extern 1 (preserves store_step (modify (log_locks _))) =>
  apply safe_modify_same; done : run_store.
#[export] Hint Extern 1 (preserves store_step (modify (set_auto_commit _))) =>
  apply safe_modify_same; done : run_store.
#[export] Hint Extern 1 (preserves store_step (modify (set_lost _))) =>
  apply safe_modify_same; done : run_store.
#[export] Hint Extern 1 (preserves store_step (modify (call_hook _))) =>
  apply safe_modify_same; done : run_store.

(** Walk through the structure of a program: binds, matches and conditionals. *)
Ltac safe_step :=
  first
    [ solve [eauto 3 with run_store]
    | apply safe_bind; [|intros ?]
    | apply safe_catch; [|intros ?]
    | apply safe_when
    | apply safe_for_each; intros ?
    | match goal with |- preserves store_step (let '_ := ?x in _) => destruct x end
    | match goal with |- preserves store_step (if ?b then _ else _) => destruct b end
    | match goal with |- preserves store_step (match ?x with _ => _ end) => destruct x end ].
Ltac solve_safe := repeat safe_step.

(** ** Reading and locking *)

Section store.
Context `{Platform} `{ProviderErrorTaxonomy}.

Lemma safe_commit_if_auto : safe commit_if_auto.
Proof. unfold commit_if_auto. solve_safe. Qed.

Lemma safe_refresh_run i : safe (refresh_run i).
Proof. unfold refresh_run. solve_safe. Qed.

Lemma safe_refresh_or_none i : safe (_refresh_run_or_none i).
Proof. unfold _refresh_run_or_none. pose proof (safe_refresh_run i). solve_safe. Qed.

Lemma safe_acquire l a b c : safe (_acquire_agent_run_locks l a b c).
Proof. unfold _acquire_agent_run_locks. solve_safe. Qed.

Lemma safe_lock_all i b l : safe (_lock_all i b l).
Proof.
  induction l as [|x l IH]; simpl; [apply safe_refresh_or_none|].
  apply safe_bind; [apply safe_acquire|]. intros ?. by apply safe_if; [|apply safe_ret].
Qed.

Lemma safe_lock_run i r b : safe (_lock_run i r b).
Proof.
  unfold _lock_run. pose proof (safe_lock_all i b). pose proof (safe_refresh_or_none i).
  solve_safe.
Qed.

Lemma safe_locked_run i r : safe (_locked_run i r).
Proof. unfold _locked_run. pose proof (safe_lock_run i r false). solve_safe. Qed.

Lemma safe_lock_event_stream i : safe (lock_event_stream i).
Proof. unfold lock_event_stream. solve_safe. Qed.

Lemma safe_try_lock_event_stream i : safe (try_lock_event_stream i).
Proof. unfold try_lock_event_stream. solve_safe. Qed.

Lemma safe_get_run i : safe (get_run i).
Proof. unfold get_run. solve_safe. Qed.

Lemma safe_maintenance_boundary i : safe (try_lock_maintenance_boundary i).
Proof.
  unfold try_lock_maintenance_boundary. pose proof safe_acquire. pose proof safe_refresh_or_none.
  pose proof safe_try_lock_event_stream. solve_safe.
Qed.

Lemma safe_lock_run_liveness i r : safe (lock_run_liveness i r).
Proof.
  unfold lock_run_liveness. pose proof safe_acquire. pose proof safe_refresh_run.
  pose proof safe_try_lock_event_stream. pose proof safe_get_run. solve_safe.
Qed.

Lemma safe_lock_terminal_boundary i a : safe (lock_terminal_boundary i a).
Proof.
  unfold lock_terminal_boundary. pose proof safe_acquire. pose proof safe_refresh_run.
  solve_safe.
Qed.

(** ** The three kinds of write *)

Lemma update_run_safe i preds l :
  (forall r, row_wf r -> forallb (fun p => p r) preds = true ->
     forall t, row_wf (apply_assigns (SetUpdatedAt t :: l) r) /\
               row_evolves r (apply_assigns (SetUpdatedAt t :: l) r)) ->
  safe (update_run i preds l).
Proof.
  intros Hl s. unfold update_run. simpl. unfold bind, get.
  destruct (runs (pending s) !! i) as [r|] eqn:Hr; [|reflexivity].
  destruct (forallb (fun p => p r) preds) eqn:Hp; [|reflexivity].
  simpl. intros [Hc [Hrows Hids Hseq] Hev Hin Hnd]. destruct (Hl r (Hrows _ _ Hr) Hp (now s)) as [Hwf' Hev'].
  split; [|done]. split; simpl; try done.
  - split; simpl; try done.
    + intros j r'. rewrite lookup_insert. case_decide; [by intros [= <-]|apply Hrows].
    + intros j r'. rewrite lookup_insert. case_decide as Hij; [|apply Hids].
      intros [= <-]. subst j. destruct (Hids _ _ Hr) as [<- ?].
      by rewrite (ev_same_id _ _ Hev').
  - etrans; [exact Hev|]. split; simpl; try done.
    intros j r' Hj. destruct (decide (i = j)) as [<-|Hne].
    + rewrite lookup_insert_eq. simplify_eq. eauto.
    + rewrite lookup_insert_ne by done. exists r'. by split.
  - eapply Forall_impl; [exact Hin|]. intros r' [? Hn]. split; [done|].
    rewrite lookup_insert_ne; [done|]. intros ->. congruence.
Qed.

Lemma append_event_safe e : safe (append_event e).
Proof.
  unfold append_event. apply safe_bind; [apply safe_acquire|intros _].
  apply safe_bind; [apply safe_lock_event_stream|intros _].
  apply safe_get_bind. intros s. case_match eqn:Hdup; [reflexivity|].
  apply step_bind; [|intros _; apply safe_bind;
    [apply safe_commit_if_auto|intros _; apply safe_ret]].
  intros [Hc [Hrows Hids Hseq] Hev Hin Hnd]. split; [|done]. split; simpl; try done.
  - split; simpl; try done. rewrite fmap_app. simpl. apply NoDup_app.
    split; [done|]. split; [|apply NoDup_singleton].
    intros [i n] Hi Heq. apply list_elem_of_singleton in Heq. simplify_eq.
    apply list_elem_of_fmap in Hi as (r & Hir & Hr). simplify_eq.
    apply not_true_iff_false in Hdup. apply Hdup, existsb_exists. exists r.
    split; [|by rewrite Z.eqb_eq].
    apply list_elem_of_In. unfold run_events. apply list_elem_of_filter. auto.
  - etrans; [exact Hev|]. split; simpl; try done; [|by apply prefix_app_r].
    intros i r Hr. exists r. by split.
Qed.

(** *** Rows *)

Ltac row_cases r := destruct r as [? ? ? ? ? ? ? ? ? ? ? ? ? ?].

Lemma metadata_row m t r :
  row_wf r -> row_wf (apply_assigns [SetUpdatedAt t; SetMetadata m] r) /\
              row_evolves r (apply_assigns [SetUpdatedAt t; SetMetadata m] r).
Proof.
  row_cases r. intros [????]. split; [split|apply row_evolves_intro]; simpl in *; auto; try done.
Qed.

Lemma release_row t r :
  row_wf r -> row_wf (apply_assigns [SetUpdatedAt t; SetToken None] r) /\
              row_evolves r (apply_assigns [SetUpdatedAt t; SetToken None] r).
Proof.
  row_cases r. intros [????]. split; [split|apply row_evolves_intro]; simpl in *; auto; try done.
  apply rtc_once, lease_drop.
Qed.

Lemma value_in_db (st : RunStatus) : value st ∈ AGENT_RUN_DB_STATUS_VALUES.
Proof.
  unfold AGENT_RUN_DB_STATUS_VALUES, RUN_STATUS_VALUES. apply elem_of_app. left.
  apply list_elem_of_fmap. exists st. split; [done|]. pose proof (members_all st) as Hm. exact Hm.
Qed.

Lemma acquire_row st token attempt started t t' r :
  row_wf r -> is_terminal st = false -> status r = value st ->
  execution_attempt r = (attempt - 1)%Z -> execution_token r = None ->
  let l := [SetUpdatedAt t; SetStatus (value RUNNING); SetToken (Some token);
            SetAttempt attempt; SetStartedAt (Some started); SetUpdatedAt t'] in
  row_wf (apply_assigns l r) /\ row_evolves r (apply_assigns l r).
Proof.
  row_cases r. intros [Hs Hp Hr Ha Ht] Hst E1 E2 E3. simpl in *. subst.
  split; [split|apply row_evolves_intro]; simpl in *; auto.
  - unfold apply_assigns; simpl. exact (value_in_db RUNNING).
  - unfold apply_assigns; simpl. lia.
  - unfold apply_assigns, lease_of, row_status; simpl. rewrite coerce_value. apply rtc_once.
    replace attempt with (attempt - 1 + 1)%Z at 2 by lia. by apply lease_grant.
Qed.

(** The fields of a row after the assignments of a status change. *)
Lemma status_values_fields row target at_ m t r :
  let r' := apply_assigns (SetUpdatedAt t :: status_values row target at_ m) r in
  run_id r' = run_id r /\ spec r' = spec r /\ status r' = value target /\
  execution_attempt r' = execution_attempt r /\
  execution_token r' = (if is_terminal target || status_in target [PAUSED; QUEUED]
                        then None else execution_token r) /\
  started_at r' = (if decide (target = STARTING) then Some (default at_ (started_at row))
                   else started_at r) /\
  metadata_ r' = default (metadata_ r) m /\ updated_at r' = at_ /\
  closeout_expires_at r' = closeout_expires_at r.
Proof. row_cases r. by destruct target, m. Qed.

Lemma status_row allow current target row at_ m t r :
  row_wf r -> transition allow current target -> status r = value current ->
  let l := SetUpdatedAt t :: status_values row target at_ m in
  row_wf (apply_assigns l r) /\ row_evolves r (apply_assigns l r).
Proof.
  intros [Hs Hp Hr Ha Ht] Htr E l.
  destruct (status_values_fields row target at_ m t r)
    as (E1 & E2 & E3 & E4 & E5 & E6 & _ & _ & E7). fold l in E1, E2, E3, E4, E5, E6, E7.
  split; [split; rewrite ?E2, ?E4; try done|apply row_evolves_intro; try done].
  - rewrite E3. apply value_in_db.
  - rewrite E3, E5. intros Htok. destruct (is_terminal target || _) eqn:Hc; [done|].
    destruct (Ht Htok) as [Hv|Hv]; rewrite E in Hv; apply value_inj in Hv; subst current;
      destruct target, allow; try done; try (by left); try (by right); by destruct Htr.
  - unfold lease_of, row_status. rewrite E3, E4, E5, E, !coerce_value.
    by eapply rtc_once, lease_move.
  - rewrite E6. by case_decide.
Qed.

Lemma append_events_safe l : safe (append_events l).
Proof. unfold append_events. pose proof append_event_safe. solve_safe. Qed.

Hint Resolve safe_commit_if_auto safe_refresh_run safe_refresh_or_none safe_acquire
  safe_lock_run safe_locked_run safe_lock_event_stream safe_lock_terminal_boundary
  append_event_safe append_events_safe : run_store.

(** ** The operations *)

Lemma safe_flush_metadata row m : safe (flush_metadata row m).
Proof.
  unfold flush_metadata. apply safe_when, safe_bind; [|intros _; apply safe_ret].
  apply update_run_safe. intros r Hr _ t. by apply metadata_row.
Qed.

Lemma safe_update_metadata i p : safe (update_metadata i p).
Proof. unfold update_metadata. pose proof safe_flush_metadata. solve_safe. Qed.

Lemma safe_heartbeat_run i a b c d : safe (heartbeat_run i a b c d).
Proof. unfold heartbeat_run. pose proof safe_flush_metadata. solve_safe. Qed.

Lemma safe_require_run i : safe (require_run i).
Proof. unfold require_run, get_run. solve_safe. Qed.

Lemma safe_drain_steering i : safe (drain_steering i).
Proof.
  unfold drain_steering, rollback_if_auto. pose proof safe_flush_metadata.
  pose proof safe_require_run. solve_safe.
Qed.

Lemma safe_append_steering i c u t : safe (append_steering i c u t).
Proof. unfold append_steering. pose proof safe_require_run. solve_safe. Qed.

Lemma safe_release_claim c : safe (_release_execution_claim c).
Proof.
  unfold _release_execution_claim. apply safe_bind; [|intros _; apply safe_commit].
  apply update_run_safe. intros r Hr _ t. by apply release_row.
Qed.

Lemma safe_assert_claim c : safe (assert_execution_claim c).
Proof. unfold assert_execution_claim. solve_safe. Qed.

Lemma safe_acquire_transaction row token : safe (_try_acquire_execution_claim_transaction row token).
Proof.
  unfold _try_acquire_execution_claim_transaction.
  apply safe_bind; [apply safe_locked_run|intros r]. cbv zeta.
  destruct (is_terminal (row_status r)) eqn:Hst; [apply safe_ret|].
  apply safe_get_bind. intros s. apply step_bind; [|intros matched; solve_safe].
  apply update_run_safe. simpl. intros r' Hr' Hp t. bool_simpl.
  apply (acquire_row (row_status r)); try done. lia.
Qed.

Lemma safe_try_acquire row token : safe (_try_acquire_execution_claim row token).
Proof. unfold _try_acquire_execution_claim. pose proof safe_acquire_transaction. solve_safe. Qed.

Lemma safe_lease_round i token b : safe (execution_lease_round i token b).
Proof. unfold execution_lease_round. pose proof safe_try_acquire. solve_safe. Qed.

Lemma safe_check_claim row c : safe (check_claim row c).
Proof. unfold check_claim. solve_safe. Qed.

Lemma safe_reconcile row : safe (_reconcile_inbound_triage_run_if_needed row).
Proof. unfold _reconcile_inbound_triage_run_if_needed. solve_safe. Qed.

Lemma safe_set_status_on_locked row st k : safe (_set_status_on_locked_run row st k).
Proof.
  unfold _set_status_on_locked_run.
  apply safe_bind; [apply safe_check_claim|intros _].
  destruct (is_terminal (row_status row)); [solve_safe|].
  destruct (ensure_run_transition _ _ _) as [[current target]|e] eqn:Hens;
    [|intros s; reflexivity].
  rewrite lift_ok_bind. apply ensure_ok_inv in Hens as (Hc & Hg & Htr).
  case_decide as Hd; [pose proof safe_assert_claim; solve_safe|].
  destruct Htr as [?|Htr]; [congruence|].
  apply safe_get_bind. intros s. apply step_bind.
  - apply update_run_safe. intros r Hr Hp t. unfold status_predicates in Hp.
    simpl in Hp. bool_simpl. by eapply status_row.
  - intros matched. pose proof safe_reconcile. solve_safe.
Qed.

Hint Resolve safe_set_status_on_locked : run_store.

Lemma safe_check_claim_lost i c : safe (check_claim_lost i c).
Proof. unfold check_claim_lost. solve_safe. Qed.

Lemma safe_fail_run_with_result i c st e k : safe (fail_run_with_result i c st e k).
Proof. unfold fail_run_with_result. pose proof safe_check_claim_lost. solve_safe. Qed.

Lemma safe_set_status_with_result i st k : safe (set_status_with_result i st k).
Proof.
  unfold set_status_with_result. pose proof safe_check_claim_lost.
  pose proof safe_fail_run_with_result. solve_safe.
Qed.

Lemma safe_set_status i st r c : safe (set_status i st r c).
Proof. unfold set_status. pose proof safe_set_status_with_result. solve_safe. Qed.

Lemma safe_fail_run i c st r e k : safe (fail_run i c st r e k).
Proof. unfold fail_run. pose proof safe_fail_run_with_result. solve_safe. Qed.

Lemma safe_claim_run i : safe (claim_run i).
Proof. unfold claim_run. solve_safe. Qed.

Lemma safe_claim_from rows : forall seen, safe (claim_from rows seen).
Proof.
  induction rows as [|r rows IH]; intros seen; simpl; [apply safe_ret|].
  unfold _deferred_run_dependency_active. solve_safe.
Qed.

Lemma safe_claim_loop n : forall seen, safe (claim_loop n seen).
Proof.
  induction n as [|n IH]; intros seen; simpl; [apply safe_raise|].
  pose proof safe_claim_from. solve_safe.
Qed.

Lemma safe_claim_next : safe claim_next.
Proof. unfold claim_next. apply safe_get_bind. intros s. apply safe_claim_loop. Qed.

Lemma safe_claim_next_run_ids n : safe (claim_next_run_ids n).
Proof. induction n; simpl; [apply safe_ret|]. pose proof safe_claim_next. solve_safe. Qed.

Lemma safe_error_text i t : safe (safe_cycle_provider_error_text i t).
Proof. unfold safe_cycle_provider_error_text, get_run. solve_safe. Qed.

Lemma add_artifact_safe s a : store_step s (put_db (add_artifact a (pending s)) s).1.
Proof.
  intros [Hc [Hrows Hids Hseq] Hev Hin Hnd]. split; [|done]. split; simpl; try done.
  etrans; [exact Hev|]. split; simpl; try done; [|by apply prefix_app_r].
  intros i r Hr. exists r. by split.
Qed.

Lemma safe_append_artifact a : safe (append_artifact a).
Proof.
  unfold append_artifact. apply safe_bind; [pose proof safe_error_text; solve_safe|intros t].
  apply safe_bind; [apply safe_acquire|intros _]. apply safe_get_bind. intros s.
  apply step_bind; [apply add_artifact_safe|intros _; solve_safe].
Qed.

Lemma safe_final_answer_once i t r : safe (append_final_answer_once i t r).
Proof.
  unfold append_final_answer_once. pose proof safe_error_text.
  pose proof safe_append_artifact. solve_safe.
Qed.

Lemma safe_settle_exhausted row n : safe (settle_exhausted row n).
Proof.
  unfold settle_exhausted, has_event_type. pose proof safe_final_answer_once. solve_safe.
Qed.

Lemma safe_lock_for_interruption i : safe (lock_for_interruption i).
Proof.
  unfold lock_for_interruption, commit_event_boundary. pose proof safe_require_run. solve_safe.
Qed.

Lemma safe_interrupt_and_requeue i r a d : safe (interrupt_and_requeue i r a d).
Proof.
  unfold interrupt_and_requeue. pose proof safe_lock_for_interruption.
  pose proof safe_settle_exhausted. solve_safe.
Qed.

(** ** Creation *)

Lemma insert_wf d r :
  db_wf d -> row_wf r -> runs d !! run_id r = None ->
  forall n, (next_run_id d <= n)%Z -> (run_id r < n)%Z ->
  db_wf {| runs := <[run_id r := r]> (runs d); events := events d; artifacts := artifacts d; cycle_runs := cycle_runs d;
           next_run_id := n; next_event_id := next_event_id d;
           next_artifact_id := next_artifact_id d |}.
Proof.
  intros [Hrows Hids Hseq] Hr Hn n Hle Hlt. split; simpl; try done.
  - intros i r'. rewrite lookup_insert. case_decide; [by intros [= <-]|apply Hrows].
  - intros i r'. rewrite lookup_insert. case_decide as Hi; [intros [= <-]; by subst|].
    intros Hr'. destruct (Hids _ _ Hr'). split; [done|lia].
Qed.

Lemma insert_evolves d r n :
  runs d !! run_id r = None -> (next_run_id d <= n)%Z ->
  db_evolves d {| runs := <[run_id r := r]> (runs d); events := events d;
                  artifacts := artifacts d; cycle_runs := cycle_runs d; next_run_id := n;
                  next_event_id := next_event_id d; next_artifact_id := next_artifact_id d |}.
Proof.
  intros Hn Hle. split; simpl; try done. intros i r' Hr'. exists r'. split; [|done].
  rewrite lookup_insert_ne; [done|]. congruence.
Qed.

Lemma merge_wf d r : db_wf d -> row_wf r -> db_wf (merge_run d r).
Proof.
  intros Hd Hr. unfold merge_run. destruct (runs d !! run_id r) eqn:E; [done|].
  apply insert_wf; (done || lia).
Qed.

Lemma merge_run_evolves d r : db_evolves d (merge_run d r).
Proof.
  unfold merge_run. destruct (runs d !! run_id r) eqn:E; [done|]. apply insert_evolves; [done|lia].
Qed.

(** A run unknown to the later database arrives in both. *)
Lemma merge_mono c p r :
  db_evolves c p -> runs p !! run_id r = None ->
  db_evolves (merge_run c r) (merge_run p r).
Proof.
  intros Hev Hn. pose proof (evolves_absent _ _ _ Hev Hn) as Hc.
  unfold merge_run. rewrite Hn, Hc.
  destruct Hev as [H1 H2 H3 H4]. split; simpl; try done; [|lia].
  intros i r' Hr'. rewrite lookup_insert in Hr' |- *. case_decide; [|by apply H1].
  exists r'. by split.
Qed.

Lemma merge_lookup d r i : i <> run_id r -> runs (merge_run d r) !! i = runs d !! i.
Proof.
  intros Hi. unfold merge_run. destruct (runs d !! run_id r); [done|].
  simpl. by rewrite lookup_insert_ne.
Qed.

Lemma merge_incoming_step l : forall c p,
  db_wf c -> db_wf p -> db_evolves c p ->
  Forall (fun r => row_wf r /\ runs p !! run_id r = None) l -> NoDup (run_id <$> l) ->
  db_wf (merge_incoming l c) /\ db_wf (merge_incoming l p) /\
  db_evolves (merge_incoming l c) (merge_incoming l p) /\
  db_evolves c (merge_incoming l c).
Proof.
  induction l as [|r l IH]; intros c p Hc Hp Hev Hl Hnd; [by split_and!|].
  apply Forall_cons in Hl as [[Hr Hn] Hl]. apply NoDup_cons in Hnd as [Hnin Hnd]. simpl.
  destruct (IH (merge_run c r) (merge_run p r)) as (? & ? & ? & He); auto using merge_wf.
  - by apply merge_mono.
  - apply Forall_forall. intros r' Hr'. rewrite Forall_forall in Hl.
    destruct (Hl r' Hr') as [? ?]. split; [done|]. rewrite merge_lookup; [done|].
    intros E. apply Hnin. rewrite <- E. apply list_elem_of_fmap. eauto.
  - split_and!; try done. etrans; [apply merge_run_evolves|exact He].
Qed.

Lemma safe_receive_incoming : safe receive_incoming.
Proof.
  intros s [H1 H2 H3 H4 H5].
  destruct (merge_incoming_step (incoming s) (committed s) (pending s)) as (?&?&?&?); try done.
  split; [|done]. split; simpl; try done; try (by constructor).
Qed.

Lemma safe_insert_run mk :
  (forall i, row_wf (mk i) /\ run_id (mk i) = i) -> safe (insert_run mk).
Proof.
  intros Hmk. unfold insert_run. intros s. unfold bind at 1.
  pose proof (safe_receive_incoming s) as Hrec. simpl in Hrec |- *. etrans; [exact Hrec|].
  set (s1 := set_incoming _ _). assert (Hinc : incoming s1 = []) by done.
  clearbody s1. clear Hrec s. unfold bind at 1, get.
  case_match; [reflexivity|]. simpl. intros [Hc Hp Hev Hin Hnd]. split; [|done].
  destruct (Hmk (next_run_id (pending s1))) as [Hwf Hid].
  assert (Hn : runs (pending s1) !! run_id (mk (next_run_id (pending s1))) = None).
  { rewrite Hid. destruct (runs (pending s1) !! _) as [r|] eqn:E; [|done].
    destruct (wf_ids _ Hp _ _ E). lia. }
  split; simpl; try done.
  - apply insert_wf; (done || lia).
  - etrans; [exact Hev|]. apply insert_evolves; [done|lia].
  - rewrite Hinc. constructor.
Qed.

Lemma coerced_member {A} `{StrEnum A} (a : A) : is_Some (first_member (value a) members).
Proof. rewrite first_member_value; [done|apply members_all]. Qed.

Lemma new_run_row_wf r st scope key hash at_ i :
  row_wf (new_run_row r st scope key hash at_ i).
Proof.
  split; try done.
  - apply value_in_db.
  - exact (coerced_member (normalized_profile r)).
  - exact (coerced_member (normalized_recipe r)).
Qed.

Lemma safe_parent_step p h : safe (_run_for_parent_step p h).
Proof. unfold _run_for_parent_step. solve_safe. Qed.

Lemma safe_source_idempotency o sc k : safe (_run_for_source_idempotency o sc k).
Proof. unfold _run_for_source_idempotency. solve_safe. Qed.

Lemma safe_create_run r st hash : safe (create_run r st hash).
Proof.
  unfold create_run. pose proof safe_parent_step. pose proof safe_source_idempotency.
  assert (Hins : forall st scope key hash at_,
    safe (insert_run (new_run_row r st scope key hash at_))).
  { intros. apply safe_insert_run. intros i. split; [apply new_run_row_wf|done]. }
  solve_safe.
Qed.

Lemma safe_child_run_for_step p k : safe (child_run_for_step p k).
Proof. unfold child_run_for_step. pose proof safe_parent_step. solve_safe. Qed.

Lemma safe_child_created_once p c k : safe (_append_child_created_once p c k).
Proof. unfold _append_child_created_once. solve_safe. Qed.

Lemma safe_create_child_run p st k t : safe (create_child_run_with_result p st k t).
Proof.
  unfold create_child_run_with_result. pose proof safe_create_run.
  pose proof safe_child_run_for_step. pose proof safe_child_created_once. solve_safe.
Qed.
End store.
