(* ===== verification/RunOutcome.v ===== *)
(** What the operations of the run store compute: the effect of the reads,
    locks, updates and appended events on the databases of a session, as
    equations and as the relation [writes], shared by the functional theorems. *)
From S2P Require Import Prelude.
From S2P Require Import PyStr.
From S2P Require Import Json.
From S2P Require Import Status.
From S2P Require Import Failures.
From S2P Require Import RunStore.
From S2P Require Import RunCreate.
From S2P Require Import RunLifecycle.
From S2P Require Import RunMessages.
From S2P Require Import RunEvolution.
Open Scope string_scope.
Open Scope bool_scope.
Open Scope list_scope.

(** * States that differ in the lock log *)

(** [locked s s']: [s'] is [s] after some row or stream locks were taken. *)
Definition locked (s s' : store) : Prop := exists l, s' = log_locks l s.

#[export] Instance locked_preorder : PreOrder locked.
Proof.
  split.
  - intros s. exists []. destruct s. unfold log_locks. simpl. by rewrite app_nil_r.
  - intros s1 s2 s3 [l ->] [l' ->]. exists (l ++ l'). unfold log_locks. simpl.
    by rewrite app_assoc.
Qed.

Lemma locked_log l s : locked s (log_locks l s).
Proof. by exists l. Qed.

(** * Writes to the pending database *)

(** [s'] is reached from [s] by writing the pending database to [d]; the
    committed one may follow only in a session that commits every call. *)
Record writes (s : store) (d : db) (s' : store) : Prop := {
  wr_pending : pending s' = d;
  wr_committed : auto_commit s = false -> committed s' = committed s;
  wr_auto : auto_commit s' = auto_commit s;
  wr_dialect : dialect s' = dialect s;
  wr_foreign : foreign_locks s' = foreign_locks s;
  wr_incoming : incoming s' = incoming s;
  wr_lost : lost_claims s' = lost_claims s;
  wr_hooks : hook_calls s' = hook_calls s;
  wr_now : now s' = now s;
}.

Lemma writes_trans s1 d2 s2 d3 s3 : writes s1 d2 s2 -> writes s2 d3 s3 -> writes s1 d3 s3.
Proof.
  intros [] []. split; try congruence. intros Ha. rewrite wr_committed1 by congruence. auto.
Qed.

Lemma writes_locked s1 s2 d s3 : locked s1 s2 -> writes s2 d s3 -> writes s1 d s3.
Proof. intros [l ->] []. by split. Qed.

Lemma writes_same s s' : locked s s' -> writes s (pending s) s'.
Proof. intros [l ->]. by split. Qed.

Lemma writes_pending s d : writes s d (set_pending d s).
Proof. by split. Qed.

(** ** Reads *)

Lemma refresh_run_ok s i r : runs (pending s) !! i = Some r -> refresh_run i s = (s, Ok r).
Proof. intros H. unfold refresh_run, bind, get. by rewrite H. Qed.

Lemma refresh_run_absent s i : runs (pending s) !! i = None ->
  refresh_run i s = (s, Err (LookupError "Run not found")).
Proof. intros H. unfold refresh_run, bind, get. by rewrite H. Qed.

Lemma refresh_or_none_eq s i : _refresh_run_or_none i s = (s, Ok (runs (pending s) !! i)).
Proof.
  unfold _refresh_run_or_none, refresh_run, catch, bind, get.
  by destruct (runs (pending s) !! i).
Qed.

(** ** Locks *)

Lemma elem_of_sorted_ids i l : i ∈ sorted_ids l <-> i ∈ l.
Proof. unfold sorted_ids. by rewrite elem_of_py_sorted, elem_of_remove_dups. Qed.

(** The row with id [i] is there and, when locked rows are skipped, free. *)
Definition available (s : store) (skip : bool) (i : Z) : Prop :=
  is_Some (runs (pending s) !! i) /\ (skip = true -> i ∉ foreign_locks s).
#[export] Instance available_dec s skip i : Decision (available s skip i).
Proof. unfold available. apply _. Defined.

Lemma acquire_spec l a b c s :
  exists s' ids, _acquire_agent_run_locks l a b c s = (s', Ok ids) /\ locked s s' /\
    (dialect s = Postgresql -> forall i, i ∈ ids <-> Some i ∈ l /\ available s c i).
Proof.
  unfold _acquire_agent_run_locks, bind, get.
  assert (Hin : forall i, i ∈ sorted_ids (omap id l) <-> Some i ∈ l).
  { intros i. rewrite elem_of_sorted_ids, list_elem_of_omap. split.
    - intros (x & Hx & E). simpl in E. by subst.
    - intros Hi. by exists (Some i). }
  destruct (Nat.eqb _ 0 || negb _) eqn:E.
  - exists s, []. split_and!; [done|reflexivity|]. intros Hd i.
    rewrite bool_decide_eq_true_2 in E by done. rewrite orb_false_r in E.
    apply Nat.eqb_eq, length_zero_iff_nil in E. rewrite E in Hin. rewrite <- Hin.
    set_solver.
  - eexists _, _. split_and!; [done|apply locked_log|]. intros _ i.
    rewrite list_elem_of_filter, Hin. unfold available. tauto.
Qed.

Lemma locked_fields s s' : locked s s' ->
  pending s' = pending s /\ committed s' = committed s /\ dialect s' = dialect s /\
  foreign_locks s' = foreign_locks s /\ now s' = now s /\ auto_commit s' = auto_commit s /\
  incoming s' = incoming s /\ lost_claims s' = lost_claims s.
Proof. by intros [l ->]. Qed.

Lemma lock_all_spec i skip ids : forall s,
  dialect s = Postgresql ->
  exists s', locked s s' /\
    _lock_all i skip ids s =
      (s', Ok (if decide (Forall (available s skip) ids) then runs (pending s) !! i else None)).
Proof.
  induction ids as [|j ids IH]; intros s Hd; simpl.
  - exists s. split; [reflexivity|]. by rewrite refresh_or_none_eq.
  - destruct (acquire_spec [Some j] (negb (Z.eqb j i)) (Z.eqb j i) skip s)
      as (s1 & l & E & Hl & Hin).
    rewrite (bind_eq_ok _ _ _ _ _ E). clear E.
    destruct (locked_fields _ _ Hl) as (Ep & _ & Ed & Ef & _).
    assert (Hj : j ∈ l <-> available s skip j) by (rewrite (Hin Hd); set_solver).
    case_bool_decide as Hjl.
    + destruct (IH s1) as (s2 & Hl2 & ->); [congruence|].
      exists s2. split; [by etrans|]. rewrite Ep. do 2 f_equal.
      assert (Hav : forall k, available s1 skip k <-> available s skip k)
        by (intros k; unfold available; by rewrite Ep, Ef).
      apply Hj in Hjl. apply decide_ext. rewrite Forall_cons.
      rewrite (Forall_iff _ _ _ Hav). tauto.
    + exists s1. split; [done|]. unfold ret. rewrite decide_False; [done|].
      rewrite Forall_cons. tauto.
Qed.

(** The row [_lock_run] returns. *)
Definition lock_result (s : store) (i : Z) (root : option Z) (skip : bool) : option run_row :=
  if decide (dialect s = Postgresql) then
    match match root with Some rt => Some (int_or (Some rt) i)
          | None => (fun r => int_or (root_run_id (spec r)) i) <$> (runs (pending s) !! i) end with
    | None => None
    | Some rt => if decide (available s skip rt /\ available s skip i)
                 then runs (pending s) !! i else None
    end
  else runs (pending s) !! i.

Lemma lock_run_spec i root skip s :
  exists s', locked s s' /\ _lock_run i root skip s = (s', Ok (lock_result s i root skip)).
Proof.
  assert (Hav : forall rt, Forall (available s skip) (sorted_ids [rt; i]) <->
                           available s skip rt /\ available s skip i).
  { intros rt. rewrite Forall_forall. setoid_rewrite elem_of_sorted_ids. set_solver. }
  unfold _lock_run, lock_result, bind at 1, get.
  destruct (decide (dialect s = Postgresql)) as [Hd|Hd].
  - rewrite bool_decide_eq_true_2 by done. cbn [negb]. destruct root as [rt|].
    + destruct (lock_all_spec i skip (sorted_ids [int_or (Some rt) i; i]) s Hd) as (s' & Hl & ->).
      exists s'. split; [done|]. do 2 f_equal. by apply decide_ext.
    + rewrite (bind_eq_ok _ _ _ _ _ (refresh_or_none_eq s i)).
      destruct (runs (pending s) !! i) as [r|] eqn:Hr; [|by exists s].
      destruct (lock_all_spec i skip (sorted_ids [int_or (root_run_id (spec r)) i; i]) s Hd)
        as (s' & Hl & ->).
      exists s'. split; [done|]. simpl. rewrite Hr. do 2 f_equal. by apply decide_ext.
  - rewrite bool_decide_eq_false_2 by done. simpl. exists s. by rewrite refresh_or_none_eq.
Qed.

(** The foreign key of [root_run_id]: the root's row is there. *)
Definition root_present (s : store) (r : run_row) : Prop :=
  is_Some (runs (pending s) !! int_or (root_run_id (spec r)) (run_id r)).

Lemma locked_run_ok s i root r :
  runs (pending s) !! i = Some r -> run_id r = i -> root_present s r ->
  root = None \/ root = Some (int_or (root_run_id (spec r)) i) ->
  exists s', locked s s' /\ _locked_run i root s = (s', Ok r).
Proof.
  intros Hr Hid Hroot Hrt. unfold _locked_run.
  destruct (lock_run_spec i root false s) as (s' & Hl & E).
  exists s'. split; [done|]. rewrite (bind_eq_ok _ _ _ _ _ E).
  replace (lock_result s i root false) with (Some r); [done|].
  unfold lock_result. case_decide as Hd; [|by rewrite Hr].
  unfold root_present in Hroot. rewrite Hid in Hroot.
  assert (Hii : forall o, int_or (Some (int_or o i)) i = int_or o i).
  { intros [z|]; unfold int_or; simpl; [|by destruct (Z.eqb i 0) eqn:Ei].
    destruct (Z.eqb z 0) eqn:E0; [by destruct (Z.eqb i 0)|by rewrite E0]. }
  destruct Hrt as [->| ->].
  - rewrite Hr. simpl. by rewrite decide_True by (split; split; eauto; done).
  - by rewrite Hii, decide_True by (split; split; eauto; done).
Qed.

(** ** Events *)

(** The row [append_event] inserts for an event without a sequence number. *)
Definition event_row_of (t : instant) (e : AgentRunEvent) (d : db) : event_row :=
  {| ev_id := next_event_id d; ev_run_id := e_run_id e;
     ev_root_run_id := Some (int_or (e_root_run_id e) (e_run_id e));
     ev_sequence_no := max_sequence (e_run_id e) d + 1; ev_type := e_type e;
     ev_payload := e_payload e; ev_producer := e_producer e;
     ev_visibility := EventVisibility_value (e_visibility e); ev_created_at := t |}.

Definition add_events (t : instant) (l : list AgentRunEvent) (d : db) : db :=
  fold_left (fun d e => add_event (event_row_of t e d) d) l d.

Lemma max_sequence_ge i d e :
  e ∈ run_events i d -> (ev_sequence_no e <= max_sequence i d)%Z.
Proof.
  unfold max_sequence. generalize (run_events i d). induction l as [|x l IH]; csimpl.
  - set_solver.
  - rewrite elem_of_cons. intros [->|Hin]; [lia|]. specialize (IH Hin). lia.
Qed.

Lemma lock_event_stream_eq i s : exists s', lock_event_stream i s = (s', Ok tt) /\ locked s s'.
Proof.
  unfold lock_event_stream, bind, get, when_, modify. case_match; [|by exists s].
  eexists. split; [done|]. apply locked_log.
Qed.

Lemma commit_if_auto_eq s :
  commit_if_auto s = (if auto_commit s then set_committed (pending s) s else s, Ok tt).
Proof. unfold commit_if_auto, bind, get, when_. by destruct (auto_commit s). Qed.

Lemma append_event_ok e s :
  e_sequence_no e = None ->
  exists s', append_event e s = (s', Ok (event_row_of (now s) e (pending s))) /\
    writes s (add_event (event_row_of (now s) e (pending s)) (pending s)) s' /\
    (auto_commit s = true -> committed s' = pending s').
Proof.
  intros Hn. unfold append_event.
  edestruct acquire_spec as (s1 & ids & E & Hl1 & _).
  rewrite (bind_eq_ok _ _ _ _ _ E). clear E.
  destruct (lock_event_stream_eq (e_run_id e) s1) as (s2 & E & Hl2).
  rewrite (bind_eq_ok _ _ _ _ _ E). clear E.
  assert (Hl : locked s s2) by (by etrans). clear Hl1 Hl2 s1 ids.
  destruct (locked_fields _ _ Hl) as (Ep & Ec & _ & _ & En & Ea & _).
  unfold bind at 1, get. cbv zeta. rewrite Hn, Ep, En.
  case_match eqn:Hdup.
  { apply existsb_exists in Hdup as (x & Hx & Hs). bool_simpl.
    apply list_elem_of_In, max_sequence_ge in Hx. lia. }
  unfold put_db, modify. rewrite (bind_eq_ok _ _ _ (set_pending
    (add_event (event_row_of (now s) e (pending s)) (pending s)) s2) tt) by done.
  rewrite (bind_eq_ok _ _ _ _ _ (commit_if_auto_eq _)). eexists. split; [done|].
  split.
  - eapply writes_locked; [exact Hl|]. simpl. destruct (auto_commit s2) eqn:E; [|by split].
    split; try done. congruence.
  - intros Ha. simpl. by rewrite Ea, Ha.
Qed.

Lemma append_events_ok l : forall s,
  Forall (fun e => e_sequence_no e = None) l ->
  exists s', append_events l s = (s', Ok tt) /\ writes s (add_events (now s) l (pending s)) s'.
Proof.
  unfold append_events. induction l as [|e l IH]; intros s Hl; simpl.
  - exists s. split; [done|]. by split.
  - apply Forall_cons in Hl as [He Hl].
    destruct (append_event_ok e s He) as (s1 & E1 & W1 & _).
    destruct (IH s1 Hl) as (s2 & E2 & W2). exists s2. split.
    + erewrite bind_eq_ok; [exact E2|]. by erewrite bind_eq_ok.
    + pose proof (writes_trans _ _ _ _ _ W1 W2) as W. destruct W1.
      by rewrite wr_pending0, wr_now0 in W.
Qed.

Lemma add_events_app t l1 l2 d : add_events t (l1 ++ l2) d = add_events t l2 (add_events t l1 d).
Proof. apply fold_left_app. Qed.

Lemma add_events_runs t l : forall d, runs (add_events t l d) = runs d.
Proof. induction l as [|e l IH]; intros d; [done|]. simpl. by rewrite IH. Qed.

(** ** What the events of a run say *)

(** Sequence number, type and payload of a run's events, in insertion order. *)
Definition event_trace (i : Z) (d : db) : list (Z * string * dict) :=
  (fun e => (ev_sequence_no e, ev_type e, ev_payload e)) <$> run_events i d.

Fixpoint numbered (n : Z) (l : list AgentRunEvent) : list (Z * string * dict) :=
  match l with
  | [] => []
  | e :: l' => (n, e_type e, e_payload e) :: numbered (n + 1) l'
  end.

Lemma run_events_add e d i :
  run_events i (add_event e d) =
  run_events i d ++ (if decide (ev_run_id e = i) then [e] else []).
Proof.
  unfold run_events. simpl. by rewrite filter_app.
Qed.

Lemma max_sequence_nonneg i d : (0 <= max_sequence i d)%Z.
Proof. unfold max_sequence. induction (ev_sequence_no <$> run_events i d); simpl; lia. Qed.

Lemma max_sequence_add t e d :
  max_sequence (e_run_id e) (add_event (event_row_of t e d) d) = (max_sequence (e_run_id e) d + 1)%Z.
Proof.
  unfold max_sequence at 1. rewrite run_events_add, decide_True by done.
  rewrite fmap_app, fold_right_app. simpl.
  change (fold_right Z.max (Z.max (max_sequence (e_run_id e) d + 1) 0)
            (ev_sequence_no <$> run_events (e_run_id e) d) = (max_sequence (e_run_id e) d + 1)%Z).
  assert (H : forall l n, (fold_right Z.max 0 l <= n)%Z -> (0 <= n)%Z ->
              fold_right Z.max n l = n).
  { induction l as [|x l IH]; intros n; simpl; [done|]. intros. rewrite IH; lia. }
  pose proof (max_sequence_nonneg (e_run_id e) d).
  rewrite Z.max_l by lia. apply H; [fold (max_sequence (e_run_id e) d)|]; lia.
Qed.

(** Appending events of one run extends its trace with consecutive numbers. *)
Lemma event_trace_add_events t i l : forall d,
  Forall (fun e => e_run_id e = i) l ->
  event_trace i (add_events t l d) = event_trace i d ++ numbered (max_sequence i d + 1) l.
Proof.
  induction l as [|e l IH]; intros d Hl; simpl; [by rewrite app_nil_r|].
  apply Forall_cons in Hl as [He Hl]. rewrite IH by done. subst i.
  rewrite max_sequence_add. unfold event_trace at 1.
  rewrite run_events_add, decide_True by done. rewrite fmap_app, <- app_assoc. done.
Qed.

Lemma run_events_add_events t i j l : forall d,
  Forall (fun e => e_run_id e = i) l -> j <> i -> run_events j (add_events t l d) = run_events j d.
Proof.
  induction l as [|e l IH]; intros d Hl Hj; [done|]. apply Forall_cons in Hl as [He Hl].
  simpl. rewrite IH by done. rewrite run_events_add, decide_False; [apply app_nil_r|].
  simpl. congruence.
Qed.

Lemma add_events_artifacts t l : forall d, artifacts (add_events t l d) = artifacts d.
Proof. induction l as [|e l IH]; intros d; [done|]. simpl. by rewrite IH. Qed.

(** * Work on one run *)

(** [s'] is reached from [s] by work on run [i] alone: other rows and other runs'
    events are as before, logs only grew, and the session is the same one. *)
Record row_step (i : Z) (s s' : store) : Prop := {
  st_others : forall j, j <> i -> runs (pending s') !! j = runs (pending s) !! j;
  st_present : is_Some (runs (pending s) !! i) -> is_Some (runs (pending s') !! i);
  st_events : forall j, j <> i -> run_events j (pending s') = run_events j (pending s);
  st_artifacts : artifacts (pending s) `prefix_of` artifacts (pending s');
  st_hooks : hook_calls s `prefix_of` hook_calls s';
  st_auto : auto_commit s' = auto_commit s;
  st_dialect : dialect s' = dialect s;
  st_foreign : foreign_locks s' = foreign_locks s;
  st_now : now s' = now s;
}.

#[export] Instance row_step_preorder i : PreOrder (row_step i).
Proof.
  split; [by split|]. intros a b c [] [].
  split; try congruence; try (by etrans); auto; intros j Hj.
  - rewrite st_others1 by done. auto.
  - rewrite st_events1 by done. auto.
Qed.

Lemma writes_row_step i s d s' :
  writes s d s' ->
  (forall j, j <> i -> runs d !! j = runs (pending s) !! j) ->
  (is_Some (runs (pending s) !! i) -> is_Some (runs d !! i)) ->
  (forall j, j <> i -> run_events j d = run_events j (pending s)) ->
  artifacts (pending s) `prefix_of` artifacts d -> row_step i s s'.
Proof.
  intros [Wp Wc Wa Wd Wf Wi Wl Wh Wn] H1 H2 H3 H4. by split; rewrite ?Wp, ?Wh.
Qed.

Lemma locked_row_step i s s' : locked s s' -> row_step i s s'.
Proof. by intros [l ->]. Qed.

(** Another run's row, and what depends on its presence, survive the work. *)
Lemma row_step_present i s s' j :
  row_step i s s' -> is_Some (runs (pending s) !! j) -> is_Some (runs (pending s') !! j).
Proof.
  intros Hst Hj. destruct (decide (j = i)) as [->|Hne]; [by apply (st_present _ _ _ Hst)|].
  by rewrite (st_others _ _ _ Hst j Hne).
Qed.
