(* ===== verification/RunDemo.v ===== *)
(** A concrete platform and small databases, on which the theorems about the
    run store are instantiated. *)
From S2P Require Import Prelude.
From S2P Require Import PyStr.
From S2P Require Import Json.
From S2P Require Import Status.
From S2P Require Import Failures.
From S2P Require Import RunStore.
From S2P Require Import RunCreate.
From S2P Require Import RunLifecycle.
From S2P Require Import RunMessages.
From S2P Require Import RunEvolution.
Open Scope string_scope.
Open Scope bool_scope.
Open Scope list_scope.

Definition demo_platform : Platform :=
  {| sha256_hex s := "sha256:" +:+ s; isoformat := str_of_Z; fromisoformat := int_of_str;
     module_level _ _ := None; env_deadline_seconds := "900";
     env_max_interruption_requeues := "3" |}.

Definition demo_taxonomy : ProviderErrorTaxonomy :=
  {| provider_error_kind t := if String.eqb t "overloaded" then Some "overloaded_error" else None |}.

Definition demo_spec (created : instant) : run_spec :=
  {| trace_id := Some "run:1"; org_id := Some "org"; user_id := Some "user"; thread_id := "thread";
     parent_run_id := None; root_run_id := None; profile := "fast"; recipe := "fast";
     input_message := "hello"; target_ref := []; workspace_ref := []; model_policy := [];
     context_summary := None; source_idempotency_scope := None; source_idempotency_key := None;
     parent_step_key_hash := None; created_at := created; deadline_at := Some 900%Z |}.

Definition demo_row (i : Z) (st : RunStatus) (meta : dict) (token : option string) (attempt : Z)
    (created : instant) : run_row :=
  {| run_id := i; spec := demo_spec created; status := value st; metadata_ := meta; closeout_expires_at := None;
     execution_token := token; execution_attempt := attempt; started_at := None;
     paused_at := None; completed_at := None; failed_at := None; canceled_at := None;
     expired_at := None; updated_at := created |}.

Definition demo_db (l : list run_row) (es : list event_row) : db :=
  {| runs := list_to_map ((fun r => (run_id r, r)) <$> l); events := es; artifacts := []; cycle_runs := ∅;
     next_run_id := 100; next_event_id := 100; next_artifact_id := 1 |}.

Definition demo_store (auto : bool) (d : db) : store :=
  {| committed := d; pending := d; auto_commit := auto; dialect := Postgresql;
     foreign_locks := ∅; incoming := []; lock_log := []; lost_claims := ∅;
     hook_calls := []; now := 1000 |}.

Lemma demo_row_wf i st meta token attempt created :
  (0 <= attempt)%Z -> (token <> None -> st = RUNNING \/ st = VERIFYING) ->
  row_wf (demo_row i st meta token attempt created).
Proof.
  intros Ha Ht. split; simpl; try done.
  - apply value_in_db.
  - intros [->| ->]%Ht; auto.
Qed.

(** A database of well-formed rows without events is well-formed. *)
Lemma demo_db_wf l :
  Forall (fun r => row_wf r /\ (run_id r < 100)%Z) l -> db_wf (demo_db l []).
Proof.
  intros Hl. rewrite Forall_forall in Hl. split; simpl; [| |constructor].
  - intros i r Hr. apply elem_of_list_to_map_2 in Hr.
    apply list_elem_of_fmap in Hr as (r' & [= -> ->] & Hin). by apply Hl.
  - intros i r Hr. apply elem_of_list_to_map_2 in Hr.
    apply list_elem_of_fmap in Hr as (r' & [= -> ->] & Hin). by destruct (Hl _ Hin).
Qed.

Lemma demo_store_inv auto l :
  Forall (fun r => row_wf r /\ (run_id r < 100)%Z) l ->
  store_inv (demo_store auto (demo_db l [])).
Proof. intros Hl. pose proof (demo_db_wf l Hl). split; simpl; try done; constructor. Qed.

(** A running attempt, a queued run, and the session over them. *)
Definition demo_running : run_row := demo_row 1 RUNNING [] (Some "token") 1 10.
Definition demo_queued : run_row := demo_row 2 QUEUED [] None 0 20.
Definition demo_session : store := demo_store true (demo_db [demo_running; demo_queued] []).

Lemma demo_running_wf : row_wf demo_running.
Proof. apply demo_row_wf; [lia|auto]. Qed.
Lemma demo_queued_wf : row_wf demo_queued.
Proof. apply demo_row_wf; [lia|done]. Qed.
Lemma demo_session_inv : store_inv demo_session.
Proof.
  apply demo_store_inv. apply Forall_cons. split; [by split; [apply demo_running_wf|]|].
  apply Forall_cons. split; [by split; [apply demo_queued_wf|]|constructor].
Qed.
