(* ===== verification/RunTransitions.v ===== *)
(** What a status change and the acquisition of an execution claim do: the
    decision they take, as a specification, and the tables they leave. *)
From S2P Require Import Prelude.
From S2P Require Import PyStr.
From S2P Require Import Json.
From S2P Require Import Status.
From S2P Require Import Failures.
From S2P Require Import RunStore.
From S2P Require Import RunCreate.
From S2P Require Import RunLifecycle.
From S2P Require Import RunMessages.
From S2P Require Import RunEvolution.
From S2P Require Import RunOutcome.
From S2P Require Import RunDemo.
Open Scope string_scope.
Open Scope bool_scope.
Open Scope list_scope.

(** * The decision of a status change *)

(** What a request to change the status of [row] amounts to, before any effect. *)
Inductive status_decision : Type :=
| Fenced                                (** the worker's claim is not current *)
| Settled                               (** the run is already terminal *)
| Illegal (e : exn)                     (** the transition is not allowed *)
| Unchanged                             (** the run already has the status *)
| Superseded                            (** the stored row no longer matches *)
| Accepted (current target : RunStatus).

Section transitions.
Context `{Platform}.

Definition claim_ok (s : store) (row : run_row) (c : option ExecutionClaim) : bool :=
  match c with
  | Some c => negb (claim_lost c s) && claim_is_current c row
  | None => true
  end.

Definition decide_status (s : store) (row : run_row) (st : enum_arg RunStatus)
    (k : status_kwargs) : status_decision :=
  if negb (claim_ok s row (sk_claim k)) then Fenced
  else if is_terminal (row_status row) then Settled
  else
    match ensure_run_transition (Raw (status row)) st (sk_allow_requeue k) with
    | Err e => Illegal e
    | Ok (current, target) =>
        if decide (current = target) then Unchanged
        else match runs (pending s) !! run_id row with
             | Some r => if forallb (fun p => p r) (status_predicates current k)
                         then Accepted current target else Superseded
             | None => Superseded
             end
    end.

(** The timestamp column of a status that has one of its own. *)
Definition stamp (target : RunStatus) (r : run_row) : option instant :=
  match target with
  | PAUSED => paused_at r | COMPLETED => completed_at r | FAILED => failed_at r
  | CANCELED => canceled_at r | EXPIRED => expired_at r | _ => None
  end.

(** The triage reconciliation a settled inbound run asks for. *)
Definition reconcile_calls (row : run_row) : list hook_call :=
  match jget_or_null "inbound_event" (metadata_ row) with
  | JObj d => if truthy (jget_or_null "event_id" d)
              then [ReconcileInboundTriage (run_id row)] else []
  | _ => []
  end.

(** ** Lemmas *)

Lemma check_claim_ok s row c : claim_ok s row c = true -> check_claim row c s = (s, Ok tt).
Proof.
  destruct c as [c|]; [|done]. simpl. intros Hc. bool_simpl.
  unfold check_claim, bind, get. by rewrite H0, H1.
Qed.

Lemma check_claim_fenced s row c :
  claim_ok s row (Some c) = false ->
  exists s', check_claim row (Some c) s = (s', Err (claim_lost_error c (run_id row))) /\
    pending s' = pending s /\ committed s' = committed s /\ hook_calls s' = hook_calls s /\
    claim_lost c s' = true.
Proof.
  simpl. unfold check_claim, bind, get. destruct (claim_lost c s) eqn:El.
  - intros _. by exists s.
  - simpl. intros ->. eexists. split_and!; [done..|]. unfold claim_lost. simpl.
    apply bool_decide_eq_true, elem_of_union_l, elem_of_singleton_2; done.
Qed.

Lemma reconcile_eq row s :
  exists s', _reconcile_inbound_triage_run_if_needed row s = (s', Ok tt) /\
    pending s' = pending s /\ committed s' = committed s /\ auto_commit s' = auto_commit s /\
    hook_calls s' = hook_calls s ++ reconcile_calls row /\ dialect s' = dialect s /\
    foreign_locks s' = foreign_locks s /\ now s' = now s.
Proof.
  unfold _reconcile_inbound_triage_run_if_needed, reconcile_calls.
  destruct (jget_or_null "inbound_event" (metadata_ row));
    try (exists s; by rewrite app_nil_r).
  destruct (truthy _); simpl; [by eexists|]. exists s. by rewrite app_nil_r.
Qed.

Lemma update_run_ok s i preds l r :
  runs (pending s) !! i = Some r -> forallb (fun p => p r) preds = true ->
  update_run i preds l s =
    (set_pending (with_runs (pending s)
       (<[i := apply_assigns (SetUpdatedAt (now s) :: l) r]> (runs (pending s)))) s, Ok true).
Proof. intros Hr Hp. unfold update_run, bind, get. by rewrite Hr, Hp. Qed.

Lemma to_domain_wf r :
  row_wf r -> exists a, to_domain r = Ok a /\ ar_row a = r /\ ar_status a = row_status r.
Proof.
  intros [_ [p Hp] [q Hq] _ _]. unfold to_domain. rewrite Hp, Hq. by eexists.
Qed.

(** The row an accepted change leaves. *)
Definition changed_row (s : store) (row : run_row) (target : RunStatus) (k : status_kwargs)
    : run_row :=
  apply_assigns (SetUpdatedAt (now s) ::
    status_values row target (default (now s) (sk_transitioned_at k)) (sk_metadata_update k)) row.

Lemma stamp_changed s row target k :
  target ∈ [PAUSED; COMPLETED; FAILED; CANCELED; EXPIRED] ->
  stamp target (changed_row s row target k) = Some (default (now s) (sk_transitioned_at k)).
Proof.
  unfold changed_row. destruct row, (sk_metadata_update k), target; simpl; try done; set_solver.
Qed.

Lemma decide_accepted s row st k current target :
  decide_status s row st k = Accepted current target ->
  claim_ok s row (sk_claim k) = true /\ is_terminal (row_status row) = false /\
  ensure_run_transition (Raw (status row)) st (sk_allow_requeue k) = Ok (current, target) /\
  current <> target /\
  exists r, runs (pending s) !! run_id row = Some r /\
    forallb (fun p => p r) (status_predicates current k) = true.
Proof.
  unfold decide_status. intros Hd. repeat case_match; simplify_eq. bool_simpl. eauto 8.
Qed.

Lemma accepted_row_wf s row st k current target :
  row_wf row -> decide_status s row st k = Accepted current target ->
  runs (pending s) !! run_id row = Some row ->
  row_wf (changed_row s row target k) /\ row_status (changed_row s row target k) = target.
Proof.
  intros Hwf (_ & _ & He & Hne & r & Hr & Hp)%decide_accepted Hrow. simplify_eq.
  apply ensure_ok_inv in He as (Hc & Hg & [?|Htr]); [congruence|].
  unfold status_predicates in Hp. simpl in Hp. bool_simpl. split.
  - by eapply (status_row (sk_allow_requeue k) current).
  - destruct (status_values_fields r target (default (now s) (sk_transitioned_at k))
      (sk_metadata_update k) (now s) r) as (_ & _ & E & _).
    unfold changed_row, row_status. rewrite E. apply coerce_value.
Qed.

Lemma accepted_row_evolves s row st k current target :
  row_wf row -> decide_status s row st k = Accepted current target ->
  runs (pending s) !! run_id row = Some row -> row_evolves row (changed_row s row target k).
Proof.
  intros Hwf (_ & _ & He & Hne & r & Hr & Hp)%decide_accepted Hrow. simplify_eq.
  apply ensure_ok_inv in He as (Hc & Hg & [?|Htr]); [congruence|].
  unfold status_predicates in Hp. simpl in Hp. bool_simpl.
  by eapply (status_row (sk_allow_requeue k) current).
Qed.

Lemma update_evolves d i r r' :
  runs d !! i = Some r -> row_evolves r r' -> db_evolves d (with_runs d (<[i := r']> (runs d))).
Proof.
  intros Hi He. split; simpl; try done. intros j x Hj. destruct (decide (i = j)) as [<-|Hne].
  - rewrite lookup_insert_eq. simplify_eq. eauto.
  - rewrite lookup_insert_ne by done. exists x. by split.
Qed.

Lemma add_events_evolves t l : forall d, db_evolves d (add_events t l d).
Proof.
  induction l as [|e l IH]; intros d; [done|]. simpl. etrans; [|apply IH].
  split; simpl; try done; [|by apply prefix_app_r]. intros i r Hr. exists r. by split.
Qed.

(** The events around a status change, appended in order. *)
Lemma append_bracketed {A} before ev after (f : unit -> DB A) s :
  Forall (fun e => e_sequence_no e = None) (before ++ ev :: after) ->
  exists s', (append_events before ;;; append_event ev ;;; x <- append_events after ;; f x) s =
      f tt s' /\ writes s (add_events (now s) (before ++ ev :: after) (pending s)) s'.
Proof.
  rewrite Forall_app, Forall_cons. intros (Hb & He & Ha).
  destruct (append_events_ok before s Hb) as (s2 & E2 & W2).
  destruct (append_event_ok ev s2 He) as (s3 & E3 & W3 & _).
  destruct (append_events_ok after s3 Ha) as (s4 & E4 & W4).
  exists s4. rewrite (bind_eq_ok _ _ _ _ _ E2), (bind_eq_ok _ _ _ _ _ E3),
    (bind_eq_ok _ _ _ _ _ E4). split; [done|].
  pose proof (writes_trans _ _ _ _ _ W2 (writes_trans _ _ _ _ _ W3 W4)) as W.
  rewrite add_events_app. simpl. destruct W2, W3. simpl in *. congruence.
Qed.

(** The end of an accepted change: reconciliation on settlement, then commit. *)
Definition settle_tail (target : RunStatus) (row : run_row) : DB (AgentRun * bool) :=
  when_ (is_terminal target) (_reconcile_inbound_triage_run_if_needed row) ;;;
  commit_if_auto ;;;
  a <- lift_result (to_domain row) ;; ret (a, true).

Lemma settle_tail_ok target row s :
  row_wf row ->
  exists s' a, settle_tail target row s = (s', Ok (a, true)) /\
    ar_row a = row /\ ar_status a = row_status row /\ pending s' = pending s /\
    committed s' = (if auto_commit s then pending s else committed s) /\
    hook_calls s' = hook_calls s ++ (if is_terminal target then reconcile_calls row else []) /\
    auto_commit s' = auto_commit s /\ dialect s' = dialect s /\ foreign_locks s' = foreign_locks s /\ now s' = now s.
Proof.
  intros Hwf. destruct (to_domain_wf _ Hwf) as (a & Ed & Ear & Eas).
  destruct (reconcile_eq row s) as (s5 & E5 & P5 & C5 & A5 & H5 & D5 & F5 & N5).
  set (s6 := if is_terminal target then s5 else s).
  assert (E6 : when_ (is_terminal target)
    (_reconcile_inbound_triage_run_if_needed row) s = (s6, Ok tt))
    by (unfold s6; by destruct (is_terminal target)).
  unfold settle_tail. rewrite (bind_eq_ok _ _ _ _ _ E6), (bind_eq_ok _ _ _ _ _ (commit_if_auto_eq s6)).
  rewrite Ed, lift_ok_bind. eexists _, a. split; [reflexivity|].
  unfold s6. destruct (is_terminal target); [rewrite <- H5, A5|rewrite app_nil_r];
    destruct (auto_commit s) eqn:Ea; split_and!; simpl; congruence.
Qed.

Lemma set_status_accepted (s : store) (row : run_row) (st : enum_arg RunStatus)
    (k : status_kwargs) (current target : RunStatus) :
  row_wf row -> runs (pending s) !! run_id row = Some row ->
  decide_status s row st k = Accepted current target ->
  Forall (fun e => e_run_id e = run_id row /\ e_sequence_no e = None)
    (sk_before k ++ sk_after k) ->
  exists s' a row',
    _set_status_on_locked_run row st k s = (s', Ok (a, true)) /\
    ar_row a = row' /\ ar_status a = target /\
    runs (pending s') = <[run_id row := row']> (runs (pending s)) /\
    status row' = value target /\ spec row' = spec row /\
    execution_attempt row' = execution_attempt row /\
    execution_token row' = (if is_terminal target || status_in target [PAUSED; QUEUED]
                            then None else execution_token row) /\
    (target ∈ [PAUSED; COMPLETED; FAILED; CANCELED; EXPIRED] ->
     stamp target row' = Some (default (now s) (sk_transitioned_at k))) /\
    event_trace (run_id row) (pending s') = event_trace (run_id row) (pending s) ++
      numbered (max_sequence (run_id row) (pending s) + 1)
        (sk_before k ++ [status_changed_event (run_id row) (value current) (value target)
                           (root_run_id (spec row)) (sk_reason k)] ++ sk_after k) /\
    committed s' = (if auto_commit s then pending s' else committed s) /\
    hook_calls s' = hook_calls s ++ (if is_terminal target then reconcile_calls row' else []) /\
    metadata_ row' = default (metadata_ row) (sk_metadata_update k) /\
    closeout_expires_at row' = closeout_expires_at row /\
    db_evolves (pending s) (pending s') /\ row_step (run_id row) s s'.
Proof.
  intros Hwf Hrow Hd Hev. pose proof (accepted_row_evolves s row st k current target Hwf Hd Hrow) as Hevo.
  destruct (accepted_row_wf s row st k current target Hwf Hd Hrow) as [Hwf' Hst'].
  destruct (status_values_fields row target (default (now s) (sk_transitioned_at k))
    (sk_metadata_update k) (now s) row) as (F1 & F2 & F3 & F4 & F5 & _ & F7 & _ & F9).
  fold (changed_row s row target k) in F1, F2, F3, F4, F5, F7, F9.
  apply decide_accepted in Hd as (Hc & Ht & He & Hne & r & Hr & Hp). rewrite Hrow in Hr. injection Hr as <-.
  set (ev := status_changed_event (run_id row) (value current) (value target)
               (root_run_id (spec row)) (sk_reason k)).
  set (d1 := with_runs (pending s) (<[run_id row := changed_row s row target k]> (runs (pending s)))).
  assert (Hev' : Forall (fun e => e_run_id e = run_id row /\ e_sequence_no e = None)
                   (sk_before k ++ ev :: sk_after k)).
  { rewrite Forall_app, Forall_cons in *. by destruct Hev. }
  assert (Hseq : Forall (fun e => e_sequence_no e = None) (sk_before k ++ ev :: sk_after k))
    by (eapply Forall_impl; [exact Hev'|by intros ? []]).
  unfold _set_status_on_locked_run.
  rewrite (bind_eq_ok _ _ _ _ _ (check_claim_ok s row (sk_claim k) Hc)).
  rewrite Ht, He, lift_ok_bind, decide_False by done. unfold bind at 1, get.
  rewrite (bind_eq_ok _ _ _ _ _ (update_run_ok s _ _ _ row Hrow Hp)). cbn [negb].
  fold (changed_row s row target k) d1 ev.
  match goal with |- context [append_events (sk_after k) ;;; ?f] =>
    destruct (append_bracketed (sk_before k) ev (sk_after k) (fun _ => f) (set_pending d1 s) Hseq)
      as (s4 & E4 & W) end.
  cbv beta in E4. rewrite E4. clear E4. apply (writes_trans _ _ _ _ _ (writes_pending s d1)) in W.
  pose proof (wr_pending _ _ _ W) as Hp4. cbn in Hp4.
  assert (Hrow4 : runs (pending s4) !! run_id row = Some (changed_row s row target k)).
  { rewrite Hp4, add_events_runs. apply lookup_insert_eq. }
  rewrite (bind_eq_ok _ _ _ _ _ (refresh_run_ok s4 _ _ Hrow4)).
  fold (settle_tail target (changed_row s row target k)).
  destruct (settle_tail_ok target _ s4 Hwf') as (s6 & a & E6 & Ear & Eas & P6 & C6 & H6 & A6 & D6 & F6 & N6).
  exists s6, a, (changed_row s row target k). rewrite E6, P6, C6, H6.
  rewrite (wr_auto _ _ _ W), (wr_hooks _ _ _ W). split_and!; try done; try congruence.
  - by rewrite Hp4, add_events_runs.
  - apply stamp_changed.
  - rewrite Hp4. apply (event_trace_add_events (now s) _ _ d1). eapply Forall_impl; [exact Hev'|by intros ? []].
  - destruct (auto_commit s) eqn:Ea; [done|]. by apply (wr_committed _ _ _ W).
  - rewrite Hp4. etrans; [apply (update_evolves (pending s) (run_id row) row); [done|exact Hevo]|apply add_events_evolves].
  - etrans; [eapply writes_row_step; [exact W| | | |]|].
    + intros j Hj. rewrite add_events_runs. by apply lookup_insert_ne.
    + intros _. rewrite add_events_runs. simpl. rewrite lookup_insert_eq. by eexists.
    + intros j Hj. rewrite (run_events_add_events _ (run_id row)); [done| |done].
      eapply Forall_impl; [exact Hev'|by intros ? []].
    + by rewrite add_events_artifacts.
    + split; rewrite ?P6, ?H6; try done. by apply prefix_app_r.
Qed.

(** ** Properties *)

(** C5. An accepted status change: the request is answered with the changed run
    and [true]; only the row of this run changes, to the target status, with
    its own timestamp column set, the token dropped exactly when the target is
    terminal, paused or queued, the attempt and the insert-only columns kept;
    and the events of the run grow by the callers' events before, one
    [run.status_changed], and the callers' events after, numbered consecutively
    from the last number.  A committing session has committed all of it, any
    other session none of it, and triage is reconciled only on settlement. *)
Theorem status_change_accepted (s : store) (row : run_row) (st : enum_arg RunStatus)
    (k : status_kwargs) (current target : RunStatus) :
  row_wf row -> runs (pending s) !! run_id row = Some row ->
  decide_status s row st k = Accepted current target ->
  Forall (fun e => e_run_id e = run_id row /\ e_sequence_no e = None)
    (sk_before k ++ sk_after k) ->
  exists s' a row',
    _set_status_on_locked_run row st k s = (s', Ok (a, true)) /\
    ar_row a = row' /\ ar_status a = target /\
    runs (pending s') = <[run_id row := row']> (runs (pending s)) /\
    status row' = value target /\ spec row' = spec row /\
    execution_attempt row' = execution_attempt row /\
    execution_token row' = (if is_terminal target || status_in target [PAUSED; QUEUED]
                            then None else execution_token row) /\
    (target ∈ [PAUSED; COMPLETED; FAILED; CANCELED; EXPIRED] ->
     stamp target row' = Some (default (now s) (sk_transitioned_at k))) /\
    event_trace (run_id row) (pending s') = event_trace (run_id row) (pending s) ++
      numbered (max_sequence (run_id row) (pending s) + 1)
        (sk_before k ++ [status_changed_event (run_id row) (value current) (value target)
                           (root_run_id (spec row)) (sk_reason k)] ++ sk_after k) /\
    committed s' = (if auto_commit s then pending s' else committed s) /\
    hook_calls s' = hook_calls s ++ (if is_terminal target then reconcile_calls row' else []) /\
    metadata_ row' = default (metadata_ row) (sk_metadata_update k).
Proof.
  intros Hwf Hrow Hd Hev. destruct (set_status_accepted s row st k current target Hwf Hrow Hd Hev)
    as (s' & a & row' & E). exists s', a, row'. tauto.
Qed.

(** The snapshot answered by a request that changes nothing. *)
Definition answered (o : option run_row) : result (AgentRun * bool) :=
  match o with
  | Some r => (fun a => (a, false)) <$> to_domain r
  | None => Err (LookupError "Run not found")
  end.

(** The answer to a request that is not accepted, given the state after it. *)
Definition declined_result (s' : store) (row : run_row) (k : status_kwargs)
    (d : status_decision) : result (AgentRun * bool) :=
  match d, sk_claim k with
  | Fenced, Some c | Superseded, Some c => Err (claim_lost_error c (run_id row))
  | Illegal e, _ => Err e
  | Unchanged, Some c =>
      match runs (pending s') !! claim_of c with
      | None => Err (LookupError "Run not found")
      | Some r => if claim_is_current c r then answered (Some row)
                  else Err (claim_lost_error c (claim_of c))
      end
  | Superseded, None => answered (runs (pending s') !! run_id row)
  | _, _ => answered (Some row)
  end.

Lemma answer_eq (row : run_row) (s : store) :
  bind (S:=store) (lift_result (to_domain row)) (fun a => ret (a, false)) s =
  (s, answered (Some row)).
Proof. unfold bind, lift_result, ret. simpl. by destruct (to_domain row). Qed.

Lemma update_run_none s i preds l :
  match runs (pending s) !! i with Some r => forallb (fun p => p r) preds | None => false end = false ->
  update_run i preds l s = (s, Ok false).
Proof. unfold update_run, bind, get. destruct (runs (pending s) !! i); [|done]. by intros ->. Qed.

(** The request refused before the row is looked at. *)
Lemma fenced_eq s row st k :
  claim_ok s row (sk_claim k) = false ->
  exists c s', sk_claim k = Some c /\
    _set_status_on_locked_run row st k s = (s', Err (claim_lost_error c (run_id row))) /\
    pending s' = pending s /\ committed s' = committed s /\ hook_calls s' = hook_calls s /\
    claim_lost c s' = true.
Proof.
  intros Hc. unfold _set_status_on_locked_run. destruct (sk_claim k) as [c|]; [|done].
  destruct (check_claim_fenced s row c Hc) as (s' & E & P & C & H' & L).
  rewrite (bind_eq_err _ _ _ _ _ E). eauto 10.
Qed.

Section checked.
Context (s : store) (row : run_row) (st : enum_arg RunStatus) (k : status_kwargs).
Hypothesis Hc : claim_ok s row (sk_claim k) = true.

Lemma settled_eq :
  is_terminal (row_status row) = true ->
  _set_status_on_locked_run row st k s = (s, answered (Some row)).
Proof using Hc.
  intros Ht. unfold _set_status_on_locked_run.
  rewrite (bind_eq_ok _ _ _ _ _ (check_claim_ok s row _ Hc)), Ht. apply answer_eq.
Qed.

Hypothesis Ht : is_terminal (row_status row) = false.

Lemma illegal_eq e :
  ensure_run_transition (Raw (status row)) st (sk_allow_requeue k) = Err e ->
  _set_status_on_locked_run row st k s = (s, Err e).
Proof using Hc Ht.
  intros He. unfold _set_status_on_locked_run.
  by rewrite (bind_eq_ok _ _ _ _ _ (check_claim_ok s row _ Hc)), Ht, He.
Qed.

Context (current target : RunStatus).
Hypothesis He :
    ensure_run_transition (Raw (status row)) st (sk_allow_requeue k) = Ok (current, target).

Lemma unchanged_eq :
  current = target ->
  _set_status_on_locked_run row st k s = (s, declined_result s row k Unchanged).
Proof using Hc Ht He.
  intros Heq. unfold _set_status_on_locked_run, declined_result.
  rewrite (bind_eq_ok _ _ _ _ _ (check_claim_ok s row _ Hc)), Ht, He, lift_ok_bind,
    decide_True by done.
  destruct (sk_claim k) as [c|]; [|apply answer_eq]. simpl in Hc. bool_simpl.
  unfold assert_execution_claim, refresh_run, bind, get, raise, ret, lift_result.
  destruct (runs (pending s) !! claim_of c) as [r|]; [|done].
  rewrite H0. simpl. destruct (claim_is_current c r); simpl; [|done].
  by destruct (to_domain row).
Qed.

Lemma superseded_eq :
  current <> target ->
  match runs (pending s) !! run_id row with
  | Some r => forallb (fun p => p r) (status_predicates current k)
  | None => false
  end = false ->
  exists s', _set_status_on_locked_run row st k s = (s', declined_result s' row k Superseded) /\
    (pending s' = pending s \/ pending s' = committed s) /\
    committed s' = committed s /\ hook_calls s' = hook_calls s /\
    match sk_claim k with Some c => claim_lost c s' = true | None => True end.
Proof using Hc Ht He.
  intros Hne Hp. unfold _set_status_on_locked_run, declined_result.
  rewrite (bind_eq_ok _ _ _ _ _ (check_claim_ok s row _ Hc)), Ht, He, lift_ok_bind,
    decide_False by done.
  unfold bind at 1, get. rewrite (bind_eq_ok _ _ _ _ _ (update_run_none s _ _ _ Hp)). cbn [negb].
  set (s1 := if sk_rollback_on_conflict k then set_pending (committed s) s else s).
  rewrite (bind_eq_ok _ _ s s1 tt) by (unfold s1; by destruct (sk_rollback_on_conflict k)).
  assert (Hs1 : (pending s1 = pending s \/ pending s1 = committed s) /\
                committed s1 = committed s /\ hook_calls s1 = hook_calls s)
    by (unfold s1; destruct (sk_rollback_on_conflict k); auto).
  destruct (sk_claim k) as [c|].
  - exists (set_lost c s1). split; [done|]. destruct Hs1 as (? & ? & ?). split_and!; try done.
    unfold claim_lost. simpl. apply bool_decide_eq_true, elem_of_union_l, elem_of_singleton_2; done.
  - exists s1. destruct Hs1 as (? & ? & ?). split_and!; try done. unfold refresh_run.
    destruct (runs (pending s1) !! run_id row) as [r|] eqn:Hr.
    + unfold bind, get, ret, lift_result. rewrite Hr. simpl. by destruct (to_domain r).
    + unfold bind, get, raise. by rewrite Hr.
Qed.
End checked.

(** Every other status change writes nothing: a worker whose claim is not
    current is refused with [ExecutionClaimLost] and its claim is marked lost, a
    settled run is answered as it is, a transition the table does not allow
    raises its error, and a row that changed since it was read makes a worker
    lose its claim and any other caller read the current row again.  Nothing is
    committed, and the pending database is as before or rolled back. *)
Theorem status_change_declined (s : store) (row : run_row) (st : enum_arg RunStatus)
    (k : status_kwargs) :
  let d := decide_status s row st k in
  let '(s', res) := _set_status_on_locked_run row st k s in
  match d with
  | Accepted _ _ => True
  | _ =>
      committed s' = committed s /\ hook_calls s' = hook_calls s /\
      (pending s' = pending s \/ d = Superseded /\ pending s' = committed s) /\
      res = declined_result s' row k d /\
      (d = Fenced \/ d = Superseded ->
       match sk_claim k with Some c => claim_lost c s' = true | None => True end)
  end.
Proof.
  intros d. unfold d, decide_status. destruct (claim_ok s row (sk_claim k)) eqn:Hc.
  2:{ destruct (fenced_eq s row st k Hc) as (c & s' & Hk & -> & ? & ? & ? & ?).
      unfold declined_result. simpl. rewrite Hk. split_and!; auto. }
  cbn [negb]. destruct (is_terminal (row_status row)) eqn:Ht.
  { rewrite settled_eq by done. split_and!; auto. by intros []. }
  destruct (ensure_run_transition _ _ _) as [[current target]|e] eqn:He.
  2:{ rewrite (illegal_eq s row st k Hc Ht e He). split_and!; auto. by intros []. }
  destruct (decide (current = target)) as [Heq|Hne].
  { rewrite (unchanged_eq s row st k Hc Ht _ _ He Heq). split_and!; auto. by intros []. }
  pose proof (superseded_eq s row st k Hc Ht _ _ He Hne) as Hsup.
  destruct (_set_status_on_locked_run row st k s) as [s' res].
  destruct (runs (pending s) !! run_id row) as [r|]; [destruct (forallb _ _); [done|]|];
    destruct (Hsup eq_refl) as (s2 & [= <- ->] & [|] & ? & ? & ?); split_and!; auto.
Qed.

(** * The execution claim *)

(** The row an acquired claim leaves. *)
Definition acquired_row (t : instant) (token : string) (r : run_row) : run_row :=
  apply_assigns [SetUpdatedAt t; SetStatus (value RUNNING); SetToken (Some token);
    SetAttempt (execution_attempt r + 1); SetStartedAt (Some (default t (started_at r)));
    SetUpdatedAt t] r.

(** The run may be claimed: it is open and no worker holds it. *)
Definition claimable_for_execution (r : run_row) : bool :=
  negb (is_terminal (row_status r)) && bool_decide (execution_token r = None).

(** The events a claim appends. *)
Definition claim_events (r : run_row) : list AgentRunEvent :=
  let i := run_id r in
  let root := Some (int_or (root_run_id (spec r)) i) in
  let st := row_status r in
  (if decide (st = QUEUED)
   then [status_changed_event i (value QUEUED) (value STARTING) root (Some "claimed");
         status_changed_event i (value STARTING) (value RUNNING) root None]
   else if decide (st = RUNNING) then []
   else [status_changed_event i (value st) (value RUNNING) root None]) ++
  [run_event i (if status_in st [RUNNING; PAUSED; VERIFYING] then "run.resumed" else "run.started")
     [("from_status", JStr (value st)); ("execution_attempt", JInt (execution_attempt r + 1))]
     root AGENT_RUNTIME].

Definition claim_of_row (token : string) (r : run_row) : ExecutionClaim :=
  {| claim_of := run_id r; claim_token := token; claim_attempt := execution_attempt r + 1 |}.

Lemma open_row_value r :
  row_wf r -> is_terminal (row_status r) = false -> status r = value (row_status r).
Proof.
  intros [Hs _ _ _ _] Ht. apply db_status_cases in Hs as [[st E]|Hl].
  - unfold row_status. rewrite E. by rewrite coerce_value.
  - unfold row_status in Ht. by rewrite coerce_legacy in Ht.
Qed.

Lemma claim_predicates r :
  row_wf r -> is_terminal (row_status r) = false ->
  forallb (fun p : run_row -> bool => p r)
    [fun r' => String.eqb (status r') (value (row_status r));
     fun r' => Z.eqb (execution_attempt r') (execution_attempt r);
     fun r' => str_in (status r') _DEFERRED_RUN_ACTIVE_STATUS_VALUES;
     fun r' => bool_decide (execution_token r' = None)]
  = bool_decide (execution_token r = None).
Proof.
  intros Hwf Ht. pose proof (open_row_value r Hwf Ht) as E.
  simpl. rewrite E, String.eqb_refl, Z.eqb_refl, andb_true_r. simpl.
  by destruct (row_status r).
Qed.

Lemma acquire_transaction_ok s r0 token r :
  row_wf r -> runs (pending s) !! run_id r = Some r -> root_present s r ->
  run_id r0 = run_id r -> spec r0 = spec r -> auto_commit s = false ->
  exists s', auto_commit s' = auto_commit s /\
    if claimable_for_execution r then
      _try_acquire_execution_claim_transaction r0 token s =
        (s', Ok (Some (claim_of_row token r))) /\
      pending s' = add_events (now s) (claim_events r)
        (with_runs (pending s) (<[run_id r := acquired_row (now s) token r]> (runs (pending s)))) /\
      committed s' = pending s'
    else
      _try_acquire_execution_claim_transaction r0 token s = (s', Ok None) /\
      committed s' = committed s /\ (pending s' = pending s \/ pending s' = committed s).
Proof.
  intros Hwf Hr Hroot Hid Hsp Ha. unfold _try_acquire_execution_claim_transaction.
  rewrite Hid, Hsp.
  destruct (locked_run_ok s (run_id r) (Some (int_or (root_run_id (spec r)) (run_id r))) r)
    as (s1 & Hl & E1); auto.
  rewrite (bind_eq_ok _ _ _ _ _ E1). cbv zeta. clear E1.
  destruct (locked_fields _ _ Hl) as (Ep & Ec & _ & _ & En & Ea & _).
  unfold claimable_for_execution. destruct (is_terminal (row_status r)) eqn:Ht; cbn [negb andb].
  { exists s1. split; [congruence|]. rewrite Ep, Ec. auto. }
  pose proof (claim_predicates r Hwf Ht) as Hp.
  case_bool_decide as Htok; unfold bind at 1, get.
  2:{ rewrite (bind_eq_ok _ _ s1 s1 false) by (apply update_run_none; by rewrite Ep, Hr).
      exists (set_pending (committed s1) s1). split_and!; simpl; auto. }
  rewrite <- Ep in Hr. rewrite (bind_eq_ok _ _ _ _ _ (update_run_ok s1 _ _ _ r Hr Hp)). cbn [negb].
  set (d1 := with_runs (pending s1) _).
  match goal with |- context [append_events ?l ;;; append_event ?e ;;; ?f] =>
    assert (Hce : claim_events r = l ++ [e]) by (unfold claim_events; by repeat case_decide);
    destruct (append_events_ok l (set_pending d1 s1)) as (s2 & E2 & W2);
      [repeat case_decide; repeat constructor|];
    destruct (append_event_ok e s2 eq_refl) as (s3 & E3 & W3 & _)
  end.
  rewrite (bind_eq_ok _ _ _ _ _ E2), (bind_eq_ok _ _ _ _ _ E3).
  pose proof (writes_trans _ _ _ _ _ (writes_pending s1 d1) W2) as W12.
  pose proof (writes_trans _ _ _ _ _ W12 W3) as W.
  exists (set_committed (pending s3) s3). split_and!; try done.
  - simpl. rewrite (wr_auto _ _ _ W). congruence.
  - simpl. rewrite Hce, add_events_app, (wr_pending _ _ _ W), (wr_pending _ _ _ W2).
    rewrite (wr_now _ _ _ W12). change (now (set_pending d1 s1)) with (now s1).
    unfold d1, acquired_row. by rewrite Ep, En.
Qed.

(** C6. Exclusive execution: acquiring the claim of a stored run succeeds
    exactly when the run is open and no worker holds it.  Then the run is
    RUNNING under the new token, with its attempt one higher and its first start
    time kept, the claim returned is current for it, and the events of the
    acquisition are committed with it under consecutive numbers.  Otherwise
    nothing is committed and the caller gets no claim, so while a token is held
    no second worker can acquire the run. *)
Theorem claim_acquisition (s : store) (r0 r : run_row) (token : string) :
  row_wf r -> runs (pending s) !! run_id r = Some r -> root_present s r ->
  run_id r0 = run_id r -> spec r0 = spec r -> token <> "" ->
  exists s' o, _try_acquire_execution_claim r0 token s = (s', Ok o) /\
    auto_commit s' = auto_commit s /\
    (is_Some o <-> is_terminal (row_status r) = false /\ execution_token r = None) /\
    match o with
    | None => committed s' = committed s /\
              (pending s' = pending s \/ pending s' = committed s)
    | Some c => exists r',
        c = claim_of_row token r /\ claim_is_current c r' = true /\
        committed s' = pending s' /\
        runs (pending s') = <[run_id r := r']> (runs (pending s)) /\
        status r' = value RUNNING /\ execution_token r' = Some token /\
        execution_attempt r' = (execution_attempt r + 1)%Z /\ spec r' = spec r /\
        started_at r' = Some (default (now s) (started_at r)) /\
        event_trace (run_id r) (pending s') = event_trace (run_id r) (pending s) ++
          numbered (max_sequence (run_id r) (pending s) + 1) (claim_events r)
    end.
Proof.
  intros Hwf Hr Hroot Hid Hsp Htok.
  destruct (acquire_transaction_ok (set_auto_commit false s) r0 token r)
    as (s1 & _ & Hout); auto.
  unfold _try_acquire_execution_claim, bind at 1, get.
  rewrite (bind_eq_ok _ _ s (set_auto_commit false s) tt) by done.
  assert (Hiff : claimable_for_execution r = true <->
                 is_terminal (row_status r) = false /\ execution_token r = None).
  { unfold claimable_for_execution. by rewrite andb_true_iff, negb_true_iff, bool_decide_eq_true. }
  set (o := if claimable_for_execution r then Some (claim_of_row token r) else None).
  assert (E : _try_acquire_execution_claim_transaction r0 token (set_auto_commit false s)
              = (s1, Ok o)) by (unfold o; revert Hout; destruct (claimable_for_execution r); by intros []).
  exists (set_auto_commit (auto_commit s) s1), o.
  split. { unfold catch, bind, ret. by rewrite E. }
  split; [done|]. split.
  { rewrite <- Hiff. unfold o. destruct (claimable_for_execution r); split; try done; by intros [? [=]]. }
  unfold o. revert Hout. destruct (claimable_for_execution r); intros (_ & Hp & Hc); [|by auto].
  exists (acquired_row (now s) token r). cbn in Hp. split_and!; try done; simpl; rewrite ?Hp.
  - unfold claim_is_current, claim_of_row, acquired_row, apply_assigns. destruct r. simpl.
    destruct (String.eqb token "") eqn:Et; [by apply String.eqb_eq in Et|].
    rewrite String.eqb_refl, Z.eqb_refl. done.
  - by rewrite add_events_runs.
  - by destruct r.
  - by destruct r.
  - by destruct r.
  - by destruct r.
  - by destruct r.
  - apply (event_trace_add_events (now s) _ _ (with_runs (pending s) _)).
    unfold claim_events. repeat case_decide; repeat constructor.
Qed.
End transitions.

(** ** Instances *)

Lemma status_change_accepted_witness :
  exists s' a, _set_status_on_locked_run demo_running (Member COMPLETED)
      default_kwargs demo_session = (s', Ok (a, true)) /\
    ar_status a = COMPLETED /\
    event_trace 1 (committed s') =
      [(1%Z, "run.status_changed", [("from_status", JStr "running"); ("to_status", JStr "completed")])].
Proof.
  destruct (status_change_accepted demo_session demo_running (Member COMPLETED)
    default_kwargs RUNNING COMPLETED) as (s' & a & row' & E & _ & Ha & _ & _ & _ & _ & _ & _ & Ht & Hc & _).
  - apply demo_running_wf.
  - reflexivity.
  - reflexivity.
  - constructor.
  - exists s', a. split; [exact E|]. split; [exact Ha|]. cbn in Hc. rewrite Hc. exact Ht.
Defined.

Lemma claim_acquisition_witness :
  exists s', _try_acquire_execution_claim demo_queued "worker" demo_session =
    (s', Ok (Some {| claim_of := 2; claim_token := "worker"; claim_attempt := 1 |})).
Proof.
  destruct (claim_acquisition demo_session demo_queued demo_queued "worker")
    as (s' & o & E & _ & [_ Ho] & Hc).
  - apply demo_queued_wf.
  - reflexivity.
  - exists demo_queued. reflexivity.
  - reflexivity.
  - reflexivity.
  - discriminate.
  - destruct o as [c|].
    + destruct Hc as (r' & -> & _). exists s'. exact E.
    + destruct Ho as [c Hc']; [by split|discriminate].
Defined.
