(* ===== verification/RunQueue.v ===== *)
(** Claiming from the queue: which run [claim_next] takes, that its loop over
    batches ends, and the order in which row locks are taken. *)
From S2P Require Import Prelude.
From S2P Require Import PyStr.
From S2P Require Import Json.
From S2P Require Import Status.
From S2P Require Import Failures.
From S2P Require Import RunStore.
From S2P Require Import RunCreate.
From S2P Require Import RunLifecycle.
From S2P Require Import RunMessages.
From S2P Require Import RunEvolution.
From S2P Require Import RunOutcome.
From S2P Require Import RunDemo.
From S2P Require Import RunTransitions.
Open Scope string_scope.
Open Scope bool_scope.
Open Scope list_scope.

(** * Sorting and filtering *)

Section sorting.
Context {A : Type} (leb : A -> A -> bool).
Hypothesis leb_total : forall x y, leb x y = true \/ leb y x = true.
Hypothesis leb_trans : forall x y z, leb x y = true -> leb y z = true -> leb x z = true.

Lemma insert_sorted_head x l :
  (forall y, y ∈ l -> leb x y = true) -> insert_sorted leb x l = x :: l.
Proof. destruct l as [|y l]; [done|]. intros H. simpl. by rewrite H by set_solver. Qed.

Lemma insert_sorted_filter (P : A -> Prop) `{!forall x, Decision (P x)} x l :
  ordered leb l ->
  filter P (insert_sorted leb x l) =
  if decide (P x) then insert_sorted leb x (filter P l) else filter P l.
Proof using leb_total leb_trans.
  induction l as [|y l IH]; intros Hl; simpl.
  - rewrite filter_cons. by case_decide.
  - inversion Hl as [|? ? Hs Hall]; subst. destruct (leb x y) eqn:E.
    + rewrite filter_cons. case_decide; [|done]. rewrite insert_sorted_head; [done|].
      intros z [_ [->|Hz]%elem_of_cons]%list_elem_of_filter; [done|].
      rewrite Forall_forall in Hall. eauto.
    + rewrite !filter_cons, IH by done. repeat case_decide; try done. simpl. by rewrite E.
Qed.

Lemma py_sorted_filter (P : A -> Prop) `{!forall x, Decision (P x)} l :
  py_sorted leb (filter P l) = filter P (py_sorted leb l).
Proof using leb_total leb_trans.
  induction l as [|x l IH]; [done|]. simpl.
  rewrite insert_sorted_filter by (apply py_sorted_ordered; done).
  rewrite filter_cons. case_decide; [|done]. simpl. by rewrite IH.
Qed.
End sorting.

Lemma created_leb_total a b : created_leb a b = true \/ created_leb b a = true.
Proof.
  unfold created_leb. rewrite !orb_true_iff, !andb_true_iff, !Z.ltb_lt, !Z.eqb_eq, !Z.leb_le. lia.
Qed.
Lemma created_leb_trans a b c :
  created_leb a b = true -> created_leb b c = true -> created_leb a c = true.
Proof.
  unfold created_leb. rewrite !orb_true_iff, !andb_true_iff, !Z.ltb_lt, !Z.eqb_eq, !Z.leb_le. lia.
Qed.

Lemma find_take {A} (f : A -> bool) n l x : find f (take n l) = Some x -> find f l = Some x.
Proof.
  revert n. induction l as [|y l IH]; intros [|n]; simpl; try done.
  destruct (f y); [done|]. apply IH.
Qed.

Lemma find_filter_miss {A} (f : A -> bool) (P : A -> Prop) `{!forall x, Decision (P x)} l :
  (forall x, x ∈ l -> ~ P x -> f x = false) -> find f (filter P l) = find f l.
Proof.
  induction l as [|x l IH]; intros Hl; [done|]. rewrite filter_cons. simpl.
  assert (IH' : find f (filter P l) = find f l) by (apply IH; intros; apply Hl; [by right|done]).
  case_decide as Hx; simpl; rewrite IH'; [done|]. by rewrite (Hl x) by (by left || done).
Qed.

(** * The queue *)

Section queue.
Context `{Platform}.

(** The queued runs, oldest first. *)
Definition queue (d : db) : list run_row :=
  by_created (filter (fun r => status r = value QUEUED) (all_runs d)).

(** The run's row and its root's row can be locked without waiting. *)
Definition unlocked (s : store) (r : run_row) : bool :=
  match lock_result s (run_id r) (Some (int_or (root_run_id (spec r)) (run_id r)))
          (bool_decide (dialect s = Postgresql)) with
  | Some _ => true
  | None => false
  end.

Definition claimable (s : store) (r : run_row) : bool :=
  unlocked s r && negb (deferred_dependency_active (pending s) r).

Lemma claimable_eq s r :
  claimable s r =
  match lock_result s (run_id r) (Some (int_or (root_run_id (spec r)) (run_id r)))
          (bool_decide (dialect s = Postgresql)) with
  | Some _ => negb (deferred_dependency_active (pending s) r)
  | None => false
  end.
Proof. unfold claimable, unlocked. by destruct (lock_result _ _ _ _). Qed.

(** The row as the queue query of [s] returned it. *)
Definition queued_row (s : store) (r : run_row) : Prop :=
  runs (pending s) !! run_id r = Some r /\ status r = value QUEUED /\ row_wf r.

Lemma all_runs_lookup d r : db_wf d -> r ∈ all_runs d <-> runs d !! run_id r = Some r.
Proof.
  intros Hd. unfold all_runs. rewrite list_elem_of_fmap. split.
  - intros ([i r'] & -> & Hin). apply elem_of_map_to_list in Hin. simpl.
    by destruct (wf_ids _ Hd _ _ Hin) as [-> _].
  - intros Hr. exists (run_id r, r). split; [done|]. by apply elem_of_map_to_list.
Qed.

Lemma queue_rows s r : db_wf (pending s) -> r ∈ queue (pending s) -> queued_row s r.
Proof.
  intros Hd. unfold queue, by_created.
  rewrite elem_of_py_sorted, list_elem_of_filter, all_runs_lookup by done.
  intros [Hq Hr]. split_and!; try done. by eapply wf_rows.
Qed.

Lemma queued_batch_eq seen d :
  queued_batch seen d = take batch_size (filter (fun r => run_id r ∉ seen) (queue d)).
Proof.
  unfold queued_batch, queue, by_created. f_equal.
  rewrite <- (py_sorted_filter _ created_leb_total created_leb_trans).
  f_equal. rewrite list_filter_filter. apply list_filter_iff. tauto.
Qed.

Lemma lock_result_locked s s' i root b :
  locked s s' -> lock_result s' i root b = lock_result s i root b.
Proof. by intros [l ->]. Qed.

Lemma claimable_locked s s' r : locked s s' -> claimable s' r = claimable s r.
Proof. by intros [l ->]. Qed.

Lemma lock_result_row s i root b r :
  lock_result s i root b = Some r -> runs (pending s) !! i = Some r.
Proof. unfold lock_result. intros Hl. repeat case_match; repeat case_decide; congruence. Qed.

(** What claiming the row [r] of the session [s1] does. *)
Definition claims (s1 : store) (r : run_row) (s' : store) (a : AgentRun) : Prop :=
  _set_status_on_locked_run r (Member STARTING) (with_reason "claimed" default_kwargs) s1 =
    (s', Ok (a, true)) /\ decide_status s1 r (Member STARTING)
      (with_reason "claimed" default_kwargs) = Accepted QUEUED STARTING.

Lemma queued_accepts s r :
  queued_row s r ->
  decide_status s r (Member STARTING) (with_reason "claimed" default_kwargs) =
  Accepted QUEUED STARTING.
Proof.
  intros (Hr & Hq & _). unfold decide_status. simpl.
  assert (row_status r = QUEUED) as -> by (unfold row_status; rewrite Hq; done).
  rewrite Hq. simpl. rewrite Hr. unfold status_predicates. simpl. by rewrite Hq.
Qed.

Lemma queued_claims s r : queued_row s r -> exists s' a, claims s r s' a.
Proof.
  intros Hq. pose proof (queued_accepts s r Hq) as Hd. destruct Hq as (Hr & _ & Hwf).
  destruct (set_status_accepted s r _ _ _ _ Hwf Hr Hd) as (s' & a & r' & E & _); [constructor|].
  by exists s', a.
Qed.

(** One row of a batch is claimed when it is claimable and passed over else. *)
Lemma claim_from_cons r rows seen s :
  queued_row s r ->
  exists s1, locked s s1 /\
    claim_from (r :: rows) seen s =
    if claimable s r then
      (x <- _set_status_on_locked_run r (Member STARTING) (with_reason "claimed" default_kwargs) ;;
       ret (seen, Some x.1)) s1
    else claim_from rows (seen ++ [run_id r]) s1.
Proof.
  intros (Hr & Hq & Hwf).
  destruct (lock_run_spec (run_id r) (Some (int_or (root_run_id (spec r)) (run_id r)))
    (bool_decide (dialect s = Postgresql)) s) as (s1 & Hl & E1).
  exists s1. split; [done|]. simpl. unfold bind at 1, get.
  rewrite (bind_eq_ok _ _ _ _ _ E1), claimable_eq. clear E1.
  destruct (lock_result _ _ _ _) as [r'|] eqn:El; [|done].
  apply lock_result_row in El. rewrite Hr in El. injection El as <-.
  rewrite Hq, String.eqb_refl. cbn [negb].
  unfold _deferred_run_dependency_active, gets. unfold bind at 1.
  destruct (locked_fields _ _ Hl) as (Ep & _). rewrite Ep.
  by destruct (deferred_dependency_active (pending s) r).
Qed.

Lemma queued_row_locked s s' r : locked s s' -> queued_row s r -> queued_row s' r.
Proof. by intros [l ->]. Qed.

Lemma find_claimable_locked s s' rows :
  locked s s' -> find (claimable s') rows = find (claimable s) rows.
Proof.
  intros Hl. induction rows as [|x rows IH]; [done|]. simpl.
  by rewrite (claimable_locked _ _ _ Hl), IH.
Qed.

Lemma claim_from_spec rows : forall seen s,
  Forall (queued_row s) rows ->
  match find (claimable s) rows with
  | None => exists s', claim_from rows seen s = (s', Ok (seen ++ (run_id <$> rows), None)) /\
                       locked s s'
  | Some r => exists s1 s' seen' a, claim_from rows seen s = (s', Ok (seen', Some a)) /\
                locked s s1 /\ claims s1 r s' a
  end.
Proof.
  induction rows as [|r rows IH]; intros seen s Hrows.
  { exists s. rewrite app_nil_r. split; [done|reflexivity]. }
  apply Forall_cons in Hrows as [Hrow Hrows].
  destruct (claim_from_cons r rows seen s Hrow) as (s1 & Hl & E). rewrite E. clear E. simpl.
  destruct (claimable s r).
  - destruct (queued_claims s1 r) as (s' & a & Hcs); [by eapply queued_row_locked|].
    exists s1, s', seen, a. split; [|by split].
    destruct Hcs as [E _]. by rewrite (bind_eq_ok _ _ _ _ _ E).
  - specialize (IH (seen ++ [run_id r]) s1). rewrite (find_claimable_locked _ _ _ Hl) in IH.
    destruct (find (claimable s) rows) as [x|].
    + destruct IH as (s2 & s' & seen' & a & ? & ? & ?).
      { eapply Forall_impl; [exact Hrows|]. intros x'. by apply queued_row_locked. }
      exists s2, s', seen', a. split; [done|]. split; [by etrans|done].
    + destruct IH as (s' & -> & Hl').
      { eapply Forall_impl; [exact Hrows|]. intros x'. by apply queued_row_locked. }
      exists s'. split; [|by etrans]. csimpl. by rewrite <- app_assoc.
Qed.

(** The loop over batches claims the first claimable run that was not passed
    over yet, and its fuel is enough. *)
Lemma claim_loop_unfold fuel seen s :
  claim_loop (Datatypes.S fuel) seen s =
  match filter (fun r => run_id r ∉ seen) (queue (pending s)) with
  | [] => (s, Ok None)
  | _ => (r <- claim_from (take batch_size
                  (filter (fun r => run_id r ∉ seen) (queue (pending s)))) seen ;;
          match r with
          | (_, Some run) => ret (Some run)
          | (seen', None) => claim_loop fuel seen'
          end) s
  end.
Proof.
  simpl. unfold bind at 1, get. rewrite queued_batch_eq. by destruct (filter _ _).
Qed.

(** After a round without a claim, the runs still to look at. *)
Lemma next_round s seen Q :
  db_wf (pending s) -> Q = filter (fun r => run_id r ∉ seen) (queue (pending s)) ->
  find (claimable s) (take batch_size Q) = None -> Q <> [] ->
  let seen' := seen ++ (run_id <$> take batch_size Q) in
  let Q' := filter (fun r => run_id r ∉ seen') (queue (pending s)) in
  find (claimable s) Q' = find (claimable s) Q /\ (length Q' < length Q)%nat.
Proof.
  intros Hd HQ Hnone Hne seen' Q'.
  assert (Hrow : forall r, r ∈ Q -> runs (pending s) !! run_id r = Some r).
  { intros r. rewrite HQ. intros [_ Hr]%list_elem_of_filter. by apply (queue_rows s r Hd). }
  assert (EQ' : Q' = filter (fun r => run_id r ∉ (run_id <$> take batch_size Q)) Q).
  { unfold Q', seen'. trans (filter (fun r => run_id r ∉ (run_id <$> take batch_size Q))
      (filter (fun r => run_id r ∉ seen) (queue (pending s)))); [|by rewrite <- HQ].
    rewrite list_filter_filter. apply list_filter_iff. intros r. rewrite elem_of_app. tauto. }
  rewrite EQ'. split.
  - apply find_filter_miss. intros r Hr Hin. apply dec_stable in Hin.
    apply list_elem_of_fmap in Hin as (r' & E & Hr').
    assert (r = r') as ->.
    { pose proof (Hrow _ Hr). assert (Hq : r' ∈ Q) by (by eapply subseteq_take).
      pose proof (Hrow _ Hq). congruence. }
    eapply find_none in Hnone; [exact Hnone|]. by apply list_elem_of_In.
  - destruct Q as [|r0 Q0]; [done|]. apply length_filter_lt with r0; [by left|].
    intros Hn. apply Hn. simpl. by left.
Qed.

Lemma claim_loop_spec fuel : forall seen s,
  db_wf (pending s) ->
  (length (filter (fun r => run_id r ∉ seen) (queue (pending s))) < fuel)%nat ->
  match find (claimable s) (filter (fun r => run_id r ∉ seen) (queue (pending s))) with
  | None => exists s', claim_loop fuel seen s = (s', Ok None) /\ locked s s'
  | Some r => exists s1 s' a, claim_loop fuel seen s = (s', Ok (Some a)) /\
                locked s s1 /\ claims s1 r s' a
  end.
Proof.
  induction fuel as [|fuel IH]; intros seen s Hd Hlen; [lia|].
  rewrite claim_loop_unfold. remember (filter _ _) as Q eqn:HQ.
  destruct (decide (Q = [])) as [->|Hne].
  { exists s. split; [done|reflexivity]. }
  assert (Hrows : Forall (queued_row s) Q).
  { rewrite HQ. apply Forall_forall. intros r [_ Hr]%list_elem_of_filter. by apply queue_rows. }
  pose proof (claim_from_spec (take batch_size Q) seen s (Forall_take _ _ _ Hrows)) as Hb.
  destruct (find (claimable s) (take batch_size Q)) as [r|] eqn:Hf.
  - rewrite (find_take _ _ _ _ Hf). destruct Hb as (s1 & s' & seen' & a & E & ? & ?).
    exists s1, s', a. split; [|done]. destruct Q; [done|]. by rewrite (bind_eq_ok _ _ _ _ _ E).
  - destruct Hb as (s1 & E & Hl). destruct (next_round s seen Q Hd HQ Hf Hne) as [Hfind Hlt].
    destruct (locked_fields _ _ Hl) as (Ep & _).
    specialize (IH (seen ++ (run_id <$> take batch_size Q)) s1).
    rewrite Ep, (find_claimable_locked _ _ _ Hl), Hfind in IH.
    assert (EL : forall x, match Q with [] => x | _ => (r <- claim_from (take batch_size Q) seen ;;
        match r with (_, Some run) => ret (Some run) | (seen', None) => claim_loop fuel seen' end) s
        end = claim_loop fuel (seen ++ (run_id <$> take batch_size Q)) s1).
    { intros x. destruct Q; [done|]. by rewrite (bind_eq_ok _ _ _ _ _ E). }
    rewrite EL. specialize (IH Hd ltac:(lia)). destruct (find (claimable s) Q) as [r|].
    + destruct IH as (s2 & s' & a & ? & ? & ?). exists s2, s', a. split; [done|].
      split; [by etrans|done].
    + destruct IH as (s' & ? & ?). exists s'. split; [done|by etrans].
Qed.

(** C18. [claim_next] takes the oldest queued run, by creation time and then id,
    among those whose row and root can be locked at once and whose declared
    dependency is no longer active; it answers it as STARTING, changes only that
    row, and commits with it in a committing session.  When no such run exists
    it answers none and writes nothing.  It always ends: runs passed over in one
    batch of 25 are not read again, however many there are. *)
Theorem claim_next_first (s : store) :
  store_inv s ->
  exists s' o, claim_next s = (s', Ok o) /\
    match find (claimable s) (queue (pending s)), o with
    | Some r, Some a =>
        ar_status a = STARTING /\ spec (ar_row a) = spec r /\
        execution_attempt (ar_row a) = execution_attempt r /\
        runs (pending s') = <[run_id r := ar_row a]> (runs (pending s)) /\
        committed s' = (if auto_commit s then pending s' else committed s)
    | None, None => pending s' = pending s /\ committed s' = committed s
    | _, _ => False
    end.
Proof.
  intros [_ Hd _ _ _]. unfold claim_next, bind at 1, get.
  assert (Hlen : (length (filter (fun r => run_id r ∉ []) (queue (pending s))) <
                  Datatypes.S (length (all_runs (pending s))))%nat).
  { eapply Nat.le_lt_trans; [apply length_filter|]. unfold queue, by_created.
    rewrite py_sorted_length. pose proof (length_filter (fun r => status r = value QUEUED)
      (all_runs (pending s))). lia. }
  pose proof (claim_loop_spec _ [] s Hd Hlen) as Hc.
  rewrite (find_filter_miss _ _ (queue (pending s))) in Hc
    by (intros x _ Hx; destruct Hx; set_solver).
  destruct (find (claimable s) (queue (pending s))) as [r|] eqn:Hf.
  - destruct Hc as (s1 & s' & a & E & Hl & Hcl & Hacc). exists s', (Some a). split; [done|].
    apply find_some in Hf as [Hin _]. apply list_elem_of_In, (queue_rows s r Hd) in Hin.
    destruct (queued_row_locked _ _ _ Hl Hin) as (Hr & _ & Hwf).
    destruct (set_status_accepted s1 r _ _ _ _ Hwf Hr Hacc)
      as (s2 & a' & r' & E2 & <- & Ha & Hruns & _ & Hsp & Hat & _ & _ & _ & Hcm & _); [constructor|].
    rewrite Hcl in E2. injection E2 as <- <-.
    destruct (locked_fields _ _ Hl) as (Ep & Ec & _ & _ & _ & Ea & _).
    rewrite Ep in Hruns. rewrite Ea, Ec in Hcm. by split_and!.
  - destruct Hc as (s' & E & Hl). exists s', None. split; [done|].
    by destruct (locked_fields _ _ Hl) as (-> & -> & _).
Qed.
End queue.

Lemma claim_next_first_witness :
  exists s' o, claim_next demo_session = (s', Ok o) /\
    match o with Some a => run_id (ar_row a) = 2%Z /\ ar_status a = STARTING | None => False end.
Proof.
  exists (claim_next demo_session).1.
  destruct (claim_next_first demo_session demo_session_inv) as (s' & o & E & Ho).
  exists o. rewrite E. split; [reflexivity|]. vm_compute (find _ _) in Ho.
  destruct o as [a|]; [|done]. destruct Ho as (Hst & _). split; [|exact Hst].
  assert (Hs : (claim_next demo_session).2 = Ok (Some a)) by (by rewrite E).
  vm_compute in Hs. injection Hs as <-. reflexivity.
Defined.

(** * Lock order *)

(** The runs whose rows a stretch of the lock log locked, in order. *)
Definition lock_ids (l : list lock_event) : list Z :=
  omap (fun e => match e with LockRow i _ => Some i | LockStream _ | LockCycleRun _ => None end) l.

(** A lock on [j] taken while changing run [i]. *)
Definition mode_for (i : Z) (e : lock_event) : Prop :=
  match e with
  | LockRow j m => m = if Z.eqb j i then FOR_NO_KEY_UPDATE else FOR_KEY_SHARE
  | LockStream _ | LockCycleRun _ => False
  end.

Lemma sorted_ids_strict l : StronglySorted Z.lt (sorted_ids l).
Proof.
  assert (Hle : StronglySorted (fun x y => Z.leb x y = true) (sorted_ids l)).
  { apply py_sorted_ordered; intros; rewrite !Z.leb_le in *; lia. }
  assert (Hnd : NoDup (sorted_ids l)).
  { unfold sorted_ids. rewrite py_sorted_perm. apply NoDup_remove_dups. }
  by apply sorted_strict.
Qed.

Lemma acquire_one s j i skip :
  dialect s = Postgresql ->
  _acquire_agent_run_locks [Some j] (negb (Z.eqb j i)) (Z.eqb j i) skip s =
  if decide (available s skip j)
  then (log_locks [LockRow j (if Z.eqb j i then FOR_NO_KEY_UPDATE else FOR_KEY_SHARE)] s, Ok [j])
  else (log_locks [] s, Ok []).
Proof.
  intros Hd. unfold _acquire_agent_run_locks, bind, get.
  assert (sorted_ids (omap id [Some j]) = [j]) as -> by done.
  rewrite bool_decide_eq_true_2 by done. cbn [length Nat.eqb negb orb].
  rewrite filter_cons, filter_nil. unfold available.
  destruct (Z.eqb j i); by repeat case_decide.
Qed.

Lemma lock_all_log i skip ids : forall s,
  dialect s = Postgresql ->
  exists l, (_lock_all i skip ids s).1 = log_locks l s /\
    lock_ids l `prefix_of` ids /\ Forall (mode_for i) l /\
    (forall r, (_lock_all i skip ids s).2 = Ok (Some r) -> lock_ids l = ids).
Proof.
  induction ids as [|j ids IH]; intros s Hd; simpl.
  - exists []. rewrite refresh_or_none_eq. split_and!; try done; try apply prefix_nil.
    unfold log_locks. simpl. rewrite app_nil_r. by destruct s.
  - unfold bind at 1 2. rewrite (acquire_one s j i skip Hd). case_decide.
    + rewrite bool_decide_eq_true_2 by (by apply elem_of_list_here || by left).
      destruct (IH (log_locks [LockRow j (if Z.eqb j i then FOR_NO_KEY_UPDATE else FOR_KEY_SHARE)] s) Hd)
        as (l & E & Hpre & Hm & Hall).
      exists (LockRow j (if Z.eqb j i then FOR_NO_KEY_UPDATE else FOR_KEY_SHARE) :: l).
      split_and!.
      * rewrite E. unfold log_locks. simpl. by rewrite <- app_assoc.
      * simpl. by apply prefix_cons.
      * by constructor.
      * intros r Hr. simpl. f_equal. by eapply Hall.
    + rewrite bool_decide_eq_false_2 by apply not_elem_of_nil. exists [].
      split_and!; try done; apply prefix_nil.
Qed.

Lemma prefix_sorted l l' : l `prefix_of` l' -> StronglySorted Z.lt l' -> StronglySorted Z.lt l.
Proof.
  intros [k ->]. induction l as [|x l IH]; [constructor|]. simpl. intros Hs.
  inversion Hs as [|? ? Hs' Hall]; subst. constructor; [by apply IH|].
  by apply Forall_app in Hall as [? _].
Qed.

Lemma lock_run_unfold i root skip s :
  _lock_run i root skip s =
  if bool_decide (dialect s = Postgresql) then
    match match root with Some rt => Some (int_or (Some rt) i)
          | None => (fun r => int_or (root_run_id (spec r)) i) <$> runs (pending s) !! i end with
    | Some rt => _lock_all i skip (sorted_ids [rt; i]) s
    | None => (s, Ok None)
    end
  else (s, Ok (runs (pending s) !! i)).
Proof.
  unfold _lock_run, bind at 1, get.
  destruct (bool_decide (dialect s = Postgresql)); cbn [negb]; [|apply refresh_or_none_eq].
  destruct root as [rt|]; [done|]. rewrite (bind_eq_ok _ _ _ _ _ (refresh_or_none_eq s i)).
  by destruct (runs (pending s) !! i).
Qed.

(** Lock order: locking a run takes the row locks of its root and itself in
    ascending id order, whichever is the smaller, the run itself in the mode for
    updates and its root in share mode; when it answers the row, the run's own
    lock and its root's are among them.  So no two transactions can wait for
    each other on the rows of one tree, and a root is never locked for update on
    behalf of a child. *)
Theorem run_locks_ascending (i : Z) (root : option Z) (skip : bool) (s : store) :
  exists l, (_lock_run i root skip s).1 = log_locks l s /\
    StronglySorted Z.lt (lock_ids l) /\ Forall (mode_for i) l /\
    (forall r, dialect s = Postgresql -> (_lock_run i root skip s).2 = Ok (Some r) ->
       LockRow i FOR_NO_KEY_UPDATE ∈ l /\
       int_or match root with Some rt => Some rt | None => root_run_id (spec r) end i ∈ lock_ids l).
Proof.
  assert (Hnil : log_locks [] s = s).
  { unfold log_locks. rewrite app_nil_r. by destruct s. }
  assert (Hget : forall rt, dialect s = Postgresql -> exists l,
    (_lock_all i skip (sorted_ids [rt; i]) s).1 = log_locks l s /\
    StronglySorted Z.lt (lock_ids l) /\ Forall (mode_for i) l /\
    (forall r, (_lock_all i skip (sorted_ids [rt; i]) s).2 = Ok (Some r) ->
       LockRow i FOR_NO_KEY_UPDATE ∈ l /\ rt ∈ lock_ids l)).
  { intros rt Hd. destruct (lock_all_log i skip (sorted_ids [rt; i]) s Hd) as (l & E & Hp & Hm & Hall).
    exists l. split_and!; try done.
    - eapply prefix_sorted; [exact Hp|apply sorted_ids_strict].
    - intros r Hr. rewrite (Hall r Hr). rewrite !elem_of_sorted_ids. split; [|by left].
      assert (Hi : i ∈ lock_ids l) by (rewrite (Hall r Hr), elem_of_sorted_ids; set_solver).
      apply list_elem_of_omap in Hi as ([j m| |] & Hin & [= ->]).
      rewrite Forall_forall in Hm. specialize (Hm _ Hin). simpl in Hm. by rewrite Z.eqb_refl in Hm; subst. }
  rewrite lock_run_unfold. destruct (bool_decide _) eqn:Hd; bool_simpl.
  2:{ exists []. do 3 (split; [done || constructor|]). done. }
  destruct root as [rt|].
  { destruct (Hget (int_or (Some rt) i) Hd) as (l & ? & ? & ? & Hl). exists l.
    do 3 (split; [done|]). intros r _. apply Hl. }
  destruct (runs (pending s) !! i) as [r0|] eqn:Hr; simpl.
  - destruct (Hget (int_or (root_run_id (spec r0)) i) Hd) as (l & ? & ? & ? & Hl). exists l.
    do 3 (split; [done|]). intros r _ Hr'. assert (r = r0) as ->; [|by apply (Hl _ Hr')].
    destruct (lock_all_spec i skip (sorted_ids [int_or (root_run_id (spec r0)) i; i]) s Hd)
      as (s' & _ & E). rewrite E in Hr'. simpl in Hr'. case_decide; congruence.
  - exists []. do 3 (split; [done || constructor|]). done.
Qed.
