(* ===== verification/RunInterruption.v ===== *)
(** What [interrupt_and_requeue] does with an abandoned attempt: it goes back to
    the queue a bounded number of times, then the run expires with an answer. *)
From S2P Require Import Prelude.
From S2P Require Import PyStr.
From S2P Require Import Json.
From S2P Require Import Status.
From S2P Require Import Failures.
From S2P Require Import RunStore.
From S2P Require Import RunCreate.
From S2P Require Import RunLifecycle.
From S2P Require Import RunMessages.
From S2P Require Import RunEvolution.
From S2P Require Import RunOutcome.
From S2P Require Import RunDemo.
From S2P Require Import RunTransitions.
Open Scope string_scope.
Open Scope bool_scope.
Open Scope list_scope.

Section interruption.
Context `{Platform} `{ProviderErrorTaxonomy}.

(** The row whose lock settles the run is there: its parent's, or its own. *)
Definition anchor_present (s : store) (row : run_row) : Prop :=
  is_Some (runs (pending s) !! int_or (parent_run_id (spec row)) (run_id row)).

(** * Computations that return and leave the runs alone *)

(** Work on run [i] that leaves every row as it is. *)
Record quiet_step (i : Z) (s s' : store) : Prop := {
  qs_step : row_step i s s';
  qs_runs : runs (pending s') = runs (pending s);
  qs_committed : auto_commit s = false -> committed s' = committed s;
}.

#[export] Instance quiet_step_preorder i : PreOrder (quiet_step i).
Proof.
  split; [by split|]. intros a b c [Ha Hr Hc] [Ha' Hr' Hc']. split; [by etrans|congruence|].
  intros E. rewrite Hc' by (rewrite (st_auto _ _ _ Ha); done). auto.
Qed.

(** [m] always returns, and by a quiet step. *)
Definition quiet {A} (i : Z) (m : DB A) : Prop :=
  forall s, exists s' a, m s = (s', Ok a) /\ quiet_step i s s'.

Lemma quiet_ret {A} i (a : A) : quiet i (ret a).
Proof. intros s. by exists s, a. Qed.

Lemma quiet_bind {A B} i (m : DB A) (f : A -> DB B) :
  quiet i m -> (forall a, quiet i (f a)) -> quiet i (bind m f).
Proof.
  intros Hm Hf s. destruct (Hm s) as (s1 & a & E1 & Q1).
  destruct (Hf a s1) as (s2 & b & E2 & Q2). exists s2, b.
  rewrite (bind_eq_ok _ _ _ _ _ E1). split; [done|by etrans].
Qed.

Lemma quiet_when i b m : quiet i m -> quiet i (when_ b m).
Proof. destruct b; [done|intros _; apply quiet_ret]. Qed.

Lemma quiet_gets {A} i (f : store -> A) : quiet i (gets f).
Proof. intros s. by exists s, (f s). Qed.

Lemma locked_quiet i s s' : locked s s' -> quiet_step i s s'.
Proof. intros Hl. split; [by apply locked_row_step|..]; by destruct Hl as [l ->]. Qed.

Lemma quiet_hook i h : quiet i (modify (call_hook h)).
Proof. intros s. eexists _, tt. split; [done|]. split; [split; simpl; try done; by apply prefix_app_r|done..]. Qed.

(** Writing events of run [i] and rows of other tables. *)
Lemma writes_quiet i s d s' :
  writes s d s' -> runs d = runs (pending s) ->
  (forall j, j <> i -> run_events j d = run_events j (pending s)) ->
  artifacts (pending s) `prefix_of` artifacts d -> quiet_step i s s'.
Proof.
  intros W Hr He Ha. split; [|by rewrite (wr_pending _ _ _ W)|apply (wr_committed _ _ _ W)].
  eapply writes_row_step; [exact W| | |done|done]; by rewrite Hr.
Qed.

Lemma append_events_quiet i l s s' :
  Forall (fun e => e_run_id e = i) l -> writes s (add_events (now s) l (pending s)) s' -> quiet_step i s s'.
Proof.
  intros Hl W. eapply writes_quiet; [exact W| | |].
  - apply add_events_runs.
  - intros j Hj. by apply (run_events_add_events _ i).
  - by rewrite add_events_artifacts.
Qed.

Lemma quiet_append_events i l :
  Forall (fun e => e_run_id e = i /\ e_sequence_no e = None) l -> quiet i (append_events l).
Proof.
  intros Hl s. destruct (append_events_ok l s) as (s' & E & W).
  { eapply Forall_impl; [exact Hl|by intros ? []]. }
  exists s', tt. split; [done|]. eapply append_events_quiet; [|exact W].
  eapply Forall_impl; [exact Hl|by intros ? []].
Qed.

Lemma quiet_append_event e : e_sequence_no e = None -> quiet (e_run_id e) (append_event e).
Proof.
  intros He s. destruct (append_event_ok e s He) as (s' & E & W & _).
  eexists s', _. split; [exact E|]. by apply (append_events_quiet _ [e] s s'); [constructor|].
Qed.

Lemma quiet_error_text i j t : quiet i (safe_cycle_provider_error_text j t).
Proof.
  unfold safe_cycle_provider_error_text, get_run. destruct (startswith _ _); [apply quiet_ret|].
  repeat case_match; try apply quiet_ret; apply quiet_bind; try apply quiet_gets;
    intros r; case_match; apply quiet_ret.
Qed.

(** Appending an artifact adds one row of the given run and type. *)
Lemma append_artifact_ok a s :
  exists s' row, append_artifact a s = (s', Ok row) /\ quiet_step (a_run_id a) s s' /\
    row ∈ artifacts (pending s') /\ art_run_id row = a_run_id a /\
    art_type row = artifact_type_value (a_type a).
Proof.
  unfold append_artifact.
  match goal with |- context [bind ?m _ s] => assert (Hm : quiet (a_run_id a) m) end.
  { destruct (a_text a) as [t|]; [|apply quiet_ret].
    destruct (String.eqb _ _); [|apply quiet_ret].
    apply quiet_bind; [apply quiet_error_text|intros; apply quiet_ret]. }
  destruct (Hm s) as (s1 & text & E1 & Q1). rewrite (bind_eq_ok _ _ _ _ _ E1). clear Hm E1.
  edestruct acquire_spec as (s2 & ids & E2 & Hl & _). rewrite (bind_eq_ok _ _ _ _ _ E2). clear E2.
  unfold bind at 1, get. cbv zeta. set (row := Build_artifact_row _ _ _ _ _ _ _ _ _ _).
  rewrite (bind_eq_ok _ _ s2 (set_pending (add_artifact row (pending s2)) s2) tt) by done.
  set (s3 := set_pending _ s2).
  match goal with |- context [append_event ?e] =>
    destruct (append_event_ok e s3 eq_refl) as (s4 & E4 & W & _) end.
  rewrite (bind_eq_ok _ _ _ _ _ E4). exists s4, row. split; [done|].
  apply (writes_trans _ _ _ _ _ (writes_pending s2 _)) in W. split.
  - etrans; [exact Q1|]. etrans; [apply locked_quiet, Hl|].
    eapply writes_quiet; [exact W|done| |by apply prefix_app_r].
    intros j Hj. unfold run_events. simpl. rewrite filter_app, filter_cons_False by (simpl; congruence).
    apply app_nil_r.
  - split; [|done]. rewrite (wr_pending _ _ _ W). simpl. apply elem_of_app. right. by left.
Qed.

Lemma append_final_answer_ok i t root s :
  t <> "" ->
  exists s' row, append_final_answer_once i t root s = (s', Ok (Some row)) /\ quiet_step i s s' /\
    row ∈ artifacts (pending s') /\ art_run_id row = i /\ art_type row = value FINAL_ANSWER.
Proof.
  intros Ht. unfold append_final_answer_once.
  destruct (String.eqb t "") eqn:E; [by apply String.eqb_eq in E|].
  destruct (quiet_error_text i i t s) as (s1 & text & E1 & Q1).
  rewrite (bind_eq_ok _ _ _ _ _ E1). unfold bind at 1, get.
  destruct (head _) as [row|] eqn:Hh.
  - exists s1, row. split; [done|]. split; [done|].
    apply head_Some_elem_of, list_elem_of_filter in Hh. tauto.
  - destruct (append_artifact_ok (final_answer_artifact i text root) s1)
      as (s2 & row & E2 & Q2 & Hin & Hi & Hty).
    exists s2, row. rewrite (bind_eq_ok _ _ _ _ _ E2). split; [done|].
    split; [etrans; [exact Q1|exact Q2]|]. by split.
Qed.

Lemma artifact_kept i s s' a :
  quiet_step i s s' -> a ∈ artifacts (pending s) -> a ∈ artifacts (pending s').
Proof. intros Q Ha. destruct (st_artifacts _ _ _ (qs_step _ _ _ Q)) as [l ->]. set_solver. Qed.

(** ** The end of an expired run *)

Lemma expired_message_nonempty :
  str_or (safe_terminal_run_message (Member EXPIRED) Absent) "" <> "".
Proof. done. Qed.

(** What follows an expiry, whoever decided it: the final answer with its
    completion event, an event that says so, and the continuation hook. *)
Definition finish_expired (id : Z) (root : option Z) (producer : string) (final : AgentRunEvent) : DB unit :=
  let final_output := str_or (safe_terminal_run_message (Member EXPIRED) Absent) "" in
  when_ (negb (String.eqb final_output "")) (
    artifact <- append_final_answer_once id final_output root ;;
    let safe_output := str_or (match artifact with Some a => art_text a | None => None end)
                         final_output in
    delta <- has_event_type id "run.text_delta" ;;
    when_ (negb delta)
      (append_event (run_event id "run.text_completed" [("text", JStr safe_output)] root producer) ;;;
       ret tt)) ;;;
  append_event final ;;;
  modify (call_hook (QueueChantierContinuation id)).

Lemma finish_expired_ok id root producer final s :
  e_run_id final = id -> e_sequence_no final = None ->
  exists s' art, finish_expired id root producer final s = (s', Ok tt) /\
    quiet_step id s s' /\ art ∈ artifacts (pending s') /\ art_run_id art = id /\
    art_type art = value FINAL_ANSWER /\
    last (hook_calls s') = Some (QueueChantierContinuation id).
Proof.
  intros Hid Hseq. unfold finish_expired.
  pose proof expired_message_nonempty as Hne. apply String.eqb_neq in Hne. rewrite Hne.
  unfold when_ at 1. cbn [negb]. apply String.eqb_neq in Hne.
  destruct (append_final_answer_ok id _ root s Hne) as (s1 & art & E1 & Q1 & Hin & Hi & Hty).
  match goal with |- context [bind ?m ?f s] =>
    assert (Hm : exists s2, m s = (s2, Ok tt) /\ quiet_step id s1 s2) end.
  { rewrite (bind_eq_ok _ _ _ _ _ E1).
    match goal with |- context [?m s1] => assert (Hq : quiet id m) end.
    { apply quiet_bind; [apply quiet_gets|]. intros delta. apply quiet_when, quiet_bind.
      - by apply (quiet_append_event (run_event id _ _ _ _)).
      - intros. apply quiet_ret. }
    destruct (Hq s1) as (s2 & [] & E2 & Q2). by exists s2. }
  destruct Hm as (s2 & E2 & Q2). rewrite (bind_eq_ok _ _ _ _ _ E2). clear E1 E2.
  destruct (quiet_append_event final Hseq s2) as (s3 & er & E3 & Q3). rewrite Hid in Q3.
  rewrite (bind_eq_ok _ _ _ _ _ E3).
  destruct (quiet_hook id (QueueChantierContinuation id) s3) as (s4 & [] & E4 & Q4).
  exists s4, art. split; [done|]. split_and!; try done.
  - etrans; [exact Q1|]. etrans; [exact Q2|]. by etrans.
  - by do 3 (eapply artifact_kept; [eassumption|]).
  - injection E4 as <-. simpl. apply last_snoc.
Qed.

(** * Interrupting *)

Definition interrupted_metadata (row : run_row) (interruption : dict) : dict :=
  jpop "failure" (jset "interruption_count" (JInt (interruption_count (metadata_ row) + 1))
    (jset "interruption" (JObj interruption) (metadata_ row))).

Lemma interrupted_count row interruption :
  interruption_count (interrupted_metadata row interruption) =
  (interruption_count (metadata_ row) + 1)%Z.
Proof.
  unfold interruption_count at 1, interrupted_metadata, jget_or_null.
  by rewrite jget_jpop_ne, jget_jset_eq by done.
Qed.

Lemma lock_for_interruption_ok s row :
  runs (pending s) !! run_id row = Some row -> root_present s row ->
  anchor_present s row ->
  exists s', lock_for_interruption (run_id row) s = (s', Ok row) /\
    pending s' = pending s /\ auto_commit s' = auto_commit s /\ now s' = now s /\
    committed s' = (if requeue_allowed_for (metadata_ row) then committed s else pending s).
Proof.
  intros Hr Hroot Hpar. unfold lock_for_interruption.
  rewrite (bind_eq_ok _ _ s s row).
  2:{ unfold require_run, get_run, bind, gets. by rewrite Hr. }
  destruct (requeue_allowed_for (metadata_ row)) eqn:Hq; cbn [negb].
  - destruct (locked_run_ok s (run_id row) None row) as (s1 & Hl & E1); auto.
    rewrite (bind_eq_ok _ _ _ _ _ E1), Hq. exists s1.
    by destruct (locked_fields _ _ Hl) as (-> & -> & _ & _ & -> & -> & _).
  - rewrite (bind_eq_ok _ _ s (set_committed (pending s) s) tt) by done.
    unfold lock_terminal_boundary.
    edestruct acquire_spec as (s1 & ids & E1 & Hl & Hin). rewrite (bind_eq_ok _ _ _ _ _ E1).
    destruct (locked_fields _ _ Hl) as (Ep & Ec & Ed & _ & En & Ea & _).
    unfold bind, get. destruct (bool_decide (dialect s1 = Postgresql)) eqn:Hd; bool_simpl.
    + rewrite bool_decide_eq_true_2.
      * simpl. exists s1. rewrite (refresh_run_ok s1 _ row) by (rewrite Ep; done). by split_and!.
      * apply Hin; [by rewrite <- Ed|]. split; [set_solver|]. split; [by exists row|done].
    + simpl. exists s1. rewrite (refresh_run_ok s1 _ row) by (rewrite Ep; done). by split_and!.
Qed.

Lemma interruption_count_gap row :
  requeue_allowed_for (metadata_ row) = false <->
  (_agent_run_max_interruption_requeues <= interruption_count (metadata_ row))%Z.
Proof. unfold requeue_allowed_for. apply Z.ltb_ge. Qed.

(** The record the interruption stores and the events carry. *)
Definition interruption_record (row : run_row) (reason : string) (at_ : instant)
    (details : option dict) : dict :=
  jset "requeued" (JBool (requeue_allowed_for (metadata_ row)))
  (jset "execution_attempt" (JInt (execution_attempt row))
  (jset "from_status" (JStr (value (row_status row)))
  (jset "interrupted_at" (JStr (isoformat at_))
  (jset "reason" (JStr (if String.eqb reason "" then "worker_shutdown" else reason))
     (default [] details))))).

(** The change an interruption asks for. *)
Definition interruption_kwargs (row : run_row) (reason : string) (at_ : instant)
    (details : option dict) : status_kwargs :=
  let rec := interruption_record row reason at_ details in
  let allowed := requeue_allowed_for (metadata_ row) in
  {| sk_reason := Some (if String.eqb reason "" then "worker_shutdown" else reason);
     sk_claim := None; sk_expected_updated_at := None;
     sk_expected_token := Some (execution_token row);
     sk_expected_attempt := Some (execution_attempt row); sk_rollback_on_conflict := true;
     sk_transitioned_at := Some at_;
     sk_metadata_update := Some (interrupted_metadata row rec);
     sk_allow_requeue := allowed;
     sk_before := [run_event (run_id row) "run.interrupted" rec (root_run_id (spec row)) "worker_shutdown"];
     sk_after := [run_event (run_id row)
                    (if allowed then "run.requeued" else "run.interruption_limit_exhausted") rec
                    (root_run_id (spec row)) "worker_shutdown"] |}.

(** An interruption that moves the run decides an accepted change. *)
Lemma interruption_accepted s row reason at_ details :
  row_wf row -> runs (pending s) !! run_id row = Some row ->
  let target := if requeue_allowed_for (metadata_ row) then QUEUED else EXPIRED in
  ensure_run_transition (Member (row_status row)) (Member target)
    (requeue_allowed_for (metadata_ row)) = Ok (row_status row, target) ->
  row_status row <> target ->
  decide_status s row (Member target) (interruption_kwargs row reason at_ details) =
  Accepted (row_status row) target.
Proof.
  intros Hwf Hr target He Hne. unfold decide_status. cbn [claim_ok sk_claim interruption_kwargs negb].
  assert (Ht : is_terminal (row_status row) = false).
  { destruct (ensure_ok_inv _ _ _ _ _ He) as (_ & _ & [?|Htr]); [congruence|].
    by eapply transition_source_open. }
  rewrite Ht. pose proof (open_row_value row Hwf Ht) as Hv.
  change (sk_allow_requeue _) with (requeue_allowed_for (metadata_ row)). rewrite ensure_member, Hv, coerce_value, coerce_member, He, decide_False by done.
  rewrite Hr.
  unfold status_predicates. simpl. rewrite Hv, String.eqb_refl, Z.eqb_refl.
  by rewrite bool_decide_eq_true_2 by done.
Qed.

(** The interruption as the composition of its steps. *)
Lemma interrupt_eq s s1 s2 s3 row reason at_ details a :
  let allowed := requeue_allowed_for (metadata_ row) in
  let target := if allowed then QUEUED else EXPIRED in
  lock_for_interruption (run_id row) s = (s1, Ok row) ->
  ensure_run_transition (Member (row_status row)) (Member target) allowed =
    Ok (row_status row, target) ->
  row_status row <> target ->
  _set_status_on_locked_run row (Member target)
    (interruption_kwargs row reason (default (now s1) at_) details)
    (set_auto_commit false s1) = (s2, Ok (a, true)) ->
  when_ (negb allowed) (settle_exhausted row (interruption_count (metadata_ row))) s2 = (s3, Ok tt) ->
  interrupt_and_requeue (run_id row) reason at_ details s =
    (set_auto_commit (auto_commit s1)
       (if auto_commit s1 then set_committed (pending s3) s3 else s3), Ok (a, true)).
Proof.
  intros allowed target E1 He Hne E2 E3. unfold interrupt_and_requeue.
  rewrite (bind_eq_ok _ _ _ _ _ E1). cbv zeta. fold allowed. fold target.
  rewrite He, decide_False by done. unfold bind at 1, get.
  rewrite (bind_eq_ok _ _ s1 (set_auto_commit false s1) tt) by done.
  match goal with |- context [bind (catch ?m ?h) ?f ?x] =>
    assert (Em : m x = (if auto_commit s1 then set_committed (pending s3) s3 else s3,
                        Ok (Ok (a, true)))) end.
  { erewrite bind_eq_ok; [reflexivity|]. erewrite bind_eq_ok; [|exact E2].
    cbn [snd andb]. rewrite (bind_eq_ok _ _ _ _ _ E3). unfold when_, bind, ret.
    by destruct (auto_commit s1). }
  rewrite (bind_eq_ok _ _ _ _ _ (catch_ok _ _ _ _ _ Em)).
  by destruct (auto_commit s1).
Qed.

(** An interrupted attempt goes back to the queue while its count is below
    the configured number of requeues: the run becomes QUEUED without a token,
    keeps its attempt, stores a count one higher, and its events say it was
    interrupted, changed status and was requeued, in this order. *)
Theorem interruption_requeues (s : store) (row : run_row) (reason : string)
    (at_ : option instant) (details : option dict) :
  row_wf row -> runs (pending s) !! run_id row = Some row -> root_present s row ->
  anchor_present s row ->
  row_status row ∈ PROCESSING_RUN_STATUSES ->
  (interruption_count (metadata_ row) < _agent_run_max_interruption_requeues)%Z ->
  exists s' a, interrupt_and_requeue (run_id row) reason at_ details s = (s', Ok (a, true)) /\
    ar_status a = QUEUED /\ status (ar_row a) = value QUEUED /\ execution_token (ar_row a) = None /\
    execution_attempt (ar_row a) = execution_attempt row /\ spec (ar_row a) = spec row /\
    interruption_count (metadata_ (ar_row a)) = (interruption_count (metadata_ row) + 1)%Z /\
    runs (pending s') = <[run_id row := ar_row a]> (runs (pending s)) /\
    (fun e => e.1.2) <$> event_trace (run_id row) (pending s') =
      ((fun e => e.1.2) <$> event_trace (run_id row) (pending s)) ++
      ["run.interrupted"; "run.status_changed"; "run.requeued"] /\
    auto_commit s' = auto_commit s /\
    committed s' = (if auto_commit s then pending s' else committed s).
Proof.
  intros Hwf Hr Hroot Hpar Hst Hcount.
  assert (Hq : requeue_allowed_for (metadata_ row) = true) by (by apply Z.ltb_lt).
  destruct (lock_for_interruption_ok s row Hr Hroot Hpar) as (s1 & E1 & Ep & Ea & En & Ec).
  rewrite Hq in Ec.
  assert (He : ensure_run_transition (Member (row_status row)) (Member QUEUED) true =
               Ok (row_status row, QUEUED) /\ row_status row <> QUEUED).
  { revert Hst. destruct (row_status row); try done; set_solver. }
  destruct He as [He Hne].
  assert (Hacc : decide_status (set_auto_commit false s1) row (Member QUEUED)
    (interruption_kwargs row reason (default (now s1) at_) details) = Accepted (row_status row) QUEUED).
  { pose proof (interruption_accepted (set_auto_commit false s1) row reason
      (default (now s1) at_) details Hwf) as HA. simpl in HA. rewrite Ep, Hq in HA. by apply HA. }
  destruct (set_status_accepted (set_auto_commit false s1) row _ _ _ _ Hwf
      ltac:(simpl; by rewrite Ep) Hacc)
    as (s2 & a & r' & E2 & <- & Hs & Hruns & Hval & Hspec & Hatt & Htok & _ & Htr & Hcm & _ & Hm & _).
  { by repeat constructor. }
  assert (E3 : when_ (negb (requeue_allowed_for (metadata_ row)))
    (settle_exhausted row (interruption_count (metadata_ row))) s2 = (s2, Ok tt)) by (by rewrite Hq).
  eexists _, a. split.
  { eapply (interrupt_eq s s1 s2 s2); rewrite ?Hq; eauto. }
  simpl in *. rewrite Hm, interrupted_count, Ea.
  assert (Hp : pending (set_auto_commit (auto_commit s)
    (if auto_commit s then set_committed (pending s2) s2 else s2)) = pending s2)
    by (by destruct (auto_commit s)).
  rewrite Ep in *. simpl in Hp. rewrite Hp, Hq in *. split_and!; try done.
  - rewrite Htr, fmap_app. done.
  - rewrite <- Ec. by destruct (auto_commit s).
Qed.

(** Once an open run was interrupted the configured number of times, one
    more interruption expires it for good instead of requeueing it: the run is
    EXPIRED without a token and its count is one higher, a final answer of the
    run exists, and the continuation of its conversation is queued, all
    committed together in a committing session. *)
Theorem interruption_exhausted (s : store) (row : run_row) (reason : string)
    (at_ : option instant) (details : option dict) :
  row_wf row -> runs (pending s) !! run_id row = Some row -> root_present s row ->
  anchor_present s row ->
  is_terminal (row_status row) = false ->
  (_agent_run_max_interruption_requeues <= interruption_count (metadata_ row))%Z ->
  exists s' a art, interrupt_and_requeue (run_id row) reason at_ details s = (s', Ok (a, true)) /\
    ar_status a = EXPIRED /\ status (ar_row a) = value EXPIRED /\ execution_token (ar_row a) = None /\
    execution_attempt (ar_row a) = execution_attempt row /\ spec (ar_row a) = spec row /\
    interruption_count (metadata_ (ar_row a)) = (interruption_count (metadata_ row) + 1)%Z /\
    runs (pending s') = <[run_id row := ar_row a]> (runs (pending s)) /\
    art ∈ artifacts (pending s') /\ art_run_id art = run_id row /\
    art_type art = value FINAL_ANSWER /\
    last (hook_calls s') = Some (QueueChantierContinuation (run_id row)) /\
    auto_commit s' = auto_commit s /\
    committed s' = (if auto_commit s then pending s' else pending s).
Proof.
  intros Hwf Hr Hroot Hpar Hst Hcount. apply interruption_count_gap in Hcount as Hq.
  destruct (lock_for_interruption_ok s row Hr Hroot Hpar) as (s1 & E1 & Ep & Ea & En & Ec).
  assert (He : ensure_run_transition (Member (row_status row)) (Member EXPIRED) false =
               Ok (row_status row, EXPIRED) /\ row_status row <> EXPIRED)
    by (revert Hst; by destruct (row_status row)).
  destruct He as [He Hne].
  assert (Hacc : decide_status (set_auto_commit false s1) row (Member EXPIRED)
    (interruption_kwargs row reason (default (now s1) at_) details) = Accepted (row_status row) EXPIRED).
  { pose proof (interruption_accepted (set_auto_commit false s1) row reason
      (default (now s1) at_) details Hwf) as HA. simpl in HA. rewrite Ep, Hq in HA. by apply HA. }
  destruct (set_status_accepted (set_auto_commit false s1) row _ _ _ _ Hwf
      ltac:(simpl; by rewrite Ep) Hacc)
    as (s2 & a & r' & E2 & <- & Hs & Hruns & Hval & Hspec & Hatt & Htok & _ & _ & Hcm & _ & Hm & _ & _ & Hstep).
  { by repeat constructor. }
  destruct (finish_expired_ok (run_id row) (root_run_id (spec row)) "worker_shutdown"
      (run_event (run_id row) "run.expired" [("reason", JStr "interruption_limit_exhausted");
         ("interruption_count", JInt (interruption_count (metadata_ row) + 1))]
         (root_run_id (spec row)) "worker_shutdown") s2 eq_refl eq_refl)
    as (s3 & art & E3 & [_ Qr Qc] & Hin & Hid & Hty & Hl).
  eexists _, a, art. split.
  { eapply (interrupt_eq s s1 s2 s3); rewrite ?Hq; eauto. }
  pose proof (Qc (st_auto _ _ _ Hstep)) as Qc'. rewrite Hcm in Qc'. rewrite Hq in Ec.
  simpl in *. rewrite Hm, interrupted_count, Ea. rewrite Ep in *.
  destruct (auto_commit s); simpl; rewrite ?Qr; split_and!; try done; congruence.
Qed.

(** A run that waits is not interrupted. *)
Lemma interruption_declined (s : store) (row : run_row) (reason : string)
    (at_ : option instant) (details : option dict) :
  row_wf row -> runs (pending s) !! run_id row = Some row -> root_present s row ->
  anchor_present s row ->
  row_status row ∈ [QUEUED; PAUSED] ->
  (interruption_count (metadata_ row) < _agent_run_max_interruption_requeues)%Z ->
  exists s' a, interrupt_and_requeue (run_id row) reason at_ details s = (s', Ok (a, false)) /\
    pending s' = pending s /\ committed s' = committed s.
Proof.
  intros Hwf Hr Hroot Hpar Hst Hcount.
  assert (Hq : requeue_allowed_for (metadata_ row) = true) by (by apply Z.ltb_lt).
  destruct (lock_for_interruption_ok s row Hr Hroot Hpar) as (s1 & E1 & Ep & _ & _ & Ec).
  rewrite Hq in Ec. destruct (to_domain_wf row Hwf) as (a & Ed & _).
  exists s1, a. split; [|done]. unfold interrupt_and_requeue.
  rewrite (bind_eq_ok _ _ _ _ _ E1). cbv zeta. rewrite Hq.
  assert (He : ensure_run_transition (Member (row_status row)) (Member QUEUED) true = Ok (QUEUED, QUEUED) \/
    exists e, ensure_run_transition (Member (row_status row)) (Member QUEUED) true = Err e).
  { revert Hst. destruct (row_status row); try (intros; exfalso; set_solver); intros _; [by left|right; by eexists]. }
  destruct He as [->|[e ->]]; [rewrite decide_True by done|]; by rewrite Ed.
Qed.

(** * The three outcomes together *)

(** The attempt of [row] is over and the snapshot [a] says what became of the run: it
    waits in the queue again, or it expired once the cap was reached. *)
Record put_back (s s' : store) (row : run_row) (a : AgentRun) : Prop := {
  pb_row : runs (pending s') = <[run_id row := ar_row a]> (runs (pending s));
  pb_answer : ar_status a = row_status (ar_row a);
  pb_status : status (ar_row a) = value
    (if Z.ltb (interruption_count (metadata_ row)) _agent_run_max_interruption_requeues then QUEUED else EXPIRED);
  pb_token : execution_token (ar_row a) = None;
  pb_attempt : execution_attempt (ar_row a) = execution_attempt row;
  pb_spec : spec (ar_row a) = spec row;
  pb_count : interruption_count (metadata_ (ar_row a)) = (interruption_count (metadata_ row) + 1)%Z;
}.

(** Whether an interruption moves an open run: one that is waiting can only expire. *)
Definition interruptible (row : run_row) : bool :=
  negb (requeue_allowed_for (metadata_ row)) || status_in (row_status row) PROCESSING_RUN_STATUSES.

Lemma interruption_outcome (s : store) (row : run_row) (reason : string)
    (at_ : option instant) (details : option dict) :
  row_wf row -> runs (pending s) !! run_id row = Some row -> root_present s row ->
  anchor_present s row -> is_terminal (row_status row) = false ->
  auto_commit s = false -> committed s = pending s ->
  exists s' a, interrupt_and_requeue (run_id row) reason at_ details s = (s', Ok (a, interruptible row)) /\
    committed s' = pending s /\
    if interruptible row then put_back s s' row a else pending s' = pending s.
Proof.
  intros Hwf Hr Hroot Hpar Ho Ha Hc. unfold interruptible. destruct (requeue_allowed_for (metadata_ row)) eqn:Hq.
  - apply Z.ltb_lt in Hq as Hcount. cbn [negb orb]. destruct (status_in _ _) eqn:Hst.
    + apply bool_decide_eq_true in Hst.
      destruct (interruption_requeues s row reason at_ details Hwf Hr Hroot Hpar Hst Hcount)
        as (s' & a & E & Hs & Hv & ? & ? & ? & ? & ? & _ & _ & Hco). rewrite Ha, Hc in Hco.
      exists s', a. split; [done|]. split; [done|]. split; try done; [by rewrite Hs; unfold row_status; rewrite Hv|by apply Z.ltb_lt in Hcount as ->].
    + destruct (interruption_declined s row reason at_ details Hwf Hr Hroot Hpar) as (s' & a & E & P & C); try done.
      { revert Ho Hst. destruct (row_status row); try done; set_solver. }
      exists s', a. split; [done|]. by rewrite C.
  - apply interruption_count_gap in Hq as Hcount. cbn [negb orb].
    destruct (interruption_exhausted s row reason at_ details Hwf Hr Hroot Hpar Ho Hcount)
      as (s' & a & art & E & Hs & Hv & ? & ? & ? & ? & ? & _ & _ & _ & _ & _ & Hco). rewrite Ha in Hco.
    exists s', a. split; [done|]. split; [done|]. split; try done; [by rewrite Hs; unfold row_status; rewrite Hv|by apply Z.ltb_ge in Hcount as ->].
Qed.
End interruption.

(** ** Instances *)

Definition demo_exhausted : run_row :=
  demo_row 3 VERIFYING [("interruption_count", JInt 3)] (Some "token") 4 30.
Definition demo_exhausted_session : store := demo_store true (demo_db [demo_exhausted] []).

Lemma demo_exhausted_wf : row_wf demo_exhausted.
Proof. apply demo_row_wf; [lia|auto]. Qed.

Lemma interruption_requeues_witness :
  exists s' a, @interrupt_and_requeue demo_platform demo_taxonomy 1 "shutdown" None None
      demo_session = (s', Ok (a, true)) /\ ar_status a = QUEUED /\
    interruption_count (metadata_ (ar_row a)) = 1%Z.
Proof.
  destruct (@interruption_requeues demo_platform demo_taxonomy demo_session demo_running
    "shutdown" None None) as (s' & a & E & Hs & _ & _ & _ & _ & Hc & _).
  - apply demo_running_wf.
  - reflexivity.
  - exists demo_running. reflexivity.
  - exists demo_running. reflexivity.
  - vm_compute. right. left.
  - vm_compute. reflexivity.
  - exists s', a. split; [exact E|]. split; [exact Hs|exact Hc].
Defined.

Lemma interruption_exhausted_witness :
  exists s' a, @interrupt_and_requeue demo_platform demo_taxonomy 3 "shutdown" None None
      demo_exhausted_session = (s', Ok (a, true)) /\ ar_status a = EXPIRED.
Proof.
  destruct (@interruption_exhausted demo_platform demo_taxonomy demo_exhausted_session
    demo_exhausted "shutdown" None None) as (s' & a & art & E & Hs & _).
  - apply demo_exhausted_wf.
  - reflexivity.
  - exists demo_exhausted. reflexivity.
  - exists demo_exhausted. reflexivity.
  - reflexivity.
  - vm_compute. discriminate.
  - exists s', a. split; [exact E|exact Hs].
Defined.
