(* ===== verification/RunCreation.v ===== *)
(** Creating runs: one run per idempotency key, also against runs that other
    transactions insert at the same time, and creation of child runs. *)
From S2P Require Import Prelude.
From S2P Require Import PyStr.
From S2P Require Import Json.
From S2P Require Import Status.
From S2P Require Import Failures.
From S2P Require Import RunStore.
From S2P Require Import RunCreate.
From S2P Require Import RunLifecycle.
From S2P Require Import RunMessages.
From S2P Require Import RunEvolution.
From S2P Require Import RunOutcome.
From S2P Require Import RunDemo.
From S2P Require Import RunTransitions.
From S2P Require Import RunQueue.
Open Scope string_scope.
Open Scope bool_scope.
Open Scope list_scope.

Section creation.
Context `{Platform}.

(** * The key of a request *)

Definition stored_hash (hash : option string) : option string :=
  let h := strip (str_or hash "") in if String.eqb h "" then None else Some h.

Definition source_key (r : AgentRunRequest) : option string * option string :=
  match req_parent_run_id r with None => _source_idempotency_parts r | Some _ => (None, None) end.

(** The runs that already answer the request. *)
Definition same_step (r : AgentRunRequest) (hash : option string) (row : run_row) : bool :=
  match req_parent_run_id r, stored_hash hash with
  | Some p, Some h => sql_eq_int (parent_run_id (spec row)) p
                      && sql_eq_str (parent_step_key_hash (spec row)) h
  | _, _ => false
  end.

Definition same_source (r : AgentRunRequest) (row : run_row) : bool :=
  match source_key r with
  | (Some sc, Some k) => sql_eq_str (org_id (spec row)) (req_org_id r)
      && sql_eq_str (source_idempotency_scope (spec row)) sc
      && sql_eq_str (source_idempotency_key (spec row)) k
  | _ => false
  end.

Definition first_by_id (f : run_row -> bool) (d : db) : option run_row :=
  head (by_id (filter (fun r => f r) (all_runs d))).

(** The run a request stands for in a database, if there is one. *)
Definition existing (r : AgentRunRequest) (hash : option string) (d : db) : option run_row :=
  match first_by_id (same_step r hash) d with
  | Some row => Some row
  | None => first_by_id (same_source r) d
  end.

(** The request carries a key under which a retry can be recognised. *)
Definition has_key (r : AgentRunRequest) (hash : option string) : bool :=
  match req_parent_run_id r with
  | Some _ => match stored_hash hash with Some _ => true | None => false end
  | None => match source_key r with (Some _, Some _) => true | _ => false end
  end.

(** ** Lemmas *)

Lemma head_by_id_none (f : run_row -> bool) d :
  first_by_id f d = None <-> forall r, r ∈ all_runs d -> f r = false.
Proof.
  unfold first_by_id, by_id. split.
  - intros Hh r Hr. apply not_true_iff_false. intros Hf.
    assert (Hin : r ∈ py_sorted (fun a b => Z.leb (run_id a) (run_id b))
                        (filter (fun r => f r) (all_runs d))).
    { rewrite elem_of_py_sorted, list_elem_of_filter. split; [by rewrite Hf|done]. }
    destruct (py_sorted _ _); [by apply elem_of_nil in Hin|done].
  - intros Hf. assert (filter (fun r => f r) (all_runs d) = []) as ->; [|done].
    apply elem_of_nil_inv. intros r [Hr Hin]%list_elem_of_filter.
    rewrite (Hf _ Hin) in Hr. done.
Qed.

Lemma first_by_id_some (f : run_row -> bool) d r :
  first_by_id f d = Some r -> r ∈ all_runs d /\ f r = true.
Proof.
  unfold first_by_id, by_id. intros Hh. apply head_Some_elem_of in Hh.
  rewrite elem_of_py_sorted, list_elem_of_filter in Hh. destruct Hh as [Hf Hin].
  split; [done|]. by apply Is_true_true.
Qed.

Lemma first_by_id_unique (f : run_row -> bool) d r :
  r ∈ all_runs d -> f r = true -> (forall r', r' ∈ all_runs d -> f r' = true -> r' = r) ->
  first_by_id f d = Some r.
Proof.
  intros Hin Hf Hu. destruct (first_by_id f d) as [r'|] eqn:E.
  - apply first_by_id_some in E as [??]. f_equal. auto.
  - rewrite head_by_id_none in E. rewrite E in Hf; done.
Qed.

Lemma source_parts_nonempty r sc k :
  source_key r = (Some sc, Some k) -> sc <> "" /\ k <> "".
Proof.
  unfold source_key, _source_idempotency_parts.
  destruct (req_parent_run_id r); [done|].
  match goal with |- context [String.eqb ?key ""] => set (K := key) end.
  destruct (String.eqb K "") eqn:EK; [done|]. destruct (negb _); [done|].
  match goal with |- context [str_take 80 (if String.eqb ?x "" then _ else _)] => set (X := x) end.
  intros [= <- <-]. split; [|by apply String.eqb_neq].
  destruct (String.eqb X "") eqn:EX; [done|]. by destruct X.
Qed.

Lemma run_for_parent_step_eq r hash s :
  _run_for_parent_step (req_parent_run_id r) (stored_hash hash) s =
  (s, Ok (first_by_id (same_step r hash) (pending s))).
Proof.
  assert (Hf : forall f, (forall row, f row = false) -> (s, Ok None) =
    (s, Ok (first_by_id f (pending s)))).
  { intros f Hf. by rewrite (proj2 (head_by_id_none f (pending s))). }
  unfold _run_for_parent_step. destruct (req_parent_run_id r) as [p|] eqn:Ep.
  2:{ apply Hf. intros. unfold same_step. by rewrite Ep. }
  destruct (stored_hash hash) as [h|] eqn:Eh.
  2:{ apply Hf. intros. unfold same_step. by rewrite Ep, Eh. }
  assert (Hh : String.eqb h "" = false).
  { unfold stored_hash in Eh. destruct (String.eqb _ "") eqn:E in Eh; [done|]. by injection Eh as <-. }
  simpl. rewrite !Hh. unfold gets, first_by_id. do 4 f_equal.
  apply list_filter_iff. intros row. unfold same_step. by rewrite Ep, Eh.
Qed.

Lemma run_for_source_eq r s :
  req_org_id r <> "" ->
  _run_for_source_idempotency (Some (req_org_id r)) (source_key r).1 (source_key r).2 s =
  (s, Ok (first_by_id (same_source r) (pending s))).
Proof.
  intros Ho. apply String.eqb_neq in Ho.
  assert (Hf : forall f, (forall row, f row = false) -> (s, Ok None) =
    (s, Ok (first_by_id f (pending s)))).
  { intros f Hf. by rewrite (proj2 (head_by_id_none f (pending s))). }
  unfold _run_for_source_idempotency. pose proof (source_parts_nonempty r) as Hne.
  unfold same_source. destruct (source_key r) as [[sc|] [k|]]; simpl;
    rewrite ?Ho, ?orb_true_r; try (apply Hf; done).
  destruct (Hne sc k eq_refl) as [H1 H2]. apply String.eqb_neq in H1, H2.
  by rewrite !H1, !H2.
Qed.

(** The session after the runs of other transactions arrived. *)
Definition received (s : store) : store :=
  set_incoming [] (set_pending (merge_incoming (incoming s) (pending s))
    (set_committed (merge_incoming (incoming s) (committed s)) s)).

Definition inserted_db (d : db) (row : run_row) : db :=
  {| runs := <[run_id row := row]> (runs d); events := events d; artifacts := artifacts d; cycle_runs := cycle_runs d;
     next_run_id := next_run_id d + 1; next_event_id := next_event_id d;
     next_artifact_id := next_artifact_id d |}.

Definition clashes (row : run_row) (d : db) : bool :=
  existsb (fun r => unique_clash (spec row) (spec r)) (all_runs d)
  || negb (check_child_step_hash (spec row)).

Lemma insert_run_eq mk s :
  let row := mk (next_run_id (pending (received s))) in
  insert_run mk s =
  if clashes row (pending (received s)) then (received s, Err IntegrityError)
  else (set_pending (inserted_db (pending (received s)) row) (received s), Ok row).
Proof.
  intros row. unfold insert_run, receive_incoming.
  rewrite (bind_eq_ok _ _ s (received s) tt) by done. unfold bind, get.
  fold row. unfold clashes. by destruct (existsb _ _ || _).
Qed.

(** The row the request would insert. *)
Definition request_row (r : AgentRunRequest) (st : RunStatus) (hash : option string)
    (s : store) (i : Z) : run_row :=
  new_run_row r st (source_key r).1 (source_key r).2 (stored_hash hash) (now s) i.

(** A unique constraint refuses the row exactly when the key is taken. *)
Lemma clash_iff_existing r st hash s i d :
  has_key r hash = true \/ req_parent_run_id r = None ->
  clashes (request_row r st hash s i) d = true <-> existing r hash d <> None.
Proof.
  intros Hkey. unfold clashes, existing.
  assert (Hck : check_child_step_hash (spec (request_row r st hash s i)) = true).
  { unfold check_child_step_hash, request_row. simpl. unfold has_key in Hkey.
    destruct (req_parent_run_id r); [|done]. destruct (stored_hash hash); [done|].
    by destruct Hkey. }
  rewrite Hck, orb_false_r, existsb_exists.
  assert (Huc : forall row, unique_clash (spec (request_row r st hash s i)) (spec row) =
                            same_source r row || same_step r hash row).
  { intros row. unfold unique_clash, same_source, same_step, request_row. simpl.
    by destruct (source_key r) as [[sc|] [k|]]. }
  split.
  - intros (row & Hin & Hc). apply list_elem_of_In in Hin. rewrite Huc in Hc.
    destruct (first_by_id (same_step r hash) d) eqn:E1; [done|].
    intros E2. rewrite head_by_id_none in E1, E2. rewrite E1, E2 in Hc; done.
  - intros Hne. destruct (first_by_id (same_step r hash) d) as [row|] eqn:E1;
      [apply first_by_id_some in E1 as [Hin Hf]|destruct (first_by_id (same_source r) d) as [row|]
        eqn:E2; [apply first_by_id_some in E2 as [Hin Hf]|done]];
      exists row; rewrite <- list_elem_of_In, Huc, Hf, ?orb_true_r; by split.
Qed.

(** A new row is found by a retry of its own request. *)
Lemma existing_inserted r st hash s d :
  db_wf d -> has_key r hash = true -> existing r hash d = None ->
  let row := request_row r st hash s (next_run_id d) in
  existing r hash (inserted_db d row) = Some row.
Proof.
  intros Hd Hkey Hnone row.
  assert (Hfresh : runs d !! next_run_id d = None).
  { destruct (runs d !! next_run_id d) eqn:E; [|done]. destruct (wf_ids _ Hd _ _ E). lia. }
  assert (Hall : forall x, x ∈ all_runs (inserted_db d row) <-> x = row \/ x ∈ all_runs d).
  { intros x. unfold all_runs. simpl. rewrite map_to_list_insert by done. csimpl.
    by rewrite elem_of_cons. }
  unfold existing in *.
  destruct (first_by_id (same_step r hash) d) eqn:E1; [done|].
  rewrite head_by_id_none in E1, Hnone.
  assert (Hself : same_step r hash row = true \/
                  (forall x, same_step r hash x = false) /\ same_source r row = true).
  { unfold has_key in Hkey. unfold same_step, same_source, row, request_row. simpl.
    destruct (req_parent_run_id r) as [p|] eqn:Ep.
    - destruct (stored_hash hash); [|done]. left. simpl. by rewrite Z.eqb_refl, String.eqb_refl.
    - right. split; [done|]. destruct (source_key r) as [[sc|] [k|]]; try done. simpl.
      by rewrite !String.eqb_refl. }
  assert (Hu : forall f : run_row -> bool, (forall x, x ∈ all_runs d -> f x = false) -> f row = true ->
    first_by_id f (inserted_db d row) = Some row).
  { intros f Hf Hr. apply first_by_id_unique; [apply Hall; by left|done|].
    intros x [->|Hx]%Hall Hfx; [done|]. rewrite Hf in Hfx; done. }
  destruct Hself as [Hs|[Hno Hs]]; [by rewrite (Hu _ E1 Hs)|].
  rewrite (proj2 (head_by_id_none _ _)) by (intros; apply Hno). by apply Hu.
Qed.

(** The parent's rows are locked in share mode before an insert. *)
Definition lock_parent (r : AgentRunRequest) : DB unit :=
  match req_parent_run_id r with
  | Some p => _acquire_agent_run_locks [Some (int_or (req_root_run_id r) p); Some p]
                true false false ;;; ret tt
  | None => ret tt
  end.

Lemma lock_parent_ok r s : exists s', lock_parent r s = (s', Ok tt) /\ locked s s'.
Proof.
  unfold lock_parent. destruct (req_parent_run_id r) as [p|]; [|by exists s].
  edestruct acquire_spec as (s' & ids & E & Hl & _). exists s'.
  by rewrite (bind_eq_ok _ _ _ _ _ E).
Qed.

(** The insert of [create_run] with the recovery from a lost race. *)
Definition insert_or_find (r : AgentRunRequest) (st : RunStatus) (hash : option string)
    (at_ : instant) : DB (run_row + run_row) :=
  catch
    (row <- insert_run (new_run_row r st (source_key r).1 (source_key r).2 (stored_hash hash) at_) ;;
     ret (inl row))
    (fun e => match e with
     | IntegrityError =>
         existing <- _run_for_parent_step (req_parent_run_id r) (stored_hash hash) ;;
         match existing with
         | Some row => ret (inr row)
         | None =>
             existing <- _run_for_source_idempotency (Some (req_org_id r))
                           (source_key r).1 (source_key r).2 ;;
             match existing with
             | Some row => ret (inr row)
             | None => raise IntegrityError
             end
         end
     | _ => raise e
     end).

Lemma insert_or_find_ok r st hash s :
  req_org_id r <> "" -> has_key r hash = true \/ req_parent_run_id r = None ->
  let d := pending (received s) in
  let row := request_row r st hash s (next_run_id d) in
  insert_or_find r st hash (now s) s =
  match existing r hash d with
  | Some found => (received s, Ok (inr found))
  | None => (set_pending (inserted_db d row) (received s), Ok (inl row))
  end.
Proof.
  intros Ho Hkey d row. unfold insert_or_find. pose proof (insert_run_eq (request_row r st hash s) s) as Hins.
  fold d row in Hins. cbv zeta in Hins. pose proof (clash_iff_existing r st hash s (next_run_id d) d Hkey) as Hiff.
  fold row in Hiff. unfold existing in Hiff |- *.
  assert (E1 := run_for_parent_step_eq r hash (received s)).
  assert (E2 := run_for_source_eq r (received s) Ho). fold d in E1, E2.
  destruct (clashes row d) eqn:Hc.
  - rewrite (catch_err _ _ _ _ _ (bind_eq_err _ _ _ _ _ Hins)).
    rewrite (bind_eq_ok _ _ _ _ _ E1).
    destruct (first_by_id (same_step r hash) d); [done|].
    rewrite (bind_eq_ok _ _ _ _ _ E2).
    destruct (first_by_id (same_source r) d); [done|]. by destruct (proj1 Hiff eq_refl).
  - assert (Hm : bind (insert_run (request_row r st hash s)) (fun row => ret (inl row)) s =
      (set_pending (inserted_db d row) (received s), Ok (inl (B:=run_row) row)))
      by (by rewrite (bind_eq_ok _ _ _ _ _ Hins)).
    rewrite (catch_ok _ _ _ _ _ Hm).
    destruct (first_by_id (same_step r hash) d); [assert (false = true) by (by apply Hiff); done|].
    destruct (first_by_id (same_source r) d); [assert (false = true) by (by apply Hiff); done|]. done.
Qed.

Lemma create_run_unfold r v st hash s :
  _creatable_run_status v = Ok st -> req_org_id r <> "" ->
  create_run r v hash s =
  match existing r hash (pending s) with
  | Some row => (s, to_domain row)
  | None =>
      (lock_parent r ;;; s1 <- get ;;
       inserted <- insert_or_find r st hash (now s1) ;;
       match inserted with
       | inr row => lift_result (to_domain row)
       | inl row =>
           append_event (run_event (run_id row) "run.created"
             [("profile", JStr (value (normalized_profile r)));
              ("recipe", JStr (value (normalized_recipe r))); ("status", JStr (value st))]
             (root_run_id (spec row)) AGENT_RUNTIME) ;;;
           lift_result (to_domain row)
       end) s
  end.
Proof.
  intros Hst Ho. unfold create_run. rewrite Hst, lift_ok_bind. cbv zeta.
  fold (stored_hash hash). fold (source_key r).
  rewrite (bind_eq_ok _ _ _ _ _ (run_for_parent_step_eq r hash s)). unfold existing.
  destruct (first_by_id (same_step r hash) (pending s)); [done|].
  pose proof (run_for_source_eq r s Ho) as E. unfold insert_or_find.
  destruct (source_key r) as [sc k] eqn:Ek. simpl fst in *. simpl snd in *.
  rewrite (bind_eq_ok _ _ _ _ _ E).
  by destruct (first_by_id (same_source r) (pending s)).
Qed.

(** What [create_run] does, by the run that answers the request. *)
Lemma create_run_ok s r v st hash :
  store_inv s -> _creatable_run_status v = Ok st -> req_org_id r <> "" ->
  has_key r hash = true \/ req_parent_run_id r = None ->
  let d := pending (received s) in
  exists s' a, create_run r v hash s = (s', Ok a) /\
  match existing r hash (pending s), existing r hash d with
  | Some row, _ => ar_row a = row /\ s' = s
  | None, Some row => ar_row a = row /\ exists s1, locked s s1 /\ s' = received s1
  | None, None => exists s1 e, locked s s1 /\ e_type e = "run.created" /\ e_run_id e = next_run_id d /\
      ar_row a = request_row r st hash s1 (next_run_id d) /\ ar_status a = st /\
      writes (set_pending (inserted_db d (ar_row a)) (received s1))
        (add_event (event_row_of (now s1) e (inserted_db d (ar_row a))) (inserted_db d (ar_row a))) s'
  end.
Proof.
  intros Hinv Hst Ho Hkey d. rewrite (create_run_unfold r v st hash s Hst Ho).
  assert (Hwf : db_wf d) by (apply (inv_pending _ (proj1 (safe_receive_incoming s Hinv)))).
  assert (Hex : forall d' row, db_wf d' -> existing r hash d' = Some row -> row_wf row).
  { intros d' row Hd' Hrow. assert (Hin : row ∈ all_runs d').
    { unfold existing in Hrow. destruct (first_by_id (same_step r hash) d') eqn:E;
        [simplify_eq; by apply first_by_id_some in E as [? _]|by apply first_by_id_some in Hrow as [? _]]. }
    apply (all_runs_lookup _ _ Hd') in Hin. by eapply wf_rows. }
  destruct (existing r hash (pending s)) as [row|] eqn:E0.
  { destruct (to_domain_wf row (Hex _ _ (inv_pending _ Hinv) E0)) as (a & Ea & Hr & _).
    exists s, a. by rewrite Ea. }
  destruct (lock_parent_ok r s) as (s1 & E1 & Hl). rewrite (bind_eq_ok _ _ _ _ _ E1).
  unfold bind at 1, get. pose proof (insert_or_find_ok r st hash s1 Ho Hkey) as Ef. cbv zeta in Ef.
  assert (Hd : pending (received s1) = d) by (by destruct Hl as [l ->]). rewrite Hd in Ef.
  destruct (existing r hash d) as [row|] eqn:E2.
  - rewrite (bind_eq_ok _ _ _ _ _ Ef).
    destruct (to_domain_wf row (Hex _ _ Hwf E2)) as (a & Ea & Hr & _).
    exists (received s1), a. rewrite Ea. split; [done|]. split; [done|]. by exists s1.
  - rewrite (bind_eq_ok _ _ _ _ _ Ef). set (row := request_row r st hash s1 (next_run_id d)).
    match goal with |- context [append_event ?e] => set (ev := e) end.
    destruct (append_event_ok ev (set_pending (inserted_db d row) (received s1)) eq_refl)
      as (s2 & E3 & W & _).
    rewrite (bind_eq_ok _ _ _ _ _ E3).
    destruct (to_domain_wf row (new_run_row_wf _ _ _ _ _ _ _)) as (a & Ea & Hr & Hs).
    exists s2, a. rewrite Ea, Hr. split; [done|]. exists s1, ev. split_and!; try done.
    rewrite Hs. unfold row_status. apply coerce_value.
Qed.

(** C36. One run per key.  A request with an existing run, by its parent step or by
    its source key, is answered with that run and changes nothing.  Otherwise,
    if another transaction inserts a run with the key while this one waits, the
    unique constraint refuses this insert and the answer is the other's run: no
    run is added beside the ones that arrived.  Otherwise exactly one run is
    added, under a fresh id, with the requested status, no token and attempt 0,
    and its event [run.created]; a retry of the request then finds it. *)
Theorem create_run_once (s : store) (r : AgentRunRequest) (v : enum_arg RunStatus)
    (st : RunStatus) (hash : option string) :
  store_inv s -> _creatable_run_status v = Ok st -> req_org_id r <> "" ->
  has_key r hash = true \/ req_parent_run_id r = None ->
  let d := pending (received s) in
  exists s' a, create_run r v hash s = (s', Ok a) /\
  match existing r hash (pending s), existing r hash d with
  | Some row, _ => ar_row a = row /\ s' = s
  | None, Some row => ar_row a = row /\ runs (pending s') = runs d /\ events (pending s') = events d
  | None, None =>
      ar_id a = next_run_id d /\ runs d !! ar_id a = None /\
      runs (pending s') = <[ar_id a := ar_row a]> (runs d) /\ ar_status a = st /\
      execution_token (ar_row a) = None /\ execution_attempt (ar_row a) = 0%Z /\
      parent_run_id (spec (ar_row a)) = req_parent_run_id r /\
      (fun e => e.1.2) <$> event_trace (ar_id a) (pending s') =
        ((fun e => e.1.2) <$> event_trace (ar_id a) d) ++ ["run.created"] /\
      (has_key r hash = true -> existing r hash (pending s') = Some (ar_row a))
  end.
Proof.
  intros Hinv Hst Ho Hkey d. destruct (create_run_ok s r v st hash Hinv Hst Ho Hkey) as (s' & a & E & Ha).
  exists s', a. split; [done|]. fold d in Ha.
  assert (Hwf : db_wf d) by (apply (inv_pending _ (proj1 (safe_receive_incoming s Hinv)))).
  destruct (existing r hash (pending s)) as [row|]; [done|].
  destruct (existing r hash d) as [row|] eqn:E2.
  { destruct Ha as (-> & s1 & [l ->] & ->). by split_and!. }
  destruct Ha as (s1 & e & Hl & Ht & Hi & Hr & Hst' & [Wp _ _ _ _ _ _ _ _]). rewrite Wp. unfold ar_id.
  rewrite Hr in *. simpl. split_and!; try done.
  - destruct (runs d !! next_run_id d) eqn:En; [|done]. destruct (wf_ids _ Hwf _ _ En). lia.
  - unfold event_trace. rewrite run_events_add, decide_True by done. rewrite !fmap_app. simpl. by rewrite Ht.
  - intros Hk. by apply (existing_inserted r st hash s1 d Hwf Hk E2).
Qed.

(** * Children without a step key *)

(** A child's row without a step hash breaks the table's check constraint. *)
Lemma child_insert_refused r st s :
  req_org_id r <> "" -> is_Some (req_parent_run_id r) ->
  insert_or_find r st None (now s) s = (received s, Err IntegrityError).
Proof.
  intros Ho [p Hp]. unfold insert_or_find.
  pose proof (insert_run_eq (request_row r st None s) s) as Hins. cbv zeta in Hins.
  assert (Hc : forall i d, clashes (request_row r st None s i) d = true).
  { intros i d. unfold clashes, check_child_step_hash, request_row. simpl. rewrite Hp.
    by rewrite orb_true_r. }
  rewrite Hc in Hins. rewrite (catch_err _ _ _ _ _ (bind_eq_err _ _ _ _ _ Hins)).
  rewrite (bind_eq_ok _ _ _ _ _ (run_for_parent_step_eq r None (received s))).
  assert (first_by_id (same_step r None) (pending (received s)) = None) as ->.
  { apply head_by_id_none. intros row _. unfold same_step. by rewrite Hp. }
  rewrite (bind_eq_ok _ _ _ _ _ (run_for_source_eq r (received s) Ho)).
  assert (first_by_id (same_source r) (pending (received s)) = None) as ->; [|done].
  apply head_by_id_none. intros row _. unfold same_source, source_key. by rewrite Hp.
Qed.

Lemma child_create_refused r v st s :
  _creatable_run_status v = Ok st -> req_org_id r <> "" -> is_Some (req_parent_run_id r) ->
  exists s1, locked s s1 /\ create_run r v None s = (received s1, Err IntegrityError).
Proof.
  intros Hv Ho Hp. rewrite (create_run_unfold r v st None s Hv Ho).
  assert (existing r None (pending s) = None) as ->.
  { destruct Hp as [p Hp]. unfold existing.
    rewrite (proj2 (head_by_id_none _ _)) by (intros; unfold same_step; by rewrite Hp).
    apply head_by_id_none. intros row _. unfold same_source, source_key. by rewrite Hp. }
  destruct (lock_parent_ok r s) as (s1 & E1 & Hl). exists s1. split; [done|].
  rewrite (bind_eq_ok _ _ _ _ _ E1). unfold bind at 1, get.
  by rewrite (bind_eq_err _ _ _ _ _ (child_insert_refused r st s1 Ho Hp)).
Qed.

Lemma creatable_member v st :
  _creatable_run_status v = Ok st -> _creatable_run_status (Member st) = Ok st.
Proof.
  unfold _creatable_run_status. destruct (match v with Member s => _ | _ => _ end) as [s|]; [|done].
  destruct (status_in s _CREATABLE_RUN_STATUSES) eqn:E; [|done]. intros [= <-]. by rewrite E.
Qed.

(** The call passes no step key, or an empty one. *)
Definition keyless (k : child_kwargs) : Prop := str_or (ck_step_key k) "" = "".

(** A child run needs a step key: although [create_child_run_with_result]
    takes the step key as optional, without one the check constraint of the
    table refuses the insert, so for a stored parent the call always raises and leaves
    nothing of its own behind; the session's commit mode is restored. *)
Theorem child_without_step_key (s : store) (parent : run_row) (v : enum_arg RunStatus)
    (st : RunStatus) (k : child_kwargs) (token : string) :
  _creatable_run_status v = Ok st -> keyless k ->
  strip (str_or (org_id (spec parent)) "") <> "" ->
  runs (pending s) !! run_id parent = Some parent -> root_present s parent ->
  exists s', create_child_run_with_result parent v k token s = (s', Err IntegrityError) /\
    committed s' = merge_incoming (incoming s) (committed s) /\ pending s' = committed s' /\
    auto_commit s' = auto_commit s.
Proof.
  intros Hv Hk Horg Hpar Hroot. unfold keyless in Hk. unfold create_child_run_with_result.
  rewrite Hv, lift_ok_bind. cbv zeta. unfold bind at 1, get. rewrite Hk.
  change (negb (String.eqb "" "")) with false. cbn iota.
  rewrite (bind_eq_ok _ _ s (set_auto_commit false s) tt) by done.
  assert (Hlock : exists s0, locked (set_auto_commit false s) s0 /\
    (if bool_decide (dialect s = Sqlite) then ret parent
     else _locked_run (run_id parent)
            (Some (int_or (root_run_id (spec parent)) (run_id parent)))) (set_auto_commit false s)
    = (s0, Ok parent)).
  { case_bool_decide; [by exists (set_auto_commit false s)|]. apply locked_run_ok; auto. }
  destruct Hlock as (s0 & Hl0 & El0).
  assert (Hreq : exists req, child_request parent k (default [] (ck_metadata k)) = Ok req /\
                   req_org_id req <> "" /\ is_Some (req_parent_run_id req)).
  { unfold child_request, AgentRunRequest_post_init. simpl.
    destruct (String.eqb _ "") eqn:E; [by apply String.eqb_eq in E|].
    eexists. split; [done|]. by split; [|eexists]. }
  destruct Hreq as (req & Er & Ho & Hp).
  assert (Hh : _parent_step_key_hash (ck_step_key k) = None).
  { unfold _parent_step_key_hash. by rewrite Hk. }
  destruct (child_create_refused req (Member st) st s0) as (s1 & Hl & Ec);
    [|done|done|].
  { by eapply creatable_member. }
  match goal with |- context [bind (catch ?m ?h) ?f ?x] =>
    assert (Em : m x = (received s1, Err IntegrityError)) end.
  { apply bind_eq_err. rewrite (bind_eq_ok _ _ _ _ _ El0).
    rewrite (bind_eq_ok _ _ s0 s0 None) by done.
    rewrite Er, lift_ok_bind, Hh. by rewrite (bind_eq_err _ _ _ _ _ Ec). }
  eexists. split.
  { erewrite bind_eq_ok; [|rewrite (catch_err _ _ _ _ _ Em); reflexivity]. reflexivity. }
  by destruct Hl as [l ->], Hl0 as [l0 ->].
Qed.
End creation.

(** ** Instances *)

Definition demo_request (meta : dict) : AgentRunRequest :=
  {| req_thread_id := "thread"; req_message := "hello"; req_org_id := "org";
     req_user_id := None; req_profile := Raw "fast"; req_recipe := None;
     req_parent_run_id := Some 1%Z; req_root_run_id := Some 1%Z; req_target_ref := [];
     req_workspace_ref := []; req_model_policy := []; req_metadata := meta;
     req_deadline_at := None |}.

Lemma create_run_once_witness :
  exists s' a, @create_run demo_platform (demo_request []) (Raw " Queued ") (Some "step") demo_session
      = (s', Ok a) /\ ar_id a = 100%Z /\ ar_status a = QUEUED /\
    existing (demo_request []) (Some "step") (pending s') = Some (ar_row a).
Proof.
  destruct (@create_run_once demo_platform demo_session (demo_request []) (Raw " Queued ") QUEUED
    (Some "step")) as (s' & a & E & Ha).
  - apply demo_session_inv.
  - reflexivity.
  - discriminate.
  - left. reflexivity.
  - exists s', a. split; [exact E|]. vm_compute (existing _ _ (pending demo_session)) in Ha.
    vm_compute (existing _ _ (pending (received _))) in Ha.
    destruct Ha as (Hid & _ & _ & Hst & _ & _ & _ & _ & Hex).
    split; [exact Hid|]. split; [exact Hst|]. apply Hex. reflexivity.
Defined.

Definition demo_child : child_kwargs :=
  {| ck_recipe := Raw "worker"; ck_message := "go"; ck_step_key := None; ck_thread_id := None;
     ck_metadata := None; ck_profile := None; ck_target_ref := None; ck_workspace_ref := None;
     ck_model_policy := None |}.

Lemma child_without_step_key_witness :
  exists s', @create_child_run_with_result demo_platform demo_running (Raw "queued") demo_child
    "creation" demo_session = (s', Err IntegrityError).
Proof.
  destruct (@child_without_step_key demo_platform demo_session demo_running (Raw "queued") QUEUED
    demo_child "creation") as (s' & E & _).
  - reflexivity.
  - reflexivity.
  - discriminate.
  - reflexivity.
  - eexists. reflexivity.
  - exists s'. exact E.
Defined.
