(* ===== verification/RunMailbox.v ===== *)
(** Steering messages: each submitted message is handed to the run once, in the
    order of the event log; and the final answer is stored once. *)
From S2P Require Import Prelude.
From S2P Require Import PyStr.
From S2P Require Import Json.
From S2P Require Import Status.
From S2P Require Import Failures.
From S2P Require Import RunStore.
From S2P Require Import RunCreate.
From S2P Require Import RunLifecycle.
From S2P Require Import RunMessages.
From S2P Require Import RunEvolution.
From S2P Require Import RunOutcome.
From S2P Require Import RunDemo.
From S2P Require Import RunTransitions.
From S2P Require Import RunQueue.
Open Scope string_scope.
Open Scope bool_scope.
Open Scope list_scope.

Section mailbox.
Context `{Platform} `{ProviderErrorTaxonomy}.

(** The order of the steering query. *)
Definition seq_leb (a b : event_row) : bool :=
  Z.ltb (ev_sequence_no a) (ev_sequence_no b)
  || (Z.eqb (ev_sequence_no a) (ev_sequence_no b) && Z.leb (ev_id a) (ev_id b)).

Lemma seq_leb_total a b : seq_leb a b = true \/ seq_leb b a = true.
Proof.
  unfold seq_leb. rewrite !orb_true_iff, !andb_true_iff, !Z.ltb_lt, !Z.eqb_eq, !Z.leb_le. lia.
Qed.
Lemma seq_leb_trans a b c : seq_leb a b = true -> seq_leb b c = true -> seq_leb a c = true.
Proof.
  unfold seq_leb. rewrite !orb_true_iff, !andb_true_iff, !Z.ltb_lt, !Z.eqb_eq, !Z.leb_le. lia.
Qed.
Lemma seq_leb_le a b : seq_leb a b = true -> (ev_sequence_no a <= ev_sequence_no b)%Z.
Proof. unfold seq_leb. rewrite orb_true_iff, andb_true_iff, Z.ltb_lt, Z.eqb_eq. lia. Qed.

(** The last message of a batch carries its highest number. *)
Lemma ordered_last l x :
  ordered seq_leb l -> last l = Some x -> forall y, y ∈ l -> (ev_sequence_no y <= ev_sequence_no x)%Z.
Proof.
  induction l as [|z l IH]; intros Ho Hl y Hy; [done|].
  inversion Ho as [|? ? Hs Hall]; subst. destruct l as [|z' l'].
  - injection Hl as <-. apply elem_of_list_singleton in Hy || apply list_elem_of_singleton in Hy.
    by subst.
  - rewrite last_cons_cons in Hl. apply elem_of_cons in Hy as [->|Hy]; [|by apply IH].
    rewrite Forall_forall in Hall. apply seq_leb_le, Hall. by apply last_Some_elem_of.
Qed.

Lemma pending_steering_elem id c d e :
  e ∈ pending_steering id c d <->
  e ∈ events d /\ ev_run_id e = id /\ ev_type e = _STEERING_SUBMITTED_EVENT /\
  (c < ev_sequence_no e)%Z.
Proof.
  unfold pending_steering, run_events.
  rewrite elem_of_py_sorted, !list_elem_of_filter. tauto.
Qed.

(** Nothing is pending past the last message of a batch. *)
Lemma pending_after id c d x :
  last (pending_steering id c d) = Some x -> pending_steering id (ev_sequence_no x) d = [].
Proof.
  intros Hl. apply elem_of_nil_inv. intros e He.
  assert (Hx : x ∈ pending_steering id c d) by (by apply last_Some_elem_of).
  apply pending_steering_elem in Hx, He.
  assert (Hin : e ∈ pending_steering id c d) by (apply pending_steering_elem; intuition lia).
  pose proof (ordered_last _ x (py_sorted_ordered _ seq_leb_total seq_leb_trans _) Hl e Hin).
  intuition lia.
Qed.

(** The row a flush of new metadata leaves. *)
Lemma flush_metadata_ok row m s :
  runs (pending s) !! run_id row = Some row ->
  exists s' row', flush_metadata row m s = (s', Ok tt) /\
    runs (pending s') !! run_id row = Some row' /\ events (pending s') = events (pending s) /\
    auto_commit s' = auto_commit s /\ now s' = now s /\
    (metadata_ row' = m \/ row' = row /\ py_eqb (JObj m) (JObj (metadata_ row)) = true).
Proof.
  intros Hr. unfold flush_metadata. destruct (py_eqb _ _) eqn:E; cbn [negb when_].
  - exists s, row. split_and!; auto.
  - rewrite (bind_eq_ok _ _ _ _ _ (update_run_ok s _ [] _ row Hr eq_refl)).
    eexists _, _. split; [done|]. simpl. rewrite lookup_insert_eq. split; [done|].
    split_and!; try done. left. by destruct row.
Qed.

(** The messages a drain hands out: those submitted after the run's cursor. *)
Definition undelivered (row : run_row) (d : db) : list event_row :=
  pending_steering (run_id row) (steering_cursor row) d.

(** Steering messages are delivered in order and once: draining answers the
    messages submitted after the run's cursor, ordered by sequence number, blank
    ones left out, and moves the cursor to the last of them, so draining again
    answers nothing; in a committing session the cursor is committed before the
    messages are answered. *)
Theorem drain_steering_once (s : store) (row : run_row) :
  runs (pending s) !! run_id row = Some row -> root_present s row ->
  undelivered row (pending s) <> [] ->
  exists s', drain_steering (run_id row) s =
      (s', Ok (omap (steering_message (now s))
                 (undelivered row (pending s)))) /\
    (exists row', runs (pending s') !! run_id row = Some row' /\
       Some (steering_cursor row') = ev_sequence_no <$>
         last (undelivered row (pending s))) /\
    (drain_steering (run_id row) s').2 = Ok [] /\
    (auto_commit s = true -> committed s' = pending s').
Proof.
  unfold undelivered. intros Hr Hroot Hne. unfold drain_steering at 1.
  assert (Hreq : forall s0 r0, runs (pending s0) !! run_id row = Some r0 ->
    require_run (run_id row) s0 = (s0, Ok r0)).
  { intros s0 r0 Hr0. unfold require_run, get_run, bind, gets. by rewrite Hr0. }
  rewrite (bind_eq_ok _ _ _ _ _ (Hreq _ _ Hr)). unfold bind at 1, get. cbv zeta.
  set (P := pending_steering (run_id row) (steering_cursor row) (pending s)) in *.
  destruct (locked_run_ok s (run_id row) None row) as (s1 & Hl & E1); auto.
  destruct (locked_fields _ _ Hl) as (Ep & _ & _ & _ & En & Ea & _).
  assert (Hfilter : filter (fun e => (steering_cursor row < ev_sequence_no e)%Z) P = P).
  { apply filter_all. intros e He. by apply pending_steering_elem in He as (_ & _ & _ & ?). }
  destruct (last P) as [x|] eqn:Hlast; [|by apply last_None in Hlast].
  set (m := jset _STEERING_CURSOR_METADATA_KEY (JInt (ev_sequence_no x)) (metadata_ row)).
  destruct (flush_metadata_ok row m s1) as (s2 & row' & E2 & Hrow' & Hev & Ha2 & Hn2 & Hm);
    [by rewrite Ep|].
  set (s3 := if auto_commit s2 then set_committed (pending s2) s2 else s2).
  assert (Hp3 : pending s3 = pending s2) by (unfold s3; by destruct (auto_commit s2)).
  assert (Hcur : steering_cursor row' = ev_sequence_no x).
  { assert (Hget : jget _STEERING_CURSOR_METADATA_KEY m = Some (JInt (ev_sequence_no x)))
      by apply jget_jset_eq.
    unfold steering_cursor, jget_or_null, _coerce_int. destruct Hm as [->|[-> Heq]].
    - by rewrite Hget.
    - destruct (py_eqb_obj_get _ _ _ _ Heq Hget) as (v & -> & Hv). simpl.
      by rewrite (py_eqb_int _ _ Hv). }
  exists s3. split_and!.
  - destruct P as [|e P'] eqn:EP; [done|]. rewrite (bind_eq_ok _ _ _ _ _ E1). cbv zeta.
    rewrite Hfilter, Hlast. fold m. rewrite (bind_eq_ok _ _ _ _ _ E2). unfold bind at 1, get.
    rewrite (bind_eq_ok _ _ _ _ _ (commit_if_auto_eq s2)), Hn2, En. done.
  - exists row'. rewrite Hp3, Hrow'. split; [done|]. by rewrite Hcur.
  - unfold drain_steering. rewrite (bind_eq_ok _ _ s3 s3 row') by (apply Hreq; by rewrite Hp3).
    unfold bind at 1, get. cbv zeta.
    assert (pending_steering (run_id row) (steering_cursor row') (pending s3) = []) as ->.
    { rewrite Hcur. assert (He : pending_steering (run_id row) (ev_sequence_no x) (pending s3) =
        pending_steering (run_id row) (ev_sequence_no x) (pending s)).
      { unfold pending_steering, run_events. by rewrite Hp3, Hev, Ep. }
      rewrite He. by apply (pending_after _ (steering_cursor row)). }
    unfold rollback_if_auto, bind, get, when_. by destruct (auto_commit s3).
  - intros Hac. unfold s3. by rewrite Ha2, Ea, Hac.
Qed.

(** * The final answer *)

(** The text stored for an answer of the run. *)
Definition sanitized (i : Z) (text : string) (d : db) : string :=
  if startswith PROVIDER_ERROR_SENTINEL_PREFIX text then text
  else match provider_error_kind text with
       | None | Some "" => text
       | Some kind =>
           let metadata := match runs d !! i with Some r => metadata_ r | None => [] end in
           if negb (py_eqb (jget_or_null "source" metadata) (JStr "cycle"))
              && negb (truthy (jget_or_null "cycle_run_id" metadata))
           then text else safe_provider_error_sentinel (Some kind)
       end.

Lemma error_text_eq i t s :
  safe_cycle_provider_error_text i t s = (s, Ok (sanitized i t (pending s))).
Proof.
  unfold safe_cycle_provider_error_text, sanitized. destruct (startswith _ _); [done|].
  destruct (provider_error_kind t) as [[|c k]|]; try done.
  unfold get_run, bind, gets. by destruct (negb _ && negb _).
Qed.

Lemma sentinel_prefix k : startswith PROVIDER_ERROR_SENTINEL_PREFIX (safe_provider_error_sentinel k) = true.
Proof. done. Qed.

Lemma sanitized_sentinel i t d :
  startswith PROVIDER_ERROR_SENTINEL_PREFIX t = true -> sanitized i t d = t.
Proof. intros Ht. unfold sanitized. by rewrite Ht. Qed.

Lemma sanitized_idem i t d : sanitized i (sanitized i t d) d = sanitized i t d.
Proof.
  assert (Hk : sanitized i t d = t \/ startswith PROVIDER_ERROR_SENTINEL_PREFIX (sanitized i t d) = true).
  { unfold sanitized. repeat case_match; auto. }
  destruct Hk as [Hk|Hk]; [by rewrite !Hk|by apply sanitized_sentinel].
Qed.

Lemma sanitized_runs i t d d' : runs d' = runs d -> sanitized i t d' = sanitized i t d.
Proof. intros E. unfold sanitized. by rewrite E. Qed.

(** The stored answers of a run with the given text. *)
Definition answers (i : Z) (text : string) (d : db) : list artifact_row :=
  filter (fun a => art_run_id a = i /\ art_type a = value FINAL_ANSWER /\ art_text a = Some text)
    (artifacts d).

(** Appending the final answer adds one artifact with the sanitised text. *)
Lemma append_answer_ok i t root s :
  exists s' a, append_artifact (final_answer_artifact i t root) s = (s', Ok a) /\
    runs (pending s') = runs (pending s) /\
    artifacts (pending s') = artifacts (pending s) ++ [a] /\
    art_run_id a = i /\ art_type a = value FINAL_ANSWER /\
    art_text a = Some (sanitized i t (pending s)).
Proof.
  unfold append_artifact. cbn [a_text final_answer_artifact a_type artifact_type_value].
  change (String.eqb (value FINAL_ANSWER) (value FINAL_ANSWER)) with true. cbn iota.
  rewrite (bind_eq_ok _ _ s s (Some (sanitized i t (pending s)))).
  2:{ by rewrite (bind_eq_ok _ _ _ _ _ (error_text_eq i t s)). }
  edestruct acquire_spec as (s2 & ids & E2 & Hl & _). rewrite (bind_eq_ok _ _ _ _ _ E2). clear E2.
  unfold bind at 1, get. cbv zeta. set (row := Build_artifact_row _ _ _ _ _ _ _ _ _ _).
  rewrite (bind_eq_ok _ _ s2 (set_pending (add_artifact row (pending s2)) s2) tt) by done.
  set (s3 := set_pending _ s2).
  match goal with |- context [append_event ?e] =>
    destruct (append_event_ok e s3 eq_refl) as (s4 & E4 & [Wp _ _ _ _ _ _ _ _] & _) end.
  rewrite (bind_eq_ok _ _ _ _ _ E4). exists s4, row. rewrite Wp.
  destruct (locked_fields _ _ Hl) as (Ep & _). simpl. rewrite Ep. by split_and!.
Qed.

(** The final answer is stored once: after an answer was stored, storing it
    again finds the same artifact and changes nothing, whatever the classifier
    of provider errors makes of its text. *)
Theorem final_answer_once (s s1 : store) (i : Z) (t : string) (root : option Z) (a : artifact_row) :
  append_final_answer_once i t root s = (s1, Ok (Some a)) ->
  append_final_answer_once i t root s1 = (s1, Ok (Some a)) /\
  art_run_id a = i /\ art_type a = value FINAL_ANSWER /\
  art_text a = Some (sanitized i t (pending s)).
Proof.
  unfold append_final_answer_once. destruct (String.eqb t ""); [done|].
  rewrite !(bind_eq_ok _ _ _ _ _ (error_text_eq i t _)). unfold bind at 1 3, get.
  set (text := sanitized i t (pending s)). fold (answers i text (pending s)).
  destruct (head (answers i text (pending s))) as [a0|] eqn:Eh.
  - intros [= <- <-]. fold text. fold (answers i text (pending s)). rewrite Eh. split; [done|].
    apply head_Some_elem_of, list_elem_of_filter in Eh. tauto.
  - destruct (append_answer_ok i text root s) as (s' & a' & E & Hr & Ha & Hi & Hty & Htx).
    rewrite (bind_eq_ok _ _ _ _ _ E). intros [= <- <-].
    rewrite (sanitized_runs _ _ _ _ Hr). fold text. fold (answers i text (pending s')).
    unfold text in Htx. rewrite sanitized_idem in Htx. fold text in Htx.
    assert (answers i text (pending s') = [a']) as ->; [|by split_and!].
    unfold answers. rewrite Ha, filter_app.
    fold (answers i text (pending s)). destruct (answers i text (pending s)); [|done].
    by rewrite app_nil_l, filter_cons_True by done.
Qed.
End mailbox.

(** ** Instances *)

Definition demo_message (n : Z) (text : string) : event_row :=
  {| ev_id := n; ev_run_id := 1; ev_root_run_id := Some 1%Z; ev_sequence_no := n;
     ev_type := _STEERING_SUBMITTED_EVENT; ev_payload := [("content", JStr text)];
     ev_producer := "user"; ev_visibility := "public"; ev_created_at := 50 |}.
Definition demo_mailbox : store :=
  demo_store true (demo_db [demo_running] [demo_message 2 "second"; demo_message 1 " first  one "]).

Lemma drain_steering_once_witness :
  exists s' l, drain_steering 1 demo_mailbox = (s', Ok l) /\
    sm_content <$> l = ["first one"; "second"].
Proof.
  destruct (drain_steering_once demo_mailbox demo_running) as (s' & E & _).
  - reflexivity.
  - exists demo_running. reflexivity.
  - discriminate.
  - eexists s', _. split; [exact E|]. reflexivity.
Defined.

Lemma final_answer_once_witness :
  let s1 := (@append_final_answer_once demo_taxonomy 1 "overloaded" None demo_session).1 in
  exists a, @append_final_answer_once demo_taxonomy 1 "overloaded" None s1 = (s1, Ok (Some a)).
Proof.
  intros s1. destruct (@append_final_answer_once demo_taxonomy 1 "overloaded" None demo_session)
    as [s2 res] eqn:E.
  assert (Hres : (@append_final_answer_once demo_taxonomy 1 "overloaded" None demo_session).2 = res)
    by (by rewrite E).
  vm_compute in Hres. subst res. eexists.
  apply (@final_answer_once demo_taxonomy demo_session s2 1 "overloaded" None _ E).
Defined.
