(* ===== verification/WorkerContracts.v ===== *)
(** The contracts between the worker and the deploy scripts:
    [brain/contracts/worker_lifecycle.py], the phase a worker process publishes
    in a file and how an observer reads it, and
    [brain/contracts/worker_swap.py], the snapshot of open runs that decides
    whether a worker may be replaced. *)
From Stdlib Require Import Ascii.
From S2P Require Import Prelude.
From S2P Require Import PyStr.
From S2P Require Import Json.
From S2P Require Import JsonText.
From S2P Require Import Status.
Open Scope string_scope.
Open Scope bool_scope.
Open Scope list_scope.

(** * worker_lifecycle.py *)

Inductive WorkerLifecyclePhase : Type := PHASE_STARTING | PHASE_CLAIMING | PHASE_DRAINING | PHASE_STOPPED.
Inductive WorkerContainerState : Type :=
| CONTAINER_RUNNING | DEFINITIVELY_NOT_RUNNING | CONTAINER_UNKNOWN.
Inductive WorkerCoverObservation : Type :=
| COVER_CLAIMING | COVER_PENDING | DEFINITIVELY_NOT_CLAIMING.

#[export] Instance WorkerLifecyclePhase_eq_dec : EqDecision WorkerLifecyclePhase.
Proof. solve_decision. Defined.
#[export] Instance WorkerContainerState_eq_dec : EqDecision WorkerContainerState.
Proof. solve_decision. Defined.
#[export] Instance WorkerCoverObservation_eq_dec : EqDecision WorkerCoverObservation.
Proof. solve_decision. Defined.

Definition WorkerLifecyclePhase_value (p : WorkerLifecyclePhase) : string :=
  match p with
  | PHASE_STARTING => "starting" | PHASE_CLAIMING => "claiming"
  | PHASE_DRAINING => "draining" | PHASE_STOPPED => "stopped"
  end.
Definition WorkerContainerState_value (c : WorkerContainerState) : string :=
  match c with
  | CONTAINER_RUNNING => "running" | DEFINITIVELY_NOT_RUNNING => "definitively_not_running"
  | CONTAINER_UNKNOWN => "unknown"
  end.
Definition WorkerCoverObservation_value (o : WorkerCoverObservation) : string :=
  match o with
  | COVER_CLAIMING => "claiming" | COVER_PENDING => "pending"
  | DEFINITIVELY_NOT_CLAIMING => "definitively_not_claiming"
  end.

#[export] Program Instance WorkerLifecyclePhase_enum : StrEnum WorkerLifecyclePhase :=
  {| members := [PHASE_STARTING; PHASE_CLAIMING; PHASE_DRAINING; PHASE_STOPPED];
     value := WorkerLifecyclePhase_value |}.
Next Obligation. solve_enum. Qed.
Next Obligation. solve_enum. Qed.
#[export] Program Instance WorkerContainerState_enum : StrEnum WorkerContainerState :=
  {| members := [CONTAINER_RUNNING; DEFINITIVELY_NOT_RUNNING; CONTAINER_UNKNOWN];
     value := WorkerContainerState_value |}.
Next Obligation. solve_enum. Qed.
Next Obligation. solve_enum. Qed.

Definition UNKNOWN_WORKER_LIFECYCLE_PHASE : string := "unknown".

Record WorkerLifecycleRecord : Type := {
  lr_phase : WorkerLifecyclePhase;
  lr_pid : Z;
  lr_identity : string;
}.

Definition lifecycle_as_json (r : WorkerLifecycleRecord) : string :=
  dumps "," ":" (JObj [("phase", JStr (value (lr_phase r))); ("pid", JInt (lr_pid r));
                       ("process_start_identity", JStr (lr_identity r))]).

(** [str(raw or "")] of the observed values, then a lookup by exact value. *)
Definition phase_of_text (text : string) : option WorkerLifecyclePhase :=
  let v := strip text in
  if String.eqb v "" || String.eqb v UNKNOWN_WORKER_LIFECYCLE_PHASE then None
  else first_member v members.

Definition parse_worker_lifecycle_phase (raw : enum_arg WorkerLifecyclePhase)
    : option WorkerLifecyclePhase :=
  match raw with
  | Member p => Some p
  | Raw s => phase_of_text s
  | Absent => phase_of_text ""
  end.

(** The text after the last closing parenthesis, [stat.rsplit(")", 1)[1]]. *)
Fixpoint after_last_paren (s : string) : option string :=
  match s with
  | "" => None
  | String a s' =>
      match after_last_paren s' with
      | Some t => Some t
      | None => if Ascii.eqb a ")" then Some s' else None
      end
  end.

(** The world the contract touches: [/proc/<pid>/stat] of the live processes,
    this process's pid, the published file, and whether the next write, rename
    and unlink succeed. *)
Record world : Type := {
  proc_stat : Z -> option string;
  my_pid : Z;
  lifecycle_file : option string;
  can_write : bool;
  can_replace : bool;
  can_unlink : bool;
}.

Definition set_file (f : option string) (w : world) : world :=
  {| proc_stat := proc_stat w; my_pid := my_pid w; lifecycle_file := f;
     can_write := can_write w; can_replace := can_replace w; can_unlink := can_unlink w |}.

Definition _process_start_identity (w : world) (pid : Z) : option string :=
  let stat := default "" (proc_stat w pid) in
  if String.eqb stat "" then None
  else match after_last_paren stat with
       | None => None
       | Some rest =>
           match split_ws rest !! 19%nat with
           | Some ticks => Some ("linux-start-ticks:" +:+ ticks)
           | None => None
           end
       end.

Definition _parse_worker_lifecycle_record (raw : string) : option WorkerLifecycleRecord :=
  match loads raw with
  | Some (JObj payload) =>
      let phase := phase_of_text (str_or_empty (jget_or_null "phase" payload)) in
      match phase, strict_int (jget_or_null "pid" payload),
            jget_or_null "process_start_identity" payload with
      | Some p, Some pid, JStr ident =>
          if Z.leb pid 0 || String.eqb ident "" then None
          else Some {| lr_phase := p; lr_pid := pid; lr_identity := ident |}
      | _, _, _ => None
      end
  | _ => None
  end.

Definition newline : string := String (ascii_of_N 10) "".

(** The body of the [try]: a temporary file is written and renamed over the
    published one. *)
Definition publish_body (phase : enum_arg WorkerLifecyclePhase) : M world unit :=
  match parse_worker_lifecycle_phase phase with
  | None => raise (ValueError "cannot publish unknown worker lifecycle phase")
  | Some normalized =>
      w <- get ;;
      match _process_start_identity w (my_pid w) with
      | None => raise (RuntimeError "cannot identify worker process generation")
      | Some ident =>
          let record := {| lr_phase := normalized; lr_pid := my_pid w; lr_identity := ident |} in
          if negb (can_write w) then raise (RuntimeError "OSError: write")
          else if negb (can_replace w) then raise (RuntimeError "OSError: replace")
          else modify (set_file (Some (lifecycle_as_json record +:+ newline)))
      end
  end.

Definition publish_worker_lifecycle_phase (phase : enum_arg WorkerLifecyclePhase) : M world unit :=
  catch (publish_body phase)
    (fun e => w <- get ;; when_ (can_unlink w) (modify (set_file None)) ;;; raise e).

Definition read_worker_lifecycle_phase (w : world) : option WorkerLifecyclePhase :=
  match lifecycle_file w with
  | None => None
  | Some raw =>
      match _parse_worker_lifecycle_record raw with
      | None => None
      | Some r => if decide (_process_start_identity w (lr_pid r) = Some (lr_identity r))
                  then Some (lr_phase r) else None
      end
  end.

Definition observe_worker_cover (container : enum_arg WorkerContainerState)
    (phase : enum_arg WorkerLifecyclePhase) : WorkerCoverObservation :=
  let state := match container with
               | Member c => c
               | Raw s => default CONTAINER_UNKNOWN (first_member s members)
               | Absent => CONTAINER_UNKNOWN
               end in
  match state with
  | DEFINITIVELY_NOT_RUNNING => DEFINITIVELY_NOT_CLAIMING
  | CONTAINER_UNKNOWN => COVER_PENDING
  | CONTAINER_RUNNING =>
      match parse_worker_lifecycle_phase phase with
      | Some PHASE_CLAIMING => COVER_CLAIMING
      | Some PHASE_DRAINING | Some PHASE_STOPPED => DEFINITIVELY_NOT_CLAIMING
      | _ => COVER_PENDING
      end
  end.

(** The answer of the command [read]. *)
Definition read_command (w : world) : string :=
  match read_worker_lifecycle_phase w with
  | Some p => value p
  | None => UNKNOWN_WORKER_LIFECYCLE_PHASE
  end.

(** * worker_swap.py *)

Inductive WorkerSwapDecision : Type := DECISION_UNKNOWN | REPLACE | DRAIN.

#[export] Instance WorkerSwapDecision_eq_dec : EqDecision WorkerSwapDecision.
Proof. solve_decision. Defined.

Definition WorkerSwapDecision_value (d : WorkerSwapDecision) : string :=
  match d with DECISION_UNKNOWN => "unknown" | REPLACE => "replace" | DRAIN => "drain" end.

Record WorkerSwapRun : Type := { ws_id : Z; ws_status : string }.

#[export] Instance WorkerSwapRun_eq_dec : EqDecision WorkerSwapRun.
Proof. solve_decision. Defined.

(** [WorkerSwapRun.__post_init__]. *)
Definition make_swap_run (id : Z) (status : string) : result WorkerSwapRun :=
  if str_in status OPEN_RUN_STATUS_VALUES then Ok {| ws_id := id; ws_status := status |}
  else Err (ValueError "not a worker-swap blocking status").

Record WorkerSwapSnapshot : Type := { known : bool; swap_runs : list WorkerSwapRun }.

(** [WorkerSwapSnapshot.__post_init__]. *)
Definition make_snapshot (known : bool) (rs : list WorkerSwapRun) : result WorkerSwapSnapshot :=
  let ordered := py_sorted (fun a b => Z.leb (ws_id a) (ws_id b)) rs in
  if negb known && negb (Nat.eqb (length ordered) 0)
  then Err (ValueError "an unknown worker-swap snapshot cannot contain runs")
  else if negb (Nat.eqb (length (remove_dups (ws_id <$> ordered))) (length ordered))
  then Err (ValueError "worker-swap snapshot contains duplicate run ids")
  else Ok {| known := known; swap_runs := ordered |}.

Definition decision (s : WorkerSwapSnapshot) : WorkerSwapDecision :=
  if negb (known s) then DECISION_UNKNOWN
  else match swap_runs s with [] => REPLACE | _ => DRAIN end.

Definition swap_count (s : WorkerSwapSnapshot) : option Z :=
  if known s then Some (Z.of_nat (length (swap_runs s))) else None.

Definition swap_run_ids (s : WorkerSwapSnapshot) : list Z := ws_id <$> swap_runs s.
Definition run_ids_csv (s : WorkerSwapSnapshot) : string := join "," (str_of_Z <$> swap_run_ids s).

Definition swap_details (s : WorkerSwapSnapshot) : string :=
  if negb (known s) then "unknown"
  else join "," ((fun r => str_of_Z (ws_id r) +:+ ":" +:+ ws_status r) <$> swap_runs s).

Definition str_count (s : WorkerSwapSnapshot) : string :=
  match swap_count s with Some n => str_of_Z n | None => "None" end.

Definition swap_report (s : WorkerSwapSnapshot) : string :=
  "Worker pre-swap check: " +:+ str_count s +:+ " interactive run(s) in flight (run ids: "
  +:+ run_ids_csv s +:+ "; id/status: " +:+ swap_details s +:+ ")".

Definition swap_run_dict (r : WorkerSwapRun) : json :=
  JObj [("id", JInt (ws_id r)); ("status", JStr (ws_status r))].

Definition json_count (s : WorkerSwapSnapshot) : json :=
  match swap_count s with Some n => JInt n | None => JNull end.

Definition policy_json : json := JList (JStr <$> OPEN_RUN_STATUS_VALUES).

Definition swap_as_dict (s : WorkerSwapSnapshot) : dict :=
  [("known", JBool (known s)); ("decision", JStr (WorkerSwapDecision_value (decision s)));
   ("count", json_count s); ("run_ids", JList (JInt <$> swap_run_ids s));
   ("runs", JList (swap_run_dict <$> swap_runs s)); ("policy_statuses", policy_json)].

Definition swap_as_json (s : WorkerSwapSnapshot) : string := dumps "," ":" (JObj (swap_as_dict s)).

(** One row of the query: a dictionary, or a sequence of two. *)
Definition swap_row (row : json) : result WorkerSwapRun :=
  let '(run_id, status) := match row with
    | JObj d => (Some (jget_or_null "id" d), jget_or_null "status" d)
    | JList [a; b] => (Some a, b)
    | _ => (None, JNull)
    end in
  match run_id with
  | None => Err (ValueError "cannot unpack the row")
  | Some i => match py_int i with
              | None => Err (ValueError "not an integer")
              | Some n => make_swap_run n (py_str status)
              end
  end.

Fixpoint swap_rows (rows : list json) : result (list WorkerSwapRun) :=
  match rows with
  | [] => Ok []
  | row :: rows' =>
      match swap_row row with
      | Err e => Err e
      | Ok r => match swap_rows rows' with Ok rs => Ok (r :: rs) | Err e => Err e end
      end
  end.

Definition worker_swap_snapshot (rows : list json) : result WorkerSwapSnapshot :=
  match swap_rows rows with
  | Ok rs => make_snapshot true rs
  | Err e => Err e
  end.

Definition unknown_worker_swap_snapshot : result WorkerSwapSnapshot := make_snapshot false [].

Definition parse_worker_swap_snapshot (raw : string) : result WorkerSwapSnapshot :=
  match loads raw with
  | None => Err (ValueError "JSONDecodeError")
  | Some (JObj payload) =>
      if negb (py_eqb (jget_or_null "policy_statuses" payload) policy_json)
      then Err (ValueError "worker-swap snapshot was not derived from the canonical policy")
      else match jget_or_null "known" payload with
      | JBool known =>
          match jget_or_null "runs" payload with
          | JList rows =>
              match (if known then worker_swap_snapshot rows else unknown_worker_swap_snapshot) with
              | Err e => Err e
              | Ok snapshot =>
                  if negb (py_eqb (jget_or_null "decision" payload)
                             (JStr (WorkerSwapDecision_value (decision snapshot))))
                  then Err (ValueError "worker-swap snapshot decision does not match its runs")
                  else if negb (py_eqb (jget_or_null "count" payload) (json_count snapshot))
                  then Err (ValueError "worker-swap snapshot count does not match its runs")
                  else if negb (py_eqb (jget_or_null "run_ids" payload)
                                  (JList (JInt <$> swap_run_ids snapshot)))
                  then Err (ValueError "worker-swap snapshot run ids do not match its runs")
                  else Ok snapshot
              end
          | _ => Err (ValueError "worker-swap snapshot runs must be a list")
          end
      | _ => Err (ValueError "worker-swap snapshot known flag must be boolean")
      end
  | Some _ => Err (ValueError "worker-swap snapshot must be a JSON object")
  end.

(** [status.replace("'", "''")]. *)
Fixpoint double_quotes (s : string) : string :=
  match s with
  | "" => ""
  | String a s' => (if Ascii.eqb a "'" then "''" else String a "") +:+ double_quotes s'
  end.

Definition worker_swap_rows_sql : string :=
  "SELECT COALESCE(json_agg(json_build_object('id', id, 'status', status) ORDER BY id), '[]'::json) FROM agent_runs WHERE status IN ("
  +:+ join ", " ((fun s => "'" +:+ double_quotes s +:+ "'") <$> OPEN_RUN_STATUS_VALUES) +:+ ");".

Definition _field_value (s : WorkerSwapSnapshot) (field : string) : result string :=
  if String.eqb field "decision" then Ok (WorkerSwapDecision_value (decision s))
  else if String.eqb field "count"
  then Ok (match swap_count s with Some n => str_of_Z n | None => "unknown" end)
  else if String.eqb field "ids" then Ok (run_ids_csv s)
  else if String.eqb field "details" then Ok (swap_details s)
  else if String.eqb field "known" then Ok (if known s then "true" else "false")
  else if String.eqb field "report" then Ok (swap_report s)
  else Err (ValueError "unknown worker-swap snapshot field").

(** * Properties *)

Lemma identity_nonempty w pid i : _process_start_identity w pid = Some i -> i <> "".
Proof. unfold _process_start_identity. intros H. repeat case_match; simplify_eq. done. Qed.

Lemma parse_published p pid ident :
  (0 < pid)%Z -> ident <> "" ->
  _parse_worker_lifecycle_record
    (lifecycle_as_json {| lr_phase := p; lr_pid := pid; lr_identity := ident |} +:+ newline) =
  Some {| lr_phase := p; lr_pid := pid; lr_identity := ident |}.
Proof.
  intros Hp Hi. unfold _parse_worker_lifecycle_record, lifecycle_as_json, newline.
  rewrite loads_dumps_line.
  2:{ simpl. split; [|done]. repeat constructor; set_solver. }
  apply String.eqb_neq in Hi. cbn -[Z.leb value].
  rewrite Hi, (proj2 (Z.leb_gt pid 0)) by lia. by destruct p.
Qed.

(** What the publication of a phase leaves in the file. *)
Lemma publish_file w p :
  match publish_worker_lifecycle_phase (Member p) w with
  | (w', Ok _) => exists i, _process_start_identity w (my_pid w) = Some i /\
      lifecycle_file w' = Some (lifecycle_as_json
        {| lr_phase := p; lr_pid := my_pid w; lr_identity := i |} +:+ newline)
  | (w', Err _) => can_unlink w = true -> lifecycle_file w' = None
  end.
Proof.
  unfold publish_worker_lifecycle_phase, publish_body, catch, bind, get, raise, modify, when_, ret.
  simpl. destruct (_process_start_identity w (my_pid w)) as [i|];
    [destruct (can_write w), (can_replace w)|]; simpl;
    try (destruct (can_unlink w); done). by exists i.
Qed.

(** A lifecycle phase is believed only of the process generation that published
    it.  After a worker publishes a phase, an observer that reads the file later,
    in whatever process table, sees that phase when the publication succeeded and
    the pid still names the same generation, and no phase otherwise; a failed
    publication never leaves an older phase readable, provided the file can be
    removed. *)
Theorem published_phase_read (w w2 : world) (p : WorkerLifecyclePhase) :
  (0 < my_pid w)%Z -> can_unlink w = true ->
  lifecycle_file w2 = lifecycle_file (publish_worker_lifecycle_phase (Member p) w).1 ->
  read_worker_lifecycle_phase w2 =
  if is_ok (publish_worker_lifecycle_phase (Member p) w).2 then
    if decide (_process_start_identity w2 (my_pid w) = _process_start_identity w (my_pid w))
    then Some p else None
  else None.
Proof.
  intros Hpid Hu Hf. pose proof (publish_file w p) as Hp. unfold read_worker_lifecycle_phase.
  destruct (publish_worker_lifecycle_phase (Member p) w) as [w' [u|e]]; simpl in *.
  - destruct Hp as (i & Hi & Hfile). rewrite Hf, Hfile, Hi.
    rewrite parse_published by (done || by eapply identity_nonempty). done.
  - by rewrite Hf, Hp.
Qed.

(** Another worker is destroyed only behind a live cover: the answer CLAIMING
    to a container state and to what the command [read] printed is given exactly
    when the container is running and the observed phase is CLAIMING, and the
    answer DEFINITIVELY_NOT_CLAIMING only when the container is known not to run
    or a drained phase was read; anything unreadable is PENDING. *)
Theorem worker_cover_spec (container : string) (w : world) :
  let o := observe_worker_cover (Raw container) (Raw (read_command w)) in
  (o = COVER_CLAIMING <->
     container = "running" /\ read_worker_lifecycle_phase w = Some PHASE_CLAIMING) /\
  (o = DEFINITIVELY_NOT_CLAIMING <->
     container = "definitively_not_running" \/
     container = "running" /\ (read_worker_lifecycle_phase w = Some PHASE_DRAINING \/
                               read_worker_lifecycle_phase w = Some PHASE_STOPPED)).
Proof.
  assert (Hread : parse_worker_lifecycle_phase (Raw (read_command w)) = read_worker_lifecycle_phase w).
  { unfold read_command. destruct (read_worker_lifecycle_phase w) as [[]|]; done. }
  unfold observe_worker_cover. rewrite Hread.
  destruct (first_member container members) as [c|] eqn:Ec; simpl.
  - apply first_member_sound in Ec as [_ ->].
    destruct c, (read_worker_lifecycle_phase w) as [[]|]; simpl; split; split;
      try done; (try by (intros [? ?])); (try by (intros [?|[? [?|?]]])); eauto.
  - split; split; try done.
    + intros [-> _]. done.
    + intros [->|[-> _]]; done.
Qed.

(** ** Snapshots *)

(** A snapshot the constructors accept. *)
Record swap_wf (s : WorkerSwapSnapshot) : Prop := {
  sw_open : Forall (fun r => ws_status r ∈ OPEN_RUN_STATUS_VALUES) (swap_runs s);
  sw_sorted : StronglySorted Z.lt (swap_run_ids s);
  sw_unknown : known s = false -> swap_runs s = [];
}.

Lemma make_snapshot_wf k rs s :
  Forall (fun r => ws_status r ∈ OPEN_RUN_STATUS_VALUES) rs -> make_snapshot k rs = Ok s -> swap_wf s.
Proof.
  intros Ho. unfold make_snapshot.
  set (o := py_sorted (fun a b => Z.leb (ws_id a) (ws_id b)) rs).
  destruct (negb k && _) eqn:E1; [done|]. destruct (negb (Nat.eqb _ (length o))) eqn:E2; [done|].
  intros [= <-]. split; simpl.
  - unfold o. by rewrite py_sorted_perm.
  - unfold swap_run_ids. simpl. apply negb_false_iff, Nat.eqb_eq in E2.
    apply sorted_strict.
    + assert (Hs : ordered (fun a b => Z.leb (ws_id a) (ws_id b)) o).
      { apply py_sorted_ordered; intros; rewrite ?Z.leb_le in *; lia. }
      clear E1 E2. induction Hs as [|x l Hs IH Hall]; csimpl; constructor; [done|].
      apply Forall_fmap. eapply Forall_impl; [exact Hall|]. done.
    + apply remove_dups_nodup. by rewrite E2, length_fmap.
  - intros ->. simpl in E1. apply negb_false_iff, Nat.eqb_eq, length_zero_iff_nil in E1. done.
Qed.

Lemma swap_rows_open rows rs :
  swap_rows rows = Ok rs -> Forall (fun r => ws_status r ∈ OPEN_RUN_STATUS_VALUES) rs.
Proof.
  revert rs. induction rows as [|row rows IH]; intros rs; simpl; [intros [= <-]; constructor|].
  destruct (swap_row row) as [r|] eqn:Er; [|done]. destruct (swap_rows rows) as [rs'|]; [|done].
  intros [= <-]. constructor; [|by apply IH].
  assert (Hm : forall i s, make_swap_run i s = Ok r -> ws_status r ∈ OPEN_RUN_STATUS_VALUES).
  { intros i st. unfold make_swap_run, str_in. destruct (existsb _ _) eqn:E; [|done].
    intros [= <-]. simpl. apply existsb_exists in E as (x & Hx & Hs%String.eqb_eq). subst.
    by apply list_elem_of_In. }
  unfold swap_row in Er. repeat case_match; simplify_eq; eauto.
Qed.

Lemma wf_ordered s : swap_wf s ->
  StronglySorted (fun a b => Z.leb (ws_id a) (ws_id b) = true) (swap_runs s).
Proof.
  intros [_ Hs _]. unfold swap_run_ids in Hs. induction (swap_runs s) as [|r l IH]; [constructor|].
  csimpl in Hs. inversion Hs as [|? ? Hs' Hall]; subst. constructor; [by apply IH|].
  rewrite Forall_forall in Hall. apply Forall_forall. intros x Hx. apply Z.leb_le.
  apply Z.lt_le_incl, Hall. apply list_elem_of_fmap. by exists x.
Qed.

Lemma make_snapshot_id s : swap_wf s -> make_snapshot (known s) (swap_runs s) = Ok s.
Proof.
  intros Hwf. unfold make_snapshot. rewrite py_sorted_id by (by apply wf_ordered).
  destruct Hwf as [_ Hs Hu]. unfold swap_run_ids in Hs. destruct s as [[] rs]; simpl in *.
  - rewrite (proj2 (remove_dups_nodup _) (strict_nodup _ Hs)), length_fmap, Nat.eqb_refl. done.
  - by rewrite (Hu eq_refl).
Qed.

Lemma swap_rows_dict rs :
  Forall (fun r => ws_status r ∈ OPEN_RUN_STATUS_VALUES) rs ->
  swap_rows (swap_run_dict <$> rs) = Ok rs.
Proof.
  induction 1 as [|r rs Hr _ IH]; [done|]. rewrite fmap_cons. cbn [swap_rows].
  change (swap_row (swap_run_dict r)) with (make_swap_run (ws_id r) (ws_status r)).
  unfold make_swap_run.
  assert (str_in (ws_status r) OPEN_RUN_STATUS_VALUES = true) as ->.
  { apply existsb_exists. exists (ws_status r). split; [by apply list_elem_of_In|apply String.eqb_refl]. }
  rewrite IH. by destruct r.
Qed.

Lemma swap_dict_jwf s : jwf (JObj (swap_as_dict s)).
Proof.
  apply jwf_obj. split; [repeat constructor; set_solver|].
  assert (Hc : jwf (json_count s)) by (unfold json_count; by destruct (swap_count s)).
  repeat (apply Forall_cons; split; [simpl; try done|]); [..|constructor].
  - by apply jwf_list, Forall_fmap, Forall_true.
  - apply jwf_list, Forall_fmap, Forall_true. intros r. apply jwf_obj.
    split; [repeat constructor; set_solver|by repeat constructor].
Qed.

(** Round trip of the worker-swap snapshot: the text of any snapshot is read
    back as that snapshot. *)
Theorem swap_snapshot_roundtrip (s : WorkerSwapSnapshot) :
  swap_wf s -> parse_worker_swap_snapshot (swap_as_json s) = Ok s.
Proof.
  intros Hwf. unfold parse_worker_swap_snapshot, swap_as_json.
  rewrite loads_dumps_compact by apply swap_dict_jwf.
  assert (Hpol : py_eqb policy_json policy_json = true) by by_compute.
  assert (Hget : forall k v, jget k (swap_as_dict s) = Some v -> jget_or_null k (swap_as_dict s) = v)
    by (intros k v E; unfold jget_or_null; by rewrite E).
  rewrite (Hget "policy_statuses" policy_json), (Hget "known" (JBool (known s))),
    (Hget "runs" (JList (swap_run_dict <$> swap_runs s))), (Hget "count" (json_count s)),
    (Hget "run_ids" (JList (JInt <$> swap_run_ids s))),
    (Hget "decision" (JStr (WorkerSwapDecision_value (decision s)))) by done.
  rewrite Hpol. cbn [negb].
  assert (Hs : (if known s then worker_swap_snapshot (swap_run_dict <$> swap_runs s)
                else unknown_worker_swap_snapshot) = Ok s).
  { pose proof (make_snapshot_id s Hwf) as Hid. destruct (known s) eqn:Hk.
    - unfold worker_swap_snapshot. rewrite swap_rows_dict by apply Hwf. done.
    - rewrite (sw_unknown _ Hwf Hk) in Hid. exact Hid. }
  rewrite Hs. rewrite !py_eqb_refl; [done| |unfold json_count; by destruct (swap_count s)|done].
  by apply jwf_list, Forall_fmap, Forall_true.
Qed.

(** A snapshot is trusted only when it is consistent: one that was parsed lists
    open runs only, in ascending order without repetition, none when its
    contents are unknown, and its decision is REPLACE exactly when the database was
    read and held no open run. *)
Theorem parsed_snapshot_sound (raw : string) (s : WorkerSwapSnapshot) :
  parse_worker_swap_snapshot raw = Ok s ->
  swap_wf s /\ (decision s = REPLACE <-> known s = true /\ swap_runs s = []) /\
  exists payload, loads raw = Some (JObj payload) /\
    py_eqb (jget_or_null "policy_statuses" payload) policy_json = true /\
    py_eqb (jget_or_null "decision" payload) (JStr (WorkerSwapDecision_value (decision s))) = true.
Proof.
  unfold parse_worker_swap_snapshot. destruct (loads raw) as [[]|] eqn:El; try done.
  destruct (negb (py_eqb _ policy_json)) eqn:Ep; [done|]. apply negb_false_iff in Ep.
  destruct (jget_or_null "known" kvs) as [|k| | | |]; try done.
  destruct (jget_or_null "runs" kvs) as [| | | |rows|]; try done.
  destruct (if k then _ else _) as [s'|] eqn:Es; [|done].
  destruct (negb (py_eqb (jget_or_null "decision" kvs) _)) eqn:Ed; [done|].
  apply negb_false_iff in Ed.
  do 2 (destruct (negb _); [done|]). intros [= <-]. split_and!.
  - destruct k.
    + unfold worker_swap_snapshot in Es. destruct (swap_rows rows) eqn:Er; [|done].
      by eapply make_snapshot_wf, Es; eapply swap_rows_open.
    + by eapply make_snapshot_wf, Es.
  - unfold decision. destruct (known s'), (swap_runs s'); simpl; split; try done; by intros [??].
  - by exists kvs.
Qed.

(** ** Instances *)

Definition demo_world : world :=
  {| proc_stat pid := if Z.eqb pid 7 then Some "7 (worker) S 1 1 1 0 -1 4 0 0 0 0 0 0 0 0 20 0 1 0 555 0"
                      else None;
     my_pid := 7; lifecycle_file := None; can_write := true; can_replace := true;
     can_unlink := true |}.

Lemma published_phase_read_witness :
  read_worker_lifecycle_phase (publish_worker_lifecycle_phase (Member PHASE_CLAIMING) demo_world).1
  = Some PHASE_CLAIMING.
Proof.
  rewrite (published_phase_read demo_world
    (publish_worker_lifecycle_phase (Member PHASE_CLAIMING) demo_world).1 PHASE_CLAIMING).
  - reflexivity.
  - reflexivity.
  - reflexivity.
  - reflexivity.
Defined.

Definition demo_snapshot : WorkerSwapSnapshot :=
  {| known := true; swap_runs := [{| ws_id := 3; ws_status := "running" |};
                                  {| ws_id := 5; ws_status := "queued" |}] |}.

Lemma demo_snapshot_wf : swap_wf demo_snapshot.
Proof.
  split.
  - apply Forall_cons. split; [vm_compute; do 2 right; left|].
    apply Forall_cons. split; [vm_compute; left|constructor].
  - repeat constructor.
  - done.
Qed.

Lemma swap_snapshot_roundtrip_witness :
  parse_worker_swap_snapshot (swap_as_json demo_snapshot) = Ok demo_snapshot.
Proof. apply (swap_snapshot_roundtrip demo_snapshot). apply demo_snapshot_wf. Defined.

Lemma parsed_snapshot_sound_witness :
  swap_wf demo_snapshot /\ decision demo_snapshot <> REPLACE.
Proof.
  destruct (parsed_snapshot_sound (swap_as_json demo_snapshot) demo_snapshot) as (Hwf & _ & _).
  - vm_compute. reflexivity.
  - split; [exact Hwf|discriminate].
Defined.
