(* ===== verification/Handoff.v ===== *)
(** The contracts between scheduler jobs and the scheduler:
    [brain/contracts/scheduler_handoff.py], the envelope a command prints to hand
    its work over to an agent run, and [brain/contracts/scheduler_outcomes.py],
    the classification of skipped jobs. *)
From Stdlib Require Import Ascii.
From S2P Require Import Prelude.
From S2P Require Import PyStr.
From S2P Require Import Json.
From S2P Require Import JsonText.
From S2P Require Import Status.
Open Scope string_scope.
Open Scope bool_scope.
Open Scope list_scope.

(** * scheduler_handoff.py *)

Definition HANDOFF_TYPE : string := "scheduler.detached_agent_run".
Definition HANDOFF_VERSION : Z := 1.
Definition HANDOFF_STATUS_DISPATCHED : string := "dispatched".
Definition _HANDOFF_FIELDS : list string := ["type"; "version"; "status"; "scheduler_agent_run_id"].

(** [DetachedAgentRunHandoff]: its one field. *)
Record DetachedAgentRunHandoff : Type := { agent_run_id : Z }.

Definition handoff_error {A} (msg : string) : result A := Err (DetachedAgentRunHandoffError msg).
Definition bad_run_id : string := "scheduler_agent_run_id must be a positive integer".

(** [DetachedAgentRunHandoff.__post_init__]. *)
Definition make_handoff (id : Z) : result DetachedAgentRunHandoff :=
  if Z.leb id 0 then handoff_error bad_run_id else Ok {| agent_run_id := id |}.

Definition as_payload (h : DetachedAgentRunHandoff) : dict :=
  [("type", JStr HANDOFF_TYPE); ("version", JInt HANDOFF_VERSION);
   ("status", JStr HANDOFF_STATUS_DISPATCHED); ("scheduler_agent_run_id", JInt (agent_run_id h))].

(** The message about a payload whose keys are not the four fields. *)
Definition field_details (keys : list string) : string :=
  let missing := py_sorted str_leb (filter (fun k => k ∉ keys) _HANDOFF_FIELDS) in
  let unexpected := py_sorted str_leb (filter (fun k => k ∉ _HANDOFF_FIELDS) keys) in
  let details :=
    (if decide (missing = []) then [] else ["missing fields: " +:+ join ", " missing]) ++
    (if decide (unexpected = []) then [] else ["unexpected fields: " +:+ join ", " unexpected]) in
  "invalid detached AgentRun handoff envelope" +:+
  (if decide (details = []) then "" else " (" +:+ join "; " details +:+ ")").

(** [frozenset(payload) != _HANDOFF_FIELDS]; the keys of a dictionary are distinct. *)
Definition same_fields (payload : dict) : bool :=
  bool_decide (payload.*1 ⊆ _HANDOFF_FIELDS) && bool_decide (_HANDOFF_FIELDS ⊆ payload.*1).

(** [DetachedAgentRunHandoff.from_payload]. *)
Definition from_payload (payload : dict) : result DetachedAgentRunHandoff :=
  if negb (same_fields payload) then handoff_error (field_details (payload.*1))
  else if negb (py_eqb (jget_or_null "type" payload) (JStr HANDOFF_TYPE))
  then handoff_error ("handoff type must be " +:+ repr_str HANDOFF_TYPE)
  else if negb (bool_decide (strict_int (jget_or_null "version" payload) = Some HANDOFF_VERSION))
  then handoff_error ("handoff version must be " +:+ str_of_Z HANDOFF_VERSION)
  else if negb (py_eqb (jget_or_null "status" payload) (JStr HANDOFF_STATUS_DISPATCHED))
  then handoff_error ("handoff status must be " +:+ repr_str HANDOFF_STATUS_DISPATCHED)
  else match strict_int (jget_or_null "scheduler_agent_run_id" payload) with
       | None => handoff_error bad_run_id
       | Some id => make_handoff id
       end.

Definition emit_detached_agent_run_handoff (id : Z) : result string :=
  handoff ← make_handoff id;
  mret (dumps ", " ": " (sort_keys (JObj (as_payload handoff)))).

(** A printed line that claims to be an envelope: a JSON object with the type or
    with a run id. *)
Definition envelope_of (line : string) : option dict :=
  match loads line with
  | Some (JObj payload) =>
      if negb (py_eqb (jget_or_null "type" payload) (JStr HANDOFF_TYPE))
         && negb (jhas "scheduler_agent_run_id" payload)
      then None else Some payload
  | _ => None
  end.

(** The loop over the lines, last line first. *)
Fixpoint parse_lines (lines : list string) : result DetachedAgentRunHandoff :=
  match lines with
  | [] => handoff_error "declared detached AgentRun command did not emit a handoff envelope"
  | line :: lines' =>
      match envelope_of line with
      | Some payload => from_payload payload
      | None => parse_lines lines'
      end
  end.

Definition parse_detached_agent_run_handoff (stdout : option string) : result DetachedAgentRunHandoff :=
  parse_lines (rev (splitlines (str_or stdout ""))).

(** * scheduler_outcomes.py *)

Inductive SchedulerSkipKind : Type := SKIP_CONFIGURATION | SKIP_TRANSIENT.

#[export] Instance SchedulerSkipKind_eq_dec : EqDecision SchedulerSkipKind.
Proof. solve_decision. Defined.

Definition SchedulerSkipKind_value (k : SchedulerSkipKind) : string :=
  match k with SKIP_CONFIGURATION => "configuration" | SKIP_TRANSIENT => "transient" end.

#[export] Program Instance SchedulerSkipKind_enum : StrEnum SchedulerSkipKind :=
  {| members := [SKIP_CONFIGURATION; SKIP_TRANSIENT]; value := SchedulerSkipKind_value |}.
Next Obligation. solve_enum. Qed.
Next Obligation. solve_enum. Qed.

Record SchedulerConfigurationSkip : Type := {
  repository : option string;
  reason : string;
  skip_payload : dict;
}.

Definition scheduler_skip_kind (r : dict) : option SchedulerSkipKind :=
  if negb (String.eqb (lower (strip (str_or_empty (jget_or_null "outcome" r)))) "skipped") then None
  else first_member (lower (strip (str_or_empty (jget_or_null "skip_kind" r)))) members.

(** The skip a result itself is. *)
Definition own_skip (r : dict) : list SchedulerConfigurationSkip :=
  if bool_decide (scheduler_skip_kind r = Some SKIP_CONFIGURATION) then
    let repo := strip (str_or_empty (jor (jget_or_null "repo" r) (jget_or_null "repository" r))) in
    [{| repository := if String.eqb repo "" then None else Some repo;
        reason := py_str (jor (jget_or_null "reason" r)
                    (JStr "Job is blocked by missing configuration"));
        skip_payload := r |}]
  else [].

(** [find_configuration_skips], on a value of the result tree: what is not a
    mapping is passed over. *)
Fixpoint find_configuration_skips (r : json) : list SchedulerConfigurationSkip :=
  match r with
  | JObj d =>
      own_skip d ++
      (fix find d := match d with
       | [] => []
       | (k, v) :: d' =>
           if String.eqb "results" k then
             match v with
             | JList l => (fix go l := match l with
                           | [] => []
                           | x :: l' => find_configuration_skips x ++ go l'
                           end) l
             | _ => []
             end
           else find d'
       end) d
  | _ => []
  end.

Definition configuration_skip_summary (skips : list SchedulerConfigurationSkip) : result string :=
  match skips with
  | [] => Err (ValueError "configuration skip summary requires at least one gap")
  | [{| repository := None; reason := r |}] => Ok r
  | _ => Ok (join (String (ascii_of_N 10) "") ("Configuration gaps:" ::
           ((fun s => "- " +:+ str_or (repository s) "Job" +:+ ": " +:+ reason s) <$> skips)))
  end.

(** * Properties *)


(** ** Lines *)

Definition no_break (s : string) : Prop :=
  Forall (fun a => is_line_break a = false) (String.list_ascii_of_string s).

Lemma no_break_app s t : no_break s -> no_break t -> no_break (s +:+ t).
Proof.
  unfold no_break. intros Hs Ht. induction s as [|a s IH]; [done|].
  apply Forall_cons in Hs as [Ha Hs]. apply Forall_cons. split; [done|]. by apply IH.
Qed.

Lemma no_break_digits z : no_break (str_of_Z z).
Proof.
  unfold no_break. pose proof (str_of_Z_digits z) as Hd. eapply Forall_impl; [exact Hd|].
  intros a Ha. by each_char a.
Qed.

Lemma splitlines_line cur line t :
  no_break line -> splitlines_acc cur (line +:+ newline +:+ t) = (cur +:+ line) :: splitlines_acc "" t.
Proof.
  revert cur. induction line as [|a line IH]; intros cur Hl.
  - rewrite str_app_nil. change ("" +:+ newline +:+ t) with (String (ascii_of_N 10) t).
    cbn [splitlines_acc]. change (is_line_break (ascii_of_N 10)) with true. by destruct t.
  - apply Forall_cons in Hl as [Ha Hl].
    change (String a line +:+ newline +:+ t) with (String a (line +:+ newline +:+ t)).
    cbn [splitlines_acc]. rewrite Ha. cbn [negb]. rewrite IH by done. by rewrite str_app_assoc.
Qed.

(** A newline ends a line whatever comes before it. *)
Lemma splitlines_app cur s t :
  splitlines_acc cur (s +:+ newline +:+ t) = splitlines_acc cur (s +:+ newline) ++ splitlines_acc "" t.
Proof.
  remember (String.length s) as n eqn:Hn. assert (Hle : String.length s <= n) by lia. clear Hn.
  revert cur s Hle. induction n as [|n IH]; intros cur [|a s] Hle.
  1,3: change ("" +:+ newline +:+ t) with (String (ascii_of_N 10) t);
    change ("" +:+ newline) with (String (ascii_of_N 10) ""); cbn [splitlines_acc];
    change (is_line_break (ascii_of_N 10)) with true; by destruct t.
  - simpl in Hle. lia.
  - change (String a s +:+ ?y) with (String a (s +:+ y)). cbn [splitlines_acc].
    simpl in Hle. destruct (is_line_break a); cbn [negb]; [|apply IH; lia].
    destruct s as [|b s].
    + change ("" +:+ newline +:+ t) with (String (ascii_of_N 10) t).
      change ("" +:+ newline) with (String (ascii_of_N 10) "").
      cbv iota. destruct (N.eqb (N_of_ascii a) 13); [done|]. cbn [andb].
      change (String (ascii_of_N 10) t) with ("" +:+ newline +:+ t). rewrite (IH "" "") by (simpl; lia).
      done.
    + change (String b s +:+ ?y) with (String b (s +:+ y)). cbv iota.
      destruct (N.eqb (N_of_ascii a) 13 && _); simpl in Hle.
      * by rewrite IH by lia.
      * change (String b (s +:+ ?y)) with (String b s +:+ y). by rewrite IH by (simpl; lia).
Qed.

Lemma splitlines_middle log line rest :
  log = "" \/ (exists l, log = l +:+ newline) -> no_break line ->
  splitlines (log +:+ line +:+ newline +:+ rest) = splitlines log ++ line :: splitlines rest.
Proof.
  unfold splitlines. intros [->|[l ->]] Hl.
  - change ("" +:+ ?y) with y. by rewrite splitlines_line.
  - rewrite str_app_assoc, splitlines_app. by rewrite splitlines_line.
Qed.

(** ** The search for the envelope *)

Lemma parse_lines_skip l l' :
  Forall (fun line => envelope_of line = None) l -> parse_lines (l ++ l') = parse_lines l'.
Proof. induction 1 as [|line l Hl _ IH]; [done|]. simpl. by rewrite Hl. Qed.

Lemma parse_lines_found lines h :
  parse_lines lines = Ok h ->
  exists after line before payload,
    lines = after ++ line :: before /\ Forall (fun l => envelope_of l = None) after /\
    envelope_of line = Some payload /\ from_payload payload = Ok h.
Proof.
  induction lines as [|line lines IH]; [done|]. simpl. destruct (envelope_of line) as [p|] eqn:E.
  - intros Hp. by exists [], line, lines, p.
  - intros Hp. destruct (IH Hp) as (after & l & before & p & -> & Ha & Hl & Hf).
    exists (line :: after), l, before, p. by split_and!; [|apply Forall_cons|..].
Qed.

(** What the accepted payload says. *)
Lemma from_payload_ok payload h :
  from_payload payload = Ok h ->
  same_fields payload = true /\ jget "type" payload = Some (JStr HANDOFF_TYPE) /\
  jget "version" payload = Some (JInt HANDOFF_VERSION) /\
  jget "status" payload = Some (JStr HANDOFF_STATUS_DISPATCHED) /\
  jget "scheduler_agent_run_id" payload = Some (JInt (agent_run_id h)) /\ (0 < agent_run_id h)%Z.
Proof.
  unfold from_payload. destruct (same_fields payload); [|done]. cbn [negb].
  assert (Hstr : forall k t, py_eqb (jget_or_null k payload) (JStr t) = true ->
    jget k payload = Some (JStr t)).
  { intros k t. unfold jget_or_null. destruct (jget k payload) as [[]|]; simpl; try done.
    by intros ->%String.eqb_eq. }
  assert (Hint : forall k z, strict_int (jget_or_null k payload) = Some z ->
    jget k payload = Some (JInt z)).
  { intros k z. unfold jget_or_null. destruct (jget k payload) as [[]|]; simpl; try done.
    by intros [= ->]. }
  destruct (py_eqb (jget_or_null "type" payload) _) eqn:Et; [|done]. cbn [negb].
  case_bool_decide as Hv; [|done]. cbn [negb].
  destruct (py_eqb (jget_or_null "status" payload) _) eqn:Es; [|done]. cbn [negb].
  destruct (strict_int (jget_or_null "scheduler_agent_run_id" payload)) as [id|] eqn:Ei; [|done].
  unfold make_handoff. destruct (Z.leb id 0) eqn:Hid; [done|]. intros [= <-].
  apply Z.leb_gt in Hid. auto 10.
Qed.

(** The line an emitted envelope is. *)
Lemma emitted_line id line :
  emit_detached_agent_run_handoff id = Ok line ->
  (0 < id)%Z /\ no_break line /\
  exists payload, envelope_of line = Some payload /\
    from_payload payload = Ok {| agent_run_id := id |}.
Proof.
  unfold emit_detached_agent_run_handoff, make_handoff.
  destruct (Z.leb id 0) eqn:Hid; [done|]. apply Z.leb_gt in Hid. intros E.
  set (payload := [("scheduler_agent_run_id", JInt id); ("status", JStr HANDOFF_STATUS_DISPATCHED);
                   ("type", JStr HANDOFF_TYPE); ("version", JInt HANDOFF_VERSION)]).
  assert (line = dumps ", " ": " (JObj payload)) as -> by (by injection E as <-).
  assert (Hwf : jwf (JObj payload)).
  { simpl. split; [|done]. repeat (apply NoDup_cons; split; [set_solver|]). constructor. }
  split; [done|]. split.
  - unfold payload. cbn [dumps].
    repeat first [apply no_break_digits | by repeat constructor | apply no_break_app].
  - exists payload. unfold envelope_of. rewrite (loads_dumps _ Hwf). split; [done|].
    unfold from_payload. change (same_fields payload) with true. cbn -[Z.leb].
    unfold make_handoff. apply Z.leb_gt in Hid. by rewrite Hid.
Qed.

(** A handoff survives the command's other output: the run id a command emits on
    a line of its own is the one the scheduler parses, whatever was printed
    before it and as long as no later line claims to be an envelope. *)
Theorem handoff_roundtrip (id : Z) (log line rest : string) :
  emit_detached_agent_run_handoff id = Ok line ->
  log = "" \/ (exists l, log = l +:+ newline) ->
  Forall (fun l => envelope_of l = None) (splitlines rest) ->
  parse_detached_agent_run_handoff (Some (log +:+ line +:+ newline +:+ rest)) =
  Ok {| agent_run_id := id |}.
Proof.
  intros (Hid & Hb & payload & He & Hp)%emitted_line Hlog Hrest.
  unfold parse_detached_agent_run_handoff.
  assert (str_or (Some (log +:+ line +:+ newline +:+ rest)) "" = log +:+ line +:+ newline +:+ rest) as ->.
  { unfold str_or. destruct (String.eqb _ "") eqn:E; [|done]. by apply String.eqb_eq in E as ->. }
  rewrite splitlines_middle by done.
  rewrite rev_app_distr. cbn [rev]. rewrite <- app_assoc, parse_lines_skip; [|by apply Forall_rev].
  simpl. by rewrite He.
Qed.

(** A parsed handoff was declared: the run id is positive and comes from the
    last line of the output that claims to be an envelope, which has exactly
    the four fields of the contract with its type, version and status; an
    invalid last claim is never made up for by an earlier line. *)
Theorem parsed_handoff_declared (stdout : string) (h : DetachedAgentRunHandoff) :
  parse_detached_agent_run_handoff (Some stdout) = Ok h ->
  (0 < agent_run_id h)%Z /\
  exists before line after payload,
    splitlines stdout = before ++ line :: after /\
    Forall (fun l => envelope_of l = None) after /\
    loads line = Some (JObj payload) /\ payload.*1 ⊆ _HANDOFF_FIELDS /\
    jget "type" payload = Some (JStr HANDOFF_TYPE) /\
    jget "version" payload = Some (JInt HANDOFF_VERSION) /\
    jget "status" payload = Some (JStr HANDOFF_STATUS_DISPATCHED) /\
    jget "scheduler_agent_run_id" payload = Some (JInt (agent_run_id h)).
Proof.
  unfold parse_detached_agent_run_handoff. intros Hp.
  assert (Hs : splitlines (str_or (Some stdout) "") = splitlines stdout).
  { unfold str_or. destruct (String.eqb stdout "") eqn:E; [|done]. by apply String.eqb_eq in E as ->. }
  rewrite Hs in Hp. apply parse_lines_found in Hp as (after & line & before & payload & E & Ha & He & Hf).
  apply from_payload_ok in Hf as (Hfields & Ht & Hv & Hst & Hi & Hpos). split; [done|].
  exists (rev before), line, (rev after), payload.
  rewrite <- (rev_involutive (splitlines stdout)), E, rev_app_distr. cbn [rev].
  rewrite <- app_assoc. split; [done|]. split; [by apply Forall_rev|].
  unfold same_fields in Hfields. apply andb_true_iff in Hfields as [Hsub%bool_decide_eq_true _].
  split; [|by split_and!].
  unfold envelope_of in He. destruct (loads line) as [[]|]; try done.
  destruct (_ && _); [done|]. by injection He as ->.
Qed.

(** ** Skipped jobs *)

(** The results of a scheduler run, a result before the ones nested in it. *)
Fixpoint result_tree (r : json) : list dict :=
  match r with
  | JObj d =>
      d ::
      (fix find d := match d with
       | [] => []
       | (k, v) :: d' =>
           if String.eqb "results" k then
             match v with
             | JList l => (fix go l := match l with [] => [] | x :: l' => result_tree x ++ go l' end) l
             | _ => []
             end
           else find d'
       end) d
  | _ => []
  end.

(** One step of the two recursions. *)
Lemma nested_results {B} (g : json -> list B) d :
  (fix find d := match d with
   | [] => []
   | (k, v) :: d' =>
       if String.eqb "results" k then
         match v with
         | JList l => (fix go l := match l with [] => [] | x :: l' => g x ++ go l' end) l
         | _ => []
         end
       else find d'
   end) d =
  match jget "results" d with Some (JList l) => mjoin (g <$> l) | _ => [] end.
Proof.
  induction d as [|[k v] d IH]; [done|]. cbn [jget]. destruct (String.eqb "results" k); [|apply IH].
  destruct v as [| | | |l|]; try done. induction l as [|x l IHl]; [done|]. simpl. by rewrite IHl.
Qed.

Lemma truthy_text j : truthy j = true -> py_str j <> "".
Proof.
  destruct j as [|[]|z|s|l|d]; simpl; try done.
  - destruct (str_of_Z_cons z) as (a & t & -> & _). done.
  - destruct s; done.
Qed.

Lemma own_skip_payload d t :
  (skip_payload <$> own_skip d) ++ filter (fun d => scheduler_skip_kind d = Some SKIP_CONFIGURATION) t =
  filter (fun d => scheduler_skip_kind d = Some SKIP_CONFIGURATION) (d :: t).
Proof. unfold own_skip. rewrite filter_cons. case_bool_decide; by case_decide. Qed.

Lemma own_skip_named d : Forall (fun s => reason s <> "" /\ repository s <> Some "") (own_skip d).
Proof.
  unfold own_skip. case_bool_decide; [|done]. apply Forall_singleton. cbn [reason repository].
  split.
  - apply truthy_text. unfold jor. by destruct (truthy (jget_or_null "reason" d)) eqn:E.
  - destruct (String.eqb _ "") eqn:E; [done|]. apply String.eqb_neq in E. congruence.
Qed.

(** What holds of every value of the tree. *)
Definition skips_ok (r : json) : Prop :=
  skip_payload <$> find_configuration_skips r =
    filter (fun d => scheduler_skip_kind d = Some SKIP_CONFIGURATION) (result_tree r) /\
  Forall (fun s => reason s <> "" /\ repository s <> Some "") (find_configuration_skips r).

Lemma skips_ok_list l :
  Forall skips_ok l ->
  skip_payload <$> mjoin (find_configuration_skips <$> l) =
    filter (fun d => scheduler_skip_kind d = Some SKIP_CONFIGURATION) (mjoin (result_tree <$> l)) /\
  Forall (fun s => reason s <> "" /\ repository s <> Some "") (mjoin (find_configuration_skips <$> l)).
Proof.
  induction 1 as [|x l [Hx1 Hx2] _ [IH1 IH2]]; [done|]. csimpl.
  rewrite fmap_app, filter_app, Hx1, IH1. split; [done|]. by apply Forall_app.
Qed.

Lemma skips_of_tree r : skips_ok r /\ forall l, r = JList l -> Forall skips_ok l.
Proof.
  induction r as [| | | |l IH|d IH] using json_ind'; try done.
  - split; [done|]. intros l' [= <-]. eapply Forall_impl; [exact IH|]. by intros x [Hx _].
  - split; [|done]. unfold skips_ok. cbn [find_configuration_skips result_tree].
    rewrite (nested_results find_configuration_skips), (nested_results result_tree).
    rewrite fmap_app, <- own_skip_payload, Forall_app.
    pose proof (own_skip_named d) as Hd.
    destruct (jget "results" d) as [v|] eqn:Ev; [|by split].
    apply jget_elem in Ev. rewrite Forall_forall in IH.
    destruct (IH _ Ev) as [_ Hl]. destruct v as [| | | |l|]; try (by split).
    destruct (skips_ok_list l (Hl l eq_refl)) as [E1 E2]. rewrite E1. by split.
Qed.

(** ** Texts that contain others *)

Lemma prefix_app x b : startswith x (x +:+ b) = true.
Proof. unfold startswith. induction x as [|c x IH]; simpl; [by destruct b|]. by destruct (Ascii.ascii_dec c c). Qed.

Lemma contains_app x a b : str_contains x (a +:+ x +:+ b) = true.
Proof.
  induction a as [|c a IH].
  - change ("" +:+ ?y) with y. destruct (x +:+ b) as [|d t] eqn:E.
    + destruct x; [done|discriminate].
    + cbn [str_contains]. by rewrite <- E, prefix_app.
  - change (String c a +:+ ?y) with (String c (a +:+ y)). cbn [str_contains]. by rewrite IH, orb_true_r.
Qed.

Lemma join_elem sep l x : x ∈ l -> exists a b, join sep l = a +:+ x +:+ b.
Proof.
  induction l as [|y [|z l] IH]; intros Hx.
  - by apply elem_of_nil in Hx.
  - apply list_elem_of_singleton in Hx as ->. exists "", "". by rewrite str_app_nil.
  - apply elem_of_cons in Hx as [->|Hx]; cbn [join].
    + exists "", (sep +:+ join sep (z :: l)). done.
    + destruct (IH Hx) as (a & b & E). cbn [join] in E. rewrite E.
      exists (y +:+ sep +:+ a), b. by rewrite !str_app_assoc.
Qed.

(** No configuration gap is lost or invented: the skips found in a result are
    exactly the results of its tree that are classified as configuration skips, in
    document order, each with a reason; a summary exists exactly when there is
    a gap, and it names every reason. *)
Theorem configuration_skips_complete (r : json) :
  let skips := find_configuration_skips r in
  skip_payload <$> skips =
    filter (fun d => scheduler_skip_kind d = Some SKIP_CONFIGURATION) (result_tree r) /\
  Forall (fun s => reason s <> "") skips /\
  match configuration_skip_summary skips with
  | Ok text => skips <> [] /\ forall s, s ∈ skips -> str_contains (reason s) text = true
  | Err _ => skips = []
  end.
Proof.
  intros skips. destruct (skips_of_tree r) as [[Hp Hn] _]. fold skips in Hp, Hn.
  split; [done|]. split; [eapply Forall_impl; [exact Hn|]; by intros s [? _]|].
  clearbody skips. clear Hp Hn.
  assert (Hline : forall s, s ∈ skips -> str_contains (reason s)
    (join newline ("Configuration gaps:" ::
       ((fun s => "- " +:+ str_or (repository s) "Job" +:+ ": " +:+ reason s) <$> skips))) = true).
  { intros s Hs. edestruct (join_elem newline ("Configuration gaps:" ::
       ((fun s => "- " +:+ str_or (repository s) "Job" +:+ ": " +:+ reason s) <$> skips))
       ("- " +:+ str_or (repository s) "Job" +:+ ": " +:+ reason s)) as (a & b & ->).
    - right. apply list_elem_of_fmap. by exists s.
    - rewrite !str_app_assoc, <- (str_app_assoc a), <- (str_app_assoc (a +:+ _)),
        <- (str_app_assoc ((a +:+ _) +:+ _)). apply contains_app. }
  destruct skips as [|[[repo|] why p] [|s2 l]]; try done.
  simpl. split; [done|]. intros s ->%list_elem_of_singleton. simpl.
  rewrite <- (str_app_nil why) at 2. apply (contains_app why "").
Qed.

(** ** Instances *)

Lemma handoff_roundtrip_witness :
  parse_detached_agent_run_handoff (Some
    ("starting" +:+ newline +:+ default "" (match emit_detached_agent_run_handoff 42 with
       Ok line => Some line | Err _ => None end) +:+ newline +:+ "done")) = Ok {| agent_run_id := 42 |}.
Proof.
  apply (handoff_roundtrip 42 ("starting" +:+ newline)
    (default "" (match emit_detached_agent_run_handoff 42 with Ok line => Some line | Err _ => None end))
    "done").
  - vm_compute. reflexivity.
  - right. exists "starting". reflexivity.
  - vm_compute. repeat constructor.
Defined.

Lemma parsed_handoff_declared_witness :
  exists line, emit_detached_agent_run_handoff 7 = Ok line /\
    exists payload, loads line = Some (JObj payload) /\
    jget "scheduler_agent_run_id" payload = Some (JInt 7).
Proof.
  eexists. split; [reflexivity|].
  destruct (parsed_handoff_declared
    (match emit_detached_agent_run_handoff 7 with Ok line => line | Err _ => "" end)
    {| agent_run_id := 7 |}) as (_ & before & line & after & payload & Hs & _ & Hl & _ & _ & _ & _ & Hid).
  - vm_compute. reflexivity.
  - exists payload. split; [|exact Hid]. rewrite <- Hl. f_equal.
    vm_compute in Hs. destruct before as [|? [|? ?]]; simplify_eq. vm_compute. reflexivity.
Defined.
