(* ===== verification/FailureGuard.v ===== *)
(** Failure guards: the latch and edge evaluation of
    [brain/systems/failure_guard/core.py] over the interfaces of its two stores,
    and the stores that implement them, the cycle alert latches of
    [cycle_latches.py] and the trigger states of [state_repository.py].

    The normalisation of failure texts by regular expressions is not modelled. *)
From S2P Require Import Prelude.
From S2P Require Import PyStr.
From S2P Require Import Json.
From S2P Require Import JsonText.
From S2P Require Import Status.
Open Scope string_scope.
Open Scope bool_scope.
Open Scope list_scope.

(** * Triggers and their results *)

Definition _RESERVED_PUBLIC_DETAIL_KEYS : list string := ["kind"; "alerted_at"; "crossed"].

Record FailureGuardTriggerResult : Type := {
  r_kind : string;
  r_active : bool;
  r_public_details : dict;
  r_alert_title : string;
  r_alert_summary : string;
}.

(** [FailureRecord.__post_init__]. *)
Definition make_failure_record (signature_input error_text : string) : result (string * string) :=
  if String.eqb (strip signature_input) ""
  then Err (ValueError "failure signature input must not be empty")
  else Ok (signature_input, error_text).

(** [FailureGuardTriggerResult.__post_init__]. *)
Definition make_trigger_result (r : FailureGuardTriggerResult) : result FailureGuardTriggerResult :=
  let conflicts := filter (fun k => k ∈ (r_public_details r).*1) _RESERVED_PUBLIC_DETAIL_KEYS in
  if String.eqb (r_kind r) "" then Err (ValueError "failure-guard trigger kind must not be empty")
  else if decide (conflicts = []) then Ok r
  else Err (ValueError ("Failure-guard trigger details use reserved keys: "
              +:+ join ", " (py_sorted str_leb conflicts))).

(** The [Literal] modes and events of the guard. *)
Inductive FailureGuardNewEdgeMode : Type := IGNORE | DETECT | LATCH.
Inductive FailureGuardLifecycleEvent : Type := NEW_FAILURE | REPEATED_FAILURE | SUCCESS.

#[export] Instance FailureGuardNewEdgeMode_eq_dec : EqDecision FailureGuardNewEdgeMode.
Proof. solve_decision. Defined.

(** A registered trigger: the two modes of [FailureGuardTriggerMode], each with the
    methods its registration requires.  [transition_state] answers [None] to
    clear the state. *)
Inductive FailureGuardTriggerRegistration (Ctx : Type) : Type :=
| Stateless (k : string) (evaluate : Ctx -> FailureGuardTriggerResult)
| Stateful (k : string) (evaluate_with_state : Ctx -> dict -> FailureGuardTriggerResult)
    (transition_state : Ctx -> dict -> FailureGuardLifecycleEvent -> option dict).
Arguments Stateless {Ctx}.
Arguments Stateful {Ctx}.

Definition kind_of {Ctx} (t : FailureGuardTriggerRegistration Ctx) : string :=
  match t with Stateless k _ => k | Stateful k _ _ => k end.

(** * The interfaces of the stores *)

(** [FailureGuardStore]: the latches of one guarded subject. *)
Class FailureGuardStore (S : Type) : Type := {
  load_latches : S -> gmap string instant;
  create_latch : string -> instant -> S -> result S;
  create_latch_fresh : forall k t s, load_latches s !! k = None ->
    exists s', create_latch k t s = Ok s' /\ load_latches s' = <[k := t]> (load_latches s);
}.

(** [FailureGuardStateStore]: the states of the triggers of one subject. *)
Class FailureGuardStateStore (S : Type) : Type := {
  load_trigger_states : S -> gmap string dict;
  save_trigger_state : string -> dict -> S -> S;
  delete_trigger_state : string -> S -> S;
  save_state_law : forall k d s, jwf (JObj d) ->
    load_trigger_states (save_trigger_state k d s) = <[k := d]> (load_trigger_states s);
  delete_state_law : forall k s,
    load_trigger_states (delete_trigger_state k s) = delete k (load_trigger_states s);
}.

(** * Evaluation *)

Section states.
Context {Ctx S : Type} `{FailureGuardStateStore S}.

Definition async_evaluate_failure_guard_triggers (context : Ctx)
    (triggers : list (FailureGuardTriggerRegistration Ctx)) (s : S) : list FailureGuardTriggerResult :=
  let states := load_trigger_states s in
  (fun t => match t with
   | Stateful k evaluate_with_state _ => evaluate_with_state context (default [] (states !! k))
   | Stateless _ evaluate => evaluate context
   end) <$> triggers.

(** The body of the loop over the triggers; the states were read before it. *)
Definition transition_one (context : Ctx) (event : FailureGuardLifecycleEvent)
    (states : gmap string dict) (s : S) (t : FailureGuardTriggerRegistration Ctx) : S :=
  match t with
  | Stateless _ _ => s
  | Stateful k _ transition_state =>
      match transition_state context (default [] (states !! k)) event with
      | None => delete_trigger_state k s
      | Some next => save_trigger_state k next s
      end
  end.

Definition async_transition_failure_guard_trigger_states (context : Ctx)
    (event : FailureGuardLifecycleEvent) (triggers : list (FailureGuardTriggerRegistration Ctx))
    (s : S) : S :=
  fold_left (transition_one context event (load_trigger_states s)) triggers s.
End states.

Record FailureGuardEdge : Type := {
  e_kind : string;
  e_public_details : dict;
  e_alerted_at : option instant;
  e_crossed : bool;
  e_alert_title : string;
  e_alert_summary : string;
}.

Record FailureGuardEvaluation : Type := {
  failure_signature : option string;
  last_error : option string;
  edges : list FailureGuardEdge;
}.

Definition crossed_edges (e : FailureGuardEvaluation) : list FailureGuardEdge :=
  filter (fun x => e_crossed x = true) (edges e).

(** [serialize_failure_guard]: in the display of a trigger the details come between
    its kind and its latch. *)
Definition serialize_edge (isoformat : instant -> string) (e : FailureGuardEdge) : dict :=
  jset "crossed" (JBool (e_crossed e))
    (jset "alerted_at" (match e_alerted_at e with Some t => JStr (isoformat t) | None => JNull end)
      (jupdate [("kind", JStr (e_kind e))] (e_public_details e))).

Definition json_option (o : option string) : json := match o with Some x => JStr x | None => JNull end.

Definition serialize_failure_guard (isoformat : instant -> string) (e : FailureGuardEvaluation) : dict :=
  [("failure_signature", json_option (failure_signature e)); ("last_error", json_option (last_error e));
   ("triggers", JList ((fun x => JObj (serialize_edge isoformat x)) <$> edges e))].

Section edges.
Context {S : Type} `{FailureGuardStore S}.

(** The loop over the results, over the latches read before it. *)
Fixpoint evaluate_results (mode : FailureGuardNewEdgeMode) (now : instant)
    (latches : gmap string instant) (results : list FailureGuardTriggerResult) (s : S)
    : result (S * list FailureGuardEdge) :=
  match results with
  | [] => Ok (s, [])
  | r :: results' =>
      let crossed := negb (bool_decide (mode = IGNORE)) && r_active r
                     && bool_decide (latches !! r_kind r = None) in
      '(s, latches) ← (if crossed && bool_decide (mode = LATCH) then
          s' ← create_latch (r_kind r) now s; mret (s', <[r_kind r := now]> latches)
        else mret (s, latches));
      '(s, es) ← evaluate_results mode now latches results' s;
      mret (s, {| e_kind := r_kind r; e_public_details := r_public_details r;
                  e_alerted_at := latches !! r_kind r; e_crossed := crossed;
                  e_alert_title := r_alert_title r; e_alert_summary := r_alert_summary r |} :: es)
  end.

Definition async_evaluate_failure_edges (results : list FailureGuardTriggerResult)
    (signature error : option string) (now : instant) (mode : FailureGuardNewEdgeMode) (s : S)
    : result (S * FailureGuardEvaluation) :=
  if negb (bool_decide (NoDup (r_kind <$> results)))
  then Err (ValueError "Failure-guard trigger kinds must be unique")
  else
    '(s, es) ← evaluate_results mode now (load_latches s) results s;
    mret (s, {| failure_signature := signature; last_error := error; edges := es |}).

Definition latched_edge (at_ : instant) (e : FailureGuardEdge) : FailureGuardEdge :=
  {| e_kind := e_kind e; e_public_details := e_public_details e; e_alerted_at := Some at_;
     e_crossed := e_crossed e; e_alert_title := e_alert_title e; e_alert_summary := e_alert_summary e |}.

Fixpoint latch_edges (at_ : instant) (es : list FailureGuardEdge) (s : S)
    : result (S * list FailureGuardEdge) :=
  match es with
  | [] => Ok (s, [])
  | e :: es' =>
      '(s, e) ← (if negb (e_crossed e) || bool_decide (is_Some (e_alerted_at e)) then mret (s, e)
                 else s' ← create_latch (e_kind e) at_ s; mret (s', latched_edge at_ e));
      '(s, es'') ← latch_edges at_ es' s;
      mret (s, e :: es'')
  end.

Definition async_latch_failure_edges (ev : FailureGuardEvaluation) (at_ : instant) (s : S)
    : result (S * FailureGuardEvaluation) :=
  '(s, es) ← latch_edges at_ (edges ev) s;
  mret (s, {| failure_signature := failure_signature ev; last_error := last_error ev; edges := es |}).
End edges.

(** * The stores *)

(** [CycleAlertLatchStore] on the table of latches, whose primary key is the cycle
    and the kind. *)
Record CycleAlertLatchStore : Type := {
  cycle_id : Z;
  latch_rows : gmap Z (gmap string instant);
}.

Definition cycle_latches (s : CycleAlertLatchStore) : gmap string instant :=
  default ∅ (latch_rows s !! cycle_id s).

Definition set_cycle_latches (m : gmap string instant) (s : CycleAlertLatchStore) : CycleAlertLatchStore :=
  {| cycle_id := cycle_id s; latch_rows := <[cycle_id s := m]> (latch_rows s) |}.

(** [create_latch]; the primary key refuses a second row when the session flushes. *)
Definition cycle_create_latch (k : string) (t : instant) (s : CycleAlertLatchStore)
    : result CycleAlertLatchStore :=
  match cycle_latches s !! k with
  | Some _ => Err IntegrityError
  | None => Ok (set_cycle_latches (<[k := t]> (cycle_latches s)) s)
  end.

(** INSERT .. ON CONFLICT DO NOTHING RETURNING cycle_id. *)
Definition try_claim_latch (k : string) (t : instant) (s : CycleAlertLatchStore)
    : CycleAlertLatchStore * bool :=
  match cycle_latches s !! k with
  | Some _ => (s, false)
  | None => (set_cycle_latches (<[k := t]> (cycle_latches s)) s, true)
  end.

Definition release_latch (k : string) (alerted_at : option instant) (s : CycleAlertLatchStore)
    : CycleAlertLatchStore :=
  match alerted_at with
  | Some t =>
      if decide (cycle_latches s !! k = Some t) then set_cycle_latches (delete k (cycle_latches s)) s else s
  | None => set_cycle_latches (delete k (cycle_latches s)) s
  end.

Definition delete_latch (k : string) (s : CycleAlertLatchStore) : CycleAlertLatchStore :=
  set_cycle_latches (delete k (cycle_latches s)) s.

Definition load_cycle_ids_for_trigger (k : string) (s : CycleAlertLatchStore) : gset Z :=
  dom (filter (fun cm => is_Some (cm.2 !! k)) (latch_rows s)).

Lemma cycle_latches_set m s : cycle_latches (set_cycle_latches m s) = m.
Proof. unfold cycle_latches, set_cycle_latches. simpl. by rewrite lookup_insert_eq. Qed.

#[export] Program Instance CycleAlertLatchStore_store : FailureGuardStore CycleAlertLatchStore :=
  {| load_latches := cycle_latches; create_latch := cycle_create_latch |}.
Next Obligation.
  intros k t s Hk. simpl in Hk. unfold cycle_create_latch. rewrite Hk.
  eexists. split; [done|]. apply cycle_latches_set.
Qed.

(** [_json_document]: the state as its JSON text is read back. *)
Definition _json_document (d : dict) : dict :=
  match loads (dumps ", " ": " (JObj d)) with Some (JObj d') => d' | _ => [] end.

(** [SqlAlchemyFailureGuardStateStore]: the rows of its table, and the records it
    keeps once it has read them. *)
Record SqlAlchemyFailureGuardStateStore : Type := {
  _records : option (gmap string dict);
  state_rows : gmap string dict;
}.

Definition _load_records (s : SqlAlchemyFailureGuardStateStore) : gmap string dict :=
  default (state_rows s) (_records s).

Definition preload_records (records : gmap string dict) (s : SqlAlchemyFailureGuardStateStore)
    : result SqlAlchemyFailureGuardStateStore :=
  match _records s with
  | Some _ => Err (RuntimeError "Failure-guard trigger states are already loaded")
  | None => Ok {| _records := Some records; state_rows := state_rows s |}
  end.

Definition sql_save_trigger_state (k : string) (d : dict) (s : SqlAlchemyFailureGuardStateStore)
    : SqlAlchemyFailureGuardStateStore :=
  {| _records := Some (<[k := _json_document d]> (_load_records s));
     state_rows := <[k := _json_document d]> (state_rows s) |}.

Definition sql_delete_trigger_state (k : string) (s : SqlAlchemyFailureGuardStateStore)
    : SqlAlchemyFailureGuardStateStore :=
  {| _records := Some (delete k (_load_records s));
     state_rows := if decide (is_Some (_load_records s !! k)) then delete k (state_rows s)
                   else state_rows s |}.

#[export] Program Instance SqlAlchemyFailureGuardStateStore_store
    : FailureGuardStateStore SqlAlchemyFailureGuardStateStore :=
  {| load_trigger_states := _load_records; save_trigger_state := sql_save_trigger_state;
     delete_trigger_state := sql_delete_trigger_state |}.
Next Obligation.
  intros k d s Hd. unfold _load_records, sql_save_trigger_state, _json_document.
  rewrite (loads_dumps _ Hd). done.
Qed.
Next Obligation. done. Qed.

(** * Properties *)

Lemma fold_left_ext {A B} (f g : A -> B -> A) l a :
  (forall a b, b ∈ l -> f a b = g a b) -> fold_left f l a = fold_left g l a.
Proof.
  revert a. induction l as [|b l IH]; intros a Hfg; [done|]. simpl. rewrite Hfg by (by left).
  apply IH. intros a' b' Hb'. apply Hfg. by right.
Qed.

Section edge_theorems.
Context {S : Type} `{FailureGuardStore S}.

(** What the edge of a result is, given the latches before the evaluation. *)
Definition crosses (mode : FailureGuardNewEdgeMode) (latches : gmap string instant)
    (r : FailureGuardTriggerResult) : bool :=
  negb (bool_decide (mode = IGNORE)) && r_active r && bool_decide (latches !! r_kind r = None).

Definition edge_of (mode : FailureGuardNewEdgeMode) (now : instant) (latches : gmap string instant)
    (r : FailureGuardTriggerResult) : FailureGuardEdge :=
  {| e_kind := r_kind r; e_public_details := r_public_details r;
     e_alerted_at := match latches !! r_kind r with
                     | Some t => Some t
                     | None => if crosses mode latches r && bool_decide (mode = LATCH)
                               then Some now else None
                     end;
     e_crossed := crosses mode latches r;
     e_alert_title := r_alert_title r; e_alert_summary := r_alert_summary r |}.

(** The latches the evaluation leaves. *)
Definition latches_after (mode : FailureGuardNewEdgeMode) (now : instant)
    (latches : gmap string instant) (results : list FailureGuardTriggerResult) : gmap string instant :=
  fold_left (fun m r => if crosses mode latches r && bool_decide (mode = LATCH)
                        then <[r_kind r := now]> m else m) results latches.

Lemma edge_of_other mode now m k t r :
  k <> r_kind r -> edge_of mode now (<[k := t]> m) r = edge_of mode now m r.
Proof. intros Hk. unfold edge_of, crosses. by rewrite lookup_insert_ne. Qed.

Lemma evaluate_results_spec mode now results : forall m s,
  load_latches s = m -> NoDup (r_kind <$> results) ->
  exists s', evaluate_results mode now m results s = Ok (s', edge_of mode now m <$> results) /\
    load_latches s' = latches_after mode now m results.
Proof.
  induction results as [|r results IH]; intros m s Hs Hnd; [by exists s|].
  apply NoDup_cons in Hnd as [Hr Hnd]. cbn [evaluate_results]. fold (crosses mode m r).
  unfold latches_after. cbn [fold_left].
  destruct (crosses mode m r && bool_decide (mode = LATCH)) eqn:Ec.
  - assert (Hm : m !! r_kind r = None).
    { unfold crosses in Ec. rewrite !andb_true_iff in Ec. by destruct Ec as [[_ ?%bool_decide_eq_true] _]. }
    destruct (create_latch_fresh (r_kind r) now s) as (s1 & E1 & Hl); [by rewrite Hs|].
    rewrite E1. rewrite Hs in Hl. cbn [mbind result_bind mret result_ret].
    destruct (IH _ s1 Hl Hnd) as (s2 & E2 & H2). rewrite E2. exists s2. cbn [mbind result_bind mret result_ret].
    assert (Hother : forall r', r' ∈ results -> r_kind r <> r_kind r').
    { intros r' Hr' E. apply Hr. rewrite E. by apply list_elem_of_fmap_2. }
    split.
    + do 2 f_equal. cbn [fmap list_fmap]. f_equal.
      * unfold edge_of. by rewrite lookup_insert_eq, Hm, Ec.
      * apply list_fmap_ext. intros i r' Hr'%list_elem_of_lookup_2. apply edge_of_other, Hother, Hr'.
    + rewrite H2. apply fold_left_ext. intros m' r' Hr'. unfold crosses.
      by rewrite lookup_insert_ne by (by apply Hother).
  - cbn [mbind result_bind mret result_ret]. destruct (IH m s Hs Hnd) as (s2 & E2 & H2). rewrite E2.
    cbn [mbind result_bind mret result_ret]. exists s2. split; [|done]. do 2 f_equal. cbn [fmap list_fmap]. f_equal. unfold edge_of. rewrite Ec.
    by destruct (m !! r_kind r).
Qed.

(** The evaluation latches a kind. *)
Definition latches_kind (mode : FailureGuardNewEdgeMode) (latches : gmap string instant)
    (results : list FailureGuardTriggerResult) (k : string) : bool :=
  bool_decide (mode = LATCH) &&
  existsb (fun r => String.eqb (r_kind r) k && crosses mode latches r) results.

Lemma latches_after_lookup mode now m results k :
  latches_after mode now m results !! k =
  if latches_kind mode m results k then Some now else m !! k.
Proof.
  unfold latches_after, latches_kind. induction results as [|r results IH] using rev_ind.
  - by rewrite andb_false_r.
  - rewrite fold_left_app, existsb_app. cbn [fold_left existsb]. rewrite orb_false_r.
    destruct (bool_decide (mode = LATCH)); cbn [andb] in *; [|by rewrite andb_false_r].
    rewrite andb_true_r. destruct (crosses mode m r).
    + rewrite lookup_insert, IH, andb_true_r. case_decide as Hk.
      * subst k. by rewrite String.eqb_refl, orb_true_r.
      * apply String.eqb_neq in Hk. by rewrite Hk, orb_false_r.
    + by rewrite andb_false_r, orb_false_r.
Qed.

(** What a successful evaluation says. *)
Lemma evaluate_inv results signature error now mode s s' ev :
  async_evaluate_failure_edges results signature error now mode s = Ok (s', ev) ->
  NoDup (r_kind <$> results) /\ edges ev = edge_of mode now (load_latches s) <$> results /\
  load_latches s' = latches_after mode now (load_latches s) results.
Proof.
  unfold async_evaluate_failure_edges. case_bool_decide as Hnd; [|done]. cbn [negb].
  destruct (evaluate_results_spec mode now results _ s eq_refl Hnd) as (s1 & -> & Hl).
  intros [= <- <-]. done.
Qed.

(** The edges of an evaluation.  With distinct kinds an evaluation always
    succeeds; the edge of a result has crossed exactly when the result is
    active, its kind had no latch and new edges are not ignored; it shows the
    time of the latch that was there, or now when the mode latches it; and the
    store gains a latch for exactly the kinds that crossed in that mode, and
    keeps every other. *)
Theorem failure_edges_spec (results : list FailureGuardTriggerResult) (signature error : option string)
    (now : instant) (mode : FailureGuardNewEdgeMode) (s : S) :
  NoDup (r_kind <$> results) ->
  exists s' ev, async_evaluate_failure_edges results signature error now mode s = Ok (s', ev) /\
    edges ev = edge_of mode now (load_latches s) <$> results /\
    failure_signature ev = signature /\ last_error ev = error /\
    forall k, load_latches s' !! k =
      if latches_kind mode (load_latches s) results k then Some now else load_latches s !! k.
Proof.
  intros Hnd. unfold async_evaluate_failure_edges. rewrite bool_decide_eq_true_2 by done. cbn [negb].
  destruct (evaluate_results_spec mode now results _ s eq_refl Hnd) as (s' & E & Hl). rewrite E.
  eexists s', _. split; [done|]. split; [done|]. split; [done|]. split; [done|].
  intros k. by rewrite Hl, latches_after_lookup.
Qed.

(** ** Latching after delivery *)

(** An edge that was detected but not latched. *)
Definition unlatched (e : FailureGuardEdge) : bool :=
  e_crossed e && negb (bool_decide (is_Some (e_alerted_at e))).

Lemma latch_edges_spec at_ es : forall s,
  NoDup (e_kind <$> es) ->
  (forall e, e ∈ es -> unlatched e = true -> load_latches s !! e_kind e = None) ->
  exists s', latch_edges at_ es s =
      Ok (s', (fun e => if unlatched e then latched_edge at_ e else e) <$> es) /\
    forall k, load_latches s' !! k =
      if existsb (fun e => String.eqb (e_kind e) k && unlatched e) es then Some at_
      else load_latches s !! k.
Proof.
  induction es as [|e es IH]; intros s Hnd Hfree; [by exists s|].
  apply NoDup_cons in Hnd as [He Hnd]. cbn [latch_edges existsb].
  assert (Hu : negb (e_crossed e) || bool_decide (is_Some (e_alerted_at e)) = negb (unlatched e)).
  { unfold unlatched. by destruct (e_crossed e), (bool_decide (is_Some (e_alerted_at e))). }
  rewrite Hu. destruct (unlatched e) eqn:Eu; cbn [negb].
  - destruct (create_latch_fresh (e_kind e) at_ s) as (s1 & E1 & Hl1); [apply Hfree; [by left|done]|].
    rewrite E1. cbn [mbind result_bind mret result_ret].
    destruct (IH s1 Hnd) as (s2 & E2 & Hl2).
    { intros e' He' Hu'. rewrite Hl1, lookup_insert_ne; [apply Hfree; [by right|done]|].
      intros E. apply He. rewrite E. by apply list_elem_of_fmap_2. }
    rewrite E2. exists s2. split; [cbn; by rewrite Eu|]. intros k.
    rewrite Hl2, Hl1, lookup_insert, andb_true_r.
    destruct (existsb _ es); [by rewrite orb_true_r|]. rewrite orb_false_r.
    case_decide as Hk; [by rewrite Hk, String.eqb_refl|].
    apply String.eqb_neq in Hk. by rewrite Hk.
  - cbn [mbind result_bind mret result_ret]. destruct (IH s Hnd) as (s2 & E2 & Hl2).
    { intros e' He' Hu'. apply Hfree; [by right|done]. }
    rewrite E2. exists s2. split; [cbn; by rewrite Eu|]. intros k.
    by rewrite andb_false_r, Hl2.
Qed.

(** The alert edges of an evaluation were recorded: by latching them at once, or by
    latching them after their alerts were delivered. *)
Definition recorded (results : list FailureGuardTriggerResult) (signature error : option string)
    (now : instant) (s s1 : S) (ev : FailureGuardEvaluation) : Prop :=
  async_evaluate_failure_edges results signature error now LATCH s = Ok (s1, ev) \/
  exists s0 ev' at_, async_evaluate_failure_edges results signature error now DETECT s = Ok (s0, ev) /\
    async_latch_failure_edges ev at_ s0 = Ok (s1, ev').

Lemma recorded_edges results signature error now s s1 ev :
  recorded results signature error now s s1 ev ->
  exists m, edges ev = edge_of m now (load_latches s) <$> results /\ (m = LATCH \/ m = DETECT).
Proof.
  intros [E|(s0 & ev' & at_ & E & _)]; apply evaluate_inv in E as (_ & E & _); eauto.
Qed.

Lemma recorded_latched results signature error now s s1 ev r :
  recorded results signature error now s s1 ev -> r ∈ results ->
  crosses DETECT (load_latches s) r = true -> is_Some (load_latches s1 !! r_kind r).
Proof.
  intros [He|(s0 & ev' & at_ & He & Hl)] Hr Hc; apply evaluate_inv in He as (Hnd & Hed & Hs').
  - rewrite Hs', latches_after_lookup.
    assert (latches_kind LATCH (load_latches s) results (r_kind r) = true) as ->; [|done].
    apply existsb_exists. exists r. split; [by apply list_elem_of_In|]. by rewrite String.eqb_refl.
  - unfold async_latch_failure_edges in Hl. rewrite Hed in Hl.
    assert (Hs0 : forall k, load_latches s0 !! k = load_latches s !! k)
      by (intros k; by rewrite Hs', latches_after_lookup).
    destruct (latch_edges_spec at_ (edge_of DETECT now (load_latches s) <$> results) s0)
      as (s2 & E2 & Hl2).
    + by rewrite <- list_fmap_compose.
    + intros e (r' & -> & Hr')%list_elem_of_fmap Hu. rewrite Hs0. revert Hu. unfold unlatched.
      cbn [e_crossed edge_of e_kind]. unfold crosses.
      destruct (load_latches s !! r_kind r'); [by rewrite !andb_false_r|done].
    + rewrite E2 in Hl. cbn in Hl. injection Hl as <- _. rewrite Hl2.
      match goal with |- is_Some (if ?b then _ else _) => assert (b = true) as -> end; [|done].
      apply existsb_exists. exists (edge_of DETECT now (load_latches s) r). split.
      * by apply list_elem_of_In, list_elem_of_fmap_2.
      * cbn [e_kind edge_of]. rewrite String.eqb_refl. unfold unlatched. cbn [e_crossed e_alerted_at edge_of].
        rewrite Hc. unfold crosses in Hc. rewrite !andb_true_iff in Hc.
        destruct Hc as [_ Hn%bool_decide_eq_true]. rewrite Hn. by rewrite andb_false_r.
Qed.

(** One alert per failure period: once the edges of an evaluation were
    recorded, whether latched at once or after their alerts were delivered, no
    later evaluation of any results crosses an edge of one of those kinds again
    while its latch is held. *)
Theorem alert_crosses_once (results results2 : list FailureGuardTriggerResult)
    (signature error signature2 error2 : option string) (now now2 : instant)
    (mode : FailureGuardNewEdgeMode) (s s1 s2 : S) (ev ev2 : FailureGuardEvaluation) :
  recorded results signature error now s s1 ev ->
  async_evaluate_failure_edges results2 signature2 error2 now2 mode s1 = Ok (s2, ev2) ->
  forall e e2, e ∈ crossed_edges ev -> e2 ∈ crossed_edges ev2 -> e_kind e <> e_kind e2.
Proof.
  intros Hrec Hev2 e e2 He He2 Hk.
  destruct (recorded_edges _ _ _ _ _ _ _ Hrec) as (m & Hed & Hm).
  apply evaluate_inv in Hev2 as (_ & Hed2 & _).
  unfold crossed_edges in He, He2. rewrite Hed in He. rewrite Hed2 in He2.
  apply list_elem_of_filter in He as [Hc (r & -> & Hr)%list_elem_of_fmap].
  apply list_elem_of_filter in He2 as [Hc2 (r2 & -> & Hr2)%list_elem_of_fmap].
  cbn [e_kind e_crossed edge_of] in Hk, Hc, Hc2.
  destruct (recorded_latched _ _ _ _ _ _ _ r Hrec Hr) as [t Ht].
  { destruct Hm as [->| ->]; exact Hc. }
  unfold crosses in Hc2. rewrite <- Hk, Ht in Hc2. by rewrite andb_false_r in Hc2.
Qed.
End edge_theorems.

(** ** The states of the triggers *)

Section state_theorems.
Context {Ctx S : Type} `{FailureGuardStateStore S}.

Definition is_stateful (t : FailureGuardTriggerRegistration Ctx) : bool :=
  match t with Stateful _ _ _ => true | Stateless _ _ => false end.

(** The state an event leaves of a kind. *)
Definition next_state (context : Ctx) (event : FailureGuardLifecycleEvent)
    (triggers : list (FailureGuardTriggerRegistration Ctx)) (states : gmap string dict) (k : string)
    (held : option dict) : option dict :=
  match find (fun t => String.eqb (kind_of t) k && is_stateful t) triggers with
  | Some (Stateful _ _ transition_state) => transition_state context (default [] (states !! k)) event
  | _ => held
  end.

(** The triggers answer JSON documents, whose keys are distinct. *)
Definition document_triggers (triggers : list (FailureGuardTriggerRegistration Ctx)) : Prop :=
  Forall (fun t => match t with
    | Stateless _ _ => True
    | Stateful _ _ f => forall c d e d', f c d e = Some d' -> jwf (JObj d')
    end) triggers.

Lemma next_state_other context event triggers states k held :
  k ∉ kind_of <$> triggers -> next_state context event triggers states k held = held.
Proof.
  intros Hk. unfold next_state. destruct (find _ _) as [t|] eqn:E; [|done].
  apply find_some in E as [Hin Ht]. apply andb_true_iff in Ht as [<-%String.eqb_eq _].
  exfalso. apply Hk, list_elem_of_fmap_2. by apply list_elem_of_In.
Qed.

Lemma transition_spec context event states triggers : forall s k,
  NoDup (kind_of <$> triggers) -> document_triggers triggers ->
  load_trigger_states (fold_left (transition_one context event states) triggers s) !! k =
  next_state context event triggers states k (load_trigger_states s !! k).
Proof.
  induction triggers as [|t triggers IH]; intros s k Hnd Hd; [done|].
  apply NoDup_cons in Hnd as [Ht Hnd]. apply Forall_cons in Hd as [Hdt Hd].
  cbn [fold_left]. rewrite IH by done. unfold next_state at 2. cbn [find].
  destruct t as [k' f|k' g f]; cbn [kind_of is_stateful transition_one] in *.
  - by rewrite andb_false_r.
  - rewrite andb_true_r. destruct (String.eqb k' k) eqn:Ek.
    + apply String.eqb_eq in Ek as ->. rewrite next_state_other by done.
      destruct (f context _ event) as [d'|] eqn:Ef.
      * rewrite save_state_law by (by eapply Hdt). apply lookup_insert_eq.
      * rewrite delete_state_law. apply lookup_delete_eq.
    + apply String.eqb_neq in Ek. unfold next_state.
      destruct (f context _ event) as [d'|] eqn:Ef.
      * rewrite save_state_law by (by eapply Hdt). by rewrite lookup_insert_ne.
      * rewrite delete_state_law. by rewrite lookup_delete_ne.
Qed.

(** A lifecycle event moves every state once: with distinct kinds, the state of
    a registered stateful trigger becomes what the trigger answers from the
    state it had before the event, or is cleared, and every other state is kept. *)
Theorem trigger_states_transition (context : Ctx) (event : FailureGuardLifecycleEvent)
    (triggers : list (FailureGuardTriggerRegistration Ctx)) (s : S) (k : string) :
  NoDup (kind_of <$> triggers) -> document_triggers triggers ->
  load_trigger_states (async_transition_failure_guard_trigger_states context event triggers s) !! k =
  next_state context event triggers (load_trigger_states s) k (load_trigger_states s !! k).
Proof. intros Hnd Hd. unfold async_transition_failure_guard_trigger_states. by apply transition_spec. Qed.
End state_theorems.

(** ** The display of an edge *)

Lemma jget_rev k d : NoDup (d.*1) -> jget k (rev d) = jget k d.
Proof.
  intros Hnd. assert (Hp : rev d ≡ₚ d) by (symmetry; apply Permutation_rev).
  destruct (jget k d) as [v|] eqn:E.
  - apply jget_nodup; [by rewrite Hp|]. rewrite Hp. by apply jget_elem.
  - destruct (jget k (rev d)) as [v|] eqn:Er; [|done]. apply jget_elem in Er. rewrite Hp in Er.
    by rewrite (jget_nodup _ _ _ Hnd Er) in E.
Qed.

(** What is displayed of an edge is the edge: the details of an accepted result
    cannot overwrite its kind, its latch time or whether it crossed, and every
    detail is displayed. *)
Theorem edge_display (isoformat : instant -> string) (mode : FailureGuardNewEdgeMode) (now : instant)
    (latches : gmap string instant) (r : FailureGuardTriggerResult) (k : string) :
  make_trigger_result r = Ok r -> NoDup ((r_public_details r).*1) ->
  let e := edge_of mode now latches r in
  let shown := serialize_edge isoformat e in
  jget "kind" shown = Some (JStr (r_kind r)) /\
  jget "alerted_at" shown =
    Some (match e_alerted_at e with Some t => JStr (isoformat t) | None => JNull end) /\
  jget "crossed" shown = Some (JBool (e_crossed e)) /\
  (k ∉ _RESERVED_PUBLIC_DETAIL_KEYS -> jget k shown = jget k (r_public_details r)).
Proof.
  intros Hok Hnd e shown.
  assert (Hres : forall k, k ∈ _RESERVED_PUBLIC_DETAIL_KEYS -> jget k (r_public_details r) = None).
  { intros k' Hk'. destruct (jget k' (r_public_details r)) as [v|] eqn:E; [|done]. exfalso.
    revert Hok. unfold make_trigger_result. destruct (String.eqb (r_kind r) ""); [done|].
    rewrite decide_False; [done|]. intros Hnil.
    assert (Hin : k' ∈ filter (fun k => k ∈ (r_public_details r).*1) _RESERVED_PUBLIC_DETAIL_KEYS).
    { apply list_elem_of_filter. split; [|done]. apply jget_elem in E.
      by apply (list_elem_of_fmap_2 fst) in E. }
    rewrite Hnil in Hin. by apply elem_of_nil in Hin. }
  unfold shown, serialize_edge. split; [|split; [|split]].
  - rewrite !jget_jset_ne by done. rewrite jget_jupdate, jget_rev by done.
    cbn [e_public_details edge_of e]. by rewrite Hres by set_solver.
  - rewrite jget_jset_ne by done. apply jget_jset_eq.
  - apply jget_jset_eq.
  - unfold _RESERVED_PUBLIC_DETAIL_KEYS. rewrite !not_elem_of_cons. intros (Hk1 & Hk2 & Hk3 & _).
    rewrite !jget_jset_ne by done. rewrite jget_jupdate, jget_rev by done.
    cbn [e_public_details edge_of e jget]. apply String.eqb_neq in Hk1. rewrite Hk1.
    by destruct (jget k _).
Qed.

(** ** Latches shared by replicas *)

(** What the replicas do to the latches of their cycles: they claim any latch, and
    release the latches of the alerts they delivered. *)
Inductive latch_step (held : string * instant) : CycleAlertLatchStore -> CycleAlertLatchStore -> Prop :=
| step_claim k t s : latch_step held s (try_claim_latch k t s).1
| step_release k t s : (k, t) <> held -> latch_step held s (release_latch k (Some t) s)
| step_other_kind k s : k <> held.1 -> latch_step held s (delete_latch k s).

Lemma latch_step_holds k t s s' :
  latch_step (k, t) s s' -> cycle_latches s !! k = Some t -> cycle_latches s' !! k = Some t.
Proof.
  intros [k' t' s0|k' t' s0 Hne|k' s0 Hne] Hk.
  - unfold try_claim_latch. destruct (cycle_latches s0 !! k') eqn:E; [done|]. simpl.
    rewrite cycle_latches_set, lookup_insert_ne; congruence.
  - unfold release_latch. case_decide as Hd; [|done]. rewrite cycle_latches_set.
    destruct (decide (k' = k)) as [->|]; [|by rewrite lookup_delete_ne].
    exfalso. apply Hne. congruence.
  - unfold delete_latch. by rewrite cycle_latches_set, lookup_delete_ne.
Qed.

(** One replica sends an alert: a claim of a latch succeeds exactly when nobody
    holds it, and from then on it is held for that alert, so every other claim
    of it fails, through any claims of other replicas, releases of other alerts
    and deletions of other kinds, until it is released for this very alert; then
    it can be claimed again. *)
Theorem latch_claim_exclusive (k : string) (t : instant) (s : CycleAlertLatchStore) :
  ((try_claim_latch k t s).2 = true <-> cycle_latches s !! k = None) /\
  ((try_claim_latch k t s).2 = true -> forall s',
     rtc (latch_step (k, t)) (try_claim_latch k t s).1 s' ->
     (forall t', (try_claim_latch k t' s').2 = false) /\
     (forall t', (try_claim_latch k t' (release_latch k (Some t) s')).2 = true)) /\
  (forall c, c <> cycle_id s -> latch_rows (try_claim_latch k t s).1 !! c = latch_rows s !! c).
Proof.
  split; [|split].
  - unfold try_claim_latch. by destruct (cycle_latches s !! k).
  - intros Hc s' Hr.
    assert (Hheld : cycle_latches s' !! k = Some t).
    { assert (H0 : cycle_latches (try_claim_latch k t s).1 !! k = Some t).
      { revert Hc. unfold try_claim_latch. destruct (cycle_latches s !! k); [done|]. intros _.
        simpl. by rewrite cycle_latches_set, lookup_insert_eq. }
      revert H0. clear Hc. induction Hr as [|s1 s2 s3 Hs _ IH]; [done|].
      intros H1. apply IH. by eapply latch_step_holds. }
    split; intros t'.
    + unfold try_claim_latch. by rewrite Hheld.
    + unfold release_latch. rewrite decide_True by done. unfold try_claim_latch.
      by rewrite cycle_latches_set, lookup_delete_eq.
  - intros c Hc. unfold try_claim_latch. destruct (cycle_latches s !! k); [done|]. simpl.
    by rewrite lookup_insert_ne.
Qed.

(** ** Instances *)

Definition demo_latches : CycleAlertLatchStore := {| cycle_id := 1; latch_rows := ∅ |}.
Definition demo_result (k : string) : FailureGuardTriggerResult :=
  {| r_kind := k; r_active := true; r_public_details := [("count", JInt 3)];
     r_alert_title := "failing"; r_alert_summary := "three failures" |}.

Lemma failure_edges_spec_witness :
  exists s' ev, async_evaluate_failure_edges [demo_result "streak"] None None 5 LATCH demo_latches
    = Ok (s', ev) /\ cycle_latches s' !! "streak" = Some 5%Z.
Proof.
  destruct (failure_edges_spec [demo_result "streak"] None None 5 LATCH demo_latches)
    as (s' & ev & E & _ & _ & _ & Hl).
  - apply NoDup_singleton.
  - exists s', ev. split; [exact E|]. specialize (Hl "streak"). simpl in Hl. exact Hl.
Defined.

Lemma alert_crosses_once_witness :
  exists s1 s2 ev ev2,
    async_evaluate_failure_edges [demo_result "streak"] None None 5 LATCH demo_latches = Ok (s1, ev) /\
    async_evaluate_failure_edges [demo_result "streak"] None None 9 LATCH s1 = Ok (s2, ev2) /\
    length (crossed_edges ev) = 1 /\
    forall e e2, e ∈ crossed_edges ev -> e2 ∈ crossed_edges ev2 -> e_kind e <> e_kind e2.
Proof.
  eexists _, _, _, _. split; [reflexivity|]. split; [reflexivity|]. split; [reflexivity|].
  eapply (alert_crosses_once [demo_result "streak"] [demo_result "streak"] None None None None 5 9 LATCH
    demo_latches).
  - left. reflexivity.
  - reflexivity.
Defined.

(** A trigger that counts failures in its state. *)
Definition demo_counter : FailureGuardTriggerRegistration unit :=
  Stateful "streak" (fun _ _ => demo_result "streak")
    (fun _ d e => match e with
     | SUCCESS => None
     | _ => Some [("count", JInt (default 0%Z (py_int (jget_or_null "count" d)) + 1))]
     end).
Definition demo_states : SqlAlchemyFailureGuardStateStore :=
  {| _records := None; state_rows := {[ "streak" := [("count", JInt 2)] ]} |}.

Lemma trigger_states_transition_witness :
  load_trigger_states (async_transition_failure_guard_trigger_states tt REPEATED_FAILURE [demo_counter]
    demo_states) !! "streak" = Some [("count", JInt 3)].
Proof.
  rewrite (trigger_states_transition tt REPEATED_FAILURE [demo_counter] demo_states "streak").
  - reflexivity.
  - apply NoDup_singleton.
  - apply Forall_singleton. intros c d e d' Hd. destruct e; simplify_eq;
      (split; [apply NoDup_singleton|done]).
Defined.

Lemma edge_display_witness :
  jget "count" (serialize_edge str_of_Z (edge_of LATCH 5 ∅ (demo_result "streak"))) = Some (JInt 3).
Proof.
  apply (edge_display str_of_Z LATCH 5 ∅ (demo_result "streak") "count").
  - reflexivity.
  - apply NoDup_singleton.
  - set_solver.
Defined.
