(* ===== verification/Models.v ===== *)
(** Models and reasoning effort: the canonical effort ladder of
    [brain/platform/effort.py], the catalog of [brain/platform/model_catalog.py],
    and the choices of [brain/platform/providers/model_policy.py] and
    [model_fallback.py] that need no database and no network.

    Prices are floating point and not modelled. *)
From Stdlib Require Import Ascii.
From S2P Require Import Prelude.
From S2P Require Import PyStr.
Open Scope string_scope.
Open Scope bool_scope.
Open Scope list_scope.

(** ** Effort *)

Definition EFFORT_TIERS : list string := ["none"; "low"; "medium"; "high"; "xhigh"].

Definition str_mem (s : string) (l : list string) : bool := existsb (String.eqb s) l.

(** [str(x or "").strip().lower()]. *)
Definition normalized (x : option string) : string := lower (strip (str_or x "")).

(** [PROVIDER_EFFORT_RENDERINGS]: [None] for an unknown provider; for a known one
    the native value of a canonical tier, [None] to omit reasoning. *)
Definition PROVIDER_EFFORT_RENDERINGS (provider : string) : option (list (string * option string)) :=
  if String.eqb provider "openai" then
    Some [("none", None); ("low", Some "low"); ("medium", Some "medium"); ("high", Some "high");
          ("xhigh", Some "xhigh")]
  else if String.eqb provider "anthropic" then
    Some [("none", None); ("low", Some "low"); ("medium", Some "medium"); ("high", Some "high");
          ("xhigh", Some "max")]
  else if String.eqb provider "ollama" then
    Some [("none", None); ("low", None); ("medium", None); ("high", None); ("xhigh", None)]
  else None.

Fixpoint lookup_rendering (tier : string) (l : list (string * option string)) : option (option string) :=
  match l with
  | [] => None
  | (t, r) :: l' => if String.eqb tier t then Some r else lookup_rendering tier l'
  end.

Definition render_reasoning_effort (provider : string) (tier : option string) : option string :=
  let normalized_tier := normalized tier in
  if String.eqb normalized_tier "" || String.eqb normalized_tier "none" then None
  else match PROVIDER_EFFORT_RENDERINGS (lower (strip provider)) with
       | None => Some normalized_tier
       | Some renderings =>
           match lookup_rendering normalized_tier renderings with
           | None => Some normalized_tier
           | Some r => r
           end
       end.

(** ** The catalog *)

Record ModelCatalogEntry : Type := {
  id : string;
  label : string;
  provider : string;
  supported_effort_tiers : list string;
  availability_fallback : option string;
  context_window_tokens : Z;
  provider_default : bool;
  long_context_threshold_tokens : option Z;
  preferred_compact_threshold_tokens : option Z }.

(** [s.split(c, 1)]: what is before and after the first [c]. *)
Fixpoint split_first (c : Ascii.ascii) (s : string) : option (string * string) :=
  match s with
  | EmptyString => None
  | String a s' => if Ascii.eqb a c then Some ("", s')
                   else match split_first c s' with
                        | Some (p, q) => Some (String a p, q)
                        | None => None
                        end
  end.
Definition slash : Ascii.ascii := "/"%char.
Definition colon : Ascii.ascii := ":"%char.
Definition has_slash (s : string) : bool := match split_first slash s with Some _ => true | None => false end.

(** [s.replace(":", "/", 1)]. *)
Definition colon_to_slash (s : string) : string :=
  match split_first colon s with Some (p, q) => p +:+ String slash q | None => s end.

(** [id.split("/", 1)[1]]; every id of the catalog has a slash. *)
Definition model_name (e : ModelCatalogEntry) : string :=
  match split_first slash (id e) with Some (_, q) => q | None => id e end.

Definition _ALL_EFFORT_TIERS : list string := EFFORT_TIERS.
Definition _NO_NATIVE_EFFORT : list string := ["none"].
Definition some_effort : list string := filter (fun t => t <> "none") EFFORT_TIERS.
Definition CREDENTIAL_FREE_PROVIDERS : list string := ["ollama"].

Definition MODEL_CATALOG : list ModelCatalogEntry := [
  {| id := "openai/gpt-6.1-sol"; label := "GPT-6.1 Sol"; provider := "openai";
     supported_effort_tiers := some_effort; availability_fallback := Some "openai/gpt-6-sol";
     context_window_tokens := 1050000; provider_default := true;
     long_context_threshold_tokens := Some 272000%Z; preferred_compact_threshold_tokens := Some 240000%Z |};
  {| id := "openai/gpt-6-sol"; label := "GPT-6 Sol"; provider := "openai";
     supported_effort_tiers := some_effort; availability_fallback := Some "openai/gpt-5.6-sol";
     context_window_tokens := 1050000; provider_default := false;
     long_context_threshold_tokens := Some 272000%Z; preferred_compact_threshold_tokens := Some 240000%Z |};
  {| id := "openai/gpt-6-astra"; label := "GPT-6 Astra"; provider := "openai";
     supported_effort_tiers := some_effort; availability_fallback := Some "openai/gpt-6.1-sol";
     context_window_tokens := 1050000; provider_default := false;
     long_context_threshold_tokens := Some 272000%Z; preferred_compact_threshold_tokens := None |};
  {| id := "openai/gpt-5.6-sol"; label := "GPT-5.6 Sol"; provider := "openai";
     supported_effort_tiers := _ALL_EFFORT_TIERS; availability_fallback := None;
     context_window_tokens := 1050000; provider_default := false;
     long_context_threshold_tokens := Some 272000%Z; preferred_compact_threshold_tokens := None |};
  {| id := "openai/gpt-5.6-luna"; label := "GPT-5.6 Luna"; provider := "openai";
     supported_effort_tiers := _ALL_EFFORT_TIERS; availability_fallback := Some "openai/gpt-5.6-sol";
     context_window_tokens := 1050000; provider_default := false;
     long_context_threshold_tokens := None; preferred_compact_threshold_tokens := None |};
  {| id := "openai/gpt-5.5"; label := "GPT-5.5"; provider := "openai";
     supported_effort_tiers := _ALL_EFFORT_TIERS; availability_fallback := None;
     context_window_tokens := 400000; provider_default := false;
     long_context_threshold_tokens := None; preferred_compact_threshold_tokens := None |};
  {| id := "anthropic/claude-sonnet-5"; label := "Claude Sonnet 5"; provider := "anthropic";
     supported_effort_tiers := _ALL_EFFORT_TIERS; availability_fallback := None;
     context_window_tokens := 1000000; provider_default := true;
     long_context_threshold_tokens := None; preferred_compact_threshold_tokens := None |};
  {| id := "anthropic/claude-opus-5"; label := "Claude Opus 5"; provider := "anthropic";
     supported_effort_tiers := _ALL_EFFORT_TIERS; availability_fallback := None;
     context_window_tokens := 1000000; provider_default := false;
     long_context_threshold_tokens := None; preferred_compact_threshold_tokens := None |};
  {| id := "anthropic/claude-fable-5"; label := "Claude Fable 5"; provider := "anthropic";
     supported_effort_tiers := _ALL_EFFORT_TIERS; availability_fallback := None;
     context_window_tokens := 1000000; provider_default := false;
     long_context_threshold_tokens := None; preferred_compact_threshold_tokens := None |};
  {| id := "anthropic/claude-haiku-4-5"; label := "Claude Haiku 4.5"; provider := "anthropic";
     supported_effort_tiers := _NO_NATIVE_EFFORT; availability_fallback := None;
     context_window_tokens := 200000; provider_default := false;
     long_context_threshold_tokens := None; preferred_compact_threshold_tokens := None |};
  {| id := "ollama/qwen3.6-27b"; label := "Qwen3.6 27B (local)"; provider := "ollama";
     supported_effort_tiers := _NO_NATIVE_EFFORT; availability_fallback := Some "openai/gpt-5.6-luna";
     context_window_tokens := 65536; provider_default := true;
     long_context_threshold_tokens := None; preferred_compact_threshold_tokens := None |}].

(** [MODEL_CATALOG_BY_ID.get(value)]. *)
Definition MODEL_CATALOG_BY_ID (value : string) : option ModelCatalogEntry :=
  List.find (fun e => String.eqb (id e) value) (rev MODEL_CATALOG).

Definition canonical_catalog_model_id (model : option string) : option string :=
  let value := colon_to_slash (normalized model) in
  if String.eqb value "" then None
  else match MODEL_CATALOG_BY_ID value with
       | Some _ => Some value
       | None =>
           if has_slash value then None
           else match filter (fun e => model_name e = value) MODEL_CATALOG with
                | [e] => Some (id e)
                | _ => None
                end
       end.

Definition get_model_catalog_entry (model : option string) : option ModelCatalogEntry :=
  match canonical_catalog_model_id model with
  | Some canonical_id => MODEL_CATALOG_BY_ID canonical_id
  | None => None
  end.

Definition model_accepts_effort (model tier : option string) : bool :=
  let normalized_tier := normalized tier in
  if String.eqb normalized_tier "" || String.eqb normalized_tier "none" then false
  else match get_model_catalog_entry model with
       | None => true
       | Some entry => str_mem normalized_tier (supported_effort_tiers entry)
       end.

(** [s or None]. *)
Definition some_text (s : string) : option string := if String.eqb s "" then None else Some s.

Definition normalize_model_effort (model tier : option string) : option string :=
  let normalized_tier := some_text (normalized tier) in
  match get_model_catalog_entry model with
  | Some entry =>
      if negb (str_mem "none" (supported_effort_tiers entry))
         && bool_decide (normalized_tier = None \/ normalized_tier = Some "none")
      then head (supported_effort_tiers entry)
      else normalized_tier
  | None => normalized_tier
  end.

Definition _AVAILABILITY_FALLBACK_ALIASES (value : string) : option string :=
  if String.eqb value "openai/gpt-5.6" then Some "openai/gpt-5.6-sol" else None.

Definition availability_fallback_for (model : option string) : option string :=
  match get_model_catalog_entry model with
  | Some entry => availability_fallback entry
  | None =>
      let value := colon_to_slash (normalized model) in
      _AVAILABILITY_FALLBACK_ALIASES (if has_slash value then value else "openai/" +:+ value)
  end.

(** ** model_fallback.py *)

Definition _canonical_model (model : option string) : string :=
  let value := colon_to_slash (normalized model) in
  match canonical_catalog_model_id (Some value) with
  | Some catalog_id => catalog_id
  | None => if has_slash value then value else "openai/" +:+ value
  end.

Definition fallback_model_for (model : option string) : option string :=
  availability_fallback_for (Some (_canonical_model model)).

(** ** model_policy.py *)

Definition DEFAULT_RUNTIME_PROVIDER : string := "openai".

(** [DEFAULT_PROVIDER_MODELS], in the order of the catalog. *)
Definition DEFAULT_PROVIDER_MODELS : list (string * string) :=
  (fun e => (provider e, model_name e)) <$> filter (fun e => provider_default e = true) MODEL_CATALOG.

Definition PROVIDER_MODEL_OPTIONS : list (string * list string) :=
  (fun p => (p, model_name <$> filter (fun e => provider e = p) MODEL_CATALOG)) <$> DEFAULT_PROVIDER_MODELS.*1.

Definition starts_any (prefixes : list string) (s : string) : bool :=
  existsb (fun p => startswith p s) prefixes.

(** [normalize_default_provider]: both branches answer the default provider. *)
Definition normalize_default_provider (p : option string) : string :=
  if String.eqb (normalized p) "openai" then "openai" else DEFAULT_RUNTIME_PROVIDER.

Definition normalize_runtime_provider (p : option string) : string :=
  let value := normalized p in
  if str_mem value (DEFAULT_PROVIDER_MODELS.*1) then value else DEFAULT_RUNTIME_PROVIDER.

(** The environment: [ILLO_LLM_PROVIDER] decides the active provider. *)
Definition get_active_provider (environ : string -> option string) : string :=
  default "openai" (environ "ILLO_LLM_PROVIDER").

Definition infer_provider_from_model (environ : string -> option string)
    (model dflt : option string) : string :=
  let fallback := normalize_default_provider (Some (str_or dflt (get_active_provider environ))) in
  match model with
  | None | Some "" => fallback
  | Some model =>
      let value := strip model in
      let lowered := lower value in
      if startswith "anthropic:" value then "anthropic"
      else if startswith "openai:" value then "openai"
      else if startswith "ollama:" value then "ollama"
      else if startswith "anthropic/" value then "anthropic"
      else if startswith "openai/" value then "openai"
      else if startswith "ollama/" value then "ollama"
      else if startswith "claude-" lowered then "anthropic"
      else if starts_any ["gpt-"; "o1"; "o3"; "o4"] lowered then "openai"
      else match List.find (fun po => str_mem value po.2) PROVIDER_MODEL_OPTIONS with
           | Some (p, _) => p
           | None => fallback
           end
  end.

(** [required_openai_auth_mode]: the first matching prefix is removed. *)
Fixpoint remove_first_prefix (prefixes : list string) (s : string) : string :=
  match prefixes with
  | [] => s
  | p :: rest => if startswith p s then removeprefix p s else remove_first_prefix rest s
  end.

Definition required_openai_auth_mode (model : option string) : option string :=
  let value := remove_first_prefix ["anthropic/"; "openai/"; "anthropic:"; "openai:"] (normalized model) in
  if str_mem value ["gpt-6-astra"; "gpt-6.1-sol"; "gpt-6-sol"; "gpt-5.5"] || startswith "gpt-5.6" value
  then Some "chatgpt" else None.

Definition default_openai_model : string :=
  match List.find (fun pm => String.eqb pm.1 "openai") DEFAULT_PROVIDER_MODELS with
  | Some (_, m) => "openai/" +:+ m
  | None => "openai/"
  end.

Definition coerce_openai_api_key_model (model : string) : option string :=
  let value := colon_to_slash (lower (strip model)) in
  let p := match split_first slash value with
           | Some (p, _) => Some p
           | None => if starts_any ["gpt-"; "o1"; "o3"; "o4"] value then Some "openai" else None
           end in
  match p with
  | Some "openai" =>
      match required_openai_auth_mode (Some model) with
      | Some _ => None
      | None => Some default_openai_model
      end
  | _ => None
  end.

Definition normalize_model_name (model : option string) : string :=
  match model with
  | None | Some "" => default_openai_model
  | Some model =>
      let value := strip model in
      let low := lower value in
      if str_contains "gpu_server" low || str_contains "local" low
         || startswith "brain.platform.gpu/" value then "local"
      else match canonical_catalog_model_id (Some value) with
      | Some catalog_id => catalog_id
      | None =>
          let explicitly_prefixed := colon_to_slash value in
          if starts_any ["anthropic/"; "ollama/"; "openai/"] explicitly_prefixed then explicitly_prefixed
          else
            let claude := startswith "claude-" low in
            if claude && str_contains "fable" low then "anthropic/claude-fable-5"
            else if claude && str_contains "opus" low then "anthropic/claude-opus-5"
            else if claude && str_contains "haiku" low then "anthropic/claude-haiku-4-5"
            else if claude && str_contains "sonnet" low then "anthropic/claude-sonnet-5"
            else if str_contains "gpt-5.5" low then "openai/gpt-5.5"
            else if str_contains "gpt-5.6-luna" low then "openai/gpt-5.6-luna"
            else if str_contains "gpt-5.6-sol" low then "openai/gpt-5.6-sol"
            else if str_contains "gpt-5.6" low then "openai/gpt-5.6-sol"
            else value
      end
  end.

(** * Properties *)

(** The models a fallback leads through, in order; at most [fuel] of them. *)
Fixpoint fallback_chain (fuel : nat) (model : option string) : list string :=
  match fuel, fallback_model_for model with
  | Datatypes.S fuel', Some next => next :: fallback_chain fuel' (Some next)
  | _, _ => []
  end.

Definition catalog_ids : list string := id <$> MODEL_CATALOG.

Lemma by_id_entry v e : MODEL_CATALOG_BY_ID v = Some e -> e ∈ MODEL_CATALOG /\ id e = v.
Proof.
  unfold MODEL_CATALOG_BY_ID. intros [Hin Hid]%List.find_some. apply String.eqb_eq in Hid. split; [|done].
  apply list_elem_of_In. by apply in_rev.
Qed.

(** Whatever is asked for, the fallback is one of the two last resorts of the
    catalog or the fallback of an entry. *)
Lemma fallback_candidates model next : fallback_model_for model = Some next ->
  Some next ∈ Some "openai/gpt-5.6-sol" :: (availability_fallback <$> MODEL_CATALOG).
Proof.
  unfold fallback_model_for, availability_fallback_for. destruct (get_model_catalog_entry _) as [e|] eqn:E.
  - intros H. right. rewrite <- H. apply list_elem_of_fmap_2.
    unfold get_model_catalog_entry in E. destruct (canonical_catalog_model_id _); [|done].
    by apply by_id_entry in E as [? _].
  - unfold _AVAILABILITY_FALLBACK_ALIASES. destruct (String.eqb _ "openai/gpt-5.6"); [|done].
    intros [= <-]. by left.
Qed.

(** The chains behind the possible first fallbacks, by computation. *)
Lemma chain_table : forallb (fun n => match n with
    | Some next =>
        let chain := next :: fallback_chain 10 (Some next) in
        Nat.leb (length chain) 3 && bool_decide (NoDup chain) && forallb (fun m => str_mem m catalog_ids) chain
    | None => true end)
  (Some "openai/gpt-5.6-sol" :: (availability_fallback <$> MODEL_CATALOG)) = true.
Proof. vm_compute. reflexivity. Qed.

Lemma chain_step fuel model : fallback_chain (Datatypes.S fuel) model =
  match fallback_model_for model with Some next => next :: fallback_chain fuel (Some next) | None => [] end.
Proof. reflexivity. Qed.

Lemma chain_short fuel extra model : length (fallback_chain fuel model) < fuel ->
  fallback_chain (fuel + extra) model = fallback_chain fuel model.
Proof.
  revert model. induction fuel as [|fuel IH]; intros model; [cbn; lia|]. cbn.
  destruct (fallback_model_for model); [|done]. cbn. intros H. f_equal. apply IH. lia.
Qed.

(** Falling back ends: from any model name, known or not, at most three
    fallbacks follow; each is a model of the catalog, none comes twice, and after
    the last there is no further fallback however long one tries. *)
Theorem fallback_chain_ends (model : option string) (extra : nat) :
  let chain := fallback_chain (length MODEL_CATALOG) model in
  length chain <= 3 /\ NoDup chain /\ (forall m, m ∈ chain -> m ∈ catalog_ids) /\
  fallback_chain (length MODEL_CATALOG + extra) model = chain.
Proof.
  intros chain. assert (H : length chain <= 3 /\ NoDup chain /\ forall m, m ∈ chain -> m ∈ catalog_ids).
  { unfold chain. change (length MODEL_CATALOG) with (Datatypes.S 10). rewrite chain_step.
    destruct (fallback_model_for model) as [next|] eqn:E.
    2:{ split_and!; [cbn; lia|constructor|]. by intros m ?%not_elem_of_nil. }
    apply fallback_candidates in E. pose proof chain_table as T. rewrite forallb_forall in T.
    specialize (T (Some next) (proj1 (list_elem_of_In _ _) E)). cbv beta iota zeta in T.
    revert T. generalize (next :: fallback_chain 10 (Some next)). intros l T. bool_simpl.
    split_and!; [by apply Nat.leb_le|done|]. intros m Hm. rewrite forallb_forall in *.
    match goal with H : forall x, In x _ -> _ |- _ => specialize (H m (proj1 (list_elem_of_In _ _) Hm)) end.
    unfold str_mem in *. match goal with H : existsb _ _ = true |- _ =>
      apply existsb_exists in H as (x & Hx & ->%String.eqb_eq) end. by apply list_elem_of_In. }
  destruct H as (Hl & Hn & Hi). split_and!; try done. unfold chain in *. apply chain_short.
  change (length MODEL_CATALOG) with 11 in *. lia.
Qed.
