(* ===== verification/ContextBudget.v ===== *)
(** The budget of a model's context, [brain/systems/context/budget.py]: how many
    tokens a prompt may have before it is compacted, and how far it is cut.

    The environment is an argument; integers are read from it as Python's [int]. *)
From S2P Require Import Prelude.
From S2P Require Import PyStr.
From S2P Require Import Models.
Open Scope string_scope.
Open Scope bool_scope.
Open Scope list_scope.
Open Scope Z_scope.

Definition DEFAULT_CONTEXT_WINDOW_TOKENS : Z := 128000.

Definition _PROVIDER_CONTEXT_WINDOWS (p : string) : Z :=
  if String.eqb p "anthropic" then 200000
  else if String.eqb p "openai" then 128000
  else DEFAULT_CONTEXT_WINDOW_TOKENS.

Definition _MODEL_PREFIX_CONTEXT_WINDOWS : list (string * string * Z) :=
  [("openai", "gpt-5.5", 400000); ("openai", "gpt-5.4-pro", 400000); ("openai", "gpt-5.4", 256000);
   ("openai", "gpt-5", 128000)].

(** [_REASONING_RESERVES.get(effort, _REASONING_RESERVES["medium"])]. *)
Definition _REASONING_RESERVES (effort : string) : Z :=
  if String.eqb effort "none" then 0
  else if String.eqb effort "low" then 4096
  else if String.eqb effort "medium" then 8192
  else if String.eqb effort "high" then 16384
  else if String.eqb effort "xhigh" then 24576
  else 8192.

Record ModelContextBudget : Type := {
  b_provider : string;
  b_model : string;
  context_window : Z;
  reserved_output_tokens : Z;
  reserved_reasoning_tokens : Z;
  reserved_tool_tokens : Z;
  safety_margin_tokens : Z;
  effective_input_limit_tokens : Z;
  auto_compact_threshold_tokens : Z;
  target_tokens : Z;
  emergency_target_tokens : Z;
  admission_ceiling_tokens : option Z }.

Section environment.
Variable environ : string -> option string.

Definition _env_int (name : string) (dflt : Z) : Z :=
  match environ name with
  | None => dflt
  | Some value => if String.eqb (strip value) "" then dflt else default dflt (int_of_str value)
  end.

(** [if os.environ.get(name):]. *)
Definition configured (name : string) : bool := negb (String.eqb (str_or (environ name) "") "").

Definition _strip_provider_prefix (model : option string) : string :=
  remove_first_prefix ["anthropic/"; "ollama/"; "openai/"; "anthropic:"; "ollama:"; "openai:"]
    (strip (str_or model "")).

Definition _resolve_provider (p : option string) (model : string) : string :=
  match p with
  | None | Some "" => infer_provider_from_model environ (Some model) (Some "openai")
  | Some p => lower (strip p)
  end.

Definition _context_window_for (p model : string) : Z :=
  if configured "AGENT_MODEL_CONTEXT_WINDOW_TOKENS" then
    Z.max 1 (_env_int "AGENT_MODEL_CONTEXT_WINDOW_TOKENS" DEFAULT_CONTEXT_WINDOW_TOKENS)
  else
    let normalized_model := _strip_provider_prefix (Some model) in
    match get_model_catalog_entry (Some (p +:+ "/" +:+ normalized_model)) with
    | Some catalog_entry => context_window_tokens catalog_entry
    | None =>
        match List.find (fun row => String.eqb p row.1.1 && startswith row.1.2 normalized_model)
                _MODEL_PREFIX_CONTEXT_WINDOWS with
        | Some (_, tokens) => tokens
        | None => _PROVIDER_CONTEXT_WINDOWS p
        end
    end.

Definition _reserved_output_tokens (max_output_tokens : option Z) : Z :=
  if configured "AGENT_CONTEXT_RESERVED_OUTPUT_TOKENS" then
    Z.max 0 (_env_int "AGENT_CONTEXT_RESERVED_OUTPUT_TOKENS" 16384)
  else match max_output_tokens with Some n => Z.max 0 n | None => 16384 end.

Definition _reserved_reasoning_tokens (reasoning_effort model : option string) : Z :=
  if configured "AGENT_CONTEXT_RESERVED_REASONING_TOKENS" then
    Z.max 0 (_env_int "AGENT_CONTEXT_RESERVED_REASONING_TOKENS" 0)
  else if negb (model_accepts_effort model reasoning_effort) then 0
  else _REASONING_RESERVES (lower (strip (str_or reasoning_effort "none"))).

Definition _reserved_tool_tokens (tools : nat) : Z :=
  if configured "AGENT_CONTEXT_RESERVED_TOOL_TOKENS" then
    Z.max 0 (_env_int "AGENT_CONTEXT_RESERVED_TOOL_TOKENS" 0)
  else Z.min 12000 (Z.max 0 (Z.of_nat tools) * 256).

(** The prompt limit left by the reserves, never below a quarter of the window. *)
Definition effective_limit (window reserved_total : Z) : Z :=
  let limit := Z.max 1 (window - reserved_total) in
  if Z.ltb limit (window / 4) then Z.max 1 (window / 4) else limit.

(** The compaction threshold, and the ceiling a preferred threshold may be
    relaxed to. *)
Definition thresholds (effective_input_limit : Z) (preferred_threshold : option Z) : Z * option Z :=
  if configured "AGENT_AUTO_COMPACT_TOKEN_LIMIT" then
    let threshold := Z.max 1 (_env_int "AGENT_AUTO_COMPACT_TOKEN_LIMIT" (effective_input_limit * 9 / 10)) in
    (Z.min threshold effective_input_limit, None)
  else
    (Z.max 1 (Z.min (effective_input_limit * 9 / 10) (int_or preferred_threshold effective_input_limit)),
     match preferred_threshold with
     | Some _ => Some (Z.max 1 (effective_input_limit * 9 / 10))
     | None => None
     end).

Definition resolve_model_context_budget (model : string) (p : option string)
    (reasoning_effort : option string) (max_output_tokens : option Z) (tools : nat) : ModelContextBudget :=
  let resolved_provider := _resolve_provider p model in
  let normalized_model := _strip_provider_prefix (Some model) in
  let window := _context_window_for resolved_provider normalized_model in
  let output_reserve := _reserved_output_tokens max_output_tokens in
  let reasoning_reserve := _reserved_reasoning_tokens reasoning_effort (Some model) in
  let tool_reserve := _reserved_tool_tokens tools in
  let safety_margin := Z.max 0 (_env_int "AGENT_CONTEXT_SAFETY_MARGIN_TOKENS" (Z.max 2048 (window / 50))) in
  let effective_input_limit :=
    effective_limit window (output_reserve + reasoning_reserve + tool_reserve + safety_margin) in
  let preferred_threshold :=
    match get_model_catalog_entry (Some (resolved_provider +:+ "/" +:+ normalized_model)) with
    | Some entry => preferred_compact_threshold_tokens entry
    | None => None
    end in
  let (threshold, admission_ceiling) := thresholds effective_input_limit preferred_threshold in
  let target :=
    if configured "AGENT_AUTO_COMPACT_TARGET_TOKENS" then
      Z.min (Z.max 1 (_env_int "AGENT_AUTO_COMPACT_TARGET_TOKENS" (threshold * 7 / 10))) threshold
    else Z.max 1 (threshold * 7 / 10) in
  let emergency_target :=
    Z.max 1 (Z.min threshold (_env_int "AGENT_EMERGENCY_COMPACT_TARGET_TOKENS" (threshold / 2))) in
  {| b_provider := resolved_provider; b_model := normalized_model; context_window := window;
     reserved_output_tokens := output_reserve; reserved_reasoning_tokens := reasoning_reserve;
     reserved_tool_tokens := tool_reserve; safety_margin_tokens := safety_margin;
     effective_input_limit_tokens := effective_input_limit;
     auto_compact_threshold_tokens := threshold; target_tokens := target;
     emergency_target_tokens := emergency_target; admission_ceiling_tokens := admission_ceiling |}.

(** * Properties *)

Lemma int_or_pos o d : 1 <= d -> (forall z, o = Some z -> 1 <= z) -> 1 <= int_or o d.
Proof. intros Hd Ho. destruct o as [z|]; cbn; [|done]. destruct (Z.eqb z 0); [done|by apply Ho]. Qed.

Lemma window_positive p model : 1 <= _context_window_for p model.
Proof.
  unfold _context_window_for. destruct (configured _); [lia|].
  destruct (get_model_catalog_entry _) as [e|] eqn:E.
  - unfold get_model_catalog_entry in E. destruct (canonical_catalog_model_id _); [|done].
    apply by_id_entry in E as [Hin _].
    assert (H : Forall (fun e => 1 <= context_window_tokens e) MODEL_CATALOG).
    { unfold MODEL_CATALOG. repeat (constructor; [cbn; lia|]). constructor. }
    by eapply Forall_forall in H.
  - destruct (List.find _ _) as [[[a b] tokens]|] eqn:F.
    + apply List.find_some in F as [Hin%list_elem_of_In _].
      assert (H : Forall (fun row => 1 <= row.2) _MODEL_PREFIX_CONTEXT_WINDOWS).
      { unfold _MODEL_PREFIX_CONTEXT_WINDOWS. repeat (constructor; [cbn; lia|]). constructor. }
      by eapply Forall_forall in H; [|exact Hin].
    + unfold _PROVIDER_CONTEXT_WINDOWS, DEFAULT_CONTEXT_WINDOW_TOKENS.
      destruct (String.eqb p "anthropic"); [lia|]. destruct (String.eqb p "openai"); lia.
Qed.

Lemma effective_limit_bounds window reserved : 1 <= window -> 0 <= reserved ->
  1 <= effective_limit window reserved <= window /\ window / 4 <= effective_limit window reserved /\
  (window / 4 <= window - reserved -> 1 <= window - reserved ->
   effective_limit window reserved = window - reserved).
Proof.
  intros Hw Hr. unfold effective_limit. pose proof (Z.div_le_upper_bound window 4 window).
  pose proof (Z.div_pos window 4). destruct (Z.ltb _ _) eqn:E.
  - apply Z.ltb_lt in E. split_and!; try lia.
  - apply Z.ltb_ge in E. split_and!; try lia.
Qed.

Lemma thresholds_bounds limit preferred t c : 1 <= limit -> (forall z, preferred = Some z -> 1 <= z) ->
  thresholds limit preferred = (t, c) ->
  1 <= t <= limit /\ (forall ceiling, c = Some ceiling -> t <= ceiling <= limit).
Proof.
  intros Hl Hp. unfold thresholds. pose proof (int_or_pos preferred limit Hl Hp).
  assert (limit * 9 / 10 <= limit) by (apply Z.div_le_upper_bound; lia).
  destruct (configured _).
  - intros [= <- <-]. split; [lia|done].
  - intros [= <- <-]. split; [lia|]. intros ceiling. destruct preferred; [|done]. intros [= <-]. lia.
Qed.

(** All limits of a resolved budget. *)
Lemma budget_facts (model : string) (p effort : option string) (max_output : option Z) (tools : nat) :
  let b := resolve_model_context_budget model p effort max_output tools in
  let reserved := reserved_output_tokens b + reserved_reasoning_tokens b + reserved_tool_tokens b +
                  safety_margin_tokens b in
  1 <= target_tokens b <= auto_compact_threshold_tokens b /\
  1 <= emergency_target_tokens b <= auto_compact_threshold_tokens b /\
  auto_compact_threshold_tokens b <= default (effective_input_limit_tokens b) (admission_ceiling_tokens b) /\
  default (effective_input_limit_tokens b) (admission_ceiling_tokens b) <= effective_input_limit_tokens b /\
  context_window b / 4 <= effective_input_limit_tokens b <= context_window b /\
  (context_window b / 4 <= context_window b - reserved -> 1 <= context_window b - reserved ->
   effective_input_limit_tokens b = context_window b - reserved).
Proof.
  unfold resolve_model_context_budget.
  pose proof (window_positive (_resolve_provider p model) (_strip_provider_prefix (Some model))) as Hw.
  set (window := _context_window_for _ _) in *.
  set (out := _reserved_output_tokens _). set (reas := _reserved_reasoning_tokens _ _).
  set (tool := _reserved_tool_tokens _). set (margin := Z.max 0 _).
  assert (Ho : 0 <= out) by (unfold out, _reserved_output_tokens; destruct (configured _), max_output; lia).
  assert (Hr : 0 <= reas).
  { unfold reas, _reserved_reasoning_tokens, _REASONING_RESERVES. destruct (configured _); [lia|].
    destruct (negb _); [lia|]. repeat (destruct (String.eqb _ _); [lia|]). lia. }
  assert (Ht : 0 <= tool) by (unfold tool, _reserved_tool_tokens; destruct (configured _); lia).
  assert (Hm : 0 <= margin) by (unfold margin; lia).
  destruct (effective_limit_bounds window (out + reas + tool + margin) Hw) as (He1 & He2 & He3); [lia|].
  set (limit := effective_limit _ _) in *. clearbody window out reas tool margin limit.
  destruct (thresholds limit _) as [t c] eqn:E.
  apply thresholds_bounds in E as [Ht1 Hc]; [|lia|].
  2:{ intros z. destruct (get_model_catalog_entry _) as [e|] eqn:Eg; [|done]. intros Hz.
      unfold get_model_catalog_entry in Eg. destruct (canonical_catalog_model_id _); [|done].
      apply by_id_entry in Eg as [Hin _].
      assert (H : Forall (fun e => forall z, preferred_compact_threshold_tokens e = Some z -> 1 <= z) MODEL_CATALOG).
      { unfold MODEL_CATALOG. repeat (constructor; [cbn; intros ? [= <-]; lia|]). constructor. }
      eapply Forall_forall in H; [|exact Hin]. by apply H. }
  assert (t * 7 / 10 <= t) by (apply Z.div_le_upper_bound; lia).
  cbn. split_and!; try lia.
  all: try (destruct (configured _); lia).
  all: destruct c as [ceiling|]; cbn; [specialize (Hc ceiling eq_refl)|]; lia.
Qed.

End environment.
