(* ===== verification/Sessions.v ===== *)
(** Stored transcripts, [brain/systems/sessions/__init__.py]: the sanitizer of
    tool_use and tool_result pairs, the clean-up of content blocks, cache
    breakpoints and the summary of trimmed messages.

    A message is a dictionary and a content block a JSON value; blocks that are
    objects of a provider's SDK (before [model_dump]) are not modelled. *)
From S2P Require Import Prelude.
From S2P Require Import PyStr.
From S2P Require Import Json.
From S2P Require Import JsonText.
Open Scope string_scope.
Open Scope bool_scope.
Open Scope list_scope.

Abbreviation message := dict.

(** ** Blocks and their ids *)

Definition block_field (k : string) (b : json) : json :=
  match b with JObj d => jget_or_null k d | _ => JNull end.
Definition _block_type (b : json) : json := block_field "type" b.
Definition _tool_use_id (b : json) : json := block_field "id" b.
Definition _tool_result_id (b : json) : json := block_field "tool_use_id" b.
Definition has_type (t : string) (b : json) : bool := py_eqb (_block_type b) (JStr t).
Definition has_role (r : string) (msg : message) : bool :=
  py_eqb (jget_or_null "role" msg) (JStr r).
Definition content_of (msg : message) : json := default (JStr "") (jget "content" msg).

(** ** Sets of ids

    A set is a list of hashable values; a list or a dictionary cannot be hashed. *)

Definition hashable (j : json) : bool := negb (is_list j || is_obj j).
Definition unhashable {A} : result A := Err (TypeError "unhashable type").

Definition in_set (x : json) (s : list json) : result bool :=
  if hashable x then Ok (py_in x s) else unhashable.

Definition set_add (s : list json) (x : json) : list json := if py_in x s then s else s ++ [x].

Definition py_set (l : list json) : result (list json) :=
  if forallb hashable l then Ok (fold_left set_add l []) else unhashable.

(** [a == b] on sets. *)
Definition set_eqb (a b : list json) : bool :=
  forallb (fun x => py_in x b) a && forallb (fun x => py_in x a) b.

(** A comprehension over blocks whose condition may raise. *)
Fixpoint select (p : json -> result bool) (l : list json) : result (list json) :=
  match l with
  | [] => Ok []
  | b :: l' => keep ← p b; rest ← select p l'; Ok (if (keep : bool) then b :: rest else rest)
  end.

(** ** The sanitizer *)

Definition _drop_blocks (content : json) (drop : json -> result bool) : result (json * Z) :=
  match content with
  | JList l =>
      kept ← select (fun b => dropped ← drop b; Ok (negb dropped)) l;
      Ok (JList kept, Z.of_nat (length l - length kept))
  | _ => Ok (content, 0%Z)
  end.

Record cleaning : Type := {
  cleaned : list message;
  pending_tool_ids : list json;
  pending_assistant_idx : option nat;
  removed_tool_use : Z;
  removed_tool_result : Z }.

Definition no_cleaning : cleaning :=
  {| cleaned := []; pending_tool_ids := []; pending_assistant_idx := None;
     removed_tool_use := 0; removed_tool_result := 0 |}.

(** [_block_type(b) == "tool_result"], with a further condition on its id. *)
Definition is_result_where (f : json -> result bool) (b : json) : result bool :=
  if has_type "tool_result" b then f (_tool_result_id b) else Ok false.

(** The unanswered assistant message loses the tool_use blocks still pending, and
    the transcript loses the message when nothing else is in it. *)
Definition withdraw_pending (c : cleaning) : result cleaning :=
  match pending_assistant_idx c with
  | Some i =>
      let assistant_msg := default [] (cleaned c !! i) in
      r ← _drop_blocks (default (JList []) (jget "content" assistant_msg))
            (fun b => if has_type "tool_use" b then in_set (_tool_use_id b) (pending_tool_ids c)
                      else Ok false);
      Ok {| cleaned := if truthy r.1 then <[i := jset "content" r.1 assistant_msg]> (cleaned c)
                       else delete i (cleaned c);
            pending_tool_ids := pending_tool_ids c;
            pending_assistant_idx := if truthy r.1 then Some i else None;
            removed_tool_use := removed_tool_use c + r.2;
            removed_tool_result := removed_tool_result c |}
  | None => Ok c
  end.

Definition no_pending (c : cleaning) : cleaning :=
  {| cleaned := cleaned c; pending_tool_ids := [];
     pending_assistant_idx := pending_assistant_idx c;
     removed_tool_use := removed_tool_use c; removed_tool_result := removed_tool_result c |}.

Definition count_results (n : Z) (c : cleaning) : cleaning :=
  {| cleaned := cleaned c; pending_tool_ids := pending_tool_ids c;
     pending_assistant_idx := pending_assistant_idx c;
     removed_tool_use := removed_tool_use c; removed_tool_result := removed_tool_result c + n |}.

Definition append_cleaned (msg : message) (c : cleaning) : cleaning :=
  {| cleaned := cleaned c ++ [msg]; pending_tool_ids := pending_tool_ids c;
     pending_assistant_idx := pending_assistant_idx c;
     removed_tool_use := removed_tool_use c; removed_tool_result := removed_tool_result c |}.

(** The tail of the loop's body, where no tool call is pending. *)
Definition clean_message (msg : message) (content : json) (c : cleaning) : result cleaning :=
  match content with
  | JList blocks =>
      uses ← select (fun b => Ok (has_type "tool_use" b && truthy (_tool_use_id b))) blocks;
      tool_use_ids ← py_set (_tool_use_id <$> uses);
      if has_role "user" msg then
        r ← _drop_blocks content (fun b => Ok (has_type "tool_result" b));
        Ok (if truthy r.1 then append_cleaned (jset "content" r.1 msg) (count_results r.2 c)
            else count_results r.2 c)
      else
        let c' := append_cleaned msg c in
        Ok (if has_role "assistant" msg && negb (Nat.eqb (length tool_use_ids) 0) then
              {| cleaned := cleaned c'; pending_tool_ids := tool_use_ids;
                 pending_assistant_idx := Some (length (cleaned c') - 1)%nat;
                 removed_tool_use := removed_tool_use c';
                 removed_tool_result := removed_tool_result c' |}
            else c')
  | _ => Ok (append_cleaned msg c)
  end.

(** The ids of the pending calls which the message answers. *)
Definition matching_result_ids (pending : list json) (msg : message) : result (list json) :=
  match content_of msg with
  | JList blocks =>
      if has_role "user" msg then
        found ← select (is_result_where (fun id => in_set id pending)) blocks;
        py_set (_tool_result_id <$> found)
      else Ok []
  | _ => Ok []
  end.

(** The body of the loop over messages. *)
Definition clean_step (c : cleaning) (msg : message) : result cleaning :=
  let content := content_of msg in
  if Nat.eqb (length (pending_tool_ids c)) 0 then clean_message msg content c else
  matching ← matching_result_ids (pending_tool_ids c) msg;
  if has_role "user" msg && set_eqb matching (pending_tool_ids c) then
    r ← _drop_blocks content (is_result_where (fun id =>
          known ← in_set id (pending_tool_ids c); Ok (negb known)));
    let c' := append_cleaned (jset "content" (if truthy r.1 then r.1 else JList []) msg)
                (count_results r.2 c) in
    Ok {| cleaned := cleaned c'; pending_tool_ids := []; pending_assistant_idx := None;
          removed_tool_use := removed_tool_use c'; removed_tool_result := removed_tool_result c' |}
  else
    c1 ← withdraw_pending c;
    let c2 := no_pending c1 in
    if has_role "user" msg && is_list content then
      r ← _drop_blocks content (fun b => Ok (has_type "tool_result" b));
      if truthy r.1 then clean_message (jset "content" r.1 msg) r.1 (count_results r.2 c2)
      else Ok (count_results r.2 c2)
    else clean_message msg content c2.

Fixpoint clean_loop (c : cleaning) (messages : list message) : result cleaning :=
  match messages with
  | [] => Ok c
  | msg :: rest => c' ← clean_step c msg; clean_loop c' rest
  end.

Definition _sanitize_tool_pairs (messages : list message) : result (list message) :=
  c ← clean_loop no_cleaning messages;
  if Nat.eqb (length (pending_tool_ids c)) 0 then Ok (cleaned c)
  else c' ← withdraw_pending c; Ok (cleaned c').

(** ** Content blocks *)

(** [_ALLOWED_BLOCK_FIELDS.get(block_type)]. *)
Definition _ALLOWED_BLOCK_FIELDS (block_type : string) : option (list string) :=
  if String.eqb block_type "text" then Some ["type"; "text"; "citations"; "cache_control"]
  else if String.eqb block_type "tool_use" then Some ["type"; "id"; "name"; "input"; "cache_control"]
  else if String.eqb block_type "tool_result"
       then Some ["type"; "tool_use_id"; "content"; "is_error"; "cache_control"]
  else if String.eqb block_type "thinking" then Some ["type"; "thinking"; "signature"]
  else if String.eqb block_type "redacted_thinking" then Some ["type"; "data"]
  else if String.eqb block_type "image" then Some ["type"; "source"; "cache_control"]
  else if String.eqb block_type "document" then Some ["type"; "source"; "cache_control"]
  else None.

Definition allowed_fields (block_type : json) : result (option (list string)) :=
  match block_type with
  | JStr t => Ok (_ALLOWED_BLOCK_FIELDS t)
  | JList _ | JObj _ => unhashable
  | _ => Ok None
  end.

Definition keep_fields (fields : list string) (d : dict) : dict :=
  filter (fun kv => kv.1 ∈ fields) d.

(** [d.get("type", "text")]. *)
Definition type_or_text (d : dict) : json := default (JStr "text") (jget "type" d).

(** [obj.get(field, str(obj))] for the object in a field that should be a string. *)
Definition flatten_field (field : string) (d : dict) : dict :=
  match jget field d with
  | Some (JObj o) => jset field (default (JStr (repr (JObj o))) (jget field o)) d
  | _ => d
  end.

Definition restrict_fields (block_type : json) (d : dict) : result dict :=
  allowed ← allowed_fields block_type;
  Ok (match allowed with Some fields => keep_fields fields d | None => d end).

Definition is_null (j : json) : bool := match j with JNull => true | _ => false end.

Definition content_to_dict (block : json) : result dict :=
  let d := match block with
           | JObj kvs => filter (fun kv => is_null kv.2 = false) kvs
           | _ => [("type", JStr "text"); ("text", JStr (py_str block))]
           end in
  let block_type := type_or_text d in
  let d := if py_eqb block_type (JStr "text") then flatten_field "text" d else d in
  let d := if py_eqb block_type (JStr "thinking") then flatten_field "thinking" d else d in
  restrict_fields block_type d.

Definition _content_to_dicts (content_blocks : list json) : result (list json) :=
  ds ← mapM content_to_dict content_blocks; Ok (JObj <$> ds).

(** One block of [_sanitize_content_blocks]. *)
Definition sanitize_block (block : json) : result json :=
  match block with
  | JObj d =>
      let d := jpop "parsed_output" d in
      let d := if py_eqb (jget_or_null "type" d) (JStr "text") then flatten_field "text" d else d in
      d ← restrict_fields (type_or_text d) d; Ok (JObj d)
  | _ => Ok block
  end.

Definition sanitize_message_blocks (msg : message) : result message :=
  match jget "content" msg with
  | Some (JList blocks) =>
      blocks' ← mapM sanitize_block blocks; Ok (jset "content" (JList blocks') msg)
  | _ => Ok msg
  end.

Definition _sanitize_content_blocks (messages : list message) : result (list message) :=
  mapM sanitize_message_blocks messages.

Definition is_thinking (b : json) : bool :=
  is_obj b && (has_type "thinking" b || has_type "redacted_thinking" b).

Definition _strip_thinking_from_messages (messages : list message) : list message :=
  messages ≫= fun msg =>
    match jget "content" msg with
    | Some (JList blocks) =>
        if has_role "assistant" msg then
          let filtered_content := filter (fun b => is_thinking b = false) blocks in
          if Nat.eqb (length filtered_content) 0 then []
          else [jset "content" (JList filtered_content) msg]
        else [msg]
    | _ => [msg]
    end.

(** ** Cache breakpoints *)

Definition clear_block (b : json) : json :=
  match b with JObj d => JObj (jpop "cache_control" d) | _ => b end.

Definition _clear_message_cache_breakpoints (messages : list message) : list message :=
  (fun msg => match jget "content" msg with
              | Some (JList blocks) => jset "content" (JList (clear_block <$> blocks)) msg
              | _ => msg
              end) <$> messages.

Definition ephemeral : json := JObj [("type", JStr "ephemeral")].

Definition set_breakpoint (b : json) : json :=
  match b with JObj d => JObj (jset "cache_control" ephemeral d) | _ => b end.

Definition _set_cache_breakpoint (msg : message) : message :=
  match jget "content" msg with
  | Some (JStr text) =>
      jset "content" (JList [JObj [("type", JStr "text"); ("text", JStr text);
                                   ("cache_control", ephemeral)]]) msg
  | Some (JList blocks) =>
      jset "content" (JList (alter set_breakpoint (length blocks - 1)%nat blocks)) msg
  | _ => msg
  end.

(** ** The summary of trimmed messages *)

(** [block.get("text", "").strip()[:150]]; only strings have [strip]. *)
Definition text_excerpt (d : dict) : result string :=
  match default (JStr "") (jget "text" d) with
  | JStr t => Ok (str_take 150 (strip t))
  | _ => Err (AttributeError "strip")
  end.

(** The first text block with an excerpt. *)
Fixpoint first_excerpt (blocks : list json) : result (option string) :=
  match blocks with
  | [] => Ok None
  | JObj d :: rest =>
      if has_type "text" (JObj d) then
        text ← text_excerpt d;
        if String.eqb text "" then first_excerpt rest else Ok (Some text)
      else first_excerpt rest
  | _ :: rest => first_excerpt rest
  end.

Definition summary_part (msg : message) : result (list string) :=
  let role := default (JStr "") (jget "role" msg) in
  let line text := [py_str role +:+ ": " +:+ text] in
  match content_of msg with
  | JStr t =>
      let text := str_take 150 (strip t) in
      Ok (if String.eqb text "" then [] else line text)
  | JList blocks =>
      found ← first_excerpt blocks;
      Ok (match found with Some text => line text | None => [] end)
  | _ => Ok []
  end.

Definition _summarize_trimmed_messages (messages : list message) : result string :=
  parts ← mapM summary_part messages;
  let text := join newline (mjoin parts) in
  let text := if Nat.ltb 2000 (String.length text)
              then str_take 2000 text +:+ newline +:+ "... (further content omitted)" else text in
  Ok (str_or (Some text) "No significant content in trimmed messages.").

(** ** Stored sessions

    A row of agent_sessions.  The columns [messages] and [handoff_summary] are JSONB:
    the database parses the text of a statement, keeps the value with the keys of
    every object in an order of its own, and refuses some texts, among them those
    with an escaped NUL, so that the statement raises.  The driver may hand out the
    value or a text of it. *)

Class JsonbColumn : Type := { to_jsonb : string -> option json }.

Record session_row : Type := {
  messages_col : json;
  system_prompt : option string;
  total_input_tokens : Z;
  total_output_tokens : Z;
  total_cache_read : Z;
  total_cache_creation : Z;
  user_id : option string;
  handoff_summary : json;
  handoff_message_count : Z }.

Abbreviation sessions := (gmap string session_row).

(** The [WHERE] clause: an owner is compared only when one is given. *)
Definition owned_by (uid : option string) (row : session_row) : bool :=
  if String.eqb (str_or uid "") "" then true else bool_decide (user_id row = uid).

Definition find_session (session_id : string) (uid : option string) (db : sessions) : option session_row :=
  match db !! session_id with
  | Some row => if owned_by uid row then Some row else None
  | None => None
  end.

(** What iterating over the value yields, when every item has [get]. *)
Definition as_messages (j : json) : option (list message) :=
  match j with
  | JList l => mapM (fun m => match m with JObj d => Some d | _ => None end) l
  | JObj [] | JStr "" => Some []
  | _ => None
  end.

Definition read_column (j : json) : option json :=
  match j with JList _ => Some j | JStr s => loads s | _ => None end.

(** [json.dumps(messages, default=str)]. *)
Definition dump_messages (messages : list message) : string :=
  dumps ", " ": " (JList (JObj <$> messages)).

Section columns.
Context `{JsonbColumn}.

(** An exception anywhere in the body is logged and answers [([], None)]. *)
Definition async_load_session (session_id : string) (uid : option string) (db : sessions)
    : list message * option string :=
  match find_session session_id uid db with
  | Some row =>
      match read_column (messages_col row) ≫= as_messages with
      | Some messages =>
          match (paired ← _sanitize_tool_pairs messages; _sanitize_content_blocks paired) with
          | Ok messages => (messages, system_prompt row)
          | Err _ => ([], None)
          end
      | None => ([], None)
      end
  | None => ([], None)
  end.

(** INSERT .. ON CONFLICT (session_id) DO UPDATE; a statement that raises is logged and
    writes nothing. *)
Definition async_save_session (session_id : string) (messages : list message)
    (prompt : option string) (tokens_input tokens_output cache_read cache_creation : Z)
    (uid : option string) (db : sessions) : sessions :=
  match to_jsonb (dump_messages messages) with
  | None => db
  | Some written =>
    <[session_id :=
    match db !! session_id with
    | Some old =>
        {| messages_col := written; system_prompt := prompt;
           total_input_tokens := total_input_tokens old + tokens_input;
           total_output_tokens := total_output_tokens old + tokens_output;
           total_cache_read := total_cache_read old + cache_read;
           total_cache_creation := total_cache_creation old + cache_creation;
           user_id := user_id old; handoff_summary := handoff_summary old;
           handoff_message_count := handoff_message_count old |}
    | None =>
        {| messages_col := written; system_prompt := prompt;
           total_input_tokens := tokens_input; total_output_tokens := tokens_output;
           total_cache_read := cache_read; total_cache_creation := cache_creation;
           user_id := uid; handoff_summary := JNull; handoff_message_count := 0 |}
    end]> db
  end.

Definition async_load_session_handoff (session_id : string) (uid : option string) (db : sessions)
    : option dict :=
  row ← find_session session_id uid db;
  match handoff_summary row with
  | JObj d => Some d
  | JStr s => if String.eqb (strip s) "" then None
              else match loads s with Some (JObj d) => Some d | _ => None end
  | _ => None
  end.

Definition async_save_session_handoff (session_id : string) (summary : option dict)
    (uid : option string) (db : sessions) : sessions :=
  match summary with
  | None | Some [] => db
  | Some handoff =>
      match py_int (jor (jget_or_null "message_count" handoff) (JInt 0)),
            find_session session_id uid db, to_jsonb (dumps ", " ": " (JObj handoff)) with
      | Some count, Some row, Some written =>
          <[session_id :=
            {| messages_col := messages_col row; system_prompt := system_prompt row;
               total_input_tokens := total_input_tokens row;
               total_output_tokens := total_output_tokens row;
               total_cache_read := total_cache_read row;
               total_cache_creation := total_cache_creation row; user_id := user_id row;
               handoff_summary := written;
               handoff_message_count := count |}]> db
      | _, _, _ => db
      end
  end.
End columns.

(** ** Reading a thread *)

(** [json.dumps(j, sort_keys=True, default=str)]. *)
Definition dumps_sorted (j : json) : string := dumps ", " ": " (sort_keys j).

Definition _compact_message_for_read (index : nat) (msg : message) (max_chars : Z) : dict :=
  let content := jget_or_null "content" msg in
  let text := match content with JStr t => t | _ => dumps_sorted content end in
  let text := if Z.ltb max_chars (Z.of_nat (String.length text))
              then str_take (Z.to_nat max_chars) text +:+ newline +:+ "... (message content truncated)"
              else text in
  [("index", JInt (Z.of_nat index)); ("role", jget_or_null "role" msg); ("content", JStr text)].

Definition read_limit (limit : option Z) : Z := Z.max 1 (Z.min (int_or limit 20) 100).
Definition read_chars (max_chars : option Z) : Z := Z.max 200 (Z.min (int_or max_chars 8000) 20000).

(** [l[-n:]] for a positive [n]. *)
Definition last_n {A} (n : nat) (l : list A) : list A := drop (length l - n) l.

Definition select_messages (mode : string) (start_index end_index : option Z) (query : option string)
    (limit : nat) (messages : list message) : list (nat * message) :=
  let indexed := imap pair messages in
  let total := Z.of_nat (length messages) in
  if String.eqb mode "search" then
    let needle := lower (strip (str_or query "")) in
    if String.eqb needle "" then []
    else take limit (filter (fun im =>
           str_contains needle (lower (dumps_sorted (JObj im.2))) = true) indexed)
  else if String.eqb mode "range" then
    let start := Z.max 0 (int_or start_index 0) in
    let stop := match end_index with None => total | Some e => Z.min total (Z.max start e) end in
    take limit (drop (Z.to_nat start) (take (Z.to_nat stop) indexed))
  else last_n limit indexed.

Definition async_read_thread_messages (session_id : string) (uid : option string) (mode : option string)
    (start_index end_index : option Z) (query : option string) (limit max_chars : option Z)
    (db : sessions) : dict :=
  let messages := (async_load_session session_id uid db).1 in
  let mode := lower (strip (str_or mode "recent")) in
  let selected := select_messages mode start_index end_index query
                    (Z.to_nat (read_limit limit)) messages in
  [("session_id", JStr session_id); ("mode", JStr mode);
   ("message_count", JInt (Z.of_nat (length messages)));
   ("returned_count", JInt (Z.of_nat (length selected)));
   ("messages", JList ((fun im => JObj (_compact_message_for_read im.1 im.2 (read_chars max_chars)))
                         <$> selected))].
