(* ===== verification/SessionTheorems.v ===== *)
(** What the sanitizer of transcripts guarantees: it is a filter on blocks that looks at
    the neighbouring messages only, its output answers every tool call at once and
    nothing else, and it leaves a transcript alone that is already in order. *)
From S2P Require Import Prelude.
From S2P Require Import PyStr.
From S2P Require Import Json.
From S2P Require Import JsonText.
From S2P Require Import Sessions.
Open Scope string_scope.
Open Scope bool_scope.
Open Scope list_scope.

(** * Specification *)

Definition blocks_of (msg : message) : list json :=
  match content_of msg with JList l => l | _ => [] end.

Definition is_use (b : json) : bool := has_type "tool_use" b && truthy (_tool_use_id b).

(** The ids of the calls an assistant message makes and of the results a user
    message brings. *)
Definition calls (msg : message) : list json :=
  if has_role "assistant" msg then _tool_use_id <$> filter (fun b => is_use b = true) (blocks_of msg) else [].
Definition answers (msg : message) : list json :=
  if has_role "user" msg
  then _tool_result_id <$> filter (fun b => has_type "tool_result" b = true) (blocks_of msg) else [].

(** A message answers the owed calls, and only those. *)
Definition settles (owed : list json) (msg : message) : Prop :=
  Forall (fun id => py_in id (answers msg) = true) owed /\
  Forall (fun id => py_in id owed = true) (answers msg).

(** Each message settles the calls of the message before it. *)
Fixpoint paired (owed : list json) (ms : list message) : Prop :=
  match ms with
  | [] => True
  | m :: ms' => settles owed m /\ paired (calls m) ms'
  end.

Fixpoint owed_after (owed : list json) (ms : list message) : list json :=
  match ms with [] => owed | m :: ms' => owed_after (calls m) ms' end.

(** A transcript in the order a provider accepts. *)
Definition well_paired (ms : list message) : Prop := paired [] ms /\ owed_after [] ms = [].

(** The blocks of a transcript with the rest of their message, and those that
    are neither a call nor a result. *)
Definition parts_of (m : message) : list (dict * json) :=
  match content_of m with
  | JList l => (fun b => (jpop "content" m, b)) <$> l
  | c => [(jpop "content" m, c)]
  end.
Definition parts (ms : list message) : list (dict * json) := ms ≫= parts_of.
Definition is_tool_block (b : json) : bool := has_type "tool_use" b || has_type "tool_result" b.
Definition spoken (ps : list (dict * json)) : list (dict * json) :=
  filter (fun p => is_tool_block p.2 = false) ps.

(** Only tool blocks are missing from [ps]. *)
Definition trimmed (ps qs : list (dict * json)) : Prop :=
  sublist ps qs /\ spoken ps = spoken qs.

Definition silent_user (m : message) : Prop := has_role "user" m = true /\ content_of m = JList [].

(** Every id of a transcript can be hashed. *)
Definition ids_hashable (m : message) : Prop :=
  Forall (fun p => hashable (_tool_use_id p.2) = true /\ hashable (_tool_result_id p.2) = true) (parts_of m).

(** * Sets and comprehensions *)

Definition key (j : json) : json := match j with JBool b => JInt (if b then 1 else 0) | _ => j end.

Lemma py_eqb_key a b : hashable a = true -> py_eqb a b = true <-> key a = key b.
Proof.
  destruct a as [|[]|z|s|l|d]; try done; intros _; destruct b as [|[]|z'|s'|l'|d']; cbn;
    rewrite ?Z.eqb_eq, ?String.eqb_eq; split; try done; try congruence; intros [=]; congruence.
Qed.

Lemma py_in_key x s : hashable x = true -> py_in x s = true <-> key x ∈ key <$> s.
Proof.
  intros Hx. unfold py_in. rewrite existsb_exists, list_elem_of_fmap. split.
  - intros (y & Hy & E). exists y. rewrite list_elem_of_In. split; [|done]. by apply py_eqb_key.
  - intros (y & E & Hy). exists y. rewrite <- list_elem_of_In. split; [done|]. by apply py_eqb_key.
Qed.

(** What a successful condition answered. *)
Definition yes (r : result bool) : bool := match r with Ok b => b | Err _ => false end.

Lemma select_ok p l r : select p l = Ok r ->
  r = filter (fun b => yes (p b) = true) l /\ Forall (fun b => is_ok (p b) = true) l.
Proof.
  revert r. induction l as [|b l IH]; intros r; [by intros [= <-]|]. cbn [select].
  destruct (p b) as [k|e] eqn:E; [|done]. cbn [mbind result_bind].
  destruct (select p l) as [rest|e] eqn:E2; [|done]. cbn [mbind result_bind].
  destruct (IH _ eq_refl) as [-> Hok]. intros [= <-]. split.
  - rewrite filter_cons, E. cbn [yes]. by destruct k; [rewrite decide_True|rewrite decide_False].
  - constructor; [by rewrite E|done].
Qed.

Lemma select_total p l : Forall (fun b => is_ok (p b) = true) l ->
  select p l = Ok (filter (fun b => yes (p b) = true) l).
Proof.
  induction 1 as [|b l Hb Hl IH]; [done|]. cbn [select].
  destruct (p b) as [k|e] eqn:E; [|done]. cbn [mbind result_bind]. rewrite IH.
  cbn [mbind result_bind]. rewrite filter_cons, E. cbn [yes].
  by destruct k; [rewrite decide_True|rewrite decide_False].
Qed.

Lemma set_of_spec l : forall s0, let s := fold_left set_add l s0 in
  (forall x, x ∈ s -> x ∈ s0 \/ x ∈ l) /\ (forall x, hashable x = true -> x ∈ s0 \/ x ∈ l -> py_in x s = true).
Proof.
  induction l as [|y l IH]; intros s0; cbn [fold_left].
  - split; [by left|]. intros x Hx [H|H]; [|by apply not_elem_of_nil in H].
    apply py_in_key; [done|]. by apply list_elem_of_fmap_2.
  - destruct (IH (set_add s0 y)) as [H1 H2]. unfold set_add in *. split.
    + intros x [H|H]%H1; [|by right; right]. destruct (py_in y s0); [by left|].
      apply elem_of_app in H as [H|H]; [by left|]. apply list_elem_of_singleton in H as ->. right. by left.
    + intros x Hx Hin. rewrite elem_of_cons in Hin.
      destruct (py_in y s0) eqn:E.
      * destruct Hin as [H|[->|H]]; [by apply H2; auto| |by apply H2; auto].
        apply py_in_key in E; [|done]. apply list_elem_of_fmap in E as (z & Ez & Hz).
        apply py_in_key; [done|]. rewrite Ez. destruct (decide (hashable z = true)) as [Hh|Hh].
        -- apply py_in_key; [done|]. apply H2; auto.
        -- exfalso. apply Hh. revert Ez Hx. by destruct y as [|[]| | | |], z.
      * apply H2; [done|]. rewrite elem_of_app, list_elem_of_singleton. tauto.
Qed.

Lemma py_set_ok l s : py_set l = Ok s ->
  Forall (fun x => hashable x = true) l /\ (forall x, x ∈ s -> x ∈ l) /\ (forall x, x ∈ l -> py_in x s = true).
Proof.
  unfold py_set. destruct (forallb hashable l) eqn:E; [|done]. intros [= <-].
  rewrite forallb_forall in E. destruct (set_of_spec l []) as [H1 H2].
  assert (Hh : Forall (fun x => hashable x = true) l).
  { apply Forall_forall. intros x Hx. by apply E, list_elem_of_In. }
  split; [done|]. split.
  - intros x [H|H]%H1; [by apply not_elem_of_nil in H|done].
  - intros x Hx. apply H2; [|by right]. by eapply Forall_forall in Hh.
Qed.

Lemma py_set_total l : Forall (fun x => hashable x = true) l -> exists s, py_set l = Ok s.
Proof.
  intros Hl. unfold py_set. rewrite (proj2 (forallb_forall hashable l)); [by eexists|].
  intros x Hx%list_elem_of_In. by eapply Forall_forall in Hl.
Qed.

(** * Messages *)

Lemma has_role_jset r v m : has_role r (jset "content" v m) = has_role r m.
Proof. unfold has_role, jget_or_null. by rewrite jget_jset_ne. Qed.

Lemma content_of_jset v m : content_of (jset "content" v m) = v.
Proof. unfold content_of. by rewrite jget_jset_eq. Qed.

Lemma jpop_jset k v d : jpop k (jset k v d) = jpop k d.
Proof.
  induction d as [|[k' v'] d IH]; cbn [jset jpop]; [by rewrite String.eqb_refl|].
  destruct (String.eqb k k') eqn:E; cbn [jpop]; [by rewrite String.eqb_refl|].
  by rewrite E, IH.
Qed.

Lemma jset_same k v d : jget k d = Some v -> jset k v d = d.
Proof.
  induction d as [|[k' v'] d IH]; cbn [jget jset]; [done|].
  destruct (String.eqb k k') eqn:E; [|intros H; by rewrite IH].
  apply String.eqb_eq in E as ->. by intros [= ->].
Qed.

Lemma parts_jset l m : parts_of (jset "content" (JList l) m) = (fun b => (jpop "content" m, b)) <$> l.
Proof. unfold parts_of. by rewrite content_of_jset, jpop_jset. Qed.

Lemma blocks_jset l m : blocks_of (jset "content" (JList l) m) = l.
Proof. unfold blocks_of. by rewrite content_of_jset. Qed.

Lemma role_exclusive m : has_role "user" m = true -> has_role "assistant" m = false.
Proof.
  unfold has_role. destruct (jget_or_null "role" m); try done. cbn. by intros ->%String.eqb_eq.
Qed.

(** * Removing tool blocks only *)

Lemma spoken_app ps qs : spoken (ps ++ qs) = spoken ps ++ spoken qs.
Proof. apply filter_app. Qed.

Lemma trimmed_refl ps : trimmed ps ps.
Proof. done. Qed.
Lemma trimmed_trans ps qs rs : trimmed ps qs -> trimmed qs rs -> trimmed ps rs.
Proof. intros [? E1] [? E2]. split; [by etrans|congruence]. Qed.
Lemma trimmed_app ps qs ps' qs' : trimmed ps qs -> trimmed ps' qs' -> trimmed (ps ++ ps') (qs ++ qs').
Proof. intros [? E1] [? E2]. split; [by apply sublist_app|]. rewrite !spoken_app. congruence. Qed.

(** A filter that keeps every block that is not a tool block. *)
Lemma trimmed_filter (f : json -> bool) e l :
  (forall b, f b = false -> is_tool_block b = true) ->
  trimmed ((fun b => (e, b)) <$> filter (fun b => f b = true) l) ((fun b : json => (e : dict, b)) <$> l).
Proof.
  intros Hf. unfold trimmed, spoken. induction l as [|b l [IH1 IH2]]; [done|]. rewrite filter_cons.
  destruct (decide (f b = true)) as [Hb|Hb]; cbn [fmap list_fmap].
  - split; [by constructor|]. rewrite !filter_cons. cbn [snd]. rewrite IH2. done.
  - split; [by constructor|]. apply not_true_iff_false, Hf in Hb. rewrite IH2, filter_cons.
    cbn [snd]. rewrite decide_False; [done|congruence].
Qed.

Lemma parts_app ms ms' : parts (ms ++ ms') = parts ms ++ parts ms'.
Proof. unfold parts. by rewrite bind_app. Qed.
Lemma parts_one m : parts [m] = parts_of m.
Proof. unfold parts. cbn. by rewrite app_nil_r. Qed.

(** * Pairing of a transcript that grows *)

Lemma paired_app o l k : paired o (l ++ k) <-> paired o l /\ paired (owed_after o l) k.
Proof. revert o. induction l as [|m l IH]; intros o; cbn; [tauto|]. rewrite IH. tauto. Qed.
Lemma owed_app o l k : owed_after o (l ++ k) = owed_after (owed_after o l) k.
Proof. revert o. induction l as [|m l IH]; intros o; cbn; [done|]. by rewrite IH. Qed.

Lemma settles_nil m : answers m = [] -> settles [] m.
Proof. intros E. split; rewrite ?E; constructor. Qed.

Lemma settles_nil_inv m : settles [] m -> answers m = [].
Proof. intros [_ H]. destruct (answers m) as [|x l]; [done|]. by apply Forall_cons in H as [? _]. Qed.

(** ** Dropping blocks *)

Definition kept_blocks (drop : json -> result bool) (l : list json) : list json :=
  filter (fun b => negb (yes (drop b)) = true) l.

Lemma drop_blocks_ok l drop r : _drop_blocks (JList l) drop = Ok r ->
  r.1 = JList (kept_blocks drop l) /\ Forall (fun b => is_ok (drop b) = true) l.
Proof.
  unfold _drop_blocks. destruct (select _ l) as [kept|] eqn:E; [|done]. cbn [mbind result_bind].
  apply select_ok in E as [-> Hok].
  assert (Hok' : Forall (fun b => is_ok (drop b) = true) l).
  { eapply Forall_impl; [exact Hok|]. intros b. cbn beta. by destruct (drop b). }
  intros [= <-]. cbn [fst]. split; [|done]. f_equal. unfold kept_blocks.
  apply filter_agree. intros b Hb. eapply Forall_forall in Hok'; [|done]. by destruct (drop b).
Qed.

Lemma drop_blocks_total l drop : Forall (fun b => is_ok (drop b) = true) l ->
  exists r, _drop_blocks (JList l) drop = Ok r.
Proof.
  intros H. unfold _drop_blocks. rewrite select_total; [by eexists|].
  eapply Forall_impl; [exact H|]. intros b. cbn beta. by destruct (drop b).
Qed.

Lemma truthy_list l : truthy (JList l) = true <-> l <> [].
Proof. by destruct l. Qed.

(** * The invariant of the loop *)

Record tidy (seen : list message) (c : cleaning) : Prop := {
  tidy_paired : paired [] (cleaned c);
  tidy_pending : forall x, x ∈ pending_tool_ids c -> x ∈ owed_after [] (cleaned c);
  tidy_owed : forall x, x ∈ owed_after [] (cleaned c) -> py_in x (pending_tool_ids c) = true;
  tidy_index : pending_tool_ids c <> [] ->
    exists front a, cleaned c = front ++ [a] /\ has_role "assistant" a = true /\
      is_list (content_of a) = true /\ pending_assistant_idx c = Some (length front);
  tidy_users : Forall (fun m => ~ silent_user m) (cleaned c);
  tidy_parts : trimmed (parts (cleaned c)) (parts seen) }.

Lemma tidy_seen seen seen' c : trimmed (parts seen) (parts seen') -> tidy seen c -> tidy seen' c.
Proof. intros H []. constructor; try done. by eapply trimmed_trans. Qed.

Lemma tidy_no_owed seen c : tidy seen c -> pending_tool_ids c = [] -> owed_after [] (cleaned c) = [].
Proof.
  intros H E. destruct (owed_after [] (cleaned c)) as [|x l] eqn:Eo; [done|].
  pose proof (tidy_owed _ _ H x) as Hx. rewrite Eo, E in Hx. by discriminate Hx; left.
Qed.

(** A message without answers is added when nothing is owed. *)
Lemma tidy_append seen c msg msg' c' :
  tidy seen c -> pending_tool_ids c = [] -> answers msg' = [] -> ~ silent_user msg' ->
  trimmed (parts_of msg') (parts_of msg) ->
  cleaned c' = cleaned c ++ [msg'] ->
  (forall x, x ∈ pending_tool_ids c' -> x ∈ calls msg') ->
  (forall x, x ∈ calls msg' -> py_in x (pending_tool_ids c') = true) ->
  (pending_tool_ids c' <> [] -> has_role "assistant" msg' = true /\ is_list (content_of msg') = true /\
     pending_assistant_idx c' = Some (length (cleaned c))) ->
  tidy (seen ++ [msg]) c'.
Proof.
  intros H Hp Ha Hs Ht E H1 H2 H3. pose proof (tidy_no_owed _ _ H Hp) as Ho. destruct H.
  constructor; rewrite ?E, ?owed_app; cbn [owed_after].
  - apply paired_app. rewrite Ho. split; [done|]. cbn. split; [by apply settles_nil|done].
  - done.
  - done.
  - intros Hne. destruct (H3 Hne) as (? & ? & ?). by eexists _, _.
  - apply Forall_app. split; [done|]. by constructor.
  - rewrite !parts_app, !parts_one. by apply trimmed_app.
Qed.

Lemma calls_user m : has_role "user" m = true -> calls m = [].
Proof. intros H. unfold calls. by rewrite role_exclusive. Qed.
Lemma answers_other m : has_role "user" m = false -> answers m = [].
Proof. intros H. unfold answers. by rewrite H. Qed.
Lemma no_blocks m : is_list (content_of m) = false -> calls m = [] /\ answers m = [].
Proof.
  intros H. unfold calls, answers, blocks_of. destruct (content_of m); try done;
    by destruct (has_role "assistant" m), (has_role "user" m).
Qed.

(** A message that is kept as it is and makes no calls. *)
Lemma tidy_plain seen c msg :
  tidy seen c -> pending_tool_ids c = [] -> answers msg = [] -> calls msg = [] -> ~ silent_user msg ->
  tidy (seen ++ [msg]) (append_cleaned msg c).
Proof.
  intros H Hp Ha Hc Hs. apply (tidy_append seen c msg msg); try done; cbn; rewrite Hp.
  - by intros x ?%not_elem_of_nil.
  - rewrite Hc. by intros x ?%not_elem_of_nil.
Qed.

(** A user message while nothing is owed loses its results. *)
Lemma tidy_user seen c msg blocks n :
  tidy seen c -> pending_tool_ids c = [] -> content_of msg = JList blocks -> has_role "user" msg = true ->
  let l := kept_blocks (fun b => Ok (has_type "tool_result" b)) blocks in
  tidy (seen ++ [msg]) (if truthy (JList l) then append_cleaned (jset "content" (JList l) msg) (count_results n c)
                        else count_results n c).
Proof.
  intros H Hp Eb Er l.
  assert (Ht : trimmed ((fun b => (jpop "content" msg, b)) <$> l) (parts_of msg)).
  { unfold parts_of. rewrite Eb. apply trimmed_filter. intros b. cbn.
    unfold is_tool_block. destruct (has_type "tool_result" b); [|done]. by rewrite orb_true_r. }
  assert (Hc : tidy seen (count_results n c)) by (destruct H; by constructor).
  destruct (truthy (JList l)) eqn:Et.
  - apply (tidy_append seen (count_results n c) msg (jset "content" (JList l) msg)); try done.
    + unfold answers. rewrite has_role_jset, Er, blocks_jset. unfold l, kept_blocks.
      rewrite filter_nothing; [done|]. intros b Hin Hb.
      apply list_elem_of_filter in Hin as [Hin _]. cbn in Hin. by rewrite Hb in Hin.
    + intros [_ E]. rewrite content_of_jset in E. by rewrite E in Et.
    + by rewrite parts_jset.
    + cbn. rewrite Hp. by intros x ?%not_elem_of_nil.
    + rewrite calls_user by (by rewrite has_role_jset). by intros x ?%not_elem_of_nil.
  - eapply tidy_seen; [|exact Hc]. assert (l = []) as El by (by destruct l).
    rewrite parts_app, parts_one, <- (app_nil_r (parts seen)) at 1. apply trimmed_app; [done|].
    by rewrite El in Ht.
Qed.

Lemma clean_message_ok seen msg c c' :
  tidy seen c -> pending_tool_ids c = [] -> clean_message msg (content_of msg) c = Ok c' ->
  tidy (seen ++ [msg]) c'.
Proof.
  intros H Hp. unfold clean_message. destruct (is_list (content_of msg)) eqn:El.
  2:{ destruct (no_blocks _ El) as [Hc Ha].
      assert (E : Ok (append_cleaned msg c) = Ok c' -> tidy (seen ++ [msg]) c').
      { intros [= <-]. apply tidy_plain; try done. intros [_ E]. by rewrite E in El. }
      by destruct (content_of msg). }
  destruct (content_of msg) as [| | | |blocks|] eqn:Eb; try done. clear El.
  destruct (select _ blocks) as [uses|] eqn:Eu; [|done]. cbn [mbind result_bind].
  apply select_ok in Eu as [-> _]. cbn [yes].
  destruct (py_set _) as [ids|] eqn:Es; [|done]. cbn [mbind result_bind].
  apply py_set_ok in Es as (_ & Hs1 & Hs2).
  destruct (has_role "user" msg) eqn:Er.
  { destruct (_drop_blocks _ _) as [r|] eqn:Ed; [|done]. cbn [mbind result_bind].
    apply drop_blocks_ok in Ed as [Er1 _]. intros E. injection E as <-. rewrite Er1. by apply tidy_user. }
  intros E. injection E as <-.
  assert (Hsilent : ~ silent_user msg) by (intros [? _]; congruence).
  assert (Hcalls : calls msg = if has_role "assistant" msg then _tool_use_id <$>
      filter (fun b => has_type "tool_use" b && truthy (_tool_use_id b) = true) blocks else []).
  { unfold calls, blocks_of. by rewrite Eb. }
  destruct (has_role "assistant" msg) eqn:Ea; cbn [andb].
  2:{ apply tidy_plain; [done..|by apply answers_other|done|done]. }
  destruct ids as [|id ids]; cbn [length Nat.eqb negb].
  - apply tidy_plain; [done..|by apply answers_other| |done]. rewrite Hcalls.
    destruct (_ <$> _) as [|x l]; [done|]. exfalso. specialize (Hs2 x (list_elem_of_here _ _)). done.
  - eapply (tidy_append seen c msg msg); try done.
    + by apply answers_other.
    + cbn. rewrite Hcalls. apply Hs1.
    + cbn. rewrite Hcalls. apply Hs2.
    + intros _. cbn. rewrite Eb, length_app. cbn. split_and!; [done|done|f_equal; lia].
Qed.

(** ** The call that was not answered *)

Lemma assistant_answers m : has_role "assistant" m = true -> answers m = [].
Proof.
  intros H. apply answers_other. destruct (has_role "user" m) eqn:E; [|done].
  by rewrite (role_exclusive _ E) in H.
Qed.

Lemma settles_nothing owed m : settles owed m -> answers m = [] -> owed = [].
Proof.
  intros [H _] E. rewrite E in H. destruct owed as [|x l]; [done|]. by apply Forall_cons in H as [? _].
Qed.

Lemma list_content m : is_list (content_of m) = true ->
  jget "content" m = Some (JList (blocks_of m)) /\ content_of m = JList (blocks_of m).
Proof.
  unfold blocks_of, content_of. by destruct (jget "content" m) as [[| | | |l|]|].
Qed.

(** The condition on which a block of the unanswered message is dropped. *)
Definition drop_pending (pending : list json) (b : json) : result bool :=
  if has_type "tool_use" b then in_set (_tool_use_id b) pending else Ok false.

(** The withdrawn message: its calls are gone, the rest is kept. *)
Lemma withdrawn_calls pending a :
  has_role "assistant" a = true -> (forall x, x ∈ calls a -> py_in x pending = true) ->
  Forall (fun b => is_ok (drop_pending pending b) = true) (blocks_of a) ->
  calls (jset "content" (JList (kept_blocks (drop_pending pending) (blocks_of a))) a) = [].
Proof.
  intros Ha Hin Hok. unfold calls in *. rewrite has_role_jset, Ha, blocks_jset in *.
  rewrite filter_nothing; [done|]. intros b Hb Hu.
  unfold kept_blocks in Hb. apply list_elem_of_filter in Hb as [Hd Hb].
  assert (Hp : py_in (_tool_use_id b) pending = true).
  { by apply Hin, list_elem_of_fmap_2, list_elem_of_filter. }
  eapply Forall_forall in Hok; [|exact Hb]. unfold drop_pending, in_set in *.
  apply andb_true_iff in Hu as [Ht _]. rewrite Ht in *.
  destruct (hashable (_tool_use_id b)); [|done]. by rewrite Hp in Hd.
Qed.

Lemma withdrawn_parts pending a : is_list (content_of a) = true ->
  trimmed ((fun b => (jpop "content" a, b)) <$> kept_blocks (drop_pending pending) (blocks_of a)) (parts_of a).
Proof.
  intros Hl. unfold parts_of. destruct (list_content _ Hl) as [_ ->]. apply trimmed_filter.
  intros b. unfold drop_pending, is_tool_block. by destruct (has_type "tool_use" b).
Qed.

Lemma withdraw_ok seen c c1 : tidy seen c -> pending_tool_ids c <> [] ->
  withdraw_pending c = Ok c1 -> tidy seen (no_pending c1).
Proof.
  intros H Hne. destruct (tidy_index _ _ H Hne) as (front & a & Ec & Ha & Hl & Ei).
  destruct H as [Hpd Hpn How _ Hus Hpt].
  unfold withdraw_pending. rewrite Ei, Ec, list_lookup_middle by done. cbn [from_option id].
  destruct (list_content _ Hl) as [-> El]. cbn [from_option id].
  destruct (_drop_blocks _ _) as [r|] eqn:Ed; [|done]. cbn [mbind result_bind].
  apply drop_blocks_ok in Ed as [Er Hok]. intros E. injection E as <-. rewrite Er.
  change (kept_blocks _ (blocks_of a)) with (kept_blocks (drop_pending (pending_tool_ids c)) (blocks_of a)).
  rewrite Ec in *. rewrite owed_app in *. cbn [owed_after] in *.
  rewrite paired_app in Hpd. destruct Hpd as [Hpf [Hset _]].
  apply Forall_app in Hus as [Huf _].
  pose proof (settles_nothing _ _ Hset (assistant_answers _ Ha)) as Hof.
  rewrite parts_app, parts_one in Hpt.
  pose proof (withdrawn_parts (pending_tool_ids c) a Hl) as Hwp.
  pose proof (withdrawn_calls (pending_tool_ids c) a Ha How Hok) as Hwc.
  set (l := kept_blocks _ _) in *. destruct (truthy (JList l)) eqn:Et.
  - unfold no_pending. cbn. rewrite insert_app_r_alt, Nat.sub_diag by lia. cbn [insert list_insert].
    split; cbn; rewrite ?paired_app, ?owed_app; cbn; rewrite ?Hwc; try done.
    + split_and!; [done| |done]. rewrite Hof. apply settles_nil, assistant_answers. by rewrite has_role_jset.
    + by intros x ?%not_elem_of_nil.
    + apply Forall_app. split; [done|]. constructor; [|done].
      intros [_ E]. rewrite content_of_jset in E. by rewrite E in Et.
    + rewrite parts_app, parts_one, parts_jset. 
      eapply trimmed_trans; [|exact Hpt]. by apply trimmed_app.
  - unfold no_pending. cbn. rewrite delete_middle.  rewrite app_nil_r.
    assert (l = []) as El' by (by destruct l).
    assert (Ht : trimmed (parts front ++ []) (parts front ++ parts_of a)).
    { apply trimmed_app; [done|]. by rewrite El' in Hwp. }
    rewrite app_nil_r in Ht. split; cbn; try done.
    + by intros x ?%not_elem_of_nil.
    + rewrite Hof. by intros x ?%not_elem_of_nil.
    + by eapply trimmed_trans.
Qed.

(** ** The call that was answered *)

Lemma py_in_exists x s : py_in x s = true <-> exists y, y ∈ s /\ py_eqb x y = true.
Proof.
  unfold py_in. rewrite existsb_exists. split; intros (y & Hy & E); exists y;
    by (split; [by apply list_elem_of_In|done]).
Qed.

Lemma py_in_mono x s s' : (forall y, y ∈ s -> y ∈ s') -> py_in x s = true -> py_in x s' = true.
Proof. intros Hs (y & Hy & E)%py_in_exists. apply py_in_exists. eauto. Qed.

Lemma hashable_eqb a b : py_eqb a b = true -> hashable b = true -> hashable a = true.
Proof. by destruct a, b. Qed.

Lemma py_in_trans x s s' : Forall (fun z => hashable z = true) s' ->
  (forall y, y ∈ s -> py_in y s' = true) -> py_in x s = true -> py_in x s' = true.
Proof.
  intros Hh Hs (y & Hy & Exy)%py_in_exists. destruct (proj1 (py_in_exists _ _) (Hs y Hy)) as (z & Hz & Eyz).
  assert (hashable y = true) as Hhy by (eapply hashable_eqb; [done|by eapply Forall_forall in Hh]).
  assert (hashable x = true) as Hhx by (by eapply hashable_eqb).
  apply py_in_exists. exists z. split; [done|].
  apply py_eqb_key in Exy; [|done]. apply py_eqb_key in Eyz; [|done]. apply py_eqb_key; congruence.
Qed.

(** A result whose id is known to be pending. *)
Definition pending_result (pending : list json) (b : json) : Prop :=
  has_type "tool_result" b = true /\ py_in (_tool_result_id b) pending = true.

Lemma yes_in_set x s : yes (in_set x s) = true -> py_in x s = true.
Proof. unfold in_set. by destruct (hashable x). Qed.

(** Matching ids: every pending call has a result in the message. *)
Lemma matching_ok pending msg found : pending <> [] ->
  matching_result_ids pending msg = Ok found -> has_role "user" msg && set_eqb found pending = true ->
  has_role "user" msg = true /\ is_list (content_of msg) = true /\
  Forall (fun z => hashable z = true) found /\ (forall y, y ∈ pending -> py_in y found = true) /\
  (forall x, x ∈ found -> exists b, b ∈ blocks_of msg /\ pending_result pending b /\ x = _tool_result_id b).
Proof.
  intros Hne Hm [Hr He]%andb_true_iff. unfold set_eqb in He. apply andb_true_iff in He as [_ He].
  rewrite forallb_forall in He.
  assert (Hp : forall y, y ∈ pending -> py_in y found = true) by (intros y Hy; by apply He, list_elem_of_In).
  unfold matching_result_ids in Hm. rewrite Hr in Hm.
  destruct (content_of msg) as [| | | |blocks|] eqn:Eb;
    try (injection Hm as <-; destruct pending as [|x ?]; [done|];
         by specialize (Hp x (list_elem_of_here _ _))).
  destruct (select _ blocks) as [l|] eqn:Es; [|done]. cbn [mbind result_bind] in Hm.
  apply select_ok in Es as [-> _]. apply py_set_ok in Hm as (Hh & Hsub & Hall).
  split_and!; try done.
  { apply Forall_forall. intros x Hx%Hsub. by eapply Forall_forall in Hh. }
  intros x (b & -> & Hb)%Hsub%list_elem_of_fmap. apply list_elem_of_filter in Hb as [Hy Hb].
  exists b. unfold blocks_of. rewrite Eb. split_and!; try done. unfold is_result_where in Hy.
  destruct (has_type "tool_result" b) eqn:Et; [|done]. split; [done|]. by apply yes_in_set.
Qed.

Definition drop_unknown (pending : list json) : json -> result bool :=
  is_result_where (fun id => known ← in_set id pending; Ok (negb known)).

Lemma kept_result pending b : is_ok (drop_unknown pending b) = true ->
  negb (yes (drop_unknown pending b)) = true <-> has_type "tool_result" b = false \/ pending_result pending b.
Proof.
  unfold drop_unknown, is_result_where, pending_result. destruct (has_type "tool_result" b); [|naive_solver].
  unfold in_set. destruct (hashable _); [|done]. intros _. cbn. rewrite negb_involutive. naive_solver.
Qed.

Lemma answered_ok seen c msg found r :
  tidy seen c -> pending_tool_ids c <> [] -> matching_result_ids (pending_tool_ids c) msg = Ok found ->
  has_role "user" msg && set_eqb found (pending_tool_ids c) = true ->
  _drop_blocks (content_of msg) (drop_unknown (pending_tool_ids c)) = Ok r ->
  exists l, r.1 = JList l /\ l <> [] /\ let msg' := jset "content" (JList l) msg in
    settles (owed_after [] (cleaned c)) msg' /\ calls msg' = [] /\ trimmed (parts_of msg') (parts_of msg).
Proof.
  intros H Hne Hm He Hd. destruct (matching_ok _ _ _ Hne Hm He) as (Hr & Hl & Hh & Hp & Hf).
  destruct (list_content _ Hl) as [_ El]. rewrite El in Hd. apply drop_blocks_ok in Hd as [Er Hok].
  set (l := kept_blocks _ _) in Er. exists l.
  assert (Hin : forall b, b ∈ l <-> b ∈ blocks_of msg /\
    (has_type "tool_result" b = false \/ pending_result (pending_tool_ids c) b)).
  { intros b. unfold l, kept_blocks. rewrite list_elem_of_filter. split; intros [H1 H2].
    - split; [done|]. eapply Forall_forall in Hok; [|done]. by apply kept_result.
    - split; [|done]. eapply Forall_forall in Hok; [|done]. by apply kept_result. }
  assert (Hans : forall x, x ∈ answers (jset "content" (JList l) msg) <->
    exists b, b ∈ blocks_of msg /\ pending_result (pending_tool_ids c) b /\ x = _tool_result_id b).
  { intros x. unfold answers. rewrite has_role_jset, Hr, blocks_jset, list_elem_of_fmap. split.
    - intros (b & -> & [Ht Hb]%list_elem_of_filter). apply Hin in Hb as [Hb [Hb'|Hb']]; [congruence|]. eauto.
    - intros (b & Hb & Hb' & ->). exists b. split; [done|]. apply list_elem_of_filter.
      split; [by destruct Hb'|]. apply Hin. auto. }
  split; [done|]. split; [|intros msg'; split; [split|split]].
  - destruct (pending_tool_ids c) as [|y p] eqn:Ep; [done|].
    destruct (proj1 (py_in_exists _ _) (Hp y (list_elem_of_here _ _))) as (z & Hz & _).
    destruct (Hf z Hz) as (b & Hb & Hb' & _). assert (b ∈ l) as Hbl by (apply Hin; auto).
    intros El'. rewrite El' in Hbl. by apply not_elem_of_nil in Hbl.
  - apply Forall_forall. intros x Hx%(tidy_owed _ _ H).
    apply py_in_mono with found; [|by eapply py_in_trans]. intros y Hy. apply Hans, Hf, Hy.
  - apply Forall_forall. intros x (b & _ & [_ Hb] & ->)%Hans.
    eapply py_in_mono; [|exact Hb]. apply (tidy_pending _ _ H).
  - apply calls_user. unfold msg'. by rewrite has_role_jset.
  - unfold msg'. rewrite parts_jset. unfold parts_of. rewrite El. apply trimmed_filter. intros b.
    unfold is_tool_block, drop_unknown, is_result_where. destruct (has_type "tool_result" b); [|done].
    by rewrite orb_true_r.
Qed.

(** ** The loop *)

Lemma clean_step_ok seen c msg c' : tidy seen c -> clean_step c msg = Ok c' -> tidy (seen ++ [msg]) c'.
Proof.
  intros H. unfold clean_step. destruct (Nat.eqb _ 0) eqn:E0.
  { apply Nat.eqb_eq, nil_length_inv in E0. by apply clean_message_ok. }
  assert (Hne : pending_tool_ids c <> []) by (intros E; by rewrite E in E0).
  destruct (matching_result_ids _ _) as [found|] eqn:Em; [|done]. cbn [mbind result_bind].
  destruct (has_role "user" msg && set_eqb _ _) eqn:Ea.
  - change (is_result_where _) with (drop_unknown (pending_tool_ids c)).
    destruct (_drop_blocks _ _) as [r|] eqn:Ed; [|done]. cbn [mbind result_bind].
    destruct (answered_ok seen c msg found r H Hne Em Ea Ed) as (l & -> & Hl & Hs & Hc & Ht).
    rewrite (proj2 (truthy_list l)) by done. intros E. injection E as <-. destruct H.
    constructor; cbn; rewrite ?owed_app; cbn; rewrite ?Hc; try done.
    + by apply paired_app.
    + by intros x ?%not_elem_of_nil.
    + apply Forall_app. split; [done|]. constructor; [|done]. intros [_ E]. rewrite content_of_jset in E. congruence.
    + rewrite !parts_app, !parts_one. by apply trimmed_app.
  - destruct (withdraw_pending c) as [c1|] eqn:Ew; [|done]. cbn [mbind result_bind].
    pose proof (withdraw_ok _ _ _ H Hne Ew) as H1.
    destruct (has_role "user" msg && is_list (content_of msg)) eqn:Eu; [|by apply clean_message_ok].
    apply andb_true_iff in Eu as [Hr Hl]. destruct (list_content _ Hl) as [_ El].
    rewrite El. destruct (_drop_blocks _ _) as [r|] eqn:Ed; [|done]. cbn [mbind result_bind].
    apply drop_blocks_ok in Ed as [-> _].
    pose proof (tidy_user seen (no_pending c1) msg _ r.2 H1 eq_refl El Hr) as Hu. cbv zeta in Hu.
    destruct (truthy _); [|intros E; by injection E as <-].
    set (l := kept_blocks _ _) in *. intros Hm.
    rewrite <- (content_of_jset (JList l) msg) in Hm at 2.
    apply (clean_message_ok seen) in Hm; [|destruct H1; by constructor|done].
    eapply tidy_seen; [|exact Hm]. rewrite !parts_app, !parts_one. apply trimmed_app; [done|].
    rewrite parts_jset. unfold parts_of. rewrite El. apply trimmed_filter. intros b. cbn.
    unfold is_tool_block. destruct (has_type "tool_result" b); [|done]. by rewrite orb_true_r.
Qed.

Lemma clean_loop_ok seen c ms c' : tidy seen c -> clean_loop c ms = Ok c' -> tidy (seen ++ ms) c'.
Proof.
  revert seen c. induction ms as [|m ms IH]; intros seen c H; cbn [clean_loop].
  - intros [= <-]. by rewrite app_nil_r.
  - destruct (clean_step c m) as [c1|] eqn:E; [|done]. cbn [mbind result_bind]. intros Hl.
    rewrite cons_middle, app_assoc. eapply IH; [by eapply clean_step_ok|done].
Qed.

Lemma tidy_start : tidy [] no_cleaning.
Proof. constructor; try done. by intros x ?%not_elem_of_nil. Qed.

Lemma sanitize_tidy ms out : _sanitize_tool_pairs ms = Ok out ->
  exists c, tidy ms c /\ pending_tool_ids c = [] /\ cleaned c = out.
Proof.
  unfold _sanitize_tool_pairs. destruct (clean_loop _ _) as [c|] eqn:E; [|done]. cbn [mbind result_bind].
  apply (clean_loop_ok [] _ _ _ tidy_start) in E. cbn [app] in E.
  destruct (Nat.eqb _ 0) eqn:E0.
  - apply Nat.eqb_eq, nil_length_inv in E0. intros [= <-]. by exists c.
  - destruct (withdraw_pending c) as [c1|] eqn:Ew; [|done]. intros E1. injection E1 as <-.
    exists (no_pending c1). split; [|done]. apply withdraw_ok with c; try done.
    intros En. by rewrite En in E0.
Qed.

(** * The sanitizer succeeds *)

Lemma blocks_hashable m : ids_hashable m ->
  Forall (fun b => hashable (_tool_use_id b) = true /\ hashable (_tool_result_id b) = true) (blocks_of m).
Proof.
  unfold ids_hashable, parts_of, blocks_of. destruct (content_of m); try constructor.
  intros H. apply Forall_fmap in H. exact H.
Qed.

(** What is left of a transcript with hashable ids has hashable ids. *)
Lemma tidy_hashable seen c m : tidy seen c -> Forall ids_hashable seen -> m ∈ cleaned c -> ids_hashable m.
Proof.
  intros H Hs Hm. apply Forall_forall. intros p Hp. destruct (tidy_parts _ _ H) as [Hsub _].
  assert (p ∈ parts seen) as Hin.
  { eapply elem_of_sublist; [|exact Hsub]. unfold parts. apply list_elem_of_bind. eauto. }
  unfold parts in Hin. apply list_elem_of_bind in Hin as (m' & Hp' & Hm').
  eapply Forall_forall in Hs; [|exact Hm']. by eapply Forall_forall in Hs; [|exact Hp'].
Qed.

Lemma select_ids_total (t : string) (f : json -> result bool) (id : json -> json) l :
  Forall (fun b => hashable (id b) = true) l ->
  (forall x, hashable x = true -> is_ok (f x) = true) ->
  Forall (fun b => is_ok (if has_type t b then f (id b) else Ok false) = true) l.
Proof.
  intros Hl Hf. eapply Forall_impl; [exact Hl|]. intros b Hb. cbn beta. destruct (has_type t b); [by apply Hf|done].
Qed.

Lemma in_set_total s x : hashable x = true -> is_ok (in_set x s) = true.
Proof. intros H. unfold in_set. by rewrite H. Qed.

Lemma pure_total (f : json -> bool) l : Forall (fun b => is_ok (Ok (f b)) = true) l.
Proof. by apply Forall_true. Qed.

Lemma clean_message_total msg c : ids_hashable msg -> exists c', clean_message msg (content_of msg) c = Ok c'.
Proof.
  intros Hm%blocks_hashable. unfold clean_message, blocks_of in *.
  destruct (content_of msg) as [| | | |blocks|]; try by eexists.
  rewrite select_total by apply pure_total. cbn [mbind result_bind].
  destruct (py_set_total (_tool_use_id <$> filter (fun b => yes (Ok (has_type "tool_use" b && truthy (_tool_use_id b))) = true) blocks))
    as [s ->].
  { apply Forall_fmap, Forall_kept. eapply Forall_impl; [exact Hm|]. by intros b [? _]. }
  cbn [mbind result_bind]. destruct (has_role "user" msg); [|by eexists].
  destruct (drop_blocks_total blocks _ (pure_total (has_type "tool_result") blocks)) as [r ->].
  by eexists.
Qed.

Lemma matching_total pending msg : ids_hashable msg -> exists found, matching_result_ids pending msg = Ok found.
Proof.
  intros Hm%blocks_hashable. unfold matching_result_ids, blocks_of in *.
  destruct (content_of msg) as [| | | |blocks|]; try by eexists.
  destruct (has_role "user" msg); [|by eexists].
  assert (Hr : Forall (fun b => hashable (_tool_result_id b) = true) blocks).
  { eapply Forall_impl; [exact Hm|]. by intros b [_ ?]. }
  rewrite select_total by (apply (select_ids_total "tool_result" (fun x => in_set x pending) _tool_result_id);
    [done|intros; by apply in_set_total]).
  cbn [mbind result_bind]. apply py_set_total. by apply Forall_fmap, Forall_kept.
Qed.

Lemma withdraw_total seen c : tidy seen c -> Forall ids_hashable seen -> pending_tool_ids c <> [] ->
  exists c', withdraw_pending c = Ok c'.
Proof.
  intros H Hs Hne. destruct (tidy_index _ _ H Hne) as (front & a & Ec & Ha & Hl & Ei).
  assert (Hh : ids_hashable a).
  { eapply tidy_hashable; [done..|]. rewrite Ec. apply elem_of_app. right. by left. }
  unfold withdraw_pending. rewrite Ei, Ec, list_lookup_middle by done. cbn [from_option id].
  destruct (list_content _ Hl) as [-> _]. cbn [from_option id].
  destruct (drop_blocks_total (blocks_of a) (drop_pending (pending_tool_ids c))) as [r Er].
  { apply (select_ids_total "tool_use" (fun x => in_set x (pending_tool_ids c)) _tool_use_id);
      [|intros; by apply in_set_total].
    eapply Forall_impl; [by apply blocks_hashable|]. by intros b [? _]. }
  unfold drop_pending in Er. rewrite Er. by eexists.
Qed.

Lemma clean_step_total seen c msg : tidy seen c -> Forall ids_hashable seen -> ids_hashable msg ->
  exists c', clean_step c msg = Ok c'.
Proof.
  intros H Hs Hm. unfold clean_step. destruct (Nat.eqb _ 0) eqn:E0; [by apply clean_message_total|].
  assert (Hne : pending_tool_ids c <> []) by (intros E; by rewrite E in E0).
  destruct (matching_total (pending_tool_ids c) msg Hm) as [found Ef]. rewrite Ef. cbn [mbind result_bind].
  destruct (has_role "user" msg && set_eqb _ _) eqn:Ea.
  - destruct (matching_ok _ _ _ Hne Ef Ea) as (_ & Hl & _). destruct (list_content _ Hl) as [_ ->].
    destruct (drop_blocks_total (blocks_of msg) (drop_unknown (pending_tool_ids c))) as [r Er].
    { apply (select_ids_total "tool_result"
        (fun x => known ← in_set x (pending_tool_ids c); Ok (negb known)) _tool_result_id).
      - eapply Forall_impl; [by apply blocks_hashable|]. by intros b [_ ?].
      - intros x Hx. unfold in_set. by rewrite Hx. }
    unfold drop_unknown in Er. rewrite Er. by eexists.
  - destruct (withdraw_total seen c H Hs Hne) as [c1 ->]. cbn [mbind result_bind].
    destruct (has_role "user" msg && is_list _) eqn:Eu; [|by apply clean_message_total].
    apply andb_true_iff in Eu as [_ Hl]. destruct (list_content _ Hl) as [_ El]. rewrite El.
    destruct (drop_blocks_total (blocks_of msg) _ (pure_total (has_type "tool_result") _)) as [r Er].
    rewrite Er. cbn [mbind result_bind]. apply drop_blocks_ok in Er as [Er _]. rewrite Er.
    destruct (truthy _); [|by eexists]. set (l := kept_blocks _ _).
    pose proof (fun c' => clean_message_total (jset "content" (JList l) msg) c') as Ht.
    rewrite content_of_jset in Ht. apply Ht. unfold ids_hashable. rewrite parts_jset. apply Forall_fmap, Forall_kept.
    eapply Forall_impl; [by apply blocks_hashable|]. done.
Qed.

Lemma clean_loop_total seen c ms : tidy seen c -> Forall ids_hashable seen -> Forall ids_hashable ms ->
  exists c', clean_loop c ms = Ok c'.
Proof.
  revert seen c. induction ms as [|m ms IH]; intros seen c H Hs Hm; [by eexists|].
  apply Forall_cons in Hm as [Hm Hms]. destruct (clean_step_total _ _ _ H Hs Hm) as [c1 E].
  cbn [clean_loop]. rewrite E. cbn [mbind result_bind]. apply (IH (seen ++ [m])); [by eapply clean_step_ok| |done].
  apply Forall_app. split; [done|]. by constructor.
Qed.

Lemma sanitize_total ms : Forall ids_hashable ms -> exists out, _sanitize_tool_pairs ms = Ok out.
Proof.
  intros H. unfold _sanitize_tool_pairs.
  destruct (clean_loop_total [] _ ms tidy_start (Forall_nil_2 _) H) as [c E]. rewrite E. cbn [mbind result_bind].
  destruct (Nat.eqb _ 0) eqn:E0; [by eexists|].
  apply (clean_loop_ok [] _ _ _ tidy_start) in E. cbn [app] in E.
  destruct (withdraw_total ms c E H) as [c1 ->]; [|by eexists]. intros En. by rewrite En in E0.
Qed.

(** * Transcripts in order are left alone *)

Lemma kept_all drop l : (forall b, b ∈ l -> yes (drop b) = false) -> kept_blocks drop l = l.
Proof. intros H. unfold kept_blocks. apply filter_all. intros b Hb. by rewrite H. Qed.

Lemma drop_none l drop : Forall (fun b => is_ok (drop b) = true) l ->
  (forall b, b ∈ l -> yes (drop b) = false) -> exists n, _drop_blocks (JList l) drop = Ok (JList l, n).
Proof.
  intros Hok Hno. destruct (drop_blocks_total _ _ Hok) as [[j n] E]. exists n. rewrite E.
  apply drop_blocks_ok in E as [E _]. cbn [fst] in E. rewrite kept_all in E by done. by rewrite E.
Qed.

Lemma no_answers_no_results m b : answers m = [] -> has_role "user" m = true -> b ∈ blocks_of m ->
  has_type "tool_result" b = false.
Proof.
  unfold answers. intros H Hr Hb. rewrite Hr in H. apply not_true_iff_false. intros Ht.
  assert (Hin : b ∈ filter (fun b => has_type "tool_result" b = true) (blocks_of m)) by (by apply list_elem_of_filter).
  destruct (filter _ (blocks_of m)); [by apply not_elem_of_nil in Hin|done].
Qed.

Lemma clean_message_same msg c c' : answers msg = [] -> ~ silent_user msg ->
  clean_message msg (content_of msg) c = Ok c' -> cleaned c' = cleaned c ++ [msg].
Proof.
  intros Ha Hs. unfold clean_message. destruct (is_list (content_of msg)) eqn:El.
  2:{ assert (E : Ok (append_cleaned msg c) = Ok c' -> cleaned c' = cleaned c ++ [msg]) by (by intros [= <-]).
      by destruct (content_of msg). }
  destruct (list_content _ El) as [Ej Ec]. rewrite Ec.
  destruct (select _ _) as [uses|]; [|done]. cbn [mbind result_bind].
  destruct (py_set _) as [ids|]; [|done]. cbn [mbind result_bind].
  destruct (has_role "user" msg) eqn:Er.
  - destruct (drop_none (blocks_of msg) (fun b => Ok (has_type "tool_result" b))) as [n ->].
    { apply pure_total. }
    { intros b Hb. cbn. by apply (no_answers_no_results msg). }
    cbn [mbind result_bind fst snd]. rewrite jset_same by done.
    rewrite (proj2 (truthy_list _)); [by intros [= <-]|].
    intros En. apply Hs. split; [done|]. by rewrite Ec, En.
  - intros E. injection E as <-. by destruct (_ && _).
Qed.

(** While a call is pending, the message that settles it is a user message. *)
Lemma settles_user seen c m : tidy seen c -> pending_tool_ids c <> [] ->
  settles (owed_after [] (cleaned c)) m -> has_role "user" m = true /\ is_list (content_of m) = true.
Proof.
  intros H Hne [Hs _]. assert (Ha : answers m <> []).
  { intros E. destruct (pending_tool_ids c) as [|y p] eqn:Ep; [done|].
    assert (Hy : y ∈ owed_after [] (cleaned c)) by (apply (tidy_pending _ _ H); rewrite Ep; by left).
    eapply Forall_forall in Hs; [|exact Hy]. by rewrite E in Hs. }
  split; [destruct (has_role "user" m) eqn:E|destruct (is_list (content_of m)) eqn:E]; try done; exfalso; apply Ha.
  - by apply answers_other.
  - by apply no_blocks.
Qed.

Lemma pending_hashable seen c : tidy seen c -> Forall ids_hashable (cleaned c) -> pending_tool_ids c <> [] ->
  Forall (fun z => hashable z = true) (pending_tool_ids c).
Proof.
  intros H Hc Hne. destruct (tidy_index _ _ H Hne) as (front & a & Ec & Ha & _ & _).
  apply Forall_forall. intros z Hz. apply (tidy_pending _ _ H) in Hz.
  rewrite Ec, owed_app in Hz. cbn in Hz. unfold calls in Hz. rewrite Ha in Hz.
  apply list_elem_of_fmap in Hz as (b & -> & Hb). apply list_elem_of_filter in Hb as [_ Hb].
  rewrite Ec in Hc. apply Forall_app in Hc as [_ Hc]. apply Forall_cons in Hc as [Hc%blocks_hashable _].
  eapply Forall_forall in Hc; [|exact Hb]. by destruct Hc.
Qed.

(** Every result of a settling message is known. *)
Lemma settles_known seen c m b : tidy seen c -> Forall ids_hashable (cleaned c) -> ids_hashable m ->
  pending_tool_ids c <> [] -> settles (owed_after [] (cleaned c)) m ->
  b ∈ blocks_of m -> has_type "tool_result" b = true ->
  in_set (_tool_result_id b) (pending_tool_ids c) = Ok true.
Proof.
  intros H Hc Hm Hne Hs Hb Ht. destruct (settles_user _ _ _ H Hne Hs) as [Hu _]. destruct Hs as [_ Hs].
  apply blocks_hashable in Hm. eapply Forall_forall in Hm; [|exact Hb].
  unfold in_set. rewrite (proj2 Hm). f_equal.
  eapply py_in_trans; [by eapply pending_hashable|apply (tidy_owed _ _ H)|].
  eapply Forall_forall in Hs; [exact Hs|]. unfold answers. rewrite Hu.
  by apply list_elem_of_fmap_2, list_elem_of_filter.
Qed.

Lemma settles_answered seen c m found : tidy seen c -> Forall ids_hashable (cleaned c) -> ids_hashable m ->
  pending_tool_ids c <> [] -> settles (owed_after [] (cleaned c)) m ->
  matching_result_ids (pending_tool_ids c) m = Ok found ->
  has_role "user" m && set_eqb found (pending_tool_ids c) = true.
Proof.
  intros H Hc Hm Hne Hs Ef. destruct (settles_user _ _ _ H Hne Hs) as [Hu Hl].
  rewrite Hu. cbn [andb]. unfold matching_result_ids in Ef.
  rewrite Hu in Ef. destruct (list_content _ Hl) as [_ El]. rewrite El in Ef.
  destruct (select _ _) as [l|] eqn:Es; [|done]. cbn [mbind result_bind] in Ef.
  apply select_ok in Es as [-> _]. apply py_set_ok in Ef as (Hh & Hsub & Hall).
  unfold set_eqb. apply andb_true_iff. split; apply forallb_forall; intros x Hx%list_elem_of_In.
  - apply Hsub in Hx as (b & -> & Hb)%list_elem_of_fmap. apply list_elem_of_filter in Hb as [Hy Hb].
    unfold is_result_where in Hy. destruct (has_type "tool_result" b); [|done]. by apply yes_in_set.
  - assert (Hans : py_in x (answers m) = true).
    { destruct Hs as [Hs _]. eapply Forall_forall in Hs; [exact Hs|]. by apply (tidy_pending _ _ H). }
    apply py_in_trans with (answers m); [|intros y Hy; apply Hall|exact Hans].
    + apply Forall_forall. intros z Hz%Hsub. by eapply Forall_forall in Hh.
    + unfold answers in Hy. rewrite Hu in Hy. apply list_elem_of_fmap in Hy as (b & -> & Hb).
      apply list_elem_of_filter in Hb as [Ht Hb]. apply list_elem_of_fmap_2, list_elem_of_filter.
      split; [|done]. unfold is_result_where. rewrite Ht.
      by rewrite (settles_known seen c m b).
Qed.

Lemma clean_step_same seen c m c' : tidy seen c -> Forall ids_hashable (cleaned c) -> ids_hashable m ->
  settles (owed_after [] (cleaned c)) m -> ~ silent_user m -> clean_step c m = Ok c' ->
  cleaned c' = cleaned c ++ [m].
Proof.
  intros H Hc Hm Hs Hsil. unfold clean_step. destruct (Nat.eqb _ 0) eqn:E0.
  { apply Nat.eqb_eq, nil_length_inv in E0. rewrite (tidy_no_owed _ _ H E0) in Hs.
    apply settles_nil_inv in Hs. by apply clean_message_same. }
  assert (Hne : pending_tool_ids c <> []) by (intros E; by rewrite E in E0).
  destruct (matching_result_ids _ _) as [found|] eqn:Ef; [|done]. cbn [mbind result_bind].
  rewrite (settles_answered _ _ _ _ H Hc Hm Hne Hs Ef).
  destruct (settles_user _ _ _ H Hne Hs) as [Hu Hl]. destruct (list_content _ Hl) as [Ej El].
  rewrite El. destruct (drop_none (blocks_of m) (drop_unknown (pending_tool_ids c))) as [n En].
  - apply Forall_forall. intros b Hb. unfold drop_unknown, is_result_where.
    destruct (has_type "tool_result" b) eqn:Et; [|done]. by rewrite (settles_known seen c m b).
  - intros b Hb. unfold drop_unknown, is_result_where.
    destruct (has_type "tool_result" b) eqn:Et; [|done]. by rewrite (settles_known seen c m b).
  - unfold drop_unknown in En. rewrite En. cbn [mbind result_bind fst snd].
    rewrite (proj2 (truthy_list _)); [|intros E; apply Hsil; split; [done|]; by rewrite El, E].
    rewrite jset_same by done. intros E. by injection E as <-.
Qed.

Lemma clean_loop_same seen c ms c' : tidy seen c -> Forall ids_hashable (cleaned c) -> Forall ids_hashable ms ->
  paired (owed_after [] (cleaned c)) ms -> Forall (fun m => ~ silent_user m) ms ->
  clean_loop c ms = Ok c' -> cleaned c' = cleaned c ++ ms.
Proof.
  revert seen c. induction ms as [|m ms IH]; intros seen c H Hc Hm Hp Hs; cbn [clean_loop].
  { intros [= <-]. by rewrite app_nil_r. }
  destruct (clean_step c m) as [c1|] eqn:E; [|done]. cbn [mbind result_bind]. intros Hl.
  apply Forall_cons in Hm as [Hm Hms], Hs as [Hsm Hs]. destruct Hp as [Hset Hp].
  pose proof (clean_step_same _ _ _ _ H Hc Hm Hset Hsm E) as E1.
  rewrite (IH (seen ++ [m]) c1); try done.
  - by rewrite E1, <- app_assoc.
  - by eapply clean_step_ok.
  - rewrite E1. apply Forall_app. split; [done|]. by constructor.
  - by rewrite E1, owed_app.
Qed.

Lemma sanitize_same ms : well_paired ms -> Forall (fun m => ~ silent_user m) ms -> Forall ids_hashable ms ->
  _sanitize_tool_pairs ms = Ok ms.
Proof.
  intros [Hp Ho] Hs Hm. unfold _sanitize_tool_pairs.
  destruct (clean_loop_total [] _ ms tidy_start (Forall_nil_2 _) Hm) as [c E]. rewrite E. cbn [mbind result_bind].
  pose proof (clean_loop_same [] _ ms c tidy_start (Forall_nil_2 _) Hm Hp Hs E) as Ec. cbn in Ec.
  apply (clean_loop_ok [] _ _ _ tidy_start) in E. rewrite Ec.
  destruct (pending_tool_ids c) as [|x p] eqn:Ep; [done|]. exfalso.
  assert (Hx : x ∈ owed_after [] (cleaned c)) by (apply (tidy_pending _ _ E); rewrite Ep; by left).
  rewrite Ec, Ho in Hx. by apply not_elem_of_nil in Hx.
Qed.

(** * What the sanitizer keeps *)

(** The message after [m] brings a result for each of its calls. *)
Definition calls_answered (m : message) (next : option message) : bool :=
  match next with Some n => forallb (fun id => py_in id (answers n)) (calls m) | None => false end.

(** Whether a block of [m], between the messages [prev] and [next], stays.  The calls of
    an assistant message stay together, if all of them are answered at once; a result
    stays if its call is one of a message that is; every other block stays. *)
Definition stays (prev : option message) (m : message) (next : option message) (b : json) : bool :=
  if has_role "assistant" m && is_use b then calls_answered m next
  else if has_role "user" m && has_type "tool_result" b then
    match prev with
    | Some p => calls_answered p (Some m) && py_in (_tool_result_id b) (calls p)
    | None => false
    end
  else true.

(** The message with the blocks that stay; a message that loses its last block goes,
    and so does a user message without any. *)
Definition mended (prev : option message) (m : message) (next : option message) : list message :=
  match content_of m with
  | JList blocks =>
      let kept := filter (fun b => stays prev m next b = true) blocks in
      if bool_decide (kept = []) && (has_role "user" m || negb (bool_decide (blocks = []))) then []
      else [jset "content" (JList kept) m]
  | _ => [m]
  end.

Fixpoint mend (prev : option message) (ms : list message) : list message :=
  match ms with
  | [] => []
  | m :: ms' => mended prev m (head ms') ++ mend (Some m) ms'
  end.

Lemma truthy_key a b : hashable a = true -> py_eqb a b = true -> truthy a = truthy b.
Proof.
  intros Ha E. apply py_eqb_key in E; [|done]. revert E Ha.
  by destruct a as [|[]|z|s|l|d], b as [|[]|z'|s'|l'|d']; intros [=]; subst.
Qed.

(** A message nothing is taken from. *)
Lemma mended_same prev m next :
  (forall b, b ∈ blocks_of m -> stays prev m next b = true) -> ~ silent_user m -> mended prev m next = [m].
Proof.
  intros Hb Hs. unfold mended. destruct (is_list (content_of m)) eqn:El; [|by destruct (content_of m)].
  destruct (list_content _ El) as [Ej Ec]. rewrite Ec, filter_all by done. rewrite jset_same by done.
  case_bool_decide as E; [|done]. cbn [andb negb]. rewrite orb_false_r.
  destruct (has_role "user" m) eqn:Er; [|done]. destruct Hs. split; [done|]. by rewrite Ec, E.
Qed.

(** A user message that is left with the blocks [f] keeps. *)
Lemma mended_user prev m next (f : json -> bool) :
  has_role "user" m = true -> is_list (content_of m) = true ->
  (forall b, b ∈ blocks_of m -> stays prev m next b = f b) ->
  mended prev m next =
    let l := filter (fun b => f b = true) (blocks_of m) in
    if truthy (JList l) then [jset "content" (JList l) m] else [].
Proof.
  intros Hr Hl Hf. destruct (list_content _ Hl) as [_ Ec]. unfold mended. rewrite Ec, Hr. cbv zeta.
  rewrite (filter_agree (fun b => stays prev m next b = true) (fun b => f b = true)) by (intros b Hb; by rewrite Hf).
  by destruct (filter _ _).
Qed.

Lemma mended_other prev prev' m next : has_role "user" m = false -> mended prev m next = mended prev' m next.
Proof.
  intros Er. unfold mended. destruct (content_of m); try done.
  by rewrite (filter_agree (fun b => stays prev m next b = true) (fun b => stays prev' m next b = true))
    by (intros b _; unfold stays; by rewrite Er).
Qed.

Lemma stays_user prev m next b :
  has_role "user" m = true ->
  stays prev m next b = negb (has_type "tool_result" b) ||
    match prev with Some p => calls_answered p (Some m) && py_in (_tool_result_id b) (calls p) | None => false end.
Proof. intros Hr. unfold stays. rewrite Hr, role_exclusive by done. cbn [andb]. by destruct (has_type _ b). Qed.

(** ** The loop keeps exactly those *)

(** The message [prev] was just read: its calls, if it made any, are the pending ones. *)
Record follows (prev : option message) (c : cleaning) : Prop := {
  fo_idle : pending_tool_ids c = [] -> forall p, prev = Some p -> calls p = [];
  fo_busy : pending_tool_ids c <> [] -> exists front p, prev = Some p /\ cleaned c = front ++ [p] /\
    has_role "assistant" p = true /\ is_list (content_of p) = true /\ ids_hashable p /\
    pending_assistant_idx c = Some (length front) /\
    (forall x, x ∈ pending_tool_ids c -> x ∈ calls p) /\ (forall x, x ∈ calls p -> py_in x (pending_tool_ids c) = true);
}.

(** What the messages read so far will have become once [next] was read. *)
Definition standing (prev next : option message) (c : cleaning) : list message :=
  match pending_tool_ids c, prev with
  | _ :: _, Some p => take (length (cleaned c) - 1) (cleaned c) ++ mended None p next
  | _, _ => cleaned c
  end.

Lemma pending_standing prev next c front p :
  prev = Some p -> cleaned c = front ++ [p] -> pending_tool_ids c <> [] ->
  standing prev next c = front ++ mended None p next.
Proof.
  intros -> E Hne. unfold standing. destruct (pending_tool_ids c); [done|].
  rewrite E, length_app, Nat.add_sub. by rewrite take_app_length.
Qed.

Lemma idle_standing prev next c : pending_tool_ids c = [] -> standing prev next c = cleaned c.
Proof. intros E. unfold standing. by rewrite E. Qed.

(** What one more message does to the transcript. *)
Definition steps (prev : option message) (m : message) (c c' : cleaning) : Prop :=
  follows (Some m) c' /\
  forall next, standing (Some m) next c' = standing prev (Some m) c ++ mended prev m next.

Lemma idle_follows m c : pending_tool_ids c = [] -> calls m = [] -> follows (Some m) c.
Proof. intros Hp Hc. by split; [intros _ p [= <-]|]. Qed.

Lemma no_calls_use m b : has_role "assistant" m = true -> calls m = [] -> b ∈ blocks_of m -> is_use b = false.
Proof.
  intros Ha Hc Hb. apply not_true_iff_false. intros Hu. unfold calls in Hc. rewrite Ha in Hc.
  assert (Hin : _tool_use_id b ∈ _tool_use_id <$> filter (fun b => is_use b = true) (blocks_of m))
    by (by apply list_elem_of_fmap_2, list_elem_of_filter).
  rewrite Hc in Hin. by apply not_elem_of_nil in Hin.
Qed.

(** A message read while nothing is pending. *)
Lemma clean_message_steps prev m c c' :
  pending_tool_ids c = [] -> ids_hashable m -> (forall p, prev = Some p -> calls p = [] \/ calls_answered p (Some m) = false) ->
  clean_message m (content_of m) c = Ok c' ->
  follows (Some m) c' /\ forall next, standing (Some m) next c' = cleaned c ++ mended prev m next.
Proof.
  intros Hp Hh Hprev. unfold clean_message. destruct (is_list (content_of m)) eqn:El.
  2:{ destruct (no_blocks _ El) as [Hc _]. intros E.
      assert (Ok (append_cleaned m c) = Ok c') as [= <-] by (by destruct (content_of m)).
      split; [by apply idle_follows|]. intros next. rewrite idle_standing by done. cbn. f_equal.
      unfold mended. by destruct (content_of m). }
  destruct (list_content _ El) as [Ej Ec]. rewrite Ec.
  destruct (select _ _) as [uses|] eqn:Eu; [|done]. cbn [mbind result_bind]. apply select_ok in Eu as [-> _]. cbn [yes].
  destruct (py_set _) as [ids|] eqn:Es; [|done]. cbn [mbind result_bind]. apply py_set_ok in Es as (_ & Hs1 & Hs2).
  destruct (has_role "user" m) eqn:Er.
  - destruct (_drop_blocks _ _) as [r|] eqn:Ed; [|done]. cbn [mbind result_bind].
    apply drop_blocks_ok in Ed as [-> _]. intros E. injection E as <-. unfold kept_blocks. set (l := filter _ _).
    split; [apply idle_follows; [by destruct l|by apply calls_user]|]. intros next.
    rewrite idle_standing by (by destruct l).
    rewrite (mended_user prev m next (fun b => negb (yes (Ok (has_type "tool_result" b))))); [|done..|].
    + cbv zeta. fold l. destruct l; [by rewrite app_nil_r|done].
    + intros b _. rewrite stays_user by done. destruct prev as [p|]; [|by rewrite orb_false_r].
      destruct (Hprev p eq_refl) as [E|E]; rewrite E; cbn; rewrite ?andb_false_r; by rewrite orb_false_r.
  - intros E. injection E as <-.
    assert (Hsilent : ~ silent_user m) by (intros [? _]; congruence).
    destruct (has_role "assistant" m) eqn:Ea; cbn [andb].
    2:{ assert (Hc : calls m = []) by (unfold calls; by rewrite Ea).
        split; [by apply idle_follows|]. intros next. rewrite idle_standing by done. cbn. f_equal. symmetry.
        apply mended_same; [|done]. intros b _. unfold stays. by rewrite Ea, Er. }
    assert (Hcalls : calls m = _tool_use_id <$>
      filter (fun b => has_type "tool_use" b && truthy (_tool_use_id b) = true) (blocks_of m)).
    { unfold calls. by rewrite Ea. }
    destruct ids as [|id ids]; cbn [length Nat.eqb negb].
    + assert (Hc : calls m = []).
      { rewrite Hcalls. destruct (_ <$> _) as [|x l]; [done|]. exfalso. specialize (Hs2 x (list_elem_of_here _ _)). done. }
      split; [by apply idle_follows|]. intros next. rewrite idle_standing by done. cbn. f_equal. symmetry.
      apply mended_same; [|done]. intros b Hb. unfold stays. rewrite (no_calls_use m b) by done.
      by rewrite andb_false_r, Er.
    + split.
      * split; [done|]. intros _. exists (cleaned c), m. cbn. rewrite Hcalls, length_app. cbn.
        split_and!; try done. f_equal. lia.
      * intros next. erewrite pending_standing; [|done|done|done]. f_equal. by apply mended_other.
Qed.

(** The pending calls of the assistant message [p] just read. *)
Section busy.
Context (p : message) (pending : list json) (Hp : ids_hashable p) (Hne : pending <> []).
Context (Ha : has_role "assistant" p = true).
Context (Hsub : forall x, x ∈ pending -> x ∈ calls p) (Hall : forall x, x ∈ calls p -> py_in x pending = true).

Lemma calls_hashable m x : ids_hashable m -> x ∈ calls m -> hashable x = true.
Proof.
  intros Hm%blocks_hashable Hx. unfold calls in Hx. destruct (has_role "assistant" m); [|by apply not_elem_of_nil in Hx].
  apply list_elem_of_fmap in Hx as (b & -> & [_ Hb]%list_elem_of_filter).
  rewrite Forall_forall in Hm. by destruct (Hm b Hb).
Qed.

Lemma answers_hashable m x : ids_hashable m -> x ∈ answers m -> hashable x = true.
Proof.
  intros Hm%blocks_hashable Hx. unfold answers in Hx. destruct (has_role "user" m); [|by apply not_elem_of_nil in Hx].
  apply list_elem_of_fmap in Hx as (b & -> & [_ Hb]%list_elem_of_filter).
  rewrite Forall_forall in Hm. by destruct (Hm b Hb).
Qed.

(** Being pending and being one of the calls is the same. *)
Lemma pending_calls x : py_in x pending = py_in x (calls p).
Proof using All.
  apply eq_true_iff_eq. split; [by apply py_in_mono|]. intros Hx. apply py_in_trans with (calls p); [|done|done].
  apply Forall_forall. intros z Hz. by apply (calls_hashable p), Hsub.
Qed.

Lemma matching_answered m found : ids_hashable m ->
  matching_result_ids pending m = Ok found ->
  has_role "user" m && set_eqb found pending = calls_answered p (Some m).
Proof using All.
  intros Hm Ef. apply eq_true_iff_eq. split.
  - intros He. destruct (matching_ok pending m found Hne Ef He) as (Hr & Hl & Hh & Hin & Hex).
    apply forallb_forall. intros x Hx%list_elem_of_In.
    apply py_in_mono with found.
    + intros y (b & Hb & [Ht _] & ->)%Hex. unfold answers. rewrite Hr.
      by apply list_elem_of_fmap_2, list_elem_of_filter.
    + apply py_in_trans with pending; [done|done|by apply Hall].
  - intros He. cbn in He. rewrite forallb_forall in He.
    assert (Hin : forall y, y ∈ pending -> py_in y (answers m) = true) by (intros y Hy; by apply He, list_elem_of_In, Hsub).
    assert (Hr : has_role "user" m = true /\ is_list (content_of m) = true).
    { destruct pending as [|y l]; [done|]. specialize (Hin y (list_elem_of_here _ _)).
      split; apply not_false_iff_true; intros E; [rewrite answers_other in Hin by done|
        rewrite (proj2 (no_blocks m E)) in Hin]; done. }
    destruct Hr as [Hr Hl]. rewrite Hr. cbn [andb]. unfold matching_result_ids in Ef. rewrite Hr in Ef.
    destruct (list_content _ Hl) as [_ El]. rewrite El in Ef.
    destruct (select _ _) as [l|] eqn:Es; [|done]. cbn [mbind result_bind] in Ef.
    apply select_ok in Es as [-> Hok]. apply py_set_ok in Ef as (Hh & Hsub' & Hall').
    unfold set_eqb. apply andb_true_iff. split; apply forallb_forall; intros x Hx%list_elem_of_In.
    + apply Hsub' in Hx as (b & -> & [Hy _]%list_elem_of_filter)%list_elem_of_fmap.
      unfold is_result_where in Hy. destruct (has_type "tool_result" b); [|done]. by apply yes_in_set.
    + destruct (proj1 (py_in_exists _ _) (Hin x Hx)) as (z & Hz & Exz).
      assert (Hhz : hashable z = true) by (by apply (answers_hashable m)).
      assert (Hhx : hashable x = true) by (by eapply hashable_eqb).
      assert (Hzp : py_in z pending = true).
      { apply py_in_exists. exists x. split; [done|]. apply py_eqb_key; [done|]. symmetry. by apply py_eqb_key. }
      unfold answers in Hz. rewrite Hr in Hz. apply list_elem_of_fmap in Hz as (b & -> & [Ht Hb]%list_elem_of_filter).
      apply py_in_trans with [_tool_result_id b]; [|intros y ->%list_elem_of_singleton; apply Hall'|
        by apply py_in_exists; exists (_tool_result_id b); split; [left|]].
      { apply Forall_forall. intros y Hy%Hsub'. by eapply Forall_forall in Hh. }
      apply list_elem_of_fmap_2, list_elem_of_filter. split; [|done].
      unfold is_result_where, in_set. by rewrite Ht, Hhz, Hzp.
Qed.

(** Withdrawing the pending calls is taking the calls from the message. *)
Lemma withdrawn_stays next b : b ∈ blocks_of p -> calls_answered p next = false ->
  negb (yes (drop_pending pending b)) = stays None p next b.
Proof using All.
  intros Hb Hn. unfold drop_pending, stays. rewrite Ha, Hn. cbn [andb].
  assert (Hu : has_role "user" p = false).
  { destruct (has_role "user" p) eqn:E; [|done]. by rewrite (role_exclusive _ E) in Ha. }
  rewrite Hu. cbn [andb]. unfold is_use. destruct (has_type "tool_use" b) eqn:Ht; [|done]. cbn [andb].
  pose proof Hp as Hh%blocks_hashable. rewrite Forall_forall in Hh. destruct (Hh b Hb) as [Hhash _].
  unfold in_set. rewrite Hhash. cbn [yes]. rewrite pending_calls.
  assert (E : py_in (_tool_use_id b) (calls p) = truthy (_tool_use_id b)); [|by rewrite E; destruct (truthy _)].
  apply eq_true_iff_eq. split.
  - intros (y & Hy & E)%py_in_exists. rewrite (truthy_key _ _ Hhash E). unfold calls in Hy. rewrite Ha in Hy.
    apply list_elem_of_fmap in Hy as (b' & -> & [[_ Ht']%andb_true_iff _]%list_elem_of_filter). done.
  - intros Ht'. apply py_in_key; [done|]. apply list_elem_of_fmap_2. unfold calls. rewrite Ha.
    apply list_elem_of_fmap_2, list_elem_of_filter. split; [|done]. unfold is_use. by rewrite Ht, Ht'.
Qed.
End busy.

Lemma assistant_only p : has_role "assistant" p = true -> has_role "user" p = false.
Proof. intros Ha. destruct (has_role "user" p) eqn:E; [|done]. by rewrite (role_exclusive _ E) in Ha. Qed.

(** The answer of a pending call is kept. *)
Lemma kept_pending pending m found : pending <> [] ->
  matching_result_ids pending m = Ok found -> has_role "user" m && set_eqb found pending = true ->
  Forall (fun b => is_ok (drop_unknown pending b) = true) (blocks_of m) ->
  exists b l, kept_blocks (drop_unknown pending) (blocks_of m) = b :: l.
Proof.
  intros Hne Hm He Hok. destruct (matching_ok _ _ _ Hne Hm He) as (_ & _ & _ & Hp & Hf).
  destruct pending as [|y p]; [done|].
  destruct (proj1 (py_in_exists _ _) (Hp y (list_elem_of_here _ _))) as (z & Hz & _).
  destruct (Hf z Hz) as (b & Hb & Hb' & _).
  assert (Hin : b ∈ kept_blocks (drop_unknown (y :: p)) (blocks_of m)).
  { apply list_elem_of_filter. split; [|done]. rewrite Forall_forall in Hok. apply kept_result; auto. }
  destruct (kept_blocks _ _) as [|b' l]; [by apply not_elem_of_nil in Hin|by eexists _, _].
Qed.

Lemma filter_again (f : json -> bool) (l : list json) :
  filter (fun b => f b = true) (filter (fun b => f b = true) l) = filter (fun b => f b = true) l.
Proof. apply filter_all. by intros b [? _]%list_elem_of_filter. Qed.

Lemma clean_message_user m l c c' : has_role "user" m = true -> clean_message m (JList l) c = Ok c' ->
  pending_tool_ids c' = pending_tool_ids c /\
  let kept := filter (fun b => negb (yes (Ok (has_type "tool_result" b))) = true) l in
  cleaned c' = cleaned c ++ (if truthy (JList kept) then [jset "content" (JList kept) m] else []).
Proof.
  intros Hr. unfold clean_message. destruct (select _ _) as [uses|]; [|done]. cbn [mbind result_bind].
  destruct (py_set _) as [ids|]; [|done]. cbn [mbind result_bind]. rewrite Hr.
  destruct (_drop_blocks _ _) as [r|] eqn:Ed; [|done]. cbn [mbind result_bind].
  apply drop_blocks_ok in Ed as [-> _]. intros E. injection E as <-. unfold kept_blocks.
  cbv zeta. set (k := filter _ _). destruct k; [by rewrite app_nil_r|done].
Qed.

Lemma withdraw_stays prev next c c1 : follows prev c -> pending_tool_ids c <> [] ->
  (forall p, prev = Some p -> calls_answered p next = false) -> withdraw_pending c = Ok c1 ->
  cleaned c1 = standing prev next c.
Proof.
  intros Hf Hne Hn. destruct (fo_busy _ _ Hf Hne) as (front & p & -> & Ec & Ha & Hl & Hh & Ei & Hsub & Hall).
  rewrite (pending_standing _ _ _ _ _ eq_refl Ec Hne). specialize (Hn p eq_refl).
  unfold withdraw_pending. rewrite Ei, Ec, list_lookup_middle by done. cbn [from_option id].
  destruct (list_content _ Hl) as [-> El]. cbn [from_option id].
  destruct (_drop_blocks _ _) as [r|] eqn:Ed; [|done]. cbn [mbind result_bind].
  apply drop_blocks_ok in Ed as [Er _]. intros E. injection E as <-. rewrite Er. cbn [cleaned].
  change (kept_blocks _ (blocks_of p)) with (kept_blocks (drop_pending (pending_tool_ids c)) (blocks_of p)).
  assert (Ek : kept_blocks (drop_pending (pending_tool_ids c)) (blocks_of p) =
               filter (fun b => stays None p next b = true) (blocks_of p)).
  { apply filter_agree. intros b Hb. by rewrite (withdrawn_stays p _ Hh Hne Ha Hsub Hall next b Hb Hn). }
  rewrite Ek. unfold mended. rewrite El. cbv zeta.
  assert (Hb : blocks_of p <> []).
  { intros E. destruct (pending_tool_ids c) as [|x l]; [done|]. specialize (Hsub x (list_elem_of_here _ _)).
    unfold calls in Hsub. rewrite Ha, E in Hsub. by apply not_elem_of_nil in Hsub. }
  rewrite (bool_decide_eq_false_2 (blocks_of p = [])) by done. cbn [negb]. rewrite orb_true_r, andb_true_r.
  destruct (filter _ (blocks_of p)) as [|b l].
  - rewrite bool_decide_eq_true_2 by done. cbn [truthy length Nat.eqb negb].
    by rewrite delete_middle.
  - rewrite bool_decide_eq_false_2 by done. cbn [truthy length Nat.eqb negb].
    by rewrite insert_app_r_alt, Nat.sub_diag by lia.
Qed.

Lemma clean_step_steps prev m c c' : follows prev c -> ids_hashable m -> clean_step c m = Ok c' -> steps prev m c c'.
Proof.
  intros Hf Hm. unfold clean_step. destruct (Nat.eqb _ 0) eqn:E0.
  { apply Nat.eqb_eq, nil_length_inv in E0. intros E. unfold steps. rewrite idle_standing by done.
    apply (clean_message_steps prev); try done. intros p Hp. left. by apply (fo_idle _ _ Hf). }
  assert (Hne : pending_tool_ids c <> []) by (intros E; by rewrite E in E0).
  destruct (fo_busy _ _ Hf Hne) as (front & p & Hprev & Ec & Ha & Hl & Hh & Ei & Hsub & Hall).
  destruct (matching_result_ids _ _) as [found|] eqn:Em; [|done]. cbn [mbind result_bind].
  rewrite (matching_answered p _ Hh Hne Ha Hsub Hall m found Hm Em).
  destruct (calls_answered p (Some m)) eqn:Hans.
  - assert (Hr : has_role "user" m = true /\ is_list (content_of m) = true).
    { pose proof (matching_answered p _ Hh Hne Ha Hsub Hall m found Hm Em) as He. rewrite Hans in He.
      by destruct (matching_ok _ _ _ Hne Em He) as (? & ? & _). }
    destruct Hr as [Hr Hlm]. destruct (list_content _ Hlm) as [_ El]. rewrite El.
    change (is_result_where _) with (drop_unknown (pending_tool_ids c)).
    destruct (_drop_blocks _ _) as [r|] eqn:Ed; [|done]. cbn [mbind result_bind].
    apply drop_blocks_ok in Ed as [-> Hok]. intros E. injection E as <-.
    split; [apply idle_follows; [done|by apply calls_user]|]. intros next.
    rewrite idle_standing by done. rewrite (pending_standing _ _ _ _ _ Hprev Ec Hne). cbn [cleaned append_cleaned].
    rewrite (mended_same None p (Some m)); [|intros b _; unfold stays; rewrite Hans, (assistant_only _ Ha);
      by destruct (_ && _)|intros [Hu _]; by rewrite (assistant_only _ Ha) in Hu].
    rewrite Hprev, (mended_user _ m next (fun b => negb (yes (drop_unknown (pending_tool_ids c) b)))); [|done..|].
    + unfold kept_blocks. cbv zeta. cbn [cleaned count_results]. rewrite Ec.
      destruct (kept_pending (pending_tool_ids c) m found) as (b & l & El'); try done;
        [by rewrite (matching_answered p _ Hh Hne Ha Hsub Hall m found Hm Em)|].
      unfold kept_blocks in El'. by rewrite El'.
    + intros b Hb. rewrite stays_user by done. rewrite Hans. unfold drop_unknown, is_result_where.
      destruct (has_type "tool_result" b); [|done]. cbn [negb orb andb].
      apply blocks_hashable in Hm. rewrite Forall_forall in Hm. destruct (Hm b Hb) as [_ Hid].
      unfold in_set. rewrite Hid. cbn. rewrite negb_involutive. symmetry. by apply (pending_calls p).
  - destruct (withdraw_pending c) as [c1|] eqn:Ew; [|done]. cbn [mbind result_bind].
    assert (E1 : cleaned c1 = standing prev (Some m) c).
    { apply withdraw_stays; try done. intros q Hq. rewrite Hprev in Hq. by injection Hq as <-. }
    assert (Hgo : forall q, prev = Some q -> calls q = [] \/ calls_answered q (Some m) = false).
    { intros q. rewrite Hprev. intros [= <-]. by right. }
    unfold steps. rewrite <- E1.
    destruct (has_role "user" m && is_list (content_of m)) eqn:Eu.
    2:{ by apply (clean_message_steps prev m (no_pending c1)). }
    apply andb_true_iff in Eu as [Hr Hlm]. destruct (list_content _ Hlm) as [_ El].
    rewrite El. destruct (_drop_blocks _ _) as [r|] eqn:Ed; [|done]. cbn [mbind result_bind].
    apply drop_blocks_ok in Ed as [-> _]. unfold kept_blocks.
    assert (Hmend : forall next, mended prev m next =
      let l := filter (fun b => negb (yes (Ok (has_type "tool_result" b))) = true) (blocks_of m) in
      if truthy (JList l) then [jset "content" (JList l) m] else []).
    { intros next. apply mended_user; [done..|]. intros b _. rewrite stays_user, Hprev, Hans by done.
      by rewrite orb_false_r. }
    set (l := filter _ _) in *. cbv zeta in Hmend.
    destruct (truthy (JList l)) eqn:Et; intros E.
    + apply clean_message_user in E as [Ep Ecl]; [|by rewrite has_role_jset].
      split; [apply idle_follows; [done|by apply calls_user]|]. intros next.
      rewrite idle_standing, Hmend, Ecl by done. unfold l. rewrite filter_again. fold l. rewrite Et.
      rewrite jset_same by apply jget_jset_eq. done.
    + injection E as <-. split; [apply idle_follows; [done|by apply calls_user]|]. intros next.
      by rewrite idle_standing, Hmend, app_nil_r.
Qed.

Lemma clean_loop_mends ms : forall prev c c', follows prev c -> Forall ids_hashable ms -> clean_loop c ms = Ok c' ->
  exists prev', follows prev' c' /\ standing prev' None c' = standing prev (head ms) c ++ mend prev ms.
Proof.
  induction ms as [|m ms IH]; intros prev c c' Hf Hm; cbn [clean_loop].
  { intros [= <-]. exists prev. by rewrite app_nil_r. }
  destruct (clean_step c m) as [c1|] eqn:E; [|done]. cbn [mbind result_bind]. intros Hl.
  apply Forall_cons in Hm as [Hm Hms]. destruct (clean_step_steps _ _ _ _ Hf Hm E) as [Hf1 Hs].
  destruct (IH _ _ _ Hf1 Hms Hl) as (prev' & Hf' & E'). exists prev'. split; [done|].
  cbn [mend head]. by rewrite E', Hs, <- app_assoc.
Qed.

Lemma sanitize_mends ms : Forall ids_hashable ms -> _sanitize_tool_pairs ms = Ok (mend None ms).
Proof.
  intros H. destruct (sanitize_total ms H) as [out E]. rewrite E. unfold _sanitize_tool_pairs in E.
  destruct (clean_loop _ _) as [c|] eqn:El; [|done]. cbn [mbind result_bind] in E.
  destruct (clean_loop_mends ms None no_cleaning c) as (prev & Hf & Es); [by split|done..|].
  change (standing None (head ms) no_cleaning ++ mend None ms) with (mend None ms) in Es. rewrite <- Es.
  destruct (Nat.eqb _ 0) eqn:E0.
  - apply Nat.eqb_eq, nil_length_inv in E0. rewrite idle_standing by done. by injection E as <-.
  - assert (Hne : pending_tool_ids c <> []) by (intros E'; by rewrite E' in E0).
    destruct (withdraw_pending c) as [c1|] eqn:Ew; [|done]. injection E as <-. f_equal.
    by apply (withdraw_stays prev None c).
Qed.

(** * Properties *)

(** C35. A sanitized transcript is one a provider accepts: whatever the stored
    messages are, as long as their ids can be hashed, the sanitizer succeeds, and its
    result is the transcript in which the calls of an assistant message stay exactly if
    the very next message answers every one of them, a tool result stays exactly if it
    answers a call of the message just before it that stayed, and all other blocks stay
    as they are, in their order; a message left without blocks goes.  In it every tool
    call of an assistant message that has an id is answered by the very next message,
    every tool result answers a call of the message just before it, and no user message
    is empty. *)
Theorem sanitized_transcript_valid (ms : list message) :
  Forall ids_hashable ms ->
  _sanitize_tool_pairs ms = Ok (mend None ms) /\ well_paired (mend None ms) /\
  Forall (fun m => ~ silent_user m) (mend None ms) /\ trimmed (parts (mend None ms)) (parts ms).
Proof.
  intros H. pose proof (sanitize_mends ms H) as E. split; [done|].
  destruct (sanitize_tidy _ _ E) as (c & Hc & Hp & <-). destruct Hc. split; [|done].
  split; [done|]. by eapply tidy_no_owed.
Qed.

(** The sanitizer changes nothing but what is wrong: it leaves exactly those
    transcripts as they are whose calls and results are paired and whose user
    messages are not empty, so sanitizing twice is sanitizing once. *)
Theorem sanitize_fixpoint (ms : list message) :
  Forall ids_hashable ms ->
  (_sanitize_tool_pairs ms = Ok ms <-> well_paired ms /\ Forall (fun m => ~ silent_user m) ms) /\
  (forall out, _sanitize_tool_pairs ms = Ok out -> _sanitize_tool_pairs out = Ok out).
Proof.
  intros H. assert (Hok : forall out, _sanitize_tool_pairs ms = Ok out ->
    well_paired out /\ Forall (fun m => ~ silent_user m) out /\ Forall ids_hashable out).
  { intros out E. destruct (sanitize_tidy _ _ E) as (c & Hc & Hp & <-). split_and!.
    - split; [apply (tidy_paired _ _ Hc)|by eapply tidy_no_owed].
    - apply (tidy_users _ _ Hc).
    - apply Forall_forall. intros m. by apply tidy_hashable with ms. }
  split; [split|].
  - intros E. by destruct (Hok _ E) as (? & ? & _).
  - intros [? ?]. by apply sanitize_same.
  - intros out E. destruct (Hok _ E) as (? & ? & ?). by apply sanitize_same.
Qed.

(** ** Witnesses *)

Definition demo_use : message :=
  [("role", JStr "assistant");
   ("content", JList [JObj [("type", JStr "text"); ("text", JStr "let me look")];
                      JObj [("type", JStr "tool_use"); ("id", JStr "a"); ("name", JStr "read")]])].
Definition demo_results (ids : list string) : message :=
  [("role", JStr "user");
   ("content", JList ((fun id => JObj [("type", JStr "tool_result"); ("tool_use_id", JStr id)]) <$> ids))].
(** A result without its call, then a call answered along with a stray result. *)
Definition demo_broken : list message :=
  [[("role", JStr "user"); ("content", JStr "hello")]; demo_results ["z"]; demo_use; demo_results ["a"; "z"]].
Definition demo_mended : list message :=
  [[("role", JStr "user"); ("content", JStr "hello")]; demo_use; demo_results ["a"]].

(** Two calls of which one is answered: both go, and so does the answer. *)
Definition demo_two_calls : message :=
  [("role", JStr "assistant");
   ("content", JList [JObj [("type", JStr "tool_use"); ("id", JStr "a"); ("name", JStr "read")];
                      JObj [("type", JStr "tool_use"); ("id", JStr "b"); ("name", JStr "read")]])].
Example half_answered : mend None [demo_two_calls; demo_results ["a"]; demo_use; demo_results ["a"]] =
  [demo_use; demo_results ["a"]].
Proof. vm_compute. reflexivity. Qed.

Lemma sanitized_transcript_valid_witness :
  _sanitize_tool_pairs demo_broken = Ok (mend None demo_broken) /\ mend None demo_broken = demo_mended /\
  well_paired (mend None demo_broken).
Proof.
  destruct (sanitized_transcript_valid demo_broken) as (E & Hp & _).
  - repeat constructor.
  - split; [exact E|]. split; [vm_compute; reflexivity|exact Hp].
Defined.

Lemma sanitize_fixpoint_witness :
  _sanitize_tool_pairs demo_mended = Ok demo_mended /\ _sanitize_tool_pairs demo_broken <> Ok demo_broken.
Proof.
  assert (H : Forall ids_hashable demo_broken) by (repeat constructor).
  destruct (sanitize_fixpoint demo_broken H) as [_ Hout]. split.
  - apply (Hout demo_mended). vm_compute. reflexivity.
  - intros E. vm_compute in E. discriminate E.
Defined.
