(* ===== verification/SessionStore.v ===== *)
(** What loading and saving stored transcripts guarantee: whatever is in the
    table, a loaded transcript can be sent; what was saved is loaded again; and
    reading a thread answers the right window of it. *)
From S2P Require Import Prelude.
From S2P Require Import PyStr.
From S2P Require Import Json.
From S2P Require Import JsonText.
From S2P Require Import Sessions.
From S2P Require Import SessionTheorems.
Open Scope string_scope.
Open Scope bool_scope.
Open Scope list_scope.

(** * Specification *)

(** A block carries no field its type does not allow. *)
Definition fields_allowed (b : json) : Prop :=
  match b with
  | JObj d =>
      match type_or_text d with
      | JStr t => match _ALLOWED_BLOCK_FIELDS t with
                  | Some fields => forall kv, kv ∈ d -> kv.1 ∈ fields
                  | None => True
                  end
      | _ => True
      end
  | _ => True
  end.

(** A transcript that can be sent to the provider. *)
Definition sendable (ms : list message) : Prop :=
  well_paired ms /\ Forall (fun m => ~ silent_user m) ms /\
  Forall (fun m => Forall fields_allowed (blocks_of m)) ms.

(** The same value up to the order of the keys of its objects: equal as Python values. *)
Inductive same_value : json -> json -> Prop :=
| SameScalar j : hashable j = true -> same_value j j
| SameList l l' : Forall2 same_value l l' -> same_value (JList l) (JList l')
| SameObj d d' : (forall k, option_Forall2 same_value (jget k d) (jget k d')) -> same_value (JObj d) (JObj d').

(** A JSONB column keeps values as they were written, up to the order of keys. *)
Class JsonbLaws `{JsonbColumn} : Prop := {
  jsonb_same j j' : jwf j -> to_jsonb (dumps ", " ": " j) = Some j' -> same_value j j';
}.

(** A block that cleaning leaves alone, once its fields are allowed: its type can be
    looked up, a text is a string, and no parsed output of the client is left in it. *)
Definition plain_block (b : json) : Prop :=
  match b with
  | JObj d => hashable (jget_or_null "type" d) = true /\ jget "parsed_output" d = None /\
              forall o, jget "text" d <> Some (JObj o)
  | _ => True
  end.

(** * Blocks *)

Lemma jget_keep k fields d : jget k (keep_fields fields d) = if decide (k ∈ fields) then jget k d else None.
Proof.
  unfold keep_fields. induction d as [|[k' v] d IH]; [by case_decide|]. rewrite filter_cons. cbn [fst jget].
  destruct (String.eqb k k') eqn:E.
  - apply String.eqb_eq in E as <-. case_decide; [cbn; by rewrite String.eqb_refl|done].
  - destruct (decide (k' ∈ fields)); [cbn; by rewrite E|done].
Qed.

Lemma allowed_has_type t fields : _ALLOWED_BLOCK_FIELDS t = Some fields -> "type" ∈ fields.
Proof.
  unfold _ALLOWED_BLOCK_FIELDS. repeat (destruct (String.eqb t _); [intros [= <-]; by left|]). done.
Qed.

Lemma jget_flatten k field d : k <> field -> jget k (flatten_field field d) = jget k d.
Proof.
  intros Hne. unfold flatten_field. destruct (jget field d) as [[| | | | |o]|]; try done. by apply jget_jset_ne.
Qed.

Lemma restrict_ok ty d d' : restrict_fields ty d = Ok d' ->
  d' = d /\ (forall t, ty = JStr t -> _ALLOWED_BLOCK_FIELDS t = None) \/
  exists t fields, ty = JStr t /\ _ALLOWED_BLOCK_FIELDS t = Some fields /\ d' = keep_fields fields d.
Proof.
  unfold restrict_fields. destruct ty; cbn [allowed_fields mbind result_bind]; try (intros [= <-]; left; by split).
  destruct (_ALLOWED_BLOCK_FIELDS s) as [fields|] eqn:E; intros [= <-]; [right; eauto|left].
  split; [done|]. by intros t [= <-].
Qed.

Lemma restrict_type d d' : restrict_fields (type_or_text d) d = Ok d' -> jget "type" d' = jget "type" d.
Proof.
  intros [[-> _]|(t & fields & _ & Hf & ->)]%restrict_ok; [done|].
  rewrite jget_keep, decide_True; [done|by eapply allowed_has_type].
Qed.

(** The cleaned dictionary before its fields are restricted. *)
Definition unparsed (d : dict) : dict :=
  let d := jpop "parsed_output" d in
  if py_eqb (jget_or_null "type" d) (JStr "text") then flatten_field "text" d else d.

Lemma jget_unparsed k d : k <> "text" -> k <> "parsed_output" -> jget k (unparsed d) = jget k d.
Proof.
  intros H1 H2. unfold unparsed. destruct (py_eqb _ _); rewrite ?jget_flatten, jget_jpop_ne by done; done.
Qed.

Lemma sanitize_block_obj d b' : sanitize_block (JObj d) = Ok b' ->
  exists d', b' = JObj d' /\ restrict_fields (type_or_text (unparsed d)) (unparsed d) = Ok d'.
Proof.
  unfold sanitize_block. fold (unparsed d). destruct (restrict_fields _ _) as [d'|] eqn:E; [|done].
  intros [= <-]. eauto.
Qed.

(** A tool block keeps its type and its id. *)
Lemma sanitize_block_tools b b' : sanitize_block b = Ok b' ->
  _block_type b' = _block_type b /\
  (has_type "tool_use" b = true -> _tool_use_id b' = _tool_use_id b) /\
  (has_type "tool_result" b = true -> _tool_result_id b' = _tool_result_id b).
Proof.
  destruct b as [| | | | |d]; try (by intros [= <-]). intros (d' & -> & E)%sanitize_block_obj.
  pose proof (restrict_type _ _ E) as Ht. rewrite jget_unparsed in Ht by done.
  assert (Hid : forall k t, k <> "text" -> k <> "parsed_output" -> has_type t (JObj d) = true ->
    (forall fields, _ALLOWED_BLOCK_FIELDS t = Some fields -> k ∈ fields) -> jget k d' = jget k d).
  { intros k t H1 H2 Hty Hk. unfold has_type, _block_type, block_field, jget_or_null in Hty.
    assert (type_or_text (unparsed d) = JStr t) as Et.
    { unfold type_or_text. rewrite jget_unparsed by done. destruct (jget "type" d) as [[]|]; try done.
      cbn in *. by apply String.eqb_eq in Hty as ->. }
    apply restrict_ok in E as [[-> _]|(t' & fields & Et' & Hf & ->)]; [by apply jget_unparsed|].
    rewrite Et in Et'. injection Et' as <-.
    rewrite jget_keep, decide_True by (by apply Hk). by apply jget_unparsed. }
  unfold _block_type, _tool_use_id, _tool_result_id, block_field, jget_or_null. rewrite Ht.
  split; [done|]. split; intros Hty.
  - rewrite (Hid "id" "tool_use"); try done. intros fields [= <-]. set_solver.
  - rewrite (Hid "tool_use_id" "tool_result"); try done. intros fields [= <-]. set_solver.
Qed.

Lemma sanitize_block_fields b b' : sanitize_block b = Ok b' -> fields_allowed b'.
Proof.
  destruct b as [| | | | |d]; try (by intros [= <-]). intros (d' & -> & E)%sanitize_block_obj.
  cbn [fields_allowed]. unfold type_or_text at 1. rewrite (restrict_type _ _ E).
  fold (type_or_text (unparsed d)).
  apply restrict_ok in E as [[-> Hn]|(t & fields & -> & Hf & ->)].
  - destruct (type_or_text _) eqn:Et; try done. by rewrite (Hn s).
  - rewrite Hf. intros kv Hin. unfold keep_fields in Hin. by apply list_elem_of_filter in Hin as [? _].
Qed.

(** * Messages *)

Lemma sanitize_message_roles m m' : sanitize_message_blocks m = Ok m' ->
  (forall r, has_role r m' = has_role r m) /\
  Forall2 (fun b b' => sanitize_block b = Ok b') (blocks_of m) (blocks_of m') /\
  (silent_user m' -> silent_user m).
Proof.
  unfold sanitize_message_blocks. destruct (jget "content" m) as [[| | | |l|d]|] eqn:Ej;
    try (intros [= <-]; split_and!; [done| |done]; unfold blocks_of, content_of; rewrite Ej; constructor).
  destruct (mapM sanitize_block l) as [l'|] eqn:E; [|done]. intros E'. injection E' as <-.
  apply mapM_ok in E. split_and!.
  - intros r. apply has_role_jset.
  - rewrite blocks_jset. unfold blocks_of, content_of. by rewrite Ej.
  - intros [H1 H2]. rewrite has_role_jset in H1. rewrite content_of_jset in H2. injection H2 as ->.
    apply Forall2_nil_inv_r in E as ->. split; [done|]. unfold content_of. by rewrite Ej.
Qed.

(** Ids of the selected blocks do not change. *)
Lemma selected_ids (p : json -> bool) (id : json -> json) l l' :
  (forall b b', sanitize_block b = Ok b' -> p b' = p b /\ (p b = true -> id b' = id b)) ->
  Forall2 (fun b b' => sanitize_block b = Ok b') l l' ->
  id <$> filter (fun b => p b = true) l' = id <$> filter (fun b => p b = true) l.
Proof.
  intros Hp. induction 1 as [|b b' l l' Hb Hl IH]; [done|]. destruct (Hp _ _ Hb) as [E1 E2].
  rewrite !filter_cons, E1. destruct (decide (p b = true)) as [Ht|Ht]; [|done]. cbn. by rewrite E2, IH.
Qed.

Lemma sanitize_message_ids m m' : sanitize_message_blocks m = Ok m' ->
  calls m' = calls m /\ answers m' = answers m.
Proof.
  intros (Hr & Hb & _)%sanitize_message_roles. unfold calls, answers. rewrite !Hr. split.
  - destruct (has_role "assistant" m); [|done]. apply selected_ids; [|done].
    intros b b' (Ht & Hu & _)%sanitize_block_tools. unfold is_use, has_type in *. rewrite Ht.
    destruct (py_eqb _ _); [|done]. cbn. by rewrite Hu.
  - destruct (has_role "user" m); [|done]. apply selected_ids; [|done].
    intros b b' (Ht & _ & Hu)%sanitize_block_tools. unfold has_type in *. by rewrite Ht.
Qed.

Lemma sanitize_messages_paired owed ms ms' : Forall2 (fun m m' => sanitize_message_blocks m = Ok m') ms ms' ->
  (paired owed ms -> paired owed ms') /\ owed_after owed ms' = owed_after owed ms.
Proof.
  intros H. revert owed. induction H as [|m m' ms ms' Hm Hms IH]; intros owed; [done|]. cbn.
  destruct (sanitize_message_ids _ _ Hm) as [-> Ea]. destruct (IH (calls m)) as [IH1 IH2].
  split; [|done]. intros [Hs Hp]. split; [|by apply IH1]. unfold settles. by rewrite Ea.
Qed.

(** Cleaning the blocks of a sanitized transcript makes it sendable. *)
Lemma cleaned_sendable ms ms' : well_paired ms -> Forall (fun m => ~ silent_user m) ms ->
  _sanitize_content_blocks ms = Ok ms' -> sendable ms'.
Proof.
  intros [Hp Ho] Hs H%mapM_ok. destruct (sanitize_messages_paired [] _ _ H) as [H1 H2].
  split_and!; [split; [by apply H1|congruence]| |].
  - clear -Hs H. induction H as [|m m' ms ms' Hm _ IH]; [done|]. apply Forall_cons in Hs as [Hs1 Hs2].
    constructor; [|by apply IH]. intros Hx. by apply sanitize_message_roles in Hm as (_ & _ & Hm); apply Hs1, Hm.
  - clear -H. induction H as [|m m' ms ms' Hm _ IH]; constructor; [|done].
    apply sanitize_message_roles in Hm as (_ & Hb & _). clear -Hb.
    induction Hb as [|b b' l l' Hb _ IH]; constructor; [by eapply sanitize_block_fields|done].
Qed.

Lemma jwf_messages ms : Forall (fun m => jwf (JObj m)) ms -> jwf (JList (JObj <$> ms)).
Proof. induction 1 as [|m ms Hm _ IH]; [done|]. split; [exact Hm|exact IH]. Qed.

(** * Values up to the order of keys *)

Lemma jget_in k (d : dict) : k ∈ d.*1 -> is_Some (jget k d).
Proof.
  induction d as [|[k' v] d IH]; cbn; [by intros ?%not_elem_of_nil|].
  destruct (String.eqb_spec k k'); [by eexists|]. intros [?|?]%elem_of_cons; [done|auto].
Qed.

Lemma jpop_absent k d : jget k d = None -> jpop k d = d.
Proof.
  induction d as [|[k' v] d IH]; [done|]. cbn. destruct (String.eqb k k'); [done|]. intros E. by rewrite IH.
Qed.

Lemma same_value_refl j : same_value j j.
Proof.
  induction j as [|b|z|s|l IH|d IH] using json_ind'; try by apply SameScalar.
  - apply SameList. induction IH; by constructor.
  - apply SameObj. intros k. destruct (jget k d) as [v|] eqn:E; constructor.
    clear -IH E. induction IH as [|[k' v'] d Hv _ IH]; [done|]. cbn in E.
    destruct (String.eqb k k'); [by injection E as <-|auto].
Qed.

Lemma same_null d d' k : same_value (JObj d) (JObj d') -> same_value (jget_or_null k d) (jget_or_null k d').
Proof.
  intros H. inversion H as [| |? ? Hk]; subst; [done|]. unfold jget_or_null.
  destruct (Hk k); [done|by constructor].
Qed.

Lemma same_scalar j j' : same_value j j' -> hashable j = true -> j' = j.
Proof. by destruct 1. Qed.

Lemma same_hash j j' : same_value j j' -> hashable j = true -> hashable j' = true.
Proof. by destruct 1. Qed.

Lemma same_str j j' s : same_value j j' -> py_eqb j' (JStr s) = py_eqb j (JStr s).
Proof. by destruct 1. Qed.

Lemma same_field k b b' : same_value b b' -> same_value (block_field k b) (block_field k b').
Proof.
  intros H. destruct H as [j Hj| |d d' Hk]; cbn; [destruct j; try done; by constructor|by constructor|].
  unfold jget_or_null. destruct (Hk k); [done|by constructor].
Qed.

Lemma same_type t b b' : same_value b b' -> has_type t b' = has_type t b.
Proof. intros H. unfold has_type, _block_type. by apply same_str, same_field. Qed.

Section messages.
Context (m m' : message) (Hsame : same_value (JObj m) (JObj m')).

Lemma same_role r : has_role r m' = has_role r m.
Proof using All. unfold has_role. by apply same_str, same_null. Qed.

Lemma same_content : same_value (content_of m) (content_of m').
Proof using All.
  inversion Hsame as [| |? ? Hk]; subst; [apply same_value_refl|]. unfold content_of.
  destruct (Hk "content"); [done|by constructor].
Qed.

Lemma same_blocks : Forall2 same_value (blocks_of m) (blocks_of m').
Proof using All. unfold blocks_of. by destruct same_content as [[]| |]. Qed.

Lemma same_silent : silent_user m' -> silent_user m.
Proof using All.
  intros [Hr Hc]. rewrite same_role in Hr. split; [done|]. revert Hc. destruct same_content as [j Hj|l l' Hl|]; try done.
  intros [= ->]. by apply Forall2_nil_inv_r in Hl as ->.
Qed.

(** The ids of the chosen blocks. *)
Lemma filter_ids_agree (p : json -> bool) (id : json -> json) :
  Forall (fun b => hashable (id b) = true) (blocks_of m) ->
  (forall b b', same_value b b' -> hashable (id b) = true -> p b' = p b /\ id b' = id b) ->
  id <$> filter (fun b => p b = true) (blocks_of m') = id <$> filter (fun b => p b = true) (blocks_of m).
Proof using All.
  intros Hh Hp. induction same_blocks as [|b b' l l' Hb _ IH]; [done|]. apply Forall_cons in Hh as [Hb' Hh].
  destruct (Hp b b' Hb Hb') as [E1 E2]. rewrite !filter_cons, E1.
  destruct (decide (p b = true)); [cbn; rewrite E2; f_equal|]; by apply IH.
Qed.

Lemma same_calls : ids_hashable m -> calls m' = calls m /\ answers m' = answers m.
Proof using All.
  intros Hh%blocks_hashable. unfold calls, answers. rewrite !same_role. split.
  - destruct (has_role "assistant" m); [|done]. apply filter_ids_agree.
    + eapply Forall_impl; [exact Hh|]. by intros b [? _].
    + intros b b' Hb Hi. assert (E : _tool_use_id b' = _tool_use_id b) by (by apply same_scalar; [apply same_field|]).
      unfold is_use. by rewrite (same_type _ _ _ Hb), E.
  - destruct (has_role "user" m); [|done]. apply filter_ids_agree.
    + eapply Forall_impl; [exact Hh|]. by intros b [_ ?].
    + intros b b' Hb Hi. split; [by apply same_type|]. by apply same_scalar; [apply same_field|].
Qed.

Lemma same_hashable : ids_hashable m -> ids_hashable m'.
Proof using All.
  unfold ids_hashable, parts_of. destruct same_content as [j Hj|l l' Hl|d d' Hk].
  - intros H. destruct j; try done; apply Forall_cons in H as [H _]; (constructor; [exact H|constructor]).
  - intros H. apply Forall_fmap in H. apply Forall_fmap. induction Hl as [|b b' l l' Hb _ IH]; [constructor|].
    apply Forall_cons in H as [[H1 H2] H]. constructor; [|by apply IH]. cbn in *.
    by split; (eapply same_hash; [by apply same_field|]).
  - intros [[H1 H2] _]%Forall_cons. constructor; [|constructor]. cbn [snd] in *.
    assert (Hd : same_value (JObj d) (JObj d')) by (by constructor).
    by split; (eapply same_hash; [by apply same_field|]).
Qed.
End messages.

Lemma same_plain b b' : same_value b b' -> plain_block b /\ fields_allowed b -> plain_block b' /\ fields_allowed b'.
Proof.
  intros Hb. destruct Hb as [| |d d' Hk]; [done|done|]. intros [(H1 & H2 & H3) H4]. cbn in *.
  assert (Ht : jget "type" d' = jget "type" d).
  { unfold jget_or_null in H1. destruct (Hk "type") as [v v' Hv|]; [|done]. cbn in H1. f_equal. by apply same_scalar. }
  split; [split_and!|].
  - unfold jget_or_null. by rewrite Ht.
  - specialize (Hk "parsed_output"). rewrite H2 in Hk. by inversion Hk.
  - intros o E. specialize (Hk "text"). rewrite E in Hk. inversion Hk as [v ? Hv E'|]; subst.
    inversion Hv; subst; [done|]. by apply (H3 d0).
  - unfold type_or_text in *. rewrite Ht. destruct (default _ _); try done.
    destruct (_ALLOWED_BLOCK_FIELDS _) as [fields|]; [|done]. intros [k v] Hin. cbn.
    assert (Hs : is_Some (jget k d)).
    { destruct (jget_in k d') as [v' E]; [by apply list_elem_of_fmap; exists (k, v)|].
      specialize (Hk k). rewrite E in Hk. by inversion Hk. }
    destruct Hs as [u Hu]. by apply jget_elem in Hu as Hu%H4.
Qed.

(** A clean block is left alone. *)
Lemma sanitize_block_same b : plain_block b -> fields_allowed b -> sanitize_block b = Ok b.
Proof.
  destruct b as [| | | | |d]; try done. intros (H1 & H2 & H3) H4. unfold sanitize_block.
  rewrite jpop_absent by done. assert (E : (if py_eqb (jget_or_null "type" d) (JStr "text") then flatten_field "text" d else d) = d).
  { destruct (py_eqb _ _); [|done]. unfold flatten_field. destruct (jget "text" d) as [[| | | | |o]|]; try done. by destruct (H3 o). }
  rewrite E. unfold restrict_fields, fields_allowed in *. unfold type_or_text, jget_or_null in *.
  destruct (jget "type" d) as [[]|]; cbn in *; try done;
    try (destruct (_ALLOWED_BLOCK_FIELDS s) as [fields|]; [|done]); unfold keep_fields; by rewrite filter_all.
Qed.

Lemma sanitize_messages_same ms :
  Forall (fun m => Forall (fun b => plain_block b /\ fields_allowed b) (blocks_of m)) ms ->
  _sanitize_content_blocks ms = Ok ms.
Proof.
  unfold _sanitize_content_blocks. induction 1 as [|m ms Hm _ IH]; [done|]. cbn [mapM]. rewrite IH.
  assert (E : sanitize_message_blocks m = Ok m); [|by rewrite E].
  unfold sanitize_message_blocks, blocks_of, content_of in *. destruct (jget "content" m) as [[| | | |l|]|] eqn:Ej; try done.
  cbn in Hm. assert (El : mapM sanitize_block l = Ok l).
  { clear Ej. induction Hm as [|b l [H1 H2] _ IHl]; [done|]. cbn [mapM]. by rewrite sanitize_block_same, IHl. }
  rewrite El. cbn. by rewrite jset_same.
Qed.

(** A transcript in order, read back with other orders of keys, is in order. *)
Lemma same_paired ms ms' : Forall2 (fun m m' => same_value (JObj m) (JObj m')) ms ms' -> Forall ids_hashable ms ->
  forall owed, (paired owed ms -> paired owed ms') /\ owed_after owed ms' = owed_after owed ms.
Proof.
  induction 1 as [|m m' ms ms' Hm _ IH]; intros Hh owed; [done|]. apply Forall_cons in Hh as [Hhm Hh]. cbn.
  destruct (same_calls _ _ Hm Hhm) as [-> Ea]. destruct (IH Hh (calls m)) as [I1 I2].
  split; [|done]. intros [Hs Hp]. split; [|by apply I1]. unfold settles in *. by rewrite Ea.
Qed.

Lemma same_sendable ms ms' : Forall2 (fun m m' => same_value (JObj m) (JObj m')) ms ms' -> Forall ids_hashable ms ->
  Forall (fun m => Forall plain_block (blocks_of m)) ms -> sendable ms ->
  (paired ← _sanitize_tool_pairs ms'; _sanitize_content_blocks paired) = Ok ms'.
Proof.
  intros Hm Hh Hpl ((Hp & Ho) & Hs & Hf).
  assert (H : _sanitize_tool_pairs ms' = Ok ms').
  { destruct (same_paired _ _ Hm Hh []) as [H1 H2]. apply sanitize_same.
    - split; [by apply H1|congruence].
    - clear -Hm Hs. induction Hm as [|m m' ms ms' Hmm _ IH]; [done|]. apply Forall_cons in Hs as [Hs1 Hs].
      constructor; [|by apply IH]. by intros ?%(same_silent _ _ Hmm).
    - clear -Hm Hh. induction Hm as [|m m' ms ms' Hmm _ IH]; [done|]. apply Forall_cons in Hh as [Hh1 Hh].
      constructor; [|by apply IH]. by apply (same_hashable _ _ Hmm). }
  rewrite H. cbn [mbind result_bind]. apply sanitize_messages_same.
  clear -Hm Hpl Hf. induction Hm as [|m m' ms ms' Hmm _ IH]; [done|].
  apply Forall_cons in Hpl as [Hp1 Hpl], Hf as [Hf1 Hf]. constructor; [|by apply IH].
  clear -Hmm Hp1 Hf1. pose proof (same_blocks _ _ Hmm) as Hb. revert Hp1 Hf1. induction Hb as [|b b' l l' Hbb _ IH]; [done|].
  intros [H1 Hp1]%Forall_cons [H2 Hf1]%Forall_cons. constructor; [by apply (same_plain _ _ Hbb)|by apply IH].
Qed.

(** * Properties *)

Section stored.
Context `{JsonbColumn} `{!JsonbLaws}.

(** Loading always answers something that can be sent: it never raises; the
    messages it answers have every call answered at once and no result without
    its call, no empty user message and no field a block's type does not allow;
    and messages of a session are only answered to its owner. *)
Theorem loaded_session_sendable (session_id : string) (uid : option string) (db : sessions) :
  let (ms, prompt) := async_load_session session_id uid db in
  sendable ms /\ (ms <> [] \/ prompt <> None -> exists row, db !! session_id = Some row /\ owned_by uid row = true).
Proof.
  assert (Hnil : forall P : Prop, sendable [] /\ (@nil message <> [] \/ @None string <> None -> P)).
  { intros P. split; [|by intros [?|?]]. by split_and!; constructor. }
  unfold async_load_session. destruct (find_session session_id uid db) as [row|] eqn:Ef; [|apply Hnil].
  destruct (read_column _ ≫= as_messages) as [messages|]; [|apply Hnil].
  destruct (_sanitize_tool_pairs messages) as [paired|] eqn:Es; [|apply Hnil]. cbn [mbind result_bind].
  destruct (_sanitize_content_blocks paired) as [ms|] eqn:Ec; [|apply Hnil].
  destruct (sanitize_tidy _ _ Es) as (c & Hc & Hp & <-). split.
  - apply (cleaned_sendable (cleaned c)); [|apply (tidy_users _ _ Hc)|done].
    split; [apply (tidy_paired _ _ Hc)|by eapply tidy_no_owed].
  - intros _. unfold find_session in Ef. destruct (db !! session_id) as [row'|] eqn:Ed; [|done].
    destruct (owned_by uid row') eqn:Eo; [|done]. injection Ef as <-. eauto.
Qed.

Lemma as_messages_objs ms : as_messages (JList (JObj <$> ms)) = Some ms.
Proof. cbn. induction ms as [|m ms IH]; [done|]. cbn. by rewrite IH. Qed.

(** Who may read a session of [owner]: the owner, and any reader without a user. *)
Definition may_read (reader owner : option string) : Prop :=
  reader = None \/ reader = Some "" \/ reader = owner.

Lemma may_read_owned reader row : may_read reader (user_id row) <-> owned_by reader row = true.
Proof.
  unfold may_read, owned_by. destruct (String.eqb_spec (str_or reader "") "") as [E|E].
  - split; [done|]. intros _. destruct reader as [u|]; [|by left]. right. left. cbn in E.
    unfold str_or in E. by destruct (String.eqb_spec u "") as [->|]; subst.
  - rewrite bool_decide_eq_true. split; [|by right; right].
    intros [->|[->|Hr]]; [by destruct E|by destruct E|done].
Qed.

(** C38. What was saved is loaded.  If the column takes the text of a transcript that
    is in order, the transcript comes back message by message, equal up to the order of
    keys, with its system prompt, to the owner of the session, who is the one who first
    saved it, and to a reader without a user; any other reader gets nothing.  The four
    token totals add up over the saves, the handoff stays, and no other session
    changes.  If the column refuses the text, nothing is written. *)
Theorem session_roundtrip (session_id : string) (ms : list message) (prompt : option string)
    (ti to cr cc : Z) (uid : option string) (db : sessions) :
  sendable ms -> Forall ids_hashable ms -> Forall (fun m => jwf (JObj m)) ms ->
  Forall (fun m => Forall plain_block (blocks_of m)) ms ->
  let db' := async_save_session session_id ms prompt ti to cr cc uid db in
  let before {A} (f : session_row -> A) (fresh : A) := from_option f fresh (db !! session_id) in
  match to_jsonb (dump_messages ms) with
  | None => db' = db
  | Some _ =>
      let owner := before user_id uid in
      (exists ms', Forall2 (fun m m' => same_value (JObj m) (JObj m')) ms ms' /\
         forall reader, may_read reader owner -> async_load_session session_id reader db' = (ms', prompt)) /\
      (forall reader, ~ may_read reader owner -> async_load_session session_id reader db' = ([], None)) /\
      (exists row, db' !! session_id = Some row /\ user_id row = owner /\
         total_input_tokens row = (before total_input_tokens 0 + ti)%Z /\
         total_output_tokens row = (before total_output_tokens 0 + to)%Z /\
         total_cache_read row = (before total_cache_read 0 + cr)%Z /\
         total_cache_creation row = (before total_cache_creation 0 + cc)%Z /\
         handoff_summary row = before handoff_summary JNull /\
         handoff_message_count row = before handoff_message_count 0%Z) /\
      forall other, other <> session_id -> db' !! other = db !! other
  end.
Proof.
  intros Hsend Hh Hj Hpl db' before. unfold db', async_save_session, before. clear before db'.
  destruct (to_jsonb (dump_messages ms)) as [written|] eqn:Ew; [|done].
  cbv beta zeta. set (owner := from_option user_id uid (db !! session_id)).
  pose proof (jsonb_same _ _ (jwf_messages _ Hj) Ew) as Hsame.
  assert (Hms : exists ms', written = JList (JObj <$> ms') /\ Forall2 (fun m m' => same_value (JObj m) (JObj m')) ms ms').
  { inversion Hsame as [? Hx|? l' Hl|]; subst; [done|]. clear -Hl.
    remember (JObj <$> ms) as l eqn:E. revert ms E. induction Hl as [|b b' l l' Hb _ IH]; intros [|m ms]; try done.
    - intros _. by exists [].
    - intros [= -> ->]. destruct (IH ms eq_refl) as (ms' & [= ->] & Hms). inversion Hb as [? Hx| |? d' Hd]; subst; [done|].
      exists (d' :: ms'). split; [done|by constructor]. }
  destruct Hms as (ms' & -> & Hms). pose proof (same_sendable _ _ Hms Hh Hpl Hsend) as Hclean.
  set (row := match db !! session_id with Some _ => _ | None => _ end).
  assert (Hrow : messages_col row = JList (JObj <$> ms') /\ system_prompt row = prompt /\ user_id row = owner).
  { unfold row, owner. by destruct (db !! session_id). }
  destruct Hrow as (Hm & Hpr & Hu). split_and!.
  - exists ms'. split; [done|]. intros reader Hr. unfold async_load_session, find_session.
    rewrite lookup_insert_eq. rewrite <- Hu in Hr. apply may_read_owned in Hr as ->.
    assert (Ea : read_column (messages_col row) ≫= as_messages = Some ms') by (rewrite Hm; apply as_messages_objs).
    by rewrite Ea, Hclean, Hpr.
  - intros reader Hr. unfold async_load_session, find_session. rewrite lookup_insert_eq. rewrite <- Hu in Hr.
    destruct (owned_by reader row) eqn:Eo; [|done]. by apply may_read_owned in Eo.
  - exists row. split; [apply lookup_insert_eq|]. split; [done|]. unfold row. by destruct (db !! session_id).
  - intros other Hne. by rewrite lookup_insert_ne.
Qed.
End stored.

(** ** Reading a thread *)

Lemma imap_pair_fst {A} (l : list A) k : (imap (fun i x => (k + i, x)) l).*1 = seq k (length l).
Proof.
  revert k. induction l as [|x l IH]; intros k; [done|]. cbn. rewrite Nat.add_0_r. f_equal.
  rewrite <- IH. f_equal. apply imap_ext. intros i y _. cbn. f_equal. lia.
Qed.

Lemma sorted_sublist {A} (R : relation A) l l' : sublist l l' -> StronglySorted R l' -> StronglySorted R l.
Proof.
  induction 1 as [|x l l' Hs IH|x l l' Hs IH]; intros H; [done| |]; inversion H as [|? ? Ht Ha]; subst.
  - constructor; [by apply IH|]. apply Forall_forall. intros y Hy. eapply Forall_forall in Ha; [done|].
    by eapply elem_of_sublist.
  - by apply IH.
Qed.

Lemma seq_sorted k n : StronglySorted lt (seq k n).
Proof.
  revert k. induction n as [|n IH]; intros k; [constructor|]. cbn. constructor; [done|].
  apply Forall_forall. intros x Hx%elem_of_seq. lia.
Qed.

Lemma indexed_sublist (ms : list message) sel : sublist sel (imap pair ms) ->
  (forall im, im ∈ sel -> ms !! im.1 = Some im.2) /\ StronglySorted lt (sel.*1).
Proof.
  intros H. split.
  - intros [i m] Hin. eapply elem_of_sublist in Hin; [|exact H].
    apply list_elem_of_lookup in Hin as [k Hk]. rewrite list_lookup_imap in Hk.
    destruct (ms !! k) eqn:E; [|done]. by injection Hk as <- <-.
  - eapply sorted_sublist with (l' := seq 0 (length ms)); [|apply seq_sorted].
    rewrite <- (imap_pair_fst ms 0). clear -H. change (imap _ ms) with (imap pair ms).
    induction H; cbn; by constructor.
Qed.

Lemma select_sublist mode s e q n ms : sublist (select_messages mode s e q n ms) (imap pair ms).
Proof.
  unfold select_messages, last_n. destruct (String.eqb mode "search").
  - destruct (String.eqb _ ""); [apply sublist_nil_l|].
    etrans; [apply sublist_take|]. apply sublist_filter.
  - destruct (String.eqb mode "range"); [|apply sublist_drop].
    etrans; [apply sublist_take|]. etrans; [apply sublist_drop|]. apply sublist_take.
Qed.

Lemma compact_text_length i m n : (0 <= n)%Z ->
  exists text, jget "content" (_compact_message_for_read i m n) = Some (JStr text) /\
    (Z.of_nat (String.length text) <= n + 33)%Z.
Proof.
  intros Hn. unfold _compact_message_for_read. set (text := match _ with JStr t => t | _ => _ end).
  eexists. split; [reflexivity|]. destruct (Z.ltb n (Z.of_nat (String.length text))) eqn:E.
  - rewrite !length_app_str. pose proof (str_take_length (Z.to_nat n) text).
    change (String.length newline) with 1%nat. change (String.length "... (message content truncated)") with 31%nat. lia.
  - apply Z.ltb_ge in E. lia.
Qed.

(** A read of a thread is a bounded window onto it: between one and a hundred
    messages are asked for and never more are answered, each under the index it
    has in the stored transcript and in transcript order, with its text cut to a
    bounded length; a recent read answers the very last messages, a search the
    first matching ones. *)
Theorem thread_window (mode : string) (start_index end_index : option Z) (query : option string)
    (limit max_chars : option Z) (ms : list message) :
  let n := Z.to_nat (read_limit limit) in
  let sel := select_messages mode start_index end_index query n ms in
  1 <= n <= 100 /\ length sel <= n /\
  (forall i m, (i, m) ∈ sel -> ms !! i = Some m) /\ StronglySorted lt (sel.*1) /\
  (forall i m, exists text,
     jget "content" (_compact_message_for_read i m (read_chars max_chars)) = Some (JStr text) /\
     (Z.of_nat (String.length text) <= 20033)%Z) /\
  (mode <> "search" -> mode <> "range" -> exists front, ms = front ++ sel.*2 /\ length sel = min n (length ms)) /\
  (mode = "search" -> let needle := lower (strip (str_or query "")) in needle <> "" ->
     sel = take n (filter (fun im => str_contains needle (lower (dumps_sorted (JObj im.2))) = true) (imap pair ms))).
Proof.
  intros n sel. pose proof (select_sublist mode start_index end_index query n ms) as Hsub.
  destruct (indexed_sublist _ _ Hsub) as [Hl Ho].
  split; [unfold n, read_limit; lia|]. clearbody n. split_and!; [|by intros i m Hin; apply (Hl (i, m))|done| | |].
  - unfold sel, select_messages, last_n. destruct (String.eqb mode "search").
    + destruct (String.eqb _ ""); [cbn; lia|]. rewrite length_take. lia.
    + destruct (String.eqb mode "range"); [rewrite length_take; apply Nat.le_min_l|].
      rewrite length_drop. generalize (length (imap pair ms)). lia.
  - intros i m. destruct (compact_text_length i m (read_chars max_chars)) as (text & E & Ht).
    + unfold read_chars. lia.
    + exists text. split; [done|]. clear -Ht. unfold read_chars in Ht. lia.
  - intros H1%String.eqb_neq H2%String.eqb_neq. unfold sel, select_messages, last_n. rewrite H1, H2.
    rewrite length_imap. exists (take (length ms - n) ms). split.
    + rewrite fmap_drop. replace ((imap pair ms).*2) with ms; [by rewrite take_drop|].
      rewrite fmap_imap. symmetry. rewrite <- (list_fmap_id ms) at 2. rewrite <- imap_const. by apply imap_ext.
    + rewrite length_drop, length_imap. lia.
  - intros -> needle Hn. unfold sel, select_messages. cbn [String.eqb].
    change (String.eqb "search" "search") with true. cbn iota. fold needle.
    by rewrite (proj2 (String.eqb_neq _ _) Hn).
Qed.

(** ** Witness *)

(** A column that keeps what is written. *)
#[export] Instance demo_column : JsonbColumn := {| to_jsonb := loads |}.
#[export] Instance demo_column_laws : JsonbLaws.
Proof. constructor. intros j j' Hj. cbn. rewrite loads_dumps by done. intros [= <-]. apply same_value_refl. Qed.

Lemma session_roundtrip_witness :
  exists ms', Forall2 (fun m m' => same_value (JObj m) (JObj m')) demo_mended ms' /\
    async_load_session "s" None (async_save_session "s" demo_mended None 1 2 3 4 (Some "u") ∅) = (ms', None).
Proof.
  assert (Hs : sendable demo_mended).
  { split_and!; [vm_compute; repeat constructor|repeat constructor; intros [_ H]; discriminate H|].
    repeat first [apply Forall_nil_2 | apply Forall_cons_2]; try exact I;
      (cbv beta iota delta [fields_allowed type_or_text]; cbn; apply Forall_forall, (bool_decide_unpack _);
       vm_compute; exact I). }
  assert (Hj : Forall (fun m => jwf (JObj m)) demo_mended).
  { vm_compute. repeat constructor; intros H; repeat (apply elem_of_cons in H as [H|H]; [discriminate H|]);
      by apply not_elem_of_nil in H. }
  assert (Hp : Forall (fun m => Forall plain_block (blocks_of m)) demo_mended).
  { repeat constructor; discriminate. }
  pose proof (session_roundtrip "s" demo_mended None 1 2 3 4 (Some "u") ∅ Hs ltac:(repeat constructor) Hj Hp) as Hr.
  assert (Ew : exists w, to_jsonb (dump_messages demo_mended) = Some w) by (eexists; vm_compute; reflexivity).
  destruct Ew as [w Ew]. rewrite Ew in Hr. destruct Hr as ((ms' & Hms & Hread) & _).
  exists ms'. split; [exact Hms|]. apply Hread. left. reflexivity.
Defined.
