(* ===== verification/Compaction.v ===== *)
(** Compaction of transcripts, [brain/systems/context/compaction.py]: token
    estimates, the choice of what is kept and what is summarized, compaction to a
    number of messages and to a token budget; and the raw suffix of
    [brain/systems/context/thread_handoff.py], which cuts with the same function. *)
From S2P Require Import Prelude.
From S2P Require Import PyStr.
From S2P Require Import Json.
From S2P Require Import JsonText.
From S2P Require Import Sessions.
From S2P Require Import SessionTheorems.
Open Scope string_scope.
Open Scope bool_scope.
Open Scope list_scope.

(** ** Roles and estimates *)

Definition content_has (t : string) (msg : message) : bool :=
  match content_of msg with JList blocks => existsb (has_type t) blocks | _ => false end.

Definition _is_tool_use_assistant (msg : message) : bool :=
  if has_role "assistant" msg then content_has "tool_use" msg else false.
Definition _is_tool_result_user (msg : message) : bool :=
  if has_role "user" msg then content_has "tool_result" msg else false.
Definition is_tool_message (msg : message) : bool :=
  _is_tool_use_assistant msg || _is_tool_result_user msg.

Definition estimate_context_tokens (v : json) : Z :=
  match v with
  | JNull => 0
  | _ =>
      let text := match v with JStr s => s | _ => dumps_sorted v end in
      if String.eqb text "" then 0 else Z.max 1 ((Z.of_nat (String.length text) + 3) / 4)
  end.

Definition messages_json (messages : list message) : json := JList (JObj <$> messages).

Definition estimate_session_tokens (messages : list message) (system tools : json) : Z :=
  estimate_context_tokens system + estimate_context_tokens tools + estimate_context_tokens (messages_json messages).

(** ** Reports and windows *)

Record CompactionReport : Type := {
  original_count : nat;
  kept_count : nat;
  omitted_count : nat;
  summary : string;
  strategy : string;
  provenance : dict }.

Definition report_payload (r : CompactionReport) : dict :=
  [("original_count", JInt (Z.of_nat (original_count r))); ("kept_count", JInt (Z.of_nat (kept_count r)));
   ("omitted_count", JInt (Z.of_nat (omitted_count r))); ("summary", JStr (summary r));
   ("strategy", JStr (strategy r)); ("provenance", JObj (provenance r))].

Record CompactionWindow : Type := {
  kept_early : list message;
  omitted_messages : list message;
  kept_recent : list message;
  omitted_range : nat * nat }.

(** ** The split *)

(** [messages[early_end - 1]]; index -1 is the last message. *)
Definition previous_message (messages : list message) (early_end : nat) : option message :=
  match early_end with O => last messages | Datatypes.S i => messages !! i end.

Definition previous_is_tool (messages : list message) (early_end : nat) : bool :=
  match previous_message messages early_end with Some m => is_tool_message m | None => false end.

(** The first loop: at most six steps, which its second guard allows. *)
Fixpoint extend_early (steps : nat) (messages : list message) (limit early_end : nat) : nat :=
  match steps with
  | O => early_end
  | Datatypes.S steps' =>
      if Nat.ltb early_end (length messages) && Nat.ltb early_end limit && previous_is_tool messages early_end
      then extend_early steps' messages limit (early_end + 1) else early_end
  end.

(** The second loop goes back over tool messages, to the first message at most. *)
Fixpoint retreat_early (messages : list message) (early_end : nat) : nat :=
  match early_end with
  | Datatypes.S (Datatypes.S _ as e) =>
      if previous_is_tool messages early_end then retreat_early messages e else early_end
  | _ => early_end
  end.

Definition early_end_of (messages : list message) (keep_early : nat) : nat :=
  retreat_early messages
    (extend_early 6 messages (Nat.max (keep_early + 6) keep_early) (Nat.min keep_early (length messages))).

(** How many messages at the front of the recent part cannot start it. *)
Fixpoint safe_start (candidate : list message) : nat :=
  match candidate with
  | [] => 0
  | msg :: rest =>
      if _is_tool_result_user msg then 1 + safe_start rest
      else if _is_tool_use_assistant msg then
        match rest with
        | next :: _ => if _is_tool_result_user next then 0 else 1 + safe_start rest
        | [] => 1
        end
      else 0
  end.

(** [l[-n:]] for any integer [n]: not positive, it drops from the front. *)
Definition py_suffix {A} (n : Z) (l : list A) : list A :=
  if Z.leb n 0 then drop (Z.to_nat (- n)) l else last_n (Z.to_nat n) l.

Definition slice {A} (from to : nat) (l : list A) : list A := drop from (take to l).

Definition split_session_messages_for_compaction (messages : list message) (max_messages : Z)
    (keep_early : nat) : option CompactionWindow :=
  let original_count := length messages in
  if Z.leb (Z.of_nat original_count) max_messages then None
  else
    let early_end := early_end_of messages keep_early in
    let recent_budget := Z.to_nat (Z.max 1 (max_messages - Z.of_nat early_end - 1)) in
    let candidate_recent := last_n recent_budget messages in
    let start := safe_start candidate_recent in
    let omitted_end := (original_count - length candidate_recent + start)%nat in
    Some {| kept_early := take early_end messages;
            omitted_messages := slice early_end omitted_end messages;
            kept_recent := drop start candidate_recent;
            omitted_range := (early_end, omitted_end) |}.

(** ** Compaction to a number of messages *)

Definition count_json (n : nat) : json := JInt (Z.of_nat n).

Definition no_compaction (messages : list message) (session_id : string) (max_messages : Z) : CompactionReport :=
  {| original_count := length messages; kept_count := length messages; omitted_count := 0;
     summary := "No compaction required."; strategy := "preserve_tool_pairs";
     provenance := [("session_id", JStr session_id); ("max_messages", JInt max_messages);
                    ("summary_source", JStr "none")] |}.

Definition summary_message (omitted : nat) (session_id text : string) : message :=
  [("role", JStr "user");
   ("content", JStr ("[System: " +:+ str_of_Z (Z.of_nat omitted) +:+
      " earlier messages compacted by ContextRuntime. Summary provenance=session:" +:+
      str_or (Some session_id) "unknown" +:+ "." +:+ newline +:+ text +:+ "]"))].

Definition compact_session_messages (messages : list message) (max_messages : Z) (session_id : string)
    (keep_early : nat) : result (list message * CompactionReport) :=
  match split_session_messages_for_compaction messages max_messages keep_early with
  | None => Ok (messages, no_compaction messages session_id max_messages)
  | Some window =>
      let omitted := omitted_messages window in
      text ← _summarize_trimmed_messages omitted;
      let summary_msg := summary_message (length omitted) session_id text in
      compacted ← _sanitize_tool_pairs (kept_early window ++ [summary_msg] ++ kept_recent window);
      Ok (compacted,
          {| original_count := length messages; kept_count := length compacted;
             omitted_count := length omitted; summary := text; strategy := "preserve_tool_pairs";
             provenance :=
               [("session_id", JStr session_id); ("max_messages", JInt max_messages);
                ("summary_source", JStr "brain.systems.sessions._summarize_trimmed_messages");
                ("omitted_range", JList [count_json (omitted_range window).1; count_json (omitted_range window).2]);
                ("tool_pair_safe", JBool true)] |})
  end.

(** ** Compaction to a token budget *)

(** The limits counted down by four from [current]; the fuel bounds the steps. *)
Fixpoint count_down (fuel : nat) (current min_messages : Z) : list Z :=
  match fuel with
  | O => []
  | Datatypes.S fuel' =>
      if Z.leb min_messages current then current :: count_down fuel' (current - 4) min_messages else []
  end.

Definition candidate_limits (count : nat) (max_messages min_messages : Z) : list Z :=
  let start := Z.min max_messages (Z.max min_messages (Z.of_nat count - 1)) in
  let limits := count_down (Z.to_nat (start - min_messages + 1)) start min_messages in
  if existsb (Z.eqb min_messages) limits then limits else limits ++ [min_messages].

(** The first limit whose result is within the target, else the last one. *)
Fixpoint try_limits (messages : list message) (target : Z) (session_id : string) (system tools : json)
    (keep_early : nat) (limits : list Z) (best : list message * option CompactionReport * Z)
    : result (list message * option CompactionReport * Z) :=
  match limits with
  | [] => Ok best
  | message_limit :: rest =>
      r ← compact_session_messages messages message_limit session_id keep_early;
      let estimated := estimate_session_tokens r.1 system tools in
      if Z.leb estimated target then Ok (r.1, Some r.2, estimated)
      else try_limits messages target session_id system tools keep_early rest (r.1, Some r.2, estimated)
  end.

Definition option_int (o : option Z) : json := match o with Some z => JInt z | None => JNull end.

Definition compact_session_messages_to_token_budget (messages : list message) (token_limit : Z)
    (target_tokens : option Z) (session_id : string) (system tools : json) (keep_early : nat)
    (max_messages min_messages : Z) : result (list message * CompactionReport) :=
  let original_tokens := estimate_session_tokens messages system tools in
  if Z.leb token_limit 0 || Z.leb original_tokens token_limit then
    Ok (messages,
        {| original_count := length messages; kept_count := length messages; omitted_count := 0;
           summary := "No compaction required."; strategy := "token_budget_preserve_tool_pairs";
           provenance :=
             [("session_id", JStr session_id); ("token_limit", JInt token_limit);
              ("target_tokens", option_int target_tokens);
              ("original_estimated_tokens", JInt original_tokens);
              ("final_estimated_tokens", JInt original_tokens); ("summary_source", JStr "none")] |})
  else
    let target := int_or target_tokens (Z.max min_messages (token_limit * 7 / 10)) in
    best ← try_limits messages target session_id system tools keep_early
             (candidate_limits (length messages) max_messages min_messages) (messages, None, original_tokens);
    let '(best_messages, best_report, best_tokens) := best in
    let report := default
      {| original_count := length messages; kept_count := length best_messages;
         omitted_count := (length messages - length best_messages)%nat;
         summary := "Token-budget compaction produced no detailed report.";
         strategy := "preserve_tool_pairs"; provenance := [] |} best_report in
    Ok (best_messages,
        {| original_count := original_count report; kept_count := length best_messages;
           omitted_count := omitted_count report; summary := summary report;
           strategy := "token_budget_preserve_tool_pairs";
           provenance := jupdate (provenance report)
             [("session_id", JStr session_id); ("token_limit", JInt token_limit);
              ("target_tokens", JInt target); ("original_estimated_tokens", JInt original_tokens);
              ("final_estimated_tokens", JInt best_tokens);
              ("message_limit", count_json (length best_messages))] |}).

(** ** The recent raw messages of a handoff *)

Definition DEFAULT_HANDOFF_RECENT_MESSAGES : Z := 32.

Definition recent_raw_messages_for_handoff (messages : list message) (max_recent_messages : Z) : list message :=
  if Z.leb (Z.of_nat (length messages)) max_recent_messages then messages
  else match split_session_messages_for_compaction messages (max_recent_messages + 3) 2 with
       | None => py_suffix max_recent_messages messages
       | Some window => kept_recent window
       end.

(** * The split *)

Lemma extend_early_bounds steps messages limit e :
  e <= length messages -> e <= limit ->
  e <= extend_early steps messages limit e <= Nat.min (length messages) limit.
Proof.
  revert e. induction steps as [|steps IH]; intros e H1 H2; cbn [extend_early]; [lia|].
  destruct (_ && _) eqn:E; [|lia]. bool_simpl.
  match goal with H : Nat.ltb e limit = true |- _ => apply Nat.ltb_lt in H end.
  match goal with H : Nat.ltb e _ = true |- _ => apply Nat.ltb_lt in H end.
  specialize (IH (e + 1)). lia.
Qed.

Lemma retreat_early_spec messages e : retreat_early messages e <= e /\
  (retreat_early messages e <= 1 \/ previous_is_tool messages (retreat_early messages e) = false).
Proof.
  induction e as [|e IH]; [cbn; lia|]. destruct e as [|e]; [cbn; lia|].
  change (retreat_early messages (Datatypes.S (Datatypes.S e))) with
    (if previous_is_tool messages (Datatypes.S (Datatypes.S e)) then retreat_early messages (Datatypes.S e)
     else Datatypes.S (Datatypes.S e)).
  destruct (previous_is_tool messages (Datatypes.S (Datatypes.S e))) eqn:E; [|auto].
  destruct IH as [H1 H2]. split; [lia|done].
Qed.

Lemma early_end_bounds messages keep : early_end_of messages keep <= Nat.min (length messages) (keep + 6).
Proof.
  unfold early_end_of.
  pose proof (extend_early_bounds 6 messages (Nat.max (keep + 6) keep) (Nat.min keep (length messages))) as H.
  destruct (retreat_early_spec messages (extend_early 6 messages (Nat.max (keep + 6) keep)
    (Nat.min keep (length messages)))) as [H1 _]. lia.
Qed.

(** A list of messages that can follow a summary: it does not start with a result,
    and if it starts with a call the result comes next. *)
Definition starts_clean (ms : list message) : Prop :=
  match ms with
  | [] => True
  | m :: rest =>
      _is_tool_result_user m = false /\
      (_is_tool_use_assistant m = true -> exists next rest', rest = next :: rest' /\ _is_tool_result_user next = true)
  end.

Lemma safe_start_spec candidate : safe_start candidate <= length candidate /\
  starts_clean (drop (safe_start candidate) candidate).
Proof.
  induction candidate as [|m rest [IH1 IH2]]; [done|]. cbn [safe_start].
  destruct (_is_tool_result_user m) eqn:Er; [cbn; split; [lia|done]|].
  destruct (_is_tool_use_assistant m) eqn:Eu.
  - destruct rest as [|next rest]; [cbn; split; [lia|done]|].
    destruct (_is_tool_result_user next) eqn:En.
    + cbn [drop starts_clean length]. split; [lia|]. split; [done|]. intros _. eauto.
    + cbn [Nat.add drop length] in *. split; [lia|done].
  - cbn [drop starts_clean]. split; [lia|]. split; [done|]. congruence.
Qed.

Lemma last_n_length {A} n (l : list A) : length (last_n n l) = Nat.min n (length l).
Proof. unfold last_n. rewrite length_drop. lia. Qed.

Lemma split_inv messages max keep w : split_session_messages_for_compaction messages max keep = Some w ->
  let e := early_end_of messages keep in
  let b := Z.to_nat (Z.max 1 (max - Z.of_nat e - 1)) in
  let s := safe_start (last_n b messages) in
  (max < Z.of_nat (length messages))%Z /\ kept_early w = take e messages /\
  omitted_messages w = slice e (length messages - Nat.min b (length messages) + s) messages /\
  kept_recent w = drop s (last_n b messages).
Proof.
  unfold split_session_messages_for_compaction. destruct (Z.leb _ _) eqn:E; [done|]. apply Z.leb_gt in E.
  intros H. injection H as <-. cbn. by rewrite last_n_length.
Qed.

(** The three parts make up the transcript when the early part leaves something. *)
Lemma parts_make_up {A} (l : list A) e b s : 1 <= b -> e <= length l - Nat.min b (length l) ->
  s <= Nat.min b (length l) ->
  take e l ++ slice e (length l - Nat.min b (length l) + s) l ++ drop s (last_n b l) = l.
Proof.
  intros Hb He Hs. unfold slice, last_n. rewrite drop_drop.
  replace (length l - b + s) with (length l - Nat.min b (length l) + s) by lia.
  set (o := length l - Nat.min b (length l) + s). assert (e <= o) by lia.
  rewrite <- (take_drop o l) at 4. rewrite app_assoc. f_equal.
  rewrite <- (take_drop e (take o l)) at 2. f_equal. rewrite take_take. f_equal. lia.
Qed.

(** ** From tool messages to calls and answers *)

Lemma content_has_none t m : content_has t m = false -> Forall (fun b => has_type t b = false) (blocks_of m).
Proof.
  unfold content_has, blocks_of. destruct (content_of m); try (intros; constructor).
  intros H. apply Forall_forall. intros b Hb. apply not_true_iff_false. intros Ht.
  assert (Hx : existsb (has_type t) l = true) by (apply existsb_exists; exists b; by rewrite <- list_elem_of_In).
  congruence.
Qed.

Lemma no_use_no_calls m : _is_tool_use_assistant m = false -> calls m = [].
Proof.
  unfold _is_tool_use_assistant, calls. destruct (has_role "assistant" m); [|done]. intros H%content_has_none.
  rewrite filter_nothing; [done|]. intros b Hb. eapply Forall_forall in H; [|exact Hb].
  unfold is_use. by rewrite H.
Qed.

Lemma no_result_no_answers m : _is_tool_result_user m = false -> answers m = [].
Proof.
  unfold _is_tool_result_user, answers. destruct (has_role "user" m); [|done]. intros H%content_has_none.
  rewrite filter_nothing; [done|]. intros b Hb. eapply Forall_forall in H; [|exact Hb]. by rewrite H.
Qed.

Lemma owed_last o ms m : owed_after o (ms ++ [m]) = calls m.
Proof. by rewrite owed_app. Qed.

(** A prefix that does not end in a call owes nothing. *)
Lemma prefix_owes_nothing ms e :
  e = 0 \/ (exists m, ms !! (e - 1) = Some m /\ _is_tool_use_assistant m = false) -> owed_after [] (take e ms) = [].
Proof.
  intros [->|(m & Hm & Hu)]; [done|]. destruct e as [|e].
  - done.
  - replace (Datatypes.S e - 1) with e in Hm by lia. rewrite (take_S_r _ _ m) by done.
    rewrite owed_last. by apply no_use_no_calls.
Qed.

(** A suffix of a paired transcript that starts clean owes nothing to what is before it. *)
Lemma suffix_paired front back : paired [] (front ++ back) -> starts_clean back -> owed_after [] (front ++ back) = [] ->
  paired [] back /\ owed_after [] back = [].
Proof.
  intros [_ Hp]%paired_app Hs. rewrite owed_app. destruct back as [|m rest]; [done|]. cbn in *.
  destruct Hs as [Hr _]. apply no_result_no_answers in Hr. destruct Hp as [Hset Hp].
  apply settles_nothing in Hset; [|done]. split; [|done]. split; [|done]. by apply settles_nil.
Qed.

(** ** What a split answers *)

Section split.
Context (messages : list message) (max_messages : Z) (keep_early : nat) (w : CompactionWindow).
Hypothesis Hsplit : split_session_messages_for_compaction messages max_messages keep_early = Some w.

Lemma split_early : let e := length (kept_early w) in
  kept_early w = take e messages /\ e <= length messages /\ e <= keep_early + 6 /\
  (e <= 1 \/ previous_is_tool messages e = false).
Proof.
  destruct (split_inv _ _ _ _ Hsplit) as (_ & He & _). pose proof (early_end_bounds messages keep_early) as Hb.
  assert (El : length (kept_early w) = early_end_of messages keep_early) by (rewrite He, length_take; lia).
  cbv zeta. rewrite El. split_and!; [done|lia|lia|]. unfold early_end_of. by apply retreat_early_spec.
Qed.

Lemma split_recent : starts_clean (kept_recent w).
Proof. destruct (split_inv _ _ _ _ Hsplit) as (_ & _ & _ & ->). apply safe_start_spec. Qed.

Lemma split_partition : length (kept_early w) < length messages ->
  kept_early w ++ omitted_messages w ++ kept_recent w = messages.
Proof.
  destruct (split_inv _ _ _ _ Hsplit) as (Hmax & He & -> & ->).
  pose proof (early_end_bounds messages keep_early) as Hb. rewrite He, length_take. intros Hlt.
  destruct (safe_start_spec (last_n (Z.to_nat (Z.max 1 (max_messages - Z.of_nat (early_end_of messages keep_early) - 1))) messages))
    as [Hs _]. rewrite last_n_length in Hs. apply parts_make_up; lia.
Qed.

Lemma split_recent_length : let e := length (kept_early w) in
  (Z.of_nat (length (kept_recent w)) <= Z.max 1 (max_messages - Z.of_nat e - 1))%Z /\
  (max_messages < Z.of_nat (length messages))%Z.
Proof.
  destruct (split_inv _ _ _ _ Hsplit) as (Hmax & He & _ & ->).
  pose proof (early_end_bounds messages keep_early) as Hb.
  cbv zeta. rewrite He, length_take, length_drop, last_n_length. lia.
Qed.
End split.

(** * Properties *)

(** Nothing is lost in the cut and nothing said twice: the parts kept, put
    around the omitted part, are the transcript, except when the early part is
    all of it; the early part never ends in the middle of a tool exchange unless
    it is the first message alone, the recent part starts neither with a result
    nor with a call whose result was cut off, and together with the summary they
    stay within the limit whenever it leaves room for two messages after the
    early part. *)
Theorem split_window_partition (messages : list message) (max_messages : Z) (keep_early : nat) (w : CompactionWindow) :
  split_session_messages_for_compaction messages max_messages keep_early = Some w ->
  let e := length (kept_early w) in
  (e < length messages -> kept_early w ++ omitted_messages w ++ kept_recent w = messages) /\
  (e = length messages -> kept_early w = messages /\ omitted_messages w = [] /\ length (kept_recent w) <= 1) /\
  e <= keep_early + 6 /\ (e <= 1 \/ previous_is_tool messages e = false) /\ starts_clean (kept_recent w) /\
  (Z.of_nat (e + 1 + length (kept_recent w)) <= Z.max max_messages (Z.of_nat e + 2))%Z.
Proof.
  intros H e. destruct (split_early _ _ _ _ H) as (He & Hle & Hk & Hend).
  destruct (split_recent_length _ _ _ _ H) as [Hr Hmax]. fold e in He, Hle, Hk, Hend, Hr.
  split_and!; [by apply split_partition with max_messages keep_early| |done|done|by eapply split_recent|lia].
  intros Heq. destruct (split_inv _ _ _ _ H) as (_ & He' & Ho & _).
  pose proof (early_end_bounds messages keep_early) as Hb.
  assert (El : e = early_end_of messages keep_early) by (unfold e; rewrite He', length_take; lia).
  split_and!; [|rewrite Ho|lia].
  - rewrite He. apply take_ge. lia.
  - unfold slice. apply drop_ge. rewrite length_take. lia.
Qed.

(** The summary makes no call and brings no result. *)
Lemma summary_plain n sid text : calls (summary_message n sid text) = [] /\ answers (summary_message n sid text) = [] /\
  ~ silent_user (summary_message n sid text) /\ ids_hashable (summary_message n sid text).
Proof. split_and!; [done|done|by intros [_ ?]|by repeat constructor]. Qed.

(** Early and recent parts of a transcript in order, around a message that is
    neither call nor result, are in order. *)
Lemma around_paired front mid back m : well_paired (front ++ mid ++ back) ->
  owed_after [] front = [] -> starts_clean back -> calls m = [] -> answers m = [] ->
  well_paired (front ++ [m] ++ back).
Proof.
  intros [Hp Ho] Hf Hb Hc Ha. rewrite app_assoc in Hp, Ho.
  destruct (suffix_paired _ _ Hp Hb Ho) as [Hpb Hob]. apply paired_app in Hp as [Hpf _].
  apply paired_app in Hpf as [Hpf _]. split.
  - apply paired_app. split; [done|]. rewrite Hf. cbn. rewrite Hc. split; [by apply settles_nil|done].
  - rewrite owed_app, Hf. cbn. by rewrite Hc.
Qed.

(** Whatever plain message stands for the omitted part, what is kept of a
    transcript in order stays word for word and in order. *)
Lemma kept_verbatim messages max_messages keep_early w m :
  split_session_messages_for_compaction messages max_messages keep_early = Some w ->
  length (kept_early w) < length messages ->
  well_paired messages -> Forall (fun m => ~ silent_user m) messages -> Forall ids_hashable messages ->
  (forall x, head messages = Some x -> _is_tool_use_assistant x = false) ->
  calls m = [] /\ answers m = [] /\ ~ silent_user m /\ ids_hashable m ->
  let compacted := kept_early w ++ [m] ++ kept_recent w in
  _sanitize_tool_pairs compacted = Ok compacted /\ well_paired compacted.
Proof.
  intros Hsplit Hlt Hp Hs Hh Hfirst (Hc & Ha & Hsil & Hid) compacted.
  pose proof (split_partition _ _ _ _ Hsplit Hlt) as Hparts.
  destruct (split_early _ _ _ _ Hsplit) as (He & Hle & _ & Hend).
  assert (Hf : owed_after [] (kept_early w) = []).
  { rewrite He. apply prefix_owes_nothing. set (e := length (kept_early w)) in *. clearbody e.
    destruct e as [|e]; [by left|right].
    destruct (lookup_lt_is_Some_2 messages e) as [x Hx]; [lia|].
    exists x. replace (Datatypes.S e - 1) with e by lia. split; [done|]. destruct Hend as [Hend|Hend].
    - assert (e = 0) as -> by lia. apply Hfirst. by rewrite head_lookup.
    - unfold previous_is_tool in Hend. cbn in Hend. rewrite Hx in Hend. unfold is_tool_message in Hend.
      by apply orb_false_iff in Hend as [? _]. }
  assert (Hwp : well_paired compacted).
  { eapply around_paired; [by rewrite Hparts|done|by eapply split_recent|done|done]. }
  assert (Hall : forall (P : message -> Prop), P m -> Forall P messages -> Forall P compacted).
  { intros P Hm Hms. rewrite <- Hparts in Hms. rewrite !Forall_app in Hms. destruct Hms as (? & _ & ?).
    unfold compacted. rewrite !Forall_app. split_and!; [done| |done]. by constructor. }
  split; [|done]. apply sanitize_same; [done|by apply Hall|by apply Hall].
Qed.

(** Compaction keeps what it keeps word for word: cut a transcript that is in
    order, whose first message makes no call, and the result is the early
    messages, one summary and the recent messages, unchanged; it is again in
    order, and the report counts what was kept and what was omitted. *)
Theorem compaction_verbatim (messages : list message) (max_messages : Z) (session_id : string) (keep_early : nat)
    (w : CompactionWindow) (text : string) :
  split_session_messages_for_compaction messages max_messages keep_early = Some w ->
  length (kept_early w) < length messages ->
  well_paired messages -> Forall (fun m => ~ silent_user m) messages -> Forall ids_hashable messages ->
  (forall m, head messages = Some m -> _is_tool_use_assistant m = false) ->
  _summarize_trimmed_messages (omitted_messages w) = Ok text ->
  let compacted := kept_early w ++ [summary_message (length (omitted_messages w)) session_id text] ++ kept_recent w in
  exists report, compact_session_messages messages max_messages session_id keep_early = Ok (compacted, report) /\
    well_paired compacted /\ kept_count report = length compacted /\
    original_count report = (length (kept_early w) + omitted_count report + length (kept_recent w))%nat.
Proof.
  intros Hsplit Hlt Hp Hs Hh Hfirst Htext compacted.
  destruct (kept_verbatim _ _ _ _ _ Hsplit Hlt Hp Hs Hh Hfirst
    (summary_plain (length (omitted_messages w)) session_id text)) as [Hsan Hwp].
  eexists. unfold compact_session_messages. rewrite Hsplit, Htext. cbn [mbind result_bind].
  rewrite Hsan. cbn [mbind result_bind]. split; [done|]. split; [done|]. split; [done|].
  rewrite <- (split_partition _ _ _ _ Hsplit Hlt) at 1. cbn. rewrite !length_app. lia.
Qed.

(** ** The limits that are tried *)

Lemma count_down_spec fuel current low : (current - low + 1 <= Z.of_nat fuel)%Z ->
  let l := count_down fuel current low in
  StronglySorted (fun x y => (y < x)%Z) l /\ Forall (fun x => (low <= x <= current)%Z) l /\
  (forall extra, count_down (fuel + extra) current low = l).
Proof.
  revert current. induction fuel as [|fuel IH]; intros current Hf; cbn [count_down Nat.add].
  - split_and!; [constructor|constructor|]. intros [|extra]; [done|]. cbn.
    destruct (Z.leb low current) eqn:E; [apply Z.leb_le in E; lia|done].
  - destruct (Z.leb low current) eqn:E; [|split_and!; [constructor..|done]]. apply Z.leb_le in E.
    destruct (IH (current - 4)%Z) as (H1 & H2 & H3); [lia|]. split_and!.
    + constructor; [done|]. eapply Forall_impl; [exact H2|]. intros x. cbn. lia.
    + constructor; [lia|]. eapply Forall_impl; [exact H2|]. intros x. cbn. lia.
    + intros extra. by rewrite H3.
Qed.

(** Strictly decreasing limits that end with the smallest. *)
Definition limits_ok (low : Z) (l : list Z) : Prop :=
  StronglySorted (fun x y => (y < x)%Z) l /\ Forall (fun x => (low <= x)%Z) l /\ last l = Some low.

Lemma sorted_last_min low l : StronglySorted (fun x y => (y < x)%Z) l -> Forall (fun x => (low <= x)%Z) l ->
  low ∈ l -> last l = Some low.
Proof.
  induction 1 as [|x l Hs IH Hall]; intros Hl Hin; [by apply not_elem_of_nil in Hin|].
  apply Forall_cons in Hl as [Hx Hl]. destruct l as [|y l].
  - apply list_elem_of_singleton in Hin as ->. done.
  - change (last (x :: y :: l)) with (last (y :: l)). apply IH; [done|].
    apply elem_of_cons in Hin as [->|Hin]; [|done]. apply Forall_cons in Hall as [Hall _], Hl as [Hl _]. lia.
Qed.

Lemma candidate_limits_ok count max_messages low : limits_ok low (candidate_limits count max_messages low).
Proof.
  unfold candidate_limits. set (start := Z.min _ _).
  destruct (count_down_spec (Z.to_nat (start - low + 1)) start low) as (H1 & H2 & _); [lia|].
  set (l := count_down _ _ _) in *. assert (H3 : Forall (fun x => (low <= x)%Z) l).
  { eapply Forall_impl; [exact H2|]. intros x. cbn. lia. }
  destruct (existsb (Z.eqb low) l) eqn:E.
  - apply existsb_exists in E as (x & Hx%list_elem_of_In & <-%Z.eqb_eq). split_and!; try done. by apply sorted_last_min.
  - assert (Hn : low ∉ l).
    { intros Hin. assert (existsb (Z.eqb low) l = true); [|congruence]. apply existsb_exists. exists low.
      rewrite <- list_elem_of_In. split; [done|apply Z.eqb_refl]. }
    split_and!.
    + clear -H1 H3 Hn. induction H1 as [|x l Hs IH Hall]; cbn; [repeat constructor|].
      apply Forall_cons in H3 as [Hx H3]. apply not_elem_of_cons in Hn as [Hx' Hn]. constructor; [by apply IH|].
      apply Forall_app. split; [done|]. constructor; [lia|done].
    + apply Forall_app. split; [done|]. by repeat constructor.
    + by rewrite last_snoc.
Qed.

(** The first limit that fits, else the last one tried. *)
Lemma try_limits_spec messages target sid system tools keep limits best msgs rep tokens :
  limits <> [] -> try_limits messages target sid system tools keep limits best = Ok (msgs, rep, tokens) ->
  exists before l after report, limits = before ++ l :: after /\
    compact_session_messages messages l sid keep = Ok (msgs, report) /\ rep = Some report /\
    tokens = estimate_session_tokens msgs system tools /\ ((tokens <= target)%Z \/ after = []) /\
    (forall l', l' ∈ before -> exists msgs' report', compact_session_messages messages l' sid keep = Ok (msgs', report') /\
       (target < estimate_session_tokens msgs' system tools)%Z).
Proof.
  revert best. induction limits as [|l limits IH]; intros best Hne; [done|]. cbn [try_limits].
  destruct (compact_session_messages messages l sid keep) as [[m r]|] eqn:Ec; [|done]. cbn [mbind result_bind fst snd].
  destruct (Z.leb _ target) eqn:Et.
  - apply Z.leb_le in Et. intros H. injection H as <- <- <-. exists [], l, limits, r.
    split_and!; try done; [by left|]. by intros l' ?%not_elem_of_nil.
  - apply Z.leb_gt in Et. destruct limits as [|l2 limits].
    + cbn. intros H. injection H as <- <- <-. exists [], l, [], r. split_and!; try done; [by right|].
      by intros l' ?%not_elem_of_nil.
    + intros H. destruct (IH _ ltac:(done) H) as (before & l0 & after & report & -> & H1 & H2 & H3 & H4 & H5).
      exists (l :: before), l0, after, report. split_and!; try done.
      intros l' [->|Hl']%elem_of_cons; [eauto|by apply H5].
Qed.

(** Compaction to a token budget stops at the first fit: a transcript within
    the limit is returned as it is; otherwise the limits tried strictly decrease
    to the smallest, and the result is the compaction at the first of them whose
    estimate is within the target, or at the smallest when none is. *)
Theorem token_budget_first_fit (messages out : list message) (token_limit : Z) (target : option Z) (sid : string)
    (system tools : json) (keep : nat) (max_messages min_messages : Z) (report : CompactionReport) :
  compact_session_messages_to_token_budget messages token_limit target sid system tools keep max_messages min_messages
    = Ok (out, report) ->
  let goal := int_or target (Z.max min_messages (token_limit * 7 / 10)) in
  let limits := candidate_limits (length messages) max_messages min_messages in
  let tokens := estimate_session_tokens messages system tools in
  limits_ok min_messages limits /\
  ((token_limit <= 0 \/ tokens <= token_limit)%Z -> out = messages /\ omitted_count report = 0) /\
  ((0 < token_limit < tokens)%Z ->
   exists before l after inner, limits = before ++ l :: after /\
     compact_session_messages messages l sid keep = Ok (out, inner) /\ omitted_count report = omitted_count inner /\
     ((estimate_session_tokens out system tools <= goal)%Z \/ l = min_messages) /\
     (forall l', l' ∈ before -> exists msgs' report', compact_session_messages messages l' sid keep = Ok (msgs', report') /\
        (goal < estimate_session_tokens msgs' system tools)%Z)).
Proof.
  intros H goal limits tokens. unfold compact_session_messages_to_token_budget in H.
  pose proof (candidate_limits_ok (length messages) max_messages min_messages) as Hl. fold limits in Hl, H.
  fold goal tokens in H. split; [done|]. destruct (_ || _) eqn:E.
  - injection H as <- <-. split; [done|]. intros Ht. apply orb_true_iff in E as [E|E]; apply Z.leb_le in E; lia.
  - apply orb_false_iff in E as [E1 E2]. apply Z.leb_gt in E1, E2. split; [lia|]. intros _.
    destruct (try_limits _ _ _ _ _ _ _ _) as [[[m r] t]|] eqn:Et; [|done]. cbn [mbind result_bind] in H.
    injection H as <- <-. apply try_limits_spec in Et as (before & l & after & inner & Hlim & Hc & -> & -> & Hfit & Hb).
    + exists before, l, after, inner. split_and!; try done. destruct Hfit as [Hfit| ->]; [by left|right].
      destruct Hl as (_ & _ & Hlast). rewrite Hlim, last_snoc in Hlast. by injection Hlast.
    + intros En. destruct Hl as (_ & _ & Hlast). by rewrite En in Hlast.
Qed.

(** * Where the code does not do what it says *)

Definition said (role text : string) : message := [("role", JStr role); ("content", JStr text)].

(** The early part can reach the end of a transcript that is over the limit; then
    the compacted transcript repeats its last message. *)
Definition tool_heavy : list message :=
  [said "user" "start"; demo_use; demo_results ["a"]; demo_use; demo_results ["a"]; said "user" "stop"].

Lemma compaction_repeats_last : exists summary_msg report,
  compact_session_messages tool_heavy 4 "s" 2 =
    Ok (tool_heavy ++ [summary_msg; said "user" "stop"], report) /\
  omitted_count report = 0.
Proof. eexists _, _. split; vm_compute; reflexivity. Qed.

(** Up to three messages over the limit, the raw suffix of a handoff is cut
    without regard to tool pairs and can start with a result. *)
Definition just_over : list message := [demo_use; demo_results ["a"]] ++ replicate 31 (said "assistant" "done").

Lemma recent_suffix_splits_pair :
  well_paired just_over /\ exists rest,
    recent_raw_messages_for_handoff just_over DEFAULT_HANDOFF_RECENT_MESSAGES = demo_results ["a"] :: rest /\
    ~ well_paired (demo_results ["a"] :: rest).
Proof.
  split; [vm_compute; repeat constructor|]. eexists. split; [vm_compute; reflexivity|].
  intros [[[_ H] _] _]. vm_compute in H. by apply Forall_cons in H as [H _].
Qed.

(** * Witnesses *)

Definition demo_long : list message :=
  [said "user" "start"; said "assistant" "ok"; demo_use; demo_results ["a"]; said "assistant" "more";
   demo_use; demo_results ["a"]; said "assistant" "done"].

Definition demo_window : CompactionWindow :=
  {| kept_early := take 2 demo_long; omitted_messages := slice 2 5 demo_long;
     kept_recent := drop 5 demo_long; omitted_range := (2, 5) |}.

Lemma split_window_partition_witness :
  split_session_messages_for_compaction demo_long 6 2 = Some demo_window /\ starts_clean (kept_recent demo_window).
Proof.
  assert (E : split_session_messages_for_compaction demo_long 6 2 = Some demo_window) by (vm_compute; reflexivity).
  split; [exact E|]. pose proof (split_window_partition demo_long 6 2 demo_window E) as H.
  cbv zeta in H. destruct H as (_ & _ & _ & _ & H & _). exact H.
Defined.

Lemma compaction_verbatim_witness : exists text report,
  compact_session_messages demo_long 6 "s" 2 =
    Ok (take 2 demo_long ++ [summary_message 3 "s" text] ++ drop 5 demo_long, report).
Proof.
  destruct (compaction_verbatim demo_long 6 "s" 2 demo_window ("assistant: let me look" +:+ newline +:+ "assistant: more"))
    as (report & E & _).
  - vm_compute. reflexivity.
  - vm_compute. lia.
  - vm_compute. repeat constructor.
  - repeat constructor; intros [_ H]; discriminate H.
  - repeat constructor.
  - intros m H. injection H as <-. reflexivity.
  - vm_compute. reflexivity.
  - eexists _, report. exact E.
Defined.

Lemma token_budget_first_fit_witness :
  match compact_session_messages_to_token_budget demo_long 40 (Some 1%Z) "s" JNull JNull 2 40 4 with
  | Ok (out, report) => limits_ok 4 (candidate_limits (length demo_long) 40 4)
  | Err _ => False
  end.
Proof.
  destruct (compact_session_messages_to_token_budget demo_long 40 (Some 1%Z) "s" JNull JNull 2 40 4)
    as [[out report]|] eqn:E; [|vm_compute in E; discriminate E].
  exact (proj1 (token_budget_first_fit _ _ _ _ _ _ _ _ _ _ _ E)).
Defined.
