(* ===== verification/SemanticCompaction.v ===== *)
(** Checkpoints, [brain/systems/context/semantic_compaction.py]: the structured
    summary that replaces an omitted span of a transcript, written by a model or,
    when there is none, from excerpts; and the plan of a compaction.

    The semantic compactor is an argument.  It answers a JSON value or fails with
    the text Python renders for its exception.  A metadata value that is a list is
    outside the model and read as an error. *)
From Stdlib Require Import Ascii.
From S2P Require Import Prelude.
From S2P Require Import PyStr.
From S2P Require Import Json.
From S2P Require Import JsonText.
From S2P Require Import RunCreate.
From S2P Require Import RunDemo.
From S2P Require Import Sessions.
From S2P Require Import SessionTheorems.
From S2P Require Import Compaction.
Open Scope string_scope.
Open Scope bool_scope.
Open Scope list_scope.

Definition _CONSTRAINT_TERMS : list string :=
  ["must"; "never"; "do not"; "don't"; "avoid"; "required"; "requirement"; "constraint"; "acceptance"; "important"].

(** ** Texts *)

(** Distinct normalized texts, at most [limit]; [cleaned] is also the set [seen]. *)
Fixpoint clean_texts (limit : nat) (cleaned items : list string) : list string :=
  match items with
  | [] => cleaned
  | item :: rest =>
      let text := squeeze item in
      if String.eqb text "" || existsb (String.eqb text) cleaned then clean_texts limit cleaned rest
      else let cleaned := cleaned ++ [text] in
           if Nat.leb limit (length cleaned) then cleaned else clean_texts limit cleaned rest
  end.

Definition text_items (v : json) : list string :=
  match v with
  | JNull => []
  | JStr s => [s]
  | JObj d => [dumps_sorted (JObj d)]
  | JList l => py_str <$> filter (fun item => strip (str_or_empty item) <> "") l
  | _ => [py_str v]
  end.

Definition _tuple_of_text (v : json) : list string := clean_texts 20 [] (text_items v).

(** What a content block contributes to the text of its message. *)
Definition block_text (b : json) : list string :=
  match b with
  | JObj d =>
      if has_type "text" b then [str_or_empty (jget_or_null "text" d)]
      else if has_type "tool_result" b then
        match jget_or_null "content" d with JStr s => [s] | tool_content => [dumps_sorted tool_content] end
      else if has_type "tool_use" b then
        ["tool_use " +:+ py_str (jor (jget_or_null "name" d) (JStr "tool")) +:+ ": " +:+
         dumps_sorted (jor (jget_or_null "input" d) (JObj []))]
      else []
  | _ => []
  end.

Definition _content_text (content : json) (limit : nat) : string :=
  match content with
  | JStr s => str_take limit (squeeze s)
  | JList blocks => str_take limit (squeeze (join " " (blocks ≫= block_text)))
  | _ => ""
  end.

Definition _is_tool_result_content (content : json) : bool :=
  match content with JList blocks => existsb (has_type "tool_result") blocks | _ => false end.

Definition _is_synthetic_user_text (text : string) : bool :=
  let stripped := lstrip text in
  startswith "[System:" stripped || startswith "[Previous durable thread handoff]" stripped.

(** The first text of a real user message, from the latest message back. *)
Fixpoint first_user_text (reversed : list message) : string :=
  match reversed with
  | [] => ""
  | msg :: rest =>
      let content := jget_or_null "content" msg in
      let text := _content_text content 1000 in
      if negb (has_role "user" msg) || _is_tool_result_content content || _is_synthetic_user_text text
         || String.eqb text "" then first_user_text rest else text
  end.

Definition _latest_user_text (messages : list message) : string := first_user_text (rev messages).

Fixpoint constraint_loop (candidates : list string) (messages : list message) : list string :=
  match messages with
  | [] => candidates
  | msg :: rest =>
      let text := _content_text (jget_or_null "content" msg) 1500 in
      if String.eqb text "" || negb (existsb (fun term => str_contains term (lower text)) _CONSTRAINT_TERMS)
      then constraint_loop candidates rest
      else
        let excerpt := strip (str_take 320 text) in
        let candidates := if negb (String.eqb excerpt "") && negb (existsb (String.eqb excerpt) candidates)
                          then candidates ++ [excerpt] else candidates in
        if Nat.leb 12 (length candidates) then candidates else constraint_loop candidates rest
  end.

Definition _extract_constraint_candidates (messages : list message) : list string := constraint_loop [] messages.

(** ** Paths

    [_PATH_RE] matches exactly the maximal runs of path characters that end in a
    dot and one of the suffixes: its look-around forces both ends of the run. *)

(** [\w] on the code points of the model. *)
Definition is_word (a : ascii) : bool :=
  let n := N_of_ascii a in
  let within lo hi := N.leb lo n && N.leb n hi in
  (within 48 57 || within 65 90 || N.eqb n 95 || within 97 122 || N.eqb n 170 || within 178 179 ||
  N.eqb n 181 || within 185 186 || within 188 190 || within 192 214 || within 216 246 || within 248 255)%N.

Definition is_path_char (a : ascii) : bool :=
  is_word a || Ascii.eqb a "/" || Ascii.eqb a "." || Ascii.eqb a "-".

Definition path_suffixes : list string :=
  [".py"; ".ts"; ".tsx"; ".svelte"; ".js"; ".jsx"; ".json"; ".md"; ".toml"; ".yaml"; ".yml"; ".sql"; ".sh"; ".rs"; ".go"].

(** [s] ends in [suffix] and has something before it. *)
Definition has_suffix (s suffix : string) : bool :=
  let k := (String.length s - String.length suffix)%nat in
  Nat.ltb 0 k && String.eqb (str_drop k s) suffix.

Fixpoint path_runs (current s : string) : list string :=
  match s with
  | EmptyString => [current]
  | String a rest => if is_path_char a then path_runs (current +:+ String a "") rest
                     else current :: path_runs "" rest
  end.

(** [_PATH_RE.findall(text)]. *)
Definition find_paths (text : string) : list string :=
  filter (fun run => existsb (has_suffix run) path_suffixes = true) (path_runs "" text).

(** At most twenty distinct paths, in order. *)
Fixpoint collect_paths (paths found : list string) : list string :=
  match found with
  | [] => paths
  | path :: rest =>
      if existsb (String.eqb path) paths then collect_paths paths rest
      else let paths := paths ++ [path] in
           if Nat.leb 20 (length paths) then paths else collect_paths paths rest
  end.

Definition _extract_paths (messages : list message) : list string :=
  collect_paths [] (messages ≫= fun msg => find_paths (_content_text (jget_or_null "content" msg) 2000)).

(** ** Checkpoints *)

Record CompactionCheckpoint : Type := {
  active_objective : string;
  user_constraints : list string;
  completed_work : list string;
  current_plan : list string;
  files_or_objects_touched : list string;
  decisions : list string;
  failed_attempts : list string;
  important_tool_results : list string;
  open_questions : list string;
  verification_status : string;
  recent_user_intent : string;
  risks_or_unknowns : list string;
  source : string;
  schema_version : Z;
  metadata : dict }.

Definition default_checkpoint (objective src : string) : CompactionCheckpoint :=
  {| active_objective := objective; user_constraints := []; completed_work := []; current_plan := [];
     files_or_objects_touched := []; decisions := []; failed_attempts := []; important_tool_results := [];
     open_questions := []; verification_status := ""; recent_user_intent := ""; risks_or_unknowns := [];
     source := src; schema_version := 1; metadata := [] |}.

Definition type_name (v : json) : string :=
  match v with
  | JNull => "NoneType" | JBool _ => "bool" | JInt _ => "int" | JStr _ => "str" | JList _ => "list" | JObj _ => "dict"
  end.

(** [int(v)] with its exceptions. *)
Definition int_or_raise (v : json) : result Z :=
  match py_int v with
  | Some z => Ok z
  | None =>
      match v with
      | JStr s => Err (ValueError ("invalid literal for int() with base 10: " +:+ repr_str s))
      | _ => Err (TypeError ("int() argument must be a string, a bytes-like object or a real number, not '"
                             +:+ type_name v +:+ "'"))
      end
  end.

(** [dict(v)]. *)
Definition dict_or_raise (v : json) : result dict :=
  match v with
  | JObj d => Ok d
  | JStr _ => Err (ValueError "dictionary update sequence element #0 has length 1; 2 is required")
  | _ => Err (TypeError ("'" +:+ type_name v +:+ "' object is not iterable"))
  end.

Definition stripped_field (k : string) (payload : dict) : string := strip (str_or_empty (jget_or_null k payload)).
Definition tuple_field (k : string) (payload : dict) : list string := _tuple_of_text (jget_or_null k payload).

Definition from_payload (payload : json) (src : string) : result CompactionCheckpoint :=
  match payload with
  | JNull => Ok (default_checkpoint "" src)
  | JStr s => Ok (default_checkpoint (squeeze s) src)
  | JObj d =>
      version ← int_or_raise (jor (jget_or_null "schema_version" d) (JInt 1));
      meta ← dict_or_raise (jor (jget_or_null "metadata" d) (JObj []));
      Ok {| active_objective := stripped_field "active_objective" d;
            user_constraints := tuple_field "user_constraints" d;
            completed_work := tuple_field "completed_work" d;
            current_plan := tuple_field "current_plan" d;
            files_or_objects_touched :=
              _tuple_of_text (jor (jget_or_null "files_or_objects_touched" d) (jget_or_null "files_touched" d));
            decisions := tuple_field "decisions" d;
            failed_attempts := tuple_field "failed_attempts" d;
            important_tool_results := tuple_field "important_tool_results" d;
            open_questions := tuple_field "open_questions" d;
            verification_status := stripped_field "verification_status" d;
            recent_user_intent := stripped_field "recent_user_intent" d;
            risks_or_unknowns := tuple_field "risks_or_unknowns" d;
            source := src; schema_version := version; metadata := meta |}
  | _ => Err (AttributeError ("'" +:+ type_name payload +:+ "' object has no attribute 'get'"))
  end.

Definition strings_json (l : list string) : json := JList (JStr <$> l).

Definition to_payload (c : CompactionCheckpoint) : dict :=
  [("schema_version", JInt (schema_version c)); ("source", JStr (source c));
   ("active_objective", JStr (active_objective c)); ("user_constraints", strings_json (user_constraints c));
   ("completed_work", strings_json (completed_work c)); ("current_plan", strings_json (current_plan c));
   ("files_or_objects_touched", strings_json (files_or_objects_touched c));
   ("decisions", strings_json (decisions c)); ("failed_attempts", strings_json (failed_attempts c));
   ("important_tool_results", strings_json (important_tool_results c));
   ("open_questions", strings_json (open_questions c)); ("verification_status", JStr (verification_status c));
   ("recent_user_intent", JStr (recent_user_intent c)); ("risks_or_unknowns", strings_json (risks_or_unknowns c));
   ("metadata", JObj (metadata c))].

(** [json.dumps(.., indent=2)]; keys were sorted before. *)
Fixpoint indent (n : nat) : string := match n with O => "" | Datatypes.S n' => " " +:+ indent n' end.

Fixpoint dumps_indent (level : nat) (j : json) : string :=
  let pad := newline +:+ indent (level + 2) in
  match j with
  | JList (_ :: _ as l) =>
      "[" +:+ pad +:+ join ("," +:+ pad)
        ((fix go l := match l with [] => [] | x :: l' => dumps_indent (level + 2) x :: go l' end) l)
      +:+ newline +:+ indent level +:+ "]"
  | JObj (_ :: _ as d) =>
      "{" +:+ pad +:+ join ("," +:+ pad)
        ((fix go d := match d with
          | [] => []
          | (k, v) :: d' => (quote k +:+ ": " +:+ dumps_indent (level + 2) v) :: go d'
          end) d)
      +:+ newline +:+ indent level +:+ "}"
  | _ => dumps ", " ": " j
  end.

Section checkpoints.
Context `{Platform}.

Definition digest (c : CompactionCheckpoint) : string :=
  str_take 24 (sha256_hex (dumps_sorted (JObj (to_payload c)))).

Definition fallback_risk : string :=
  "Semantic compactor unavailable; checkpoint was built from deterministic transcript excerpts.".

Definition deterministic_checkpoint_from_messages (omitted recent : list message) (session_id phase : string)
    (fallback_error : option string) : result CompactionCheckpoint :=
  summary ← _summarize_trimmed_messages omitted;
  let latest_recent_intent := _latest_user_text recent in
  let latest_intent := str_or (Some latest_recent_intent) (_latest_user_text omitted) in
  let risks := fallback_risk ::
    (if String.eqb (str_or fallback_error "") "" then []
     else ["Semantic compactor failed: " +:+ str_take 240 (str_or fallback_error "")]) in
  Ok {| active_objective := str_take 500 latest_intent;
        user_constraints := _extract_constraint_candidates omitted;
        completed_work := [summary]; current_plan := [];
        files_or_objects_touched := _extract_paths omitted;
        decisions := []; failed_attempts := []; important_tool_results := []; open_questions := [];
        verification_status := "unknown";
        recent_user_intent := str_take 500 (str_or (Some latest_recent_intent) latest_intent);
        risks_or_unknowns := risks; source := "deterministic_fallback"; schema_version := 1;
        metadata := [("session_id", JStr session_id); ("phase", JStr phase);
                     ("omitted_message_count", count_json (length omitted));
                     ("latest_user_intent_source",
                      JStr (if String.eqb latest_recent_intent "" then "omitted_messages" else "recent_messages"))] |}.

(** A semantic compactor answers a value, or fails with the text of its exception. *)
Definition SemanticCompactor : Type := list message -> dict -> json + string.

Definition list_of_string : json := JList [JStr "string"].

Definition compactor_context (recent : list message) (session_id phase : string) : dict :=
  [("session_id", JStr session_id); ("phase", JStr phase); ("recent_messages", messages_json recent);
   ("schema", JObj
     [("active_objective", JStr "string"); ("user_constraints", list_of_string);
      ("completed_work", list_of_string); ("current_plan", list_of_string);
      ("files_or_objects_touched", list_of_string); ("decisions", list_of_string);
      ("failed_attempts", list_of_string); ("important_tool_results", list_of_string);
      ("open_questions", list_of_string); ("verification_status", JStr "string");
      ("recent_user_intent", JStr "string"); ("risks_or_unknowns", list_of_string)])].

(** [f"{type(exc).__name__}: {exc}"] for the exceptions of [from_payload]. *)
Definition exn_text (e : exn) : string :=
  match e with
  | ValueError m => "ValueError: " +:+ m
  | TypeError m => "TypeError: " +:+ m
  | AttributeError m => "AttributeError: " +:+ m
  | _ => "Exception: "
  end.

(** The checkpoint of the compactor's answer, with the run's own metadata. *)
Definition semantic_checkpoint (payload : json) (omitted recent : list message) (session_id phase : string)
    : result CompactionCheckpoint :=
  c ← from_payload payload "semantic_compactor";
  Ok {| active_objective := active_objective c; user_constraints := user_constraints c;
        completed_work := completed_work c; current_plan := current_plan c;
        files_or_objects_touched := files_or_objects_touched c; decisions := decisions c;
        failed_attempts := failed_attempts c; important_tool_results := important_tool_results c;
        open_questions := open_questions c; verification_status := verification_status c;
        recent_user_intent := str_or (Some (recent_user_intent c)) (str_take 500 (_latest_user_text recent));
        risks_or_unknowns := risks_or_unknowns c; source := source c; schema_version := schema_version c;
        metadata := jupdate (metadata c)
          [("session_id", JStr session_id); ("phase", JStr phase);
           ("omitted_message_count", count_json (length omitted))] |}.

Definition build_compaction_checkpoint (omitted recent : list message) (session_id phase : string)
    (semantic_compactor : option SemanticCompactor) : result (CompactionCheckpoint * option string) :=
  match semantic_compactor with
  | None =>
      c ← deterministic_checkpoint_from_messages omitted recent session_id phase None; Ok (c, None)
  | Some compactor =>
      let attempt := match compactor omitted (compactor_context recent session_id phase) with
                     | inl payload => match semantic_checkpoint payload omitted recent session_id phase with
                                      | Ok c => inl c
                                      | Err e => inr (exn_text e)
                                      end
                     | inr error => inr error
                     end in
      match attempt with
      | inl c => Ok (c, None)
      | inr fallback_error =>
          c ← deterministic_checkpoint_from_messages omitted recent session_id phase (Some fallback_error);
          Ok (c, Some fallback_error)
      end
  end.

Definition checkpoint_message (c : CompactionCheckpoint) (omitted : nat) : message :=
  let payload := jset "checkpoint_digest" (JStr (digest c)) (to_payload c) in
  let body := dumps_indent 0 (sort_keys (JObj payload)) in
  [("role", JStr "user");
   ("content", JStr ("[System: Context compaction checkpoint. " +:+ str_of_Z (Z.of_nat omitted) +:+
      " older messages were summarized to preserve the current task state. " +:+
      "Continue from this checkpoint plus the raw recent turns. The final raw user message after this " +:+
      "checkpoint is the current request and supersedes any older objective in the checkpoint. " +:+
      "Do not claim certainty about omitted details." +:+ newline +:+ body +:+ "]"))].

(** ** The plan *)

Record CompactionPlan : Type := {
  plan_messages : list message;
  plan_report : CompactionReport;
  estimated_tokens : Z }.

(** What a plan is asked for. *)
Record plan_request : Type := {
  token_limit : Z;
  target_tokens : option Z;
  session_id : string;
  phase : string;
  system : json;
  tools : json;
  keep_early : nat;
  max_messages : Z;
  min_messages : Z;
  force : bool;
  emergency : bool;
  semantic_compactor : option SemanticCompactor }.

Definition estimate (q : plan_request) (messages : list message) : Z :=
  estimate_session_tokens messages (system q) (tools q).

Definition plan_strategy (q : plan_request) (src : string) : string :=
  let strategy := if String.eqb src "semantic_compactor" then "semantic_checkpoint"
                  else "structured_checkpoint_fallback" in
  if emergency q then "emergency_" +:+ strategy else strategy.

(** The compaction at one limit; [None] when it omits nothing. *)
Definition compact_at (messages : list message) (q : plan_request) (original target message_limit : Z)
    : result (option CompactionPlan) :=
  match split_session_messages_for_compaction messages message_limit (keep_early q) with
  | None => Ok None
  | Some window =>
      let omitted := omitted_messages window in
      if Nat.eqb (length omitted) 0 then Ok None
      else
        cf ← build_compaction_checkpoint omitted (kept_recent window) (session_id q) (phase q) (semantic_compactor q);
        let (checkpoint, fallback_error) := cf : CompactionCheckpoint * option string in
        let summary_msg := checkpoint_message checkpoint (length omitted) in
        compacted ← _sanitize_tool_pairs (kept_early window ++ [summary_msg] ++ kept_recent window);
        let estimated := estimate q compacted in
        Ok (Some {|
          plan_messages := compacted; estimated_tokens := estimated;
          plan_report := {|
            original_count := length messages; kept_count := length compacted; omitted_count := length omitted;
            summary := str_or (Some (active_objective checkpoint))
                         (str_or (Some (recent_user_intent checkpoint)) "Context checkpoint created.");
            strategy := plan_strategy q (source checkpoint);
            provenance :=
              [("session_id", JStr (session_id q)); ("phase", JStr (phase q)); ("token_limit", JInt (token_limit q));
               ("target_tokens", JInt target); ("original_estimated_tokens", JInt original);
               ("final_estimated_tokens", JInt estimated); ("message_limit", JInt message_limit);
               ("omitted_range", JList [count_json (omitted_range window).1; count_json (omitted_range window).2]);
               ("tool_pair_safe", JBool true); ("checkpoint_source", JStr (source checkpoint));
               ("checkpoint_schema_version", JInt (schema_version checkpoint));
               ("checkpoint_digest", JStr (digest checkpoint));
               ("semantic_fallback_error", match fallback_error with Some t => JStr t | None => JNull end);
               ("force", JBool (force q)); ("emergency", JBool (emergency q))] |} |})
  end.

Fixpoint plan_limits (messages : list message) (q : plan_request) (original target : Z) (limits : list Z)
    (best : option CompactionPlan) : result (option CompactionPlan) :=
  match limits with
  | [] => Ok best
  | message_limit :: rest =>
      r ← compact_at messages q original target message_limit;
      match r : option CompactionPlan with
      | None => plan_limits messages q original target rest best
      | Some plan => if Z.leb (estimated_tokens plan) target then Ok (Some plan)
                     else plan_limits messages q original target rest (Some plan)
      end
  end.

Definition untouched (messages : list message) (original : Z) (text strat : string) (prov : dict) : CompactionPlan :=
  {| plan_messages := messages; estimated_tokens := original;
     plan_report := {| original_count := length messages; kept_count := length messages; omitted_count := 0;
                       summary := text; strategy := strat; provenance := prov |} |}.

Definition plan_target (q : plan_request) : Z := int_or (target_tokens q) (Z.max 1 (token_limit q * 7 / 10)).

Definition plan_session_compaction (messages : list message) (q : plan_request) : result CompactionPlan :=
  let original := estimate q messages in
  if negb (force q) && (Z.leb (token_limit q) 0 || Z.leb original (token_limit q)) then
    Ok (untouched messages original "No compaction required." "semantic_checkpoint"
      [("session_id", JStr (session_id q)); ("phase", JStr (phase q)); ("token_limit", JInt (token_limit q));
       ("target_tokens", option_int (target_tokens q)); ("original_estimated_tokens", JInt original);
       ("final_estimated_tokens", JInt original); ("summary_source", JStr "none")])
  else
    let target := plan_target q in
    best ← plan_limits messages q original target
             (candidate_limits (length messages) (max_messages q) (min_messages q)) None;
    match best : option CompactionPlan with
    | None =>
        Ok (untouched messages original "No safe transcript messages were eligible for checkpoint compaction."
          (if emergency q then "emergency_checkpoint_unavailable" else "checkpoint_unavailable")
          [("session_id", JStr (session_id q)); ("phase", JStr (phase q)); ("token_limit", JInt (token_limit q));
           ("target_tokens", JInt target); ("original_estimated_tokens", JInt original);
           ("final_estimated_tokens", JInt original); ("force", JBool (force q)); ("emergency", JBool (emergency q))])
    | Some plan =>
        let report := plan_report plan in
        Ok {| plan_messages := plan_messages plan; estimated_tokens := estimated_tokens plan;
              plan_report := {| original_count := original_count report; kept_count := kept_count report;
                                omitted_count := omitted_count report; summary := summary report;
                                strategy := strategy report;
                                provenance := jupdate (provenance report)
                                  [("final_estimated_tokens", JInt (estimated_tokens plan))] |} |}
    end.
End checkpoints.

(** * What a plan does *)

Section plans.
Context `{Platform} (messages : list message) (q : plan_request).

Lemma compact_at_inv original target l plan : compact_at messages q original target l = Ok (Some plan) ->
  exists w c, split_session_messages_for_compaction messages l (keep_early q) = Some w /\
    omitted_messages w <> [] /\ omitted_count (plan_report plan) = length (omitted_messages w) /\
    _sanitize_tool_pairs (kept_early w ++ [checkpoint_message c (length (omitted_messages w))] ++ kept_recent w)
      = Ok (plan_messages plan) /\
    estimated_tokens plan = estimate q (plan_messages plan).
Proof.
  unfold compact_at. destruct (split_session_messages_for_compaction _ _ _) as [w|]; [|done].
  destruct (Nat.eqb _ 0) eqn:E0; [done|].
  destruct (build_compaction_checkpoint _ _ _ _ _) as [[c f]|]; [|done]. cbn [mbind result_bind].
  destruct (_sanitize_tool_pairs _) as [out|] eqn:Es; [|done]. cbn [mbind result_bind].
  intros E. injection E as <-. cbn. exists w, c. split_and!; try done. intros En. by rewrite En in E0.
Qed.

(** Nothing omitted means the early part was everything. *)
Lemma omitted_early l w : split_session_messages_for_compaction messages l (keep_early q) = Some w ->
  omitted_messages w <> [] -> length (kept_early w) < length messages.
Proof.
  intros Hs Ho. destruct (split_inv _ _ _ _ Hs) as (_ & He & Hom & _).
  pose proof (early_end_bounds messages (keep_early q)) as Hb. rewrite He, length_take.
  destruct (decide (early_end_of messages (keep_early q) < length messages)); [lia|].
  exfalso. apply Ho. rewrite Hom. unfold slice. apply drop_ge. rewrite length_take. lia.
Qed.

Lemma plan_limits_spec original target limits best found :
  plan_limits messages q original target limits best = Ok found ->
  (found = best /\ (forall l, l ∈ limits -> compact_at messages q original target l = Ok None)) \/
  exists before l after plan, limits = before ++ l :: after /\ found = Some plan /\
    compact_at messages q original target l = Ok (Some plan) /\
    ((estimated_tokens plan <= target)%Z \/ forall l', l' ∈ after -> compact_at messages q original target l' = Ok None) /\
    (forall l', l' ∈ before -> compact_at messages q original target l' = Ok None \/
       exists plan', compact_at messages q original target l' = Ok (Some plan') /\ (target < estimated_tokens plan')%Z).
Proof.
  revert best. induction limits as [|l limits IH]; intros best; cbn [plan_limits].
  { intros [= <-]. left. split; [done|]. by intros l ?%not_elem_of_nil. }
  destruct (compact_at messages q original target l) as [[plan|]|] eqn:Ec; [| |done]; cbn [mbind result_bind].
  - destruct (Z.leb _ target) eqn:Et.
    + intros E. injection E as <-. apply Z.leb_le in Et. right. exists [], l, limits, plan.
      split_and!; try done; [by left|]. by intros l' ?%not_elem_of_nil.
    + apply Z.leb_gt in Et. intros [[-> Hn]|(before & l0 & after & p & -> & -> & Hp & Hfit & Hb)]%IH; right.
      * exists [], l, limits, plan. split_and!; try done; [by right|]. by intros l' ?%not_elem_of_nil.
      * exists (l :: before), l0, after, p. split_and!; try done.
        intros l' [->|Hl']%elem_of_cons; [right; eauto|by apply Hb].
  - intros [[-> Hn]|(before & l0 & after & p & -> & -> & Hp & Hfit & Hb)]%IH.
    + left. split; [done|]. by intros l' [->|Hl']%elem_of_cons; [|apply Hn].
    + right. exists (l :: before), l0, after, p. split_and!; try done.
      intros l' [->|Hl']%elem_of_cons; [by left|by apply Hb].
Qed.

(** Whether a plan leaves the transcript alone from the start. *)
Definition no_need : bool :=
  negb (force q) && (Z.leb (token_limit q) 0 || Z.leb (estimate q messages) (token_limit q)).

Lemma plan_cases p : plan_session_compaction messages q = Ok p ->
  let original := estimate q messages in
  let limits := candidate_limits (length messages) (max_messages q) (min_messages q) in
  let at_limit l := compact_at messages q original (plan_target q) l in
  plan_messages p = messages /\ omitted_count (plan_report p) = 0 /\ estimated_tokens p = original /\
    (no_need = true \/ forall l, l ∈ limits -> at_limit l = Ok None) \/
  no_need = false /\ exists before l after plan, limits = before ++ l :: after /\ at_limit l = Ok (Some plan) /\
    plan_messages p = plan_messages plan /\ omitted_count (plan_report p) = omitted_count (plan_report plan) /\
    estimated_tokens p = estimated_tokens plan /\
    ((estimated_tokens plan <= plan_target q)%Z \/ forall l', l' ∈ after -> at_limit l' = Ok None) /\
    (forall l', l' ∈ before -> at_limit l' = Ok None \/
       exists plan', at_limit l' = Ok (Some plan') /\ (plan_target q < estimated_tokens plan')%Z).
Proof.
  intros Hp original limits at_limit. unfold plan_session_compaction in Hp. fold original in Hp.
  fold limits in Hp. unfold no_need. fold original.
  destruct (negb (force q) && _) eqn:En; [injection Hp as <-; left; cbn; auto|].
  destruct (plan_limits _ _ _ _ _ _) as [best|] eqn:Eb; [|done]. cbn [mbind result_bind] in Hp.
  apply plan_limits_spec in Eb as [[-> Hn]|(before & l & after & plan & Hl & -> & Hc & Hfit & Hb)].
  - injection Hp as <-. left. cbn. auto.
  - injection Hp as <-. right. split; [done|]. exists before, l, after, plan. cbn. auto 10.
Qed.
End plans.

Section properties.
Context `{Platform}.

Lemma checkpoint_plain c n : calls (checkpoint_message c n) = [] /\ answers (checkpoint_message c n) = [] /\
  ~ silent_user (checkpoint_message c n) /\ ids_hashable (checkpoint_message c n).
Proof. split_and!; [done|done|by intros [_ ?]|by repeat constructor]. Qed.

(** C37. A plan never loses the thread: planned for a transcript that is in order
    and whose first message makes no call, the prompt is either the transcript
    itself, with nothing omitted, or its early messages, one checkpoint and its
    recent messages, word for word and in order, where the checkpoint stands for
    exactly the messages between them; and the estimate a plan reports is the
    estimate of its prompt. *)
Theorem plan_keeps_transcript (messages : list message) (q : plan_request) (p : CompactionPlan) :
  plan_session_compaction messages q = Ok p ->
  well_paired messages -> Forall (fun m => ~ silent_user m) messages -> Forall ids_hashable messages ->
  (forall m, head messages = Some m -> _is_tool_use_assistant m = false) ->
  estimated_tokens p = estimate q (plan_messages p) /\ well_paired (plan_messages p) /\
  (plan_messages p = messages /\ omitted_count (plan_report p) = 0 \/
   exists early omitted recent c, messages = early ++ omitted ++ recent /\
     omitted_count (plan_report p) = length omitted /\ omitted <> [] /\ starts_clean recent /\
     plan_messages p = early ++ [checkpoint_message c (length omitted)] ++ recent).
Proof.
  intros Hplan Hp Hs Hh Hfirst.
  destruct (plan_cases _ _ _ Hplan) as [(-> & -> & -> & _)|(_ & before & l & after & plan & _ & Hc & -> & -> & -> & _)].
  { split_and!; [done|done|by left]. }
  destruct (compact_at_inv _ _ _ _ _ _ Hc) as (w & c & Hw & Hne & Ho & Hsan & He).
  pose proof (omitted_early _ _ _ _ Hw Hne) as Hlt.
  destruct (kept_verbatim _ _ _ _ _ Hw Hlt Hp Hs Hh Hfirst (checkpoint_plain c (length (omitted_messages w))))
    as [Hsame Hwp].
  rewrite Hsan in Hsame. injection Hsame as Hm. rewrite Hm. split; [congruence|]. split; [done|]. right.
  exists (kept_early w), (omitted_messages w), (kept_recent w), c. split_and!; try done.
  - symmetry. by apply split_partition with l (keep_early q).
  - by eapply split_recent.
Qed.

(** A plan answers the first fit: unless it may leave the prompt alone, it is
    the compaction at the largest limit tried whose estimate is within the
    target, else the compaction at the smallest limit that omits anything; it
    leaves the prompt alone exactly when it may or when no limit omits anything. *)
Theorem plan_first_fit (messages : list message) (q : plan_request) (p : CompactionPlan) :
  plan_session_compaction messages q = Ok p ->
  let limits := candidate_limits (length messages) (max_messages q) (min_messages q) in
  let at_limit l := compact_at messages q (estimate q messages) (plan_target q) l in
  limits_ok (min_messages q) limits /\
  (omitted_count (plan_report p) = 0 <-> no_need messages q = true \/ forall l, l ∈ limits -> at_limit l = Ok None) /\
  (0 < omitted_count (plan_report p) -> exists before l after plan, limits = before ++ l :: after /\
     at_limit l = Ok (Some plan) /\ plan_messages p = plan_messages plan /\
     ((estimated_tokens p <= plan_target q)%Z \/ forall l', l' ∈ after -> at_limit l' = Ok None) /\
     (forall l', l' ∈ before -> at_limit l' = Ok None \/
        exists plan', at_limit l' = Ok (Some plan') /\ (plan_target q < estimated_tokens plan')%Z)).
Proof.
  intros Hplan limits at_limit. split; [apply candidate_limits_ok|].
  destruct (plan_cases _ _ _ Hplan) as [(_ & -> & _ & Hno)|(Hn & before & l & after & plan & Hl & Hc & Hm & -> & He & Hfit & Hb)].
  { split; [by split|lia]. }
  destruct (compact_at_inv _ _ _ _ _ _ Hc) as (w & c & Hw & Hne & Ho & _).
  assert (Hpos : omitted_count (plan_report plan) <> 0) by (rewrite Ho; by destruct (omitted_messages w)).
  split.
  - split; [done|]. intros [Hx|Hx]; [congruence|]. exfalso. unfold at_limit, limits in Hx.
    rewrite (Hx l) in Hc; [done|]. rewrite Hl. apply elem_of_app. right. by left.
  - intros _. exists before, l, after, plan. rewrite He. auto 10.
Qed.
End properties.

(** * Witnesses *)

Definition demo_request : plan_request :=
  {| token_limit := 100; target_tokens := Some 1%Z; session_id := "s"; phase := "test"; system := JNull;
     tools := JNull; keep_early := 2; max_messages := 6; min_messages := 5; force := true; emergency := false;
     semantic_compactor := Some (fun _ _ => inl (JObj [("active_objective", JStr " ship it ")])) |}.

Lemma plan_keeps_transcript_witness : exists p,
  plan_session_compaction (H := demo_platform) demo_long demo_request = Ok p /\ well_paired (plan_messages p).
Proof.
  destruct (plan_session_compaction (H := demo_platform) demo_long demo_request) as [p|e] eqn:E.
  - exists p. split; [reflexivity|].
    destruct (plan_keeps_transcript (H := demo_platform) demo_long demo_request p E) as (_ & Hp & _).
    + vm_compute. repeat constructor.
    + repeat constructor; intros [_ Hx]; discriminate Hx.
    + repeat constructor.
    + intros m Hm. injection Hm as <-. reflexivity.
    + exact Hp.
  - exfalso. vm_compute in E. discriminate E.
Defined.

Lemma plan_first_fit_witness : exists p,
  plan_session_compaction (H := demo_platform) demo_long demo_request = Ok p /\
  limits_ok 5 (candidate_limits (length demo_long) 6 5).
Proof.
  destruct (plan_session_compaction (H := demo_platform) demo_long demo_request) as [p|e] eqn:E.
  - exists p. split; [reflexivity|].
    exact (proj1 (plan_first_fit (H := demo_platform) demo_long demo_request p E)).
  - exfalso. vm_compute in E. discriminate E.
Defined.
