(* ===== verification/WindowPolicy.v ===== *)
(** The context window policy of a run, [brain/systems/context/window_policy.py]:
    which prompts are admitted, when a transcript is compacted, and when
    compaction that gets nowhere is given up.

    A policy object is the state of the monad; its methods change it as the code
    does, also when they raise. *)
From S2P Require Import Prelude.
From S2P Require Import PyStr.
From S2P Require Import Json.
From S2P Require Import RunCreate.
From S2P Require Import RunDemo.
From S2P Require Import ContextBudget.
From S2P Require Import Sessions.
From S2P Require Import Compaction.
From S2P Require Import SemanticCompaction.
Open Scope string_scope.
Open Scope bool_scope.
Open Scope list_scope.

Definition DEFAULT_MIN_COMPACTION_MESSAGES : Z := 4.
Definition DEFAULT_MAX_COMPACTION_NO_PROGRESS : Z := 3.

Record ContextAdmission : Type := {
  admitted_budget : ModelContextBudget;
  floor_tokens : Z;
  tool_count : Z;
  admission_min_messages : Z }.

Record ContextCompactionOutcome : Type := {
  out_messages : list message;
  out_report : option CompactionReport;
  out_estimated_tokens : Z;
  final_tokens : Z;
  warning_required : bool }.

Record ContextWindowPolicy : Type := {
  budget : ModelContextBudget;
  policy_min_messages : Z;
  max_consecutive_no_progress : Z;
  consecutive_no_progress : Z;
  warning_emitted : bool }.

(** [ContextWindowPolicy.resolve]. *)
Definition resolve_policy (environ : string -> option string) (model : string) (p effort : option string)
    (max_output_tokens : option Z) (tools : nat) : ContextWindowPolicy :=
  {| budget := resolve_model_context_budget environ model p effort max_output_tokens tools;
     policy_min_messages := DEFAULT_MIN_COMPACTION_MESSAGES;
     max_consecutive_no_progress := DEFAULT_MAX_COMPACTION_NO_PROGRESS;
     consecutive_no_progress := 0; warning_emitted := false |}.

Definition threshold_tokens (s : ContextWindowPolicy) : Z := auto_compact_threshold_tokens (budget s).
Definition admits (s : ContextWindowPolicy) (tokens : Z) : bool := Z.leb tokens (threshold_tokens s).
Definition requires_compaction (s : ContextWindowPolicy) (tokens : Z) : bool := Z.ltb (threshold_tokens s) tokens.

(** [replace(budget, auto_compact_threshold_tokens=threshold)]. *)
Definition with_threshold (threshold : Z) (b : ModelContextBudget) : ModelContextBudget :=
  {| b_provider := b_provider b; b_model := b_model b; context_window := context_window b;
     reserved_output_tokens := reserved_output_tokens b;
     reserved_reasoning_tokens := reserved_reasoning_tokens b;
     reserved_tool_tokens := reserved_tool_tokens b; safety_margin_tokens := safety_margin_tokens b;
     effective_input_limit_tokens := effective_input_limit_tokens b;
     auto_compact_threshold_tokens := threshold; ContextBudget.target_tokens := ContextBudget.target_tokens b;
     emergency_target_tokens := emergency_target_tokens b;
     admission_ceiling_tokens := admission_ceiling_tokens b |}.

Definition set_budget (b : ModelContextBudget) (s : ContextWindowPolicy) : ContextWindowPolicy :=
  {| budget := b; policy_min_messages := policy_min_messages s;
     max_consecutive_no_progress := max_consecutive_no_progress s;
     consecutive_no_progress := consecutive_no_progress s; warning_emitted := warning_emitted s |}.
Definition set_progress (n : Z) (warned : bool) (s : ContextWindowPolicy) : ContextWindowPolicy :=
  {| budget := budget s; policy_min_messages := policy_min_messages s;
     max_consecutive_no_progress := max_consecutive_no_progress s;
     consecutive_no_progress := n; warning_emitted := warned |}.

Definition _reset_progress : M ContextWindowPolicy unit := modify (set_progress 0 false).

Definition _relax_preferred_threshold (tokens : Z) : M ContextWindowPolicy bool :=
  s <- get ;;
  match admission_ceiling_tokens (budget s) with
  | Some ceiling =>
      if Z.ltb (threshold_tokens s) tokens && Z.leb tokens ceiling then
        let threshold := Z.min ceiling (Z.max tokens (tokens * 11 / 10)) in
        modify (set_budget (with_threshold threshold (budget s))) ;;; ret true
      else ret false
  | None => ret false
  end.

Definition tools_json (tools : option (list json)) : json :=
  match tools with Some l => JList l | None => JNull end.
Definition tools_length (tools : option (list json)) : Z :=
  match tools with Some l => Z.of_nat (length l) | None => 0 end.

Section policy.
Context `{Platform}.

Definition floor_request (s : ContextWindowPolicy) (system : json) (tools : option (list json))
    (session_id phase : string) : plan_request :=
  {| token_limit := threshold_tokens s; SemanticCompaction.target_tokens := Some 1%Z;
     SemanticCompaction.session_id := session_id; SemanticCompaction.phase := phase;
     SemanticCompaction.system := system; SemanticCompaction.tools := tools_json tools; keep_early := 2;
     max_messages := policy_min_messages s; SemanticCompaction.min_messages := policy_min_messages s;
     SemanticCompaction.force := true; SemanticCompaction.emergency := false; semantic_compactor := None |}.

Definition admit_ (messages : list message) (system : json) (tools : option (list json))
    (session_id phase : string) : M ContextWindowPolicy ContextAdmission :=
  s <- get ;;
  minimum_plan <- lift_result (plan_session_compaction messages (floor_request s system tools session_id phase)) ;;
  _relax_preferred_threshold (estimated_tokens minimum_plan) ;;;
  s1 <- get ;;
  let admission := {| admitted_budget := budget s1; floor_tokens := estimated_tokens minimum_plan;
                      tool_count := tools_length tools; admission_min_messages := policy_min_messages s1 |} in
  if admits s1 (floor_tokens admission) then ret admission
  else raise (ContextFloorExceedsBudgetError (floor_tokens admission) (threshold_tokens s1)
                (tool_count admission) (admission_min_messages admission)).

Definition compact_request (s : ContextWindowPolicy) (system : json) (tools : option (list json))
    (session_id phase : string) (limit : Z) (compactor : option SemanticCompactor) (force emergency : bool)
    : plan_request :=
  {| token_limit := threshold_tokens s;
     SemanticCompaction.target_tokens :=
       Some (if emergency then emergency_target_tokens (budget s) else ContextBudget.target_tokens (budget s));
     SemanticCompaction.session_id := session_id; SemanticCompaction.phase := phase;
     SemanticCompaction.system := system; SemanticCompaction.tools := tools_json tools; keep_early := 2;
     max_messages := limit; SemanticCompaction.min_messages := policy_min_messages s;
     SemanticCompaction.force := force; SemanticCompaction.emergency := emergency;
     semantic_compactor := compactor |}.

Definition compact (messages : list message) (session_id phase : string) (system : json)
    (tools : option (list json)) (limit : Z) (compactor : option SemanticCompactor) (force emergency : bool)
    : M ContextWindowPolicy ContextCompactionOutcome :=
  let estimated := estimate_session_tokens messages system (tools_json tools) in
  s <- get ;;
  if negb force && negb (requires_compaction s estimated) then
    _reset_progress ;;;
    ret {| out_messages := messages; out_report := None; out_estimated_tokens := estimated;
           final_tokens := estimated; warning_required := false |}
  else
    plan <- lift_result (plan_session_compaction messages
              (compact_request s system tools session_id phase limit compactor force emergency)) ;;
    relaxed <- _relax_preferred_threshold (estimated_tokens plan) ;;
    s1 <- get ;;
    let omits := Nat.ltb 0 (omitted_count (plan_report plan)) in
    let made_sufficient_progress := (omits || relaxed) && admits s1 (estimated_tokens plan) in
    (if made_sufficient_progress then _reset_progress
     else modify (set_progress (consecutive_no_progress s1 + 1) (warning_emitted s1))) ;;;
    s2 <- get ;;
    let warning := negb omits && negb (warning_emitted s2) in
    when_ warning (modify (set_progress (consecutive_no_progress s2) true)) ;;;
    if negb made_sufficient_progress && Z.leb (max_consecutive_no_progress s2) (consecutive_no_progress s2)
    then raise (ContextCompactionStalledError (estimated_tokens plan) (threshold_tokens s2)
                  (tools_length tools) (consecutive_no_progress s2) phase)
    else ret {| out_messages := if omits then plan_messages plan else messages;
                out_report := if omits then Some (plan_report plan) else None;
                out_estimated_tokens := estimated; final_tokens := estimated_tokens plan;
                warning_required := warning |}.
End policy.

(** * What the operations do to the policy *)

Section facts.
Context `{Platform}.

(** The hard ceiling of a policy: what no relaxation passes. *)
Definition hard_ceiling (s : ContextWindowPolicy) : Z :=
  default (threshold_tokens s) (admission_ceiling_tokens (budget s)).

Definition relaxes (s : ContextWindowPolicy) (tokens : Z) : bool :=
  match admission_ceiling_tokens (budget s) with
  | Some ceiling => Z.ltb (threshold_tokens s) tokens && Z.leb tokens ceiling
  | None => false
  end.

Definition relaxed_policy (s : ContextWindowPolicy) (tokens : Z) : ContextWindowPolicy :=
  if relaxes s tokens
  then set_budget (with_threshold (Z.min (hard_ceiling s) (Z.max tokens (tokens * 11 / 10))) (budget s)) s
  else s.

Lemma relax_eq tokens s : _relax_preferred_threshold tokens s = (relaxed_policy s tokens, Ok (relaxes s tokens)).
Proof.
  unfold _relax_preferred_threshold, relaxed_policy, relaxes, hard_ceiling. unfold_monad.
  destruct (admission_ceiling_tokens (budget s)) as [c|]; [|done]. by destruct (_ && _).
Qed.

Lemma relaxed_fields s tokens : let s' := relaxed_policy s tokens in
  consecutive_no_progress s' = consecutive_no_progress s /\ warning_emitted s' = warning_emitted s /\
  max_consecutive_no_progress s' = max_consecutive_no_progress s /\
  policy_min_messages s' = policy_min_messages s.
Proof. unfold relaxed_policy. by destruct (relaxes s tokens). Qed.

(** A relaxed threshold lets the tokens in and stays below the ceiling. *)
Lemma relaxed_threshold s tokens : let s' := relaxed_policy s tokens in
  (threshold_tokens s <= threshold_tokens s')%Z /\
  (relaxes s tokens = true -> tokens <= threshold_tokens s' <= hard_ceiling s)%Z /\
  (relaxes s tokens = false -> s' = s).
Proof.
  unfold relaxed_policy, relaxes, hard_ceiling. destruct (admission_ceiling_tokens (budget s)) as [c|]; [|done].
  destruct (_ && _) eqn:E; [|done]. bool_simpl.
  unfold threshold_tokens, set_budget, with_threshold. unfold threshold_tokens in *. cbn. split_and!; [lia|lia|done].
Qed.

(** A compaction makes sufficient progress when it omits something, or the limit
    could be relaxed, and its prompt is admitted then. *)
Definition sufficient (s : ContextWindowPolicy) (plan : CompactionPlan) : bool :=
  (Nat.ltb 0 (omitted_count (plan_report plan)) || relaxes s (estimated_tokens plan)) &&
  admits (relaxed_policy s (estimated_tokens plan)) (estimated_tokens plan).

Lemma compact_eq messages sid ph system tools limit compactor force emergency s plan :
  let estimated := estimate_session_tokens messages system (tools_json tools) in
  negb force && negb (requires_compaction s estimated) = false ->
  plan_session_compaction messages (compact_request s system tools sid ph limit compactor force emergency) = Ok plan ->
  let s1 := relaxed_policy s (estimated_tokens plan) in
  let omits := Nat.ltb 0 (omitted_count (plan_report plan)) in
  let n := (consecutive_no_progress s + 1)%Z in
  let outcome warning :=
    Ok {| out_messages := if omits then plan_messages plan else messages;
          out_report := if omits then Some (plan_report plan) else None;
          out_estimated_tokens := estimated; final_tokens := estimated_tokens plan; warning_required := warning |} in
  compact messages sid ph system tools limit compactor force emergency s =
    if sufficient s plan then (set_progress 0 (negb omits) s1, outcome (negb omits))
    else
      let warning := negb omits && negb (warning_emitted s) in
      (set_progress n (warning_emitted s || warning) s1,
       if Z.leb (max_consecutive_no_progress s) n
       then Err (ContextCompactionStalledError (estimated_tokens plan) (threshold_tokens s1) (tools_length tools) n ph)
       else outcome warning).
Proof.
  intros estimated Hneed Hplan s1 omits n outcome. unfold compact. fold estimated.
  unfold bind at 1, get at 1. rewrite Hneed.
  unfold bind at 1, lift_result. rewrite Hplan. unfold bind at 1. rewrite relax_eq. fold s1.
  unfold bind at 1, get at 1. fold omits.
  change ((omits || relaxes s (estimated_tokens plan)) && admits s1 (estimated_tokens plan)) with (sufficient s plan).
  destruct (relaxed_fields s (estimated_tokens plan)) as (Hn & Hw & Hm & _). fold s1 in Hn, Hw, Hm.
  destruct (sufficient s plan).
  - unfold _reset_progress. unfold_monad. cbn [negb andb]. by destruct omits.
  - unfold_monad. cbn [negb andb set_progress warning_emitted consecutive_no_progress max_consecutive_no_progress].
    rewrite Hn, Hw, Hm. fold n. by destruct omits, (warning_emitted s), (Z.leb (max_consecutive_no_progress s) n).
Qed.

Lemma compact_unneeded messages sid ph system tools limit compactor force emergency s :
  let estimated := estimate_session_tokens messages system (tools_json tools) in
  negb force && negb (requires_compaction s estimated) = true ->
  compact messages sid ph system tools limit compactor force emergency s =
    (set_progress 0 false s,
     Ok {| out_messages := messages; out_report := None; out_estimated_tokens := estimated;
           final_tokens := estimated; warning_required := false |}).
Proof. intros estimated Hn. unfold compact, _reset_progress. unfold_monad. fold estimated. by rewrite Hn. Qed.
End facts.

(** * Runs of a policy *)

Section runs.
Context `{Platform}.

(** One successful compaction, and whether it was futile: needed, but without
    sufficient progress. *)
Inductive compacts (s : ContextWindowPolicy) : bool -> ContextWindowPolicy -> Prop :=
| compacts_intro messages sid ph system tools limit compactor force emergency s' out :
    compact messages sid ph system tools limit compactor force emergency s = (s', Ok out) ->
    compacts s (negb (Z.eqb (consecutive_no_progress s') 0)) s'.

Inductive compaction_trace (s : ContextWindowPolicy) : list bool -> ContextWindowPolicy -> Prop :=
| trace_nil : compaction_trace s [] s
| trace_cons f fs s1 s2 : compacts s f s1 -> compaction_trace s1 fs s2 -> compaction_trace s (f :: fs) s2.

Lemma compact_cases messages sid ph system tools limit compactor force emergency s :
  (exists s' out, compact messages sid ph system tools limit compactor force emergency s = (s', Ok out) /\
     consecutive_no_progress s' = 0%Z /\
     max_consecutive_no_progress s' = max_consecutive_no_progress s) \/
  (exists plan s' r, compact messages sid ph system tools limit compactor force emergency s = (s', r) /\
     sufficient s plan = false /\ consecutive_no_progress s' = (consecutive_no_progress s + 1)%Z /\
     max_consecutive_no_progress s' = max_consecutive_no_progress s /\
     is_ok r = Z.ltb (consecutive_no_progress s + 1) (max_consecutive_no_progress s) /\
     (is_ok r = false -> exists estimated ceiling count,
        r = Err (ContextCompactionStalledError estimated ceiling count (consecutive_no_progress s + 1) ph))) \/
  (exists e, compact messages sid ph system tools limit compactor force emergency s = (s, Err e)).
Proof.
  destruct (negb force && negb (requires_compaction s (estimate_session_tokens messages system (tools_json tools))))
    eqn:Hn.
  { left. rewrite compact_unneeded by done. eexists _, _. done. }
  destruct (plan_session_compaction messages (compact_request s system tools sid ph limit compactor force emergency))
    as [plan|e] eqn:Hp.
  2:{ right; right. exists e. unfold compact. unfold_monad. rewrite Hn, Hp. done. }
  rewrite (compact_eq _ _ _ _ _ _ _ _ _ _ _ Hn Hp).
  destruct (relaxed_fields s (estimated_tokens plan)) as (_ & _ & Hm & _).
  destruct (sufficient s plan) eqn:Hs; [left; eexists _, _; done|].
  right; left. exists plan. eexists _, _. split; [reflexivity|]. split_and!; try done;
    destruct (Z.leb _ _) eqn:E; cbn; try done; [| |eauto].
  - symmetry. apply Z.ltb_ge. by apply Z.leb_le.
  - symmetry. apply Z.ltb_lt. by apply Z.leb_gt.
Qed.

Lemma compacts_counter s f s' : compacts s f s' ->
  max_consecutive_no_progress s' = max_consecutive_no_progress s /\
  (f = false /\ consecutive_no_progress s' = 0%Z \/
   f = true /\ consecutive_no_progress s' = (consecutive_no_progress s + 1)%Z /\
   (consecutive_no_progress s' < max_consecutive_no_progress s)%Z).
Proof.
  destruct 1 as [ms sid ph sys tl lim comp fc em s' out E].
  destruct (compact_cases ms sid ph sys tl lim comp fc em s)
    as [(s1 & o & E1 & Hc & Hm)|[(plan & s1 & r & E1 & _ & Hc & Hm & Hok & _)|(e & E1)]]; rewrite E in E1.
  - injection E1 as <- _. rewrite Hc. split; [done|by left].
  - injection E1 as <- <-. cbn in Hok. symmetry in Hok. apply Z.ltb_lt in Hok.
    split; [done|]. destruct (Z.eqb (consecutive_no_progress s') 0) eqn:Ez; [left|right].
    + by apply Z.eqb_eq in Ez.
    + split; [done|]. lia.
  - done.
Qed.

Lemma futile_trace s fs s' : Forall (eq true) fs -> compaction_trace s fs s' ->
  (consecutive_no_progress s < max_consecutive_no_progress s)%Z ->
  (consecutive_no_progress s' = consecutive_no_progress s + Z.of_nat (length fs))%Z /\
  (consecutive_no_progress s' < max_consecutive_no_progress s')%Z /\
  max_consecutive_no_progress s' = max_consecutive_no_progress s.
Proof.
  intros Hf. revert s. induction Hf as [|f fs <- Hfs IH]; intros s Ht Hs; inversion Ht as [|? ? s1 ? H1 H2]; subst.
  - cbn. split_and!; [lia|done|done].
  - apply compacts_counter in H1 as [Hm [[? _]|(_ & Hc & Hlt)]]; [done|].
    destruct (IH s1 H2) as (Hi & Hi2 & Hi3); [lia|]. cbn [length]. split_and!; [lia|done|congruence].
Qed.

Lemma trace_bounded s fs s' : compaction_trace s fs s' ->
  (0 <= consecutive_no_progress s < max_consecutive_no_progress s)%Z ->
  (0 <= consecutive_no_progress s' < max_consecutive_no_progress s')%Z /\
  max_consecutive_no_progress s' = max_consecutive_no_progress s.
Proof.
  induction 1 as [|f fs s s1 s2 H1 _ IH]; intros Hs; [done|].
  apply compacts_counter in H1 as [Hm H1]. rewrite <- Hm. apply IH. destruct H1 as [[_ ->]|(_ & -> & ?)]; lia.
Qed.

Lemma trace_app s fs gs s' : compaction_trace s (fs ++ gs) s' ->
  exists s1, compaction_trace s fs s1 /\ compaction_trace s1 gs s'.
Proof.
  revert s. induction fs as [|f fs IH]; intros s Ht; [by exists s; split; [constructor|]|].
  cbn in Ht. inversion Ht as [|? ? s1 ? H1 H2]; subst. apply IH in H2 as (s2 & H2 & H3).
  exists s2. split; [by econstructor|done].
Qed.

(** A run never compacts in vain forever: from a policy whose counter is below
    its maximum, as a fresh one's is, successful compactions never include as many
    futile ones in a row as the maximum; the futile compaction that would complete
    them raises ContextCompactionStalledError with that many attempts. *)
Theorem futile_compactions_bounded (s s' : ContextWindowPolicy) (before futile : list bool) :
  (0 <= consecutive_no_progress s < max_consecutive_no_progress s)%Z ->
  compaction_trace s (before ++ futile) s' -> Forall (eq true) futile ->
  (Z.of_nat (length futile) < max_consecutive_no_progress s)%Z /\
  forall messages sid ph system tools limit compactor force emergency s2 r,
    compact messages sid ph system tools limit compactor force emergency s' = (s2, r) ->
    consecutive_no_progress s2 = max_consecutive_no_progress s -> exists estimated ceiling count,
      r = Err (ContextCompactionStalledError estimated ceiling count (max_consecutive_no_progress s) ph).
Proof.
  intros Hs Ht Hf. apply trace_app in Ht as (s1 & H1 & H2).
  destruct (trace_bounded _ _ _ H1 Hs) as [Hs1 Hm1].
  destruct (futile_trace _ _ _ Hf H2) as (Hc & Hlt & Hm2); [lia|]. split; [lia|].
  intros ms sid ph sys tl lim comp fc em s2 r E Hmax.
  destruct (compact_cases ms sid ph sys tl lim comp fc em s')
    as [(s3 & o & E3 & Hc3 & _)|[(plan & s3 & r3 & E3 & _ & Hc3 & _ & Hok & Herr)|(e & E3)]]; rewrite E in E3.
  - injection E3 as <- _. lia.
  - injection E3 as <- <-. replace (max_consecutive_no_progress s) with (consecutive_no_progress s' + 1)%Z by lia.
    apply Herr. rewrite Hok. apply Z.ltb_ge. lia.
  - injection E3 as <- _. lia.
Qed.

(** Every call of the policy, returning or raising. *)
Inductive policy_step (s : ContextWindowPolicy) : ContextWindowPolicy -> Prop :=
| step_admit messages system tools sid ph : policy_step s (admit_ messages system tools sid ph s).1
| step_compact messages sid ph system tools limit compactor force emergency :
    policy_step s (compact messages sid ph system tools limit compactor force emergency s).1.

(** What never changes in a policy, and what may only grow below the ceiling. *)
Definition policy_extends (s s' : ContextWindowPolicy) : Prop :=
  admission_ceiling_tokens (budget s') = admission_ceiling_tokens (budget s) /\
  effective_input_limit_tokens (budget s') = effective_input_limit_tokens (budget s) /\
  context_window (budget s') = context_window (budget s) /\
  ContextBudget.target_tokens (budget s') = ContextBudget.target_tokens (budget s) /\
  emergency_target_tokens (budget s') = emergency_target_tokens (budget s) /\
  (threshold_tokens s <= threshold_tokens s')%Z /\
  (threshold_tokens s' <> threshold_tokens s ->
   exists ceiling, admission_ceiling_tokens (budget s) = Some ceiling /\ (threshold_tokens s' <= ceiling)%Z).

#[local] Instance policy_extends_refl : Reflexive policy_extends.
Proof. intros s. split_and!; try done; lia. Qed.

#[local] Instance policy_extends_trans : Transitive policy_extends.
Proof.
  intros s1 s2 s3 (A1 & B1 & W1 & C1 & D1 & E1 & F1) (A2 & B2 & W2 & C2 & D2 & E2 & F2). split_and!; try congruence; [lia|].
  intros Hne. destruct (decide (threshold_tokens s3 = threshold_tokens s2)) as [Heq|Hne2].
  - rewrite Heq in *. by apply F1.
  - rewrite <- A1. by apply F2.
Qed.

Lemma relaxed_extends s tokens : policy_extends s (relaxed_policy s tokens).
Proof.
  destruct (relaxed_threshold s tokens) as (H1 & H2 & H3). destruct (relaxes s tokens) eqn:E; [|by rewrite H3].
  specialize (H2 eq_refl). unfold relaxed_policy in *. rewrite E in *. split_and!; try done.
  intros _. unfold hard_ceiling, relaxes in *. destruct (admission_ceiling_tokens (budget s)) as [c|]; [|done].
  exists c. split; [done|]. cbn in *. lia.
Qed.

Lemma progress_extends n w s : policy_extends s (set_progress n w s).
Proof. split_and!; try done; cbn; lia. Qed.

Lemma policy_step_extends s s' : policy_step s s' -> policy_extends s s'.
Proof.
  destruct 1 as [ms sys tl sid ph|ms sid ph sys tl lim comp fc em].
  - unfold admit_. unfold_monad. destruct (plan_session_compaction _ _) as [p|e]; [|done].
    rewrite relax_eq. destruct (admits _ _); apply relaxed_extends.
  - destruct (negb fc && negb (requires_compaction s (estimate_session_tokens ms sys (tools_json tl)))) eqn:Hn.
    { rewrite compact_unneeded by done. apply progress_extends. }
    destruct (plan_session_compaction ms (compact_request s sys tl sid ph lim comp fc em)) as [plan|e] eqn:Hp.
    + rewrite (compact_eq _ _ _ _ _ _ _ _ _ _ _ Hn Hp).
      destruct (sufficient s plan); cbn [fst]; (etrans; [apply relaxed_extends|apply progress_extends]).
    + unfold compact. unfold_monad. by rewrite Hn, Hp.
Qed.

(** The window stays within its limits: whatever admissions and compactions a
    run makes, returning or raising, the threshold of its policy only grows, never
    past the hard ceiling derived from the provider's window nor past the prompt
    limit, which leaves a quarter of the window at least, and both targets stay positive and at most the threshold. *)
Theorem window_limits_hold (environ : string -> option string) (model : string) (p effort : option string)
    (max_output : option Z) (tools : nat) (s : ContextWindowPolicy) :
  rtc policy_step (resolve_policy environ model p effort max_output tools) s ->
  (threshold_tokens (resolve_policy environ model p effort max_output tools) <= threshold_tokens s)%Z /\
  (threshold_tokens s <= default (effective_input_limit_tokens (budget s)) (admission_ceiling_tokens (budget s)))%Z /\
  (default (effective_input_limit_tokens (budget s)) (admission_ceiling_tokens (budget s))
   <= effective_input_limit_tokens (budget s))%Z /\
  (context_window (budget s) / 4 <= effective_input_limit_tokens (budget s) <= context_window (budget s))%Z /\
  (1 <= ContextBudget.target_tokens (budget s) <= threshold_tokens s)%Z /\
  (1 <= emergency_target_tokens (budget s) <= threshold_tokens s)%Z.
Proof.
  intros Hr. assert (He : policy_extends (resolve_policy environ model p effort max_output tools) s).
  { induction Hr as [|s1 s2 s3 H1 _ IH]; [done|]. etrans; [by apply policy_step_extends|done]. }
  destruct (budget_facts environ model p effort max_output tools) as (H1 & H2 & H3 & H4 & H5 & _).
  destruct He as (A & B & W & C & D & E & F). unfold threshold_tokens in *. cbn [budget resolve_policy] in *.
  rewrite A, B, W, C, D. split_and!; try lia.
  destruct (decide (auto_compact_threshold_tokens (budget s) =
    auto_compact_threshold_tokens (resolve_model_context_budget environ model p effort max_output tools))) as [Heq|Hne].
  - lia.
  - destruct (F Hne) as (c & Hc & Hle). rewrite Hc. done.
Qed.

(** Admission is decided by the floor: with the canonical minimal prompt planned,
    a policy admits it exactly when its estimate is at most the threshold or the
    hard ceiling; the threshold is then at least the floor and at most that
    bound, and the counters of compaction are left alone; otherwise admission
    raises ContextFloorExceedsBudgetError with the floor and the unchanged
    threshold. *)
Theorem admission_decided (s : ContextWindowPolicy) (messages : list message) (system : json)
    (tools : option (list json)) (sid ph : string) (plan : CompactionPlan) :
  plan_session_compaction messages (floor_request s system tools sid ph) = Ok plan ->
  let bound := Z.max (threshold_tokens s) (hard_ceiling s) in
  let (s', r) := admit_ messages system tools sid ph s in
  consecutive_no_progress s' = consecutive_no_progress s /\ warning_emitted s' = warning_emitted s /\
  (if Z.leb (estimated_tokens plan) bound
   then (estimated_tokens plan <= threshold_tokens s' <= bound)%Z /\
        exists a, r = Ok a /\ floor_tokens a = estimated_tokens plan /\ admitted_budget a = budget s'
   else s' = s /\ r = Err (ContextFloorExceedsBudgetError (estimated_tokens plan) (threshold_tokens s)
                             (tools_length tools) (policy_min_messages s))).
Proof.
  intros Hplan bound. unfold admit_. unfold_monad. rewrite Hplan, relax_eq.
  destruct (relaxed_fields s (estimated_tokens plan)) as (Hn & Hw & _ & Hmin).
  destruct (relaxed_threshold s (estimated_tokens plan)) as (Hge & Hin & Hout).
  set (s1 := relaxed_policy s (estimated_tokens plan)) in *.
  unfold admits. cbn [floor_tokens]. destruct (Z.leb (estimated_tokens plan) (threshold_tokens s1)) eqn:E.
  - apply Z.leb_le in E. split; [done|]. split; [done|].
    assert (Hb : (threshold_tokens s1 <= bound)%Z).
    { destruct (relaxes s (estimated_tokens plan)); [specialize (Hin eq_refl)|rewrite Hout by done]; unfold bound; lia. }
    rewrite (proj2 (Z.leb_le _ _)) by lia. split; [lia|]. by eexists.
  - apply Z.leb_gt in E. split; [done|]. split; [done|].
    destruct (relaxes s (estimated_tokens plan)) eqn:Er; [specialize (Hin eq_refl); lia|].
    specialize (Hout eq_refl). rewrite (proj2 (Z.leb_gt _ _)); [by rewrite Hmin, Hout|].
    unfold bound, hard_ceiling, relaxes in *. rewrite Hout in E.
    destruct (admission_ceiling_tokens (budget s)) as [c|]; cbn; [|lia].
    apply andb_false_iff in Er as [Er|Er]; [apply Z.ltb_ge in Er|apply Z.leb_gt in Er]; lia.
Qed.
End runs.

(** * Witnesses *)

Definition demo_policy : ContextWindowPolicy := resolve_policy (fun _ => None) "gpt-6.1-sol" None (Some "high") None 3.
Definition demo_short : list message := [said "user" "hello"; said "assistant" "hi"].

(** A forced compaction of a short transcript omits nothing. *)
Lemma demo_futile : exists s', compacts (H := demo_platform) demo_policy true s' /\
  consecutive_no_progress s' = 1%Z.
Proof.
  destruct (compact (H := demo_platform) demo_short "s" "test" JNull None 40 None true false demo_policy)
    as [s' [out|e]] eqn:E; [|vm_compute in E; discriminate E].
  assert (Hs : consecutive_no_progress s' = 1%Z) by (vm_compute in E; injection E as <- _; reflexivity).
  exists s'. split; [|done]. apply (compacts_intro (H := demo_platform)) in E. by rewrite Hs in E.
Qed.

Lemma futile_compactions_bounded_witness :
  (Z.of_nat (length [true]) < max_consecutive_no_progress demo_policy)%Z.
Proof.
  destruct demo_futile as (s' & Hs & _).
  refine (proj1 (futile_compactions_bounded (H := demo_platform) demo_policy s' [] [true] _ _ _)).
  - vm_compute. split; [discriminate|reflexivity].
  - eapply (trace_cons (H := demo_platform)); [exact Hs|]. apply trace_nil.
  - repeat constructor.
Defined.

Lemma window_limits_hold_witness : (1 <= emergency_target_tokens (budget demo_policy) <= threshold_tokens demo_policy)%Z.
Proof.
  destruct (window_limits_hold (H := demo_platform) (fun _ => None) "gpt-6.1-sol" None (Some "high") None 3 demo_policy)
    as (_ & _ & _ & _ & _ & Hx); [apply rtc_refl|exact Hx].
Defined.

Lemma admission_decided_witness : exists s' r,
  admit_ (H := demo_platform) demo_short JNull None "s" "test" demo_policy = (s', r) /\ is_ok r = true.
Proof.
  destruct (plan_session_compaction (H := demo_platform) demo_short (floor_request demo_policy JNull None "s" "test"))
    as [plan|e] eqn:E; [|vm_compute in E; discriminate E].
  pose proof (admission_decided (H := demo_platform) demo_policy demo_short JNull None "s" "test" plan E) as Hd.
  assert (Hle : Z.leb (estimated_tokens plan) (Z.max (threshold_tokens demo_policy) (hard_ceiling demo_policy)) = true)
    by (vm_compute in E; injection E as <-; vm_compute; reflexivity).
  destruct (admit_ (H := demo_platform) demo_short JNull None "s" "test" demo_policy) as [s' r]. cbv zeta in Hd.
  rewrite Hle in Hd. destruct Hd as (_ & _ & _ & a & Hr & _). exists s', r. rewrite Hr. split; reflexivity.
Defined.
