(* ===== verification/LoopControl.v ===== *)
(** Run control of the agent loop: the progress tracker and stuck-loop detectors
    of [brain/systems/runs/direct_loop/loop_guard.py], the per-tool failure policy
    of [tool_failure_policy.py], and the evaluator of [loop_control.py] that gives
    one decision per tool result. *)
From S2P Require Import Prelude.
From S2P Require Import PyStr.
From S2P Require Import Json.
From S2P Require Import JsonText.
From S2P Require Import Status.
From S2P Require Import Failures.
From S2P Require Import RunStore.
From S2P Require Import RunCreate.
Open Scope string_scope.
Open Scope bool_scope.
Open Scope list_scope.

(** * Tool registrations, [tool_catalog/metadata.py] *)

Inductive ToolSideEffectClass : Type :=
| SE_APPEND_ONLY | SE_BROWSER_ARTIFACT | SE_BROWSER_INTERACTION | SE_BROWSER_NAVIGATION
| SE_BROWSER_SESSION | SE_CYCLE_MANAGEMENT | SE_CHAT_MESSAGE | SE_RUN_ANNOTATION
| SE_DOMAIN_MANAGEMENT | SE_INBOUND_CONFIGURATION | SE_IDEA_MANAGEMENT | SE_MEMORY_CURATION
| SE_DEPLOYMENT_MANAGEMENT | SE_WORKSPACE_TOOL_MANAGEMENT | SE_SOUL_MANAGEMENT
| SE_PROJECT_CONTEXT_MANAGEMENT | SE_FILE_EDIT | SE_FILE_WRITE | SE_READ_ONLY
| SE_READ_ONLY_EXTERNAL | SE_RUN_SPAWN | SE_RUNTIME_CONFIGURATION | SE_SCRATCHPAD
| SE_SCRATCHPAD_LIFECYCLE | SE_SHELL | SE_SKILL_WRITE | SE_WRITE | SE_WORKSPACE_APP_MANAGEMENT.

#[export] Instance ToolSideEffectClass_eq_dec : EqDecision ToolSideEffectClass.
Proof. solve_decision. Defined.

Definition is_write_side_effect_class (c : ToolSideEffectClass) : bool :=
  negb (bool_decide (c ∈ [SE_READ_ONLY; SE_READ_ONLY_EXTERNAL])).

(** [ToolCallIdentitySpec]. *)
Record ToolCallIdentitySpec : Type := { volatile_fields : list string }.

Definition project (i : ToolCallIdentitySpec) (tool_input : dict) : dict :=
  filter (fun kv => kv.1 ∉ volatile_fields i) tool_input.

(** The fields of [ToolRegistration] the loop reads. *)
Record ToolRegistration : Type := {
  side_effect_class : ToolSideEffectClass;
  identity_spec : option ToolCallIdentitySpec;
  output_budget_chars : Z;
}.

(** The registry of tools, whose contents are data of the deployment, and
    whether it has an action policy for an invocation. *)
Class ToolCatalog : Type := {
  get_tool_registration : string -> option ToolRegistration;
  has_action_policy : string -> dict -> bool;
}.

(** * Resolved calls *)

Record ToolFailure : Type := { failure_message : string; failure_category : string }.
Record ToolOutcome : Type := { outcome_failure : option ToolFailure }.
Definition DEFAULT_TOOL_FAILURE_CATEGORY : string := "ToolError".

(** [ToolOutcome.failed]. *)
Definition failed (message category : string) : ToolOutcome :=
  {| outcome_failure := Some {| failure_message := message; failure_category := category |} |}.

Record ResolvedToolCall : Type := {
  rc_block_id : string;
  rc_tool_name : string;
  rc_tool_input : dict;
  rc_result_text : string;
  rc_outcome : ToolOutcome;
  rc_result_content : option json;
  rc_result_value : option json;
}.

Definition call_name (r : ResolvedToolCall) : string := str_or (Some (rc_tool_name r)) "unknown_tool".

(** * loop_guard.py *)

Definition _STUCK_WARN_THRESHOLD : Z := 3.
Definition _STUCK_BREAK_THRESHOLD : Z := 5.
Definition _SEMANTIC_STALL_THRESHOLD : Z := 10.
Definition _UNCHANGED_RESULT_THRESHOLD : Z := 4.

Inductive Progress : Type := NEW_TARGET | CHANGED | UNCHANGED.
Inductive LoopTrigger : Type := EXACT_REPEAT | SEMANTIC_NO_PROGRESS | UNCHANGED_RESULT.

#[export] Instance Progress_eq_dec : EqDecision Progress.
Proof. solve_decision. Defined.
#[export] Instance LoopTrigger_eq_dec : EqDecision LoopTrigger.
Proof. solve_decision. Defined.

Record ToolCallIdentity : Type := { exact_key : string; target_key : string }.
Record ProgressObservation : Type := {
  identity : ToolCallIdentity;
  result_key : string;
  progress : Progress;
}.
Record LoopSignal : Type := { trigger : LoopTrigger; message : string }.

Definition _canonical_key (tool_name : string) (tool_input : dict) : string :=
  tool_name +:+ ":" +:+ dumps ", " ": " (sort_keys (JObj tool_input)).

Section control.
Context `{Platform} `{ToolCatalog}.

Definition tool_call_target_key (tool_name : string) (tool_input : dict) : string :=
  let projected := match get_tool_registration tool_name with
                   | Some {| identity_spec := Some i |} => project i tool_input
                   | _ => tool_input
                   end in
  _canonical_key tool_name projected.

Definition tool_call_identity (tool_name : string) (tool_input : dict) : ToolCallIdentity :=
  {| exact_key := _canonical_key tool_name tool_input;
     target_key := tool_call_target_key tool_name tool_input |}.

Definition tool_result_key (r : ResolvedToolCall) : string :=
  let v := match rc_result_value r with Some v => v | None => JStr (rc_result_text r) end in
  sha256_hex (dumps "," ":" (sort_keys v)).

Definition is_loop_progress_candidate (tool_name : string) : bool :=
  match get_tool_registration tool_name with
  | Some reg => bool_decide (side_effect_class reg ∈ [SE_READ_ONLY; SE_READ_ONLY_EXTERNAL])
  | None => false
  end.

(** [ProgressTracker]: the last result of each target. *)
Abbreviation ProgressTracker := (gmap string string).

Definition tracker_observe (t : ProgressTracker) (i : ToolCallIdentity) (key : string)
    : ProgressTracker * ProgressObservation :=
  let p := match t !! target_key i with
           | None => NEW_TARGET
           | Some previous => if String.eqb previous key then UNCHANGED else CHANGED
           end in
  (<[target_key i := key]> t, {| identity := i; result_key := key; progress := p |}).

Record ExactRepeatDetector : Type := {
  break_threshold : Z;
  warn_threshold : Z;
  _last_exact_key : option string;
  _repeat_count : Z;
}.

Definition make_exact (break warn : Z) : ExactRepeatDetector :=
  {| break_threshold := Z.max 1 break; warn_threshold := Z.max 1 warn;
     _last_exact_key := None; _repeat_count := 0 |}.

Definition exact_message : string :=
  "[System: Agent terminated: stuck in a loop repeating the same tool call]".

Definition exact_observe (d : ExactRepeatDetector) (o : ProgressObservation)
    : ExactRepeatDetector * option LoopSignal :=
  if decide (progress o = CHANGED) then
    ({| break_threshold := break_threshold d; warn_threshold := warn_threshold d;
        _last_exact_key := None; _repeat_count := 0 |}, None)
  else
    let key := exact_key (identity o) in
    let n := if decide (_last_exact_key d = Some key) then (_repeat_count d + 1)%Z else 1%Z in
    ({| break_threshold := break_threshold d; warn_threshold := warn_threshold d;
        _last_exact_key := Some key; _repeat_count := n |},
     if Z.ltb n (break_threshold d) then None
     else Some {| trigger := EXACT_REPEAT; message := exact_message |}).

(** The content of the reminder, attached from the warning threshold on. *)
Definition reminder_text : string :=
  "[System: NOTE: `cd` does not persist between exec_command calls; use `working_dir` or absolute paths.]".

Definition exact_reminder (d : ExactRepeatDetector) : option dict :=
  if Z.ltb (_repeat_count d) (warn_threshold d) then None
  else Some [("role", JStr "user"); ("content", JStr reminder_text)].

Record SemanticNoProgressDetector : Type := { semantic_threshold : Z; _streak : Z }.

Definition make_semantic (n : Z) : SemanticNoProgressDetector :=
  {| semantic_threshold := Z.max 1 n; _streak := 0 |}.

Definition semantic_message : string :=
  "[System: Agent terminated: stuck in a semantic tool-call loop with no new target or result]".

Definition semantic_observe (d : SemanticNoProgressDetector) (o : ProgressObservation)
    : SemanticNoProgressDetector * option LoopSignal :=
  let n := if decide (progress o = UNCHANGED) then (_streak d + 1)%Z else 0%Z in
  ({| semantic_threshold := semantic_threshold d; _streak := n |},
   if Z.ltb n (semantic_threshold d) then None
   else Some {| trigger := SEMANTIC_NO_PROGRESS; message := semantic_message |}).

Record UnchangedResultDetector : Type := {
  unchanged_threshold : Z;
  _observations_by_target : gmap string Z;
}.

Definition make_unchanged (n : Z) : UnchangedResultDetector :=
  {| unchanged_threshold := Z.max 2 n; _observations_by_target := ∅ |}.

Definition unchanged_message : string :=
  "[System: Agent terminated: stuck in a loop repeating the same read-only tool call with an unchanged result]".

Definition unchanged_observe (d : UnchangedResultDetector) (o : ProgressObservation)
    : UnchangedResultDetector * option LoopSignal :=
  let k := target_key (identity o) in
  let n := if decide (progress o = UNCHANGED)
           then (default 1%Z (_observations_by_target d !! k) + 1)%Z else 1%Z in
  ({| unchanged_threshold := unchanged_threshold d;
      _observations_by_target := <[k := n]> (_observations_by_target d) |},
   if Z.ltb n (unchanged_threshold d) then None
   else Some {| trigger := UNCHANGED_RESULT; message := unchanged_message |}).

Record LoopGuard : Type := {
  progress_tracker : ProgressTracker;
  exact_repeats : ExactRepeatDetector;
  semantic_no_progress : SemanticNoProgressDetector;
  unchanged_results : UnchangedResultDetector;
}.

(** [LoopGuard.__post_init__]. *)
Definition make_guard (semantic unchanged exact : Z) : LoopGuard :=
  {| progress_tracker := ∅; exact_repeats := make_exact exact _STUCK_WARN_THRESHOLD;
     semantic_no_progress := make_semantic semantic;
     unchanged_results := make_unchanged unchanged |}.

Definition guard_observe (g : LoopGuard) (r : ResolvedToolCall) : LoopGuard * list LoopSignal :=
  let i := tool_call_identity (call_name r) (rc_tool_input r) in
  let '(t, o) := tracker_observe (progress_tracker g) i (tool_result_key r) in
  let '(e, s1) := exact_observe (exact_repeats g) o in
  if is_loop_progress_candidate (call_name r) then
    let '(m, s2) := semantic_observe (semantic_no_progress g) o in
    let '(u, s3) := unchanged_observe (unchanged_results g) o in
    ({| progress_tracker := t; exact_repeats := e; semantic_no_progress := m;
        unchanged_results := u |}, omap id [s1; s2; s3])
  else
    ({| progress_tracker := t; exact_repeats := e;
        semantic_no_progress := semantic_no_progress g;
        unchanged_results := unchanged_results g |}, omap id [s1]).

(** * tool_failure_policy.py *)

Definition TOOL_FAILURE_THRESHOLD_DEFAULT : Z := 3.
Definition TOOL_FAILURE_WINDOW_CALLS_DEFAULT : Z := 10.
Definition TOOL_ZERO_SUCCESS_FAILURE_THRESHOLD_DEFAULT : Z := 2.

(** [_env_int], on the value of the variable if it is set. *)
Definition _env_int (v : option string) (dflt : Z) : Z :=
  match v with Some s => default dflt (int_of_str s) | None => dflt end.

Definition tool_failure_threshold (v : option string) : Z :=
  Z.max 1 (_env_int v TOOL_FAILURE_THRESHOLD_DEFAULT).
Definition tool_failure_window_calls (v : option string) : Z :=
  Z.max 1 (_env_int v TOOL_FAILURE_WINDOW_CALLS_DEFAULT).
Definition tool_zero_success_failure_threshold (v : option string) : Z :=
  Z.max 2 (_env_int v TOOL_ZERO_SUCCESS_FAILURE_THRESHOLD_DEFAULT).

Inductive ToolFailureTrigger : Type := ROLLING_WINDOW | ZERO_SUCCESS.
#[export] Instance ToolFailureTrigger_eq_dec : EqDecision ToolFailureTrigger.
Proof. solve_decision. Defined.

Record _ToolFailureWindow : Type := {
  recent_error_classes : list (option string);
  total_failures : Z;
  total_successes : Z;
}.

Definition empty_window : _ToolFailureWindow :=
  {| recent_error_classes := []; total_failures := 0; total_successes := 0 |}.

(** The last [n] elements, [del l[:-n]] on a longer list. *)
Definition lastn {A} (n : nat) (l : list A) : list A := drop (length l - n) l.

Definition window_observe (w : _ToolFailureWindow) (error_class : option string)
    (window_calls : Z) : _ToolFailureWindow :=
  let l := recent_error_classes w ++ [error_class] in
  {| recent_error_classes :=
       if Z.ltb window_calls (Z.of_nat (length l)) then lastn (Z.to_nat window_calls) l else l;
     total_failures := if decide (error_class = None) then total_failures w
                       else (total_failures w + 1)%Z;
     total_successes := if decide (error_class = None) then (total_successes w + 1)%Z
                        else total_successes w |}.

Definition count_class (c : string) (l : list (option string)) : Z :=
  Z.of_nat (length (filter (fun x => x = Some c) l)).

Definition rolling_failures (w : _ToolFailureWindow) (error_class : string) : Z :=
  count_class error_class (recent_error_classes w).

Definition largest_rolling_failure_count (w : _ToolFailureWindow) : Z :=
  fold_right Z.max 0%Z (rolling_failures w <$> remove_dups (omap id (recent_error_classes w))).

Record ToolDisablement : Type := {
  d_tool_name : string;
  d_error_class : string;
  d_triggers : list ToolFailureTrigger;
  d_rolling_failures : Z;
  d_total_failures : Z;
  d_total_successes : Z;
  d_window_calls : Z;
  d_last_error_message : string;
}.

Definition model_note (d : ToolDisablement) : string :=
  let details :=
    (if decide (ROLLING_WINDOW ∈ d_triggers d)
     then [str_of_Z (d_rolling_failures d) +:+ " `" +:+ d_error_class d +:+ "` failures in the last "
           +:+ str_of_Z (d_window_calls d) +:+ " calls to this tool"] else []) ++
    (if decide (ZERO_SUCCESS ∈ d_triggers d)
     then [str_of_Z (d_total_failures d) +:+ " failures with zero successes"] else []) in
  let detail := strip (str_or (Some (d_last_error_message d)) "No error detail was returned.") in
  let detail := if Nat.ltb 500 (String.length detail) then str_take 497 detail +:+ "..." else detail in
  "[System: Tool `" +:+ d_tool_name d +:+ "` is unavailable for the rest of this run; proceed degraded and record the gap. Guard trigger: "
  +:+ join "; " details +:+ ". Observed " +:+ str_of_Z (d_total_failures d) +:+ " failures and "
  +:+ str_of_Z (d_total_successes d) +:+ " successes for this tool. Last error (`"
  +:+ d_error_class d +:+ "`): " +:+ detail +:+ "]".

Definition error_tool_result (block_id content : string) : dict :=
  [("type", JStr "tool_result"); ("tool_use_id", JStr block_id); ("content", JStr content);
   ("is_error", JBool true)].

Definition disablement_skipped_result (d : ToolDisablement) (block_id : string) : dict :=
  error_tool_result block_id (model_note d).

Record ToolFailurePolicy : Type := {
  failure_threshold : Z;
  failure_window_calls : Z;
  zero_success_failure_threshold : Z;
  disabled_tools : gmap string ToolDisablement;
  _windows : gmap string _ToolFailureWindow;
}.

(** [ToolFailurePolicy.__post_init__]. *)
Definition make_policy (threshold window zero : Z) : ToolFailurePolicy :=
  {| failure_threshold := Z.max 1 threshold;
     failure_window_calls := Z.max (Z.max 1 threshold) window;
     zero_success_failure_threshold := Z.max 2 zero;
     disabled_tools := ∅; _windows := ∅ |}.

Definition parallel_same_tool_limit (p : ToolFailurePolicy) (tool_name : string) : Z :=
  let state := _windows p !! tool_name in
  let rolling := match state with Some w => largest_rolling_failure_count w | None => 0%Z end in
  let rolling_left := (failure_threshold p - rolling)%Z in
  let left := match state with
    | None => Z.min rolling_left (zero_success_failure_threshold p)
    | Some w => if Z.eqb (total_successes w) 0
                then Z.min rolling_left (zero_success_failure_threshold p - total_failures w)
                else rolling_left
    end in
  Z.max 1 left.

Definition _evaluate_triggers (p : ToolFailurePolicy) (w : _ToolFailureWindow) (c : string)
    : list ToolFailureTrigger :=
  (if Z.leb (failure_threshold p) (rolling_failures w c) then [ROLLING_WINDOW] else []) ++
  (if Z.eqb (total_successes w) 0
      && Z.leb (zero_success_failure_threshold p) (total_failures w) then [ZERO_SUCCESS] else []).

Definition with_windows (p : ToolFailurePolicy) (ws : gmap string _ToolFailureWindow)
    (ds : gmap string ToolDisablement) : ToolFailurePolicy :=
  {| failure_threshold := failure_threshold p; failure_window_calls := failure_window_calls p;
     zero_success_failure_threshold := zero_success_failure_threshold p;
     disabled_tools := ds; _windows := ws |}.

Definition policy_observe (p : ToolFailurePolicy) (r : ResolvedToolCall)
    : ToolFailurePolicy * option ToolDisablement :=
  let tool_name := call_name r in
  let state := default empty_window (_windows p !! tool_name) in
  match outcome_failure (rc_outcome r) with
  | None =>
      let w := window_observe state None (failure_window_calls p) in
      (with_windows p (<[tool_name := w]> (_windows p)) (disabled_tools p), None)
  | Some f =>
      let c := str_or (Some (failure_category f)) DEFAULT_TOOL_FAILURE_CATEGORY in
      let w := window_observe state (Some c) (failure_window_calls p) in
      let ws := <[tool_name := w]> (_windows p) in
      let triggers := _evaluate_triggers p w c in
      if decide (triggers = []) then (with_windows p ws (disabled_tools p), None)
      else match disabled_tools p !! tool_name with
           | Some _ => (with_windows p ws (disabled_tools p), None)
           | None =>
               let d := {| d_tool_name := tool_name; d_error_class := c; d_triggers := triggers;
                           d_rolling_failures := rolling_failures w c;
                           d_total_failures := total_failures w;
                           d_total_successes := total_successes w;
                           d_window_calls := failure_window_calls p;
                           d_last_error_message := rc_result_text r |} in
               (with_windows p ws (<[tool_name := d]> (disabled_tools p)), Some d)
           end
  end.

(** * loop_control.py *)

(** [LoopTermination]; its reason is always [STUCK_LOOP]. *)
Record LoopTermination : Type := {
  t_message : string;
  t_trigger : LoopTrigger;
  t_final_output : option string;
}.

Definition transcript_message (t : LoopTermination) : option dict :=
  match t_final_output t with
  | None => None
  | Some out => Some [("role", JStr "assistant");
      ("content", JList [JObj [("type", JStr "text"); ("text", JStr out)]])]
  end.

Definition termination_skipped_result (t : LoopTermination) (block_id : string) : dict :=
  error_tool_result block_id (str_or (t_final_output t) (t_message t)).

Definition control_message (t : LoopTermination) : dict :=
  [("role", JStr "user");
   ("content", JList [JObj [("type", JStr "text"); ("text", JStr (t_message t))]])].

Record ControlDecision : Type := {
  cd_termination : option LoopTermination;
  cd_disablement : option ToolDisablement;
}.

Definition _SIGNAL_PRECEDENCE (t : LoopTrigger) : Z :=
  match t with UNCHANGED_RESULT => 0 | EXACT_REPEAT => 1 | SEMANTIC_NO_PROGRESS => 2 end.

(** [min(signals, key=..)]: the first of the smallest. *)
Fixpoint min_signal (best : LoopSignal) (l : list LoopSignal) : LoopSignal :=
  match l with
  | [] => best
  | s :: l' => min_signal (if Z.ltb (_SIGNAL_PRECEDENCE (trigger s)) (_SIGNAL_PRECEDENCE (trigger best))
                           then s else best) l'
  end.

(** [ControlEvaluator.evaluate], on the latched termination. *)
Definition evaluate (latched : option LoopTermination) (signals : list LoopSignal)
    (disablement : option ToolDisablement) : option LoopTermination * ControlDecision :=
  match latched with
  | Some t => (latched, {| cd_termination := Some t; cd_disablement := None |})
  | None =>
      match signals with
      | [] => (None, {| cd_termination := None; cd_disablement := disablement |})
      | s :: l =>
          let sig := min_signal s l in
          let t := {| t_message := message sig; t_trigger := trigger sig; t_final_output := None |} in
          (Some t, {| cd_termination := Some t; cd_disablement := None |})
      end
  end.

Record RunControlPolicy : Type := {
  tool_failures : ToolFailurePolicy;
  loop_guard : LoopGuard;
  termination : option LoopTermination;
}.

(** The keyword arguments left unset read their environment variable. *)
Definition make_control (threshold window zero : option Z) (semantic unchanged exact : Z)
    (env : string -> option string) : RunControlPolicy :=
  {| tool_failures := make_policy
       (default (tool_failure_threshold (env "AGENT_TOOL_FAILURE_THRESHOLD")) threshold)
       (default (tool_failure_window_calls (env "AGENT_TOOL_FAILURE_WINDOW_CALLS")) window)
       (default (tool_zero_success_failure_threshold
                   (env "AGENT_TOOL_ZERO_SUCCESS_FAILURE_THRESHOLD")) zero);
     loop_guard := make_guard semantic unchanged exact;
     termination := None |}.

Definition control_observe (c : RunControlPolicy) (r : ResolvedToolCall)
    : RunControlPolicy * ControlDecision :=
  let '(g, signals) := guard_observe (loop_guard c) r in
  let '(p, disablement) := policy_observe (tool_failures c) r in
  let '(t, d) := evaluate (termination c) signals disablement in
  ({| tool_failures := p; loop_guard := g; termination := t |}, d).

Definition control_reminder (c : RunControlPolicy) : option dict :=
  exact_reminder (exact_repeats (loop_guard c)).

Definition resolve_loop_output (t : option LoopTermination) (extracted : string)
    (staged : list string) : string :=
  match t with
  | Some {| t_final_output := Some out |} => out
  | _ => match last staged with Some s => s | None => extracted end
  end.
End control.
