(* ===== verification/LoopTheorems.v ===== *)
(** What run control guarantees: when each stuck-loop detector fires, that a
    termination is final, when a tool is disabled, and that the limit on parallel
    calls cannot be overrun. *)
From Stdlib Require Import Ascii.
From S2P Require Import Prelude.
From S2P Require Import PyStr.
From S2P Require Import Json.
From S2P Require Import JsonText.
From S2P Require Import Status.
From S2P Require Import Failures.
From S2P Require Import RunStore.
From S2P Require Import RunCreate.
From S2P Require Import RunDemo.
From S2P Require Import LoopControl.
Open Scope string_scope.
Open Scope bool_scope.
Open Scope list_scope.

(** * The longest prefix with a property *)

Fixpoint prefix_len {A} (f : A -> bool) (l : list A) : nat :=
  match l with
  | [] => 0
  | x :: l' => if f x then Datatypes.S (prefix_len f l') else 0
  end.

Lemma prefix_len_le {A} (f : A -> bool) n l :
  n <= prefix_len f l <-> n <= length l /\ Forall (fun x => f x = true) (take n l).
Proof.
  revert n. induction l as [|x l IH]; intros [|n]; simpl.
  - split; [by split|lia].
  - split; [intros; lia|intros [? _]; lia].
  - split; [split; [lia|constructor]|lia].
  - destruct (f x) eqn:E.
    + rewrite Forall_cons, <- !Nat.succ_le_mono, IH. tauto.
    + split; [intros; lia|]. intros [_ [? _]%Forall_cons]. congruence.
Qed.

Section loop.
Context `{Platform} `{ToolCatalog}.

(** * Histories of tool results *)

(** What the detectors see of a history: the newest observation first, with
    whether its tool only reads. *)
Definition entry : Type := ProgressObservation * bool.

Definition same_target (k : string) (e : entry) : Prop := target_key (identity e.1) = k.
#[local] Instance same_target_dec k e : Decision (same_target k e).
Proof. unfold same_target. apply _. Defined.

(** The progress of a result after the entries [past]: its comparison with the
    latest result of the same target. *)
Definition progress_after (past : list entry) (i : ToolCallIdentity) (key : string) : Progress :=
  match filter (same_target (target_key i)) past with
  | [] => NEW_TARGET
  | e :: _ => if String.eqb (result_key e.1) key then UNCHANGED else CHANGED
  end.

Definition entry_after (past : list entry) (r : ResolvedToolCall) : entry :=
  let i := tool_call_identity (call_name r) (rc_tool_input r) in
  let key := tool_result_key r in
  ({| identity := i; result_key := key; progress := progress_after past i key |},
   is_loop_progress_candidate (call_name r)).

(** The entries of a history, newest first. *)
Definition entries (h : list ResolvedToolCall) : list entry :=
  fold_left (fun past r => entry_after past r :: past) h [].

Definition guard_after (g : LoopGuard) (h : list ResolvedToolCall) : LoopGuard :=
  fold_left (fun g r => (guard_observe g r).1) h g.

(** ** What the state of the detectors is *)

Definition repeats (k : string) (e : entry) : bool :=
  String.eqb (exact_key (identity e.1)) k && negb (bool_decide (progress e.1 = CHANGED)).
Definition is_unchanged (e : entry) : bool := bool_decide (progress e.1 = UNCHANGED).
Definition reads_only (e : entry) : Prop := e.2 = true.
#[local] Instance reads_only_dec e : Decision (reads_only e).
Proof. unfold reads_only. apply _. Defined.

(** Calls of one target are calls of one tool. *)
Definition one_tool_per_target (es : list entry) : Prop :=
  forall e e', e ∈ es -> e' ∈ es ->
  target_key (identity e.1) = target_key (identity e'.1) -> e.2 = e'.2.

Record guard_inv (g0 g : LoopGuard) (es : list entry) : Prop := {
  gi_tracker : forall k, progress_tracker g !! k =
    (fun e => result_key e.1) <$> head (filter (same_target k) es);
  gi_break : break_threshold (exact_repeats g) = break_threshold (exact_repeats g0);
  gi_last : _last_exact_key (exact_repeats g) =
    match es with
    | e :: _ => if decide (progress e.1 = CHANGED) then None else Some (exact_key (identity e.1))
    | [] => None
    end;
  gi_count : _repeat_count (exact_repeats g) =
    match _last_exact_key (exact_repeats g) with
    | Some k => Z.of_nat (prefix_len (repeats k) es)
    | None => 0%Z
    end;
  gi_semantic : semantic_threshold (semantic_no_progress g) = semantic_threshold (semantic_no_progress g0);
  gi_streak : _streak (semantic_no_progress g) =
    Z.of_nat (prefix_len is_unchanged (filter reads_only es));
  gi_unchanged : unchanged_threshold (unchanged_results g) = unchanged_threshold (unchanged_results g0);
  gi_by_target : one_tool_per_target es -> forall k,
    _observations_by_target (unchanged_results g) !! k =
    match filter (same_target k) (filter reads_only es) with
    | [] => None
    | l => Some (Z.of_nat (1 + prefix_len is_unchanged l))
    end;
}.

Lemma guard_inv_init s u e : guard_inv (make_guard s u e) (make_guard s u e) [].
Proof. by split. Qed.

(** The tracker's answer is [progress_after]. *)
Lemma tracker_step g0 g es r :
  guard_inv g0 g es ->
  let i := tool_call_identity (call_name r) (rc_tool_input r) in
  tracker_observe (progress_tracker g) i (tool_result_key r) =
  (<[target_key i := tool_result_key r]> (progress_tracker g), (entry_after es r).1).
Proof.
  intros Hg i. unfold tracker_observe, entry_after. fold i. simpl. do 2 f_equal.
  rewrite (gi_tracker _ _ _ Hg). unfold progress_after.
  by destruct (filter _ es).
Qed.

Lemma exact_step g0 g es e :
  guard_inv g0 g es ->
  let d' := (exact_observe (exact_repeats g) e.1).1 in
  break_threshold d' = break_threshold (exact_repeats g) /\
  _last_exact_key d' = (if decide (progress e.1 = CHANGED) then None
                        else Some (exact_key (identity e.1))) /\
  _repeat_count d' = (if decide (progress e.1 = CHANGED) then 0%Z
                      else Z.of_nat (prefix_len (repeats (exact_key (identity e.1))) (e :: es))).
Proof.
  intros Hg. unfold exact_observe. case_decide as Hc; [done|]. simpl. split_and!; try done.
  unfold repeats at 1. rewrite String.eqb_refl, bool_decide_eq_false_2 by done. simpl.
  rewrite (gi_last _ _ _ Hg).
  destruct es as [|e' es]; simpl; [done|].
  pose proof (gi_count _ _ _ Hg) as Hn. rewrite (gi_last _ _ _ Hg) in Hn.
  case_decide as Hc'.
  - rewrite decide_False by done. unfold repeats. rewrite bool_decide_eq_true_2 by done.
    by rewrite andb_false_r.
  - case_decide as Hk.
    + injection Hk as Hk. rewrite Hk in Hn. rewrite Hn. simpl. lia.
    + unfold repeats at 1. destruct (String.eqb _ _) eqn:E; [|done].
      apply String.eqb_eq in E. congruence.
Qed.

Lemma one_tool_tail e es : one_tool_per_target (e :: es) -> one_tool_per_target es.
Proof. intros Ho x y Hx Hy. apply Ho; by right. Qed.

Lemma prefix_unchanged_cons e l :
  prefix_len is_unchanged (e :: l) =
  if decide (progress e.1 = UNCHANGED) then Datatypes.S (prefix_len is_unchanged l) else 0.
Proof.
  cbn [prefix_len]. assert (is_unchanged e = bool_decide (progress e.1 = UNCHANGED)) as -> by done.
  destruct (decide (progress e.1 = UNCHANGED)).
  - by rewrite bool_decide_eq_true_2 by done.
  - by rewrite bool_decide_eq_false_2 by done.
Qed.

(** The count kept for a target of a read-only tool. *)
Lemma unchanged_step g0 g es e :
  guard_inv g0 g es -> one_tool_per_target (e :: es) -> reads_only e ->
  (progress e.1 = UNCHANGED -> filter (same_target (target_key (identity e.1))) es <> []) ->
  let k := target_key (identity e.1) in
  (if decide (progress e.1 = UNCHANGED)
   then (default 1 (_observations_by_target (unchanged_results g) !! k) + 1)%Z else 1%Z) =
  Z.of_nat (1 + prefix_len is_unchanged (e :: filter (same_target k) (filter reads_only es))).
Proof.
  intros Hg Ho Hr Hprev k. rewrite (gi_by_target _ _ _ Hg (one_tool_tail _ _ Ho)).
  rewrite prefix_unchanged_cons. case_decide as Hu; [|done].
  fold k in Hprev.
  destruct (filter (same_target k) (filter reads_only es)) as [|e' l] eqn:E.
  - exfalso. apply (Hprev Hu). apply elem_of_nil_inv. intros x [Hx Hin]%list_elem_of_filter.
    assert (Hx' : x ∈ filter (same_target k) (filter reads_only es)).
    { rewrite !list_elem_of_filter. split_and!; try done. unfold reads_only.
      rewrite (Ho x e); [done|by right|by left|done]. }
    rewrite E in Hx'. by apply elem_of_nil in Hx'.
  - change (default 1%Z (Some ?x)) with x. lia.
Qed.

Lemma unchanged_has_past es r :
  progress (entry_after es r).1 = UNCHANGED ->
  filter (same_target (target_key (identity (entry_after es r).1))) es <> [].
Proof. unfold entry_after, progress_after. simpl. by destruct (filter _ es). Qed.

(** One result, in terms of its entry. *)
Lemma guard_observe_eq g0 g es r :
  guard_inv g0 g es ->
  let e := entry_after es r in
  let t := <[target_key (identity e.1) := result_key e.1]> (progress_tracker g) in
  guard_observe g r =
  if e.2 then
    ({| progress_tracker := t; exact_repeats := (exact_observe (exact_repeats g) e.1).1;
        semantic_no_progress := (semantic_observe (semantic_no_progress g) e.1).1;
        unchanged_results := (unchanged_observe (unchanged_results g) e.1).1 |},
     omap id [(exact_observe (exact_repeats g) e.1).2;
              (semantic_observe (semantic_no_progress g) e.1).2;
              (unchanged_observe (unchanged_results g) e.1).2])
  else
    ({| progress_tracker := t; exact_repeats := (exact_observe (exact_repeats g) e.1).1;
        semantic_no_progress := semantic_no_progress g;
        unchanged_results := unchanged_results g |},
     omap id [(exact_observe (exact_repeats g) e.1).2]).
Proof.
  intros Hg e t. unfold guard_observe. rewrite (tracker_step g0 g es r Hg).
  unfold t, e. simpl fst at 2. cbv zeta.
  destruct (exact_observe _ _), (semantic_observe _ _), (unchanged_observe _ _). done.
Qed.

Lemma filter_target_cons k e es :
  filter (same_target k) (e :: es) =
  if decide (target_key (identity e.1) = k) then e :: filter (same_target k) es
  else filter (same_target k) es.
Proof. rewrite filter_cons. unfold same_target. by repeat case_decide. Qed.

Lemma guard_step g0 g es r :
  guard_inv g0 g es -> guard_inv g0 (guard_observe g r).1 (entry_after es r :: es).
Proof.
  intros Hg. rewrite (guard_observe_eq g0 g es r Hg). cbv zeta.
  destruct (exact_step g0 g es (entry_after es r) Hg) as (X1 & X2 & X3).
  assert (Htr : forall k, <[target_key (identity (entry_after es r).1) :=
      result_key (entry_after es r).1]> (progress_tracker g) !! k =
    (fun e => result_key e.1) <$> head (filter (same_target k) (entry_after es r :: es))).
  { intros k. rewrite filter_target_cons, lookup_insert. destruct Hg as [Ht _ _ _ _ _ _ _].
    repeat case_decide; try done; by rewrite Ht. }
  assert (Hlast : _repeat_count (exact_observe (exact_repeats g) (entry_after es r).1).1 =
    match _last_exact_key (exact_observe (exact_repeats g) (entry_after es r).1).1 with
    | Some k => Z.of_nat (prefix_len (repeats k) (entry_after es r :: es)) | None => 0%Z end).
  { rewrite X2, X3. by case_decide. }
  pose proof (unchanged_step g0 g es (entry_after es r) Hg) as Hu.
  pose proof (unchanged_has_past es r) as Hpast.
  set (e := entry_after es r) in *. destruct Hg as [_ Hb _ _ Hs Hst Hun Hby].
  destruct e.2 eqn:Ee; split; unfold semantic_observe, unchanged_observe;
    cbn [fst progress_tracker exact_repeats semantic_no_progress unchanged_results _streak
         semantic_threshold unchanged_threshold _observations_by_target];
    try done; try congruence.
  - rewrite filter_cons_True by done. rewrite prefix_unchanged_cons.
    case_decide; [|done]. rewrite Hst. lia.
  - intros Ho k. rewrite filter_cons_True by done. rewrite filter_target_cons, lookup_insert.
    destruct (decide (target_key (identity e.1) = k)) as [<-|Hk].
    + by rewrite Hu.
    + apply Hby. by eapply one_tool_tail.
  - by rewrite filter_cons_False by (unfold reads_only; by rewrite Ee).
  - intros Ho k. rewrite filter_cons_False by (unfold reads_only; by rewrite Ee).
    apply Hby. by eapply one_tool_tail.
Qed.

Lemma guard_after_inv g0 h :
  guard_inv g0 g0 [] -> guard_inv g0 (guard_after g0 h) (entries h).
Proof.
  intros H0'. unfold guard_after, entries. revert H0'. generalize (@nil entry) as es.
  enough (Hgen : forall es g, guard_inv g0 g es ->
    guard_inv g0 (fold_left (fun g r => (guard_observe g r).1) h g)
      (fold_left (fun past r => entry_after past r :: past) h es)) by (intros es; apply Hgen).
  induction h as [|r h IH]; intros es g Hg; [done|]. simpl. by apply IH, guard_step.
Qed.

Lemma entries_snoc h r : entries (h ++ [r]) = entry_after (entries h) r :: entries h.
Proof. unfold entries. by rewrite fold_left_app. Qed.

(** Whether a detector's count reaches its threshold. *)
Lemma threshold_reached (n : nat) (t : Z) :
  Z.ltb (Z.of_nat n) t = false <-> Z.to_nat t <= n.
Proof. rewrite Z.ltb_ge. lia. Qed.

(** The three detectors raise three different signals. *)
Lemma fired_exact d o s : (exact_observe d o).2 = Some s -> trigger s = EXACT_REPEAT.
Proof.
  unfold exact_observe. case_decide; [done|]. cbn [snd]. destruct (Z.ltb _ _); [done|].
  by intros [= <-].
Qed.
Lemma fired_semantic d o s : (semantic_observe d o).2 = Some s -> trigger s = SEMANTIC_NO_PROGRESS.
Proof. unfold semantic_observe. cbn [snd]. destruct (Z.ltb _ _); [done|]. by intros [= <-]. Qed.
Lemma fired_unchanged d o s : (unchanged_observe d o).2 = Some s -> trigger s = UNCHANGED_RESULT.
Proof. unfold unchanged_observe. cbn [snd]. destruct (Z.ltb _ _); [done|]. by intros [= <-]. Qed.

Lemma elem_of_omap_id {A} (x : A) (l : list (option A)) : x ∈ omap id l <-> Some x ∈ l.
Proof.
  rewrite list_elem_of_omap. split; [intros (o & Ho & E); by rewrite <- E|].
  intros Hx. by exists (Some x).
Qed.

Lemma fired_iff (a b c : option LoopSignal) t :
  (forall s, a = Some s -> trigger s = EXACT_REPEAT) ->
  (forall s, b = Some s -> trigger s = SEMANTIC_NO_PROGRESS) ->
  (forall s, c = Some s -> trigger s = UNCHANGED_RESULT) ->
  t ∈ trigger <$> omap id [a; b; c] <->
  match t with EXACT_REPEAT => a | SEMANTIC_NO_PROGRESS => b | UNCHANGED_RESULT => c end <> None.
Proof.
  intros Ha Hb Hc.
  assert (Hin : t ∈ trigger <$> omap id [a; b; c] <->
    (exists s, a = Some s /\ trigger s = t) \/ (exists s, b = Some s /\ trigger s = t) \/
    (exists s, c = Some s /\ trigger s = t)).
  { rewrite list_elem_of_fmap. setoid_rewrite elem_of_omap_id.
    setoid_rewrite elem_of_cons. setoid_rewrite elem_of_cons.
    setoid_rewrite list_elem_of_singleton. naive_solver. }
  rewrite Hin. split.
  - intros [(s & -> & <-)|[(s & -> & <-)|(s & -> & <-)]];
      [rewrite (Ha s)|rewrite (Hb s)|rewrite (Hc s)]; done.
  - destruct t; [destruct a as [s|]|destruct b as [s|]|destruct c as [s|]]; intros Hn; try done;
      [left|right; left|right; right]; exists s; auto.
Qed.

(** When each detector fires, in terms of the longest run of repetitions. *)
Lemma exact_fires sem unch ex g es e :
  guard_inv (make_guard sem unch ex) g es ->
  (exact_observe (exact_repeats g) e.1).2 <> None <->
  Z.to_nat (Z.max 1 ex) <= prefix_len (repeats (exact_key (identity e.1))) (e :: es).
Proof.
  intros Hg. destruct (exact_step _ g es e Hg) as (_ & _ & X3).
  unfold exact_observe in X3 |- *. case_decide as Hc.
  - cbn [snd prefix_len]. unfold repeats at 1. rewrite bool_decide_eq_true_2 by done.
    rewrite andb_false_r. split; [done|lia].
  - cbn [fst snd _repeat_count] in X3 |- *. rewrite X3, (gi_break _ _ _ Hg).
    rewrite <- threshold_reached. change (break_threshold _) with (Z.max 1 ex).
    by destruct (Z.ltb _ _).
Qed.

Lemma semantic_fires sem unch ex g es e :
  guard_inv (make_guard sem unch ex) g es ->
  (semantic_observe (semantic_no_progress g) e.1).2 <> None <->
  Z.to_nat (Z.max 1 sem) <= prefix_len is_unchanged (e :: filter reads_only es).
Proof.
  intros Hg. unfold semantic_observe. cbn [snd].
  rewrite (gi_semantic _ _ _ Hg), (gi_streak _ _ _ Hg), prefix_unchanged_cons.
  change (semantic_threshold _) with (Z.max 1 sem).
  case_decide; destruct (Z.ltb _ _) eqn:E; (apply Z.ltb_lt in E || apply Z.ltb_ge in E);
    (split; [try done; intros _; lia|intros Hle; try done; lia]).
Qed.

Lemma unchanged_fires sem unch ex g es e :
  guard_inv (make_guard sem unch ex) g es ->
  one_tool_per_target (e :: es) -> reads_only e ->
  (progress e.1 = UNCHANGED -> filter (same_target (target_key (identity e.1))) es <> []) ->
  (unchanged_observe (unchanged_results g) e.1).2 <> None <->
  Z.to_nat (Z.max 2 unch) - 1 <= prefix_len is_unchanged
     (e :: filter (same_target (target_key (identity e.1))) (filter reads_only es)).
Proof.
  intros Hg Ho Hr Hpast. unfold unchanged_observe. cbn [snd].
  rewrite (unchanged_step _ _ _ _ Hg Ho Hr Hpast), (gi_unchanged _ _ _ Hg).
  change (unchanged_threshold _) with (Z.max 2 unch).
  destruct (Z.ltb _ _) eqn:E; (apply Z.ltb_lt in E || apply Z.ltb_ge in E);
    (split; [try done; intros _; lia|intros Hle; try done; lia]).
Qed.

(** The target key of a call starts with the tool's name and a colon. *)
Lemma colon_names (c : Ascii.ascii) a b x y :
  str_has c a = false -> str_has c b = false -> a +:+ String c x = b +:+ String c y -> a = b.
Proof.
  revert b. induction a as [|u a IH]; intros [|v b]; cbn [str_has String.append];
    rewrite ?orb_false_iff, ?Ascii.eqb_neq; try done; [naive_solver..|].
  intros [_ Ha] [_ Hb] [= -> E]. f_equal. by apply IH.
Qed.

Lemma target_key_name n1 i1 n2 i2 :
  str_has ":" n1 = false -> str_has ":" n2 = false ->
  tool_call_target_key n1 i1 = tool_call_target_key n2 i2 -> n1 = n2.
Proof. intros H1 H2. unfold tool_call_target_key, _canonical_key. by apply colon_names. Qed.

(** The entries of results whose tool names have no colon. *)
Lemma entries_names h e :
  e ∈ entries h -> exists r, r ∈ h /\ e.2 = is_loop_progress_candidate (call_name r) /\
    target_key (identity e.1) = tool_call_target_key (call_name r) (rc_tool_input r).
Proof.
  induction h as [|r h IH] using rev_ind; [by rewrite elem_of_nil|].
  rewrite entries_snoc, elem_of_cons. intros [->|Hin].
  - exists r. split; [set_solver|done].
  - destruct (IH Hin) as (r' & Hr' & E). exists r'. split; [set_solver|done].
Qed.

Lemma names_one_tool h :
  Forall (fun r => str_has ":" (call_name r) = false) h -> one_tool_per_target (entries h).
Proof.
  rewrite Forall_forall. intros Hn e e' He He' E.
  apply entries_names in He as (r & Hr & E2 & Et). apply entries_names in He' as (r' & Hr' & E2' & Et').
  rewrite E2, E2'. f_equal. eapply target_key_name; [by apply Hn|by apply Hn|].
  by rewrite <- Et, <- Et'.
Qed.

(** When the loop guard fires.  After a history of tool results, one more result
    raises EXACT_REPEAT exactly when it and the calls just before it, as many as
    the threshold, repeat one call exactly and none of them brought a changed
    result; it raises SEMANTIC_NO_PROGRESS exactly when its tool only reads and
    the latest results of read-only tools, as many as the threshold, were all
    unchanged; and UNCHANGED_RESULT exactly when its tool only reads and its
    target gave one and the same result in as many latest calls as the
    threshold, that is one less than that many times unchanged.  Tool names have no colon. *)
Theorem loop_signals_spec (sem unch ex : Z) (h : list ResolvedToolCall) (r : ResolvedToolCall) :
  let es := entries (h ++ [r]) in
  let e := entry_after (entries h) r in
  let fired := trigger <$> (guard_observe (guard_after (make_guard sem unch ex) h) r).2 in
  let n := Z.to_nat (Z.max 1 ex) in
  let m := Z.to_nat (Z.max 1 sem) in
  let k := Z.to_nat (Z.max 2 unch) in
  let readers := filter reads_only es in
  let same := filter (same_target (target_key (identity e.1))) readers in
  Forall (fun c => str_has ":" (call_name c) = false) (h ++ [r]) ->
  (EXACT_REPEAT ∈ fired <->
     n <= length es /\ Forall (fun e' => repeats (exact_key (identity e.1)) e' = true) (take n es)) /\
  (SEMANTIC_NO_PROGRESS ∈ fired <->
     reads_only e /\ m <= length readers /\
     Forall (fun e' => is_unchanged e' = true) (take m readers)) /\
  (UNCHANGED_RESULT ∈ fired <->
     reads_only e /\ k - 1 <= length same /\
     Forall (fun e' => is_unchanged e' = true) (take (k - 1) same)).
Proof.
  intros es e fired n m k readers same Ho%names_one_tool. fold es in Ho.
  pose proof (guard_after_inv _ h (guard_inv_init sem unch ex)) as Hg.
  pose proof (guard_observe_eq _ _ _ r Hg) as Heq. cbv zeta in Heq.
  unfold fired. rewrite Heq. clear Heq fired. fold e.
  pose proof (exact_fires _ _ _ _ _ e Hg) as HX.
  pose proof (semantic_fires _ _ _ _ _ e Hg) as HS.
  pose proof (unchanged_fires _ _ _ _ _ e Hg) as HU.
  assert (Hes : es = e :: entries h) by apply entries_snoc.
  assert (Hr : readers = if e.2 then e :: filter reads_only (entries h)
                         else filter reads_only (entries h)).
  { unfold readers. rewrite Hes, filter_cons. case_decide as He; unfold reads_only in He;
      [by rewrite He|]. by destruct (e.2). }
  rewrite <- !prefix_len_le. unfold same. rewrite Hr, Hes in *. unfold reads_only at 1 2.
  destruct e.2 eqn:Ee.
  - rewrite filter_target_cons, decide_True by done. cbn [snd].
    rewrite !fired_iff by (apply fired_exact || apply fired_semantic || apply fired_unchanged).
    rewrite HX, HS, HU; [tauto|done|done|apply unchanged_has_past].
  - cbn [snd].
    change (omap id [?a]) with (omap id [a; None; None]).
    rewrite !fired_iff by (apply fired_exact || done).
    rewrite HX. intuition congruence.
Qed.

(** * Run control: terminations and disabled tools *)

Definition control_after (c : RunControlPolicy) (h : list ResolvedToolCall) : RunControlPolicy :=
  fold_left (fun c r => (control_observe c r).1) h c.

Lemma control_latched c r t :
  termination c = Some t ->
  termination (control_observe c r).1 = Some t /\
  (control_observe c r).2 = {| cd_termination := Some t; cd_disablement := None |}.
Proof.
  intros Ht. unfold control_observe. destruct (guard_observe _ _), (policy_observe _ _).
  by rewrite Ht.
Qed.

Lemma min_signal_spec l b :
  min_signal b l ∈ b :: l /\
  forall s, s ∈ b :: l ->
  (_SIGNAL_PRECEDENCE (trigger (min_signal b l)) <= _SIGNAL_PRECEDENCE (trigger s))%Z.
Proof.
  revert b. induction l as [|x l IH]; intros b; cbn [min_signal].
  - split; [by left|]. intros s ->%list_elem_of_singleton. lia.
  - destruct (Z.ltb _ _) eqn:E; (apply Z.ltb_lt in E || apply Z.ltb_ge in E).
    + destruct (IH x) as [Hin Hle]. split; [by right|].
      intros s [->|Hs]%elem_of_cons; [|by apply Hle].
      etransitivity; [apply Hle; by left|lia].
    + destruct (IH b) as [Hin Hle]. split; [set_solver|].
      intros s [->|[->|Hs]%elem_of_cons]%elem_of_cons.
      * apply Hle. by left.
      * etransitivity; [apply Hle; by left|lia].
      * apply Hle. by right.
Qed.

Lemma control_latched_after c h t :
  termination c = Some t -> termination (control_after c h) = Some t.
Proof.
  unfold control_after. revert c. induction h as [|r h IH]; intros c Ht; [done|].
  simpl. by apply IH, (control_latched c r t).
Qed.

(** The decisions of run control.  Once it has decided to terminate, every later
    result gets the same termination and no tool is disabled any more.  Until
    then a result on which no detector fires gets no termination and the
    failure policy's own verdict, and one on which some fire gets the
    termination of the fired signal with the first rank among them. *)
Theorem run_control_decides (c : RunControlPolicy) (r : ResolvedToolCall) :
  let signals := (guard_observe (loop_guard c) r).2 in
  let d := (control_observe c r).2 in
  match termination c with
  | Some t => forall h,
      let c' := control_after c (r :: h) in
      termination c' = Some t /\
      forall r', (control_observe c' r').2 = {| cd_termination := Some t; cd_disablement := None |}
  | None =>
      (signals = [] ->
         d = {| cd_termination := None; cd_disablement := (policy_observe (tool_failures c) r).2 |}) /\
      (signals <> [] -> exists s, s ∈ signals /\
         d = {| cd_termination := Some {| t_message := message s; t_trigger := trigger s;
                                          t_final_output := None |};
                cd_disablement := None |} /\
         termination (control_observe c r).1 = cd_termination d /\
         forall s', s' ∈ signals ->
         (_SIGNAL_PRECEDENCE (trigger s) <= _SIGNAL_PRECEDENCE (trigger s'))%Z)
  end.
Proof.
  intros signals d. destruct (termination c) as [t|] eqn:Ht.
  - intros h c'. pose proof (control_latched_after c (r :: h) t Ht) as Hc.
    split; [done|]. intros r'. by apply control_latched.
  - unfold d, signals, control_observe. rewrite Ht. cbn [evaluate].
    destruct (guard_observe (loop_guard c) r) as [g [|s l]],
      (policy_observe (tool_failures c) r) as [p x]; cbn [snd evaluate].
    + split; [done|]. intros Hn. by destruct Hn.
    + split; [done|]. intros _. destruct (min_signal_spec l s) as [Hin Hle].
      by exists (min_signal s l).
Qed.

(** ** The failure policy *)

(** The class of a result: [None] of a success. *)
Definition class_of (r : ResolvedToolCall) : option string :=
  (fun f => str_or (Some (failure_category f)) DEFAULT_TOOL_FAILURE_CATEGORY) <$>
  outcome_failure (rc_outcome r).

(** The results of one tool, oldest first. *)
Definition for_tool (T : string) (r : ResolvedToolCall) : Prop := call_name r = T.
#[local] Instance for_tool_dec T r : Decision (for_tool T r).
Proof. unfold for_tool. apply _. Defined.
Definition calls_of (T : string) (h : list ResolvedToolCall) : list ResolvedToolCall :=
  filter (for_tool T) h.

Definition policy_after (p : ToolFailurePolicy) (h : list ResolvedToolCall) : ToolFailurePolicy :=
  fold_left (fun p r => (policy_observe p r).1) h p.

(** The window that the outcomes of a tool leave. *)
Definition failures_in (l : list (option string)) : list (option string) :=
  filter (fun x => x <> None) l.
Definition successes_in (l : list (option string)) : list (option string) :=
  filter (fun x => x = None) l.
Definition window_of (W : Z) (l : list (option string)) : _ToolFailureWindow :=
  {| recent_error_classes := lastn (Z.to_nat W) l;
     total_failures := Z.of_nat (length (failures_in l));
     total_successes := Z.of_nat (length (successes_in l)) |}.

Lemma lastn_short {A} n (l : list A) : length l <= n -> lastn n l = l.
Proof. intros Hl. unfold lastn. by replace (length l - n) with 0 by lia. Qed.

Lemma lastn_snoc {A} n (l : list A) x : lastn n (lastn n l ++ [x]) = lastn n (l ++ [x]).
Proof.
  destruct (Nat.le_gt_cases (length l) n) as [Hl|Hl]; [by rewrite (lastn_short n l)|].
  unfold lastn. rewrite !length_app, length_drop. simpl.
  replace (length l - (length l - n) + 1 - n) with 1 by lia.
  destruct n as [|n].
  - rewrite drop_ge by (rewrite length_app, length_drop; simpl; lia).
    rewrite drop_ge; [done|rewrite length_app; simpl; lia].
  - rewrite !drop_app_le by (rewrite ?length_drop; lia). rewrite drop_drop. do 2 f_equal. lia.
Qed.

Lemma window_observe_of W l x :
  (1 <= W)%Z -> window_observe (window_of W l) x W = window_of W (l ++ [x]).
Proof.
  intros HW. unfold window_observe, window_of, failures_in, successes_in. simpl recent_error_classes.
  f_equal.
  - destruct (Z.ltb _ _) eqn:E; [apply lastn_snoc|]. rewrite <- lastn_snoc. symmetry.
    apply lastn_short. apply Z.ltb_ge in E. lia.
  - cbn [total_failures]. rewrite filter_app, length_app. case_decide; subst.
    + rewrite filter_cons_False by auto. simpl. lia.
    + rewrite filter_cons_True by done. simpl. lia.
  - cbn [total_successes]. rewrite filter_app, length_app. case_decide; subst.
    + rewrite filter_cons_True by done. simpl. lia.
    + rewrite filter_cons_False by done. simpl. lia.
Qed.

Definition outcomes (T : string) (h : list ResolvedToolCall) : list (option string) :=
  class_of <$> calls_of T h.

(** After the outcomes [l] of a tool, a failure of class [c] crosses a limit: too
    many failures of the class in the window, or enough failures and no success. *)
Definition rolling_limit (p : ToolFailurePolicy) (c : string) (l : list (option string)) : Prop :=
  (failure_threshold p <= count_class c (lastn (Z.to_nat (failure_window_calls p)) l))%Z.
Definition zero_limit (p : ToolFailurePolicy) (l : list (option string)) : Prop :=
  Forall (fun x => x <> None) l /\ (zero_success_failure_threshold p <= Z.of_nat (length l))%Z.

Record policy_inv (p0 p : ToolFailurePolicy) (h : list ResolvedToolCall) : Prop := {
  pi_threshold : failure_threshold p = failure_threshold p0;
  pi_window : failure_window_calls p = failure_window_calls p0;
  pi_zero : zero_success_failure_threshold p = zero_success_failure_threshold p0;
  pi_windows : forall T, _windows p !! T =
    if decide (outcomes T h = []) then None
    else Some (window_of (failure_window_calls p0) (outcomes T h));
}.

Lemma outcomes_snoc T h r :
  outcomes T (h ++ [r]) = if decide (call_name r = T) then outcomes T h ++ [class_of r] else outcomes T h.
Proof.
  unfold outcomes, calls_of. rewrite filter_app, fmap_app. case_decide as E.
  - by rewrite filter_cons_True by done.
  - rewrite filter_cons_False by done. by rewrite app_nil_r.
Qed.

Lemma window_of_default p0 p h T :
  policy_inv p0 p h ->
  default empty_window (_windows p !! T) = window_of (failure_window_calls p0) (outcomes T h).
Proof. intros Hp. rewrite (pi_windows _ _ _ Hp). case_decide as E; [by rewrite E|done]. Qed.

(** One step of the policy, on the outcomes of the tool. *)
Lemma policy_observe_eq p0 p h r :
  policy_inv p0 p h -> (1 <= failure_window_calls p0)%Z ->
  let T := call_name r in
  let w := window_of (failure_window_calls p0) (outcomes T (h ++ [r])) in
  let ws := <[T := w]> (_windows p) in
  policy_observe p r =
  match class_of r with
  | None => (with_windows p ws (disabled_tools p), None)
  | Some c =>
      if decide (_evaluate_triggers p0 w c = []) then (with_windows p ws (disabled_tools p), None)
      else match disabled_tools p !! T with
           | Some _ => (with_windows p ws (disabled_tools p), None)
           | None =>
               let d := {| d_tool_name := T; d_error_class := c;
                           d_triggers := _evaluate_triggers p0 w c;
                           d_rolling_failures := rolling_failures w c;
                           d_total_failures := total_failures w;
                           d_total_successes := total_successes w;
                           d_window_calls := failure_window_calls p0;
                           d_last_error_message := rc_result_text r |} in
               (with_windows p ws (<[T := d]> (disabled_tools p)), Some d)
           end
  end.
Proof.
  intros Hp HW T w ws. unfold policy_observe. fold T.
  rewrite (window_of_default _ _ _ T Hp), (pi_window _ _ _ Hp).
  assert (Hw : forall c, class_of r = c ->
    window_of (failure_window_calls p0) (outcomes T h ++ [c]) = w).
  { intros c <-. unfold w. by rewrite outcomes_snoc, decide_True by done. }
  unfold class_of in Hw |- *. destruct (outcome_failure (rc_outcome r)) as [f|] eqn:Hf.
  - set (c := str_or (Some (failure_category f)) DEFAULT_TOOL_FAILURE_CATEGORY) in *.
    rewrite window_observe_of, (Hw (Some c) eq_refl) by done. fold ws. cbn [fmap option_fmap option_map].
    assert (forall c, _evaluate_triggers p w c = _evaluate_triggers p0 w c) as Ht.
    { intros c0. unfold _evaluate_triggers. by rewrite (pi_threshold _ _ _ Hp), (pi_zero _ _ _ Hp). }
    rewrite Ht. done.
  - by rewrite window_observe_of, (Hw None eq_refl).
Qed.

(** Every way through a step leaves the tool's window and keeps the settings. *)
Lemma policy_step p0 p h r :
  policy_inv p0 p h -> (1 <= failure_window_calls p0)%Z ->
  policy_inv p0 (policy_observe p r).1 (h ++ [r]).
Proof.
  intros Hp HW. rewrite (policy_observe_eq p0 p h r Hp HW). cbv zeta.
  set (ws := <[_ := _]> (_windows p)).
  enough (Hs : forall ds, policy_inv p0 (with_windows p ws ds) (h ++ [r])).
  { destruct (class_of r); [|apply Hs]. case_decide; [apply Hs|].
    destruct (disabled_tools p !! _); apply Hs. }
  intros ds. destruct Hp as [Ht Hw Hz Hws]. split; try done.
  intros T. cbn [with_windows _windows]. unfold ws.
  destruct (decide (call_name r = T)) as [<-|HT].
  - rewrite lookup_insert_eq, decide_False; [done|].
    rewrite outcomes_snoc, decide_True by done. by intros [_ ?]%app_nil.
  - rewrite lookup_insert_ne by done. 
    assert (outcomes T (h ++ [r]) = outcomes T h) as -> by (by rewrite outcomes_snoc, decide_False).
    apply Hws.
Qed.

Lemma policy_after_snoc p h r :
  policy_after p (h ++ [r]) = (policy_observe (policy_after p h) r).1.
Proof. unfold policy_after. by rewrite fold_left_app. Qed.

Lemma policy_after_inv t w z h :
  policy_inv (make_policy t w z) (policy_after (make_policy t w z) h) h.
Proof.
  induction h as [|r h IH] using rev_ind; [by split|].
  rewrite policy_after_snoc. apply policy_step; [done|]. simpl. lia.
Qed.

Lemma no_success l : length (successes_in l) = 0 <-> Forall (fun x => x <> None) l.
Proof.
  unfold successes_in. induction l as [|[c|] l IH]; [done|..].
  - rewrite filter_cons_False, Forall_cons by done. rewrite IH. split; [by split|by intros [_ ?]].
  - rewrite filter_cons_True, Forall_cons by done. simpl. split; [lia|by intros [? _]].
Qed.

Lemma all_failures l : Forall (fun x => x <> None) l -> failures_in l = l.
Proof. rewrite Forall_forall. apply filter_all. Qed.

Lemma triggers_spec p l c :
  (ROLLING_WINDOW ∈ _evaluate_triggers p (window_of (failure_window_calls p) l) c <->
     rolling_limit p c l) /\
  (ZERO_SUCCESS ∈ _evaluate_triggers p (window_of (failure_window_calls p) l) c <->
     zero_limit p l).
Proof.
  unfold _evaluate_triggers, rolling_limit, zero_limit, rolling_failures.
  cbn [window_of recent_error_classes total_failures total_successes].
  rewrite !elem_of_app, <- no_success. split.
  - destruct (Z.leb _ _) eqn:E; (apply Z.leb_le in E || apply Z.leb_gt in E).
    + rewrite list_elem_of_singleton. tauto.
    + rewrite elem_of_nil. split; [|lia].
      intros [[]|Hin]. destruct (_ && _); set_solver.
  - assert (Hz : (Z.of_nat (length (successes_in l)) =? 0)%Z = true <->
                 length (successes_in l) = 0) by (rewrite Z.eqb_eq; lia).
    assert (ZERO_SUCCESS ∉ if (failure_threshold p <=?
      count_class c (lastn (Z.to_nat (failure_window_calls p)) l))%Z then [ROLLING_WINDOW] else [])
      as Hn by (destruct (Z.leb _ _); set_solver).
    destruct (_ && _) eqn:E.
    + apply andb_true_iff in E as [E1%Hz E2%Z.leb_le]. rewrite all_failures in E2 by (by apply no_success).
      rewrite list_elem_of_singleton. tauto.
    + rewrite elem_of_nil. split; [tauto|]. intros [E1 E2]. exfalso.
      apply not_true_iff_false in E. apply E. apply andb_true_iff. split; [by apply Hz|].
      apply Z.leb_le. rewrite all_failures by (by apply no_success). lia.
Qed.

Lemma triggers_nonempty p l c :
  _evaluate_triggers p (window_of (failure_window_calls p) l) c <> [] <->
  rolling_limit p c l \/ zero_limit p l.
Proof.
  destruct (triggers_spec p l c) as [<- <-].
  destruct (_evaluate_triggers _ _ _) as [|[] ts]; [set_solver|..]; (split; [set_solver|done]).
Qed.

(** What one result changes of the set of disabled tools. *)
Lemma disabled_step p0 p h r T :
  policy_inv p0 p h -> (1 <= failure_window_calls p0)%Z ->
  disabled_tools (policy_observe p r).1 !! T <> None <->
  disabled_tools p !! T <> None \/
  exists c, call_name r = T /\ class_of r = Some c /\
    (rolling_limit p0 c (outcomes T (h ++ [r])) \/ zero_limit p0 (outcomes T (h ++ [r]))).
Proof.
  intros Hp HW. rewrite (policy_observe_eq p0 p h r Hp HW). cbv zeta.
  destruct (class_of r) as [c|]; [|naive_solver].
  pose proof (triggers_nonempty p0 (outcomes (call_name r) (h ++ [r])) c) as Ht.
  case_decide as He; cbn [fst with_windows disabled_tools].
  - split; [by left|]. intros [?|(c' & <- & [= <-] & Hl)]; [done|]. by apply Ht in Hl.
  - apply Ht in He. destruct (disabled_tools p !! call_name r) as [d|] eqn:Hd.
    + split; [by left|]. intros [?|(c' & <- & _)]; [done|]. cbn [fst with_windows disabled_tools]. by rewrite Hd.
    + cbn [fst with_windows disabled_tools]. rewrite lookup_insert. case_decide as HT; [|naive_solver].
      subst T. split; [|done]. intros _. right. by exists c.
Qed.

Lemma disabled_history p0 t w z h T :
  p0 = make_policy t w z ->
  disabled_tools (policy_after p0 h) !! T <> None <->
  exists h1 r h2 c, h = h1 ++ r :: h2 /\ call_name r = T /\ class_of r = Some c /\
    (rolling_limit p0 c (outcomes T (h1 ++ [r])) \/ zero_limit p0 (outcomes T (h1 ++ [r]))).
Proof.
  intros Hp0. assert (HW : (1 <= failure_window_calls p0)%Z) by (rewrite Hp0; simpl; lia).
  induction h as [|r h IH] using rev_ind.
  { split; [by rewrite Hp0|]. intros (h1 & r & h2 & c & E & _). by destruct h1. }
  assert (Hi : policy_inv p0 (policy_after p0 h) h) by (rewrite Hp0; apply policy_after_inv).
  rewrite policy_after_snoc, (disabled_step p0 _ h r T Hi HW), IH. split.
  - intros [(h1 & r' & h2 & c & -> & Hl)|(c & Hl)].
    + exists h1, r', (h2 ++ [r]), c. by rewrite <- app_assoc.
    + by exists h, r, [], c.
  - intros (h1 & r' & h2 & c & E & Hl). destruct h2 as [|r2 h2 _] using rev_ind.
    + apply app_inj_tail in E as [<- <-]. right. by exists c.
    + left. exists h1, r', h2, c. rewrite app_comm_cons, app_assoc in E.
      by apply app_inj_tail in E as [-> _].
Qed.

(** When a tool is disabled.  After a history of results, a tool is disabled
    exactly when at some earlier result it failed and that failure crossed a
    limit: as many failures of its class among the last calls of the tool as
    the threshold, or as many failures as the other threshold and never a
    success.  The one result that disables a tool is the first such one; the
    record it leaves names the tool, the class, the limits crossed and the
    tool's totals. *)
Theorem tool_disabled_spec (threshold window zero : Z) (h : list ResolvedToolCall) :
  let p0 := make_policy threshold window zero in
  let p := policy_after p0 h in
  (forall T, disabled_tools p !! T <> None <->
     exists h1 r h2 c, h = h1 ++ r :: h2 /\ call_name r = T /\ class_of r = Some c /\
       (rolling_limit p0 c (outcomes T (h1 ++ [r])) \/ zero_limit p0 (outcomes T (h1 ++ [r])))) /\
  (forall r,
     let T := call_name r in
     let l := outcomes T (h ++ [r]) in
     let p' := (policy_observe p r).1 in
     match (policy_observe p r).2 with
     | None => disabled_tools p' = disabled_tools p
     | Some d =>
         disabled_tools p !! T = None /\ disabled_tools p' = <[T := d]> (disabled_tools p) /\
         d_tool_name d = T /\ Some (d_error_class d) = class_of r /\
         (ROLLING_WINDOW ∈ d_triggers d <-> rolling_limit p0 (d_error_class d) l) /\
         (ZERO_SUCCESS ∈ d_triggers d <-> zero_limit p0 l) /\
         d_total_failures d = Z.of_nat (length (failures_in l)) /\
         d_total_successes d = Z.of_nat (length (successes_in l)) /\
         d_last_error_message d = rc_result_text r
     end).
Proof.
  intros p0 p. assert (HW : (1 <= failure_window_calls p0)%Z) by (simpl; lia). split.
  - intros T. by eapply disabled_history.
  - intros r T l p'. unfold p'.
    rewrite (policy_observe_eq p0 p h r (policy_after_inv _ _ _ h) HW). cbv zeta. fold T l.
    destruct (class_of r) as [c|]; [|done]. case_decide; [done|].
    destruct (disabled_tools p !! T) as [d|] eqn:Hd; [done|].
    cbn [snd fst with_windows disabled_tools d_tool_name d_error_class d_triggers d_total_failures
         d_total_successes d_last_error_message].
    destruct (triggers_spec p0 l c). split_and!; done.
Qed.

(** ** Counting the failures of a class *)

Lemma count_snoc c l x : (count_class c (l ++ [x]) <= count_class c l + 1)%Z.
Proof.
  unfold count_class. rewrite filter_app, length_app.
  destruct (decide (x = Some c)).
  - rewrite filter_cons_True by done. simpl. lia.
  - rewrite filter_cons_False by done. simpl. lia.
Qed.

Lemma count_lastn c n l : (count_class c (lastn n l) <= count_class c l)%Z.
Proof.
  unfold count_class, lastn. rewrite <- (take_drop (length l - n) l) at 3.
  rewrite filter_app, length_app. lia.
Qed.

Lemma count_window c n l b :
  (count_class c (lastn n (l ++ b)) <= count_class c (lastn n l) + Z.of_nat (length b))%Z.
Proof.
  induction b as [|x b IH] using rev_ind; [rewrite app_nil_r; simpl; lia|].
  rewrite app_assoc, <- lastn_snoc, length_app. simpl.
  etransitivity; [apply count_lastn|]. etransitivity; [apply count_snoc|]. lia.
Qed.

Lemma count_le_largest w c : (rolling_failures w c <= largest_rolling_failure_count w)%Z.
Proof.
  unfold largest_rolling_failure_count, rolling_failures.
  set (f := fun c => _). set (cs := remove_dups _).
  assert (Hmax : forall l x, x ∈ l -> (x <= fold_right Z.max 0 l)%Z).
  { induction l as [|y l IH]; intros x; [by rewrite elem_of_nil|].
    intros [->|Hx]%elem_of_cons; simpl; [lia|]. specialize (IH _ Hx). lia. }
  assert (Hpos : forall l, (0 <= fold_right Z.max 0 l)%Z) by (induction l; simpl; lia).
  destruct (decide (Some c ∈ recent_error_classes w)) as [Hin|Hnin].
  - apply Hmax, list_elem_of_fmap. exists c. split; [done|].
    by apply elem_of_remove_dups, elem_of_omap_id.
  - replace (count_class c (recent_error_classes w)) with 0%Z; [apply Hpos|].
    unfold count_class. destruct (filter _ _) as [|x l] eqn:E; [done|].
    assert (Hx : x ∈ x :: l) by by left.
    rewrite <- E in Hx. by apply list_elem_of_filter in Hx as [-> ?].
Qed.

Lemma outcomes_app T h h' : outcomes T (h ++ h') = outcomes T h ++ outcomes T h'.
Proof. unfold outcomes, calls_of. by rewrite filter_app, fmap_app. Qed.

(** Below the limit on parallel calls no limit of the policy is crossed. *)
Lemma below_limit p0 p h T b c :
  policy_inv p0 p h -> 0 < length b ->
  (Z.of_nat (length b) < parallel_same_tool_limit p T)%Z ->
  ~ (rolling_limit p0 c (outcomes T h ++ b) \/ zero_limit p0 (outcomes T h ++ b)).
Proof.
  intros Hp Hb. unfold parallel_same_tool_limit.
  rewrite (pi_windows _ _ _ Hp), (pi_threshold _ _ _ Hp), (pi_zero _ _ _ Hp).
  unfold rolling_limit, zero_limit.
  pose proof (count_window c (Z.to_nat (failure_window_calls p0)) (outcomes T h) b) as Hw.
  case_decide as Hl.
  - rewrite Hl in *. rewrite (lastn_short _ []) in Hw by (simpl; lia).
    change (count_class c []) with 0%Z in Hw. rewrite app_nil_l in *.
    intros Hlt [Hr|[_ Hz]]; lia.
  - pose proof (count_le_largest (window_of (failure_window_calls p0) (outcomes T h)) c) as Hc.
    unfold rolling_failures in Hc. cbn [window_of recent_error_classes] in Hc.
    set (w := window_of _ _) in *. intros Hlt [Hr|[[Hf _]%Forall_app Hz]].
    + destruct (Z.eqb _ _); lia.
    + assert (Hs : total_successes w = 0%Z) by (apply no_success in Hf; unfold w; simpl; lia).
      assert (Ht : total_failures w = Z.of_nat (length (outcomes T h))).
      { unfold w. simpl. by rewrite all_failures. }
      rewrite Hs, Ht in Hlt. rewrite length_app in Hz. simpl in Hlt. lia.
Qed.

(** The limit on parallel calls of one tool cannot be overrun.  While a tool is
    enabled, any fewer results of it than the limit, whatever they are and
    whatever results of other tools come between them, leave it enabled: calls
    issued together up to the limit are all calls of a tool that is still
    allowed. *)
Lemma parallel_limit_safe (threshold window zero : Z) (h batch : list ResolvedToolCall) (T : string) :
  let p := policy_after (make_policy threshold window zero) h in
  disabled_tools p !! T = None ->
  (Z.of_nat (length (outcomes T batch)) < parallel_same_tool_limit p T)%Z ->
  disabled_tools (policy_after p batch) !! T = None.
Proof.
  intros p Hen Hlen. apply dec_stable. intros Hd. revert Hd. unfold p.
  set (p0 := make_policy threshold window zero) in *.
  assert (policy_after (policy_after p0 h) batch = policy_after p0 (h ++ batch)) as ->
    by (unfold policy_after; by rewrite fold_left_app).
  intros (h1 & r & h2 & c & E & HT & Hc & Hl)%(disabled_history p0 threshold window zero); [|done].
  pose proof (policy_after_inv threshold window zero h) as Hi. fold p0 in Hi.
  assert (Hcase : (exists k, h = h1 ++ r :: k) \/
                  (exists k, h1 = h ++ k /\ batch = k ++ r :: h2)).
  { apply app_eq_inv in E as [([|r' k] & -> & E)|(k & -> & E)].
    - right. exists []. by rewrite !app_nil_r.
    - injection E as <- ->. left. by exists k.
    - right. by exists k. }
  destruct Hcase as [(k & Hk)|(k & -> & Hk)].
  - assert (Hno : disabled_tools (policy_after p0 h) !! T <> None); [|by apply Hno].
    apply (disabled_history p0 threshold window zero); [done|]. by exists h1, r, k, c.
  - assert (Hlb : length (outcomes T (k ++ [r])) <= length (outcomes T batch)).
    { replace batch with ((k ++ [r]) ++ h2) by (by rewrite Hk, <- app_assoc).
      rewrite (outcomes_app T (k ++ [r])), (length_app (outcomes T (k ++ [r]))). lia. }
    rewrite <- app_assoc, outcomes_app in Hl. revert Hl.
    apply (below_limit p0 _ h T _ c Hi); [|unfold p in Hlen; fold p0 in Hlen; lia].
    rewrite outcomes_snoc, decide_True, length_app by done. simpl. lia.
Qed.
End loop.

(** * Examples *)

Definition demo_catalog : ToolCatalog :=
  {| get_tool_registration n :=
       if String.eqb n "read_file"
       then Some {| side_effect_class := SE_READ_ONLY; identity_spec := None;
                    output_budget_chars := 10000 |} else None;
     has_action_policy _ _ := false |}.

(** Four reads of one file with one result, and failures of a shell. *)
Definition demo_read : ResolvedToolCall :=
  {| rc_block_id := "b"; rc_tool_name := "read_file"; rc_tool_input := [("path", JStr "a.txt")];
     rc_result_text := "text"; rc_outcome := {| outcome_failure := None |};
     rc_result_content := None; rc_result_value := None |}.
Definition demo_failure : ResolvedToolCall :=
  {| rc_block_id := "b"; rc_tool_name := "shell"; rc_tool_input := [];
     rc_result_text := "exit 1";
     rc_outcome := failed "exit 1" "ShellError"; rc_result_content := None;
     rc_result_value := None |}.

Definition demo_fired : list LoopTrigger :=
  trigger <$> (@guard_observe demo_platform demo_catalog
    (@guard_after demo_platform demo_catalog (make_guard 10 4 5) (replicate 3 demo_read))
    demo_read).2.

Lemma loop_signals_spec_witness :
  UNCHANGED_RESULT ∈ demo_fired /\ EXACT_REPEAT ∉ demo_fired.
Proof.
  destruct (@loop_signals_spec demo_platform demo_catalog 10 4 5 (replicate 3 demo_read) demo_read)
    as (HX & _ & HU); [vm_compute; repeat constructor|].
  split.
  - apply HU. split; [done|]. split; [vm_compute; lia|]. vm_compute. repeat constructor.
  - intros [Hn _]%HX. vm_compute in Hn. lia.
Defined.

Lemma parallel_limit_safe_witness :
  disabled_tools (@policy_after (make_policy 3 10 2) [demo_failure]) !! "shell" = None.
Proof.
  apply (@parallel_limit_safe 3 10 2 [] [demo_failure] "shell");
    [done|vm_compute; reflexivity].
Defined.
