(* ===== verification/ToolExecution.v ===== *)
(** The tool calls of one model response, [brain/systems/runs/direct_loop/]
    [tool_execution.py] and [gates.py]: what a handler's return value becomes, the
    watchdog that decides when a call is reported as timed out, the batches of
    calls that may run together, and the walk over the response that runs, gates,
    skips or refuses each call.

    A handler acts on a world [W] of its own.  How the event loop interleaves the
    calls of a batch is the business of a [BatchExecutor], whose one promise is
    that it answers each request in order; the sequential executor and the one of
    asyncio tasks are its instances. *)
From Stdlib Require Import Ascii.
From S2P Require Import Prelude.
From S2P Require Import PyStr.
From S2P Require Import Json.
From S2P Require Import JsonText.
From S2P Require Import Status.
From S2P Require Import Failures.
From S2P Require Import RunStore.
From S2P Require Import RunCreate.
From S2P Require Import Sessions.
From S2P Require Import LoopControl.
Open Scope string_scope.
Open Scope bool_scope.
Open Scope list_scope.

(** * Handlers *)

(** What running a handler gives: a value, a [ToolHandlerResult] that pairs a value
    with its outcome, or an exception of a class with a text. *)
Inductive handler_result : Type :=
| Returned (v : json)
| Returned_typed (v : json) (o : ToolOutcome)
| Raised (error_class text : string).

(** A handler is a plain function, or a coroutine function: calling that checks the
    arguments and answers a coroutine, whose [str] is [text], and only awaiting
    the coroutine runs the body.  [audited] is the attribute
    [_action_manifest_audited]. *)
Record handler (W : Type) : Type := {
  run_handler : dict -> W -> W * handler_result;
  coroutine : option ((dict -> bool) * string);
  audited : bool;
}.
Arguments run_handler {W} _ _ _.
Arguments coroutine {W} _.
Arguments audited {W} _.

Record PendingToolCall (W : Type) : Type := {
  p_block_id : string;
  p_tool_name : string;
  p_tool_input : dict;
  p_handler : handler W;
  p_result_nudge : option string;
}.
Arguments p_block_id {W} _.
Arguments p_tool_name {W} _.
Arguments p_tool_input {W} _.
Arguments p_handler {W} _.
Arguments p_result_nudge {W} _.

(** * From a return value to a result *)

Definition exit_code_failed (v : json) : bool :=
  match v with JInt z => negb (Z.eqb z 0) | JBool b => b | _ => false end.

(** [v is True]. *)
Definition is_json_true (v : json) : bool := match v with JBool b => b | _ => false end.

(** [result_failure_summary] of actions.py. *)
Definition result_failure_summary (r : json) : option string :=
  let payload := match r with JStr s => loads s | _ => Some r end in
  match payload with
  | Some (JObj d) =>
      let error := jget_or_null "error" d in
      if is_json_true (jget_or_null "blocked" d)
      then Some (py_str (jor error (JStr "blocked")))
      else if truthy error then Some (py_str error)
      else
        let exit_code := jget_or_null "exit_code" d in
        if exit_code_failed exit_code
        then Some (str_take 2000
               (py_str (jor (jget_or_null "stderr" d) (JStr ("exit_code=" +:+ py_str exit_code)))))
        else None
  | _ => None
  end.

Definition classify_tool_result (r : json) (typed : option ToolOutcome) : ToolOutcome :=
  match typed with
  | Some o => o
  | None =>
      match result_failure_summary r with
      | None => {| outcome_failure := None |}
      | Some message => failed message DEFAULT_TOOL_FAILURE_CATEGORY
      end
  end.

Definition _extract_model_visible_tool_content (r : json) : json * option json :=
  match r with
  | JObj d =>
      match jget "_tool_result_content" d with
      | Some content => (JObj (jpop "_tool_result_content" d), if is_null content then None else Some content)
      | None => (r, None)
      end
  | _ => (r, None)
  end.

Definition str_last (n : nat) (s : string) : string := str_drop (String.length s - n) s.

Definition _truncate_middle_text (text : string) (max_chars : Z) : string :=
  let n := Z.of_nat (String.length text) in
  if Z.leb max_chars 0 || Z.leb n max_chars then text
  else
    let marker := newline +:+ "...[" +:+ str_of_Z (n - max_chars)
                  +:+ " chars truncated by tool output budget]..." +:+ newline in
    let m := Z.of_nat (String.length marker) in
    if Z.leb max_chars m then str_take (Z.to_nat max_chars) marker
    else
      let head := ((max_chars - m) / 2)%Z in
      let tail := (max_chars - m - head)%Z in
      str_take (Z.to_nat head) text +:+ marker +:+ str_last (Z.to_nat tail) text.

Definition _DEFAULT_OUTPUT_BUDGET_CHARS : Z := 10000.

Definition truncation_note (shown total : nat) : string :=
  newline +:+ "[System: output exceeded this tool's visible budget and was middle-truncated ("
  +:+ str_of_Z (Z.of_nat shown) +:+ " of " +:+ str_of_Z (Z.of_nat total)
  +:+ " chars shown). Treat this as INCOMPLETE evidence: absence from the visible portion is not absence from the data. Before relying on this listing, re-read with narrower filters (search/status/person), compact format, a smaller limit, or pagination.]".

Section results.
Context `{ToolCatalog} {W : Type}.

Definition output_budget_chars_for_tool (name : string) : Z :=
  match get_tool_registration name with
  | None => _DEFAULT_OUTPUT_BUDGET_CHARS
  | Some reg => int_or (Some (output_budget_chars reg)) _DEFAULT_OUTPUT_BUDGET_CHARS
  end.

Definition truncate_tool_result_text (tool_name result_text : string) : string :=
  let budget := output_budget_chars_for_tool tool_name in
  let total := String.length result_text in
  if Z.leb budget 0 || Z.leb (Z.of_nat total) budget then result_text
  else
    let reserved_note := truncation_note (Z.to_nat budget) total in
    let body_budget := (budget - Z.of_nat (String.length reserved_note))%Z in
    if Z.ltb body_budget 200 then _truncate_middle_text result_text budget
    else
      let body := _truncate_middle_text result_text body_budget in
      body +:+ truncation_note (String.length body) total.

Definition encode_failed_note : string :=
  newline +:+ newline +:+ "[System: brain_encode failed. Do not retry brain_encode in this run. Move on and end your turn unless another required tool remains.]".

(** What is appended to the text of a result. *)
Definition result_suffix (request : PendingToolCall W) (r : json) (o : ToolOutcome) : string :=
  if String.eqb (p_tool_name request) "brain_encode" && bool_decide (outcome_failure o <> None)
  then encode_failed_note
  else
    let d := as_dict r in
    if truthy (jget_or_null "blocked" d) || truthy (jget_or_null "error" d) then
      if truthy (jget_or_null "instruction" d)
      then newline +:+ newline +:+ "[System: " +:+ py_str (jget_or_null "instruction" d) +:+ "]"
      else ""
    else str_or (p_result_nudge request) "".

Definition _resolved_tool_result (request : PendingToolCall W) (v : json) (typed : option ToolOutcome)
    : ResolvedToolCall :=
  let outcome := classify_tool_result v typed in
  let '(r, model_content) := _extract_model_visible_tool_content v in
  let result_text := dumps ", " ": " r +:+ result_suffix request r outcome in
  {| rc_block_id := p_block_id request; rc_tool_name := p_tool_name request;
     rc_tool_input := p_tool_input request;
     rc_result_text := truncate_tool_result_text (p_tool_name request) result_text;
     rc_outcome := outcome; rc_result_content := model_content; rc_result_value := Some r |}.

Definition _failed_tool_result (request : PendingToolCall W) (error_class text : string) : ResolvedToolCall :=
  {| rc_block_id := p_block_id request; rc_tool_name := p_tool_name request;
     rc_tool_input := p_tool_input request;
     rc_result_text := "Error [" +:+ error_class +:+ "]: " +:+ text;
     rc_outcome := failed text error_class; rc_result_content := None;
     rc_result_value := Some (JObj [("error", JStr text)]) |}.

Definition result_of (request : PendingToolCall W) (r : handler_result) : ResolvedToolCall :=
  match r with
  | Returned v => _resolved_tool_result request v None
  | Returned_typed v o => _resolved_tool_result request v (Some o)
  | Raised c t => _failed_tool_result request c t
  end.

(** [_resolve_tool_call_sync] and [_async_resolve_tool_call_once]. *)
Definition resolve_tool_call (request : PendingToolCall W) (w : W) : W * ResolvedToolCall :=
  let '(w', r) := run_handler (p_handler request) (p_tool_input request) w in
  (w', result_of request r).

(** ** The watchdog *)

Definition _must_finish_before_reporting (request : PendingToolCall W) : bool :=
  match get_tool_registration (p_tool_name request) with
  | None => audited (p_handler request)
  | Some reg => has_action_policy (p_tool_name request) (p_tool_input request)
                && is_write_side_effect_class (side_effect_class reg)
  end.

(** The timeout of a call, as the text of the message and the number of the record. *)
Record timeout : Type := { timeout_text : string; timeout_seconds : json }.

Definition _timeout_result (request : PendingToolCall W) (t : timeout) : ResolvedToolCall :=
  let text := "Tool " +:+ repr (JStr (p_tool_name request)) +:+ " timed out after " +:+ timeout_text t
    +:+ ". The runtime stopped waiting for this tool call. Treat it as failed, try a narrower or faster tool call if needed, or explain the blocker to the user." in
  {| rc_block_id := p_block_id request; rc_tool_name := p_tool_name request;
     rc_tool_input := p_tool_input request; rc_result_text := text;
     rc_outcome := failed text "ToolTimeoutError"; rc_result_content := None;
     rc_result_value := Some (JObj [("error", JStr "tool_timeout"); ("timeout_seconds", timeout_seconds t)]) |}.

(** What the event loop saw of a call: whether it finished within its timeout, the
    snapshot of its probe then, whether it settled on being cancelled, and the
    world it had left when nobody waited for it any longer. *)
Record observation : Type := {
  in_time : bool;
  blocking_active : bool;
  blocking_started : bool;
  side_effect_started : bool;
  settled_on_cancel : bool;
  world_left : W;
}.

Definition action_started (o : observation) : bool :=
  side_effect_started o && (negb (blocking_active o) || blocking_started o).

Definition async_resolve_tool_call (limit : option timeout) (o : observation)
    (request : PendingToolCall W) (w : W) : W * ResolvedToolCall :=
  match limit with
  | None => resolve_tool_call request w
  | Some t =>
      if in_time o then resolve_tool_call request w
      else if _must_finish_before_reporting request && action_started o then resolve_tool_call request w
      else if blocking_active o && blocking_started o then (world_left o, _timeout_result request t)
      else if settled_on_cancel o then resolve_tool_call request w
      else (world_left o, _timeout_result request t)
  end.
End results.
Arguments observation : clear implicits.

(** * Batches *)

(** A result of a request. *)
Definition answers {W} (request : PendingToolCall W) (r : ResolvedToolCall) : Prop :=
  rc_block_id r = p_block_id request /\ rc_tool_name r = p_tool_name request /\
  rc_tool_input r = p_tool_input request.

Class BatchExecutor (W : Type) : Type := {
  execute_batch : list (PendingToolCall W) -> W -> W * list ResolvedToolCall;
  execute_one : PendingToolCall W -> W -> W * ResolvedToolCall;
  batch_answers : forall requests w, Forall2 answers requests (execute_batch requests w).2;
  one_answers : forall request w, answers request (execute_one request w).2;
}.

Section executors.
Context `{ToolCatalog} {W : Type}.

Lemma resolved_answers (request : PendingToolCall W) r : answers request (result_of request r).
Proof.
  destruct r as [v|v o|c t]; try done; simpl; unfold _resolved_tool_result;
    by destruct (_extract_model_visible_tool_content v).
Qed.

Lemma resolve_answers (request : PendingToolCall W) w : answers request (resolve_tool_call request w).2.
Proof.
  unfold resolve_tool_call. destruct (run_handler _ _ w) as [w' r]. apply resolved_answers.
Qed.

(** [execute_parallel_tool_batch]: one call after the other. *)
Fixpoint execute_parallel_tool_batch (pending : list (PendingToolCall W)) (w : W)
    : W * list ResolvedToolCall :=
  match pending with
  | [] => (w, [])
  | request :: rest =>
      let '(w1, r) := resolve_tool_call request w in
      let '(w2, rs) := execute_parallel_tool_batch rest w1 in
      (w2, r :: rs)
  end.

Lemma sequential_answers pending : forall w, Forall2 answers pending (execute_parallel_tool_batch pending w).2.
Proof.
  induction pending as [|request rest IH]; intros w; [constructor|]. cbn [execute_parallel_tool_batch].
  pose proof (resolve_answers request w) as Hr. destruct (resolve_tool_call request w) as [w1 r].
  specialize (IH w1). destruct (execute_parallel_tool_batch rest w1) as [w2 rs]. by constructor.
Qed.

#[export] Instance sequential_executor : BatchExecutor W :=
  {| execute_batch := execute_parallel_tool_batch; execute_one := resolve_tool_call;
     batch_answers := sequential_answers; one_answers := resolve_answers |}.

(** ** Tasks of the event loop *)

(** The clock and the probes: the timeout of a call and what the event loop sees of
    it; and how a chunk of tasks, started together, leaves the world. *)
Context (limit_of : PendingToolCall W -> option timeout)
  (observe : PendingToolCall W -> W -> observation W)
  (interleave : list (PendingToolCall W) -> W -> W * list W).

Definition await_call (request : PendingToolCall W) (w : W) : W * ResolvedToolCall :=
  async_resolve_tool_call (limit_of request) (observe request w) request w.

(** A chunk of tasks: each runs from the world the event loop gives it, and the
    results are collected in the order of the requests. *)
Definition run_chunk (chunk : list (PendingToolCall W)) (w : W) : W * list ResolvedToolCall :=
  let '(w', starts) := interleave chunk w in
  (w', imap (fun i request => (await_call request (default w (starts !! i))).2) chunk).

(** [for start in range(0, len(pending), parallelism)]. *)
Fixpoint run_chunks (fuel parallelism : nat) (pending : list (PendingToolCall W)) (w : W)
    : W * list ResolvedToolCall :=
  match fuel, pending with
  | O, _ | _, [] => (w, [])
  | Datatypes.S fuel', _ =>
      let '(w1, rs) := run_chunk (take parallelism pending) w in
      let '(w2, rs') := run_chunks fuel' parallelism (drop parallelism pending) w1 in
      (w2, rs ++ rs')
  end.

Fixpoint await_each (pending : list (PendingToolCall W)) (w : W) : W * list ResolvedToolCall :=
  match pending with
  | [] => (w, [])
  | request :: rest =>
      let '(w1, r) := await_call request w in
      let '(w2, rs) := await_each rest w1 in
      (w2, r :: rs)
  end.

Definition async_execute_parallel_tool_batch (max_parallel_tool_calls : nat)
    (pending : list (PendingToolCall W)) (w : W) : W * list ResolvedToolCall :=
  if Nat.leb max_parallel_tool_calls 1 then await_each pending w
  else run_chunks (length pending) (Nat.max 1 (Nat.min max_parallel_tool_calls (length pending))) pending w.

Lemma await_answers request w : answers request (await_call request w).2.
Proof.
  unfold await_call, async_resolve_tool_call.
  destruct (limit_of request) as [t|]; [|apply resolve_answers].
  repeat case_match; try apply resolve_answers; done.
Qed.

Lemma each_answers pending : forall w, Forall2 answers pending (await_each pending w).2.
Proof.
  induction pending as [|request rest IH]; intros w; [constructor|]. cbn [await_each].
  pose proof (await_answers request w) as Hr. destruct (await_call request w) as [w1 r].
  specialize (IH w1). destruct (await_each rest w1) as [w2 rs]. by constructor.
Qed.

Lemma chunk_answers chunk w : Forall2 answers chunk (run_chunk chunk w).2.
Proof.
  unfold run_chunk. destruct (interleave chunk w) as [w' starts]. cbn [snd].
  apply Forall2_same_length_lookup. split; [by rewrite length_imap|].
  intros i request r Hi. rewrite list_lookup_imap, Hi. intros [= <-]. apply await_answers.
Qed.

Lemma chunks_answers parallelism fuel : forall pending w,
  0 < parallelism -> length pending <= fuel -> Forall2 answers pending (run_chunks fuel parallelism pending w).2.
Proof.
  induction fuel as [|fuel IH]; intros pending w Hp Hf;
    [destruct pending; [constructor|simpl in Hf; lia]|].
  destruct pending as [|request rest]; [constructor|]. cbn [run_chunks].
  pose proof (chunk_answers (take parallelism (request :: rest)) w) as Hc.
  destruct (run_chunk _ w) as [w1 rs].
  specialize (IH (drop parallelism (request :: rest)) w1 Hp).
  destruct (run_chunks fuel _ _ w1) as [w2 rs']. cbn [snd] in *.
  rewrite <- (take_drop parallelism (request :: rest)) at 1. apply Forall2_app; [done|].
  apply IH. rewrite length_drop. simpl in *. lia.
Qed.

Lemma async_batch_answers n pending w :
  Forall2 answers pending (async_execute_parallel_tool_batch n pending w).2.
Proof.
  unfold async_execute_parallel_tool_batch. destruct (Nat.leb n 1); [apply each_answers|].
  apply chunks_answers; lia.
Qed.

(** [async_execute_parallel_tool_batch] for a number of parallel calls. *)
Definition asyncio_executor (max_parallel_tool_calls : nat) : BatchExecutor W :=
  {| execute_batch := async_execute_parallel_tool_batch max_parallel_tool_calls;
     execute_one := await_call;
     batch_answers := async_batch_answers max_parallel_tool_calls;
     one_answers := await_answers |}.
End executors.

(** * Gates, [gates.py] *)

Record GateState : Type := {
  brain : bool;
  skills : bool;
  continuation_corrections : Z;
}.

Definition open_brain (g : GateState) : GateState :=
  {| brain := true; skills := skills g; continuation_corrections := continuation_corrections g |}.
Definition open_skills (g : GateState) : GateState :=
  {| brain := brain g; skills := true; continuation_corrections := continuation_corrections g |}.

(** [str] of the dataclasses of tool_outcomes.py, which is how [json.dumps] writes
    a [ToolHandlerResult]. *)
Definition outcome_repr (o : ToolOutcome) : string :=
  "ToolOutcome(failure=" +:+ match outcome_failure o with
    | None => "None"
    | Some f => "ToolFailure(message=" +:+ repr (JStr (failure_message f)) +:+ ", category="
                +:+ repr (JStr (failure_category f)) +:+ ")"
    end +:+ ")".
Definition typed_repr (v : json) (o : ToolOutcome) : string :=
  "ToolHandlerResult(value=" +:+ repr v +:+ ", outcome=" +:+ outcome_repr o +:+ ")".

Section gates.
Context {W : Type}.

(** [handler()]: the value the call answers, which for a coroutine function is a
    coroutine nobody awaits here; [None] stands for an exception. *)
Definition call_handler (h : handler W) (w : W) : W * option json :=
  match coroutine h with
  | Some (binds, text) => (w, if binds [] then Some (JStr text) else None)
  | None =>
      let '(w', r) := run_handler h [] w in
      (w', match r with
           | Returned v => Some v
           | Returned_typed v o => Some (JStr (typed_repr v o))
           | Raised _ _ => None
           end)
  end.

Definition fetched_text (tool_name : string) (guardrails : json) : string :=
  "[Brain gate] " +:+ tool_name +:+ " blocked — auto-fetched guardrails:" +:+ newline
  +:+ dumps ", " ": " guardrails +:+ newline +:+ newline +:+ "Review these, then retry.".

Definition consult_text (tool_name : string) : string :=
  "[Brain gate] " +:+ tool_name +:+ " blocked — consult brain first.".

Definition check_gate_violations (tool_name block_id : string) (gates : GateState)
    (tool_handlers : gmap string (handler W)) (gated_tool_names : list string) (w : W)
    : W * GateState * option dict :=
  if bool_decide (tool_name ∈ gated_tool_names) && negb (brain gates) then
    match tool_handlers !! "brain_guardrails" with
    | Some h =>
        match call_handler h w with
        | (w', Some guardrails) =>
            (w', open_brain gates, Some (error_tool_result block_id (fetched_text tool_name guardrails)))
        | (w', None) => (w', gates, Some (error_tool_result block_id (consult_text tool_name)))
        end
    | None => (w, gates, Some (error_tool_result block_id (consult_text tool_name)))
    end
  else (w, gates, None).
End gates.

(** * The walk over a response *)

(** The blocks of a response; [model_dump] is what the message keeps of one. *)
Inductive content_block : Type :=
| ToolUse (block_id name : string) (input : dict)
| OtherBlock (d : dict).

Definition model_dump (b : content_block) : json :=
  match b with
  | ToolUse i n d => JObj [("type", JStr "tool_use"); ("id", JStr i); ("name", JStr n); ("input", JObj d)]
  | OtherBlock d => JObj d
  end.

(** [ToolResultEvidence] of final_reply_evidence.py. *)
Record ToolResultEvidence : Type := {
  te_tool_name : string;
  te_arguments : dict;
  te_is_error : bool;
  te_result : json;
}.

Definition opens_json (s : string) : bool :=
  match s with
  | String a _ => existsb (Ascii.eqb a) ["["; "{"; double_quote]%char
  | "" => false
  end.

Definition _structured_value (v : json) : json :=
  match v with
  | JStr s => if opens_json (strip s) then default v (loads (strip s)) else v
  | _ => v
  end.

(** What the run's context remembers of its tools, and what went out: the calls of
    [on_tool_call] and of [async_record_tool_call]. *)
Record AgentContext : Type := {
  tool_calls_log : list string;
  recent_tool_results : list ToolResultEvidence;
}.

Record traced_call : Type := {
  tc_name : string;
  tc_input : dict;
  tc_text : string;
  tc_side_effect : option ToolSideEffectClass;
}.

Definition _RECENT_TOOL_RESULT_LIMIT : nat := 8.

Definition secret_tool : string := "brain_vault".
Definition callback_text (r : ResolvedToolCall) : string :=
  if String.eqb (rc_tool_name r) secret_tool then "[secret redacted]" else rc_result_text r.

(** [ToolResultEvidence.capture], as [_record_agent_tool_result] calls it. *)
Definition captured (r : ResolvedToolCall) (result_text : string) : ToolResultEvidence :=
  let secret := String.eqb (rc_tool_name r) secret_tool in
  {| te_tool_name := strip (rc_tool_name r);
     te_arguments := if secret then [("redacted", JBool true)] else rc_tool_input r;
     te_is_error := bool_decide (outcome_failure (rc_outcome r) <> None);
     te_result := _structured_value
       (if secret then JStr result_text
        else match rc_result_value r with
             | Some v => if is_null v then JStr result_text else v
             | None => JStr result_text
             end) |}.

Definition _record_agent_tool_result (c : AgentContext) (r : ResolvedToolCall) (result_text : string)
    : AgentContext :=
  {| tool_calls_log := tool_calls_log c ++ [rc_tool_name r];
     recent_tool_results :=
       last_n _RECENT_TOOL_RESULT_LIMIT (recent_tool_results c ++ [captured r result_text]) |}.

(** The [tool_result] block of a call that ran. *)
Definition result_block (r : ResolvedToolCall) : dict :=
  [("type", JStr "tool_result"); ("tool_use_id", JStr (rc_block_id r));
   ("content", default (JStr (rc_result_text r)) (rc_result_content r))] ++
  (if decide (outcome_failure (rc_outcome r) = None) then [] else [("is_error", JBool true)]).

Definition encode_twice_text : string :=
  "brain_encode already ran in this agent turn history. Do not call it again; end your turn unless you have a different required tool.".

Definition str_count (s : string) (l : list string) : nat := length (filter (eq s) l).

(** The arguments of [execute_tool_calls] that do not change; [traced] says that
    the run and the idea are known, so that calls are recorded. *)
Record tool_surface (W : Type) : Type := {
  tool_handlers : gmap string (handler W);
  brain_tool_names : list string;
  gated_tool_names : list string;
  parallel_safe_tool_names : list string;
  traced : bool;
}.
Arguments tool_handlers {W} _.
Arguments brain_tool_names {W} _.
Arguments gated_tool_names {W} _.
Arguments parallel_safe_tool_names {W} _.
Arguments traced {W} _.

(** The local variables of [execute_tool_calls] and the objects it changes. *)
Record walk (W : Type) : Type := {
  tool_results : list dict;
  tool_disablements : list ToolDisablement;
  pending_parallel : list (PendingToolCall W);
  stopped : option LoopTermination;
  loop_control : RunControlPolicy;
  gates : GateState;
  tool_calls_made : list string;
  agent_context : AgentContext;
  callbacks : list (string * dict * string);
  trace : list traced_call;
  world : W;
}.
Arguments tool_results {W} _.
Arguments tool_disablements {W} _.
Arguments pending_parallel {W} _.
Arguments stopped {W} _.
Arguments loop_control {W} _.
Arguments gates {W} _.
Arguments tool_calls_made {W} _.
Arguments agent_context {W} _.
Arguments callbacks {W} _.
Arguments trace {W} _.
Arguments world {W} _.

Section walk.
Context `{Platform} `{ToolCatalog} {W : Type} `{BatchExecutor W} (surface : tool_surface W).

Implicit Types s : walk W.

(** [tool_results.append(d)]. *)
Definition add_result (d : dict) s : walk W :=
  Build_walk W (tool_results s ++ [d]) (tool_disablements s) (pending_parallel s) (stopped s)
    (loop_control s) (gates s) (tool_calls_made s) (agent_context s) (callbacks s) (trace s) (world s).

Definition set_pending_calls (l : list (PendingToolCall W)) s : walk W :=
  Build_walk W (tool_results s) (tool_disablements s) l (stopped s)
    (loop_control s) (gates s) (tool_calls_made s) (agent_context s) (callbacks s) (trace s) (world s).

Definition set_control (c : RunControlPolicy) (t : option LoopTermination)
    (disablement : option ToolDisablement) s : walk W :=
  Build_walk W (tool_results s)
    (tool_disablements s ++ match disablement with Some d => [d] | None => [] end)
    (pending_parallel s) t c (gates s) (tool_calls_made s) (agent_context s) (callbacks s) (trace s) (world s).

Definition set_gates (g : GateState) s : walk W :=
  Build_walk W (tool_results s) (tool_disablements s) (pending_parallel s) (stopped s)
    (loop_control s) g (tool_calls_made s) (agent_context s) (callbacks s) (trace s) (world s).

Definition set_world (w : W) s : walk W :=
  Build_walk W (tool_results s) (tool_disablements s) (pending_parallel s) (stopped s)
    (loop_control s) (gates s) (tool_calls_made s) (agent_context s) (callbacks s) (trace s) w.

Definition note_call (tool_name : string) s : walk W :=
  Build_walk W (tool_results s) (tool_disablements s) (pending_parallel s) (stopped s) (loop_control s)
    (gates s) (tool_calls_made s ++ [tool_name]) (agent_context s) (callbacks s) (trace s) (world s).

(** [emit_resolved_tool_call], and the record of the asynchronous variant. *)
Definition emit_resolved_tool_call (r : ResolvedToolCall) s : walk W :=
  let text := callback_text r in
  Build_walk W (tool_results s ++ [result_block r]) (tool_disablements s) (pending_parallel s) (stopped s)
    (loop_control s) (gates s) (tool_calls_made s)
    (_record_agent_tool_result (agent_context s) r text)
    (callbacks s ++ [(rc_tool_name r, rc_tool_input r, text)])
    (trace s ++ (if traced surface
                 then [{| tc_name := rc_tool_name r; tc_input := rc_tool_input r; tc_text := text;
                          tc_side_effect := side_effect_class <$> get_tool_registration (rc_tool_name r) |}]
                 else []))
    (world s).

(** [consume_resolved]: control sees the result unless the turn was terminated. *)
Definition consume_resolved s (r : ResolvedToolCall) : walk W :=
  let s1 :=
    match stopped s with
    | None =>
        let '(c, decision) := control_observe (loop_control s) r in
        set_control c (cd_termination decision) (cd_disablement decision) s
    | Some _ => s
    end in
  emit_resolved_tool_call r s1.

(** [skip_disabled_tool], with the disablement found. *)
Definition disabled_tool (tool_name : string) s : option ToolDisablement :=
  disabled_tools (tool_failures (loop_control s)) !! tool_name.

Definition flush_parallel_batch s : walk W :=
  match pending_parallel s with
  | [] => s
  | pending =>
      let '(w, resolved_calls) := execute_batch pending (world s) in
      fold_left consume_resolved resolved_calls (set_world w (set_pending_calls [] s))
  end.

Definition run_serially (request : PendingToolCall W) s : walk W :=
  let '(w, r) := execute_one request (world s) in
  consume_resolved (set_world w s) r.

(** The part of an iteration after a flush: the flush may have ended the turn or
    disabled the tool. *)
Definition unless_stopped (block_id tool_name : string) s (k : walk W -> walk W) : walk W :=
  match stopped s with
  | Some t => add_result (termination_skipped_result t block_id) s
  | None =>
      match disabled_tool tool_name s with
      | Some d => add_result (disablement_skipped_result d block_id) s
      | None => k s
      end
  end.

Definition same_tool_pending (tool_name : string) s : Z :=
  Z.of_nat (length (filter (fun r => p_tool_name r = tool_name) (pending_parallel s))).

(** A call that is allowed to run: together with others, or on its own. *)
Definition schedule (request : PendingToolCall W) s : walk W :=
  let tool_name := p_tool_name request in
  let block_id := p_block_id request in
  let postpone s := set_pending_calls (pending_parallel s ++ [request]) s in
  if bool_decide (tool_name ∈ parallel_safe_tool_names surface) then
    if Z.leb (parallel_same_tool_limit (tool_failures (loop_control s)) tool_name)
         (same_tool_pending tool_name s)
    then unless_stopped block_id tool_name (flush_parallel_batch s) postpone
    else postpone s
  else unless_stopped block_id tool_name (flush_parallel_batch s) (run_serially request).

(** The gates of a call, then its handler. *)
Definition gate_and_run (block_id tool_name : string) (tool_input : dict) s : walk W :=
  let g := gates s in
  let g := if bool_decide (tool_name ∈ brain_tool_names surface) then open_brain g else g in
  let g := if String.eqb tool_name "brain_skills" then open_skills g else g in
  let '(w, g, violation) :=
    check_gate_violations tool_name block_id g (tool_handlers surface) (gated_tool_names surface) (world s) in
  let s := set_world w (set_gates g s) in
  match violation with
  | Some d => add_result d (flush_parallel_batch s)
  | None =>
      match tool_handlers surface !! tool_name with
      | None => add_result (error_tool_result block_id ("Unknown tool: " +:+ tool_name)) (flush_parallel_batch s)
      | Some h =>
          schedule {| p_block_id := block_id; p_tool_name := tool_name; p_tool_input := tool_input;
                      p_handler := h; p_result_nudge := None |} s
      end
  end.

(** One iteration over the blocks of the response. *)
Definition handle_block s (b : content_block) : walk W :=
  match b with
  | OtherBlock _ => s
  | ToolUse block_id tool_name tool_input =>
      let s := note_call tool_name s in
      unless_stopped block_id tool_name s (fun s =>
        if String.eqb tool_name "brain_encode" && Nat.ltb 1 (str_count "brain_encode" (tool_calls_made s))
        then add_result (error_tool_result block_id encode_twice_text) (flush_parallel_batch s)
        else gate_and_run block_id tool_name tool_input s)
  end.

Definition start_walk (control : RunControlPolicy) (g : GateState) (made : list string) (c : AgentContext)
    (w : W) : walk W :=
  Build_walk W [] [] [] (termination control) control g made c [] [] w.

Definition execute_tool_calls (content : list content_block) (control : RunControlPolicy) (g : GateState)
    (made : list string) (c : AgentContext) (w : W) : walk W :=
  flush_parallel_batch (fold_left handle_block content (start_walk control g made c w)).
End walk.
