(* ===== verification/ToolTheorems.v ===== *)
(** What the walk over a response's tool calls guarantees: every call is answered
    exactly once, so that the transcript stays in the order a provider accepts,
    and only calls run that are allowed to. *)
From S2P Require Import Prelude.
From S2P Require Import PyStr.
From S2P Require Import Json.
From S2P Require Import JsonText.
From S2P Require Import Status.
From S2P Require Import Failures.
From S2P Require Import RunStore.
From S2P Require Import RunCreate.
From S2P Require Import RunDemo.
From S2P Require Import Sessions.
From S2P Require Import SessionTheorems.
From S2P Require Import SessionStore.
From S2P Require Import LoopControl.
From S2P Require Import LoopTheorems.
From S2P Require Import ToolExecution.
Open Scope string_scope.
Open Scope bool_scope.
Open Scope list_scope.

(** * Every call is answered *)

Section answered.
Context `{Platform} `{ToolCatalog} {W : Type} `{BatchExecutor W} (surface : tool_surface W).

Definition result_id (d : dict) : json := _tool_result_id (JObj d).

(** The calls a walk has taken up: answered, or waiting in the batch. *)
Definition taken (s : walk W) : list json :=
  (result_id <$> tool_results s) ++ ((fun r => JStr (p_block_id r)) <$> pending_parallel s).

Definition well_formed (s : walk W) : Prop :=
  Forall (fun d => has_type "tool_result" (JObj d) = true) (tool_results s).

(** One more answer, given to the call [i]. *)
Lemma taken_add i text (s : walk W) :
  let s' := add_result (error_tool_result i text) s in
  taken s' ≡ₚ taken s ++ [JStr i] /\ (well_formed s -> well_formed s').
Proof.
  split.
  - unfold taken, add_result. cbn. rewrite fmap_app. cbn.
    rewrite <- !app_assoc. apply Permutation_app_head, Permutation_app_comm.
  - intros Hs. apply Forall_app. by split; [|repeat constructor].
Qed.

Lemma consume_fields r s :
  taken (consume_resolved surface s r) ≡ₚ taken s ++ [JStr (rc_block_id r)] /\
  pending_parallel (consume_resolved surface s r) = pending_parallel s /\
  (well_formed s -> well_formed (consume_resolved surface s r)).
Proof.
  unfold consume_resolved. set (s1 := match stopped s with None => _ | Some _ => _ end).
  assert (E : tool_results s1 = tool_results s /\ pending_parallel s1 = pending_parallel s).
  { unfold s1. destruct (stopped s); [done|]. by destruct (control_observe _ r). }
  destruct E as [E1 E2]. unfold taken, well_formed, emit_resolved_tool_call. cbn. rewrite E1, E2.
  split_and!; [|done|].
  - rewrite fmap_app. cbn. rewrite <- !app_assoc. apply Permutation_app_head, Permutation_app_comm.
  - intros Hs. apply Forall_app. by split; [|repeat constructor].
Qed.

Lemma consume_all rs : forall s,
  taken (fold_left (consume_resolved surface) rs s) ≡ₚ taken s ++ (JStr ∘ rc_block_id <$> rs) /\
  pending_parallel (fold_left (consume_resolved surface) rs s) = pending_parallel s /\
  (well_formed s -> well_formed (fold_left (consume_resolved surface) rs s)).
Proof.
  induction rs as [|r rs IH]; intros s; cbn [fold_left]; [by rewrite app_nil_r|].
  destruct (consume_fields r s) as (H2 & H3 & H4). destruct (IH (consume_resolved surface s r)) as (H5 & H6 & H7).
  split_and!; [|congruence|auto]. rewrite H5, H2, <- app_assoc. done.
Qed.

Lemma answers_ids (requests : list (PendingToolCall W)) rs : Forall2 answers requests rs ->
  (JStr ∘ rc_block_id <$> rs) = ((fun r => JStr (p_block_id r)) <$> requests).
Proof. induction 1 as [|q r qs rs (E & _) _ IH]; [done|]. cbn. by rewrite E, IH. Qed.

Lemma flush_taken s :
  taken (flush_parallel_batch surface s) ≡ₚ taken s /\ pending_parallel (flush_parallel_batch surface s) = [] /\
  (well_formed s -> well_formed (flush_parallel_batch surface s)).
Proof.
  unfold flush_parallel_batch. destruct (pending_parallel s) as [|q qs] eqn:Hp; [done|].
  pose proof (batch_answers (q :: qs) (world s)) as Ha.
  destruct (execute_batch (q :: qs) (world s)) as [w rs]. cbn [snd] in Ha.
  destruct (consume_all rs (set_world w (set_pending_calls [] s))) as (E1 & E2 & E3).
  split_and!; [|done|intros Hs; by apply E3]. rewrite E1, (answers_ids _ _ Ha), <- Hp.
  unfold taken. cbn. by rewrite app_nil_r.
Qed.

(** A continuation that answers or takes up the call [i]. *)
Definition takes (i : string) (s s' : walk W) : Prop :=
  taken s' ≡ₚ taken s ++ [JStr i] /\ (well_formed s -> well_formed s').

Lemma takes_flush i s s' : takes i (flush_parallel_batch surface s) s' -> takes i s s'.
Proof.
  intros [H2 H3]. destruct (flush_taken s) as (F1 & _ & F2). split; [by rewrite H2, F1|auto].
Qed.

Lemma unless_takes i name s k : takes i s (k s) -> takes i s (unless_stopped i name s k).
Proof.
  intros Hk. unfold unless_stopped. destruct (stopped s); [apply taken_add|].
  destruct (disabled_tool name s); [apply taken_add|done].
Qed.

Lemma postpone_takes request s :
  takes (p_block_id request) s (set_pending_calls (pending_parallel s ++ [request]) s).
Proof. split; [|done]. unfold taken. cbn. by rewrite fmap_app, app_assoc. Qed.

Lemma serial_takes request s : takes (p_block_id request) s (run_serially surface request s).
Proof.
  unfold run_serially. pose proof (one_answers request (world s)) as (E & _ & _).
  destruct (execute_one request (world s)) as [w r]. cbn [snd] in E.
  destruct (consume_fields r (set_world w s)) as (E1 & _ & E2). rewrite E in E1. by split.
Qed.

Lemma schedule_takes request s : takes (p_block_id request) s (schedule surface request s).
Proof.
  unfold schedule. case_bool_decide.
  - destruct (Z.leb _ _); [|apply postpone_takes].
    apply takes_flush, unless_takes, postpone_takes.
  - apply takes_flush, unless_takes, serial_takes.
Qed.

Lemma check_gate_block name i g handlers gated (w : W) w' g' d :
  check_gate_violations name i g handlers gated w = (w', g', Some d) -> exists text, d = error_tool_result i text.
Proof.
  unfold check_gate_violations. destruct (_ && _); [|done].
  destruct (handlers !! _) as [h|]; [destruct (call_handler h w) as [w1 [v|]]|]; intros [= <- <- <-]; eauto.
Qed.

Lemma block_takes s i name input : takes i s (handle_block surface s (ToolUse i name input)).
Proof.
  cbn [handle_block].
  assert (Hn : forall s', takes i (note_call name s) s' -> takes i s s') by done.
  apply Hn, unless_takes. destruct (_ && _); [apply takes_flush, taken_add|].
  unfold gate_and_run. destruct (check_gate_violations _ _ _ _ _ _) as [[w g] v] eqn:Hg.
  match goal with |- context [set_world w (set_gates g ?s0)] => set (s1 := set_world w (set_gates g s0)) end.
  assert (Hs : forall s', takes i s1 s' -> takes i (note_call name s) s') by done. apply Hs.
  destruct v as [d|].
  - apply check_gate_block in Hg as [text ->]. apply takes_flush, taken_add.
  - destruct (tool_handlers surface !! name) as [hd|]; [|apply takes_flush, taken_add].
    by apply (schedule_takes {| p_block_id := i |}).
Qed.

Definition call_ids (content : list content_block) : list json :=
  omap (fun b => match b with ToolUse i _ _ => Some (JStr i) | OtherBlock _ => None end) content.

Lemma walk_takes content : forall s,
  let s' := flush_parallel_batch surface (fold_left (handle_block surface) content s) in
  taken s' ≡ₚ taken s ++ call_ids content /\ pending_parallel s' = [] /\ (well_formed s -> well_formed s').
Proof.
  induction content as [|b content IH]; intros s; cbn [fold_left].
  - destruct (flush_taken s) as (H2 & H3 & H4). cbn. by rewrite app_nil_r.
  - destruct (IH (handle_block surface s b)) as (H2 & H3 & H4). destruct b as [i name input|d]; [|done].
    destruct (block_takes s i name input) as [E1 E2]. split_and!; [|done|auto].
    cbn zeta in H2. rewrite H2, E1, <- app_assoc. done.
Qed.
End answered.

(** ** The transcript stays in order *)

(** A block that is not a call. *)
Definition other_block (b : content_block) : Prop :=
  match b with
  | ToolUse i _ _ => i <> ""
  | OtherBlock d => Forall (fun kv => kv.1 = "type" -> kv.2 <> JStr "tool_use") d
  end.

Lemma dumped_other d d' : Forall (fun kv => kv.1 = "type" -> kv.2 <> JStr "tool_use") d ->
  content_to_dict (JObj d) = Ok d' -> is_use (JObj d') = false.
Proof.
  intros Hd. unfold content_to_dict. set (d1 := filter _ d). set (bt := type_or_text d1).
  set (d2 := if py_eqb bt (JStr "text") then _ else d1).
  set (d3 := if py_eqb bt (JStr "thinking") then _ else d2). intros E.
  assert (E3 : jget "type" d3 = jget "type" d1).
  { unfold d3, d2. repeat case_match; rewrite ?jget_flatten by done; done. }
  assert (Ht : jget "type" d' = jget "type" d1).
  { assert (Hbt : bt = type_or_text d3) by (unfold bt, type_or_text; by rewrite E3).
    rewrite Hbt in E. apply restrict_type in E. congruence. }
  apply not_true_iff_false. unfold is_use, has_type, _block_type, block_field, jget_or_null. rewrite Ht.
  intros [Hu _]%andb_prop. destruct (jget "type" d1) as [v|] eqn:Ev; [|done].
  apply jget_elem, list_elem_of_filter in Ev as [_ Hin]. rewrite Forall_forall in Hd.
  destruct v; try done. apply String.eqb_eq in Hu as ->. by apply (Hd _ Hin).
Qed.

(** The calls of the assistant message a response becomes. *)
Lemma dumped_calls content : forall l, Forall other_block content ->
  _content_to_dicts (model_dump <$> content) = Ok l ->
  _tool_use_id <$> filter (fun b => is_use b = true) l = call_ids content.
Proof.
  unfold _content_to_dicts. induction content as [|b content IH]; intros l Ho; [by intros [= <-]|].
  apply Forall_cons in Ho as [Hb Ho]. cbn [fmap list_fmap mapM].
  destruct (content_to_dict (model_dump b)) as [d|] eqn:Ed; [|done]. cbn [mbind result_bind].
  specialize (IH (match mapM content_to_dict (model_dump <$> content) with Ok ds => JObj <$> ds | Err _ => [] end) Ho).
  change (list_fmap content_block json model_dump content) with (model_dump <$> content) in *.
  destruct (mapM content_to_dict (model_dump <$> content)) as [ds|]; [|done]. cbn [mbind result_bind].
  intros [= <-]. specialize (IH eq_refl). rewrite filter_cons. destruct b as [i name input|d0].
  - assert (d = [("type", JStr "tool_use"); ("id", JStr i); ("name", JStr name); ("input", JObj input)]) as ->
      by (symmetry in Ed; by injection Ed).
    rewrite decide_True; [|by apply String.eqb_neq in Hb; cbn; rewrite Hb].
    change (call_ids (ToolUse i name input :: content)) with (JStr i :: call_ids content). by rewrite <- IH.
  - apply dumped_other in Ed; [|done]. rewrite decide_False; [exact IH|by rewrite Ed].
Qed.

Section paired.
Context `{Platform} `{ToolCatalog} {W : Type} `{BatchExecutor W}.

Definition assistant_message (l : list json) : Sessions.message := [("role", JStr "assistant"); ("content", JList l)].
Definition results_message (l : list dict) : Sessions.message := [("role", JStr "user"); ("content", JList (JObj <$> l))].

Lemma results_answers l : Forall (fun d => has_type "tool_result" (JObj d) = true) l ->
  Sessions.has_role "user" (results_message l) = true /\ SessionTheorems.answers (results_message l) = result_id <$> l.
Proof.
  intros Hl. split; [done|]. unfold SessionTheorems.answers.
  change (has_role "user" (results_message l)) with true. cbn iota.
  change (blocks_of (results_message l)) with (JObj <$> l). rewrite filter_all.
  - rewrite <- list_fmap_compose. done.
  - intros b (d & -> & Hd)%list_elem_of_fmap. rewrite Forall_forall in Hl. by apply Hl.
Qed.

(** C34. A response's calls are all answered.  Whatever handlers do, raise or
    return, and whichever calls are gated, refused, skipped, run together or cut
    off by a termination, each call of the response gets exactly one result and
    nothing else is in the results; so a transcript in the order a provider
    accepts stays so when the response and its results are appended. *)
Theorem response_answered (surface : tool_surface W) (content : list content_block) (l : list json)
    (control : RunControlPolicy) (g : GateState) (made : list string) (c : AgentContext) (w : W)
    (ms : list Sessions.message) :
  Forall other_block content -> _content_to_dicts (model_dump <$> content) = Ok l -> well_paired ms ->
  let results := tool_results (execute_tool_calls surface content control g made c w) in
  (result_id <$> results) ≡ₚ call_ids content /\
  well_paired (ms ++ [assistant_message l; results_message results]).
Proof.
  intros Ho Hl [Hp Hd] results.
  destruct (walk_takes surface content (start_walk control g made c w)) as (H2 & H3 & H4).
  change (flush_parallel_batch surface _) with (execute_tool_calls surface content control g made c w) in *.
  unfold taken in H2. rewrite H3 in H2. cbn in H2. rewrite app_nil_r in H2. fold results in H2.
  split; [exact H2|].
  destruct (results_answers results) as [Hr Ha]; [by apply H4; constructor|].
  assert (Hc : calls (assistant_message l) = call_ids content) by (by apply dumped_calls).
  assert (Hs : forall xs ys : list json, xs ≡ₚ ys -> Forall (fun x => exists s, x = JStr s) ys ->
            Forall (fun x => py_in x xs = true) ys).
  { intros xs ys Hxy Hj. apply Forall_forall. intros x Hx. rewrite Forall_forall in Hj.
    destruct (Hj x Hx) as [s ->]. apply py_in_exists. exists (JStr s).
    split; [by rewrite Hxy|apply String.eqb_refl]. }
  assert (Hids : Forall (fun x => exists s, x = JStr s) (call_ids content)).
  { apply Forall_forall. intros x (b & Hb & E)%list_elem_of_omap. destruct b; [|done]. injection E as <-. eauto. }
  unfold well_paired. rewrite paired_app, owed_app, Hd. cbn [paired owed_after]. rewrite Hc.
  split; [|by apply calls_user]. split_and!; [done|split; [constructor|]|split|done].
  - by rewrite assistant_answers.
  - rewrite Ha. by apply Hs.
  - rewrite Ha. apply Hs; [by symmetry|]. by rewrite H2.
Qed.
End paired.

(** * Only allowed calls run *)

Section allowed.
Context `{Platform} `{ToolCatalog} {W : Type} `{BatchExecutor W} (surface : tool_surface W).
Context (threshold window zero : Z) (h : list ResolvedToolCall) (control : RunControlPolicy).
Hypothesis named : tool_handlers surface !! "" = None.

Definition policy_of (rs : list ResolvedToolCall) : ToolFailurePolicy :=
  policy_after (make_policy threshold window zero) (h ++ rs).

(** A call of a tool that has a handler and whose gate, if it has one, is open. *)
Definition permitted (g : GateState) (name : string) : Prop :=
  is_Some (tool_handlers surface !! name) /\ (name ∈ gated_tool_names surface -> brain g = true).

Definition names_of (l : list (PendingToolCall W)) : list string := p_tool_name <$> l.
#[local] Arguments names_of : simpl never.
#[local] Arguments str_count : simpl never.

(** What holds of a walk that started with [made] calls and has run [rs]. *)
Record lawful (made : list string) (s : walk W) (rs : list ResolvedToolCall) : Prop := {
  law_callbacks : callbacks s = (fun r => (rc_tool_name r, rc_tool_input r, callback_text r)) <$> rs;
  law_policy : stopped s = None -> tool_failures (loop_control s) = policy_of rs;
  law_control : stopped s = None -> loop_control s = control_after control rs;
  law_noticed : stopped s = termination (control_after control rs);
  law_alone : forall a r b, rs = a ++ r :: b -> rc_tool_name r ∉ parallel_safe_tool_names surface ->
    termination (control_after control a) = None;
  law_together : Forall (fun n => n ∈ parallel_safe_tool_names surface) (names_of (pending_parallel s));
  law_stopped : stopped s <> None -> pending_parallel s = [];
  law_enabled : forall a r b, rs = a ++ r :: b -> disabled_tools (policy_of a) !! rc_tool_name r = None;
  law_pending : forall name, name ∈ names_of (pending_parallel s) ->
    disabled_tools (tool_failures (loop_control s)) !! name = None /\
    (Z.of_nat (str_count name (names_of (pending_parallel s))) <= parallel_same_tool_limit (tool_failures (loop_control s)) name)%Z;
  law_permitted : Forall (permitted (gates s)) ((rc_tool_name <$> rs) ++ names_of (pending_parallel s));
  law_made : str_count "brain_encode" made <= str_count "brain_encode" (tool_calls_made s);
  law_encode : str_count "brain_encode" ((rc_tool_name <$> rs) ++ names_of (pending_parallel s)) <=
    Nat.min 1 (str_count "brain_encode" (tool_calls_made s)) - Nat.min 1 (str_count "brain_encode" made);
}.

Lemma permitted_named g name : permitted g name -> name <> "".
Proof. intros [[x Hx] _] ->. congruence. Qed.

Lemma call_name_eq r : rc_tool_name r <> "" -> call_name r = rc_tool_name r.
Proof. intros Hn. apply String.eqb_neq in Hn. unfold call_name, str_or. by rewrite Hn. Qed.

(** The results of one tool in a list of results of named tools. *)
Lemma outcomes_named name rs : Forall (fun n => n <> "") (rc_tool_name <$> rs) ->
  length (outcomes name rs) = str_count name (rc_tool_name <$> rs).
Proof.
  unfold outcomes, calls_of, str_count. rewrite length_fmap. induction rs as [|r rs IH]; [done|].
  cbn [fmap list_fmap]. intros [Hr Hrs]%Forall_cons. specialize (IH Hrs).
  change (list_fmap ResolvedToolCall string rc_tool_name rs) with (rc_tool_name <$> rs).
  rewrite !filter_cons. pose proof (call_name_eq r Hr) as E.
  repeat case_decide; unfold for_tool in *; cbn [length]; congruence.
Qed.

Lemma pending_count name s : same_tool_pending name s = Z.of_nat (str_count name (names_of (pending_parallel s))).
Proof.
  unfold same_tool_pending, str_count, names_of. f_equal. induction (pending_parallel s) as [|q l IH]; [done|].
  cbn [fmap list_fmap]. rewrite !filter_cons.
  destruct (decide (p_tool_name q = name)), (decide (name = p_tool_name q)); cbn [length]; congruence.
Qed.

Lemma count_app x l k : str_count x (l ++ k) = str_count x l + str_count x k.
Proof. unfold str_count. by rewrite filter_app, length_app. Qed.

(** The results of a batch bear the names of its requests. *)
Lemma answers_names requests rs : Forall2 (@ToolExecution.answers W) requests rs ->
  rc_tool_name <$> rs = names_of requests.
Proof.
  unfold names_of. induction 1 as [|q r qs rs (_ & E & _) _ IH]; [done|]. cbn. by rewrite E, IH.
Qed.

Lemma policy_app rs rs' : policy_of (rs ++ rs') = policy_after (policy_of rs) rs'.
Proof. unfold policy_of, policy_after. by rewrite app_assoc, fold_left_app. Qed.

Lemma control_after_app c rs rs' : control_after c (rs ++ rs') = control_after (control_after c rs) rs'.
Proof. apply fold_left_app. Qed.

(** What consuming results changes. *)
Lemma consume_changes rs : forall s,
  let s' := fold_left (consume_resolved surface) rs s in
  callbacks s' = callbacks s ++ ((fun r => (rc_tool_name r, rc_tool_input r, callback_text r)) <$> rs) /\
  pending_parallel s' = pending_parallel s /\ gates s' = gates s /\ tool_calls_made s' = tool_calls_made s /\
  (stopped s' = None -> stopped s = None /\
     tool_failures (loop_control s') = policy_after (tool_failures (loop_control s)) rs) /\
  (stopped s = termination (loop_control s) -> stopped s' = termination (control_after (loop_control s) rs) /\
     (stopped s' = None -> loop_control s' = control_after (loop_control s) rs)).
Proof.
  induction rs as [|r rs IH]; intros s; [by rewrite app_nil_r|]. cbn [fold_left].
  destruct (IH (consume_resolved surface s r)) as (E1 & E2 & E3 & E4 & E5 & E6). cbv zeta.
  rewrite E1, E2, E3, E4. clear E1 E2 E3 E4. unfold consume_resolved in *.
  destruct (stopped s) as [t|] eqn:Es.
  - split_and!; try done; [by cbn; rewrite <- app_assoc|intros [? _]%E5; cbn in *; congruence|].
    intros Ht. destruct (E6 (eq_trans Es Ht)) as [E7 E8]. cbn in E7, E8.
    rewrite (control_latched_after _ (r :: rs) t (eq_sym Ht)).
    rewrite E7, (control_latched_after _ rs t (eq_sym Ht)). split; [done|]. intros E. congruence.
  - destruct (control_observe (loop_control s) r) as [ctl d] eqn:Ec.
    split_and!; try done; [by cbn; rewrite <- app_assoc| |].
    + intros [_ ->]%E5. split; [done|]. unfold control_observe in Ec. destruct (guard_observe _ r).
      cbn [policy_after fold_left]. destruct (policy_observe (tool_failures (loop_control s)) r) as [p dis].
      destruct (evaluate _ _ _). by injection Ec as <- _.
    + intros Ht. change (control_after (loop_control s) (r :: rs)) with
        (control_after (control_observe (loop_control s) r).1 rs). rewrite Ec. apply E6. cbn.
      unfold control_observe in Ec. destruct (guard_observe _ r) as [g signals].
      destruct (policy_observe (tool_failures (loop_control s)) r) as [p dis]. unfold evaluate in Ec. rewrite <- Ht in Ec.
      by destruct signals; injection Ec as <- <-.
Qed.

(** Fewer results of a tool than the limit come before any of a batch within it. *)
Lemma batch_enabled rs p rs' a r b :
  p = policy_of rs -> rs' = a ++ r :: b -> Forall (fun n => n <> "") (rc_tool_name <$> rs') ->
  disabled_tools p !! rc_tool_name r = None ->
  (Z.of_nat (str_count (rc_tool_name r) (rc_tool_name <$> rs')) <= parallel_same_tool_limit p (rc_tool_name r))%Z ->
  disabled_tools (policy_of (rs ++ a)) !! rc_tool_name r = None.
Proof.
  intros -> -> Hn Hd Hc. rewrite policy_app. apply parallel_limit_safe; [done|].
  rewrite fmap_app in Hn, Hc. apply Forall_app in Hn as [Hn _].
  rewrite outcomes_named by done. rewrite count_app in Hc.
  assert (1 <= str_count (rc_tool_name r) (rc_tool_name <$> r :: b)); [|unfold policy_of in *; lia].
  unfold str_count. cbn [fmap list_fmap]. rewrite filter_cons_True by done. cbn. lia.
Qed.

(** ** Steps of the walk *)

Definition reaches (made : list string) (s : walk W) (rs : list ResolvedToolCall) : Prop :=
  exists rs', lawful made s (rs ++ rs').

Lemma permitted_mono g g' names : (brain g = true -> brain g' = true) ->
  Forall (permitted g) names -> Forall (permitted g') names.
Proof. intros Hg Hf. eapply Forall_impl; [exact Hf|]. intros n [? ?]. split; [done|auto]. Qed.

Lemma consumed_lawful made s rs rs' w :
  lawful made s rs -> stopped s = None ->
  Forall (permitted (gates s)) (rc_tool_name <$> rs') ->
  str_count "brain_encode" ((rc_tool_name <$> rs) ++ (rc_tool_name <$> rs')) <=
    Nat.min 1 (str_count "brain_encode" (tool_calls_made s)) - Nat.min 1 (str_count "brain_encode" made) ->
  (forall a r b, rs' = a ++ r :: b -> disabled_tools (policy_of (rs ++ a)) !! rc_tool_name r = None) ->
  (forall a r b, rs' = a ++ r :: b -> a <> [] -> rc_tool_name r ∈ parallel_safe_tool_names surface) ->
  let s' := fold_left (consume_resolved surface) rs' (set_world w (set_pending_calls [] s)) in
  lawful made s' (rs ++ rs') /\ pending_parallel s' = [] /\ gates s' = gates s /\
  tool_calls_made s' = tool_calls_made s.
Proof.
  intros [L1 L2 C1 C2 C3 C4 L3 L4 L5 L6 L7 L8] Hs Hperm Henc Hen Hpar.
  destruct (consume_changes rs' (set_world w (set_pending_calls [] s))) as (E1 & E2 & E3 & E4 & E5 & E6).
  cbn in E2, E3, E4, E6. rewrite (C1 Hs), Hs, <- control_after_app in E6.
  destruct (E6 (eq_trans (eq_sym Hs) C2)) as [E7 E8].
  split_and!; [|done..]. apply Forall_app in L6 as [L6 _]. split.
  - by rewrite E1, fmap_app, <- L1.
  - intros [_ ->]%E5. cbn. by rewrite (L2 Hs), policy_app.
  - exact E8.
  - exact E7.
  - intros a r b E Hn. apply app_eq_inv in E as [(k & -> & E)|(k & -> & E)].
    + destruct k as [|x k]; [by rewrite app_nil_r in C2; rewrite <- C2|]. injection E as -> ->. by apply (C3 a x k).
    + destruct k as [|x k]; [by rewrite app_nil_r, <- C2|]. destruct Hn. by apply (Hpar (x :: k) r b).
  - by rewrite E2.
  - done.
  - intros a r b E. apply app_eq_inv in E as [(k & -> & E)|(k & -> & E)].
    + destruct k as [|x k]; [pose proof (Hen [] r b (eq_sym E)) as Hx; by rewrite !app_nil_r in Hx|].
      injection E as -> ->. by apply (L4 a x k).
    + by apply (Hen k r b).
  - intros name. rewrite E2. by intros ?%not_elem_of_nil.
  - rewrite E2, E3, fmap_app. change (names_of []) with (@nil string). rewrite app_nil_r. by apply Forall_app.
  - by rewrite E4.
  - rewrite E2, E4, fmap_app. change (names_of []) with (@nil string). by rewrite app_nil_r.
Qed.

Lemma flush_lawful made s rs : lawful made s rs -> exists rs',
  lawful made (flush_parallel_batch surface s) (rs ++ rs') /\
  pending_parallel (flush_parallel_batch surface s) = [] /\
  gates (flush_parallel_batch surface s) = gates s /\
  tool_calls_made (flush_parallel_batch surface s) = tool_calls_made s /\
  rc_tool_name <$> rs' = names_of (pending_parallel s).
Proof.
  intros Hl. unfold flush_parallel_batch. destruct (pending_parallel s) as [|q qs] eqn:Hp.
  { exists []. by rewrite app_nil_r. }
  assert (Hs : stopped s = None).
  { destruct (stopped s) eqn:Es; [|done]. assert (stopped s <> None) as Hn by congruence.
    apply (law_stopped _ _ _ Hl) in Hn. congruence. }
  pose proof (answers_names _ _ (batch_answers (q :: qs) (world s))) as Hn.
  destruct (execute_batch (q :: qs) (world s)) as [w rs']. cbn [snd] in Hn.
  pose proof (law_permitted _ _ _ Hl) as [Hperm Hperm']%Forall_app. rewrite Hp, <- Hn in Hperm'.
  exists rs'. destruct (consumed_lawful made s rs rs' w Hl Hs Hperm') as (H2 & H3 & H4 & H5); [..|by split_and!].
  3: { intros a r b E _. pose proof (law_together _ _ _ Hl) as Ht. rewrite Forall_forall in Ht. apply Ht.
       rewrite Hp, <- Hn, E. apply list_elem_of_fmap. exists r. split; [done|]. set_solver. }
  - rewrite Hn, <- Hp. apply (law_encode _ _ _ Hl).
  - intros a r b E. pose proof (law_policy _ _ _ Hl Hs) as Hpol.
    assert (Hin : rc_tool_name r ∈ names_of (pending_parallel s)).
    { rewrite Hp, <- Hn, E. apply list_elem_of_fmap. exists r. split; [done|]. set_solver. }
    apply (law_pending _ _ _ Hl) in Hin as [Hd Hc]. apply (batch_enabled rs _ rs' a r b Hpol E); [|done|].
    + eapply Forall_impl; [exact Hperm'|]. intros n. apply permitted_named.
    + by rewrite Hn, <- Hp.
Qed.

Lemma serial_lawful made s rs request :
  lawful made s rs -> pending_parallel s = [] -> stopped s = None ->
  disabled_tool (p_tool_name request) s = None -> permitted (gates s) (p_tool_name request) ->
  str_count "brain_encode" ((rc_tool_name <$> rs) ++ [p_tool_name request]) <=
    Nat.min 1 (str_count "brain_encode" (tool_calls_made s)) - Nat.min 1 (str_count "brain_encode" made) ->
  reaches made (run_serially surface request s) rs.
Proof.
  intros Hl Hp Hs Hd Hperm Henc. unfold run_serially.
  pose proof (one_answers request (world s)) as (_ & E & _).
  destruct (execute_one request (world s)) as [w r]. cbn [snd] in E. exists [r].
  replace (set_world w s) with (set_world w (set_pending_calls [] s)) by (by destruct s; cbn in *; subst).
  apply (consumed_lawful made s rs [r] w Hl Hs); cbn; rewrite ?E; [by constructor|done| |
    intros [|x a] r' b E' Hne; [done|by destruct a]].
  intros [|x a] r' b E'; [|by destruct a]. injection E' as <- _. rewrite app_nil_r, E.
  by rewrite <- (law_policy _ _ _ Hl Hs).
Qed.

Lemma postpone_lawful made s rs request :
  lawful made s rs -> stopped s = None -> p_tool_name request ∈ parallel_safe_tool_names surface ->
  disabled_tool (p_tool_name request) s = None -> permitted (gates s) (p_tool_name request) ->
  (same_tool_pending (p_tool_name request) s <
   parallel_same_tool_limit (tool_failures (loop_control s)) (p_tool_name request))%Z ->
  str_count "brain_encode" ((rc_tool_name <$> rs) ++ names_of (pending_parallel s) ++ [p_tool_name request]) <=
    Nat.min 1 (str_count "brain_encode" (tool_calls_made s)) - Nat.min 1 (str_count "brain_encode" made) ->
  lawful made (set_pending_calls (pending_parallel s ++ [request]) s) rs.
Proof.
  intros [L1 L2 C1 C2 C3 C4 L3 L4 L5 L6 L7 L8] Hs Hpar Hd Hperm Hc Henc. rewrite pending_count in Hc.
  assert (Hn : names_of (pending_parallel s ++ [request]) = names_of (pending_parallel s) ++ [p_tool_name request])
    by (unfold names_of; by rewrite fmap_app).
  split; cbn; [done|done|done|done|done|rewrite Hn; apply Forall_app; by split; [|constructor]
    |by rewrite Hs|done| | |done|by rewrite Hn].
  - intros name. rewrite Hn, count_app. intros [Hin|Hin]%elem_of_app.
    + destruct (decide (name = p_tool_name request)) as [->|Hne].
      * split; [done|]. unfold str_count at 2. rewrite filter_cons_True by done. cbn. lia.
      * unfold str_count at 2. rewrite filter_cons_False by done. cbn. rewrite Nat.add_0_r. by apply L5.
    + apply list_elem_of_singleton in Hin as ->. split; [done|].
      unfold str_count at 2. rewrite filter_cons_True by done. cbn. lia.
  - rewrite Hn, app_assoc. apply Forall_app. by split; [|constructor].
Qed.

Lemma add_lawful made s rs d : lawful made s rs -> reaches made (add_result d s) rs.
Proof. intros Hl. exists []. rewrite app_nil_r. by destruct Hl. Qed.

Lemma unless_lawful made i name s rs k : lawful made s rs ->
  (stopped s = None -> disabled_tool name s = None -> reaches made (k s) rs) ->
  reaches made (unless_stopped i name s k) rs.
Proof.
  intros Hl Hk. unfold unless_stopped. destruct (stopped s) eqn:Es; [by apply add_lawful|].
  destruct (disabled_tool name s) eqn:Ed; [by apply add_lawful|auto].
Qed.

(** After a flush the calls run so far are [rs ++ rs']. *)
Lemma reaches_flush made s rs k : lawful made s rs ->
  (forall rs', lawful made (flush_parallel_batch surface s) (rs ++ rs') ->
     pending_parallel (flush_parallel_batch surface s) = [] ->
     gates (flush_parallel_batch surface s) = gates s ->
     tool_calls_made (flush_parallel_batch surface s) = tool_calls_made s ->
     rc_tool_name <$> rs' = names_of (pending_parallel s) ->
     reaches made (k (flush_parallel_batch surface s)) (rs ++ rs')) ->
  reaches made (k (flush_parallel_batch surface s)) rs.
Proof.
  intros (rs' & H2 & H3 & H4 & H5 & H6)%flush_lawful Hk. destruct (Hk rs') as [rs2 H7]; try done.
  exists (rs' ++ rs2). by rewrite app_assoc.
Qed.

Lemma schedule_lawful made s rs request :
  lawful made s rs -> stopped s = None -> disabled_tool (p_tool_name request) s = None ->
  permitted (gates s) (p_tool_name request) ->
  str_count "brain_encode" (((rc_tool_name <$> rs) ++ names_of (pending_parallel s)) ++ [p_tool_name request]) <=
    Nat.min 1 (str_count "brain_encode" (tool_calls_made s)) - Nat.min 1 (str_count "brain_encode" made) ->
  reaches made (schedule surface request s) rs.
Proof.
  intros Hl Hs Hd Hperm Henc. unfold schedule. case_bool_decide.
  - destruct (Z.leb _ _) eqn:El.
    + apply (reaches_flush made s rs (fun s => unless_stopped _ _ s _)); [done|].
      intros rs' Hl' Hp Hg Hm Hn. apply unless_lawful; [done|]. intros Hs' Hd'. exists [].
      rewrite app_nil_r. apply postpone_lawful; try done; [by rewrite Hg| |].
      * rewrite pending_count, Hp. unfold parallel_same_tool_limit. change (str_count _ (names_of [])) with 0. lia.
      * rewrite Hp, Hm, fmap_app, Hn. change (names_of []) with (@nil string). exact Henc.
    + apply Z.leb_gt in El. exists []. rewrite app_nil_r.
      apply postpone_lawful; try done. by rewrite app_assoc.
  - apply (reaches_flush made s rs (fun s => unless_stopped _ _ s _)); [done|].
    intros rs' Hl' Hp Hg Hm Hn. apply unless_lawful; [done|]. intros Hs' Hd'.
    apply serial_lawful; try done; [by rewrite Hg|]. by rewrite Hm, fmap_app, Hn.
Qed.

Lemma check_gate_pass name i g handlers gated (w : W) w' g' v :
  check_gate_violations name i g handlers gated w = (w', g', v) ->
  (brain g = true -> brain g' = true) /\ (v = None -> name ∈ gated -> brain g' = true).
Proof.
  unfold check_gate_violations. case_bool_decide as Hin; cbn [andb].
  - destruct (brain g) eqn:Eb; cbn [negb]; [intros [= <- <- <-]; by rewrite Eb|].
    destruct (handlers !! _) as [hd|]; [destruct (call_handler hd w) as [w1 [x|]]|]; by intros [= <- <- <-].
  - intros [= <- <- <-]. by split.
Qed.

Lemma gates_lawful made s rs g w : lawful made s rs -> (brain (gates s) = true -> brain g = true) ->
  lawful made (set_world w (set_gates g s)) rs.
Proof. intros [L1 L2 C1 C2 C3 C4 L3 L4 L5 L6 L7 L8] Hg. split; try done. by eapply permitted_mono. Qed.

Lemma gate_lawful made s rs i name input :
  lawful made s rs -> stopped s = None -> disabled_tool name s = None ->
  str_count "brain_encode" (((rc_tool_name <$> rs) ++ names_of (pending_parallel s)) ++ [name]) <=
    Nat.min 1 (str_count "brain_encode" (tool_calls_made s)) - Nat.min 1 (str_count "brain_encode" made) ->
  reaches made (gate_and_run surface i name input s) rs.
Proof.
  intros Hl Hs Hd Henc. unfold gate_and_run.
  set (g1 := if bool_decide _ then _ else gates s). set (g2 := if String.eqb name "brain_skills" then _ else g1).
  assert (Hg : brain (gates s) = true -> brain g2 = true).
  { unfold g2, g1. destruct (String.eqb _ _); case_bool_decide; done. }
  destruct (check_gate_violations _ _ _ _ _ _) as [[w g] v] eqn:Hc. apply check_gate_pass in Hc as [Hm Hpass].
  pose proof (gates_lawful made s rs g w Hl (fun E => Hm (Hg E))) as Hl'.
  set (s1 := set_world w (set_gates g s)) in *.
  assert (Hadd : forall d, reaches made (add_result d (flush_parallel_batch surface s1)) rs).
  { intros d. apply (reaches_flush made s1 rs (add_result d)); [done|]. intros rs' Hl2 _ _ _ _. by apply add_lawful. }
  destruct v as [d|]; [apply Hadd|]. destruct (tool_handlers surface !! name) as [hd|] eqn:Eh; [|apply Hadd].
  apply schedule_lawful; try done. split; [by exists hd|]. by apply Hpass.
Qed.

Lemma block_lawful made s rs b : lawful made s rs -> reaches made (handle_block surface s b) rs.
Proof.
  intros Hl. destruct b as [i name input|d]; [|exists []; by rewrite app_nil_r]. cbn [handle_block].
  assert (Hc : str_count "brain_encode" (tool_calls_made (note_call name s)) =
               str_count "brain_encode" (tool_calls_made s) + str_count "brain_encode" [name])
    by (cbn; by rewrite count_app).
  assert (Hl' : lawful made (note_call name s) rs).
  { destruct Hl as [L1 L2 C1 C2 C3 C4 L3 L4 L5 L6 L7 L8]. split; try done; rewrite Hc; change (pending_parallel (note_call name s)) with (pending_parallel s); lia. }
  apply unless_lawful; [done|]. intros Hs Hd. destruct (_ && _) eqn:Ee.
  - apply (reaches_flush made _ rs (add_result _)); [done|]. intros rs' Hl2 _ _ _ _. by apply add_lawful.
  - apply gate_lawful; try done. rewrite count_app, Hc. cbn [pending_parallel note_call].
    pose proof (law_made _ _ _ Hl) as Hm. pose proof (law_encode _ _ _ Hl) as He.
    destruct (decide (name = "brain_encode")) as [->|Hne].
    + rewrite Hc in Ee. change (str_count "brain_encode" ["brain_encode"]) with 1 in *.
      apply Nat.ltb_ge in Ee. lia.
    + assert (str_count "brain_encode" [name] = 0) as ->; [|lia].
      unfold str_count. by rewrite filter_cons_False by congruence.
Qed.

Lemma walk_lawful made content : forall s rs, lawful made s rs ->
  reaches made (fold_left (handle_block surface) content s) rs.
Proof.
  induction content as [|b content IH]; intros s rs Hl; cbn [fold_left]; [exists []; by rewrite app_nil_r|].
  apply (block_lawful _ _ _ b) in Hl as [rs1 Hl]. destruct (IH _ _ Hl) as [rs2 H2].
  exists (rs1 ++ rs2). by rewrite app_assoc.
Qed.

(** The answer of a call the termination [t] skipped. *)
Definition skipped_by (t : LoopTermination) (b : content_block) : option dict :=
  match b with ToolUse i _ _ => Some (termination_skipped_result t i) | OtherBlock _ => None end.

(** Once terminated, nothing runs. *)
Lemma stopped_walk t content : forall s, stopped s = Some t -> pending_parallel s = [] ->
  let s' := flush_parallel_batch surface (fold_left (handle_block surface) content s) in
  callbacks s' = callbacks s /\ world s' = world s /\ tool_results s' = tool_results s ++ omap (skipped_by t) content.
Proof.
  induction content as [|b content IH]; intros s Hs Hp; cbn [fold_left].
  - unfold flush_parallel_batch. rewrite Hp. by rewrite app_nil_r.
  - destruct b as [i name input|d]; [|by apply IH]. cbn [handle_block]. unfold unless_stopped.
    change (stopped (note_call name s)) with (stopped s). rewrite Hs.
    destruct (IH (add_result (termination_skipped_result t i) (note_call name s))) as (H2 & H3 & H4); [done..|].
    split_and!; [by rewrite H2|by rewrite H3|]. rewrite H4. cbn. by rewrite <- app_assoc.
Qed.
End allowed.

Section gatekeeping.
Context `{Platform} `{ToolCatalog} {W : Type} `{BatchExecutor W}.

(** C33. Only allowed calls run.  The calls a response runs, in the order their
    results are consumed: each is of a tool that has a handler and that the
    failure policy, given every result before, has not disabled, although calls
    run in batches; a gated tool runs only with the brain gate open; and
    brain_encode runs at most once in the history of a run.  The walk stops as soon
    as run control, given the results in this order, terminates: a call that does
    not run in a batch runs only while no earlier result terminated, and wherever in
    the response the walk is stopped, none of the calls after it runs, every one of
    them is answered with the termination, and the world stays as it was.  Without a
    termination run control has seen exactly these results. *)
Theorem executed_calls_allowed (surface : tool_surface W) (threshold window zero : Z)
    (h : list ResolvedToolCall) (content : list content_block) (control : RunControlPolicy) (g : GateState)
    (made : list string) (c : AgentContext) (w : W) :
  tool_handlers surface !! "" = None ->
  tool_failures control = policy_after (make_policy threshold window zero) h ->
  let s := execute_tool_calls surface content control g made c w in
  let policy_at rs := policy_after (make_policy threshold window zero) (h ++ rs) in
  exists rs,
    callbacks s = (fun r => (rc_tool_name r, rc_tool_input r, callback_text r)) <$> rs /\
    (forall before r after, rs = before ++ r :: after ->
       disabled_tools (policy_at before) !! rc_tool_name r = None) /\
    (forall r, r ∈ rs -> is_Some (tool_handlers surface !! rc_tool_name r) /\
       (rc_tool_name r ∈ gated_tool_names surface -> brain (gates s) = true)) /\
    str_count "brain_encode" (rc_tool_name <$> rs) + Nat.min 1 (str_count "brain_encode" made) <= 1 /\
    stopped s = termination (control_after control rs) /\
    (forall before r after, rs = before ++ r :: after -> rc_tool_name r ∉ parallel_safe_tool_names surface ->
       termination (control_after control before) = None) /\
    (forall before after t, content = before ++ after ->
       let s1 := fold_left (handle_block surface) before (start_walk control g made c w) in
       stopped s1 = Some t ->
       callbacks s = callbacks s1 /\ world s = world s1 /\
       tool_results s = tool_results s1 ++ omap (skipped_by t) after) /\
    (stopped s = None -> loop_control s = control_after control rs /\ tool_failures (loop_control s) = policy_at rs).
Proof.
  intros Hn Hp s policy_at. set (s0 := start_walk control g made c w).
  assert (Hl : lawful surface threshold window zero h control made s0 []).
  { split; try done; cbn.
    - intros _. unfold policy_of. by rewrite app_nil_r.
    - by intros [].
    - by intros [].
    - by intros name ?%not_elem_of_nil.
    - lia. }
  destruct (walk_lawful surface threshold window zero h control Hn made content s0 [] Hl) as [rs1 L0].
  apply flush_lawful in L0 as (rs2 & L & _); [|done].
  change (flush_parallel_batch surface _) with s in L. exists (rs1 ++ rs2). cbn [app] in L.
  destruct L as [L1 L2 C1 C2 C3 C4 L3 L4 L5 L6 L7 L8]. apply Forall_app in L6 as [L6 _]. split_and!; try done; [| | |auto].
  - intros r Hr. rewrite Forall_forall in L6. apply (L6 (rc_tool_name r)), list_elem_of_fmap. eauto.
  - rewrite count_app in L8. lia.
  - intros before after t -> s1 Hs1.
    destruct (walk_lawful surface threshold window zero h control Hn made before s0 [] Hl) as [rs3 L9].
    pose proof (law_stopped _ _ _ _ _ _ _ _ _ L9 ltac:(change (stopped s1 <> None); congruence)) as Hp1.
    change (pending_parallel s1 = []) in Hp1. unfold s, execute_tool_calls. rewrite fold_left_app.
    by apply stopped_walk.
Qed.

(** A coroutine function as the guardrails handler: the gate answers the text of the
    coroutine it never awaits, does not run the handler, and opens. *)
Lemma coroutine_opens_gate (hd : handler W) text name i g gated w :
  coroutine hd = Some (fun _ => true, text) -> name ∈ gated -> brain g = false ->
  check_gate_violations name i g {[ "brain_guardrails" := hd ]} gated w =
  (w, open_brain g, Some (error_tool_result i (fetched_text name (JStr text)))).
Proof.
  intros Hc Hin Hb. unfold check_gate_violations. rewrite bool_decide_eq_true_2, Hb by done.
  rewrite lookup_singleton_eq. unfold call_handler. by rewrite Hc.
Qed.
End gatekeeping.

(** * Instances *)

(** A world that counts the runs of handlers. *)
Definition demo_tool (r : handler_result) : handler nat :=
  {| run_handler _ w := (Datatypes.S w, r); coroutine := None; audited := false |}.

Definition demo_surface : tool_surface nat :=
  {| tool_handlers := {[ "read_file" := demo_tool (Returned (JObj [("text", JStr "ok")]));
                         "shell" := demo_tool (Raised "ShellError" "exit 1") ]};
     brain_tool_names := ["brain_recall"]; gated_tool_names := ["shell"];
     parallel_safe_tool_names := ["read_file"]; traced := true |}.

Definition demo_content : list content_block :=
  [OtherBlock [("type", JStr "text"); ("text", JStr "let me look")];
   ToolUse "a" "read_file" []; ToolUse "b" "shell" []; ToolUse "c" "missing" []; ToolUse "d" "read_file" []].

Definition demo_control : RunControlPolicy :=
  make_control (Some 3%Z) (Some 10%Z) (Some 2%Z) 10 4 5 (fun _ => None).
Definition demo_gates (open : bool) : GateState :=
  {| brain := open; skills := false; continuation_corrections := 0 |}.
Definition demo_context : AgentContext := {| tool_calls_log := []; recent_tool_results := [] |}.

Definition demo_walk (open : bool) : walk nat :=
  @execute_tool_calls demo_platform demo_catalog nat (@sequential_executor demo_catalog nat)
    demo_surface demo_content demo_control (demo_gates open) [] demo_context 0.

Example demo_walk_closed : (result_id <$> tool_results (demo_walk false), world (demo_walk false)) =
  ([JStr "a"; JStr "b"; JStr "c"; JStr "d"], 2).
Proof. vm_compute. reflexivity. Qed.

Lemma response_answered_witness : exists l,
  (result_id <$> tool_results (demo_walk true)) ≡ₚ [JStr "a"; JStr "b"; JStr "c"; JStr "d"] /\
  well_paired ([] ++ [assistant_message l; results_message (tool_results (demo_walk true))]).
Proof.
  eexists.
  refine (@response_answered demo_platform demo_catalog nat (@sequential_executor demo_catalog nat)
    demo_surface demo_content _ demo_control (demo_gates true) [] demo_context 0 [] _ eq_refl _).
  - repeat first [apply Forall_nil_2 | apply Forall_cons_2]; try discriminate;
      cbn; intros E; (discriminate E || discriminate).
  - split; [exact I|reflexivity].
Defined.

Lemma executed_calls_allowed_witness : exists rs : list ResolvedToolCall,
  callbacks (demo_walk true) = (fun r => (rc_tool_name r, rc_tool_input r, callback_text r)) <$> rs /\
  tool_failures (loop_control (demo_walk true)) =
    @policy_after (make_policy 3 10 2) ([] ++ rs).
Proof.
  destruct (@executed_calls_allowed demo_platform demo_catalog nat (@sequential_executor demo_catalog nat)
    demo_surface 3 10 2 [] demo_content demo_control (demo_gates true) [] demo_context 0)
    as (rs & H1 & _ & _ & _ & _ & _ & _ & H2); [reflexivity|reflexivity|].
  exists rs. split; [exact H1|]. apply H2. vm_compute. reflexivity.
Defined.
