(* ===== verification/RunDeadlines.v ===== *)
(** Ending runs from outside, over the store of agent runs: the sweep of
    [brain/systems/runs/deadlines.py] that asks an overdue run to close out and
    later expires it, the summary of write calls of [tool_event_read_model.py] it
    quotes, and cancellation, [cancel.py]. *)
From S2P Require Import Prelude.
From S2P Require Import PyStr.
From S2P Require Import Json.
From S2P Require Import JsonText.
From S2P Require Import Status.
From S2P Require Import Failures.
From S2P Require Import RunStore.
From S2P Require Import RunCreate.
From S2P Require Import RunLifecycle.
From S2P Require Import RunMessages.
From S2P Require Import LoopControl.
Open Scope string_scope.
Open Scope bool_scope.
Open Scope list_scope.

(** * Write calls among the events, [tool_event_read_model.py] *)

Definition ToolSideEffectClass_value (c : ToolSideEffectClass) : string :=
  match c with
  | SE_APPEND_ONLY => "append_only" | SE_BROWSER_ARTIFACT => "browser_artifact"
  | SE_BROWSER_INTERACTION => "browser_interaction" | SE_BROWSER_NAVIGATION => "browser_navigation"
  | SE_BROWSER_SESSION => "browser_session" | SE_CYCLE_MANAGEMENT => "cycle_management"
  | SE_CHAT_MESSAGE => "chat_message" | SE_RUN_ANNOTATION => "run_annotation"
  | SE_DOMAIN_MANAGEMENT => "domain_management" | SE_INBOUND_CONFIGURATION => "inbound_configuration"
  | SE_IDEA_MANAGEMENT => "idea_management" | SE_MEMORY_CURATION => "memory_curation"
  | SE_DEPLOYMENT_MANAGEMENT => "deployment_management"
  | SE_WORKSPACE_TOOL_MANAGEMENT => "workspace_tool_management" | SE_SOUL_MANAGEMENT => "soul_management"
  | SE_PROJECT_CONTEXT_MANAGEMENT => "project_context_management" | SE_FILE_EDIT => "file_edit"
  | SE_FILE_WRITE => "file_write" | SE_READ_ONLY => "read_only"
  | SE_READ_ONLY_EXTERNAL => "read_only_external" | SE_RUN_SPAWN => "run_spawn"
  | SE_RUNTIME_CONFIGURATION => "runtime_configuration" | SE_SCRATCHPAD => "scratchpad"
  | SE_SCRATCHPAD_LIFECYCLE => "scratchpad_lifecycle" | SE_SHELL => "shell"
  | SE_SKILL_WRITE => "skill_write" | SE_WRITE => "write"
  | SE_WORKSPACE_APP_MANAGEMENT => "workspace_app_management"
  end.

Definition side_effect_classes : list ToolSideEffectClass :=
  [SE_APPEND_ONLY; SE_BROWSER_ARTIFACT; SE_BROWSER_INTERACTION; SE_BROWSER_NAVIGATION;
   SE_BROWSER_SESSION; SE_CYCLE_MANAGEMENT; SE_CHAT_MESSAGE; SE_RUN_ANNOTATION;
   SE_DOMAIN_MANAGEMENT; SE_INBOUND_CONFIGURATION; SE_IDEA_MANAGEMENT; SE_MEMORY_CURATION;
   SE_DEPLOYMENT_MANAGEMENT; SE_WORKSPACE_TOOL_MANAGEMENT; SE_SOUL_MANAGEMENT;
   SE_PROJECT_CONTEXT_MANAGEMENT; SE_FILE_EDIT; SE_FILE_WRITE; SE_READ_ONLY;
   SE_READ_ONLY_EXTERNAL; SE_RUN_SPAWN; SE_RUNTIME_CONFIGURATION; SE_SCRATCHPAD;
   SE_SCRATCHPAD_LIFECYCLE; SE_SHELL; SE_SKILL_WRITE; SE_WRITE; SE_WORKSPACE_APP_MANAGEMENT].

Definition _TOOL_RESULT_EVENT_TYPES : list string := ["run.tool_completed"; "run.tool_failed"].
Definition _LEGACY_SIDE_EFFECT_CLASSES : list string :=
  ["read"; "write"; "command"; "chat_message"; "external"; "unknown"].
Definition _KNOWN_SIDE_EFFECT_CLASSES : list string :=
  (ToolSideEffectClass_value <$> side_effect_classes) ++ _LEGACY_SIDE_EFFECT_CLASSES.
Definition _NON_WRITE_SIDE_EFFECT_CLASSES : list string :=
  ["read"; ToolSideEffectClass_value SE_READ_ONLY; ToolSideEffectClass_value SE_READ_ONLY_EXTERNAL].

Record PersistedToolSideEffect : Type := { side_effect : string; is_write : bool }.

Definition parse_persisted_tool_side_effect (payload : json) : PersistedToolSideEffect :=
  let metadata := as_dict payload in
  let side_effect :=
    match jget_or_null "side_effect" metadata with
    | JStr raw => if str_in raw _KNOWN_SIDE_EFFECT_CLASSES then raw else "unknown"
    | _ => "unknown"
    end in
  {| side_effect := side_effect;
     is_write := match jget_or_null "is_write" metadata with
                 | JBool b => b
                 | _ => negb (str_in side_effect _NON_WRITE_SIDE_EFFECT_CLASSES)
                 end |}.

(** The text of a JSONB value, [None] for SQL's NULL. *)
Definition as_string (v : json) : option string :=
  match v with
  | JNull => None
  | JStr s => Some s
  | _ => Some (dumps ", " ": " v)
  end.

(** [_persisted_is_write_expression], the predicate in SQL. *)
Definition _persisted_is_write_expression (payload : dict) : bool :=
  match jget_or_null "is_write" payload with
  | JBool b => b
  | _ => match as_string (jget_or_null "side_effect" payload) with
         | None => true
         | Some side_effect => negb (str_in side_effect _NON_WRITE_SIDE_EFFECT_CLASSES)
         end
  end.

(** ORDER BY created_at DESC, id DESC. *)
Definition latest_leb (a b : event_row) : bool :=
  Z.ltb (ev_created_at b) (ev_created_at a)
  || (Z.eqb (ev_created_at a) (ev_created_at b) && Z.leb (ev_id b) (ev_id a)).

(** [_tool_call_summary_statement]. *)
Definition last_write_call (id : Z) (d : db) : option event_row :=
  head (py_sorted latest_leb (filter (fun e =>
    str_in (ev_type e) _TOOL_RESULT_EVENT_TYPES = true /\
    _persisted_is_write_expression (ev_payload e) = true) (run_events id d))).

(** [tool_call_summary]: its seconds since the last write call. *)
Definition seconds_since_last_write_tool_call (id : Z) (at_ : instant) (d : db) : option Z :=
  match last_write_call id d with
  | Some e =>
      if is_write (parse_persisted_tool_side_effect (JObj (ev_payload e)))
      then Some (Z.max 0 (Z.quot (at_ - ev_created_at e) 1000000))
      else None
  | None => None
  end.

(** * The deadline sweep, [deadlines.py] *)

Definition DEADLINE_CLOSEOUT_REQUESTED_EVENT : string := "run.deadline_closeout_requested".
Definition DEADLINE_EXPIRED_EVENT : string := "run.expired".
Definition deadline_watchdog : string := "deadline_watchdog".
Definition _OPEN_STATUS_VALUES : list string := value <$> OPEN_RUN_STATUSES.

Record DeadlineSweepResult : Type := {
  closeout_requested : Z;
  expired : Z;
  expired_run_ids : list Z;
  skipped : Z;
  skipped_run_ids : list Z;
}.

(** [env] is the text of AGENT_RUN_DEADLINE_CLOSEOUT_SECONDS, with its default. *)
Definition deadline_closeout_grace_seconds (env : string) : Z :=
  match int_of_str env with Some n => Z.max 1 n | None => 90 end.

Definition _elapsed_label (seconds : option Z) : string :=
  match seconds with
  | None => "No state-changing tool call has completed yet."
  | Some n =>
      let seconds := Z.max 0 n in
      if Z.ltb seconds 60
      then "The last state-changing tool call completed " +:+ str_of_Z seconds +:+ " seconds ago."
      else
        let minutes := (seconds / 60)%Z in
        let unit := if Z.eqb minutes 1 then "minute" else "minutes" in
        "The last state-changing tool call completed " +:+ str_of_Z minutes +:+ " " +:+ unit +:+ " ago."
  end.

Definition closeout_message (elapsed : option Z) (grace_seconds : Z) : string :=
  "[SYSTEM DEADLINE] This run has reached its wall-clock deadline. Stop gathering new information now. Persist the best partial result you have and emit the required closing output. "
  +:+ _elapsed_label elapsed +:+ " The close-out window ends in " +:+ str_of_Z grace_seconds +:+ " seconds.".

Definition json_of_int (o : option Z) : json := match o with Some z => JInt z | None => JNull end.

(** [visibility=EventVisibility.INTERNAL]. *)
Definition internal (e : AgentRunEvent) : AgentRunEvent :=
  {| e_run_id := e_run_id e; e_type := e_type e; e_payload := e_payload e;
     e_root_run_id := e_root_run_id e; e_sequence_no := e_sequence_no e;
     e_producer := e_producer e; e_visibility := INTERNAL_VISIBILITY |}.

(** The candidates' predicate: an open run whose deadline has passed. *)
Definition overdue (at_ : instant) (r : run_row) : bool :=
  str_in (status r) _OPEN_STATUS_VALUES
  && match deadline_at (spec r) with Some d => Z.leb d at_ | None => false end.

(** ORDER BY deadline_at ASC, id ASC. *)
Definition deadline_leb (a b : run_row) : bool :=
  let da := default 0%Z (deadline_at (spec a)) in
  let db := default 0%Z (deadline_at (spec b)) in
  Z.ltb da db || (Z.eqb da db && Z.leb (run_id a) (run_id b)).

(** The rows whose ids the query for candidates answers. *)
Definition overdue_rows (at_ : instant) (limit : Z) (d : db) : list run_row :=
  take (Z.to_nat (Z.max 1 limit))
    (py_sorted deadline_leb (filter (fun r => overdue at_ r = true) (all_runs d))).
Definition candidates (at_ : instant) (limit : Z) (d : db) : list Z :=
  run_id <$> overdue_rows at_ limit d.

Section deadlines.
Context `{Platform} `{ProviderErrorTaxonomy}.

Definition iso_or_null (o : option instant) : json :=
  match o with Some t => JStr (isoformat t) | None => JNull end.

Definition closeout_events (row : run_row) (at_ closeout : instant) (grace_seconds : Z)
    (elapsed : option Z) : list AgentRunEvent :=
  let root := Some (int_or (root_run_id (spec row)) (run_id row)) in
  [internal (run_event (run_id row) DEADLINE_CLOSEOUT_REQUESTED_EVENT
     [("deadline_at", iso_or_null (deadline_at (spec row)));
      ("closeout_expires_at", JStr (isoformat closeout));
      ("grace_seconds", JInt grace_seconds);
      ("seconds_since_last_state_change", json_of_int elapsed)] root deadline_watchdog);
   internal (run_event (run_id row) _STEERING_SUBMITTED_EVENT
     [("content", JStr (closeout_message elapsed grace_seconds)); ("user_id", JNull);
      ("system", JBool true)] root deadline_watchdog)].

Definition _request_closeout (id : Z) (at_ : instant) (grace_seconds : Z) : DB bool :=
  let closeout := (at_ + grace_seconds * 1000000)%Z in
  matched <- update_run id
    [overdue at_; fun r => bool_decide (closeout_expires_at r = None)]
    [SetCloseoutExpiresAt (Some closeout); SetUpdatedAt at_] ;;
  if negb matched then ret false
  else
    row <- get_run id ;;
    match row with
    | None => ret false
    | Some row =>
        elapsed <- gets (fun s => seconds_since_last_write_tool_call id at_ (pending s)) ;;
        append_events (closeout_events row at_ closeout grace_seconds elapsed) ;;;
        ret true
    end.

Definition deadline_kwargs (at_ : instant) : status_kwargs :=
  {| sk_reason := Some "agent_run_deadline_closeout_elapsed"; sk_claim := None;
     sk_expected_updated_at := None; sk_expected_token := None; sk_expected_attempt := None;
     sk_rollback_on_conflict := true; sk_transitioned_at := Some at_;
     sk_metadata_update := None; sk_allow_requeue := false; sk_before := []; sk_after := [] |}.

(** What is written after the run was expired. *)
Definition settle_expired (row : run_row) (expired : AgentRun) (closeout : instant) : DB unit :=
  let id := run_id row in
  let root := Some (int_or (root_run_id (spec (ar_row expired))) id) in
  let final_output := str_or (safe_terminal_run_message (Member EXPIRED) Absent) "" in
  when_ (negb (String.eqb final_output "")) (
    artifact <- append_final_answer_once id final_output root ;;
    let safe_output := str_or (match artifact with Some a => art_text a | None => None end)
                         final_output in
    delta <- has_event_type id "run.text_delta" ;;
    when_ (negb delta)
      (append_event (run_event id "run.text_completed" [("text", JStr safe_output)] root
         deadline_watchdog) ;;; ret tt)) ;;;
  append_event (run_event id DEADLINE_EXPIRED_EVENT
    [("deadline_at", iso_or_null (deadline_at (spec row)));
     ("closeout_expires_at", JStr (isoformat closeout));
     ("status", JStr (value EXPIRED))] root deadline_watchdog) ;;;
  modify (call_hook (QueueChantierContinuation id)).

Definition _expire_after_closeout (id : Z) (at_ : instant) : DB bool :=
  row <- get_run id ;;
  match row with
  | None => ret false
  | Some row =>
      if negb (str_in (status row) _OPEN_STATUS_VALUES) then ret false
      else match closeout_expires_at row with
      | None => ret false
      | Some closeout =>
          if Z.ltb at_ closeout then ret false
          else
            r <- set_status_with_result id (Member EXPIRED) (deadline_kwargs at_) ;;
            if negb r.2 then ret false
            else settle_expired row r.1 closeout ;;; ret true
      end
  end.

(** What the sweep did to a candidate. *)
Inductive sweep_action : Type := Skipped | NoAction | Requested | Expired.
#[export] Instance sweep_action_eq_dec : EqDecision sweep_action.
Proof. solve_decision. Defined.

(** One iteration of the loop over the candidates. *)
Definition sweep_candidate (at_ : instant) (grace_seconds id : Z) : DB sweep_action :=
  commit_event_boundary ;;;
  locked <- try_lock_maintenance_boundary id ;;
  if negb locked then ret Skipped
  else
    row <- get_run id ;;
    match row with
    | None => ret NoAction
    | Some row =>
        match closeout_expires_at row with
        | None => b <- _request_closeout id at_ grace_seconds ;;
                  ret (if b : bool then Requested else NoAction)
        | Some _ => b <- _expire_after_closeout id at_ ;;
                    ret (if b : bool then Expired else NoAction)
        end
    end.

Fixpoint sweep_candidates (at_ : instant) (grace_seconds : Z) (ids : list Z)
    : DB (list (Z * sweep_action)) :=
  match ids with
  | [] => ret []
  | id :: ids' =>
      action <- sweep_candidate at_ grace_seconds id ;;
      rest <- sweep_candidates at_ grace_seconds ids' ;;
      ret ((id, action) :: rest)
  end.

Definition acted (a : sweep_action) (l : list (Z * sweep_action)) : list Z :=
  (filter (fun x => x.2 = a) l).*1.

Definition sweep_result (l : list (Z * sweep_action)) : DeadlineSweepResult :=
  {| closeout_requested := Z.of_nat (length (acted Requested l));
     expired := Z.of_nat (length (acted Expired l)); expired_run_ids := acted Expired l;
     skipped := Z.of_nat (length (acted Skipped l)); skipped_run_ids := acted Skipped l |}.

Definition sweep_agent_run_deadlines (at_ : option instant) (grace_seconds : option Z)
    (env : string) (limit : Z) : DB DeadlineSweepResult :=
  s <- get ;;
  let resolved_now := default (now s) at_ in
  let resolved_grace := Z.max 1 (default (deadline_closeout_grace_seconds env) grace_seconds) in
  l <- sweep_candidates resolved_now resolved_grace (candidates resolved_now limit (pending s)) ;;
  ret (sweep_result l).

(** * Cancellation, [cancel.py] *)

(** The rows arrive in whatever order the database gives them. *)
Definition async_cancel_open_runs_for_thread (order : list run_row -> list run_row)
    (thread reason : string) : DB Z :=
  s <- get ;;
  let rows := order (filter (fun r => thread_id (spec r) = thread /\
                               str_in (status r) OPEN_RUN_STATUS_VALUES = true) (all_runs (pending s))) in
  for_each (fun row =>
    append_event (run_event (run_id row) "run.canceled" [("reason", JStr reason)]
      (root_run_id (spec row)) AGENT_RUNTIME) ;;;
    canceled <- set_status (run_id row) (Member CANCELED) (Some reason) None ;;
    when_ (bool_decide (ar_status canceled = CANCELED))
      (modify (call_hook (FinalizeCycleRun (run_id row) "canceled")))) rows ;;;
  ret (Z.of_nat (length rows)).

(** [RunCancelToken]; the monotonic clock counts from an origin of its own. *)
Record RunCancelToken : Type := {
  token_run_id : Z;
  poll_interval : Z;
  _last_check : Z;
  _canceled : bool;
}.

(** [a_is_set] at a time of the clock; a failing query reads nothing. *)
Definition a_is_set (clock : Z) (reachable : bool) (d : db) (t : RunCancelToken)
    : RunCancelToken * bool :=
  if _canceled t then (t, true)
  else if Z.ltb (clock - _last_check t) (poll_interval t) then (t, false)
  else
    let t := {| token_run_id := token_run_id t; poll_interval := poll_interval t;
                _last_check := clock; _canceled := false |} in
    if negb reachable then (t, false)
    else
      match first_member (A:=RunStatus) (str_or (status <$> runs d !! token_run_id t) "") members with
      | None => (t, false)
      | Some st =>
          ({| token_run_id := token_run_id t; poll_interval := poll_interval t;
              _last_check := clock; _canceled := is_terminal st |}, is_terminal st)
      end.
End deadlines.
