(* ===== verification/DeadlineTheorems.v ===== *)
(** What the deadline sweep and cancellation do to the table of runs, candidate by
    candidate, and that both keep its invariant. *)
From Stdlib Require Import Ascii.
From S2P Require Import Prelude.
From S2P Require Import PyStr.
From S2P Require Import Json.
From S2P Require Import JsonText.
From S2P Require Import Status.
From S2P Require Import Failures.
From S2P Require Import RunStore.
From S2P Require Import RunCreate.
From S2P Require Import RunLifecycle.
From S2P Require Import RunMessages.
From S2P Require Import RunEvolution.
From S2P Require Import RunOutcome.
From S2P Require Import RunDemo.
From S2P Require Import RunTransitions.
From S2P Require Import RunInterruption.
From S2P Require Import LoopControl.
From S2P Require Import RunDeadlines.
Open Scope string_scope.
Open Scope bool_scope.
Open Scope list_scope.

(** * Write calls *)

(** The text of a JSON value that is no string names no side-effect class. *)
Lemma as_string_no_class v s :
  as_string v = Some s -> (forall t, v <> JStr t) -> str_in s _NON_WRITE_SIDE_EFFECT_CLASSES = false.
Proof.
  intros Hv Hs. destruct v as [|[]|z|t|l|d]; simpl in Hv; try done; simplify_eq; try done.
  - destruct (str_of_Z_cons z) as (a & t & -> & Ha).
    unfold str_in, _NON_WRITE_SIDE_EFFECT_CLASSES. simpl.
    assert (Hr : Ascii.eqb a "r" = false) by (destruct (Ascii.eqb_spec a "r"); [by subst|done]).
    by rewrite Hr.
  - by destruct (Hs s).
Qed.

(** The predicate in SQL selects what the parser calls a write. *)
Lemma is_write_expression_eq p :
  _persisted_is_write_expression p = is_write (parse_persisted_tool_side_effect (JObj p)).
Proof.
  unfold _persisted_is_write_expression, parse_persisted_tool_side_effect. cbn [is_write as_dict].
  set (stored := jget_or_null "is_write" p). set (v := jget_or_null "side_effect" p).
  assert (Hv : match as_string v with
               | None => true | Some s => negb (str_in s _NON_WRITE_SIDE_EFFECT_CLASSES) end =
    negb (str_in match v with
                 | JStr raw => if str_in raw _KNOWN_SIDE_EFFECT_CLASSES then raw else "unknown"
                 | _ => "unknown" end _NON_WRITE_SIDE_EFFECT_CLASSES)).
  { destruct (as_string v) as [s|] eqn:E; [|by destruct v as [|[]| | | |]].
    destruct v as [|b|z|t|l|d]; [done|..]; try by rewrite (as_string_no_class _ _ E).
    injection E as <-. destruct (str_in t _KNOWN_SIDE_EFFECT_CLASSES) eqn:Hk; [done|].
    f_equal. change (str_in "unknown" _NON_WRITE_SIDE_EFFECT_CLASSES) with false.
    apply not_true_iff_false. intros Hn. apply not_true_iff_false in Hk. apply Hk.
    unfold str_in in *. apply existsb_exists in Hn as (x & Hx & Ht). apply String.eqb_eq in Ht as <-.
    apply existsb_exists. exists t. split; [|apply String.eqb_refl].
    simpl in Hx |- *. intuition. }
  destruct stored as [|[]| | | |]; done.
Qed.

(** So the check of the fetched event never refuses it. *)
Lemma seconds_since_last_write_eq id at_ d :
  seconds_since_last_write_tool_call id at_ d =
  (fun e => Z.max 0 (Z.quot (at_ - ev_created_at e) 1000000)) <$> last_write_call id d.
Proof.
  unfold seconds_since_last_write_tool_call. destruct (last_write_call id d) as [e|] eqn:E; [|done].
  unfold last_write_call in E. apply head_Some_elem_of in E.
  rewrite elem_of_py_sorted, list_elem_of_filter, is_write_expression_eq in E.
  by destruct E as [[_ ->] _].
Qed.

(** * The invariant *)

Section deadlines.
Context `{Platform} `{ProviderErrorTaxonomy}.

Lemma closeout_row c t at_ r :
  row_wf r -> closeout_expires_at r = None ->
  let l := [SetUpdatedAt t; SetCloseoutExpiresAt (Some c); SetUpdatedAt at_] in
  row_wf (apply_assigns l r) /\ row_evolves r (apply_assigns l r).
Proof.
  destruct r. simpl. intros [????] ->.
  split; [split|apply row_evolves_intro]; simpl in *; auto; try done.
Qed.

Lemma safe_request_closeout i at_ g : safe (_request_closeout i at_ g).
Proof.
  unfold _request_closeout. pose proof safe_get_run. pose proof append_events_safe.
  apply safe_bind; [|intros; solve_safe].
  apply update_run_safe. simpl. intros r Hr Hp t. bool_simpl. by apply closeout_row.
Qed.

Lemma safe_settle_expired r a c : safe (settle_expired r a c).
Proof.
  unfold settle_expired, has_event_type. pose proof safe_final_answer_once.
  pose proof append_event_safe. solve_safe.
Qed.

Lemma safe_expire_after_closeout i at_ : safe (_expire_after_closeout i at_).
Proof.
  unfold _expire_after_closeout. pose proof safe_get_run. pose proof safe_set_status_with_result.
  pose proof safe_settle_expired. solve_safe.
Qed.

Lemma safe_sweep_candidate at_ g i : safe (sweep_candidate at_ g i).
Proof.
  unfold sweep_candidate, commit_event_boundary. pose proof safe_maintenance_boundary.
  pose proof safe_get_run. pose proof safe_request_closeout. pose proof safe_expire_after_closeout.
  solve_safe.
Qed.

Lemma safe_sweep_candidates at_ g l : safe (sweep_candidates at_ g l).
Proof. induction l; simpl; pose proof safe_sweep_candidate; solve_safe. Qed.

Lemma safe_sweep at_ g env limit : safe (sweep_agent_run_deadlines at_ g env limit).
Proof. unfold sweep_agent_run_deadlines. pose proof safe_sweep_candidates. solve_safe. Qed.

Lemma safe_cancel_thread order thread reason :
  safe (async_cancel_open_runs_for_thread order thread reason).
Proof.
  unfold async_cancel_open_runs_for_thread. pose proof append_event_safe. pose proof safe_set_status.
  solve_safe.
Qed.
End deadlines.

(** * One candidate *)

(** Another transaction holds a lock the sweep needs, or the parent's row is gone. *)
Definition busy (s : store) (r : run_row) : bool :=
  bool_decide (dialect s = Postgresql) &&
  negb (bool_decide (available s true (int_or (parent_run_id (spec r)) (run_id r)) /\
                     available s true (run_id r))).

(** What the sweep does to an overdue run. *)
Definition verdict (s : store) (at_ : instant) (r : run_row) : sweep_action :=
  if busy s r then Skipped
  else match closeout_expires_at r with
       | None => Requested
       | Some c => if Z.ltb at_ c then NoAction else Expired
       end.

Definition closeout_at (at_ : instant) (grace_seconds : Z) : instant := (at_ + grace_seconds * 1000000)%Z.

Section sweep.
Context `{Platform} `{ProviderErrorTaxonomy}.

(** The rows and events the action leaves, from the row [r] of state [s]. *)
Definition swept (at_ : instant) (grace_seconds : Z) (a : sweep_action) (s s' : store) (r : run_row) : Prop :=
  let trace := event_trace (run_id r) in
  match a with
  | Skipped | NoAction =>
      runs (pending s') !! run_id r = Some r /\ trace (pending s') = trace (pending s)
  | Requested =>
      let c := closeout_at at_ grace_seconds in
      exists r', runs (pending s') !! run_id r = Some r' /\
        closeout_expires_at r' = Some c /\ updated_at r' = at_ /\ status r' = status r /\
        spec r' = spec r /\ metadata_ r' = metadata_ r /\
        execution_token r' = execution_token r /\ execution_attempt r' = execution_attempt r /\
        trace (pending s') = trace (pending s) ++
          numbered (max_sequence (run_id r) (pending s) + 1)
            (closeout_events r at_ c grace_seconds
               (seconds_since_last_write_tool_call (run_id r) at_ (pending s)))
  | Expired =>
      exists r' art, runs (pending s') !! run_id r = Some r' /\
        status r' = value EXPIRED /\ expired_at r' = Some at_ /\ execution_token r' = None /\
        closeout_expires_at r' = closeout_expires_at r /\ spec r' = spec r /\
        metadata_ r' = metadata_ r /\
        art ∈ artifacts (pending s') /\ art_run_id art = run_id r /\ art_type art = value FINAL_ANSWER /\
        QueueChantierContinuation (run_id r) ∈ hook_calls s'
  end.

Lemma filter_id_iff (P : Z -> Prop) `{!forall x, Decision (P x)} l : filter P l = l <-> Forall P l.
Proof.
  rewrite Forall_forall. split; [|apply filter_all].
  intros E x Hx. rewrite <- E in Hx. by apply list_elem_of_filter in Hx as [? _].
Qed.

Lemma omap_some (l : list Z) : omap id (Some <$> l) = l.
Proof. induction l as [|x l IH]; [done|]. change (x :: omap id (Some <$> l) = x :: l). by rewrite IH. Qed.

Lemma maintenance_boundary_ok s r :
  runs (pending s) !! run_id r = Some r ->
  exists s', try_lock_maintenance_boundary (run_id r) s = (s', Ok (negb (busy s r))) /\ locked s s'.
Proof.
  intros Hr. unfold try_lock_maintenance_boundary, busy.
  rewrite (bind_eq_ok _ _ _ _ _ (refresh_or_none_eq s (run_id r))), Hr. cbv zeta.
  set (ids := [int_or (parent_run_id (spec r)) (run_id r); run_id r]).
  assert (Hav : Forall (available s true) (sorted_ids ids) <->
    available s true (int_or (parent_run_id (spec r)) (run_id r)) /\ available s true (run_id r)).
  { rewrite Forall_forall. setoid_rewrite elem_of_sorted_ids. unfold ids. set_solver. }
  assert (Hnil : sorted_ids ids <> []).
  { intros E. apply (not_elem_of_nil (run_id r)). rewrite <- E, elem_of_sorted_ids. set_solver. }
  unfold _acquire_agent_run_locks. rewrite omap_some. unfold bind at 1 2, get.
  assert (Hlen : Nat.eqb (length (sorted_ids ids)) 0 = false)
    by (apply Nat.eqb_neq; by intros E%length_zero_iff_nil).
  rewrite Hlen. cbn [orb]. destruct (bool_decide (dialect s = Postgresql)) eqn:Hd; cbn [negb andb].
  - apply bool_decide_eq_true in Hd.
    unfold bind at 1, modify. cbn [ret]. unfold ret at 1. unfold bind at 1, get.
    set (got := filter _ (sorted_ids ids)). change (dialect (log_locks _ s)) with (dialect s).
    rewrite bool_decide_eq_true_2 by done. cbn [andb].
    assert (Hgot : got = sorted_ids ids <-> Forall (available s true) (sorted_ids ids))
      by (apply (filter_id_iff (available s true))).
    destruct (decide (Forall (available s true) (sorted_ids ids))) as [Hf|Hf].
    + rewrite (bool_decide_eq_true_2 (got = _)) by by apply Hgot. cbn [negb].
      apply Hav in Hf as Ha. rewrite bool_decide_eq_true_2 by done.
      unfold try_lock_event_stream, bind at 1, get. change (dialect (log_locks _ s)) with (dialect s).
      rewrite bool_decide_eq_true_2 by done. cbn [negb].
      change (foreign_locks (log_locks _ s)) with (foreign_locks s).
      rewrite bool_decide_eq_false_2 by (by apply Ha).
      eexists. split; [done|]. etrans; apply locked_log.
    + rewrite (bool_decide_eq_false_2 (got = _)) by (by rewrite Hgot). cbn [negb].
      rewrite bool_decide_eq_false_2 by (by rewrite <- Hav).
      eexists. split; [done|]. apply locked_log.
  - apply bool_decide_eq_false in Hd. unfold ret at 1. unfold bind at 1, get.
    rewrite bool_decide_eq_false_2 by done. cbn [andb].
    unfold try_lock_event_stream, bind at 1, get. rewrite bool_decide_eq_false_2 by done.
    exists s. split; [done|reflexivity].
Qed.

(** An overdue row has an open status. *)
Lemma overdue_status at_ r :
  overdue at_ r = true -> status r = value (row_status r) /\ is_terminal (row_status r) = false /\
    str_in (status r) _OPEN_STATUS_VALUES = true.
Proof.
  unfold overdue. intros [Ho _]%andb_true_iff. unfold str_in in Ho.
  apply existsb_exists in Ho as (v & Hv & E). apply String.eqb_eq in E.
  unfold _OPEN_STATUS_VALUES in Hv. apply list_elem_of_In, list_elem_of_fmap in Hv as (st & -> & Hst).
  assert (Hrow : row_status r = st) by (unfold row_status; rewrite E; apply coerce_value).
  rewrite Hrow. split; [done|]. split; [by destruct st; try done; set_solver|].
  unfold str_in. apply existsb_exists. exists (value st). rewrite E, String.eqb_refl. split; [|done].
  by apply list_elem_of_In, list_elem_of_fmap; exists st.
Qed.

Definition requested_row (t : instant) (at_ c : instant) (r : run_row) : run_row :=
  apply_assigns [SetUpdatedAt t; SetCloseoutExpiresAt (Some c); SetUpdatedAt at_] r.

Lemma requested_row_fields t at_ c r :
  let r' := requested_row t at_ c r in
  run_id r' = run_id r /\ spec r' = spec r /\ closeout_expires_at r' = Some c /\ updated_at r' = at_ /\
  status r' = status r /\ metadata_ r' = metadata_ r /\ execution_token r' = execution_token r /\
  execution_attempt r' = execution_attempt r.
Proof. by destruct r. Qed.

Lemma closeout_events_own r at_ c g e :
  Forall (fun ev => e_run_id ev = run_id r /\ e_sequence_no ev = None) (closeout_events r at_ c g e).
Proof. by repeat constructor. Qed.

Lemma request_closeout_ok s r at_ g :
  runs (pending s) !! run_id r = Some r -> overdue at_ r = true -> closeout_expires_at r = None ->
  exists s', _request_closeout (run_id r) at_ g s = (s', Ok true) /\ row_step (run_id r) s s' /\
    swept at_ g Requested s s' r.
Proof.
  intros Hr Ho Hc. set (c := closeout_at at_ g). set (r1 := requested_row (now s) at_ c r).
  destruct (requested_row_fields (now s) at_ c r) as (F1 & F2 & F3 & F4 & F5 & F6 & F7 & F8).
  fold r1 in F1, F2, F3, F4, F5, F6, F7, F8.
  set (d1 := with_runs (pending s) (<[run_id r := r1]> (runs (pending s)))).
  unfold _request_closeout. cbv zeta. fold (closeout_at at_ g). fold c.
  assert (Hp : forallb (fun p => p r) [overdue at_; fun r => bool_decide (closeout_expires_at r = None)] = true)
    by (cbn [forallb]; by rewrite Ho, bool_decide_eq_true_2).
  rewrite (bind_eq_ok _ _ _ _ _ (update_run_ok s _ _ _ r Hr Hp)).
  cbn [negb]. fold (requested_row (now s) at_ c r) r1 d1. set (s1 := set_pending d1 s).
  rewrite (bind_eq_ok (get_run (run_id r)) _ s1 s1 (Some r1)).
  2:{ unfold get_run, gets. simpl. by rewrite lookup_insert_eq. }
  assert (Hev : closeout_events r1 at_ c g = closeout_events r at_ c g)
    by (unfold closeout_events; by rewrite F1, F2).
  rewrite Hev.
  set (elapsed := seconds_since_last_write_tool_call (run_id r) at_ (pending s)).
  match goal with |- context [bind (gets ?f) ?k s1] =>
    rewrite (bind_eq_ok (gets f) k s1 s1 elapsed) by done end.
  pose proof (closeout_events_own r at_ c g elapsed) as Hown.
  destruct (append_events_ok (closeout_events r at_ c g elapsed) s1) as (s2 & E2 & W).
  { eapply Forall_impl; [exact Hown|by intros ? []]. }
  rewrite (bind_eq_ok _ _ _ _ _ E2). exists s2. split; [done|].
  apply (writes_trans _ _ _ _ _ (writes_pending s d1)) in W.
  assert (Hids : Forall (fun e => e_run_id e = run_id r) (closeout_events r at_ c g elapsed))
    by (eapply Forall_impl; [exact Hown|by intros ? []]).
  split.
  - eapply writes_row_step; [exact W| | | |].
    + intros j Hj. rewrite add_events_runs. by apply lookup_insert_ne.
    + intros _. rewrite add_events_runs. simpl. rewrite lookup_insert_eq. by eexists.
    + intros j Hj. by rewrite (run_events_add_events _ (run_id r)).
    + by rewrite add_events_artifacts.
  - exists r1. rewrite (wr_pending _ _ _ W), add_events_runs. split; [apply lookup_insert_eq|].
    split_and!; try done. by rewrite (event_trace_add_events _ (run_id r)).
Qed.

Lemma settle_expired_eq row a c :
  settle_expired row a c =
  finish_expired (run_id row) (Some (int_or (root_run_id (spec (ar_row a))) (run_id row))) deadline_watchdog
    (run_event (run_id row) DEADLINE_EXPIRED_EVENT
      [("deadline_at", iso_or_null (deadline_at (spec row)));
       ("closeout_expires_at", JStr (isoformat c)); ("status", JStr (value EXPIRED))]
      (Some (int_or (root_run_id (spec (ar_row a))) (run_id row))) deadline_watchdog).
Proof. done. Qed.

(** Settling an open run at a status decides an accepted change. *)
Lemma settle_accepted s r target k :
  runs (pending s) !! run_id r = Some r -> status r = value (row_status r) ->
  is_terminal (row_status r) = false -> is_terminal target = true -> target <> COMPLETED ->
  sk_claim k = None -> sk_expected_updated_at k = None -> sk_expected_token k = None ->
  sk_expected_attempt k = None ->
  decide_status s r (Member target) k = Accepted (row_status r) target.
Proof.
  intros Hr Hv Ht Htt Hc K1 K2 K3 K4. unfold decide_status, status_predicates. rewrite K1, K2, K3, K4.
  cbn [claim_ok negb]. rewrite Ht.
  assert (He : ensure_run_transition (Raw (status r)) (Member target) (sk_allow_requeue k) =
               Ok (row_status r, target)).
  { rewrite Hv. revert Ht. by destruct (row_status r), target, (sk_allow_requeue k). }
  rewrite He, decide_False by (intros E; rewrite E in Ht; congruence).
  rewrite Hr. simpl. by rewrite <- Hv, String.eqb_refl.
Qed.

Lemma set_status_ok s r target k :
  row_wf r -> runs (pending s) !! run_id r = Some r -> root_present s r ->
  target <> FAILED -> sk_claim k = None ->
  exists s1, locked s s1 /\
    set_status_with_result (run_id r) (Member target) k s =
    _set_status_on_locked_run r (Member target) k s1.
Proof.
  intros Hwf Hr Hroot Hf Hk. unfold set_status_with_result. cbn [names_failed].
  rewrite bool_decide_eq_false_2 by done. rewrite Hk. cbn [check_claim_lost].
  rewrite (bind_eq_ok (ret tt) _ s s tt) by done.
  destruct (locked_run_ok s (run_id r) None r) as (s1 & Hl & E1); [done|done|done|by left|].
  exists s1. split; [done|]. by rewrite (bind_eq_ok _ _ _ _ _ E1).
Qed.

Lemma expire_ok s r c at_ g :
  row_wf r -> runs (pending s) !! run_id r = Some r -> root_present s r -> overdue at_ r = true ->
  closeout_expires_at r = Some c -> (c <= at_)%Z ->
  exists s', _expire_after_closeout (run_id r) at_ s = (s', Ok true) /\ row_step (run_id r) s s' /\
    swept at_ g Expired s s' r.
Proof.
  intros Hwf Hr Hroot Ho Hc Hle. destruct (overdue_status _ _ Ho) as (Hv & Ht & Hin).
  unfold _expire_after_closeout.
  rewrite (bind_eq_ok (get_run (run_id r)) _ s s (Some r)) by (unfold get_run, gets; by rewrite Hr).
  rewrite Hin, Hc. cbn [negb]. destruct (Z.ltb_spec at_ c); [lia|].
  destruct (set_status_ok s r EXPIRED (deadline_kwargs at_) Hwf Hr Hroot) as (s1 & Hl & Es); [done|done|].
  destruct (locked_fields _ _ Hl) as (Ep & _ & _ & _ & En & _).
  destruct (set_status_accepted s1 r (Member EXPIRED) (deadline_kwargs at_) (row_status r) EXPIRED Hwf)
    as (s2 & a & r' & E2 & Ea & _ & Hruns & Hst & Hsp & _ & Htok & Hstamp & _ & _ & _ & Hmeta & Hclose & _ & Hstep).
  { by rewrite Ep. }
  { apply settle_accepted; try done. by rewrite Ep. }
  { constructor. }
  rewrite (bind_eq_ok _ _ s s2 (a, true)) by (by rewrite Es). cbn [snd fst negb].
  rewrite settle_expired_eq.
  destruct (finish_expired_ok (run_id r) (Some (int_or (root_run_id (spec (ar_row a))) (run_id r)))
      deadline_watchdog (run_event (run_id r) DEADLINE_EXPIRED_EVENT
      [("deadline_at", iso_or_null (deadline_at (spec r)));
       ("closeout_expires_at", JStr (isoformat c)); ("status", JStr (value EXPIRED))]
      (Some (int_or (root_run_id (spec (ar_row a))) (run_id r))) deadline_watchdog) s2 eq_refl eq_refl)
    as (s3 & art & E3 & Q & Hart & Hid & Hty & Hl3).
  rewrite (bind_eq_ok _ _ _ _ _ E3). exists s3. split; [done|].
  assert (Hstep' : row_step (run_id r) s s3).
  { etrans; [apply locked_row_step, Hl|]. etrans; [exact Hstep|apply (qs_step _ _ _ Q)]. }
  split; [done|]. exists r', art. rewrite (qs_runs _ _ _ Q), Hruns, lookup_insert_eq.
  split_and!; try done.
  - apply Hstamp. set_solver.
  - apply last_Some_elem_of in Hl3. done.
Qed.

Lemma sweep_candidate_ok s r at_ g :
  row_wf r -> runs (pending s) !! run_id r = Some r -> root_present s r -> overdue at_ r = true ->
  exists s', sweep_candidate at_ g (run_id r) s = (s', Ok (verdict s at_ r)) /\
    row_step (run_id r) s s' /\ swept at_ g (verdict s at_ r) s s' r.
Proof.
  intros Hwf Hr Hroot Ho. unfold sweep_candidate.
  set (s0 := set_committed (pending s) s).
  rewrite (bind_eq_ok commit_event_boundary _ s s0 tt) by done.
  destruct (maintenance_boundary_ok s0 r Hr) as (s1 & E1 & Hl). rewrite (bind_eq_ok _ _ _ _ _ E1).
  change (busy s0 r) with (busy s r). unfold verdict.
  destruct (locked_fields _ _ Hl) as (Ep & _).
  assert (H01 : row_step (run_id r) s s1).
  { etrans; [|apply locked_row_step, Hl]. by split. }
  destruct (busy s r); cbn [negb].
  { exists s1. split; [done|]. split; [done|]. unfold swept. by rewrite Ep. }
  assert (Hr1 : runs (pending s1) !! run_id r = Some r) by (by rewrite Ep).
  rewrite (bind_eq_ok (get_run (run_id r)) _ s1 s1 (Some r)) by (unfold get_run, gets; by rewrite Hr1).
  destruct (closeout_expires_at r) as [c|] eqn:Hc.
  - destruct (Z.ltb_spec at_ c) as [Hlt|Hge].
    + unfold _expire_after_closeout.
      destruct (overdue_status _ _ Ho) as (_ & _ & Hin).
      exists s1. split; [|split; [done|unfold swept; by rewrite Ep]].
      assert (E : _expire_after_closeout (run_id r) at_ s1 = (s1, Ok false)).
      { unfold _expire_after_closeout.
        rewrite (bind_eq_ok (get_run (run_id r)) _ s1 s1 (Some r)) by (unfold get_run, gets; by rewrite Hr1).
        rewrite Hin, Hc. cbn [negb]. by destruct (Z.ltb_spec at_ c); [|lia]. }
      by rewrite (bind_eq_ok _ _ _ _ _ E).
    + destruct (expire_ok s1 r c at_ g Hwf Hr1) as (s2 & E2 & Hst & Hsw); try done.
      { unfold root_present. by rewrite Ep. }
      exists s2. rewrite (bind_eq_ok _ _ _ _ _ E2). split; [done|]. split; [by etrans|done].
  - destruct (request_closeout_ok s1 r at_ g Hr1 Ho Hc) as (s2 & E2 & Hst & Hsw).
    exists s2. rewrite (bind_eq_ok _ _ _ _ _ E2). split; [done|]. split; [by etrans|].
    unfold swept in *. rewrite Ep in Hsw. exact Hsw.
Qed.

(** ** All candidates *)

(** Between [s] and [s'] nothing happened to run [i]. *)
Record keeps (i : Z) (s s' : store) : Prop := {
  kp_run : runs (pending s') !! i = runs (pending s) !! i;
  kp_events : run_events i (pending s') = run_events i (pending s);
  kp_artifacts : artifacts (pending s) `prefix_of` artifacts (pending s');
  kp_hooks : hook_calls s `prefix_of` hook_calls s';
}.

#[export] Instance keeps_preorder i : PreOrder (keeps i).
Proof. split; [by split|]. intros a b c [] []. split; try congruence; by etrans. Qed.

Lemma row_step_keeps i j s s' : row_step j s s' -> i <> j -> keeps i s s'.
Proof. intros [] Hne. split; auto. Qed.

Lemma keeps_trace i s s' : keeps i s s' -> event_trace i (pending s') = event_trace i (pending s).
Proof. intros [_ E _ _]. unfold event_trace. by rewrite E. Qed.

(** What was done to a run stays done while others are worked on. *)
Lemma swept_after at_ g a s s1 s2 r :
  swept at_ g a s s1 r -> keeps (run_id r) s1 s2 -> swept at_ g a s s2 r.
Proof.
  intros Hsw Hk. pose proof (keeps_trace _ _ _ Hk) as Et. destruct Hk as [Er _ [la Ha] [lh Hh]].
  unfold swept in *. rewrite Er. destruct a.
  - by rewrite Et.
  - by rewrite Et.
  - by rewrite Et.
  - destruct Hsw as (r' & art & H1 & H2 & H3 & H4 & H5 & H6 & H7 & H8 & H9 & H10 & H11).
    exists r', art. rewrite Ha, Hh. split_and!; set_solver.
Qed.

Lemma swept_before at_ g a s s1 s2 r :
  keeps (run_id r) s s1 -> swept at_ g a s1 s2 r -> swept at_ g a s s2 r.
Proof.
  intros Hk. pose proof (keeps_trace _ _ _ Hk) as Et. destruct Hk as [Er Ee _ _].
  unfold swept. rewrite Et. unfold max_sequence, seconds_since_last_write_tool_call, last_write_call.
  by rewrite Ee.
Qed.

Lemma verdict_after at_ j s s1 r :
  row_step j s s1 -> is_Some (runs (pending s) !! j) -> verdict s1 at_ r = verdict s at_ r.
Proof.
  intros Hst Hj. unfold verdict, busy. rewrite (st_dialect _ _ _ Hst).
  assert (Hav : forall i, available s1 true i <-> available s true i).
  { intros i. unfold available. rewrite (st_foreign _ _ _ Hst).
    destruct (decide (i = j)) as [->|Hne]; [|by rewrite (st_others _ _ _ Hst i Hne)].
    pose proof (st_present _ _ _ Hst Hj). tauto. }
  by erewrite (bool_decide_ext (_ /\ _)) by (by rewrite !Hav).
Qed.

Definition sweepable (s : store) (at_ : instant) (r : run_row) : Prop :=
  runs (pending s) !! run_id r = Some r /\ root_present s r /\ overdue at_ r = true.

Lemma sweepable_after at_ j s s1 r :
  row_step j s s1 -> run_id r <> j -> sweepable s at_ r -> sweepable s1 at_ r.
Proof.
  intros Hst Hne (Hr & Hroot & Ho). split; [|split; [|done]].
  - by rewrite (st_others _ _ _ Hst).
  - by apply (row_step_present _ _ _ _ Hst).
Qed.

Lemma sweep_candidates_ok at_ g rows : forall s,
  store_inv s -> NoDup (run_id <$> rows) -> Forall (sweepable s at_) rows ->
  exists s', sweep_candidates at_ g (run_id <$> rows) s =
      (s', Ok ((fun r => (run_id r, verdict s at_ r)) <$> rows)) /\
    (forall r, r ∈ rows -> swept at_ g (verdict s at_ r) s s' r) /\
    (forall j, j ∉ run_id <$> rows -> keeps j s s').
Proof.
  induction rows as [|r rows IH]; intros s Hinv Hnd Hall.
  - exists s. split; [done|]. split; [set_solver|]. reflexivity.
  - apply NoDup_cons in Hnd as [Hnin Hnd]. apply Forall_cons in Hall as [(Hr & Hroot & Ho) Hall].
    cbn [fmap list_fmap sweep_candidates].
    destruct (sweep_candidate_ok s r at_ g) as (s1 & E1 & Hst & Hsw); try done.
    { by apply (wf_rows _ (inv_pending _ Hinv) (run_id r)). }
    rewrite (bind_eq_ok _ _ _ _ _ E1).
    assert (Hinv1 : store_inv s1).
    { pose proof (safe_sweep_candidate at_ g (run_id r) s) as Hs. rewrite E1 in Hs. by apply Hs. }
    assert (Hne : forall r', r' ∈ rows -> run_id r' <> run_id r).
    { intros r' Hr' E. apply Hnin. rewrite <- E. by apply list_elem_of_fmap_2. }
    destruct (IH s1 Hinv1 Hnd) as (s2 & E2 & Hsw2 & Hk).
    { rewrite Forall_forall in *. intros r' Hr'. eapply sweepable_after; eauto. }
    rewrite (bind_eq_ok _ _ _ _ _ E2). exists s2.
    assert (Hv : forall r', verdict s1 at_ r' = verdict s at_ r') by (intros; eapply verdict_after; eauto).
    split_and!.
    + unfold ret. do 3 f_equal. apply list_fmap_ext. intros i x _. by rewrite Hv.
    + intros r' [->|Hr']%elem_of_cons; [by eapply swept_after, Hk|].
      eapply swept_before; [by eapply row_step_keeps, Hne|]. rewrite <- Hv. by apply Hsw2.
    + intros j Hj. apply not_elem_of_cons in Hj as [Hj1 Hj2].
      etrans; [by eapply row_step_keeps|by apply Hk].
Qed.

Lemma elem_of_all_runs d r : db_wf d -> r ∈ all_runs d <-> runs d !! run_id r = Some r.
Proof.
  intros Hwf. unfold all_runs. rewrite list_elem_of_fmap. split.
  - intros ([i x] & -> & Hx%elem_of_map_to_list). simpl. by destruct (wf_ids _ Hwf _ _ Hx) as [-> _].
  - intros Hr. exists (run_id r, r). by rewrite elem_of_map_to_list.
Qed.

Lemma all_runs_nodup d : db_wf d -> NoDup (run_id <$> all_runs d).
Proof.
  intros Hwf. unfold all_runs. rewrite <- list_fmap_compose.
  rewrite (list_fmap_ext _ fst); [apply NoDup_fst_map_to_list|].
  intros i [j r] Hi%list_elem_of_lookup_2%elem_of_map_to_list. simpl.
  by destruct (wf_ids _ Hwf _ _ Hi) as [-> _].
Qed.

Lemma nodup_fmap_filter {A B} (f : A -> B) (P : A -> Prop) `{!forall x, Decision (P x)} l :
  NoDup (f <$> l) -> NoDup (f <$> filter P l).
Proof.
  induction l as [|x l IH]; [done|]. intros [Hx Hl]%NoDup_cons. rewrite filter_cons.
  case_decide; [|by apply IH]. apply NoDup_cons. split; [|by apply IH].
  intros (y & E & [_ Hy]%list_elem_of_filter)%list_elem_of_fmap. apply Hx. rewrite E.
  by apply list_elem_of_fmap_2.
Qed.

(** The foreign key on [root_run_id]. *)
Definition roots_present (s : store) : Prop :=
  forall i r, runs (pending s) !! i = Some r -> root_present s r.

Lemma overdue_rows_sweepable s at_ limit :
  store_inv s -> roots_present s ->
  NoDup (run_id <$> overdue_rows at_ limit (pending s)) /\
  Forall (sweepable s at_) (overdue_rows at_ limit (pending s)).
Proof.
  intros Hinv Hroots. pose proof (inv_pending _ Hinv) as Hwf. unfold overdue_rows. split.
  - rewrite fmap_take. eapply sublist_NoDup; [|apply sublist_take].
    rewrite py_sorted_perm. by apply nodup_fmap_filter, all_runs_nodup.
  - apply Forall_take, Forall_forall. intros r. rewrite elem_of_py_sorted, list_elem_of_filter.
    intros [Ho Hr]. apply elem_of_all_runs in Hr; [|done]. split; [done|]. split; [by eapply Hroots|done].
Qed.

Lemma overdue_left_out at_ limit d r :
  db_wf d -> runs d !! run_id r = Some r -> overdue at_ r = true -> r ∉ overdue_rows at_ limit d ->
  length (overdue_rows at_ limit d) = Z.to_nat (Z.max 1 limit) /\
  Forall (fun r' => deadline_leb r' r = true) (overdue_rows at_ limit d).
Proof.
  intros Hwf Hr Ho Hn. apply (sorted_take (fun x y => deadline_leb x y = true)); [|by rewrite elem_of_py_sorted, list_elem_of_filter, elem_of_all_runs|done].
  apply py_sorted_ordered; unfold deadline_leb; intros *;
    rewrite ?orb_true_iff, ?andb_true_iff, ?Z.ltb_lt, ?Z.eqb_eq, ?Z.leb_le; lia.
Qed.

Lemma deadline_sweep_ok (s : store) (at_ : option instant) (grace_seconds : option Z)
    (env : string) (limit : Z) :
  store_inv s -> roots_present s ->
  let t := default (now s) at_ in
  let g := Z.max 1 (default (deadline_closeout_grace_seconds env) grace_seconds) in
  let rows := overdue_rows t limit (pending s) in
  exists s', sweep_agent_run_deadlines at_ grace_seconds env limit s =
      (s', Ok (sweep_result ((fun r => (run_id r, verdict s t r)) <$> rows))) /\
    (forall r, r ∈ rows -> runs (pending s) !! run_id r = Some r /\ overdue t r = true /\
       swept t g (verdict s t r) s s' r) /\
    (forall r, runs (pending s) !! run_id r = Some r -> overdue t r = true -> r ∉ rows ->
       length rows = Z.to_nat (Z.max 1 limit) /\ Forall (fun r' => deadline_leb r' r = true) rows) /\
    (forall j, j ∉ run_id <$> rows -> runs (pending s') !! j = runs (pending s) !! j /\
       event_trace j (pending s') = event_trace j (pending s)).
Proof.
  intros Hinv Hroots t g rows.
  destruct (overdue_rows_sweepable s t limit Hinv Hroots) as [Hnd Hall]. fold rows in Hnd, Hall.
  destruct (sweep_candidates_ok t g rows s Hinv Hnd Hall) as (s' & E & Hsw & Hk).
  exists s'. split_and!.
  - unfold sweep_agent_run_deadlines, bind at 1, get. cbv zeta. fold t g.
    unfold candidates. fold rows. by rewrite (bind_eq_ok _ _ _ _ _ E).
  - intros r Hr. rewrite Forall_forall in Hall. destruct (Hall r Hr) as (? & _ & ?). auto.
  - intros r Hr Ho Hn. apply overdue_left_out; [apply (inv_pending _ Hinv)|done..].
  - intros j Hj. specialize (Hk j Hj). split; [apply (kp_run _ _ _ Hk)|by apply keeps_trace].
Qed.

(** A run the sweep expired had been asked to close out, and its window is over. *)
Lemma expired_due (s s' : store) (at_ : option instant) (grace_seconds : option Z) (env : string)
    (limit i : Z) (res : DeadlineSweepResult) :
  store_inv s -> roots_present s ->
  sweep_agent_run_deadlines at_ grace_seconds env limit s = (s', Ok res) -> i ∈ expired_run_ids res ->
  exists r c, runs (pending s) !! i = Some r /\ closeout_expires_at r = Some c /\
    (c <= default (now s) at_)%Z.
Proof.
  intros Hinv Hroots E Hi.
  destruct (deadline_sweep_ok s at_ grace_seconds env limit Hinv Hroots) as (s2 & E2 & Hrows & _).
  rewrite E2 in E. injection E as _ <-. simpl in Hi. unfold acted in Hi.
  apply list_elem_of_fmap in Hi as ([j a] & -> & [Ha Hx]%list_elem_of_filter). simpl in Ha. subst a.
  apply list_elem_of_fmap in Hx as (r & [= -> Hv] & Hr). destruct (Hrows r Hr) as [Hl _].
  exists r. unfold verdict in Hv. destruct (busy s r), (closeout_expires_at r) as [c|]; try done.
  exists c. destruct (Z.ltb_spec (default (now s) at_) c); [done|]. by split_and!.
Qed.

(** C25. The deadline sweep acts on every overdue open run, oldest deadline first
    and no more than its limit: a run whose lock another transaction holds is
    skipped; one not yet asked to close out is asked once, by an event and a
    steering message, and its window, at least a second, starts; one whose window
    is over is expired with a final answer and its conversation continued; and one
    whose window is open is left alone.  The counts and ids answered say exactly
    this, and every other run keeps its row and its events. *)
Theorem deadline_sweep_spec (s : store) (at_ : option instant) (grace_seconds : option Z)
    (env : string) (limit : Z) :
  store_inv s -> roots_present s ->
  let t := default (now s) at_ in
  let g := Z.max 1 (default (deadline_closeout_grace_seconds env) grace_seconds) in
  let rows := overdue_rows t limit (pending s) in
  exists s', sweep_agent_run_deadlines at_ grace_seconds env limit s =
      (s', Ok (sweep_result ((fun r => (run_id r, verdict s t r)) <$> rows))) /\
    (forall r, r ∈ rows -> runs (pending s) !! run_id r = Some r /\ overdue t r = true /\
       swept t g (verdict s t r) s s' r) /\
    (forall r, runs (pending s) !! run_id r = Some r -> overdue t r = true -> r ∉ rows ->
       length rows = Z.to_nat (Z.max 1 limit) /\ Forall (fun r' => deadline_leb r' r = true) rows) /\
    (forall j, j ∉ run_id <$> rows -> runs (pending s') !! j = runs (pending s) !! j /\
       event_trace j (pending s') = event_trace j (pending s)).
Proof. apply deadline_sweep_ok. Qed.
End sweep.

(** * Cancellation *)

Section cancel.
Context `{Platform} `{ProviderErrorTaxonomy}.

Definition cancel_event (reason : string) (r : run_row) : AgentRunEvent :=
  run_event (run_id r) "run.canceled" [("reason", JStr reason)] (root_run_id (spec r)) AGENT_RUNTIME.

(** What cancellation leaves of the open run [r]. *)
Definition canceled_from (reason : string) (s s' : store) (r : run_row) : Prop :=
  exists r', runs (pending s') !! run_id r = Some r' /\ status r' = value CANCELED /\
    canceled_at r' = Some (now s) /\ execution_token r' = None /\ spec r' = spec r /\
    metadata_ r' = metadata_ r /\
    event_trace (run_id r) (pending s') = event_trace (run_id r) (pending s) ++
      numbered (max_sequence (run_id r) (pending s) + 1)
        [cancel_event reason r;
         status_changed_event (run_id r) (value (row_status r)) (value CANCELED)
           (root_run_id (spec r)) (Some reason)] /\
    FinalizeCycleRun (run_id r) "canceled" ∈ hook_calls s'.

Definition cancel_one (reason : string) (row : run_row) : DB unit :=
  append_event (cancel_event reason row) ;;;
  canceled <- set_status (run_id row) (Member CANCELED) (Some reason) None ;;
  when_ (bool_decide (ar_status canceled = CANCELED))
    (modify (call_hook (FinalizeCycleRun (run_id row) "canceled"))).

Definition cancelable (s : store) (r : run_row) : Prop :=
  runs (pending s) !! run_id r = Some r /\ root_present s r /\
  str_in (status r) OPEN_RUN_STATUS_VALUES = true.

Lemma open_status r : str_in (status r) OPEN_RUN_STATUS_VALUES = true ->
  status r = value (row_status r) /\ is_terminal (row_status r) = false.
Proof.
  unfold str_in. intros (v & Hv & <-%String.eqb_eq)%existsb_exists. apply list_elem_of_In in Hv.
  assert (Ho : exists st, status r = value st /\ is_terminal st = false).
  { revert Hv. unfold OPEN_RUN_STATUS_VALUES, ACTIVE_RUN_STATUS_VALUES.
    rewrite !elem_of_cons, elem_of_nil. intuition eauto 10. }
  destruct Ho as (st & Hst & Ht). unfold row_status. by rewrite Hst, coerce_value.
Qed.

Lemma cancel_one_ok reason s r :
  row_wf r -> cancelable s r ->
  exists s', cancel_one reason r s = (s', Ok tt) /\ row_step (run_id r) s s' /\ canceled_from reason s s' r.
Proof.
  intros Hwf (Hr & Hroot & Ho). apply open_status in Ho as [Hv Ht]. unfold cancel_one.
  destruct (append_event_ok (cancel_event reason r) s eq_refl) as (s1 & E1 & W & _).
  rewrite (bind_eq_ok _ _ _ _ _ E1).
  assert (Q1 : quiet_step (run_id r) s s1)
    by (apply (append_events_quiet _ [cancel_event reason r] s s1); [by constructor|exact W]).
  pose proof (qs_runs _ _ _ Q1) as Er.
  assert (Htr1 : event_trace (run_id r) (pending s1) = event_trace (run_id r) (pending s) ++
            numbered (max_sequence (run_id r) (pending s) + 1) [cancel_event reason r]).
  { rewrite (wr_pending _ _ _ W).
    apply (event_trace_add_events (now s) (run_id r) [cancel_event reason r]). by constructor. }
  assert (Hmax1 : max_sequence (run_id r) (pending s1) = (max_sequence (run_id r) (pending s) + 1)%Z)
    by (rewrite (wr_pending _ _ _ W); apply (max_sequence_add (now s) (cancel_event reason r))).
  set (k := {| sk_reason := Some reason; sk_claim := None; sk_expected_updated_at := None;
               sk_expected_token := None; sk_expected_attempt := None; sk_rollback_on_conflict := true;
               sk_transitioned_at := None; sk_metadata_update := None; sk_allow_requeue := false;
               sk_before := []; sk_after := [] |}).
  destruct (set_status_ok s1 r CANCELED k Hwf) as (s2 & Hl & E2); [by rewrite Er| |done|done|].
  { unfold root_present. by rewrite Er. }
  destruct (locked_fields _ _ Hl) as (Ep & _ & _ & _ & En & _).
  destruct (set_status_accepted s2 r (Member CANCELED) k (row_status r) CANCELED Hwf)
    as (s3 & a & r' & E3 & Ea & Eas & Hruns & Hst & Hsp & _ & Htok & Hstamp & Htr & _ & _ & Hmeta & _ & _ & Hstep).
  { by rewrite Ep, Er. }
  { apply settle_accepted; try done. by rewrite Ep, Er. }
  { constructor. }
  unfold set_status. fold k.
  rewrite (bind_eq_ok _ _ s1 s3 a) by (by rewrite (bind_eq_ok _ _ s1 s3 (a, true)) by (by rewrite E2)).
  rewrite Eas, bool_decide_eq_true_2 by done.
  destruct (quiet_hook (run_id r) (FinalizeCycleRun (run_id r) "canceled") s3) as (s4 & [] & E4 & Q4).
  exists s4. split; [done|]. split.
  { etrans; [apply (qs_step _ _ _ Q1)|]. etrans; [apply locked_row_step, Hl|].
    etrans; [exact Hstep|apply (qs_step _ _ _ Q4)]. }
  exists r'. rewrite (qs_runs _ _ _ Q4), Hruns, lookup_insert_eq. injection E4 as <-. simpl in *.
  split_and!; try done.
  - rewrite <- (st_now _ _ _ (qs_step _ _ _ Q1)), <- En. apply Hstamp. set_solver.
  - by rewrite Htr, Ep, Htr1, Hmax1, <- app_assoc.
  - set_solver.
Qed.

Lemma canceled_before reason s s1 s2 r :
  keeps (run_id r) s s1 -> now s1 = now s -> canceled_from reason s1 s2 r -> canceled_from reason s s2 r.
Proof.
  intros Hk Hn. unfold canceled_from. rewrite Hn, (keeps_trace _ _ _ Hk).
  unfold max_sequence. by rewrite (kp_events _ _ _ Hk).
Qed.

Lemma canceled_after reason s s1 s2 r :
  canceled_from reason s s1 r -> keeps (run_id r) s1 s2 -> canceled_from reason s s2 r.
Proof.
  intros (r' & H1 & H2 & H3 & H4 & H5 & H6 & H7 & H8) Hk. exists r'.
  rewrite (kp_run _ _ _ Hk), (keeps_trace _ _ _ Hk). split_and!; try done.
  destruct (kp_hooks _ _ _ Hk) as [l ->]. set_solver.
Qed.

Lemma cancel_rows_ok reason rows : forall s,
  store_inv s -> NoDup (run_id <$> rows) -> Forall (cancelable s) rows ->
  exists s', for_each (cancel_one reason) rows s = (s', Ok tt) /\
    (forall r, r ∈ rows -> canceled_from reason s s' r) /\
    (forall j, j ∉ run_id <$> rows -> keeps j s s').
Proof.
  induction rows as [|r rows IH]; intros s Hinv Hnd Hall.
  - exists s. split; [done|]. split; [set_solver|]. reflexivity.
  - apply NoDup_cons in Hnd as [Hnin Hnd]. apply Forall_cons in Hall as [Hc Hall].
    destruct (cancel_one_ok reason s r) as (s1 & E1 & Hst & Hdone); [|done|].
    { destruct Hc as [Hr _]. by apply (wf_rows _ (inv_pending _ Hinv) (run_id r)). }
    assert (Hinv1 : store_inv s1).
    { assert (Hs : safe (cancel_one reason r)).
      { unfold cancel_one. pose proof append_event_safe. pose proof safe_set_status. solve_safe. }
      specialize (Hs s). rewrite E1 in Hs. by apply Hs. }
    assert (Hne : forall r', r' ∈ rows -> run_id r' <> run_id r).
    { intros r' Hr' E. apply Hnin. rewrite <- E. by apply list_elem_of_fmap_2. }
    destruct (IH s1 Hinv1 Hnd) as (s2 & E2 & Hdone2 & Hk).
    { rewrite Forall_forall in *. intros r' Hr'. destruct (Hall r' Hr') as (H1 & H2 & H3).
      split; [by rewrite (st_others _ _ _ Hst) by auto|].
      split; [by apply (row_step_present _ _ _ _ Hst)|done]. }
    exists s2. cbn [for_each]. rewrite (bind_eq_ok _ _ _ _ _ E1). split; [done|]. split.
    + intros r' [->|Hr']%elem_of_cons; [by eapply canceled_after, Hk|].
      eapply canceled_before; [by eapply row_step_keeps, Hne|apply (st_now _ _ _ Hst)|by apply Hdone2].
    + intros j Hj. apply not_elem_of_cons in Hj as [Hj1 Hj2].
      etrans; [by eapply row_step_keeps|by apply Hk].
Qed.

(** C26. Cancelling a thread cancels each of its open runs, in whatever order the
    database lists them: the run is CANCELED now, without a token, its events say
    it was canceled and changed status for the given reason, and the cycle run it
    works for is settled; the number of these runs is answered, and every other
    run keeps its row and its events. *)
Theorem cancel_thread_spec (s : store) (order : list run_row -> list run_row) (thread reason : string) :
  store_inv s -> roots_present s -> (forall l, order l ≡ₚ l) ->
  let canceled r := thread_id (spec r) = thread /\ str_in (status r) OPEN_RUN_STATUS_VALUES = true in
  exists s' rows, async_cancel_open_runs_for_thread order thread reason s =
      (s', Ok (Z.of_nat (length rows))) /\ NoDup (run_id <$> rows) /\
    (forall r, r ∈ rows <-> runs (pending s) !! run_id r = Some r /\ canceled r) /\
    (forall r, r ∈ rows -> canceled_from reason s s' r) /\
    (forall j, j ∉ run_id <$> rows -> runs (pending s') !! j = runs (pending s) !! j /\
       event_trace j (pending s') = event_trace j (pending s)).
Proof.
  intros Hinv Hroots Hperm canceled. pose proof (inv_pending _ Hinv) as Hwf.
  set (rows := order (filter canceled (all_runs (pending s)))).
  assert (Hin : forall r, r ∈ rows <-> runs (pending s) !! run_id r = Some r /\ canceled r).
  { intros r. unfold rows. rewrite Hperm, list_elem_of_filter, elem_of_all_runs by done. tauto. }
  assert (Hnd : NoDup (run_id <$> rows)).
  { unfold rows. rewrite Hperm. by apply nodup_fmap_filter, all_runs_nodup. }
  destruct (cancel_rows_ok reason rows s Hinv Hnd) as (s' & E & Hdone & Hk).
  { apply Forall_forall. intros r [Hr [_ Ho]]%Hin. split; [done|]. split; [by eapply Hroots|done]. }
  exists s', rows. split_and!; try done.
  - unfold async_cancel_open_runs_for_thread, bind at 1, get. cbv zeta. fold rows.
    by rewrite (bind_eq_ok (for_each (cancel_one reason) rows) _ _ _ _ E).
  - intros j Hj. specialize (Hk j Hj). split; [apply (kp_run _ _ _ Hk)|by apply keeps_trace].
Qed.
End cancel.

(** ** Instances *)

Lemma demo_roots_present : roots_present demo_session.
Proof.
  intros i r Hr. change (pending demo_session) with (committed demo_session) in Hr.
  pose proof (elem_of_list_to_map_2 _ _ _ Hr) as Hin.
  repeat (apply elem_of_cons in Hin as [[= -> ->]|Hin]; [eexists; reflexivity|]).
  by apply not_elem_of_nil in Hin.
Qed.

Lemma deadline_sweep_spec_witness :
  exists s' res, @sweep_agent_run_deadlines demo_platform demo_taxonomy None None "90" 25 demo_session =
    (s', Ok res) /\ closeout_requested res = 2%Z /\ expired res = 0%Z.
Proof.
  destruct (@deadline_sweep_spec demo_platform demo_taxonomy demo_session None None "90" 25
    demo_session_inv demo_roots_present) as (s' & E & _).
  eexists s', _. split; [exact E|]. vm_compute. by split.
Defined.

Lemma cancel_thread_spec_witness :
  exists s' n, @async_cancel_open_runs_for_thread demo_platform (fun l => l) "thread" "stop"
    demo_session = (s', Ok n) /\ (exists r, runs (pending s') !! 1%Z = Some r /\ status r = "canceled").
Proof.
  destruct (@cancel_thread_spec demo_platform demo_session (fun l => l) "thread" "stop"
    demo_session_inv demo_roots_present) as (s' & rows & E & _ & Hin & Hc & _); [done|].
  exists s', (Z.of_nat (length rows)). split; [exact E|].
  destruct (Hc demo_running) as (r & Hr & Hs & _).
  - apply Hin. split; [reflexivity|]. split; reflexivity.
  - exists r. split; [exact Hr|exact Hs].
Defined.
