(* ===== verification/RunTheorems.v ===== *)
(** What the store of agent runs guarantees: histories of operations, fencing,
    the outcome of a status change, interruption, and queue claims. *)
From S2P Require Import Prelude.
From S2P Require Import PyStr.
From S2P Require Import Json.
From S2P Require Import Status.
From S2P Require Import Failures.
From S2P Require Import RunLease.
From S2P Require Import RunStore.
From S2P Require Import RunCreate.
From S2P Require Import RunLifecycle.
From S2P Require Import RunMessages.
From S2P Require Import RunEvolution.
From S2P Require Import RunDemo.
From S2P Require Import RunOutcome.
From S2P Require Import LoopControl.
From S2P Require Import RunDeadlines.
From S2P Require Import DeadlineTheorems.
Open Scope string_scope.
Open Scope bool_scope.
Open Scope list_scope.

(** * Histories *)

(** What the table says about every lease. *)
Definition leases (d : db) : gmap Z lease := lease_of <$> runs d.

Lemma lease_of_ok r : row_wf r -> lease_ok (lease_of r).
Proof.
  intros [_ _ _ Ha Ht]. split; [done|].
  intros [Hv|Hv]%Ht; unfold lease_of, row_status; simpl; rewrite Hv, coerce_value; auto.
Qed.

Section history.
Context `{Platform} `{ProviderErrorTaxonomy}.

(** One operation of the store, by whichever worker, or a step of the
    environment: time passes, row locks of others change, and other transactions
    insert runs under ids of their own.  An operation is one transaction under
    its row lock, so histories interleave whole operations. *)
Inductive op_step (s : store) : store -> Prop :=
| op_create r st h : op_step s (create_run r st h s).1
| op_create_child p st k t : op_step s (create_child_run_with_result p st k t s).1
| op_set_status i st k : op_step s (set_status_with_result i st k s).1
| op_fail i c st e k : op_step s (fail_run_with_result i c st e k s).1
| op_interrupt i r a d : op_step s (interrupt_and_requeue i r a d s).1
| op_claim_next n : op_step s (claim_next_run_ids n s).1
| op_claim i : op_step s (claim_run i s).1
| op_lease i t b : op_step s (execution_lease_round i t b s).1
| op_assert c : op_step s (assert_execution_claim c s).1
| op_release c : op_step s (_release_execution_claim c s).1
| op_metadata i p : op_step s (update_metadata i p s).1
| op_heartbeat i a b c d : op_step s (heartbeat_run i a b c d s).1
| op_steer i c u t : op_step s (append_steering i c u t s).1
| op_drain i : op_step s (drain_steering i s).1
| op_event e : op_step s (append_event e s).1
| op_artifact a : op_step s (append_artifact a s).1
| op_final i t r : op_step s (append_final_answer_once i t r s).1
| op_terminal_boundary i a : op_step s (lock_terminal_boundary i a s).1
| op_maintenance_boundary i : op_step s (try_lock_maintenance_boundary i s).1
| op_liveness i r : op_step s (lock_run_liveness i r s).1
| op_sweep a g e n : op_step s (sweep_agent_run_deadlines a g e n s).1
| op_cancel o t r : op_step s (async_cancel_open_runs_for_thread o t r s).1
| op_commit : op_step s (commit s).1
| op_rollback : op_step s (rollback s).1
| op_environment b d f l k t :
    Forall (fun r => row_wf r /\ runs (pending s) !! run_id r = None) l ->
    NoDup (run_id <$> l) ->
    op_step s (Build_store (committed s) (pending s) b d f l (lock_log s)
                 (lost_claims s ∪ k) (hook_calls s) t).

Lemma op_step_safe s s' : op_step s s' -> store_step s s'.
Proof.
  destruct 1; first
    [ apply safe_create_run | apply safe_create_child_run | apply safe_set_status_with_result
    | apply safe_fail_run_with_result | apply safe_interrupt_and_requeue
    | apply safe_claim_next_run_ids | apply safe_claim_run | apply safe_lease_round
    | apply safe_assert_claim | apply safe_release_claim | apply safe_update_metadata
    | apply safe_heartbeat_run | apply safe_append_steering | apply safe_drain_steering
    | apply append_event_safe | apply safe_append_artifact | apply safe_final_answer_once
    | apply safe_lock_terminal_boundary | apply safe_maintenance_boundary | apply safe_lock_run_liveness
    | apply safe_sweep | apply safe_cancel_thread | apply safe_commit | apply safe_rollback
    | intros [? ? ? ? ?]; split; [by split|done] ].
Qed.

Lemma history_safe s s' :
  store_inv s -> rtc op_step s s' -> store_inv s' /\ db_evolves (committed s) (committed s').
Proof.
  intros Hinv Hr. revert Hinv. induction Hr as [s|s1 s2 s3 Hstep _ IH]; intros Hinv; [by split|].
  destruct (op_step_safe _ _ Hstep Hinv) as [Hinv2 He].
  destruct (IH Hinv2) as [Hinv3 He']. split; [done|by etrans].
Qed.

(** C1. History of a run: after any sequence of store operations and
    environment steps, failed and rolled-back ones included, the tables are
    well-formed, every committed run is still there under the same identity
    columns, its status moved along accepted transitions only, its attempt did
    not decrease, within one attempt its token was kept or cleared but never
    replaced, a close-out window, once set, was not moved, and the event and
    artifact logs only grew. *)
Theorem run_history (s s' : store) :
  store_inv s -> rtc op_step s s' ->
  db_wf (committed s') /\ db_evolves (committed s) (committed s').
Proof.
  intros Hinv Hr. destruct (history_safe s s' Hinv Hr) as [Hinv' He].
  split; [apply (inv_committed _ Hinv')|done].
Qed.

(** C3. A settled run stays settled: once a terminal status is committed, every
    later history commits that same status for the run. *)
Theorem settled_run_immutable (s s' : store) (i : Z) (r : run_row) :
  store_inv s -> rtc op_step s s' ->
  runs (committed s) !! i = Some r -> is_terminal (row_status r) = true ->
  exists r', runs (committed s') !! i = Some r' /\ row_status r' = row_status r.
Proof.
  intros Hinv Hr Hi Ht. destruct (history_safe s s' Hinv Hr) as [_ He].
  destruct (ev_runs _ _ He _ _ Hi) as (r' & Hi' & Hev). exists r'. split; [done|].
  destruct (ev_status _ _ Hev) as [|a b c [allow Hstep] _]; [done|].
  apply transition_source_open in Hstep. congruence.
Qed.

(** C4. Fencing is permanent: an execution claim that was issued for a run
    and is no longer current for its committed row is not current for any row a
    later history commits, whatever claims, requeues and releases happen. *)
Theorem fenced_claim_stays_fenced (s s' : store) (c : ExecutionClaim) (r : run_row) :
  store_inv s -> rtc op_step s s' ->
  runs (committed s) !! claim_of c = Some r ->
  (claim_attempt c <= execution_attempt r)%Z -> claim_token c <> "" ->
  claim_is_current c r = false ->
  exists r', runs (committed s') !! claim_of c = Some r' /\ claim_is_current c r' = false.
Proof.
  intros Hinv Hr Hi Ha Htok Hcur. destruct (history_safe s s' Hinv Hr) as [_ He].
  destruct (ev_runs _ _ He _ _ Hi) as (r' & Hi' & [_ _ _ Hst Hat Htk _ _]). exists r'.
  split; [done|]. apply not_true_iff_false. intros Hc. apply not_true_iff_false in Hcur.
  apply Hcur. unfold claim_is_current in *. bool_simpl.
  destruct Htk as [E|E]; [lia| |by rewrite E in *].
  rewrite <- E. rewrite !andb_true_iff. split_and!.
  - by apply String.eqb_eq.
  - apply Z.eqb_eq. lia.
  - apply negb_true_iff. destruct Hst as [|a b d [allow Hstep] _]; [done|].
    by eapply transition_source_open.
Qed.

(** C2. The store implements the lease machine.  Seen through the lease of each
    committed run, every history of operations and environment steps is a run of
    the abstract machine: attempts are granted one at a time and only while
    nobody holds the run, a holder is dropped when the run settles, pauses or is
    requeued, and runs of other transactions arrive in good order.  And whoever
    the store accepts as the current claim is the holder of that machine, on a
    run that is running or verifying. *)
Theorem store_refines_lease_machine (s s' : store) :
  store_inv s -> rtc op_step s s' ->
  rtc table_step (leases (committed s)) (leases (committed s')) /\
  (forall c r, runs (committed s') !! claim_of c = Some r -> claim_is_current c r = true ->
     claim_token c <> "" ->
     exists p, p ∈ [RUNNING; VERIFYING] /\ leases (committed s') !! claim_of c =
       Some {| phase := p; attempt := claim_attempt c; holder := Some (claim_token c) |}).
Proof.
  intros Hinv Hr. destruct (history_safe s s' Hinv Hr) as [Hinv' He].
  pose proof (inv_committed _ Hinv') as Hwf. split.
  - apply table_pointwise.
    + intros i l. unfold leases. rewrite lookup_fmap, fmap_Some. intros (r & Hi & ->).
      destruct (ev_runs _ _ He _ _ Hi) as (r' & Hi' & Hev). exists (lease_of r').
      split; [by rewrite lookup_fmap, Hi'|apply (ev_lease _ _ Hev)].
    + intros i l. unfold leases. rewrite lookup_fmap, fmap_Some. intros (r & Hi & ->).
      apply lease_of_ok, (wf_rows _ Hwf _ _ Hi).
  - intros c r Hi Hc Htok. unfold claim_is_current in Hc. bool_simpl.
    destruct (lease_of_ok r (wf_rows _ Hwf _ _ Hi)) as [_ Hp]. simpl in Hp.
    unfold leases. rewrite lookup_fmap, Hi. exists (row_status r). unfold lease_of.
    destruct (execution_token r) as [tok|] eqn:Etok; [|by subst]. unfold str_or in *.
    destruct (String.eqb tok "") eqn:Et; [by subst|]. subst tok.
    split; [by destruct Hp as [-> | ->]; [done|set_solver..]|]. simpl. by rewrite Etok, H3.
Qed.

(** C27. A deadline is enforced in two steps: once a run has been asked to close
    out until [c] and this is committed, no sweep of any later history, whatever
    operations lie between, expires it before [c]. *)
Theorem no_expiry_before_closeout (s s' s'' : store) (i c : Z) (r : run_row) (at_ : option instant)
    (grace_seconds : option Z) (env : string) (limit : Z) (res : DeadlineSweepResult) :
  store_inv s -> rtc op_step s s' -> roots_present s' ->
  runs (committed s) !! i = Some r -> closeout_expires_at r = Some c ->
  sweep_agent_run_deadlines at_ grace_seconds env limit s' = (s'', Ok res) ->
  i ∈ expired_run_ids res -> (c <= default (now s') at_)%Z.
Proof.
  intros Hinv Hr Hroots Hi Hc E Hx. destruct (history_safe s s' Hinv Hr) as [Hinv' He].
  destruct (expired_due s' s'' at_ grace_seconds env limit i res Hinv' Hroots E Hx)
    as (r' & c' & Hi' & Hc' & Hle).
  pose proof (inv_evolves _ Hinv') as He'. assert (Hev : db_evolves (committed s) (pending s')) by (by etrans).
  destruct (ev_runs _ _ Hev _ _ Hi) as (r2 & Hi2 & Hrow). simplify_eq.
  rewrite (ev_closeout _ _ Hrow) in Hc' by (by rewrite Hc). congruence.
Qed.

(** A cancel token that reports a cancellation is right for good. *)
Lemma cancel_token_sound (s s' : store) (clock : Z) (reachable : bool) (t t' : RunCancelToken) :
  store_inv s -> rtc op_step s s' -> _canceled t = false ->
  a_is_set clock reachable (committed s) t = (t', true) ->
  exists r', runs (committed s') !! token_run_id t = Some r' /\ is_terminal (row_status r') = true.
Proof.
  intros Hinv Hr Ht. unfold a_is_set. rewrite Ht. destruct (Z.ltb _ _); [done|].
  destruct reachable; [|done]. cbn [negb token_run_id].
  destruct (first_member _ _) as [st|] eqn:Hst; [|done]. intros [= _ Hterm].
  destruct (runs (committed s) !! token_run_id t) as [r|] eqn:Hi; rewrite ?Hi in Hst; [|by vm_compute in Hst].
  apply first_member_sound in Hst as [_ Hv]. simpl in Hv. unfold str_or in Hv.
  assert (Hs : row_status r = st).
  { unfold row_status. destruct (String.eqb_spec (status r) ""); [by destruct st|]. by rewrite Hv, coerce_value. }
  destruct (history_safe s s' Hinv Hr) as [_ He].
  destruct (ev_runs _ _ He _ _ Hi) as (r' & Hi' & Hev). exists r'. split; [done|].
  destruct (rtc_inv _ _ (ev_status _ _ Hev)) as [E|(z & [allow Hstep] & _)]; [by rewrite <- E, Hs|].
  apply transition_source_open in Hstep. congruence.
Qed.
End history.

(** ** Instances *)

Definition demo_done : run_row := demo_row 4 COMPLETED [] None 2 40.
Definition demo_done_session : store := demo_store true (demo_db [demo_done] []).

Lemma demo_done_inv : store_inv demo_done_session.
Proof.
  apply demo_store_inv, Forall_cons. split; [|constructor]. split; [|done].
  apply demo_row_wf; [lia|done].
Qed.

Lemma run_history_witness :
  db_wf (committed (claim_run 2 demo_session).1).
Proof.
  apply (@run_history demo_platform demo_taxonomy demo_session
    (claim_run 2 demo_session).1 demo_session_inv).
  apply rtc_once. apply op_claim.
Defined.

Lemma settled_run_immutable_witness :
  exists r', runs (committed (claim_run 4 demo_done_session).1) !! 4%Z = Some r' /\
    row_status r' = COMPLETED.
Proof.
  apply (@settled_run_immutable demo_platform demo_taxonomy demo_done_session
    (claim_run 4 demo_done_session).1 4 demo_done).
  - apply demo_done_inv.
  - apply rtc_once. apply op_claim.
  - reflexivity.
  - reflexivity.
Defined.

Lemma fenced_claim_stays_fenced_witness :
  let c := {| claim_of := 1; claim_token := "stale"; claim_attempt := 1 |} in
  let s' := (_release_execution_claim {| claim_of := 1; claim_token := "token"; claim_attempt := 1 |}
               demo_session).1 in
  exists r', runs (committed s') !! 1%Z = Some r' /\ claim_is_current c r' = false.
Proof.
  intros c s'.
  apply (@fenced_claim_stays_fenced demo_platform demo_taxonomy demo_session s' c demo_running).
  - apply demo_session_inv.
  - apply rtc_once. apply op_release.
  - reflexivity.
  - discriminate.
  - discriminate.
  - reflexivity.
Defined.

Lemma store_refines_lease_machine_witness :
  rtc table_step (leases (committed demo_session)) (leases (committed (claim_run 2 demo_session).1)).
Proof.
  apply (@store_refines_lease_machine demo_platform demo_taxonomy demo_session
    (claim_run 2 demo_session).1 demo_session_inv).
  apply rtc_once. apply op_claim.
Defined.

(** One sweep asks run 1 to close out until 91 seconds; a later one expires it. *)
Definition demo_asked : store :=
  (sweep_agent_run_deadlines (H:=demo_platform) (H0:=demo_taxonomy) (Some 1000%Z) None "90" 25 demo_session).1.

Lemma demo_asked_step : rtc (@op_step demo_platform demo_taxonomy) demo_session (commit demo_asked).1.
Proof. eapply rtc_l; [apply (op_sweep _ (Some 1000%Z) None "90" 25)|]. apply rtc_once, op_commit. Qed.

Lemma demo_swept_roots : roots_present (commit demo_asked).1.
Proof.
  intros i r Hi. apply elem_of_map_to_list in Hi. vm_compute in Hi.
  repeat (apply elem_of_cons in Hi as [[= -> ->]|Hi]; [eexists; vm_compute; reflexivity|]).
  by apply not_elem_of_nil in Hi.
Qed.

Lemma no_expiry_before_closeout_witness :
  exists r c, runs (committed (commit demo_asked).1) !! 1%Z = Some r /\ closeout_expires_at r = Some c /\
    (c <= 90001000)%Z.
Proof.
  destruct (runs (committed (commit demo_asked).1) !! 1%Z) as [r|] eqn:Hr; [|by vm_compute in Hr].
  exists r, 90001000%Z.
  assert (Hc : closeout_expires_at r = Some 90001000%Z) by (vm_compute in Hr; by injection Hr as <-).
  split; [done|]. split; [exact Hc|].
  destruct (sweep_agent_run_deadlines (H:=demo_platform) (H0:=demo_taxonomy) (Some 90001000%Z) None "90" 25
    (commit demo_asked).1) as [s'' [res|e]] eqn:E; [|by vm_compute in E].
  apply (@no_expiry_before_closeout demo_platform demo_taxonomy (commit demo_asked).1 (commit demo_asked).1 s''
    1 90001000 r (Some 90001000%Z) None "90" 25 res).
  - apply (@history_safe demo_platform demo_taxonomy demo_session _ demo_session_inv demo_asked_step).
  - apply rtc_refl.
  - apply demo_swept_roots.
  - exact Hr.
  - exact Hc.
  - exact E.
  - vm_compute in E. injection E as <- <-. vm_compute. by left.
Defined.
