(* ===== verification/Obligations.v ===== *)
(** Answers owed in Slack threads, [brain/systems/runs/]: the typed policy of an
    obligation ([obligation_specs.py]), the ledger of open asks and their notices
    ([platform/db/models/open_ask.py]), how asks are recorded and reopened
    ([open_asks.py]), settled ([open_ask_settlement.py]), deferred to a run and
    expired ([run_deferrals.py]), and listed for a digest ([open_ask_digest.py]).

    Functions that take a session are computations on a [ledger], the tables as
    the caller's transaction sees them.  An INSERT first sees the rows other
    transactions commit while it waits ([incoming_asks], [incoming_notices]) and
    is refused by the unique indexes. *)
From Stdlib Require Import Ascii.
From S2P Require Import Prelude.
From S2P Require Import PyStr.
From S2P Require Import Json.
From S2P Require Import Status.
From S2P Require Import RunStore.
Open Scope string_scope.
Open Scope bool_scope.
Open Scope list_scope.

(** [_clean]: [str(value or "").strip()]. *)
Definition _clean (j : json) : string := strip (str_or_empty j).
Definition clean_text (o : option string) : string := strip (str_or o "").
(** [x or None]. *)
Definition or_none (s : string) : option string := if String.eqb s "" then None else Some s.

(** * Enumerations *)

Inductive OpenAskStatus : Type := ASK_OPEN | ASK_ANSWERED | ASK_ROUTED | ASK_EXPIRED.
#[export] Instance OpenAskStatus_eq_dec : EqDecision OpenAskStatus.
Proof. solve_decision. Defined.
Definition OpenAskStatus_value (s : OpenAskStatus) : string :=
  match s with
  | ASK_OPEN => "open" | ASK_ANSWERED => "answered" | ASK_ROUTED => "routed" | ASK_EXPIRED => "expired"
  end.
#[export] Program Instance OpenAskStatus_enum : StrEnum OpenAskStatus :=
  {| members := [ASK_OPEN; ASK_ANSWERED; ASK_ROUTED; ASK_EXPIRED]; value := OpenAskStatus_value |}.
Next Obligation. solve_enum. Qed.
Next Obligation. solve_enum. Qed.

Definition ACTIVE_OPEN_ASK_STATUS_VALUES : list string := [value ASK_OPEN; value ASK_ROUTED].
Definition TERMINAL_OPEN_ASK_STATUS_VALUES : list string := [value ASK_ANSWERED; value ASK_EXPIRED].

Inductive ObligationKind : Type := HUMAN_ASK | RUN_DEFERRAL.
#[export] Instance ObligationKind_eq_dec : EqDecision ObligationKind.
Proof. solve_decision. Defined.
Definition ObligationKind_value (k : ObligationKind) : string :=
  match k with HUMAN_ASK => "human_ask" | RUN_DEFERRAL => "run_deferral" end.
#[export] Program Instance ObligationKind_enum : StrEnum ObligationKind :=
  {| members := [HUMAN_ASK; RUN_DEFERRAL]; value := ObligationKind_value |}.
Next Obligation. solve_enum. Qed.
Next Obligation. solve_enum. Qed.

(** * The policy of an obligation, [obligation_specs.py] *)

Record ObligationAnswerer : Type := {
  answerer_name : string;
  answerer_slack_user_id : string;
  answerer_user_id : option string;
}.

Definition opt_json (o : option string) : json := match o with Some s => JStr s | None => JNull end.

Definition answerer_to_metadata (a : ObligationAnswerer) : dict :=
  [("name", JStr (answerer_name a)); ("slack_user_id", JStr (answerer_slack_user_id a));
   ("user_id", opt_json (answerer_user_id a))].

Definition answerer_from_metadata (value : dict) : result ObligationAnswerer :=
  let name := _clean (jget_or_null "name" value) in
  let slack_user_id := _clean (jget_or_null "slack_user_id" value) in
  if String.eqb name "" || String.eqb slack_user_id ""
  then Err (ValueError "obligation answerers require a name and Slack user id")
  else Ok {| answerer_name := name; answerer_slack_user_id := slack_user_id;
             answerer_user_id := or_none (_clean (jget_or_null "user_id" value)) |}.

Record InboundSlackReply : Type := {
  reply_slack_user_id : string;
  reply_message_ts : string;
  reply_text : string;
}.

Inductive ObligationSettlementPolicy : Type := ANSWERER_SLACK_REPLY.
#[export] Instance ObligationSettlementPolicy_eq_dec : EqDecision ObligationSettlementPolicy.
Proof. solve_decision. Defined.
#[export] Program Instance ObligationSettlementPolicy_enum : StrEnum ObligationSettlementPolicy :=
  {| members := [ANSWERER_SLACK_REPLY]; value := fun _ => "answerer_slack_reply" |}.
Next Obligation. solve_enum. Qed.
Next Obligation. intros [] []. done. Qed.

Definition policy_matches (p : ObligationSettlementPolicy) (a : ObligationAnswerer)
    (r : InboundSlackReply) : bool :=
  match p with
  | ANSWERER_SLACK_REPLY =>
      negb (String.eqb (reply_message_ts r) "")
      && String.eqb (reply_slack_user_id r) (answerer_slack_user_id a)
  end.

(** [ObligationSpec]; [notice_after] is in seconds, and a renderer is what it
    renders. *)
Record ObligationSpec : Type := {
  condition : string;
  answerer : ObligationAnswerer;
  notice_after : Z;
  notice_text : string;
  settlement_policy : ObligationSettlementPolicy;
}.

Definition spec_post_init (s : ObligationSpec) : result ObligationSpec :=
  if String.eqb (strip (condition s)) "" then Err (ValueError "obligation specs require a condition")
  else if Z.ltb (notice_after s) 0 then Err (ValueError "obligation notice delay cannot be negative")
  else if String.eqb (strip (notice_text s)) ""
  then Err (ValueError "obligation notice renderer produced empty copy")
  else Ok s.

Definition spec_to_metadata (s : ObligationSpec) : dict :=
  [("condition", JStr (condition s)); ("answerer", JObj (answerer_to_metadata (answerer s)));
   ("notice_after_seconds", JInt (notice_after s)); ("notice_text", JStr (notice_text s));
   ("settlement_policy", JStr (value (settlement_policy s)))].

(** The largest number of seconds a [timedelta] holds. *)
Definition timedelta_max_seconds : Z := 86399999999999.

Definition spec_from_metadata (d : dict) : result ObligationSpec :=
  match py_int (jor (jget_or_null "notice_after_seconds" d) (JInt 0)),
        first_member (A:=ObligationSettlementPolicy) (_clean (jget_or_null "settlement_policy" d)) members with
  | Some seconds, Some policy =>
      match jget_or_null "answerer" d with
      | JObj a =>
          answerer ← answerer_from_metadata a;
          if Z.ltb timedelta_max_seconds (Z.abs seconds)
          then Err (RuntimeError "OverflowError")
          else spec_post_init
            {| condition := _clean (jget_or_null "condition" d); answerer := answerer;
               notice_after := seconds;
               notice_text := str_or_empty (jget_or_null "notice_text" d);
               settlement_policy := policy |}
      | _ => Err (ValueError "obligation spec metadata requires an answerer")
      end
  | _, _ => Err (ValueError "invalid obligation spec metadata")
  end.

Definition obligation_spec_from_metadata (v : json) : option ObligationSpec :=
  match v with
  | JObj d => match spec_from_metadata d with Ok s => Some s | Err _ => None end
  | _ => None
  end.

Definition settles (s : ObligationSpec) (r : InboundSlackReply) : bool :=
  policy_matches (settlement_policy s) (answerer s) r.

(** * The ledger, [platform/db/models/open_ask.py] *)

(** The columns that identify an obligation. *)
Record ask_identity : Type := {
  obligation_kind : string;
  ask_org_id : string;
  ask_channel_id : string;
  ask_thread_ts : string;
  requester_slack_id : option string;
}.

(** The columns a reopening rewrites. *)
Record ask_origin : Type := {
  channel_type : option string;
  team_id : option string;
  thread_permalink : string;
  requester_user_id : option string;
  requester_name : option string;
  ask_bot_user_id : option string;
  ask_text : string;
  origin_ref : string;
  origin_run_id : option Z;
}.

(** The columns of the obligation's life. *)
Record ask_life : Type := {
  ask_status : string;
  opened_at : instant;
  answer_text : option string;
  answer_artifact_kind : option string;
  answer_artifact_ref : option string;
  answered_by_run_id : option Z;
  answered_at : option instant;
  ask_delivered_message_ts : option string;
  routed_to_name : option string;
  routed_to_slack_id : option string;
  routed_at : option instant;
  ask_expired_at : option instant;
  status_reason : option string;
}.

Record OpenAsk : Type := {
  ask_id : Z;
  identity : ask_identity;
  origin : ask_origin;
  life : ask_life;
}.

#[export] Instance ask_identity_eq_dec : EqDecision ask_identity.
Proof. solve_decision. Defined.
#[export] Instance ask_origin_eq_dec : EqDecision ask_origin.
Proof. solve_decision. Defined.
#[export] Instance ask_life_eq_dec : EqDecision ask_life.
Proof. solve_decision. Defined.
#[export] Instance OpenAsk_eq_dec : EqDecision OpenAsk.
Proof. solve_decision. Defined.

Definition with_life (f : ask_life -> ask_life) (a : OpenAsk) : OpenAsk :=
  {| ask_id := ask_id a; identity := identity a; origin := origin a; life := f (life a) |}.

Record ObligationNotice : Type := {
  notice_id : Z;
  obligation_id : Z;
  notice_org_id : string;
  notice_condition : string;
  idempotency_key : string;
  state : string;
  notice_channel_id : string;
  notice_thread_ts : string;
  post_thread_ts : option string;
  notice_bot_user_id : option string;
  copy_text : string;
  attempts : Z;
  claimed_at : option instant;
  delivered_at : option instant;
  delivered_message_ts : option string;
  last_error : option string;
  notice_created_at : instant;
}.

Definition OBLIGATION_NOTICE_STATES : list string := ["pending"; "posting"; "delivered"; "superseded"].

Record ledger : Type := {
  asks : gmap Z OpenAsk;
  notices : gmap Z ObligationNotice;
  next_ask_id : Z;
  next_notice_id : Z;
  incoming_asks : list OpenAsk;
  incoming_notices : list ObligationNotice;
  run_rows : gmap Z run_row;
  user_names : gmap string (option string);
  clock : instant;
}.

Definition set_asks (m : gmap Z OpenAsk) (s : ledger) : ledger :=
  Build_ledger m (notices s) (next_ask_id s) (next_notice_id s) (incoming_asks s) (incoming_notices s)
    (run_rows s) (user_names s) (clock s).
Definition set_notices (m : gmap Z ObligationNotice) (s : ledger) : ledger :=
  Build_ledger (asks s) m (next_ask_id s) (next_notice_id s) (incoming_asks s) (incoming_notices s)
    (run_rows s) (user_names s) (clock s).

Abbreviation L := (M ledger).

Definition put_ask (a : OpenAsk) : L unit := modify (fun s => set_asks (<[ask_id a := a]> (asks s)) s).
Definition put_notice (n : ObligationNotice) : L unit :=
  modify (fun s => set_notices (<[notice_id n := n]> (notices s)) s).

(** SQL equality of nullable columns: NULL equals nothing. *)
Definition sql_eq {A} `{EqDecision A} (a b : option A) : bool :=
  match a, b with Some x, Some y => bool_decide (x = y) | _, _ => false end.

(** The two partial unique indexes. *)
Definition same_place (a b : OpenAsk) : bool :=
  String.eqb (obligation_kind (identity a)) (obligation_kind (identity b))
  && String.eqb (ask_org_id (identity a)) (ask_org_id (identity b))
  && String.eqb (ask_channel_id (identity a)) (ask_channel_id (identity b))
  && String.eqb (ask_thread_ts (identity a)) (ask_thread_ts (identity b)).
Definition ask_conflict (a b : OpenAsk) : bool :=
  same_place a b &&
  ((String.eqb (obligation_kind (identity a)) (value HUMAN_ASK)
    && sql_eq (requester_slack_id (identity a)) (requester_slack_id (identity b)))
   || (String.eqb (obligation_kind (identity a)) (value RUN_DEFERRAL)
       && sql_eq (origin_run_id (origin a)) (origin_run_id (origin b)))).

Definition notice_conflict (a b : ObligationNotice) : bool :=
  (Z.eqb (obligation_id a) (obligation_id b)
   && String.eqb (notice_condition a) (notice_condition b))
  || String.eqb (idempotency_key a) (idempotency_key b).

Definition all_asks (s : ledger) : list OpenAsk := (map_to_list (asks s)).*2.
Definition all_notices (s : ledger) : list ObligationNotice := (map_to_list (notices s)).*2.

(** Rows of other transactions arrive as far as the indexes accept them. *)
Definition receive_ask (s : ledger) (a : OpenAsk) : ledger :=
  if bool_decide (asks s !! ask_id a = None) && negb (existsb (ask_conflict a) (all_asks s))
  then Build_ledger (<[ask_id a := a]> (asks s)) (notices s) (Z.max (next_ask_id s) (ask_id a + 1))
         (next_notice_id s) (incoming_asks s) (incoming_notices s) (run_rows s) (user_names s) (clock s)
  else s.
Definition receive_notice (s : ledger) (n : ObligationNotice) : ledger :=
  if bool_decide (notices s !! notice_id n = None) && negb (existsb (notice_conflict n) (all_notices s))
  then Build_ledger (asks s) (<[notice_id n := n]> (notices s)) (next_ask_id s)
         (Z.max (next_notice_id s) (notice_id n + 1)) (incoming_asks s) (incoming_notices s)
         (run_rows s) (user_names s) (clock s)
  else s.
Definition receive_asks (s : ledger) : ledger :=
  let s' := fold_left receive_ask (incoming_asks s) s in
  Build_ledger (asks s') (notices s') (next_ask_id s') (next_notice_id s') [] (incoming_notices s')
    (run_rows s') (user_names s') (clock s').
Definition receive_notices (s : ledger) : ledger :=
  let s' := fold_left receive_notice (incoming_notices s) s in
  Build_ledger (asks s') (notices s') (next_ask_id s') (next_notice_id s') (incoming_asks s') []
    (run_rows s') (user_names s') (clock s').

(** [session.add(row); await session.flush()] under a savepoint. *)
Definition insert_ask (mk : Z -> OpenAsk) : L OpenAsk :=
  modify receive_asks ;;;
  s <- get ;;
  let row := mk (next_ask_id s) in
  if existsb (ask_conflict row) (all_asks s) then raise IntegrityError
  else
    modify (fun s => Build_ledger (<[next_ask_id s := row]> (asks s)) (notices s) (next_ask_id s + 1)
      (next_notice_id s) (incoming_asks s) (incoming_notices s) (run_rows s) (user_names s) (clock s)) ;;;
    ret row.

Definition insert_notice (mk : Z -> ObligationNotice) : L ObligationNotice :=
  modify receive_notices ;;;
  s <- get ;;
  let row := mk (next_notice_id s) in
  if existsb (notice_conflict row) (all_notices s) then raise IntegrityError
  else
    modify (fun s => Build_ledger (asks s) (<[next_notice_id s := row]> (notices s)) (next_ask_id s)
      (next_notice_id s + 1) (incoming_asks s) (incoming_notices s) (run_rows s) (user_names s) (clock s)) ;;;
    ret row.

(** [assume_utc(now)]. *)
Definition moment (now : option instant) : L instant := gets (fun s => default (clock s) now).

(** ORDER BY id ASC. *)
Definition asks_where (p : OpenAsk -> bool) (s : ledger) : list OpenAsk :=
  py_sorted (fun a b => Z.leb (ask_id a) (ask_id b)) (filter (fun a => p a = true) (all_asks s)).

(** * Open asks of requests, [open_asks.py] *)

Definition SLACK_TIMESTAMP_MAX_LENGTH : nat := 40.

(** [_SLACK_TIMESTAMP]: digits, a point, digits. *)
Fixpoint digits_point (seen : bool) (s : string) : option string :=
  match s with
  | String a s' => if is_digit a then digits_point true s'
                   else if Ascii.eqb a "." && seen then Some s' else None
  | "" => None
  end.
Fixpoint all_digits (s : string) : bool :=
  match s with String a s' => is_digit a && all_digits s' | "" => true end.
Definition _SLACK_TIMESTAMP (s : string) : bool :=
  match digits_point false s with
  | Some rest => negb (String.eqb rest "") && all_digits rest
  | None => false
  end.

Definition _normalize_open_ask_timestamp (v : json) : option string :=
  let timestamp := _clean v in
  if String.eqb timestamp "" then None
  else if Nat.ltb SLACK_TIMESTAMP_MAX_LENGTH (String.length timestamp) || negb (_SLACK_TIMESTAMP timestamp)
  then None
  else Some timestamp.

(** The first of [metadata] and [target_ref] that holds a trigger. *)
Definition _slack_trigger_for_request (r : AgentRunRequest) : dict :=
  match jget_or_null "slack_trigger" (req_metadata r) with
  | JObj d => d
  | _ => as_dict (jget_or_null "slack_trigger" (req_target_ref r))
  end.

Definition _validated_open_ask_trigger (trigger : dict) : dict :=
  let field k d := jset k (opt_json (_normalize_open_ask_timestamp (jget_or_null k trigger))) d in
  field "message_ts" (field "thread_ts" trigger).

Definition trigger_thread_ts (trigger : dict) : string :=
  _clean (jor (jget_or_null "thread_ts" trigger) (jget_or_null "message_ts" trigger)).

Definition slack_origin_ref (trigger : dict) : option string :=
  let team_id := _clean (jget_or_null "team_id" trigger) in
  let channel_id := _clean (jget_or_null "channel_id" trigger) in
  let thread_ts := trigger_thread_ts trigger in
  if String.eqb team_id "" || String.eqb channel_id "" || String.eqb thread_ts "" then None
  else Some ("slack:" +:+ team_id +:+ ":" +:+ channel_id +:+ ":" +:+ thread_ts).

Definition slack_thread_permalink (trigger : dict) : option string :=
  let permalink := _clean (jget_or_null "permalink" trigger) in
  if negb (String.eqb permalink "") then Some permalink
  else
    let team_id := _clean (jget_or_null "team_id" trigger) in
    let channel_id := _clean (jget_or_null "channel_id" trigger) in
    let thread_ts := trigger_thread_ts trigger in
    if String.eqb team_id "" || String.eqb channel_id "" || String.eqb thread_ts "" then None
    else Some ("https://app.slack.com/client/" +:+ team_id +:+ "/" +:+ channel_id +:+ "/thread/"
               +:+ channel_id +:+ "-" +:+ thread_ts).

(** The dictionary [context], with its optional entry [notice]. *)
Record open_ask_context : Type := {
  cx_org_id : string;
  cx_channel_id : string;
  cx_channel_type : option string;
  cx_team_id : option string;
  cx_thread_ts : string;
  cx_thread_permalink : string;
  cx_requester_slack_id : string;
  cx_requester_user_id : option string;
  cx_requester_name : option string;
  cx_bot_user_id : option string;
  cx_ask_text : string;
  cx_origin_ref : string;
  cx_notice : option (ObligationSpec * string);
}.

Definition open_ask_context_for_request (r : AgentRunRequest) : option open_ask_context :=
  let metadata := req_metadata r in
  let target_ref := req_target_ref r in
  let trigger := _slack_trigger_for_request r in
  if Nat.eqb (length trigger) 0
     || String.eqb (lower (_clean (jget_or_null "obligation" metadata))) "none" then None
  else
    let spec := obligation_spec_from_metadata (jget_or_null "obligation_spec" metadata) in
    let has_spec := bool_decide (is_Some spec) in
    if negb has_spec && (truthy (jget_or_null "slack_monitor" metadata)
                         || truthy (jget_or_null "headless" target_ref)) then None
    else
      let trigger := _validated_open_ask_trigger trigger in
      let channel_id := _clean (jget_or_null "channel_id" trigger) in
      let thread_ts := trigger_thread_ts trigger in
      let requester := as_dict (jget_or_null "obligation_requester" metadata) in
      let requester_slack_id :=
        _clean (if has_spec then jget_or_null "slack_user_id" requester
                else jget_or_null "slack_user_id" trigger) in
      let requester_user_id :=
        or_none (if has_spec then _clean (jget_or_null "user_id" requester)
                 else clean_text (req_user_id r)) in
      let ask_text := if has_spec then str_or_empty (jget_or_null "obligation_ask_text" metadata)
                      else str_or_empty (jget_or_null "text" trigger) in
      match slack_origin_ref trigger, slack_thread_permalink trigger with
      | Some origin_ref, Some permalink =>
          if String.eqb (req_org_id r) "" || String.eqb channel_id "" || String.eqb thread_ts ""
             || String.eqb requester_slack_id "" || String.eqb (strip ask_text) "" then None
          else Some
            {| cx_org_id := req_org_id r; cx_channel_id := channel_id;
               cx_channel_type := or_none (_clean (jget_or_null "channel_type" trigger));
               cx_team_id := or_none (_clean (jget_or_null "team_id" trigger));
               cx_thread_ts := thread_ts; cx_thread_permalink := permalink;
               cx_requester_slack_id := requester_slack_id;
               cx_requester_user_id := requester_user_id;
               cx_requester_name := if has_spec then Some (_clean (jget_or_null "name" requester)) else None;
               cx_bot_user_id := or_none (_clean (jget_or_null "bot_user_id" trigger));
               cx_ask_text := ask_text; cx_origin_ref := origin_ref;
               cx_notice :=
                 (fun s =>
                    let target := as_dict (jget_or_null "response_target" trigger) in
                    (s, default thread_ts (or_none (_clean (jget_or_null "thread_ts" target))))) <$> spec |}
      | _, _ => None
      end.

Definition annotate_request_with_open_ask (r : AgentRunRequest)
    : AgentRunRequest * option open_ask_context :=
  match open_ask_context_for_request r with
  | None => (r, None)
  | Some c =>
      let ask := [("origin_ref", JStr (cx_origin_ref c)); ("channel_id", JStr (cx_channel_id c));
                  ("thread_ts", JStr (cx_thread_ts c));
                  ("requester_slack_id", JStr (cx_requester_slack_id c))] in
      let ask := match cx_notice c with
                 | Some (s, _) => jset "answerer" (JObj (answerer_to_metadata (answerer s))) ask
                 | None => ask
                 end in
      ({| req_thread_id := req_thread_id r; req_message := req_message r; req_org_id := req_org_id r;
          req_user_id := req_user_id r; req_profile := req_profile r; req_recipe := req_recipe r;
          req_parent_run_id := req_parent_run_id r; req_root_run_id := req_root_run_id r;
          req_target_ref := jset "origin_ref" (JStr (cx_origin_ref c)) (req_target_ref r);
          req_workspace_ref := req_workspace_ref r; req_model_policy := req_model_policy r;
          req_metadata := jset "open_ask" (JObj ask)
            (jset "origin_ref" (JStr (cx_origin_ref c)) (req_metadata r));
          req_deadline_at := req_deadline_at r |}, Some c)
  end.

Definition _requester_name (user_id : option string) (slack_id : string) (explicit : option string)
    : L string :=
  if negb (String.eqb (clean_text explicit) "") then ret (clean_text explicit)
  else
    s <- get ;;
    let name := match user_id with
                | Some u => clean_text (default None (user_names s !! u))
                | None => ""
                end in
    ret (if String.eqb name "" then "<@" +:+ slack_id +:+ ">" else name).

Definition human_ask_key (org channel thread requester : string) (a : OpenAsk) : bool :=
  String.eqb (obligation_kind (identity a)) (value HUMAN_ASK)
  && String.eqb (ask_org_id (identity a)) org && String.eqb (ask_channel_id (identity a)) channel
  && String.eqb (ask_thread_ts (identity a)) thread && sql_eq_str (requester_slack_id (identity a)) requester.

(** [(await session.scalars(statement)).first()]. *)
Definition first_ask (p : OpenAsk -> bool) : L (option OpenAsk) := gets (fun s => head (asks_where p s)).

Definition _open_ask_for_key (c : open_ask_context) : L (option OpenAsk) :=
  first_ask (human_ask_key (cx_org_id c) (cx_channel_id c) (cx_thread_ts c) (cx_requester_slack_id c)).

(** [_reopen_obligation]: a life that starts over. *)
Definition _reopen_obligation (opened : instant) : ask_life :=
  {| ask_status := value ASK_OPEN; opened_at := opened; answer_text := None;
     answer_artifact_kind := None; answer_artifact_ref := None; answered_by_run_id := None;
     answered_at := None; ask_delivered_message_ts := None; routed_to_name := None;
     routed_to_slack_id := None; routed_at := None; ask_expired_at := None; status_reason := None |}.

Definition origin_of_context (c : open_ask_context) (run_id : Z) (name : string) : ask_origin :=
  {| channel_type := cx_channel_type c; team_id := cx_team_id c; thread_permalink := cx_thread_permalink c;
     requester_user_id := cx_requester_user_id c; requester_name := Some name;
     ask_bot_user_id := cx_bot_user_id c; ask_text := cx_ask_text c; origin_ref := cx_origin_ref c;
     origin_run_id := Some run_id |}.

Definition _reopen_ask (a : OpenAsk) (c : open_ask_context) (run_id : Z) (name : string)
    (opened : instant) : OpenAsk :=
  {| ask_id := ask_id a; identity := identity a; origin := origin_of_context c run_id name;
     life := _reopen_obligation opened |}.

Definition new_human_ask (c : open_ask_context) (run_id : Z) (name : string) (opened : instant) (id : Z)
    : OpenAsk :=
  {| ask_id := id;
     identity := {| obligation_kind := value HUMAN_ASK; ask_org_id := cx_org_id c;
                    ask_channel_id := cx_channel_id c; ask_thread_ts := cx_thread_ts c;
                    requester_slack_id := Some (cx_requester_slack_id c) |};
     origin := origin_of_context c run_id name; life := _reopen_obligation opened |}.

(** An ask of another run is reopened, the ask of this run is kept. *)
Definition reopen_if_other (a : OpenAsk) (c : open_ask_context) (run_id : Z) (name : string)
    (opened : instant) : L OpenAsk :=
  if Z.eqb (int_or (origin_run_id (origin a)) 0) run_id then ret a
  else let a' := _reopen_ask a c run_id name opened in put_ask a' ;;; ret a'.

(** * Notices, [obligation_notices.py] *)

Definition notice_idempotency_key (obligation : Z) (condition : string) : string :=
  "obligation-notice:" +:+ str_of_Z obligation +:+ ":" +:+ condition.

Definition _notice_for_key (obligation : Z) (cond : string) : L (option ObligationNotice) :=
  gets (fun s => head (filter (fun n => obligation_id n = obligation /\ notice_condition n = cond)
                         (all_notices s))).

Definition set_copy (a : OpenAsk) (text : string) (post : option string) (n : ObligationNotice)
    : ObligationNotice :=
  {| notice_id := notice_id n; obligation_id := obligation_id n; notice_org_id := notice_org_id n;
     notice_condition := notice_condition n; idempotency_key := idempotency_key n; state := state n;
     notice_channel_id := ask_channel_id (identity a); notice_thread_ts := ask_thread_ts (identity a);
     post_thread_ts := or_none (clean_text post);
     notice_bot_user_id := or_none (clean_text (ask_bot_user_id (origin a))); copy_text := text;
     attempts := attempts n; claimed_at := claimed_at n; delivered_at := delivered_at n;
     delivered_message_ts := delivered_message_ts n; last_error := last_error n;
     notice_created_at := notice_created_at n |}.

Definition new_notice (a : OpenAsk) (cond text : string) (post : option string) (created : instant) (id : Z)
    : ObligationNotice :=
  {| notice_id := id; obligation_id := ask_id a; notice_org_id := ask_org_id (identity a);
     notice_condition := cond; idempotency_key := notice_idempotency_key (ask_id a) cond;
     state := "pending"; notice_channel_id := ask_channel_id (identity a);
     notice_thread_ts := ask_thread_ts (identity a); post_thread_ts := or_none (clean_text post);
     notice_bot_user_id := or_none (clean_text (ask_bot_user_id (origin a))); copy_text := text;
     attempts := 0; claimed_at := None; delivered_at := None; delivered_message_ts := None;
     last_error := None; notice_created_at := created |}.

Definition record_obligation_notice (a : OpenAsk) (cond text : string) (post : option string)
    : L (ObligationNotice * bool) :=
  let normalized_condition := strip cond in
  if String.eqb normalized_condition "" then raise (ValueError "obligation notices require a condition")
  else
    row <- _notice_for_key (ask_id a) normalized_condition ;;
    match row with
    | Some n =>
        if String.eqb (state n) "pending"
        then let n' := set_copy a text post n in put_notice n' ;;; ret (n', false)
        else ret (n, false)
    | None =>
        created <- gets clock ;;
        catch (n <- insert_notice (new_notice a normalized_condition text post created) ;; ret (n, true))
          (fun e => match e with
             | IntegrityError =>
                 row <- _notice_for_key (ask_id a) normalized_condition ;;
                 match row with Some n => ret (n, false) | None => raise e end
             | _ => raise e
             end)
    end.

Definition set_state (st : string) (claimed : option instant) (err : option string) (n : ObligationNotice)
    : ObligationNotice :=
  {| notice_id := notice_id n; obligation_id := obligation_id n; notice_org_id := notice_org_id n;
     notice_condition := notice_condition n; idempotency_key := idempotency_key n; state := st;
     notice_channel_id := notice_channel_id n; notice_thread_ts := notice_thread_ts n;
     post_thread_ts := post_thread_ts n; notice_bot_user_id := notice_bot_user_id n;
     copy_text := copy_text n; attempts := attempts n; claimed_at := claimed;
     delivered_at := delivered_at n; delivered_message_ts := delivered_message_ts n; last_error := err;
     notice_created_at := notice_created_at n |}.

(** Pending notices of obligations that became terminal. *)
Definition supersede_pending_obligation_notices (obligation_ids : list Z) : L unit :=
  modify (fun s => set_notices ((fun n =>
    if bool_decide (obligation_id n ∈ obligation_ids) && String.eqb (state n) "pending"
    then set_state "superseded" None None n else n) <$> notices s) s).

(** [record_open_ask]. *)
Definition record_open_ask (context : option open_ask_context) (run_id : Z) (now : option instant)
    : L (option OpenAsk) :=
  match context with
  | None => ret None
  | Some c =>
      opened <- moment now ;;
      name <- _requester_name (cx_requester_user_id c) (cx_requester_slack_id c) (cx_requester_name c) ;;
      found <- _open_ask_for_key c ;;
      row <- match found with
             | Some a => reopen_if_other a c run_id name opened
             | None =>
                 catch (insert_ask (new_human_ask c run_id name opened))
                   (fun e => match e with
                      | IntegrityError =>
                          found <- _open_ask_for_key c ;;
                          match found with
                          | None => raise e
                          | Some a => reopen_if_other a c run_id name opened
                          end
                      | _ => raise e
                      end)
             end ;;
      match cx_notice c with
      | Some (s, post) =>
          record_obligation_notice row (condition s) (notice_text s) (or_none (strip post)) ;;; ret (Some row)
      | None => ret (Some row)
      end
  end.

(** * Settlement, [open_ask_settlement.py] *)

Record DeliveredSlackAnswer : Type := {
  da_org_id : string;
  da_channel_id : string;
  da_thread_ts : string;
  da_answering_run_id : option Z;
  da_slack_message_ts : string;
  da_answer_text : string;
  da_artifact_kind : option string;
  da_artifact_ref : option string;
}.

Record DeliveredSlackRoute : Type := {
  dr_org_id : string;
  dr_channel_id : string;
  dr_thread_ts : string;
  dr_answering_run_id : option Z;
  dr_slack_message_ts : string;
  dr_routed_to_name : string;
  dr_routed_to_slack_id : string;
}.

(** [DeliveredSlackAnswerCounts], by kind. *)
Record DeliveredSlackAnswerCounts : Type := { human_asks : Z; run_deferrals : Z }.
Definition answered_open_asks (c : DeliveredSlackAnswerCounts) : Z := human_asks c.
Definition total (c : DeliveredSlackAnswerCounts) : Z := human_asks c + run_deferrals c.

Definition open_asks_for_origin_ref (ref : string) : L (list OpenAsk) :=
  let normalized := strip ref in
  if String.eqb normalized "" then ret []
  else gets (fun s => py_sorted (fun a b =>
           Z.ltb (opened_at (life a)) (opened_at (life b))
           || (Z.eqb (opened_at (life a)) (opened_at (life b)) && Z.leb (ask_id a) (ask_id b)))
         (filter (fun a => origin_ref (origin a) = normalized /\
            obligation_kind (identity a) = value HUMAN_ASK /\ ask_status (life a) = value ASK_OPEN) (all_asks s))).

Definition open_asks_for_origin_run (run_id : Z) : L (list OpenAsk) :=
  gets (asks_where (fun a => sql_eq_int (origin_run_id (origin a)) run_id
    && String.eqb (obligation_kind (identity a)) (value HUMAN_ASK)
    && String.eqb (ask_status (life a)) (value ASK_OPEN))).

Definition delivered_message_ts_of (response : json) : option string :=
  match response with
  | JObj d => or_none (_clean (jor (jget_or_null "ts" d) (jget_or_null "ts" (as_dict (jget_or_null "message" d)))))
  | _ => None
  end.

Definition answered_life (text : string) (run : option Z) (kind ref : option string) (ts : string)
    (at_ : instant) (l : ask_life) : ask_life :=
  {| ask_status := value ASK_ANSWERED; opened_at := opened_at l; answer_text := Some text;
     answer_artifact_kind := or_none (clean_text kind); answer_artifact_ref := or_none (clean_text ref);
     answered_by_run_id := match run with Some z => if Z.eqb z 0 then None else Some z | None => None end;
     answered_at := Some at_; ask_delivered_message_ts := Some ts;
     routed_to_name := routed_to_name l; routed_to_slack_id := routed_to_slack_id l;
     routed_at := routed_at l; ask_expired_at := None; status_reason := None |}.

Definition mark_open_ask_answered (a : OpenAsk) (text : string) (run : option Z) (kind ref : option string)
    (response : json) (now : option instant) : L OpenAsk :=
  match delivered_message_ts_of response with
  | None => raise (ValueError "open ask answers require a confirmed Slack delivery timestamp")
  | Some ts =>
      at_ <- moment now ;;
      let a' := with_life (answered_life text run kind ref ts at_) a in
      put_ask a' ;;; ret a'
  end.

Definition routed_life (name slack_id ts : string) (at_ : instant) (l : ask_life) : ask_life :=
  {| ask_status := value ASK_ROUTED; opened_at := opened_at l; answer_text := answer_text l;
     answer_artifact_kind := answer_artifact_kind l; answer_artifact_ref := answer_artifact_ref l;
     answered_by_run_id := answered_by_run_id l; answered_at := answered_at l;
     ask_delivered_message_ts := Some ts; routed_to_name := Some name;
     routed_to_slack_id := Some slack_id; routed_at := Some at_; ask_expired_at := None;
     status_reason := None |}.

Definition mark_open_ask_routed (a : OpenAsk) (name slack_id : string) (response : json)
    (now : option instant) : L OpenAsk :=
  let owner_name := strip name in
  let owner_slack_id := strip slack_id in
  if String.eqb owner_name "" || String.eqb owner_slack_id ""
  then raise (ValueError "routed open asks require a named Slack answerer")
  else
    match delivered_message_ts_of response with
    | None => raise (ValueError "routed open asks require a confirmed Slack delivery timestamp")
    | Some ts =>
        at_ <- moment now ;;
        let a' := with_life (routed_life owner_name owner_slack_id ts at_) a in
        put_ask a' ;;; ret a'
    end.

(** The asks of a thread, with further conditions. *)
Definition in_thread (org channel thread : string) (a : OpenAsk) : bool :=
  String.eqb (ask_org_id (identity a)) org && String.eqb (ask_channel_id (identity a)) channel
  && String.eqb (ask_thread_ts (identity a)) thread.

Definition is_active (a : OpenAsk) : bool := str_in (ask_status (life a)) ACTIVE_OPEN_ASK_STATUS_VALUES.

Definition _delivered_slack_rows (org channel thread : string) (p : OpenAsk -> bool) : L (list OpenAsk) :=
  gets (asks_where (fun a => in_thread org channel thread a && p a)).

Definition count_kind (k : ObligationKind) (l : list OpenAsk) : Z :=
  Z.of_nat (length (filter (fun a => obligation_kind (identity a) = value k) l)).

Definition ts_response (ts : string) : json := JObj [("ts", JStr ts)].

Definition record_delivered_slack_answer (d : DeliveredSlackAnswer) (now : option instant)
    : L DeliveredSlackAnswerCounts :=
  let message_ts := strip (da_slack_message_ts d) in
  if String.eqb message_ts ""
  then raise (ValueError "delivered Slack answers require a confirmed message timestamp")
  else
    let org := strip (da_org_id d) in
    let channel := strip (da_channel_id d) in
    let thread := strip (da_thread_ts d) in
    if String.eqb org "" || String.eqb channel "" || String.eqb thread ""
    then raise (ValueError "delivered Slack answers require org, channel, and thread")
    else
      rows <- _delivered_slack_rows org channel thread is_active ;;
      for_each (fun row => mark_open_ask_answered row (da_answer_text d) (da_answering_run_id d)
        (da_artifact_kind d) (da_artifact_ref d) (ts_response message_ts) now ;;; ret tt) rows ;;;
      supersede_pending_obligation_notices (ask_id <$> rows) ;;;
      ret {| human_asks := count_kind HUMAN_ASK rows; run_deferrals := count_kind RUN_DEFERRAL rows |}.

Definition record_delivered_slack_route (d : DeliveredSlackRoute) (now : option instant) : L Z :=
  let message_ts := strip (dr_slack_message_ts d) in
  if String.eqb message_ts ""
  then raise (ValueError "delivered Slack routes require a confirmed message timestamp")
  else
    let name := strip (dr_routed_to_name d) in
    let slack_id := strip (dr_routed_to_slack_id d) in
    if String.eqb name "" || String.eqb slack_id ""
    then raise (ValueError "delivered Slack routing requires a complete named answerer")
    else
      let org := strip (dr_org_id d) in
      let channel := strip (dr_channel_id d) in
      let thread := strip (dr_thread_ts d) in
      if String.eqb org "" || String.eqb channel "" || String.eqb thread ""
      then raise (ValueError "delivered Slack routing requires org, channel, and thread")
      else
        match dr_answering_run_id d with
        | None => raise (ValueError "delivered Slack routing requires its originating run")
        | Some run =>
            rows <- _delivered_slack_rows org channel thread (fun a =>
              String.eqb (obligation_kind (identity a)) (value HUMAN_ASK)
              && sql_eq_int (origin_run_id (origin a)) run
              && String.eqb (ask_status (life a)) (value ASK_OPEN)) ;;
            for_each (fun row =>
              mark_open_ask_routed row name slack_id (ts_response message_ts) now ;;; ret tt) rows ;;;
            ret (Z.of_nat (length rows))
        end.

(** The asks a reply settles: joined with their notices and origin runs, once per
    ask. *)
Definition reply_settles (s : ledger) (reply : InboundSlackReply) (a : OpenAsk) : bool :=
  match origin_run_id (origin a) with
  | None => false
  | Some run =>
      match run_rows s !! run with
      | None => false
      | Some row =>
          match obligation_spec_from_metadata (jget_or_null "obligation_spec" (metadata_ row)) with
          | None => false
          | Some spec =>
              existsb (fun n => Z.eqb (obligation_id n) (ask_id a)
                         && String.eqb (condition spec) (strip (notice_condition n))) (all_notices s)
              && settles spec reply
          end
      end
  end.

Definition record_inbound_slack_obligation_answer (org channel thread slack_user ts text : string)
    (now : option instant) : L Z :=
  let org := strip org in
  let channel := strip channel in
  let thread := strip thread in
  let slack_user := strip slack_user in
  let ts := strip ts in
  if String.eqb org "" || String.eqb channel "" || String.eqb thread ""
     || String.eqb slack_user "" || String.eqb ts "" then ret 0%Z
  else
    let reply := {| reply_slack_user_id := slack_user; reply_message_ts := ts; reply_text := text |} in
    s <- get ;;
    let rows := asks_where (fun a => in_thread org channel thread a && is_active a
                  && reply_settles s reply a) s in
    for_each (fun row => mark_open_ask_answered row text None None None (ts_response ts) now ;;; ret tt) rows ;;;
    supersede_pending_obligation_notices (ask_id <$> rows) ;;;
    ret (Z.of_nat (length rows)).

(** * Deferrals to a run, [run_deferrals.py] *)

(** Three days, in microseconds. *)
Definition RUN_DEFERRAL_EXPIRY_AFTER : Z := 72 * 3600 * 1000000.

Definition _TERMINAL_ORIGIN_RUN_STATUS_VALUES : list string :=
  filter (fun s => str_in (project_run_status_value (Some s) None) TERMINAL_RUN_STATUS_VALUES = true)
    AGENT_RUN_DB_STATUS_VALUES.

Definition _run_origin_ref (run : run_row) (trigger : dict) (channel_id thread_ts : string) : string :=
  let stored d := _clean (jget_or_null "origin_ref" d) in
  let a := stored (target_ref (spec run)) in
  let b := stored (metadata_ run) in
  if negb (String.eqb a "") then a
  else if negb (String.eqb b "") then b
  else match slack_origin_ref trigger with
  | Some c => c
  | None =>
      let thread_id := strip (thread_id (spec run)) in
      if startswith "slack:" thread_id then thread_id
      else "slack-run:" +:+ str_of_Z (run_id run) +:+ ":" +:+ channel_id +:+ ":" +:+ thread_ts
  end.

Definition _run_deferral_key (run : run_row) (channel_id thread_ts : string)
    : option (string * string * string * Z) :=
  let org := clean_text (org_id (spec run)) in
  let channel := strip channel_id in
  let thread := strip thread_ts in
  if String.eqb org "" || String.eqb channel "" || String.eqb thread "" then None
  else Some (org, channel, thread, run_id run).

Definition deferral_key (org channel thread : string) (run : Z) (a : OpenAsk) : bool :=
  String.eqb (obligation_kind (identity a)) (value RUN_DEFERRAL)
  && in_thread org channel thread a && sql_eq_int (origin_run_id (origin a)) run.

Definition _run_deferral_for_key (org channel thread : string) (run : Z) : L (option OpenAsk) :=
  first_ask (deferral_key org channel thread run).

Definition new_deferral (run : run_row) (org channel thread : string) (trigger : dict) (text : string)
    (opened : instant) (id : Z) : OpenAsk :=
  {| ask_id := id;
     identity := {| obligation_kind := value RUN_DEFERRAL; ask_org_id := org; ask_channel_id := channel;
                    ask_thread_ts := thread; requester_slack_id := None |};
     origin := {| channel_type := or_none (_clean (jget_or_null "channel_type" trigger));
                  team_id := or_none (_clean (jget_or_null "team_id" trigger));
                  thread_permalink :=
                    default ("https://app.slack.com/client/unknown/" +:+ channel)
                      (slack_thread_permalink (jset "thread_ts" (JStr thread)
                         (jset "channel_id" (JStr channel) trigger)));
                  requester_user_id := None; requester_name := None;
                  ask_bot_user_id := or_none (_clean (jget_or_null "bot_user_id" trigger));
                  ask_text := py_str (jor (jget_or_null "text" trigger)
                    (JStr (if String.eqb (input_message (spec run)) "" then text
                           else input_message (spec run))));
                  origin_ref := _run_origin_ref run trigger channel thread;
                  origin_run_id := Some (run_id run) |};
     life := _reopen_obligation opened |}.

Definition record_run_deferral (run : run_row) (channel_id thread_ts : string) (trigger : dict)
    (deferral_text cond : string) (post : option string) (now : option instant)
    : L (OpenAsk * option ObligationNotice * bool) :=
  match _run_deferral_key run channel_id thread_ts with
  | None => raise (ValueError "run deferrals require an org, channel, and thread")
  | Some (org, channel, thread, run_id) =>
      let cond := strip cond in
      if String.eqb cond "" then raise (ValueError "run deferrals require a notice condition")
      else
        found <- _run_deferral_for_key org channel thread run_id ;;
        row <- match found with
               | Some a => ret a
               | None =>
                   opened <- moment now ;;
                   catch (insert_ask (new_deferral run org channel thread trigger deferral_text opened))
                     (fun e => match e with
                        | IntegrityError =>
                            found <- _run_deferral_for_key org channel thread run_id ;;
                            match found with None => raise e | Some a => ret a end
                        | _ => raise e
                        end)
               end ;;
        if str_in (ask_status (life row)) TERMINAL_OPEN_ASK_STATUS_VALUES then ret (row, None, false)
        else
          n <- record_obligation_notice row cond deferral_text post ;;
          ret (row, Some n.1, n.2)
  end.

Definition expired_life (run : Z) (run_status : string) (hours : Z) (at_ : instant) (l : ask_life) : ask_life :=
  {| ask_status := value ASK_EXPIRED; opened_at := opened_at l; answer_text := answer_text l;
     answer_artifact_kind := answer_artifact_kind l; answer_artifact_ref := answer_artifact_ref l;
     answered_by_run_id := answered_by_run_id l; answered_at := answered_at l;
     ask_delivered_message_ts := ask_delivered_message_ts l; routed_to_name := routed_to_name l;
     routed_to_slack_id := routed_to_slack_id l; routed_at := routed_at l;
     ask_expired_at := Some at_;
     status_reason := Some ("Origin run " +:+ str_of_Z run +:+ " is terminal (" +:+ run_status
       +:+ "); run deferral expired after " +:+ str_of_Z hours +:+ "h.") |}.

(** The status of the run a row came from, as the join gives it. *)
Definition origin_run_status (s : ledger) (a : OpenAsk) : option (Z * string) :=
  match origin_run_id (origin a) with
  | Some run => (fun r => (run, status r)) <$> run_rows s !! run
  | None => None
  end.

Definition stale_deferral (s : ledger) (org : string) (cutoff : instant) (a : OpenAsk) : bool :=
  String.eqb (ask_org_id (identity a)) org
  && String.eqb (obligation_kind (identity a)) (value RUN_DEFERRAL)
  && String.eqb (ask_status (life a)) (value ASK_OPEN)
  && Z.ltb (opened_at (life a)) cutoff
  && match origin_run_status s a with
     | Some (_, st) => str_in st _TERMINAL_ORIGIN_RUN_STATUS_VALUES
     | None => false
     end.

Definition expire_stale_run_deferrals (org : string) (now : option instant) (expiry_after : Z) : L Z :=
  current <- moment now ;;
  s <- get ;;
  let cutoff := (current - expiry_after)%Z in
  let rows := asks_where (stale_deferral s org cutoff) s in
  let hours := (expiry_after / (3600 * 1000000))%Z in
  for_each (fun row => match origin_run_status s row with
    | Some (run, st) => put_ask (with_life (expired_life run st hours current) row)
    | None => ret tt
    end) rows ;;;
  supersede_pending_obligation_notices (ask_id <$> rows) ;;;
  ret (Z.of_nat (length rows)).

(** * The digest, [open_ask_digest.py] *)

(** One hour, in microseconds. *)
Definition OPEN_ASK_STRAGGLER_AFTER : Z := 3600 * 1000000.

Definition _age_label (age : Z) : string :=
  let total_minutes := Z.max 0 (age / 60000000) in
  let hours := (total_minutes / 60)%Z in
  let minutes := (total_minutes mod 60)%Z in
  if negb (Z.eqb hours 0) && negb (Z.eqb minutes 0)
  then str_of_Z hours +:+ "h " +:+ str_of_Z minutes +:+ "m"
  else if negb (Z.eqb hours 0) then str_of_Z hours +:+ "h"
  else str_of_Z minutes +:+ "m".

Definition _open_ask_age_started_at (a : OpenAsk) : instant :=
  if String.eqb (ask_status (life a)) (value ASK_ROUTED)
  then default (opened_at (life a)) (routed_at (life a)) else opened_at (life a).

(** [OpenAsk.owner_label]. *)
Definition owner_label (a : OpenAsk) : string :=
  let l := life a in
  let o := origin a in
  let routed := String.eqb (ask_status l) (value ASK_ROUTED) in
  let some o := negb (String.eqb (str_or o "") "") in
  if routed && some (routed_to_name l) then str_or (routed_to_name l) ""
  else if routed && some (routed_to_slack_id l) then "<@" +:+ str_or (routed_to_slack_id l) "" +:+ ">"
  else
    let human := String.eqb (obligation_kind (identity a)) (value HUMAN_ASK) in
    if human && some (requester_name o) then str_or (requester_name o) ""
    else if human && some (requester_slack_id (identity a))
    then "<@" +:+ str_or (requester_slack_id (identity a)) "" +:+ ">"
    else if String.eqb (obligation_kind (identity a)) (value RUN_DEFERRAL)
            && negb (Z.eqb (int_or (origin_run_id o) 0) 0)
    then "Illo run " +:+ str_of_Z (int_or (origin_run_id o) 0)
    else "Slack obligation " +:+ str_of_Z (ask_id a).

Definition is_straggler (org : string) (cutoff : instant) (a : OpenAsk) : bool :=
  let l := life a in
  String.eqb (ask_org_id (identity a)) org && is_active a
  && ((String.eqb (ask_status l) (value ASK_OPEN) && Z.ltb (opened_at l) cutoff)
      || (String.eqb (ask_status l) (value ASK_ROUTED)
          && Z.ltb (default (opened_at l) (routed_at l)) cutoff)).

(** ORDER BY obligation_kind, opened_at, id. *)
Definition straggler_leb (a b : OpenAsk) : bool :=
  let ka := obligation_kind (identity a) in
  let kb := obligation_kind (identity b) in
  if negb (String.eqb ka kb) then str_leb ka kb
  else Z.ltb (opened_at (life a)) (opened_at (life b))
       || (Z.eqb (opened_at (life a)) (opened_at (life b)) && Z.leb (ask_id a) (ask_id b)).

Definition straggler_entry (current : instant) (a : OpenAsk) : dict :=
  let age := (current - _open_ask_age_started_at a)%Z in
  [("id", JInt (ask_id a)); ("status", JStr (ask_status (life a)));
   ("obligation_kind", JStr (obligation_kind (identity a))); ("owner_label", JStr (owner_label a));
   ("routed_to_name", opt_json (routed_to_name (life a)));
   ("routed_to_slack_id", opt_json (routed_to_slack_id (life a)));
   ("requester_name", if String.eqb (obligation_kind (identity a)) (value HUMAN_ASK)
                      then JStr (owner_label a) else JNull);
   ("requester_slack_id", opt_json (requester_slack_id (identity a)));
   ("ask_text", JStr (ask_text (origin a))); ("origin_ref", JStr (origin_ref (origin a)));
   ("age", JStr (_age_label age)); ("age_seconds", JInt (Z.max 0 (Z.quot age 1000000)));
   ("thread_permalink", JStr (thread_permalink (origin a)))].

Definition list_open_ask_stragglers (org : string) (now : option instant) (older_than : Z)
    : L (list dict) :=
  current <- moment now ;;
  gets (fun s => straggler_entry current <$>
    py_sorted straggler_leb (filter (fun a => is_straggler org (current - older_than) a = true) (all_asks s))).
