(* ===== verification/ObligationLedger.v ===== *)
(** The ledger of obligations: what makes its two tables well formed, what a change
    keeps, and what the operations of [Obligations] do to the tables. *)
From Stdlib Require Import Ascii.
From S2P Require Import Prelude.
From S2P Require Import PyStr.
From S2P Require Import Json.
From S2P Require Import Status.
From S2P Require Import RunStore.
From S2P Require Import Obligations.
Open Scope string_scope.
Open Scope bool_scope.
Open Scope list_scope.

(** * Tables under a unique index *)

Section table.
Context {A : Type} (id_of : A -> Z) (conflict : A -> A -> bool) (ok : A -> Prop).
Hypothesis conflict_sym : forall a b, conflict a b = conflict b a.

Record table_wf (m : gmap Z A) (next : Z) : Prop := {
  table_ids : forall i a, m !! i = Some a -> id_of a = i;
  table_fresh : forall i a, m !! i = Some a -> (i < next)%Z;
  table_rows : forall i a, m !! i = Some a -> ok a;
  table_unique : forall i j a b,
    m !! i = Some a -> m !! j = Some b -> conflict a b = true -> i = j;
}.

(** Rows no index can tell apart. *)
Definition same_key (a b : A) : Prop := forall c, ok c -> conflict b c = conflict a c.

Lemma table_new m next n a :
  table_wf m next -> m !! id_of a = None -> ok a ->
  (forall i b, m !! i = Some b -> conflict a b = false) -> (next <= n)%Z -> (id_of a < n)%Z ->
  table_wf (<[id_of a := a]> m) n.
Proof.
  intros [Hid Hfr Hok Hun] Hn Ha Hc Hle Hlt. split.
  - intros i b [[<- <-]|[_ Hb]]%lookup_insert_Some; [done|by eapply Hid].
  - intros i b [[<- <-]|[_ Hb]]%lookup_insert_Some; [done|]. specialize (Hfr i b Hb). lia.
  - intros i b [[<- <-]|[_ Hb]]%lookup_insert_Some; [done|by eapply Hok].
  - intros i j b c [[<- <-]|[_ Hb]]%lookup_insert_Some [[<- <-]|[_ Hd]]%lookup_insert_Some; [done| | |by eapply Hun].
    + by rewrite (Hc _ _ Hd).
    + rewrite conflict_sym. by rewrite (Hc _ _ Hb).
Qed.

Lemma table_evolve m m' next :
  table_wf m next ->
  (forall i, match m !! i, m' !! i with
             | Some a, Some b => id_of b = id_of a /\ ok b /\ same_key a b
             | None, None => True
             | _, _ => False
             end) ->
  table_wf m' next.
Proof.
  intros [Hid Hfr Hok Hun] Hev.
  assert (Hback : forall i b, m' !! i = Some b ->
    exists a, m !! i = Some a /\ id_of b = id_of a /\ ok b /\ same_key a b).
  { intros i b Hb. specialize (Hev i). rewrite Hb in Hev. destruct (m !! i) as [a|]; [by exists a|done]. }
  split.
  - intros i b Hb. destruct (Hback i b Hb) as (a & Ha & -> & _). by eapply Hid.
  - intros i b Hb. destruct (Hback i b Hb) as (a & Ha & _). by eapply Hfr.
  - intros i b Hb. by destruct (Hback i b Hb) as (a & _ & _ & ? & _).
  - intros i j b d Hb Hd Hcon.
    destruct (Hback i b Hb) as (a & Ha & _ & Hokb & Hk), (Hback j d Hd) as (c & Hc & _ & Hokd & Hk').
    apply (Hun i j a c Ha Hc). rewrite <- Hcon.
    rewrite (Hk d Hokd), (conflict_sym a d), (Hk' a) by (by eapply Hok). by rewrite conflict_sym.
Qed.
End table.

(** * Writing the rows a query gave *)

Section write_rows.
Context (f : OpenAsk -> OpenAsk).

Definition write_rows (l : list OpenAsk) (m : gmap Z OpenAsk) : gmap Z OpenAsk :=
  fold_left (fun m a => <[ask_id a := f a]> m) l m.

Lemma write_rows_lookup (m0 : gmap Z OpenAsk) l : forall m i,
  (forall i a, m0 !! i = Some a -> ask_id a = i) -> (forall a, a ∈ l -> m0 !! ask_id a = Some a) ->
  write_rows l m !! i = match m0 !! i with
                        | Some a => if decide (a ∈ l) then Some (f a) else m !! i
                        | None => m !! i
                        end.
Proof.
  induction l as [|x l IH]; intros m i Hid Hl; [by destruct (m0 !! i)|].
  cbn [write_rows fold_left]. fold (write_rows l (<[ask_id x := f x]> m)).
  rewrite IH; [|done|intros; apply Hl; by right].
  pose proof (Hl x ltac:(by left)) as Hx. destruct (m0 !! i) as [a|] eqn:Ei.
  - destruct (decide (i = ask_id x)) as [->|Hne].
    + rewrite Hx in Ei. injection Ei as <-. rewrite (decide_True (P:=x ∈ x :: l)) by by left.
      case_decide; [done|]. by rewrite lookup_insert_eq.
    + assert (a <> x) by (intros ->; by apply Hne, eq_sym, Hid).
      rewrite lookup_insert_ne by done. apply decide_ext. rewrite elem_of_cons. naive_solver.
  - rewrite lookup_insert_ne; [done|]. intros <-. by rewrite Hx in Ei.
Qed.
End write_rows.

Lemma elem_of_all_asks s a : a ∈ all_asks s <-> exists i, asks s !! i = Some a.
Proof.
  unfold all_asks. rewrite list_elem_of_fmap. split.
  - intros ([i b] & -> & Hb). exists i. by apply elem_of_map_to_list in Hb.
  - intros [i Hi]. exists (i, a). split; [done|by apply elem_of_map_to_list].
Qed.

Lemma elem_of_all_notices s n : n ∈ all_notices s <-> exists i, notices s !! i = Some n.
Proof.
  unfold all_notices. rewrite list_elem_of_fmap. split.
  - intros ([i b] & -> & Hb). exists i. by apply elem_of_map_to_list in Hb.
  - intros [i Hi]. exists (i, n). split; [done|by apply elem_of_map_to_list].
Qed.

Lemma elem_of_asks_where p s a : a ∈ asks_where p s <-> p a = true /\ exists i, asks s !! i = Some a.
Proof. unfold asks_where. by rewrite elem_of_py_sorted, list_elem_of_filter, elem_of_all_asks. Qed.

(** Rows under their own ids. *)
Definition ids_ok (s : ledger) : Prop := forall i a, asks s !! i = Some a -> ask_id a = i.

(** A loop that writes each row a query gave updates the rows that satisfy it. *)
Definition change_where (p : OpenAsk -> bool) (f : OpenAsk -> OpenAsk) (s : ledger) : ledger :=
  set_asks ((fun a => if p a then f a else a) <$> asks s) s.

Lemma for_each_writes (f : OpenAsk -> OpenAsk) (body : OpenAsk -> L unit) l : forall s,
  (forall a m, a ∈ l -> body a (set_asks m s) = (set_asks (<[ask_id a := f a]> m) s, Ok tt)) ->
  for_each body l s = (set_asks (write_rows f l (asks s)) s, Ok tt).
Proof.
  assert (Hgen : forall l s m,
    (forall a m, a ∈ l -> body a (set_asks m s) = (set_asks (<[ask_id a := f a]> m) s, Ok tt)) ->
    for_each body l (set_asks m s) = (set_asks (write_rows f l m) s, Ok tt)).
  { clear l. intros l s. induction l as [|x l IH]; intros m Hb; [done|]. cbn [for_each].
    rewrite (bind_eq_ok _ _ _ _ _ (Hb x m ltac:(by left))), IH; [done|]. intros; apply Hb; by right. }
  intros s Hb. specialize (Hgen l s (asks s) Hb). by destruct s.
Qed.

Lemma for_each_where (f : OpenAsk -> OpenAsk) (body : OpenAsk -> L unit) p s :
  ids_ok s ->
  (forall a m, p a = true -> body a (set_asks m s) = (set_asks (<[ask_id a := f a]> m) s, Ok tt)) ->
  for_each body (asks_where p s) s = (change_where p f s, Ok tt).
Proof.
  intros Hid Hb. rewrite (for_each_writes f).
  2:{ intros a m [Hp _]%elem_of_asks_where. by apply Hb. }
  unfold change_where. do 2 f_equal. apply map_eq. intros i. rewrite (write_rows_lookup f (asks s)).
  - rewrite lookup_fmap. destruct (asks s !! i) as [a|] eqn:Ei; [|done]. simpl.
    destruct (p a) eqn:Hp.
    + rewrite decide_True; [done|]. apply elem_of_asks_where. eauto.
    + rewrite decide_False; [done|]. rewrite elem_of_asks_where. intros [? _]. congruence.
  - exact Hid.
  - intros a (_ & j & Hj)%elem_of_asks_where. by rewrite (Hid j a Hj).
Qed.

(** * Well-formed rows *)

Definition named (o : option string) : Prop := exists s, o = Some s /\ strip s = s /\ s <> "".
Definition is_terminal_ask (a : OpenAsk) : bool := str_in (ask_status (life a)) TERMINAL_OPEN_ASK_STATUS_VALUES.
Definition is_deferral (a : OpenAsk) : Prop := obligation_kind (identity a) = value RUN_DEFERRAL.

(** What an ask of a kind records in each status: an open one nothing of a former
    life, a routed one its owner and the message that said so, an answered one the
    message that answered it, an expired one why. *)
Definition life_ok (k : ObligationKind) (l : ask_life) (st : OpenAskStatus) : Prop :=
  match st with
  | ASK_OPEN => l = _reopen_obligation (opened_at l)
  | ASK_ROUTED =>
      k = HUMAN_ASK /\ named (ask_delivered_message_ts l) /\ named (routed_to_name l) /\
      named (routed_to_slack_id l) /\ is_Some (routed_at l) /\ answer_text l = None /\
      ask_expired_at l = None /\ status_reason l = None
  | ASK_ANSWERED =>
      is_Some (answer_text l) /\ is_Some (answered_at l) /\ named (ask_delivered_message_ts l) /\
      ask_expired_at l = None /\ status_reason l = None
  | ASK_EXPIRED =>
      k = RUN_DEFERRAL /\ is_Some (ask_expired_at l) /\ is_Some (status_reason l) /\
      answer_text l = None /\ ask_delivered_message_ts l = None
  end.

Definition ask_ok (a : OpenAsk) : Prop :=
  exists k st, obligation_kind (identity a) = value k /\ ask_status (life a) = value st /\
    life_ok k (life a) st /\
    match k with
    | HUMAN_ASK => is_Some (requester_slack_id (identity a))
    | RUN_DEFERRAL => requester_slack_id (identity a) = None /\ is_Some (origin_run_id (origin a))
    end.

Definition notice_ok (n : ObligationNotice) : Prop :=
  idempotency_key n = notice_idempotency_key (obligation_id n) (notice_condition n) /\
  strip (notice_condition n) = notice_condition n /\ notice_condition n <> "" /\
  ((state n = "pending" /\ claimed_at n = None /\ delivered_at n = None) \/
   (state n = "posting" /\ is_Some (claimed_at n) /\ delivered_at n = None) \/
   (state n = "delivered" /\ is_Some (delivered_at n)) \/
   (state n = "superseded" /\ claimed_at n = None /\ delivered_at n = None)).

(** * What a change keeps *)

(** An obligation keeps its identity; a deferral its origin as well, and a settled
    deferral stays as it is. *)
Definition ask_evolves (a b : OpenAsk) : Prop :=
  ask_id b = ask_id a /\ identity b = identity a /\
  (is_deferral a -> origin b = origin a /\ (is_terminal_ask a = true -> b = a)).

(** A notice keeps what identifies it and what delivery wrote; only a pending one
    changes, and only to superseded. *)
Definition notice_evolves (n m : ObligationNotice) : Prop :=
  notice_id m = notice_id n /\ obligation_id m = obligation_id n /\
  notice_condition m = notice_condition n /\ idempotency_key m = idempotency_key n /\
  attempts m = attempts n /\ notice_created_at m = notice_created_at n /\
  (state n <> "pending" -> m = n) /\ (state m = state n \/ state m = "superseded").

#[export] Instance ask_evolves_preorder : PreOrder ask_evolves.
Proof.
  split.
  - intros a. repeat split.
  - intros a b c (Hi & Hd & Hk) (Hi' & Hd' & Hk'). repeat split; [congruence|congruence| |].
    + destruct (Hk' ltac:(unfold is_deferral in *; congruence)) as [-> _]. by apply Hk.
    + intros Ht. destruct (Hk H) as [_ Ha]. specialize (Ha Ht). subst b. by apply Hk'.
Qed.

#[export] Instance notice_evolves_preorder : PreOrder notice_evolves.
Proof.
  split; [by intros n; repeat split; left|].
  intros n m p (? & ? & ? & ? & ? & ? & Hn & Hs) (? & ? & ? & ? & ? & ? & Hm & Hz).
  repeat split; try congruence.
  - intros Hp. specialize (Hn Hp). subst m. by apply Hm.
  - destruct Hz as [->| ->]; [done|by right].
Qed.

Lemma sql_eq_sym {A} `{EqDecision A} (a b : option A) : sql_eq a b = sql_eq b a.
Proof. destruct a, b; simpl; [|done..]. apply bool_decide_ext. naive_solver. Qed.

Lemma ask_conflict_sym a b : ask_conflict a b = ask_conflict b a.
Proof.
  unfold ask_conflict, same_place.
  rewrite (String.eqb_sym (obligation_kind (identity b))), (String.eqb_sym (ask_org_id (identity b))),
    (String.eqb_sym (ask_channel_id (identity b))), (String.eqb_sym (ask_thread_ts (identity b))).
  destruct (String.eqb_spec (obligation_kind (identity a)) (obligation_kind (identity b))) as [->|]; [|done].
  by rewrite (sql_eq_sym (requester_slack_id (identity b))), (sql_eq_sym (origin_run_id (origin b))).
Qed.

Lemma notice_conflict_sym a b : notice_conflict a b = notice_conflict b a.
Proof.
  unfold notice_conflict. by rewrite (Z.eqb_sym (obligation_id b)),
    (String.eqb_sym (notice_condition b)), (String.eqb_sym (idempotency_key b)).
Qed.

(** No index can tell a row from what it becomes. *)
Lemma ask_evolves_key a b : ask_evolves a b -> same_key ask_conflict ask_ok a b.
Proof.
  intros (_ & Hd & Hk) c _. unfold ask_conflict, same_place. rewrite Hd.
  destruct (String.eqb_spec (obligation_kind (identity a)) (value RUN_DEFERRAL)) as [E|E].
  - by destruct (Hk E) as [-> _].
  - simpl. by rewrite !orb_false_r.
Qed.

Lemma notice_evolves_key n m : notice_evolves n m -> same_key notice_conflict notice_ok n m.
Proof. intros (_ & Ho & Hc & Hk & _) p _. unfold notice_conflict. by rewrite Ho, Hc, Hk. Qed.

(** * The ledger *)

(** A notice nobody has claimed. *)
Definition unsent (n : ObligationNotice) : Prop := state n = "pending" \/ state n = "superseded".

Lemma evolves_unsent n m : notice_evolves n m -> unsent n -> unsent m.
Proof. unfold unsent. intros (_ & _ & _ & _ & _ & _ & _ & [->| ->]); [done|by right]. Qed.

Record ledger_wf (s : ledger) : Prop := {
  lw_asks : table_wf ask_id ask_conflict ask_ok (asks s) (next_ask_id s);
  lw_notices : table_wf notice_id notice_conflict notice_ok (notices s) (next_notice_id s);
  lw_incoming_asks : Forall ask_ok (incoming_asks s);
  lw_incoming_notices : Forall notice_ok (incoming_notices s);
}.

Record evolves (s s' : ledger) : Prop := {
  ev_asks : forall i a, asks s !! i = Some a -> exists b, asks s' !! i = Some b /\ ask_evolves a b;
  ev_notices : forall i n, notices s !! i = Some n -> exists m, notices s' !! i = Some m /\ notice_evolves n m;
  ev_runs : run_rows s' = run_rows s;
  ev_names : user_names s' = user_names s;
  ev_clock : clock s' = clock s;
  ev_incoming : incoming_notices s = [] -> incoming_notices s' = [];
  ev_new : incoming_notices s = [] -> forall i m, notices s' !! i = Some m -> notices s !! i = None -> unsent m;
}.

#[export] Instance evolves_preorder : PreOrder evolves.
Proof.
  split.
  { intros s. split; try done; [intros i a Ha; exists a|intros i n Hn; exists n|intros; congruence]; by split. }
  intros s t u [H1 H2 H3 H4 H5 H6 H7] [H1' H2' H3' H4' H5' H6' H7']. split; [| |congruence..|auto|].
  - intros i a (b & Hb & Hab)%H1. apply H1' in Hb as (c & Hc & Hbc). exists c. split; [done|by etrans].
  - intros i a (b & Hb & Hab)%H2. apply H2' in Hb as (c & Hc & Hbc). exists c. split; [done|by etrans].
  - intros Hin i m Hm Hn. destruct (notices t !! i) as [n|] eqn:E; [|eapply H7'; eauto].
    destruct (H2' i n E) as (c & Hc & Hnc). rewrite Hm in Hc. injection Hc as <-.
    eapply evolves_unsent; [done|]. by apply (H7 Hin i).
Qed.

(** A step of the code on a well-formed ledger. *)
Definition ledger_step (s s' : ledger) : Prop := ledger_wf s -> ledger_wf s' /\ evolves s s'.

#[export] Instance ledger_step_preorder : PreOrder ledger_step.
Proof.
  split; [intros s Hs; by split|].
  intros s t u H1 H2 [Ht H3]%H1. apply H2 in Ht as [Hu H4]. split; [done|by etrans].
Qed.

Lemma wf_ids s : ledger_wf s -> ids_ok s.
Proof. intros [[Hid _ _ _] _ _ _]. exact Hid. Qed.

Lemma wf_ask s i a : ledger_wf s -> asks s !! i = Some a -> ask_ok a /\ asks s !! ask_id a = Some a.
Proof. intros [[Hid _ Hok _] _ _ _] Ha. split; [by eapply Hok|]. by rewrite (Hid i a Ha). Qed.

Lemma asks_step s m' :
  (forall i, match asks s !! i, m' !! i with
             | Some a, Some b => ask_ok a -> ask_ok b /\ ask_evolves a b
             | None, None => True
             | _, _ => False
             end) ->
  ledger_step s (set_asks m' s).
Proof.
  intros Hev [Ha Hn Hia Hin].
  assert (Hev' : forall i a b, asks s !! i = Some a -> m' !! i = Some b -> ask_ok b /\ ask_evolves a b).
  { intros i a b Hi Hb. specialize (Hev i). rewrite Hi, Hb in Hev. apply Hev. by eapply (table_rows _ _ _ _ _ Ha). }
  split; [split; [|done..]|split; simpl; [| |done..|]].
  - simpl. apply (table_evolve _ _ _ ask_conflict_sym _ m' _ Ha). intros i. specialize (Hev i).
    destruct (asks s !! i) as [a|] eqn:Ei, (m' !! i) as [b|] eqn:Eb; [|done..].
    destruct (Hev' i a b Ei Eb) as [Hb Hab]. split; [by apply Hab|]. split; [done|by apply ask_evolves_key].
  - intros i a Hi. specialize (Hev i). rewrite Hi in Hev. destruct (m' !! i) as [b|] eqn:Eb; [|done].
    exists b. split; [done|]. by eapply Hev'.
  - intros i n Hi. exists n. split; [done|reflexivity].
  - intros _ i m Hm Hi. congruence.
Qed.

Lemma notices_step s m' :
  (forall i, match notices s !! i, m' !! i with
             | Some n, Some p => notice_ok n -> notice_ok p /\ notice_evolves n p
             | None, None => True
             | _, _ => False
             end) ->
  ledger_step s (set_notices m' s).
Proof.
  intros Hev [Ha Hn Hia Hin].
  assert (Hev' : forall i n p, notices s !! i = Some n -> m' !! i = Some p -> notice_ok p /\ notice_evolves n p).
  { intros i n p Hi Hp. specialize (Hev i). rewrite Hi, Hp in Hev. apply Hev. by eapply (table_rows _ _ _ _ _ Hn). }
  split; [split; [done| |done..]|split; simpl; [| |done..|]].
  - simpl. apply (table_evolve _ _ _ notice_conflict_sym _ m' _ Hn). intros i. specialize (Hev i).
    destruct (notices s !! i) as [n|] eqn:Ei, (m' !! i) as [p|] eqn:Ep; [|done..].
    destruct (Hev' i n p Ei Ep) as [Hp Hnp]. split; [by apply Hnp|]. split; [done|by apply notice_evolves_key].
  - intros i a Hi. exists a. split; [done|reflexivity].
  - intros i n Hi. specialize (Hev i). rewrite Hi in Hev. destruct (m' !! i) as [p|] eqn:Ep; [|done].
    exists p. split; [done|]. by eapply Hev'.
  - intros _ i m Hm Hi. specialize (Hev i). by rewrite Hm, Hi in Hev.
Qed.

Lemma change_step p f s :
  (forall a, p a = true -> ask_ok a -> ask_ok (f a) /\ ask_evolves a (f a)) ->
  ledger_step s (change_where p f s).
Proof.
  intros Hf. apply asks_step. intros i. rewrite lookup_fmap. destruct (asks s !! i) as [a|]; [|done].
  simpl. intros Ha. destruct (p a) eqn:E; [by apply Hf|]. by split.
Qed.

Lemma put_ask_step a b s :
  asks s !! ask_id a = Some a -> ask_ok b -> ask_evolves a b -> ledger_step s (put_ask b s).1.
Proof.
  intros Ha Hb Hab. apply asks_step. intros i. pose proof Hab as (Hid & _). rewrite Hid.
  destruct (decide (i = ask_id a)) as [->|Hne].
  - by rewrite Ha, lookup_insert_eq.
  - rewrite lookup_insert_ne by done. destruct (asks s !! i); [|done]. by split.
Qed.

Lemma put_notice_step n m s :
  notices s !! notice_id n = Some n -> notice_ok m -> notice_evolves n m -> ledger_step s (put_notice m s).1.
Proof.
  intros Hn Hm Hnm. apply notices_step. intros i. pose proof Hnm as (Hid & _). rewrite Hid.
  destruct (decide (i = notice_id n)) as [->|Hne].
  - by rewrite Hn, lookup_insert_eq.
  - rewrite lookup_insert_ne by done. destruct (notices s !! i); [|done]. by split.
Qed.

(** * Insertion *)

Lemma existsb_false {A} (p : A -> bool) l : existsb p l = false <-> forall x, x ∈ l -> p x = false.
Proof.
  induction l as [|y l IH]; simpl; [split; [intros _ x Hx; by apply not_elem_of_nil in Hx|done]|].
  rewrite orb_false_iff, IH. split.
  - intros [Hy Hl] x [->|Hx]%elem_of_cons; [done|by apply Hl].
  - intros Hl. split; [apply Hl; by left|intros; apply Hl; by right].
Qed.

Lemma existsb_true {A} (p : A -> bool) l : existsb p l = true <-> exists x, x ∈ l /\ p x = true.
Proof.
  rewrite existsb_exists. split; intros (x & Hx & Hp); exists x; (split; [|done]);
    by apply list_elem_of_In in Hx || apply list_elem_of_In.
Qed.

(** A row with a new id and no twin joins the table. *)
Lemma new_ask_step s a na nn ia :
  asks s !! ask_id a = None -> ask_ok a -> existsb (ask_conflict a) (all_asks s) = false ->
  (next_ask_id s <= na)%Z -> (ask_id a < na)%Z -> nn = next_notice_id s -> Forall ask_ok ia ->
  ledger_step s (Build_ledger (<[ask_id a := a]> (asks s)) (notices s) na nn ia (incoming_notices s)
    (run_rows s) (user_names s) (clock s)).
Proof.
  intros Hn Ha Hc Hle Hlt -> Hia [Hwa Hwn _ Hin]. rewrite existsb_false in Hc. split.
  - split; simpl; [|done..]. apply (table_new _ _ _ ask_conflict_sym _ (next_ask_id s)); [done|done|done| |done|done].
    intros i b Hb. apply Hc, elem_of_all_asks. eauto.
  - split; simpl; [| |done..|].
    + intros i b Hb. exists b. split; [|reflexivity]. rewrite lookup_insert_ne; [done|]. congruence.
    + intros i n Hi. exists n. split; [done|reflexivity].
    + intros _ i m Hm Hi. congruence.
Qed.

Lemma new_notice_step s n na nn inn :
  notices s !! notice_id n = None -> notice_ok n -> existsb (notice_conflict n) (all_notices s) = false ->
  (next_notice_id s <= nn)%Z -> (notice_id n < nn)%Z -> na = next_ask_id s -> Forall notice_ok inn ->
  (incoming_notices s = [] -> state n = "pending" /\ inn = []) ->
  ledger_step s (Build_ledger (asks s) (<[notice_id n := n]> (notices s)) na nn (incoming_asks s) inn
    (run_rows s) (user_names s) (clock s)).
Proof.
  intros Hn Ha Hc Hle Hlt -> Hinn Hnew [Hwa Hwn Hia _]. rewrite existsb_false in Hc. split.
  - split; simpl; [done| |done..]. apply (table_new _ _ _ notice_conflict_sym _ (next_notice_id s)); [done|done|done| |done|done].
    intros i b Hb. apply Hc, elem_of_all_notices. eauto.
  - split; simpl; [| |done..| |].
    + intros i a Hi. exists a. split; [done|reflexivity].
    + intros i b Hb. exists b. split; [|reflexivity]. rewrite lookup_insert_ne; [done|]. congruence.
    + intros Hin%Hnew. by destruct Hin.
    + intros Hin%Hnew i m [[<- <-]|[_ Hm]]%lookup_insert_Some Hi; [by left; destruct Hin|congruence].
Qed.

Lemma receive_ask_step s a : Forall ask_ok (incoming_asks s) -> ask_ok a -> ledger_step s (receive_ask s a).
Proof.
  intros Hia Ha. unfold receive_ask. case_match eqn:E; [|reflexivity]. bool_simpl.
  apply new_ask_step; (done || lia).
Qed.

Lemma receive_notice_step s n :
  Forall notice_ok (incoming_notices s) -> incoming_notices s <> [] -> notice_ok n ->
  ledger_step s (receive_notice s n).
Proof.
  intros Hin Hne Hn. unfold receive_notice. case_match eqn:E; [|reflexivity]. bool_simpl.
  apply new_notice_step; (done || lia).
Qed.

Lemma receive_asks_step s : ledger_step s (receive_asks s).
Proof.
  intros Hs. pose proof (lw_incoming_asks s Hs) as Hia.
  assert (Hfold : forall l t, incoming_asks t = incoming_asks s -> Forall ask_ok l ->
    ledger_step t (fold_left receive_ask l t)).
  { induction l as [|a l IH]; intros t Ht Hl; [reflexivity|]. apply Forall_cons in Hl as [Ha Hl].
    simpl. etrans; [apply receive_ask_step; [by rewrite Ht|done]|]. apply IH; [|done].
    unfold receive_ask. by case_match. }
  destruct (Hfold (incoming_asks s) s eq_refl Hia Hs) as [[? ? ? ?] [? ? ? ? ? ? ?]].
  split; split; simpl; try done; by constructor.
Qed.

Lemma receive_notices_step s : ledger_step s (receive_notices s).
Proof.
  intros Hs. pose proof (lw_incoming_notices s Hs) as Hin.
  assert (Hfold : forall l t, incoming_notices t = incoming_notices s -> Forall notice_ok l ->
    (l <> [] -> incoming_notices s <> []) -> ledger_step t (fold_left receive_notice l t)).
  { induction l as [|a l IH]; intros t Ht Hl Hne; [reflexivity|]. apply Forall_cons in Hl as [Ha Hl].
    simpl. etrans; [apply receive_notice_step; [by rewrite Ht|rewrite Ht; by apply Hne|done]|].
    apply IH; [|done|intros _; by apply Hne]. unfold receive_notice. by case_match. }
  destruct (Hfold (incoming_notices s) s eq_refl Hin (fun H => H) Hs) as [[? ? ? ?] [? ? ? ? ? ? ?]].
  split; split; simpl; try done; by constructor.
Qed.

(** What an INSERT does: the row under the next id, or a refusal because a row with
    the same key is there. *)
Lemma insert_ask_spec mk s :
  ledger_wf s -> (forall i, ask_id (mk i) = i) -> (forall i, ask_ok (mk i)) ->
  let t := receive_asks s in
  (exists s', insert_ask mk s = (s', Ok (mk (next_ask_id t))) /\ ledger_step t s' /\
     asks s' = <[next_ask_id t := mk (next_ask_id t)]> (asks t) /\ asks t !! next_ask_id t = None) \/
  (insert_ask mk s = (t, Err IntegrityError) /\
   exists b, b ∈ all_asks t /\ ask_conflict (mk (next_ask_id t)) b = true).
Proof.
  intros Hs Hid Hok t. destruct (receive_asks_step s Hs) as [Ht _]. fold t in Ht.
  unfold insert_ask. rewrite (bind_eq_ok _ _ s t tt) by done.
  rewrite (bind_eq_ok get _ t t t) by done. cbv beta zeta.
  destruct (existsb (ask_conflict (mk (next_ask_id t))) (all_asks t)) eqn:E.
  - right. split; [done|]. by apply existsb_true.
  - left. eexists. split; [reflexivity|].
    assert (Hn : asks t !! next_ask_id t = None).
    { destruct (asks t !! next_ask_id t) eqn:En; [|done].
      apply (table_fresh _ _ _ _ _ (lw_asks _ Ht)) in En. lia. }
    split; [|done].
    pose proof (new_ask_step t (mk (next_ask_id t)) (next_ask_id t + 1) (next_notice_id t) (incoming_asks t)) as Hnew.
    rewrite Hid in Hnew. apply Hnew; first [done|lia|by apply lw_incoming_asks].
Qed.

Lemma insert_notice_spec mk s :
  ledger_wf s -> (forall i, notice_id (mk i) = i) -> (forall i, notice_ok (mk i)) ->
  (forall i, state (mk i) = "pending") ->
  let t := receive_notices s in
  (exists s', insert_notice mk s = (s', Ok (mk (next_notice_id t))) /\ ledger_step t s' /\
     asks s' = asks t /\
     notices s' = <[next_notice_id t := mk (next_notice_id t)]> (notices t) /\
     notices t !! next_notice_id t = None) \/
  (insert_notice mk s = (t, Err IntegrityError) /\
   exists b, b ∈ all_notices t /\ notice_conflict (mk (next_notice_id t)) b = true).
Proof.
  intros Hs Hid Hok Hpen t. destruct (receive_notices_step s Hs) as [Ht _]. fold t in Ht.
  unfold insert_notice. rewrite (bind_eq_ok _ _ s t tt) by done.
  rewrite (bind_eq_ok get _ t t t) by done. cbv beta zeta.
  destruct (existsb (notice_conflict (mk (next_notice_id t))) (all_notices t)) eqn:E.
  - right. split; [done|]. by apply existsb_true.
  - left. eexists. split; [reflexivity|].
    assert (Hn : notices t !! next_notice_id t = None).
    { destruct (notices t !! next_notice_id t) eqn:En; [|done].
      apply (table_fresh _ _ _ _ _ (lw_notices _ Ht)) in En. lia. }
    split; [|done].
    pose proof (new_notice_step t (mk (next_notice_id t)) (next_ask_id t) (next_notice_id t + 1) (incoming_notices t)) as Hnew.
    rewrite Hid in Hnew. apply Hnew; first [done|lia|by apply lw_incoming_notices].
Qed.
