(* ===== verification/ObligationOps.v ===== *)
(** What each operation of [Obligations] does to a well-formed ledger: queries,
    notices, the recording of asks and deferrals, and settlement. *)
From Stdlib Require Import Ascii DecimalString.
From S2P Require Import Prelude.
From S2P Require Import PyStr.
From S2P Require Import Json.
From S2P Require Import Status.
From S2P Require Import RunStore.
From S2P Require Import Obligations.
From S2P Require Import ObligationLedger.
Open Scope string_scope.
Open Scope bool_scope.
Open Scope list_scope.

(** * Text helpers *)

Lemma or_none_named s : strip s = s -> s <> "" -> or_none s = Some s.
Proof. unfold or_none. intros _. by destruct (String.eqb_spec s ""). Qed.

Lemma clean_str s : _clean (JStr s) = strip s.
Proof. unfold _clean, str_or_empty. simpl. by destruct s. Qed.

Lemma ts_response_ts ts : strip ts = ts -> ts <> "" -> delivered_message_ts_of (ts_response ts) = Some ts.
Proof.
  intros Hs Hne. unfold delivered_message_ts_of, ts_response.
  assert (Hj : jor (jget_or_null "ts" [("ts", JStr ts)])
                 (jget_or_null "ts" (as_dict (jget_or_null "message" [("ts", JStr ts)]))) = JStr ts).
  { unfold jor. simpl. by destruct ts. }
  rewrite Hj, clean_str, Hs. by apply or_none_named.
Qed.

Lemma strip_named s : strip s <> "" -> strip (strip s) = strip s /\ strip s <> "".
Proof. intros H. split; [apply strip_idem|done]. Qed.

(** The text after the first colon tells notice keys apart. *)
Fixpoint after_colon (s : string) : string :=
  match s with
  | String a s' => if Ascii.eqb a ":" then s' else after_colon s'
  | "" => ""
  end.
Fixpoint before_colon (s : string) : string :=
  match s with
  | String a s' => if Ascii.eqb a ":" then "" else String a (before_colon s')
  | "" => ""
  end.
Definition no_colon (s : string) : bool := String.eqb (before_colon s) s.

Lemma no_colon_cons a s : no_colon (String a s) = negb (Ascii.eqb a ":") && no_colon s.
Proof.
  unfold no_colon. simpl. destruct (Ascii.eqb a ":"); [done|].
  simpl. by rewrite Ascii.eqb_refl.
Qed.

Lemma colon_split s t : no_colon s = true -> before_colon (s +:+ ":" +:+ t) = s /\ after_colon (s +:+ ":" +:+ t) = t.
Proof.
  induction s as [|a s IH]; [done|]. rewrite no_colon_cons. intros [Ha Hs]%andb_true_iff.
  apply negb_true_iff in Ha. destruct (IH Hs) as [H1 H2].
  change (String a s +:+ ":" +:+ t) with (String a (s +:+ ":" +:+ t)). simpl. rewrite Ha. split; [by f_equal|done].
Qed.

Lemma uint_no_colon u : no_colon (NilEmpty.string_of_uint u) = true.
Proof. induction u; [done|..]; simpl; rewrite no_colon_cons; done. Qed.

Lemma str_of_Z_no_colon z : no_colon (str_of_Z z) = true.
Proof.
  unfold str_of_Z. destruct (Z.to_int z) as [u|u]; simpl.
  - destruct u; simpl; rewrite ?no_colon_cons; try done; by rewrite ?uint_no_colon.
  - rewrite no_colon_cons. destruct u; simpl; rewrite ?no_colon_cons; try done; by rewrite ?uint_no_colon.
Qed.

Lemma str_drop_app p s : str_drop (String.length p) (p +:+ s) = s.
Proof. induction p as [|a p IH]; [by destruct s|]. exact IH. Qed.

(** Notices of different obligations or conditions have different keys. *)
Lemma notice_key_inj o c o' c' :
  notice_idempotency_key o c = notice_idempotency_key o' c' -> o = o' /\ c = c'.
Proof.
  unfold notice_idempotency_key. intros Heq.
  apply (f_equal (str_drop (String.length "obligation-notice:"))) in Heq. rewrite !str_drop_app in Heq.
  destruct (colon_split (str_of_Z o) c (str_of_Z_no_colon o)) as [H1 H2].
  destruct (colon_split (str_of_Z o') c' (str_of_Z_no_colon o')) as [H1' H2'].
  rewrite Heq in H1, H2. split; [apply str_of_Z_inj|]; congruence.
Qed.

(** * Queries *)

Lemma first_ask_some p s a : head (asks_where p s) = Some a -> p a = true /\ exists i, asks s !! i = Some a.
Proof. intros H%head_Some_elem_of. by apply elem_of_asks_where. Qed.

Lemma first_ask_none p s i a : head (asks_where p s) = None -> asks s !! i = Some a -> p a = false.
Proof.
  intros H Ha. destruct (asks_where p s) eqn:E; [|done]. destruct (p a) eqn:Hp; [|done].
  assert (Hin : a ∈ asks_where p s) by (apply elem_of_asks_where; eauto).
  rewrite E in Hin. by apply not_elem_of_nil in Hin.
Qed.

Definition notice_named (o : Z) (c : string) (n : ObligationNotice) : Prop :=
  obligation_id n = o /\ notice_condition n = c.

Lemma notice_for_key_some o c s n :
  head (filter (notice_named o c) (all_notices s)) = Some n ->
  notice_named o c n /\ exists i, notices s !! i = Some n.
Proof. intros H%head_Some_elem_of. apply list_elem_of_filter in H as [H1 H2]. by rewrite elem_of_all_notices in H2. Qed.

Lemma notice_for_key_none o c s i n :
  head (filter (notice_named o c) (all_notices s)) = None -> notices s !! i = Some n -> ~ notice_named o c n.
Proof.
  intros H Hn Hk. destruct (filter _ _) eqn:E; [|done].
  assert (Hin : n ∈ filter (notice_named o c) (all_notices s)).
  { apply list_elem_of_filter. split; [done|]. apply elem_of_all_notices. eauto. }
  rewrite E in Hin. by apply not_elem_of_nil in Hin.
Qed.

(** * Notices *)

Lemma supersede_step ids s : ledger_step s (supersede_pending_obligation_notices ids s).1.
Proof.
  apply notices_step. intros i. rewrite lookup_fmap. destruct (notices s !! i) as [n|]; [|done]. simpl.
  case_match eqn:E; [|by split]. intros (Hk & Hc & Hne & Hst). bool_simpl.
  split; [|by repeat split; [..|right]].
  repeat split; [done..|]. right. right. right. repeat split. simpl.
  destruct Hst as [(? & ? & ?)|[(? & ?)|[(? & ?)|(? & ?)]]]; congruence.
Qed.

Lemma receive_notices_asks s : asks (receive_notices s) = asks s.
Proof.
  unfold receive_notices. simpl. generalize (incoming_notices s) as l. intros l. revert s.
  induction l as [|n l IH]; intros s; [done|]. simpl. rewrite IH. unfold receive_notice. by case_match.
Qed.

Lemma new_notice_ok a cond text post created i :
  strip cond = cond -> cond <> "" -> notice_ok (new_notice a cond text post created i).
Proof. intros. repeat split; [done..|]. by left. Qed.

(** Two notices clash exactly when they are about one obligation and condition. *)
Lemma notice_conflict_ok n m :
  notice_ok n -> notice_ok m -> notice_conflict n m = true ->
  obligation_id n = obligation_id m /\ notice_condition n = notice_condition m.
Proof.
  intros (Hn & _) (Hm & _) [Hc|Hc]%orb_true_iff; bool_simpl; [done|].
  rewrite Hn, Hm in Hc. by apply notice_key_inj.
Qed.

Lemma set_copy_ok a text post n : notice_ok n -> notice_ok (set_copy a text post n).
Proof. done. Qed.

(** [record_obligation_notice] always gives the notice of the obligation and the
    condition, new or not, and changes no ask. *)
Lemma record_notice_spec a cond text post s :
  ledger_wf s -> strip cond <> "" ->
  exists s' n b, record_obligation_notice a cond text post s = (s', Ok (n, b)) /\
    ledger_step s s' /\ asks s' = asks s /\ notice_named (ask_id a) (strip cond) n /\
    notices s' !! notice_id n = Some n.
Proof.
  intros Hs Hne. unfold record_obligation_notice.
  destruct (String.eqb_spec (strip cond) "") as [|_]; [done|].
  unfold _notice_for_key at 1. rewrite (bind_eq_ok _ _ s s _ eq_refl). fold (notice_named (ask_id a) (strip cond)).
  destruct (head _) as [n|] eqn:E.
  - apply notice_for_key_some in E as [Hnm [i Hi]].
    assert (Hid : notices s !! notice_id n = Some n).
    { by rewrite (table_ids _ _ _ _ _ (lw_notices _ Hs) i n Hi). }
    destruct (String.eqb_spec (state n) "pending") as [Hp|Hp].
    + eexists _, (set_copy a text post n), false. split; [reflexivity|]. split; [|split; [done|split; [done|]]].
      * apply (put_notice_step n); [done| |].
        -- apply set_copy_ok. by eapply (table_rows _ _ _ _ _ (lw_notices _ Hs)).
        -- unfold notice_evolves; simpl; naive_solver.
      * apply lookup_insert_eq.
    + exists s, n, false. split; [reflexivity|]. by split.
  - rewrite (bind_eq_ok _ _ s s _ eq_refl). destruct (strip_named cond Hne) as [Hst _].
    destruct (insert_notice_spec (new_notice a (strip cond) text post (clock s)) s Hs
      (fun i => eq_refl) (fun i => new_notice_ok a (strip cond) text post (clock s) i Hst Hne) (fun i => eq_refl)) as
      [(s' & Hins & Hstep & Hasks & Hmap & _)|(Hins & b & Hb & Hcon)].
    + eexists s', _, true. split.
      { unfold catch. rewrite (bind_eq_ok _ _ _ _ _ Hins). reflexivity. }
      split; [etrans; [apply receive_notices_step|done]|].
      split; [rewrite Hasks|split; [done|]].
      * apply receive_notices_asks.
      * rewrite Hmap. apply lookup_insert_eq.
    + apply elem_of_all_notices in Hb as [i Hi].
      destruct (receive_notices_step s Hs) as [Ht _].
      assert (Hbn : notice_named (ask_id a) (strip cond) b).
      { apply notice_conflict_ok in Hcon as [H1 H2]; [by split|by apply new_notice_ok|].
        by eapply (table_rows _ _ _ _ _ (lw_notices _ Ht)). }
      unfold catch. rewrite (bind_eq_err _ _ _ _ _ Hins).
      rewrite (bind_eq_ok _ _ _ (receive_notices s) _ eq_refl).
      destruct (head (filter _ (all_notices (receive_notices s)))) as [n|] eqn:E'.
      * apply notice_for_key_some in E' as [Hnm [j Hj]]. eexists _, n, false. split; [reflexivity|].
        split; [apply receive_notices_step|]. split; [apply receive_notices_asks|]. split; [done|].
        by rewrite (table_ids _ _ _ _ _ (lw_notices _ Ht) j n Hj).
      * by apply (notice_for_key_none _ _ _ _ _ E') in Hi.
Qed.

(** * Recording *)

Lemma receive_asks_old s i a : asks s !! i = Some a -> asks (receive_asks s) !! i = Some a.
Proof.
  unfold receive_asks. simpl. generalize (incoming_asks s) as l. intros l. revert s.
  induction l as [|b l IH]; intros s Ha; [done|]. simpl. apply IH. unfold receive_ask.
  case_match eqn:E; [|done]. bool_simpl. simpl. rewrite lookup_insert_ne; [done|]. congruence.
Qed.

Lemma receive_asks_notices s : notices (receive_asks s) = notices s.
Proof.
  unfold receive_asks. simpl. generalize (incoming_asks s) as l. intros l. revert s.
  induction l as [|b l IH]; intros s; [done|]. simpl. rewrite IH. unfold receive_ask. by case_match.
Qed.

Definition insert_or_find (mk : Z -> OpenAsk) (p : OpenAsk -> bool) (k : OpenAsk -> L OpenAsk) : L OpenAsk :=
  catch (insert_ask mk)
    (fun e => match e with
       | IntegrityError =>
           found <- first_ask p ;;
           match found with None => raise e | Some a => k a end
       | _ => raise e
       end).

(** An insert the index refuses finds the row in its way. *)
Lemma insert_or_find_spec mk p k s :
  ledger_wf s -> (forall i, ask_id (mk i) = i) -> (forall i, ask_ok (mk i)) ->
  (forall i b, ask_conflict (mk i) b = true -> p b = true) ->
  (exists i s', insert_or_find mk p k s = (s', Ok (mk i)) /\ ledger_step s s' /\
     asks s' !! i = Some (mk i) /\ asks s !! i = None /\
     (forall j a, asks s !! j = Some a -> asks s' !! j = Some a)) \/
  (exists a, insert_or_find mk p k s = k a (receive_asks s) /\ p a = true /\
     asks (receive_asks s) !! ask_id a = Some a).
Proof.
  intros Hs Hid Hok Hp. destruct (insert_ask_spec mk s Hs Hid Hok) as
    [(s' & Hins & Hstep & Hmap & Hn)|(Hins & b & Hb & Hcon)]; unfold insert_or_find.
  - left. exists (next_ask_id (receive_asks s)), s'. rewrite (catch_ok _ _ _ _ _ Hins).
    split; [done|]. split; [etrans; [apply receive_asks_step|done]|]. rewrite Hmap.
    split; [apply lookup_insert_eq|]. split.
    + destruct (asks s !! next_ask_id (receive_asks s)) as [a|] eqn:E; [|done].
      apply receive_asks_old in E. congruence.
    + intros j a Ha%receive_asks_old. rewrite lookup_insert_ne; [done|]. congruence.
  - right. rewrite (catch_err _ _ _ _ _ Hins). rewrite (bind_eq_ok _ _ _ (receive_asks s) _ eq_refl).
    apply elem_of_all_asks in Hb as [i Hi]. destruct (head _) as [a|] eqn:E.
    + apply first_ask_some in E as [Hpa [j Hj]]. exists a. split; [done|]. split; [done|].
      destruct (receive_asks_step s Hs) as [Ht _]. by rewrite (wf_ids _ Ht j a Hj).
    + pose proof (first_ask_none _ _ _ _ E Hi). apply Hp in Hcon. congruence.
Qed.

(** The keys of the two queries, as equations. *)
Definition human_identity (org channel thread requester : string) : ask_identity :=
  {| obligation_kind := value HUMAN_ASK; ask_org_id := org; ask_channel_id := channel;
     ask_thread_ts := thread; requester_slack_id := Some requester |}.

Lemma sql_eq_str_true o v : sql_eq_str o v = true <-> o = Some v.
Proof. destruct o as [s|]; simpl; [rewrite String.eqb_eq|]; split; congruence. Qed.
Lemma sql_eq_int_true o v : sql_eq_int o v = true <-> o = Some v.
Proof. destruct o as [z|]; simpl; [rewrite Z.eqb_eq|]; split; congruence. Qed.
Lemma sql_eq_true {A} `{EqDecision A} (a b : option A) : sql_eq a b = true <-> exists x, a = Some x /\ b = Some x.
Proof.
  destruct a as [x|], b as [y|]; simpl; [rewrite bool_decide_eq_true|..]; naive_solver.
Qed.

Lemma human_ask_key_true o c t r a : human_ask_key o c t r a = true <-> identity a = human_identity o c t r.
Proof.
  unfold human_ask_key. rewrite !andb_true_iff, !String.eqb_eq, sql_eq_str_true.
  destruct (identity a) as [k o' c' t' r']. unfold human_identity. simpl. naive_solver.
Qed.

Lemma in_thread_true o c t a :
  in_thread o c t a = true <-> ask_org_id (identity a) = o /\ ask_channel_id (identity a) = c /\ ask_thread_ts (identity a) = t.
Proof. unfold in_thread. rewrite !andb_true_iff, !String.eqb_eq. tauto. Qed.

Lemma deferral_key_true o c t run a :
  deferral_key o c t run a = true <->
  is_deferral a /\ in_thread o c t a = true /\ origin_run_id (origin a) = Some run.
Proof. unfold deferral_key. rewrite !andb_true_iff, String.eqb_eq, sql_eq_int_true. tauto. Qed.

Lemma ask_conflict_true a b :
  ask_conflict a b = true <->
  obligation_kind (identity a) = obligation_kind (identity b) /\
  ask_org_id (identity a) = ask_org_id (identity b) /\
  ask_channel_id (identity a) = ask_channel_id (identity b) /\
  ask_thread_ts (identity a) = ask_thread_ts (identity b) /\
  ((obligation_kind (identity a) = value HUMAN_ASK /\
    exists r, requester_slack_id (identity a) = Some r /\ requester_slack_id (identity b) = Some r) \/
   (is_deferral a /\ exists run, origin_run_id (origin a) = Some run /\ origin_run_id (origin b) = Some run)).
Proof.
  unfold ask_conflict, same_place, is_deferral.
  rewrite !andb_true_iff, orb_true_iff, !andb_true_iff, !String.eqb_eq, !sql_eq_true. tauto.
Qed.

(** One row per key. *)
Lemma human_key_conflict o c t r a b :
  human_ask_key o c t r a = true -> human_ask_key o c t r b = true -> ask_conflict a b = true.
Proof.
  rewrite !human_ask_key_true, ask_conflict_true. intros -> ->. repeat split. left. split; [done|]. by exists r.
Qed.

Lemma deferral_key_conflict o c t run a b :
  deferral_key o c t run a = true -> deferral_key o c t run b = true -> ask_conflict a b = true.
Proof.
  rewrite !deferral_key_true, !in_thread_true, ask_conflict_true. unfold is_deferral.
  intros (Ka & (? & ? & ?) & ?) (Kb & (? & ? & ?) & ?).
  repeat split; try congruence. right. split; [done|]. by exists run.
Qed.

Lemma human_conflict_key c run name opened i b :
  ask_conflict (new_human_ask c run name opened i) b = true ->
  human_ask_key (cx_org_id c) (cx_channel_id c) (cx_thread_ts c) (cx_requester_slack_id c) b = true.
Proof.
  rewrite ask_conflict_true, human_ask_key_true. cbn.
  intros (Hk & Ho & Hc & Ht & [(_ & r & Hr & Hr')|(Hd & _)]); [|done].
  destruct (identity b) as [k o' c' t' r']. unfold human_identity. simpl in *. congruence.
Qed.

Lemma deferral_conflict_key run org channel thread trigger text opened i b :
  ask_conflict (new_deferral run org channel thread trigger text opened i) b = true ->
  deferral_key org channel thread (run_id run) b = true.
Proof.
  rewrite ask_conflict_true, deferral_key_true, in_thread_true. unfold is_deferral.
  cbn [new_deferral identity origin obligation_kind ask_org_id ask_channel_id ask_thread_ts origin_run_id
    requester_slack_id].
  intros (Hk & -> & -> & -> & [(Hd & _)|(_ & r & Hr & Hr')]); [by rewrite Hd in *|]. repeat split; congruence.
Qed.

Lemma key_unique (p : OpenAsk -> bool) s i j a b :
  ledger_wf s -> (forall a b, p a = true -> p b = true -> ask_conflict a b = true) ->
  asks s !! i = Some a -> asks s !! j = Some b -> p a = true -> p b = true -> a = b.
Proof.
  intros [[_ _ _ Hun] _ _ _] Hp Ha Hb Hpa Hpb.
  rewrite (Hun i j a b Ha Hb (Hp a b Hpa Hpb)) in Ha. congruence.
Qed.

(** * Asks of requests *)

Definition human_key (c : open_ask_context) : OpenAsk -> bool :=
  human_ask_key (cx_org_id c) (cx_channel_id c) (cx_thread_ts c) (cx_requester_slack_id c).

(** The row a request of run [run] leaves: an ask of another run is reopened. *)
Definition kept_or_reopened (c : open_ask_context) (run : Z) (name : string) (opened : instant)
    (a : OpenAsk) : OpenAsk :=
  if Z.eqb (int_or (origin_run_id (origin a)) 0) run then a else _reopen_ask a c run name opened.

Lemma int_or_run o run : int_or o 0 = run -> run <> 0%Z -> o = Some run.
Proof. destruct o as [z|]; simpl; [|congruence]. destruct (Z.eqb_spec z 0); congruence. Qed.

Lemma human_ok c a : ask_ok a -> human_key c a = true -> is_Some (requester_slack_id (identity a)).
Proof. intros _ Hk. apply human_ask_key_true in Hk. rewrite Hk. by eexists. Qed.

Lemma reopen_ok c run name opened a :
  human_key c a = true -> ask_ok (_reopen_ask a c run name opened) /\ ask_evolves a (_reopen_ask a c run name opened).
Proof.
  intros Hk. apply human_ask_key_true in Hk. split.
  - exists HUMAN_ASK, ASK_OPEN. cbn [_reopen_ask identity life]. rewrite Hk. repeat split. by eexists.
  - split; [done|]. split; [done|]. unfold is_deferral. by rewrite Hk.
Qed.

Lemma reopen_spec c run name opened a s :
  ledger_wf s -> asks s !! ask_id a = Some a -> human_key c a = true ->
  exists s', reopen_if_other a c run name opened s = (s', Ok (kept_or_reopened c run name opened a)) /\
    ledger_step s s' /\ notices s' = notices s /\
    asks s' = <[ask_id a := kept_or_reopened c run name opened a]> (asks s).
Proof.
  intros Hs Ha Hk. unfold reopen_if_other, kept_or_reopened. case_match.
  - exists s. split; [done|]. split; [reflexivity|]. split; [done|]. by rewrite insert_id.
  - eexists. split; [reflexivity|]. destruct (reopen_ok c run name opened a Hk).
    split; [by apply (put_ask_step a)|]. by split.
Qed.

Lemma new_human_ok c run name opened i : ask_ok (new_human_ask c run name opened i).
Proof. exists HUMAN_ASK, ASK_OPEN. repeat split. by eexists. Qed.

(** What recording the request of a run leaves. *)
Record recorded_ask (c : open_ask_context) (run : Z) (name : string) (opened : instant)
    (s s' : ledger) (r : OpenAsk) : Prop := {
  rec_row : asks s' !! ask_id r = Some r;
  rec_key : human_key c r = true;
  rec_run : run <> 0%Z -> origin_run_id (origin r) = Some run;
  rec_others : forall i a, asks s !! i = Some a -> human_key c a = false -> asks s' !! i = Some a;
  rec_found : forall i a, asks s !! i = Some a -> human_key c a = true ->
    r = kept_or_reopened c run name opened a;
}.

Definition ask_row (c : open_ask_context) (run : Z) (name : string) (opened : instant) : L OpenAsk :=
  found <- _open_ask_for_key c ;;
  match found with
  | Some a => reopen_if_other a c run name opened
  | None => insert_or_find (new_human_ask c run name opened) (human_key c)
              (fun a => reopen_if_other a c run name opened)
  end.

Lemma ask_row_reopen c run name opened a s t :
  ledger_wf t -> asks t !! ask_id a = Some a -> human_key c a = true ->
  (forall i b, asks s !! i = Some b -> asks t !! i = Some b) ->
  exists s', reopen_if_other a c run name opened t = (s', Ok (kept_or_reopened c run name opened a)) /\
    ledger_step t s' /\ recorded_ask c run name opened s s' (kept_or_reopened c run name opened a).
Proof.
  intros Ht Ha Hk Hold. destruct (reopen_spec c run name opened a t Ht Ha Hk) as (s' & He & Hstep & _ & Hmap).
  assert (Hid : ask_id (kept_or_reopened c run name opened a) = ask_id a) by (unfold kept_or_reopened; by case_match).
  exists s'. split; [done|]. split; [done|]. split.
  - rewrite Hmap, Hid. apply lookup_insert_eq.
  - unfold kept_or_reopened. by case_match.
  - intros Hrun. unfold kept_or_reopened. case_match eqn:E; [|done]. bool_simpl. by apply int_or_run.
  - intros i b Hb%Hold Hkb. rewrite Hmap, lookup_insert_ne; [done|].
    intros <-. rewrite Ha in Hb. injection Hb as ->. congruence.
  - intros i b Hb%Hold Hkb. f_equal.
    apply (key_unique (human_key c) t (ask_id a) i a b Ht); try done. intros; by eapply human_key_conflict.
Qed.

Lemma ask_row_spec c run name opened s :
  ledger_wf s ->
  exists s' r, ask_row c run name opened s = (s', Ok r) /\ ledger_step s s' /\
    recorded_ask c run name opened s s' r.
Proof.
  intros Hs. unfold ask_row, _open_ask_for_key. fold (human_key c).
  rewrite (bind_eq_ok _ _ s s _ eq_refl). destruct (head _) as [a|] eqn:E.
  - apply first_ask_some in E as [Hk [i Hi]]. destruct (wf_ask s i a Hs Hi) as [_ Ha].
    destruct (ask_row_reopen c run name opened a s s Hs Ha Hk) as (s' & He & Hst & Hrec); [done|]. by eexists _, _.
  - destruct (insert_or_find_spec (new_human_ask c run name opened) (human_key c)
      (fun a => reopen_if_other a c run name opened) s Hs (fun i => eq_refl)
      (new_human_ok c run name opened) (human_conflict_key c run name opened))
      as [(i & s' & He & Hst & Hin & Hn & Hold)|(a & He & Hk & Ha)].
    + exists s', (new_human_ask c run name opened i). split; [done|]. split; [done|]. split; [done| |done| |].
      * by apply human_ask_key_true.
      * intros j a Ha _. by apply Hold.
      * intros j a Ha Hk. by rewrite (first_ask_none _ _ _ _ E Ha) in Hk.
    + destruct (receive_asks_step s Hs) as [Ht _].
      destruct (ask_row_reopen c run name opened a s (receive_asks s) Ht Ha Hk (receive_asks_old s))
        as (s' & He' & Hst & Hrec).
      eexists s', _. split; [by rewrite He|]. split; [|done]. etrans; [apply receive_asks_step|done].
Qed.

Lemma bind_bind {A B C} (m : L A) (f : A -> L B) (k : B -> L C) s :
  bind m (fun a => bind (f a) k) s = bind (bind m f) k s.
Proof. unfold bind. by destruct (m s) as [t [a|e]]. Qed.

Lemma step_wf s s' : ledger_wf s -> ledger_step s s' -> ledger_wf s'.
Proof. intros Hs H. by apply H. Qed.

Lemma requester_name_pure u sid ex s : exists name, _requester_name u sid ex s = (s, Ok name).
Proof. unfold _requester_name. case_match; by eexists. Qed.

Definition notice_wanted (c : open_ask_context) : Prop :=
  match cx_notice c with Some (sp, _) => strip (condition sp) <> "" | None => True end.

Definition noticed (c : open_ask_context) (s : ledger) (r : OpenAsk) : Prop :=
  match cx_notice c with
  | Some (sp, _) => exists n, notices s !! notice_id n = Some n /\ notice_named (ask_id r) (strip (condition sp)) n
  | None => True
  end.

Lemma record_open_ask_ok c run now s :
  ledger_wf s -> notice_wanted c ->
  exists s' r name, record_open_ask (Some c) run now s = (s', Ok (Some r)) /\ ledger_step s s' /\
    recorded_ask c run name (default (clock s) now) s s' r /\ noticed c s' r.
Proof.
  intros Hs Hw. destruct (requester_name_pure (cx_requester_user_id c) (cx_requester_slack_id c)
    (cx_requester_name c) s) as [name Hname].
  destruct (ask_row_spec c run name (default (clock s) now) s Hs) as (t & r & He & Hst & Hrec).
  unfold record_open_ask. rewrite (bind_eq_ok _ _ s s _ eq_refl), (bind_eq_ok _ _ _ _ _ Hname).
  rewrite bind_bind. fold (human_key c). change (bind (_open_ask_for_key c) _) with (ask_row c run name (default (clock s) now)).
  rewrite (bind_eq_ok _ _ _ _ _ He). unfold notice_wanted, noticed in *.
  destruct (cx_notice c) as [[sp post]|]; [|by exists t, r, name].
  pose proof (step_wf _ _ Hs Hst) as Ht.
  destruct (record_notice_spec r (condition sp) (notice_text sp) (or_none (strip post)) t Ht Hw)
    as (u & n & b & Hn & Hst' & Hasks & Hnm & Hin).
  exists u, r, name. rewrite (bind_eq_ok _ _ _ _ _ Hn). split; [done|]. split; [by etrans|]. split; [|by exists n].
  destruct Hrec. split; rewrite ?Hasks; done.
Qed.

(** * Deferrals *)

Lemma deferral_key_id run channel_id thread_ts o c t i :
  _run_deferral_key run channel_id thread_ts = Some (o, c, t, i) -> i = run_id run.
Proof. unfold _run_deferral_key. case_match; [done|]. by intros [= <- <- <- <-]. Qed.

Lemma new_deferral_ok run o c t trigger text opened i : ask_ok (new_deferral run o c t trigger text opened i).
Proof. exists RUN_DEFERRAL, ASK_OPEN. repeat split. by eexists. Qed.

Lemma new_deferral_key run o c t trigger text opened i :
  deferral_key o c t (run_id run) (new_deferral run o c t trigger text opened i) = true.
Proof. apply deferral_key_true. split; [done|]. split; [by apply in_thread_true|done]. Qed.

(** The row of the deferral: found, inserted, or inserted by another transaction. *)
Definition deferral_row (run : run_row) (o c t : string) (trigger : dict) (text : string)
    (now : option instant) : L OpenAsk :=
  found <- _run_deferral_for_key o c t (run_id run) ;;
  match found with
  | Some a => ret a
  | None => opened <- moment now ;;
            insert_or_find (new_deferral run o c t trigger text opened) (deferral_key o c t (run_id run)) ret
  end.

Lemma deferral_row_spec run o c t trigger text now s :
  ledger_wf s ->
  exists s' a, deferral_row run o c t trigger text now s = (s', Ok a) /\ ledger_step s s' /\
    asks s' !! ask_id a = Some a /\ deferral_key o c t (run_id run) a = true /\
    (forall i b, asks s !! i = Some b -> asks s' !! i = Some b).
Proof.
  intros Hs. unfold deferral_row, _run_deferral_for_key.
  rewrite (bind_eq_ok _ _ s s _ eq_refl). destruct (head _) as [a|] eqn:E.
  - apply first_ask_some in E as [Hk [i Hi]]. destruct (wf_ask s i a Hs Hi) as [_ Ha].
    exists s, a. split; [done|]. by split.
  - rewrite (bind_eq_ok _ _ s s _ eq_refl).
    destruct (insert_or_find_spec (new_deferral run o c t trigger text (default (clock s) now))
      (deferral_key o c t (run_id run)) ret s Hs (fun i => eq_refl)
      (new_deferral_ok run o c t trigger text _) (deferral_conflict_key run o c t trigger text _))
      as [(i & s' & He & Hst & Hin & Hn & Hold)|(a & He & Hk & Ha)].
    + eexists s', _. split; [done|]. split; [done|]. split; [done|]. split; [apply new_deferral_key|done].
    + eexists _, a. split; [done|]. split; [apply receive_asks_step|]. split; [done|]. split; [done|].
      apply receive_asks_old.
Qed.

Lemma record_run_deferral_ok run channel_id thread_ts trigger text cond post now s o c t i :
  ledger_wf s -> _run_deferral_key run channel_id thread_ts = Some (o, c, t, i) -> strip cond <> "" ->
  exists s' a n created,
    record_run_deferral run channel_id thread_ts trigger text cond post now s = (s', Ok (a, n, created)) /\
    ledger_step s s' /\ asks s' !! ask_id a = Some a /\ deferral_key o c t (run_id run) a = true /\
    (forall j b, asks s !! j = Some b -> asks s' !! j = Some b) /\
    if is_terminal_ask a then n = None /\ created = false
    else exists m, n = Some m /\ notices s' !! notice_id m = Some m /\ notice_named (ask_id a) (strip cond) m.
Proof.
  intros Hs Hkey Hne. pose proof (deferral_key_id _ _ _ _ _ _ _ Hkey) as ->.
  destruct (deferral_row_spec run o c t trigger text now s Hs) as (u & a & He & Hst & Ha & Hk & Hold).
  unfold record_run_deferral. rewrite Hkey. cbv zeta. destruct (String.eqb_spec (strip cond) "") as [|_]; [done|].
  rewrite bind_bind.
  change (bind (_run_deferral_for_key o c t (run_id run)) _) with (deferral_row run o c t trigger text now).
  rewrite (bind_eq_ok _ _ _ _ _ He). fold (is_terminal_ask a). destruct (is_terminal_ask a) eqn:Ht.
  - exists u, a, None, false. split; [done|]. rewrite Ht. split; [done|]. by repeat split.
  - destruct (record_notice_spec a (strip cond) text post u (step_wf _ _ Hs Hst))
      as (v & m & b & Hn & Hst' & Hasks & Hnm & Hin); [by rewrite strip_idem|].
    exists v, a, (Some m), b. rewrite (bind_eq_ok _ _ _ _ _ Hn). split; [done|]. split; [by etrans|].
    rewrite Hasks, Ht. split; [done|]. split; [done|]. split; [done|]. exists m. by rewrite strip_idem in Hnm.
Qed.

(** * Settlement *)

Lemma moment_eq now s : moment now s = (s, Ok (default (clock s) now)).
Proof. done. Qed.

Lemma mark_answered_eq a text run kind ref ts now m s :
  strip ts = ts -> ts <> "" ->
  bind (mark_open_ask_answered a text run kind ref (ts_response ts) now) (fun _ => ret tt) (set_asks m s) =
  (set_asks (<[ask_id a := with_life (answered_life text run kind ref ts (default (clock s) now)) a]> m) s, Ok tt).
Proof. intros H1 H2. unfold mark_open_ask_answered. by rewrite (ts_response_ts ts H1 H2). Qed.

Lemma mark_routed_eq a name sid ts now m s :
  strip ts = ts -> ts <> "" -> strip name = name -> name <> "" -> strip sid = sid -> sid <> "" ->
  bind (mark_open_ask_routed a name sid (ts_response ts) now) (fun _ => ret tt) (set_asks m s) =
  (set_asks (<[ask_id a := with_life (routed_life name sid ts (default (clock s) now)) a]> m) s, Ok tt).
Proof.
  intros H1 H2 Hn Hn' Hs Hs'. unfold mark_open_ask_routed. rewrite Hn, Hs.
  destruct (String.eqb_spec name "") as [|_]; [done|]. destruct (String.eqb_spec sid "") as [|_]; [done|].
  rewrite orb_false_r. by rewrite ts_response_ts.
Qed.

Lemma active_not_terminal a : is_active a = true -> is_terminal_ask a = false.
Proof.
  unfold is_active, is_terminal_ask, str_in, ACTIVE_OPEN_ASK_STATUS_VALUES, TERMINAL_OPEN_ASK_STATUS_VALUES.
  simpl. intros [H|H]%orb_true_iff; [|rewrite orb_false_r in H]; apply String.eqb_eq in H; by rewrite H.
Qed.

Lemma answered_life_ok text run kind ref ts at_ a :
  strip ts = ts -> ts <> "" -> is_active a = true -> ask_ok a ->
  let b := with_life (answered_life text run kind ref ts at_) a in ask_ok b /\ ask_evolves a b.
Proof.
  intros Hts Hne Hact (k & st & Hk & Hst & Hl & Hkind). split.
  - exists k, ASK_ANSWERED. split; [done|]. split; [done|]. split; [|done].
    repeat split; by eexists.
  - split; [done|]. split; [done|]. intros _. split; [done|]. intros Ht.
    apply active_not_terminal in Hact. congruence.
Qed.

Lemma routed_ok name sid ts at_ a :
  strip ts = ts -> ts <> "" -> strip name = name -> name <> "" -> strip sid = sid -> sid <> "" ->
  obligation_kind (identity a) = value HUMAN_ASK -> ask_status (life a) = value ASK_OPEN -> ask_ok a ->
  let b := with_life (routed_life name sid ts at_) a in ask_ok b /\ ask_evolves a b.
Proof.
  intros Hts Hne Hn Hn' Hs Hs' Hkd Ho (k & st & Hk & Hst & Hl & Hkind). rewrite Hkd in Hk.
  apply value_inj in Hk as <-. rewrite Ho in Hst. apply value_inj in Hst as <-. simpl in Hl. split.
  - exists HUMAN_ASK, ASK_ROUTED. split; [done|]. split; [done|]. split; [|done]. simpl. rewrite Hl. simpl.
    repeat split; by eexists.
  - split; [done|]. split; [done|]. unfold is_deferral. by rewrite Hkd.
Qed.

Lemma expired_ok run st hours at_ a :
  is_deferral a -> ask_status (life a) = value ASK_OPEN -> ask_ok a ->
  let b := with_life (expired_life run st hours at_) a in ask_ok b /\ ask_evolves a b.
Proof.
  intros Hkd Ho (k & st' & Hk & Hst & Hl & Hkind). unfold is_deferral in Hkd. rewrite Hkd in Hk.
  apply value_inj in Hk as <-. rewrite Ho in Hst. apply value_inj in Hst as <-. simpl in Hl. split.
  - exists RUN_DEFERRAL, ASK_EXPIRED. split; [done|]. split; [done|]. split; [|done]. simpl. rewrite Hl. simpl.
    repeat split; by eexists.
  - split; [done|]. split; [done|]. intros _. split; [done|]. unfold is_terminal_ask. by rewrite Ho.
Qed.

Definition superseded (ids : list Z) (s : ledger) : ledger := (supersede_pending_obligation_notices ids s).1.

(** The rows that satisfy [p] become [f] of themselves, and their pending notices
    are superseded. *)
Definition settle_where (p : OpenAsk -> bool) (f : OpenAsk -> OpenAsk) (s : ledger) : ledger :=
  superseded (ask_id <$> asks_where p s) (change_where p f s).

Lemma settle_loop (body : OpenAsk -> L unit) p f s {A} (k : L A) :
  ledger_wf s ->
  (forall a m, p a = true -> body a (set_asks m s) = (set_asks (<[ask_id a := f a]> m) s, Ok tt)) ->
  bind (for_each body (asks_where p s)) (fun _ =>
    bind (supersede_pending_obligation_notices (ask_id <$> asks_where p s)) (fun _ => k)) s =
  k (settle_where p f s).
Proof.
  intros Hs Hb. rewrite (bind_eq_ok _ _ _ _ _ (for_each_where f body p s (wf_ids s Hs) Hb)). done.
Qed.

Lemma settle_step p f s :
  (forall a, p a = true -> ask_ok a -> ask_ok (f a) /\ ask_evolves a (f a)) -> ledger_step s (settle_where p f s).
Proof. intros Hf. etrans; [by apply (change_step p f)|apply supersede_step]. Qed.

Lemma settle_asks p f s i : asks (settle_where p f s) !! i = (fun a => if p a then f a else a) <$> asks s !! i.
Proof. apply lookup_fmap. Qed.

(** The obligation of a notice satisfies [p]. *)
Definition owner_is (p : OpenAsk -> bool) (s : ledger) (n : ObligationNotice) : bool :=
  match asks s !! obligation_id n with Some a => p a | None => false end.

Lemma owner_listed p s n :
  ledger_wf s -> bool_decide (obligation_id n ∈ ask_id <$> asks_where p s) = owner_is p s n.
Proof.
  intros Hs. unfold owner_is. case_bool_decide as H.
  - apply list_elem_of_fmap in H as (a & -> & [Hp [i Hi]]%elem_of_asks_where).
    destruct (wf_ask s i a Hs Hi) as [_ ->]. done.
  - destruct (asks s !! obligation_id n) as [a|] eqn:E; [|done]. destruct (p a) eqn:Hp; [|done].
    destruct H. apply list_elem_of_fmap. exists a. split; [by rewrite (wf_ids s Hs _ _ E)|].
    apply elem_of_asks_where. eauto.
Qed.

Lemma settle_notices p f s i :
  ledger_wf s ->
  notices (settle_where p f s) !! i =
  (fun n => if owner_is p s n && String.eqb (state n) "pending"
            then set_state "superseded" None None n else n) <$> notices s !! i.
Proof.
  intros Hs. unfold settle_where, superseded. simpl. rewrite lookup_fmap.
  destruct (notices s !! i) as [n|]; [|done]. simpl. by rewrite owner_listed.
Qed.

(** The operations, as what they settle. *)
Definition answer_of (d : DeliveredSlackAnswer) (at_ : instant) : OpenAsk -> OpenAsk :=
  with_life (answered_life (da_answer_text d) (da_answering_run_id d) (da_artifact_kind d)
    (da_artifact_ref d) (strip (da_slack_message_ts d)) at_).
Definition answer_place (d : DeliveredSlackAnswer) (a : OpenAsk) : bool :=
  in_thread (strip (da_org_id d)) (strip (da_channel_id d)) (strip (da_thread_ts d)) a && is_active a.
Definition answer_valid (d : DeliveredSlackAnswer) : Prop :=
  strip (da_slack_message_ts d) <> "" /\ strip (da_org_id d) <> "" /\ strip (da_channel_id d) <> "" /\
  strip (da_thread_ts d) <> "".

Lemma eqb_false (s : string) : s <> "" -> String.eqb s "" = false.
Proof. apply String.eqb_neq. Qed.

Lemma slack_answer_eq d now s :
  ledger_wf s -> answer_valid d ->
  record_delivered_slack_answer d now s =
  (settle_where (answer_place d) (answer_of d (default (clock s) now)) s,
   Ok {| human_asks := count_kind HUMAN_ASK (asks_where (answer_place d) s);
         run_deferrals := count_kind RUN_DEFERRAL (asks_where (answer_place d) s) |}).
Proof.
  intros Hs (Hts & Ho & Hc & Ht). unfold record_delivered_slack_answer. cbv zeta.
  rewrite (eqb_false _ Hts), (eqb_false _ Ho), (eqb_false _ Hc), (eqb_false _ Ht). cbn [orb].
  unfold _delivered_slack_rows. rewrite (bind_eq_ok _ _ s s _ eq_refl). fold (answer_place d).
  rewrite (settle_loop _ _ (answer_of d (default (clock s) now)) _ _ Hs); [done|].
  intros a m _. by apply mark_answered_eq; [apply strip_idem|].
Qed.

Definition reply_place (s : ledger) (reply : InboundSlackReply) (org channel thread : string) (a : OpenAsk) : bool :=
  in_thread org channel thread a && is_active a && reply_settles s reply a.

Lemma reply_eq org channel thread user ts text now s :
  ledger_wf s ->
  strip org <> "" -> strip channel <> "" -> strip thread <> "" -> strip user <> "" -> strip ts <> "" ->
  let reply := {| reply_slack_user_id := strip user; reply_message_ts := strip ts; reply_text := text |} in
  let p := reply_place s reply (strip org) (strip channel) (strip thread) in
  record_inbound_slack_obligation_answer org channel thread user ts text now s =
  (settle_where p (with_life (answered_life text None None None (strip ts) (default (clock s) now))) s,
   Ok (Z.of_nat (length (asks_where p s)))).
Proof.
  intros Hs Ho Hc Ht Hu Hts reply p. unfold record_inbound_slack_obligation_answer. cbv zeta.
  rewrite (eqb_false _ Hts), (eqb_false _ Ho), (eqb_false _ Hc), (eqb_false _ Ht), (eqb_false _ Hu). cbn [orb].
  rewrite (bind_eq_ok get _ s s s eq_refl). fold reply. fold p.
  rewrite (settle_loop _ _ (with_life (answered_life text None None None (strip ts) (default (clock s) now))) _ _ Hs);
    [done|].
  intros a m _. by apply mark_answered_eq; [apply strip_idem|].
Qed.

Definition expiry_of (s : ledger) (hours at_ : Z) (a : OpenAsk) : OpenAsk :=
  match origin_run_status s a with
  | Some (run, st) => with_life (expired_life run st hours at_) a
  | None => a
  end.

Lemma expire_eq org now after s :
  ledger_wf s ->
  let at_ := default (clock s) now in
  let p := stale_deferral s org (at_ - after) in
  expire_stale_run_deferrals org now after s =
  (settle_where p (expiry_of s (after / (3600 * 1000000)) at_) s, Ok (Z.of_nat (length (asks_where p s)))).
Proof.
  intros Hs at_ p. unfold expire_stale_run_deferrals. rewrite (bind_eq_ok _ _ _ _ _ (moment_eq now s)).
  rewrite (bind_eq_ok get _ s s s eq_refl). cbv zeta. fold at_. fold p.
  rewrite (settle_loop _ _ (expiry_of s (after / (3600 * 1000000)) at_) _ _ Hs); [done|].
  intros a m Hp. unfold expiry_of. subst p. unfold stale_deferral in Hp.
  apply andb_true_iff in Hp as [_ Hp]. by destruct (origin_run_status s a) as [[run st]|].
Qed.

Lemma stale_expiry_ok s org cutoff hours at_ a :
  stale_deferral s org cutoff a = true -> ask_ok a ->
  ask_ok (expiry_of s hours at_ a) /\ ask_evolves a (expiry_of s hours at_ a).
Proof.
  unfold stale_deferral. intros Hp Ha. rewrite !andb_true_iff, !String.eqb_eq in Hp.
  destruct Hp as ((((_ & Hk) & Ho) & _) & Hr). unfold expiry_of.
  destruct (origin_run_status s a) as [[run st]|]; [|done]. by apply expired_ok.
Qed.

Definition route_place (d : DeliveredSlackRoute) (run : Z) (a : OpenAsk) : bool :=
  in_thread (strip (dr_org_id d)) (strip (dr_channel_id d)) (strip (dr_thread_ts d)) a &&
  (String.eqb (obligation_kind (identity a)) (value HUMAN_ASK)
   && sql_eq_int (origin_run_id (origin a)) run && String.eqb (ask_status (life a)) (value ASK_OPEN)).
Definition route_of (d : DeliveredSlackRoute) (at_ : instant) : OpenAsk -> OpenAsk :=
  with_life (routed_life (strip (dr_routed_to_name d)) (strip (dr_routed_to_slack_id d))
    (strip (dr_slack_message_ts d)) at_).
Definition route_valid (d : DeliveredSlackRoute) : Prop :=
  strip (dr_slack_message_ts d) <> "" /\ strip (dr_routed_to_name d) <> "" /\
  strip (dr_routed_to_slack_id d) <> "" /\ strip (dr_org_id d) <> "" /\ strip (dr_channel_id d) <> "" /\
  strip (dr_thread_ts d) <> "".

Lemma route_eq d run now s :
  ledger_wf s -> route_valid d -> dr_answering_run_id d = Some run ->
  record_delivered_slack_route d now s =
  (change_where (route_place d run) (route_of d (default (clock s) now)) s,
   Ok (Z.of_nat (length (asks_where (route_place d run) s)))).
Proof.
  intros Hs (Hts & Hn & Hi & Ho & Hc & Ht) Hrun. unfold record_delivered_slack_route. cbv zeta.
  rewrite (eqb_false _ Hts), (eqb_false _ Hn), (eqb_false _ Hi), (eqb_false _ Ho), (eqb_false _ Hc),
    (eqb_false _ Ht), Hrun. cbn [orb].
  unfold _delivered_slack_rows. rewrite (bind_eq_ok _ _ s s _ eq_refl). fold (route_place d run).
  rewrite (bind_eq_ok _ _ s (change_where (route_place d run) (route_of d (default (clock s) now)) s) tt); [done|].
  apply for_each_where; [by apply wf_ids|]. intros a m _. apply mark_routed_eq; (done || apply strip_idem).
Qed.

Lemma route_step d run at_ s : route_valid d -> ledger_step s (change_where (route_place d run) (route_of d at_) s).
Proof.
  intros (Hts & Hn & Hi & _). apply change_step. unfold route_place. intros a Hp Ha.
  rewrite !andb_true_iff, !String.eqb_eq in Hp. destruct Hp as (_ & (Hk & _) & Ho).
  by apply routed_ok; (done || apply strip_idem).
Qed.
