(* ===== verification/ObligationTheorems.v ===== *)
(** What the ledger of obligations promises: one row per obligation and nothing of a
    former life in an open one, whatever the operations and other transactions do;
    deferrals settle for good; an answer delivered in a thread settles it; a request
    is recorded once. *)
From Stdlib Require Import Ascii.
From S2P Require Import Prelude.
From S2P Require Import PyStr.
From S2P Require Import Json.
From S2P Require Import Status.
From S2P Require Import RunStore.
From S2P Require Import RunDemo.
From S2P Require Import Obligations.
From S2P Require Import ObligationLedger.
From S2P Require Import ObligationOps.
Open Scope string_scope.
Open Scope bool_scope.
Open Scope list_scope.

(** * The operations of the ledger and the world around them *)

Inductive obligation_op : Type :=
| RecordAsk (c : option open_ask_context) (run : Z) (now : option instant)
| RecordDeferral (run : run_row) (channel_id thread_ts : string) (trigger : dict) (text cond : string)
    (post : option string) (now : option instant)
| AnswerDelivered (d : DeliveredSlackAnswer) (now : option instant)
| RouteDelivered (d : DeliveredSlackRoute) (now : option instant)
| ReplyReceived (org channel thread user ts text : string) (now : option instant)
| ExpireDeferrals (org : string) (now : option instant) (after : Z).

Definition run_obligation (op : obligation_op) (s : ledger) : ledger :=
  match op with
  | RecordAsk c run now => (record_open_ask c run now s).1
  | RecordDeferral run ch th trigger text cond post now =>
      (record_run_deferral run ch th trigger text cond post now s).1
  | AnswerDelivered d now => (record_delivered_slack_answer d now s).1
  | RouteDelivered d now => (record_delivered_slack_route d now s).1
  | ReplyReceived org ch th user ts text now =>
      (record_inbound_slack_obligation_answer org ch th user ts text now s).1
  | ExpireDeferrals org now after => (expire_stale_run_deferrals org now after s).1
  end.

(** Between two operations time passes, runs change, notices are delivered, and other
    transactions prepare rows; the asks stay. *)
Record elsewhere (s t : ledger) : Prop := {
  out_asks : asks t = asks s;
  out_ids : next_ask_id t = next_ask_id s;
  out_notices : table_wf notice_id notice_conflict notice_ok (notices t) (next_notice_id t);
  out_in_asks : Forall ask_ok (incoming_asks t);
  out_in_notices : Forall notice_ok (incoming_notices t);
}.

Inductive ledger_reach (s : ledger) : ledger -> Prop :=
| reach_here : ledger_reach s s
| reach_op t op : ledger_reach s t -> ledger_reach s (run_obligation op t)
| reach_world t u : ledger_reach s t -> elsewhere t u -> ledger_reach s u.

#[export] Instance notice_wanted_dec c : Decision (notice_wanted c).
Proof. unfold notice_wanted. destruct (cx_notice c) as [[sp post]|]; apply _. Defined.
#[export] Instance answer_valid_dec d : Decision (answer_valid d).
Proof. unfold answer_valid. apply _. Defined.
#[export] Instance route_valid_dec d : Decision (route_valid d).
Proof. unfold route_valid. apply _. Defined.

Lemma step_on_wf s t : (ledger_wf s -> ledger_step s t) -> ledger_step s t.
Proof. intros H Hs. by apply H. Qed.

(** Guards that raise before anything is written. *)
Ltac past_guards := repeat (case_match; [reflexivity|]); bool_simpl.

Lemma record_ask_rows c run now s :
  ledger_wf s -> let t := (record_open_ask (Some c) run now s).1 in
  ledger_step s t /\ exists name r, recorded_ask c run name (default (clock s) now) s t r.
Proof.
  intros Hs. destruct (decide (notice_wanted c)) as [Hw|Hw].
  { destruct (record_open_ask_ok c run now s Hs Hw) as (s' & r & name & -> & Hst & Hrec & _). eauto. }
  destruct (requester_name_pure (cx_requester_user_id c) (cx_requester_slack_id c)
    (cx_requester_name c) s) as [name Hname].
  destruct (ask_row_spec c run name (default (clock s) now) s Hs) as (t & r & He & Hst & Hrec).
  unfold record_open_ask. rewrite (bind_eq_ok _ _ s s _ eq_refl), (bind_eq_ok _ _ _ _ _ Hname).
  rewrite bind_bind. fold (human_key c).
  change (bind (_open_ask_for_key c) _) with (ask_row c run name (default (clock s) now)).
  rewrite (bind_eq_ok _ _ _ _ _ He). unfold notice_wanted in Hw.
  destruct (cx_notice c) as [[sp post]|]; [|done].
  unfold record_obligation_notice. destruct (String.eqb_spec (strip (condition sp)) ""); [|by destruct Hw]. eauto.
Qed.

Lemma record_ask_step c run now s : ledger_step s (record_open_ask c run now s).1.
Proof. apply step_on_wf. intros Hs. destruct c as [c|]; [|reflexivity]. by apply record_ask_rows. Qed.

Lemma record_deferral_step run ch th trigger text cond post now s :
  ledger_step s (record_run_deferral run ch th trigger text cond post now s).1.
Proof.
  apply step_on_wf. intros Hs. destruct (_run_deferral_key run ch th) as [[[[o c] t] i]|] eqn:Hk.
  2:{ unfold record_run_deferral. rewrite Hk. reflexivity. }
  destruct (decide (strip cond = "")) as [He|Hne].
  - unfold record_run_deferral. rewrite Hk. cbv zeta. rewrite He. reflexivity.
  - destruct (record_run_deferral_ok run ch th trigger text cond post now s o c t i Hs Hk Hne)
      as (s' & a & n & b & -> & Hst & _). exact Hst.
Qed.

Lemma answer_step d now s : ledger_step s (record_delivered_slack_answer d now s).1.
Proof.
  apply step_on_wf. intros Hs. destruct (decide (answer_valid d)) as [Hv|Hv].
  - rewrite slack_answer_eq by done. destruct Hv as [Hts _]. apply settle_step. unfold answer_place.
    intros a [_ Ha]%andb_true_iff Hok. by apply answered_life_ok; [apply strip_idem|..].
  - unfold record_delivered_slack_answer. cbv zeta. past_guards. by destruct Hv.
Qed.

Lemma route_delivered_step d now s : ledger_step s (record_delivered_slack_route d now s).1.
Proof.
  apply step_on_wf. intros Hs. destruct (decide (route_valid d)) as [Hv|Hv].
  - destruct (dr_answering_run_id d) as [run|] eqn:Hr; [rewrite (route_eq _ run) by done; by apply route_step|].
    unfold record_delivered_slack_route. cbv zeta. past_guards. by rewrite Hr.
  - unfold record_delivered_slack_route. cbv zeta. past_guards. by destruct Hv.
Qed.

Lemma reply_step org ch th user ts text now s :
  ledger_step s (record_inbound_slack_obligation_answer org ch th user ts text now s).1.
Proof.
  apply step_on_wf. intros Hs.
  destruct (decide (strip org <> "" /\ strip ch <> "" /\ strip th <> "" /\ strip user <> "" /\ strip ts <> ""))
    as [(Ho & Hc & Ht & Hu & Hts)|Hv].
  - rewrite reply_eq by done. apply settle_step. unfold reply_place. intros a Hp Hok.
    apply andb_true_iff in Hp as [[_ Ha]%andb_true_iff _]. by apply answered_life_ok; [apply strip_idem|..].
  - unfold record_inbound_slack_obligation_answer. cbv zeta. past_guards. by destruct Hv.
Qed.

Lemma obligation_step op s : ledger_step s (run_obligation op s).
Proof.
  destruct op; cbn [run_obligation].
  - apply record_ask_step.
  - apply record_deferral_step.
  - apply answer_step.
  - apply route_delivered_step.
  - apply reply_step.
  - apply step_on_wf. intros Hs. rewrite expire_eq by done. apply settle_step. intros a. apply stale_expiry_ok.
Qed.

Lemma reach_step s t :
  ledger_wf s -> ledger_reach s t ->
  ledger_wf t /\ (forall i a, asks s !! i = Some a -> exists b, asks t !! i = Some b /\ ask_evolves a b).
Proof.
  intros Hs. induction 1 as [|t op H [Ht IH]|t u H [Ht IH] Hout].
  - split; [done|]. intros i a Ha. exists a. split; [done|reflexivity].
  - destruct (obligation_step op t Ht) as [Hu Hev]. split; [done|].
    intros i a (b & Hb & Hab)%IH. apply (ev_asks _ _ Hev) in Hb as (c & Hc & Hbc).
    exists c. split; [done|by etrans].
  - destruct Hout as [Ha Hi Hn Hia Hin]. split.
    + split; [rewrite Ha, Hi; by apply lw_asks|done..].
    + intros i a (b & Hb & Hab)%IH. exists b. by rewrite Ha.
Qed.

Lemma open_life s i a :
  ledger_wf s -> asks s !! i = Some a -> ask_status (life a) = value ASK_OPEN ->
  life a = _reopen_obligation (opened_at (life a)).
Proof.
  intros Hs Ha Ho. destruct (wf_ask s i a Hs Ha) as [(k & st & _ & Hst & Hl & _) _].
  rewrite Ho in Hst. by apply value_inj in Hst as <-.
Qed.

(** C29. Whatever requests, deferrals, deliveries, replies and sweeps do to the ledger,
    in any order and with other transactions in between: no two asks are about the
    same obligation, every ask keeps the identity it was created with, an open ask
    carries nothing of a former life (no answer, no owner, no expiry), only human
    asks are routed and only deferrals expire, and a deferral that was answered or
    expired stays exactly as it was. *)
Theorem obligations_history (s t : ledger) :
  ledger_wf s -> ledger_reach s t ->
  ledger_wf t /\
  (forall i j a b, asks t !! i = Some a -> asks t !! j = Some b -> ask_conflict a b = true -> i = j) /\
  (forall i a, asks t !! i = Some a -> ask_status (life a) = value ASK_OPEN ->
     life a = _reopen_obligation (opened_at (life a))) /\
  (forall i a, asks t !! i = Some a ->
     (ask_status (life a) = value ASK_ROUTED -> ~ is_deferral a) /\
     (ask_status (life a) = value ASK_EXPIRED -> is_deferral a)) /\
  (forall i a, asks s !! i = Some a ->
     exists b, asks t !! i = Some b /\ ask_id b = ask_id a /\ identity b = identity a /\
       (is_deferral a -> is_terminal_ask a = true -> b = a)).
Proof.
  intros Hs Hr. destruct (reach_step s t Hs Hr) as [Ht Hev]. split; [done|]. split; [by apply Ht|].
  split; [intros i a; by apply open_life|]. split.
  - intros i a Ha. destruct (wf_ask t i a Ht Ha) as [(k & st & Hk & Hst & Hl & _) _]. unfold is_deferral.
    split; intros He; rewrite He in Hst; apply value_inj in Hst as <-; destruct Hl as [-> _]; by rewrite Hk.
  - intros i a (b & Hb & Hid & Hd & Hk)%Hev. exists b. repeat split; try done. intros H1 H2. by apply Hk.
Qed.

(** ** A demonstration *)

Definition demo_context : open_ask_context :=
  {| cx_org_id := "org"; cx_channel_id := "C1"; cx_channel_type := None; cx_team_id := Some "T1";
     cx_thread_ts := "1.5"; cx_thread_permalink := "link"; cx_requester_slack_id := "U1";
     cx_requester_user_id := None; cx_requester_name := None; cx_bot_user_id := None;
     cx_ask_text := "when?"; cx_origin_ref := "slack:T1:C1:1.5"; cx_notice := None |}.
Definition empty_ledger : ledger := Build_ledger ∅ ∅ 1 1 [] [] ∅ ∅ 100.
Definition demo_answer : DeliveredSlackAnswer :=
  {| da_org_id := "org"; da_channel_id := "C1"; da_thread_ts := "1.5"; da_answering_run_id := Some 7%Z;
     da_slack_message_ts := "2.5"; da_answer_text := "today"; da_artifact_kind := None; da_artifact_ref := None |}.
Definition asked : ledger := run_obligation (RecordAsk (Some demo_context) 7 None) empty_ledger.
Definition answered : ledger := run_obligation (AnswerDelivered demo_answer None) asked.

Lemma empty_ledger_wf : ledger_wf empty_ledger.
Proof. repeat split; try done; by constructor. Qed.
Lemma asked_wf : ledger_wf asked.
Proof. exact (proj1 (obligation_step _ _ empty_ledger_wf)). Qed.
Lemma answered_wf : ledger_wf answered.
Proof. exact (proj1 (obligation_step _ _ asked_wf)). Qed.

Lemma obligations_history_witness :
  ledger_wf empty_ledger /\ ledger_wf answered /\
  (ask_status ∘ life <$> asks answered !! 1%Z) = Some (value ASK_ANSWERED).
Proof.
  split; [exact empty_ledger_wf|]. split; [|vm_compute; reflexivity].
  apply (obligations_history empty_ledger answered empty_ledger_wf).
  apply reach_op, reach_op, reach_here.
Defined.

(** * A settled ask comes back only for a new request *)

Lemma settle_kept p f s i a b :
  (forall x, p x = true -> is_active x = true) -> asks s !! i = Some a -> is_terminal_ask a = true ->
  asks (settle_where p f s) !! i = Some b -> b = a.
Proof.
  intros Hp Ha Ht. rewrite settle_asks, Ha. simpl. destruct (p a) eqn:E; [|congruence].
  apply Hp, active_not_terminal in E. congruence.
Qed.

Lemma open_active a : ask_status (life a) = value ASK_OPEN -> is_active a = true.
Proof. intros E. unfold is_active. by rewrite E. Qed.

Lemma evolved_ask s t i a b :
  ledger_wf s -> ledger_step s t -> asks s !! i = Some a -> asks t !! i = Some b -> ask_evolves a b.
Proof. intros Hs Hst Ha Hb. destruct (Hst Hs) as [_ Hev]. destruct (ev_asks _ _ Hev i a Ha) as (c & Hc & ?). congruence. Qed.

(** What is not a request leaves a settled ask alone. *)
Lemma settled_kept op s i a b :
  ledger_wf s -> (forall c run now, op <> RecordAsk (Some c) run now) ->
  asks s !! i = Some a -> is_terminal_ask a = true -> asks (run_obligation op s) !! i = Some b -> b = a.
Proof.
  intros Hs Hop Ha Ht. assert (Hsame : asks s !! i = Some b -> b = a) by congruence.
  destruct op as [[c|] run now|run ch th trigger text cond post now|d now|d now|org ch th user ts text now|org now after];
    cbn [run_obligation]; [by destruct (Hop c run now)|done|..].
  - destruct (_run_deferral_key run ch th) as [[[[o c] t] j]|] eqn:Hk; [|unfold record_run_deferral; by rewrite Hk].
    destruct (decide (strip cond = "")) as [He|Hne]; [unfold record_run_deferral; rewrite Hk; cbv zeta; by rewrite He|].
    destruct (record_run_deferral_ok run ch th trigger text cond post now s o c t j Hs Hk Hne)
      as (s' & x & n & bb & -> & _ & _ & _ & Hold & _). simpl. rewrite (Hold i a Ha). congruence.
  - destruct (decide (answer_valid d)) as [Hv|Hv].
    + rewrite slack_answer_eq by done. apply settle_kept; [|done..]. by intros x [_ ?]%andb_true_iff.
    + unfold record_delivered_slack_answer. cbv zeta. repeat (case_match; [done|]). bool_simpl. by destruct Hv.
  - destruct (decide (route_valid d)) as [Hv|Hv].
    + destruct (dr_answering_run_id d) as [run|] eqn:Hr.
      * rewrite (route_eq _ run) by done. simpl. rewrite lookup_fmap, Ha. simpl. case_match eqn:E; [|congruence].
        unfold route_place in E. rewrite !andb_true_iff, !String.eqb_eq in E. destruct E as (_ & _ & Ho).
        apply open_active, active_not_terminal in Ho. congruence.
      * unfold record_delivered_slack_route. cbv zeta. repeat (case_match; [done|]). bool_simpl. done.
    + unfold record_delivered_slack_route. cbv zeta. repeat (case_match; [done|]). bool_simpl. by destruct Hv.
  - destruct (decide (strip org <> "" /\ strip ch <> "" /\ strip th <> "" /\ strip user <> "" /\ strip ts <> ""))
      as [(Ho & Hc & Hth & Hu & Hts)|Hv].
    + rewrite reply_eq by done. apply settle_kept; [|done..]. unfold reply_place.
      intros x Hp. apply andb_true_iff in Hp as [Hp _]. by apply andb_true_iff in Hp as [_ ?].
    + unfold record_inbound_slack_obligation_answer. cbv zeta. case_match eqn:E; [done|]. bool_simpl. by destruct Hv.
  - rewrite expire_eq by done. apply settle_kept; [|done..]. unfold stale_deferral. intros x Hp.
    rewrite !andb_true_iff, !String.eqb_eq in Hp. by apply open_active, Hp.
Qed.

(** An ask that was answered or has expired changes in one way only: a new request
    of another run, in the same thread by the same requester, opens it again, with
    nothing of its former life. *)
Theorem settled_ask_reopened_by_request (op : obligation_op) (s : ledger) (i : Z) (a b : OpenAsk) :
  ledger_wf s -> asks s !! i = Some a -> is_terminal_ask a = true ->
  asks (run_obligation op s) !! i = Some b -> b <> a ->
  exists c run now name,
    op = RecordAsk (Some c) run now /\ int_or (origin_run_id (origin a)) 0 <> run /\
    identity a = human_identity (cx_org_id c) (cx_channel_id c) (cx_thread_ts c) (cx_requester_slack_id c) /\
    b = _reopen_ask a c run name (default (clock s) now).
Proof.
  intros Hs Ha Ht Hb Hne.
  assert (Hop : (forall c run now, op <> RecordAsk (Some c) run now) -> False).
  { intros Hop. by apply Hne, (settled_kept op s i a b). }
  destruct op as [[c|] run now| | | | |]; try (exfalso; by apply Hop).
  cbn [run_obligation] in Hb.
  destruct (record_ask_rows c run now s Hs) as (Hst & name & r & [Hr Hkr Hrun Hoth Hfound]).
  destruct (human_key c a) eqn:Hk.
  - specialize (Hfound i a Ha Hk). assert (Hid : ask_id r = i).
    { rewrite <- (wf_ids s Hs i a Ha), Hfound. unfold kept_or_reopened. by case_match. }
    rewrite Hid, Hb in Hr. injection Hr as ->. unfold kept_or_reopened in Hfound.
    case_match eqn:E; [done|]. bool_simpl. exists c, run, now, name.
    split; [done|]. split; [done|]. split; [by apply human_ask_key_true|done].
  - rewrite (Hoth i a Ha Hk) in Hb. congruence.
Qed.

Lemma settled_ask_reopened_by_request_witness :
  exists a b, asks answered !! 1%Z = Some a /\ is_terminal_ask a = true /\
    asks (run_obligation (RecordAsk (Some demo_context) 8 None) answered) !! 1%Z = Some b /\
    origin_run_id (origin b) = Some 8%Z /\
    exists c run now name, RecordAsk (Some demo_context) 8 None = RecordAsk (Some c) run now /\
      b = _reopen_ask a c run name 100.
Proof.
  destruct (asks answered !! 1%Z) as [a|] eqn:Ha; [|by vm_compute in Ha].
  destruct (asks (run_obligation (RecordAsk (Some demo_context) 8 None) answered) !! 1%Z) as [b|] eqn:Hb;
    [|by vm_compute in Hb].
  assert (Hta : is_terminal_ask a = true /\ origin_run_id (origin a) = Some 7%Z).
  { vm_compute in Ha. injection Ha as <-. by split. }
  assert (Hob : origin_run_id (origin b) = Some 8%Z) by (vm_compute in Hb; by injection Hb as <-).
  destruct Hta as [Hta Hoa]. exists a, b. split; [done|]. split; [done|]. split; [done|]. split; [done|].
  destruct (settled_ask_reopened_by_request (RecordAsk (Some demo_context) 8 None) answered 1 a b
    answered_wf Ha Hta Hb) as (c & run & now & name & Heq & _ & _ & ->).
  - intros ->. congruence.
  - exists c, run, now, name. split; [done|]. by injection Heq as _ _ <-.
Defined.

(** * A delivered answer settles its thread *)

(** An ask of the thread of [d] that still waits for an answer. *)
Definition awaits (d : DeliveredSlackAnswer) (a : OpenAsk) : Prop :=
  ask_org_id (identity a) = strip (da_org_id d) /\ ask_channel_id (identity a) = strip (da_channel_id d) /\
  ask_thread_ts (identity a) = strip (da_thread_ts d) /\
  (ask_status (life a) = "open" \/ ask_status (life a) = "routed").

(** [b] is the ask [a] answered by [d] at the time [t]. *)
Record answered_by (d : DeliveredSlackAnswer) (t : instant) (a b : OpenAsk) : Prop := {
  ab_ask : ask_id b = ask_id a /\ identity b = identity a /\ origin b = origin a;
  ab_status : ask_status (life b) = "answered";
  ab_text : answer_text (life b) = Some (da_answer_text d);
  ab_delivery : ask_delivered_message_ts (life b) = Some (strip (da_slack_message_ts d));
  ab_time : answered_at (life b) = Some t;
  ab_run : forall z, answered_by_run_id (life b) = Some z <-> da_answering_run_id d = Some z /\ z <> 0%Z;
  ab_artifact : forall x, answer_artifact_kind (life b) = Some x <->
      x <> "" /\ exists k, da_artifact_kind d = Some k /\ strip k = x;
  ab_artifact_ref : forall x, answer_artifact_ref (life b) = Some x <->
      x <> "" /\ exists k, da_artifact_ref d = Some k /\ strip k = x;
  ab_kept : opened_at (life b) = opened_at (life a) /\ routed_to_name (life b) = routed_to_name (life a) /\
            routed_to_slack_id (life b) = routed_to_slack_id (life a) /\ routed_at (life b) = routed_at (life a);
  ab_cleared : ask_expired_at (life b) = None /\ status_reason (life b) = None;
}.

(** [m] is the notice [n], superseded before it was posted. *)
Record superseded_notice (n m : ObligationNotice) : Prop := {
  sn_state : state m = "superseded";
  sn_cleared : claimed_at m = None /\ last_error m = None;
  sn_notice : notice_id m = notice_id n /\ obligation_id m = obligation_id n /\
              notice_condition m = notice_condition n /\ idempotency_key m = idempotency_key n;
  sn_kept : copy_text m = copy_text n /\ attempts m = attempts n /\ delivered_at m = delivered_at n /\
            delivered_message_ts m = delivered_message_ts n;
}.

Lemma awaits_place d a : awaits d a <-> answer_place d a = true.
Proof.
  unfold awaits, answer_place, in_thread, is_active, ACTIVE_OPEN_ASK_STATUS_VALUES, str_in.
  rewrite !andb_true_iff, !String.eqb_eq. cbn [existsb]. rewrite !orb_true_iff, !String.eqb_eq.
  change (value ASK_OPEN) with "open". change (value ASK_ROUTED) with "routed". intuition (try done).
Qed.

Lemma clean_given o x : or_none (clean_text o) = Some x <-> x <> "" /\ exists k, o = Some k /\ strip k = x.
Proof.
  unfold or_none, clean_text, str_or. destruct o as [k|]; cbn.
  - replace (if String.eqb k "" then "" else k) with k by (by destruct (String.eqb_spec k "") as [->|]).
    destruct (String.eqb_spec (strip k) "") as [E|E]; split.
    + done.
    + intros [Hx (k' & [= <-] & Hk)]. congruence.
    + intros [= <-]. split; [done|]. by exists k.
    + by intros [_ (k' & [= <-] & <-)].
  - split; [done|]. by intros [_ (k & ? & _)].
Qed.

Lemma answer_of_spec d t a : answered_by d t a (answer_of d t a).
Proof.
  split; try done; cbn; [|intros x; apply clean_given..].
  intros z. destruct (da_answering_run_id d) as [y|]; [|split; [done|by intros []]].
  destruct (Z.eqb_spec y 0) as [->|Hy]; split; [done|by intros [[= <-] ?]|by intros [= <-]|by intros [[= <-] ?]].
Qed.

Lemma asks_where_nodup p s : ledger_wf s -> NoDup (asks_where p s).
Proof.
  intros Hs. unfold asks_where. rewrite py_sorted_perm. apply NoDup_filter. unfold all_asks.
  apply (NoDup_fmap_1 ask_id). rewrite <- list_fmap_compose.
  replace ((ask_id ∘ snd) <$> map_to_list (asks s)) with (map_to_list (asks s)).*1; [apply NoDup_fst_map_to_list|].
  apply list_fmap_ext. intros k [i a] Hi. apply list_elem_of_lookup_2, elem_of_map_to_list in Hi. symmetry.
  by apply (wf_ids s Hs).
Qed.

(** C32. An answer delivered in a Slack thread settles every ask of the thread that is
    open or routed: the ask is answered, with the answer's text, the timestamp Slack
    confirmed, the time and the run and artifact that are named, and keeps what
    identifies it, who asked and where it was routed; the pending notices of these
    asks, and only those, are superseded, with their copy and key kept; no other ask
    and no other notice changes, and none appears.  The counts are those of the
    settled asks by kind. *)
Theorem delivered_answer_settles (d : DeliveredSlackAnswer) (now : option instant) (s : ledger) :
  ledger_wf s -> answer_valid d ->
  exists s' counts rows, record_delivered_slack_answer d now s = (s', Ok counts) /\
    NoDup rows /\ (forall a, a ∈ rows <-> exists i, asks s !! i = Some a /\ awaits d a) /\
    human_asks counts = Z.of_nat (length (filter (fun a => obligation_kind (identity a) = "human_ask") rows)) /\
    run_deferrals counts = Z.of_nat (length (filter (fun a => obligation_kind (identity a) = "run_deferral") rows)) /\
    (forall i a, asks s !! i = Some a -> awaits d a ->
       exists b, asks s' !! i = Some b /\ answered_by d (default (clock s) now) a b) /\
    (forall i a, asks s !! i = Some a -> ~ awaits d a -> asks s' !! i = Some a) /\
    (forall i n a, notices s !! i = Some n -> state n = "pending" -> asks s !! obligation_id n = Some a -> awaits d a ->
       exists m, notices s' !! i = Some m /\ superseded_notice n m) /\
    (forall i n, notices s !! i = Some n ->
       ~ (state n = "pending" /\ exists a, asks s !! obligation_id n = Some a /\ awaits d a) ->
       notices s' !! i = Some n) /\
    dom (asks s') = dom (asks s) /\ dom (notices s') = dom (notices s).
Proof.
  intros Hs Hv. eexists _, _, (asks_where (answer_place d) s). split; [by apply slack_answer_eq|].
  split; [by apply asks_where_nodup|]. split.
  { intros a. rewrite elem_of_asks_where. setoid_rewrite awaits_place. naive_solver. }
  split; [done|]. split; [done|]. split_and!.
  - intros i a Ha Hw%awaits_place. eexists. rewrite settle_asks, Ha. cbn. rewrite Hw. split; [done|apply answer_of_spec].
  - intros i a Ha Hw. rewrite settle_asks, Ha. cbn. destruct (answer_place d a) eqn:E; [|done]. by destruct Hw; apply awaits_place.
  - intros i n a Hn Hp Ha Hw%awaits_place. eexists. rewrite settle_notices, Hn by done. cbn.
    unfold owner_is. rewrite Ha, Hw, Hp. split; [done|]. by split.
  - intros i n Hn Hno. rewrite settle_notices, Hn by done. cbn. destruct (owner_is _ s n && _) eqn:E; [|done].
    apply andb_true_iff in E as [Ho Hp%String.eqb_eq]. destruct Hno. split; [done|]. unfold owner_is in Ho.
    destruct (asks s !! obligation_id n) as [a|]; [|done]. exists a. split; [done|]. by apply awaits_place.
  - apply set_eq. intros i. rewrite !elem_of_dom, settle_asks. apply fmap_is_Some.
  - apply set_eq. intros i. rewrite !elem_of_dom, settle_notices by done. apply fmap_is_Some.
Qed.

Lemma delivered_answer_settles_witness :
  exists s' counts b, record_delivered_slack_answer demo_answer None asked = (s', Ok counts) /\
    human_asks counts = 1%Z /\ asks s' !! 1%Z = Some b /\ answer_text (life b) = Some "today" /\
    ask_delivered_message_ts (life b) = Some "2.5".
Proof.
  destruct (delivered_answer_settles demo_answer None asked asked_wf)
    as (s' & counts & rows & He & _ & _ & _ & _ & Ha & _).
  - repeat split; by vm_compute.
  - assert (Hcounts : (human_asks <$> (record_delivered_slack_answer demo_answer None asked).2) = Ok 1%Z)
      by (vm_compute; reflexivity).
    destruct (asks asked !! 1%Z) as [a|] eqn:E; [|vm_compute in E; discriminate].
    destruct (Ha 1%Z a E) as (b & Hb & Hans).
    + assert (Ea : (fun a => (ask_org_id (identity a), ask_channel_id (identity a), ask_thread_ts (identity a),
          ask_status (life a))) <$> asks asked !! 1%Z = Some ("org", "C1", "1.5", "open")) by (vm_compute; reflexivity).
      rewrite E in Ea. injection Ea as E1 E2 E3 E4. repeat split; try assumption. left. exact E4.
    + exists s', counts, b. split; [exact He|]. rewrite He in Hcounts. split; [|split; [exact Hb|]].
      * cbn in Hcounts. injection Hcounts as Hc. exact Hc.
      * split; [exact (ab_text _ _ _ _ Hans)|exact (ab_delivery _ _ _ _ Hans)].
Defined.

(** * A request is recorded once *)

(** Recording the obligation of a request always succeeds, also when another
    transaction inserts the same obligation first: afterwards there is exactly one ask
    for the requester and the thread, it belongs to the run, its notice (where the
    request carries a policy) is in the outbox, and the asks of other threads are as
    before.  Recording it again for the same run changes no ask. *)
Theorem request_recorded_once (c : open_ask_context) (run : Z) (now now' : option instant) (s : ledger) :
  ledger_wf s -> notice_wanted c -> run <> 0%Z ->
  exists s' r s'', record_open_ask (Some c) run now s = (s', Ok (Some r)) /\
    asks s' !! ask_id r = Some r /\ human_key c r = true /\ origin_run_id (origin r) = Some run /\
    (forall i a, asks s' !! i = Some a -> human_key c a = true -> a = r) /\
    (forall i a, asks s !! i = Some a -> human_key c a = false -> asks s' !! i = Some a) /\
    noticed c s' r /\
    record_open_ask (Some c) run now' s' = (s'', Ok (Some r)) /\
    (forall i a, asks s' !! i = Some a -> asks s'' !! i = Some a).
Proof.
  intros Hs Hw Hrun.
  destruct (record_open_ask_ok c run now s Hs Hw) as (s' & r & name & He & Hst & [Hr Hk Hor Hoth Hf] & Hn).
  pose proof (step_wf _ _ Hs Hst) as Hs'.
  destruct (record_open_ask_ok c run now' s' Hs' Hw) as (s'' & r' & name' & He' & _ & [Hr' Hk' _ Hoth' Hf'] & _).
  specialize (Hor Hrun). assert (Hsame : r' = r).
  { rewrite (Hf' _ r Hr Hk). unfold kept_or_reopened. rewrite Hor. cbn [int_or].
    destruct (Z.eqb_spec run 0); [done|]. by rewrite Z.eqb_refl. }
  subst r'. assert (Huniq : forall i a, asks s' !! i = Some a -> human_key c a = true -> a = r).
  { intros i a Ha Hka. eapply (key_unique (human_key c)); try done. intros; by eapply human_key_conflict. }
  exists s', r, s''. repeat (split; [done|]). intros i a Ha. destruct (human_key c a) eqn:Hka.
  - assert (a = r) as -> by by eapply Huniq. by rewrite <- (wf_ids s' Hs' i r Ha).
  - by apply Hoth'.
Qed.

(** Another transaction inserts the same ask while ours waits. *)
Definition racing_ledger : ledger :=
  Build_ledger ∅ ∅ 1 1 [new_human_ask demo_context 9 "Ann" 90 4] [] ∅ ∅ 100.

Lemma request_recorded_once_witness :
  exists s' r, record_open_ask (Some demo_context) 7 None racing_ledger = (s', Ok (Some r)) /\
    ask_id r = 4%Z /\ origin_run_id (origin r) = Some 7%Z.
Proof.
  destruct (request_recorded_once demo_context 7 None None racing_ledger) as
    (s' & r & s'' & He & _ & _ & Hr & _); [|done|done|].
  - repeat split; try done; repeat constructor. apply new_human_ok.
  - exists s', r. split; [done|]. split; [|done]. vm_compute in He. by injection He as _ <-.
Defined.

(** * Deferrals *)

(** Deferring an answer to a run always succeeds: afterwards there is exactly one
    deferral for the thread and the run, no ask that was there changed, and the
    notice is in the outbox, unless the deferral had been settled already: then it is
    neither opened again nor announced again. *)
Theorem deferral_recorded_once (run : run_row) (channel_id thread_ts : string) (trigger : dict)
    (text cond : string) (post : option string) (now : option instant) (s : ledger)
    (org channel thread : string) (i : Z) :
  ledger_wf s -> _run_deferral_key run channel_id thread_ts = Some (org, channel, thread, i) -> strip cond <> "" ->
  exists s' a n created,
    record_run_deferral run channel_id thread_ts trigger text cond post now s = (s', Ok (a, n, created)) /\
    asks s' !! ask_id a = Some a /\ deferral_key org channel thread (run_id run) a = true /\
    (forall j b, asks s' !! j = Some b -> deferral_key org channel thread (run_id run) b = true -> b = a) /\
    (forall j b, asks s !! j = Some b -> asks s' !! j = Some b) /\
    (is_terminal_ask a = true -> n = None /\ created = false) /\
    (is_terminal_ask a = false ->
       exists m, n = Some m /\ notices s' !! notice_id m = Some m /\ notice_named (ask_id a) (strip cond) m).
Proof.
  intros Hs Hk Hne. destruct (record_run_deferral_ok run channel_id thread_ts trigger text cond post now s
    org channel thread i Hs Hk Hne) as (s' & a & n & created & He & Hst & Ha & Hka & Hold & Hn).
  exists s', a, n, created. do 3 (split; [done|]). split; [|split; [done|]].
  - intros j b Hb Hkb. apply (key_unique (deferral_key org channel thread (run_id run)) s' j (ask_id a)); try done.
    + by eapply step_wf.
    + intros; by eapply deferral_key_conflict.
  - destruct (is_terminal_ask a); split; (done || intros; done).
Qed.

(** A run that completed while its answer was owed. *)
Definition ended_run : run_row := demo_row 7 COMPLETED [] None 1 10.
Definition ended_ledger : ledger := Build_ledger ∅ ∅ 1 1 [] [] {[7%Z := ended_run]} ∅ 100.
Definition deferred_ledger : ledger :=
  run_obligation (RecordDeferral ended_run "C1" "1.5" [] "later" "agent_run_failed" None None) ended_ledger.

Lemma ended_ledger_wf : ledger_wf ended_ledger.
Proof. repeat split; try done; by constructor. Qed.
Lemma deferred_ledger_wf : ledger_wf deferred_ledger.
Proof. exact (proj1 (obligation_step _ _ ended_ledger_wf)). Qed.

Lemma deferral_recorded_once_witness :
  exists s' a n created,
    record_run_deferral ended_run "C1" "1.5" [] "later" " agent_run_failed " None None ended_ledger =
      (s', Ok (a, n, created)) /\ asks s' !! ask_id a = Some a /\ created = true.
Proof.
  destruct (deferral_recorded_once ended_run "C1" "1.5" [] "later" " agent_run_failed " None None ended_ledger
    "org" "C1" "1.5" 7 ended_ledger_wf) as (s' & a & n & created & He & Ha & _); [done|by vm_compute|].
  exists s', a, n, created. split; [done|]. split; [done|]. vm_compute in He. by injection He as _ _ _ <-.
Defined.

(** A sweep expires exactly the deferrals of the organization that are open, older
    than the limit and whose run has ended; it says which run and how long, supersedes
    their pending notices, and leaves every other ask alone. *)
Theorem deferral_expiry_spec (org : string) (now : option instant) (after : Z) (s : ledger) :
  ledger_wf s ->
  let at_ := default (clock s) now in
  exists s', expire_stale_run_deferrals org now after s =
      (s', Ok (Z.of_nat (length (asks_where (stale_deferral s org (at_ - after)) s)))) /\
    (forall i a, asks s !! i = Some a -> exists b, asks s' !! i = Some b /\
       if stale_deferral s org (at_ - after) a
       then exists run row, origin_run_id (origin a) = Some run /\ run_rows s !! run = Some row /\
              str_in (status row) _TERMINAL_ORIGIN_RUN_STATUS_VALUES = true /\
              b = with_life (expired_life run (status row) (after / (3600 * 1000000)) at_) a
       else b = a) /\
    (forall i n, notices s !! i = Some n -> state n = "pending" ->
       owner_is (stale_deferral s org (at_ - after)) s n = true ->
       state <$> notices s' !! i = Some "superseded").
Proof.
  intros Hs at_. subst at_. eexists. split; [by apply expire_eq|]. split.
  - intros i a Ha. rewrite settle_asks, Ha. eexists. split; [reflexivity|]. cbv beta.
    destruct (stale_deferral s org (default (clock s) now - after) a) eqn:E; [|done].
    unfold stale_deferral in E. rewrite !andb_true_iff in E. destruct E as [_ Hr].
    unfold expiry_of, origin_run_status in *. destruct (origin_run_id (origin a)) as [run|]; [|done].
    destruct (run_rows s !! run) as [row|] eqn:Hrow; [|done]. by exists run, row.
  - intros i n Hn Hp Ho. rewrite settle_notices, Hn by done. cbn [fmap option_fmap option_map]. by rewrite Ho, Hp.
Qed.

Lemma deferral_expiry_spec_witness :
  exists s' n, expire_stale_run_deferrals "org" (Some (RUN_DEFERRAL_EXPIRY_AFTER + 101)%Z)
      RUN_DEFERRAL_EXPIRY_AFTER deferred_ledger = (s', Ok n) /\ n = 1%Z /\
    (ask_status ∘ life <$> asks s' !! 1%Z) = Some (value ASK_EXPIRED) /\
    (state <$> notices s' !! 1%Z) = Some "superseded".
Proof.
  destruct (deferral_expiry_spec "org" (Some (RUN_DEFERRAL_EXPIRY_AFTER + 101)%Z) RUN_DEFERRAL_EXPIRY_AFTER
    deferred_ledger deferred_ledger_wf) as (s' & He & Ha & Hn).
  exists s', 1%Z. split; [rewrite He; do 2 f_equal; vm_compute; reflexivity|]. split; [done|].
  destruct (asks deferred_ledger !! 1%Z) as [a|] eqn:E; [|by vm_compute in E].
  destruct (notices deferred_ledger !! 1%Z) as [n|] eqn:En; [|by vm_compute in En].
  split.
  - destruct (Ha 1%Z a E) as (b & Hb & Hcase). rewrite Hb.
    vm_compute in E. injection E as <-. vm_compute in Hcase. destruct Hcase as (run & row & _ & _ & _ & ->).
    reflexivity.
  - apply (Hn 1%Z n En); vm_compute in En; injection En as <-; vm_compute; reflexivity.
Defined.

(** * The policy travels in the metadata of the run *)

Definition answerer_ok (a : ObligationAnswerer) : Prop :=
  named (Some (answerer_name a)) /\ named (Some (answerer_slack_user_id a)) /\
  (answerer_user_id a = None \/ named (answerer_user_id a)).

Lemma named_some s : named (Some s) -> strip s = s /\ s <> "".
Proof. by intros (t & [= <-] & H). Qed.

Lemma clean_opt o : o = None \/ named o -> or_none (_clean (opt_json o)) = o.
Proof.
  intros [->|(s & -> & Hs & Hne)]; [done|]. cbn [opt_json]. rewrite clean_str, Hs. by apply or_none_named.
Qed.

Lemma answerer_roundtrip a : answerer_ok a -> answerer_from_metadata (answerer_to_metadata a) = Ok a.
Proof.
  destruct a as [n s u]. intros (Hn & Hs & Hu). cbn [answerer_name answerer_slack_user_id answerer_user_id] in *.
  apply named_some in Hn as [Hn Hn'], Hs as [Hs Hs'].
  unfold answerer_from_metadata.
  set (d := answerer_to_metadata _). assert (En : jget_or_null "name" d = JStr n) by done.
  assert (Es : jget_or_null "slack_user_id" d = JStr s) by done.
  assert (Eu : jget_or_null "user_id" d = opt_json u) by done. rewrite En, Es, Eu, !clean_str, Hn, Hs, (eqb_false _ Hn'), (eqb_false _ Hs'). cbn [orb]. by rewrite clean_opt.
Qed.

Lemma str_or_empty_str s : str_or_empty (JStr s) = s.
Proof. by destruct s. Qed.

(** The policy of an obligation survives the metadata of its run: a policy that
    passes its own checks, written as metadata, is read back the same. *)
Theorem obligation_spec_roundtrip (sp : ObligationSpec) :
  spec_post_init sp = Ok sp -> strip (condition sp) = condition sp -> answerer_ok (answerer sp) ->
  (notice_after sp <= timedelta_max_seconds)%Z ->
  obligation_spec_from_metadata (JObj (spec_to_metadata sp)) = Some sp.
Proof.
  intros Hpost Hc Ha Hmax. destruct sp as [c a n t p]. cbn [condition answerer notice_after] in *.
  unfold obligation_spec_from_metadata, spec_from_metadata. set (d := spec_to_metadata _).
  assert (E1 : jget_or_null "notice_after_seconds" d = JInt n) by done.
  assert (E2 : jget_or_null "settlement_policy" d = JStr (value p)) by done.
  assert (E3 : jget_or_null "answerer" d = JObj (answerer_to_metadata a)) by done.
  assert (E4 : jget_or_null "condition" d = JStr c) by done.
  assert (E5 : jget_or_null "notice_text" d = JStr t) by done.
  assert (Hn : (0 <= n)%Z).
  { revert Hpost. unfold spec_post_init. cbn [condition notice_after]. case_match; [done|].
    case_match eqn:E; [done|]. bool_simpl. done. }
  assert (Hint : py_int (jor (JInt n) (JInt 0)) = Some n).
  { unfold jor. cbn [truthy]. destruct (Z.eqb_spec n 0) as [->|]; done. }
  rewrite E1, E2, E3, E4, E5, Hint, !clean_str, str_or_empty_str, Hc, (answerer_roundtrip a Ha).
  destruct p. cbn -[timedelta_max_seconds spec_post_init]. rewrite Z.abs_eq by done.
  destruct (Z.ltb_spec timedelta_max_seconds n); [lia|]. change (strip (value ANSWERER_SLACK_REPLY)) with (value ANSWERER_SLACK_REPLY). rewrite String.eqb_refl. by rewrite Hpost.
Qed.

Definition demo_policy : ObligationSpec :=
  {| condition := "approval"; answerer := {| answerer_name := "Ann"; answerer_slack_user_id := "U2"; answerer_user_id := None |};
     notice_after := 3600; notice_text := " Waiting for Ann. "; settlement_policy := ANSWERER_SLACK_REPLY |}.

Lemma obligation_spec_roundtrip_witness :
  obligation_spec_from_metadata (JObj (spec_to_metadata demo_policy)) = Some demo_policy.
Proof.
  apply obligation_spec_roundtrip; [done|done| |by vm_compute].
  split; [by eexists|]. split; [by eexists|]. by left.
Defined.
