(* ===== verification/NoticeDelivery.v ===== *)
(** The delivery of obligation notices, [brain/systems/runs/obligation_notices.py]:
    a pass selects the notices that are due, claims each by a conditional UPDATE that
    stamps it with the pass's moment, reads the Slack destination before it repeats
    an interrupted delivery, posts, and marks the notice behind the same stamp.

    Several replicas run passes at once, so a pass is a program over the requests it
    makes ([delivery]); each request is one transaction or one call of Slack, and
    between two of them anything may happen.  [NoticeProtocol] runs such programs
    side by side. *)
From Stdlib Require Import Ascii.
From S2P Require Import Prelude.
From S2P Require Import PyStr.
From S2P Require Import Json.
From S2P Require Import Status.
From S2P Require Import RunStore.
From S2P Require Import Obligations.
Open Scope string_scope.
Open Scope bool_scope.
Open Scope list_scope.

Definition NOTICE_SWEEP_LIMIT : Z := 10.
(** Ten minutes, in microseconds. *)
Definition STALE_NOTICE_POSTING_GRACE : Z := 10 * 60 * 1000000.
Definition _DESTINATION_MAX_PAGES : nat := 10.
Definition _VISIBILITY_POLL_ATTEMPTS : nat := 5.

(** * Snapshots *)

(** The dictionary of [_snapshot], and the status of the obligation a reread adds. *)
Record notice_item : Type := {
  item_id : Z;
  item_obligation_id : Z;
  item_org_id : string;
  item_condition : string;
  item_key : string;
  item_state : string;
  item_channel_id : string;
  item_thread_ts : string;
  item_post_thread_ts : option string;
  item_bot_user_id : option string;
  item_text : string;
  item_attempts : Z;
  item_claimed_at : option instant;
  item_obligation_status : string;
}.

Definition _snapshot (n : ObligationNotice) (status : string) : notice_item :=
  {| item_id := notice_id n; item_obligation_id := obligation_id n; item_org_id := notice_org_id n;
     item_condition := notice_condition n; item_key := idempotency_key n; item_state := state n;
     item_channel_id := notice_channel_id n; item_thread_ts := notice_thread_ts n;
     item_post_thread_ts := or_none (clean_text (post_thread_ts n));
     item_bot_user_id := or_none (clean_text (notice_bot_user_id n)); item_text := copy_text n;
     item_attempts := attempts n; item_claimed_at := claimed_at n; item_obligation_status := status |}.

(** [_notice_is_due]: a pending notice waits for the delay of its typed policy. *)
Definition _notice_is_due (n : ObligationNotice) (opened : instant) (run_metadata : json) (now : instant) : bool :=
  if String.eqb (state n) "posting" then true
  else
    match obligation_spec_from_metadata (jget_or_null "obligation_spec" (as_dict run_metadata)) with
    | None => true
    | Some spec =>
        if negb (String.eqb (condition spec) (notice_condition n)) then false
        else Z.leb (opened + notice_after spec * 1000000) now
    end.

Definition _claimable_clause (cutoff : instant) (n : ObligationNotice) : bool :=
  String.eqb (state n) "pending"
  || (String.eqb (state n) "posting"
      && match claimed_at n with Some t => Z.leb t cutoff | None => false end).

(** ORDER BY created_at, id. *)
Definition notice_leb (a b : ObligationNotice) : bool :=
  Z.ltb (notice_created_at a) (notice_created_at b)
  || (Z.eqb (notice_created_at a) (notice_created_at b) && Z.leb (notice_id a) (notice_id b)).

(** The selection of [deliver_pending_obligation_notices]: joined with the
    obligation, outer-joined with its run. *)
Definition due_notices (s : ledger) (org : option string) (ids : list Z) (moment : instant) (limit : Z)
    : list notice_item :=
  let wanted n :=
    _claimable_clause (moment - STALE_NOTICE_POSTING_GRACE) n
    && (String.eqb (str_or org "") "" || String.eqb (notice_org_id n) (str_or org ""))
    && (Nat.eqb (length ids) 0 || bool_decide (notice_id n ∈ ids)) in
  let due n :=
    match asks s !! obligation_id n with
    | None => false
    | Some a =>
        let metadata := match origin_run_id (origin a) with
                        | Some run => match run_rows s !! run with
                                      | Some row => JObj (metadata_ row)
                                      | None => JNull
                                      end
                        | None => JNull
                        end in
        wanted n && _notice_is_due n (opened_at (life a)) metadata moment
    end in
  take (Z.to_nat (Z.max 1 limit))
    ((fun n => _snapshot n "") <$> py_sorted notice_leb (filter (fun n => due n = true) (all_notices s))).

(** [_verified_reread]: the notice and the status of its obligation, while the claim
    is ours. *)
Definition _verified_reread (s : ledger) (id : Z) (stamp : instant) : option notice_item :=
  match notices s !! id with
  | None => None
  | Some n =>
      match asks s !! obligation_id n with
      | None => None
      | Some a =>
          if negb (String.eqb (state n) "posting") then None
          else if negb (bool_decide (claimed_at n = Some stamp)) then None
          else Some (_snapshot n (ask_status (life a)))
      end
  end.

(** * The destination *)

Definition page_messages (payload : dict) : list dict :=
  match jget_or_null "messages" payload with JList l => as_dict <$> l | _ => [] end.
Definition next_cursor (payload : dict) : json :=
  jget_or_null "next_cursor" (as_dict (jget_or_null "response_metadata" payload)).

(** The pages of a thread, at most [_DESTINATION_MAX_PAGES] of them. *)
Fixpoint read_pages (replies : option string -> dict) (pages : nat) (cursor : option string)
    (messages : list dict) : list dict * bool :=
  match pages with
  | O => (messages, false)
  | S pages' =>
      let payload := replies cursor in
      let messages := messages ++ page_messages payload in
      let cursor := _clean (next_cursor payload) in
      if String.eqb cursor "" then (messages, true) else read_pages replies pages' (Some cursor) messages
  end.

Definition _default_destination_reader (history : dict) (replies : option string -> dict)
    (thread_ts : option string) : list dict * bool :=
  if String.eqb (str_or thread_ts "") ""
  then (page_messages history,
        negb (truthy (jget_or_null "has_more" history)) && negb (truthy (next_cursor history)))
  else read_pages replies _DESTINATION_MAX_PAGES None [].

Fixpoint _found_in_destination (messages : list dict) (key : string) (bot_user_id : option string)
    : option string :=
  match messages with
  | [] => None
  | m :: messages' =>
      let bot := str_or bot_user_id "" in
      if negb (String.eqb bot "") && negb (String.eqb (_clean (jget_or_null "user" m)) bot)
      then _found_in_destination messages' key bot_user_id
      else
        let payload := as_dict (jget_or_null "event_payload" (as_dict (jget_or_null "metadata" m))) in
        if String.eqb (_clean (jget_or_null "idempotency_key" payload)) key
        then let ts := _clean (jget_or_null "ts" m) in Some (if String.eqb ts "" then "found" else ts)
        else _found_in_destination messages' key bot_user_id
  end.

Inductive verdict : Type := Unknown | Found (ts : string) | Absent.

(** [_disambiguate], of what the reader gave or raised. *)
Definition _disambiguate (it : notice_item) (read : result (list dict * bool)) : verdict :=
  match read with
  | Err _ => Unknown
  | Ok (messages, complete) =>
      match _found_in_destination messages (item_key it) (item_bot_user_id it) with
      | Some ts => Found ts
      | None => if complete then Absent else Unknown
      end
  end.

(** * Programs *)

(** What the poster returns or raises: a response, [SlackDeliveryError],
    [SlackApiError], or another exception. *)
Inductive posted : Type :=
| Response (r : dict)
| SlackDeliveryError (msg : string)
| SlackApiError (msg : string)
| PostFailed (msg : string).

(** A program of a delivery task: it asks for the time, for a query, a conditional
    UPDATE ([_cas]), a verified reread, the destination's messages or a post, and
    goes on with the answer.  A transaction may also raise. *)
Inductive delivery (A : Type) : Type :=
| Done (r : result A)
| Now (k : instant -> delivery A)
| Select (org : option string) (ids : list Z) (moment : instant) (limit : Z)
    (k : result (list notice_item) -> delivery A)
| Cas (id : Z) (where_ : ObligationNotice -> bool) (values : ObligationNotice -> ObligationNotice)
    (skip_locked : bool) (k : result bool -> delivery A)
| Reread (id : Z) (stamp : instant) (k : result (option notice_item) -> delivery A)
| ReadDestination (channel : string) (thread : option string) (k : result (list dict * bool) -> delivery A)
| PostMessage (channel text : string) (thread : option string) (key : string) (k : posted -> delivery A).
Arguments Done {A} r.
Arguments Now {A} k.
Arguments Select {A} org ids moment limit k.
Arguments Cas {A} id where_ values skip_locked k.
Arguments Reread {A} id stamp k.
Arguments ReadDestination {A} channel thread k.
Arguments PostMessage {A} channel text thread key k.

(** [then_ p f]: [p], then [f] of what it returned or raised. *)
Fixpoint then_ {A B} (p : delivery A) (f : result A -> delivery B) : delivery B :=
  match p with
  | Done r => f r
  | Now k => Now (fun t => then_ (k t) f)
  | Select org ids moment limit k => Select org ids moment limit (fun r => then_ (k r) f)
  | Cas id w v sk k => Cas id w v sk (fun r => then_ (k r) f)
  | Reread id stamp k => Reread id stamp (fun r => then_ (k r) f)
  | ReadDestination c t k => ReadDestination c t (fun r => then_ (k r) f)
  | PostMessage c x t key k => PostMessage c x t key (fun r => then_ (k r) f)
  end.

(** An await whose exception the function does not catch. *)
Definition await {R A} (node : (result R -> delivery A) -> delivery A) (k : R -> delivery A) : delivery A :=
  node (fun r => match r with Ok x => k x | Err e => Done (Err e) end).

Notation "x <~ c ;; k" := (await c (fun x => k))
  (at level 100, c at next level, right associativity) : py_scope.

(** * One notice *)

Record delivery_summary : Type := {
  selected : nat; delivered : nat; already_delivered : nat; requeued : nat; undecided : nat;
  lost_claim : nat; superseded_notices : nat;
}.
Definition no_summary : delivery_summary := Build_delivery_summary 0 0 0 0 0 0 0.
Definition set_selected n s := Build_delivery_summary n (delivered s) (already_delivered s) (requeued s)
  (undecided s) (lost_claim s) (superseded_notices s).
Definition add_delivered s := Build_delivery_summary (selected s) (S (delivered s)) (already_delivered s)
  (requeued s) (undecided s) (lost_claim s) (superseded_notices s).
Definition add_already s := Build_delivery_summary (selected s) (delivered s) (S (already_delivered s))
  (requeued s) (undecided s) (lost_claim s) (superseded_notices s).
Definition add_requeued s := Build_delivery_summary (selected s) (delivered s) (already_delivered s)
  (S (requeued s)) (undecided s) (lost_claim s) (superseded_notices s).
Definition add_undecided s := Build_delivery_summary (selected s) (delivered s) (already_delivered s)
  (requeued s) (S (undecided s)) (lost_claim s) (superseded_notices s).
Definition add_lost s := Build_delivery_summary (selected s) (delivered s) (already_delivered s)
  (requeued s) (undecided s) (S (lost_claim s)) (superseded_notices s).
Definition add_superseded s := Build_delivery_summary (selected s) (delivered s) (already_delivered s)
  (requeued s) (undecided s) (lost_claim s) (S (superseded_notices s)).

(** The column values an UPDATE sets. *)
Definition update_notice (st : string) (att : Z) (claimed del : option instant) (ts err : option string)
    (n : ObligationNotice) : ObligationNotice :=
  {| notice_id := notice_id n; obligation_id := obligation_id n; notice_org_id := notice_org_id n;
     notice_condition := notice_condition n; idempotency_key := idempotency_key n; state := st;
     notice_channel_id := notice_channel_id n; notice_thread_ts := notice_thread_ts n;
     post_thread_ts := post_thread_ts n; notice_bot_user_id := notice_bot_user_id n;
     copy_text := copy_text n; attempts := att; claimed_at := claimed; delivered_at := del;
     delivered_message_ts := ts; last_error := err; notice_created_at := notice_created_at n |}.
Definition claim (att : Z) (now : instant) (n : ObligationNotice) : ObligationNotice :=
  update_notice "posting" (att + 1) (Some now) (delivered_at n) (delivered_message_ts n) (last_error n) n.
Definition mark_superseded (n : ObligationNotice) : ObligationNotice :=
  update_notice "superseded" (attempts n) None (delivered_at n) (delivered_message_ts n) None n.
Definition mark_delivered (now : instant) (ts : option string) (n : ObligationNotice) : ObligationNotice :=
  update_notice "delivered" (attempts n) (claimed_at n) (Some now) ts None n.
Definition requeue (err : string) (n : ObligationNotice) : ObligationNotice :=
  update_notice "pending" (attempts n) None (delivered_at n) (delivered_message_ts n) (Some err) n.
Definition note_error (err : string) (n : ObligationNotice) : ObligationNotice :=
  update_notice (state n) (attempts n) (claimed_at n) (delivered_at n) (delivered_message_ts n) (Some err) n.

Definition is_pending (n : ObligationNotice) : bool := String.eqb (state n) "pending".
(** [fence]: posting, and claimed at a stamp. *)
Definition fence (stamp : instant) (n : ObligationNotice) : bool :=
  String.eqb (state n) "posting" && bool_decide (claimed_at n = Some stamp).
(** The claim a snapshot saw. *)
Definition same_claim (it : notice_item) (n : ObligationNotice) : bool :=
  String.eqb (state n) "posting" && bool_decide (claimed_at n = item_claimed_at it).

Definition is_open (it : notice_item) : bool := String.eqb (item_obligation_status it) "open".

(** The ends of [_deliver_one]. *)
Definition finish_superseded (id : Z) (now : instant) (sm : delivery_summary) : delivery delivery_summary :=
  done <~ Cas id (fence now) mark_superseded false ;;
  Done (Ok (if done then add_superseded sm else sm)).

Definition response_ts (r : dict) : string :=
  _clean (jor (jget_or_null "ts" r) (jget_or_null "ts" (as_dict (jget_or_null "message" r)))).

Definition after_post (id : Z) (now : instant) (sm : delivery_summary) (p : posted) : delivery delivery_summary :=
  match p with
  | SlackDeliveryError msg | PostFailed msg =>
      _ <~ Cas id (fence now) (note_error msg) false ;;
      Done (Ok (add_undecided sm))
  | SlackApiError msg =>
      done <~ Cas id (fence now) (requeue msg) false ;;
      Done (Ok (if done then add_requeued sm else sm))
  | Response r =>
      let ts := response_ts r in
      if String.eqb ts "" then Done (Ok (add_undecided sm))
      else
        _ <~ Cas id (fence now) (mark_delivered now (Some ts)) false ;;
        Done (Ok (add_delivered sm))
  end.

(** The final fence and obligation-state check, and the post. *)
Definition final_check_and_post (id : Z) (now : instant) (sm : delivery_summary) : delivery delivery_summary :=
  final_check <~ Reread id now ;;
  match final_check with
  | None => Done (Ok (add_lost sm))
  | Some it =>
      if negb (is_open it) then finish_superseded id now sm
      else PostMessage (item_channel_id it) (item_text it) (item_post_thread_ts it) (item_key it)
             (after_post id now sm)
  end.

(** What an interrupted delivery does with the destination's messages. *)
Definition resolve_interrupted (it : notice_item) (id : Z) (now : instant) (sm : delivery_summary)
    (read : result (list dict * bool)) : delivery delivery_summary :=
  match _disambiguate it read with
  | Unknown => Done (Ok (add_undecided sm))
  | Found ts =>
      done <~ Cas id (fence now)
        (mark_delivered now (if String.eqb ts "found" then None else Some ts)) false ;;
      Done (Ok (if done then add_already sm else sm))
  | Absent =>
      if negb (is_open it) then finish_superseded id now sm else final_check_and_post id now sm
  end.

Definition _deliver_one (it : notice_item) (now : instant) (sm : delivery_summary) : delivery delivery_summary :=
  let id := item_id it in
  let must_disambiguate := String.eqb (item_state it) "posting" in
  claimed <~ Cas id (if must_disambiguate then same_claim it else is_pending)
               (claim (item_attempts it) now) true ;;
  if negb claimed then Done (Ok (add_lost sm))
  else
    current <~ Reread id now ;;
    match current with
    | None => Done (Ok (add_lost sm))
    | Some it =>
        if negb must_disambiguate && negb (is_open it) then finish_superseded id now sm
        else if must_disambiguate
        then ReadDestination (item_channel_id it) (item_post_thread_ts it) (resolve_interrupted it id now sm)
        else final_check_and_post id now sm
    end.

(** * A pass *)

Fixpoint deliver_each (items : list notice_item) (now : instant) (sm : delivery_summary)
    : delivery delivery_summary :=
  match items with
  | [] => Done (Ok sm)
  | it :: items' =>
      then_ (_deliver_one it now sm) (fun r =>
        match r with
        | Ok sm' => deliver_each items' now sm'
        | Err _ => deliver_each items' now sm
        end)
  end.

Definition deliver_at (moment : instant) (org : option string) (ids : list Z) (limit : Z)
    : delivery delivery_summary :=
  Select org ids moment limit (fun r =>
    match r with
    | Ok items => deliver_each items moment (set_selected (length items) no_summary)
    | Err _ => Done (Ok no_summary)
    end).

Definition deliver_pending_obligation_notices (org : option string) (ids : list Z) (limit : Z)
    : delivery delivery_summary :=
  Now (fun moment => deliver_at moment org ids limit).

(** [_deliver_when_visible]: passes until one selects something; between them the
    task sleeps. *)
Fixpoint deliver_when_visible (attempts : nat) (org : string) (ids : list Z) : delivery unit :=
  match attempts with
  | O => Done (Ok tt)
  | S attempts' =>
      then_ (deliver_pending_obligation_notices (Some org) ids NOTICE_SWEEP_LIMIT) (fun r =>
        match r with
        | Ok sm => if Nat.eqb (selected sm) 0 then deliver_when_visible attempts' org ids else Done (Ok tt)
        | Err e => Done (Err e)
        end)
  end.
Definition _deliver_when_visible : string -> list Z -> delivery unit :=
  deliver_when_visible _VISIBILITY_POLL_ATTEMPTS.

(** * After the commit *)

(** The queue a session carries and whether its listeners are armed. *)
Record delivery_queue : Type := { queue : list (string * Z); armed : bool }.

Definition schedule_post_commit_notice_delivery (org : string) (ids : list Z) (q : delivery_queue)
    : delivery_queue :=
  {| queue := queue q ++ ((fun i => (org, i)) <$> ids); armed := true |}.

(** Notices by organization, each once, in order of arrival. *)
Fixpoint add_to_bucket (org : string) (id : Z) (by_org : list (string * list Z)) : list (string * list Z) :=
  match by_org with
  | [] => [(org, [id])]
  | (o, ids) :: rest =>
      if String.eqb o org
      then (o, if bool_decide (id ∈ ids) then ids else ids ++ [id]) :: rest
      else (o, ids) :: add_to_bucket org id rest
  end.
Definition group_by_org (l : list (string * Z)) : list (string * list Z) :=
  fold_left (fun acc p => add_to_bucket p.1 p.2 acc) l [].

(** [_drain_into_tasks] and [_on_rollback]; a nested rollback keeps the queue. *)
Definition after_commit (q : delivery_queue) : delivery_queue * list (string * list Z) :=
  if armed q then ({| queue := []; armed := true |}, group_by_org (queue q)) else (q, []).
Definition after_soft_rollback (nested : bool) (q : delivery_queue) : delivery_queue :=
  if armed q && negb nested then {| queue := []; armed := true |} else q.
