(* ===== verification/NoticeProtocol.v ===== *)
(** Delivery passes side by side: the world they share, what a request does there, and
    a discipline of programs - who may claim, post and release - under which a notice
    reaches Slack again only when a read of its destination did not show it. *)
From Stdlib Require Import Ascii.
From S2P Require Import Prelude.
From S2P Require Import PyStr.
From S2P Require Import Json.
From S2P Require Import Status.
From S2P Require Import RunStore.
From S2P Require Import Obligations.
From S2P Require Import ObligationLedger.
From S2P Require Import ObligationOps.
From S2P Require Import ObligationTheorems.
From S2P Require Import NoticeDelivery.
Open Scope string_scope.
Open Scope bool_scope.
Open Scope list_scope.

(** * The shared world *)

Record slack_message : Type := {
  m_channel : string;
  m_thread : option string;
  m_user : string;
  m_ts : string;
  m_key : string;
}.

(** The message as Slack's API gives it back to a client that asks for the metadata of
    messages; without asking, a client gets it as in [plain]. *)
Definition render (x : slack_message) : dict :=
  [("user", JStr (m_user x)); ("ts", JStr (m_ts x));
   ("metadata", JObj [("event_type", JStr "illo_obligation_notice");
                      ("event_payload", JObj [("idempotency_key", JStr (m_key x))])])].
Definition plain (x : slack_message) : dict := [("user", JStr (m_user x)); ("ts", JStr (m_ts x))].

(** The ledger and the messages in Slack; and, for the statements about them, the keys
    of the messages that complete reads of their destination did not show with their
    metadata, once for each such read. *)
Record shared : Type := {
  sh_ledger : ledger; sh_slack : list slack_message; sh_time : instant; sh_missed : list string;
}.
Definition sh_notices (s : shared) : gmap Z ObligationNotice := notices (sh_ledger s).
Definition keys (s : shared) : list string := m_key <$> sh_slack s.

(** How often [k] is in [l]. *)
Definition tally (k : string) (l : list string) : nat := length (filter (fun x => x = k) l).

Definition put_row (id : Z) (n : ObligationNotice) (s : shared) : shared :=
  {| sh_ledger := set_notices (<[id := n]> (sh_notices s)) (sh_ledger s); sh_slack := sh_slack s;
     sh_time := sh_time s; sh_missed := sh_missed s |}.
Definition at_time (t : instant) (s : shared) : shared :=
  {| sh_ledger := sh_ledger s; sh_slack := sh_slack s; sh_time := t; sh_missed := sh_missed s |}.
Definition with_message (x : slack_message) (s : shared) : shared :=
  {| sh_ledger := sh_ledger s; sh_slack := sh_slack s ++ [x]; sh_time := sh_time s; sh_missed := sh_missed s |}.
Definition with_ledger (l : ledger) (s : shared) : shared :=
  {| sh_ledger := l; sh_slack := sh_slack s; sh_time := sh_time s; sh_missed := sh_missed s |}.
Definition missing (l : list string) (s : shared) : shared :=
  {| sh_ledger := sh_ledger s; sh_slack := sh_slack s; sh_time := sh_time s; sh_missed := sh_missed s ++ l |}.

(** A pass: the moment it took last, and what it still does. *)
Definition pass : Type := instant * delivery unit.
Record world : Type := { w_shared : shared; w_passes : list pass }.

(** The user the posts come from, and when a post of a pass still lands. *)
Class SlackSide : Type := { bot_user : string; timely : instant -> instant -> bool }.

Section world.
Context `{SlackSide}.

(** One request of a pass.  A transaction may raise, before or after its effect; a post
    may be accepted, rejected, or end in doubt; a read of a destination answers with
    whatever it does, and the messages it does not show are noted. *)
Inductive acts (s : shared) : pass -> shared -> pass -> Prop :=
| act_now m k t : (sh_time s < t)%Z -> acts s (m, Now k) (at_time t s) (t, k t)
| act_select m org ids mo lim k :
    acts s (m, Select org ids mo lim k) s (m, k (Ok (due_notices (sh_ledger s) org ids mo lim)))
| act_select_raised m org ids mo lim k e : acts s (m, Select org ids mo lim k) s (m, k (Err e))
| act_cas_hit m id w v sk k n :
    sh_notices s !! id = Some n -> w n = true ->
    acts s (m, Cas id w v sk k) (put_row id (v n) s) (m, k (Ok true))
| act_cas_miss m id w v sk k :
    sk = true \/ (forall n, sh_notices s !! id = Some n -> w n = false) ->
    acts s (m, Cas id w v sk k) s (m, k (Ok false))
| act_cas_raised m id w v sk k e : acts s (m, Cas id w v sk k) s (m, k (Err e))
| act_cas_unconfirmed m id w v sk k n e :
    sh_notices s !! id = Some n -> w n = true ->
    acts s (m, Cas id w v sk k) (put_row id (v n) s) (m, k (Err e))
| act_reread m id stamp k :
    acts s (m, Reread id stamp k) s (m, k (Ok (_verified_reread (sh_ledger s) id stamp)))
| act_reread_raised m id stamp k e : acts s (m, Reread id stamp k) s (m, k (Err e))
| act_read m c t k msgs complete l :
    (complete = true -> forall x, x ∈ sh_slack s -> m_channel x = c -> m_thread x = t ->
       render x ∈ msgs \/ m_key x ∈ l) ->
    (forall key, key ∈ l -> complete = true /\ exists x, x ∈ sh_slack s /\ m_channel x = c /\ m_thread x = t /\
       m_key x = key /\ render x ∉ msgs) -> NoDup l ->
    acts s (m, ReadDestination c t k) (missing l s) (m, k (Ok (msgs, complete)))
| act_read_raised m c t k e : acts s (m, ReadDestination c t k) s (m, k (Err e))
| act_post m c x t key k ts r :
    timely m (sh_time s) = true -> match r with SlackApiError _ => False | _ => True end ->
    acts s (m, PostMessage c x t key k)
      (with_message {| m_channel := c; m_thread := t; m_user := bot_user; m_ts := ts; m_key := key |} s) (m, k r)
| act_post_refused m c x t key k r :
    match r with Response _ => False | _ => True end ->
    acts s (m, PostMessage c x t key k) s (m, k r).

(** Every notice names the bot the posts come from, or none. *)
Definition bots_ok (l : ledger) : Prop :=
  forall i n, notices l !! i = Some n ->
    or_none (clean_text (notice_bot_user_id n)) = None \/ or_none (clean_text (notice_bot_user_id n)) = Some bot_user.

(** The rest of the process: tasks start, time passes, and the ledger's operations
    run in transactions of their own. *)
Inductive starts : delivery unit -> Prop :=
| start_sweep org ids limit :
    starts (then_ (deliver_pending_obligation_notices org ids limit) (fun _ => Done (Ok tt)))
| start_visible org ids : starts (_deliver_when_visible org ids).

Inductive world_step (w : world) : world -> Prop :=
| step_act i p s p' :
    w_passes w !! i = Some p -> acts (w_shared w) p s p' ->
    world_step w {| w_shared := s; w_passes := <[i := p']> (w_passes w) |}
| step_start t p :
    (sh_time (w_shared w) < t)%Z -> starts p ->
    world_step w {| w_shared := at_time t (w_shared w); w_passes := w_passes w ++ [(t, p)] |}
| step_time t :
    (sh_time (w_shared w) <= t)%Z ->
    world_step w {| w_shared := at_time t (w_shared w); w_passes := w_passes w |}
| step_op op :
    bots_ok (run_obligation op (sh_ledger (w_shared w))) ->
    world_step w {| w_shared := with_ledger (run_obligation op (sh_ledger (w_shared w))) (w_shared w);
                    w_passes := w_passes w |}
| step_runs l :
    asks l = asks (sh_ledger (w_shared w)) -> notices l = notices (sh_ledger (w_shared w)) ->
    next_ask_id l = next_ask_id (sh_ledger (w_shared w)) ->
    next_notice_id l = next_notice_id (sh_ledger (w_shared w)) ->
    incoming_asks l = [] -> incoming_notices l = [] ->
    world_step w {| w_shared := with_ledger l (w_shared w); w_passes := w_passes w |}.

(** A world before anything was posted. *)
Record quiet_world (w : world) : Prop := {
  quiet_ledger : ledger_wf (sh_ledger (w_shared w));
  quiet_incoming : incoming_notices (sh_ledger (w_shared w)) = [];
  quiet_bots : bots_ok (sh_ledger (w_shared w));
  quiet_slack : sh_slack (w_shared w) = [];
  quiet_missed : sh_missed (w_shared w) = [];
  quiet_passes : w_passes w = [];
}.
End world.

(** * The discipline *)

Record target : Type := {
  tg_key : string; tg_channel : string; tg_thread : option string; tg_bot : option string;
}.
Definition target_of (n : ObligationNotice) : target :=
  {| tg_key := idempotency_key n; tg_channel := notice_channel_id n;
     tg_thread := or_none (clean_text (post_thread_ts n));
     tg_bot := or_none (clean_text (notice_bot_user_id n)) |}.
Definition item_target (it : notice_item) : target :=
  {| tg_key := item_key it; tg_channel := item_channel_id it; tg_thread := item_post_thread_ts it;
     tg_bot := item_bot_user_id it |}.

(** What a pass knows of the notice it claimed last: whether it was sure, when it
    claimed or read, that nothing is in Slack, and where it goes. *)
Inductive phase : Type :=
| Idle
| Held (id : Z) (cleared : bool) (tgt : option target).

(** The conditional updates a pass may make. *)
Inductive cas_kind : Type := ClaimFresh | ClaimStale | Settle | Release.

Definition cas_allowed (m : instant) (ph : phase) (id : Z) (w : ObligationNotice -> bool)
    (v : ObligationNotice -> ObligationNotice) (k : cas_kind) : Prop :=
  match k with
  | ClaimFresh => (forall n, w n = is_pending n) /\ exists a, v = claim a m
  | ClaimStale =>
      (exists c, (c <= m - STALE_NOTICE_POSTING_GRACE)%Z /\ forall n, w n = true -> fence c n = true) /\
      exists a, v = claim a m
  | Settle =>
      (forall n, w n = fence m n) /\
      (v = mark_superseded \/ (exists ts, v = mark_delivered m ts) \/ exists e, v = note_error e)
  | Release =>
      (forall n, w n = fence m n) /\ (exists e, v = requeue e) /\ exists tgt, ph = Held id true tgt
  end.

Definition after_cas (k : cas_kind) (id : Z) (r : result bool) : phase :=
  match k, r with
  | ClaimFresh, Ok true => Held id true None
  | ClaimStale, Ok true => Held id false None
  | _, _ => Idle
  end.

(** The destination was read completely and what it answered does not show the message. *)
Definition surely_absent (tgt : target) (r : result (list dict * bool)) : bool :=
  match r with
  | Ok (msgs, true) => bool_decide (_found_in_destination msgs (tg_key tgt) (tg_bot tgt) = None)
  | _ => false
  end.

Definition select_ok (m : instant) (r : result (list notice_item)) : Prop :=
  match r with
  | Ok items => forall it, it ∈ items -> item_state it = "posting" ->
      exists c, item_claimed_at it = Some c /\ (c <= m - STALE_NOTICE_POSTING_GRACE)%Z
  | Err _ => True
  end.

(** [disciplined Q m ph p]: from phase [ph] and with moment [m], [p] claims, reads,
    posts and releases in turn, and ends in a result [Q] accepts. *)
Fixpoint disciplined {A} (Q : instant -> result A -> Prop) (m : instant) (ph : phase) (p : delivery A) : Prop :=
  match p with
  | Done r => Q m r
  | Now k => forall t, disciplined Q t Idle (k t)
  | Select _ _ mo _ k => mo = m /\ forall r, select_ok m r -> disciplined Q m Idle (k r)
  | Cas id w v _ k =>
      exists kd, cas_allowed m ph id w v kd /\ forall r, disciplined Q m (after_cas kd id r) (k r)
  | Reread id stamp k =>
      stamp = m /\ exists c tgt, ph = Held id c tgt /\
      (forall it, item_id it = id -> disciplined Q m (Held id c (Some (item_target it))) (k (Ok (Some it)))) /\
      disciplined Q m Idle (k (Ok None)) /\ forall e, disciplined Q m Idle (k (Err e))
  | ReadDestination c t k =>
      exists id cl tgt, ph = Held id cl (Some tgt) /\ tg_channel tgt = c /\ tg_thread tgt = t /\
      forall r, disciplined Q m (Held id (surely_absent tgt r) (Some tgt)) (k r)
  | PostMessage c _ t key k =>
      exists id tgt, ph = Held id true (Some tgt) /\ tg_channel tgt = c /\ tg_thread tgt = t /\ tg_key tgt = key /\
      forall r, disciplined Q m
        (Held id match r with SlackApiError _ => true | _ => false end (Some tgt)) (k r)
  end.

Section disciplined.
Context {A B : Type}.

Lemma disciplined_then (Q : instant -> result A -> Prop) (Q' : instant -> result B -> Prop) f p : forall m ph,
  disciplined Q m ph p -> (forall m r ph, Q m r -> disciplined Q' m ph (f r)) ->
  disciplined Q' m ph (then_ p f).
Proof.
  intros m ph Hp Hf. revert m ph Hp. induction p as [r|k IH|org ids mo lim k IH|id w v sk k IH|id st k IH|c t k IH|c x t key k IH];
    intros m ph; simpl.
  - intros Hq. by apply Hf.
  - intros Hk t. by apply IH.
  - intros [-> Hk]. split; [done|]. intros r Hr. by apply IH, Hk.
  - intros (kd & Ha & Hk). exists kd. split; [done|]. intros r. by apply IH.
  - intros (-> & cl & tgt & -> & H1 & H2 & H3). split; [done|]. exists cl, tgt. split; [done|].
    split; [intros it Hit; by apply IH, H1|]. split; [by apply IH|]. intros e. by apply IH.
  - intros (id & cl & tgt & -> & Hc & Ht & Hk). exists id, cl, tgt. repeat (split; [done|]). intros r. by apply IH.
  - intros (id & tgt & -> & Hc & Ht & Hkey & Hk). exists id, tgt. repeat (split; [done|]). intros r. by apply IH.
Qed.

Lemma disciplined_weaken (Q Q' : instant -> result A -> Prop) p : forall m ph,
  (forall m r, Q m r -> Q' m r) -> disciplined Q m ph p -> disciplined Q' m ph p.
Proof.
  intros m ph HQ. revert m ph. induction p as [r|k IH|org ids mo lim k IH|id w v sk k IH|id st k IH|c t k IH|c x t key k IH];
    intros m ph; simpl.
  - apply HQ.
  - intros Hk t. by apply IH.
  - intros [-> Hk]. split; [done|]. intros r Hr. by apply IH, Hk.
  - intros (kd & Ha & Hk). exists kd. split; [done|]. intros r. by apply IH.
  - intros (-> & cl & tgt & -> & H1 & H2 & H3). split; [done|]. exists cl, tgt. split; [done|].
    split; [intros it Hit; by apply IH, H1|]. split; [by apply IH|]. intros e. by apply IH.
  - intros (id & cl & tgt & -> & Hc & Ht & Hk). exists id, cl, tgt. repeat (split; [done|]). intros r. by apply IH.
  - intros (id & tgt & -> & Hc & Ht & Hkey & Hk). exists id, tgt. repeat (split; [done|]). intros r. by apply IH.
Qed.
End disciplined.

(** * The delivery pass is disciplined *)

Definition keeps_moment {A} (now : instant) : instant -> result A -> Prop := fun m _ => m = now.
Arguments keeps_moment {A} now m r /.

Lemma finish_superseded_ok id now sm ph : disciplined (keeps_moment now) now ph (finish_superseded id now sm).
Proof. simpl. exists Settle. split; [split; [done|by left]|]. by intros [b|e]. Qed.

Lemma after_post_ok id now sm tgt p :
  disciplined (keeps_moment now) now (Held id match p with SlackApiError _ => true | _ => false end (Some tgt))
    (after_post id now sm p).
Proof.
  destruct p as [r|msg|msg|msg]; cbn [after_post].
  - case_match; [done|]. simpl. exists Settle. split; [split; [done|eauto]|]. by intros [b|e].
  - simpl. exists Settle. split; [split; [done|eauto]|]. by intros [b|e].
  - simpl. exists Release. split; [split; [done|]; split; eauto|]. by intros [b|e].
  - simpl. exists Settle. split; [split; [done|eauto]|]. by intros [b|e].
Qed.

Lemma final_check_ok id now sm tgt :
  disciplined (keeps_moment now) now (Held id true tgt) (final_check_and_post id now sm).
Proof.
  unfold final_check_and_post. cbn [disciplined await]. split; [done|]. exists true, tgt. split; [done|].
  split; [|by split]. intros it Hit. case_match; [apply finish_superseded_ok|].
  exists id, (item_target it). repeat (split; [done|]). apply after_post_ok.
Qed.

Lemma resolve_interrupted_ok it id now sm r :
  disciplined (keeps_moment now) now (Held id (surely_absent (item_target it) r) (Some (item_target it)))
    (resolve_interrupted it id now sm r).
Proof.
  unfold resolve_interrupted, _disambiguate, surely_absent. destruct r as [[msgs complete]|e]; [|done].
  cbn [item_target tg_key tg_bot]. destruct (_found_in_destination msgs (item_key it) (item_bot_user_id it)) as [ts|].
  - simpl. exists Settle. split; [split; [done|eauto]|]. by intros [b|e].
  - destruct complete; [|done]. rewrite bool_decide_eq_true_2 by done.
    case_match; [apply finish_superseded_ok|apply final_check_ok].
Qed.

(** An interrupted claim of an item is old. *)
Definition item_ok (now : instant) (it : notice_item) : Prop :=
  item_state it = "posting" ->
  exists c, item_claimed_at it = Some c /\ (c <= now - STALE_NOTICE_POSTING_GRACE)%Z.

Lemma deliver_one_ok it now sm ph :
  item_ok now it -> disciplined (keeps_moment now) now ph (_deliver_one it now sm).
Proof.
  unfold item_ok, _deliver_one. cbv zeta. intros Hit.
  destruct (String.eqb_spec (item_state it) "posting") as [E|E]; cbn [disciplined await].
  - destruct (Hit E) as (c & Hc & Hle). exists ClaimStale. split.
    { split; [|eauto]. exists c. split; [done|]. intros n. unfold same_claim, fence. by rewrite Hc. }
    intros [[]|e]; [|done..]. cbn [negb after_cas andb disciplined]. split; [done|].
    exists false, None. split; [done|]. split; [|by split]. intros it' _. cbn [disciplined].
    exists (item_id it), false, (item_target it'). repeat (split; [done|]). intros r. apply resolve_interrupted_ok.
  - exists ClaimFresh. split; [split; eauto|]. intros [[]|e]; [|done..]. cbn [negb after_cas andb disciplined].
    split; [done|]. exists true, None. split; [done|]. split; [|by split]. intros it' _.
    case_match; [apply finish_superseded_ok|apply final_check_ok].
Qed.

Lemma deliver_each_ok items now : forall sm ph,
  (forall it, it ∈ items -> item_ok now it) -> disciplined (keeps_moment now) now ph (deliver_each items now sm).
Proof.
  induction items as [|it items IH]; intros sm ph Hall; [done|]. cbn [deliver_each].
  eapply disciplined_then; [apply deliver_one_ok, Hall; by left|]. intros m r ph' ->.
  assert (forall it, it ∈ items -> item_ok now it) by (intros; apply Hall; by right).
  destruct r; by apply IH.
Qed.

Definition anything {A} : instant -> result A -> Prop := fun _ _ => True.

Lemma sweep_ok org ids limit m ph : disciplined anything m ph (deliver_pending_obligation_notices org ids limit).
Proof.
  simpl. intros t. split; [done|]. intros [items|e] Hr; [|done].
  eapply disciplined_weaken; [|by apply deliver_each_ok]. done.
Qed.

Lemma visible_ok org ids n : forall m ph, disciplined anything m ph (deliver_when_visible n org ids).
Proof.
  induction n as [|n IH]; intros m ph; [done|]. cbn [deliver_when_visible].
  eapply disciplined_then; [apply sweep_ok|]. intros t [sm|e] ph' _; [|done]. by case_match.
Qed.

(** Every task the process starts keeps to the discipline. *)
Lemma starts_ok p m ph : starts p -> disciplined anything m ph p.
Proof.
  intros [org ids limit|org ids]; [|apply visible_ok]. by eapply disciplined_then; [apply sweep_ok|].
Qed.
