(* ===== verification/NoticeInvariant.v ===== *)
(** The invariant of the delivery protocol: what the ledger, Slack and the passes agree
    on, and that every step of the world keeps it. *)
From Stdlib Require Import Ascii.
From S2P Require Import Prelude.
From S2P Require Import PyStr.
From S2P Require Import Json.
From S2P Require Import Status.
From S2P Require Import RunStore.
From S2P Require Import Obligations.
From S2P Require Import ObligationLedger.
From S2P Require Import ObligationOps.
From S2P Require Import ObligationTheorems.
From S2P Require Import NoticeDelivery.
From S2P Require Import NoticeProtocol.
Open Scope string_scope.
Open Scope bool_scope.
Open Scope list_scope.

(** * Small facts *)

Lemma elem_of_take {A} n (l : list A) x : x ∈ take n l -> x ∈ l.
Proof. intros H. rewrite <- (take_drop n l). apply elem_of_app. by left. Qed.

Lemma due_select_ok s org ids mo lim : select_ok mo (Ok (due_notices s org ids mo lim)).
Proof.
  intros it Hit Hp. unfold due_notices in Hit.
  apply elem_of_take, list_elem_of_fmap in Hit as (n & -> & Hn).
  apply elem_of_py_sorted, list_elem_of_filter in Hn as [Hd _].
  destruct (asks s !! obligation_id n) as [a|]; [|done]. rewrite !andb_true_iff in Hd.
  destruct Hd as [[[Hc _] _] _]. cbn [_snapshot item_state item_claimed_at] in *. unfold _claimable_clause in Hc.
  rewrite Hp in Hc. simpl in Hc. destruct (claimed_at n) as [c|]; [|done]. exists c. split; [done|]. by apply Z.leb_le.
Qed.

Lemma fence_true m n : fence m n = true <-> state n = "posting" /\ claimed_at n = Some m.
Proof. unfold fence. by rewrite andb_true_iff, String.eqb_eq, bool_decide_eq_true. Qed.

Lemma fence_false_state m n : state n <> "posting" -> fence m n = false.
Proof. intros E. unfold fence. by destruct (String.eqb_spec (state n) "posting"). Qed.

Lemma reread_some s id m it :
  _verified_reread s id m = Some it ->
  exists n, notices s !! id = Some n /\ fence m n = true /\ item_target it = target_of n /\
    item_id it = notice_id n /\
    item_obligation_status it = default "" (ask_status ∘ life <$> asks s !! obligation_id n).
Proof.
  unfold _verified_reread. destruct (notices s !! id) as [n|]; [|done].
  destruct (asks s !! obligation_id n) as [a|] eqn:Ea; [|done].
  case_match eqn:E1; [done|]. case_match eqn:E2; [done|]. intros [= <-].
  apply negb_false_iff in E1. apply negb_false_iff in E2. exists n.
  split; [done|]. split; [unfold fence; by rewrite E1, E2|]. by rewrite Ea.
Qed.

(** Keys as Slack gives them back are the keys the notices have. *)
Lemma rstrip_app s t : rstrip t <> "" -> rstrip (s +:+ t) = s +:+ rstrip t.
Proof.
  intros Ht. induction s as [|a s IH]; [done|].
  change (rstrip (String a (s +:+ t)) = String a (s +:+ rstrip t)). cbn [rstrip]. rewrite IH.
  destruct (String.eqb_spec (s +:+ rstrip t) "") as [E|_]; [|done].
  destruct s; [|done]. by destruct Ht.
Qed.

Lemma key_strip o c : strip c = c -> c <> "" -> strip (notice_idempotency_key o c) = notice_idempotency_key o c.
Proof.
  intros Hc Hne. assert (Hr : rstrip c = c) by (rewrite <- Hc; unfold strip; apply rstrip_idem).
  unfold notice_idempotency_key, strip. change (lstrip ("obligation-notice:" +:+ ?x)) with ("obligation-notice:" +:+ x).
  assert (H1 : rstrip (":" +:+ c) = ":" +:+ c) by (rewrite rstrip_app; by rewrite Hr).
  assert (H2 : rstrip (str_of_Z o +:+ ":" +:+ c) = str_of_Z o +:+ ":" +:+ c) by (rewrite rstrip_app; by rewrite H1).
  rewrite rstrip_app; rewrite H2; [done|]. by destruct (str_of_Z o).
Qed.

(** The reader finds the message of a notice among the messages it was given. *)
Lemma found_rendered x msgs bot :
  strip (m_key x) = m_key x -> bot = None \/ (bot = Some (m_user x) /\ strip (m_user x) = m_user x) ->
  render x ∈ msgs -> _found_in_destination msgs (m_key x) bot <> None.
Proof.
  intros Hk Hb. induction msgs as [|d msgs IH]; [by intros ?%not_elem_of_nil|].
  intros [<-|Hin]%elem_of_cons; cbn [_found_in_destination].
  - change (jget_or_null "user" (render x)) with (JStr (m_user x)).
    change (jget_or_null "idempotency_key" (as_dict (jget_or_null "event_payload" (as_dict (jget_or_null "metadata" (render x))))))
      with (JStr (m_key x)).
    rewrite !clean_str, Hk, String.eqb_refl.
    assert (Hskip : negb (String.eqb (str_or bot "") "") && negb (String.eqb (strip (m_user x)) (str_or bot "")) = false).
    { destruct Hb as [->|[-> Hu]]; [done|]. rewrite Hu. cbn [str_or]. destruct (String.eqb_spec (m_user x) "") as [->|]; [done|].
      by rewrite String.eqb_refl, andb_false_r. }
    by rewrite Hskip.
  - specialize (IH Hin). case_match; [done|]. by case_match.
Qed.

(** * The invariant *)

Section invariant.
Context `{SlackSide}.

(** A message is the post of a notice, where the notice goes. *)
Definition posted_for (x : slack_message) (n : ObligationNotice) : Prop :=
  idempotency_key n = m_key x /\ m_channel x = tg_channel (target_of n) /\
  m_thread x = tg_thread (target_of n) /\ m_user x = bot_user.

(** Every post of the key was missed by a read. *)
Definition clear (s : shared) (k : string) : Prop := tally k (keys s) <= tally k (sh_missed s).

Record good (s : shared) : Prop := {
  good_ledger : ledger_wf (sh_ledger s);
  good_incoming : incoming_notices (sh_ledger s) = [];
  good_bots : bots_ok (sh_ledger s);
  good_once : forall k, tally k (keys s) <= 1 + tally k (sh_missed s);
  good_sent : forall x, x ∈ sh_slack s -> exists i n, sh_notices s !! i = Some n /\ idempotency_key n = m_key x;
  good_last : forall i n, sh_notices s !! i = Some n -> ~ clear s (idempotency_key n) ->
    state n <> "pending" /\ exists x, x ∈ sh_slack s /\ posted_for x n;
}.

Lemma tally_app k l l' : tally k (l ++ l') = tally k l + tally k l'.
Proof. unfold tally. by rewrite filter_app, length_app. Qed.

Lemma tally_one k x : tally k [x] = if decide (x = k) then 1 else 0.
Proof. unfold tally. rewrite filter_cons. by case_decide. Qed.

Lemma tally_in k l : k ∈ l <-> 1 <= tally k l.
Proof.
  unfold tally. split.
  - intros Hk. assert (Hf : k ∈ filter (fun x => x = k) l) by by apply list_elem_of_filter.
    destruct (filter _ l); [by apply elem_of_nil in Hf|simpl; lia].
  - intros Hl. destruct (filter (fun x => x = k) l) as [|y r] eqn:E; [simpl in Hl; lia|].
    assert (Hy : y ∈ filter (fun x => x = k) l) by (rewrite E; by left). by apply list_elem_of_filter in Hy as [<- ?].
Qed.

Lemma posted_key s k : ~ clear s k -> exists x, x ∈ sh_slack s /\ m_key x = k.
Proof.
  unfold clear. intros Hc. assert (Hk : k ∈ keys s) by (apply tally_in; lia).
  apply list_elem_of_fmap in Hk as (x & -> & Hx). by exists x.
Qed.

Lemma keys_post x s : keys (with_message x s) = keys s ++ [m_key x].
Proof. unfold keys. simpl. by rewrite fmap_app. Qed.

#[export] Instance clear_decision s k : Decision (clear s k).
Proof. unfold clear. apply _. Defined.

(** What a phase means: as long as the claim is young it is in force; and while it is
    in force every post of a cleared notice was missed by a read and the target is the
    row's. *)
Definition held (s : shared) (m : instant) (ph : phase) : Prop :=
  match ph with
  | Idle => True
  | Held id cleared tgt =>
      exists n, sh_notices s !! id = Some n /\
        ((sh_time s < m + STALE_NOTICE_POSTING_GRACE)%Z -> fence m n = true) /\
        (fence m n = true ->
           (cleared = true -> clear s (idempotency_key n)) /\ (forall t, tgt = Some t -> t = target_of n))
  end.

Definition good_pass (s : shared) (q : pass) : Prop :=
  (q.1 <= sh_time s)%Z /\ exists ph, disciplined anything q.1 ph q.2 /\ held s q.1 ph.

Record good_world (w : world) : Prop := {
  gw_shared : good (w_shared w);
  gw_pass : forall i q, w_passes w !! i = Some q -> good_pass (w_shared w) q;
  gw_moments : forall i j q q', w_passes w !! i = Some q -> w_passes w !! j = Some q' -> q.1 = q'.1 -> i = j;
}.

Lemma held_frame s s' m ph :
  held s m ph -> (sh_time s <= sh_time s')%Z ->
  (forall i n, sh_notices s !! i = Some n ->
     exists n', sh_notices s' !! i = Some n' /\
       (fence m n = true -> (sh_time s' < m + STALE_NOTICE_POSTING_GRACE)%Z -> fence m n' = true) /\
       (fence m n' = true -> fence m n = true /\ target_of n' = target_of n)) ->
  (forall i n, sh_notices s !! i = Some n -> fence m n = true -> clear s (idempotency_key n) ->
     clear s' (idempotency_key n)) ->
  held s' m ph.
Proof.
  destruct ph as [|id c tgt]; [done|]. intros (n & Hn & Hlive & Hf) Ht Hrow Hkeys.
  destruct (Hrow id n Hn) as (n' & Hn' & Hfw & Hbw). exists n'. split; [done|]. split.
  - intros Hl. apply Hfw; [|done]. apply Hlive. lia.
  - intros [Hfn Htg]%Hbw. destruct (Hf Hfn) as [Hc Ht']. rewrite Htg. split; [|done].
    intros Hcl. assert (Hk : idempotency_key n' = idempotency_key n) by (change (tg_key (target_of n') = tg_key (target_of n)); by rewrite Htg).
    rewrite Hk. eapply Hkeys; [done..|]. by apply Hc.
Qed.

Lemma held_same s s' m ph :
  held s m ph -> (sh_time s <= sh_time s')%Z -> sh_notices s' = sh_notices s -> keys s' = keys s ->
  sh_missed s `prefix_of` sh_missed s' -> held s' m ph.
Proof.
  intros Hh Ht Hn Hk [l Hl]. apply (held_frame s); [done..| |].
  - intros i n Hi. exists n. rewrite Hn. by split.
  - intros i n _ _. unfold clear. rewrite Hk, Hl, tally_app. lia.
Qed.

Lemma good_same s s' :
  good s -> sh_ledger s' = sh_ledger s -> sh_slack s' = sh_slack s -> sh_missed s `prefix_of` sh_missed s' -> good s'.
Proof.
  intros [Hl Hi Hb Ho Hs Hp] El Es [l Em].
  split; unfold clear, keys, sh_notices in *; rewrite ?El, ?Es, ?Em; [done..| |done|].
  - intros k. rewrite tally_app. specialize (Ho k). lia.
  - intros i n Hn Hc. apply (Hp i n Hn). rewrite tally_app in Hc. lia.
Qed.

(** ** The conditional updates *)

Lemma cas_values m ph id w v kd :
  cas_allowed m ph id w v kd ->
  (exists a, v = claim a m) \/ v = mark_superseded \/ (exists ts, v = mark_delivered m ts) \/
  (exists e, v = note_error e) \/ exists e, v = requeue e.
Proof. destruct kd; intros [_ Hv]; [by left|by left|tauto|]. destruct Hv as [? _]. tauto. Qed.

Lemma undelivered n : notice_ok n -> state n = "pending" \/ state n = "posting" -> delivered_at n = None.
Proof.
  intros (_ & _ & _ & [(_ & _ & ?)|[(_ & _ & ?)|[(E & _)|(_ & _ & ?)]]]); [done|done| |done].
  rewrite E. by intros [|].
Qed.

Lemma cas_row m ph id w v kd n :
  cas_allowed m ph id w v kd -> w n = true -> notice_ok n ->
  notice_ok (v n) /\ target_of (v n) = target_of n /\ notice_id (v n) = notice_id n /\
  obligation_id (v n) = obligation_id n /\ notice_condition (v n) = notice_condition n /\
  idempotency_key (v n) = idempotency_key n /\ notice_bot_user_id (v n) = notice_bot_user_id n.
Proof.
  intros Hc Hw Hok. split; [|by destruct (cas_values _ _ _ _ _ _ Hc) as [[a ->]|[->|[[ts ->]|[[e ->]|[e ->]]]]]].
  pose proof (undelivered n Hok) as Hu. destruct Hok as (Hk & Hs & Hne & Hst).
  destruct kd; destruct Hc as [Hwn Hv].
  - destruct Hv as [a ->]. rewrite Hwn in Hw. unfold is_pending in Hw. bool_simpl.
    do 3 (split; [done|]). right; left. simpl. split; [done|]. split; [by eexists|auto].
  - destruct Hwn as (c & _ & Hwn), Hv as [a ->]. apply Hwn, fence_true in Hw as [Hp _].
    do 3 (split; [done|]). right; left. simpl. split; [done|]. split; [by eexists|auto].
  - rewrite Hwn in Hw. apply fence_true in Hw as [Hp Hcl].
    destruct Hv as [->|[[ts ->]|[e ->]]]; do 3 (split; [done|]); simpl; auto 8.
  - rewrite Hwn in Hw. apply fence_true in Hw as [Hp Hcl]. destruct Hv as [[e ->] _].
    do 3 (split; [done|]). left. simpl. auto.
Qed.

(** An update of one pass breaks no young claim of another, and leaves it none. *)
Lemma cas_other m m0 ph id w v kd n t :
  cas_allowed m0 ph id w v kd -> w n = true -> m <> m0 -> (m0 <= t)%Z ->
  (fence m n = true -> (t < m + STALE_NOTICE_POSTING_GRACE)%Z -> False) /\ fence m (v n) = false.
Proof.
  intros Hc Hw Hne Ht. destruct kd; destruct Hc as [Hwn Hv].
  - destruct Hv as [a ->]. rewrite Hwn in Hw. unfold is_pending in Hw. bool_simpl. split.
    + intros [Hp _]%fence_true. congruence.
    + unfold fence. simpl. apply bool_decide_eq_false. congruence.
  - destruct Hwn as (c & Hle & Hwn), Hv as [a ->]. apply Hwn, fence_true in Hw as [Hp Hcl]. split.
    + intros [_ Hm]%fence_true Hlt. rewrite Hcl in Hm. injection Hm as ->. lia.
    + unfold fence. simpl. apply bool_decide_eq_false. congruence.
  - rewrite Hwn in Hw. apply fence_true in Hw as [Hp Hcl]. split.
    + intros [_ Hm]%fence_true. congruence.
    + destruct Hv as [->|[[ts ->]|[e ->]]]; [done|done|]. unfold fence. simpl. rewrite Hcl.
      rewrite (bool_decide_eq_false_2 (Some m0 = Some m)) by congruence. apply andb_false_r.
  - rewrite Hwn in Hw. apply fence_true in Hw as [Hp Hcl]. destruct Hv as [[e ->] _]. split; [|done].
    intros [_ Hm]%fence_true. congruence.
Qed.

(** Only a release makes a notice pending again. *)
Lemma cas_pending m ph id w v kd n :
  cas_allowed m ph id w v kd -> w n = true -> state (v n) = "pending" ->
  fence m n = true /\ exists tgt, ph = Held id true tgt.
Proof.
  intros Hc Hw. destruct kd; destruct Hc as [Hwn Hv].
  - by destruct Hv as [a ->].
  - by destruct Hv as [a ->].
  - rewrite Hwn in Hw. apply fence_true in Hw as [Hp _]. destruct Hv as [->|[[ts ->]|[e ->]]]; try done. simpl. congruence.
  - rewrite Hwn in Hw. by destruct Hv as [_ Hv].
Qed.

(** ** What a step keeps *)

Lemma notice_row s id n : good s -> sh_notices s !! id = Some n -> notice_ok n /\ notice_id n = id.
Proof.
  intros [Hl _ _ _ _ _] Hn. destruct (lw_notices _ Hl) as [Hid _ Hok _].
  split; [exact (Hok id n Hn)|exact (Hid id n Hn)].
Qed.

Lemma same_notice s i j n m :
  good s -> sh_notices s !! i = Some n -> sh_notices s !! j = Some m -> idempotency_key n = idempotency_key m -> n = m.
Proof.
  intros Hg Hn Hm Hk. pose proof (good_ledger s Hg) as Hl. destruct (lw_notices _ Hl) as [_ _ _ Hun].
  assert (i = j) as -> by (apply (Hun i j n m Hn Hm); unfold notice_conflict; rewrite Hk, String.eqb_refl; apply orb_true_r).
  congruence.
Qed.

Lemma put_good s id n m ph w v kd :
  good s -> sh_notices s !! id = Some n -> cas_allowed m ph id w v kd -> w n = true ->
  (state (v n) = "pending" -> clear s (idempotency_key n)) -> good (put_row id (v n) s).
Proof.
  intros Hg Hn Hc Hw Hrel. destruct (notice_row s id n Hg Hn) as [Hok Hid].
  destruct (cas_row m ph id w v kd n Hc Hw Hok) as (Hok' & Htg & Hi & Ho & Hcd & Hk & Hb).
  destruct Hg as [[Hla Hln Hia Hin] Hinc Hbots Honce Hsent Hlast]. split.
  - split; [done| |done..]. unfold put_row, sh_notices in *. simpl.
    apply (table_evolve _ _ _ notice_conflict_sym (notices (sh_ledger s)) _ _ Hln). intros i.
    destruct (decide (i = id)) as [->|Hne].
    + rewrite Hn, lookup_insert_eq. split; [done|]. split; [done|].
      intros c _. unfold notice_conflict. by rewrite Ho, Hcd, Hk.
    + rewrite lookup_insert_ne by done. destruct (notices (sh_ledger s) !! i) as [a|] eqn:Ea; [|done].
      split; [done|]. split; [by eapply (table_rows _ _ _ _ _ Hln)|done].
  - done.
  - intros i a. unfold put_row. simpl. intros [[<- <-]|[_ Ha]]%lookup_insert_Some; [|by eapply Hbots].
    rewrite Hb. by eapply Hbots.
  - done.
  - intros x Hx. destruct (Hsent x Hx) as (i & a & Ha & Hka). unfold put_row, sh_notices in *. simpl.
    destruct (decide (i = id)) as [->|Hne]; [|exists i, a; by rewrite lookup_insert_ne].
    exists id, (v n). rewrite lookup_insert_eq. split; [done|congruence].
  - unfold put_row, sh_notices in *. simpl. intros i a [[<- <-]|[_ Ha]]%lookup_insert_Some; [|by apply (Hlast i)].
    rewrite Hk. intros Hcl. destruct (Hlast _ _ Hn Hcl) as [_ (x & Hx & Hkx & Hto)]. split; [auto|].
    exists x. split; [done|]. unfold posted_for. rewrite Hk, Htg. by split.
Qed.

Lemma put_others s id n m m0 ph0 ph w v kd :
  good s -> sh_notices s !! id = Some n -> cas_allowed m0 ph0 id w v kd -> w n = true ->
  m <> m0 -> (m0 <= sh_time s)%Z -> held s m ph -> held (put_row id (v n) s) m ph.
Proof.
  intros Hg Hn Hc Hw Hne Ht Hh. destruct (notice_row s id n Hg Hn) as [Hok _].
  destruct (cas_other m m0 ph0 id w v kd n (sh_time s) Hc Hw Hne Ht) as [Hyoung Hnone].
  apply (held_frame s); [done|done| |done]. intros i a Ha. unfold put_row, sh_notices in *. simpl.
  destruct (decide (i = id)) as [->|Hi].
  - rewrite lookup_insert_eq. exists (v n). split; [done|]. rewrite Hn in Ha. injection Ha as <-. split.
    + intros Hf Hlt. by destruct (Hyoung Hf Hlt).
    + by rewrite Hnone.
  - rewrite lookup_insert_ne by done. exists a. split; [done|]. by split.
Qed.

Lemma put_self s id n m ph w v kd r :
  good s -> sh_notices s !! id = Some n -> cas_allowed m ph id w v kd -> w n = true ->
  r = Ok true \/ (exists e, r = Err e) -> held (put_row id (v n) s) m (after_cas kd id r).
Proof.
  intros Hg Hn Hc Hw Hr. assert (Hclaim : forall a, fence m (claim a m n) = true).
  { intros a. by apply fence_true. }
  destruct kd; destruct Hr as [->|[e ->]]; try done; destruct Hc as [Hwn [a ->]]; exists (claim a m n);
    (split; [unfold put_row, sh_notices; simpl; apply lookup_insert_eq|]);
    (split; [intros _; apply Hclaim|intros _; split; [|done]]); [|done].
  intros _. rewrite Hwn in Hw. unfold is_pending in Hw. bool_simpl.
  destruct (decide (clear s (idempotency_key n))) as [|Hno]; [done|]. by destruct (good_last s Hg id n Hn Hno).
Qed.

Lemma post_clear s x k : m_key x <> k -> clear s k <-> clear (with_message x s) k.
Proof. intros Hne. unfold clear. rewrite keys_post, tally_app, tally_one, decide_False by done. simpl. lia. Qed.

Lemma post_good s id n tgt ts :
  good s -> sh_notices s !! id = Some n -> state n = "posting" -> tgt = target_of n -> clear s (idempotency_key n) ->
  good (with_message {| m_channel := tg_channel tgt; m_thread := tg_thread tgt; m_user := bot_user; m_ts := ts;
                        m_key := tg_key tgt |} s).
Proof.
  intros Hg Hn Hp -> Hk. pose proof Hg as [Hl Hinc Hb Ho Hs Hlast]. split; [done..| | |].
  - intros k. rewrite keys_post, tally_app, tally_one. specialize (Ho k). cbn [m_key target_of tg_key].
    case_decide as Hd; [|simpl; lia]. rewrite Hd in Hk. unfold clear in Hk. simpl. lia.
  - intros x. simpl. intros [Hx|Hx]%elem_of_app; [by apply Hs|]. apply list_elem_of_singleton in Hx as ->.
    by exists id, n.
  - intros i a Ha Hno. destruct (decide (idempotency_key n = idempotency_key a)) as [He|Hne].
    + assert (a = n) as -> by by eapply (same_notice s i id). split; [by rewrite Hp|].
      eexists. split; [apply elem_of_app; right; by apply list_elem_of_singleton|done].
    + rewrite <- post_clear in Hno by done. destruct (Hlast i a Ha Hno) as [Hst (x & Hx & Hpf)]. split; [done|].
      exists x. split; [apply elem_of_app; by left|done].
Qed.

Lemma post_others s id n m m0 ph x :
  good s -> sh_notices s !! id = Some n -> fence m0 n = true -> m <> m0 -> m_key x = idempotency_key n ->
  held s m ph -> held (with_message x s) m ph.
Proof.
  intros Hg Hn Hf Hne Hk Hh. apply (held_frame s); [done|done| |].
  - intros i a Ha. exists a. by split.
  - intros i a Ha Hfa. apply post_clear. rewrite Hk. intros Heq.
    assert (a = n) as -> by by eapply (same_notice s i id). apply fence_true in Hf as [_ Hf], Hfa as [_ Hfa]. congruence.
Qed.

(** The ledger's own operations leave claimed notices alone. *)
Lemma ledger_rows l l' :
  ledger_wf l -> incoming_notices l = [] -> ledger_step l l' ->
  ledger_wf l' /\ incoming_notices l' = [] /\
  forall i n, notices l !! i = Some n -> exists n', notices l' !! i = Some n' /\ notice_evolves n n'.
Proof. intros Hl Hi Hst. destruct (Hst Hl) as [Hl' [_ Hn _ _ _ Hinc _]]. auto. Qed.

Lemma evolves_fence m n n' : notice_evolves n n' ->
  (fence m n = true -> n' = n) /\ (fence m n' = true -> n' = n).
Proof.
  intros (_ & _ & _ & _ & _ & _ & Hne & Hst). split; intros [Hp _]%fence_true.
  - apply Hne. by rewrite Hp.
  - apply Hne. destruct Hst as [Hst|Hst]; rewrite Hst in Hp; [by rewrite Hp|done].
Qed.

Lemma op_good s l' :
  good s -> ledger_step (sh_ledger s) l' -> bots_ok l' -> good (with_ledger l' s).
Proof.
  intros [Hl Hinc Hb Ho Hs Hlast] Hst Hb'. destruct (ledger_rows _ _ Hl Hinc Hst) as (Hl' & Hinc' & Hrows).
  assert (Hsame : forall i n n', sh_notices s !! i = Some n -> notices l' !! i = Some n' -> notice_evolves n n').
  { intros i n n' Hn Hn'. destruct (Hrows i n Hn) as (x & Hx & He). congruence. }
  split; [done..| |].
  - intros x Hx. destruct (Hs x Hx) as (i & n & Hn & Hk). destruct (Hrows i n Hn) as (n' & Hn' & Hev).
    exists i, n'. split; [done|]. rewrite <- Hk. apply Hev.
  - intros i n' Hn' Hno. destruct (posted_key s _ Hno) as (x & Hx & Hkx). destruct (Hs x Hx) as (j & n & Hn & Hk).
    destruct (Hrows j n Hn) as (n2 & Hn2 & Hev).
    assert (Hkey : idempotency_key n2 = idempotency_key n) by apply Hev.
    destruct (lw_notices _ Hl') as [_ _ _ Hun].
    assert (i = j) as -> by (apply (Hun i j n' n2 Hn' Hn2); unfold notice_conflict; rewrite Hkey, Hk, Hkx, String.eqb_refl; apply orb_true_r).
    assert (n2 = n') as -> by (unfold sh_notices in *; simpl in *; congruence). rewrite Hkey in Hno.
    destruct (Hlast j n Hn Hno) as [Hst' Hpf]. assert (n' = n) as -> by by apply Hev. by split.
Qed.

Lemma op_held s l' m ph :
  good s -> ledger_step (sh_ledger s) l' -> held s m ph -> held (with_ledger l' s) m ph.
Proof.
  intros [Hl Hinc Hb Ho Hs _] Hst Hh. destruct (ledger_rows _ _ Hl Hinc Hst) as (Hl' & Hinc' & Hrows).
  apply (held_frame s); [done|done| |done]. intros i n Hn. destruct (Hrows i n Hn) as (n' & Hn' & Hev).
  exists n'. split; [done|]. destruct (evolves_fence m n n' Hev) as [H1 H2]. split.
  - intros Hf _. by rewrite H1.
  - intros Hf. pose proof (H2 Hf) as ->. by split.
Qed.

(** ** One request *)

Section timely.
Hypothesis timely_sound : forall m t, timely m t = true -> (t < m + STALE_NOTICE_POSTING_GRACE)%Z.

Definition others_kept (s s' : shared) (m0 : instant) : Prop :=
  (sh_time s <= sh_time s')%Z /\ forall m ph, m <> m0 -> held s m ph -> held s' m ph.

Lemma others_same s m0 : others_kept s s m0.
Proof. by split. Qed.

(** A destination read completely without the message: it is not in Slack, or this
    read missed it. *)
Lemma read_clears s id n msgs l :
  good s -> sh_notices s !! id = Some n ->
  (forall x, x ∈ sh_slack s -> m_channel x = tg_channel (target_of n) -> m_thread x = tg_thread (target_of n) ->
     render x ∈ msgs \/ m_key x ∈ l) ->
  surely_absent (target_of n) (Ok (msgs, true)) = true -> clear (missing l s) (idempotency_key n).
Proof.
  intros Hg Hn Hread Habs. apply bool_decide_eq_true in Habs. unfold clear. simpl. rewrite tally_app.
  destruct (decide (clear s (idempotency_key n))) as [Hc|Hno]; [unfold clear in Hc; change (keys (missing l s)) with (keys s); lia|].
  destruct (good_last s Hg id n Hn Hno) as [_ (x & Hx & Hk & Hch & Hth & Hu)].
  destruct (Hread x Hx Hch Hth) as [Hin|Hin].
  - exfalso. destruct (notice_row s id n Hg Hn) as [(Hkey & Hst & Hne & _) _].
    cbn [target_of tg_key tg_bot] in Habs. rewrite Hk in Habs. revert Habs. apply found_rendered; [| |done].
    + rewrite <- Hk, Hkey. by apply key_strip.
    + destruct (good_bots s Hg id n Hn) as [->|Hbot]; [by left|]. right. rewrite Hu, Hbot. split; [done|].
      unfold or_none in Hbot. case_match; [done|]. injection Hbot as <-. apply strip_idem.
  - rewrite <- Hk in Hin. apply tally_in in Hin. pose proof (good_once s Hg (idempotency_key n)).
    change (keys (missing l s)) with (keys s). lia.
Qed.

(** The parts of one request: nothing changed, a row was updated, a message arrived. *)
Definition kept (s : shared) (m : instant) (s' : shared) (q' : pass) : Prop :=
  good s' /\ good_pass s' q' /\ others_kept s s' m /\
  (q'.1 = m \/ ((sh_time s < q'.1)%Z /\ (q'.1 <= sh_time s')%Z)).

Lemma unchanged_kept s m p ph :
  good s -> (m <= sh_time s)%Z -> disciplined anything m ph p -> held s m ph -> kept s m s (m, p).
Proof. intros Hg Hm Hd Hh. split; [done|]. split; [by split; [|exists ph]|]. split; [apply others_same|by left]. Qed.

Lemma cas_kept s m ph id w v kd n r p :
  good s -> (m <= sh_time s)%Z -> held s m ph -> cas_allowed m ph id w v kd -> sh_notices s !! id = Some n ->
  w n = true -> r = Ok true \/ (exists e, r = Err e) -> disciplined anything m (after_cas kd id r) p ->
  kept s m (put_row id (v n) s) (m, p).
Proof.
  intros Hg Hm Hh Hc Hn Hw Hr Hd. split; [|split; [|split; [|by left]]].
  - apply (put_good s id n m ph w v kd); [done..|]. intros Hp.
    destruct (cas_pending m ph id w v kd n Hc Hw Hp) as [Hf [tgt ->]].
    destruct Hh as (n' & Hn' & _ & Hcl). rewrite Hn in Hn'. injection Hn' as <-. by apply Hcl.
  - split; [done|]. exists (after_cas kd id r). split; [done|]. by eapply put_self.
  - split; [done|]. intros m' ph' Hne Hh'. by eapply put_others.
Qed.

Lemma post_kept s m id tgt ts c p :
  good s -> (m <= sh_time s)%Z -> held s m (Held id true (Some tgt)) -> timely m (sh_time s) = true ->
  c = false -> disciplined anything m (Held id c (Some tgt)) p ->
  kept s m (with_message {| m_channel := tg_channel tgt; m_thread := tg_thread tgt; m_user := bot_user; m_ts := ts;
                            m_key := tg_key tgt |} s) (m, p).
Proof.
  intros Hg Hm (n & Hn & Hlive & Hf) Ht -> Hd. pose proof (Hlive (timely_sound _ _ Ht)) as Hfence.
  destruct (Hf Hfence) as [Hclear Htg]. specialize (Htg tgt eq_refl). specialize (Hclear eq_refl).
  pose proof Hfence as [Hpost _]%fence_true. split; [|split; [|split; [|by left]]].
  - by apply (post_good s id n).
  - split; [done|]. exists (Held id false (Some tgt)). split; [done|]. exists n. split; [done|]. split; [done|].
    intros _. split; [done|]. intros t [= <-]. done.
  - split; [done|]. intros m' ph' Hne Hh'. eapply (post_others s id n m' m); try done. by rewrite Htg.
Qed.

Lemma reread_kept s m ph id k :
  good s -> (m <= sh_time s)%Z -> held s m ph -> disciplined anything m ph (Reread id m k) ->
  kept s m s (m, k (Ok (_verified_reread (sh_ledger s) id m))).
Proof.
  intros Hg Hm Hh (_ & c & tgt & -> & Hsome & Hnone & _).
  destruct (_verified_reread (sh_ledger s) id m) as [it|] eqn:E; [|by apply (unchanged_kept s m _ Idle)].
  destruct (reread_some _ _ _ _ E) as (n & Hn & Hf & Htg & Hid & _).
  apply (unchanged_kept s m _ (Held id c (Some (item_target it)))); [done..| |].
  - apply Hsome. rewrite Hid. by apply (notice_row s id n Hg).
  - destruct Hh as (n' & Hn' & Hlive & Hfc). unfold sh_notices in Hn'. rewrite Hn in Hn'. injection Hn' as <-.
    exists n. split; [done|]. split; [done|]. intros Hf'. split; [by apply Hfc|]. intros t [= <-]. done.
Qed.

Lemma missing_good s l : good s -> good (missing l s).
Proof. intros Hg. apply (good_same s); [done..|]. by apply prefix_app_r. Qed.

Lemma missing_held s l m ph : held s m ph -> held (missing l s) m ph.
Proof. intros Hh. apply (held_same s); [done..|]. by apply prefix_app_r. Qed.

Lemma read_kept s m ph c t k msgs complete l :
  good s -> (m <= sh_time s)%Z -> held s m ph -> disciplined anything m ph (ReadDestination c t k) ->
  (complete = true -> forall x, x ∈ sh_slack s -> m_channel x = c -> m_thread x = t ->
     render x ∈ msgs \/ m_key x ∈ l) ->
  kept s m (missing l s) (m, k (Ok (msgs, complete))).
Proof.
  intros Hg Hm Hh (id & cl & tgt & -> & <- & <- & Hk) Hread.
  split; [by apply missing_good|]. split; [|split; [|by left]].
  2:{ split; [done|]. intros m' ph' _. apply missing_held. }
  split; [done|]. eexists. split; [apply Hk|]. destruct Hh as (n & Hn & Hlive & Hf).
  exists n. split; [done|]. split; [done|]. intros Hfn. destruct (Hf Hfn) as [_ Htg]. split; [|done].
  intros Habs. specialize (Htg tgt eq_refl) as ->. destruct complete; [|done].
  apply (read_clears s id n msgs l); [done|done| |done]. by apply Hread.
Qed.

(** The request of a disciplined pass keeps the invariant, and so does what follows. *)
Lemma act_good s q s' q' : good s -> good_pass s q -> acts s q s' q' -> kept s q.1 s' q'.
Proof.
  intros Hg [Hm (ph & Hd & Hh)] Hact. destruct Hact as [m k t Ht|m org ids mo lim k|m org ids mo lim k e|
    m id w v sk k n Hn Hw|m id w v sk k _|m id w v sk k e|m id w v sk k n e Hn Hw|m id st k|m id st k e|
    m c t k msgs complete l Hread _ _|m c t k e|m c x t key k ts r Ht Hr|m c x t key k r Hr]; cbn [fst snd] in *.
  - split; [by apply (good_same s)|]. split; [|split; [|right; simpl; lia]].
    + split; [done|]. exists Idle. by split; [apply Hd|].
    + split; [simpl; lia|]. intros m' ph' _ Hh'. apply (held_same s); [done|simpl; lia|done..].
  - destruct Hd as [-> Hd]. apply (unchanged_kept s m _ Idle); [done..| |done]. apply Hd, due_select_ok.
  - destruct Hd as [-> Hd]. apply (unchanged_kept s m _ Idle); [done..| |done]. by apply Hd.
  - destruct Hd as (kd & Hc & Hd). eapply (cas_kept s m ph id w v kd n (Ok true)); eauto.
  - destruct Hd as (kd & Hc & Hd). apply (unchanged_kept s m _ _ Hg Hm (Hd _)). by destruct kd.
  - destruct Hd as (kd & Hc & Hd). apply (unchanged_kept s m _ _ Hg Hm (Hd _)). by destruct kd.
  - destruct Hd as (kd & Hc & Hd). eapply (cas_kept s m ph id w v kd n (Err e)); eauto.
  - pose proof Hd as [-> _]. by apply (reread_kept s m ph).
  - destruct Hd as (-> & c & tgt & -> & _ & _ & He). by apply (unchanged_kept s m _ Idle).
  - by apply (read_kept s m ph c t).
  - destruct Hd as (id & cl & tgt & -> & _ & _ & Hk). apply (unchanged_kept s m _ _ Hg Hm (Hk _)).
    destruct Hh as (n & Hn & Hlive & Hf). exists n. split; [done|]. split; [done|].
    intros Hfn. split; [done|]. by apply Hf.
  - destruct Hd as (id & tgt & -> & <- & <- & <- & Hk). eapply (post_kept s m id tgt ts _ _ Hg Hm Hh Ht); [|apply Hk].
    by destruct r.
  - destruct Hd as (id & tgt & -> & <- & <- & <- & Hk). apply (unchanged_kept s m _ _ Hg Hm (Hk _)).
    destruct Hh as (n & Hn & Hlive & Hf). exists n. split; [done|]. split; [done|].
    intros Hfn. destruct (Hf Hfn) as [Hc Htg]. split; [by intros _; apply Hc|done].
Qed.

(** ** One step of the world *)

Lemma pass_same s s' q :
  good_pass s q -> (sh_time s <= sh_time s')%Z -> (forall m ph, held s m ph -> held s' m ph) -> good_pass s' q.
Proof. intros [Hm (ph & Hd & Hh)] Ht Hheld. split; [lia|]. exists ph. split; [done|by apply Hheld]. Qed.

Lemma shared_step w s' :
  good_world w -> good s' -> (sh_time (w_shared w) <= sh_time s')%Z ->
  (forall m ph, held (w_shared w) m ph -> held s' m ph) ->
  good_world {| w_shared := s'; w_passes := w_passes w |}.
Proof.
  intros [Hg Hp Hmo] Hg' Ht Hh. split; [done| |done]. intros i q Hq. eapply pass_same; [by eapply Hp|done..].
Qed.

Lemma op_step w l :
  good_world w -> ledger_step (sh_ledger (w_shared w)) l -> bots_ok l ->
  good_world {| w_shared := with_ledger l (w_shared w); w_passes := w_passes w |}.
Proof.
  intros Hw Hst Hb. pose proof (gw_shared w Hw) as Hg. apply shared_step; [done|by apply op_good|done|].
  intros m ph Hh. by apply op_held.
Qed.

Lemma at_time_good s t : good s -> good (at_time t s).
Proof. intros Hg. by apply (good_same s). Qed.

Lemma at_time_held s t m ph : (sh_time s <= t)%Z -> held s m ph -> held (at_time t s) m ph.
Proof. intros Ht Hh. by apply (held_same s). Qed.

Lemma act_step w i q s' q' :
  good_world w -> w_passes w !! i = Some q -> acts (w_shared w) q s' q' ->
  good_world {| w_shared := s'; w_passes := <[i := q']> (w_passes w) |}.
Proof.
  intros [Hg Hp Hmo] Hq Hact. destruct (act_good _ _ _ _ Hg (Hp i q Hq) Hact) as (Hg' & Hq' & [Ht Hoth] & Hmom).
  assert (Hfresh : forall j r, i <> j -> w_passes w !! j = Some r -> q'.1 <> r.1).
  { intros j r Hne Hr Heq. destruct Hmom as [Hsame|[Hlt _]].
    - apply Hne. apply (Hmo i j q r Hq Hr). congruence.
    - destruct (Hp j r Hr) as [Hle _]. lia. }
  split; [done| |].
  - intros j r [(_ & <- & _)|[Hne Hr]]%list_lookup_insert_Some; [done|].
    destruct (Hp j r Hr) as [Hm (ph & Hd & Hh)]. split; [simpl in *; lia|]. exists ph. split; [done|].
    apply Hoth; [|done]. intros Heq. apply Hne. by apply (Hmo i j q r Hq Hr).
  - intros j j' r r' [(<- & <- & _)|[Hne Hr]]%list_lookup_insert_Some
      [(<- & <- & _)|[Hne' Hr']]%list_lookup_insert_Some; [done| | |by apply (Hmo j j' r r')].
    + intros Heq. by destruct (Hfresh j' r' Hne' Hr').
    + intros Heq. by destruct (Hfresh j r Hne Hr).
Qed.

Lemma start_step w t p :
  good_world w -> (sh_time (w_shared w) < t)%Z -> starts p ->
  good_world {| w_shared := at_time t (w_shared w); w_passes := w_passes w ++ [(t, p)] |}.
Proof.
  intros [Hg Hp Hmo] Ht Hst. assert (Hold : forall i q, w_passes w !! i = Some q -> q.1 <> t).
  { intros i q Hq Heq. destruct (Hp i q Hq) as [Hle _]. lia. }
  split; [by apply at_time_good| |].
  - intros i q [Hq|[_ Hq]]%lookup_app_Some.
    + eapply pass_same; [by eapply Hp|simpl; lia|]. intros m ph. apply at_time_held. lia.
    + apply list_lookup_singleton_Some in Hq as [_ <-]. split; [done|]. exists Idle. split; [by apply starts_ok|done].
  - intros i j q q' [Hq|[Hi Hq]]%lookup_app_Some [Hq'|[Hj Hq']]%lookup_app_Some.
    + by apply Hmo.
    + apply list_lookup_singleton_Some in Hq' as [_ <-]. intros Heq. by destruct (Hold i q Hq).
    + apply list_lookup_singleton_Some in Hq as [_ <-]. intros Heq. by destruct (Hold j q' Hq').
    + apply list_lookup_singleton_Some in Hq as [? _], Hq' as [? _]. intros _. lia.
Qed.

Lemma world_good w w' : good_world w -> world_step w w' -> good_world w'.
Proof.
  intros Hw Hst. pose proof (gw_shared w Hw) as Hg.
  destruct Hst as [i q s' q' Hq Hact|t p Ht Hp|t Ht|op Hb|l Ha Hn Hia Hin H1 H2].
  - by eapply act_step.
  - by apply start_step.
  - apply shared_step; [done|by apply at_time_good|done|]. intros m ph. by apply at_time_held.
  - apply op_step; [done|apply obligation_step|done].
  - assert (Hwf : ledger_wf l).
    { pose proof (good_ledger _ Hg) as [Hla Hln _ _]. split; rewrite ?Ha, ?Hn, ?Hia, ?Hin, ?H1, ?H2; try done; constructor. }
    apply shared_step; [done| |done|].
    + destruct Hg as [Hl Hinc Hb Ho Hs Hlast]. split; [done|done| |done|..]; unfold sh_notices, clear; simpl.
      * intros i n. simpl. rewrite Hn. apply Hb.
      * intros x Hx. rewrite Hn. by apply Hs.
      * intros i n. rewrite Hn. apply Hlast.
    + intros m ph Hh. by apply (held_same (w_shared w)).
Qed.

Lemma quiet_good w : quiet_world w -> good_world w.
Proof.
  intros [Hl Hi Hb Hs Hm Hp]. split; [split; [done..| | |]| |].
  - intros k. unfold keys. rewrite Hs. apply Nat.le_0_l.
  - rewrite Hs. intros x Hx. by apply not_elem_of_nil in Hx.
  - intros i n Hn Hno. exfalso. apply Hno. unfold clear, keys. rewrite Hs. apply Nat.le_0_l.
  - by rewrite Hp.
  - by rewrite Hp.
Qed.

Lemma reachable_good w w' : quiet_world w -> rtc world_step w w' -> good_world w'.
Proof.
  intros Hq%quiet_good Hr. revert Hq. induction Hr as [|w w1 w2 Hst Hr IH]; [done|]. intros Hg. apply IH.
  by eapply world_good.
Qed.
End timely.
End invariant.
