(* ===== verification/NoticeTheorems.v ===== *)
(** What the delivery of notices promises: while posts land within the grace of their
    passes, a notice reaches Slack again only when a read of its destination did not
    show the earlier post; every post follows a check that the ask is still open; and a
    pass makes a bounded number of requests.  And what breaks the promise: a claim
    stamped with a moment long past, and reads that come without metadata. *)
From Stdlib Require Import Ascii.
From S2P Require Import Prelude.
From S2P Require Import PyStr.
From S2P Require Import Json.
From S2P Require Import Status.
From S2P Require Import RunStore.
From S2P Require Import Obligations.
From S2P Require Import ObligationLedger.
From S2P Require Import ObligationOps.
From S2P Require Import ObligationTheorems.
From S2P Require Import NoticeDelivery.
From S2P Require Import NoticeProtocol.
From S2P Require Import NoticeInvariant.
Open Scope string_scope.
Open Scope bool_scope.
Open Scope list_scope.

(** * Executions by moves *)

(** How a request is answered: by the database, with the time, with the messages of
    the destination, with or without their metadata, or by Slack accepting a post. *)
Inductive move : Type :=
| Answer (i : nat)
| Clock (i : nat) (t : instant)
| Messages (i : nat) (l : list dict) (complete : bool)
| Unmarked (i : nat)
| Accept (i : nat) (ts : string)
| Start (t : instant) (org : option string) (ids : list Z) (limit : Z)
| Wait (t : instant).

Section moves.
Context `{SlackSide}.

Definition put_pass (w : world) (i : nat) (s : shared) (q : pass) : world :=
  {| w_shared := s; w_passes := <[i := q]> (w_passes w) |}.

Definition make_move (mv : move) (w : world) : option world :=
  let s := w_shared w in
  match mv with
  | Answer i =>
      match w_passes w !! i with
      | Some (m, Select org ids mo lim k) =>
          Some (put_pass w i s (m, k (Ok (due_notices (sh_ledger s) org ids mo lim))))
      | Some (m, Cas id wh v sk k) =>
          match sh_notices s !! id with
          | Some n => if wh n then Some (put_pass w i (put_row id (v n) s) (m, k (Ok true))) else None
          | None => None
          end
      | Some (m, Reread id st k) => Some (put_pass w i s (m, k (Ok (_verified_reread (sh_ledger s) id st))))
      | _ => None
      end
  | Clock i t =>
      match w_passes w !! i with
      | Some (m, Now k) => if Z.ltb (sh_time s) t then Some (put_pass w i (at_time t s) (t, k t)) else None
      | _ => None
      end
  | Messages i l complete =>
      match w_passes w !! i with
      | Some (m, ReadDestination c t k) =>
          if Nat.eqb (length (sh_slack s)) 0 then Some (put_pass w i (missing [] s) (m, k (Ok (l, complete)))) else None
      | _ => None
      end
  | Unmarked i =>
      match w_passes w !! i with
      | Some (m, ReadDestination c t k) =>
          let there := filter (fun x => m_channel x = c /\ m_thread x = t) (sh_slack s) in
          Some (put_pass w i (missing (remove_dups (m_key <$> there)) s) (m, k (Ok (plain <$> there, true))))
      | _ => None
      end
  | Accept i ts =>
      match w_passes w !! i with
      | Some (m, PostMessage c x t key k) =>
          if timely m (sh_time s)
          then Some (put_pass w i (with_message {| m_channel := c; m_thread := t; m_user := bot_user; m_ts := ts;
                                                   m_key := key |} s) (m, k (Response [("ts", JStr ts)])))
          else None
      | _ => None
      end
  | Start t org ids limit =>
      if Z.ltb (sh_time s) t
      then Some {| w_shared := at_time t s;
                   w_passes := w_passes w ++
                     [(t, then_ (deliver_pending_obligation_notices org ids limit) (fun _ => Done (Ok tt)))] |}
      else None
  | Wait t => if Z.leb (sh_time s) t then Some {| w_shared := at_time t s; w_passes := w_passes w |} else None
  end.

Definition make_moves (l : list move) (w : world) : option world :=
  fold_left (fun o mv => match o with Some w => make_move mv w | None => None end) l (Some w).

Lemma make_move_sound mv w w' : make_move mv w = Some w' -> world_step w w'.
Proof.
  destruct mv; simpl.
  - destruct (w_passes w !! i) as [[m []]|] eqn:E; try done.
    + intros [= <-]. by eapply step_act, act_select.
    + destruct (sh_notices (w_shared w) !! id) as [n|] eqn:En; [|done]. case_match eqn:Ew; [|done].
      intros [= <-]. by eapply step_act, act_cas_hit.
    + intros [= <-]. by eapply step_act, act_reread.
  - destruct (w_passes w !! i) as [[m []]|] eqn:E; try done. case_match eqn:Et; [|done].
    intros [= <-]. eapply step_act, act_now; [done|]. by apply Z.ltb_lt.
  - destruct (w_passes w !! i) as [[m []]|] eqn:E; try done. case_match eqn:Et; [|done].
    intros [= <-]. eapply step_act, act_read; [done|..|constructor].
    + intros _ x. apply Nat.eqb_eq, nil_length_inv in Et. rewrite Et. by intros ?%not_elem_of_nil.
    + by intros key ?%not_elem_of_nil.
  - destruct (w_passes w !! i) as [[m []]|] eqn:E; try done. intros [= <-].
    eapply step_act, act_read; [done|..|apply NoDup_remove_dups].
    + intros _ x Hx Hc Ht. right. apply elem_of_remove_dups, list_elem_of_fmap. exists x. split; [done|].
      by apply list_elem_of_filter.
    + intros key Hkey. split; [done|].
      apply elem_of_remove_dups, list_elem_of_fmap in Hkey as (x & -> & [[Hc Ht] Hx]%list_elem_of_filter).
      exists x. split_and!; try done. intros (y & Hy & _)%list_elem_of_fmap. by destruct x, y.
  - destruct (w_passes w !! i) as [[m []]|] eqn:E; try done. case_match eqn:Et; [|done].
    intros [= <-]. by eapply step_act, act_post.
  - case_match eqn:Et; [|done]. intros [= <-]. apply step_start; [by apply Z.ltb_lt|constructor].
  - case_match eqn:Et; [|done]. intros [= <-]. apply step_time. by apply Z.leb_le.
Qed.

Lemma make_moves_sound l : forall w w', make_moves l w = Some w' -> rtc world_step w w'.
Proof.
  unfold make_moves. induction l as [|mv l IH]; intros w w'; simpl; [by intros [= ->]|].
  destruct (make_move mv w) as [w1|] eqn:E.
  - intros Hl. eapply rtc_l; [by apply (make_move_sound mv)|by apply IH].
  - intros Hl. exfalso. clear -Hl. induction l; simpl in Hl; [done|auto].
Qed.
End moves.

(** * Repeated posts *)

(** C28. A notice is posted again only when a read missed its post.  However many
    passes run side by side on any number of replicas, with transactions that raise
    before or after their effect, Slack calls in doubt, passes that stop anywhere, and
    the ledger changing meanwhile: as long as a post reaches Slack before the grace is
    over, counted from the moment the pass took when it began, which is the moment its
    claims are stamped with, a key is in Slack at most once, and once more for each
    complete read of a destination that held a message of the key and did not show it
    with its metadata.  Every message is the post of a notice, and a notice that has
    more posts than such reads has left the pending state and has a message in the
    channel and thread it names. *)
Theorem notice_posted_once `{SlackSide} (w w' : world) :
  (forall m t, timely m t = true -> (t < m + STALE_NOTICE_POSTING_GRACE)%Z) ->
  quiet_world w -> rtc world_step w w' ->
  let posts := m_key <$> sh_slack (w_shared w') in
  let missed := sh_missed (w_shared w') in
  (forall k, tally k posts <= 1 + tally k missed) /\
  (forall x, x ∈ sh_slack (w_shared w') ->
     exists i n, notices (sh_ledger (w_shared w')) !! i = Some n /\ idempotency_key n = m_key x) /\
  (forall i n, notices (sh_ledger (w_shared w')) !! i = Some n ->
     tally (idempotency_key n) missed < tally (idempotency_key n) posts ->
     state n <> "pending" /\ exists x, x ∈ sh_slack (w_shared w') /\ m_key x = idempotency_key n /\
       m_channel x = notice_channel_id n /\ m_thread x = or_none (clean_text (post_thread_ts n))).
Proof.
  intros Ht Hq Hr posts missed. destruct (gw_shared _ (reachable_good Ht w w' Hq Hr)) as [_ _ _ Ho Hs Hl].
  split; [done|]. split; [done|]. intros i n Hn Hlt. destruct (Hl i n Hn) as [Hst (x & Hx & Hk & Hc & Hth & _)].
  - unfold clear, keys. fold posts missed. lia.
  - split; [done|]. by exists x.
Qed.

(** A request with a notice, and a sweep that delivers it. *)
Definition noticed_context : open_ask_context :=
  {| cx_org_id := "org"; cx_channel_id := "C1"; cx_channel_type := None; cx_team_id := Some "T1";
     cx_thread_ts := "1.5"; cx_thread_permalink := "link"; cx_requester_slack_id := "U1";
     cx_requester_user_id := None; cx_requester_name := None; cx_bot_user_id := Some "B1";
     cx_ask_text := "when?"; cx_origin_ref := "slack:T1:C1:1.5"; cx_notice := Some (demo_policy, "1.5") |}.
Definition noticed_ledger : ledger := run_obligation (RecordAsk (Some noticed_context) 7 None) empty_ledger.
Definition first_world : world :=
  {| w_shared := {| sh_ledger := noticed_ledger; sh_slack := []; sh_time := 100; sh_missed := [] |}; w_passes := [] |}.

Definition within_grace : SlackSide :=
  {| bot_user := "B1"; timely m t := Z.ltb t (m + STALE_NOTICE_POSTING_GRACE) |}.
Definition any_time : SlackSide := {| bot_user := "B1"; timely _ _ := true |}.

Lemma first_world_quiet (S : SlackSide) : bot_user (SlackSide := S) = "B1" -> quiet_world (H := S) first_world.
Proof.
  intros Hb. split; try done.
  - exact (proj1 (obligation_step _ _ empty_ledger_wf)).
  - intros i n Hn. rewrite Hb. simpl in Hn.
    assert (Hall : Forall (fun p => or_none (clean_text (notice_bot_user_id p.2)) = Some "B1")
      (map_to_list (notices noticed_ledger))).
    { vm_compute. repeat constructor. }
    rewrite Forall_forall in Hall. right. apply (Hall (i, n)). by apply elem_of_map_to_list.
Qed.

(** Select, claim, check, check again, post, mark. *)
Definition one_delivery : list move :=
  [Start 101 None [] 10; Clock 0 102; Answer 0; Answer 0; Answer 0; Answer 0; Accept 0 "2.5"; Answer 0].

Definition slack_keys (o : option world) : option (list string) := (fun w => m_key <$> sh_slack (w_shared w)) <$> o.

(** The pass stops right after its post; a second one takes its claim over when the
    grace is past, and the read it makes first shows the messages without metadata, as
    Slack gives them to the requests of the client. *)
Definition stopped_delivery : list move :=
  [Start 101 None [] 10; Clock 0 102; Answer 0; Answer 0; Answer 0; Answer 0; Accept 0 "2.5"].
Definition taken_over : list move :=
  stopped_delivery ++
  [Start (104 + STALE_NOTICE_POSTING_GRACE) None [] 10; Clock 1 (105 + STALE_NOTICE_POSTING_GRACE);
   Answer 1; Answer 1; Answer 1; Unmarked 1; Answer 1; Accept 1 "2.6"; Answer 1].

Definition posted_and_missed (w : world) : list string * list string :=
  (m_key <$> sh_slack (w_shared w), sh_missed (w_shared w)).

Lemma moves_seen (l : list move) (posts missed : list string) :
  posted_and_missed <$> make_moves (H := within_grace) l first_world = Some (posts, missed) ->
  exists w', rtc (world_step (H := within_grace)) first_world w' /\
    (m_key <$> sh_slack (w_shared w')) = posts /\ sh_missed (w_shared w') = missed.
Proof.
  intros (w' & E & [= -> ->])%fmap_Some. exists w'. split; [|done]. by eapply make_moves_sound.
Qed.

Example delivered_once :
  posted_and_missed <$> make_moves (H := within_grace) one_delivery first_world = Some (["obligation-notice:1:approval"], []).
Proof. vm_compute. reflexivity. Qed.

Example delivered_again :
  posted_and_missed <$> make_moves (H := within_grace) taken_over first_world =
  Some (["obligation-notice:1:approval"; "obligation-notice:1:approval"], ["obligation-notice:1:approval"]).
Proof. vm_compute. reflexivity. Qed.

Lemma notice_posted_once_witness :
  exists w', rtc (world_step (H := within_grace)) first_world w' /\
    (m_key <$> sh_slack (w_shared w')) = ["obligation-notice:1:approval"] /\
    forall k, tally k (m_key <$> sh_slack (w_shared w')) <= 1.
Proof.
  destruct (moves_seen _ _ _ delivered_once) as (w' & Hr & Hk & Hm).
  exists w'. split; [exact Hr|]. split; [exact Hk|]. intros k.
  destruct (notice_posted_once (H := within_grace) first_world w') as [Ho _].
  - intros m t. apply Z.ltb_lt.
  - by apply first_world_quiet.
  - exact Hr.
  - specialize (Ho k). rewrite Hm in Ho. exact Ho.
Defined.

(** A read without metadata shows no post: the requests of the client do not ask for
    the metadata of messages, and Slack gives it only to those that do.  So when a pass
    stops between its post and the mark, the next one posts the notice again, although
    both post well within the grace. *)
Theorem unmarked_read_posts_twice :
  (forall l k bot, k <> "" -> _found_in_destination (plain <$> l) k bot = None) /\
  quiet_world (H := within_grace) first_world /\
  exists w', rtc (world_step (H := within_grace)) first_world w' /\
    (m_key <$> sh_slack (w_shared w')) = ["obligation-notice:1:approval"; "obligation-notice:1:approval"].
Proof.
  split; [|split; [by apply first_world_quiet|]].
  - intros l k bot Hk. induction l as [|x l IH]; [done|]. cbn [fmap list_fmap _found_in_destination].
    case_match; [done|]. by destruct k.
  - destruct (moves_seen _ _ _ delivered_again) as (w' & Hr & Hk & _). by exists w'.
Qed.

(** * A claim stamped with a moment long past *)

(** A sweep has selected the notice and reaches it only after the grace: everything
    from its claim on takes no time at all. *)
Definition slow_sweep : list move :=
  [Start 101 None [] 10; Clock 0 102; Answer 0; Wait (103 + STALE_NOTICE_POSTING_GRACE)].
Definition overtaken : list move :=
  [Answer 0; Answer 0; Answer 0;
   Start (104 + STALE_NOTICE_POSTING_GRACE) None [] 10; Clock 1 (105 + STALE_NOTICE_POSTING_GRACE);
   Answer 1; Answer 1; Answer 1; Messages 1 [] true; Answer 1; Accept 1 "2.5"; Answer 1;
   Accept 0 "2.6"].

(** The grace counts from the start of the pass, not from the claim: when a sweep
    reaches a notice later than the grace after it began, its fresh claim already
    counts as abandoned.  From a world in which no notice is claimed, a second sweep
    takes the claim over at once, and within two microseconds both post the notice. *)
Theorem late_claim_posts_twice :
  exists w0 w1 w2,
    quiet_world (H := any_time) w0 /\ rtc (world_step (H := any_time)) w0 w1 /\
    (forall i n, notices (sh_ledger (w_shared w1)) !! i = Some n -> state n = "pending") /\
    rtc (world_step (H := any_time)) w1 w2 /\
    (sh_time (w_shared w2) = sh_time (w_shared w1) + 2)%Z /\
    (m_key <$> sh_slack (w_shared w2)) = ["obligation-notice:1:approval"; "obligation-notice:1:approval"].
Proof.
  destruct (make_moves (H := any_time) slow_sweep first_world) as [w1|] eqn:E1; [|by vm_compute in E1].
  destruct (make_moves (H := any_time) overtaken w1) as [w2|] eqn:E2.
  2:{ assert (Hs : (fun _ => tt) <$> (make_moves (H := any_time) slow_sweep first_world ≫= make_moves (H := any_time) overtaken) = Some tt)
        by (vm_compute; reflexivity). rewrite E1 in Hs. cbn [mbind option_bind] in Hs. by rewrite E2 in Hs. }
  exists first_world, w1, w2. split; [by apply first_world_quiet|].
  split; [by eapply make_moves_sound|].
  assert (Hp : (fun w => (sh_time (w_shared w), state <$> (map_to_list (notices (sh_ledger (w_shared w)))).*2)) <$>
    make_moves (H := any_time) slow_sweep first_world = Some ((103 + STALE_NOTICE_POSTING_GRACE)%Z, ["pending"]))
    by (vm_compute; reflexivity).
  rewrite E1 in Hp. injection Hp as Ht Hst.
  assert (Hk : (fun w => (sh_time (w_shared w), m_key <$> sh_slack (w_shared w))) <$>
    (make_moves (H := any_time) slow_sweep first_world ≫= make_moves (H := any_time) overtaken) =
    Some ((105 + STALE_NOTICE_POSTING_GRACE)%Z, ["obligation-notice:1:approval"; "obligation-notice:1:approval"]))
    by (vm_compute; reflexivity).
  rewrite E1 in Hk. cbn [mbind option_bind] in Hk. rewrite E2 in Hk. injection Hk as Ht2 Hkeys.
  split; [|split; [by eapply make_moves_sound|split; [lia|done]]].
  intros i n Hn. assert (Hin : state n ∈ state <$> (map_to_list (notices (sh_ledger (w_shared w1)))).*2).
  { apply list_elem_of_fmap. exists n. split; [done|]. apply list_elem_of_fmap. exists (i, n).
    split; [done|]. by apply elem_of_map_to_list. }
  rewrite Hst in Hin. by apply list_elem_of_singleton in Hin.
Qed.

(** * A post follows a check that the ask is open *)

(** [checked last p]: along every course of [p], a post comes right after a reread of
    the notice that found its claim in force and its ask open, and says what the
    reread read. *)
Fixpoint checked {A} (last : option notice_item) (p : delivery A) : Prop :=
  match p with
  | Done _ => True
  | Now k => forall t, checked None (k t)
  | Select _ _ _ _ k => forall r, checked None (k r)
  | Cas _ _ _ _ k => forall r, checked None (k r)
  | Reread _ _ k => (forall it, checked (Some it) (k (Ok (Some it)))) /\ checked None (k (Ok None)) /\
      forall e, checked None (k (Err e))
  | ReadDestination _ _ k => forall r, checked None (k r)
  | PostMessage c x t key k =>
      (exists it, last = Some it /\ item_obligation_status it = "open" /\
         c = item_channel_id it /\ x = item_text it /\ t = item_post_thread_ts it /\ key = item_key it) /\
      forall r, checked None (k r)
  end.

(** [within n m p]: along every course [p] makes at most [n] requests and [m] posts. *)
Fixpoint within {A} (n m : nat) (p : delivery A) : Prop :=
  match p with
  | Done _ => True
  | Now k => exists n', n = S n' /\ forall r, within n' m (k r)
  | Select _ _ _ _ k => exists n', n = S n' /\ forall r, within n' m (k r)
  | Cas _ _ _ _ k => exists n', n = S n' /\ forall r, within n' m (k r)
  | Reread _ _ k => exists n', n = S n' /\ forall r, within n' m (k r)
  | ReadDestination _ _ k => exists n', n = S n' /\ forall r, within n' m (k r)
  | PostMessage _ _ _ _ k => exists n' m', n = S n' /\ m = S m' /\ forall r, within n' m' (k r)
  end.

Lemma checked_any {A} (p : delivery A) last : checked None p -> checked last p.
Proof. destruct p; try done. by intros [(it & ? & _) _]. Qed.

Lemma checked_then {A B} (p : delivery A) (f : result A -> delivery B) : forall last,
  checked last p -> (forall r, checked None (f r)) -> checked last (then_ p f).
Proof.
  induction p as [r|k IH|org ids mo lim k IH|id w v sk k IH|id st k IH|c t k IH|c x t key k IH]; intros last; simpl.
  - intros _ Hf. by apply checked_any.
  - intros Hk Hf r. by apply IH.
  - intros Hk Hf r. by apply IH.
  - intros Hk Hf r. by apply IH.
  - intros (H1 & H2 & H3) Hf. split; [intros it; by apply IH|]. split; [by apply IH|]. intros e. by apply IH.
  - intros Hk Hf r. by apply IH.
  - intros [Hl Hk] Hf. split; [done|]. intros r. by apply IH.
Qed.

Lemma final_checked id now sm : checked None (final_check_and_post id now sm).
Proof.
  unfold final_check_and_post. cbn [checked await]. split; [|by split]. intros it.
  destruct (is_open it) eqn:E; cbn [negb]; [|simpl; by intros [b|e]].
  cbn [checked]. split.
  - exists it. unfold is_open in E. by rewrite String.eqb_eq in E.
  - intros [r|msg|msg|msg]; cbn [after_post]; [case_match; [done|]|..]; simpl; by intros [b|e].
Qed.

Lemma deliver_one_checked it now sm : checked None (_deliver_one it now sm).
Proof.
  unfold _deliver_one. cbn [checked await]. intros [[]|e]; [|done..]. cbn [negb checked].
  split; [|by split]. intros it'. destruct (String.eqb (item_state it) "posting"); cbn [negb andb].
  - cbn [checked]. intros r. unfold resolve_interrupted. case_match; [done|simpl; by intros [b|e]|].
    case_match; [simpl; by intros [b|e]|apply final_checked].
  - case_match; [simpl; by intros [b|e]|apply checked_any, final_checked].
Qed.

Lemma deliver_each_checked items now : forall sm, checked None (deliver_each items now sm).
Proof.
  induction items as [|it items IH]; intros sm; [done|]. cbn [deliver_each].
  apply checked_then; [apply deliver_one_checked|]. intros [sm'|e]; apply IH.
Qed.

Lemma sweep_checked org ids limit : checked None (deliver_pending_obligation_notices org ids limit).
Proof. simpl. intros t [items|e]; [apply deliver_each_checked|done]. Qed.

(** Along every course of a delivery task a post comes right after a reread that
    found the claim still in force and the ask open, and it carries the channel,
    thread, text and key that reread gave; and a reread gives what the ledger holds
    at that moment, so an ask that was settled before is not announced. *)
Theorem posts_follow_open_check (p : delivery unit) :
  starts p ->
  checked None p /\
  (forall s id stamp it, _verified_reread s id stamp = Some it ->
     exists n a, notices s !! id = Some n /\ state n = "posting" /\ claimed_at n = Some stamp /\
       asks s !! obligation_id n = Some a /\ it = _snapshot n (ask_status (life a))).
Proof.
  intros Hp. split.
  - destruct Hp as [org ids limit|org ids]; [apply checked_then; [apply sweep_checked|done]|].
    unfold _deliver_when_visible. generalize _VISIBILITY_POLL_ATTEMPTS as n. induction n as [|n IH]; [done|].
    cbn [deliver_when_visible]. apply checked_then; [apply sweep_checked|]. intros [sm|e]; [|done]. by case_match.
  - intros s id stamp it. unfold _verified_reread. destruct (notices s !! id) as [n|]; [|done].
    destruct (asks s !! obligation_id n) as [a|] eqn:Ea; [|done]. case_match eqn:E1; [done|]. case_match eqn:E2; [done|].
    bool_simpl. intros [= <-]. by exists n, a.
Qed.

Lemma posts_follow_open_check_witness : checked None (_deliver_when_visible "org" [1%Z]).
Proof. apply posts_follow_open_check. constructor. Defined.

(** * A pass is bounded *)

Lemma within_mono {A} (p : delivery A) : forall n m n2 m2,
  within n m p -> (n <= n2)%nat -> (m <= m2)%nat -> within n2 m2 p.
Proof.
  induction p as [r|k IH|org ids mo lim k IH|id w v sk k IH|id st k IH|c t k IH|c x t key k IH];
    intros n m n2 m2; simpl; try done.
  all: try (intros (n' & -> & Hk) Hn Hm; destruct n2 as [|n2]; [lia|]; exists n2; split; [done|];
    intros r; eapply IH; [apply Hk|lia|done]).
  intros (n' & m' & -> & -> & Hk) Hn Hm. destruct n2 as [|n2]; [lia|]. destruct m2 as [|m2]; [lia|].
  exists n2, m2. split; [done|]. split; [done|]. intros r. eapply IH; [apply Hk|lia|lia].
Qed.

Lemma within_then {A B} (p : delivery A) (f : result A -> delivery B) n' m' : forall n m,
  within n m p -> (forall r, within n' m' (f r)) -> within (n + n') (m + m') (then_ p f).
Proof.
  induction p as [r|k IH|org ids mo lim k IH|id w v sk k IH|id st k IH|c t k IH|c x t key k IH]; intros n m; simpl.
  1: intros _ Hf; eapply within_mono; [apply Hf|lia|lia].
  all: try (intros (n0 & -> & Hk) Hf; exists (n0 + n'); split; [done|]; intros r; by apply IH).
  intros (n0 & m0 & -> & -> & Hk) Hf. exists (n0 + n'), (m0 + m'). split; [done|]. split; [done|].
  intros r. by apply IH.
Qed.

Lemma superseded_within id now sm m : within 1 m (finish_superseded id now sm).
Proof. simpl. exists 0. split; [done|]. by intros [b|e]. Qed.

Lemma final_within id now sm : within 3 1 (final_check_and_post id now sm).
Proof.
  unfold final_check_and_post. cbn [within await]. exists 2. split; [done|]. intros [[it|]|e]; [|done..].
  case_match; [eapply within_mono; [apply superseded_within|lia|done]|].
  cbn [within]. exists 1, 0. do 2 (split; [done|]).
  intros [r|msg|msg|msg]; cbn [after_post]; [case_match; [done|]|..]; simpl; exists 0; (split; [done|]); by intros [b|e].
Qed.

Lemma deliver_one_within it now sm : within 6 1 (_deliver_one it now sm).
Proof.
  unfold _deliver_one. cbn [within await]. exists 5. split; [done|]. intros [[]|e]; [|done..]. cbn [negb within].
  exists 4. split; [done|]. intros [[it'|]|e]; [|done..].
  destruct (String.eqb (item_state it) "posting"); cbn [negb andb].
  - cbn [within]. exists 3. split; [done|]. intros r. unfold resolve_interrupted. case_match; [done| |].
    + simpl. exists 2. split; [done|]. by intros [b|e].
    + case_match; [eapply within_mono; [apply superseded_within|lia|done]|apply final_within].
  - case_match; [eapply within_mono; [apply superseded_within|lia|done]|].
    eapply within_mono; [apply final_within|lia|done].
Qed.

(** A pass ends: whatever the database and Slack answer or raise, it makes at most
    six requests for each notice it selected and posts each at most once, and it
    selects at most its limit (one, for a limit below one). *)
Theorem pass_bounded (items : list notice_item) (now : instant) (sm : delivery_summary) :
  within (6 * length items) (length items) (deliver_each items now sm) /\
  forall s org ids limit, (length (due_notices s org ids now limit) <= Z.to_nat (Z.max 1 limit))%nat.
Proof.
  split.
  - revert sm. induction items as [|it items IH]; intros sm; [done|]. cbn [deliver_each length].
    replace (6 * S (length items))%nat with (6 + 6 * length items)%nat by lia.
    apply (within_then _ _ _ (length items) 6 1); [apply deliver_one_within|]. intros [sm'|e]; apply IH.
  - intros s org ids limit. unfold due_notices. rewrite length_take. lia.
Qed.
