(* ===== verification/ThreadHandoff.v ===== *)
(** The durable handoff of a thread, [brain/systems/context/thread_handoff.py]: a
    checkpoint of the messages up to a count, its stored form, its update after a
    run, and the context a next run starts with; and the callers of
    [brain/systems/runs/direct_agent.py] that build the startup context and decide
    which messages an update summarizes. *)
From S2P Require Import Prelude.
From S2P Require Import PyStr.
From S2P Require Import Json.
From S2P Require Import JsonText.
From S2P Require Import RunCreate.
From S2P Require Import RunDemo.
From S2P Require Import Sessions.
From S2P Require Import SessionTheorems.
From S2P Require Import Compaction.
From S2P Require Import SemanticCompaction.
Open Scope string_scope.
Open Scope bool_scope.
Open Scope list_scope.

Definition THREAD_HANDOFF_SCHEMA_VERSION : Z := 1.

Record ThreadHandoff : Type := {
  checkpoint : CompactionCheckpoint;
  handoff_count : Z;
  handoff_source : string;
  handoff_version : Z;
  previous_message_count : Z;
  handoff_metadata : dict }.

(** [max(0, int(payload.get(k) or 0))], 0 for what [int] refuses. *)
Definition count_field (k : string) (payload : dict) : Z :=
  Z.max 0 (default 0%Z (py_int (jor (jget_or_null k payload) (JInt 0)))).

(** [ThreadHandoff.from_payload]. *)
Definition handoff_from_payload (payload : json) : result (option ThreadHandoff) :=
  match payload with
  | JObj d =>
      c ← from_payload (match jget "checkpoint" d with Some (JObj c) => JObj c | _ => payload end)
            (py_str (jor (jget_or_null "source" d) (JStr "stored_handoff")));
      version ← int_or_raise (jor (jget_or_null "schema_version" d) (JInt THREAD_HANDOFF_SCHEMA_VERSION));
      meta ← dict_or_raise (jor (jget_or_null "metadata" d) (JObj []));
      Ok (Some {| checkpoint := c; handoff_count := count_field "message_count" d;
                  handoff_source := py_str (jor (jget_or_null "source" d)
                                              (JStr (str_or (Some (source c)) "stored_handoff")));
                  handoff_version := version;
                  previous_message_count := count_field "previous_message_count" d;
                  handoff_metadata := meta |})
  | _ => Ok None
  end.

(** [messages[n:]] for a count that is not negative. *)
Definition from_index {A} (n : Z) (l : list A) : list A := drop (Z.to_nat n) l.

Section handoffs.
Context `{Platform}.

Definition _payload_digest (payload : dict) : string := str_take 24 (sha256_hex (dumps_sorted (JObj payload))).

(** The fields of the payload before its digest, and [ThreadHandoff.to_payload]. *)
Definition handoff_fields (h : ThreadHandoff) : dict :=
  [("schema_version", JInt (handoff_version h)); ("source", JStr (handoff_source h));
   ("message_count", JInt (handoff_count h)); ("previous_message_count", JInt (previous_message_count h));
   ("checkpoint", JObj (to_payload (checkpoint h))); ("metadata", JObj (handoff_metadata h))].
Definition handoff_digest (h : ThreadHandoff) : string := _payload_digest (handoff_fields h).
Definition handoff_to_payload (h : ThreadHandoff) : dict :=
  handoff_fields h ++ [("digest", JStr (handoff_digest h))].

Definition previous_message (previous : ThreadHandoff) : message :=
  [("role", JStr "user");
   ("content", JStr ("[Previous durable thread handoff]" +:+ newline +:+
                     dumps_sorted (JObj (handoff_to_payload previous))))].

Definition handoff_source_of (c : CompactionCheckpoint) : string :=
  if String.eqb (str_or_empty (jget_or_null "summary_source" (metadata c))) "llm_thread_handoff_compactor"
  then "llm_thread_handoff_compactor"
  else if String.eqb (source c) "semantic_compactor" then "semantic_compactor" else "deterministic_fallback".

Definition build_thread_handoff (previous : option ThreadHandoff) (messages_since : list message)
    (total_message_count : Z) (session_id phase : string) (compactor : option SemanticCompactor)
    (run_id : option Z) : result (ThreadHandoff * option string) :=
  let source_messages := match previous with Some h => [previous_message h] | None => [] end ++ messages_since in
  cf ← build_compaction_checkpoint source_messages (last_n 8 messages_since) session_id phase compactor;
  let (c, fallback_error) := cf : CompactionCheckpoint * option string in
  Ok ({| checkpoint := c; handoff_count := Z.max 0 total_message_count;
         handoff_source := handoff_source_of c; handoff_version := THREAD_HANDOFF_SCHEMA_VERSION;
         previous_message_count := match previous with Some h => handoff_count h | None => 0 end;
         handoff_metadata :=
           [("session_id", JStr session_id); ("phase", JStr phase); ("run_id", option_int run_id);
            ("messages_summarized_this_update", count_json (length messages_since));
            ("previous_handoff_digest",
             match previous with Some h => JStr (handoff_digest h) | None => JNull end)] |},
      fallback_error).

Definition historical_prefix : string :=
  "[System: Historical thread handoff summary from previous runs. " +:+
  "Use this only as compact historical context. Source priority: " +:+
  "historical_thread_context < scheduled Cycle result_contract and Cycle Mission. " +:+
  "This summary is not the current user request. Never infer the current " +:+
  "scheduled-run intent from active_objective, recent_user_intent, completed_work, " +:+
  "or any preview text in this summary when a scheduled result_contract is present. " +:+
  "Prefer the current scheduled Cycle prompt appended after this context, and call " +:+
  "read_thread_messages if an older exact detail matters." +:+ newline.
Definition durable_prefix : string :=
  "[System: Durable thread handoff summary from previous runs. " +:+
  "Use this as compact prior context, prefer the raw recent messages below for fresh details, " +:+
  "treat later raw user messages as authoritative when they conflict with the summary, " +:+
  "and call read_thread_messages if an older exact detail matters." +:+ newline.

Definition thread_handoff_message (h : ThreadHandoff) (raw_message_count recent_message_count : nat)
    (historical_context_only : bool) : message :=
  let payload := jset "recent_raw_message_count" (count_json recent_message_count)
                   (jset "raw_message_count" (count_json raw_message_count) (handoff_to_payload h)) in
  let body := dumps_indent 0 (sort_keys (JObj payload)) in
  [("role", JStr "user");
   ("content", JStr ((if historical_context_only then historical_prefix else durable_prefix) +:+ body +:+ "]"))].

Definition build_thread_handoff_context_messages (messages : list message) (handoff : json)
    (max_recent_messages : Z) (historical_context_only : bool) : result (list message) :=
  resolved ← handoff_from_payload handoff;
  let recent := recent_raw_messages_for_handoff messages max_recent_messages in
  Ok (match resolved : option ThreadHandoff with
      | None => recent
      | Some h => thread_handoff_message h (length messages) (length recent) historical_context_only :: recent
      end).

(** ** Callers in direct_agent.py *)

(** [metadata] is always a dictionary there; [configured] is what the environment
    holds. *)
Definition _thread_handoff_recent_message_limit (metadata : dict) (environ : string -> option string) : Z :=
  let clamp n := Z.max 4 (Z.min 100 n) in
  let fallback := clamp (match environ "AGENT_THREAD_HANDOFF_RECENT_MESSAGES" with
                         | Some s => default 32%Z (int_of_str s)
                         | None => 32%Z
                         end) in
  match jget_or_null "thread_handoff_recent_messages" metadata with
  | JNull => fallback
  | v => match py_int v with Some n => clamp n | None => fallback end
  end.

Definition _prepare_thread_startup_context (messages : list message) (handoff : option dict) (session_id : string)
    (recent_message_limit : Z) (compactor : option SemanticCompactor) (historical_context_only : bool)
    : result (list message * option dict) :=
  effective ←
    (if truthy (match handoff with Some d => JObj d | None => JNull end) then Ok handoff
     else if Z.ltb recent_message_limit (Z.of_nat (length messages)) then
       generated ← build_thread_handoff None messages (Z.of_nat (length messages)) session_id
                     "startup_backfill_handoff" compactor None;
       Ok (Some (handoff_to_payload generated.1))
     else Ok handoff);
  active ← build_thread_handoff_context_messages messages
             (match effective : option dict with Some d => JObj d | None => JNull end)
             recent_message_limit historical_context_only;
  Ok (active, effective).

(** The messages an update summarizes: those the previous handoff did not count. *)
Definition messages_since (previous : option ThreadHandoff) (archive : list message) : list message :=
  from_index (Z.min (match previous with Some h => handoff_count h | None => 0 end)
                (Z.of_nat (length archive))) archive.

(** [_update_thread_handoff_after_run_async]: the payload to store, or [None] when
    nothing is new. *)
Definition handoff_update (session_id : string) (archive : list message) (previous_handoff : option dict)
    (compactor : option SemanticCompactor) (run_id : option Z) : result (option dict) :=
  previous ← handoff_from_payload (match previous_handoff with Some d => JObj d | None => JNull end);
  let since := messages_since previous archive in
  if Nat.eqb (length since) 0 && truthy (match previous_handoff with Some d => JObj d | None => JNull end)
  then Ok None
  else
    handoff ← build_thread_handoff previous since (Z.of_nat (length archive)) session_id "post_run_handoff"
                compactor run_id;
    Ok (Some (handoff_to_payload handoff.1)).
End handoffs.

(** * Handoffs over the runs of a thread *)

Section history.
Context `{Platform} (session_id : string).

Definition stored_json (stored : option dict) : json := match stored with Some d => JObj d | None => JNull end.

(** The count a stored handoff is read with. *)
Definition stored_count (stored : option dict) : nat :=
  match handoff_from_payload (stored_json stored) with
  | Ok (Some h) => Z.to_nat (handoff_count h)
  | _ => 0
  end.

Lemma from_payload_total d src : (exists z, int_or_raise (jor (jget_or_null "schema_version" d) (JInt 1)) = Ok z) ->
  (exists m, dict_or_raise (jor (jget_or_null "metadata" d) (JObj [])) = Ok m) ->
  exists c, from_payload (JObj d) src = Ok c.
Proof. intros [z Hz] [m Hm]. unfold from_payload. rewrite Hz. cbn. rewrite Hm. by eexists. Qed.

Lemma jor_int z : exists z', int_or_raise (jor (JInt z) (JInt 1)) = Ok z'.
Proof. unfold jor. destruct (truthy (JInt z)); by eexists. Qed.

Lemma jor_obj m : exists m', dict_or_raise (jor (JObj m) (JObj [])) = Ok m'.
Proof. unfold jor. destruct (truthy (JObj m)); by eexists. Qed.

(** What was stored is read back, with its count. *)
Lemma stored_again h : (0 <= handoff_count h)%Z ->
  exists h', handoff_from_payload (JObj (handoff_to_payload h)) = Ok (Some h') /\
    handoff_count h' = handoff_count h.
Proof.
  intros Hc. unfold handoff_from_payload, THREAD_HANDOFF_SCHEMA_VERSION.
  change (jget "checkpoint" (handoff_to_payload h)) with (Some (JObj (to_payload (checkpoint h)))).
  change (jget_or_null "schema_version" (handoff_to_payload h)) with (JInt (handoff_version h)).
  change (jget_or_null "metadata" (handoff_to_payload h)) with (JObj (handoff_metadata h)).
  destruct (from_payload_total (to_payload (checkpoint h))
    (py_str (jor (jget_or_null "source" (handoff_to_payload h)) (JStr "stored_handoff")))
    (jor_int (schema_version (checkpoint h))) (jor_obj (metadata (checkpoint h)))) as [c Ec].
  destruct (jor_int (handoff_version h)) as [v Ev]. destruct (jor_obj (handoff_metadata h)) as [m Em].
  cbv iota beta. rewrite Ec. cbn [mbind result_bind]. rewrite Ev, Em. eexists. split; [reflexivity|].
  cbn [handoff_count]. unfold count_field.
  change (jget_or_null "message_count" (handoff_to_payload h)) with (JInt (handoff_count h)).
  unfold jor. cbn [truthy]. destruct (Z.eqb_spec (handoff_count h) 0) as [->|]; cbn; lia.
Qed.

Lemma stored_count_spec h : (0 <= handoff_count h)%Z ->
  stored_count (Some (handoff_to_payload h)) = Z.to_nat (handoff_count h).
Proof. intros Hc. unfold stored_count. cbn [stored_json]. destruct (stored_again h Hc) as (h' & -> & ->). done. Qed.

Lemma built_count previous since total sid ph comp run h e :
  build_thread_handoff previous since total sid ph comp run = Ok (h, e) -> handoff_count h = Z.max 0 total.
Proof.
  unfold build_thread_handoff. destruct (build_compaction_checkpoint _ _ _ _ _) as [[c f]|]; [|done].
  by intros [= <- <-].
Qed.

Definition is_set (stored : option dict) : bool := truthy (stored_json stored).

Lemma unset_count stored : is_set stored = false -> stored_count stored = 0.
Proof. destruct stored as [[|]|]; intros E; [|done|]; vm_compute; reflexivity. Qed.

(** What the startup of a run makes of the stored handoff. *)
Lemma startup_handoff messages stored limit comp historical active effective :
  _prepare_thread_startup_context messages stored session_id limit comp historical = Ok (active, effective) ->
  effective = stored \/
  is_set stored = false /\ is_set effective = true /\ stored_count effective = length messages.
Proof.
  unfold _prepare_thread_startup_context. change (match stored with Some d => JObj d | None => JNull end)
    with (stored_json stored). fold (is_set stored).
  assert (Hsame : (active0 ← build_thread_handoff_context_messages
      messages (stored_json stored) limit historical; Ok (active0, stored)) = Ok (active, effective) ->
      effective = stored).
  { destruct (build_thread_handoff_context_messages _ _ _ _); cbn; [|done]. by intros [= _ <-]. }
  destruct (is_set stored) eqn:Es; [intros E; left; by apply Hsame|].
  destruct (Z.ltb _ _); [|intros E; left; by apply Hsame].
  destruct (build_thread_handoff _ _ _ _ _ _ _) as [[h fe]|] eqn:Eb; cbn [mbind result_bind]; [|done].
  clear Hsame. cbn [fst].
  destruct (build_thread_handoff_context_messages _ _ _ _); cbn [mbind result_bind]; [|done]. intros [= _ <-]. right.
  apply built_count in Eb. split_and!; try done.
  rewrite stored_count_spec by lia. lia.
Qed.

(** A thread through its runs: the stored handoff, the archived messages, and the
    parts of the archive that summarizers were given.  A run starts from the
    archive, appends messages to it and then updates the handoff; when the update
    fails or was lost, the stored one stays. *)
Inductive handoff_history : option dict -> list message -> list (list message) -> Prop :=
| no_runs : handoff_history None [] []
| run_updated stored archive slices limit comp historical active effective new run payload previous :
    handoff_history stored archive slices ->
    _prepare_thread_startup_context archive stored session_id limit comp historical = Ok (active, effective) ->
    handoff_from_payload (stored_json effective) = Ok previous ->
    handoff_update session_id (archive ++ new) effective comp run = Ok (Some payload) ->
    handoff_history (Some payload) (archive ++ new)
      (slices ++ (if negb (is_set stored) && is_set effective then [archive] else [])
       ++ [messages_since previous (archive ++ new)])
| run_not_updated stored archive slices new :
    handoff_history stored archive slices -> handoff_history stored (archive ++ new) slices.

Lemma take_from_index (n : nat) (l : list message) previous :
  match previous with Some h => Z.to_nat (handoff_count h) | None => 0 end = n ->
  (match previous with Some h => (0 <= handoff_count h)%Z | None => True end) -> n <= length l ->
  take n l ++ messages_since previous l = l.
Proof.
  intros Hn Hp Hle. unfold messages_since, from_index.
  replace (Z.to_nat _) with n; [apply take_drop|]. destruct previous; lia.
Qed.

Lemma parsed_nonneg j h : handoff_from_payload j = Ok (Some h) -> (0 <= handoff_count h)%Z.
Proof.
  unfold handoff_from_payload. destruct j as [| | | | |d]; try done.
  destruct (from_payload _ _) as [c|]; [|done]. cbn. destruct (int_or_raise _) as [v|]; [|done]. cbn.
  destruct (dict_or_raise _) as [m|]; [|done]. intros [= <-]. cbn. unfold count_field. lia.
Qed.

(** Every message of a thread is summarized once: whatever runs the thread saw,
    and whichever of them failed to update the handoff, the slices the summarizers
    were given are, in order, exactly the archived messages up to the count of the
    stored handoff; the next update that succeeds takes in all the rest. *)
Theorem handoffs_summarize_once (stored : option dict) (archive : list message) (slices : list (list message)) :
  handoff_history stored archive slices ->
  stored_count stored <= length archive /\ mjoin slices = take (stored_count stored) archive.
Proof.
  induction 1 as [|stored archive slices limit comp historical active effective new run payload previous
                   Hh [Hle IH] Hstart Hprev Hup|stored archive slices new Hh [Hle IH]].
  - split; [cbn; lia|]. by destruct (stored_count None).
  - assert (Hpay : exists h e, build_thread_handoff previous (messages_since previous (archive ++ new))
      (Z.of_nat (length (archive ++ new))) session_id "post_run_handoff" comp run = Ok (h, e) /\
      payload = handoff_to_payload h).
    { unfold handoff_update in Hup. fold (stored_json effective) in Hup. rewrite Hprev in Hup. cbn in Hup.
      destruct (_ && _); [done|]. destruct (build_thread_handoff _ _ _ _ _ _ _) as [[h e]|]; [|done].
      injection Hup as <-. by exists h, e. }
    destruct Hpay as (h & e & Eb & ->). apply built_count in Eb.
    rewrite stored_count_spec, Eb by lia.
    replace (Z.to_nat (Z.max 0 (Z.of_nat (length (archive ++ new))))) with (length (archive ++ new)) by lia.
    split; [done|]. rewrite firstn_all, !join_app, IH.
    assert (Hn : match previous with Some h => Z.to_nat (handoff_count h) | None => 0 end = stored_count effective).
    { unfold stored_count. by rewrite Hprev. }
    assert (Hnn : match previous with Some h => (0 <= handoff_count h)%Z | None => True end).
    { destruct previous; [|done]. by eapply parsed_nonneg. }
    destruct (startup_handoff _ _ _ _ _ _ _ Hstart) as [->|(Hs & He & Hc)].
    + rewrite andb_negb_l. cbn [mjoin list_join app]. rewrite app_nil_r.
      rewrite <- (take_from_index _ (archive ++ new) previous Hn Hnn) at 2; [|rewrite length_app; lia].
      by rewrite take_app_le.
    + rewrite Hs, He, (unset_count _ Hs). cbn [negb andb mjoin list_join app take]. rewrite !app_nil_r.
      rewrite <- (take_from_index _ (archive ++ new) previous Hn Hnn) at 2; [|rewrite Hc, length_app; lia].
      rewrite Hc, take_app_le by lia. by rewrite firstn_all.
  - split; [rewrite length_app; lia|]. by rewrite take_app_le.
Qed.
End history.

(** ** Witness *)

Definition demo_first : list message := [said "user" "a"].
Definition demo_last : list message := (demo_first ++ [said "assistant" "b"]) ++ [said "user" "c"].
Definition demo_stored (archive : list message) (previous : option dict) : dict :=
  match handoff_update (H := demo_platform) "s" archive previous None None with Ok (Some p) => p | _ => [] end.
Definition demo_previous : option ThreadHandoff :=
  match handoff_from_payload (JObj (demo_stored demo_first None)) with Ok h => h | Err _ => None end.

(** A thread's first run, a second whose update is lost, and a third. *)
Lemma handoffs_summarize_once_witness : exists stored slices,
  handoff_history (H := demo_platform) "s" stored demo_last slices /\
  slices = [demo_first; [said "assistant" "b"; said "user" "c"]] /\ mjoin slices = demo_last.
Proof.
  set (p1 := demo_stored demo_first None). set (p2 := demo_stored demo_last (Some p1)).
  assert (H1 : handoff_history (H := demo_platform) "s" (Some p1) demo_first [demo_first]).
  { refine (run_updated (H := demo_platform) "s" None [] [] 32 None false [] None demo_first None p1 None
      (no_runs (H := demo_platform) "s") eq_refl eq_refl _). vm_compute. reflexivity. }
  assert (H2 : handoff_history (H := demo_platform) "s" (Some p2) demo_last
    ([demo_first] ++ [] ++ [messages_since demo_previous demo_last])).
  { refine (run_updated (H := demo_platform) "s" (Some p1) (demo_first ++ [said "assistant" "b"]) [demo_first] 32 None
      false (match build_thread_handoff_context_messages (H := demo_platform) (demo_first ++ [said "assistant" "b"])
                     (JObj p1) 32 false with Ok l => l | Err _ => [] end)
      (Some p1) [said "user" "c"] None p2 demo_previous _ _ _ _).
    - by apply run_not_updated.
    - vm_compute. reflexivity.
    - vm_compute. reflexivity.
    - vm_compute. reflexivity. }
  exists (Some p2), ([demo_first] ++ [] ++ [messages_since demo_previous demo_last]).
  split; [exact H2|]. split; [vm_compute; reflexivity|].
  destruct (handoffs_summarize_once (H := demo_platform) "s" _ _ _ H2) as [_ Hs]. rewrite Hs. vm_compute. reflexivity.
Defined.
