(* ===== verification/ProviderErrors.v ===== *)
(** What an exception of a model provider says: [provider_error_sentinel.py] of
    brain/platform/integrations, [model_fallback.py] of brain/platform/providers
    and [context_recovery.py] of brain/systems/runs/direct_loop.

    Regular expressions are written out as searches over characters; texts are
    byte strings, a word character is an ASCII letter, digit or underscore. *)
From S2P Require Import Prelude.
From S2P Require Import PyStr.
From S2P Require Import Json.
From S2P Require Import Status.
From S2P Require Import RunMessages.
From S2P Require Import Models.
From S2P Require Import SemanticCompaction.
From Stdlib Require Import Ascii.
Open Scope string_scope.
Open Scope bool_scope.
Open Scope list_scope.

(** * Provider errors in a text *)

Definition _PROVIDER_ERROR_KINDS : list string := ["server_error"; "overloaded_error"; "rate_limit_error"].
Definition _RETRYABLE_PROVIDER_ERROR_KINDS : list string := _PROVIDER_ERROR_KINDS.
Definition _PROVIDER_ERROR_ALIASES : list (string * string) :=
  [("server_is_overloaded", "overloaded_error"); ("service_unavailable_error", "server_error")].

(** A word boundary before a text that starts with a word character, given the
    reversed text before it; and one after such a text. *)
Definition boundary_before (before : string) : bool :=
  match before with String a _ => negb (is_word a) | "" => true end.
Definition boundary_after (after : string) : bool :=
  match after with String a _ => negb (is_word a) | "" => true end.

(** [re.search]: [p] holds of the reversed text before some position and of the
    text after it. *)
Fixpoint search_at (p : string -> string -> bool) (before s : string) : bool :=
  p before s || match s with "" => false | String a s' => search_at p (String a before) s' end.
Definition search (p : string -> string -> bool) (s : string) : bool := search_at p "" s.

(** [\bword\b]. *)
Definition word_at (word before after : string) : bool :=
  boundary_before before && startswith word after && boundary_after (str_drop (String.length word) after).
Definition has_word (word s : string) : bool := search (word_at word) s.

Fixpoint str_rev_acc (acc s : string) : string :=
  match s with "" => acc | String a s' => str_rev_acc (String a acc) s' end.
Definition str_rev (s : string) : string := str_rev_acc "" s.

(** The reversed text before a status code ends with [word], as a word. *)
Definition ends_word (word before : string) : option string :=
  if startswith (str_rev word) before then Some (str_drop (String.length word) before) else None.
Definition skip_spaces (before : string) : option string :=
  let rest := lstrip before in
  if Nat.ltb (String.length rest) (String.length before) then Some rest else None.

(** [http], [http status], [status] or [status code] right before the code. *)
Definition status_prefix (before : string) : bool :=
  let word w := match ends_word w before with Some b => boundary_before b | None => false end in
  word "http" || word "status" ||
  match (b ← ends_word "code" before; b' ← skip_spaces b; ends_word "status" b') with
  | Some b => boundary_before b
  | None => false
  end.

Definition status_codes : list string := ["500"; "502"; "503"; "504"; "529"].
Definition status_at (before after : string) : bool :=
  (boundary_before before || status_prefix before) &&
  existsb (fun code => startswith code after && boundary_after (str_drop 3 after)) status_codes.
Definition _TRANSIENT_PROVIDER_STATUS_RE (s : string) : bool := search status_at s.

Definition _PROVIDER_ERROR_CONTEXT_RE (s : string) : bool :=
  existsb (fun w => has_word w s)
    ["api"; "error"; "failed"; "http"; "provider"; "server"; "service"; "unavailable"; "upstream"].

Definition _classify_normalized_provider_error (normalized : string) : option string :=
  match List.find (fun ak => has_word ak.1 normalized) _PROVIDER_ERROR_ALIASES with
  | Some (_, kind) => Some kind
  | None =>
      match List.find (fun kind => has_word kind normalized) _PROVIDER_ERROR_KINDS with
      | Some kind => Some kind
      | None =>
          if _TRANSIENT_PROVIDER_STATUS_RE normalized && _PROVIDER_ERROR_CONTEXT_RE normalized
          then Some "server_error" else None
      end
  end.

(** [provider_error_kind] without an exception. *)
Definition sentinel_error_kind (candidate : string) : option string :=
  let text := strip candidate in
  let normalized := lower text in
  if startswith "cycle run degraded: mission_contract_failed." normalized
     && negb (str_contains "help.openai.com" normalized) then None
  else if startswith PROVIDER_ERROR_SENTINEL_PREFIX normalized then
    let kind := strip (removeprefix PROVIDER_ERROR_SENTINEL_PREFIX normalized) in
    Some (if str_in kind _PROVIDER_ERROR_KIND_VALUES then kind else "provider_error")
  else match _classify_normalized_provider_error normalized with
  | Some kind => Some kind
  | None => if str_contains "help.openai.com" normalized then Some "provider_error" else None
  end.

#[export] Instance sentinel_taxonomy : ProviderErrorTaxonomy := {| provider_error_kind := sentinel_error_kind |}.

(** [is_retryable_provider_error(kind)]; [str(None or "")] is empty. *)
Definition is_retryable_provider_error (candidate : option string) : bool :=
  match sentinel_error_kind (default "" candidate) with
  | Some kind => str_in kind _RETRYABLE_PROVIDER_ERROR_KINDS
  | None => false
  end.

(** * The exception of a model that is not available *)

Definition _UNAVAILABLE_TERMS : list string :=
  ["model_not_found"; "model is not available"; "model is unavailable"; "model does not exist";
   "model is not supported"; "not supported when using codex"; "limited preview";
   "not available on this account"; "do not have access to the model"].
Definition _CONNECTION_ERROR_CLASS_NAMES : list string := ["APIConnectionError"; "ConnectError"].
Definition _CONNECTION_ERROR_TERMS : list string := ["connection refused"; "connection error"; "timed out"].

Definition attr (name : string) (attrs : list error_attr) : option error_attr :=
  List.find (fun a => String.eqb (attr_name a) name) attrs.

(** The exceptions of the model as the helpers see them: class, text, and the rest
    for those of an SDK. *)
Definition exn_str (e : exn) : string :=
  match e with
  | ValueError m | TypeError m | LookupError m | AttributeError m | RuntimeError m | TimeoutError m
  | DetachedAgentRunHandoffError m | ContinuationAdmissionError m _ => m
  | ApiError x => error_message x
  | _ => ""
  end.

Definition exn_class (e : exn) : string :=
  match e with
  | ValueError _ => "ValueError"
  | TypeError _ => "TypeError"
  | LookupError _ => "LookupError"
  | AttributeError _ => "AttributeError"
  | RuntimeError _ => "RuntimeError"
  | TimeoutError _ => "TimeoutError"
  | IntegrityError => "IntegrityError"
  | RunTransitionError _ _ _ => "RunTransitionError"
  | ExecutionClaimLost _ _ => "ExecutionClaimLost"
  | MappingExpressionError _ => "MappingExpressionError"
  | DetachedAgentRunHandoffError _ => "DetachedAgentRunHandoffError"
  | ContextFloorExceedsBudgetError _ _ _ _ => "ContextFloorExceedsBudgetError"
  | ContextCompactionStalledError _ _ _ _ _ => "ContextCompactionStalledError"
  | ApiError x => error_class x
  | RunExecutionFailure _ _ => "RunExecutionFailure"
  | ContinuationAdmissionError _ _ => "ContinuationAdmissionError"
  end.

Definition exn_attrs (e : exn) : list error_attr := match e with ApiError x => error_attrs x | _ => [] end.
Definition exn_response (e : exn) : option error_response := match e with ApiError x => error_carries x | _ => None end.
Definition _status_code (e : exn) : option Z := match e with ApiError x => error_status x | _ => None end.

Definition _error_text (e : exn) : string :=
  let own := omap (fun name => a ← attr name (exn_attrs e); Some (default (attr_str a) (attr_dump a)))
               ["response_body"; "body"; "message"; "detail"] in
  let carried := match exn_response e with
    | Some r => omap (fun name => a ← attr name (response_attrs r); some_text (attr_str a)) ["text"; "content"]
    | None => []
    end in
  lower (join " " (exn_str e :: own ++ carried)).

Definition contains_any (terms : list string) (text : string) : bool :=
  existsb (fun term => str_contains term text) terms.

Definition _is_connection_level_error (e : exn) : bool :=
  let classes := exn_class e :: match e with ApiError x => error_causes x | _ => [] end in
  existsb (fun c => str_in c _CONNECTION_ERROR_CLASS_NAMES) classes
  || contains_any _CONNECTION_ERROR_TERMS (_error_text e).

Definition is_model_unavailable_error (environ : string -> option string) (e : exn) (model : option string) : bool :=
  match _status_code e with
  | Some code =>
      if bool_decide (code ∈ [400; 403; 404]%Z) then contains_any _UNAVAILABLE_TERMS (_error_text e) else false
  | None =>
      match model with
      | None | Some "" => false
      | Some _ => String.eqb (infer_provider_from_model environ model None) "ollama" && _is_connection_level_error e
      end
  end.

Definition is_missing_required_model_auth (e : exn) : bool := startswith "No OpenAI auth found." (exn_str e).

(** * The exception of a context that is too long *)

(** [instructions.*string too long]: a dot does not match a line break. *)
Fixpoint same_line (pattern s : string) : bool :=
  startswith pattern s ||
  match s with
  | String a s' => if Ascii.eqb a (ascii_of_N 10) then false else same_line pattern s'
  | "" => false
  end.
Definition instructions_too_long (s : string) : bool :=
  search (fun _ after => startswith "instructions" after && same_line "string too long" (str_drop 12 after)) s.

Definition _CONTEXT_OVERFLOW_PATTERNS : list string :=
  ((fun sep : string * string => "context" +:+ sep.1 +:+ "length" +:+ sep.2 +:+ "exceeded") <$>
     [("", ""); ("", "_"); ("", " "); ("_", ""); ("_", "_"); ("_", " "); (" ", ""); (" ", "_"); (" ", " ")]) ++
  ["maximum context length"; "context window"; "too many tokens"; "input is too long"; "request too large";
   "prompt is too long"; "token limit"; "exceed the model"; "exceeds the model"].

Definition repr_headers (headers : list (string * string)) : string :=
  py_str (JObj ((fun kv => (kv.1, JStr kv.2)) <$> headers)).

Definition context_overflow_error_text (e : exn) : string :=
  let texts names attrs := omap (fun name => attr_str <$> attr name attrs) names in
  let carried := match exn_response e with
    | Some r =>
        texts ["text"; "content"; "reason"] (response_attrs r)
        ++ match response_headers r with [] => [] | hs => [repr_headers hs] end
    | None => []
    end in
  join " | " (filter (fun part => part <> "")
    (exn_class e :: exn_str e :: texts ["code"; "type"; "param"; "body"] (exn_attrs e) ++ carried)).

Definition is_context_overflow_error (e : exn) : bool :=
  let text := lower (context_overflow_error_text e) in
  contains_any _CONTEXT_OVERFLOW_PATTERNS text || instructions_too_long text.

(** The headers of an exception's response, as [retry.py] reads them. *)
Definition exn_headers (e : exn) : list (string * string) :=
  match exn_response e with Some r => response_headers r | None => [] end.

(** ** What the classifier of texts answers *)

Example kind_of_status : sentinel_error_kind "API Error: upstream returned HTTP 503" = Some "server_error".
Proof. vm_compute. reflexivity. Qed.
Example kind_of_prefixed_status : sentinel_error_kind "provider: status  code529" = Some "server_error".
Proof. vm_compute. reflexivity. Qed.
Example kind_of_number : sentinel_error_kind "the server has 1500 rows, 502x" = None.
Proof. vm_compute. reflexivity. Qed.
Example kind_of_alias : sentinel_error_kind "Error: server_is_overloaded" = Some "overloaded_error".
Proof. vm_compute. reflexivity. Qed.

(** A sentinel is read back as the kind it was written for. *)
Lemma sentinel_roundtrip kind : str_in kind _PROVIDER_ERROR_KIND_VALUES = true ->
  sentinel_error_kind (safe_provider_error_sentinel (Some kind)) = Some kind.
Proof.
  intros H. unfold str_in, _PROVIDER_ERROR_KIND_VALUES in H. cbn in H.
  repeat (apply orb_prop in H as [H|H]; [apply String.eqb_eq in H as ->; vm_compute; reflexivity|]). discriminate H.
Qed.
