(* ===== verification/ProviderCall.v ===== *)
(** One call of a model provider by the agent loop: the request, its headers and
    its prompt-cache identity, the stream of a response, and the retries.

    Sources under brain: systems/runs/direct_loop/request.py, retry.py and
    streaming.py, the beta flags and headers of platform/integrations/llm.py,
    anthropic_adapter.py and openai_cache.py, and platform/integrations/transports/
    base.py.

    The provider's SDK and the clock are a record of operations on a world [W];
    times are microseconds and pauses milliseconds. *)
From Stdlib Require Import Ascii.
From S2P Require Import Prelude.
From S2P Require Import PyStr.
From S2P Require Import Json.
From S2P Require Import JsonText.
From S2P Require Import Status.
From S2P Require Import RunCreate.
From S2P Require Import RunMessages.
From S2P Require Import LoopControl.
From S2P Require Import ToolExecution.
From S2P Require Import Models.
From S2P Require Import ContextBudget.
From S2P Require Import Sessions.
From S2P Require Import Compaction.
From S2P Require Import SemanticCompaction.
From S2P Require Import WindowPolicy.
From S2P Require Import ProviderErrors.
Open Scope string_scope.
Open Scope bool_scope.
Open Scope list_scope.

(** * Requests and responses *)

(** [LLMRequest]; [JNull] is a missing system prompt. *)
Record LLMRequest : Type := {
  rq_model : string;
  rq_messages : list message;
  rq_max_output_tokens : option Z;
  rq_system : json;
  rq_tools : option (list json);
  rq_reasoning_effort : option string;
  rq_cache_key : option string;
  rq_cache_retention : option string;
  rq_extra_headers : option dict;
  rq_response_format : option dict;
  rq_operation_type : option string }.

Inductive StopReason : Type :=
| END_TURN | TOOL_USE | MAX_TOKENS | STOP_SEQUENCE | PAUSE_TURN | REFUSAL | CONTENT_FILTER
| OtherStop (value : string).
#[export] Instance StopReason_eq_dec : EqDecision StopReason.
Proof. solve_decision. Defined.

Record Usage : Type := {
  input_tokens : Z;
  output_tokens : Z;
  cache_read_input_tokens : Z;
  cache_creation_input_tokens : Z }.

Record LLMResponse : Type := {
  rs_content : list content_block;
  rs_stop_reason : StopReason;
  rs_usage : Usage }.

(** [_TokenAccumulator]. *)
Record TokenAccumulator : Type := { tk_input : Z; tk_output : Z; tk_cache_read : Z; tk_cache_creation : Z }.
Definition no_tokens : TokenAccumulator :=
  {| tk_input := 0; tk_output := 0; tk_cache_read := 0; tk_cache_creation := 0 |}.
Definition add_turn (t : TokenAccumulator) (u : Usage) : TokenAccumulator :=
  {| tk_input := tk_input t + input_tokens u; tk_output := tk_output t + output_tokens u;
     tk_cache_read := tk_cache_read t + cache_read_input_tokens u;
     tk_cache_creation := tk_cache_creation t + cache_creation_input_tokens u |}.

(** * request.py *)

Definition _PROMPT_CACHE_KEY_MAX_LEN : nat := 64.
Definition _PROMPT_CACHE_KEY_DIGEST_LEN : nat := 24.
Definition _PROMPT_CACHE_KEY_PREFIX : string := "illo".

Definition provider_prefixes : list string :=
  ["anthropic/"; "ollama/"; "openai/"; "anthropic:"; "ollama:"; "openai:"].
Definition strip_provider_prefix (model : string) : string := remove_first_prefix provider_prefixes model.

Definition text_block (text : string) : json := JObj [("type", JStr "text"); ("text", JStr text)].

Definition build_system_blocks (system_prompt : string) : json :=
  if String.eqb system_prompt "" then JNull else JList [text_block system_prompt].

(** [blocks[-1]["cache_control"] = ..] on copied blocks. *)
Definition mark_last (blocks : list json) : list json := alter set_breakpoint (length blocks - 1)%nat blocks.

Definition apply_anthropic_cache_breakpoint (blocks : list json) (cache : bool) : list json :=
  if cache then mark_last blocks else blocks.

Definition apply_provider_system_cache_policy (provider_name : string) (system : json) (cache : bool) : json :=
  if negb cache || negb (truthy system) then system
  else if negb (String.eqb provider_name "anthropic") then system
  else JList (apply_anthropic_cache_breakpoint
                match system with JStr s => [text_block s] | JList blocks => blocks | _ => [] end true).

Definition mark_tools_cacheable (tools : list json) : list json := mark_last tools.

Definition cache_scopes : list string := ["scout"; "coordinator"; "worker"; "memory_extraction"; "verifier"].

Definition _prompt_cache_scope (session_id : string) (persist_session : bool) (operation_type : option string)
    : string :=
  let explicit := lower (strip (str_or operation_type "")) in
  let normalized_session := lower (strip session_id) in
  if str_in explicit cache_scopes then explicit
  else if startswith "scout-" normalized_session then "scout"
  else if startswith "run-verifier:" normalized_session then "verifier"
  else if startswith "agent-worker-" normalized_session then "worker"
  else if startswith "coordinator-" normalized_session then "coordinator"
  else if startswith "memory-" normalized_session then "memory_extraction"
  else if persist_session then "session" else "ephemeral".

(** [re.sub(r"[^A-Za-z0-9:_-]+", "-", s)], and [s.strip("-:_")]. *)
Definition is_scope_char (a : ascii) : bool := is_word a || existsb (Ascii.eqb a) [":"; "-"]%char.
Fixpoint squash_scope (replaced : bool) (s : string) : string :=
  match s with
  | "" => ""
  | String a s' =>
      if is_scope_char a then String a (squash_scope false s')
      else if replaced then squash_scope true s' else String "-" (squash_scope true s')
  end.
Definition is_scope_pad (a : ascii) : bool := existsb (Ascii.eqb a) ["-"; ":"; "_"]%char.
Fixpoint lstrip_pad (s : string) : string :=
  match s with String a s' => if is_scope_pad a then lstrip_pad s' else s | "" => "" end.
Definition strip_pad_chars (s : string) : string := str_rev (lstrip_pad (str_rev (lstrip_pad s))).

Definition tool_scaffold (tool : json) : json :=
  JObj [("name", block_field "name" tool); ("description", block_field "description" tool);
        ("input_schema", block_field "input_schema" tool); ("parameters", block_field "parameters" tool)].

Section requests.
Context `{Platform}.

Definition derive_prompt_cache_key (session_id : string) (system : json) (tools : option (list json))
    (persist_session : bool) (operation_type : option string) : string :=
  let cache_scope := _prompt_cache_scope session_id persist_session operation_type in
  let scaffold := JObj [("cache_scope", JStr cache_scope); ("operation_type", JStr (str_or operation_type ""));
                        ("system", jor system (JStr "")); ("tools", JList (tool_scaffold <$> default [] tools))] in
  let digest := str_take _PROMPT_CACHE_KEY_DIGEST_LEN (sha256_hex (dumps ", " ": " (sort_keys scaffold))) in
  let max_scope_len := (_PROMPT_CACHE_KEY_MAX_LEN - String.length _PROMPT_CACHE_KEY_PREFIX
                        - String.length digest - 2)%nat in
  let scope_hint := str_or (Some (strip_pad_chars (squash_scope false cache_scope))) "agent" in
  _PROMPT_CACHE_KEY_PREFIX +:+ ":" +:+ str_take max_scope_len scope_hint +:+ ":" +:+ digest.

Definition get_extended_prompt_cache_retention (model : string) : option string :=
  let normalized := strip_provider_prefix model in
  if bool_decide (required_openai_auth_mode (Some normalized) = Some "chatgpt") then None
  else if starts_any ["gpt-5"; "gpt-4.1"] normalized then Some "24h" else None.

Definition provider_prompt_cache_hints (provider_name model session_id : string) (system : json)
    (tools : option (list json)) (persist_session cache : bool) (operation_type : option string)
    : option string * option string :=
  if negb cache then (None, None)
  else if negb (String.eqb provider_name "openai") then (None, None)
  else (Some (derive_prompt_cache_key session_id system tools persist_session operation_type),
        get_extended_prompt_cache_retention model).

Definition apply_provider_request_cache_policy (provider_name model session_id : string) (system : json)
    (tools : option (list json)) (persist_session cache : bool) (operation_type : option string)
    : option (list json) * option string * option string :=
  let request_tools := if cache && String.eqb provider_name "anthropic"
                       then mark_tools_cacheable <$> tools else tools in
  (request_tools,
   (provider_prompt_cache_hints provider_name model session_id system tools persist_session cache operation_type).1,
   (provider_prompt_cache_hints provider_name model session_id system tools persist_session cache operation_type).2).

Definition default_max_output_tokens (provider_name : string) (max_tokens : Z) : option Z :=
  if String.eqb provider_name "openai" then None else Some max_tokens.

Definition build_api_request (model : string) (messages : list message) (max_tokens : Z) (system : json)
    (tools : option (list json)) (reasoning_effort : option string) (extra_headers : dict)
    (provider_name session_id : string) (persist_session cache_tools : bool) (operation_type : option string)
    : LLMRequest :=
  let '(request_tools, cache_key, cache_retention) :=
    apply_provider_request_cache_policy provider_name model session_id system tools persist_session cache_tools
      operation_type in
  {| rq_model := model; rq_messages := messages;
     rq_max_output_tokens := default_max_output_tokens provider_name max_tokens;
     rq_system := system; rq_tools := request_tools; rq_reasoning_effort := reasoning_effort;
     rq_cache_key := cache_key; rq_cache_retention := cache_retention;
     rq_extra_headers := match extra_headers with [] => None | _ => Some extra_headers end;
     rq_response_format := None; rq_operation_type := operation_type |}.
End requests.

(** [explicit in {..}] raises for a value that cannot be hashed. *)
Definition infer_provider_operation_type (session_id tool_call_source : string) (metadata : dict) : result string :=
  let explicit := jor (jget_or_null "provider_operation_type" metadata) (jget_or_null "role" metadata) in
  known ← in_set explicit (JStr <$> cache_scopes);
  Ok (if (known : bool) then py_str explicit
      else if startswith "scout-" session_id then "scout"
      else if startswith "worker:" tool_call_source || startswith "agent-worker-" session_id then "worker"
      else if startswith "coordinator-" session_id then "coordinator" else "coordinator").

(** * openai_cache.py *)

Definition OPENAI_PROMPT_CACHE_KEY_MAX_LEN : nat := 64.
Definition OPENAI_PROMPT_CACHE_KEY_DIGEST_LEN : nat := 24.

Section openai.
Context `{Platform}.

Definition normalize_openai_prompt_cache_key (cache_key : string) : string :=
  if Nat.leb (String.length cache_key) OPENAI_PROMPT_CACHE_KEY_MAX_LEN then cache_key
  else
    let digest := str_take OPENAI_PROMPT_CACHE_KEY_DIGEST_LEN (sha256_hex cache_key) in
    let head_len := (OPENAI_PROMPT_CACHE_KEY_MAX_LEN - String.length digest - 1)%nat in
    str_take head_len cache_key +:+ ":" +:+ digest.

Definition normalize_openai_session_id (session_id : string) : string :=
  normalize_openai_prompt_cache_key session_id.

Definition normalize_openai_extra_headers (headers : dict) : dict :=
  match jget "session_id" headers with
  | Some (JStr session_id) =>
      if String.eqb session_id "" then headers
      else jset "session_id" (JStr (normalize_openai_session_id session_id)) headers
  | _ => headers
  end.

Definition build_openai_extra_headers (base_headers : dict) (auth_mode session_id : option string)
    (extra_headers : dict) : dict :=
  let headers := jupdate base_headers extra_headers in
  let headers :=
    if bool_decide (auth_mode = Some "chatgpt") && negb (String.eqb (str_or session_id "") "") then
      if jhas "session_id" headers then headers
      else jset "session_id" (JStr (normalize_openai_session_id (str_or session_id ""))) headers
    else headers in
  normalize_openai_extra_headers headers.

Definition normalize_openai_request_kwargs (kwargs : dict) : dict :=
  let normalized :=
    match jget "prompt_cache_key" kwargs with
    | Some (JStr cache_key) =>
        if String.eqb cache_key "" then kwargs
        else jset "prompt_cache_key" (JStr (normalize_openai_prompt_cache_key cache_key)) kwargs
    | _ => kwargs
    end in
  match jget "extra_headers" normalized with
  | Some headers => jset "extra_headers" (JObj (normalize_openai_extra_headers (as_dict headers))) normalized
  | None => normalized
  end.
End openai.

(** * The provider, and what a call leaves behind *)

(** A streaming event, when it came, and whether the run was cancelled by then. *)
Inductive StreamEvent : Type :=
| Thinking (text : string) | Reflection (text : string) | Text (text : string) | OtherEvent.
Record stream_tick : Type := { event : StreamEvent; tick_time : Z; cancelled_then : bool }.

(** The SDK of a provider: [create], [stream] with the events it yields and how it
    ends, the classes of its exceptions; and the clock of the event loop. *)
Record LLMProvider (W : Type) : Type := {
  create : LLMRequest -> M W LLMResponse;
  stream : LLMRequest -> M W (list stream_tick * result LLMResponse);
  is_retryable_error : exn -> bool;
  is_api_error : exn -> bool;
  time : W -> Z;
  sleep : Z -> W -> W }.
Arguments create {W} _.
Arguments stream {W} _.
Arguments is_retryable_error {W} _.
Arguments is_api_error {W} _.
Arguments time {W} _.
Arguments sleep {W} _.

(** What [on_stream_activity] is told. *)
Inductive activity : Type :=
| Hiccup (delay : Z)
| ThinkingFor (elapsed tokens : Z)
| WritingResponse (tokens : Z)
| StreamingFor (elapsed : Z)
| PublicReflection (text : string) (shortened : bool)
| ReceivedGuidance
| ProviderRetry (delay : Z)
| ModelFallback (preferred used : string)
| CompactedContext.

(** Where a text delta goes: nowhere, to the user, or into the list that is
    withheld until the response was judged. *)
Inductive delta_sink : Type := NoSink | PublicSink | HeldSink.
#[export] Instance delta_sink_eq_dec : EqDecision delta_sink.
Proof. solve_decision. Defined.

(** The global beta flags, the world, the requests handed to the provider, and what
    the callbacks were given. *)
Record wire (W : Type) : Type := {
  _active_betas : list string;
  wire_world : W;
  sent : list LLMRequest;
  activities : list activity;
  public_deltas : list string;
  held_deltas : list string }.
Arguments _active_betas {W} _.
Arguments wire_world {W} _.
Arguments sent {W} _.
Arguments activities {W} _.
Arguments public_deltas {W} _.
Arguments held_deltas {W} _.
Arguments Build_wire {W} _ _ _ _ _ _.

Section wire.
Context {W : Type}.
Implicit Types s : wire W.

Definition set_betas (b : list string) s : wire W :=
  Build_wire b (wire_world s) (sent s) (activities s) (public_deltas s) (held_deltas s).
Definition set_wire_world (w : W) s : wire W :=
  Build_wire (_active_betas s) w (sent s) (activities s) (public_deltas s) (held_deltas s).
Definition note_request (r : LLMRequest) s : wire W :=
  Build_wire (_active_betas s) (wire_world s) (sent s ++ [r]) (activities s) (public_deltas s) (held_deltas s).
Definition note_activity (a : activity) s : wire W :=
  Build_wire (_active_betas s) (wire_world s) (sent s) (activities s ++ [a]) (public_deltas s) (held_deltas s).
Definition publish_delta (d : string) s : wire W :=
  Build_wire (_active_betas s) (wire_world s) (sent s) (activities s) (public_deltas s ++ [d]) (held_deltas s).
Definition set_held (l : list string) s : wire W :=
  Build_wire (_active_betas s) (wire_world s) (sent s) (activities s) (public_deltas s) l.

(** [on_stream_delta(text)]. *)
Definition deliver (sink : delta_sink) (d : string) s : wire W :=
  match sink with
  | NoSink => s
  | PublicSink => publish_delta d s
  | HeldSink => set_held (held_deltas s ++ [d]) s
  end.

(** An operation of the world alone. *)
Definition in_world {A} (m : M W A) : M (wire W) A := fun s =>
  let '(w, r) := m (wire_world s) in (set_wire_world w s, r).

(** * The beta flags of an OAuth session, llm.py *)

Definition _ESSENTIAL_BETAS : list string := ["claude-code-20250219"; "oauth-2025-04-20"].
Definition _OAUTH_BETA_FLAGS_FALLBACK : list string :=
  ["claude-code-20250219"; "oauth-2025-04-20"; "prompt-caching-2024-07-31";
   "interleaved-thinking-2025-05-14"; "fine-grained-tool-streaming-2025-05-14"].
Definition get_oauth_betas : list string := _OAUTH_BETA_FLAGS_FALLBACK.

Definition _get_active_betas : M (wire W) (list string) :=
  s <- get ;;
  match _active_betas s with
  | [] => modify (set_betas get_oauth_betas) ;;; ret get_oauth_betas
  | betas => ret betas
  end.

Definition optional_betas (betas : list string) : list string := filter (fun b => b ∉ _ESSENTIAL_BETAS) betas.

(** [set(betas) != set(_ESSENTIAL_BETAS)]. *)
Definition same_as_essential (betas : list string) : bool :=
  forallb (fun b => str_in b _ESSENTIAL_BETAS) betas && forallb (fun b => str_in b betas) _ESSENTIAL_BETAS.

Definition _degrade_betas : M (wire W) bool :=
  s <- get ;;
  match last (optional_betas (_active_betas s)) with
  | Some removed => modify (set_betas (filter (fun b => b <> removed) (_active_betas s))) ;;; ret true
  | None =>
      if negb (same_as_essential (_active_betas s))
      then modify (set_betas _ESSENTIAL_BETAS) ;;; ret true
      else ret false
  end.

Definition refresh_betas : M (wire W) unit := modify (set_betas get_oauth_betas).
End wire.

(** [LLMClient] without the SDK's client and the log's token prefix. *)
Record LLMClient : Type := {
  cl_provider : string;
  cl_auth_mode : option string;
  is_oauth : bool;
  cl_extra_headers : dict }.

Section headers.
Context `{Platform} {W : Type}.

Definition get_extra_headers (c : LLMClient) : M (wire W) dict :=
  if negb (is_oauth c) || negb (String.eqb (cl_provider c) "anthropic") then ret (cl_extra_headers c)
  else
    betas <- _get_active_betas ;;
    ret (match betas with
         | [] => cl_extra_headers c
         | _ => jset "anthropic-beta" (JStr (join "," betas)) (cl_extra_headers c)
         end).

Definition build_request_headers (c : LLMClient) (session_id : option string) (extra_headers : dict)
    : M (wire W) dict :=
  base_headers <- get_extra_headers c ;;
  ret (if String.eqb (cl_provider c) "openai"
       then build_openai_extra_headers base_headers (cl_auth_mode c) session_id extra_headers
       else jupdate base_headers extra_headers).
End headers.

(** * streaming.py *)

#[export] Instance activity_eq_dec : EqDecision activity.
Proof. solve_decision. Defined.

Definition ends_any (suffixes : list string) (s : string) : bool := existsb (has_suffix s) suffixes.

(** A text [**title** tail], and its tail. *)
Fixpoint bold_tail (titled : bool) (s : string) : option string :=
  match s with
  | "" => None
  | String a s' =>
      if Ascii.eqb a "*" then (if titled && startswith "*" s' then Some (str_drop 1 s') else None)
      else bold_tail true s'
  end.

(** The source accepts the ellipsis character U+2026 as an ending too. Strings here
    hold characters below 256, so no text of the model has it, and the three endings
    below are all that such a text can have. *)
Definition _reflection_is_publishable (text : string) : bool :=
  if String.eqb text "" then false
  else
    match (if startswith "**" text then bold_tail false (str_drop 2 text) else None) with
    | Some rest => Nat.leb 24 (String.length (strip rest))
    | None =>
        (Nat.leb 3 (length (split_ws text)) && ends_any ["."; "?"; "!"] (rstrip text))
        || Nat.leb 80 (String.length text)
    end.

(** [s.rfind(mark)]: the last position where [mark] starts. *)
Fixpoint rfind_from (n : nat) (found : option nat) (mark s : string) : option nat :=
  let found := if startswith mark s then Some n else found in
  match s with "" => found | String _ s' => rfind_from (S n) found mark s' end.
Definition rfind (mark s : string) : option nat := rfind_from 0 None mark s.

Definition _last_sentence_boundary (text : string) (limit : nat) : option nat :=
  let window := str_take limit text in
  match omap (fun mark => i ← rfind mark window; if Nat.leb 80 i then Some (i + 1)%nat else None) [". "; "? "; "! "] with
  | i :: _ => Some i
  | [] => if ends_any ["."; "?"; "!"] (rstrip window) then Some (String.length (rstrip window)) else None
  end.

Definition is_clause_mark (a : ascii) : bool := existsb (Ascii.eqb a) ["."; ","; ";"; ":"]%char.
Fixpoint lstrip_marks (s : string) : string :=
  match s with String a s' => if is_clause_mark a then lstrip_marks s' else s | "" => "" end.

(** [None] is the empty excerpt, the flag an ellipsis at its end. *)
Definition _public_reflection_excerpt (text : string) (limit : nat) : option (string * bool) :=
  let cleaned := squeeze text in
  if negb (_reflection_is_publishable cleaned) then None
  else if Nat.leb (String.length cleaned) limit then Some (cleaned, false)
  else
    match _last_sentence_boundary cleaned limit with
    | Some boundary => (fun t => (t, false)) <$> some_text (strip (str_take boundary cleaned))
    | None =>
        let window := str_take limit cleaned in
        let head := match rfind " " window with Some i => str_take i window | None => window end in
        Some (str_rev (lstrip_marks (str_rev head)), true)
    end.

Definition _approx_token_count (chars : Z) : Z := if Z.leb chars 0 then 0 else Z.max 1 (chars / 4).

Inductive stream_phase : Type := WAITING | THINKING | REFLECTION | WRITING.

(** The local variables of [streaming_call]. *)
Record stream_state : Type := {
  last_progress : Z;
  last_activity_label : option activity;
  thinking_chars : Z;
  text_chars : Z;
  reflection_text : string;
  published_reflection : bool;
  st_phase : stream_phase }.

Definition stream_start (now : Z) : stream_state :=
  {| last_progress := now; last_activity_label := None; thinking_chars := 0; text_chars := 0;
     reflection_text := ""; published_reflection := false; st_phase := WAITING |}.

Definition observe_event (e : StreamEvent) (s : stream_state) : stream_state :=
  let count t := Z.of_nat (String.length t) in
  match e with
  | Thinking t => Build_stream_state (last_progress s) (last_activity_label s) (thinking_chars s + count t)
                    (text_chars s) (reflection_text s) (published_reflection s) THINKING
  | Reflection t => Build_stream_state (last_progress s) (last_activity_label s) (thinking_chars s)
                      (text_chars s) (reflection_text s +:+ t) (published_reflection s) REFLECTION
  | Text t => Build_stream_state (last_progress s) (last_activity_label s) (thinking_chars s)
                (text_chars s + count t) (reflection_text s) (published_reflection s) WRITING
  | OtherEvent => s
  end.

Definition stream_label (now call_start : Z) (s : stream_state) : option activity * bool :=
  let elapsed := Z.quot (now - call_start) 1000000 in
  match st_phase s with
  | REFLECTION =>
      if published_reflection s then (None, true)
      else match _public_reflection_excerpt (reflection_text s) 320 with
           | Some (t, shortened) => (Some (PublicReflection t shortened), true)
           | None => (None, false)
           end
  | THINKING => (Some (ThinkingFor elapsed (_approx_token_count (thinking_chars s))), published_reflection s)
  | WRITING => (Some (WritingResponse (_approx_token_count (text_chars s))), published_reflection s)
  | WAITING => (Some (StreamingFor elapsed), published_reflection s)
  end.

(** The progress report of an iteration: at most every three seconds, never the
    same label twice in a row. *)
Definition report_progress (now call_start : Z) (s : stream_state) : stream_state * option activity :=
  if Z.leb 3000000 (now - last_progress s) then
    let '(label, published) := stream_label now call_start s in
    let fresh := match label with Some _ => negb (bool_decide (label = last_activity_label s)) | None => false end in
    (Build_stream_state (if fresh then now else last_progress s)
       (if fresh then label else last_activity_label s)
       (thinking_chars s) (text_chars s) (reflection_text s) published (st_phase s),
     if fresh then label else None)
  else (s, None).

(** What the caller passed: a cancel event, [on_stream_activity], [on_stream_delta]. *)
Record callbacks_of : Type := { cancel_event : bool; on_stream_activity : bool; on_stream_delta : delta_sink }.

Section calls.
Context {W : Type} (p : LLMProvider W) (c : callbacks_of).

(** The loop over the events; [true] when it was cancelled. *)
Fixpoint stream_events (call_start : Z) (ticks : list stream_tick) (st : stream_state) : M (wire W) bool :=
  match ticks with
  | [] => ret false
  | t :: rest =>
      if cancel_event c && cancelled_then t then ret true
      else
        (match event t with
         | Text text => when_ (negb (String.eqb text "")) (modify (deliver (on_stream_delta c) text))
         | _ => ret tt
         end) ;;;
        let st := observe_event (event t) st in
        if on_stream_activity c then
          let '(st, label) := report_progress (tick_time t) call_start st in
          (match label with Some a => modify (note_activity a) | None => ret tt end) ;;;
          stream_events call_start rest st
        else stream_events call_start rest st
  end.

(** [None] is the result of a cancelled run. *)
Definition streaming_call (request : LLMRequest) (call_start : Z) : M (wire W) (option LLMResponse) :=
  modify (note_request request) ;;;
  r <- in_world (stream p request) ;;
  now <- gets (fun s => time p (wire_world s)) ;;
  cancelled <- stream_events call_start r.1 (stream_start now) ;;
  if (cancelled : bool) then ret None
  else response <- lift_result r.2 ;; ret (Some response).

(** * retry.py *)

Definition _MAX_RETRY_AFTER : Z := 60000.

(** Python's [float] on a text, and the seconds until an HTTP date, in milliseconds. *)
Record retry_clock : Type := { float_millis : string -> option Z; date_millis : W -> string -> option Z }.

Definition _retry_after (rc : retry_clock) (w : W) (headers : list (string * string)) : option Z :=
  match List.find (fun kv => String.eqb (lower kv.1) "retry-after") headers with
  | Some (_, candidate) =>
      let value := strip candidate in
      if String.eqb value "" then None
      else
        let clamp ms := Z.max 0 (Z.min ms _MAX_RETRY_AFTER) in
        match float_millis rc value with
        | Some ms => Some (clamp ms)
        | None => clamp <$> date_millis rc w value
        end
  | None => None
  end.

Definition should_stream : bool :=
  cancel_event c || on_stream_activity c || negb (bool_decide (on_stream_delta c = NoSink)).

Definition one_call (request : LLMRequest) (call_start : Z) : M (wire W) (option LLMResponse) :=
  if should_stream then streaming_call request call_start
  else modify (note_request request) ;;; response <- in_world (create p request) ;; ret (Some response).

Context `{Platform} (rc : retry_clock) (llm : LLMClient) (session_id : string) (retry_delays : list Z).

(** The request after a degradation: every field is named but [response_format]. *)
Definition degraded_request (request : LLMRequest) (headers : dict) : LLMRequest :=
  {| rq_model := rq_model request; rq_messages := rq_messages request;
     rq_max_output_tokens := rq_max_output_tokens request; rq_system := rq_system request;
     rq_tools := rq_tools request; rq_reasoning_effort := rq_reasoning_effort request;
     rq_cache_key := rq_cache_key request; rq_cache_retention := rq_cache_retention request;
     rq_extra_headers := Some headers; rq_response_format := None;
     rq_operation_type := rq_operation_type request |}.

Definition wall_time : M (wire W) Z := gets (fun s => time p (wire_world s)).

(** What the exception handler decides: to raise again, or the request, the number
    of the attempt and the start of the next call. *)
Definition after_error (request : LLMRequest) (api_attempt : nat) (e : exn) : M (wire W) (LLMRequest * nat * Z) :=
  if negb (is_retryable_error p e) then raise e
  else
    retry_after <- gets (fun s => _retry_after rc (wire_world s) (exn_headers e)) ;;
    match retry_delays !! api_attempt with
    | None =>
        degraded <- (if is_oauth llm then _degrade_betas else ret false) ;;
        if (degraded : bool) then
          headers <- build_request_headers llm (Some session_id) [] ;;
          now <- wall_time ;;
          ret (degraded_request request headers, 0%nat, now)
        else raise e
    | Some scheduled =>
        let delay := default scheduled retry_after in
        when_ (on_stream_activity c) (modify (note_activity (Hiccup delay))) ;;;
        modify (fun s => set_wire_world (sleep p delay (wire_world s)) s) ;;;
        now <- wall_time ;;
        ret (request, S api_attempt, now)
    end.

(** [while True]; the bound on its iterations is an argument. *)
Fixpoint api_call_loop (fuel : nat) (request : LLMRequest) (api_attempt : nat) (call_start : Z)
    : M (wire W) (option LLMResponse) :=
  match fuel with
  | O => raise (RuntimeError "out of fuel")
  | S fuel =>
      catch (one_call request call_start) (fun e =>
        next <- after_error request api_attempt e ;;
        api_call_loop fuel next.1.1 next.1.2 next.2)
  end.

(** How often the beta flags can still be degraded: the optional ones, then the
    reduction to the essential ones; a list that runs empty is filled again when
    headers are built. *)
Definition essential_betas (betas : list string) : list string := filter (fun b => b ∈ _ESSENTIAL_BETAS) betas.
Definition degradations (betas : list string) : nat :=
  length (optional_betas betas) +
  match essential_betas betas with
  | [] => 1 + length (optional_betas get_oauth_betas)
  | l => if same_as_essential l then 0 else 1
  end.

Definition api_fuel (betas : list string) (api_attempt : nat) : nat :=
  (length retry_delays + 1 - api_attempt) + degradations betas * (length retry_delays + 1).

Definition async_api_call_with_retry (request : LLMRequest) (call_start : Z) : M (wire W) (option LLMResponse) :=
  fun s => api_call_loop (api_fuel (_active_betas s) 0) request 0 call_start s.
End calls.
