(* ===== verification/CallTheorems.v ===== *)
(** What one call of a provider does: the retries of [ProviderCall] end, what they
    send, and how they fail. *)
From S2P Require Import Prelude.
From S2P Require Import PyStr.
From S2P Require Import Json.
From S2P Require Import Status.
From S2P Require Import RunCreate.
From S2P Require Import RunDemo.
From S2P Require Import LoopControl.
From S2P Require Import ToolExecution.
From S2P Require Import Sessions.
From S2P Require Import ProviderErrors.
From S2P Require Import ProviderCall.
Open Scope string_scope.
Open Scope bool_scope.
Open Scope list_scope.

(** ** Beta flags *)

Lemma str_in_spec x l : str_in x l = true <-> x ∈ l.
Proof.
  unfold str_in. rewrite existsb_exists. split.
  - intros (y & Hy & E). apply String.eqb_eq in E as ->. by apply list_elem_of_In.
  - intros Hx. exists x. split; [by apply list_elem_of_In|apply String.eqb_refl].
Qed.

Lemma optional_removed b betas : b ∈ optional_betas betas ->
  (length (optional_betas (filter (fun x => x <> b) betas)) < length (optional_betas betas))%nat /\
  essential_betas (filter (fun x => x <> b) betas) = essential_betas betas.
Proof.
  unfold optional_betas, essential_betas. rewrite !list_filter_filter. intros Hb.
  apply list_elem_of_filter in Hb as [Hne Hb]. split.
  - rewrite (list_filter_iff _ (fun x => (x <> b) /\ x ∉ _ESSENTIAL_BETAS)) by (intros; tauto).
    rewrite <- (list_filter_filter _ (fun x => x ∉ _ESSENTIAL_BETAS)).
    apply (length_filter_lt _ _ b); [|tauto]. by apply list_elem_of_filter.
  - apply list_filter_iff. intros x. split; [tauto|]. intros Hx. split; [done|]. by intros ->.
Qed.

Lemma essential_all betas : optional_betas betas = [] -> essential_betas betas = betas.
Proof.
  unfold optional_betas, essential_betas. induction betas as [|b betas IH]; [done|].
  destruct (decide (b ∈ _ESSENTIAL_BETAS)) as [Hb|Hb].
  - rewrite filter_cons_False by tauto. rewrite (filter_cons_True (fun b => b ∈ _ESSENTIAL_BETAS)) by done.
    intros Ho. by rewrite IH.
  - by rewrite filter_cons_True.
Qed.

Lemma set_betas_same {W} (s : wire W) : set_betas (_active_betas s) s = s.
Proof. by destruct s. Qed.

Section betas.
Context `{Platform} {W : Type}.
Implicit Types s : wire W.

Lemma degrade_spec s :
  (exists betas, _degrade_betas s = (set_betas betas s, Ok true) /\
     (degradations betas < degradations (_active_betas s))%nat) \/
  _degrade_betas s = (s, Ok false) /\ degradations (_active_betas s) = 0.
Proof.
  unfold _degrade_betas, bind, get, modify, ret. destruct (last (optional_betas (_active_betas s))) as [b|] eqn:El.
  - left. eexists. split; [done|]. apply last_Some_elem_of in El.
    destruct (optional_removed b _ El) as [Hlt He]. unfold degradations. rewrite He. lia.
  - apply last_None in El. destruct (same_as_essential (_active_betas s)) eqn:Es; cbn [negb].
    + right. split; [done|]. unfold degradations. rewrite El, (essential_all _ El).
      destruct (_active_betas s); [done|]. by rewrite Es.
    + left. eexists. split; [done|]. unfold degradations at 2. rewrite El, (essential_all _ El).
      change (degradations _ESSENTIAL_BETAS) with 0. destruct (_active_betas s); [cbn; lia|]. rewrite Es. cbn. lia.
Qed.

Lemma headers_spec llm sid extra s : exists betas h,
  build_request_headers llm sid extra s = (set_betas betas s, Ok h) /\
  (degradations betas <= degradations (_active_betas s))%nat.
Proof.
  unfold build_request_headers, get_extra_headers, _get_active_betas, bind, get, modify, ret.
  destruct (_ || _).
  - eexists (_active_betas s), _. rewrite set_betas_same. split; [done|lia].
  - destruct (_active_betas s) as [|b l] eqn:E.
    + eexists _, _. split; [done|]. vm_compute. lia.
    + eexists (b :: l), _. rewrite <- E, set_betas_same. split; [done|lia].
Qed.
End betas.

(** ** One call *)

Section calls.
Context {W : Type} (p : LLMProvider W) (c : callbacks_of).
Implicit Types s : wire W.

Definition quiet s s' : Prop := _active_betas s' = _active_betas s /\ sent s' = sent s.

#[local] Instance quiet_refl : Reflexive quiet.
Proof. done. Qed.
#[local] Instance quiet_trans : Transitive quiet.
Proof. intros s1 s2 s3 [H1 H2] [H3 H4]. split; congruence. Qed.

Lemma quiet_modify f : (forall s, quiet s (f s)) -> preserves quiet (modify f).
Proof. apply preserves_modify. Qed.

Lemma quiet_deliver sink d s : quiet s (deliver sink d s).
Proof. by destruct sink. Qed.

Lemma quiet_in_world {A} (m : M W A) : preserves quiet (in_world m).
Proof. intros s. unfold in_world. by destruct (m (wire_world s)). Qed.

Lemma quiet_events t0 ticks st : preserves quiet (stream_events c t0 ticks st).
Proof.
  revert st. induction ticks as [|t rest IH]; intros st; cbn [stream_events]; [apply preserves_ret, _|].
  destruct (cancel_event c && cancelled_then t); [apply preserves_ret, _|].
  apply preserves_bind; [apply _| |intros _].
  - destruct (event t); try apply preserves_ret, _.
    apply preserves_when; [apply _|]. apply quiet_modify. intros s. apply quiet_deliver.
  - destruct (on_stream_activity c); [|apply IH].
    destruct (report_progress _ _ _) as [st' [a|]]; (apply preserves_bind; [apply _| |intros _; apply IH]).
    + by apply quiet_modify.
    + apply preserves_ret, _.
Qed.

Lemma one_call_sends request t0 s :
  let s' := (one_call p c request t0 s).1 in
  _active_betas s' = _active_betas s /\ sent s' = sent s ++ [request].
Proof.
  unfold one_call, streaming_call. destruct (should_stream c).
  - cbn zeta. unfold bind at 1, modify at 1.
    match goal with |- context [?m (note_request request s)] =>
      assert (Hq : preserves quiet m) end.
    { apply preserves_bind; [apply _|apply quiet_in_world|intros r].
      apply preserves_bind; [apply _|apply preserves_gets, _|intros now].
      apply preserves_bind; [apply _|apply quiet_events|intros [|]]; [apply preserves_ret, _|].
      apply preserves_bind; [apply _|apply preserves_lift, _|intros x; apply preserves_ret, _]. }
    apply (Hq (note_request request s)).
  - cbn zeta. unfold bind at 1, modify at 1.
    match goal with |- context [?m (note_request request s)] =>
      assert (Hq : preserves quiet m) end.
    { apply preserves_bind; [apply _|apply quiet_in_world|intros r; apply preserves_ret, _]. }
    apply (Hq (note_request request s)).
Qed.
End calls.

(** ** The retries *)

(** Requests that differ at most in their headers and in a dropped response format. *)
Definition resembles (r r' : LLMRequest) : Prop :=
  rq_model r' = rq_model r /\ rq_messages r' = rq_messages r /\
  rq_max_output_tokens r' = rq_max_output_tokens r /\ rq_system r' = rq_system r /\
  rq_tools r' = rq_tools r /\ rq_reasoning_effort r' = rq_reasoning_effort r /\
  rq_cache_key r' = rq_cache_key r /\ rq_cache_retention r' = rq_cache_retention r /\
  rq_operation_type r' = rq_operation_type r /\
  (rq_response_format r' = rq_response_format r \/ rq_response_format r' = None).

#[export] Instance resembles_refl : Reflexive resembles.
Proof. intros r. split_and!; try done. by left. Qed.

#[export] Instance resembles_trans : Transitive resembles.
Proof.
  intros r1 r2 r3 (?&?&?&?&?&?&?&?&?&F1) (?&?&?&?&?&?&?&?&?&F2). split_and!; try congruence.
  destruct F2 as [->| ->]; [done|by right].
Qed.

Section retries.
Context `{Platform} {W : Type} (p : LLMProvider W) (c : callbacks_of) (rc : retry_clock (W:=W)) (llm : LLMClient)
  (session_id : string) (delays : list Z).
Implicit Types s : wire W.

Notation handler := (after_error p c rc llm session_id delays).
Notation loop := (api_call_loop p c rc llm session_id delays).
Notation fuel_for s a := (api_fuel delays (_active_betas s) a).

(** Nothing is left to try. *)
Definition spent s (attempt : nat) : Prop :=
  length delays <= attempt /\ (is_oauth llm = false \/ degradations (_active_betas s) = 0).

Lemma after_error_spec request attempt e s : attempt <= length delays ->
  (handler request attempt e s = (s, Err e) /\ (is_retryable_error p e = true -> spent s attempt)) \/
  exists s1 rq a t, handler request attempt e s = (s1, Ok (rq, a, t)) /\
    sent s1 = sent s /\ a <= length delays /\ (fuel_for s1 a < fuel_for s attempt)%nat /\
    resembles request rq /\ (length delays - attempt <= length delays - a + 1)%nat.
Proof.
  intros Ha. unfold after_error. destruct (is_retryable_error p e) eqn:Er; cbn [negb]; [|by left].
  destruct (delays !! attempt) as [d|] eqn:Ed.
  - right. apply lookup_lt_Some in Ed. destruct (on_stream_activity c);
      (eexists _, request, (S attempt), _; split; [cbn; reflexivity|]; cbn;
       split_and!; [done|lia|unfold api_fuel; cbn; lia|reflexivity|lia]).
  - apply lookup_ge_None in Ed.
    destruct (is_oauth llm) eqn:Eo; [|left; split; [done|intros _; split; [done|by left]]].
    destruct (degrade_spec s) as [(betas & E & Hlt)|[E Hz]].
    + right. unfold bind, gets. cbv beta iota. rewrite E.
      destruct (headers_spec llm (Some session_id) [] (set_betas betas s)) as (betas' & h & Eh & Hle).
      rewrite Eh. eexists _, _, 0%nat, _. split; [cbn; reflexivity|]. cbn [_active_betas set_betas sent] in Hle |- *. split_and!; try done.
      * lia.
      * assert (Hd : (degradations betas' + 1 <= degradations (_active_betas s))%nat) by lia.
        apply (Nat.mul_le_mono_r _ _ (length delays + 1)) in Hd. unfold api_fuel. lia.
      * unfold resembles. split_and!; try done. by right.
      * lia.
    + left. unfold bind, gets. cbv beta iota. rewrite E. split; [done|]. intros _. split; [done|by right].
Qed.

Lemma loop_fuel n : forall m request attempt t0 s, attempt <= length delays ->
  (fuel_for s attempt <= n)%nat -> (n <= m)%nat -> loop m request attempt t0 s = loop n request attempt t0 s.
Proof.
  induction n as [|n IH]; intros m request attempt t0 s Ha Hn Hm.
  { unfold api_fuel in Hn. lia. }
  destruct m as [|m]; [lia|]. cbn [api_call_loop]. unfold catch.
  destruct (one_call_sends p c request t0 s) as [Hb _].
  destruct (one_call p c request t0 s) as [s1 [x|e]]; cbn in Hb; [done|].
  unfold bind. destruct (after_error_spec request attempt e s1 Ha) as [[-> _]|(s2 & rq & a & t & -> & Hs & Hal & Hf & _)]; [done|].
  cbn [fst snd]. rewrite Hb in Hf. apply IH; lia.
Qed.

Lemma loop_spec n : forall request attempt t0 s, attempt <= length delays -> (fuel_for s attempt <= n)%nat ->
  exists new, sent (loop n request attempt t0 s).1 = sent s ++ request :: new /\
    (S (length new) <= fuel_for s attempt)%nat /\ Forall (resembles request) new /\
    forall e, (loop n request attempt t0 s).2 = Err e -> is_retryable_error p e = true ->
      (length delays - attempt <= length new)%nat /\
      (is_oauth llm = false \/ degradations (_active_betas (loop n request attempt t0 s).1) = 0).
Proof.
  induction n as [|n IH]; intros request attempt t0 s Ha Hn; [unfold api_fuel in Hn; lia|].
  cbn [api_call_loop]. unfold catch. destruct (one_call_sends p c request t0 s) as [Hb Hs1].
  assert (Hpos : (1 <= fuel_for s attempt)%nat) by (unfold api_fuel; lia).
  destruct (one_call p c request t0 s) as [s1 [x|e]]; cbn in Hb, Hs1; cbn [fst snd].
  { exists []. rewrite Hs1. split_and!; try done. }
  unfold bind. destruct (after_error_spec request attempt e s1 Ha)
    as [[-> Hend]|(s2 & rq & a & t & -> & Hs & Hal & Hf & Hr & Hd)]; cbn [fst snd].
  - exists []. rewrite Hs1. split_and!; try done. intros e' [= <-] He. destruct (Hend He) as [Hle Hor].
    cbn. split; [lia|done].
  - rewrite Hb in Hf. destruct (IH rq a t s2 Hal) as (new & Hnew & Hlen & Hall & Herr); [lia|].
    exists (rq :: new). rewrite Hnew, Hs, Hs1, <- app_assoc. split_and!; try done; cbn [length].
    + lia.
    + constructor; [done|]. eapply Forall_impl; [exact Hall|]. intros r' Hr'. by etrans.
    + intros e' He Hret. destruct (Herr e' He Hret) as [H1 H2]. split; [lia|done].
Qed.

(** The flags are only degraded. *)
Definition fades s s' : Prop := (degradations (_active_betas s') <= degradations (_active_betas s))%nat.

#[local] Instance fades_refl : Reflexive fades.
Proof. intros s. unfold fades. lia. Qed.
#[local] Instance fades_trans : Transitive fades.
Proof. unfold fades. intros s1 s2 s3. lia. Qed.

Lemma headers_fades sid extra : preserves fades (build_request_headers llm sid extra : M (wire W) dict).
Proof. intros s. destruct (headers_spec llm sid extra s) as (betas & h & -> & Hle). exact Hle. Qed.

Lemma degrade_fades : preserves fades (_degrade_betas : M (wire W) bool).
Proof.
  intros s. destruct (degrade_spec s) as [(betas & -> & Hlt)|[-> _]]; [|reflexivity]. unfold fades. cbn [fst _active_betas set_betas]. lia.
Qed.

Lemma fades_same (f : wire W -> wire W) : (forall s, _active_betas (f s) = _active_betas s) -> preserves fades (modify f).
Proof. intros Hf. apply preserves_modify. intros s. unfold fades. by rewrite Hf. Qed.

Lemma call_fades request t0 : preserves fades (async_api_call_with_retry p c rc llm session_id delays request t0).
Proof.
  assert (Hl : forall n rq a t, preserves fades (loop n rq a t)).
  { induction n as [|n IH]; intros rq a t; cbn [api_call_loop]; [apply preserves_raise, _|].
    apply preserves_catch; [apply _| |intros e].
    - intros s. unfold fades. destruct (one_call_sends p c rq t s) as [E _]. by rewrite E.
    - apply preserves_bind; [apply _| |intros; apply IH]. unfold after_error, wall_time.
      frame_by ltac:(first [apply headers_fades | apply degrade_fades | by apply fades_same]). }
  intros s. apply Hl.
Qed.

(** C24. A call of the provider ends: whatever the provider answers or raises, the
    loop of retries returns after a bounded number of requests, one series of
    delays for the given beta flags and one more for each time they can be degraded;
    more iterations would change nothing.  Every request repeats the first one but
    for its headers and its response format, and a retryable error comes out only
    after every delay was used and no flag is left to strip. *)
Theorem api_calls_bounded (request : LLMRequest) (t0 : Z) s s' (r : result (option LLMResponse)) :
  async_api_call_with_retry p c rc llm session_id delays request t0 s = (s', r) ->
  (forall fuel, (api_fuel delays (_active_betas s) 0 <= fuel)%nat -> loop fuel request 0 t0 s = (s', r)) /\
  exists new, sent s' = sent s ++ request :: new /\
    (S (length new) <= (length delays + 1) * (degradations (_active_betas s) + 1))%nat /\
    Forall (resembles request) new /\
    forall e, r = Err e -> is_retryable_error p e = true ->
      (length delays <= length new)%nat /\ (is_oauth llm = false \/ degradations (_active_betas s') = 0).
Proof.
  unfold async_api_call_with_retry. intros E. split.
  { intros fuel Hf. rewrite <- E. apply loop_fuel; lia. }
  destruct (loop_spec _ request 0 t0 s ltac:(lia) (le_n _)) as (new & Hs & Hl & Ha & He). rewrite E in Hs, He.
  exists new. split_and!; try done.
  - unfold api_fuel in Hl. nia.
  - intros e -> Hr. destruct (He e eq_refl Hr) as [H1 H2]. split; [lia|done].
Qed.
End retries.

(** A provider error of a session that is not Anthropic's strips Anthropic's beta
    flags: for an OAuth client of another provider, as the Codex client is, a
    retryable error past the last delay removes an optional flag from the global
    list, although the headers of the client never mention the flags, and repeats
    the request with the headers it would have had anyway. *)
Theorem foreign_errors_strip_flags `{Platform} {W : Type} (p : LLMProvider W) (c : callbacks_of)
    (rc : retry_clock (W:=W)) (llm : LLMClient) (sid : string) (delays : list Z) (request : LLMRequest)
    (attempt : nat) (e : exn) (s : wire W) (flag : string) :
  is_oauth llm = true -> cl_provider llm <> "anthropic" -> is_retryable_error p e = true ->
  (length delays <= attempt)%nat -> last (optional_betas (_active_betas s)) = Some flag ->
  exists rq t, after_error p c rc llm sid delays request attempt e s =
      (set_betas (filter (fun x => x <> flag) (_active_betas s)) s, Ok (rq, 0, t)) /\
    resembles request rq /\
    forall s' : wire W, build_request_headers llm (Some sid) [] s' = (s', Ok (default [] (rq_extra_headers rq))).
Proof.
  intros Ho Hp Hr Hd Hl. apply lookup_ge_None_2 in Hd.
  assert (Hh : forall s' : wire W, build_request_headers llm (Some sid) [] s' =
    (s', Ok (if String.eqb (cl_provider llm) "openai"
             then build_openai_extra_headers (cl_extra_headers llm) (cl_auth_mode llm) (Some sid) []
             else jupdate (cl_extra_headers llm) []))).
  { intros s'. unfold build_request_headers, get_extra_headers. rewrite Ho. cbn [negb orb].
    apply String.eqb_neq in Hp. by rewrite Hp. }
  unfold after_error, _degrade_betas, bind, gets, get, modify, ret. rewrite Hr, Hd, Ho. cbn [negb].
  rewrite Hl, Hh. eexists _, _. split; [done|]. split; [unfold resembles; split_and!; try done; by right|].
  intros s'. by rewrite Hh.
Qed.

(** ** Streams *)

(** What was streamed before the run was cancelled. *)
Fixpoint until_cancelled (ticks : list stream_tick) : list stream_tick :=
  match ticks with
  | [] => []
  | t :: rest => if cancelled_then t then [] else t :: until_cancelled rest
  end.

Definition texts (ticks : list stream_tick) : list string :=
  ticks ≫= fun t => match event t with Text "" => [] | Text s => [s] | _ => [] end.

(** Cancellation cuts a stream: the user is given exactly the texts that came
    before the run was cancelled, in their order, and the call answers with the
    cancelled result exactly when some event came after that. *)
Theorem streamed_until_cancelled {W : Type} (activity : bool) (t0 : Z) (ticks : list stream_tick)
    (st : stream_state) (s : wire W) :
  let c := {| cancel_event := true; on_stream_activity := activity; on_stream_delta := PublicSink |} in
  public_deltas (stream_events c t0 ticks st s).1 = public_deltas s ++ texts (until_cancelled ticks) /\
  (stream_events c t0 ticks st s).2 = Ok (existsb cancelled_then ticks).
Proof.
  revert st s. induction ticks as [|t rest IH]; intros st s; [by rewrite app_nil_r|].
  cbn [stream_events until_cancelled existsb cancel_event]. destruct (cancelled_then t); cbn [andb orb].
  { by rewrite app_nil_r. }
  set (c := {| cancel_event := true; on_stream_activity := activity; on_stream_delta := PublicSink |}) in *.
  set (m := match event t with Text _ => _ | _ => _ end).
  assert (Hm : exists s1, m s = (s1, Ok tt) /\ public_deltas s1 = public_deltas s ++ texts [t]).
  { subst m. unfold texts. cbn [mbind list_bind]. rewrite app_nil_r.
    destruct (event t) as [| |[|a x]|]; (eexists; split; [reflexivity|]); cbn; by rewrite ?app_nil_r. }
  destruct Hm as (s1 & Em & Hd). change (t :: until_cancelled rest) with ([t] ++ until_cancelled rest).
  unfold texts in *. rewrite bind_app, app_assoc, <- Hd. unfold bind. rewrite Em. fold (@bind (wire W)).
  destruct (on_stream_activity c); [|apply IH].
  destruct (report_progress _ _ _) as [st' [a|]]; unfold bind, modify, ret.
  - destruct (IH st' (note_activity a s1)) as [-> ->]. done.
  - apply IH.
Qed.

(** ** Witnesses *)

Definition server_down : exn :=
  ApiError {| error_class := "APIStatusError"; error_causes := []; error_message := "Internal server error";
              error_attrs := []; error_status := Some 500%Z; error_carries := None |}.

(** A provider that is down; the world is its clock. *)
Definition down_provider : LLMProvider Z :=
  {| create := fun _ => raise server_down; stream := fun _ => raise server_down;
     is_retryable_error := fun _ => true; is_api_error := fun _ => true;
     time := fun w => w; sleep := fun d w => (w + 1000 * d)%Z |}.

Definition oauth_client (provider : string) : LLMClient :=
  {| cl_provider := provider; cl_auth_mode := None; is_oauth := true; cl_extra_headers := [] |}.
Definition no_callbacks : callbacks_of :=
  {| cancel_event := false; on_stream_activity := false; on_stream_delta := NoSink |}.
Definition no_dates : retry_clock (W:=Z) := {| float_millis := fun _ => None; date_millis := fun _ _ => None |}.
Definition demo_llm_request : LLMRequest :=
  {| rq_model := "m"; rq_messages := []; rq_max_output_tokens := None; rq_system := JNull; rq_tools := None;
     rq_reasoning_effort := None; rq_cache_key := None; rq_cache_retention := None; rq_extra_headers := None;
     rq_response_format := None; rq_operation_type := None |}.
Definition fresh_wire : wire Z := Build_wire _OAUTH_BETA_FLAGS_FALLBACK 0%Z [] [] [] [].

(** Sixteen requests to a provider that is down: four for each of the five flags'
    three degradations and the start. *)
Lemma api_calls_bounded_witness :
  let '(s', r) := async_api_call_with_retry (H := demo_platform) down_provider no_callbacks no_dates
    (oauth_client "anthropic") "s" [2000; 5000; 10000]%Z demo_llm_request 0 fresh_wire in
  length (sent s') = 16 /\ wire_world s' = 68000000%Z /\ _active_betas s' = _ESSENTIAL_BETAS /\
  exists new, sent s' = demo_llm_request :: new /\ Forall (resembles demo_llm_request) new.
Proof.
  destruct (async_api_call_with_retry _ _ _ _ _ _ _ _ _) as [s' r] eqn:E.
  pose proof (api_calls_bounded (H := demo_platform) down_provider no_callbacks no_dates
    (oauth_client "anthropic") "s" [2000; 5000; 10000]%Z demo_llm_request 0 fresh_wire s' r E) as (_ & new & Hn & _ & Ha & _).
  vm_compute in E. injection E as <- <-. split_and!; [reflexivity..|]. exists new. split; [exact Hn|exact Ha].
Defined.

Lemma foreign_errors_strip_flags_witness : exists rq t,
  after_error (H := demo_platform) down_provider no_callbacks no_dates (oauth_client "openai") "s" [] demo_llm_request 0
    server_down fresh_wire =
    (set_betas ["claude-code-20250219"; "oauth-2025-04-20"; "prompt-caching-2024-07-31";
                "interleaved-thinking-2025-05-14"] fresh_wire, Ok (rq, 0, t)).
Proof.
  destruct (foreign_errors_strip_flags (H := demo_platform) down_provider no_callbacks no_dates (oauth_client "openai")
    "s" [] demo_llm_request 0 server_down fresh_wire "fine-grained-tool-streaming-2025-05-14")
    as (rq & t & E & _).
  - reflexivity.
  - discriminate.
  - reflexivity.
  - cbn. lia.
  - vm_compute. reflexivity.
  - exists rq, t. rewrite E. vm_compute. reflexivity.
Defined.
