(* ===== verification/AgentLoop.v ===== *)
(** The agent loop, [run_agent_async] of brain/systems/runs/direct_agent.py: turns
    of the model, its answers and tool calls, guidance and notices that arrive
    meanwhile, compaction, fallback models, and what the run leaves behind.

    The loop's local variables and the objects it changes are the state of the
    monad.  What it calls outside the modelled parts is [services]: the clients of
    the providers, the cancel event, guidance and notices, and the persistence hooks,
    all on the world [W] in which tool handlers run.  Telemetry and log lines are
    left out. *)
From S2P Require Import Prelude.
From S2P Require Import PyStr.
From S2P Require Import Json.
From S2P Require Import JsonText.
From S2P Require Import Status.
From S2P Require Import RunCreate.
From S2P Require Import RunMessages.
From S2P Require Import LoopControl.
From S2P Require Import ToolExecution.
From S2P Require Import Models.
From S2P Require Import ContextBudget.
From S2P Require Import Sessions.
From S2P Require Import Compaction.
From S2P Require Import SemanticCompaction.
From S2P Require Import WindowPolicy.
From S2P Require Import ThreadHandoff.
From S2P Require Import ProviderErrors.
From S2P Require Import ProviderCall.
Open Scope string_scope.
Open Scope bool_scope.
Open Scope list_scope.

(** * Helpers *)

Definition _MAX_PERSISTED_MESSAGES : Z := 40.
Definition _API_RETRY_DELAYS : list Z := [2000; 5000; 10000]%Z.
Definition _PROVIDER_ERROR_TEXT_RETRY_DELAYS : list Z := [1000]%Z.

Definition _normalize_model (model : string) : string := remove_first_prefix provider_prefixes model.

(** [metadata.get(key)] as an integer. *)
Definition _metadata_int (metadata : dict) (key : string) (dflt : Z) : Z :=
  match jget_or_null key metadata with JNull => dflt | v => default dflt (py_int v) end.

Definition tool_name_of (tool : json) : string := strip (str_or_empty (block_field "name" tool)).

Definition filter_tools (tools : option (list json)) (disabled : list string) : option (list json) :=
  match disabled with
  | [] => tools
  | _ => Some (filter (fun tool => tool_name_of tool ∉ disabled) (default [] tools))
  end.

Definition filter_handlers {W} (surface : tool_surface W) (disabled : list string) : tool_surface W :=
  {| tool_handlers := filter (fun nh => nh.1 ∉ disabled) (tool_handlers surface);
     brain_tool_names := brain_tool_names surface; gated_tool_names := gated_tool_names surface;
     parallel_safe_tool_names := parallel_safe_tool_names surface; traced := traced surface |}.

Definition _build_reasoning_effort (thinking : option string) : option string * Z :=
  match thinking with
  | None | Some "" | Some "none" => (None, 16384%Z)
  | Some effort => (Some effort, 32768%Z)
  end.

Definition _tool_is_available (tools : option (list json)) (tool_name : string) : bool :=
  negb (String.eqb tool_name "") &&
  existsb (fun tool => is_obj tool && py_eqb (block_field "name" tool) (JStr tool_name)) (default [] tools).

(** The texts of an assistant message; joining what is not a string raises. *)
Definition block_texts (content : json) : result (list string) :=
  match content with
  | JList blocks =>
      mapM (fun b => match default (JStr "") (match b with JObj d => jget "text" d | _ => None end) with
                     | JStr t => Ok t
                     | _ => Err (TypeError "sequence item 0: expected str instance")
                     end)
        (filter (fun b => is_obj b = true /\ has_type "text" b = true) blocks)
  | JObj _ => Ok []
  | _ => Err (TypeError "object is not iterable")
  end.

(** [_extract_text] of systems/sessions/harvest.py, on the reversed messages. *)
Fixpoint extract_reversed (messages : list message) : result string :=
  match messages with
  | [] => Ok ""
  | msg :: rest =>
      if has_role "assistant" msg then
        match default (JList []) (jget "content" msg) with
        | JStr text => Ok text
        | content =>
            texts ← block_texts content;
            match texts : list string with [] => extract_reversed rest | _ => Ok (join newline texts) end
        end
      else extract_reversed rest
  end.
Definition _extract_text (messages : list message) : result string := extract_reversed (rev messages).

Definition redacted_source (source : dict) : json :=
  JObj [("type", JStr "redacted");
        ("media_type", jor (jget_or_null "media_type" source) (jget_or_null "mime_type" source));
        ("description", JStr "Inline image data omitted from persisted session.")].

Definition without_binary (block : json) : json :=
  match block with
  | JObj d =>
      match jget "source" d with
      | Some (JObj source) =>
          if has_type "image" block && truthy (jget_or_null "data" source)
          then JObj (jset "source" (redacted_source source) d) else block
      | _ => block
      end
  | _ => block
  end.

Definition _messages_without_inline_attachment_binary (messages : list message) : list message :=
  (fun msg => match jget "content" msg with
              | Some (JList blocks) => jset "content" (JList (without_binary <$> blocks)) msg
              | _ => msg
              end) <$> messages.

Definition _content_without_cache_control (content : json) : json :=
  match content with JList blocks => JList (clear_block <$> blocks) | _ => content end.

Definition _same_user_message (left right : message) : bool :=
  let left_content := jget_or_null "content" left in
  let right_content := jget_or_null "content" right in
  if negb (py_eqb (jget_or_null "role" left) (jget_or_null "role" right)) then false
  else if py_eqb left_content right_content then true
  else if py_eqb (_content_without_cache_control left_content) (_content_without_cache_control right_content) then true
  else match right_content with
       | JStr text => py_eqb (_content_without_cache_control left_content) (JList [text_block text])
       | _ => false
       end.

(** The last message that is the current one moves to the end. *)
Fixpoint move_to_end (current : message) (messages : list message) : option (list message) :=
  match messages with
  | [] => None
  | msg :: rest =>
      match move_to_end current rest with
      | Some moved => Some (msg :: moved)
      | None => if _same_user_message msg current then Some (rest ++ [msg]) else None
      end
  end.

Definition _ensure_current_message_last (messages : list message) (current : message) : list message :=
  default (messages ++ [current]) (move_to_end current messages).

(** [effective_routing_snapshot] of routing_metadata.py, with a known provider. *)
Record routing : Type := {
  routed_model : string;
  routed_effort : string;
  routed_provider : string;
  routed_auth_mode : option string }.

Definition effective_routing_snapshot (model : string) (effort : option string) (provider : string)
    (auth_mode : option string) : routing :=
  let resolved_provider := lower (strip provider) in
  let model_name := remove_first_prefix provider_prefixes (strip model) in
  {| routed_model := if String.eqb model_name "local" then model_name else resolved_provider +:+ "/" +:+ model_name;
     routed_effort := lower (strip (str_or effort "none"));
     routed_provider := resolved_provider;
     routed_auth_mode := match auth_mode with
                         | Some mode => some_text (strip mode)
                         | None => None
                         end |}.

(** * retry.py: what a response's text means for the run *)

Definition _spawned_worker_invocation (metadata : dict) (tool_call_source : string) : bool :=
  let provenance := as_dict (jget_or_null "execution_provenance" metadata) in
  String.eqb tool_call_source "worker" &&
  (match jget_or_null "spawned_by_tool" provenance with JBool b => b | _ => false end
   || String.eqb (str_or_empty (jget_or_null "origin" provenance)) "spawn_worker").

Fixpoint _tool_history_safety `{ToolCatalog} (tool_calls_made : list string) : string :=
  match tool_calls_made with
  | [] => "read_only"
  | tool_name :: rest =>
      match get_tool_registration tool_name with
      | None => "unknown"
      | Some registration =>
          if is_write_side_effect_class (side_effect_class registration) then "write"
          else _tool_history_safety rest
      end
  end.

Record ResponseTextRetryDecision : Type := {
  decided_kind : option string;
  should_retry : bool;
  inspect_response : bool;
  withhold_stream : bool;
  spawned_worker : bool;
  tool_history_safety : string }.

Definition response_text_retry_decision `{ToolCatalog} (response_text : string) (scheduled_result_contract : bool)
    (metadata : dict) (tool_call_source : string) (tool_calls_made : list string) : ResponseTextRetryDecision :=
  let spawned := _spawned_worker_invocation metadata tool_call_source in
  let history_safety := _tool_history_safety tool_calls_made in
  let inspect := scheduled_result_contract || spawned in
  let detected_kind := if inspect && negb (String.eqb (strip response_text) "")
                       then provider_error_kind response_text else None in
  let retry_safe := scheduled_result_contract || (spawned && String.eqb history_safety "read_only") in
  {| decided_kind := detected_kind;
     should_retry := retry_safe && is_retryable_provider_error detected_kind;
     inspect_response := inspect; withhold_stream := inspect; spawned_worker := spawned;
     tool_history_safety := history_safety |}.

(** * The state of a run *)

(** The active context and, when the session is persisted, the raw archive. *)
Record transcript : Type := { active : list message; archive : option (list message) }.

(** The model in use, its client and headers, and its context window policy. *)
Record route : Type := {
  ro_model : string;
  ro_client : LLMClient;
  ro_headers : dict;
  ro_policy : ContextWindowPolicy;
  attempted_models : list string;
  effective_routing : routing }.

(** The tools on offer and what executing them changes. *)
Record tooling (W : Type) : Type := {
  tl_tools : option (list json);
  tl_surface : tool_surface W;
  tl_control : RunControlPolicy;
  tl_gates : GateState;
  tl_made : list string;
  tl_context : AgentContext;
  tl_callbacks : list (string * dict * string);
  tl_trace : list traced_call }.
Arguments tl_tools {W} _.
Arguments tl_surface {W} _.
Arguments tl_control {W} _.
Arguments tl_gates {W} _.
Arguments tl_made {W} _.
Arguments tl_context {W} _.
Arguments tl_callbacks {W} _.
Arguments tl_trace {W} _.
Arguments Build_tooling {W} _ _ _ _ _ _ _ _.

Record agent (W : Type) : Type := {
  ag_transcript : transcript;
  ag_route : route;
  ag_tooling : tooling W;
  ag_tokens : TokenAccumulator;
  ag_notices : list string;
  ag_wire : wire W }.
Arguments ag_transcript {W} _.
Arguments ag_route {W} _.
Arguments ag_tooling {W} _.
Arguments ag_tokens {W} _.
Arguments ag_notices {W} _.
Arguments ag_wire {W} _.
Arguments Build_agent {W} _ _ _ _ _ _.

(** [RunBudgetNotice]. *)
Record RunBudgetNotice : Type := { notice_key : string; notice_message : message }.

(** What the run calls outside: the client for a model and its SDK, the cancel
    event, guidance and budget notices, the replies staged by tools, the
    persistence hooks, and the model that summarizes transcripts. *)
Record services (W : Type) : Type := {
  provider_of : LLMClient -> LLMProvider W;
  resolve_client : string -> M W LLMClient;
  cancel_event_is_set : M W bool;
  live_guidance_loader : option (M W (list string));
  load_budget_notices_sent : M W (list string);
  load_due_budget_notices : list string -> M W (list RunBudgetNotice);
  record_budget_notice_sent : RunBudgetNotice -> M W bool;
  staged_replies : W -> list string;
  checkpoint_compactor : W -> LLMClient -> string -> SemanticCompactor;
  handoff_compactor : W -> LLMClient -> string -> SemanticCompactor;
  load_session : M W (list message * option string);
  load_session_handoff : M W (option dict);
  save_session_handoff : dict -> M W unit;
  save_session : list message -> option string -> TokenAccumulator -> M W unit;
  harvest_session : list message -> option string -> M W unit;
  memory_org_for_user : M W (option string);
  clock_of : retry_clock (W := W) }.
Arguments provider_of {W} _.
Arguments resolve_client {W} _.
Arguments cancel_event_is_set {W} _.
Arguments live_guidance_loader {W} _.
Arguments load_budget_notices_sent {W} _.
Arguments load_due_budget_notices {W} _.
Arguments record_budget_notice_sent {W} _.
Arguments staged_replies {W} _.
Arguments checkpoint_compactor {W} _.
Arguments handoff_compactor {W} _.
Arguments load_session {W} _.
Arguments load_session_handoff {W} _.
Arguments save_session_handoff {W} _.
Arguments save_session {W} _.
Arguments harvest_session {W} _.
Arguments memory_org_for_user {W} _.
Arguments clock_of {W} _.

(** The arguments of the run that do not change. *)
Record invocation : Type := {
  iv_session_id : string;
  iv_user_message : message;
  iv_metadata : dict;
  iv_tool_call_source : string;
  iv_operation_type : string;
  iv_thinking : option string;
  iv_scheduled : bool;
  iv_cache_system_prompt : bool;
  iv_persist_session : bool;
  iv_skip_harvest : bool;
  iv_defer_thread_handoff : bool;
  iv_required_tool : option (string * string);
  iv_callbacks : callbacks_of;
  iv_semantic_compactor : option SemanticCompactor;
  iv_handoff_compactor : option SemanticCompactor;
  iv_run_id : option Z;
  iv_org_id : option string;
  iv_environ : string -> option string }.

Section setters.
Context {W : Type}.
Implicit Types s : agent W.

Definition set_transcript (t : transcript) s : agent W :=
  Build_agent t (ag_route s) (ag_tooling s) (ag_tokens s) (ag_notices s) (ag_wire s).
Definition set_route (r : route) s : agent W :=
  Build_agent (ag_transcript s) r (ag_tooling s) (ag_tokens s) (ag_notices s) (ag_wire s).
Definition set_tooling (t : tooling W) s : agent W :=
  Build_agent (ag_transcript s) (ag_route s) t (ag_tokens s) (ag_notices s) (ag_wire s).
Definition set_tokens (t : TokenAccumulator) s : agent W :=
  Build_agent (ag_transcript s) (ag_route s) (ag_tooling s) t (ag_notices s) (ag_wire s).
Definition set_notices (n : list string) s : agent W :=
  Build_agent (ag_transcript s) (ag_route s) (ag_tooling s) (ag_tokens s) n (ag_wire s).
Definition set_wire (w : wire W) s : agent W :=
  Build_agent (ag_transcript s) (ag_route s) (ag_tooling s) (ag_tokens s) (ag_notices s) w.

Definition set_active (l : list message) s : agent W :=
  set_transcript {| active := l; archive := archive (ag_transcript s) |} s.
Definition messages s : list message := active (ag_transcript s).

Definition set_policy (p : ContextWindowPolicy) s : agent W :=
  let r := ag_route s in
  set_route {| ro_model := ro_model r; ro_client := ro_client r; ro_headers := ro_headers r; ro_policy := p;
               attempted_models := attempted_models r; effective_routing := effective_routing r |} s.

(** The operations of the parts, on the whole state. *)
Definition on_wire {A} (m : M (wire W) A) : M (agent W) A := fun s =>
  let '(w, r) := m (ag_wire s) in (set_wire w s, r).
Definition outside {A} (m : M W A) : M (agent W) A := on_wire (in_world m).
Definition on_policy {A} (m : M ContextWindowPolicy A) : M (agent W) A := fun s =>
  let '(p, r) := m (ro_policy (ag_route s)) in (set_policy p s, r).

(** [_append_message_with_archive]. *)
Definition _append_message_with_archive (msg : message) s : agent W :=
  let t := ag_transcript s in
  set_transcript {| active := active t ++ [msg]; archive := (fun l => l ++ [msg]) <$> archive t |} s.
End setters.
Arguments messages {W} s /.

(** [AgentResult], without the duration and the results of workers. *)
Record AgentResult : Type := {
  ar_output : string;
  ar_success : bool;
  ar_session_id : string;
  ar_tokens : TokenAccumulator;
  ar_tool_calls : list string;
  ar_error : option string;
  ar_exception_type : option string;
  ar_termination : option LoopTermination;
  ar_handoff_task : bool;
  ar_routing : option routing }.

(** How the [try] of a model call ends: with a response and the kind of provider
    error its text shows, or with another round. *)
Inductive next_step : Type :=
| Done (response : LLMResponse) (detected : option string)
| Again (request : LLMRequest) (overflow_retry_used : bool) (text_attempt : nat) (call_start : Z).

Inductive turn_end : Type :=
| NextTurn
| LoopBreak (t : option LoopTermination)
| Returned (r : AgentResult).

Definition guidance_message (items : list string) : message :=
  [("role", JStr "user");
   ("content", JStr ("[Live user guidance received while you were working]" +:+ newline +:+
      "Use this to adjust the current run. Preserve useful progress; do not restart unless the user explicitly asks."
      +:+ newline +:+ newline +:+ join (newline +:+ newline) items))].

Definition assistant_message (content : list json) : message :=
  [("role", JStr "assistant"); ("content", JList content)].
Definition tool_results_message (results : list dict) : message :=
  [("role", JStr "user"); ("content", JList (JObj <$> results))].
Definition user_note (text : string) : message := [("role", JStr "user"); ("content", JStr text)].

(** What [fallback_model_for] can answer, as the run names models. *)
Definition fallback_targets : list string :=
  remove_dups (_normalize_model <$> (omap availability_fallback MODEL_CATALOG ++ ["openai/gpt-5.6-sol"])).

Section loop.
Context `{Platform} `{ToolCatalog} {W : Type} `{BatchExecutor W} (sv : services W) (iv : invocation) (system : json).
Implicit Types s : agent W.

Definition reasoning_effort : option string := (_build_reasoning_effort (iv_thinking iv)).1.
Definition max_tokens : Z := (_build_reasoning_effort (iv_thinking iv)).2.
Definition provider_name s : string := cl_provider (ro_client (ag_route s)).
Definition world_of s : W := wire_world (ag_wire s).

Definition report (a : activity) : M (agent W) unit :=
  when_ (on_stream_activity (iv_callbacks iv)) (on_wire (modify (note_activity a))).
Definition now_ : M (agent W) Z := gets (fun s => time (provider_of sv (ro_client (ag_route s))) (world_of s)).
Definition pause (ms : Z) : M (agent W) unit := fun s =>
  (set_wire (set_wire_world (sleep (provider_of sv (ro_client (ag_route s))) ms (world_of s)) (ag_wire s)) s, Ok tt).

(** ** What arrives between the turns *)

Definition _append_live_guidance_async : M (agent W) nat :=
  match live_guidance_loader sv with
  | None => ret 0%nat
  | Some load =>
      items <- catch (outside load) (fun _ => ret []) ;;
      match filter (fun t => t <> "") (strip <$> items) : list string with
      | [] => ret 0%nat
      | clean_items =>
          modify (fun s => set_active (messages s ++ [guidance_message clean_items]) s) ;;;
          report ReceivedGuidance ;;;
          ret (length clean_items)
      end
  end.

(** The guidance goes into the archive as well. *)
Definition archive_last (before : nat) s : agent W :=
  match last (messages s) with
  | Some msg =>
      if Nat.ltb before (length (messages s))
      then set_transcript {| active := messages s;
                             archive := (fun l => l ++ [msg]) <$> archive (ag_transcript s) |} s
      else s
  | None => s
  end.
Definition take_guidance : M (agent W) nat :=
  before <- gets (fun s => length (messages s)) ;;
  count <- _append_live_guidance_async ;;
  when_ (negb (Nat.eqb count 0)) (modify (archive_last before)) ;;;
  ret count.

Definition take_notice (notice : RunBudgetNotice) : M (agent W) unit :=
  recorded <- outside (record_budget_notice_sent sv notice) ;;
  when_ recorded (modify (_append_message_with_archive (notice_message notice))) ;;;
  modify (fun s => set_notices (ag_notices s ++ [notice_key notice]) s).
Definition take_notices : M (agent W) unit :=
  sent <- gets ag_notices ;;
  due <- outside (load_due_budget_notices sv sent) ;;
  for_each take_notice due.

(** ** The context of the next call *)

Definition semantic_compactor_now s : SemanticCompactor :=
  default (checkpoint_compactor sv (world_of s) (ro_client (ag_route s)) (ro_model (ag_route s)))
    (iv_semantic_compactor iv).

Definition _compact_active_context (phase : string) (force emergency : bool)
    : M (agent W) ContextCompactionOutcome :=
  s <- get ;;
  outcome <- on_policy (compact (messages s) (iv_session_id iv) phase system (tl_tools (ag_tooling s))
               _MAX_PERSISTED_MESSAGES (Some (semantic_compactor_now s)) force emergency) ;;
  modify (set_active (out_messages outcome)) ;;;
  ret outcome.

Definition sanitize_messages : M (agent W) unit :=
  s <- get ;;
  paired <- lift_result (_sanitize_tool_pairs (messages s)) ;;
  modify (set_active paired).

(** The current message is last in a scheduled run's first turn; Anthropic caches
    up to the last message. *)
Definition arrange_context (turn : nat) s : agent W :=
  let s := if iv_scheduled iv && Nat.eqb turn 0
           then set_active (_ensure_current_message_last (messages s) (iv_user_message iv)) s else s in
  if String.eqb (provider_name s) "anthropic" && iv_cache_system_prompt iv && Nat.leb 2 (length (messages s))
  then let cleared := _clear_message_cache_breakpoints (messages s) in
       set_active (alter _set_cache_breakpoint (length cleared - 1)%nat cleared) s
  else s.

Definition request_now s : LLMRequest :=
  build_api_request (ro_model (ag_route s)) (messages s) max_tokens system (tl_tools (ag_tooling s)) reasoning_effort
    (ro_headers (ag_route s)) (provider_name s) (iv_session_id iv) (iv_persist_session iv)
    (iv_cache_system_prompt iv) (Some (iv_operation_type iv)).

Definition policy_now s : ContextWindowPolicy :=
  resolve_policy (iv_environ iv) (ro_model (ag_route s)) (Some (provider_name s)) reasoning_effort (Some max_tokens)
    (Z.to_nat (tools_length (tl_tools (ag_tooling s)))).
Definition admit_now (phase : string) : M (agent W) unit :=
  s <- get ;;
  on_policy (admit_ (messages s) system (tl_tools (ag_tooling s)) (iv_session_id iv) phase) ;;;
  ret tt.

(** ** One call of the model, with its recoveries *)

(** [withheld] is the decision before the call: its text is judged before the user
    sees it. *)
Definition sink_of (withheld : bool) : delta_sink :=
  if iv_scheduled iv then NoSink
  else if withheld && negb (bool_decide (on_stream_delta (iv_callbacks iv) = NoSink)) then HeldSink
  else on_stream_delta (iv_callbacks iv).

Definition call_provider (withheld : bool) (request : LLMRequest) (call_start : Z)
    : M (agent W) (option LLMResponse) := fun s =>
  let client := ro_client (ag_route s) in
  on_wire (modify (set_held []) ;;;
           async_api_call_with_retry (provider_of sv client)
             {| cancel_event := cancel_event (iv_callbacks iv);
                on_stream_activity := on_stream_activity (iv_callbacks iv);
                on_stream_delta := sink_of withheld |}
             (clock_of sv) client (iv_session_id iv) _API_RETRY_DELAYS request call_start) s.

(** The deltas that were withheld go out in their order. *)
Definition release_deltas : M (agent W) unit :=
  on_wire (modify (fun w => fold_left (fun acc d => publish_delta d acc) (held_deltas w) w)).

Definition attempt_call (withheld : bool) (request : LLMRequest) (overflow_used : bool) (text_attempt : nat)
    (call_start : Z) : M (agent W) next_step :=
  answer <- call_provider withheld request call_start ;;
  match answer with
  | None => raise (AttributeError "'AgentResult' object has no attribute 'content'")
  | Some response =>
      content <- lift_result (_content_to_dicts (model_dump <$> rs_content response)) ;;
      text <- lift_result (_extract_text [assistant_message content]) ;;
      made <- gets (fun s => tl_made (ag_tooling s)) ;;
      let decision := response_text_retry_decision (strip text) (iv_scheduled iv) (iv_metadata iv)
                        (iv_tool_call_source iv) made in
      match decided_kind decision with
      | Some kind =>
          match _PROVIDER_ERROR_TEXT_RETRY_DELAYS !! text_attempt with
          | Some delay =>
              if should_retry decision then
                report (ProviderRetry delay) ;;;
                pause delay ;;;
                now <- now_ ;;
                ret (Again request overflow_used (S text_attempt) now)
              else ret (Done response (Some kind))
          | None => ret (Done response (Some kind))
          end
      | None =>
          when_ (negb (bool_decide (on_stream_delta (iv_callbacks iv) = NoSink))) release_deltas ;;;
          ret (Done response None)
      end
  end.

(** The next model of the chain, with its client if its provider differs. *)
Definition fall_back (fallback : string) (overflow_used : bool) (text_attempt : nat) : M (agent W) next_step :=
  preferred <- gets (fun s => ro_model (ag_route s)) ;;
  let model := _normalize_model fallback in
  modify (fun s => let r := ag_route s in
    set_route {| ro_model := model; ro_client := ro_client r; ro_headers := ro_headers r; ro_policy := ro_policy r;
                 attempted_models := attempted_models r ++ [model]; effective_routing := effective_routing r |} s) ;;;
  when_ (negb (String.eqb (infer_provider_from_model (iv_environ iv) (Some preferred) None)
                 (infer_provider_from_model (iv_environ iv) (Some fallback) None)))
    (client <- outside (resolve_client sv model) ;;
     headers <- on_wire (build_request_headers client (Some (iv_session_id iv)) []) ;;
     modify (fun s => let r := ag_route s in
       set_route {| ro_model := ro_model r; ro_client := client; ro_headers := headers; ro_policy := ro_policy r;
                    attempted_models := attempted_models r; effective_routing := effective_routing r |} s)) ;;;
  modify (fun s => let r := ag_route s in
    set_route {| ro_model := ro_model r; ro_client := ro_client r; ro_headers := ro_headers r; ro_policy := ro_policy r;
                 attempted_models := attempted_models r;
                 effective_routing := effective_routing_snapshot (ro_model r) (iv_thinking iv) (provider_name s)
                                        (cl_auth_mode (ro_client r)) |} s) ;;;
  report (ModelFallback preferred model) ;;;
  modify (fun s => set_policy (policy_now s) s) ;;;
  admit_now "model_fallback_admission" ;;;
  now <- now_ ;;
  request <- gets request_now ;;
  ret (Again request overflow_used text_attempt now).

(** One emergency compaction when the provider finds the context too long. *)
Definition recover_overflow (turn : nat) (e : exn) (overflow_used : bool) (text_attempt : nat)
    : M (agent W) next_step :=
  if overflow_used || negb (is_context_overflow_error e) then raise e
  else
    outcome <- _compact_active_context "context_overflow_retry" true true ;;
    match out_report outcome with
    | None => raise e
    | Some _ =>
        report CompactedContext ;;;
        modify (arrange_context turn) ;;;
        now <- now_ ;;
        request <- gets request_now ;;
        ret (Again request true text_attempt now)
    end.

Definition recover (turn : nat) (e : exn) (overflow_used : bool) (text_attempt : nat) : M (agent W) next_step :=
  s <- get ;;
  let model := ro_model (ag_route s) in
  match fallback_model_for (Some model) with
  | Some fallback =>
      if negb (str_in (_normalize_model fallback) (attempted_models (ag_route s)))
         && is_model_unavailable_error (iv_environ iv) e (Some model)
      then fall_back fallback overflow_used text_attempt
      else recover_overflow turn e overflow_used text_attempt
  | None => recover_overflow turn e overflow_used text_attempt
  end.

(** [while True]; the bound on its rounds is an argument. *)
Fixpoint call_rounds (fuel : nat) (turn : nat) (withheld : bool) (request : LLMRequest) (overflow_used : bool)
    (text_attempt : nat) (call_start : Z) : M (agent W) (LLMResponse * option string) :=
  match fuel with
  | O => raise (RuntimeError "out of fuel")
  | S fuel =>
      step <- catch (attempt_call withheld request overflow_used text_attempt call_start)
                (fun e => recover turn e overflow_used text_attempt) ;;
      match step with
      | Done response detected => ret (response, detected)
      | Again request overflow_used text_attempt call_start =>
          call_rounds fuel turn withheld request overflow_used text_attempt call_start
      end
  end.

(** One retry of an error text, one compaction, and each fallback model once. *)
Definition rounds_left s (overflow_used : bool) (text_attempt : nat) : nat :=
  (length _PROVIDER_ERROR_TEXT_RETRY_DELAYS - text_attempt)
  + (if overflow_used then 0 else 1)
  + length (filter (fun m => m ∉ attempted_models (ag_route s)) fallback_targets).

Definition call_model (turn : nat) (withheld : bool) (request : LLMRequest) (call_start : Z)
    : M (agent W) (LLMResponse * option string) := fun s =>
  call_rounds (S (rounds_left s false 0)) turn withheld request false 0 call_start s.
(** ** The turns *)

Definition _make_result (output : string) (success : bool) (error exception_type : option string)
    (t : option LoopTermination) (handoff_task : bool) s : AgentResult :=
  {| ar_output := output; ar_success := success; ar_session_id := iv_session_id iv; ar_tokens := ag_tokens s;
     ar_tool_calls := tl_made (ag_tooling s); ar_error := error; ar_exception_type := exception_type;
     ar_termination := t; ar_handoff_task := handoff_task;
     ar_routing := Some (effective_routing (ag_route s)) |}.

Definition cancelled_result s : AgentResult := _make_result "" false (Some "Cancelled by runner") None None false s.

(** What executing the tool calls of a response changed. *)
Definition absorb (w : walk W) s : agent W :=
  let t := ag_tooling s in
  set_wire (set_wire_world (world w) (ag_wire s))
    (set_tooling (Build_tooling (tl_tools t) (tl_surface t) (loop_control w) (gates w) (tool_calls_made w)
                    (agent_context w) (tl_callbacks t ++ callbacks w) (tl_trace t ++ trace w)) s).

Definition withdraw_tools (disabled : list string) s : agent W :=
  let t := ag_tooling s in
  set_tooling (Build_tooling (filter_tools (tl_tools t) disabled) (filter_handlers (tl_surface t) disabled)
                 (tl_control t) (tl_gates t) (tl_made t) (tl_context t) (tl_callbacks t) (tl_trace t)) s.

(** Tools disabled in this turn leave the surface, and the model is told. *)
Definition take_disablements (disablements : list ToolDisablement) : M (agent W) unit :=
  match disablements with
  | [] => ret tt
  | _ =>
      modify (withdraw_tools (d_tool_name <$> disablements)) ;;;
      modify (fun s => set_policy (policy_now s) s) ;;;
      admit_now "tool_surface_admission" ;;;
      for_each (fun d => modify (_append_message_with_archive (user_note (model_note d)))) disablements
  end.

Definition tool_turn (response : LLMResponse) : M (agent W) turn_end :=
  s <- get ;;
  let t := ag_tooling s in
  let w := execute_tool_calls (tl_surface t) (rs_content response) (tl_control t) (tl_gates t) (tl_made t)
             (tl_context t) (world_of s) in
  modify (absorb w) ;;;
  modify (_append_message_with_archive (tool_results_message (tool_results w))) ;;;
  take_disablements (tool_disablements w) ;;;
  match stopped w with
  | Some termination =>
      modify (_append_message_with_archive (default (control_message termination) (transcript_message termination))) ;;;
      ret (LoopBreak (Some termination))
  | None =>
      reminder <- gets (fun s => control_reminder (tl_control (ag_tooling s))) ;;
      (match reminder : option dict with
       | Some note => modify (_append_message_with_archive note)
       | None => ret tt
       end) ;;;
      _compact_active_context "mid_turn" false false ;;;
      ret NextTurn
  end.

(** The end of a turn that calls no tool: late guidance or a tool that routing
    requires ask for another turn. *)
Definition final_turn : M (agent W) turn_end :=
  count <- take_guidance ;;
  if negb (Nat.eqb count 0) then ret NextTurn
  else
    s <- get ;;
    match iv_required_tool iv with
    | Some (tool, text) =>
        if _tool_is_available (tl_tools (ag_tooling s)) tool
           && bool_decide (is_Some (tool_handlers (tl_surface (ag_tooling s)) !! tool))
           && negb (str_in tool (tl_made (ag_tooling s)))
        then modify (_append_message_with_archive (user_note ("[System: " +:+ text +:+ "]"))) ;;; ret NextTurn
        else ret (LoopBreak None)
    | None => ret (LoopBreak None)
    end.

(** What the transcript keeps of a response: an error text only as its sentinel. *)
Definition kept_content (response : LLMResponse) (detected : option string) : result (list json) :=
  content ← _content_to_dicts (model_dump <$> rs_content response);
  Ok (match detected with
      | Some kind => [text_block (safe_provider_error_sentinel (Some kind))]
      | None => content
      end).

Definition prepare_turn (turn : nat) : M (agent W) unit :=
  take_guidance ;;;
  take_notices ;;;
  sanitize_messages ;;;
  _compact_active_context "pre_sampling" false false ;;;
  modify (arrange_context turn).

Definition run_turn (turn : nat) : M (agent W) turn_end :=
  cancelled <- outside (cancel_event_is_set sv) ;;
  if (cancelled : bool) then r <- gets cancelled_result ;; ret (Returned r)
  else
    prepare_turn turn ;;;
    request <- gets request_now ;;
    now <- now_ ;;
    made <- gets (fun s => tl_made (ag_tooling s)) ;;
    let policy := response_text_retry_decision "" (iv_scheduled iv) (iv_metadata iv) (iv_tool_call_source iv) made in
    answer <- call_model turn (withhold_stream policy) request now ;;
    let (response, detected) := answer : LLMResponse * option string in
    modify (fun s => set_tokens (add_turn (ag_tokens s) (rs_usage response)) s) ;;;
    content <- lift_result (kept_content response detected) ;;
    modify (_append_message_with_archive (assistant_message content)) ;;;
    match rs_stop_reason response with
    | END_TURN => final_turn
    | TOOL_USE => tool_turn response
    | _ => ret (LoopBreak None)
    end.

(** [for turn in range(max_turns)]. *)
Fixpoint run_turns (turns turn : nat) : M (agent W) (option LoopTermination + AgentResult) :=
  match turns with
  | O => ret (inl None)
  | S turns =>
      ended <- run_turn turn ;;
      match ended with
      | NextTurn => run_turns turns (S turn)
      | LoopBreak t => ret (inl t)
      | Returned r => ret (inr r)
      end
  end.

(** ** What the run leaves behind *)

(** [async_apply_agent_session_side_effects] of session_effects.py. *)
Definition async_apply_agent_session_side_effects (persistable : list message) (system_prompt : string)
    : M (agent W) unit :=
  let given := str_or (iv_org_id iv) (str_or_empty (jget_or_null "org_id" (iv_metadata iv))) in
  org <- (if String.eqb given "" then outside (memory_org_for_user sv) else ret (Some given)) ;;
  when_ (negb (iv_skip_harvest iv)) (outside (harvest_session sv persistable org)) ;;;
  tokens <- gets ag_tokens ;;
  when_ (iv_persist_session iv) (outside (save_session sv persistable (Some system_prompt) tokens)).

(** The task that brings the handoff up to date after the run. *)
Definition _update_thread_handoff_after_run_async (persistable : list message) (previous : option dict)
    : M (agent W) unit :=
  s <- get ;;
  let compactor := default (handoff_compactor sv (world_of s) (ro_client (ag_route s)) (ro_model (ag_route s)))
                     (iv_handoff_compactor iv) in
  payload <- lift_result (handoff_update (iv_session_id iv) persistable previous (Some compactor) (iv_run_id iv)) ;;
  match payload : option dict with
  | Some d => outside (save_session_handoff sv d)
  | None => ret tt
  end.

Definition persistable_messages s : result (list message) :=
  paired ← _sanitize_tool_pairs (default (messages s) (archive (ag_transcript s)));
  Ok (_messages_without_inline_attachment_binary paired).

Definition finish_run (t : option LoopTermination) (system_prompt : string) (handoff : option dict)
    : M (agent W) AgentResult :=
  s <- get ;;
  extracted <- lift_result (_extract_text (messages s)) ;;
  let staged := filter (fun c => c <> "") (strip <$> staged_replies sv (world_of s)) in
  let output := resolve_loop_output t extracted staged in
  persistable <- lift_result (persistable_messages s) ;;
  async_apply_agent_session_side_effects persistable system_prompt ;;;
  let archived := iv_persist_session iv && bool_decide (is_Some (archive (ag_transcript s))) in
  when_ (archived && negb (iv_defer_thread_handoff iv))
    (_update_thread_handoff_after_run_async persistable handoff) ;;;
  gets (_make_result output true None None t (archived && iv_defer_thread_handoff iv)).
End loop.

(** * The run *)

Definition with_thinking (thinking : option string) (iv : invocation) : invocation :=
  {| iv_session_id := iv_session_id iv; iv_user_message := iv_user_message iv; iv_metadata := iv_metadata iv;
     iv_tool_call_source := iv_tool_call_source iv; iv_operation_type := iv_operation_type iv;
     iv_thinking := thinking; iv_scheduled := iv_scheduled iv;
     iv_cache_system_prompt := iv_cache_system_prompt iv; iv_persist_session := iv_persist_session iv;
     iv_skip_harvest := iv_skip_harvest iv; iv_defer_thread_handoff := iv_defer_thread_handoff iv;
     iv_required_tool := iv_required_tool iv; iv_callbacks := iv_callbacks iv;
     iv_semantic_compactor := iv_semantic_compactor iv; iv_handoff_compactor := iv_handoff_compactor iv;
     iv_run_id := iv_run_id iv; iv_org_id := iv_org_id iv; iv_environ := iv_environ iv |}.

Section run.
Context `{Platform} `{ToolCatalog} {W : Type} `{BatchExecutor W} (sv : services W).

(** [_init_llm_async]: the client given, or the one resolved for the model. *)
Definition _init_llm_async (iv : invocation) (model : string) (resolved : option LLMClient)
    : M (wire W) (LLMClient * dict) :=
  client <- (match resolved with Some c => ret c | None => in_world (resolve_client sv model) end) ;;
  headers <- build_request_headers client (Some (iv_session_id iv)) [] ;;
  ret (client, headers).

(** The model and client of the run: a model whose subscription is not connected
    gives way to its fallback. *)
Record opening : Type := {
  op_model : string;
  op_client : LLMClient;
  op_headers : dict;
  op_attempted : list string;
  op_activity : option activity }.

Definition open_run (iv : invocation) (model : string) (resolved : option LLMClient) : M (wire W) opening :=
  catch
    (ch <- _init_llm_async iv model resolved ;;
     ret {| op_model := model; op_client := ch.1; op_headers := ch.2; op_attempted := [model]; op_activity := None |})
    (fun e =>
       match fallback_model_for (Some model) with
       | Some fallback =>
           if is_missing_required_model_auth e then
             let used := _normalize_model fallback in
             ch <- _init_llm_async iv used resolved ;;
             ret {| op_model := used; op_client := ch.1; op_headers := ch.2; op_attempted := [model; used];
                    op_activity := Some (ModelFallback model used) |}
           else raise e
       | None => raise e
       end).

Definition initial_control (environ : string -> option string) : RunControlPolicy :=
  make_control None None None _SEMANTIC_STALL_THRESHOLD _UNCHANGED_RESULT_THRESHOLD _STUCK_BREAK_THRESHOLD environ.

Definition start_agent (iv : invocation) (o : opening) (tools : option (list json)) (surface : tool_surface W)
    (preloaded : bool) (w : wire W) : agent W :=
  let effort := (_build_reasoning_effort (iv_thinking iv)) in
  {| ag_transcript := {| active := []; archive := None |};
     ag_route := {| ro_model := op_model o; ro_client := op_client o; ro_headers := op_headers o;
                    ro_policy := resolve_policy (iv_environ iv) (op_model o) (Some (cl_provider (op_client o)))
                                   effort.1 (Some effort.2) (Z.to_nat (tools_length tools));
                    attempted_models := op_attempted o;
                    effective_routing := effective_routing_snapshot (op_model o) (iv_thinking iv)
                      (cl_provider (op_client o)) (cl_auth_mode (op_client o)) |};
     ag_tooling := Build_tooling tools surface (initial_control (iv_environ iv))
                     {| brain := preloaded; skills := preloaded; continuation_corrections := 0 |} []
                     {| tool_calls_log := []; recent_tool_results := [] |} [] [];
     ag_tokens := no_tokens; ag_notices := []; ag_wire := w |}.

(** The [try] of the run, from the loaded session on. *)
Definition run_body (iv : invocation) (o : opening) (given_prompt : string) (max_turns : nat)
    : M (agent W) AgentResult :=
  (match op_activity o with Some a => report iv a | None => ret tt end) ;;;
  loaded <- (if iv_persist_session iv then outside (load_session sv) else ret ([], None)) ;;
  sent <- outside (load_budget_notices_sent sv) ;;
  modify (set_notices sent) ;;;
  handoff <- (if iv_persist_session iv then outside (load_session_handoff sv) else ret None) ;;
  let system_prompt := if String.eqb given_prompt "" then str_or loaded.2 "" else given_prompt in
  s <- get ;;
  let system := apply_provider_system_cache_policy (provider_name s) (build_system_blocks system_prompt)
                  (iv_cache_system_prompt iv) in
  on_policy (admit_ [iv_user_message iv] system (tl_tools (ag_tooling s)) (iv_session_id iv) "startup_admission") ;;;
  started <- (if iv_persist_session iv then
                let compactor := default (handoff_compactor sv (world_of s) (op_client o) (op_model o))
                                   (iv_handoff_compactor iv) in
                lift_result (_prepare_thread_startup_context loaded.1 handoff (iv_session_id iv)
                  (_thread_handoff_recent_message_limit (iv_metadata iv) (iv_environ iv)) (Some compactor)
                  (iv_scheduled iv))
              else ret (loaded.1, handoff)) ;;
  modify (set_transcript {| active := started.1;
                            archive := if iv_persist_session iv then Some loaded.1 else None |}) ;;;
  modify (_append_message_with_archive (iv_user_message iv)) ;;;
  admit_now iv system "active_context_admission" ;;;
  ended <- run_turns sv iv system max_turns 0 ;;
  match ended with
  | inr r => ret r
  | inl t => finish_run sv iv t system_prompt started.2
  end.

Definition failed_result (iv : invocation) (api : bool) (e : exn) (s : agent W) : AgentResult :=
  _make_result iv "" false (Some (if api then "API error: " +:+ exn_str e else exn_str e)) (Some (exn_class e))
    None false s.

(** A result before the run has a client: nothing was counted or routed yet. *)
Definition early_result (iv : invocation) (error : string) (exception_type : option string) : AgentResult :=
  {| ar_output := ""; ar_success := false; ar_session_id := iv_session_id iv; ar_tokens := no_tokens;
     ar_tool_calls := []; ar_error := Some error; ar_exception_type := exception_type; ar_termination := None;
     ar_handoff_task := false; ar_routing := None |}.

Definition run_agent_async (iv : invocation) (model : string) (resolved : option LLMClient) (given_prompt : string)
    (tools : option (list json)) (surface : tool_surface W) (preloaded : bool) (max_turns : nat) (w : wire W)
    : wire W * AgentResult :=
  match in_world (cancel_event_is_set sv) w with
  | (w, Err e) => (w, early_result iv (exn_str e) (Some (exn_class e)))
  | (w, Ok true) => (w, early_result iv "Cancelled by runner" None)
  | (w, Ok false) =>
      match open_run iv (_normalize_model model) resolved w with
      | (w, Err e) => (w, early_result iv (exn_str e) (Some (exn_class e)))
      | (w, Ok o) =>
          let iv := with_thinking (normalize_model_effort (Some (op_model o)) (iv_thinking iv)) iv in
          let s := start_agent iv o tools surface preloaded w in
          match run_body iv o given_prompt max_turns s with
          | (s, Ok r) => (ag_wire s, r)
          | (s, Err e) =>
              (ag_wire s, failed_result iv (is_api_error (provider_of sv (ro_client (ag_route s))) e) e s)
          end
      end
  end.
End run.
