(* ===== verification/AgentFrame.v ===== *)
(** What the parts of the agent loop leave alone: between two calls of the model
    nothing is sent and the archive only grows; a call of the model sends requests
    and leaves transcript and tools as they are. *)
From S2P Require Import Prelude.
From S2P Require Import PyStr.
From S2P Require Import Json.
From S2P Require Import Status.
From S2P Require Import RunCreate.
From S2P Require Import LoopControl.
From S2P Require Import ToolExecution.
From S2P Require Import Models.
From S2P Require Import Sessions.
From S2P Require Import SessionTheorems.
From S2P Require Import Compaction.
From S2P Require Import SemanticCompaction.
From S2P Require Import WindowPolicy.
From S2P Require Import ProviderErrors.
From S2P Require Import ProviderCall.
From S2P Require Import CallTheorems.
From S2P Require Import AgentLoop.
Open Scope string_scope.
Open Scope bool_scope.
Open Scope list_scope.

(** ** Relations between states *)

(** The archive only grows, by the same messages whether it is kept or not. *)
Definition appends (new : list message) (a a' : option (list message)) : Prop := a' = (fun l => l ++ new) <$> a.

Lemma appends_nil a : appends [] a a.
Proof. destruct a as [l|]; [|done]. unfold appends. cbn. by rewrite app_nil_r. Qed.

Lemma appends_trans n1 n2 a b c : appends n1 a b -> appends n2 b c -> appends (n1 ++ n2) a c.
Proof. unfold appends. intros -> ->. destruct a; [|done]. cbn. by rewrite app_assoc. Qed.

Section frames.
Context {W : Type}.
Implicit Types s : agent W.

Definition betas_of s : list string := _active_betas (ag_wire s).
Definition sent_of s : list LLMRequest := sent (ag_wire s).
Definition models_of s : list string := attempted_models (ag_route s).
Definition archive_of s : option (list message) := archive (ag_transcript s).

(** Nothing is sent. *)
Record calm s s' : Prop := {
  calm_betas : betas_of s' = betas_of s;
  calm_sent : sent_of s' = sent_of s;
  calm_models : models_of s' = models_of s;
  calm_archive : exists new, appends new (archive_of s) (archive_of s') }.

#[export] Instance calm_refl : Reflexive calm.
Proof. intros s. split; try done. exists []. apply appends_nil. Qed.

#[export] Instance calm_trans : Transitive calm.
Proof.
  intros a b c [E1 E2 E3 [n1 A1]] [F1 F2 F3 [n2 A2]]. split; try congruence.
  exists (n1 ++ n2). by eapply appends_trans.
Qed.

(** Transcript, tools and counters stay. *)
Record still s s' : Prop := {
  still_transcript : ag_transcript s' = ag_transcript s;
  still_tooling : ag_tooling s' = ag_tooling s;
  still_tokens : ag_tokens s' = ag_tokens s }.

#[export] Instance still_refl : Reflexive still.
Proof. by split. Qed.
#[export] Instance still_trans : Transitive still.
Proof. intros a b c [] []. split; congruence. Qed.

(** ** Operations of the parts *)

Lemma on_wire_still {A} (m : M (wire W) A) : preserves still (on_wire m).
Proof. intros s. unfold on_wire. by destruct (m (ag_wire s)). Qed.

Lemma on_wire_calm {A} (m : M (wire W) A) : preserves quiet m -> preserves calm (on_wire m).
Proof.
  intros Hm s. unfold on_wire. specialize (Hm (ag_wire s)). destruct (m (ag_wire s)) as [w r].
  destruct Hm as [Hb Hs]. split; try done. exists []. apply appends_nil.
Qed.

Lemma outside_calm {A} (m : M W A) : preserves calm (outside m).
Proof. apply on_wire_calm, quiet_in_world. Qed.

Lemma on_policy_calm {A} (m : M ContextWindowPolicy A) : preserves calm (on_policy m).
Proof.
  intros s. unfold on_policy. destruct (m _) as [p r]. split; try done. exists []. apply appends_nil.
Qed.
Lemma on_policy_still {A} (m : M ContextWindowPolicy A) : preserves still (on_policy m).
Proof. intros s. unfold on_policy. by destruct (m _). Qed.

Lemma modify_calm (f : agent W -> agent W) : (forall s, calm s (f s)) -> preserves calm (modify f).
Proof. apply preserves_modify. Qed.

Lemma set_active_calm l s : calm s (set_active l s).
Proof. split; try done. exists []. apply appends_nil. Qed.
Lemma append_calm msg s : calm s (_append_message_with_archive msg s).
Proof. split; try done. by exists [msg]. Qed.
Lemma set_policy_calm p s : calm s (set_policy p s).
Proof. split; try done. exists []. apply appends_nil. Qed.
Lemma set_tooling_calm t s : calm s (set_tooling t s).
Proof. split; try done. exists []. apply appends_nil. Qed.
Lemma set_notices_calm n s : calm s (set_notices n s).
Proof. split; try done. exists []. apply appends_nil. Qed.
Lemma set_tokens_calm n s : calm s (set_tokens n s).
Proof. split; try done. exists []. apply appends_nil. Qed.
Lemma set_world_calm w s : calm s (set_wire (set_wire_world w (ag_wire s)) s).
Proof. split; try done. exists []. apply appends_nil. Qed.
Lemma archive_last_calm n s : calm s (archive_last n s).
Proof.
  unfold archive_last. destruct (last (messages s)) as [m|]; [|done]. destruct (Nat.ltb _ _); [|done].
  split; try done. by exists [m].
Qed.
End frames.

Create HintDb calm discriminated.
#[export] Hint Resolve outside_calm on_policy_calm on_policy_still on_wire_still modify_calm set_active_calm append_calm
  set_policy_calm set_tooling_calm set_notices_calm set_tokens_calm set_world_calm archive_last_calm : calm.
Ltac calm := frame_by ltac:(eauto 4 with calm nocore).

Section loop.
Context `{Platform} `{ToolCatalog} {W : Type} `{BatchExecutor W} (sv : services W) (iv : invocation) (system : json).
Implicit Types s : agent W.

Lemma report_calm a : preserves calm (report iv a : M (agent W) unit).
Proof. unfold report. apply preserves_when; [apply _|]. apply on_wire_calm, preserves_modify. by intros s. Qed.
Lemma report_still a : preserves still (report iv a : M (agent W) unit).
Proof. unfold report. apply preserves_when; [apply _|]. apply on_wire_still. Qed.
Lemma pause_calm ms : preserves calm (pause sv ms).
Proof. intros s. apply set_world_calm. Qed.
Lemma pause_still ms : preserves still (pause sv ms).
Proof. by intros s. Qed.
Lemma absorb_calm w s : calm s (absorb w s).
Proof. split; try done. exists []. apply appends_nil. Qed.
Lemma withdraw_calm d s : calm s (withdraw_tools d s).
Proof. apply set_tooling_calm. Qed.

Lemma arrange_calm turn s : calm s (arrange_context iv turn s).
Proof.
  unfold arrange_context. set (s1 := if iv_scheduled iv && _ then _ else s).
  assert (H1' : calm s s1) by (subst s1; destruct (_ && _); [apply set_active_calm|reflexivity]).
  clearbody s1. destruct (_ && _); [|done]. etrans; [exact H1'|]. apply set_active_calm.
Qed.

#[local] Hint Resolve report_calm report_still pause_calm pause_still absorb_calm withdraw_calm arrange_calm : calm.

Lemma guidance_calm : preserves calm (_append_live_guidance_async sv iv).
Proof. unfold _append_live_guidance_async. calm. Qed.
#[local] Hint Resolve guidance_calm : calm.
Lemma take_guidance_calm : preserves calm (take_guidance sv iv).
Proof. unfold take_guidance. calm. Qed.
Lemma take_notices_calm : preserves calm (take_notices sv).
Proof. unfold take_notices, take_notice. calm. Qed.
Lemma compact_calm phase force emergency : preserves calm (_compact_active_context sv iv system phase force emergency).
Proof. unfold _compact_active_context. calm. Qed.
Lemma sanitize_calm : preserves calm (sanitize_messages (W := W)).
Proof. unfold sanitize_messages. calm. Qed.
Lemma admit_calm phase : preserves calm (admit_now iv system phase : M (agent W) unit).
Proof. unfold admit_now. calm. Qed.
Lemma admit_still phase : preserves still (admit_now iv system phase : M (agent W) unit).
Proof. unfold admit_now. calm. Qed.
#[local] Hint Resolve take_guidance_calm take_notices_calm compact_calm sanitize_calm admit_calm admit_still : calm.

Lemma prepare_calm turn : preserves calm (prepare_turn sv iv system turn).
Proof. unfold prepare_turn. calm. Qed.

Lemma disablements_calm l : preserves calm (take_disablements iv system l : M (agent W) unit).
Proof. unfold take_disablements. calm. Qed.
#[local] Hint Resolve disablements_calm : calm.

Lemma tool_turn_calm response : preserves calm (tool_turn sv iv system response).
Proof. unfold tool_turn. calm. Qed.

Lemma final_turn_calm : preserves calm (final_turn sv iv).
Proof. unfold final_turn. calm. Qed.
End loop.
#[export] Hint Resolve report_calm report_still pause_calm pause_still absorb_calm withdraw_calm arrange_calm
  guidance_calm take_guidance_calm take_notices_calm compact_calm sanitize_calm admit_calm admit_still prepare_calm
  disablements_calm tool_turn_calm final_turn_calm : calm.
