(* ===== verification/AgentPairs.v ===== *)
(** What the agent loop does to a transcript between two calls of the model keeps
    every tool call with its results: compaction, the cache breakpoints, and the
    move of the current message to the end. *)
From S2P Require Import Prelude.
From S2P Require Import PyStr.
From S2P Require Import Json.
From S2P Require Import RunCreate.
From S2P Require Import Sessions.
From S2P Require Import SessionTheorems.
From S2P Require Import Compaction.
From S2P Require Import SemanticCompaction.
From S2P Require Import WindowPolicy.
From S2P Require Import ProviderCall.
From S2P Require Import AgentLoop.
Open Scope string_scope.
Open Scope bool_scope.
Open Scope list_scope.

Lemma sanitize_paired ms out : _sanitize_tool_pairs ms = Ok out -> well_paired out.
Proof.
  intros E. destruct (sanitize_tidy _ _ E) as (c & Hc & Hp & <-). split; [apply (tidy_paired _ _ Hc)|].
  by eapply tidy_no_owed.
Qed.

(** ** Compaction *)

Section compaction.
Context `{Platform}.

Lemma plan_paired messages q p : plan_session_compaction messages q = Ok p -> well_paired messages ->
  well_paired (plan_messages p).
Proof.
  intros Hp Hm. destruct (plan_cases _ _ _ Hp) as [(-> & _)|(_ & before & l & after & plan & _ & Hc & -> & _)]; [done|].
  destruct (compact_at_inv _ _ _ _ _ _ Hc) as (w & c & _ & _ & _ & Hs & _). by eapply sanitize_paired.
Qed.

Lemma compact_paired messages sid ph system tools limit compactor force emergency p p' out :
  compact messages sid ph system tools limit compactor force emergency p = (p', Ok out) ->
  well_paired messages -> well_paired (out_messages out).
Proof.
  intros E Hm.
  destruct (negb force && negb (requires_compaction p (estimate_session_tokens messages system (tools_json tools))))
    eqn:Hn.
  { rewrite compact_unneeded in E by done. by injection E as _ <-. }
  destruct (plan_session_compaction messages (compact_request p system tools sid ph limit compactor force emergency))
    as [plan|e] eqn:Hp.
  - rewrite (compact_eq _ _ _ _ _ _ _ _ _ _ _ Hn Hp) in E.
    assert (Ho : out_messages out = (if Nat.ltb 0 (omitted_count (plan_report plan)) then plan_messages plan else messages)).
    { destruct (sufficient p plan); [by injection E as _ <-|].
      destruct (Z.leb _ _); [done|]. by injection E as _ <-. }
    rewrite Ho. destruct (Nat.ltb _ _); [|done]. by eapply plan_paired.
  - unfold compact in E. unfold_monad. by rewrite Hn, Hp in E.
Qed.
End compaction.

(** ** Messages that make and answer the same calls *)

Definition same_calls (m m' : message) : Prop := calls m' = calls m /\ answers m' = answers m.

Lemma paired_same l l' : Forall2 same_calls l l' -> forall o,
  (paired o l -> paired o l') /\ owed_after o l' = owed_after o l.
Proof.
  induction 1 as [|m m' l l' [Hc Ha] _ IH]; intros o; [done|]. cbn. rewrite Hc. split; [|apply IH].
  intros [Hs Hp]. split; [|by apply IH]. unfold settles. by rewrite Ha.
Qed.

Lemma well_paired_same l l' : Forall2 same_calls l l' -> well_paired l -> well_paired l'.
Proof. intros Hf [Hp Ho]. destruct (paired_same _ _ Hf []) as [H1 H2]. split; [auto|]. by rewrite H2. Qed.

Lemma same_refl m : same_calls m m.
Proof. done. Qed.
#[local] Hint Resolve same_refl : core.

Lemma forall2_alter {A} (R : A -> A -> Prop) (f : A -> A) i l :
  (forall x, R x x) -> (forall x, R x (f x)) -> Forall2 R l (alter f i l).
Proof.
  intros Hr Hf. assert (Hl : forall l, Forall2 R l l) by (induction l0; by constructor).
  revert i. induction l as [|x l IH]; intros [|i]; cbn; constructor; auto.
Qed.

(** ** Cache breakpoints *)

(** Only the fields of a block that [calls] and [answers] do not look at change. *)
Definition same_block (b b' : json) : Prop :=
  has_type "tool_use" b' = has_type "tool_use" b /\ has_type "tool_result" b' = has_type "tool_result" b /\
  _tool_use_id b' = _tool_use_id b /\ _tool_result_id b' = _tool_result_id b.

Lemma clear_same b : same_block b (clear_block b).
Proof.
  destruct b as [| | | | |d]; try done.
  unfold same_block, has_type, _block_type, _tool_use_id, _tool_result_id, block_field, jget_or_null. cbn [clear_block].
  by rewrite !jget_jpop_ne by done.
Qed.

Lemma breakpoint_same b : same_block b (set_breakpoint b).
Proof.
  destruct b as [| | | | |d]; try done.
  unfold same_block, has_type, _block_type, _tool_use_id, _tool_result_id, block_field, jget_or_null. cbn [set_breakpoint].
  by rewrite !jget_jset_ne by done.
Qed.

Lemma breakpoint_name b : block_field "name" (set_breakpoint b) = block_field "name" b.
Proof. destruct b as [| | | | |d]; try done. unfold block_field, jget_or_null. cbn [set_breakpoint]. by rewrite jget_jset_ne. Qed.

Lemma role_jset r v m : has_role r (jset "content" v m) = has_role r m.
Proof. unfold has_role, jget_or_null. by rewrite jget_jset_ne. Qed.

Lemma same_ids (t : json -> bool) (id : json -> json) l l' :
  Forall2 (fun b b' => t b' = t b /\ id b' = id b) l l' ->
  id <$> filter (fun b => t b = true) l' = id <$> filter (fun b => t b = true) l.
Proof.
  induction 1 as [|b b' l l' [Ht Hi] _ IH]; [done|]. rewrite !filter_cons, Ht.
  destruct (decide _); cbn; by rewrite ?Hi, IH.
Qed.

Lemma same_blocks_calls m blocks blocks' : jget "content" m = Some (JList blocks) ->
  Forall2 same_block blocks blocks' -> same_calls m (jset "content" (JList blocks') m).
Proof.
  intros Hc Hf. unfold same_calls, calls, answers, blocks_of, content_of. rewrite !role_jset, jget_jset_eq, Hc.
  cbn [default id]. rewrite (same_ids is_use _ blocks blocks'), (same_ids (has_type "tool_result") _ blocks blocks'); [done|..];
    (eapply Forall2_impl; [exact Hf|]); intros b b' (Hu & Hr & Hi & Hj); [done|].
  unfold is_use. by rewrite Hu, Hi.
Qed.

Lemma cleared_same m : same_calls m (match jget "content" m with
  | Some (JList blocks) => jset "content" (JList (clear_block <$> blocks)) m | _ => m end).
Proof.
  destruct (jget "content" m) as [[| | | |blocks|]|] eqn:E; try done.
  apply same_blocks_calls with blocks; [done|]. induction blocks; constructor; [apply clear_same|].
  assert (Hl : forall l, Forall2 same_block l (clear_block <$> l)) by (induction l; constructor; auto using clear_same).
  apply Hl.
Qed.

Lemma string_content m text : is_list (content_of m) = false ->
  same_calls m (jset "content" (JList [JObj [("type", JStr "text"); ("text", JStr text); ("cache_control", ephemeral)]]) m).
Proof.
  intros Hl. destruct (no_blocks m Hl) as [Hc Ha]. unfold same_calls. rewrite Hc, Ha.
  unfold calls, answers, blocks_of, content_of. rewrite !jget_jset_eq. cbn.
  by destruct (has_role "assistant" _), (has_role "user" _).
Qed.

Lemma marked_same m : same_calls m (_set_cache_breakpoint m).
Proof.
  unfold _set_cache_breakpoint. destruct (jget "content" m) as [[| | |text|blocks|]|] eqn:E; try done.
  - apply string_content. unfold content_of. by rewrite E.
  - apply same_blocks_calls with blocks; [done|]. apply forall2_alter; [done|apply breakpoint_same].
Qed.

Lemma cleared_paired ms : well_paired ms -> well_paired (_clear_message_cache_breakpoints ms).
Proof.
  apply well_paired_same. unfold _clear_message_cache_breakpoints.
  induction ms; constructor; [apply cleared_same|done].
Qed.

Lemma marked_paired i ms : well_paired ms -> well_paired (alter _set_cache_breakpoint i ms).
Proof. apply well_paired_same, forall2_alter; [done|apply marked_same]. Qed.

(** ** The current message *)

(** A message of the user that brings no results. *)
Definition plain_user (m : message) : Prop := has_role "user" m = true /\ answers m = [].

Lemma plain_paired o m : plain_user m -> (settles o m <-> o = []) /\ calls m = [].
Proof.
  intros [Hu Ha]. split; [|by apply calls_user]. split; [intros Hs; by eapply settles_nothing|].
  intros ->. unfold settles. rewrite Ha. by split.
Qed.

Lemma append_plain ms m : plain_user m -> well_paired ms -> well_paired (ms ++ [m]).
Proof.
  intros Hm [Hp Ho]. destruct (plain_paired (owed_after [] ms) m Hm) as [Hs Hc]. unfold well_paired.
  rewrite paired_app, owed_app. cbn. rewrite Hc. split_and!; try done. by apply Hs.
Qed.

(** Removing a message of the user that brings no results breaks no pair. *)
Lemma remove_plain l m k : plain_user m -> well_paired (l ++ m :: k) -> well_paired (l ++ k).
Proof.
  intros Hm [Hp Ho]. unfold well_paired. rewrite paired_app in Hp. rewrite owed_app in Ho. rewrite paired_app, owed_app. cbn in Hp, Ho.
  destruct Hp as [Hl [Hs Hk]]. destruct (plain_paired (owed_after [] l) m Hm) as [Hn Hc]. rewrite Hc in Hk, Ho.
  apply Hn in Hs. by rewrite Hs.
Qed.

Definition brings_results (content : json) : bool :=
  match content with JList l => existsb (has_type "tool_result") l | _ => false end.

Lemma eqb_str v t : py_eqb v (JStr t) = true -> v = JStr t.
Proof. destruct v; cbn; try done. by intros ->%String.eqb_eq. Qed.

Lemma eqb_has_type t a b : py_eqb a b = true -> has_type t a = true -> has_type t b = true.
Proof.
  unfold has_type, _block_type, block_field. destruct a as [| | | | |x]; try done. destruct b as [| | | | |y]; try done.
  intros He Ht. apply eqb_str in Ht. unfold jget_or_null in *.
  destruct (jget "type" x) as [u|] eqn:Eu; [|done]. cbn in Ht. subst u.
  destruct (py_eqb_obj_get _ _ _ _ He Eu) as (v & -> & Hv). cbn. destruct v; try done.
  cbn in Hv. apply String.eqb_eq in Hv as ->. cbn. apply String.eqb_refl.
Qed.

Lemma eqb_brings a b : py_eqb a b = true -> brings_results b = false -> brings_results a = false.
Proof.
  destruct a as [| | | |l|]; try done. destruct b as [| | | |k|]; try done. cbn.
  revert k. induction l as [|x l IH]; intros [|y k]; try done.
  intros [Hx Hl]%andb_true_iff [Hy Hk]%orb_false_iff. cbn. apply orb_false_iff. split; [|by eapply IH].
  destruct (has_type "tool_result" x) eqn:E; [|done]. by rewrite (eqb_has_type _ _ _ Hx E) in Hy.
Qed.

Lemma clear_brings c : brings_results (_content_without_cache_control c) = brings_results c.
Proof.
  destruct c as [| | | |l|]; try done. cbn. induction l as [|b l IH]; [done|]. cbn. rewrite IH.
  by destruct (clear_same b) as (_ & -> & _).
Qed.

Lemma brings_none (l : list json) : existsb (has_type "tool_result") l = false ->
  filter (fun b => has_type "tool_result" b = true) l = [].
Proof.
  induction l as [|b l IH]; [done|]. cbn [existsb]. intros [Hb Hl]%orb_false_iff. rewrite filter_cons, Hb.
  destruct (decide _); [done|by apply IH].
Qed.

Lemma brings_answers m : brings_results (jget_or_null "content" m) = false -> answers m = [].
Proof.
  unfold answers, blocks_of, content_of, jget_or_null. destruct (has_role "user" m); [|done].
  destruct (jget "content" m) as [[| | | |l|]|]; cbn [default id brings_results]; try done.
  intros Hb. by rewrite brings_none.
Qed.

(** The current message of a run: the user's, with no results of tools in it. *)
Record current_user (m : message) : Prop := {
  current_role : jget "role" m = Some (JStr "user");
  current_plain : brings_results (jget_or_null "content" m) = false }.

Lemma current_is_plain m : current_user m -> plain_user m.
Proof.
  intros [Hr Hb]. split; [|by apply brings_answers]. unfold has_role, jget_or_null. by rewrite Hr.
Qed.

Lemma same_user_plain m cur : current_user cur -> _same_user_message m cur = true -> plain_user m.
Proof.
  intros [Hr Hb]. unfold _same_user_message.
  assert (Er : jget_or_null "role" cur = JStr "user") by (unfold jget_or_null; by rewrite Hr). rewrite Er.
  destruct (py_eqb (jget_or_null "role" m) (JStr "user")) eqn:E; [|done]. cbn [negb]. intros Hs. split; [done|].
  apply brings_answers. set (c := jget_or_null "content" m) in *. set (c' := jget_or_null "content" cur) in *.
  destruct (py_eqb c c') eqn:E1; [by apply eqb_brings with c'|].
  rewrite <- clear_brings.
  destruct (py_eqb (_content_without_cache_control c) (_content_without_cache_control c')) eqn:E2.
  { eapply eqb_brings; [exact E2|]. by rewrite clear_brings. }
  destruct c' as [| | |text| |]; try done. by eapply eqb_brings.
Qed.

Lemma move_to_end_split cur ms out : move_to_end cur ms = Some out ->
  exists l m k, ms = l ++ m :: k /\ out = l ++ k ++ [m] /\ _same_user_message m cur = true.
Proof.
  revert out. induction ms as [|m ms IH]; intros out; cbn [move_to_end]; [done|].
  destruct (move_to_end cur ms) as [moved|] eqn:E.
  - intros [= <-]. destruct (IH _ eq_refl) as (l & x & k & -> & -> & Hx). by exists (m :: l), x, k.
  - destruct (_same_user_message m cur) eqn:Em; [|done]. intros [= <-]. by exists [], m, ms.
Qed.

Lemma ensure_paired cur ms : current_user cur -> well_paired ms -> well_paired (_ensure_current_message_last ms cur).
Proof.
  intros Hc Hm. unfold _ensure_current_message_last. destruct (move_to_end cur ms) as [out|] eqn:E; cbn.
  - destruct (move_to_end_split _ _ _ E) as (l & m & k & -> & -> & Hs). pose proof (same_user_plain _ _ Hc Hs) as Hp.
    rewrite app_assoc. apply append_plain; [done|]. by eapply remove_plain.
  - by apply append_plain; [apply current_is_plain|].
Qed.

Section arrange.
Context {W : Type} (iv : invocation).

Lemma arrange_paired turn (s : agent W) : current_user (iv_user_message iv) -> well_paired (messages s) ->
  well_paired (messages (arrange_context iv turn s)).
Proof.
  intros Hc Hm. unfold arrange_context.
  set (s1 := if iv_scheduled iv && _ then _ else s).
  assert (H1 : well_paired (messages s1)).
  { subst s1. destruct (_ && _); [|done]. by apply ensure_paired. }
  clearbody s1. destruct (_ && _); [|done]. cbn. apply marked_paired. by apply cleared_paired.
Qed.
End arrange.
