(* ===== verification/AgentCalls.v ===== *)
(** One call of the model in the agent loop, with its recoveries: the rounds end, at
    most so many requests go out, and each carries a transcript whose tool calls are
    answered. *)
From S2P Require Import Prelude.
From S2P Require Import PyStr.
From S2P Require Import Json.
From S2P Require Import Status.
From S2P Require Import RunCreate.
From S2P Require Import LoopControl.
From S2P Require Import ToolExecution.
From S2P Require Import Models.
From S2P Require Import Sessions.
From S2P Require Import SessionTheorems.
From S2P Require Import Compaction.
From S2P Require Import SemanticCompaction.
From S2P Require Import WindowPolicy.
From S2P Require Import ProviderErrors.
From S2P Require Import ProviderCall.
From S2P Require Import CallTheorems.
From S2P Require Import AgentLoop.
From S2P Require Import AgentFrame.
From S2P Require Import AgentPairs.
Open Scope string_scope.
Open Scope bool_scope.
Open Scope list_scope.

(** ** The models that are left *)

Lemma filter_out_le {A} `{EqDecision A} (a b l : list A) : (forall x, x ∈ a -> x ∈ b) ->
  (length (filter (fun x => x ∉ b) l) <= length (filter (fun x => x ∉ a) l))%nat.
Proof.
  intros Hs. induction l as [|x l IH]; [done|]. rewrite !filter_cons.
  destruct (decide (x ∉ b)) as [Hb|Hb], (decide (x ∉ a)) as [Ha|Ha]; cbn; try lia. exfalso. auto.
Qed.

Lemma filter_out_lt {A} `{EqDecision A} (a b l : list A) y : (forall x, x ∈ a -> x ∈ b) -> y ∈ l -> y ∉ a -> y ∈ b ->
  (length (filter (fun x => x ∉ b) l) < length (filter (fun x => x ∉ a) l))%nat.
Proof.
  intros Hs Hy Ha Hb. induction l as [|x l IH]; [by apply not_elem_of_nil in Hy|].
  pose proof (filter_out_le a b l Hs) as Hle. rewrite !filter_cons. apply elem_of_cons in Hy as [->|Hy].
  - rewrite decide_False by auto. rewrite decide_True by done. cbn. lia.
  - specialize (IH Hy). destruct (decide (x ∉ b)) as [Hx|Hx], (decide (x ∉ a)) as [Hx'|Hx']; cbn; try lia. exfalso. auto.
Qed.

Lemma fallback_target model fallback : fallback_model_for model = Some fallback ->
  _normalize_model fallback ∈ fallback_targets.
Proof.
  intros E. apply elem_of_remove_dups, list_elem_of_fmap. exists fallback. split; [done|]. apply elem_of_app.
  apply fallback_candidates in E. apply elem_of_cons in E as [[= ->]|E]; [right; by left|left].
  apply list_elem_of_fmap in E as (entry & Ha & He). apply list_elem_of_omap. by exists entry.
Qed.

(** ** Steps that send nothing *)

Section calls.
Context `{Platform} `{ToolCatalog} {W : Type} `{BatchExecutor W} (sv : services W) (iv : invocation) (system : json).
Implicit Types s : agent W.

Notation deg s := (degradations (betas_of s)).

Definition left_models s : nat := length (filter (fun m => m ∉ attempted_models (ag_route s)) fallback_targets).

(** The names of the tools on offer, and those a request offers. *)
Definition names_of s : list string := tool_name_of <$> default [] (tl_tools (ag_tooling s)).
Definition offered (rq : LLMRequest) : list string := tool_name_of <$> default [] (rq_tools rq).
Definition fits s (rq : LLMRequest) : Prop := rq_messages rq = messages s /\ offered rq = names_of s.

Lemma marked_names (l : list json) : tool_name_of <$> mark_tools_cacheable l = tool_name_of <$> l.
Proof.
  unfold mark_tools_cacheable, mark_last. generalize (length l - 1)%nat as i.
  induction l as [|b l IH]; intros [|i]; cbn; [done..| |]; [|by rewrite IH].
  unfold tool_name_of at 1 3. by rewrite breakpoint_name.
Qed.

Lemma request_fits s : fits s (request_now iv system s).
Proof.
  split; [done|]. unfold offered, names_of, request_now, build_api_request. cbn.
  destruct (_ && _); [|done]. destruct (tl_tools _); [|done]. cbn. apply marked_names.
Qed.

(** Nothing but the wire changes, and nothing is sent. *)
Record idle s s' : Prop := {
  idle_still : still s s';
  idle_route : ag_route s' = ag_route s;
  idle_wire : quiet (ag_wire s) (ag_wire s') }.

#[local] Instance idle_refl : Reflexive idle.
Proof. by split. Qed.
#[local] Instance idle_trans : Transitive idle.
Proof. intros a b c [A1 A2 [A3 A4]] [B1 B2 [B3 B4]]. split; [by etrans|congruence|split; congruence]. Qed.

Lemma on_wire_idle {A} (m : M (wire W) A) : preserves quiet m -> preserves idle (on_wire m).
Proof.
  intros Hm s. pose proof (on_wire_still m s) as Hs. unfold on_wire in *. specialize (Hm (ag_wire s)).
  destruct (m (ag_wire s)). by split.
Qed.

Lemma pause_idle ms : preserves idle (pause sv ms).
Proof. intros s. by split. Qed.
Lemma report_idle a : preserves idle (report iv a : M (agent W) unit).
Proof. unfold report. apply preserves_when; [apply _|]. apply on_wire_idle, preserves_modify. by intros s. Qed.
Lemma release_idle : preserves idle (release_deltas : M (agent W) unit).
Proof.
  apply on_wire_idle, preserves_modify. intros w. generalize (held_deltas w) as l.
  assert (Hl : forall l w', quiet w w' -> quiet w (fold_left (fun acc d => publish_delta d acc) l w')).
  { induction l as [|d l IH]; [done|]. intros w' Hw. cbn. apply IH. destruct Hw. by split. }
  intros l. by apply Hl.
Qed.

(** ** One call *)

(** A call of the provider: the rest of the run stays, and the requests repeat the
    given one. *)
Record called (request : LLMRequest) s s' : Prop := {
  called_still : still s s';
  called_route : ag_route s' = ag_route s;
  called_fades : (deg s' <= deg s)%nat;
  called_sent : exists new, sent_of s' = sent_of s ++ new /\ Forall (resembles request) new /\
    (length new <= 4 * (deg s + 1))%nat }.

Lemma called_idle request s s1 s2 : called request s s1 -> idle s1 s2 -> called request s s2.
Proof.
  intros [A1 A2 A3 (new & A4)] [B1 B2 [B3 B4]]. unfold betas_of, sent_of in *.
  split; [by etrans|congruence|unfold betas_of; by rewrite B3|]. exists new. unfold sent_of. by rewrite B4.
Qed.

Lemma provider_called withheld request cs s : called request s (call_provider sv iv withheld request cs s).1.
Proof.
  unfold call_provider. set (p := provider_of sv _). set (c := {| cancel_event := _ |}).
  pose proof (on_wire_still (modify (set_held []) ;;; async_api_call_with_retry p c (clock_of sv)
    (ro_client (ag_route s)) (iv_session_id iv) _API_RETRY_DELAYS request cs) s) as Hst.
  unfold on_wire in *. unfold bind, modify in *.
  set (w := set_held [] (ag_wire s)) in *.
  pose proof (call_fades p c (clock_of sv) (ro_client (ag_route s)) (iv_session_id iv) _API_RETRY_DELAYS request cs w) as Hf.
  destruct (loop_spec p c (clock_of sv) (ro_client (ag_route s)) (iv_session_id iv) _API_RETRY_DELAYS
    (api_fuel _API_RETRY_DELAYS (_active_betas w) 0) request 0 cs w ltac:(lia) (le_n _)) as (new & Hs & Hl & Ha & _).
  unfold async_api_call_with_retry in *.
  destruct (api_call_loop _ _ _ _ _ _ _ _ _ _ w) as [w' r]. split; try done.
  exists (request :: new). split; [done|]. split; [by constructor|].
  unfold api_fuel in Hl. cbn [length] in *. change (length _API_RETRY_DELAYS) with 3 in Hl. unfold betas_of. 
  change (_active_betas w) with (_active_betas (ag_wire s)) in Hl. lia.
Qed.

Definition again_same request overflow_used text_attempt (step : next_step) : Prop :=
  match step with
  | Done _ _ => True
  | Again rq ov ta _ => rq = request /\ ov = overflow_used /\ ta = S text_attempt /\ text_attempt = 0%nat
  end.

Lemma attempt_spec withheld request ov ta cs s s' r : attempt_call sv iv withheld request ov ta cs s = (s', r) ->
  called request s s' /\ forall step, r = Ok step -> again_same request ov ta step.
Proof.
  intros E. split.
  - pose proof (provider_called withheld request cs s) as Hc. unfold attempt_call in E. unfold bind at 1 in E.
    destruct (call_provider sv iv withheld request cs s) as [s1 [a|e]]; [|by injection E as <- _]. cbn in Hc.
    match type of E with ?m s1 = _ => assert (Hi : preserves idle m) end.
    { unfold now_. frame_by ltac:(first [apply report_idle|apply pause_idle|apply release_idle]). }
    specialize (Hi s1). rewrite E in Hi. by eapply called_idle.
  - assert (Hr : returning (again_same request ov ta) (attempt_call sv iv withheld request ov ta cs)).
    { unfold attempt_call. apply returning_bind. intros [response|]; [|apply returning_raise].
      apply returning_bind. intros content. apply returning_bind. intros text. apply returning_bind. intros made.
      destruct (decided_kind _) as [kind|]; [|apply returning_bind; intros _; by apply returning_ret].
      destruct (_ !! ta) as [delay|] eqn:Ed; [|by apply returning_ret]. apply lookup_lt_Some in Ed. cbn in Ed.
      destruct (should_retry _); [|by apply returning_ret].
      repeat (apply returning_bind; intros ?). apply returning_ret. cbn. split_and!; try done. lia. }
    intros step ->. apply (Hr s). by rewrite E.
Qed.

(** ** Recovering *)

Context (Hcurrent : current_user (iv_user_message iv)).

(** What happens between two calls of the same turn. *)
Record retried s s' : Prop := {
  retried_tooling : ag_tooling s' = ag_tooling s;
  retried_tokens : ag_tokens s' = ag_tokens s;
  retried_archive : archive_of s' = archive_of s;
  retried_fades : (deg s' <= deg s)%nat;
  retried_sent : sent_of s' = sent_of s;
  retried_models : forall m, m ∈ models_of s -> m ∈ models_of s';
  retried_paired : well_paired (messages s) -> well_paired (messages s') }.

#[local] Instance retried_refl : Reflexive retried.
Proof. by split. Qed.
#[local] Instance retried_trans : Transitive retried.
Proof. intros a b c [] []. split; try congruence; try lia; auto. Qed.

Lemma idle_retried s s' : idle s s' -> retried s s'.
Proof.
  intros [[E1 E2 E3] E4 [E5 E6]]. unfold models_of, archive_of, betas_of, sent_of in *.
  split; unfold models_of, archive_of, betas_of, sent_of, messages; rewrite ?E1, ?E2, ?E3, ?E4, ?E5, ?E6; auto.
Qed.

Lemma idle_is_retried {A} (m : M (agent W) A) : preserves idle m -> preserves retried m.
Proof. intros Hm s. by apply idle_retried. Qed.

Lemma outside_retried {A} (m : M W A) : preserves retried (outside m).
Proof. apply idle_is_retried, on_wire_idle, quiet_in_world. Qed.

Lemma policy_retried {A} (m : M ContextWindowPolicy A) : preserves retried (on_policy m).
Proof. intros s. unfold on_policy. destruct (m _) as [p r]. by split. Qed.

Lemma headers_retried llm sid : preserves retried (on_wire (build_request_headers llm sid []) : M (agent W) dict).
Proof.
  intros s. pose proof (headers_spec llm sid [] (ag_wire s)) as (betas & h & E & Hle). unfold on_wire. rewrite E.
  by split.
Qed.

Lemma compact_retried phase force emergency :
  preserves retried (_compact_active_context sv iv system phase force emergency).
Proof.
  intros s. unfold _compact_active_context. unfold bind at 1, get. unfold bind, on_policy.
  destruct (compact _ _ _ _ _ _ _ _ _ _) as [p [out|e]] eqn:E; cbn; split; try done.
  intros Hm. cbn. by eapply compact_paired.
Qed.

Lemma arrange_retried turn s : retried s (arrange_context iv turn s).
Proof.
  pose proof (arrange_paired iv turn s Hcurrent) as Hp. destruct (arrange_calm iv turn s) as [E1 E2 E3 _].
  split; try done; [..|by rewrite E1|by rewrite E3]; unfold arrange_context;
    set (s1 := if iv_scheduled iv && _ then _ else s); unfold archive_of;
    (assert (H1' : ag_tooling s1 = ag_tooling s /\ ag_tokens s1 = ag_tokens s /\ archive (ag_transcript s1) = archive (ag_transcript s))
      by (subst s1; by destruct (_ && _))); clearbody s1; destruct H1' as (? & ? & ?); by destruct (_ && _).
Qed.

Lemma admit_retried phase : preserves retried (admit_now iv system phase : M (agent W) unit).
Proof. unfold admit_now. frame_by ltac:(apply policy_retried). Qed.

(** The models asked for so far are never forgotten. *)
Lemma route_retried (f : route -> route) s :
  (forall m, m ∈ attempted_models (ag_route s) -> m ∈ attempted_models (f (ag_route s))) ->
  retried s (set_route (f (ag_route s)) s).
Proof. intros Hm. by split. Qed.

Lemma fall_back_retried fallback ov ta : preserves retried (fall_back sv iv system fallback ov ta).
Proof.
  unfold fall_back, now_. frame_by ltac:(first
    [ apply outside_retried | apply headers_retried | apply admit_retried
    | apply idle_is_retried, report_idle
    | apply preserves_modify; intros ?; first [apply (route_retried (fun r => _)) | by split]; intros m Hm; cbn;
      first [exact Hm | apply elem_of_app; by left] ]).
Qed.

Lemma recover_retried turn e ov ta : preserves retried (recover sv iv system turn e ov ta).
Proof.
  unfold recover, recover_overflow, now_. frame_by ltac:(first
    [ apply fall_back_retried | apply compact_retried | apply idle_is_retried, report_idle
    | apply preserves_modify; intros ?; apply arrange_retried ]).
Qed.

(** A round after an error carries the transcript as it is then, and uses up the one
    compaction or a model. *)
Definition next_round s ov ta s' (step : next_step) : Prop :=
  match step with
  | Done _ _ => False
  | Again rq ov' ta' _ => fits s' rq /\ ta' = ta /\
      (ov' = ov /\ (left_models s' < left_models s)%nat \/ ov' = true /\ ov = false)
  end.

Lemma left_models_le s s' : retried s s' -> (left_models s' <= left_models s)%nat.
Proof. intros Hr. apply filter_out_le, Hr. Qed.

Lemma fall_back_next fallback ov ta s s' step :
  _normalize_model fallback ∈ fallback_targets -> _normalize_model fallback ∉ models_of s ->
  fall_back sv iv system fallback ov ta s = (s', Ok step) -> next_round s ov ta s' step.
Proof.
  intros Ht Hn E. unfold fall_back in E. unfold bind at 1, gets at 1 in E. unfold bind at 1, modify at 1 in E.
  match type of E with ?m ?s1 = _ => assert (Hm : preserves retried m); [|set (s1' := s1) in *] end.
  { unfold now_. frame_by ltac:(first
    [ apply outside_retried | apply headers_retried | apply admit_retried
    | apply idle_is_retried, report_idle
    | apply preserves_modify; intros ?; first [apply (route_retried (fun r => _)) | by split]; intros m Hm; exact Hm ]). }
  specialize (Hm s1'). rewrite E in Hm. cbn in Hm.
  repeat match type of E with bind _ _ _ = _ => apply bind_ok in E as (? & ? & ? & E) end.
  injection E as <- <-. unfold next_round, left_models. split; [|split; [done|left; split; [done|]]].
  - match goal with Hg : gets (request_now _ _) _ = _ |- _ => injection Hg as <- <-; apply request_fits end.
  - eapply filter_out_lt; [|exact Ht|exact Hn|].
    + intros m Hin. apply (retried_models _ _ Hm). cbn. apply elem_of_app. by left.
    + apply (retried_models _ _ Hm). cbn. apply elem_of_app. right. by left.
Qed.

Lemma recover_next turn e ov ta s s' step :
  recover sv iv system turn e ov ta s = (s', Ok step) -> next_round s ov ta s' step.
Proof.
  assert (Ho : recover_overflow sv iv system turn e ov ta s = (s', Ok step) -> next_round s ov ta s' step).
  { unfold recover_overflow. destruct (ov || negb (is_context_overflow_error e)) eqn:Eo; [done|].
    apply orb_false_iff in Eo as [-> _]. intros E. apply bind_ok in E as (s1 & outcome & _ & E).
    destruct (out_report outcome); [|done].
    repeat match type of E with bind _ _ _ = _ => apply bind_ok in E as (? & ? & ? & E) end.
    injection E as <- <-. unfold next_round. split; [|split; [done|by right]].
    match goal with Hg : gets (request_now _ _) _ = _ |- _ => injection Hg as <- <-; apply request_fits end. }
  unfold recover. unfold bind, get. cbv beta iota zeta.
  destruct (fallback_model_for _) as [fallback|] eqn:Ef; [|exact Ho].
  destruct (negb _ && _) eqn:Ec; [|exact Ho]. apply andb_true_iff in Ec as [Ec _]. apply negb_true_iff in Ec.
  apply fall_back_next; [by eapply fallback_target|]. intros Hin. apply str_in_spec in Hin. unfold models_of in *. congruence.
Qed.

(** ** The rounds *)

(** What a call of the model leaves as it was. *)
Record settled s s' : Prop := {
  settled_tooling : ag_tooling s' = ag_tooling s;
  settled_tokens : ag_tokens s' = ag_tokens s;
  settled_archive : archive_of s' = archive_of s;
  settled_fades : (deg s' <= deg s)%nat;
  settled_models : forall m, m ∈ models_of s -> m ∈ models_of s';
  settled_paired : well_paired (messages s) -> well_paired (messages s') }.

#[export] Instance settled_refl : Reflexive settled.
Proof. by split. Qed.
#[export] Instance settled_trans : Transitive settled.
Proof. intros a b c [] []. split; try congruence; try lia; auto. Qed.

Lemma retried_settled s s' : retried s s' -> settled s s'.
Proof. by intros []. Qed.

Lemma called_settled request s s' : called request s s' -> settled s s'.
Proof.
  intros [[E1 E2 E3] E4 E5 _]. split; unfold models_of, archive_of, messages; rewrite ?E1, ?E2, ?E3, ?E4; auto.
Qed.

Notation round withheld turn request ov ta cs :=
  (catch (attempt_call sv iv withheld request ov ta cs) (fun e => recover sv iv system turn e ov ta)).

Lemma round_spec withheld turn request ov ta cs s s' r :
  round withheld turn request ov ta cs s = (s', r) ->
  settled s s' /\
  (exists new, sent_of s' = sent_of s ++ new /\ Forall (resembles request) new /\ (length new <= 4 * (deg s + 1))%nat) /\
  forall rq ov' ta' cs', r = Ok (Again rq ov' ta' cs') ->
    (rounds_left s' ov' ta' < rounds_left s ov ta)%nat /\ (rq = request \/ fits s' rq).
Proof.
  unfold catch. destruct (attempt_call _ _ _ _ _ _ _ s) as [s1 r1] eqn:Ea. intros E.
  destruct (attempt_spec _ _ _ _ _ _ _ _ Ea) as [Hc Hr]. pose proof (called_settled _ _ _ Hc) as Hs.
  destruct r1 as [step|e].
  - injection E as <- <-. split; [done|]. split; [apply Hc|]. intros rq ov' ta' cs' [= ->].
    destruct (Hr _ eq_refl) as (-> & -> & -> & ->). split; [|by left].
    pose proof (filter_out_le _ _ fallback_targets (settled_models _ _ Hs)) as Hle. unfold models_of in Hle.
    unfold rounds_left. cbn [length _PROVIDER_ERROR_TEXT_RETRY_DELAYS Nat.sub]. lia.
  - pose proof (recover_retried turn e ov ta s1) as Hre. rewrite E in Hre. cbn in Hre.
    split; [etrans; [exact Hs|by apply retried_settled]|]. split.
    { rewrite (retried_sent _ _ Hre). apply Hc. }
    intros rq ov' ta' cs' ->. destruct (recover_next _ _ _ _ _ _ _ E) as (Hm & -> & Hd). split; [|by right].
    pose proof (left_models_le _ _ Hre) as H1'. pose proof (filter_out_le _ _ fallback_targets (settled_models _ _ Hs)) as H2'.
    unfold models_of in H2'. unfold left_models in Hd, H1'. unfold rounds_left.
    destruct Hd as [[-> Hlt]|[-> ->]]; lia.
Qed.

Lemma rounds_fuel turn withheld n : forall m request ov ta cs s, (rounds_left s ov ta < n)%nat -> (n <= m)%nat ->
  call_rounds sv iv system m turn withheld request ov ta cs s = call_rounds sv iv system n turn withheld request ov ta cs s.
Proof.
  induction n as [|n IH]; intros m request ov ta cs s Hn Hm; [lia|]. destruct m as [|m]; [lia|].
  cbn [call_rounds]. unfold bind. destruct (round withheld turn request ov ta cs s) as [s1 [step|e]] eqn:E; [|done].
  destruct step as [response detected|rq ov' ta' cs']; [done|].
  destruct (round_spec _ _ _ _ _ _ _ _ _ E) as (_ & _ & Hr). destruct (Hr _ _ _ _ eq_refl) as [Hlt _]. apply IH; lia.
Qed.

(** The requests of a call of the model, against what is left to try. *)
Definition calls_within (P : LLMRequest -> Prop) (D budget : nat) s s' : Prop :=
  exists new, sent_of s' = sent_of s ++ new /\ Forall P new /\
    (length new + 4 * (D + 1) * left_models s' <= 4 * (D + 1) * budget)%nat.

(** Every tool call of the request is answered, and it offers the tools [names]. *)
Definition sound (names : list string) (rq : LLMRequest) : Prop := well_paired (rq_messages rq) /\ offered rq = names.

Lemma resembling_sound names request new : sound names request -> Forall (resembles request) new -> Forall (sound names) new.
Proof.
  intros [Hw Ho] Hn. eapply Forall_impl; [exact Hn|]. intros rq (_ & Em & _ & _ & Et & _).
  unfold sound, offered in *. by rewrite Em, Et.
Qed.

Lemma rounds_spec turn withheld names D n : forall request ov ta cs s, (rounds_left s ov ta < n)%nat -> (deg s <= D)%nat ->
  well_paired (messages s) -> names_of s = names -> sound names request ->
  let s' := (call_rounds sv iv system n turn withheld request ov ta cs s).1 in
  settled s s' /\ calls_within (sound names) D (1 + rounds_left s ov ta) s s'.
Proof.
  induction n as [|n IH]; intros request ov ta cs s Hn HD Hm Hnames Hq; [lia|].
  cbn [call_rounds]. unfold bind. destruct (round withheld turn request ov ta cs s) as [s1 r] eqn:E.
  destruct (round_spec _ _ _ _ _ _ _ _ _ E) as (Hs & (new & Hnew & Hall & Hlen) & Hr).
  pose proof (resembling_sound _ _ _ Hq Hall) as Hp.
  assert (Hlen' : (length new <= 4 * (D + 1))%nat) by nia.
  assert (Hl : (left_models s1 <= rounds_left s ov ta)%nat).
  { pose proof (filter_out_le _ _ fallback_targets (settled_models _ _ Hs)) as Hle. unfold models_of in Hle.
    unfold left_models, rounds_left. lia. }
  destruct r as [[response detected|rq ov' ta' cs']|e]; cbn [fst].
  1, 3: split; [done|]; exists new; split_and!; [done..|].
  1, 2: pose proof (Nat.mul_le_mono_l _ _ (4 * (D + 1)) Hl) as Hl'; rewrite (Nat.mul_add_distr_l _ 1 (rounds_left s ov ta)); cbn [fst ret]; lia.
  destruct (Hr _ _ _ _ eq_refl) as [Hlt Hrq].
  destruct (IH rq ov' ta' cs' s1) as [Hs2 (new2 & Hnew2 & Hall2 & Hlen2)].
  - lia.
  - pose proof (settled_fades _ _ Hs). lia.
  - by apply (settled_paired _ _ Hs).
  - unfold names_of. by rewrite (settled_tooling _ _ Hs).
  - destruct Hrq as [->|[Em Eo]]; [done|]. unfold sound. rewrite Em, Eo. split; [by apply (settled_paired _ _ Hs)|].
    unfold names_of. by rewrite (settled_tooling _ _ Hs).
  - split; [by etrans|]. exists (new ++ new2). rewrite Hnew2, Hnew, <- app_assoc. split; [done|].
    split; [by apply Forall_app|]. rewrite length_app.
    assert (Hle : (1 + rounds_left s1 ov' ta' <= rounds_left s ov ta)%nat) by lia.
    apply (Nat.mul_le_mono_l _ _ (4 * (D + 1))) in Hle. rewrite (Nat.mul_add_distr_l _ 1 (rounds_left s ov ta)). lia.
Qed.

Lemma call_model_spec turn withheld D cs s : (deg s <= D)%nat -> well_paired (messages s) ->
  let s' := (call_model sv iv system turn withheld (request_now iv system s) cs s).1 in
  settled s s' /\ calls_within (sound (names_of s)) D (3 + left_models s) s s'.
Proof.
  intros HD Hm. apply rounds_spec; [lia|done..|]. destruct (request_fits s) as [Em Eo]. unfold sound. by rewrite Em, Eo.
Qed.
End calls.
