(* ===== verification/AgentRun.v ===== *)
(** A run of the agent loop: what it sends altogether and what it offers. *)
From S2P Require Import Prelude.
From S2P Require Import PyStr.
From S2P Require Import Json.
From S2P Require Import Status.
From S2P Require Import RunCreate.
From S2P Require Import LoopControl.
From S2P Require Import ToolExecution.
From S2P Require Import Models.
From S2P Require Import Sessions.
From S2P Require Import SessionTheorems.
From S2P Require Import Compaction.
From S2P Require Import SemanticCompaction.
From S2P Require Import WindowPolicy.
From S2P Require Import ThreadHandoff.
From S2P Require Import ProviderErrors.
From S2P Require Import ProviderCall.
From S2P Require Import CallTheorems.
From S2P Require Import AgentLoop.
From S2P Require Import AgentFrame.
From S2P Require Import AgentPairs.
From S2P Require Import AgentCalls.
Open Scope string_scope.
Open Scope bool_scope.
Open Scope list_scope.

(** ** The tools on offer *)

Section narrow.
Context {W : Type}.
Implicit Types s : agent W.

(** Tools only leave. *)
Record narrows s s' : Prop := {
  narrows_names : names_of s' ⊆ names_of s;
  narrows_handlers : forall name, tool_handlers (tl_surface (ag_tooling s)) !! name = None ->
    tool_handlers (tl_surface (ag_tooling s')) !! name = None }.

#[export] Instance narrows_refl : Reflexive narrows.
Proof. by split. Qed.
#[export] Instance narrows_trans : Transitive narrows.
Proof. intros a b c [] []. split; [by etrans|auto]. Qed.

Lemma same_narrows s s' : tl_tools (ag_tooling s') = tl_tools (ag_tooling s) ->
  tl_surface (ag_tooling s') = tl_surface (ag_tooling s) -> narrows s s'.
Proof. intros Et Es. split; unfold names_of; by rewrite ?Et, ?Es. Qed.

Lemma modify_narrows (f : agent W -> agent W) : (forall s, narrows s (f s)) -> preserves narrows (modify f).
Proof. apply preserves_modify. Qed.
Lemma on_wire_narrows {A} (m : M (wire W) A) : preserves narrows (on_wire m).
Proof. intros s. unfold on_wire. by destruct (m (ag_wire s)). Qed.
Lemma outside_narrows {A} (m : M W A) : preserves narrows (outside m).
Proof. apply on_wire_narrows. Qed.
Lemma on_policy_narrows {A} (m : M ContextWindowPolicy A) : preserves narrows (on_policy m).
Proof. intros s. unfold on_policy. by destruct (m _). Qed.

Lemma filtered_names tools disabled :
  tool_name_of <$> default [] (filter_tools tools disabled) =
  filter (fun n => n ∉ disabled) (tool_name_of <$> default [] tools).
Proof.
  destruct disabled as [|d l]; cbn [filter_tools].
  - generalize (tool_name_of <$> default [] tools) as l. induction l as [|x l IH]; [done|].
    rewrite filter_cons_True by apply not_elem_of_nil. by rewrite <- IH.
  - cbn [default]. generalize (d :: l) as disabled. intros disabled.
    induction (default [] tools) as [|t ts IH]; [done|]. rewrite fmap_cons, !filter_cons.
    destruct (decide _); cbn; by rewrite <- IH.
Qed.

Lemma withdraw_narrows disabled s : narrows s (withdraw_tools disabled s).
Proof.
  split; unfold names_of; cbn.
  - rewrite filtered_names. intros x Hx. by apply list_elem_of_filter in Hx as [_ Hx].
  - intros name Hn. by apply map_lookup_filter_None_2; left.
Qed.

(** What is disabled is neither offered nor executed. *)
Definition gone (name : string) s : Prop :=
  name ∉ names_of s /\ tool_handlers (tl_surface (ag_tooling s)) !! name = None.

Lemma narrows_gone name s s' : narrows s s' -> gone name s -> gone name s'.
Proof. intros [Hn Hh] [H1 H2]. split; auto. Qed.

Lemma withdrawn disabled name s : name ∈ disabled -> gone name (withdraw_tools disabled s).
Proof.
  intros Hd. split; unfold names_of; cbn.
  - rewrite filtered_names. intros Hx. by apply list_elem_of_filter in Hx as [Hx _].
  - apply map_lookup_filter_None_2. right. intros h _. cbn. auto.
Qed.
End narrow.

Create HintDb narrow discriminated.
#[export] Hint Resolve outside_narrows on_policy_narrows on_wire_narrows modify_narrows withdraw_narrows : narrow.
Ltac narrow := frame_by ltac:(first [ solve [eauto 3 with narrow nocore]
  | apply modify_narrows; intros ?; apply same_narrows; reflexivity ]).

Section run.
Context `{Platform} `{ToolCatalog} {W : Type} `{BatchExecutor W} (sv : services W) (iv : invocation) (system : json).
Implicit Types s : agent W.

Notation deg s := (degradations (betas_of s)).

Lemma report_narrows a : preserves narrows (report iv a : M (agent W) unit).
Proof. unfold report. narrow. Qed.
Lemma pause_narrows ms : preserves narrows (pause sv ms).
Proof. intros s. by apply same_narrows. Qed.
Lemma archive_last_narrows n s : narrows s (archive_last n s).
Proof.
  apply same_narrows; unfold archive_last; destruct (last (messages s)); try done; by destruct (Nat.ltb _ _).
Qed.
Lemma arrange_narrows turn s : narrows s (arrange_context iv turn s).
Proof.
  unfold arrange_context. set (s1 := if iv_scheduled iv && _ then _ else s).
  assert (H1' : narrows s s1) by (subst s1; destruct (_ && _); by apply same_narrows).
  clearbody s1. destruct (_ && _); [|done]. etrans; [exact H1'|]. by apply same_narrows.
Qed.
#[local] Hint Resolve report_narrows pause_narrows archive_last_narrows arrange_narrows : narrow.

Lemma guidance_narrows : preserves narrows (take_guidance sv iv).
Proof. unfold take_guidance, _append_live_guidance_async. narrow. Qed.
Lemma notices_narrows : preserves narrows (take_notices sv).
Proof. unfold take_notices, take_notice. narrow. Qed.
Lemma compact_narrows phase force emergency : preserves narrows (_compact_active_context sv iv system phase force emergency).
Proof. unfold _compact_active_context. narrow. Qed.
Lemma sanitize_narrows : preserves narrows (sanitize_messages (W := W)).
Proof. unfold sanitize_messages. narrow. Qed.
Lemma admit_narrows phase : preserves narrows (admit_now iv system phase : M (agent W) unit).
Proof. unfold admit_now. narrow. Qed.
#[local] Hint Resolve guidance_narrows notices_narrows compact_narrows sanitize_narrows admit_narrows : narrow.

Lemma prepare_narrows turn : preserves narrows (prepare_turn sv iv system turn).
Proof. unfold prepare_turn. narrow. Qed.
Lemma disablements_narrows l : preserves narrows (take_disablements iv system l : M (agent W) unit).
Proof. unfold take_disablements. narrow. Qed.
#[local] Hint Resolve prepare_narrows disablements_narrows : narrow.
Lemma tool_turn_narrows response : preserves narrows (tool_turn sv iv system response).
Proof. unfold tool_turn. narrow. Qed.
Lemma final_turn_narrows : preserves narrows (final_turn sv iv).
Proof. unfold final_turn. narrow. Qed.
#[local] Hint Resolve tool_turn_narrows final_turn_narrows : narrow.

(** Right after the tools of a response ran, the disabled ones are gone. *)
Lemma tool_turn_gone response s s' ended d : tool_turn sv iv system response s = (s', Ok ended) ->
  let t := ag_tooling s in
  d ∈ tool_disablements (execute_tool_calls (tl_surface t) (rs_content response) (tl_control t) (tl_gates t)
        (tl_made t) (tl_context t) (world_of s)) ->
  gone (d_tool_name d) s'.
Proof.
  intros E t Hd. unfold tool_turn in E. unfold bind at 1, get at 1 in E. fold t in E.
  set (w := execute_tool_calls _ _ _ _ _ _ _) in *.
  unfold bind at 1, modify at 1 in E. unfold bind at 1, modify at 1 in E. apply bind_ok in E as (s1 & [] & Et & E).
  match type of E with ?m s1 = _ => assert (Hn : preserves narrows m) by narrow end.
  specialize (Hn s1). rewrite E in Hn. eapply narrows_gone; [exact Hn|]. clear Hn E.
  unfold take_disablements in Et. destruct (tool_disablements w) as [|d0 l] eqn:El; [by apply not_elem_of_nil in Hd|].
  unfold bind at 1, modify at 1 in Et.
  match type of Et with ?m ?s2 = _ => assert (Hn : preserves narrows m) by narrow; specialize (Hn s2) end.
  rewrite Et in Hn. eapply narrows_gone; [exact Hn|]. apply withdrawn. rewrite <- El in Hd |- *.
  by apply list_elem_of_fmap_2.
Qed.

(** ** What a run sends *)

(** Tool calls answered, and no tool offered but those of [names]. *)
Definition sendable (names : list string) (rq : LLMRequest) : Prop := well_paired (rq_messages rq) /\ offered rq ⊆ names.

(** At most so many requests for [n] rounds of the first model and each model that
    is left; [D] bounds the degradations of the beta flags. *)
Record spends (names : list string) (D n : nat) s s' : Prop := {
  spends_fades : (deg s' <= deg s)%nat;
  spends_narrows : narrows s s';
  spends_sent : calls_within (sendable names) D (n + left_models s) s s' }.

Lemma calls_trans P D n1 n2 (s1 s2 s3 : agent W) :
  calls_within P D (n1 + left_models s1) s1 s2 -> calls_within P D (n2 + left_models s2) s2 s3 ->
  calls_within P D (n1 + n2 + left_models s1) s1 s3.
Proof.
  intros (l1 & E1 & F1 & B1) (l2 & E2 & F2 & B2). exists (l1 ++ l2). rewrite E2, E1, <- app_assoc.
  split; [done|]. split; [by apply Forall_app|]. rewrite length_app.
  rewrite Nat.mul_add_distr_l in B1, B2. rewrite !Nat.mul_add_distr_l in *. lia.
Qed.

Lemma spends_trans names D n1 n2 s1 s2 s3 : spends names D n1 s1 s2 -> spends names D n2 s2 s3 ->
  spends names D (n1 + n2) s1 s3.
Proof. intros [A1 A2 A3] [B1 B2 B3]. split; [lia|by etrans|by eapply calls_trans]. Qed.

Lemma calm_spends names D s s' : calm s s' -> narrows s s' -> spends names D 0 s s'.
Proof.
  intros [E1 E2 E3 _] Hn. split; [by rewrite E1|done|]. exists []. rewrite app_nil_r. split; [done|]. split; [done|].
  unfold left_models. unfold models_of in E3. rewrite E3. cbn [length]. lia.
Qed.

Lemma spends_more names D n m s s' : (n <= m)%nat -> spends names D n s s' -> spends names D m s s'.
Proof.
  intros Hnm [A1 A2 (l & E & F & B)]. split; [done..|]. exists l. split; [done|]. split; [done|].
  etrans; [exact B|]. apply Nat.mul_le_mono_l. lia.
Qed.

(** The messages of the next request are in order. *)
Lemma prepared turn s s' : current_user (iv_user_message iv) -> prepare_turn sv iv system turn s = (s', Ok tt) ->
  well_paired (messages s').
Proof.
  intros Hc E. unfold prepare_turn in E.
  apply bind_ok in E as (s1 & x1 & _ & E). apply bind_ok in E as (s2 & x2 & _ & E).
  apply bind_ok in E as (s3 & x3 & Es & E). apply bind_ok in E as (s4 & x4 & Ek & E).
  injection E as <-. apply arrange_paired; [done|].
  apply bind_ok in Es as (sx & x & Eg & Es). injection Eg as <- <-.
  apply bind_ok in Es as (sy & paired & El & Es). injection El as <- El. injection Es as <- _.
  assert (Hp : well_paired (messages (set_active paired s2))) by (cbn; by eapply sanitize_paired).
  pose proof (compact_retried sv iv system "pre_sampling" false false (set_active paired s2)) as Hr.
  rewrite Ek in Hr. by apply (retried_paired _ _ Hr).
Qed.

Lemma cancelled_check_calm : preserves calm (outside (cancel_event_is_set sv) : M (agent W) bool).
Proof. apply outside_calm. Qed.

Lemma turn_spends names D turn s : current_user (iv_user_message iv) -> (deg s <= D)%nat -> names_of s ⊆ names ->
  spends names D 3 s (run_turn sv iv system turn s).1.
Proof.
  intros Hc HD Hnames.
  assert (Hquiet : forall A (m : M (agent W) A) s0, preserves calm m -> preserves narrows m -> spends names D 0 s0 (m s0).1)
    by (intros A m s0 H1' H2'; by apply calm_spends).
  unfold run_turn. unfold bind at 1.
  pose proof (Hquiet _ (outside (cancel_event_is_set sv)) s (outside_calm _) (outside_narrows _)) as H0'.
  destruct (outside _ s) as [s0 [[|]|e]]; [by apply (spends_more _ _ 0); [lia|]| |by apply (spends_more _ _ 0); [lia|]].
  cbn [fst] in H0'. change 3 with (0 + 3). apply (spends_trans _ _ _ _ _ s0); [done|].
  unfold bind at 1. pose proof (Hquiet _ _ s0 (prepare_calm sv iv system turn) (prepare_narrows turn)) as H1'.
  destruct (prepare_turn sv iv system turn s0) as [s1 [[]|e]] eqn:Ep; [|by apply (spends_more _ _ 0); [lia|]].
  cbn [fst] in H1'. apply (spends_trans _ _ 0 3 _ s1); [done|]. apply prepared in Ep; [|done].
  unfold bind at 1, gets at 1. unfold bind at 1, now_ at 1, gets at 1. unfold bind at 1, gets at 1.
  unfold bind at 1. set (wh := withhold_stream _). set (cs := time _ _).
  destruct (call_model_spec sv iv system Hc turn wh D cs s1) as [Hs (new & En & Fn & Bn)].
  { pose proof (spends_fades _ _ _ _ _ H0'). pose proof (spends_fades _ _ _ _ _ H1'). lia. }
  { done. }
  assert (H2' : spends names D 3 s1 (call_model sv iv system turn wh (request_now iv system s1) cs s1).1).
  { split; [apply Hs|apply same_narrows; by rewrite (settled_tooling _ _ Hs)|]. exists new. split; [done|]. split; [|done].
    eapply Forall_impl; [exact Fn|]. intros rq [Hw Ho]. split; [done|]. rewrite Ho.
    etrans; [apply (narrows_names _ _ (spends_narrows _ _ _ _ _ H1'))|].
    etrans; [apply (narrows_names _ _ (spends_narrows _ _ _ _ _ H0'))|done]. }
  destruct (call_model _ _ _ _ _ _ _ s1) as [s2 [[response detected]|e]]; [|done]. cbn [fst] in H2'.
  change 3 with (3 + 0). apply (spends_trans _ _ _ _ _ s2); [done|]. apply Hquiet.
  - calm. all: intros ?; first [apply set_tokens_calm|apply append_calm].
  - narrow.
Qed.

Lemma turns_spend names D n : forall turn s, current_user (iv_user_message iv) -> (deg s <= D)%nat -> names_of s ⊆ names ->
  spends names D (3 * n) s (run_turns sv iv system n turn s).1.
Proof.
  induction n as [|n IH]; intros turn s Hc HD Hn; [by apply calm_spends|].
  cbn [run_turns]. unfold bind. pose proof (turn_spends names D turn s Hc HD Hn) as H1'.
  replace (3 * S n) with (3 + 3 * n) by lia.
  destruct (run_turn sv iv system turn s) as [s1 [[|t|r]|e]]; cbn [fst] in *; cycle 1.
  1-3: by apply (spends_more _ _ 3); [lia|].
  eapply spends_trans; [exact H1'|]. apply IH; [done| |].
  - pose proof (spends_fades _ _ _ _ _ H1'). lia.
  - etrans; [apply (narrows_names _ _ (spends_narrows _ _ _ _ _ H1'))|done].
Qed.

End run.

(** ** The whole run *)

Section whole.
Context `{Platform} `{ToolCatalog} {W : Type} `{BatchExecutor W} (sv : services W).
Implicit Types s : agent W.

Notation deg s := (degradations (betas_of s)).

(** Before and after the turns nothing is sent and no model is called. *)
Record silent s s' : Prop := {
  silent_betas : betas_of s' = betas_of s;
  silent_sent : sent_of s' = sent_of s;
  silent_models : models_of s' = models_of s;
  silent_narrows : narrows s s' }.

#[local] Instance silent_refl : Reflexive silent.
Proof. by split. Qed.
#[local] Instance silent_trans : Transitive silent.
Proof. intros a b c [] []. split; try congruence. by etrans. Qed.

Lemma calm_silent {A} (m : M (agent W) A) : preserves calm m -> preserves narrows m -> preserves silent m.
Proof. intros Hc Hn s. destruct (Hc s). by split. Qed.

Lemma silent_spends names D s s' : silent s s' -> spends names D 0 s s'.
Proof.
  intros [E1 E2 E3 Hn]. split; [by rewrite E1|done|]. exists []. rewrite app_nil_r. split; [done|]. split; [done|].
  unfold left_models. unfold models_of in E3. rewrite E3. cbn [length]. lia.
Qed.

Lemma outside_silent {A} (m : M W A) : preserves silent (outside m).
Proof. apply calm_silent; [apply outside_calm|apply outside_narrows]. Qed.
Lemma policy_silent {A} (m : M ContextWindowPolicy A) : preserves silent (on_policy m).
Proof. apply calm_silent; [apply on_policy_calm|apply on_policy_narrows]. Qed.
Lemma report_silent iv a : preserves silent (report iv a : M (agent W) unit).
Proof. apply calm_silent; [apply report_calm|apply report_narrows]. Qed.
Lemma admit_silent iv system phase : preserves silent (admit_now iv system phase : M (agent W) unit).
Proof. apply calm_silent; [apply admit_calm|apply admit_narrows]. Qed.

Lemma finish_silent iv t prompt handoff : preserves silent (finish_run sv iv t prompt handoff).
Proof.
  unfold finish_run, async_apply_agent_session_side_effects, _update_thread_handoff_after_run_async.
  frame_by ltac:(apply outside_silent).
Qed.

Lemma body_spends iv o prompt max_turns s : current_user (iv_user_message iv) ->
  spends (names_of s) (deg s) (3 * max_turns) s (run_body sv iv o prompt max_turns s).1.
Proof.
  intros Hc. unfold run_body.
  assert (Hpre : forall A (m : M (agent W) A) (k : A -> M (agent W) AgentResult) s0, preserves silent m ->
    silent s s0 -> (forall a s1, silent s s1 -> spends (names_of s) (deg s) (3 * max_turns) s (k a s1).1) ->
    spends (names_of s) (deg s) (3 * max_turns) s (bind m k s0).1).
  { intros A m k s0 Hm Hs Hk. unfold bind. specialize (Hm s0). destruct (m s0) as [s1 [a|e]]; cbn in Hm.
    - apply Hk. by etrans.
    - apply (spends_more _ _ 0); [lia|]. apply silent_spends. by etrans. }
  apply Hpre; [destruct (op_activity o); [apply report_silent|apply preserves_ret, _]|done|intros _ s1 H1'].
  apply Hpre; [destruct (iv_persist_session iv); [apply outside_silent|apply preserves_ret, _]|done|intros loaded s2 H2'].
  apply Hpre; [apply outside_silent|done|intros sent s3 H3'].
  apply Hpre; [by apply preserves_modify|done|intros _ s4 H4'].
  apply Hpre; [destruct (iv_persist_session iv); [apply outside_silent|apply preserves_ret, _]|done|intros handoff s5 H5'].
  cbv zeta. apply Hpre; [apply preserves_get, _|done|intros s6 s7 H7'].
  apply Hpre; [apply policy_silent|done|intros _ s8 H8'].
  apply Hpre; [destruct (iv_persist_session iv); [apply preserves_lift, _|apply preserves_ret, _]|done|intros started s9 H9'].
  apply Hpre; [by apply preserves_modify|done|intros _ s10 H10'].
  apply Hpre; [by apply preserves_modify|done|intros _ s11 H11'].
  apply Hpre; [apply admit_silent|done|intros _ s12 H12'].
  set (system := apply_provider_system_cache_policy _ _ _).
  replace (3 * max_turns) with (0 + (3 * max_turns + 0)) by lia.
  apply (spends_trans _ _ _ _ _ s12); [by apply silent_spends|]. unfold bind.
  assert (Ht : spends (names_of s) (deg s) (3 * max_turns) s12 (run_turns sv iv system max_turns 0 s12).1).
  { apply turns_spend; [done| |apply (silent_narrows _ _ H12')]. by rewrite (silent_betas _ _ H12'). }
  destruct (run_turns sv iv system max_turns 0 s12) as [s13 [ended|e]]; cbn [fst] in Ht |- *;
    [|by rewrite Nat.add_0_r].
  apply (spends_trans _ _ _ _ _ s13); [done|]. destruct ended as [t|r]; [|by apply silent_spends].
  apply silent_spends. apply finish_silent.
Qed.

(** Opening a run builds headers and asks for clients; nothing is sent. *)
Definition opens (w w' : wire W) : Prop := fades w w' /\ sent w' = sent w.

#[local] Instance opens_refl : Reflexive opens.
Proof. split; [|done]. unfold fades. lia. Qed.
#[local] Instance opens_trans : Transitive opens.
Proof. unfold opens, fades. intros a b c [] []. split; [lia|congruence]. Qed.

Lemma quiet_opens {A} (m : M (wire W) A) : preserves quiet m -> preserves opens m.
Proof. intros Hm w. destruct (Hm w) as [E1 E2]. split; [|done]. unfold fades. by rewrite E1. Qed.

Lemma headers_opens llm sid : preserves opens (build_request_headers llm sid [] : M (wire W) dict).
Proof. intros w. destruct (headers_spec llm sid [] w) as (betas & h & -> & Hle). by split. Qed.

Lemma init_opens iv model resolved : preserves opens (_init_llm_async sv iv model resolved).
Proof.
  unfold _init_llm_async. frame_by ltac:(first [apply headers_opens | apply quiet_opens, quiet_in_world]).
Qed.

Lemma open_opens iv model resolved : preserves opens (open_run sv iv model resolved).
Proof. unfold open_run. frame_by ltac:(apply init_opens). Qed.

Lemma run_spec iv model resolved prompt tools surface preloaded max_turns w : current_user (iv_user_message iv) ->
  exists new, sent (run_agent_async sv iv model resolved prompt tools surface preloaded max_turns w).1 = sent w ++ new /\
    Forall (sendable (tool_name_of <$> default [] tools)) new /\
    (length new <= 4 * (degradations (_active_betas w) + 1) * (3 * max_turns + length fallback_targets))%nat.
Proof.
  intros Hc. unfold run_agent_async.
  assert (Hnil : forall w', opens w w' -> exists new, sent w' = sent w ++ new /\
    Forall (sendable (tool_name_of <$> default [] tools)) new /\
    (length new <= 4 * (degradations (_active_betas w) + 1) * (3 * max_turns + length fallback_targets))%nat).
  { intros w' [_ E]. exists []. rewrite app_nil_r. split_and!; [done..|cbn; lia]. }
  pose proof (quiet_opens _ (quiet_in_world (cancel_event_is_set sv)) w) as H1'.
  destruct (in_world (cancel_event_is_set sv) w) as [w1 [[|]|e]]; cbn [fst] in H1'; [by apply Hnil| |by apply Hnil].
  pose proof (open_opens iv (_normalize_model model) resolved w1) as H2'.
  destruct (open_run sv iv _ resolved w1) as [w2 [o|e]]; cbn [fst] in H2'; [|apply Hnil; by etrans].
  set (iv' := with_thinking _ iv). set (s0 := start_agent iv' o tools surface preloaded w2).
  destruct (body_spends iv' o prompt max_turns s0 Hc) as [_ _ (new & En & Fn & Bn)].
  assert (Hw : opens w w2) by (by etrans). destruct Hw as [Hf Hs].
  exists new. destruct (run_body _ _ _ _ _ s0) as [s1 [r|e]]; cbn [fst] in *; unfold sent_of in En; cbn in En;
    rewrite En, Hs; (split; [done|]); (split; [exact Fn|]).
  all: assert (Hl : (left_models s0 <= length fallback_targets)%nat) by (unfold left_models; apply length_filter).
  all: unfold fades in Hf; change (betas_of s0) with (_active_betas w2) in Bn.
  all: set (d := degradations (_active_betas w2)) in *; set (d' := degradations (_active_betas w)) in *.
  all: transitivity (4 * (d + 1) * (3 * max_turns + left_models s0)); [lia|]; apply Nat.mul_le_mono; lia.
Qed.
End whole.
