(* ===== verification/AgentThread.v ===== *)
(** What is said in a run: the exchanges of its turns, as the thread keeps them, with
    the tool calls and the tokens they add. *)
From S2P Require Import Prelude.
From S2P Require Import PyStr.
From S2P Require Import Json.
From S2P Require Import Status.
From S2P Require Import RunCreate.
From S2P Require Import LoopControl.
From S2P Require Import ToolExecution.
From S2P Require Import ToolTheorems.
From S2P Require Import Models.
From S2P Require Import Sessions.
From S2P Require Import SessionTheorems.
From S2P Require Import Compaction.
From S2P Require Import SemanticCompaction.
From S2P Require Import WindowPolicy.
From S2P Require Import ProviderErrors.
From S2P Require Import ProviderCall.
From S2P Require Import CallTheorems.
From S2P Require Import AgentLoop.
From S2P Require Import AgentFrame.
From S2P Require Import AgentPairs.
From S2P Require Import AgentCalls.
Open Scope string_scope.
Open Scope bool_scope.
Open Scope list_scope.

(** ** The calls of a response *)

Definition call_names (content : list content_block) : list string :=
  omap (fun b => match b with ToolUse _ name _ => Some name | OtherBlock _ => None end) content.

Section made.
Context `{Platform} `{ToolCatalog} {W : Type} `{BatchExecutor W} (surface : tool_surface W).
Implicit Types s : walk W.

Lemma consume_made r s : tool_calls_made (consume_resolved surface s r) = tool_calls_made s.
Proof. apply (consume_changes surface [r] s). Qed.

Lemma flush_made s : tool_calls_made (flush_parallel_batch surface s) = tool_calls_made s.
Proof.
  unfold flush_parallel_batch. destruct (pending_parallel s) as [|q qs]; [done|].
  destruct (execute_batch _ _) as [w rs].
  apply (consume_changes surface rs (set_world w (set_pending_calls [] s))).
Qed.

Lemma unless_made i name k s : (forall s, tool_calls_made (k s) = tool_calls_made s) ->
  tool_calls_made (unless_stopped i name s k) = tool_calls_made s.
Proof. intros Hk. unfold unless_stopped. by repeat case_match. Qed.

Lemma schedule_made q s : tool_calls_made (schedule surface q s) = tool_calls_made s.
Proof.
  unfold schedule. cbv zeta. repeat case_match; try done; rewrite unless_made; try apply flush_made; intros s'.
  - done.
  - unfold run_serially. destruct (execute_one _ _) as [w r]. by rewrite consume_made.
Qed.

(** Every call is noted, once, in the order of the response. *)
Lemma block_made b s : tool_calls_made (handle_block surface s b) = tool_calls_made s ++ call_names [b].
Proof.
  destruct b as [i name input|d]; cbn [handle_block]; [|by rewrite app_nil_r].
  rewrite unless_made; [done|]. intros s'. case_match; [apply flush_made|]. unfold gate_and_run.
  destruct (check_gate_violations _ _ _ _ _ _) as [[w g] [d|]]; [exact (flush_made (set_world w (set_gates g s')))|].
  destruct (tool_handlers surface !! name); [by rewrite schedule_made|exact (flush_made (set_world w (set_gates g s')))].
Qed.

Lemma walk_made content : forall s,
  tool_calls_made (fold_left (handle_block surface) content s) = tool_calls_made s ++ call_names content.
Proof.
  induction content as [|b content IH]; intros s; cbn [fold_left]; [by rewrite app_nil_r|].
  rewrite IH, block_made, <- app_assoc. f_equal. unfold call_names. by rewrite <- omap_app.
Qed.

Lemma executed_made content control g made c w :
  tool_calls_made (execute_tool_calls surface content control g made c w) = made ++ call_names content.
Proof. unfold execute_tool_calls. by rewrite flush_made, walk_made. Qed.
End made.

(** ** Exchanges *)

Section conversation.
Context `{Platform} `{ToolCatalog} (iv : invocation).

(** The kind of provider error the text of a response shows, when [made] was called
    before. *)
Definition judged (made : list string) (response : LLMResponse) : result (option string) :=
  content ← _content_to_dicts (model_dump <$> rs_content response);
  text ← _extract_text [assistant_message content];
  Ok (decided_kind (response_text_retry_decision (strip text) (iv_scheduled iv) (iv_metadata iv)
        (iv_tool_call_source iv) made)).

(** The tool calls of a response that are made, and the message with their results. *)
Definition calls_of (response : LLMResponse) : list string :=
  match rs_stop_reason response with TOOL_USE => call_names (rs_content response) | _ => [] end.
Definition results_of (response : LLMResponse) (results : list dict) : list message :=
  match rs_stop_reason response with TOOL_USE => [tool_results_message results] | _ => [] end.

(** [exchanged made tokens new made' tokens']: the messages [new] are one turn of the
    model, between what it heard before and what was noted after. *)
Record exchanged (made : list string) (tokens : TokenAccumulator) (new : list message)
    (made' : list string) (tokens' : TokenAccumulator) : Prop := Exchanged {
  ex_messages : exists heard response detected content results notes,
    new = heard ++ [assistant_message content] ++ results_of response results ++ notes /\
    judged made response = Ok detected /\ kept_content response detected = Ok content /\
    (rs_stop_reason response = TOOL_USE -> (result_id <$> results) ≡ₚ call_ids (rs_content response)) /\
    made' = made ++ calls_of response /\ tokens' = add_turn tokens (rs_usage response) }.

Inductive conversation : list string -> TokenAccumulator -> list message -> list string -> TokenAccumulator -> Prop :=
| Silence made tokens : conversation made tokens [] made tokens
| Exchange made tokens new made1 tokens1 more made2 tokens2 :
    exchanged made tokens new made1 tokens1 -> conversation made1 tokens1 more made2 tokens2 ->
    conversation made tokens (new ++ more) made2 tokens2.
End conversation.

(** ** What the parts of a turn leave alone *)

Section aside.
Context {W : Type}.
Implicit Types s : agent W.

Definition made_of s : list string := tl_made (ag_tooling s).

(** No tool is called and no token used. *)
Record aside s s' : Prop := { aside_made : made_of s' = made_of s; aside_tokens : ag_tokens s' = ag_tokens s }.
#[export] Instance aside_refl : Reflexive aside.
Proof. by split. Qed.
#[export] Instance aside_trans : Transitive aside.
Proof. intros a b c [] []. split; congruence. Qed.

Lemma on_wire_aside {A} (m : M (wire W) A) : preserves aside (on_wire m).
Proof. intros s. unfold on_wire. by destruct (m (ag_wire s)). Qed.
Lemma outside_aside {A} (m : M W A) : preserves aside (outside m).
Proof. apply on_wire_aside. Qed.
Lemma on_policy_aside {A} (m : M ContextWindowPolicy A) : preserves aside (on_policy m).
Proof. intros s. unfold on_policy. by destruct (m _). Qed.
Lemma modify_aside (f : agent W -> agent W) : (forall s, aside s (f s)) -> preserves aside (modify f).
Proof. apply preserves_modify. Qed.
Lemma set_active_aside l s : aside s (set_active l s).
Proof. done. Qed.
Lemma append_aside msg s : aside s (_append_message_with_archive msg s).
Proof. done. Qed.
Lemma set_policy_aside p s : aside s (set_policy p s).
Proof. done. Qed.
Lemma set_notices_aside n s : aside s (set_notices n s).
Proof. done. Qed.
Lemma archive_last_aside n s : aside s (archive_last n s).
Proof. unfold archive_last. by repeat case_match. Qed.
Lemma withdraw_aside d s : aside s (withdraw_tools d s).
Proof. done. Qed.
End aside.

Create HintDb aside discriminated.
#[export] Hint Resolve on_wire_aside outside_aside on_policy_aside modify_aside set_active_aside append_aside
  set_policy_aside set_notices_aside archive_last_aside withdraw_aside : aside.
Ltac aside := frame_by ltac:(eauto 4 with aside nocore).

Section turns.
Context `{Platform} `{ToolCatalog} {W : Type} `{BatchExecutor W} (sv : services W) (iv : invocation) (system : json).
Implicit Types s : agent W.

Lemma arrange_aside turn s : aside s (arrange_context iv turn s).
Proof. unfold arrange_context. by destruct (iv_scheduled iv && _), (_ && _). Qed.
Lemma report_aside a : preserves aside (report iv a : M (agent W) unit).
Proof. unfold report. aside. Qed.
#[local] Hint Resolve arrange_aside report_aside : aside.

Lemma compact_aside phase force emergency : preserves aside (_compact_active_context sv iv system phase force emergency).
Proof. unfold _compact_active_context. aside. Qed.
Lemma guidance_aside : preserves aside (take_guidance sv iv).
Proof. unfold take_guidance, _append_live_guidance_async. aside. Qed.
#[local] Hint Resolve compact_aside guidance_aside : aside.

Lemma prepare_aside turn : preserves aside (prepare_turn sv iv system turn).
Proof. unfold prepare_turn, take_notices, take_notice, sanitize_messages. aside. Qed.
Lemma final_turn_aside : preserves aside (final_turn sv iv).
Proof. unfold final_turn. aside. Qed.
Lemma disablements_aside l : preserves aside (take_disablements iv system l : M (agent W) unit).
Proof. unfold take_disablements, admit_now. aside. Qed.
#[local] Hint Resolve disablements_aside : aside.

(** ** A call of the model *)

Lemma attempt_judged wh rq ov ta cs s s' response detected :
  attempt_call sv iv wh rq ov ta cs s = (s', Ok (Done response detected)) ->
  judged iv (made_of s) response = Ok detected.
Proof.
  unfold attempt_call. intros (s1 & [answer|] & E1 & E)%bind_ok; [|done].
  assert (Hm : made_of s1 = made_of s).
  { assert (Ha : preserves aside (call_provider sv iv wh rq cs)) by (intros s0; apply on_wire_aside).
    specialize (Ha s). rewrite E1 in Ha. apply Ha. }
  apply bind_ok in E as (s2 & content & E2 & E). unfold lift_result in E2. injection E2 as <- E2.
  apply bind_ok in E as (s3 & text & E3 & E). unfold lift_result in E3. injection E3 as <- E3.
  apply bind_ok in E as (s4 & made & E4 & E). injection E4 as <- <-.
  assert (Hd : answer = response /\ decided_kind (response_text_retry_decision (strip text) (iv_scheduled iv)
    (iv_metadata iv) (iv_tool_call_source iv) (made_of s1)) = detected).
  { unfold made_of. cbv zeta in E. destruct (decided_kind _) as [kind|].
    - destruct (_ !! ta) as [delay|]; [|by injection E as _ -> ->].
      destruct (should_retry _); [|by injection E as _ -> ->].
      apply bind_ok in E as (s5 & x5 & _ & E). apply bind_ok in E as (s6 & x6 & _ & E).
      apply bind_ok in E as (s7 & x7 & _ & E). done.
    - apply bind_ok in E as (s5 & x5 & _ & E). by injection E as _ -> ->. }
  destruct Hd as [<- <-]. unfold judged. by rewrite E2, <- Hm; cbn [mbind result_bind]; rewrite E3.
Qed.

Lemma recover_not_done turn e ov ta s s' response detected :
  recover sv iv system turn e ov ta s <> (s', Ok (Done response detected)).
Proof.
  intros E. destruct (recover sv iv system turn e ov ta s) as [s1 r] eqn:Er. injection E as -> ->.
  unfold recover in Er. apply bind_ok in Er as (s0 & x & Eg & Er). injection Eg as <- <-.
  assert (Ho : forall z, recover_overflow sv iv system turn e ov ta z <> (s', Ok (Done response detected))).
  { intros z Ez. unfold recover_overflow in Ez. destruct (ov || _); [done|].
    apply bind_ok in Ez as (z1 & o & _ & Ez). destruct (out_report o); [|done].
    repeat (apply bind_ok in Ez as (? & ? & _ & Ez)). done. }
  destruct (fallback_model_for _) as [fb|]; [|by apply (Ho s)]. destruct (_ && _); [|by apply (Ho s)].
  unfold fall_back in Er. repeat (apply bind_ok in Er as (? & ? & _ & Er)). done.
Qed.

Lemma rounds_judged turn wh fuel : forall rq ov ta cs s s' response detected,
  current_user (iv_user_message iv) ->
  call_rounds sv iv system fuel turn wh rq ov ta cs s = (s', Ok (response, detected)) ->
  aside s s' /\ archive_of s' = archive_of s /\ judged iv (made_of s) response = Ok detected.
Proof.
  induction fuel as [|fuel IH]; intros rq ov ta cs s s' response detected Hc E; [done|].
  cbn [call_rounds] in E. apply bind_ok in E as (s1 & step & Er & E).
  pose proof (round_spec sv iv system Hc _ _ _ _ _ _ _ _ _ Er) as [[Et Ek Ea _ _ _] _].
  destruct step as [response' detected'|rq' ov' ta' cs'].
  - injection E as -> -> ->. split; [by split; [unfold made_of; rewrite Et|]|]. split; [done|].
    unfold catch in Er. destruct (attempt_call _ _ _ _ _ _ _ s) as [s2 [step|e]] eqn:Eat.
    + injection Er as -> ->. by apply attempt_judged in Eat.
    + by apply recover_not_done in Er.
  - destruct (IH _ _ _ _ _ _ _ _ Hc E) as ([Am At] & Aa & Hj). unfold made_of in *. rewrite Et in Hj, Am.
    split; [split; [done|congruence]|]. split; [congruence|done].
Qed.

Lemma call_judged turn wh rq cs s s' response detected :
  current_user (iv_user_message iv) ->
  call_model sv iv system turn wh rq cs s = (s', Ok (response, detected)) ->
  aside s s' /\ archive_of s' = archive_of s /\ judged iv (made_of s) response = Ok detected.
Proof. apply rounds_judged. Qed.

(** ** A turn *)

Lemma tool_turn_said response s s' ended :
  tool_turn sv iv system response s = (s', Ok ended) ->
  exists results notes, (result_id <$> results) ≡ₚ call_ids (rs_content response) /\
    made_of s' = made_of s ++ call_names (rs_content response) /\ ag_tokens s' = ag_tokens s /\
    appends (tool_results_message results :: notes) (archive_of s) (archive_of s').
Proof.
  unfold tool_turn. intros (s0 & x & Eg & E)%bind_ok. injection Eg as <- <-. cbv zeta in E.
  set (w := execute_tool_calls _ _ _ _ _ _ _) in E.
  unfold bind at 1, modify at 1 in E. unfold bind at 1, modify at 1 in E.
  set (s1 := _append_message_with_archive _ _) in E.
  match type of E with ?m s1 = _ =>
    assert (Ha : preserves aside m) by aside; assert (Hca : preserves calm m) by calm end.
  specialize (Ha s1). specialize (Hca s1). rewrite E in Ha, Hca. cbn [fst] in Ha, Hca.
  destruct Ha as [Am At], Hca as [_ _ _ [notes Hn]]. exists (tool_results w), notes. split_and!.
  - destruct (walk_takes (tl_surface (ag_tooling s)) (rs_content response) (start_walk (tl_control (ag_tooling s))
      (tl_gates (ag_tooling s)) (tl_made (ag_tooling s)) (tl_context (ag_tooling s)) (world_of s))) as (H2' & H3' & _).
    change (flush_parallel_batch _ _) with w in *. unfold taken in H2'. rewrite H3' in H2'. cbn in H2'.
    by rewrite app_nil_r in H2'.
  - rewrite Am. unfold s1, made_of. cbn. apply executed_made.
  - by rewrite At.
  - change (tool_results_message (tool_results w) :: notes) with ([tool_results_message (tool_results w)] ++ notes).
    by eapply appends_trans; [|exact Hn].
Qed.

Lemma turn_said turn s s' ended :
  current_user (iv_user_message iv) -> run_turn sv iv system turn s = (s', Ok ended) ->
  match ended with
  | Returned _ => aside s s' /\ archive_of s' = archive_of s
  | _ => exists new, appends new (archive_of s) (archive_of s') /\
           exchanged iv (made_of s) (ag_tokens s) new (made_of s') (ag_tokens s')
  end.
Proof.
  intros Hc. unfold run_turn. intros (s1 & cancelled & E1 & E)%bind_ok.
  assert (H1' : aside s s1 /\ archive_of s1 = archive_of s).
  { unfold outside, on_wire in E1. destruct (in_world _ _) as [w r]. by injection E1 as <- _. }
  destruct cancelled.
  { apply bind_ok in E as (s2 & r & E2 & E). injection E2 as <- <-. by injection E as <- <-. }
  destruct H1' as [[M1 T1] A1].
  apply bind_ok in E as (s2 & [] & E2 & E). pose proof (prepare_aside turn s1) as [M2 T2].
  pose proof (prepare_calm sv iv system turn s1) as [_ _ _ [heard A2]]. rewrite E2 in M2, T2, A2. cbn [fst] in M2, T2, A2.
  apply bind_ok in E as (s3 & rq & E3 & E). injection E3 as <- <-.
  apply bind_ok in E as (s3 & t & E3 & E). injection E3 as <- <-.
  apply bind_ok in E as (s3 & made & E3 & E). injection E3 as <- <-. cbv zeta in E.
  apply bind_ok in E as (s3 & [response detected] & E3 & E).
  destruct (call_judged _ _ _ _ _ _ _ _ Hc E3) as ([M3 T3] & A3 & Hj).
  unfold bind at 1, modify at 1 in E. apply bind_ok in E as (s4 & content & E4 & E).
  unfold lift_result in E4. injection E4 as <- E4. unfold bind at 1, modify at 1 in E.
  set (s4 := _append_message_with_archive _ _) in E.
  assert (A4 : appends (heard ++ [assistant_message content]) (archive_of s) (archive_of s4)).
  { rewrite <- A1. eapply appends_trans; [exact A2|]. rewrite <- A3. done. }
  assert (M4 : made_of s4 = made_of s) by (change (made_of s4) with (made_of s3); congruence).
  assert (T4 : ag_tokens s4 = add_turn (ag_tokens s) (rs_usage response)) by (change (ag_tokens s4) with (add_turn (ag_tokens s3) (rs_usage response)); congruence).
  rewrite M2, M1 in Hj.
  assert (Hsaid : exists results notes,
    (rs_stop_reason response = TOOL_USE -> (result_id <$> results) ≡ₚ call_ids (rs_content response)) /\
    made_of s' = made_of s4 ++ calls_of response /\ ag_tokens s' = ag_tokens s4 /\
    appends (results_of response results ++ notes) (archive_of s4) (archive_of s') /\ (forall r, ended <> Returned r)).
  { unfold calls_of, results_of. destruct (rs_stop_reason response) eqn:Es.
    3-8: injection E as <- <-; exists [], []; rewrite app_nil_r; split_and!; try done; apply appends_nil.
    - pose proof (final_turn_aside s4) as [M5 T5]. pose proof (final_turn_calm sv iv s4) as [_ _ _ [notes A5]].
      rewrite E in M5, T5, A5. exists [], notes. rewrite app_nil_r. split_and!; try done.
      intros r ->. revert E. unfold final_turn. intros (s5 & n & _ & E)%bind_ok.
      destruct (negb _); [done|]. apply bind_ok in E as (s6 & x & _ & E). by repeat case_match.
    - destruct (tool_turn_said _ _ _ _ E) as (results & notes & Hr & M5 & T5 & A5). exists results, notes.
      split_and!; try done. intros r ->. revert E. unfold tool_turn. intros E.
      apply bind_ok in E as (? & ? & _ & E). apply bind_ok in E as (? & ? & _ & E). apply bind_ok in E as (? & ? & _ & E).
      apply bind_ok in E as (? & ? & _ & E). destruct (stopped _).
      + by apply bind_ok in E as (? & ? & _ & E).
      + apply bind_ok in E as (? & ? & _ & E). apply bind_ok in E as (? & ? & _ & E).
        by apply bind_ok in E as (? & ? & _ & E). }
  destruct Hsaid as (results & notes & Hr & M5 & T5 & A5 & Hne).
  assert (Hex : exists new, appends new (archive_of s) (archive_of s') /\
    exchanged iv (made_of s) (ag_tokens s) new (made_of s') (ag_tokens s')).
  { eexists. split; [by eapply appends_trans|]. constructor.
    exists heard, response, detected, content, results, notes. rewrite <- app_assoc.
    split_and!; [done..|congruence|congruence]. }
  destruct ended as [|t|r]; [done|done|]. by destruct (Hne r).
Qed.

Lemma turns_said n : forall turn s s' o,
  current_user (iv_user_message iv) -> run_turns sv iv system n turn s = (s', Ok o) ->
  exists new, appends new (archive_of s) (archive_of s') /\
    conversation iv (made_of s) (ag_tokens s) new (made_of s') (ag_tokens s').
Proof.
  induction n as [|n IH]; intros turn s s' o Hc E; cbn [run_turns] in E.
  { injection E as <- _. exists []. split; [apply appends_nil|apply Silence]. }
  apply bind_ok in E as (s1 & ended & E1 & E). pose proof (turn_said _ _ _ _ Hc E1) as Ht.
  destruct ended as [|t|r].
  - destruct Ht as (new & A1 & Hx). destruct (IH _ _ _ _ Hc E) as (more & A2 & Hm).
    exists (new ++ more). split; [by eapply appends_trans|by eapply Exchange].
  - injection E as <- _. destruct Ht as (new & A1 & Hx). exists new. split; [done|].
    rewrite <- (app_nil_r new). eapply Exchange; [exact Hx|apply Silence].
  - injection E as <- _. destruct Ht as [[M T] A]. exists []. rewrite M, T, A. split; [apply appends_nil|apply Silence].
Qed.
End turns.
