(* ===== verification/AgentTheorems.v ===== *)
(** What a run of the agent loop guarantees: the requests it sends, the text it
    shows, the tools it offers, the thread it keeps; and how it answers a cancelled
    stream and an error text that comes with tool calls. *)
From S2P Require Import Prelude.
From S2P Require Import PyStr.
From S2P Require Import Json.
From S2P Require Import Status.
From S2P Require Import RunCreate.
From S2P Require Import RunMessages.
From S2P Require Import RunDemo.
From S2P Require Import LoopControl.
From S2P Require Import ToolExecution.
From S2P Require Import LoopTheorems.
From S2P Require Import ToolTheorems.
From S2P Require Import Models.
From S2P Require Import Sessions.
From S2P Require Import SessionTheorems.
From S2P Require Import Compaction.
From S2P Require Import SemanticCompaction.
From S2P Require Import WindowPolicy.
From S2P Require Import ThreadHandoff.
From S2P Require Import ProviderErrors.
From S2P Require Import ProviderCall.
From S2P Require Import CallTheorems.
From S2P Require Import AgentLoop.
From S2P Require Import AgentFrame.
From S2P Require Import AgentPairs.
From S2P Require Import AgentCalls.
From S2P Require Import AgentRun.
From S2P Require Import AgentThread.
Open Scope string_scope.
Open Scope bool_scope.
Open Scope list_scope.

(** ** Text that is withheld *)

Section publish.
Context {W : Type}.

(** Nothing is shown to the user. *)
Definition mutes (w w' : wire W) : Prop := public_deltas w' = public_deltas w.
#[export] Instance mutes_refl : Reflexive mutes.
Proof. done. Qed.
#[export] Instance mutes_trans : Transitive mutes.
Proof. unfold mutes. intros a b c. congruence. Qed.

Definition hushes (s s' : agent W) : Prop := mutes (ag_wire s) (ag_wire s').
#[export] Instance hushes_refl : Reflexive hushes.
Proof. done. Qed.
#[export] Instance hushes_trans : Transitive hushes.
Proof. unfold hushes. intros a b c. by etrans. Qed.

Lemma in_world_mutes {A} (m : M W A) : preserves mutes (in_world m).
Proof. intros w. unfold in_world. by destruct (m (wire_world w)). Qed.

Lemma modify_mutes (f : wire W -> wire W) : (forall w, public_deltas (f w) = public_deltas w) -> preserves mutes (modify f).
Proof. intros Hf w. apply Hf. Qed.

Lemma on_wire_hushes {A} (m : M (wire W) A) : preserves mutes m -> preserves hushes (on_wire m).
Proof. intros Hm s. unfold on_wire, hushes. specialize (Hm (ag_wire s)). by destruct (m (ag_wire s)). Qed.

Lemma outside_hushes {A} (m : M W A) : preserves hushes (outside m).
Proof. apply on_wire_hushes, in_world_mutes. Qed.

Lemma policy_hushes {A} (m : M ContextWindowPolicy A) : preserves hushes (on_policy m).
Proof. intros s. unfold on_policy. by destruct (m _). Qed.

Lemma modify_hushes (f : agent W -> agent W) : (forall s, ag_wire (f s) = ag_wire s) -> preserves hushes (modify f).
Proof. intros Hf s. unfold hushes. cbn. by rewrite Hf. Qed.

Lemma headers_mutes `{Platform} llm sid : preserves mutes (build_request_headers llm sid [] : M (wire W) dict).
Proof. intros w. destruct (headers_spec llm sid [] w) as (betas & h & -> & _). done. Qed.

Lemma degrade_mutes `{Platform} : preserves mutes (_degrade_betas : M (wire W) bool).
Proof. intros w. destruct (degrade_spec w) as [(betas & -> & _)|[-> _]]; done. Qed.

(** A call whose deltas do not go to the user shows nothing. *)
Lemma call_mutes `{Platform} (p : LLMProvider W) c rc llm sid delays rq t0 : on_stream_delta c <> PublicSink ->
  preserves mutes (async_api_call_with_retry p c rc llm sid delays rq t0).
Proof.
  intros Hc. assert (He : forall t ticks st, preserves mutes (stream_events (W := W) c t ticks st)).
  { intros t ticks. induction ticks as [|k ticks IH]; intros st; cbn [stream_events]; [apply preserves_ret, _|].
    frame_by ltac:(first [apply IH | apply modify_mutes; intros ?; by destruct (on_stream_delta c)]). }
  assert (Ho : forall rq t, preserves mutes (one_call p c rq t)).
  { intros rq' t. unfold one_call, streaming_call.
    frame_by ltac:(first [apply He | apply in_world_mutes | by apply modify_mutes]). }
  assert (Hl : forall n rq a t, preserves mutes (api_call_loop p c rc llm sid delays n rq a t)).
  { induction n as [|n IH]; intros rq' a t; cbn [api_call_loop]; [apply preserves_raise, _|]. unfold after_error, wall_time.
    frame_by ltac:(first [apply IH | apply Ho | apply headers_mutes | apply degrade_mutes | by apply modify_mutes]). }
  intros w. apply Hl.
Qed.
End publish.

(** ** Results of calls that were never made *)

Lemma select_none p l : Forall (fun b => p b = Ok false) l -> select p l = Ok [].
Proof. induction 1 as [|b l Hb _ IH]; [done|]. cbn [select]. by rewrite Hb, IH. Qed.

Lemma orphan_uses results : Forall (fun d => has_type "tool_result" (JObj d) = true) results ->
  select (fun b => Ok (has_type "tool_use" b && truthy (_tool_use_id b))) (JObj <$> results) = Ok [].
Proof.
  intros Hr. apply select_none, Forall_fmap. eapply Forall_impl; [exact Hr|]. intros d Hd.
  unfold compose, has_type in *. apply eqb_str in Hd. by rewrite Hd.
Qed.

Lemma orphan_drops results : Forall (fun d => has_type "tool_result" (JObj d) = true) results ->
  _drop_blocks (JList (JObj <$> results)) (fun b => Ok (has_type "tool_result" b)) =
    Ok (JList [], Z.of_nat (length results)).
Proof.
  intros Hr. unfold _drop_blocks. rewrite select_none.
  - cbn [mbind result_bind length]. by rewrite length_fmap, Nat.sub_0_r.
  - apply Forall_fmap. eapply Forall_impl; [exact Hr|]. intros d Hd. unfold compose. cbn beta in *. by rewrite Hd.
Qed.

Lemma clean_loop_app l k : forall c, clean_loop c (l ++ k) = (c' ← clean_loop c l; clean_loop c' k).
Proof.
  induction l as [|m l IH]; intros c; [done|]. cbn [app clean_loop]. destruct (clean_step c m); [|done]. apply IH.
Qed.

Section theorems.
Context `{Platform} `{ToolCatalog} {W : Type} `{BatchExecutor W} (sv : services W) (iv : invocation).
Implicit Types s : agent W.

Lemma sink_withheld : sink_of iv true <> PublicSink.
Proof. unfold sink_of. destruct (iv_scheduled iv); [done|]. by destruct (on_stream_delta (iv_callbacks iv)). Qed.

Lemma report_hushes a : preserves hushes (report iv a : M (agent W) unit).
Proof. unfold report. apply preserves_when; [apply _|]. by apply on_wire_hushes, modify_mutes. Qed.

Lemma arrange_wire turn s : ag_wire (arrange_context iv turn s) = ag_wire s.
Proof. unfold arrange_context. by destruct (iv_scheduled iv && _), (_ && _). Qed.

Lemma recover_hushes system turn e ov ta : preserves hushes (recover sv iv system turn e ov ta).
Proof.
  unfold recover, recover_overflow, fall_back, admit_now, _compact_active_context, now_.
  frame_by ltac:(first [ apply report_hushes | apply outside_hushes | apply policy_hushes
    | apply on_wire_hushes, headers_mutes | by apply modify_hushes
    | apply modify_hushes; intros ?; apply arrange_wire ]).
Qed.

(** A call with withheld deltas ends without showing anything, but for a response
    whose text is no provider error. *)
Lemma attempt_hushes rq ov ta cs s s' r : attempt_call sv iv true rq ov ta cs s = (s', r) ->
  hushes s s' \/ exists response, r = Ok (Done response None).
Proof.
  intros E. unfold attempt_call in E. unfold bind at 1 in E.
  assert (Hc : preserves hushes (call_provider sv iv true rq cs)).
  { intros s0. unfold call_provider. apply on_wire_hushes. apply preserves_bind; [apply _|by apply modify_mutes|intros _].
    apply call_mutes, sink_withheld. }
  specialize (Hc s). destruct (call_provider _ _ _ _ _ s) as [s1 [[response|]|e]]; cbn in Hc; [|by injection E as <- _; left..].
  unfold bind at 1, lift_result at 1 in E. destruct (_content_to_dicts _) as [content|e]; [|by injection E as <- _; left].
  unfold bind at 1, lift_result at 1 in E. destruct (_extract_text _) as [text|e]; [|by injection E as <- _; left].
  unfold bind at 1, gets at 1 in E. destruct (decided_kind _) as [kind|].
  - left. etrans; [exact Hc|].
    match type of E with ?m s1 = _ => assert (Hm : preserves hushes m) end.
    { unfold now_. frame_by ltac:(first [apply report_hushes | by intros ?]). }
    specialize (Hm s1). by rewrite E in Hm.
  - right. exists response. unfold bind in E. destruct (when_ _ _ s1) as [s2 [[]|e]] eqn:Er; [by injection E as _ <-|].
    exfalso. revert Er. unfold when_, release_deltas, on_wire, modify, ret. by destruct (negb _).
Qed.

(** C20. A run sends boundedly many requests, whatever the model, the provider, the
    tools and the compactor do: per turn one, one more after an error that came as
    text and one after the compaction of an overflowing context, and one for each
    fallback model in the whole run; and each of these at most four times for the
    delays of [_API_RETRY_DELAYS] and again for every degradation of the beta
    flags. *)
Theorem run_requests_bounded (model prompt : string) (resolved : option LLMClient) (tools : option (list json))
    (surface : tool_surface W) (preloaded : bool) (max_turns : nat) (w : wire W) :
  current_user (iv_user_message iv) ->
  let w' := (run_agent_async sv iv model resolved prompt tools surface preloaded max_turns w).1 in
  exists new, sent w' = sent w ++ new /\
    (length new <= 4 * (degradations (_active_betas w) + 1) * (3 * max_turns + length fallback_targets))%nat.
Proof.
  intros Hc w'. destruct (run_spec sv iv model resolved prompt tools surface preloaded max_turns w Hc) as (new & En & _ & Hl).
  by exists new.
Qed.

(** C19. Every request of a run is one the provider accepts: in whatever state the
    loaded session, the tools and the compactions leave the transcript, each request
    answers every tool call of an assistant message in the very next message and has
    no other results, and it offers no tool that the run was not given. *)
Theorem run_requests_sound (model prompt : string) (resolved : option LLMClient) (tools : option (list json))
    (surface : tool_surface W) (preloaded : bool) (max_turns : nat) (w : wire W) :
  current_user (iv_user_message iv) ->
  let w' := (run_agent_async sv iv model resolved prompt tools surface preloaded max_turns w).1 in
  exists new, sent w' = sent w ++ new /\
    Forall (fun rq => well_paired (rq_messages rq) /\ offered rq ⊆ (tool_name_of <$> default [] tools)) new.
Proof.
  intros Hc w'. destruct (run_spec sv iv model resolved prompt tools surface preloaded max_turns w Hc) as (new & En & Hf & _).
  by exists new.
Qed.

(** A call of the model ends: whatever the provider, the tools and the compactor
    answer, the rounds of the call are at most one for the first request, one for a
    provider error that came as text, one for the compaction of an overflowing
    context and one for each fallback model not asked before; a higher bound on the
    rounds changes nothing. *)
Theorem model_calls_end (system : json) (turn fuel : nat) (withheld : bool) (request : LLMRequest) (call_start : Z)
    (s : agent W) :
  current_user (iv_user_message iv) ->
  (3 + length (filter (fun m => m ∉ attempted_models (ag_route s)) fallback_targets) <= fuel)%nat ->
  call_rounds sv iv system fuel turn withheld request false 0 call_start s =
    call_model sv iv system turn withheld request call_start s.
Proof.
  intros Hc Hf. apply rounds_fuel; [done|lia|]. unfold rounds_left.
  change (length _PROVIDER_ERROR_TEXT_RETRY_DELAYS) with 1. lia.
Qed.

(** C22. A tool that was disabled is gone for the rest of the run: after the turn in
    which it was disabled no request offers it and no handler executes it. *)
Theorem disabled_tools_gone (system : json) (response : LLMResponse) (turns turn : nat) (s s1 : agent W)
    (ended : turn_end) (d : ToolDisablement) :
  current_user (iv_user_message iv) -> tool_turn sv iv system response s = (s1, Ok ended) ->
  let t := ag_tooling s in
  d ∈ tool_disablements (execute_tool_calls (tl_surface t) (rs_content response) (tl_control t) (tl_gates t)
        (tl_made t) (tl_context t) (world_of s)) ->
  let s2 := (run_turns sv iv system turns turn s1).1 in
  exists new, sent (ag_wire s2) = sent (ag_wire s1) ++ new /\
    Forall (fun rq => d_tool_name d ∉ offered rq) new /\
    tool_handlers (tl_surface (ag_tooling s2)) !! d_tool_name d = None.
Proof.
  intros Hc E t Hd s2. destruct (tool_turn_gone _ _ _ _ _ _ _ _ E Hd) as [Hn Hh].
  destruct (turns_spend sv iv system (names_of s1) (degradations (betas_of s1)) turns turn s1 Hc (le_n _) ltac:(done))
    as [_ [_ Hk] (new & En & Fn & _)].
  exists new. split; [exact En|]. split; [|by apply Hk]. eapply Forall_impl; [exact Fn|]. intros rq [_ Ho] Hin. auto.
Qed.


(** ** Two surprises *)

(** A stream that is cancelled fails the run: the call answers with the
    cancelled result, whose missing [content] raises before the loop looks whether
    the response is a result; no recovery takes the exception up, so the turn ends
    with it and the run reports an [AttributeError] instead of its cancellation. *)
Theorem cancelled_stream_fails (system : json) (turn : nat) (withheld : bool) (request : LLMRequest) (call_start : Z)
    (s s' : agent W) :
  call_provider sv iv withheld request call_start s = (s', Ok None) ->
  call_model sv iv system turn withheld request call_start s =
    (s', Err (AttributeError "'AgentResult' object has no attribute 'content'")) /\
  let r := failed_result iv false (AttributeError "'AgentResult' object has no attribute 'content'") s' in
  ar_success r = false /\ ar_exception_type r = Some "AttributeError" /\
  ar_error r = Some "'AgentResult' object has no attribute 'content'".
Proof.
  intros E. split; [|done]. unfold call_model. cbn [call_rounds].
  assert (Ea : attempt_call sv iv withheld request false 0 call_start s =
    (s', Err (AttributeError "'AgentResult' object has no attribute 'content'"))).
  { unfold attempt_call. by rewrite (bind_eq_ok _ _ _ _ _ E). }
  unfold bind. rewrite (catch_err _ _ _ _ _ Ea). unfold recover, bind, get. cbv beta iota zeta.
  unfold recover_overflow, is_model_unavailable_error.
  change (_status_code (AttributeError _)) with (@None Z).
  assert (Eo : is_context_overflow_error (AttributeError "'AgentResult' object has no attribute 'content'") = false)
    by (vm_compute; reflexivity).
  assert (El : _is_connection_level_error (AttributeError "'AgentResult' object has no attribute 'content'") = false)
    by (vm_compute; reflexivity).
  rewrite Eo, El. cbn [orb negb]. destruct (fallback_model_for _); [|done]. cbv iota.
  destruct (ro_model (ag_route s')); cbv iota beta; by rewrite !andb_false_r.
Qed.
Lemma plain_step c text : pending_tool_ids c = [] ->
  clean_step c (assistant_message [text_block text]) = Ok (append_cleaned (assistant_message [text_block text]) c).
Proof. intros Hp. unfold clean_step. by rewrite Hp. Qed.

Lemma orphan_step c results : pending_tool_ids c = [] ->
  Forall (fun d => has_type "tool_result" (JObj d) = true) results ->
  clean_step c (tool_results_message results) = Ok (count_results (Z.of_nat (length results)) c).
Proof.
  intros Hp Hr. unfold clean_step. rewrite Hp. cbn [length Nat.eqb].
  change (content_of (tool_results_message results)) with (JList (JObj <$> results)). unfold clean_message.
  rewrite orphan_uses, orphan_drops by done.
  by change (has_role "user" (tool_results_message results)) with true.
Qed.

(** A transcript in order, with a text of the assistant and the results of calls
    that are not in it. *)
Lemma sanitize_orphans ms text results : well_paired ms -> Forall (fun m => ~ silent_user m) ms -> Forall ids_hashable ms ->
  Forall (fun d => has_type "tool_result" (JObj d) = true) results ->
  _sanitize_tool_pairs (ms ++ [assistant_message [text_block text]; tool_results_message results]) =
    Ok (ms ++ [assistant_message [text_block text]]).
Proof.
  intros [Hp Ho] Hs Hh Hr. unfold _sanitize_tool_pairs.
  destruct (clean_loop_total [] _ ms tidy_start (Forall_nil_2 _) Hh) as [c E].
  pose proof (clean_loop_same [] _ ms c tidy_start (Forall_nil_2 _) Hh Hp Hs E) as Ec. cbn in Ec.
  assert (Hpend : pending_tool_ids c = []).
  { apply (clean_loop_ok [] _ _ _ tidy_start) in E. destruct (pending_tool_ids c) as [|x l] eqn:Ep; [done|].
    assert (Hx : x ∈ owed_after [] (cleaned c)) by (apply (tidy_pending _ _ E); rewrite Ep; by left).
    rewrite Ec, Ho in Hx. by apply not_elem_of_nil in Hx. }
  rewrite clean_loop_app, E. cbn [mbind result_bind clean_loop].
  rewrite (plain_step c _ Hpend). cbn [mbind result_bind]. set (c1 := append_cleaned _ c).
  rewrite (orphan_step c1 results Hpend Hr). cbn [mbind result_bind count_results pending_tool_ids cleaned].
  change (pending_tool_ids c1) with (pending_tool_ids c). rewrite Hpend. cbn. by rewrite Ec.
Qed.

(** Tools run for an error text, and nobody learns of it: when a response asks for
    tools but its text is a provider error, the transcript keeps the sentinel in place
    of the whole response, the tools run all the same, and the sanitizer of the next
    turn takes their results out as those of calls that were never made. *)
Theorem error_text_drops_results (response : LLMResponse) (kind : string) (content : list json)
    (ms : list Sessions.message) (control : RunControlPolicy) (g : GateState) (made : list string) (c : AgentContext)
    (surface : tool_surface W) (w : W) :
  kept_content response (Some kind) = Ok content ->
  well_paired ms -> Forall (fun m => ~ silent_user m) ms -> Forall ids_hashable ms ->
  let results := tool_results (execute_tool_calls surface (rs_content response) control g made c w) in
  (result_id <$> results) ≡ₚ call_ids (rs_content response) /\
  _sanitize_tool_pairs (ms ++ [assistant_message content; tool_results_message results]) =
    Ok (ms ++ [assistant_message [text_block (safe_provider_error_sentinel (Some kind))]]).
Proof.
  intros Hk Hp Hs Hh results.
  destruct (walk_takes surface (rs_content response) (start_walk control g made c w)) as (H2 & H3 & H4).
  change (flush_parallel_batch surface _) with (execute_tool_calls surface (rs_content response) control g made c w) in *.
  unfold taken in H2. rewrite H3 in H2. cbn in H2. rewrite app_nil_r in H2. split; [exact H2|].
  unfold kept_content in Hk. destruct (_content_to_dicts _); [|done]. injection Hk as <-.
  apply sanitize_orphans; [done..|]. apply H4. by constructor.
Qed.

(** C23. The text of a provider error is not shown as an answer: when the deltas of a
    call are withheld, as they are for a scheduled result and for the worker of a
    tool, nothing reaches the user unless the call ends with a response whose text is
    no provider error; and what the transcript keeps of a response whose text is one
    is only its sentinel. *)
Theorem error_text_withheld (system : json) (turn : nat) (request : LLMRequest) (call_start : Z) (s s' : agent W)
    (r : result (LLMResponse * option string)) :
  call_model sv iv system turn true request call_start s = (s', r) ->
  (forall response, r <> Ok (response, None)) ->
  public_deltas (ag_wire s') = public_deltas (ag_wire s) /\
  forall response kind content, r = Ok (response, Some kind) -> kept_content response (Some kind) = Ok content ->
    content = [text_block (safe_provider_error_sentinel (Some kind))].
Proof.
  intros E Hr. split.
  - unfold call_model in E. revert E. generalize (S (rounds_left s false 0)) as n. intros n.
    generalize false as ov. generalize 0%nat as ta. intros ta ov. revert request ov ta call_start s.
    induction n as [|n IH]; intros rq ov ta cs s; cbn [call_rounds]; [by intros [= <- <-]|]. unfold bind, catch.
    destruct (attempt_call sv iv true rq ov ta cs s) as [s1 r1] eqn:Ea.
    apply attempt_hushes in Ea as [Hs|(response & ->)].
    2: { intros [= <- <-]. by destruct (Hr response). }
    assert (Hnext : forall s2 step, hushes s s2 ->
      match step with
      | Done response detected => ret (response, detected)
      | Again rq ov ta cs => call_rounds sv iv system n turn true rq ov ta cs
      end s2 = (s', r) -> public_deltas (ag_wire s') = public_deltas (ag_wire s)).
    { intros s2 [response detected|rq' ov' ta' cs'] H2'; [by intros [= <- _]|]. intros E. rewrite (IH _ _ _ _ _ E). exact H2'. }
    destruct r1 as [step|e]; [by apply Hnext|].
    pose proof (recover_hushes system turn e ov ta s1) as Hre.
    destruct (recover sv iv system turn e ov ta s1) as [s2 [step|e']]; cbn in Hre.
    + apply Hnext. unfold hushes in *. by etrans.
    + intros [= <- _]. unfold hushes, mutes in *. by rewrite Hre.
  - intros response kind content _. unfold kept_content. destruct (_content_to_dicts _); [|done]. by intros [= <-].
Qed.
End theorems.

(** ** Witnesses *)

Definition demo_usage : Usage :=
  {| input_tokens := 10; output_tokens := 5; cache_read_input_tokens := 0; cache_creation_input_tokens := 0 |}.
Definition says (text : string) : content_block := OtherBlock [("type", JStr "text"); ("text", JStr text)].
Definition answering (stop : StopReason) (content : list content_block) : LLMResponse :=
  {| rs_content := content; rs_stop_reason := stop; rs_usage := demo_usage |}.

(** A provider that asks for a tool first and answers then; the world counts calls of
    the provider and runs of handlers. *)
Definition demo_response (w : nat) : LLMResponse :=
  match w with
  | O => answering TOOL_USE [says "let me look"; ToolUse "a" "read_file" []]
  | _ => answering END_TURN [says "done"]
  end.
Definition demo_llm (answer : nat -> LLMResponse) : LLMProvider nat :=
  {| create := fun _ w => (S w, Ok (answer w));
     stream := fun _ w => (S w, Ok ([ {| event := Text "API"; tick_time := 0; cancelled_then := false |};
                                      {| event := Text " Error"; tick_time := 0; cancelled_then := Nat.ltb 5 w |} ],
                                    Ok (answer w)));
     is_retryable_error := fun _ => false; is_api_error := fun _ => false; time := fun _ => 0%Z; sleep := fun _ w => w |}.

Definition demo_client : LLMClient :=
  {| cl_provider := "anthropic"; cl_auth_mode := None; is_oauth := true; cl_extra_headers := [] |}.

Definition demo_services (answer : nat -> LLMResponse) : services nat :=
  {| provider_of := fun _ => demo_llm answer; resolve_client := fun _ => ret demo_client; cancel_event_is_set := ret false;
     live_guidance_loader := None; load_budget_notices_sent := ret []; load_due_budget_notices := fun _ => ret [];
     record_budget_notice_sent := fun _ => ret true; staged_replies := fun _ => [];
     checkpoint_compactor := fun _ _ _ _ _ => inr "no compactor"; handoff_compactor := fun _ _ _ _ _ => inr "no compactor";
     load_session := ret ([], None); load_session_handoff := ret None; save_session_handoff := fun _ => ret tt;
     save_session := fun _ _ _ => ret tt; harvest_session := fun _ _ => ret tt; memory_org_for_user := ret None;
     clock_of := {| float_millis := fun _ => None; date_millis := fun _ _ => None |} |}.

Definition demo_invocation (callbacks : callbacks_of) (scheduled : bool) : invocation :=
  {| iv_session_id := "s"; iv_user_message := user_note "hello"; iv_metadata := []; iv_tool_call_source := "chat";
     iv_operation_type := "coordinator"; iv_thinking := None; iv_scheduled := scheduled; iv_cache_system_prompt := true;
     iv_persist_session := true; iv_skip_harvest := true; iv_defer_thread_handoff := true; iv_required_tool := None;
     iv_callbacks := callbacks; iv_semantic_compactor := None; iv_handoff_compactor := None; iv_run_id := None;
     iv_org_id := Some "org"; iv_environ := fun _ => None |}.

Lemma demo_current callbacks scheduled : current_user (iv_user_message (demo_invocation callbacks scheduled)).
Proof. by split. Qed.

Definition demo_wire : wire nat := Build_wire _OAUTH_BETA_FLAGS_FALLBACK 0 [] [] [] [].
Definition demo_tools : option (list json) := Some [JObj [("name", JStr "read_file")]; JObj [("name", JStr "shell")]].
#[local] Instance platform_here : Platform := demo_platform.
#[local] Instance catalog_here : ToolCatalog := demo_catalog.
#[local] Instance executor_here : BatchExecutor nat := sequential_executor.

Definition demo_run : wire nat * AgentResult :=
  run_agent_async (demo_services demo_response) (demo_invocation no_callbacks false) "claude-sonnet-4-6" None "be brief"
    demo_tools demo_surface true 10 demo_wire.

Example demo_run_answers : (ar_output demo_run.2, ar_success demo_run.2, ar_tool_calls demo_run.2, wire_world demo_run.1,
    length (sent demo_run.1)) = ("done", true, ["read_file"], 3, 2).
Proof. vm_compute. reflexivity. Qed.

(** A run about to start its turns, with one earlier exchange in its thread. *)
Definition demo_thread : list Sessions.message := [user_note "earlier"; assistant_message [text_block "noted"]; user_note "hello"].
Definition demo_agent (callbacks : callbacks_of) (scheduled : bool) (w : nat) : agent nat :=
  let o := {| op_model := "claude-sonnet-4-6"; op_client := demo_client; op_headers := [];
              op_attempted := ["claude-sonnet-4-6"]; op_activity := None |} in
  set_transcript {| active := demo_thread; archive := Some demo_thread |}
    (start_agent (demo_invocation callbacks scheduled) o demo_tools demo_surface true
       (set_wire_world w demo_wire)).

(** A response that fails a tool until it is disabled, and one whose text is the error
    of a provider. *)
Definition failing_response : LLMResponse :=
  answering TOOL_USE [ToolUse "a" "shell" []; ToolUse "b" "shell" []; ToolUse "c" "shell" []; ToolUse "d" "shell" [];
                      ToolUse "e" "shell" []; ToolUse "f" "shell" []].
Definition error_response_of_tools : LLMResponse :=
  answering TOOL_USE [says "API Error: upstream returned HTTP 503"; ToolUse "a" "read_file" []].
Definition public_callbacks (cancel : bool) : callbacks_of :=
  {| cancel_event := cancel; on_stream_activity := false; on_stream_delta := PublicSink |}.

Lemma run_requests_bounded_witness :
  let w' := (run_agent_async (demo_services demo_response) (demo_invocation no_callbacks false) "claude-sonnet-4-6" None
               "be brief" demo_tools demo_surface true 10 demo_wire).1 in
  length (sent w') = 2 /\
  exists new, sent w' = sent demo_wire ++ new /\
    (length new <= 4 * (degradations (_active_betas demo_wire) + 1) * (3 * 10 + length fallback_targets))%nat.
Proof.
  split; [vm_compute; reflexivity|]. apply run_requests_bounded. apply demo_current.
Defined.

Lemma run_requests_sound_witness :
  let w' := (run_agent_async (demo_services demo_response) (demo_invocation no_callbacks false) "claude-sonnet-4-6" None
               "be brief" demo_tools demo_surface true 10 demo_wire).1 in
  ((fun ms => ms ≫= calls) <$> (rq_messages <$> sent w') !! 1) = Some [JStr "a"] /\
  exists new, sent w' = sent demo_wire ++ new /\
    Forall (fun rq => well_paired (rq_messages rq) /\ offered rq ⊆ (tool_name_of <$> default [] demo_tools)) new.
Proof.
  split; [vm_compute; reflexivity|]. apply run_requests_sound. apply demo_current.
Defined.

Lemma model_calls_end_witness :
  let sv := demo_services (fun _ => error_response_of_tools) in
  let iv := demo_invocation (public_callbacks false) true in
  let s := demo_agent (public_callbacks false) true 0 in
  call_rounds sv iv JNull 7 0 true (request_now iv JNull s) false 0 0 s =
    call_model sv iv JNull 0 true (request_now iv JNull s) 0 s /\
  length (sent (ag_wire (call_rounds sv iv JNull 7 0 true (request_now iv JNull s) false 0 0 s).1)) = 2.
Proof.
  split; [|vm_compute; reflexivity]. apply model_calls_end; [apply demo_current|]. apply Nat.leb_le. vm_compute. reflexivity.
Defined.

Lemma error_text_withheld_witness :
  let sv := demo_services (fun _ => error_response_of_tools) in
  let iv := demo_invocation (public_callbacks false) true in
  let s := demo_agent (public_callbacks false) true 0 in
  public_deltas (ag_wire (call_model sv iv JNull 0 true (request_now iv JNull s) 0 s).1) = [] /\
  (call_model sv iv JNull 0 true (request_now iv JNull s) 0 s).2 = Ok (error_response_of_tools, Some "server_error").
Proof.
  intros sv iv s. assert (E : (call_model sv iv JNull 0 true (request_now iv JNull s) 0 s).2 =
    Ok (error_response_of_tools, Some "server_error")) by (vm_compute; reflexivity).
  split; [|exact E].
  refine (proj1 (error_text_withheld sv iv JNull 0 (request_now iv JNull s) 0 s _ _ (surjective_pairing _) _)).
  rewrite E. discriminate.
Defined.

Lemma disabled_tools_gone_witness :
  let sv := demo_services (fun _ => answering END_TURN [says "done"]) in
  let iv := demo_invocation no_callbacks false in
  let s := demo_agent no_callbacks false 0 in
  let s1 := (tool_turn sv iv JNull failing_response s).1 in
  let s2 := (run_turns sv iv JNull 3 1 s1).1 in
  length (sent (ag_wire s2)) = 1 /\
  exists new, sent (ag_wire s2) = sent (ag_wire s1) ++ new /\ Forall (fun rq => "shell" ∉ offered rq) new /\
    tool_handlers (tl_surface (ag_tooling s2)) !! "shell" = None.
Proof.
  intros sv iv s s1 s2. split; [vm_compute; reflexivity|].
  set (t := ag_tooling s).
  destruct (tool_disablements (execute_tool_calls (tl_surface t) (rs_content failing_response) (tl_control t) (tl_gates t)
        (tl_made t) (tl_context t) (world_of s))) as [|d l] eqn:Ed.
  { exfalso. revert Ed. vm_compute. discriminate. }
  assert (En : d_tool_name d = "shell").
  { assert (Eh : d_tool_name <$> head (d :: l) = Some "shell") by (rewrite <- Ed; vm_compute; reflexivity). by injection Eh. }
  rewrite <- En.
  refine (disabled_tools_gone sv iv JNull failing_response 3 1 s s1 NextTurn d (demo_current _ _) _ _).
  - assert (Er : (tool_turn sv iv JNull failing_response s).2 = Ok NextTurn) by (vm_compute; reflexivity).
    rewrite <- Er. apply surjective_pairing.
  - unfold t in Ed. rewrite Ed. apply list_elem_of_here.
Defined.




Lemma cancelled_stream_fails_witness :
  let sv := demo_services demo_response in
  let iv := demo_invocation (public_callbacks true) false in
  let s := demo_agent (public_callbacks true) false 6 in
  exists s', call_model sv iv JNull 0 false (request_now iv JNull s) 0 s =
    (s', Err (AttributeError "'AgentResult' object has no attribute 'content'")) /\
    public_deltas (ag_wire s') = ["API"].
Proof.
  intros sv iv s. exists (call_provider sv iv false (request_now iv JNull s) 0 s).1. split; [|vm_compute; reflexivity].
  refine (proj1 (cancelled_stream_fails sv iv JNull 0 false (request_now iv JNull s) 0 s _ _)).
  assert (Er : (call_provider sv iv false (request_now iv JNull s) 0 s).2 = Ok None) by (vm_compute; reflexivity).
  rewrite <- Er. apply surjective_pairing.
Defined.

Lemma error_text_drops_results_witness :
  let w := execute_tool_calls demo_surface (rs_content error_response_of_tools) demo_control (demo_gates true) []
             demo_context 0 in
  world w = 1 /\ (result_id <$> tool_results w) ≡ₚ [JStr "a"] /\
  _sanitize_tool_pairs (demo_thread ++ [assistant_message [text_block (safe_provider_error_sentinel (Some "server_error"))];
                                        tool_results_message (tool_results w)]) =
    Ok (demo_thread ++ [assistant_message [text_block (safe_provider_error_sentinel (Some "server_error"))]]).
Proof.
  intros w. split; [vm_compute; reflexivity|].
  refine (error_text_drops_results error_response_of_tools "server_error" _ demo_thread demo_control (demo_gates true) []
    demo_context demo_surface 0 eq_refl _ _ _).
  - vm_compute. by repeat split; repeat constructor.
  - repeat constructor; intros [Hu Hs]; discriminate.
  - repeat constructor.
Defined.
