(* ===== verification/RunEngine.v ===== *)
(** The engine that runs recipes, [brain/systems/runs/engine.py], with
    [steering.py], [stream.py] and [execution_failure.py] of the same directory,
    and the parts of failures.py, failure_diagnostic.py and
    systems/inbound/preservation.py it calls.

    Terminal writes are computations of the store monad [DB].  What surrounds
    them, the running recipe, its stream and its steering inbox, are computations
    [RT] on an [engine_world] that holds the store.  Recipes, cancel tokens and the
    durable drain are arguments of the engine; so are the tracker guarantee and the
    continuation of a worker fan-out, which live in other components. *)
From Stdlib Require Import Ascii.
From S2P Require Import Prelude.
From S2P Require Import PyStr.
From S2P Require Import Json.
From S2P Require Import Status.
From S2P Require Import Failures.
From S2P Require Import RunStore.
From S2P Require Import RunCreate.
From S2P Require Import RunLifecycle.
From S2P Require Import RunMessages.
Open Scope string_scope.
Open Scope bool_scope.
Open Scope list_scope.

(** * Failure categories *)

(** [ClassifiedRunFailure]. *)
Record ClassifiedRunFailure : Type := {
  cf_category : RunFailureCategory;
  cf_stage : RunFailureStage;
}.

(** [issubclass(_, CodexCredentialExpiredError)]: which classes derive from it. *)
Class CredentialErrors : Type := { is_credential_expired : exception_type -> bool }.

(** [brain/platform/integrations/providers.py], on the text of an error. *)
Definition _TRANSIENT_TRANSPORT_DISCONNECT_TERMS : list string :=
  ["incomplete chunked read"; "peer closed connection"].
Definition is_transient_transport_disconnect (error : string) : bool :=
  existsb (fun term => str_contains term (lower error)) _TRANSIENT_TRANSPORT_DISCONNECT_TERMS.

Definition _TOOL_EXECUTION_EVENT_TYPES : list string :=
  ["run.tool_started"; "run.tool_completed"; "run.tool_failed"].

(** [run_tool_execution_started] on a database. *)
Definition tool_execution_started (id : Z) (d : db) : bool :=
  existsb (fun e => str_in (ev_type e) _TOOL_EXECUTION_EVENT_TYPES) (run_events id d).
Definition run_tool_execution_started (id : Z) : DB bool :=
  gets (fun s => tool_execution_started id (pending s)).

Definition preservation_contract_from_run_metadata (metadata : dict) : dict :=
  as_dict (jget_or_null "preservation" (as_dict (jget_or_null "submission" metadata))).
Definition run_requires_durable_preservation (metadata : dict) : bool :=
  is_jbool true (jget_or_null "requires_durable_evidence" (preservation_contract_from_run_metadata metadata)).

(** * What the engine takes from other components *)

(** The answer of [guarantee_chantier_record_for_run]: the run declares no
    chantier, its tracker record is there, or [ChantierDeclareGuaranteeError]. *)
Inductive guarantee_outcome : Type :=
| NothingDeclared
| Guaranteed (metadata : dict)
| GuaranteeFailed (message : string) (cls : exception_type).

(** The guarantee reads the events of the run and writes tables the store does not
    hold; the continuation inserts a run and events in the session of its caller. *)
Class Collaborators : Type := {
  guarantee_chantier_record_for_run : db -> run_row -> string -> result guarantee_outcome;
  queue_chantier_continuation_for_terminal_run : Z -> DB (option Z);
}.

(** * Results of recipes *)

(** A post-completion task is a callable the engine only schedules. *)
Record RunRecipeResult (task : Type) : Type := {
  rr_output : string;
  rr_status : RunStatus;
  rr_error : option string;
  rr_final_output : option string;
  rr_classified_failure : option ClassifiedRunFailure;
  rr_exception_type : option exception_type;
  rr_artifacts : list AgentRunArtifact;
  rr_post_completion_tasks : list task;
}.
Arguments rr_output {task}. Arguments rr_status {task}. Arguments rr_error {task}.
Arguments rr_final_output {task}. Arguments rr_classified_failure {task}.
Arguments rr_exception_type {task}. Arguments rr_artifacts {task}.
Arguments rr_post_completion_tasks {task}.

(** [RunExecutionFailure.capture]; [context] is the exception [error] was raised
    from while that one was handled. *)
Definition is_execution_failure (e : exn) : bool :=
  match e with RunExecutionFailure _ _ => true | _ => false end.
Definition capture (id : Z) (error : exn) (context : option exn) : exn :=
  if is_execution_failure error then error
  else match context with
       | Some c => if is_execution_failure c then c else RunExecutionFailure id error
       | None => RunExecutionFailure id error
       end.

Section engine.
Context `{Platform} `{ProviderErrorTaxonomy} `{CredentialErrors} `{Collaborators}.

(** [failure_category_for_error] on a text. *)
Definition failure_category_for_error (error : string) (exc : option exception_type) : RunFailureCategory :=
  if match exc with Some c => is_credential_expired c | None => false end
     || startswith "credential_expired:" error
  then CAT_CREDENTIAL_EXPIRED
  else if is_transient_transport_disconnect error
          || match provider_error_kind error with None | Some "" => false | _ => true end
  then CAT_UPSTREAM
  else CAT_INTERNAL.

(** The category of a failure in the context of its run. *)
Definition resolve_category (id : Z) (metadata : dict) (category : enum_arg RunFailureCategory)
    (stage : RunFailureStage) : DB RunFailureCategory :=
  let requires_durable_preservation := run_requires_durable_preservation metadata in
  started <- (if requires_durable_preservation then run_tool_execution_started id else ret false) ;;
  ret (failure_category_for_run_context category requires_durable_preservation started stage).

(** * Terminal writes *)

Definition _queue_chantier_continuation (id : Z) : DB (option Z) :=
  queue_chantier_continuation_for_terminal_run id.

(** A terminal write starts from a clean, globally ordered lock boundary. *)
Definition _prepare_terminal_write (id : Z) : DB run_row :=
  snapshot <- require_run id ;;
  if is_terminal (row_status snapshot) then ret snapshot
  else
    commit_event_boundary ;;;
    lock_terminal_boundary id (Some (int_or (parent_run_id (spec snapshot)) (run_id snapshot))).

(** [async with self._atomic_terminal_write()]. *)
Definition _atomic_terminal_write {A} (body : DB A) : DB A :=
  s0 <- get ;;
  modify (set_auto_commit false) ;;;
  outcome <- catch (r <- body ;; when_ (auto_commit s0) commit ;;; ret (Ok r))
               (fun e => rollback ;;; ret (Err e)) ;;
  modify (set_auto_commit (auto_commit s0)) ;;;
  lift_result outcome.

(** The final answer of a settled run and, when nothing was streamed, the event
    that carries its text. *)
Definition publish_final_output (row : run_row) (output : string) : DB unit :=
  artifact <- append_final_answer_once (run_id row) output (root_run_id (spec row)) ;;
  let safe_output := str_or (match artifact with Some a => art_text a | None => None end) output in
  delta <- has_event_type (run_id row) "run.text_delta" ;;
  when_ (negb delta)
    (append_event (run_event (run_id row) "run.text_completed" [("text", JStr safe_output)]
       (root_run_id (spec row)) AGENT_RUNTIME) ;;; ret tt).

(** The keyword arguments of [fail]; [Absent] is the default category. *)
Record fail_kwargs : Type := {
  fk_final_output : option string;
  fk_failure_category : enum_arg RunFailureCategory;
  fk_failure_stage : RunFailureStage;
  fk_classified_failure : option ClassifiedRunFailure;
  fk_exception_type : option exception_type;
  fk_execution_claim : option ExecutionClaim;
}.

Definition failure_of (row : run_row) (error : string) (k : fail_kwargs)
    : DB (RunFailureCategory * RunFailureStage) :=
  match fk_classified_failure k with
  | Some c => ret (cf_category c, cf_stage c)
  | None =>
      let category := coerce_failure_category
        match fk_failure_category k with
        | Absent | Raw "" => Member (failure_category_for_error error (fk_exception_type k))
        | c => c
        end in
      category <- resolve_category (run_id row) (metadata_ row) (Member category) (fk_failure_stage k) ;;
      ret (category, fk_failure_stage k)
  end.

Definition fail (id : Z) (error : string) (k : fail_kwargs) : DB AgentRun :=
  row <- _prepare_terminal_write id ;;
  _atomic_terminal_write (
    if is_terminal (row_status row) then lift_result (to_domain row)
    else
      cs <- failure_of row error k ;;
      let '(category, stage) := cs in
      let given := str_or (fk_final_output k) "" in
      let final_output :=
        if bool_decide (category = CAT_PRESERVATION_SETUP) && negb (String.eqb given "")
        then str_or (safe_terminal_run_message (Member FAILED) (Member category)) ""
        else given in
      safe_error <- safe_cycle_provider_error_text id error ;;
      failed <- fail_run id category stage (Some safe_error) (fk_exception_type k) (fk_execution_claim k) ;;
      if negb (bool_decide (ar_status failed = FAILED)) then ret failed
      else
        when_ (negb (String.eqb final_output "")) (publish_final_output row final_output) ;;;
        append_event (run_event id "run.failed"
          [("error", JStr safe_error); ("failure_category", JStr (value category))]
          (root_run_id (spec row)) AGENT_RUNTIME) ;;;
        _queue_chantier_continuation id ;;;
        ret failed).

Definition cancel (id : Z) (reason : option string) (claim : option ExecutionClaim) : DB AgentRun :=
  row <- _prepare_terminal_write id ;;
  _atomic_terminal_write (
    if is_terminal (row_status row) then lift_result (to_domain row)
    else
      canceled <- set_status id (Member CANCELED) reason claim ;;
      if negb (bool_decide (ar_status canceled = CANCELED)) then ret canceled
      else
        append_event (run_event id "run.canceled"
          [("reason", match reason with Some r => JStr r | None => JNull end)]
          (root_run_id (spec row)) AGENT_RUNTIME) ;;;
        _queue_chantier_continuation id ;;;
        ret canceled).

(** The keyword arguments [complete] and a failed guarantee pass to [fail]. *)
Definition settlement_failure (claim : option ExecutionClaim) : fail_kwargs :=
  {| fk_final_output := None; fk_failure_category := Absent; fk_failure_stage := RUNNER_SETTLEMENT;
     fk_classified_failure := None; fk_exception_type := None; fk_execution_claim := claim |}.
Definition guarantee_failure (cls : exception_type) (claim : option ExecutionClaim) : fail_kwargs :=
  {| fk_final_output := safe_terminal_run_message (Member FAILED) (Member CAT_INTERNAL);
     fk_failure_category := Member CAT_INTERNAL; fk_failure_stage := COMPLETION_VERIFICATION;
     fk_classified_failure := None; fk_exception_type := Some cls; fk_execution_claim := claim |}.

(** The terminal write at the end of [complete]. *)
Definition settle_completed (id : Z) (output : string) (st : RunStatus) (claim : option ExecutionClaim)
    : DB AgentRun :=
  row <- _prepare_terminal_write id ;;
  _atomic_terminal_write (
    if is_terminal (row_status row) then lift_result (to_domain row)
    else
      completed <- set_status id (Member st) None claim ;;
      if negb (bool_decide (ar_status completed = st)) then ret completed
      else
        when_ (negb (String.eqb output "")) (publish_final_output row output) ;;;
        append_event (run_event id "run.completed" [("status", JStr (value st))]
          (root_run_id (spec row)) AGENT_RUNTIME) ;;;
        _queue_chantier_continuation id ;;;
        ret completed).

Definition complete (id : Z) (output : string) (st : RunStatus) (claim : option ExecutionClaim)
    : DB AgentRun :=
  if decide (st = FAILED)
  then fail id (if String.eqb output "" then "run_failed_during_completion" else output)
         (settlement_failure claim)
  else
    row <- require_run id ;;
    if is_terminal (row_status row) then lift_result (to_domain row)
    else
      s <- get ;;
      guarantee <- lift_result (guarantee_chantier_record_for_run (pending s) row output) ;;
      match guarantee with
      | GuaranteeFailed message cls =>
          let failure := if String.eqb (strip message) "" then "tracker-record verification failed"
                         else strip message in
          update_metadata id [("chantier_declare_guarantee",
            JObj [("status", JStr "failed"); ("error", JStr failure)])] ;;;
          append_event (run_event id "run.chantier_declare_guarantee_failed" [("error", JStr failure)]
            (root_run_id (spec row)) AGENT_RUNTIME) ;;;
          fail id ("Chantier declare failed: " +:+ failure) (guarantee_failure cls claim)
      | Guaranteed metadata =>
          update_metadata id [("chantier_declare_guarantee", JObj metadata)] ;;;
          append_event (run_event id "run.chantier_declare_guaranteed" metadata
            (root_run_id (spec row)) AGENT_RUNTIME) ;;;
          settle_completed id output st claim
      | NothingDeclared => settle_completed id output st claim
      end.

(** [interrupt_and_requeue_run] of interruption.py, up to the notice it builds. *)
Definition interrupt_and_requeue_run (id : Z) (reason : string) (interrupted_at : option instant)
    (details : option dict) : DB (option AgentRun) :=
  r <- interrupt_and_requeue id reason interrupted_at details ;;
  ret (if r.2 then Some r.1 else None).

Definition _retry_agent_start_failure (id : Z) (stage : RunFailureStage) (exc : option exception_type)
    (claim : option ExecutionClaim) : DB (option AgentRun) :=
  diagnostic <- lift_result (agent_start_retry_diagnostic_metadata module_level stage exc) ;;
  match diagnostic with
  | None => ret None
  | Some diagnostic =>
      row <- _prepare_terminal_write id ;;
      _atomic_terminal_write (
        if is_terminal (row_status row) then a <- lift_result (to_domain row) ;; ret (Some a)
        else
          match claim with Some c => assert_execution_claim c ;;; ret tt | None => ret tt end ;;;
          started <- run_tool_execution_started id ;;
          if (started : bool) then ret None
          else
            interruption <- interrupt_and_requeue_run id "agent_start_connect_error" None
                              (Some [("failure", JObj diagnostic)]) ;;
            match interruption with
            | Some _ => row <- require_run id ;; a <- lift_result (to_domain row) ;; ret (Some a)
            | None => ret None
            end)
  end.

Definition pause (id : Z) (reason : option string) : DB AgentRun :=
  set_status id (Member PAUSED) reason None.

Definition _enter_running (row : run_row) : DB AgentRun :=
  let st := row_status row in
  let id := run_id row in
  let event t := run_event id t [("from_status", JStr (value st))] (root_run_id (spec row)) AGENT_RUNTIME in
  let reread := row <- require_run id ;; lift_result (to_domain row) in
  if is_terminal st then lift_result (to_domain row)
  else if decide (st = RUNNING) then append_event (event "run.resumed") ;;; reread
  else
    (if decide (st = QUEUED)
     then claim_run id ;;; set_status id (Member RUNNING) None None ;;; ret tt
     else if status_in st [STARTING; PAUSED] then set_status id (Member RUNNING) None None ;;; ret tt
     else ret tt) ;;;
    append_event (event "run.started") ;;;
    reread.

(** * The world of a running recipe *)

(** [RunStream]: whether it has a sink, and what the sink was given. *)
Record RunStream : Type := { has_sink : bool; published : list (string * dict) }.

Context {task : Type}.

Record engine_world : Type := {
  eng_store : store;
  eng_stream : RunStream;
  eng_inbox : gmap Z (list SteeringMessage);
  eng_scheduled : list (Z * task);
}.

Abbreviation RT := (M engine_world).

Definition set_store (s : store) (w : engine_world) : engine_world :=
  {| eng_store := s; eng_stream := eng_stream w; eng_inbox := eng_inbox w; eng_scheduled := eng_scheduled w |}.

(** A call of the store. *)
Definition db_call {A} (m : DB A) : RT A := fun w =>
  let r := m (eng_store w) in (set_store r.1 w, r.2).

Definition publish (event_type : string) (payload : dict) : RT unit :=
  modify (fun w => {| eng_store := eng_store w;
    eng_stream := {| has_sink := has_sink (eng_stream w);
                     published := if has_sink (eng_stream w)
                                  then published (eng_stream w) ++ [(event_type, payload)]
                                  else published (eng_stream w) |};
    eng_inbox := eng_inbox w; eng_scheduled := eng_scheduled w |}).

(** [SteeringInbox.append] and [SteeringInbox.drain]. *)
Definition inbox_append (m : SteeringMessage) : RT unit :=
  modify (fun w =>
    let n := normalized m (now (eng_store w)) in
    if String.eqb (sm_content n) "" then w
    else {| eng_store := eng_store w; eng_stream := eng_stream w;
            eng_inbox := <[sm_run_id n := default [] (eng_inbox w !! sm_run_id n) ++ [n]]> (eng_inbox w);
            eng_scheduled := eng_scheduled w |}).

Definition inbox_drain (id : Z) : RT (list SteeringMessage) := fun w =>
  ({| eng_store := eng_store w; eng_stream := eng_stream w;
      eng_inbox := delete id (eng_inbox w); eng_scheduled := eng_scheduled w |},
   Ok (default [] (eng_inbox w !! id))).

(** [_schedule_post_completion_task]. *)
Definition schedule (id : Z) (t : task) : RT unit :=
  modify (fun w => {| eng_store := eng_store w; eng_stream := eng_stream w; eng_inbox := eng_inbox w;
                      eng_scheduled := eng_scheduled w ++ [(id, t)] |}).

(** [payload.setdefault(k, v)]. *)
Definition jsetdefault (k : string) (v : json) (d : dict) : dict :=
  if jhas k d then d else jset k v d.

Definition _stream_payload (e : AgentRunEvent) (row : event_row) (run : option AgentRun) : dict :=
  let payload := jupdate (e_payload e)
    [("run_id", JInt (e_run_id e));
     ("root_run_id", JInt (int_or (ev_root_run_id row) (int_or (e_root_run_id e) (e_run_id e))));
     ("event_id", JInt (ev_id row)); ("run_event_id", JInt (ev_id row)); ("event_cursor", JInt (ev_id row));
     ("sequence_no", JInt (int_or (Some (ev_sequence_no row)) (int_or (e_sequence_no e) 0)))] in
  match run with
  | None => payload
  | Some run =>
      let thread := JStr (thread_id (spec (ar_row run))) in
      let profile := JStr (value (ar_profile run)) in
      jsetdefault "execution_profile" profile (jsetdefault "profile" profile
        (jsetdefault "idea_id" thread (jsetdefault "thread_id" thread payload)))
  end.

(** [RunRuntime], the part that is not the world itself. *)
Record RunRuntime : Type := {
  rt_run : AgentRun;
  rt_request : AgentRunRequest;
  rt_cancel_event : option (RT bool);
  rt_durable_steering_drain : option (Z -> RT (list SteeringMessage));
}.

Definition emit (rt : RunRuntime) (e : AgentRunEvent) : RT unit :=
  row <- db_call (append_event e) ;;
  publish (e_type e) (_stream_payload e row (Some (rt_run rt))).

Definition activity_event (id : Z) (label : string) (root : option Z) (payload : dict) : AgentRunEvent :=
  run_event id "run.activity" (jupdate [("label", JStr label)] payload) root AGENT_RUNTIME.
Definition text_delta_event (id : Z) (delta : string) (root : option Z) : AgentRunEvent :=
  run_event id "run.text_delta" [("delta", JStr delta)] root AGENT_RUNTIME.

Definition rt_id (rt : RunRuntime) : Z := ar_id (rt_run rt).
Definition rt_root (rt : RunRuntime) : option Z := root_run_id (spec (ar_row (rt_run rt))).

Definition activity (rt : RunRuntime) (label : string) (payload : dict) : RT unit :=
  emit rt (activity_event (rt_id rt) label (rt_root rt) payload).
Definition text_delta (rt : RunRuntime) (delta : string) : RT unit :=
  emit rt (text_delta_event (rt_id rt) delta (rt_root rt)).

Definition steering_received_event (rt : RunRuntime) (m : SteeringMessage) : AgentRunEvent :=
  run_event (rt_id rt) "run.steering_received"
    [("content", JStr (sm_content m));
     ("user_id", match sm_user_id m with Some u => JStr u | None => JNull end)] (rt_root rt) AGENT_RUNTIME.

Definition runtime_drain_steering (rt : RunRuntime) : RT (list string) :=
  durable <- match rt_durable_steering_drain rt with
             | Some drain => drain (rt_id rt)
             | None => db_call (drain_steering (rt_id rt))
             end ;;
  local <- inbox_drain (rt_id rt) ;;
  let messages := durable ++ local in
  for_each (fun m => db_call (append_event (steering_received_event rt m)) ;;; ret tt) messages ;;;
  ret (sm_content <$> messages).

Definition classify_failure (rt : RunRuntime) (category : enum_arg RunFailureCategory)
    (stage : RunFailureStage) : RT ClassifiedRunFailure :=
  category <- db_call (resolve_category (rt_id rt) (req_metadata (rt_request rt)) category stage) ;;
  ret {| cf_category := category; cf_stage := stage |}.

Definition cancel_event_is_set (cancel_event : option (RT bool)) : RT bool :=
  match cancel_event with None => ret false | Some checker => checker end.

(** * Running *)

(** [AsyncRunRecipeHandler]. *)
Abbreviation AsyncRunRecipeHandler := (RunRuntime -> RT (RunRecipeResult task)).

(** The arguments of [AsyncAgentRunEngine.__init__] beside the session. *)
Record AsyncAgentRunEngine : Type := {
  recipes : string -> option AsyncRunRecipeHandler;
  cancel_event_factory : option (Z -> RT bool);
  durable_steering_drain : option (Z -> RT (list SteeringMessage));
}.

Variable engine : AsyncAgentRunEngine.

Definition request_of (row : run_row) : result AgentRunRequest :=
  AgentRunRequest_post_init
    {| req_thread_id := thread_id (spec row); req_message := input_message (spec row);
       req_org_id := str_or (org_id (spec row)) ""; req_user_id := user_id (spec row);
       req_profile := Raw (profile (spec row)); req_recipe := Some (Raw (recipe (spec row)));
       req_parent_run_id := parent_run_id (spec row); req_root_run_id := root_run_id (spec row);
       req_target_ref := target_ref (spec row); req_workspace_ref := workspace_ref (spec row);
       req_model_policy := model_policy (spec row); req_metadata := metadata_ row;
       req_deadline_at := deadline_at (spec row) |}.

Definition missing_org_failure (claim : option ExecutionClaim) : fail_kwargs :=
  {| fk_final_output := None; fk_failure_category := Member CAT_INTERNAL;
     fk_failure_stage := RUNNER_EXECUTION; fk_classified_failure := None; fk_exception_type := None;
     fk_execution_claim := claim |}.
Definition missing_recipe_failure (claim : option ExecutionClaim) : fail_kwargs :=
  {| fk_final_output := None; fk_failure_category := Absent; fk_failure_stage := RECIPE_EXECUTION;
     fk_classified_failure := None; fk_exception_type := None; fk_execution_claim := claim |}.

(** The text a failed result is reported with. *)
Definition result_error (r : RunRecipeResult task) : string :=
  str_or (rr_error r) (if String.eqb (rr_output r) "" then "recipe_failed" else rr_output r).
Definition recipe_failure (r : RunRecipeResult task) (claim : option ExecutionClaim) : fail_kwargs :=
  {| fk_final_output := rr_final_output r;
     fk_failure_category := match rr_classified_failure r with
       | Some _ => Absent
       | None => Member (failure_category_for_error (result_error r) None)
       end;
     fk_failure_stage := match rr_classified_failure r with
       | Some c => cf_stage c | None => RECIPE_EXECUTION end;
     fk_classified_failure := rr_classified_failure r; fk_exception_type := rr_exception_type r;
     fk_execution_claim := claim |}.

(** What becomes of the result of a recipe; answers the run and the tasks to
    schedule. *)
Definition settle_result (id : Z) (cancel_event : option (RT bool)) (r : RunRecipeResult task)
    (claim : option ExecutionClaim) : RT (AgentRun * list task) :=
  retried <- match rr_status r, rr_classified_failure r with
             | FAILED, Some c =>
                 canceled <- cancel_event_is_set cancel_event ;;
                 if (canceled : bool) then ret None
                 else db_call (_retry_agent_start_failure id (cf_stage c) (rr_exception_type r) claim)
             | _, _ => ret None
             end ;;
  match retried with
  | Some a => ret (a, [])
  | None =>
      for_each (fun a => db_call (append_artifact a) ;;; ret tt) (rr_artifacts r) ;;;
      canceled <- cancel_event_is_set cancel_event ;;
      if (canceled : bool) then a <- db_call (cancel id (Some "user_canceled") claim) ;; ret (a, [])
      else
        match rr_status r with
        | PAUSED => a <- db_call (set_status id (Member PAUSED) None claim) ;; ret (a, [])
        | FAILED => a <- db_call (fail id (result_error r) (recipe_failure r claim)) ;; ret (a, [])
        | CANCELED =>
            let reason := str_or (rr_error r) (rr_output r) in
            a <- db_call (cancel id (if String.eqb reason "" then None else Some reason) claim) ;;
            ret (a, [])
        | st =>
            a <- db_call (complete id (default (rr_output r) (rr_final_output r)) st claim) ;;
            ret (a, rr_post_completion_tasks r)
        end
  end.

Definition _run_existing_owned (id : Z) (claim : option ExecutionClaim) : RT (AgentRun * list task) :=
  row <- db_call match claim with
                 | Some c => assert_execution_claim c
                 | None => require_run id
                 end ;;
  if is_terminal (row_status row) then a <- lift_result (to_domain row) ;; ret (a, [])
  else if String.eqb (strip (str_or (org_id (spec row)) "")) "" then
    a <- db_call (fail (run_id row) "AgentRun missing workspace org_id" (missing_org_failure claim)) ;;
    ret (a, [])
  else
    request <- lift_result (request_of row) ;;
    run <- match claim with
           | Some _ => lift_result (to_domain row)
           | None => db_call (_enter_running row)
           end ;;
    let cancel_event := (fun f => f (ar_id run)) <$> cancel_event_factory engine in
    let runtime := {| rt_run := run; rt_request := request; rt_cancel_event := cancel_event;
                      rt_durable_steering_drain := durable_steering_drain engine |} in
    match recipes engine (recipe (spec row)) with
    | None =>
        a <- db_call (fail (ar_id run) ("No recipe registered for " +:+ repr_str (recipe (spec row)))
                        (missing_recipe_failure claim)) ;;
        ret (a, [])
    | Some execute =>
        r <- catch (execute runtime) (fun e => raise (capture (ar_id run) e None)) ;;
        settle_result (ar_id run) cancel_event r claim
    end.

(** ** The execution lease *)

(** While the task sleeps between polls, [others] is what other workers do to the
    database; the deadline of the wait passes after [polls] of them. *)
Fixpoint _wait_for_execution_retry (others : DB unit) (polls : nat) (id : Z) : DB bool :=
  answer <- _wait_for_execution_retry_poll id ;;
  match answer with
  | Some b => ret b
  | None =>
      match polls with
      | O => raise (TimeoutError "Timed out waiting for AgentRun execution owner")
      | Datatypes.S polls' => others ;;; _wait_for_execution_retry others polls' id
      end
  end.

(** [while claim is None] for at most [rounds] more rounds. *)
Fixpoint acquire_lease (others : DB unit) (polls rounds : nat) (id : Z) (token : string)
    (observed_owner : bool) : DB (option ExecutionClaim) :=
  round <- execution_lease_round id token observed_owner ;;
  match round with
  | LeaseNone => ret None
  | LeaseClaim c => ret (Some c)
  | LeaseWait =>
      again <- _wait_for_execution_retry others polls id ;;
      if negb again then ret None
      else match rounds with
           | O => raise (RuntimeError "out of fuel")
           | Datatypes.S rounds' => acquire_lease others polls rounds' id token true
           end
  end.

(** [async with execution_lease(id) as claim: body]. *)
Definition execution_lease {A} (others : DB unit) (polls rounds : nat) (id : Z) (token : string)
    (body : option ExecutionClaim -> RT A) : RT A :=
  db_call commit ;;;
  claim <- catch (db_call (acquire_lease others polls rounds id token false))
             (fun e => db_call rollback ;;; raise e) ;;
  outcome <- catch (r <- body claim ;;
                    when_ (match claim with Some _ => true | None => false end) (db_call commit) ;;;
                    ret (Ok r))
               (fun e => db_call rollback ;;; ret (Err e)) ;;
  match claim with Some c => db_call (_release_execution_claim c) | None => ret tt end ;;;
  lift_result outcome.

Definition is_claim_lost (e : exn) : bool :=
  match e with ExecutionClaimLost _ _ => true | _ => false end.

Definition run_existing (others : DB unit) (polls rounds : nat) (id : Z) (token : string) : RT AgentRun :=
  let reread := row <- db_call (refresh_run id) ;; lift_result (to_domain row) in
  done <- catch
    (execution_lease others polls rounds id token (fun claim =>
       match claim with
       | None => a <- reread ;; ret (a, [])
       | Some c => _run_existing_owned id (Some c)
       end))
    (fun e => if is_claim_lost e then db_call rollback ;;; a <- reread ;; ret (a, []) else raise e) ;;
  for_each (schedule id) done.2 ;;;
  ret done.1.

(** [run]: the run is created, then run. *)
Definition run (others : DB unit) (polls rounds : nat) (request : AgentRunRequest) (token : string)
    : RT AgentRun :=
  a <- db_call (create_run request (Member QUEUED) None) ;;
  run_existing others polls rounds (ar_id a) token.

(** * A recipe of a fixed answer *)

(** [_chunks]. *)
Fixpoint chunks_of (fuel size : nat) (text : string) : list string :=
  match fuel, text with
  | Datatypes.S fuel', String _ _ => str_take size text :: chunks_of fuel' size (str_drop size text)
  | _, _ => []
  end.
Definition _chunks (text : string) (size : nat) : list string := chunks_of (String.length text) size text.

Definition plain_result (output : string) : RunRecipeResult task :=
  {| rr_output := output; rr_status := COMPLETED; rr_error := None; rr_final_output := None;
     rr_classified_failure := None; rr_exception_type := None; rr_artifacts := [];
     rr_post_completion_tasks := [] |}.

Definition StaticAnswerRecipe (answer : RunRuntime -> RT string) : AsyncRunRecipeHandler := fun rt =>
  activity rt "Thinking" [] ;;;
  output <- answer rt ;;
  for_each (text_delta rt) (_chunks output 80) ;;;
  ret (plain_result output).
End engine.
