(* ===== verification/EngineTheorems.v ===== *)
(** What the engine promises: whatever recipes do through the store, its
    operations keep the invariants of the run store; a settlement is all or
    nothing and a fenced worker settles nothing; a failed start is retried only
    before any tool ran; and a lease is released however its holder ends. *)
From Stdlib Require Import Ascii.
From S2P Require Import Prelude.
From S2P Require Import PyStr.
From S2P Require Import Json.
From S2P Require Import Status.
From S2P Require Import Failures.
From S2P Require Import RunLease.
From S2P Require Import RunStore.
From S2P Require Import RunCreate.
From S2P Require Import RunLifecycle.
From S2P Require Import RunMessages.
From S2P Require Import RunEvolution.
From S2P Require Import RunOutcome.
From S2P Require Import RunDemo.
From S2P Require Import RunTransitions.
From S2P Require Import RunInterruption.
From S2P Require Import RunEngine.
Open Scope string_scope.
Open Scope bool_scope.
Open Scope list_scope.

(** What other transactions committed while an INSERT waited has arrived. *)
Definition arrivals (d d' : db) : Prop := exists l, d' = merge_incoming l d.

#[export] Instance arrivals_preorder : PreOrder arrivals.
Proof.
  split; [intros d; by exists []|]. intros d1 d2 d3 [l1 ->] [l2 ->]. exists (l1 ++ l2).
  unfold merge_incoming. by rewrite fold_left_app.
Qed.

Lemma merge_run_row d r i x : runs d !! i = Some x -> runs (merge_run d r) !! i = Some x.
Proof.
  intros Hi. unfold merge_run. destruct (runs d !! run_id r) eqn:E; [done|]. simpl.
  rewrite lookup_insert_ne; [done|]. congruence.
Qed.

Lemma arrivals_row d d' i x : arrivals d d' -> runs d !! i = Some x -> runs d' !! i = Some x.
Proof.
  intros [l ->]. revert d. induction l as [|r l IH]; intros d Hd; [done|]. by apply IH, merge_run_row.
Qed.

(** The runs that arrive were unknown to the transaction. *)
Definition arrives (s s' : store) : Prop :=
  exists l, committed s' = merge_incoming l (committed s) /\
    (store_inv s -> Forall (fun r => runs (pending s) !! run_id r = None) l).

Lemma arrives_same s s' : committed s' = committed s -> arrives s s'.
Proof. intros E. exists []. by split. Qed.

#[export] Hint Extern 0 (arrives _ _) => apply arrives_same; reflexivity : core.

Lemma arrives_arrivals s s' : arrives s s' -> arrivals (committed s) (committed s').
Proof. intros (l & E & _). by exists l. Qed.

(** The continuation of a fan-out works inside the session of its caller: it keeps
    the invariants, does not commit on its own, and what it writes is only more. *)
Record inner_step (s s' : store) : Prop := {
  in_safe : store_step s s';
  in_auto : auto_commit s' = auto_commit s;
  in_committed : auto_commit s = false -> arrives s s';
  in_grows : store_inv s -> db_evolves (pending s) (pending s');
}.

#[export] Instance inner_step_preorder : PreOrder inner_step.
Proof.
  split.
  - intros s. by split.
  - intros s1 s2 s3 [S1 A1 C1 G1] [S2 A2 C2 G2]. split; [by etrans|congruence| |].
    + intros Ha. destruct (C1 Ha) as (l1 & E1 & D1). destruct C2 as (l2 & E2 & D2); [congruence|].
      exists (l1 ++ l2). split; [rewrite E2, E1; unfold merge_incoming; by rewrite fold_left_app|].
      intros Hi. apply Forall_app. split; [auto|]. destruct (S1 Hi) as [Hi2 _].
      eapply Forall_impl; [exact (D2 Hi2)|]. intros r Hr.
      eapply evolves_absent; [by apply G1|done].
    + intros Hi. etrans; [by apply G1|]. apply G2. by apply S1.
Qed.

Class CollaboratorLaws `{Collaborators} : Prop := {
  continuation_inner id : preserves inner_step (queue_chantier_continuation_for_terminal_run id);
}.

(** * The invariants of the store *)

Section safety.
Context `{Platform} `{ProviderErrorTaxonomy} `{CredentialErrors} `{Collaborators} `{!CollaboratorLaws}.

Lemma safe_continuation i : safe (_queue_chantier_continuation i).
Proof. intros s. apply in_safe, continuation_inner. Qed.

Lemma safe_resolve_category i m c st : safe (resolve_category i m c st).
Proof. unfold resolve_category, run_tool_execution_started. solve_safe. Qed.

Lemma safe_prepare i : safe (_prepare_terminal_write i).
Proof.
  unfold _prepare_terminal_write, commit_event_boundary. pose proof safe_require_run.
  pose proof safe_lock_terminal_boundary. solve_safe.
Qed.

Lemma safe_atomic {A} (body : DB A) : safe body -> safe (_atomic_terminal_write body).
Proof. intros Hb. unfold _atomic_terminal_write. solve_safe. Qed.

Lemma safe_publish_final_output row o : safe (publish_final_output row o).
Proof.
  unfold publish_final_output, has_event_type. pose proof safe_final_answer_once.
  pose proof append_event_safe. solve_safe.
Qed.

Hint Resolve safe_continuation safe_set_status safe_fail_run safe_resolve_category safe_prepare
  safe_atomic safe_publish_final_output append_event_safe safe_error_text safe_require_run
  safe_update_metadata safe_interrupt_and_requeue safe_assert_claim safe_append_artifact
  safe_drain_steering safe_lease_round safe_refresh_run safe_release_claim safe_claim_run
  safe_create_run : run_store.

Lemma safe_fail i e k : safe (fail i e k).
Proof.
  unfold fail, failure_of. apply safe_bind; [apply safe_prepare|intros row].
  apply safe_atomic. solve_safe.
Qed.

Lemma safe_cancel i r c : safe (cancel i r c).
Proof. unfold cancel. apply safe_bind; [apply safe_prepare|intros row]. apply safe_atomic. solve_safe. Qed.

Lemma safe_settle_completed i o st c : safe (settle_completed i o st c).
Proof.
  unfold settle_completed. apply safe_bind; [apply safe_prepare|intros row]. apply safe_atomic. solve_safe.
Qed.

Lemma safe_complete i o st c : safe (complete i o st c).
Proof. unfold complete. pose proof safe_fail. pose proof safe_settle_completed. solve_safe. Qed.

Lemma safe_retry i st e c : safe (_retry_agent_start_failure i st e c).
Proof.
  unfold _retry_agent_start_failure, run_tool_execution_started, interrupt_and_requeue_run.
  apply safe_bind; [apply safe_lift|intros [d|]]; [|apply safe_ret].
  apply safe_bind; [apply safe_prepare|intros row]. apply safe_atomic. solve_safe.
Qed.

Lemma safe_enter_running row : safe (_enter_running row).
Proof. unfold _enter_running. solve_safe. Qed.

Lemma safe_wait_poll i : safe (_wait_for_execution_retry_poll i).
Proof. unfold _wait_for_execution_retry_poll. solve_safe. Qed.

Lemma safe_wait others n i : safe others -> safe (_wait_for_execution_retry others n i).
Proof.
  intros Ho. induction n as [|n IH]; simpl; pose proof safe_wait_poll; solve_safe.
Qed.

Lemma safe_acquire_lease others polls n i t : forall b, safe others -> safe (acquire_lease others polls n i t b).
Proof.
  induction n as [|n IH]; intros b Ho; simpl; pose proof (safe_wait others polls i Ho); solve_safe; auto.
Qed.

(** ** Recipes *)

Context {task : Type}.
Abbreviation world := (engine_world (task := task)).

Definition runtime_step (w w' : world) : Prop := store_step (eng_store w) (eng_store w').
#[export] Instance runtime_step_preorder : PreOrder runtime_step.
Proof. split; [intros w; unfold runtime_step; done|]. intros a b c. unfold runtime_step. apply transitivity. Qed.

Abbreviation sound m := (preserves runtime_step m).

Lemma sound_db {A} (m : DB A) : safe m -> sound (db_call m).
Proof. intros Hm w. apply (Hm (eng_store w)). Qed.
Lemma sound_publish t p : sound (publish t p).
Proof. intros w. unfold runtime_step. done. Qed.
Lemma sound_schedule i t : sound (schedule i t).
Proof. intros w. unfold runtime_step. done. Qed.
Lemma sound_inbox_drain i : sound (inbox_drain i).
Proof. intros w. unfold runtime_step. done. Qed.

(** What the engine asks of its arguments: whatever they do to the tables goes
    through operations of the store. *)
Class EngineLaws (engine : AsyncAgentRunEngine (task := task)) : Prop := {
  recipe_sound name execute : recipes engine name = Some execute -> forall rt, sound (execute rt);
  cancel_sound f : cancel_event_factory engine = Some f -> forall i, sound (f i);
  drain_sound f : durable_steering_drain engine = Some f -> forall i, sound (f i);
}.

Ltac sound_step := first
  [ solve [auto 2 using sound_publish, sound_schedule, sound_inbox_drain, safe_commit, safe_rollback with run_store]
  | apply sound_db; solve [auto 3 with run_store | solve_safe] ].
Ltac solve_sound := frame_by ltac:(sound_step).

Lemma sound_emit rt e : sound (emit rt e).
Proof. unfold emit. solve_sound. Qed.

Lemma sound_static answer rt : sound (answer rt) -> sound (StaticAnswerRecipe (task := task) answer rt).
Proof.
  intros Ha. unfold StaticAnswerRecipe, activity, text_delta. frame_by ltac:(first [exact Ha | apply sound_emit]).
Qed.

Lemma sound_runtime_drain rt :
  (forall f, rt_durable_steering_drain rt = Some f -> forall i, sound (f i)) ->
  sound (runtime_drain_steering rt).
Proof.
  intros Hf. unfold runtime_drain_steering. apply preserves_bind; [apply _| |intros durable].
  - destruct (rt_durable_steering_drain rt) as [f|] eqn:E; [by apply Hf|]. solve_sound.
  - solve_sound.
Qed.

Hint Resolve safe_fail safe_cancel safe_complete safe_retry safe_enter_running safe_acquire_lease : run_store.

Lemma sound_settle_result i ce (r : RunRecipeResult task) c :
  (forall f, ce = Some f -> sound f) -> sound (settle_result i ce r c).
Proof.
  intros Hce. assert (Hc : sound (cancel_event_is_set ce)).
  { unfold cancel_event_is_set. destruct ce as [f|]; [by apply Hce|]. apply preserves_ret, _. }
  unfold settle_result. frame_by ltac:(first [exact Hc | sound_step]).
Qed.

Section laws.
Context (engine : AsyncAgentRunEngine (task := task)) `{!EngineLaws engine}.

Lemma sound_owned i c : sound (_run_existing_owned engine i c).
Proof using All.
  unfold _run_existing_owned. apply preserves_bind; [apply _| |intros row]; [solve_sound|].
  destruct (is_terminal _); [solve_sound|]. destruct (String.eqb _ _); [solve_sound|].
  apply preserves_bind; [apply _|solve_sound|intros req].
  apply preserves_bind; [apply _|solve_sound|intros run].
  set (ce := _ <$> cancel_event_factory engine).
  assert (Hce : forall f, ce = Some f -> sound f).
  { intros f. unfold ce. destruct (cancel_event_factory engine) as [g|] eqn:E; intros [= <-].
    by apply (cancel_sound g). }
  destruct (recipes engine _) as [execute|] eqn:Er; [|solve_sound].
  apply preserves_bind; [apply _| |intros r; by apply sound_settle_result].
  apply preserves_catch; [apply _|by eapply recipe_sound|solve_sound].
Qed.

Lemma sound_lease {A} others polls rounds i t (body : option ExecutionClaim -> M world A) :
  safe others -> (forall c, sound (body c)) -> sound (execution_lease others polls rounds i t body).
Proof using All.
  intros Ho Hb. unfold execution_lease. pose proof (safe_acquire_lease others polls rounds i t false Ho).
  frame_by ltac:(first [apply Hb | sound_step]).
Qed.

Lemma sound_reread i :
  sound (row <- db_call (refresh_run i) ;; lift_result (to_domain row)).
Proof using All. solve_sound. Qed.

Lemma sound_body i c : sound (match c with
  | None => a <- (row <- db_call (refresh_run i) ;; lift_result (to_domain row)) ;; ret (a, [])
  | Some c => _run_existing_owned engine i (Some c)
  end).
Proof using All.
  destruct c as [c|]; [apply sound_owned|].
  apply preserves_bind; [apply _|apply sound_reread|intros a; apply preserves_ret, _].
Qed.

Lemma sound_run_existing others polls rounds i t :
  safe others -> sound (run_existing engine others polls rounds i t).
Proof using All.
  intros Ho. unfold run_existing. apply preserves_bind; [apply _| |intros done; solve_sound].
  apply preserves_catch; [apply _| |solve_sound]. apply sound_lease; [done|]. apply sound_body.
Qed.
End laws.
End safety.

(** ** Instances *)

(** Nothing is declared, and the continuation is noted as a call. *)
#[export] Instance demo_credentials : CredentialErrors :=
  {| is_credential_expired e := String.eqb (exc_name e) "CodexCredentialExpiredError" |}.
#[export] Instance demo_collaborators : Collaborators :=
  {| guarantee_chantier_record_for_run _ _ _ := Ok NothingDeclared;
     queue_chantier_continuation_for_terminal_run id :=
       modify (call_hook (QueueChantierContinuation id)) ;;; ret None |}.

#[export] Instance demo_collaborator_laws : CollaboratorLaws.
Proof.
  constructor. intros i s. split; try done. apply (safe_modify_same (call_hook (QueueChantierContinuation i))).
  by intros ?.
Qed.

(** An engine whose every run answers the same. *)
Definition demo_engine : AsyncAgentRunEngine (task := nat) :=
  {| recipes := fun _ => Some (@StaticAnswerRecipe nat (fun _ => ret "done"));
     cancel_event_factory := None; durable_steering_drain := None |}.

#[export] Instance demo_engine_laws `{Platform} : EngineLaws demo_engine.
Proof.
  split; [|done|done]. intros name execute [= <-] rt. apply sound_static, preserves_ret, _.
Qed.
