(* ===== verification/EngineSettlement.v ===== *)
(** Settlements of the engine: completing, failing and cancelling a run write its
    status, its answer, its event and its continuation together or not at all. *)
From S2P Require Import Prelude.
From S2P Require Import PyStr.
From S2P Require Import Json.
From S2P Require Import Status.
From S2P Require Import Failures.
From S2P Require Import RunLease.
From S2P Require Import RunStore.
From S2P Require Import RunCreate.
From S2P Require Import RunLifecycle.
From S2P Require Import RunMessages.
From S2P Require Import RunEvolution.
From S2P Require Import RunOutcome.
From S2P Require Import RunDemo.
From S2P Require Import RunTransitions.
From S2P Require Import RunInterruption.
From S2P Require Import RunEngine.
From S2P Require Import EngineTheorems.
Open Scope string_scope.
Open Scope bool_scope.
Open Scope list_scope.

Section settlement.
Context `{Platform} `{ProviderErrorTaxonomy} `{CredentialErrors} `{Collaborators} `{!CollaboratorLaws}.

(** * Work inside a transaction *)

Abbreviation inner m := (preserves inner_step m).

Lemma locked_inner s s' : locked s s' -> inner_step s s'.
Proof.
  intros [l ->]. split; try done. apply (safe_modify_same (log_locks l)). intros ?. by split_and!.
Qed.

Lemma inner_append_event e : e_sequence_no e = None -> inner (append_event e).
Proof.
  intros He s. destruct (append_event_ok e s He) as (s' & E & W & _). rewrite E. cbn [fst].
  pose proof (append_event_safe e s) as Hs. rewrite E in Hs. split.
  - exact Hs.
  - apply (wr_auto _ _ _ W).
  - intros Ha. by apply arrives_same, (wr_committed _ _ _ W).
  - intros _. rewrite (wr_pending _ _ _ W). apply (add_events_evolves (now s) [e]).
Qed.

Lemma error_text_rewritten i t s : exists t', safe_cycle_provider_error_text i t s = (s, Ok t').
Proof.
  unfold safe_cycle_provider_error_text, get_run, gets, bind, ret.
  repeat case_match; simplify_eq; eauto.
Qed.

Lemma inner_error_text i t : inner (safe_cycle_provider_error_text i t).
Proof. intros s. destruct (error_text_rewritten i t s) as (t' & ->). done. Qed.

Lemma inner_append_artifact a : inner (append_artifact a).
Proof.
  unfold append_artifact. apply preserves_bind; [apply _| |intros text].
  { frame_by ltac:(apply inner_error_text). }
  apply preserves_bind; [apply _| |intros ids].
  { intros s. edestruct acquire_spec as (s' & ids & E & Hl & _). rewrite E. by apply locked_inner. }
  intros s. unfold bind at 1, get. cbv zeta. set (row := Build_artifact_row _ _ _ _ _ _ _ _ _ _).
  rewrite (bind_eq_ok _ _ s (set_pending (add_artifact row (pending s)) s) tt) by done.
  transitivity (set_pending (add_artifact row (pending s)) s).
  - split; try done; [apply add_artifact_safe|]. intros _. split; simpl; try done; [|by apply prefix_app_r].
    intros i r Hr. exists r. by split.
  - apply preserves_bind; [apply _|by apply inner_append_event|intros _; apply preserves_ret, _].
Qed.

Lemma inner_final_answer i t r : inner (append_final_answer_once i t r).
Proof.
  unfold append_final_answer_once.
  frame_by ltac:(first [apply inner_error_text | apply inner_append_artifact]).
Qed.

Lemma inner_publish row o : inner (publish_final_output row o).
Proof.
  unfold publish_final_output, has_event_type.
  frame_by ltac:(first [apply inner_final_answer | by apply inner_append_event]).
Qed.

(** * The end of a settlement *)

(** An event of run [i] of type [t] that [d] did not have. *)
Definition announced (i : Z) (t : string) (d d' : db) : Prop :=
  exists e, e ∈ events d' /\ ev_run_id e = i /\ ev_type e = t /\ e ∉ events d.

Definition answered_finally (i : Z) (d : db) : Prop :=
  exists a, a ∈ artifacts d /\ art_run_id a = i /\ art_type a = value FINAL_ANSWER.

Lemma answered_mono i d d' : db_evolves d d' -> answered_finally i d -> answered_finally i d'.
Proof.
  intros [_ _ [l Ha] _] (a & Hin & Hi & Ht). exists a. rewrite Ha. split; [|done]. apply elem_of_app. auto.
Qed.

Lemma announced_mono i t d1 d2 d3 d4 :
  db_evolves d1 d2 -> db_evolves d3 d4 -> announced i t d2 d3 -> announced i t d1 d4.
Proof.
  intros [_ [l1 E1] _ _] [_ [l2 E2] _ _] (e & Hin & Hi & Ht & Hn). exists e. rewrite E2. split_and!; try done.
  - apply elem_of_app. auto.
  - rewrite E1 in Hn. set_solver.
Qed.

Lemma event_announced i t ev s s' :
  append_event ev s = (s', Ok (event_row_of (now s) ev (pending s))) ->
  writes s (add_event (event_row_of (now s) ev (pending s)) (pending s)) s' ->
  e_run_id ev = i -> e_type ev = t -> announced i t (pending s) (pending s').
Proof.
  intros _ W <- <-. set (er := event_row_of (now s) ev (pending s)) in *. exists er.
  rewrite (wr_pending _ _ _ W). simpl. split_and!; try done.
  - apply elem_of_app. right. by left.
  - intros Hin. assert (Hle : (ev_sequence_no er <= max_sequence (e_run_id ev) (pending s))%Z).
    { apply max_sequence_ge, list_elem_of_filter. by split. }
    simpl in Hle. lia.
Qed.

Lemma publish_answers row o s s' :
  publish_final_output row o s = (s', Ok tt) -> store_inv s -> o <> "" ->
  answered_finally (run_id row) (pending s').
Proof.
  intros E Hi Ho. unfold publish_final_output in E.
  destruct (append_final_answer_ok (run_id row) o (root_run_id (spec row)) s Ho)
    as (s1 & art & E1 & _ & Hin & Hid & Hty).
  rewrite (bind_eq_ok _ _ _ _ _ E1) in E.
  pose proof (inner_final_answer (run_id row) o (root_run_id (spec row)) s) as I1.
  rewrite E1 in I1. cbn [fst] in I1. destruct (in_safe _ _ I1 Hi) as [Hi1 _].
  match type of E with ?m s1 = _ => assert (Hm : inner m) end.
  { unfold has_event_type. frame_by ltac:(by apply inner_append_event). }
  specialize (Hm s1). rewrite E in Hm. cbn [fst] in Hm.
  eapply answered_mono; [by apply (in_grows _ _ Hm)|]. by exists art.
Qed.

(** What every settlement does once the status is changed. *)
Lemma finish_ok {A} i row output ev (a x : A) s s' :
  run_id row = i ->
  (when_ (negb (String.eqb output "")) (publish_final_output row output) ;;;
   append_event ev ;;; _queue_chantier_continuation i ;;; ret a) s = (s', Ok x) ->
  store_inv s -> e_run_id ev = i -> e_sequence_no ev = None ->
  x = a /\ inner_step s s' /\ announced i (e_type ev) (pending s) (pending s') /\
  (output <> "" -> answered_finally i (pending s')).
Proof.
  intros <- E Hinv Hid Hseq. apply bind_ok in E as (s1 & [] & E1 & E).
  assert (I1 : inner_step s s1 /\ (output <> "" -> answered_finally (run_id row) (pending s1))).
  { destruct (String.eqb_spec output "") as [->|Hne]; cbn [negb when_] in E1.
    - injection E1 as <-. split; [done|by intros []].
    - pose proof (inner_publish row output s) as Hp. rewrite E1 in Hp. split; [done|].
      intros _. by eapply publish_answers. }
  destruct I1 as [I1 Hans]. destruct (in_safe _ _ I1 Hinv) as [Hinv1 _].
  apply bind_ok in E as (s2 & er & E2 & E).
  destruct (append_event_ok ev s1 Hseq) as (s2' & E2' & W & _). rewrite E2' in E2. injection E2 as <- <-.
  pose proof (event_announced _ _ ev s1 s2' E2' W Hid eq_refl) as Hann.
  pose proof (inner_append_event ev Hseq s1) as I2. rewrite E2' in I2. cbn [fst] in I2.
  destruct (in_safe _ _ I2 Hinv1) as [Hinv2 _].
  apply bind_ok in E as (s3 & o & E3 & [= <- <-]).
  pose proof (continuation_inner (run_id row) s2') as I3. unfold _queue_chantier_continuation in E3.
  rewrite E3 in I3. cbn [fst] in I3.
  split; [done|]. split; [etrans; [exact I1|]; by etrans|]. split.
  - eapply announced_mono; [by apply (in_grows _ _ I1)|by apply (in_grows _ _ I3)|done].
  - intros Hne. eapply answered_mono; [by apply (in_grows _ _ I3)|].
    eapply answered_mono; [by apply (in_grows _ _ I2)|]. by apply Hans.
Qed.

(** * Changing the status of an open run *)

(** Keyword arguments without expectations on the row beyond the claim. *)
Definition plain_kwargs (k : status_kwargs) : Prop :=
  sk_expected_updated_at k = None /\ sk_expected_token k = None /\ sk_expected_attempt k = None /\
  sk_before k = [] /\ sk_after k = [].

(** Run [i] was moved to [target], as the claim allowed, and [a] is what it is now. *)
Record moved (s s' : store) (i : Z) (target : RunStatus) (claim : option ExecutionClaim) (a : AgentRun)
    : Prop := {
  mv_row : runs (pending s') !! i = Some (ar_row a);
  mv_status : row_status (ar_row a) = target;
  mv_answer : ar_status a = target;
  mv_inner : inner_step s s';
  mv_claim : exists r, runs (pending s) !! i = Some r /\ claim_ok s r claim = true;
}.

Lemma lock_result_some s i root skip r : lock_result s i root skip = Some r -> runs (pending s) !! i = Some r.
Proof. unfold lock_result. repeat case_match; try done; repeat case_decide; done. Qed.

Lemma locked_run_inv s i root s' r :
  _locked_run i root s = (s', Ok r) -> locked s s' /\ runs (pending s) !! i = Some r.
Proof.
  unfold _locked_run. destruct (lock_run_spec i root false s) as (s1 & Hl & E).
  rewrite (bind_eq_ok _ _ _ _ _ E). destruct (lock_result s i root false) as [r'|] eqn:Hr; [|done].
  intros [= <- <-]. split; [done|]. by eapply lock_result_some.
Qed.

Lemma claim_ok_locked s s' r c : locked s s' -> claim_ok s' r c = claim_ok s r c.
Proof. intros [l ->]. by destruct c. Qed.

Lemma plain_decision s r target k :
  row_wf r -> runs (pending s) !! run_id r = Some r -> is_terminal (row_status r) = false -> plain_kwargs k ->
  decide_status s r (Member target) k <> Settled /\
  (decide_status s r (Member target) k = Superseded -> is_Some (sk_claim k)).
Proof.
  intros Hwf Hr Ho (Hk1 & Hk2 & Hk3 & _). unfold decide_status. rewrite Ho.
  destruct (negb (claim_ok s r (sk_claim k))); [done|].
  destruct (ensure_run_transition _ _ _) as [[current t]|e] eqn:He; [|done].
  case_decide; [done|]. rewrite Hr. destruct (sk_claim k) as [c|] eqn:Hc; [by destruct (forallb _ _)|].
  replace (forallb _ _) with true; [done|]. symmetry. unfold status_predicates. rewrite Hk1, Hk2, Hk3, Hc.
  apply ensure_ok_inv in He as (Hcur & _ & _). rewrite (open_row_value r Hwf Ho), coerce_value in Hcur.
  pose proof (open_row_value r Hwf Ho) as Hv. rewrite <- Hcur in Hv. simpl. by rewrite Hv, String.eqb_refl.
Qed.

(** The change of an open run on its row: an error, or the run is moved. *)
Lemma change_open s r target k :
  store_inv s -> runs (pending s) !! run_id r = Some r -> is_terminal (row_status r) = false -> plain_kwargs k ->
  match _set_status_on_locked_run r (Member target) k s with
  | (s', Ok (a, b)) => moved s s' (run_id r) target (sk_claim k) a
  | (_, Err _) => True
  end.
Proof.
  intros Hinv Hr Ho Hk. pose proof (wf_rows _ (inv_pending _ Hinv) _ _ Hr) as Hwf.
  destruct (plain_decision s r target k Hwf Hr Ho Hk) as [Hns Hsup].
  pose proof (status_change_declined s r (Member target) k) as Hdec. cbv zeta in Hdec.
  pose proof (safe_set_status_on_locked r (Member target) k s) as Hsafe.
  destruct (_set_status_on_locked_run r (Member target) k s) as [s' res] eqn:E. cbn [fst] in Hsafe.
  destruct (decide_status s r (Member target) k) as [| |e| | |current t] eqn:Hd; [| done | | | |].
  - destruct Hdec as (_ & _ & _ & -> & _). unfold declined_result. unfold decide_status in Hd.
    destruct (sk_claim k) as [c|] eqn:Hc; [done|]. by repeat case_match.
  - destruct Hdec as (_ & _ & _ & -> & _). done.
  - clear Hdec. unfold decide_status in Hd. rewrite Ho in Hd.
    destruct (claim_ok s r (sk_claim k)) eqn:Hc; [|done]. cbn [negb] in Hd.
    destruct (ensure_run_transition _ _ _) as [[current t]|e] eqn:He; [|done].
    destruct (decide (current = t)) as [Heq|Hne]; [|by repeat case_match].
    rewrite (unchanged_eq s r (Member target) k Hc Ho current t He Heq) in E. injection E as <- <-.
    assert (Ht : row_status r = target).
    { apply ensure_ok_inv in He as (Hcur & Hg & _).
      rewrite (open_row_value r Hwf Ho), coerce_value in Hcur. rewrite coerce_member in Hg. congruence. }
    destruct (to_domain_wf r Hwf) as (a & Ea & Er & Es).
    assert (Hm : moved s s (run_id r) target (sk_claim k) a).
    { split; try done; rewrite ?Er; try congruence. by exists r. }
    unfold declined_result, answered, fmap, result_fmap. rewrite Ea.
    destruct (sk_claim k) as [c|]; [|done].
    destruct (runs (pending s) !! claim_of c) as [x|]; [|done]. by destruct (claim_is_current c x).
  - destruct Hdec as (_ & _ & _ & -> & _). destruct (Hsup eq_refl) as [c Hc].
    unfold declined_result. by rewrite Hc.
  - clear Hdec. destruct Hk as (_ & _ & _ & Hb & Ha).
    destruct (set_status_accepted s r (Member target) k current t Hwf Hr Hd)
      as (s2 & a & r' & E2 & Ea & Eas & Hruns & Hst' & _ & _ & _ & _ & _ & Hcm & _ & _ & _ & Hev & Hst).
    { by rewrite Hb, Ha. }
    rewrite E2 in E. injection E as <- <-.
    assert (Ht : t = target).
    { apply decide_accepted in Hd as (_ & _ & He & _). apply ensure_ok_inv in He as (_ & Hg & _).
      by rewrite coerce_member in Hg. }
    subst t. split.
    + by rewrite Hruns, Ea, lookup_insert_eq.
    + rewrite Ea. unfold row_status. by rewrite Hst', coerce_value.
    + done.
    + split; [done|apply (st_auto _ _ _ Hst)| |done]. intros Hau. apply arrives_same. by rewrite Hcm, Hau.
    + exists r. split; [done|]. by apply decide_accepted in Hd as (Hc & _).
Qed.

Lemma moved_locked s s1 s' i target claim a :
  locked s s1 -> moved s1 s' i target claim a -> moved s s' i target claim a.
Proof.
  intros Hl [? ? ? ? (r & Hr & Hc)]. destruct (locked_fields _ _ Hl) as (Ep & _).
  split; try done; [etrans; [by apply locked_inner|done]|].
  exists r. rewrite <- Ep. split; [done|]. by rewrite <- (claim_ok_locked s s1).
Qed.

(** The same through the row's lock. *)
Lemma locked_change_open s i r target (f : run_row -> status_kwargs) c :
  store_inv s -> runs (pending s) !! i = Some r -> is_terminal (row_status r) = false ->
  (forall row, plain_kwargs (f row) /\ sk_claim (f row) = c) ->
  match (row <- _locked_run i None ;; _set_status_on_locked_run row (Member target) (f row)) s with
  | (s', Ok (a, _)) => moved s s' i target c a
  | (_, Err _) => True
  end.
Proof.
  intros Hinv Hr Ho Hf. unfold bind.
  destruct (_locked_run i None s) as [s1 [row|e]] eqn:E; [|done].
  apply locked_run_inv in E as [Hl Hrow]. assert (row = r) as -> by congruence.
  destruct (wf_ids _ (inv_pending _ Hinv) _ _ Hr) as [Hid _].
  pose proof (locked_inner _ _ Hl) as I1. destruct (in_safe _ _ I1 Hinv) as [Hinv1 _].
  destruct (locked_fields _ _ Hl) as (Ep & _). destruct (Hf r) as [Hp <-].
  pose proof (change_open s1 r target (f r) Hinv1 ltac:(by rewrite Ep, Hid) Ho Hp) as Hch.
  destruct (_set_status_on_locked_run _ _ _ s1) as [s' [[a b]|e]]; [|done].
  rewrite Hid in Hch. by eapply moved_locked.
Qed.

Lemma check_claim_lost_cases i c s :
  check_claim_lost i c s = (s, Ok tt) \/ exists e, check_claim_lost i c s = (s, Err e).
Proof.
  unfold check_claim_lost. destruct c as [c|]; [|by left]. unfold bind, get, when_, raise, ret.
  destruct (claim_lost c s); [right; by eexists|by left].
Qed.

(** Both public entry points, on an open run. *)
Definition keyword_args (reason : option string) (c : option ExecutionClaim) : status_kwargs :=
  {| sk_reason := reason; sk_claim := c; sk_expected_updated_at := None; sk_expected_token := None;
     sk_expected_attempt := None; sk_rollback_on_conflict := true; sk_transitioned_at := None;
     sk_metadata_update := None; sk_allow_requeue := false; sk_before := []; sk_after := [] |}.

Lemma entry_open s i r target (f : run_row -> status_kwargs) c :
  store_inv s -> runs (pending s) !! i = Some r -> is_terminal (row_status r) = false ->
  (forall row, plain_kwargs (f row) /\ sk_claim (f row) = c) ->
  match (x <- (check_claim_lost i c ;;; row <- _locked_run i None ;;
               _set_status_on_locked_run row (Member target) (f row)) ;; ret x.1) s with
  | (s', Ok a) => moved s s' i target c a
  | (_, Err _) => True
  end.
Proof.
  intros Hinv Hr Ho Hf. pose proof (locked_change_open s i r target f c Hinv Hr Ho Hf) as Hch.
  unfold bind at 1. unfold bind at 1.
  destruct (check_claim_lost_cases i c s) as [-> |[e ->]]; [|done].
  by destruct (bind _ _ s) as [s' [[a b]|e]].
Qed.

Lemma fail_run_open s i r cat stage reason exc c :
  store_inv s -> runs (pending s) !! i = Some r -> is_terminal (row_status r) = false ->
  match fail_run i cat stage reason exc c s with
  | (s', Ok a) => moved s s' i FAILED c a
  | (_, Err _) => True
  end.
Proof.
  intros Hinv Hr Ho. apply (entry_open s i r FAILED (fun row =>
    with_metadata (jset "failure" (JObj (failure_entry cat stage exc)) (metadata_ row))
      (without_requeue (keyword_args reason c))) c Hinv Hr Ho). by intros row.
Qed.

Lemma set_status_open s i r target reason c :
  store_inv s -> runs (pending s) !! i = Some r -> is_terminal (row_status r) = false -> target <> FAILED ->
  match set_status i (Member target) reason c s with
  | (s', Ok a) => moved s s' i target c a
  | (_, Err _) => True
  end.
Proof.
  intros Hinv Hr Ho Ht. unfold set_status, set_status_with_result, names_failed.
  rewrite bool_decide_eq_false_2 by done.
  apply (entry_open s i r target (fun _ => keyword_args reason c) c Hinv Hr Ho). by intros row.
Qed.

(** * The frame of a terminal write *)

Lemma prepare_open s i r :
  runs (pending s) !! i = Some r -> is_terminal (row_status r) = false ->
  exists s1, locked (set_committed (pending s) s) s1 /\
    (_prepare_terminal_write i s = (s1, Ok r) \/ exists e, _prepare_terminal_write i s = (s1, Err e)).
Proof.
  intros Hr Ho. unfold _prepare_terminal_write.
  rewrite (bind_eq_ok _ _ s s r) by (unfold require_run, get_run, gets, bind; by rewrite Hr).
  rewrite Ho. rewrite (bind_eq_ok _ _ s (set_committed (pending s) s) tt) by done.
  unfold lock_terminal_boundary. edestruct acquire_spec as (s1 & ids & E & Hl & _).
  rewrite (bind_eq_ok _ _ _ _ _ E). exists s1. split; [done|]. unfold bind, get.
  destruct (bool_decide _ && _); [right; by eexists|]. left.
  destruct (locked_fields _ _ Hl) as (Ep & _). apply refresh_run_ok. by rewrite Ep.
Qed.

Lemma atomic_eq {A} (body : DB A) s :
  _atomic_terminal_write body s =
  match body (set_auto_commit false s) with
  | (s1, Ok a) => (set_auto_commit (auto_commit s)
                     (if auto_commit s then set_committed (pending s1) s1 else s1), Ok a)
  | (s1, Err e) => (set_auto_commit (auto_commit s) (set_pending (committed s1) s1), Err e)
  end.
Proof.
  unfold _atomic_terminal_write, bind, get, modify, catch, ret, lift_result, when_, commit, rollback.
  destruct (body (set_auto_commit false s)) as [s1 [a|e]]; [|done]. by destruct (auto_commit s).
Qed.

(** Run [i] is there and not settled. *)
Definition open_run (i : Z) (d : db) : Prop :=
  exists r, runs d !! i = Some r /\ is_terminal (row_status r) = false.

Lemma open_run_before i d d' : db_evolves d d' -> is_Some (runs d !! i) -> open_run i d' -> open_run i d.
Proof.
  intros He [r Hr] (r' & Hr' & Ho). exists r. split; [done|]. apply not_true_iff_false. intros Ht.
  destruct (ev_runs _ _ He _ _ Hr) as (x & Hx & Hrow). simplify_eq.
  destruct (ev_status _ _ Hrow) as [|a b c [allow Hs] _]; [congruence|].
  apply transition_source_open in Hs. congruence.
Qed.

(** The committed row of run [i], if there is one, says of its lease what [r] says,
    or is the row that was committed before. *)
Definition committed_unsettled (s s' : store) (i : Z) (r : run_row) : Prop :=
  forall r', runs (committed s') !! i = Some r' -> lease_of r' = lease_of r \/ runs (committed s) !! i = Some r'.

(** The run is where it was: status, attempt and holder. *)
Definition unsettled (s s' : store) (i : Z) (r : run_row) : Prop :=
  (exists r', runs (pending s') !! i = Some r' /\ lease_of r' = lease_of r) /\ committed_unsettled s s' i r.

(** The outcome of a settlement of run [i] as [target], announced as [t] and, if
    [ans], with a final answer. *)
Record settled_as (s s' : store) (i : Z) (r : run_row) (claim : option ExecutionClaim) (target : RunStatus)
    (t : string) (ans : bool) (a : AgentRun) : Prop := {
  sa_claim : claim_ok s r claim = true;
  sa_answer : ar_status a = target;
  sa_row : exists r, runs (pending s') !! i = Some r /\ row_status r = target;
  sa_event : announced i t (pending s) (pending s');
  sa_final : ans = true -> answered_finally i (pending s');
  sa_committed : if auto_commit s then committed s' = pending s' else committed_unsettled s s' i r;
}.

Lemma terminal_write_settles s s1 i r target t claim (body : DB AgentRun) ans :
  store_inv s -> runs (pending s) !! i = Some r -> is_terminal (row_status r) = false ->
  is_terminal target = true -> locked (set_committed (pending s) s) s1 ->
  (forall s3 a, body (set_auto_commit false s1) = (s3, Ok a) ->
     exists s2, moved (set_auto_commit false s1) s2 i target claim a /\ inner_step s2 s3 /\
       announced i t (pending s2) (pending s3) /\ (ans = true -> answered_finally i (pending s3))) ->
  safe body ->
  match _atomic_terminal_write body s1 with
  | (s', Ok a) => settled_as s s' i r claim target t ans a
  | (s', Err _) => True
  end.
Proof.
  intros Hinv Hr Ho Ht Hl Hbody Hsafe. rewrite atomic_eq.
  destruct (body _) as [s3 [a|e]] eqn:E; [|done].
  destruct (Hbody _ _ eq_refl) as (s2 & Hm & I & Hann & Hans).
  destruct (locked_fields _ _ Hl) as (Ep & Ec & _ & _ & _ & Ea & _). cbn in Ep, Ec, Ea.
  assert (Hinv1 : store_inv (set_auto_commit false s1)).
  { apply (safe_modify_same (set_auto_commit false)); [by intros ?|].
    apply (in_safe _ _ (locked_inner _ _ Hl)). by apply safe_commit. }
  destruct Hm as [Hrow Hst Hans' Hin (r0 & Hr0 & Hcl)].
  assert (Hcl' : claim_ok s r claim = true).
  { cbn in Hr0. rewrite Ep in Hr0. assert (r0 = r) as -> by congruence. rewrite <- Hcl.
    destruct claim as [c|]; [|done]. simpl. unfold claim_lost. cbn. by destruct Hl as [l ->]. } destruct (in_safe _ _ Hin Hinv1) as [Hinv2 _].
  pose proof (in_grows _ _ I Hinv2) as Hg. pose proof (in_grows _ _ Hin Hinv1) as Hg1. cbn in Hg1. rewrite Ep in Hg1.
  assert (Hann' : announced i t (pending s) (pending s3)) by (eapply announced_mono; [exact Hg1|reflexivity|done]).
  assert (Hrow3 : exists r', runs (pending s3) !! i = Some r' /\ row_status r' = target).
  { destruct (ev_runs _ _ Hg _ _ Hrow) as (r' & Hr' & He). exists r'. split; [done|].
    destruct (ev_status _ _ He) as [|x y z [allow Hs] _]; [done|].
    apply transition_source_open in Hs. congruence. }
  assert (Hc3 : arrivals (pending s) (committed s3)).
  { assert (Hb : committed (set_auto_commit false s1) = pending s) by (cbn; congruence). rewrite <- Hb.
    etrans; [by apply arrives_arrivals, (in_committed _ _ Hin)|].
    apply arrives_arrivals, (in_committed _ _ I). by rewrite (in_auto _ _ Hin). }
  rewrite Ea. destruct (auto_commit s) eqn:Hau; split; cbn; rewrite ?Hau; auto; try (by apply Hans).
  intros r' Hr'. cbn in Hr'. pose proof (arrivals_row _ _ _ _ Hc3 Hr). left. congruence.
Qed.

(** ** Nothing is committed inside *)

(** With [auto_commit] off, whatever happens, rollbacks included, nothing of it is
    committed. *)
Definition tx_step (s s' : store) : Prop :=
  auto_commit s = false -> auto_commit s' = false /\ arrivals (committed s) (committed s').
#[local] Instance tx_step_preorder : PreOrder tx_step.
Proof.
  split; [by intros s|]. intros a b c Hab Hbc Ha. destruct (Hab Ha) as [Hb E]. destruct (Hbc Hb). by split; [|etrans].
Qed.

Abbreviation tx m := (preserves tx_step m).

Lemma inner_tx {A} (m : DB A) : inner m -> tx m.
Proof. intros Hm s Ha. destruct (Hm s) as [_ E C _]. rewrite E. split; [done|]. by apply arrives_arrivals, C. Qed.

Lemma tx_locked_run i r : tx (_locked_run i r).
Proof.
  intros s. unfold _locked_run. destruct (lock_run_spec i r false s) as (s1 & Hl & E).
  rewrite (bind_eq_ok _ _ _ _ _ E). destruct (locked_fields _ _ Hl) as (_ & Ec & _ & _ & _ & Ea & _).
  destruct (lock_result s i r false); cbn; intros Ha; by rewrite Ec, Ea.
Qed.

Lemma tx_commit_if_auto : tx commit_if_auto.
Proof. intros s Ha. rewrite commit_if_auto_eq, Ha. done. Qed.

Lemma tx_update_run i p l : tx (update_run i p l).
Proof. unfold update_run. frame_by ltac:(by intros s). Qed.

Lemma tx_append_event e : tx (append_event e).
Proof.
  unfold append_event. frame_by ltac:(first
    [ apply tx_commit_if_auto
    | intros s; edestruct acquire_spec as (s' & ids & E & Hl & _); rewrite E; by apply inner_tx, locked_inner
    | by intros s ]).
Qed.

Lemma tx_refresh_run i : tx (refresh_run i).
Proof. unfold refresh_run. frame_by ltac:(by intros s). Qed.

Lemma tx_assert_claim c : tx (assert_execution_claim c).
Proof. unfold assert_execution_claim. frame_by ltac:(apply tx_refresh_run). Qed.

Lemma tx_set_status_on_locked row st k : tx (_set_status_on_locked_run row st k).
Proof.
  unfold _set_status_on_locked_run, check_claim, append_events, _reconcile_inbound_triage_run_if_needed.
  frame_by ltac:(first
    [ apply tx_commit_if_auto | apply tx_update_run | apply tx_append_event | apply tx_assert_claim
    | apply tx_refresh_run | (by intros s) ]).
Qed.

Lemma tx_fail_run i cat st r e c : tx (fail_run i cat st r e c).
Proof.
  unfold fail_run, fail_run_with_result, check_claim_lost.
  frame_by ltac:(first [apply tx_locked_run | apply tx_set_status_on_locked]).
Qed.

Lemma tx_set_status i st r c : tx (set_status i st r c).
Proof.
  unfold set_status, set_status_with_result, fail_run_with_result, check_claim_lost.
  frame_by ltac:(first [apply tx_locked_run | apply tx_set_status_on_locked]).
Qed.

(** An atomic write that fails leaves what was committed before it, and what others
    committed meanwhile. *)
Lemma atomic_err {A} (body : DB A) s s1 s' e :
  tx body -> locked (set_committed (pending s) s) s1 ->
  _atomic_terminal_write body s1 = (s', Err e) -> pending s' = committed s' /\ arrivals (pending s) (committed s').
Proof.
  intros Hb Hl. rewrite atomic_eq. destruct (body _) as [s3 [a|e']] eqn:E; [done|]. intros [= <- <-].
  destruct (locked_fields _ _ Hl) as (_ & Ec & _). pose proof (Hb (set_auto_commit false s1) eq_refl) as Ht.
  rewrite E in Ht. destruct Ht as [_ Ht]. cbn in *. rewrite Ec in Ht. by split.
Qed.

(** * Settlements *)

Inductive settlement : Type :=
| Completing (output : string) (st : RunStatus)
| Failing (error : string) (k : fail_kwargs)
| Canceling (reason : option string).

Definition with_claim (c : option ExecutionClaim) (k : fail_kwargs) : fail_kwargs :=
  {| fk_final_output := fk_final_output k; fk_failure_category := fk_failure_category k;
     fk_failure_stage := fk_failure_stage k; fk_classified_failure := fk_classified_failure k;
     fk_exception_type := fk_exception_type k; fk_execution_claim := c |}.

Definition settle (x : settlement) (i : Z) (c : option ExecutionClaim) : DB AgentRun :=
  match x with
  | Completing output st => complete i output st c
  | Failing error k => fail i error (with_claim c k)
  | Canceling reason => cancel i reason c
  end.

(** The event a settlement announces itself with, and whether it leaves an answer. *)
Definition announcement (x : settlement) (target : RunStatus) : string :=
  match x, target with
  | Canceling _, _ => "run.canceled"
  | Failing _ _, _ | _, FAILED => "run.failed"
  | _, _ => "run.completed"
  end.
Definition leaves_answer (x : settlement) : bool :=
  match x with
  | Completing output st => negb (String.eqb output "") && negb (bool_decide (st = FAILED))
  | Failing _ k => negb (String.eqb (str_or (fk_final_output k) "") "")
  | Canceling _ => false
  end.
Definition targets (x : settlement) : list RunStatus :=
  match x with
  | Completing _ st => [st; FAILED] | Failing _ _ => [FAILED] | Canceling _ => [CANCELED]
  end.

(** What is left when a settlement of run [i], whose row was [r], ended: it happened,
    all of it, as the claim allowed, or nothing happened to the run. *)
Definition all_or_nothing (s s' : store) (i : Z) (r : run_row) (claim : option ExecutionClaim)
    (target : RunStatus) (t : string) (ans : bool) (res : result AgentRun) : Prop :=
  match res with
  | Ok a => settled_as s s' i r claim target t ans a
  | Err _ => unsettled s s' i r
  end.

Lemma failure_of_eq row error k s : exists cs, failure_of row error k s = (s, Ok cs).
Proof.
  unfold failure_of, resolve_category, run_tool_execution_started.
  destruct (fk_classified_failure k); [by eexists|]. unfold bind, gets, ret.
  destruct (run_requires_durable_preservation _); by eexists.
Qed.

Section one.
Context (s : store) (i : Z) (r : run_row).
Hypothesis Hinv : store_inv s.
Hypothesis Hr : runs (pending s) !! i = Some r.
Hypothesis Ho : is_terminal (row_status r) = false.

Lemma still_open (res : result AgentRun) s' claim target t ans :
  is_ok res = false -> arrivals (pending s) (pending s') ->
  (committed s' = pending s' \/ committed s' = committed s) ->
  all_or_nothing s s' i r claim target t ans res.
Proof using All.
  intros He Hp Hc. destruct res as [a|e]; [done|]. pose proof (arrivals_row _ _ _ _ Hp Hr) as Hi.
  split; [by exists r|].
  intros r' Hr'. destruct Hc as [Hc|Hc]; rewrite Hc in *; [left; congruence|by right].
Qed.

(** The write after the preparation: a status change and what follows it. *)
Lemma write_all_or_nothing s1 target t claim (body : DB AgentRun) ans :
  is_terminal target = true -> locked (set_committed (pending s) s) s1 -> safe body -> tx body ->
  (forall s3 a, body (set_auto_commit false s1) = (s3, Ok a) ->
     exists s2, moved (set_auto_commit false s1) s2 i target claim a /\ inner_step s2 s3 /\
       announced i t (pending s2) (pending s3) /\ (ans = true -> answered_finally i (pending s3))) ->
  let '(s', res) := _atomic_terminal_write body s1 in all_or_nothing s s' i r claim target t ans res.
Proof using All.
  intros Ht Hl Hs Hx Hb.
  pose proof (terminal_write_settles s s1 i r target t claim body ans Hinv Hr Ho Ht Hl Hb Hs) as Hw.
  destruct (_atomic_terminal_write body s1) as [s' [a|e]] eqn:E; [done|].
  destruct (atomic_err body s s1 s' e Hx Hl E) as [Hp Hc]. apply still_open; [done|by rewrite Hp|by left].
Qed.

Lemma prepared_inv s1 : locked (set_committed (pending s) s) s1 -> store_inv (set_auto_commit false s1).
Proof using All.
  intros Hl. apply (safe_modify_same (set_auto_commit false)); [by intros ?|].
  apply (in_safe _ _ (locked_inner _ _ Hl)). by apply safe_commit.
Qed.

Lemma prepared_row s1 :
  locked (set_committed (pending s) s) s1 -> runs (pending (set_auto_commit false s1)) !! i = Some r.
Proof using All. intros Hl. cbn. by destruct (locked_fields _ _ Hl) as (-> & _). Qed.

(** A status change followed by the end every settlement has. *)
Lemma change_then_finish s1 target claim (change : DB AgentRun) (tail : AgentRun -> DB AgentRun) row o ev t ans s3 a :
  store_inv s1 -> run_id row = i -> e_run_id ev = i -> e_sequence_no ev = None -> e_type ev = t ->
  match change s1 with (s', Ok a) => moved s1 s' i target claim a | _ => True end ->
  (ans = true -> o <> "") ->
  (forall x s, tail x s = (when_ (negb (String.eqb o "")) (publish_final_output row o) ;;;
     append_event ev ;;; _queue_chantier_continuation i ;;; ret x) s) ->
  (x <- change ;; if negb (bool_decide (ar_status x = target)) then ret x else tail x) s1 = (s3, Ok a) ->
  exists s2, moved s1 s2 i target claim a /\ inner_step s2 s3 /\
    announced i t (pending s2) (pending s3) /\ (ans = true -> answered_finally i (pending s3)).
Proof using All.
  intros Hinv1 Hid He Hseq <- Hch Ho' Htail E. apply bind_ok in E as (s2 & x & E2 & E). rewrite E2 in Hch.
  rewrite bool_decide_eq_true_2 in E by (apply (mv_answer _ _ _ _ _ _ Hch)). cbn [negb] in E. rewrite Htail in E.
  destruct (in_safe _ _ (mv_inner _ _ _ _ _ _ Hch) Hinv1) as [Hinv2 _].
  destruct (finish_ok i row o ev x a s2 s3 Hid E Hinv2 He Hseq) as (-> & I & Hann & Hans).
  exists s2. split_and!; auto.
Qed.

Lemma own_id : run_id r = i.
Proof using Hinv Hr. by destruct (wf_ids _ (inv_pending _ Hinv) _ _ Hr). Qed.

(** The two ways a settlement can end before its write. *)
Lemma unprepared s1 e claim target t ans :
  locked (set_committed (pending s) s) s1 -> all_or_nothing s s1 i r claim target t ans (Err e).
Proof using All.
  intros Hl. destruct (locked_fields _ _ Hl) as (Ep & Ec & _). apply still_open; [done|by rewrite Ep|left; rewrite Ep; exact Ec].
Qed.

Lemma cancel_all_or_nothing reason c :
  let '(s', res) := cancel i reason c s in all_or_nothing s s' i r c CANCELED "run.canceled" false res.
Proof using All.
  unfold cancel. destruct (prepare_open s i r Hr Ho) as (s1 & Hl & [E|[e E]]).
  2:{ rewrite (bind_eq_err _ _ _ _ _ E). by apply unprepared. }
  rewrite (bind_eq_ok _ _ _ _ _ E), Ho.
  apply (write_all_or_nothing s1 CANCELED "run.canceled" c); [done|done| | |].
  - pose proof safe_set_status. pose proof append_event_safe. pose proof safe_continuation. solve_safe.
  - frame_by ltac:(first [apply tx_set_status | apply tx_append_event | apply inner_tx, continuation_inner]).
  - intros s3 a.
    match goal with |- context [append_event ?e] =>
      eapply (change_then_finish (set_auto_commit false s1) CANCELED c _ _ r "" e) end;
      [by apply prepared_inv|apply own_id|reflexivity..| |done|reflexivity].
    apply (set_status_open _ _ r); [by apply prepared_inv|by apply prepared_row|done|done].
Qed.

Lemma completed_all_or_nothing output st c :
  is_terminal st = true -> st <> FAILED ->
  let '(s', res) := settle_completed i output st c s in
  all_or_nothing s s' i r c st "run.completed" (negb (String.eqb output "")) res.
Proof using All.
  intros Ht Hf. unfold settle_completed. destruct (prepare_open s i r Hr Ho) as (s1 & Hl & [E|[e E]]).
  2:{ rewrite (bind_eq_err _ _ _ _ _ E). by apply unprepared. }
  rewrite (bind_eq_ok _ _ _ _ _ E), Ho.
  apply (write_all_or_nothing s1 st "run.completed" c); [done|done| | |].
  - pose proof safe_set_status. pose proof append_event_safe. pose proof safe_continuation.
    pose proof safe_publish_final_output. solve_safe.
  - frame_by ltac:(first [apply tx_set_status | apply tx_append_event | apply inner_tx, continuation_inner
      | apply inner_tx, inner_publish]).
  - intros s3 a.
    match goal with |- context [append_event ?e] =>
      eapply (change_then_finish (set_auto_commit false s1) st c _ _ r output e) end;
      [by apply prepared_inv|apply own_id|reflexivity..| | |reflexivity].
    + apply (set_status_open _ _ r); [by apply prepared_inv|by apply prepared_row|done|done].
    + intros Hn ->. done.
Qed.

(** The safe message of a failure is never empty. *)
Lemma failed_message_nonempty category :
  str_or (safe_terminal_run_message (Member FAILED) (Member category)) "" <> "".
Proof. by destruct category. Qed.

Lemma fail_all_or_nothing error k :
  let '(s', res) := fail i error k s in
  all_or_nothing s s' i r (fk_execution_claim k) FAILED "run.failed" (negb (String.eqb (str_or (fk_final_output k) "") "")) res.
Proof using All.
  unfold fail. destruct (prepare_open s i r Hr Ho) as (s1 & Hl & [E|[e E]]).
  2:{ rewrite (bind_eq_err _ _ _ _ _ E). by apply unprepared. }
  rewrite (bind_eq_ok _ _ _ _ _ E), Ho.
  apply (write_all_or_nothing s1 FAILED "run.failed" (fk_execution_claim k)); [done|done| | |].
  - unfold failure_of. pose proof safe_fail_run. pose proof append_event_safe. pose proof safe_continuation.
    pose proof safe_publish_final_output. pose proof safe_resolve_category. pose proof safe_error_text. solve_safe.
  - unfold failure_of, resolve_category, run_tool_execution_started.
    frame_by ltac:(first [apply tx_fail_run | apply tx_append_event | apply inner_tx, continuation_inner
      | apply inner_tx, inner_publish | apply inner_tx, inner_error_text]).
  - intros s3 a. set (s1' := set_auto_commit false s1).
    destruct (failure_of_eq r error k s1') as ([category stage] & Ef). rewrite (bind_eq_ok _ _ _ _ _ Ef).
    destruct (error_text_rewritten i error s1') as (text & Et). cbv zeta. rewrite (bind_eq_ok _ _ _ _ _ Et).
    match goal with |- context [publish_final_output r ?o] => set (output := o) end.
    match goal with |- context [append_event ?e] =>
      eapply (change_then_finish s1' FAILED (fk_execution_claim k) _ _ r output e) end;
      [by apply prepared_inv|apply own_id|reflexivity..| | |reflexivity].
    + apply (fail_run_open _ _ r); [by apply prepared_inv|by apply prepared_row|done].
    + intros Hn. unfold output. destruct (bool_decide _ && negb _); [apply failed_message_nonempty|].
      by apply negb_true_iff, String.eqb_neq in Hn.
Qed.
End one.

(** ** Notes on the run before it is settled *)

(** The run is where it was: same status, attempt and holder. *)
Definition same_lease (i : Z) (s s' : store) : Prop :=
  forall r, runs (pending s) !! i = Some r ->
  exists r', runs (pending s') !! i = Some r' /\ lease_of r' = lease_of r.
#[local] Instance same_lease_preorder i : PreOrder (same_lease i).
Proof.
  split; [intros s r Hr; by exists r|]. intros a b c Hab Hbc r Hr.
  destruct (Hab r Hr) as (r1 & Hr1 & E1). destruct (Hbc r1 Hr1) as (r2 & Hr2 & E2).
  exists r2. split; [done|congruence].
Qed.

Lemma same_lease_runs i s s' : runs (pending s') = runs (pending s) -> same_lease i s s'.
Proof. intros E r Hr. rewrite E. by exists r. Qed.

Lemma lease_append_event i e : e_sequence_no e = None -> preserves (same_lease i) (append_event e).
Proof.
  intros He s. destruct (append_event_ok e s He) as (s' & E & W & _). rewrite E. cbn [fst].
  apply same_lease_runs. by rewrite (wr_pending _ _ _ W).
Qed.

Record note_step (i : Z) (s s' : store) : Prop := {
  nt_inner : inner_step s s';
  nt_lease : same_lease i s s';
  nt_lost : lost_claims s' = lost_claims s;
  nt_committed : forall r, runs (pending s) !! i = Some r -> committed_unsettled s s' i r;
}.
#[local] Instance note_step_preorder i : PreOrder (note_step i).
Proof.
  split; [intros s; split; try done; intros r _ r' Hr'; by right|].
  intros a b c [I1 L1 E1 C1] [I2 L2 E2 C2]. split; [by etrans|by etrans|congruence|].
  intros r Hr r' Hr'. destruct (L1 r Hr) as (r1 & Hr1 & El). destruct (C2 r1 Hr1 r' Hr') as [E|E].
  - left. congruence.
  - by apply (C1 r Hr).
Qed.

Lemma note_append_event i e : e_sequence_no e = None -> preserves (note_step i) (append_event e).
Proof.
  intros He s. destruct (append_event_ok e s He) as (s' & E & W & Hc).
  pose proof (inner_append_event e He s) as I. pose proof (lease_append_event i e He s) as L.
  rewrite E in *. cbn [fst] in *. split; [done|done|apply (wr_lost _ _ _ W)|].
  intros r Hr r' Hr'. destruct (auto_commit s) eqn:Ha.
  - left. rewrite Hc in Hr' by done. destruct (L r Hr) as (x & Hx & El). congruence.
  - right. rewrite (wr_committed _ _ _ W) in Hr'; done.
Qed.

Lemma note_flush_metadata i row m : preserves (note_step i) (flush_metadata row m).
Proof.
  unfold flush_metadata. apply preserves_when; [apply _|].
  apply preserves_bind; [apply _| |intros b; apply preserves_ret, _].
  intros s. unfold update_run, bind, get. destruct (runs (pending s) !! run_id row) as [r|] eqn:Hr; [|done].
  simpl. set (r' := apply_assigns _ r). split; [split; simpl; try done| |done|intros ? ? ? ?; by right].
  - pose proof (safe_flush_metadata row m s) as Hs. unfold flush_metadata in Hs.
    intros Hinv. assert (Hwf : row_wf r) by apply (wf_rows _ (inv_pending _ Hinv) _ _ Hr).
    pose proof (update_run_safe (run_id row) [] [SetMetadata m]) as Hu.
    specialize (Hu ltac:(intros x Hx _ t; by apply metadata_row) s Hinv).
    unfold update_run, bind, get in Hu. rewrite Hr in Hu. exact Hu.
  - intros Hinv. apply update_evolves with r; [done|].
    apply (metadata_row m (now s) r), (wf_rows _ (inv_pending _ Hinv) _ _ Hr).
  - intros x Hx. simpl. destruct (decide (run_id row = i)) as [<-|Hne].
    + rewrite lookup_insert_eq. exists r'. split; [done|]. assert (x = r) as -> by congruence.
      unfold r'. by destruct r.
    + rewrite lookup_insert_ne by done. by exists x.
Qed.

Lemma note_update_metadata i p : preserves (note_step i) (update_metadata i p).
Proof.
  unfold update_metadata. apply preserves_bind; [apply _| |intros row].
  - intros s. unfold _locked_run. destruct (lock_run_spec i None false s) as (s1 & Hl & E).
    rewrite (bind_eq_ok _ _ _ _ _ E).
    assert (Hn : note_step i s s1).
    { destruct (locked_fields _ _ Hl) as (Ep & Ec & _ & _ & _ & _ & _ & El).
      split; [by apply locked_inner|by apply same_lease_runs; rewrite Ep|done|].
      intros r _ r' Hr'. right. by rewrite <- Ec. }
    by destruct (lock_result s i None false).
  - apply preserves_bind; [apply _|apply note_flush_metadata|intros ?; apply preserves_ret, _].
Qed.

Lemma claim_ok_lease s s' r r' c :
  lost_claims s' = lost_claims s -> lease_of r' = lease_of r -> claim_ok s' r' c = claim_ok s r c.
Proof.
  intros El [= E1 E2 E3]. destruct c as [c|]; [|done]. simpl. unfold claim_lost, claim_is_current.
  by rewrite El, E1, E2, E3.
Qed.

Lemma after_notes s s2 s' i r r2 claim target t ans res :
  note_step i s s2 -> store_inv s -> runs (pending s) !! i = Some r -> lease_of r2 = lease_of r ->
  all_or_nothing s2 s' i r2 claim target t ans res -> all_or_nothing s s' i r claim target t ans res.
Proof.
  intros [I _ El Cm] Hinv Hr E2.
  assert (Hcm : committed_unsettled s2 s' i r2 -> committed_unsettled s s' i r).
  { intros Hc x Hx. destruct (Hc x Hx) as [E|E]; [left; congruence|by apply Cm]. }
  destruct res as [a|e].
  - intros [Hcl ? ? Hev ? Hco]. split; try done.
    + by rewrite <- (claim_ok_lease s s2 r r2).
    + eapply announced_mono; [by apply (in_grows _ _ I)|reflexivity|done].
    + rewrite (in_auto _ _ I) in Hco. destruct (auto_commit s); auto.
  - intros [(x & Hx & Ex) Hc]. split; [exists x; split; [done|congruence]|auto].
Qed.

(** A computation that only takes notes, followed by a settlement. *)
Lemma notes_then {A} s i r (m : DB A) (f : A -> DB AgentRun) claim target t ans :
  store_inv s -> runs (pending s) !! i = Some r -> is_terminal (row_status r) = false ->
  preserves (note_step i) m ->
  (forall s2 r2 a, store_inv s2 -> runs (pending s2) !! i = Some r2 -> is_terminal (row_status r2) = false ->
     let '(s', res) := f a s2 in all_or_nothing s2 s' i r2 claim target t ans res) ->
  let '(s', res) := (bind m f) s in all_or_nothing s s' i r claim target t ans res.
Proof.
  intros Hinv Hr Ho Hm Hf. unfold bind. specialize (Hm s). destruct (m s) as [s2 [a|e]]; cbn [fst] in Hm;
    pose proof Hm as [I Hl _ Hc]; destruct (in_safe _ _ I Hinv) as [Hinv2 _]; destruct (Hl r Hr) as (r2 & Hr2 & E2);
    assert (Ho2 : is_terminal (row_status r2) = false) by (injection E2 as -> _ _; done).
  - specialize (Hf s2 r2 a Hinv2 Hr2 Ho2). destruct (f a s2) as [s' res]. by eapply after_notes.
  - split; [by exists r2|]. by apply Hc.
Qed.

Lemma pick_target {W R} (m : W * R) (l : list RunStatus) (Q : RunStatus -> W -> R -> Prop) t :
  t ∈ l -> (let '(s', res) := m in Q t s' res) -> let '(s', res) := m in exists x, x ∈ l /\ Q x s' res.
Proof. destruct m. eauto. Qed.

Lemma complete_all_or_nothing s i r output st c :
  store_inv s -> runs (pending s) !! i = Some r -> is_terminal (row_status r) = false -> is_terminal st = true ->
  let '(s', res) := complete i output st c s in
  exists target, target ∈ [st; FAILED] /\
    all_or_nothing s s' i r c target (announcement (Completing output st) target)
      (leaves_answer (Completing output st)) res.
Proof.
  intros Hinv Hr Ho Ht. unfold complete, leaves_answer. case_decide as Hf.
  { subst st. pose proof (fail_all_or_nothing s i r Hinv Hr Ho
      (if String.eqb output "" then "run_failed_during_completion" else output) (settlement_failure c)) as Hfail.
    destruct (fail _ _ _ s) as [s' res]. exists FAILED. split; [set_solver|].
    rewrite bool_decide_eq_true_2, andb_false_r by done. exact Hfail. }
  rewrite bool_decide_eq_false_2, andb_true_r by done.
  rewrite (bind_eq_ok _ _ s s r) by (unfold require_run, get_run, gets, bind; by rewrite Hr).
  rewrite Ho. unfold bind at 1, get.
  pose proof (fun s r Hinv Hr Ho => completed_all_or_nothing s i r Hinv Hr Ho output st c Ht Hf) as Hdone.
  assert (Ha : announcement (Completing output st) st = "run.completed") by (by destruct st).
  destruct (guarantee_chantier_record_for_run (pending s) r output) as [[|m|message cls]|e].
  - rewrite lift_ok_bind. specialize (Hdone s r Hinv Hr Ho). destruct (settle_completed _ _ _ _ s) as [s' res].
    exists st. split; [set_solver|]. by rewrite Ha.
  - rewrite lift_ok_bind. apply (pick_target _ _ (fun t s' res => all_or_nothing s s' i r c t (announcement (Completing output st) t) (negb (String.eqb output "")) res) st); [set_solver|]. rewrite Ha.
    apply (notes_then s i r); [done..|apply note_update_metadata|intros s1 r1 _ Hinv1 Hr1 Ho1].
    apply (notes_then s1 i r1); [done..|by apply note_append_event|intros s2 r2 _ Hinv2 Hr2 Ho2].
    by apply (Hdone s2 r2).
  - rewrite lift_ok_bind. apply (pick_target _ _ (fun t s' res => all_or_nothing s s' i r c t (announcement (Completing output st) t) (negb (String.eqb output "")) res) FAILED); [set_solver|].
    apply (notes_then s i r); [done..|apply note_update_metadata|intros s1 r1 _ Hinv1 Hr1 Ho1].
    apply (notes_then s1 i r1); [done..|by apply note_append_event|intros s2 r2 _ Hinv2 Hr2 Ho2].
    match goal with |- context [fail i ?e ?k] =>
      pose proof (fail_all_or_nothing s2 i r2 Hinv2 Hr2 Ho2 e k) as Hfail; destruct (fail i e k s2) as [s' res] end.
    destruct res as [a|e]; [|done]. destruct Hfail as [? ? ? ? Hfin ?]. split; try done. by intros _; apply Hfin.
  - exists st. split; [set_solver|]. apply (still_open s i r Hinv Hr Ho); [done|reflexivity|by right].
Qed.

(** C7. A settlement is all or nothing.  Whatever worker settles an open run, by
    completing, failing or cancelling it, under a claim or without: either the call
    returns, and then the claim was current, the run has the settled status, its
    announcement is a new event of the run, and the final answer is among its
    artifacts where one was given, all of it committed if the session commits its
    calls, and otherwise none of it before the caller commits; or the call raises,
    because the claim was lost, the transition refused or the continuation could not
    be queued, and then the run keeps its status, attempt and holder. *)
Theorem settlement_all_or_nothing (s : store) (i : Z) (r : run_row) (x : settlement)
    (c : option ExecutionClaim) :
  store_inv s -> runs (pending s) !! i = Some r -> is_terminal (row_status r) = false ->
  Forall (fun t => is_terminal t = true) (targets x) ->
  let '(s', res) := settle x i c s in
  exists target, target ∈ targets x /\
    all_or_nothing s s' i r c target (announcement x target) (leaves_answer x) res.
Proof.
  intros Hinv Hr Ho Ht. destruct x as [output st|error k|reason]; simpl in *.
  - apply complete_all_or_nothing; try done. by apply Forall_cons in Ht as [].
  - apply (pick_target _ _ (fun t s' res => all_or_nothing s s' i r c t (announcement (Failing error k) t) _ res) FAILED);
      [set_solver|]. exact (fail_all_or_nothing s i r Hinv Hr Ho error (with_claim c k)).
  - apply (pick_target _ _ (fun t s' res => all_or_nothing s s' i r c t (announcement (Canceling reason) t) _ res) CANCELED);
      [set_solver|]. exact (cancel_all_or_nothing s i r Hinv Hr Ho reason c).
Qed.

(** ** A failure can always be recorded *)

Lemma prepare_ok s i r :
  runs (pending s) !! i = Some r -> is_terminal (row_status r) = false ->
  exists s1, locked (set_committed (pending s) s) s1 /\ _prepare_terminal_write i s = (s1, Ok r).
Proof.
  intros Hr Ho. unfold _prepare_terminal_write.
  rewrite (bind_eq_ok _ _ s s r) by (unfold require_run, get_run, gets, bind; by rewrite Hr).
  rewrite Ho. rewrite (bind_eq_ok _ _ s (set_committed (pending s) s) tt) by done.
  unfold lock_terminal_boundary.
  edestruct acquire_spec as (s1 & ids & E & Hl & Hin). rewrite (bind_eq_ok _ _ _ _ _ E). exists s1.
  split; [done|]. destruct (locked_fields _ _ Hl) as (Ep & _ & Ed & _). unfold bind, get.
  replace (bool_decide _ && _) with false; [apply refresh_run_ok; by rewrite Ep|].
  symmetry. apply andb_false_iff. destruct (bool_decide (dialect s1 = Postgresql)) eqn:Hd; [right|by left].
  bool_simpl. apply negb_false_iff, bool_decide_eq_true, Hin; [by rewrite <- Ed|]. split; [set_solver|].
  split; [by exists r|done].
Qed.

Lemma publish_returns row o s : o <> "" ->
  exists s', publish_final_output row o s = (s', Ok tt) /\ runs (pending s') = runs (pending s).
Proof.
  intros Ho. unfold publish_final_output.
  destruct (append_final_answer_ok (run_id row) o (root_run_id (spec row)) s Ho) as (s1 & art & E1 & [_ Q1 _] & _).
  rewrite (bind_eq_ok _ _ _ _ _ E1).
  match goal with |- exists s', ?m s1 = _ /\ _ => assert (Hq : quiet (run_id row) m) end.
  { apply quiet_bind; [apply quiet_gets|]. intros delta. apply quiet_when, quiet_bind.
    - by apply (quiet_append_event (run_event (run_id row) _ _ _ _)).
    - intros. apply quiet_ret. }
  destruct (Hq s1) as (s2 & [] & E2 & [_ Q2 _]). exists s2. split; [done|congruence].
Qed.

(** After the row is settled only its answer and its announcement are written before
    the continuation is queued, which decides the rest. *)
Lemma finish_returns {A} i row o ev (a : A) s :
  e_sequence_no ev = None -> (forall s, is_ok (queue_chantier_continuation_for_terminal_run i s).2 = true) ->
  exists s1, runs (pending s1) = runs (pending s) /\
  (when_ (negb (String.eqb o "")) (publish_final_output row o) ;;;
   append_event ev ;;; _queue_chantier_continuation i ;;; ret a) s =
  ((queue_chantier_continuation_for_terminal_run i s1).1, Ok a).
Proof.
  intros He Hq.
  assert (H1' : exists s1, when_ (negb (String.eqb o "")) (publish_final_output row o) s = (s1, Ok tt) /\
                           runs (pending s1) = runs (pending s)).
  { destruct (String.eqb_spec o "") as [->|Hne]; [by exists s|]. by apply publish_returns. }
  destruct H1' as (s1 & E1 & R1). rewrite (bind_eq_ok _ _ _ _ _ E1).
  destruct (append_event_ok ev s1 He) as (s2 & E2 & W & _). rewrite (bind_eq_ok _ _ _ _ _ E2).
  exists s2. split; [by rewrite (wr_pending _ _ _ W)|].
  unfold _queue_chantier_continuation. specialize (Hq s2).
  destruct (queue_chantier_continuation_for_terminal_run i s2) as [s3 [o3|e]] eqn:E3; [|done].
  by rewrite (bind_eq_ok _ _ _ _ _ E3).
Qed.

Lemma decide_settles s r target k :
  row_wf r -> runs (pending s) !! run_id r = Some r -> is_terminal (row_status r) = false ->
  is_terminal target = true -> target <> COMPLETED -> plain_kwargs k -> claim_ok s r (sk_claim k) = true ->
  (forall c, sk_claim k = Some c -> claim_token c <> "") ->
  decide_status s r (Member target) k = Accepted (row_status r) target.
Proof.
  intros Hwf Hr Ho Ht Hc (K1 & K2 & K3 & _) Hk Htok. unfold decide_status. rewrite Hk, Ho. cbn [negb].
  pose proof (open_row_value r Hwf Ho) as Hv.
  assert (He : ensure_run_transition (Raw (status r)) (Member target) (sk_allow_requeue k) =
               Ok (row_status r, target)).
  { rewrite Hv. revert Ho. by destruct (row_status r), target, (sk_allow_requeue k). }
  rewrite He, decide_False by (intros E; rewrite E in Ho; congruence). rewrite Hr.
  replace (forallb _ _) with true; [done|]. symmetry. unfold status_predicates. rewrite K1, K2, K3. simpl.
  rewrite <- Hv, String.eqb_refl. destruct (sk_claim k) as [c|]; [|done]. specialize (Htok c eq_refl).
  simpl in Hk. unfold claim_is_current in Hk. bool_simpl. simpl.
  destruct (execution_token r) as [tok|]; simpl in *; [|by subst; destruct Htok].
  destruct (String.eqb tok "") eqn:Et; bool_simpl; subst; [congruence|].
  rewrite String.eqb_refl, H7, Z.eqb_refl. done.
Qed.

Lemma failure_of_pending row error k s s' :
  pending s' = pending s -> (failure_of row error k s').2 = (failure_of row error k s).2.
Proof.
  intros E. unfold failure_of, resolve_category, run_tool_execution_started.
  destruct (fk_classified_failure k); [done|]. unfold bind, gets, ret.
  destruct (run_requires_durable_preservation _); simpl; by rewrite ?E.
Qed.

(** Recording a failure on an open run whose claim is in order. *)
Lemma fail_run_ok s r cat stage reason exc c :
  row_wf r -> runs (pending s) !! run_id r = Some r -> root_present s r -> is_terminal (row_status r) = false ->
  claim_ok s r c = true -> (forall x, c = Some x -> claim_token x <> "") ->
  exists s' a, fail_run (run_id r) cat stage reason exc c s = (s', Ok a) /\ ar_status a = FAILED /\
    runs (pending s') !! run_id r = Some (ar_row a) /\ status (ar_row a) = value FAILED /\
    metadata_ (ar_row a) = jset "failure" (JObj (failure_entry cat stage exc)) (metadata_ r) /\
    execution_token (ar_row a) = None /\ failed_at (ar_row a) = Some (now s).
Proof.
  intros Hwf Hr Hroot Ho Hc Htok. unfold fail_run, fail_run_with_result. cbn [sk_claim].
  set (k := with_metadata (jset "failure" (JObj (failure_entry cat stage exc)) (metadata_ r))
              (without_requeue (keyword_args reason c))).
  destruct (locked_run_ok s (run_id r) None r Hr eq_refl Hroot (or_introl eq_refl)) as (s1 & Hl & E1).
  destruct (locked_fields _ _ Hl) as (Ep & _ & _ & _ & En & _).
  assert (Hd : decide_status s1 r (Member FAILED) k = Accepted (row_status r) FAILED).
  { apply decide_settles; try done; [by rewrite Ep|]. cbn. by rewrite (claim_ok_locked s s1). }
  destruct (set_status_accepted s1 r (Member FAILED) k (row_status r) FAILED Hwf ltac:(by rewrite Ep) Hd)
    as (s2 & a & r' & E2 & Ea & Eas & Er & Ev & _ & _ & Ht & Hstamp & _ & _ & _ & Hm & _); [constructor|].
  exists s2, a. split.
  { unfold bind at 1. unfold bind at 1.
    assert (Ecl : check_claim_lost (run_id r) c s = (s, Ok tt)).
    { destruct c as [c|]; [|done]. simpl in Hc. apply andb_true_iff in Hc as [Hc _].
      apply negb_true_iff in Hc. unfold check_claim_lost, bind, get. by rewrite Hc. }
    rewrite Ecl. rewrite (bind_eq_ok _ _ _ _ _ E1). cbv zeta.
    match goal with |- context [_set_status_on_locked_run r (Member FAILED) ?k' s1] => change k' with k end.
    by rewrite E2. }
  rewrite Ea, Er, lookup_insert_eq. split_and!; try done. specialize (Hstamp ltac:(set_solver)). simpl in Hstamp. by rewrite <- En.
Qed.

(** ** The kind of a failure *)

(** The text or the class of the error speaks of a credential, or of the provider. *)
Definition credential_error (error : string) (exc : option exception_type) : Prop :=
  (exists c, exc = Some c /\ is_credential_expired c = true) \/ startswith "credential_expired:" error = true.
Definition upstream_error (error : string) : Prop :=
  is_transient_transport_disconnect error = true \/ exists kind, provider_error_kind error = Some kind /\ kind <> "".
Definition none_given (k : fail_kwargs) : Prop :=
  fk_failure_category k = Absent \/ fk_failure_category k = Raw "".

(** The category the caller gives, by member or by name, or the one the error has. *)
Inductive base_category (error : string) (k : fail_kwargs) : RunFailureCategory -> Prop :=
| BaseGiven c : fk_failure_category k = Member c -> base_category error k c
| BaseNamed n c : fk_failure_category k = Raw n -> n <> "" -> lower (strip n) = value c -> base_category error k c
| BaseUnknown n : fk_failure_category k = Raw n -> n <> "" -> (forall c : RunFailureCategory, lower (strip n) <> value c) ->
    base_category error k CAT_INTERNAL
| BaseCredential : none_given k -> credential_error error (fk_exception_type k) ->
    base_category error k CAT_CREDENTIAL_EXPIRED
| BaseUpstream : none_given k -> ~ credential_error error (fk_exception_type k) -> upstream_error error ->
    base_category error k CAT_UPSTREAM
| BaseInternal : none_given k -> ~ credential_error error (fk_exception_type k) -> ~ upstream_error error ->
    base_category error k CAT_INTERNAL.

(** An internal failure of a run whose envelope asked for durable preservation, before
    any tool of it started and in a stage that precedes the tools, is one of the
    preservation's setup; a failure classified by the recipe stays as it is. *)
Definition preservation_setup (s : store) (r : run_row) (k : fail_kwargs) : Prop :=
  run_requires_durable_preservation (metadata_ r) = true /\
  tool_execution_started (run_id r) (pending s) = false /\
  fk_failure_stage k ∈ [RUNNER_EXECUTION; PROJECT_CONTEXT_MATERIALIZATION; RECIPE_EXECUTION; AGENT_EXECUTION].

Inductive failure_kind (s : store) (r : run_row) (error : string) (k : fail_kwargs)
    : RunFailureCategory -> RunFailureStage -> Prop :=
| KindClassified c : fk_classified_failure k = Some c -> failure_kind s r error k (cf_category c) (cf_stage c)
| KindPreservation : fk_classified_failure k = None -> base_category error k CAT_INTERNAL ->
    preservation_setup s r k -> failure_kind s r error k CAT_PRESERVATION_SETUP (fk_failure_stage k)
| KindPlain c : fk_classified_failure k = None -> base_category error k c ->
    (c = CAT_INTERNAL -> ~ preservation_setup s r k) -> failure_kind s r error k c (fk_failure_stage k).

Lemma base_category_of error k :
  base_category error k (coerce_failure_category
    match fk_failure_category k with
    | Absent | Raw "" => Member (failure_category_for_error error (fk_exception_type k))
    | c => c
    end).
Proof.
  assert (Hn : none_given k -> base_category error k (failure_category_for_error error (fk_exception_type k))).
  { intros Hn. unfold failure_category_for_error.
    destruct (_ || startswith _ _) eqn:Hc.
    - apply BaseCredential; [done|]. apply orb_true_iff in Hc as [Hc|Hc]; [left|by right].
      destruct (fk_exception_type k) as [c|]; [by exists c|done].
    - assert (Hno : ~ credential_error error (fk_exception_type k)).
      { apply orb_false_iff in Hc as [H1' H2']. intros [(c & E & Hc)|Hc]; [rewrite E in H1'|]; congruence. }
      destruct (is_transient_transport_disconnect error || _) eqn:Hu.
      + apply BaseUpstream; [done..|]. apply orb_true_iff in Hu as [Hu|Hu]; [by left|right].
        destruct (provider_error_kind error) as [[|b kind]|]; try done. by eexists.
      + apply BaseInternal; [done..|]. apply orb_false_iff in Hu as [H1' H2'].
        intros [Hu|(kind & E & Hk)]; [congruence|]. rewrite E in H2'. by destruct kind. }
  destruct (fk_failure_category k) as [c|[|b n]|] eqn:Ek; cbn [coerce_failure_category].
  - by apply BaseGiven.
  - apply Hn. by right.
  - destruct (first_member _ members) as [c|] eqn:Ef; cbn [default from_option id].
    + apply first_member_sound in Ef as [_ Ef]. by eapply BaseNamed.
    + eapply BaseUnknown; [exact Ek|done|]. intros c. eapply (first_member_none _ members c Ef); destruct c; set_solver.
  - apply Hn. by left.
Qed.

Lemma failure_kind_of row error k s category stage s' :
  failure_of row error k s = (s', Ok (category, stage)) -> failure_kind s row error k category stage.
Proof.
  unfold failure_of. destruct (fk_classified_failure k) as [c|] eqn:Hk; [intros [= _ <- <-]; by apply KindClassified|].
  pose proof (base_category_of error k) as Hb. cbv zeta. set (base := coerce_failure_category _) in *.
  clearbody base. unfold resolve_category, run_tool_execution_started, failure_category_for_run_context, bind, gets, ret.
  cbn [coerce_failure_category].
  assert (Hk' : forall x, failure_kind s row error k
    (if bool_decide (base = CAT_INTERNAL) && run_requires_durable_preservation (metadata_ row) && negb x &&
        bool_decide (fk_failure_stage k ∈ _PRE_TOOL_PRESERVATION_FAILURE_STAGES)
     then CAT_PRESERVATION_SETUP else base) (fk_failure_stage k) \/
    x <> tool_execution_started (run_id row) (pending s) /\ run_requires_durable_preservation (metadata_ row) = true).
  { intros x. destruct (decide (x = tool_execution_started (run_id row) (pending s))) as [Hx|Hx].
    - left. destruct (bool_decide _ && _ && _ && _) eqn:Hc.
      + rewrite !andb_true_iff, !bool_decide_eq_true in Hc. destruct Hc as [[[-> Hp] Hno%negb_true_iff] Hst].
        apply KindPreservation; [done..|]. split_and!; [done|congruence|done].
      + apply KindPlain; [done..|]. intros -> (P1 & P2 & P3). rewrite P1, Hx, P2 in Hc. cbn in Hc.
        by apply bool_decide_eq_false in Hc.
    - destruct (run_requires_durable_preservation (metadata_ row)) eqn:Hp; [by right|left].
      rewrite andb_false_r. cbn. apply KindPlain; [done..|]. intros -> (P1 & _). congruence. }
  destruct (run_requires_durable_preservation (metadata_ row)); intros [= _ <- <-].
  - by destruct (Hk' (tool_execution_started (run_id row) (pending s))) as [?|[? ?]].
  - by destruct (Hk' false) as [?|[? ?]].
Qed.

(** What the envelope of a failure says.  A producer that names no stage is recorded as
    an internal failure of the settlement. *)
Record failure_record (category : RunFailureCategory) (stage : RunFailureStage) (exc : option exception_type)
    (d : dict) : Prop := {
  fr_category : jget "category" d =
    Some (JStr (value (if decide (stage = STAGE_UNKNOWN) then CAT_INTERNAL else category)));
  fr_stage : jget "stage" d =
    Some (JStr (value (if decide (stage = STAGE_UNKNOWN) then RUNNER_SETTLEMENT else stage)));
  fr_class : forall e, stage <> STAGE_UNKNOWN -> exc = Some e ->
    (module_level (exc_module e) (exc_name e) = Some e -> jget "exception_class" d = Some (JStr (exc_name e))) /\
    (module_level (exc_module e) (exc_name e) <> Some e -> jget "exception_class" d = None);
}.

Lemma failure_entry_says category stage exc : failure_record category stage exc (failure_entry category stage exc).
Proof.
  unfold failure_entry, run_failure_metadata, failure_diagnostic_metadata.
  destruct (decide (stage = STAGE_UNKNOWN)) as [->|Hs].
  - rewrite decide_False by done. by split.
  - split; [by rewrite decide_False..|]. intros e _ ->. by case_decide.
Qed.

(** C40. A failure can always be recorded: on an open run whose worker holds the
    current claim, or that nobody claims to work on, failing it returns, provided the
    continuation of its fan-out does.  The run's row is then FAILED, stamped and held
    by nobody, and carries the envelope of the category and the stage the failure has:
    the ones the recipe classified it with, or the category the caller named or the
    error speaks of, which becomes one of the preservation's setup where an internal
    failure precedes every tool of a run that asked to be preserved.  What the store
    holds afterwards is what queueing the continuation makes of that row and of the
    run's answer and announcement, and it is committed if the session commits its
    calls. *)
Theorem failure_recorded (s : store) (i : Z) (r : run_row) (error : string) (k : fail_kwargs) :
  store_inv s -> runs (pending s) !! i = Some r -> root_present s r -> is_terminal (row_status r) = false ->
  claim_ok s r (fk_execution_claim k) = true -> (forall c, fk_execution_claim k = Some c -> claim_token c <> "") ->
  (forall s, is_ok (queue_chantier_continuation_for_terminal_run i s).2 = true) ->
  exists s1 s' a r' category stage d,
    fail i error k s = (s', Ok a) /\
    runs (pending s1) !! i = Some r' /\ ar_row a = r' /\ ar_status a = FAILED /\ status r' = value FAILED /\
    execution_token r' = None /\ failed_at r' = Some (now s) /\
    metadata_ r' = jset "failure" (JObj d) (metadata_ r) /\
    failure_kind s r error k category stage /\ failure_record category stage (fk_exception_type k) d /\
    pending s' = pending (queue_chantier_continuation_for_terminal_run i s1).1 /\
    settled_as s s' i r (fk_execution_claim k) FAILED "run.failed" (leaves_answer (Failing error k)) a.
Proof.
  intros Hinv Hr Hroot Ho Hc Htok Hq.
  destruct (wf_ids _ (inv_pending _ Hinv) _ _ Hr) as [Hid _].
  pose proof (wf_rows _ (inv_pending _ Hinv) _ _ Hr) as Hwf.
  pose proof (fail_all_or_nothing s i r Hinv Hr Ho error k) as Hset.
  unfold fail in *. destruct (prepare_ok s i r Hr Ho) as (s1 & Hl & E).
  rewrite (bind_eq_ok _ _ _ _ _ E), atomic_eq, Ho in Hset |- *.
  destruct (locked_fields _ _ Hl) as (Ep & _ & _ & _ & En & _ & _ & Elc). cbn in Ep, En, Elc.
  set (s1' := set_auto_commit false s1) in *.
  destruct (failure_of_eq r error k s1') as ([category stage] & Ef).
  assert (Hkind : failure_kind s r error k category stage).
  { apply failure_kind_of with s. pose proof (failure_of_pending r error k s s1' Ep) as Hp.
    destruct (failure_of_eq r error k s) as (cs & Es). rewrite Ef, Es in Hp. rewrite Es. by injection Hp as <-. }
  rewrite (bind_eq_ok _ _ _ _ _ Ef) in Hset |- *. cbv zeta in Hset |- *.
  destruct (error_text_rewritten i error s1') as (text & Et). rewrite (bind_eq_ok _ _ _ _ _ Et) in Hset |- *.
  destruct (fail_run_ok s1' r category stage (Some text) (fk_exception_type k) (fk_execution_claim k))
    as (s2 & a & E2 & Ha & Hrow & Hval & Hm & Ht & Hf); try done.
  { cbn. rewrite Ep, Hid. done. }
  { unfold root_present. cbn. by rewrite Ep. }
  { destruct (fk_execution_claim k) as [c|]; [|done]. unfold claim_ok, claim_lost in *. cbn. by rewrite Elc. }
  rewrite Hid in E2, Hrow. rewrite (bind_eq_ok _ _ _ _ _ E2), Ha in Hset |- *.
  change (bool_decide (FAILED = FAILED)) with true in *. cbn [negb] in Hset |- *.
  revert Hset. match goal with |- context [publish_final_output r ?o] => set (output := o) end.
  match goal with |- context [append_event ?e] =>
    destruct (finish_returns i r output e a s2 eq_refl Hq) as (s3 & R3 & E3) end.
  rewrite E3. intros Hset. eexists s3, _, a, (ar_row a), category, stage, _. split; [reflexivity|].
  rewrite R3. split_and!; try done; [by rewrite Hf; cbn; rewrite En|apply failure_entry_says|by destruct (auto_commit s1)].
Qed.
End settlement.
(** ** Instances *)

Definition demo_claim : ExecutionClaim := {| claim_of := 1; claim_token := "token"; claim_attempt := 1 |}.
Definition demo_stale : ExecutionClaim := {| claim_of := 1; claim_token := "old"; claim_attempt := 0 |}.
Definition demo_failure : fail_kwargs :=
  {| fk_final_output := Some "It broke."; fk_failure_category := Absent; fk_failure_stage := AGENT_EXECUTION;
     fk_classified_failure := None; fk_exception_type := None; fk_execution_claim := Some demo_claim |}.
Definition demo_settle (c : ExecutionClaim) : store * result AgentRun :=
  @settle demo_platform demo_taxonomy demo_credentials demo_collaborators (Failing "boom" demo_failure) 1 (Some c)
    demo_session.

Lemma settlement_all_or_nothing_witness :
  is_ok (demo_settle demo_claim).2 = true /\
  exists a, (demo_settle demo_claim).2 = Ok a /\
    settled_as demo_session (demo_settle demo_claim).1 1 demo_running (Some demo_claim) FAILED "run.failed" true a.
Proof.
  assert (Hok : is_ok (demo_settle demo_claim).2 = true) by (vm_compute; reflexivity).
  split; [exact Hok|].
  pose proof (@settlement_all_or_nothing demo_platform demo_taxonomy demo_credentials demo_collaborators
    demo_collaborator_laws demo_session 1 demo_running (Failing "boom" demo_failure) (Some demo_claim)
    demo_session_inv eq_refl eq_refl ltac:(by repeat constructor)) as Hall.
  fold (demo_settle demo_claim) in Hall. rewrite (surjective_pairing (demo_settle demo_claim)) in Hall.
  destruct Hall as (t & Ht & Hall). apply list_elem_of_singleton in Ht as ->.
  destruct ((demo_settle demo_claim).2) as [a|e]; [|discriminate]. exists a. split; [reflexivity|exact Hall].
Defined.

Lemma failure_recorded_witness :
  exists s' a r', @fail demo_platform demo_taxonomy demo_credentials demo_collaborators 1 "boom" demo_failure
      demo_session = (s', Ok a) /\ ar_status a = FAILED /\ ar_row a = r' /\ execution_token r' = None.
Proof.
  destruct (@failure_recorded demo_platform demo_taxonomy demo_credentials demo_collaborators
    demo_collaborator_laws demo_session 1 demo_running "boom" demo_failure)
    as (s1 & s' & a & r' & c & g & d & E & _ & Er & Ha & _ & Ht & _).
  - apply demo_session_inv.
  - reflexivity.
  - exists demo_running. reflexivity.
  - reflexivity.
  - reflexivity.
  - intros c [= <-]. discriminate.
  - reflexivity.
  - exists s', a, r'. split; [exact E|]. split; [exact Ha|]. split; [exact Er|exact Ht].
Defined.
