(* ===== verification/EngineRuns.v ===== *)
(** Whole runs of the engine: settled runs are not executed again, a lease ends with
    its holder, and a start that failed is retried only before any tool ran. *)
From Stdlib Require Import Ascii.
From S2P Require Import Prelude.
From S2P Require Import PyStr.
From S2P Require Import Json.
From S2P Require Import Status.
From S2P Require Import Failures.
From S2P Require Import RunLease.
From S2P Require Import RunStore.
From S2P Require Import RunCreate.
From S2P Require Import RunLifecycle.
From S2P Require Import RunMessages.
From S2P Require Import RunEvolution.
From S2P Require Import RunOutcome.
From S2P Require Import RunDemo.
From S2P Require Import RunTransitions.
From S2P Require Import RunInterruption.
From S2P Require Import RunEngine.
From S2P Require Import EngineTheorems.
From S2P Require Import EngineSettlement.
Open Scope string_scope.
Open Scope bool_scope.
Open Scope list_scope.

(** * Pieces of an answer *)

(** The chunks of a text, put together, are the text; none is empty or too long. *)
Theorem chunks_roundtrip (size : nat) (text : string) : 0 < size ->
  foldr String.append "" (_chunks text size) = text /\
  Forall (fun c => 0 < String.length c <= size) (_chunks text size).
Proof.
  intros Hs. unfold _chunks. destruct size as [|n]; [lia|]. clear Hs.
  assert (Hf : forall fuel text, String.length text <= fuel ->
    foldr String.append "" (chunks_of fuel (S n) text) = text /\
    Forall (fun c => 0 < String.length c <= S n) (chunks_of fuel (S n) text)).
  { intros fuel. induction fuel as [|fuel IH]; intros [|a s] Hl; cbn [chunks_of foldr]; try done;
      [simpl in Hl; lia|].
    destruct (IH (str_drop (S n) (String a s))) as [E F].
    { pose proof (str_drop_shorter n a s). simpl in Hl. lia. }
    split; [rewrite E; apply str_take_drop|]. constructor; [|done].
    split; [simpl; lia|apply str_take_length]. }
  by apply Hf.
Qed.

Section runs.
Context `{Platform} `{ProviderErrorTaxonomy} `{CredentialErrors} `{Collaborators} `{!CollaboratorLaws}.
Context {task : Type}.
Abbreviation world := (engine_world (task := task)).

(** * Running *)

Section engine.
Context (engine : AsyncAgentRunEngine (task := task)).

(** A settled run is not executed again: the engine answers with the run as it
    is, without calling a recipe; nothing is published or scheduled, and the tables
    stay as they were. *)
Theorem settled_run_not_executed (others : DB unit) (polls rounds : nat) (i : Z) (token : string)
    (w : world) (r : run_row) :
  runs (pending (eng_store w)) !! i = Some r -> is_terminal (row_status r) = true ->
  let '(w', res) := run_existing engine others polls rounds i token w in
  res = to_domain r /\ eng_stream w' = eng_stream w /\ eng_scheduled w' = eng_scheduled w /\
  eng_inbox w' = eng_inbox w /\ pending (eng_store w') = pending (eng_store w) /\
  committed (eng_store w') = pending (eng_store w).
Proof.
  intros Hr Ht. set (s1 := set_committed (pending (eng_store w)) (eng_store w)).
  assert (El : execution_lease_round i token false s1 = (set_pending (committed s1) s1, Ok LeaseNone)).
  { unfold execution_lease_round. rewrite (bind_eq_ok _ _ _ _ _ (refresh_run_ok s1 i r Hr)). by rewrite Ht. }
  assert (Ea : acquire_lease others polls rounds i token false s1 = (set_pending (committed s1) s1, Ok None)).
  { destruct rounds; simpl; by rewrite (bind_eq_ok _ _ _ _ _ El). }
  assert (Er : refresh_run i (set_pending (committed s1) s1) = (set_pending (committed s1) s1, Ok r)).
  { by apply refresh_run_ok. }
  unfold run_existing, execution_lease, catch, bind, db_call, ret, commit, modify, lift_result.
  cbn [fst snd eng_store set_store]. fold s1. rewrite Ea. cbn [fst snd eng_store set_store]. rewrite Er.
  cbn [fst snd]. destruct (to_domain r) as [a|e] eqn:Ed; [by split_and!|].
  unfold to_domain in Ed. destruct (first_member (profile (spec r)) members);
    [destruct (first_member (recipe (spec r)) members); [done|]|]; injection Ed as <-; by split_and!.
Qed.

(** ** The lease *)

Lemma committed_pending s : committed (commit s).1 = pending (commit s).1.
Proof. done. Qed.

(** A granted lease is committed: the run's row carries the token and the attempt. *)
Record granted (s : store) (c : ExecutionClaim) : Prop := {
  gr_row : exists r, runs (committed s) !! claim_of c = Some r /\
             execution_token r = Some (claim_token c) /\ execution_attempt r = claim_attempt c;
}.

Lemma transaction_granted s row token s' c :
  _try_acquire_execution_claim_transaction row token s = (s', Ok (Some c)) -> granted s' c.
Proof.
  intros E. unfold _try_acquire_execution_claim_transaction in E.
  apply bind_ok in E as (s1 & r & E1 & E). destruct (locked_run_inv _ _ _ _ _ E1) as [Hl Hr].
  cbv zeta in E. destruct (is_terminal (row_status r)); [by injection E|].
  unfold bind at 1, get in E. apply bind_ok in E as (s2 & b & E2 & E).
  destruct b; cbn [negb] in E; [|by apply bind_ok in E as (? & ? & ? & [=])].
  match type of E with (append_events ?l ;;; _) _ = _ =>
    destruct (append_events_ok l s2) as (s3 & E3 & W3); [repeat case_decide; repeat constructor|] end.
  rewrite (bind_eq_ok _ _ _ _ _ E3) in E. clear E3.
  match type of E with (append_event ?ev ;;; _) _ = _ =>
    destruct (append_event_ok ev s3 eq_refl) as (s4 & E4 & W4 & _) end.
  rewrite (bind_eq_ok _ _ _ _ _ E4) in E. clear E4. injection E as <- <-.
  unfold update_run, bind, get in E2. destruct (runs (pending s1) !! run_id r) as [x|] eqn:Hx; [|done].
  destruct (forallb _ _); [|done]. injection E2 as <-. split.
  eexists. cbn [committed set_committed claim_of claim_token claim_attempt].
  rewrite (wr_pending _ _ _ W4). cbn [add_event runs]. rewrite (wr_pending _ _ _ W3), add_events_runs.
  cbn. rewrite lookup_insert_eq. split; [reflexivity|]. by destruct x.
Qed.

Lemma try_acquire_granted row token s s' c :
  _try_acquire_execution_claim row token s = (s', Ok (Some c)) -> granted s' c.
Proof.
  unfold _try_acquire_execution_claim, bind at 1, get. intros E.
  rewrite (bind_eq_ok _ _ s (set_auto_commit false s) tt) in E by done.
  unfold catch, bind, modify, lift_result, ret in E.
  destruct (_try_acquire_execution_claim_transaction row token (set_auto_commit false s)) as [s1 [o|e]] eqn:Et;
    injection E as <- E; [|done]. subst o.
  destruct (transaction_granted _ _ _ _ _ Et) as [Hg]. by split.
Qed.

Lemma round_granted i token b s s' c :
  execution_lease_round i token b s = (s', Ok (LeaseClaim c)) -> granted s' c.
Proof.
  unfold execution_lease_round. intros E. apply bind_ok in E as (s1 & row & _ & E).
  destruct (is_terminal (row_status row)); [by apply bind_ok in E as (? & ? & ? & [=])|].
  destruct (_ && _ && _); [by apply bind_ok in E as (? & ? & ? & [=])|].
  apply bind_ok in E as (s2 & [c'|] & E2 & [= <- <-]). by eapply try_acquire_granted.
Qed.

Lemma lease_granted others polls i token c : forall rounds b s s',
  acquire_lease others polls rounds i token b s = (s', Ok (Some c)) -> granted s' c.
Proof.
  intros rounds. induction rounds as [|n IH]; intros b s s' E; simpl in E;
    apply bind_ok in E as (s1 & [|c'|] & E1 & E); try (injection E as <- <-; by eapply round_granted); try done;
    apply bind_ok in E as (s2 & again & E2 & E); destruct again; cbn [negb] in E; try done. by eapply IH.
Qed.

(** Releasing ends the attempt: afterwards it does not hold the run. *)
Definition attempt_over (c : ExecutionClaim) (d : db) : Prop :=
  forall r, runs d !! claim_of c = Some r -> execution_attempt r = claim_attempt c -> execution_token r = None.

Lemma release_over c s :
  (forall r, runs (pending s) !! claim_of c = Some r -> execution_attempt r = claim_attempt c ->
     execution_token r = Some (claim_token c) \/ execution_token r = None) ->
  exists s', _release_execution_claim c s = (s', Ok tt) /\ attempt_over c (committed s').
Proof.
  intros Hheld. unfold _release_execution_claim, update_run, bind, get, ret, commit, modify.
  destruct (runs (pending s) !! claim_of c) as [r|] eqn:Hr.
  - cbn [forallb]. destruct (sql_eq_str _ _ && _) eqn:Hm.
    + eexists. split; [reflexivity|]. intros x. cbn. rewrite lookup_insert_eq. intros [= <-] _. by destruct r.
    + eexists. split; [reflexivity|]. intros x Hx Ha. cbn in Hx. rewrite Hr in Hx. injection Hx as <-.
      destruct (Hheld r eq_refl Ha) as [Ht|Ht]; [|done].
      rewrite Ht, Ha in Hm. cbn in Hm. by rewrite String.eqb_refl, Z.eqb_refl in Hm.
  - eexists. split; [reflexivity|]. intros x Hx. cbn in Hx. congruence.
Qed.

Lemma lease_ends {A} (others : DB unit) (polls rounds : nat) (i : Z) (token : string)
    (body : option ExecutionClaim -> M world A) (w : world) s1 c :
  store_inv (eng_store w) -> safe others -> (forall x, preserves runtime_step (body x)) ->
  acquire_lease others polls rounds i token false (commit (eng_store w)).1 = (s1, Ok (Some c)) ->
  attempt_over c (committed (eng_store (execution_lease others polls rounds i token body w).1)).
Proof.
  intros Hinv Ho Hb E.
  pose proof (safe_acquire_lease others polls rounds i token false Ho (commit (eng_store w)).1) as Hs1.
  rewrite E in Hs1. cbn [fst] in Hs1. destruct (Hs1 (proj1 (safe_commit (eng_store w) Hinv))) as [Hinv1 _].
  destruct (lease_granted _ _ _ _ _ _ _ _ _ E) as [(r & Hr & Ht & Ha)].
  set (w1 := set_store s1 w). pose proof (Hb (Some c) w1) as Hbody. unfold runtime_step in Hbody.
  destruct (body (Some c) w1) as [w2 res] eqn:Eb. cbn [fst eng_store set_store w1] in Hbody.
  destruct (Hbody Hinv1) as [Hinv2 Hev].
  (* the state the release sees: committed or rolled back *)
  set (s3 := if is_ok res then (commit (eng_store w2)).1 else (rollback (eng_store w2)).1).
  assert (Hp : forall x, runs (pending s3) !! claim_of c = Some x -> execution_attempt x = claim_attempt c ->
             execution_token x = Some (claim_token c) \/ execution_token x = None).
  { intros x Hx Hax. assert (He : db_evolves (committed s1) (pending s3)).
    { unfold s3. destruct (is_ok res); cbn; [|done]. etrans; [exact Hev|apply (inv_evolves _ Hinv2)]. }
    destruct (ev_runs _ _ He _ _ Hr) as (x' & Hx' & Hrow). assert (x' = x) as -> by congruence.
    destruct (ev_token _ _ Hrow) as [Et|Et]; [congruence|left; congruence|by right]. }
  destruct (release_over c s3 Hp) as (s4 & E4 & Hover).
  unfold execution_lease, catch, bind, db_call, ret, when_, lift_result, commit, modify.
  cbn [fst snd eng_store set_store]. unfold commit, modify in E. cbn [fst] in E. rewrite E.
  cbn [fst snd eng_store set_store].
  change (set_store s1 (set_store (set_committed (pending (eng_store w)) (eng_store w)) w)) with w1.
  rewrite Eb. unfold s3, commit, rollback, modify in E4. cbn [fst snd] in E4.
  destruct res as [a|e]; cbn [is_ok] in E4; cbn; rewrite E4; exact Hover.
Qed.

(** C8. A lease ends with its holder: however a run of the engine ends, by returning,
    by an exception of the recipe or by losing its claim, the attempt it was granted
    holds the run no more. *)
Theorem lease_released `{!EngineLaws engine} (others : DB unit) (polls rounds : nat) (i : Z) (token : string)
    (w : world) (s1 : store) (c : ExecutionClaim) :
  store_inv (eng_store w) -> safe others ->
  acquire_lease others polls rounds i token false (commit (eng_store w)).1 = (s1, Ok (Some c)) ->
  attempt_over c (committed (eng_store (run_existing engine others polls rounds i token w).1)).
Proof.
  intros Hinv Ho E. unfold run_existing.
  set (body := fun claim : option ExecutionClaim => _).
  pose proof (lease_ends others polls rounds i token body w s1 c Hinv Ho (sound_body engine i) E) as Hover.
  set (same := fun w w' : world => committed (eng_store w') = committed (eng_store w)).
  assert (Hpre : PreOrder same) by (split; [done|intros x y z; unfold same; congruence]).
  assert (Hfin : forall (m : M world AgentRun) x, preserves same m ->
    attempt_over c (committed (eng_store x)) -> attempt_over c (committed (eng_store (m x).1))).
  { intros m x Hm. by rewrite (Hm x). }
  unfold bind at 1, catch. destruct (execution_lease _ _ _ _ _ body w) as [w2 [[a l]|e]]; cbn [fst snd] in *.
  - apply (Hfin (for_each (schedule i) l ;;; ret a) w2); [|done]. frame_by ltac:(by intros x).
  - destruct (is_claim_lost e); [|done].
    apply (Hfin (x <- (db_call rollback ;;; a <- (row <- db_call (refresh_run i) ;; lift_result (to_domain row)) ;;
                       ret (a, [])) ;; for_each (schedule i) x.2 ;;; ret x.1) w2); [|done].
    frame_by ltac:(first [by intros x | intros x; unfold same, db_call, refresh_run, bind, get;
      cbn; by destruct (runs _ !! i)]).
Qed.
End engine.

(** ** Failed starts *)

Lemma retry_diagnostic stage exc d :
  agent_start_retry_diagnostic_metadata module_level stage exc = Ok (Some d) ->
  stage = AGENT_EXECUTION /\
  exists e, exc = Some e /\ exc_name e = "ConnectError" /\ module_level (exc_module e) (exc_name e) = Some e.
Proof.
  unfold agent_start_retry_diagnostic_metadata. case_decide as Hs; [|done]. subst stage.
  unfold failure_diagnostic_metadata. rewrite decide_False by done. destruct exc as [e|]; [|done].
  case_decide as Hm; [|done]. unfold _exception_class_projection. cbn.
  destruct (String.eqb (exc_name e) "") eqn:Hn; [done|]. rewrite Hm.
  destruct (String.eqb_spec (exc_name e) "ConnectError") as [E|]; [|done]. intros _. eauto.
Qed.

(** The conditions of a retry, read off the tables: the agent could not connect, as the
    exception class its module really holds says, no tool of any attempt started, and
    the worker's claim is the current one of its run. *)
Record may_retry (s : store) (i : Z) (stage : RunFailureStage) (exc : option exception_type)
    (c : option ExecutionClaim) : Prop := {
  mr_stage : stage = AGENT_EXECUTION;
  mr_exception : exists e, exc = Some e /\ exc_name e = "ConnectError" /\
                   module_level (exc_module e) (exc_name e) = Some e;
  mr_tools : tool_execution_started i (pending s) = false;
  mr_claim : forall x, c = Some x ->
    claim_lost x s = false /\ exists r, runs (pending s) !! claim_of x = Some r /\ claim_is_current x r = true;
}.

(** The run is where it was, every row of the table is, and what is committed is what
    the worker had written before. *)
Definition left_alone (s s' : store) : Prop :=
  runs (pending s') = runs (pending s) /\
  (runs (committed s') = runs (pending s) \/ runs (committed s') = runs (committed s)).

Lemma retry_metadata e :
  exc_name e = "ConnectError" -> module_level (exc_module e) (exc_name e) = Some e ->
  exists d, agent_start_retry_diagnostic_metadata module_level AGENT_EXECUTION (Some e) = Ok (Some d).
Proof.
  intros Hn Hm. unfold agent_start_retry_diagnostic_metadata, failure_diagnostic_metadata.
  rewrite decide_True, decide_False by done. cbv iota. rewrite decide_True by done.
  unfold _exception_class_projection. cbn. rewrite Hn in *. cbn. rewrite Hm. cbn. by eexists.
Qed.

Lemma put_back_rows s s' x x' r a :
  put_back s s' r a -> runs (pending x) = runs (pending s) -> runs (pending x') = runs (pending s') ->
  put_back x x' r a.
Proof. intros [? ? ? ? ? ? ?] E E'. split; try done. congruence. Qed.

Lemma put_back_domain s s' r a :
  row_wf r -> put_back s s' r a ->
  exists a', to_domain (ar_row a) = Ok a' /\ ar_row a' = ar_row a /\ put_back s s' r a'.
Proof.
  intros [_ [p Hp] [q Hq] _ _] [R _ V T A S C]. unfold to_domain. rewrite S, Hp, Hq.
  eexists. split; [reflexivity|]. by split.
Qed.

(** The check of the worker's claim, whose lock was just taken. *)
Lemma check_held c s :
  let check := match c with Some x => assert_execution_claim x ;;; ret tt | None => ret tt end in
  (exists e x, check s = (s, Err e) /\ c = Some x /\
     forall r, runs (pending s) !! claim_of x = Some r -> claim_lost x s || negb (claim_is_current x r) = true) \/
  check s = (s, Ok tt) /\ forall x, c = Some x ->
    claim_lost x s = false /\ exists r, runs (pending s) !! claim_of x = Some r /\ claim_is_current x r = true.
Proof.
  destruct c as [x|]; [|by right]. cbv zeta. unfold assert_execution_claim, refresh_run, bind, get, ret, raise.
  destruct (runs (pending s) !! claim_of x) as [r|] eqn:Hx.
  - destruct (claim_lost x s || negb (claim_is_current x r)) eqn:Hcur.
    + left. eexists _, x. split_and!; [reflexivity|done|]. intros r'. by rewrite Hx; intros [= <-].
    + right. split; [done|]. intros ? [= <-]. bool_simpl. split; [done|]. by exists r.
  - left. eexists _, x. split_and!; [reflexivity|done|]. intros r'. by rewrite Hx.
Qed.

(** C17. A start is retried only before any tool ran.  The call answers with the run
    exactly when its agent could not connect, recognised by the exception class its
    module really holds, the worker's claim is still current, the history of the run,
    over all its attempts, holds no event of a tool, and the run is one an
    interruption moves.  It is then back in the queue, or EXPIRED if it was
    interrupted too often, with the same attempt, one interruption more and without a
    holder, committed if the session commits its calls.  In every other case, whether
    the call answers that it does nothing or raises, no row of any run changes. *)
Theorem start_retry_only_before_tools (s : store) (i : Z) (r : run_row) (stage : RunFailureStage)
    (exc : option exception_type) (c : option ExecutionClaim) :
  store_inv s -> runs (pending s) !! i = Some r -> is_terminal (row_status r) = false ->
  root_present s r -> anchor_present s r ->
  let '(s', res) := _retry_agent_start_failure i stage exc c s in
  ((exists a, res = Ok (Some a)) <-> may_retry s i stage exc c /\ interruptible r = true) /\
  match res with
  | Ok (Some a) => put_back s s' r a /\ (auto_commit s = true -> committed s' = pending s')
  | _ => left_alone s s'
  end.
Proof.
  intros Hinv Hr Ho Hroot Hpar. destruct (wf_ids _ (inv_pending _ Hinv) _ _ Hr) as [Hid _].
  pose proof (wf_rows _ (inv_pending _ Hinv) _ _ Hr) as Hwf.
  unfold _retry_agent_start_failure.
  assert (Hrefuse : forall s' (res : result (option AgentRun)), left_alone s s' -> (forall a, res <> Ok (Some a)) ->
    ~ (may_retry s i stage exc c /\ interruptible r = true) ->
    ((exists a, res = Ok (Some a)) <-> may_retry s i stage exc c /\ interruptible r = true) /\
    match res with Ok (Some a) => put_back s s' r a /\ (auto_commit s = true -> committed s' = pending s')
                 | _ => left_alone s s' end).
  { intros s' res Hl Hn Hno. split; [split; [by intros [a Ha%Hn]|done]|].
    destruct res as [[a|]|e]; [by destruct (Hn a)|done..]. }
  assert (Hstay : left_alone s s) by (split; auto).
  destruct (agent_start_retry_diagnostic_metadata module_level stage exc) as [[d|]|e] eqn:Hd.
  2-3: assert (Hno : ~ (may_retry s i stage exc c /\ interruptible r = true))
         by (intros [[-> (x & -> & Hn & Hm) _ _] _]; destruct (retry_metadata x Hn Hm) as [d' Hd']; congruence).
  2: by rewrite lift_ok_bind; apply Hrefuse.
  2: by apply (Hrefuse s (Err e)).
  rewrite lift_ok_bind. apply retry_diagnostic in Hd as [Hst Hexc].
  destruct (prepare_ok s i r Hr Ho) as (s1 & Hl & E). rewrite (bind_eq_ok _ _ _ _ _ E), atomic_eq, Ho.
  destruct (locked_fields _ _ Hl) as (Ep & Ec & _ & _ & _ & Ea & _ & El). cbn in Ep, Ec, Ea, El.
  set (s1' := set_auto_commit false s1).
  assert (Hdone : forall b (x : store), runs (pending x) = runs (pending s) -> runs (committed x) = runs (pending s) ->
    left_alone s (set_auto_commit b x)) by (intros b x P C; split; [exact P|by left]).
  destruct (check_held c s1') as [(e & x & Ee & -> & Hno)|[Ee Hcl]].
  { rewrite (bind_eq_err _ _ _ _ _ Ee). apply (Hrefuse _ (Err e)); [by apply Hdone; cbn; rewrite Ec|done|].
    intros [[_ _ _ Hcl] _]. destruct (Hcl x eq_refl) as (Hlost & r' & Hr' & Hcur).
    specialize (Hno r'). unfold claim_lost in *. cbn in Hno. rewrite Ep, El, Hlost, Hcur in Hno. by specialize (Hno Hr'). }
  rewrite (bind_eq_ok _ _ _ _ _ Ee). unfold run_tool_execution_started, bind at 1, gets.
  change (pending s1') with (pending s1). rewrite Ep.
  destruct (tool_execution_started i (pending s)) eqn:Htool.
  { unfold ret. apply (Hrefuse _ (Ok None)); [|done|by intros [[_ _ Ht _] _]; congruence].
    destruct (auto_commit s1); apply Hdone; cbn; by rewrite ?Ep, ?Ec. }
  assert (Hmay : may_retry s i stage exc c).
  { split; try done. intros x Hx. destruct (Hcl x Hx) as (Hlost & r' & Hr' & Hcur).
    unfold claim_lost in *. cbn in Hr', Hlost. rewrite Ep in Hr'. rewrite El in Hlost. eauto. }
  destruct (interruption_outcome s1' r "agent_start_connect_error" None (Some [("failure", JObj d)]))
    as (s2 & a & E2 & Ec2 & Hout); try done; [by cbn; rewrite Ep, Hid|by unfold root_present; cbn; rewrite Ep|
      by unfold anchor_present; cbn; rewrite Ep|by cbn; rewrite Ep, Ec|].
  rewrite Hid in E2. unfold interrupt_and_requeue_run. cbn in Ec2. rewrite Ep in Ec2.
  destruct (interruptible r) eqn:Hint.
  - destruct (put_back_domain s1' s2 r a Hwf Hout) as (a' & Hdom & Har & Hout').
    assert (Hrow : runs (pending s2) !! i = Some (ar_row a)).
    { rewrite (pb_row _ _ _ _ Hout), Hid. apply lookup_insert_eq. }
    assert (Eb : (interruption <- interrupt_and_requeue i "agent_start_connect_error" None (Some [("failure", JObj d)]) ;;
                  ret (if interruption.2 then Some interruption.1 else None)) s1' = (s2, Ok (Some a))).
    { by rewrite (bind_eq_ok _ _ _ _ _ E2). }
    rewrite (bind_eq_ok _ _ _ _ _ Eb).
    rewrite (bind_eq_ok _ _ s2 s2 (ar_row a)) by (unfold require_run, get_run, gets, bind; by rewrite Hrow).
    rewrite Hdom, lift_ok_bind. unfold ret. split; [split; [done|by intros _; exists a']|].
    split; [|by rewrite Ea; intros ->]. apply (put_back_rows s1' s2); [done|by rewrite <- Ep|by destruct (auto_commit s1)].
  - rewrite (bind_eq_ok _ _ s1' s2 None) by (by rewrite (bind_eq_ok _ _ _ _ _ E2)).
    unfold ret. apply (Hrefuse _ (Ok None)); [|done|by intros [_ ?]].
    destruct (auto_commit s1); apply Hdone; cbn; rewrite ?Hout, ?Ec2; cbn; by rewrite ?Ep.
Qed.
End runs.

(** ** Instances *)

(** A platform whose module table knows the class of connection errors. *)
Definition connect_error : exception_type := {| exc_name := "ConnectError"; exc_module := "httpx" |}.
Definition demo_httpx : Platform :=
  {| sha256_hex s := "sha256:" +:+ s; isoformat := str_of_Z; fromisoformat := int_of_str;
     module_level m n := if String.eqb m "httpx" && String.eqb n "ConnectError" then Some connect_error else None;
     env_deadline_seconds := "900"; env_max_interruption_requeues := "3" |}.

Definition demo_world (s : store) : engine_world (task := nat) :=
  {| eng_store := s; eng_stream := {| has_sink := true; published := [] |}; eng_inbox := ∅; eng_scheduled := [] |}.

(** The run of the demonstration engine on a queued run. *)
Definition demo_run (s : store) (i : Z) : engine_world (task := nat) * result AgentRun :=
  @run_existing demo_platform demo_taxonomy demo_credentials demo_collaborators nat
    demo_engine (ret tt) 3 3 i "lease" (demo_world s).

Example demo_run_completes :
  (fun a => value (ar_status a)) <$> (demo_run demo_session 2).2 = Ok "completed".
Proof. vm_compute. reflexivity. Qed.

Definition demo_settled : run_row := demo_row 4 COMPLETED [] None 2 40.
Definition demo_settled_session : store := demo_store true (demo_db [demo_settled] []).

Lemma settled_run_not_executed_witness :
  eng_stream (demo_run demo_settled_session 4).1 = {| has_sink := true; published := [] |}.
Proof.
  pose proof (@settled_run_not_executed demo_platform demo_taxonomy demo_credentials demo_collaborators
    nat demo_engine (ret tt) 3 3 4 "lease" (demo_world demo_settled_session) demo_settled
    eq_refl eq_refl) as Hs.
  fold (demo_run demo_settled_session 4) in Hs. rewrite (surjective_pairing (demo_run demo_settled_session 4)) in Hs.
  exact (proj1 (proj2 Hs)).
Defined.

Lemma lease_released_witness :
  exists c, attempt_over c (committed (eng_store (demo_run demo_session 2).1)) /\ claim_of c = 2%Z.
Proof.
  destruct (acquire_lease (ret tt) 3 3 2 "lease" false (commit (eng_store (demo_world demo_session))).1)
    as [s1 [[c|]|e]] eqn:E; [|vm_compute in E; discriminate..].
  exists c. split; [|vm_compute in E; injection E as _ <-; reflexivity].
  apply (@lease_released demo_platform demo_taxonomy demo_credentials demo_collaborators demo_collaborator_laws
    nat demo_engine (@demo_engine_laws demo_platform) (ret tt) 3 3 2 "lease" (demo_world demo_session) s1 c).
  - apply demo_session_inv.
  - apply safe_ret.
  - exact E.
Defined.

Definition demo_retry : store * result (option AgentRun) :=
  @_retry_agent_start_failure demo_httpx demo_taxonomy 1 AGENT_EXECUTION (Some connect_error) (Some demo_claim)
    demo_session.

Example demo_retry_queued :
  match demo_retry.2 with Ok (Some a) => status (ar_row a) | _ => "" end = "queued".
Proof. vm_compute. reflexivity. Qed.

Lemma start_retry_only_before_tools_witness :
  exists a, demo_retry.2 = Ok (Some a) /\ @put_back demo_httpx demo_session demo_retry.1 demo_running a /\
    status (ar_row a) = "queued" /\ committed demo_retry.1 = pending demo_retry.1.
Proof.
  pose proof (@start_retry_only_before_tools demo_httpx demo_taxonomy demo_collaborators
    demo_collaborator_laws demo_session 1 demo_running AGENT_EXECUTION
    (Some connect_error) (Some demo_claim) demo_session_inv eq_refl eq_refl ltac:(by eexists) ltac:(by eexists)) as Hr.
  fold demo_retry in Hr. rewrite (surjective_pairing demo_retry) in Hr. destruct Hr as [_ Hr].
  pose proof demo_retry_queued as Hs. destruct (demo_retry.2) as [[a|]|e]; [|discriminate Hs..]. exists a. destruct Hr as [Hput Hcommit].
  split; [reflexivity|]. split; [exact Hput|]. split; [|apply Hcommit; reflexivity].
  exact Hs.
Defined.
