(* ===== verification/EvidenceHealth.v ===== *)
(** Evidence of worker fan-outs, [brain/systems/runs/evidence_health.py]: the
    receipt a parent run keeps of the workers that failed it, and how it is brought
    up to date. *)
From Stdlib Require Import Ascii.
From S2P Require Import Prelude.
From S2P Require Import PyStr.
From S2P Require Import Json.
From S2P Require Import Status.
From S2P Require Import Failures.
From S2P Require Import RunStore.
From S2P Require Import RunCreate.
From S2P Require Import RunLifecycle.
From S2P Require Import RunMessages.
Open Scope string_scope.
Open Scope bool_scope.
Open Scope list_scope.

Definition _FAILURE_PAYLOAD_KEYS : list string :=
  ["kind"; "tool"; "child_run_id"; "worker_run_id"; "worker_role"; "shard"; "repo"; "stage";
   "status"; "error"; "configuration_error"; "provider"; "credential"; "failure_category"].
Definition _RECEIPT_PAYLOAD_KEYS : list string :=
  ["status"; "completeness"; "failures"; "failure_identities"; "failure_count";
   "missing_shards"; "worker_shards"].

Abbreviation FailureIdentity := (option Z * string * string * option string)%type.

(** * Reading JSON *)

(** [for _ in x or []]; what cannot be iterated raises [TypeError]. *)
Definition py_iter (j : json) : result (list json) :=
  if negb (truthy j) then Ok []
  else match j with
       | JList l => Ok l
       | JObj d => Ok (JStr <$> d.*1)
       | JStr s => Ok ((fun c => JStr (String c "")) <$> String.list_ascii_of_string s)
       | _ => Err (TypeError "object is not iterable")
       end.

Definition _text (j : json) : option string :=
  let normalized := strip (str_or_empty j) in
  if String.eqb normalized "" then None else Some normalized.

Definition _run_id (j : json) : option Z :=
  match j with JNull | JStr "" => None | _ => py_int j end.

Definition _unique_text (l : list json) : list string := fromkeys (omap _text l).

Definition _failure_identity (j : json) : option FailureIdentity :=
  match j with
  | JList [r; shard; stage; configuration_error] =>
      match _text shard, _text stage with
      | Some shard, Some stage => Some (_run_id r, shard, stage, _text configuration_error)
      | _, _ => None
      end
  | _ => None
  end.

(** [{k: v for k, v in d.items() if k not in keys}]. *)
Definition without_keys (keys : list string) (d : dict) : dict :=
  filter (fun kv => str_in kv.1 keys = false) d.

(** [None] becomes [null]. *)
Definition opt_str (t : option string) : json := match t with Some t => JStr t | None => JNull end.
Definition opt_int (z : option Z) : json := match z with Some z => JInt z | None => JNull end.

(** [if value is not None: payload[key] = value]. *)
Definition jset_opt (k : string) (t : option string) (d : dict) : dict :=
  match t with Some t => jset k (JStr t) d | None => d end.

(** * Shards *)

Definition shard_keys : list string := ["worker_shard"; "shard"; "repo"; "name"; "source"; "resource_id"].

(** [f"worker-{id or 'unknown'}"]. *)
Definition worker_label (id : option Z) : string :=
  "worker-" +:+ match id with
                | Some z => if Z.eqb z 0 then "unknown" else str_of_Z z
                | None => "unknown"
                end.

(** The first text in the order of the sources and, in each, of the keys. *)
Definition first_text (sources : list dict) : option string :=
  head (sources ≫= fun source => omap (fun key => _text (jget_or_null key source)) shard_keys).

Definition opt_or {A} (a b : option A) : option A := match a with Some _ => a | None => b end.

Definition worker_evidence_shard (worker : run_row) (resource : dict) : string :=
  let metadata := metadata_ worker in
  let assignment := as_dict (jget_or_null "worker_assignment" metadata) in
  let assignment_metadata := as_dict (jget_or_null "metadata" assignment) in
  let allowed := match jget_or_null "allowed_resources" assignment with
                 | JList [r] => _text r
                 | _ => None
                 end in
  default (worker_label (Some (run_id worker)))
    (opt_or (first_text [resource; metadata; assignment_metadata; assignment])
    (opt_or allowed
    (opt_or (_text (jget_or_null "id" assignment))
    (opt_or (_text (jget_or_null "parent_node_id" metadata))
            (_text (jget_or_null "worker_role" metadata)))))).

(** * Failures *)

Record WorkerEvidenceFailure : Type := {
  wf_shard : string;
  wf_stage : string;
  wf_error : option string;
  wf_worker_run_id : option Z;
  wf_worker_role : string;
  wf_status : option string;
  wf_configuration_error : option string;
  wf_provider : option string;
  wf_credential : option string;
  wf_failure_category : option string;
  wf_details : dict;
}.

Definition identity (f : WorkerEvidenceFailure) : FailureIdentity :=
  (wf_worker_run_id f, wf_shard f, wf_stage f, wf_configuration_error f).

Definition failure_from_payload (payload : dict) : WorkerEvidenceFailure :=
  let get k := jget_or_null k payload in
  let worker_run_id := _run_id (jor (get "worker_run_id") (get "child_run_id")) in
  {| wf_worker_run_id := worker_run_id;
     wf_worker_role := default "worker" (_text (get "worker_role"));
     wf_shard := default (worker_label worker_run_id) (_text (jor (get "shard") (get "repo")));
     wf_stage := default "worker_execution" (_text (get "stage"));
     wf_status := _text (get "status");
     wf_configuration_error := _text (get "configuration_error");
     wf_provider := _text (get "provider");
     wf_credential := _text (get "credential");
     wf_error := Some (default "Worker evidence is unavailable." (_text (get "error")));
     wf_failure_category := _text (get "failure_category");
     wf_details := without_keys _FAILURE_PAYLOAD_KEYS payload |}.

Definition for_admission (worker_role shard : string)
    (configuration_error provider credential : option string) (error : string) : WorkerEvidenceFailure :=
  {| wf_worker_run_id := None; wf_worker_role := worker_role; wf_shard := shard;
     wf_stage := "worker_admission"; wf_status := Some "auth_blocked";
     wf_configuration_error := configuration_error; wf_provider := provider;
     wf_credential := credential; wf_error := Some error; wf_failure_category := None;
     wf_details := [] |}.

Definition from_terminal_worker (worker : run_row) : option WorkerEvidenceFailure :=
  let status := coerce_run_status (Raw (status worker)) QUEUED in
  if bool_decide (status = COMPLETED) || negb (is_terminal status) then None
  else
    let category := _text (jget_or_null "category" (as_dict (jget_or_null "failure" (metadata_ worker)))) in
    Some {| wf_worker_run_id := Some (run_id worker);
            wf_worker_role := default "worker" (_text (jget_or_null "worker_role" (metadata_ worker)));
            wf_shard := worker_evidence_shard worker [];
            wf_stage := "worker_execution"; wf_status := Some (value status);
            wf_configuration_error := None; wf_provider := None; wf_credential := None;
            wf_error := safe_terminal_run_message (Member status)
                          (match category with Some c => Raw c | None => Absent end);
            wf_failure_category := category; wf_details := [] |}.

Definition failure_to_payload (f : WorkerEvidenceFailure) : dict :=
  let payload := jset "tool" (JStr "spawn_worker") (jset "kind" (JStr "worker_tool_failure") (wf_details f)) in
  let payload := match wf_worker_run_id f with
                 | Some id => jset "worker_run_id" (JInt id) (jset "child_run_id" (JInt id) payload)
                 | None => payload
                 end in
  let payload := jupdate payload
    [("worker_role", JStr (wf_worker_role f)); ("shard", JStr (wf_shard f)); ("stage", JStr (wf_stage f))] in
  let payload := jset_opt "credential" (wf_credential f) (jset_opt "provider" (wf_provider f)
    (jset_opt "configuration_error" (wf_configuration_error f) (jset_opt "status" (wf_status f) payload))) in
  jset_opt "failure_category" (wf_failure_category f) (jset "error" (opt_str (wf_error f)) payload).

(** * Receipts *)

Record WorkerEvidenceReceipt : Type := {
  wr_status : option string;
  wr_completeness : option string;
  wr_failures : list WorkerEvidenceFailure;
  wr_failure_identities : list FailureIdentity;
  wr_worker_shards : list string;
  wr_details : dict;
}.

(** The identities of the failures and those stored beside them, each once. *)
Definition identities (failures : list WorkerEvidenceFailure) (stored : list FailureIdentity)
    : list FailureIdentity :=
  fromkeys ((identity <$> failures) ++ stored).

Definition receipt_from_payload (payload : json) : result WorkerEvidenceReceipt :=
  let source := as_dict payload in
  let get k := jget_or_null k source in
  items ← py_iter (get "failures");
  let failures := failure_from_payload <$> omap (fun j => match j with JObj d => Some d | _ => None end) items in
  stored ← py_iter (get "failure_identities");
  shards ← py_iter (get "worker_shards");
  Ok {| wr_status := _text (get "status"); wr_completeness := _text (get "completeness");
        wr_failures := failures;
        wr_failure_identities := identities failures (omap _failure_identity stored);
        wr_worker_shards := _unique_text shards;
        wr_details := without_keys _RECEIPT_PAYLOAD_KEYS source |}.

Definition missing_shards (r : WorkerEvidenceReceipt) : list string :=
  take 20 (_unique_text ((fun f => JStr (wf_shard f)) <$> wr_failures r)).

Definition degraded (r : WorkerEvidenceReceipt) : bool :=
  bool_decide (wr_status r = Some "degraded") || negb (Nat.eqb (length (wr_failures r)) 0).

(** The failures of [l] that are new beside [ids]. *)
Fixpoint new_failures (ids : list FailureIdentity) (l : list WorkerEvidenceFailure)
    : list WorkerEvidenceFailure :=
  match l with
  | [] => []
  | f :: l' => if decide (identity f ∈ ids) then new_failures ids l'
               else f :: new_failures (identity f :: ids) l'
  end.

Definition with_failures (r : WorkerEvidenceReceipt) (failures : list WorkerEvidenceFailure)
    : WorkerEvidenceReceipt * list WorkerEvidenceFailure :=
  let canonical := identities (wr_failures r) (wr_failure_identities r) in
  let added := new_failures canonical failures in
  ({| wr_status := Some "degraded"; wr_completeness := Some "unavailable";
      wr_failures := wr_failures r ++ added;
      wr_failure_identities := canonical ++ (identity <$> added);
      wr_worker_shards := wr_worker_shards r; wr_details := wr_details r |}, added).

Definition completed (r : WorkerEvidenceReceipt) (worker_shards : list string) : WorkerEvidenceReceipt :=
  if degraded r || bool_decide (wr_status r = Some "pending") then r
  else {| wr_status := Some "ok"; wr_completeness := Some "complete"; wr_failures := wr_failures r;
          wr_failure_identities := wr_failure_identities r;
          wr_worker_shards := take 20 (_unique_text (JStr <$> worker_shards));
          wr_details := wr_details r |}.

Definition identity_payload (i : FailureIdentity) : json :=
  let '(r, shard, stage, configuration_error) := i in
  JList [opt_int r; JStr shard; JStr stage; opt_str configuration_error].

Definition receipt_to_payload (r : WorkerEvidenceReceipt) : dict :=
  let ids := identities (wr_failures r) (wr_failure_identities r) in
  let payload := jset_opt "completeness" (wr_completeness r) (jset_opt "status" (wr_status r) (wr_details r)) in
  let payload := match wr_failures r with
    | [] => payload
    | _ => jset "missing_shards" (JList (JStr <$> missing_shards r))
             (jset "failure_count" (JInt (Z.of_nat (length ids)))
               (jset "failures" (JList ((fun f => JObj (failure_to_payload f)) <$> take 20 (wr_failures r))) payload))
    end in
  let payload := if Nat.ltb (Nat.min (length (wr_failures r)) 20) (length ids)
    then jset "failure_identities" (JList (identity_payload <$> ids)) payload else payload in
  match wr_worker_shards r with
  | [] => payload
  | shards => jset "worker_shards" (JList (JStr <$> shards)) payload
  end.

Definition worker_evidence_receipt_for_run (run : run_row) : result WorkerEvidenceReceipt :=
  receipt_from_payload (jget_or_null "evidence_health" (metadata_ run)).

(** * Materialization failures *)

(** What the code reads of the result of a materialization. *)
Record materialization_result : Type := {
  mr_errors : list json;
  mr_warnings : list json;
  mr_failed_resources : list json;
  mr_degraded_resources : list json;
}.

Definition mappings (l : list json) : list dict :=
  omap (fun j => match j with JObj d => Some d | _ => None end) l.

Definition materialization_failure (worker : run_row) (errors : list string) (index : nat) (resource : dict)
    : WorkerEvidenceFailure :=
  let fallback := default (default "Project Context materialization failed." (head errors)) (errors !! index) in
  {| wf_worker_run_id := Some (run_id worker);
     wf_worker_role := default "worker" (_text (jget_or_null "worker_role" (metadata_ worker)));
     wf_shard := worker_evidence_shard worker resource;
     wf_stage := "project_context_materialization"; wf_status := None;
     wf_configuration_error := None; wf_provider := None; wf_credential := None;
     wf_error := Some (default fallback (_text (jget_or_null "error" resource)));
     wf_failure_category := None; wf_details := [] |}.

Definition materialization_failures_for_worker (worker : run_row) (result : materialization_result)
    : Prelude.result (list WorkerEvidenceFailure) :=
  let metadata := metadata_ worker in
  if match parent_run_id (spec worker) with
     | None => true
     | Some _ => negb (is_jbool true (jget_or_null "spawned_by_tool" metadata)
                       || py_eqb (jget_or_null "origin" metadata) (JStr "spawn_worker"))
     end
  then Ok []
  else
    let errors := py_str <$> filter (fun j => _text j <> None) (mr_errors result ++ mr_warnings result) in
    let failed := mappings (mr_failed_resources result ++ mr_degraded_resources result) in
    resources ← match failed with
      | [] => items ← py_iter (jget_or_null "resources"
                (as_dict (jget_or_null "project_context_snapshot" (target_ref (spec worker)))));
              Ok (match take 1 (mappings items) with [] => [[]] | l => l end)
      | _ => Ok failed
      end;
    Ok (imap (materialization_failure worker errors) resources).

(** * Persistence *)

(** [AsyncAgentRunStore(session)]: a store of its own over the session of the caller,
    which leaves the commit to it. *)
Definition own_store {A} (m : DB A) : DB A := fun s =>
  let r := m (set_auto_commit false s) in (set_auto_commit (auto_commit s) r.1, r.2).

Section persistence.
Context `{Platform} `{ProviderErrorTaxonomy}.

Definition _lock_cycle_run (parent_metadata : dict) : DB (option cycle_run) :=
  if py_eqb (jget_or_null "source" parent_metadata) (JStr "cycle")
  then match py_int (jget_or_null "cycle_run_id" parent_metadata) with
       | None => ret None
       | Some id =>
           s <- get ;;
           match cycle_runs (pending s) !! id with
           | Some c => when_ (bool_decide (dialect s = Postgresql)) (modify (log_locks [LockCycleRun id])) ;;;
                       ret (Some c)
           | None => ret None
           end
       end
  else ret None.

Definition set_cycle_run (c : cycle_run) : DB unit :=
  s <- get ;;
  put_db (with_cycle_runs (pending s) (<[cyc_id c := c]> (cycle_runs (pending s)))).

Definition worker_failed_event (parent : run_row) (f : WorkerEvidenceFailure) : AgentRunEvent :=
  run_event (run_id parent) "run.worker_failed" (failure_to_payload f)
    (Some (int_or (root_run_id (spec parent)) (run_id parent))) "spawn_worker".

(** The part behind the lock of the parent: receipts of parent and cycle run, then
    the events. *)
Definition update_receipts (parent : run_row) (failures : list WorkerEvidenceFailure)
    (completed_worker_shards : option (list string))
    : DB (WorkerEvidenceReceipt * list WorkerEvidenceFailure) :=
  receipt <- lift_result (worker_evidence_receipt_for_run parent) ;;
  let '(receipt, added) := match failures with
                           | [] => (receipt, [])
                           | _ => with_failures receipt failures
                           end in
  let receipt := match completed_worker_shards with
                 | Some shards => completed receipt shards
                 | None => receipt
                 end in
  let metadata := jset "evidence_health" (JObj (receipt_to_payload receipt)) (metadata_ parent) in
  flush_metadata parent metadata ;;;
  cycle <- _lock_cycle_run metadata ;;
  match cycle, failures with
  | Some c, _ :: _ =>
      cycle_receipt <- lift_result
        (receipt_from_payload (jget_or_null "evidence_health" (context_snapshot c))) ;;
      set_cycle_run {| cyc_id := cyc_id c; cyc_run_id := cyc_run_id c;
        context_snapshot := jset "evidence_health"
          (JObj (receipt_to_payload (with_failures cycle_receipt failures).1)) (context_snapshot c) |}
  | _, _ => ret tt
  end ;;;
  for_each (fun f => append_event (worker_failed_event parent f) ;;; ret tt) added ;;;
  ret (receipt, added).

Definition _persist_parent_evidence_receipt (parent : Z) (failures : list WorkerEvidenceFailure)
    (completed_worker_shards : option (list string))
    : DB (option WorkerEvidenceReceipt * list WorkerEvidenceFailure) :=
  match failures, completed_worker_shards with
  | [], None => ret (None, [])
  | _, _ => own_store (
      row <- lock_run parent ;;
      match row with
      | None => ret (None, [])
      | Some row =>
          r <- update_receipts row failures completed_worker_shards ;;
          ret (Some r.1, r.2)
      end)
  end.

Definition record_parent_evidence_failures (parent : Z) (failures : list WorkerEvidenceFailure)
    : DB (list WorkerEvidenceFailure) :=
  r <- _persist_parent_evidence_receipt parent failures None ;;
  ret r.2.

Definition record_terminal_worker_evidence (parent : Z) (workers : list run_row) (fanout_complete : bool)
    : DB (option WorkerEvidenceReceipt) :=
  r <- _persist_parent_evidence_receipt parent (omap from_terminal_worker workers)
         (if fanout_complete then Some ((fun w => worker_evidence_shard w []) <$> workers) else None) ;;
  ret r.1.
End persistence.
