(* ===== verification/EvidenceTheorems.v ===== *)
(** What the evidence receipts of [EvidenceHealth] promise: a receipt written and read
    again knows the same failures, each failure of a worker is reported by one event
    however often it is recorded, and a degraded receipt stays degraded. *)
From Stdlib Require Import Ascii.
From S2P Require Import Prelude.
From S2P Require Import PyStr.
From S2P Require Import Json.
From S2P Require Import JsonText.
From S2P Require Import Status.
From S2P Require Import Failures.
From S2P Require Import RunStore.
From S2P Require Import RunCreate.
From S2P Require Import RunLifecycle.
From S2P Require Import RunMessages.
From S2P Require Import RunEvolution.
From S2P Require Import RunOutcome.
From S2P Require Import RunDemo.
From S2P Require Import RunTransitions.
From S2P Require Import RunQueue.
From S2P Require Import RunMailbox.
From S2P Require Import EvidenceHealth.
Open Scope string_scope.
Open Scope bool_scope.
Open Scope list_scope.

(** * Texts that are read as they were written *)

Definition clean (t : string) : Prop := t <> "" /\ strip t = t.
Definition clean_opt (t : option string) : Prop := match t with Some t => clean t | None => True end.

Lemma text_clean j t : _text j = Some t -> clean t.
Proof.
  unfold _text. destruct (String.eqb _ "") eqn:E; [done|]. intros [= <-].
  apply String.eqb_neq in E. split; [done|apply strip_idem].
Qed.

Lemma clean_text t : clean t -> _text (JStr t) = Some t.
Proof.
  intros [Hne Hs]. unfold _text, str_or_empty. simpl.
  destruct t as [|a t]; [done|]. change (negb (String.eqb (String a t) "")) with true. cbn iota. simpl py_str.
  rewrite Hs. done.
Qed.

Lemma clean_opt_text t : clean_opt t -> _text (opt_str t) = t.
Proof. destruct t as [t|]; [apply clean_text|done]. Qed.

Lemma text_clean_opt j : clean_opt (_text j).
Proof. destruct (_text j) eqn:E; [by eapply text_clean|done]. Qed.

(** A text without white space. *)
Definition solid (t : string) : Prop :=
  Forall (fun a => is_space a = false) (String.list_ascii_of_string t).

Lemma solid_strip t : solid t -> strip t = t.
Proof.
  unfold solid, strip. intros Ht.
  assert (Hr : forall t, solid t -> rstrip t = t).
  { clear. unfold solid. induction t as [|a t IH]; simpl; [done|]. intros [Ha Ht]%Forall_cons.
    rewrite IH by done. destruct t as [|b t]; [by rewrite Ha|]. done. }
  assert (Hl : lstrip t = t).
  { destruct t as [|a t]; [done|]. simpl in *. apply Forall_cons in Ht as [Ha _]. by rewrite Ha. }
  rewrite Hl. by apply Hr.
Qed.

Lemma solid_app a b : solid a -> solid b -> solid (a +:+ b).
Proof.
  unfold solid. induction a as [|x a IH]; simpl; [done|]. intros [Hx Ha]%Forall_cons Hb.
  constructor; auto.
Qed.

Lemma solid_number z : solid (str_of_Z z).
Proof.
  unfold solid. eapply Forall_impl; [apply str_of_Z_digits|]. intros a Ha.
  by destruct a as [[] [] [] [] [] [] [] []].
Qed.

Lemma label_clean id : clean (worker_label id).
Proof.
  split; [done|]. apply solid_strip. unfold worker_label. apply solid_app; [by repeat constructor|].
  destruct id as [z|]; [destruct (Z.eqb z 0); [by repeat constructor|apply solid_number]|by repeat constructor].
Qed.

Lemma clean_default t j : clean t -> clean (default t (_text j)).
Proof. intros Ht. destruct (_text j) eqn:E; [by eapply text_clean|done]. Qed.

Lemma first_text_clean l : clean_opt (first_text l).
Proof.
  unfold first_text. destruct (head _) as [t|] eqn:E; [|done].
  apply head_Some_elem_of, list_elem_of_bind in E as (source & E & _).
  apply list_elem_of_omap in E as (key & _ & Et). by eapply text_clean.
Qed.

Lemma shard_clean w resource : clean (worker_evidence_shard w resource).
Proof.
  unfold worker_evidence_shard.
  assert (Hor : forall a b, clean_opt a -> clean_opt b -> clean_opt (opt_or a b)) by by intros [] ? ? ?.
  match goal with |- clean (default _ ?o) => assert (Ho : clean_opt o) end.
  { repeat apply Hor; try apply text_clean_opt; [apply first_text_clean|].
    by repeat case_match; try apply text_clean_opt. }
  destruct (opt_or _ _); [done|apply label_clean].
Qed.

(** * Failures and receipts that storage keeps *)

(** The extra keys of a payload are none of those the code writes. *)
Definition extra (keys : list string) (d : dict) : Prop := forall k, k ∈ keys -> jget k d = None.

Lemma without_extra keys d : extra keys (without_keys keys d).
Proof.
  intros k Hk. unfold without_keys. induction d as [|[k' v] d IH]; [done|].
  rewrite filter_cons. case_decide as Hd; [|done]. simpl. destruct (String.eqb k k') eqn:E; [|done].
  apply String.eqb_eq in E as <-. simpl in Hd. unfold str_in in Hd.
  exfalso. apply not_true_iff_false in Hd. apply Hd, existsb_exists. exists k.
  split; [by apply list_elem_of_In|apply String.eqb_refl].
Qed.

Record failure_wf (f : WorkerEvidenceFailure) : Prop := {
  fw_shard : clean (wf_shard f);
  fw_stage : clean (wf_stage f);
  fw_configuration : clean_opt (wf_configuration_error f);
  fw_extra : extra _FAILURE_PAYLOAD_KEYS (wf_details f);
}.

Definition identity_wf (i : FailureIdentity) : Prop :=
  let '(_, shard, stage, configuration_error) := i in
  clean shard /\ clean stage /\ clean_opt configuration_error.

Lemma failure_identity_wf f : failure_wf f -> identity_wf (identity f).
Proof. by intros []. Qed.

Lemma from_payload_wf d : failure_wf (failure_from_payload d).
Proof.
  split; simpl; [apply clean_default, label_clean|by apply clean_default|apply text_clean_opt|apply without_extra].
Qed.

Lemma parsed_identity_wf j i : _failure_identity j = Some i -> identity_wf i.
Proof.
  destruct j as [| | | |l|]; simpl; try done.
  destruct l as [|r [|shard [|stage [|conf [|]]]]]; try done.
  destruct (_text shard) eqn:E1; [|done]. destruct (_text stage) eqn:E2; [|done]. intros [= <-].
  simpl. split_and!; [by eapply text_clean..|apply text_clean_opt].
Qed.

Lemma run_id_opt r : _run_id (opt_int r) = r.
Proof. by destruct r. Qed.

Lemma identity_reads i : identity_wf i -> _failure_identity (identity_payload i) = Some i.
Proof.
  destruct i as [[[r shard] stage] conf]. intros (H1 & H2 & H3).
  change (_failure_identity (identity_payload (r, shard, stage, conf))) with
    (match _text (JStr shard), _text (JStr stage) with
     | Some shard, Some stage => Some (_run_id (opt_int r), shard, stage, _text (opt_str conf))
     | _, _ => None end).
  by rewrite !clean_text, run_id_opt, clean_opt_text.
Qed.

Lemma jget_jset_opt k k' t d :
  jget k (jset_opt k' t d) =
  if String.eqb k k' then match t with Some t => Some (JStr t) | None => jget k d end else jget k d.
Proof. destruct t; simpl; [apply jget_jset|by destruct (String.eqb k k')]. Qed.

(** What the payload of a failure holds under the keys its identity is read from. *)
Lemma failure_payload_get f k :
  jget k (failure_to_payload f) =
  if String.eqb k "failure_category" then
    match wf_failure_category f with Some t => Some (JStr t) | None => jget k (wf_details f) end
  else if String.eqb k "error" then Some (opt_str (wf_error f))
  else if String.eqb k "credential" then
    match wf_credential f with Some t => Some (JStr t) | None => jget k (wf_details f) end
  else if String.eqb k "provider" then
    match wf_provider f with Some t => Some (JStr t) | None => jget k (wf_details f) end
  else if String.eqb k "configuration_error" then
    match wf_configuration_error f with Some t => Some (JStr t) | None => jget k (wf_details f) end
  else if String.eqb k "status" then
    match wf_status f with Some t => Some (JStr t) | None => jget k (wf_details f) end
  else if String.eqb k "stage" then Some (JStr (wf_stage f))
  else if String.eqb k "shard" then Some (JStr (wf_shard f))
  else if String.eqb k "worker_role" then Some (JStr (wf_worker_role f))
  else if String.eqb k "worker_run_id" || String.eqb k "child_run_id" then
    match wf_worker_run_id f with Some id => Some (JInt id) | None => jget k (wf_details f) end
  else if String.eqb k "tool" then Some (JStr "spawn_worker")
  else if String.eqb k "kind" then Some (JStr "worker_tool_failure")
  else jget k (wf_details f).
Proof.
  unfold failure_to_payload. cbv zeta. unfold jupdate. cbn [fold_left fst snd].
  assert (Hk : forall a, String.eqb k a = true -> k = a) by (intros a; by apply String.eqb_eq).
  repeat first [rewrite jget_jset_opt | rewrite jget_jset].
  destruct (wf_worker_run_id f); rewrite ?jget_jset; repeat (case_match; simpl; try done);
    repeat match goal with H : String.eqb k _ = true |- _ => apply Hk in H; subst k end; done.
Qed.

Lemma failure_reads f : failure_wf f -> identity (failure_from_payload (failure_to_payload f)) = identity f.
Proof.
  intros [Hs Ht Hc He]. unfold failure_from_payload, identity. cbv zeta. simpl.
  unfold jget_or_null. rewrite !failure_payload_get. simpl.
  rewrite !(He "worker_run_id"), !(He "child_run_id"), !(He "configuration_error") by (unfold _FAILURE_PAYLOAD_KEYS; set_solver).
  f_equal; [f_equal; [f_equal|]|].
  - destruct (wf_worker_run_id f) as [z|]; [|done]. simpl. unfold jor. by destruct (truthy _).
  - assert (Hj : jor (JStr (wf_shard f)) (default JNull (jget "repo" (wf_details f))) = JStr (wf_shard f)).
    { unfold jor. destruct Hs as [Hne _]. by destruct (wf_shard f). }
    destruct (wf_failure_category f); simpl.
    all: first [rewrite Hj | idtac]; by rewrite ?clean_text.
  - by rewrite clean_text.
  - destruct (wf_configuration_error f); simpl; [by rewrite clean_text|done].
Qed.

Definition receipt_ids (r : WorkerEvidenceReceipt) : list FailureIdentity :=
  identities (wr_failures r) (wr_failure_identities r).

Record receipt_wf (r : WorkerEvidenceReceipt) : Prop := {
  rw_failures : Forall failure_wf (wr_failures r);
  rw_nodup : NoDup (identity <$> wr_failures r);
  rw_stored : Forall identity_wf (wr_failure_identities r);
  rw_status : clean_opt (wr_status r);
  rw_extra : extra _RECEIPT_PAYLOAD_KEYS (wr_details r);
}.

Definition stored_apart (r : WorkerEvidenceReceipt) : bool :=
  Nat.ltb (Nat.min (length (wr_failures r)) 20) (length (receipt_ids r)).

Lemma receipt_payload_get r k :
  jget k (receipt_to_payload r) =
  if String.eqb k "worker_shards" then
    match wr_worker_shards r with
    | [] => jget k (wr_details r) | l => Some (JList (JStr <$> l)) end
  else if String.eqb k "failure_identities" then
    if stored_apart r then Some (JList (identity_payload <$> receipt_ids r)) else jget k (wr_details r)
  else if String.eqb k "failures" then
    match wr_failures r with
    | [] => jget k (wr_details r)
    | l => Some (JList ((fun f => JObj (failure_to_payload f)) <$> take 20 l)) end
  else if String.eqb k "missing_shards" then
    match wr_failures r with
    | [] => jget k (wr_details r) | _ => Some (JList (JStr <$> missing_shards r)) end
  else if String.eqb k "failure_count" then
    match wr_failures r with
    | [] => jget k (wr_details r) | _ => Some (JInt (Z.of_nat (length (receipt_ids r)))) end
  else if String.eqb k "completeness" then
    match wr_completeness r with Some t => Some (JStr t) | None => jget k (wr_details r) end
  else if String.eqb k "status" then
    match wr_status r with Some t => Some (JStr t) | None => jget k (wr_details r) end
  else jget k (wr_details r).
Proof.
  unfold receipt_to_payload, stored_apart. cbv zeta. change (identities _ _) with (receipt_ids r).
  assert (Hk : forall a, String.eqb k a = true -> k = a) by (intros a; by apply String.eqb_eq).
  generalize (receipt_ids r). intros ids. generalize (missing_shards r). intros ms.
  destruct (wr_worker_shards r), (Nat.ltb _ _), (wr_failures r);
    repeat first [rewrite jget_jset_opt | rewrite jget_jset]; repeat (case_match; simpl; try done);
    repeat match goal with H : String.eqb k _ = true |- _ => apply Hk in H; subst k end; done.
Qed.

Lemma fromkeys_absorb {A} `{EqDecision A} (l k : list A) :
  fromkeys (l ++ fromkeys (l ++ k)) = fromkeys (l ++ k).
Proof.
  rewrite (fromkeys_app_filter l (fromkeys (l ++ k))), fromkeys_idem, (fromkeys_app_filter l k), filter_app.
  rewrite (filter_nothing _ (fromkeys l)).
  2:{ intros x Hx Hn. rewrite elem_of_fromkeys in Hx. done. }
  simpl. f_equal. apply filter_all. intros x Hx%list_elem_of_filter. tauto.
Qed.

Lemma omap_reads {A B C} (f : B -> option C) (g : A -> B) (h : A -> C) (l : list A) :
  (forall x, x ∈ l -> f (g x) = Some (h x)) -> omap f (g <$> l) = h <$> l.
Proof.
  induction l as [|x l IH]; intros Hl; [done|]. simpl. rewrite Hl by by left. simpl. f_equal.
  apply IH. intros y Hy. apply Hl. by right.
Qed.

Lemma py_iter_list l : py_iter (JList l) = Ok l.
Proof. by destruct l. Qed.

(** Writing a receipt keeps what is known of it: at most twenty failures are stored
    in full, but the identities of all of them. *)
Lemma identities_stored (a b : list FailureIdentity) :
  NoDup a ->
  let ids := fromkeys (a ++ b) in
  fromkeys (take 20 a ++ if Nat.ltb (Nat.min (length a) 20) (length ids) then ids else []) = ids.
Proof.
  intros Ha ids. destruct (Nat.ltb _ _) eqn:E.
  - unfold ids. rewrite <- (take_drop 20 a) at 2 3. rewrite <- app_assoc. apply fromkeys_absorb.
  - apply Nat.ltb_ge in E. rewrite app_nil_r. unfold ids in *. rewrite fromkeys_app_filter in E |- *.
    rewrite (fromkeys_id a) in * by done. rewrite length_app in E.
    rewrite take_ge by lia. rewrite fromkeys_id by done.
    destruct (filter _ (fromkeys b)); [by rewrite app_nil_r|simpl in E; lia].
Qed.

Lemma mappings_objects {A} (g : A -> dict) l : mappings ((fun x => JObj (g x)) <$> l) = g <$> l.
Proof. by apply omap_reads. Qed.

(** What reading a written receipt finds under its keys. *)
Lemma receipt_keys r :
  extra _RECEIPT_PAYLOAD_KEYS (wr_details r) -> clean_opt (wr_status r) ->
  py_iter (jget_or_null "failures" (receipt_to_payload r))
    = Ok ((fun f => JObj (failure_to_payload f)) <$> take 20 (wr_failures r)) /\
  py_iter (jget_or_null "failure_identities" (receipt_to_payload r))
    = Ok (identity_payload <$> if stored_apart r then receipt_ids r else []) /\
  (exists l, py_iter (jget_or_null "worker_shards" (receipt_to_payload r)) = Ok l) /\
  _text (jget_or_null "status" (receipt_to_payload r)) = wr_status r.
Proof.
  intros Habs Hc.
  assert (Hget : forall k, k ∈ _RECEIPT_PAYLOAD_KEYS ->
    jget_or_null k (receipt_to_payload r) = default JNull (
      if String.eqb k "worker_shards" then
        match wr_worker_shards r with [] => None | l => Some (JList (JStr <$> l)) end
      else if String.eqb k "failure_identities" then
        if stored_apart r then Some (JList (identity_payload <$> receipt_ids r)) else None
      else if String.eqb k "failures" then
        match wr_failures r with
        | [] => None | l => Some (JList ((fun f => JObj (failure_to_payload f)) <$> take 20 l)) end
      else jget k (receipt_to_payload r))).
  { intros k Hk. unfold jget_or_null. f_equal. rewrite receipt_payload_get, (Habs k Hk).
    by repeat case_match. }
  split_and!.
  - rewrite Hget by (unfold _RECEIPT_PAYLOAD_KEYS; set_solver). cbn [String.eqb Ascii.eqb Bool.eqb].
    destruct (wr_failures r); [done|]. apply py_iter_list.
  - rewrite Hget by (unfold _RECEIPT_PAYLOAD_KEYS; set_solver). cbn [String.eqb Ascii.eqb Bool.eqb].
    destruct (stored_apart r); [|done]. apply py_iter_list.
  - rewrite Hget by (unfold _RECEIPT_PAYLOAD_KEYS; set_solver). cbn [String.eqb Ascii.eqb Bool.eqb].
    destruct (wr_worker_shards r); [by exists []|]. eexists. apply py_iter_list.
  - unfold jget_or_null. rewrite receipt_payload_get.
    rewrite (Habs "status") by (unfold _RECEIPT_PAYLOAD_KEYS; set_solver). cbn [String.eqb Ascii.eqb Bool.eqb].
    destruct (wr_status r) as [t|]; [by apply clean_text|done].
Qed.

Lemma receipt_reads r :
  receipt_wf r ->
  exists r', receipt_from_payload (JObj (receipt_to_payload r)) = Ok r' /\
    receipt_ids r' = receipt_ids r /\ receipt_wf r' /\ degraded r' = degraded r /\
    wr_status r' = wr_status r.
Proof.
  intros [Hf Hn Hst Hc He].
  set (fs := failure_from_payload <$> (failure_to_payload <$> take 20 (wr_failures r))).
  assert (Hids : identity <$> fs = take 20 (identity <$> wr_failures r)).
  { unfold fs. rewrite <- !list_fmap_compose, <- fmap_take. apply list_fmap_ext. intros n f Hl.
    apply lookup_take_Some in Hl as [Hl _]. apply failure_reads. by eapply Forall_lookup_1. }
  assert (Hw : Forall identity_wf (receipt_ids r)).
  { apply Forall_forall. intros i Hi. unfold receipt_ids, identities in Hi.
    rewrite elem_of_fromkeys, elem_of_app in Hi. rewrite Forall_forall in Hst. rewrite Forall_forall in Hf.
    destruct Hi as [(f & -> & Hin)%list_elem_of_fmap|Hi]; [apply failure_identity_wf|]; auto. }
  destruct (receipt_keys r He Hc) as (Hitems & Hstored & (shards & Hshards) & Hstatus).
  unfold receipt_from_payload. cbn [as_dict].
  rewrite Hitems, Hstored, Hshards, Hstatus. cbn [mbind result_bind].
  eexists. split; [done|]. fold (mappings ((fun f => JObj (failure_to_payload f)) <$> take 20 (wr_failures r))).
  rewrite (mappings_objects failure_to_payload). fold fs.
  rewrite (omap_reads _ identity_payload id).
  2:{ intros i Hi. apply identity_reads. destruct (stored_apart r); [|by apply not_elem_of_nil in Hi].
      rewrite Forall_forall in Hw. auto. }
  rewrite list_fmap_id.
  assert (Hsame : identities fs (if stored_apart r then receipt_ids r else []) = receipt_ids r).
  { unfold identities. rewrite Hids. unfold stored_apart, receipt_ids, identities.
    replace (length (wr_failures r)) with (length (identity <$> wr_failures r)) by apply length_fmap.
    by apply identities_stored. }
  rewrite Hsame. split_and!; try done.
  - unfold receipt_ids at 1. cbn [wr_failures wr_failure_identities].
    rewrite <- Hsame at 1. rewrite <- Hsame at 2. apply fromkeys_absorb.
  - split; simpl.
    + apply Forall_fmap, Forall_true. intros ?. apply from_payload_wf.
    + rewrite Hids. eapply sublist_NoDup; [exact Hn|apply sublist_take].
    + exact Hw.
    + exact Hc.
    + apply without_extra.
  - unfold degraded. simpl. f_equal. unfold fs. rewrite !length_fmap, length_take.
    by destruct (wr_failures r).
Qed.

(** * Adding failures *)

Lemma new_failures_ids l : forall ids,
  identity <$> new_failures ids l = filter (fun i => i ∉ ids) (fromkeys (identity <$> l)).
Proof.
  induction l as [|f l IH]; intros ids; [done|]. simpl. case_decide as Hf.
  - rewrite filter_cons_False by tauto. rewrite IH, list_filter_filter. apply list_filter_iff.
    intros x. split; [|tauto]. intros Hx. split; [done|]. by intros ->.
  - rewrite filter_cons_True by done. simpl. f_equal. rewrite IH, list_filter_filter.
    apply list_filter_iff. intros x. rewrite not_elem_of_cons. tauto.
Qed.

Lemma new_failures_given l : forall ids f, f ∈ new_failures ids l -> f ∈ l.
Proof.
  induction l as [|g l IH]; intros ids f; simpl; [done|]. case_decide.
  - intros Hf%IH. by right.
  - rewrite elem_of_cons. intros [->|Hf%IH]; [by left|by right].
Qed.

Lemma elem_of_receipt_ids r x :
  x ∈ receipt_ids r <-> x ∈ identity <$> wr_failures r \/ x ∈ wr_failure_identities r.
Proof. unfold receipt_ids, identities. by rewrite elem_of_fromkeys, elem_of_app. Qed.

Lemma receipt_ids_wf r : receipt_wf r -> Forall identity_wf (receipt_ids r).
Proof.
  intros [Hf _ Hs _ _]. apply Forall_forall. intros x. rewrite elem_of_receipt_ids.
  rewrite Forall_forall in Hs. rewrite Forall_forall in Hf.
  intros [(f & -> & Hin)%list_elem_of_fmap|Hi]; [apply failure_identity_wf|]; auto.
Qed.

Lemma with_failures_spec r fs :
  receipt_wf r -> Forall failure_wf fs ->
  let '(r', added) := with_failures r fs in
  receipt_wf r' /\ degraded r' = true /\ wr_status r' = Some "degraded" /\
  (forall x, x ∈ receipt_ids r' <-> x ∈ receipt_ids r \/ x ∈ identity <$> fs) /\
  identity <$> added = filter (fun i => i ∉ receipt_ids r) (fromkeys (identity <$> fs)) /\
  (forall f, f ∈ added -> f ∈ fs /\ f ∈ wr_failures r').
Proof.
  intros Hr Hfs. unfold with_failures. cbv zeta. change (identities _ _) with (receipt_ids r).
  set (added := new_failures (receipt_ids r) fs).
  assert (Hids : identity <$> added = filter (fun i => i ∉ receipt_ids r) (fromkeys (identity <$> fs)))
    by apply new_failures_ids.
  assert (Hin : forall x, x ∈ identity <$> added <-> x ∉ receipt_ids r /\ x ∈ identity <$> fs).
  { intros x. by rewrite Hids, list_elem_of_filter, elem_of_fromkeys. }
  assert (Hadd : Forall failure_wf added).
  { apply Forall_forall. intros f Hf%new_failures_given. rewrite Forall_forall in Hfs. auto. }
  pose proof (receipt_ids_wf r Hr) as Hw. destruct Hr as [Hf Hn Hst Hc He].
  split_and!; try done.
  - split; simpl; try done.
    + by apply Forall_app.
    + rewrite fmap_app. apply NoDup_app. split_and!; [done| |].
      * intros x Hx [Hx' _]%Hin. apply Hx', elem_of_receipt_ids. by left.
      * rewrite Hids. apply NoDup_filter, fromkeys_nodup.
    + apply Forall_app. split; [done|]. apply Forall_fmap.
      eapply Forall_impl; [exact Hadd|]. apply failure_identity_wf.
  - intros x. rewrite elem_of_receipt_ids. simpl. rewrite fmap_app, !elem_of_app, Hin.
    destruct (decide (x ∈ receipt_ids r)) as [Hx|Hx]; [tauto|].
    pose proof (elem_of_receipt_ids r x). tauto.
  - intros f Hf'. split; [by eapply new_failures_given|]. simpl. apply elem_of_app. by right.
Qed.

Lemma completed_spec r shards :
  receipt_wf r -> receipt_wf (completed r shards) /\ receipt_ids (completed r shards) = receipt_ids r /\
  (degraded r = true -> completed r shards = r).
Proof.
  intros Hr. unfold completed. destruct (degraded r || _) eqn:E; [done|].
  apply orb_false_iff in E as [E _]. split_and!; [|done|congruence].
  destruct Hr. by split.
Qed.

(** * An equal value reads the same

    A flush writes nothing when Python finds the new value equal to the stored one,
    and [True == 1].  What the code wrote is still read the same through such an
    equal value. *)

Lemma py_eqb_str t v : py_eqb (JStr t) v = true -> v = JStr t.
Proof. destruct v; simpl; try done. by intros ->%String.eqb_eq. Qed.

Lemma py_eqb_list l v :
  py_eqb (JList l) v = true -> exists l', v = JList l' /\ Forall2 (fun a b => py_eqb a b = true) l l'.
Proof.
  destruct v as [| | | |l'|]; try done. intros Hv. exists l'. split; [done|]. revert l' Hv.
  induction l as [|a l IH]; intros [|b l']; simpl; try done.
  intros [Ha Hl]%andb_true_iff. constructor; [done|]. by apply IH.
Qed.

Lemma py_eqb_obj d v : py_eqb (JObj d) v = true -> exists d', v = JObj d'.
Proof. destruct v; try done. by eauto. Qed.

Lemma jget_none k (x : dict) : jget k x = None -> k ∉ x.*1.
Proof.
  induction x as [|[k1 v1] x IH]; [set_solver|]. simpl.
  destruct (String.eqb k k1) eqn:E; [done|]. apply String.eqb_neq in E. set_solver.
Qed.

(** A key the written dictionary lacks is absent from the equal one too. *)
Lemma py_eqb_obj_absent k x y :
  NoDup (x.*1) -> py_eqb (JObj x) (JObj y) = true -> jget k x = None -> jget k y = None.
Proof.
  intros Hn He Hk.
  assert (Hsub : forall k', k' ∈ x.*1 -> k' ∈ y.*1).
  { intros k' Hin. destruct (jget k' x) as [u|] eqn:Hu; [|by apply jget_none in Hu].
    destruct (py_eqb_obj_get _ _ _ _ He Hu) as (v & Hv & _). apply jget_elem in Hv.
    apply list_elem_of_fmap. by exists (k', v). }
  simpl in He. apply andb_true_iff in He as [Hlen _]. apply Nat.eqb_eq in Hlen.
  assert (Hp : x.*1 ≡ₚ y.*1).
  { apply submseteq_length_Permutation; [by apply NoDup_submseteq|]. rewrite !length_fmap. lia. }
  destruct (jget k y) as [v|] eqn:Hy; [|done]. exfalso. apply jget_elem in Hy.
  apply jget_none in Hk. apply Hk. rewrite Hp. apply list_elem_of_fmap. by exists (k, v).
Qed.

(** A failure as the code makes one: with the identity it will be read with. *)
Definition fresh_failure (f : WorkerEvidenceFailure) : Prop := failure_wf f /\ wf_details f = [].

Lemma fresh_keys f : wf_details f = [] -> NoDup ((failure_to_payload f).*1).
Proof.
  intros Hd. destruct f as [shard stage err id role st conf prov cred cat det]. simpl in Hd. subst det.
  unfold failure_to_payload. simpl.
  destruct id, st, conf, prov, cred, cat; apply (bool_decide_unpack _); vm_compute; done.
Qed.

Lemma run_id_equal z v : py_eqb (JInt z) v = true -> _run_id v = Some z.
Proof. intros Hv. pose proof (py_eqb_int _ _ Hv) as Hi. by destruct v. Qed.

Lemma fresh_reads_equal f d :
  fresh_failure f -> py_eqb (JObj (failure_to_payload f)) (JObj d) = true ->
  identity (failure_from_payload d) = identity f.
Proof.
  intros [[Hs Ht Hc He] Hd] Heq.
  assert (Hget : forall k u, jget k (failure_to_payload f) = Some u ->
            exists v, jget_or_null k d = v /\ py_eqb u v = true).
  { intros k u Hu. destruct (py_eqb_obj_get _ _ _ _ Heq Hu) as (v & Hv & Huv).
    exists v. unfold jget_or_null. by rewrite Hv. }
  assert (Habs : forall k, jget k (failure_to_payload f) = None -> jget_or_null k d = JNull).
  { intros k Hk. unfold jget_or_null. by rewrite (py_eqb_obj_absent k _ _ (fresh_keys f Hd) Heq Hk). }
  assert (Hstr : forall k t, jget k (failure_to_payload f) = Some (JStr t) -> jget_or_null k d = JStr t).
  { intros k t Hk. destruct (Hget _ _ Hk) as (v & -> & Hv). by apply py_eqb_str. }
  assert (Hshard : jget_or_null "shard" d = JStr (wf_shard f)) by (apply Hstr; by rewrite failure_payload_get).
  assert (Hstage : jget_or_null "stage" d = JStr (wf_stage f)) by (apply Hstr; by rewrite failure_payload_get).
  assert (Hconf : _text (jget_or_null "configuration_error" d) = wf_configuration_error f).
  { destruct (wf_configuration_error f) as [t|] eqn:Ec.
    - rewrite (Hstr "configuration_error" t); [by apply clean_text|]. rewrite failure_payload_get. simpl. by rewrite Ec.
    - rewrite Habs; [done|]. rewrite failure_payload_get. simpl. by rewrite Ec, Hd. }
  assert (Hid : _run_id (jor (jget_or_null "worker_run_id" d) (jget_or_null "child_run_id" d)) = wf_worker_run_id f).
  { destruct (wf_worker_run_id f) as [z|] eqn:Ez.
    - destruct (Hget "worker_run_id" (JInt z)) as (v1 & E1 & H1);
        [rewrite failure_payload_get; simpl; by rewrite Ez|].
      destruct (Hget "child_run_id" (JInt z)) as (v2 & E2 & H2);
        [rewrite failure_payload_get; simpl; by rewrite Ez|].
      rewrite E1, E2. unfold jor. by destruct (truthy v1); apply run_id_equal.
    - rewrite !Habs; [done|rewrite failure_payload_get; simpl; by rewrite Ez, Hd..]. }
  unfold failure_from_payload, identity. cbv zeta. simpl. rewrite Hid, Hconf, Hshard, Hstage.
  assert (Hj : jor (JStr (wf_shard f)) (jget_or_null "repo" d) = JStr (wf_shard f)).
  { unfold jor. destruct Hs as [Hne _]. by destruct (wf_shard f). }
  by rewrite Hj, !clean_text.
Qed.

Lemma identity_reads_equal i v :
  identity_wf i -> py_eqb (identity_payload i) v = true -> _failure_identity v = Some i.
Proof.
  intros Hi Hv. destruct i as [[[r shard] stage] conf]. pose proof (identity_reads _ Hi) as Hread.
  apply py_eqb_list in Hv as (l & -> & Hl).
  apply Forall2_cons_inv_l in Hl as (v1 & l1 & H1 & Hl & ->).
  apply Forall2_cons_inv_l in Hl as (v2 & l2 & ->%py_eqb_str & Hl & ->).
  apply Forall2_cons_inv_l in Hl as (v3 & l3 & ->%py_eqb_str & Hl & ->).
  apply Forall2_cons_inv_l in Hl as (v4 & l4 & H4 & ->%Forall2_nil_inv_l & ->).
  assert (Hr : _run_id v1 = _run_id (opt_int r)).
  { destruct r as [z|]; [|by destruct v1]. rewrite (run_id_equal z); done. }
  assert (Hc : v4 = opt_str conf) by (destruct conf; [by apply py_eqb_str|by destruct v4]).
  subst v4. simpl in *. by rewrite Hr.
Qed.

Lemma omap_equal (l l' : list json) (ids : list FailureIdentity) :
  Forall identity_wf ids -> l = identity_payload <$> ids ->
  Forall2 (fun a b => py_eqb a b = true) l l' -> omap _failure_identity l' = ids.
Proof.
  intros Hw ->. revert l'. induction Hw as [|i ids Hi _ IH]; intros l' Hl; simpl in Hl.
  - by apply Forall2_nil_inv_l in Hl as ->.
  - apply Forall2_cons_inv_l in Hl as (v & l1 & Hv & Hl & ->). simpl.
    rewrite (identity_reads_equal _ _ Hi Hv). simpl. f_equal. by apply IH.
Qed.

Lemma receipt_read_inv j r :
  receipt_from_payload j = Ok r ->
  exists items stored, py_iter (jget_or_null "failures" (as_dict j)) = Ok items /\
    py_iter (jget_or_null "failure_identities" (as_dict j)) = Ok stored /\
    wr_failures r = failure_from_payload <$> mappings items /\
    wr_failure_identities r = identities (wr_failures r) (omap _failure_identity stored) /\
    wr_status r = _text (jget_or_null "status" (as_dict j)) /\
    extra _RECEIPT_PAYLOAD_KEYS (wr_details r).
Proof.
  unfold receipt_from_payload. destruct (py_iter (jget_or_null "failures" _)) as [items|]; [|done].
  destruct (py_iter (jget_or_null "failure_identities" _)) as [stored|]; [|done].
  destruct (py_iter (jget_or_null "worker_shards" _)) as [shards|]; [|done]. cbn [mbind result_bind].
  intros [= <-]. exists items, stored. split_and!; try done. apply without_extra.
Qed.

(** Whatever equals a written receipt knows every fresh failure in it. *)
Lemma written_known r d2 r2 f :
  receipt_wf r -> f ∈ wr_failures r -> fresh_failure f ->
  py_eqb (JObj (receipt_to_payload r)) (JObj d2) = true -> receipt_from_payload (JObj d2) = Ok r2 ->
  identity f ∈ receipt_ids r2.
Proof.
  intros Hr Hf Hfresh Heq Hread.
  destruct (receipt_read_inv _ _ Hread) as (items & stored & Ei & Es & Efs & Eids & _).
  cbn [as_dict] in Ei, Es. rewrite elem_of_receipt_ids, Eids.
  assert (Hin : identity f ∈ receipt_ids r) by (apply elem_of_receipt_ids; left; by apply list_elem_of_fmap_2).
  destruct (stored_apart r) eqn:Ea.
  - right. unfold identities. apply elem_of_fromkeys, elem_of_app. right.
    assert (Hg : jget "failure_identities" (receipt_to_payload r) =
              Some (JList (identity_payload <$> receipt_ids r))).
    { rewrite receipt_payload_get. simpl. by rewrite Ea. }
    destruct (py_eqb_obj_get _ _ _ _ Heq Hg) as (v & Hv & (l & -> & Hl)%py_eqb_list).
    assert (Hj : jget_or_null "failure_identities" d2 = JList l) by (unfold jget_or_null; by rewrite Hv).
    rewrite Hj, py_iter_list in Es.
    injection Es as <-. by rewrite (omap_equal _ _ (receipt_ids r) (receipt_ids_wf r Hr) eq_refl Hl).
  - left. unfold stored_apart in Ea. apply Nat.ltb_ge in Ea.
    assert (Hlen : length (wr_failures r) <= length (receipt_ids r)).
    { unfold receipt_ids, identities. rewrite fromkeys_app_filter, length_app.
      rewrite (fromkeys_id (identity <$> _)) by apply Hr. rewrite length_fmap. lia. }
    assert (Hg : jget "failures" (receipt_to_payload r) =
              Some (JList ((fun f => JObj (failure_to_payload f)) <$> wr_failures r))).
    { rewrite receipt_payload_get. simpl. destruct (wr_failures r) as [|g gs] eqn:Ef; [by apply not_elem_of_nil in Hf|].
      change (g :: take 19 gs) with (take 20 (g :: gs)). by rewrite take_ge by (simpl in *; lia). }
    destruct (py_eqb_obj_get _ _ _ _ Heq Hg) as (v & Hv & (l & -> & Hl)%py_eqb_list).
    assert (Hj : jget_or_null "failures" d2 = JList l) by (unfold jget_or_null; by rewrite Hv).
    rewrite Hj, py_iter_list in Ei.
    injection Ei as <-. apply list_elem_of_lookup in Hf as (n & Hn).
    assert (Hn' : ((fun f => JObj (failure_to_payload f)) <$> wr_failures r) !! n
              = Some (JObj (failure_to_payload f))) by (rewrite list_lookup_fmap; by rewrite Hn).
    destruct (Forall2_lookup_l _ _ _ _ _ Hl Hn') as (y & Hy & Hfy).
    destruct (py_eqb_obj _ _ Hfy) as (dy & ->).
    rewrite <- (fresh_reads_equal f dy Hfresh Hfy), Efs.
    apply list_elem_of_fmap_2, list_elem_of_fmap_2, list_elem_of_omap. exists (JObj dy).
    split; [by eapply list_elem_of_lookup_2|done].
Qed.

(** * Recording evidence *)

Section recording.
Context `{Platform} `{ProviderErrorTaxonomy}.

(** The cycle run a parent belongs to. *)
Definition cycle_of (metadata : dict) (d : db) : option cycle_run :=
  if py_eqb (jget_or_null "source" metadata) (JStr "cycle")
  then py_int (jget_or_null "cycle_run_id" metadata) ≫= fun id => cycle_runs d !! id
  else None.

(** Its receipt, and that of the parent, can be read: where the code expects lists
    there are no numbers. *)
Definition readable (c : cycle_run) : Prop :=
  is_ok (receipt_from_payload (jget_or_null "evidence_health" (context_snapshot c))) = true.

Lemma lock_cycle_ok metadata s :
  exists s', _lock_cycle_run metadata s = (s', Ok (cycle_of metadata (pending s))) /\ locked s s'.
Proof.
  unfold _lock_cycle_run, cycle_of. destruct (py_eqb _ _); [|by exists s].
  destruct (py_int _) as [z|]; [|by exists s]. simpl. unfold bind at 1, get.
  destruct (cycle_runs (pending s) !! z) as [c|]; [|by exists s].
  destruct (bool_decide _); [|by exists s]. eexists. split; [done|apply locked_log].
Qed.

Lemma cycle_of_evidence j metadata d :
  cycle_of (jset "evidence_health" j metadata) d = cycle_of metadata d.
Proof. unfold cycle_of, jget_or_null. by rewrite !jget_jset. Qed.

(** Cycle runs stay readable: what the code writes can be read. *)
Definition cycles_readable (d : db) : Prop := forall i c, cycle_runs d !! i = Some c -> readable c.

Lemma written_readable r : extra _RECEIPT_PAYLOAD_KEYS (wr_details r) -> clean_opt (wr_status r) ->
  is_ok (receipt_from_payload (JObj (receipt_to_payload r))) = true.
Proof.
  intros He Hc. destruct (receipt_keys r He Hc) as (E1 & E2 & (l & E3) & _).
  unfold receipt_from_payload. cbn [as_dict]. by rewrite E1, E2, E3.
Qed.

Lemma flush_metadata_writes row m s :
  runs (pending s) !! run_id row = Some row ->
  (py_eqb (JObj m) (JObj (metadata_ row)) = true /\ flush_metadata row m s = (s, Ok tt)) \/
  exists row', metadata_ row' = m /\ run_id row' = run_id row /\ spec row' = spec row /\
    status row' = status row /\
    flush_metadata row m s =
      (set_pending (with_runs (pending s) (<[run_id row := row']> (runs (pending s)))) s, Ok tt).
Proof.
  intros Hr. unfold flush_metadata. destruct (py_eqb _ _) eqn:E; cbn [negb when_]; [by left|]. right.
  rewrite (bind_eq_ok _ _ _ _ _ (update_run_ok s _ [] _ row Hr eq_refl)).
  eexists. split; [|split; [|split; [|split; [|reflexivity]]]]; by destruct row.
Qed.

(** What recording needs of the parent: its row can be locked and read. *)
Record parent_ready (s : store) (i : Z) (row : run_row) (r : WorkerEvidenceReceipt) : Prop := {
  pr_row : runs (pending s) !! i = Some row;
  pr_id : run_id row = i;
  pr_root : root_present s row;
  pr_receipt : worker_evidence_receipt_for_run row = Ok r;
  pr_wf : receipt_wf r;
  pr_cycles : cycles_readable (pending s);
}.

(** The failures an event of the run reports. *)
Definition reported (i : Z) (d : db) : list dict :=
  ev_payload <$> filter (fun e => ev_type e = "run.worker_failed") (run_events i d).

Lemma reported_add t i l : forall d,
  Forall (fun e => e_run_id e = i /\ e_type e = "run.worker_failed") l ->
  reported i (add_events t l d) = reported i d ++ (e_payload <$> l).
Proof.
  induction l as [|e l IH]; intros d Hl; simpl; [by rewrite app_nil_r|].
  apply Forall_cons in Hl as [[He Ht] Hl]. rewrite IH by done. unfold reported at 1.
  rewrite run_events_add, decide_True by done. rewrite filter_app.
  rewrite (filter_cons_True _ (event_row_of t e d)) by done. rewrite fmap_app, <- app_assoc. done.
Qed.

Lemma for_each_events {A} (g : A -> AgentRunEvent) l : forall s,
  for_each (fun a => append_event (g a) ;;; ret tt) l s = append_events (g <$> l) s.
Proof.
  induction l as [|a l IH]; intros s; [done|]. unfold append_events. simpl. unfold bind.
  destruct (append_event (g a) s) as [s1 [r|e]]; [|done]. simpl. apply IH.
Qed.

Lemma add_events_cycles t l : forall d, cycle_runs (add_events t l d) = cycle_runs d.
Proof. induction l as [|e l IH]; intros d; [done|]. simpl. by rewrite IH. Qed.

Abbreviation noted before fs :=
  (match fs with [] => (before, []) | _ => with_failures before fs end).
Abbreviation finished c r := (match c with Some shards => completed r shards | None => r end).

(** The receipt the code is about to store. *)
Lemma noted_spec before fs (c : option (list string)) :
  receipt_wf before -> Forall fresh_failure fs ->
  let rec := finished c (noted before fs).1 in let added := (noted before fs).2 in
  receipt_wf rec /\ (forall x, x ∈ receipt_ids rec <-> x ∈ receipt_ids before \/ x ∈ identity <$> fs) /\
  identity <$> added = filter (fun i => i ∉ receipt_ids before) (fromkeys (identity <$> fs)) /\
  (forall f, f ∈ added -> f ∈ fs /\ f ∈ wr_failures rec) /\
  (degraded before = true \/ fs <> [] -> degraded rec = true) /\
  (fs <> [] -> wr_status rec = Some "degraded").
Proof.
  intros Hb Hfs. cbv zeta.
  assert (Hwf : Forall failure_wf fs) by (eapply Forall_impl; [exact Hfs|]; by intros ? []).
  destruct fs as [|f0 fs0].
  - simpl. assert (Hdone : let rec := finished c before in receipt_wf rec /\ receipt_ids rec = receipt_ids before
      /\ (degraded before = true -> rec = before)).
    { destruct c as [shards|]; [|done]. by apply completed_spec. }
    destruct Hdone as (H1 & H2 & H3). split_and!; try done.
    + intros x. rewrite H2. set_solver.
    + intros f Hf. by apply not_elem_of_nil in Hf.
    + intros [Hd|]; [|done]. by rewrite H3.
  - pose proof (with_failures_spec before (f0 :: fs0) Hb Hwf) as Hs.
    destruct (with_failures before (f0 :: fs0)) as [r0 added] eqn:E. simpl fst. simpl snd.
    destruct Hs as (Hr & Hd & Hst & Hids & Hadd & Hin).
    assert (Hsame : finished c r0 = r0).
    { destruct c as [shards|]; [|done]. by apply completed_spec. }
    rewrite Hsame. by split_and!.
Qed.

Lemma noted_kept row before fs c :
  receipt_wf before -> Forall fresh_failure fs -> worker_evidence_receipt_for_run row = Ok before ->
  let rec := finished c (noted before fs).1 in
  py_eqb (JObj (jset "evidence_health" (JObj (receipt_to_payload rec)) (metadata_ row)))
    (JObj (metadata_ row)) = true ->
  (forall x, x ∈ identity <$> fs -> x ∈ receipt_ids before) /\ (fs <> [] -> degraded before = true).
Proof.
  intros Hb Hfs Hread rec Heq.
  destruct (noted_spec before fs c Hb Hfs) as (Hr & _ & Hadd & Hin & _ & Hst). fold rec in Hr, Hin, Hst.
  destruct (py_eqb_obj_get "evidence_health" _ _ _ Heq (jget_jset_eq _ _ _)) as (v & Hv & Hve).
  destruct (py_eqb_obj _ _ Hve) as (d2 & ->).
  unfold worker_evidence_receipt_for_run, jget_or_null in Hread. rewrite Hv in Hread. simpl default in Hread.
  split.
  - intros x Hx. destruct (decide (x ∈ receipt_ids before)) as [Hk|Hk]; [done|].
    assert (Hxa : x ∈ identity <$> (noted before fs).2).
    { rewrite Hadd. apply list_elem_of_filter. by rewrite elem_of_fromkeys. }
    apply list_elem_of_fmap in Hxa as (f & -> & Hf). destruct (Hin f Hf) as [Hfs' Hrec].
    eapply written_known; [exact Hr|exact Hrec| |exact Hve|exact Hread].
    rewrite Forall_forall in Hfs. auto.
  - intros Hne. unfold degraded. apply orb_true_iff. left. apply bool_decide_eq_true.
    assert (Hg : jget "status" (receipt_to_payload rec) = Some (JStr "degraded")).
    { rewrite receipt_payload_get. simpl. by rewrite Hst. }
    destruct (py_eqb_obj_get _ _ _ _ Hve Hg) as (w & Hw & ->%py_eqb_str).
    destruct (receipt_read_inv _ _ Hread) as (? & ? & _ & _ & _ & _ & -> & _).
    unfold jget_or_null. cbn [as_dict]. by rewrite Hw.
Qed.

(** The flush leaves a row whose receipt knows what was known and what is new. *)
Lemma flush_receipt s i row before fs c :
  parent_ready s i row before -> Forall fresh_failure fs ->
  let rec := finished c (noted before fs).1 in
  let metadata := jset "evidence_health" (JObj (receipt_to_payload rec)) (metadata_ row) in
  exists s1 row1 after, flush_metadata row metadata s = (s1, Ok tt) /\
    parent_ready s1 i row1 after /\ spec row1 = spec row /\
    writes s (with_runs (pending s) (runs (pending s1))) s1 /\
    (forall x, x ∈ receipt_ids after <-> x ∈ receipt_ids before \/ x ∈ identity <$> fs) /\
    (degraded before = true \/ fs <> [] -> degraded after = true).
Proof.
  intros [Hrow Hid Hroot Hread Hwf Hcyc] Hfs rec metadata.
  destruct (noted_spec before fs c Hwf Hfs) as (Hr & Hids & _ & _ & Hdeg & _). fold rec in Hr, Hids, Hdeg.
  assert (Hrow' : runs (pending s) !! run_id row = Some row) by by rewrite Hid.
  destruct (flush_metadata_writes row metadata s Hrow') as [[Heq E]|(row1 & Em & Ei & Es & _ & E)].
  - exists s, row, before. destruct (noted_kept row before fs c Hwf Hfs Hread Heq) as [Hknown Hd].
    split_and!; try done.
    + by destruct s as [? []].
    + intros x. split; [by left|]. intros [|Hx]; auto.
    + intros [|]; auto.
  - destruct (receipt_reads rec Hr) as (after & Eafter & Ea1 & Ea2 & Ea3 & _).
    eexists _, row1, after. split; [exact E|]. split_and!; try done.
    + split; simpl.
      * by rewrite Hid, lookup_insert_eq.
      * congruence.
      * unfold root_present. simpl. rewrite Es, Ei. destruct (decide (run_id row = int_or (root_run_id (spec row)) (run_id row))) as [<-|Hne].
        -- rewrite lookup_insert_eq. by eexists.
        -- rewrite lookup_insert_ne by done. exact Hroot.
      * unfold worker_evidence_receipt_for_run, jget_or_null. rewrite Em. unfold metadata.
        rewrite jget_jset_eq. exact Eafter.
      * exact Ea2.
      * exact Hcyc.
    + intros x. rewrite Ea1. apply Hids.
    + rewrite Ea3. exact Hdeg.
Qed.

(** The receipt of the cycle run is brought up to date beside it. *)
Lemma cycle_receipt_ok s (cyc : option cycle_run) (fs : list WorkerEvidenceFailure) :
  cycles_readable (pending s) -> (forall c, cyc = Some c -> readable c) ->
  exists s1, (match cyc, fs with
    | Some c, _ :: _ =>
        cycle_receipt <- lift_result
          (receipt_from_payload (jget_or_null "evidence_health" (context_snapshot c))) ;;
        set_cycle_run {| cyc_id := cyc_id c; cyc_run_id := cyc_run_id c;
          context_snapshot := jset "evidence_health"
            (JObj (receipt_to_payload (with_failures cycle_receipt fs).1)) (context_snapshot c) |}
    | _, _ => ret tt
    end) s = (s1, Ok tt) /\
    writes s (with_cycle_runs (pending s) (cycle_runs (pending s1))) s1 /\ cycles_readable (pending s1).
Proof.
  intros Hc Hr.
  assert (Hsame : writes s (with_cycle_runs (pending s) (cycle_runs (pending s))) s) by by destruct s as [? []].
  destruct cyc as [c|]; [|by exists s]. destruct fs as [|f fs]; [by exists s|].
  pose proof (Hr c eq_refl) as Hok. unfold readable in Hok.
  destruct (receipt_from_payload _) as [r|] eqn:E; [|done].
  rewrite (bind_eq_ok _ _ s s r) by done. eexists. split; [done|]. split; [done|].
  intros i c'. simpl. destruct (decide (i = cyc_id c)) as [->|Hne].
  - rewrite lookup_insert_eq. intros [= <-]. unfold readable. simpl.
    unfold jget_or_null. rewrite jget_jset_eq. simpl default.
    destruct (receipt_read_inv _ _ E) as (? & ? & _ & _ & _ & _ & _ & Hx).
    by apply written_readable.
  - rewrite lookup_insert_ne by done. apply Hc.
Qed.

Lemma update_receipts_ok s i row before fs c :
  parent_ready s i row before -> Forall fresh_failure fs ->
  exists s' rec added row' after, update_receipts row fs c s = (s', Ok (rec, added)) /\
    parent_ready s' i row' after /\
    (forall x, x ∈ receipt_ids after <-> x ∈ receipt_ids before \/ x ∈ identity <$> fs) /\
    (degraded before = true \/ fs <> [] -> degraded after = true) /\
    identity <$> added = filter (fun x => x ∉ receipt_ids before) (fromkeys (identity <$> fs)) /\
    (forall f, f ∈ added -> f ∈ fs) /\
    reported i (pending s') = reported i (pending s) ++ (failure_to_payload <$> added).
Proof.
  intros Hready Hfs. pose proof Hready as [Hrow Hid Hroot Hread Hwf Hcyc].
  destruct (noted_spec before fs c Hwf Hfs) as (_ & _ & Hadd & Hin & _ & _).
  destruct (flush_receipt s i row before fs c Hready Hfs)
    as (s1 & row1 & after & E1 & [Hrow1 Hid1 Hroot1 Hread1 Hwf1 Hcyc1] & Hsp & W1 & Hids & Hdeg).
  set (rec := finished c (noted before fs).1) in *. set (added := (noted before fs).2) in *.
  set (metadata := jset "evidence_health" (JObj (receipt_to_payload rec)) (metadata_ row)) in *.
  destruct (lock_cycle_ok metadata s1) as (s2 & E2 & Hl2). destruct (locked_fields _ _ Hl2) as (Ep2 & _).
  destruct (cycle_receipt_ok s2 (cycle_of metadata (pending s1)) fs) as (s3 & E3 & W3 & Hcyc3).
  { by rewrite Ep2. }
  { intros c0 Hc0. unfold cycle_of in Hc0. destruct (py_eqb _ _); [|done].
    destruct (py_int _) as [z|]; [|done]. eapply Hcyc1, Hc0. }
  destruct (append_events_ok (worker_failed_event row <$> added) s3) as (s4 & E4 & W4).
  { apply Forall_fmap, Forall_true. by intros ?. }
  exists s4, rec, added, row1, after.
  assert (Ep4 : pending s4 = add_events (now s3) (worker_failed_event row <$> added) (pending s3)) by apply W4.
  assert (Er3 : runs (pending s3) = runs (pending s1)) by (rewrite (wr_pending _ _ _ W3); by rewrite <- Ep2).
  assert (Ee3 : events (pending s3) = events (pending s)).
  { rewrite (wr_pending _ _ _ W3). simpl. rewrite Ep2, (wr_pending _ _ _ W1). done. }
  split_and!; try done.
  - unfold update_receipts. rewrite (bind_eq_ok _ _ s s before) by (unfold lift_result; by rewrite Hread).
    transitivity (bind (flush_metadata row metadata) (fun _ =>
      cycle <- _lock_cycle_run metadata ;;
      match cycle, fs with
      | Some c, _ :: _ =>
          cycle_receipt <- lift_result
            (receipt_from_payload (jget_or_null "evidence_health" (context_snapshot c))) ;;
          set_cycle_run {| cyc_id := cyc_id c; cyc_run_id := cyc_run_id c;
            context_snapshot := jset "evidence_health"
              (JObj (receipt_to_payload (with_failures cycle_receipt fs).1)) (context_snapshot c) |}
      | _, _ => ret tt
      end ;;;
      for_each (fun f => append_event (worker_failed_event row f) ;;; ret tt) added ;;;
      ret (rec, added)) s).
    { unfold metadata, rec, added. by destruct (noted before fs). }
    rewrite (bind_eq_ok _ _ _ _ _ E1), (bind_eq_ok _ _ _ _ _ E2), (bind_eq_ok _ _ _ _ _ E3).
    erewrite bind_eq_ok; [done|]. by rewrite for_each_events.
  - split; try done.
    + by rewrite Ep4, add_events_runs, Er3.
    + unfold root_present. rewrite Ep4, add_events_runs, Er3. exact Hroot1.
    + intros j c0. rewrite Ep4, add_events_cycles. apply Hcyc3.
  - intros f Hf. by apply Hin.
  - rewrite Ep4, reported_add.
    + unfold reported, run_events. rewrite Ee3. f_equal. by rewrite <- list_fmap_compose.
    + apply Forall_fmap, Forall_true. intros f. simpl. by rewrite Hid.
Qed.

Lemma lock_run_ready s i row r :
  parent_ready s i row r -> exists s', lock_run i s = (s', Ok (Some row)) /\ locked s s'.
Proof.
  intros [Hrow Hid Hroot _ _ _].
  destruct (locked_run_ok s i None row Hrow Hid Hroot) as (s1 & _ & E1); [by left|].
  destruct (lock_run_spec i None false s) as (s2 & Hl & E2). exists s2. split; [|done].
  unfold lock_run. rewrite E2. unfold _locked_run in E1. rewrite (bind_eq_ok _ _ _ _ _ E2) in E1.
  destruct (lock_result s i None false) as [r'|]; [|done]. by injection E1 as _ ->.
Qed.

Lemma ready_pending s s' i row r : pending s' = pending s -> parent_ready s i row r -> parent_ready s' i row r.
Proof. intros E []. split; rewrite ?E; try done. unfold root_present. by rewrite E. Qed.

Lemma persist_ok s i row before fs c :
  parent_ready s i row before -> Forall fresh_failure fs ->
  exists s' rec added row' after, _persist_parent_evidence_receipt i fs c s = (s', Ok (rec, added)) /\
    parent_ready s' i row' after /\
    (forall x, x ∈ receipt_ids after <-> x ∈ receipt_ids before \/ x ∈ identity <$> fs) /\
    (degraded before = true \/ fs <> [] -> degraded after = true) /\
    identity <$> added = filter (fun x => x ∉ receipt_ids before) (fromkeys (identity <$> fs)) /\
    (forall f, f ∈ added -> f ∈ fs) /\
    reported i (pending s') = reported i (pending s) ++ (failure_to_payload <$> added).
Proof.
  intros Hready Hfs. destruct (decide (fs = [] /\ c = None)) as [[-> ->]|Hne].
  { exists s, None, [], row, before. split_and!; try done; [set_solver|by intros [|]|by rewrite app_nil_r]. }
  assert (Hown : parent_ready (set_auto_commit false s) i row before) by by eapply ready_pending; [|done].
  destruct (lock_run_ready _ _ _ _ Hown) as (s1 & E1 & Hl). destruct (locked_fields _ _ Hl) as (Ep & _).
  destruct (update_receipts_ok s1 i row before fs c (ready_pending _ _ _ _ _ Ep Hown) Hfs)
    as (s2 & rec & added & row' & after & E2 & Hr & Hids & Hd & Hadd & Hin & Hrep).
  exists (set_auto_commit (auto_commit s) s2), (Some rec), added, row', after.
  split_and!; try done.
  - transitivity (own_store (row <- lock_run i ;;
      match row with
      | None => ret (None, [])
      | Some row => r <- update_receipts row fs c ;; ret (Some r.1, r.2)
      end) s).
    { unfold _persist_parent_evidence_receipt. destruct fs; [|done]. destruct c; [done|tauto]. }
    unfold own_store. rewrite (bind_eq_ok _ _ _ _ _ E1). by rewrite (bind_eq_ok _ _ _ _ _ E2).
  - by eapply ready_pending; [|exact Hr].
  - simpl. rewrite Hrep, Ep. done.
Qed.

Definition record_all (parent : Z) (calls : list (list WorkerEvidenceFailure * option (list string))) : DB unit :=
  for_each (fun c => _persist_parent_evidence_receipt parent c.1 c.2 ;;; ret tt) calls.

(** C13. A failure of a worker is reported once.  However often evidence is recorded
    for a fan-out, by its workers as they settle, by its barrier or at admission: no
    call raises, the run gets one event for each failure that was not known before, in
    the order they came, and none for one that was, although only twenty are stored in
    full; everything recorded is known from then on, and a receipt that was degraded
    or has seen a failure stays degraded. *)
Theorem worker_failures_reported_once (calls : list (list WorkerEvidenceFailure * option (list string))) :
  forall (s : store) (i : Z) (row : run_row) (before : WorkerEvidenceReceipt),
  parent_ready s i row before -> Forall (fun c => Forall fresh_failure c.1) calls ->
  let failures := concat (fst <$> calls) in
  exists s' row' after reports, record_all i calls s = (s', Ok tt) /\
    parent_ready s' i row' after /\
    reported i (pending s') = reported i (pending s) ++ (failure_to_payload <$> reports) /\
    identity <$> reports = filter (fun x => x ∉ receipt_ids before) (fromkeys (identity <$> failures)) /\
    (forall f, f ∈ reports -> f ∈ failures) /\
    (forall x, x ∈ receipt_ids after <-> x ∈ receipt_ids before \/ x ∈ identity <$> failures) /\
    (degraded before = true \/ failures <> [] -> degraded after = true).
Proof.
  induction calls as [|[fs c] calls IH]; intros s i row before Hready Hc; cbv zeta.
  { exists s, row, before, []. split_and!; try done; [by rewrite app_nil_r|set_solver|by intros [|]]. }
  apply Forall_cons in Hc as [Hfs Hc]. simpl in Hfs.
  destruct (persist_ok s i row before fs c Hready Hfs)
    as (s1 & rec & added & row1 & mid & E1 & Hr1 & Hids1 & Hd1 & Hadd1 & Hin1 & Hrep1).
  destruct (IH s1 i row1 mid Hr1 Hc) as (s2 & row2 & after & more & E2 & Hr2 & Hrep2 & Hadd2 & Hin2 & Hids2 & Hd2).
  exists s2, row2, after, (added ++ more). cbn [fmap list_fmap concat]. split_and!.
  - unfold record_all. cbn [for_each fst snd]. erewrite bind_eq_ok; [exact E2|]. by erewrite bind_eq_ok.
  - done.
  - by rewrite Hrep2, Hrep1, fmap_app, app_assoc.
  - rewrite !fmap_app, fromkeys_app_filter, filter_app, Hadd1, Hadd2. f_equal.
    rewrite list_filter_filter. apply list_filter_iff. intros x. rewrite Hids1. tauto.
  - intros f [Hf|Hf]%elem_of_app; apply elem_of_app; auto.
  - intros x. rewrite Hids2, Hids1, fmap_app, elem_of_app. tauto.
  - intros [Hb|Hne]; apply Hd2; [left; auto|].
    destruct fs as [|f fs]; [right; done|left; by apply Hd1; right].
Qed.
End recording.

(** * The failures the code records *)

Lemma terminal_worker_fresh w f : from_terminal_worker w = Some f -> fresh_failure f.
Proof.
  unfold from_terminal_worker. destruct (_ || _); [done|]. intros [= <-].
  split; [|done]. split; simpl; try done. apply shard_clean.
Qed.

Lemma admission_fresh role shard conf prov cred err :
  clean shard -> clean_opt conf -> fresh_failure (for_admission role shard conf prov cred err).
Proof. intros. split; [|done]. by split. Qed.

Lemma materialization_fresh w errors n resource : fresh_failure (materialization_failure w errors n resource).
Proof. split; [|done]. split; simpl; try done. apply shard_clean. Qed.

(** A parent two of whose workers failed; one of them is recorded twice. *)
Definition demo_worker (i : Z) (shard : string) : run_row :=
  demo_row i FAILED [("worker_shard", JStr shard); ("spawned_by_tool", JBool true)] None 1 20.
Definition demo_failures (i : Z) (shard : string) : list WorkerEvidenceFailure :=
  omap from_terminal_worker [demo_worker i shard].
Definition demo_calls : list (list WorkerEvidenceFailure * option (list string)) :=
  [(demo_failures 2 "api", None); (demo_failures 3 "web" ++ demo_failures 2 "api", None);
   (demo_failures 3 "web", Some ["api"; "web"])].
Definition demo_parent : run_row := demo_row 1 RUNNING [] (Some "token") 1 10.
Definition empty_receipt : WorkerEvidenceReceipt :=
  {| wr_status := None; wr_completeness := None; wr_failures := []; wr_failure_identities := [];
     wr_worker_shards := []; wr_details := [] |}.

Lemma empty_receipt_wf : receipt_wf empty_receipt.
Proof. by split; try constructor. Qed.

Lemma demo_parent_ready : parent_ready (demo_store false (demo_db [demo_parent] [])) 1 demo_parent empty_receipt.
Proof.
  split; [done|done|by eexists|done|apply empty_receipt_wf|].
  intros i c. simpl. by rewrite lookup_empty.
Qed.

Lemma worker_failures_reported_once_witness :
  exists s' reports, record_all 1 demo_calls (demo_store false (demo_db [demo_parent] [])) = (s', Ok tt) /\
    reported 1 (pending s') = failure_to_payload <$> reports /\
    identity <$> reports = [(Some 2%Z, "api", "worker_execution", None); (Some 3%Z, "web", "worker_execution", None)].
Proof.
  destruct (worker_failures_reported_once demo_calls _ _ _ _ demo_parent_ready)
    as (s' & row' & after & reports & E & _ & Hr & Hi & _).
  - repeat constructor; simpl; try done; try apply shard_clean.
  - exists s', reports. split; [exact E|]. split; [exact Hr|]. rewrite Hi. vm_compute. reflexivity.
Defined.
