(* ===== verification/Continuation.v ===== *)
(** The continuation of worker fan-outs, [brain/systems/runs/chantier_continuation.py]:
    when a parent run and all the workers it spawned have settled, one run is queued
    that folds in their results.  Admission of that run is the work intake, which the
    code calls through [admit_work]; it is a class here. *)
From Stdlib Require Import Ascii.
From S2P Require Import Prelude.
From S2P Require Import PyStr.
From S2P Require Import Json.
From S2P Require Import JsonText.
From S2P Require Import Status.
From S2P Require Import Failures.
From S2P Require Import RunStore.
From S2P Require Import RunCreate.
From S2P Require Import RunLifecycle.
From S2P Require Import RunMessages.
From S2P Require Import EvidenceHealth.
Open Scope string_scope.
Open Scope bool_scope.
Open Scope list_scope.

Definition CONTINUATION_QUEUED_EVENT : string := "run.chantier_continuation_queued".
Definition CONTINUATION_SOURCE : string := "chantier_continuation".
Definition GENERIC_CONTINUATION_QUEUED_EVENT : string := "run.worker_continuation_queued".
Definition GENERIC_CONTINUATION_SOURCE : string := "worker_continuation".
Definition CONTINUATION_AUTH_BLOCKED_EVENT : string := "run.continuation_auth_blocked".
Definition CONTINUATION_RECOVERY_FAILED_EVENT : string := "run.continuation_recovery_failed".
Definition _MAX_CHILD_OUTPUT_CHARS : nat := 6000.
Definition _MAX_OUTPUTS_CHARS : nat := 24000.

Definition RUN_COMPLETION_HOOK : string := "run_completion_hook".

(** * The work intake *)

Record WorkIntakeEvent : Type := {
  wi_source : string;
  wi_event_type : string;
  wi_org_id : string;
  wi_actor : dict;
  wi_target : dict;
  wi_payload : dict;
  wi_policy : dict;
}.

Record WorkIntakeResult : Type := {
  wi_ok : bool;
  wi_run_id : option Z;
  wi_skipped_reason : option string;
}.

Class WorkIntake : Type := { admit_work : WorkIntakeEvent -> DB WorkIntakeResult }.

Definition invalid_target (reason : option string) : bool :=
  let reason := str_or reason "" in
  ((startswith "Idea " reason || startswith "Thread " reason) && endswith " not found" reason)
  || str_in reason ["Agent run continuation requires thread_id";
                    "Agent run continuation requires target_ref";
                    "Work intake target requires idea_id for Cortex run admission"].

Definition admission_error (message : string) (reason : option string) : exn :=
  ContinuationAdmissionError message (invalid_target reason).

(** * Fan-outs *)

Definition _is_spawned_worker (metadata : dict) : bool :=
  truthy (jget_or_null "spawned_by_tool" metadata)
  || String.eqb (str_or_empty (jget_or_null "origin" metadata)) "spawn_worker".

Definition spawned_workers (parent : Z) (d : db) : list run_row :=
  filter (fun r => _is_spawned_worker (metadata_ r) = true)
    (by_created (filter (fun r => parent_run_id (spec r) = Some parent) (all_runs d))).
Definition _spawned_workers (parent : Z) : DB (list run_row) :=
  gets (fun s => spawned_workers parent (pending s)).

Definition fanout_anchor_id (terminal_run : run_row) (d : db) : option Z :=
  match _is_spawned_worker (metadata_ terminal_run), parent_run_id (spec terminal_run) with
  | true, Some parent => Some parent
  | _, _ => match spawned_workers (run_id terminal_run) d with
            | [] => None
            | _ => Some (run_id terminal_run)
            end
  end.
Definition _fanout_anchor_id (terminal_run : run_row) : DB (option Z) :=
  gets (fun s => fanout_anchor_id terminal_run (pending s)).

(** [coerce_run_status(run.status) in TERMINAL_RUN_STATUSES]. *)
Definition has_settled (r : run_row) : bool :=
  is_terminal (coerce_run_status (Raw (status r)) QUEUED).

Definition _wants_generic_continuation (workers : list run_row) : bool :=
  existsb (fun w => is_jbool true (jget_or_null "join_parent" (metadata_ w))) workers.

(** * The chantier a fan-out belongs to *)

Record ChantierScope : Type := {
  sc_record_id : Z;
  sc_domain_id : option Z;
  sc_source_run : run_row;
}.

Definition _positive_int (j : json) : option Z :=
  match int_of_str (py_str j) with
  | Some z => if Z.ltb 0 z then Some z else None
  | None => None
  end.

Definition _record_ref_id (j : json) : option Z :=
  let prefix := "domain_record:" in
  let text := strip (str_or_empty j) in
  if startswith prefix text then _positive_int (JStr (removeprefix prefix text)) else None.

Definition scope_of_value (run : run_row) (j : json) : option ChantierScope :=
  match j with
  | JObj v =>
      let get k := jget_or_null k v in
      match opt_or (_positive_int (jor (get "record_id") (get "chantier_record_id")))
                   (_record_ref_id (get "record_ref")) with
      | Some record_id =>
          Some {| sc_record_id := record_id;
                  sc_domain_id := _positive_int (jor (get "domain_id") (get "chantier_domain_id"));
                  sc_source_run := run |}
      | None => None
      end
  | _ => None
  end.

Definition _scope_from_run (run : run_row) : option ChantierScope :=
  head (omap (fun key => scope_of_value run (jget_or_null key (metadata_ run)))
         ["chantier_continuation"; "chantier_declare_guarantee"; "chantier_declare"]).

(** The walk from [current] to its ancestors. *)
Fixpoint scope_of_lineage (fuel : nat) (seen : list Z) (current : option run_row) (d : db)
    : option ChantierScope :=
  match fuel, current with
  | Datatypes.S fuel', Some r =>
      if bool_decide (run_id r ∈ seen) then None
      else match _scope_from_run r with
           | Some scope => Some scope
           | None => scope_of_lineage fuel' (run_id r :: seen)
                       (match parent_run_id (spec r) with Some p => runs d !! p | None => None end) d
           end
  | _, _ => None
  end.

(** One step more than there are runs. *)
Definition lineage_fuel (d : db) : nat := Datatypes.S (size (runs d)).

Definition thread_runs (anchor : run_row) (d : db) : list run_row :=
  reverse (by_id (filter (fun r => org_id (spec r) = org_id (spec anchor)
                                   /\ thread_id (spec r) = thread_id (spec anchor)
                                   /\ (run_id r <= run_id anchor)%Z) (all_runs d))).

Definition resolve_scope (anchor : run_row) (d : db) : option ChantierScope :=
  opt_or (scope_of_lineage (lineage_fuel d) [] (Some anchor) d)
         (head (omap _scope_from_run (thread_runs anchor d))).
Definition _resolve_chantier_scope (anchor : run_row) : DB (option ChantierScope) :=
  gets (fun s => resolve_scope anchor (pending s)).

(** * The cycle a fan-out was launched for *)

Definition SCHEDULED_DIGEST_RUN_KIND : string := "scheduled_digest".
Definition OFF_SLOT_MATERIAL_ALERT_RUN_KIND : string := "off_slot_material_alert".
Definition _VALID_RUN_KINDS : list string := [SCHEDULED_DIGEST_RUN_KIND; OFF_SLOT_MATERIAL_ALERT_RUN_KIND].

(** [cycle_run_id] and [run_kind]. *)
Definition cycle_exception_ping_context (metadata : dict) : option (Z * string) :=
  let cycle_run_id := match jget_or_null "cycle_run_id" metadata with
                      | JInt z => Some z
                      | JStr "" => None
                      | JStr t => int_of_str t
                      | _ => None
                      end in
  match cycle_run_id with
  | Some id =>
      if Z.leb id 0 then None
      else
        let envelope := as_dict (jget_or_null "launch_envelope" metadata) in
        let launch_context := match as_dict (jget_or_null "launch_context" envelope) with
                              | [] => as_dict (jget_or_null "launch_context" metadata)
                              | c => c
                              end in
        let run_kind := lower (squeeze (str_or_empty (jget_or_null "run_kind" launch_context))) in
        if str_in run_kind _VALID_RUN_KINDS then Some (id, run_kind) else None
  | None => None
  end.

Definition cycle_run_launch_context (c : cycle_run) : dict :=
  match as_dict (jget_or_null "launch_context" (context_snapshot c)) with
  | [] => [("origin", JStr "scheduled_cycle"); ("source", JStr "cycle_scheduler");
           ("run_kind", JStr SCHEDULED_DIGEST_RUN_KIND)]
  | launch_context => launch_context
  end.

Definition same_owner (a b : run_row) : bool :=
  bool_decide (org_id (spec a) = org_id (spec b)) && bool_decide (user_id (spec a) = user_id (spec b))
  && String.eqb (thread_id (spec a)) (thread_id (spec b)).

(** The run a run continues or was spawned by; [None] when it names none. *)
Definition lineage_parent (r : run_row) : option Z :=
  let metadata := metadata_ r in
  let parent := match jor (jget_or_null "worker_continuation" metadata)
                          (jget_or_null "chantier_continuation" metadata) with
                | JObj c => strict_int (jget_or_null "anchor_run_id" c)
                | _ => parent_run_id (spec r)
                end in
  match parent with Some p => if Z.ltb 0 p then Some p else None | None => None end.

(** [fuel] is the bound of the code's loop, 64 runs. *)
Fixpoint cycle_of_lineage (fuel : nat) (visited : list Z) (context : Z * string) (launched : Z)
    (source current : run_row) (d : db) : dict :=
  match fuel with
  | O => []
  | Datatypes.S fuel' =>
      if bool_decide (run_id current ∈ visited) || negb (same_owner current source) then []
      else if Z.eqb (run_id current) launched then
        let original := metadata_ current in
        if bool_decide (cycle_exception_ping_context original = Some context)
        then ("cycle_run_id", JInt context.1)
             :: omap (fun key => (fun v => (key, v)) <$> jget key original) ["launch_envelope"; "launch_context"]
        else []
      else match lineage_parent current ≫= fun p => runs d !! p with
           | Some next => cycle_of_lineage fuel' (run_id current :: visited) context launched source next d
           | None => []
           end
  end.

Definition inherited_cycle_context (source : run_row) (d : db) : dict :=
  match cycle_exception_ping_context (metadata_ source) with
  | None => []
  | Some context =>
      match cycle_runs d !! context.1 with
      | Some occurrence =>
          match cyc_run_id occurrence with
          | None | Some 0%Z => []
          | Some launched =>
              if py_eqb (jget_or_null "run_kind" (cycle_run_launch_context occurrence)) (JStr context.2)
              then cycle_of_lineage 64 [] context launched source source d
              else []
          end
      | None => []
      end
  end.
Definition _inherited_cycle_context (source : run_row) : DB dict :=
  gets (fun s => inherited_cycle_context source (pending s)).

(** * What the continuation is told *)

Record child_result : Type := {
  child_run_id : Z;
  child_status : string;
  child_role : json;
  child_output : string;
}.

(** ORDER BY created_at DESC, id DESC. *)
Definition newer (a b : artifact_row) : bool :=
  Z.ltb (art_created_at b) (art_created_at a)
  || (Z.eqb (art_created_at a) (art_created_at b) && Z.leb (art_id b) (art_id a)).

(** The newest final answer of a worker, otherwise its newest result. *)
Definition worker_output (id : Z) (d : db) : option string :=
  let rows := py_sorted newer (filter (fun a => art_run_id a = id
                /\ art_type a ∈ [value FINAL_ANSWER; value WORKER_RESULT]) (artifacts d)) in
  (fun a => str_or (art_text a) "") <$>
    opt_or (head (filter (fun a => art_type a = value FINAL_ANSWER) rows)) (head rows).
Definition _latest_worker_outputs (ids : list Z) (d : db) : Z -> option string := fun id =>
  if bool_decide (id ∈ ids) then worker_output id d else None.

Fixpoint limited_results (outputs : Z -> option string) (remaining : nat) (workers : list run_row)
    : list child_result :=
  match workers with
  | [] => []
  | w :: workers' =>
      let output := str_take (Nat.min _MAX_CHILD_OUTPUT_CHARS remaining) (default "" (outputs (run_id w))) in
      {| child_run_id := run_id w; child_status := status w;
         child_role := jor (jget_or_null "worker_role" (metadata_ w)) (JStr "worker");
         child_output := output |}
      :: limited_results outputs (remaining - String.length output) workers'
  end.

Definition child_results (workers : list run_row) (d : db) : list child_result :=
  limited_results (_latest_worker_outputs (run_id <$> workers) d) _MAX_OUTPUTS_CHARS workers.
Definition _child_results (workers : list run_row) : DB (list child_result) :=
  gets (fun s => child_results workers (pending s)).

Definition child_lines (r : child_result) : list string :=
  [""; "## Worker run " +:+ str_of_Z (child_run_id r) +:+ " (" +:+ py_str (child_role r) +:+ ", "
       +:+ child_status r +:+ ")";
   if String.eqb (child_output r) "" then "[No textual artifact was recorded.]" else child_output r].

Definition _evidence_health_message_lines (receipt : WorkerEvidenceReceipt) : list string :=
  if negb (degraded receipt) then ["Evidence health: ok; every spawned worker shard completed."; ""]
  else
    let named := join ", " (missing_shards receipt) in
    ["Evidence health: degraded; missing worker shard(s): "
       +:+ (if String.eqb named "" then "unknown worker shard" else named) +:+ ".";
     "Do not report a normal sweep or infer absence from those missing shards."; ""].

Definition _continuation_message (scope : ChantierScope) (fanout : Z) (results : list child_result)
    (receipt : WorkerEvidenceReceipt) : string :=
  join newline
    (["Automated chantier continuation: the worker fan-out has reached its terminal barrier.";
      "No human follow-up triggered this run."; "";
      "Chantier Domain record: " +:+ str_of_Z (sc_record_id scope);
      "Anchor thread: " +:+ thread_id (spec (sc_source_run scope));
      "Completed fan-out run: " +:+ str_of_Z fanout; ""]
     ++ _evidence_health_message_lines receipt
     ++ ["Consume every durable worker result below. Fold the evidence into the chantier record "
         +:+ "and continue the loop: decide the next step, ask any genuinely blocking questions on "
         +:+ "the anchor surface, and delegate distinct follow-up work when warranted. Do not wait "
         +:+ "for a human nudge merely because the fan-out parent already ended."]
     ++ (results ≫= child_lines)).

Definition _generic_continuation_message (anchor : run_row) (results : list child_result)
    (receipt : WorkerEvidenceReceipt) : string :=
  join newline
    (["Automated worker continuation: the worker fan-out has reached its terminal barrier.";
      "No human follow-up triggered this run."; "";
      "Anchor thread: " +:+ thread_id (spec anchor);
      "Completed fan-out run: " +:+ str_of_Z (run_id anchor); ""]
     ++ _evidence_health_message_lines receipt
     ++ ["Consume every durable worker result below. Synthesize their evidence, continue the "
         +:+ "parent thread's work, and decide the next step. Ask genuinely blocking questions on "
         +:+ "the parent surface when needed. Do not wait for a human nudge merely because the "
         +:+ "fan-out parent already ended."]
     ++ (results ≫= child_lines)).

Definition _continuation_target (source : run_row) (scope : ChantierScope) (fanout : Z) : dict :=
  jset "chantier" (JObj [("record_id", JInt (sc_record_id scope)); ("domain_id", opt_int (sc_domain_id scope));
    ("anchor_thread_id", JStr (thread_id (spec source))); ("completed_fanout_run_id", JInt fanout)])
    (target_ref (spec source)).

Definition surface_keys : list string :=
  ["slack_trigger"; "slack_thread_id"; "discussion_trigger"; "originating_surface"; "triggering_surface";
   "source_surface"; "required_response_tool"; "final_answer_target_surface"].

(** [value not in (None, "", {}, [])]. *)
Definition is_given (j : json) : bool :=
  match j with JNull | JStr "" | JObj [] | JList [] => false | _ => true end.

Definition setdefault (d : dict) (k : string) (v : json) : dict := if jhas k d then d else jset k v d.

(** The keys every continuation inherits from its source. *)
Definition inherit_metadata (source : run_row) (metadata : dict) : dict :=
  let given := filter (fun kv => is_given kv.2 = true)
                 ((fun key => (key, jget_or_null key (metadata_ source))) <$> surface_keys) in
  fold_left (fun d kv => setdefault d kv.1 kv.2) (model_policy (spec source)) (jupdate metadata given).

Definition _continuation_metadata (source : run_row) (scope : ChantierScope) (fanout : Z)
    (worker_ids : list Z) (evidence_health cycle_context : dict) : dict :=
  inherit_metadata source (jupdate cycle_context
    [("execution_profile", JStr (profile (spec source))); ("evidence_health", JObj evidence_health);
     ("chantier_continuation", JObj [("record_id", JInt (sc_record_id scope));
        ("domain_id", opt_int (sc_domain_id scope)); ("anchor_run_id", JInt (run_id source));
        ("anchor_thread_id", JStr (thread_id (spec source))); ("completed_fanout_run_id", JInt fanout);
        ("worker_run_ids", JList (JInt <$> worker_ids))])]).

Definition _generic_continuation_target (anchor : run_row) : dict :=
  [("kind", JStr "agent_run_continuation"); ("thread_id", JStr (thread_id (spec anchor)));
   ("target_ref", JObj (target_ref (spec anchor)))].

Definition _generic_continuation_metadata (anchor : run_row) (worker_ids : list Z)
    (evidence_health cycle_context : dict) : dict :=
  inherit_metadata anchor (jupdate cycle_context
    [("execution_profile", JStr (profile (spec anchor))); ("evidence_health", JObj evidence_health);
     ("worker_continuation", JObj [("anchor_run_id", JInt (run_id anchor));
        ("anchor_thread_id", JStr (thread_id (spec anchor)));
        ("completed_fanout_run_id", JInt (run_id anchor)); ("worker_run_ids", JList (JInt <$> worker_ids))])]).

(** * Queueing *)

Definition chantier_key (fanout : Z) : string := "chantier:continuation:" +:+ str_of_Z fanout.
Definition generic_key (fanout : Z) : string := "worker:continuation:" +:+ str_of_Z fanout.

Definition run_of_key (key : string) (d : db) : option Z :=
  run_id <$> head (by_id (filter (fun r => source_idempotency_key (spec r) = Some key) (all_runs d))).
Definition _existing_continuation_run_id (fanout : Z) : DB (option Z) :=
  gets (fun s => run_of_key (chantier_key fanout) (pending s)).
Definition _existing_generic_continuation_run_id (fanout : Z) : DB (option Z) :=
  gets (fun s => run_of_key (generic_key fanout) (pending s)).

(** [x or y] on nullable texts. *)
Definition text_or (x y : option string) : option string :=
  match x with None | Some "" => y | _ => x end.

Definition continuation_actor (user org : option string) (name : string) : dict :=
  [("id", opt_str user); ("org_id", opt_str org); ("principal_type", JStr "agent_runtime"); ("name", JStr name)].
Definition continuation_policy (key event : string) : dict :=
  [("producer", JStr RUN_COMPLETION_HOOK); ("idempotency_key", JStr key); ("run_event", JStr event)].

Section queueing.
Context `{Platform} `{ProviderErrorTaxonomy} `{WorkIntake}.

Definition hook_event (anchor : run_row) (event_type : string) (payload : dict) : AgentRunEvent :=
  run_event (run_id anchor) event_type payload
    (Some (int_or (root_run_id (spec anchor)) (run_id anchor))) RUN_COMPLETION_HOOK.

Definition _record_blocked_continuation (anchor : run_row) (reason owner : option string) : DB bool :=
  if negb (startswith "credential_expired:" (str_or reason "")
           || startswith "provider_credential_unavailable:" (str_or reason ""))
  then ret false
  else
    recorded <- has_event_type (run_id anchor) CONTINUATION_AUTH_BLOCKED_EVENT ;;
    when_ (negb recorded)
      (append_event (hook_event anchor CONTINUATION_AUTH_BLOCKED_EVENT
         [("reason", opt_str reason); ("owner_user_id", opt_str owner)]) ;;; ret tt) ;;;
    ret true.

(** Admits the run and records that it is queued; [refusal] names what failed. *)
Definition admit_continuation (anchor : run_row) (event : WorkIntakeEvent) (owner : option string)
    (refusal queued_event : string) (payload : Z -> dict) : DB (option Z) :=
  admission <- admit_work event ;;
  match wi_ok admission, wi_run_id admission with
  | true, Some id =>
      append_event (hook_event anchor queued_event (payload id)) ;;; ret (Some id)
  | _, _ =>
      blocked <- _record_blocked_continuation anchor (wi_skipped_reason admission) owner ;;
      if (blocked : bool) then ret None
      else raise (admission_error (refusal +:+ " continuation admission failed for fan-out "
             +:+ str_of_Z (run_id anchor) +:+ ": "
             +:+ str_or (wi_skipped_reason admission) "missing run id") (wi_skipped_reason admission))
  end.

Definition generic_event (anchor : run_row) (workers : list run_row) (results : list child_result)
    (receipt : WorkerEvidenceReceipt) (cycle_context : dict) : WorkIntakeEvent :=
  {| wi_source := GENERIC_CONTINUATION_SOURCE; wi_event_type := "worker.child_runs_completed";
     wi_org_id := str_or (org_id (spec anchor)) "";
     wi_actor := continuation_actor (user_id (spec anchor)) (org_id (spec anchor)) "worker continuation hook";
     wi_target := _generic_continuation_target anchor;
     wi_payload := [("message", JStr (_generic_continuation_message anchor results receipt));
       ("workspace_ref", JObj (workspace_ref (spec anchor)));
       ("model_policy", JObj (model_policy (spec anchor)));
       ("metadata", JObj (_generic_continuation_metadata anchor (run_id <$> workers)
                            (receipt_to_payload receipt) cycle_context))];
     wi_policy := continuation_policy (generic_key (run_id anchor)) "worker_continuation" |}.

Definition _queue_generic_continuation (anchor : run_row) (workers : list run_row) : DB (option Z) :=
  if negb (_wants_generic_continuation workers) then ret None
  else
    queued <- has_event_type (run_id anchor) GENERIC_CONTINUATION_QUEUED_EVENT ;;
    if (queued : bool) then _existing_generic_continuation_run_id (run_id anchor)
    else
      results <- _child_results workers ;;
      receipt <- lift_result (worker_evidence_receipt_for_run anchor) ;;
      cycle_context <- _inherited_cycle_context anchor ;;
      admit_continuation anchor (generic_event anchor workers results receipt cycle_context)
        (user_id (spec anchor)) "Worker" GENERIC_CONTINUATION_QUEUED_EVENT
        (fun id => [("continuation_run_id", JInt id); ("anchor_thread_id", JStr (thread_id (spec anchor)));
                    ("worker_run_ids", JList ((fun w => JInt (run_id w)) <$> workers))]).

Definition chantier_event (anchor : run_row) (scope : ChantierScope) (workers : list run_row)
    (results : list child_result) (receipt : WorkerEvidenceReceipt) (cycle_context : dict) : WorkIntakeEvent :=
  let source := sc_source_run scope in
  {| wi_source := CONTINUATION_SOURCE; wi_event_type := "chantier.child_runs_completed";
     wi_org_id := str_or (org_id (spec anchor)) "";
     wi_actor := continuation_actor (text_or (user_id (spec source)) (user_id (spec anchor)))
                   (org_id (spec anchor)) "chantier continuation hook";
     wi_target := _continuation_target source scope (run_id anchor);
     wi_payload := [("message", JStr (_continuation_message scope (run_id anchor) results receipt));
       ("workspace_ref", JObj (workspace_ref (spec source)));
       ("metadata", JObj (_continuation_metadata source scope (run_id anchor) (run_id <$> workers)
                            (receipt_to_payload receipt) cycle_context))];
     wi_policy := continuation_policy (chantier_key (run_id anchor)) "chantier_continuation" |}.

Definition queue_chantier (anchor : run_row) (scope : ChantierScope) (workers : list run_row)
    : DB (option Z) :=
  let source := sc_source_run scope in
  results <- _child_results workers ;;
  receipt <- lift_result (worker_evidence_receipt_for_run anchor) ;;
  cycle_context <- _inherited_cycle_context source ;;
  admit_continuation anchor (chantier_event anchor scope workers results receipt cycle_context)
    (text_or (user_id (spec source)) (user_id (spec anchor))) "Chantier" CONTINUATION_QUEUED_EVENT
    (fun id => [("continuation_run_id", JInt id); ("chantier_record_id", JInt (sc_record_id scope));
                ("chantier_domain_id", opt_int (sc_domain_id scope));
                ("anchor_thread_id", JStr (thread_id (spec source)));
                ("worker_run_ids", JList ((fun w => JInt (run_id w)) <$> workers))]).

(** Behind the barrier: [anchor] and all [workers] have settled. *)
Definition continue_fanout (anchor : run_row) (workers : list run_row) : DB (option Z) :=
  queued <- has_event_type (run_id anchor) CONTINUATION_QUEUED_EVENT ;;
  if (queued : bool) then _existing_continuation_run_id (run_id anchor)
  else
    scope <- _resolve_chantier_scope anchor ;;
    match scope with
    | None => _queue_generic_continuation anchor workers
    | Some scope => queue_chantier anchor scope workers
    end.

(** Recording the evidence assigns to the ORM object of the anchor, so what follows
    reads the anchor as it is then. *)
Definition queue_chantier_continuation_for_terminal_run (terminal_run : Z) : DB (option Z) := own_store (
  run <- get_run terminal_run ;;
  match run with
  | None => ret None
  | Some run =>
      anchor_id <- _fanout_anchor_id run ;;
      match anchor_id with
      | None => ret None
      | Some anchor_id =>
          anchor <- lock_run anchor_id ;;
          match anchor with
          | None => ret None
          | Some anchor =>
              workers <- _spawned_workers (run_id anchor) ;;
              match workers with
              | [] => ret None
              | _ =>
                  let barrier := has_settled anchor && forallb has_settled workers in
                  record_terminal_worker_evidence (run_id anchor) workers barrier ;;;
                  if negb barrier then ret None
                  else
                    anchor <- require_run (run_id anchor) ;;
                    continue_fanout anchor workers
              end
          end
      end
  end).

(** * Recovery of blocked continuations *)

(** ROLLBACK TO SAVEPOINT restores [d]; runs that other transactions committed
    meanwhile are there, and numbers taken from a sequence are not given back. *)
Definition rollback_to (d : db) : DB unit :=
  modify (fun s => set_pending
    {| runs := runs d ∪ runs (committed s); events := events d; artifacts := artifacts d;
       cycle_runs := cycle_runs d; next_run_id := Z.max (next_run_id d) (next_run_id (committed s));
       next_event_id := next_event_id d; next_artifact_id := next_artifact_id d |} s).

(** [async with session.begin_nested()] around a body that does not commit. *)
Definition begin_nested {A} (body : DB A) : DB A :=
  s0 <- get ;;
  catch body (fun e => rollback_to (pending s0) ;;; raise e).

(** A row of [user_codex_connections]. *)
Record UserCodexConnection : Type := {
  ucc_user_id : string;
  ucc_is_active : bool;
  ucc_credential_error_code : option string;
}.

(** [payload[key].as_string()]. *)
Definition payload_text (key : string) (e : event_row) : option string :=
  match jget_or_null key (ev_payload e) with
  | JNull => None
  | JStr t => Some t
  | j => Some (dumps ", " ": " j)
  end.

Definition undashed (t : string) : string := replace_char "-"%char "" t.

Definition credential_expired_for (connections : list UserCodexConnection) (owner : option string) : bool :=
  match owner with
  | None => false
  | Some owner =>
      existsb (fun c => String.eqb (undashed (ucc_user_id c)) (undashed owner) && ucc_is_active c
                        && bool_decide (ucc_credential_error_code c = Some "credential_expired")) connections
  end.

(** [NOT (reason LIKE .. AND reason LIKE .. AND expired)]; a NULL reason leaves the
    condition to [expired]. *)
Definition may_recover (connections : list UserCodexConnection) (e : event_row) : bool :=
  let expired := credential_expired_for connections (payload_text "owner_user_id" e) in
  match payload_text "reason" e with
  | Some r => negb (str_contains "provider=openai" r
                    && str_contains "credential=OpenAI Codex / ChatGPT" r && expired)
  | None => negb expired
  end.

(** [if user_id is not None: .where(owner == user_id)]. *)
Definition owned_by (user : option string) (e : event_row) : bool :=
  match user with Some u => bool_decide (payload_text "owner_user_id" e = Some u) | None => true end.

Definition consumed_types : list string :=
  [CONTINUATION_QUEUED_EVENT; GENERIC_CONTINUATION_QUEUED_EVENT; CONTINUATION_RECOVERY_FAILED_EVENT].

Definition blocked_fanouts (connections : list UserCodexConnection) (user : option string) (d : db)
    : list run_row :=
  py_sorted (fun a b => Z.ltb (updated_at a) (updated_at b)
                        || (Z.eqb (updated_at a) (updated_at b) && Z.leb (run_id a) (run_id b)))
    (filter (fun e => ev_type e = CONTINUATION_AUTH_BLOCKED_EVENT
                      /\ may_recover connections e = true
                      /\ owned_by user e = true)
       (events d) ≫= fun e =>
     match runs d !! ev_run_id e with
     | Some r => if existsb (fun e' => str_in (ev_type e') consumed_types) (run_events (run_id r) d)
                 then [] else [r]
     | None => []
     end).

Definition recover_one (anchor : Z) : DB bool :=
  continuation <- catch (begin_nested (queue_chantier_continuation_for_terminal_run anchor))
    (fun e => match e with
              | ContinuationAdmissionError _ true =>
                  append_event (run_event anchor CONTINUATION_RECOVERY_FAILED_EVENT
                    [("reason", JStr "continuation_target_unavailable")] None RUN_COMPLETION_HOOK) ;;;
                  ret None
              | _ => ret None
              end) ;;
  match continuation with
  | Some _ => ret true
  | None => update_run anchor [] [] ;;; ret false
  end.

Fixpoint recover_each (anchors : list Z) : DB Z :=
  match anchors with
  | [] => ret 0%Z
  | anchor :: anchors' =>
      recovered <- recover_one anchor ;;
      n <- recover_each anchors' ;;
      ret ((if recovered : bool then 1 else 0) + n)%Z
  end.

Definition recover_auth_blocked_continuations (connections : list UserCodexConnection)
    (user : option string) (limit : nat) : DB Z := own_store (
  anchors <- gets (fun s => run_id <$> take limit (blocked_fanouts connections user (pending s))) ;;
  recover_each anchors).
End queueing.
