(* ===== verification/ContinuationRecovery.v ===== *)
(** Recovery of fan-outs whose continuation was blocked: which are tried, in what order,
    and what comes of each; the fan-out of a run that is itself a worker; and the continuation as the collaborator the engine asks for. *)
From Stdlib Require Import Ascii.
From S2P Require Import Prelude.
From S2P Require Import PyStr.
From S2P Require Import Json.
From S2P Require Import Status.
From S2P Require Import Failures.
From S2P Require Import RunStore.
From S2P Require Import RunCreate.
From S2P Require Import RunLifecycle.
From S2P Require Import RunMessages.
From S2P Require Import RunEvolution.
From S2P Require Import RunOutcome.
From S2P Require Import RunDemo.
From S2P Require Import RunTransitions.
From S2P Require Import RunEngine.
From S2P Require Import EngineTheorems.
From S2P Require Import EngineSettlement.
From S2P Require Import EvidenceHealth.
From S2P Require Import EvidenceTheorems.
From S2P Require Import Continuation.
From S2P Require Import ContinuationTheorems.
Open Scope string_scope.
Open Scope bool_scope.
Open Scope list_scope.

Section recovery.
Context `{Platform} `{ProviderErrorTaxonomy} `{WorkIntake} `{!WorkIntakeLaws}.

(** * The interface of the engine *)

Lemma inner_of_quiet {A} (m : DB A) : quiet m -> preserves inner_step m.
Proof. intros Hm s. apply Hm. Qed.

Lemma inner_append e : e_sequence_no e = None -> preserves inner_step (append_event e).
Proof. intros He s. by apply inner_append_event. Qed.

Lemma inner_own {A} (m : DB A) : preserves inner_step m -> preserves inner_step (own_store m).
Proof.
  intros Hm s. apply inner_own_step, Hm.
Qed.

Ltac inner_frame := frame_by ltac:(first
  [ apply inner_append; reflexivity
  | apply inner_of_quiet; first
    [ apply quiet_lock_run | apply admit_quiet | apply quiet_blocked | apply quiet_terminal_evidence
    | apply quiet_require ]
  | auto ]).

Lemma inner_admit anchor event owner refusal ty payload :
  preserves inner_step (admit_continuation anchor event owner refusal ty payload).
Proof. unfold admit_continuation. inner_frame. Qed.

Lemma inner_continue anchor workers : preserves inner_step (continue_fanout anchor workers).
Proof.
  pose proof inner_admit.
  unfold continue_fanout, queue_chantier, _queue_generic_continuation, has_event_type. inner_frame.
Qed.

Lemma own_arrives {A} (m : DB A) s : preserves inner_step m -> arrives s (own_store m s).1.
Proof.
  intros Hm. unfold own_store. cbn [fst].
  destruct (in_committed _ _ (Hm (set_auto_commit false s)) eq_refl) as (l & E & Hl).
  exists l. split; [done|]. intros Hi. by apply Hl, own_inv.
Qed.

Lemma queue_own t : exists m, queue_chantier_continuation_for_terminal_run t = own_store m /\ preserves inner_step m.
Proof.
  pose proof inner_continue. eexists. split; [reflexivity|].
  unfold get_run, _fanout_anchor_id, _spawned_workers. cbv zeta. inner_frame.
Qed.

Lemma inner_queue t : preserves inner_step (queue_chantier_continuation_for_terminal_run t).
Proof. destruct (queue_own t) as (m & -> & Hm). by apply inner_own. Qed.

(** * Recovery of blocked fan-outs *)

Lemma queue_arrives t s : arrives s (queue_chantier_continuation_for_terminal_run t s).1.
Proof. destruct (queue_own t) as (m & -> & Hm). by apply own_arrives. Qed.

Lemma merge_other d r i : run_id r <> i -> runs (merge_run d r) !! i = runs d !! i.
Proof. intros Hi. by apply merge_lookup. Qed.

(** A run of the tables that grew by arrivals was there or was unknown. *)
Lemma arrived_row s s' i x :
  arrives s s' -> store_inv s -> runs (committed s') !! i = Some x -> is_Some (runs (pending s) !! i) ->
  runs (committed s) !! i = Some x.
Proof.
  intros (l & -> & Hl) Hi Hx [y Hy]. specialize (Hl Hi). revert Hx. generalize (committed s).
  induction l as [|r l IH]; intros d Hx; [done|]. apply Forall_cons in Hl as [Hr Hl]. simpl in Hx.
  specialize (IH Hl _ Hx). rewrite merge_other in IH; [done|]. intros <-. congruence.
Qed.

Lemma merge_events l : forall d, events (merge_incoming l d) = events d /\ artifacts (merge_incoming l d) = artifacts d.
Proof.
  induction l as [|r l IH]; intros d; [done|]. simpl. destruct (IH (merge_run d r)) as [-> ->].
  unfold merge_run. by destruct (runs d !! run_id r).
Qed.

Lemma rollback_wf d c : db_wf d -> db_wf c ->
  db_wf {| runs := runs d ∪ runs c; events := events d; artifacts := artifacts d; cycle_runs := cycle_runs d;
           next_run_id := Z.max (next_run_id d) (next_run_id c); next_event_id := next_event_id d;
           next_artifact_id := next_artifact_id d |}.
Proof.
  intros [D1 D2 D3] [C1 C2 _]. split; simpl; [| |done].
  - intros i r [Hr|[_ Hr]]%lookup_union_Some_raw; eauto.
  - intros i r [Hr|[_ Hr]]%lookup_union_Some_raw; [destruct (D2 _ _ Hr)|destruct (C2 _ _ Hr)]; (split; [done|lia]).
Qed.

(** A savepoint that is rolled back leaves the invariants in place. *)
Lemma inner_rollback s s1 :
  inner_step s s1 -> arrives s s1 -> inner_step s (rollback_to (pending s) s1).1.
Proof.
  intros [Hs Ha _ Hg] Hc. cbn. split; simpl; try done.
  - intros Hinv. destruct (Hs Hinv) as [Hinv1 E1]. specialize (Hg Hinv). split; [|done].
    destruct Hinv1 as [C1 P1 V1 I1 N1]. pose proof Hinv as [C P V _ _]. split; simpl; try done.
    + by apply rollback_wf.
    + destruct V as [V1' V2 V3 V4]. destruct Hc as (l & Ec & Hl). destruct (merge_events l (committed s)) as [Ee Ea].
      split; simpl; [|by rewrite Ec, Ee|by rewrite Ec, Ea|lia]. intros i x Hx.
      destruct (runs (pending s) !! i) as [z|] eqn:Hz.
      * exists z. rewrite (lookup_union_Some_l _ _ _ _ Hz). split; [done|].
        assert (Hx' : runs (committed s) !! i = Some x).
        { eapply arrived_row; [by exists l|done|done|by rewrite Hz]. }
        destruct (V1' i x Hx') as (z' & Hz' & He). congruence.
      * exists x. by rewrite lookup_union_r.
    + eapply Forall_impl; [exact I1|]. intros r [Hw Hn]. split; [done|].
      rewrite lookup_union_None. split; [by eapply evolves_absent|by eapply evolves_absent].
  - intros Hinv. split; simpl; try done; [|lia]. intros i r Hr. exists r.
    by rewrite (lookup_union_Some_l _ _ _ _ Hr).
Qed.

Lemma inner_nested {A} (m : DB A) :
  preserves inner_step m -> (forall s, arrives s (m s).1) -> preserves inner_step (begin_nested m).
Proof.
  intros Hm Hc s. unfold begin_nested, bind at 1, get, catch. pose proof (Hm s) as Hi. specialize (Hc s).
  destruct (m s) as [s1 [a|e]]; [done|]. by apply inner_rollback.
Qed.

Lemma hooked_after b s s1 s2 : hooked b s s1 -> quiet_step s1 s2 -> hooked b s s2.
Proof.
  intros [Hs|(-> & a & ty & id & Hty & Hn & (e & Te & Re & Ie & He))] [_ Hq].
  - left. intros x. by rewrite Hq.
  - right. split; [done|]. exists a, ty, id. split_and!; try done. exists e. split_and!; try done.
    intros x. by rewrite Hq.
Qed.

Lemma touched_row t r :
  row_wf r -> row_wf (apply_assigns [SetUpdatedAt t] r) /\ row_evolves r (apply_assigns [SetUpdatedAt t] r).
Proof.
  destruct r as [? [] ? ? ? ? ? ? ? ? ? ? ? ?]. intros [????].
  split; [split|apply row_evolves_intro]; simpl in *; auto; done.
Qed.

Lemma quiet_touch a : quiet (update_run a [] []).
Proof.
  intros s. split; [|intros x; unfold update_run, bind, get; by destruct (runs (pending s) !! a)].
  pose proof (update_run_safe a [] [] ltac:(intros r Hr _ t; by apply touched_row) s) as Hs.
  unfold update_run, bind, get in *. destruct (runs (pending s) !! a) as [r|] eqn:Hr; [|done].
  split; simpl; try done. intros Hinv. apply update_evolves with r; [done|].
  by apply touched_row, (wf_rows _ (inv_pending _ Hinv) _ _ Hr).
Qed.

Lemma update_run_total a preds l s : exists s' b, update_run a preds l s = (s', Ok b).
Proof.
  unfold update_run, bind, get. destruct (runs (pending s) !! a) as [r|]; [|by eexists _, _].
  destruct (forallb _ preds); by eexists _, _.
Qed.

(** A body that fails leaves the database as it was. *)
Lemma nested_eq {A} (m : DB A) s :
  begin_nested m s = match m s with
                     | (s1, Ok a) => (s1, Ok a)
                     | (s1, Err e) => ((rollback_to (pending s) s1).1, Err e)
                     end.
Proof. unfold begin_nested, bind at 1, get, catch. by destruct (m s) as [s1 [a|e]]. Qed.

Lemma nested_hooked t s :
  store_inv s ->
  let '(s', res) := begin_nested (queue_chantier_continuation_for_terminal_run t) s in
  inner_step s s' /\ hooked (match res with Ok (Some _) => true | _ => false end) s s'.
Proof.
  intros Hinv. pose proof (queue_hooked t s Hinv) as Hq.
  pose proof (inner_nested _ (inner_queue t) (queue_arrives t) s) as Hn.
  rewrite nested_eq in *.
  destruct (queue_chantier_continuation_for_terminal_run t s) as [s1 [o|e]]; [done|].
  split; [done|by left].
Qed.

Lemma step_inv s s' : inner_step s s' -> store_inv s -> store_inv s'.
Proof. intros [Hs _ _ _] Hi. by apply Hs. Qed.

(** ** One fan-out *)

(** What came of continuing the fan-out of [a]: a run was queued for it, it was queued
    before, or nothing was queued and the run went to the end of the line. *)
Inductive attempted (a : Z) (s s' : store) : option Z -> Prop :=
| Continued r f ty id : runs (pending s) !! a = Some r -> fanout_anchor_id r (pending s) = Some f ->
    fanout_complete f (pending s) -> ty ∈ hook_types -> has_hook ty f (pending s) = false ->
    queued_one f ty id s s' -> attempted a s s' (Some id)
| WasContinued r f id : runs (pending s) !! a = Some r -> fanout_anchor_id r (pending s) = Some f ->
    queued_before f (pending s) -> (forall x, hook_events x (pending s') = hook_events x (pending s)) ->
    attempted a s s' (Some id)
| SetBack : (forall x, hook_events x (pending s') = hook_events x (pending s)) ->
    (forall r, runs (pending s') !! a = Some r -> updated_at r = now s') -> attempted a s s' None.

Inductive attempts : list Z -> store -> store -> list (option Z) -> Prop :=
| NoMore s : attempts [] s s []
| OneMore a l s s1 s2 o os : attempted a s s1 o -> attempts l s1 s2 os -> attempts (a :: l) s s2 (o :: os).

(** A run without a fan-out has nothing to continue. *)
Lemma stranger_queues_nothing t s :
  (runs (pending s) !! t) ≫= (fun r => fanout_anchor_id r (pending s)) = None ->
  (queue_chantier_continuation_for_terminal_run t s).2 = Ok None.
Proof.
  intros Hn. unfold queue_chantier_continuation_for_terminal_run, own_store. cbn [snd].
  unfold get_run, _fanout_anchor_id, bind, gets. simpl. destruct (runs (pending s) !! t) as [r|]; [|done].
  simpl in *. by rewrite Hn.
Qed.

(** A report that was answered with a run. *)
Lemma report_answered t s s' id :
  store_inv s -> queue_chantier_continuation_for_terminal_run t s = (s', Ok (Some id)) -> attempted t s s' (Some id).
Proof.
  intros Hinv E. pose proof (queue_spec t s Hinv) as Hq. rewrite E in Hq. destruct Hq as [[_ Ho] _].
  unfold queue_due in Ho. destruct (runs (pending s) !! t) as [r|] eqn:Hr.
  2:{ pose proof (stranger_queues_nothing t s) as Hn. rewrite E, Hr in Hn. by specialize (Hn eq_refl). }
  cbn [mbind option_bind] in Ho. destruct (fanout_anchor_id r (pending s)) as [f|] eqn:Hf.
  2:{ pose proof (stranger_queues_nothing t s) as Hn. rewrite E, Hr in Hn. cbn in Hn. by specialize (Hn Hf). }
  cbn [fst snd] in Ho. destruct Ho as [[Hs Hb]|(ty & id' & Hty & Hq & [= <-])].
  { apply (WasContinued _ _ _ r f); eauto. }
  destruct (barrier f (pending s)) eqn:Eb; [|set_solver]. destruct (due_hooks _ _ _ _ Hty) as [Ht Hn].
  apply (Continued _ _ _ r f ty); try done. by apply barrier_complete.
Qed.

Lemma touched_time a s s' b :
  update_run a [] [] s = (s', Ok b) -> now s' = now s /\ forall r, runs (pending s') !! a = Some r -> updated_at r = now s'.
Proof.
  unfold update_run, bind, get. destruct (runs (pending s) !! a) as [r|] eqn:Hr; intros [= <- _]; [|by rewrite Hr].
  simpl. split; [done|]. intros x. cbn [with_runs runs]. rewrite lookup_insert_eq. intros [= <-]. by destruct r.
Qed.

Lemma recover_one_spec a s :
  store_inv s -> exists s' o, recover_one a s = (s', Ok (bool_decide (is_Some o))) /\ inner_step s s' /\
    attempted a s s' o /\ hooked (bool_decide (is_Some o)) s s'.
Proof.
  intros Hinv. unfold recover_one, bind at 1. unfold catch at 1.
  pose proof (nested_hooked a s Hinv) as Hn. pose proof (nested_eq (queue_chantier_continuation_for_terminal_run a) s) as En.
  assert (Hback : forall s1 s2 s3 b, inner_step s s1 -> hooked false s s1 -> quiet_step s1 s2 ->
    update_run a [] [] s2 = (s3, Ok b) -> inner_step s s3 /\ attempted a s s3 None /\ hooked false s s3).
  { intros s1 s2 s3 b Hi Hh Hq E. pose proof (quiet_touch a s2) as Hq3. rewrite E in Hq3.
    assert (Hqq : quiet_step s1 s3) by by etrans. destruct (touched_time _ _ _ _ E) as [_ Ht].
    assert (Hh3 : hooked false s s3) by by eapply hooked_after. split; [by etrans; [|apply Hqq]|].
    split; [|done]. apply SetBack; [|done]. by destruct Hh3 as [?|[? _]]. }
  destruct (begin_nested _ s) as [s1 [[id|]|e]].
  - exists s1, (Some id). destruct Hn. split_and!; try done. apply report_answered; [done|].
    by destruct (queue_chantier_continuation_for_terminal_run a s) as [z [o|e]]; [injection En as -> <-|].
  - destruct (update_run_total a [] [] s1) as (s2 & b & E). rewrite (bind_eq_ok _ _ _ _ _ E).
    exists s2, None. split; [done|]. destruct Hn as [Hi Hh]. by apply (Hback s1 s1 s2 b).
  - destruct Hn as [Hi Hh].
    set (event := run_event a CONTINUATION_RECOVERY_FAILED_EVENT
                    [("reason", JStr "continuation_target_unavailable")] None RUN_COMPLETION_HOOK).
    assert (Hhandled : exists s2,
      (match e with
       | ContinuationAdmissionError _ true => append_event event ;;; ret None
       | _ => ret None
       end : DB (option Z)) s1 = (s2, Ok None) /\ quiet_step s1 s2).
    { pose proof (silent_append_event event eq_refl ltac:(unfold hook_types; set_solver) s1) as Hq.
      destruct (append_event_ok event s1 eq_refl) as (s2 & E & _). rewrite E in Hq.
      destruct e; try (by exists s1). destruct invalid_target; [|by exists s1].
      exists s2. by rewrite (bind_eq_ok _ _ _ _ _ E). }
    destruct Hhandled as (s2 & E2 & Hq2). rewrite E2.
    destruct (update_run_total a [] [] s2) as (s3 & b & E3). rewrite (bind_eq_ok _ _ _ _ _ E3).
    exists s3, None. split; [done|]. by apply (Hback s1 s2 s3 b).
Qed.

(** ** A pass *)

(** A pass over [anchors] tries each of them and counts those continued. *)
Lemma recover_each_spec anchors : forall s,
  store_inv s -> once (pending s) ->
  exists s' os, recover_each anchors s = (s', Ok (Z.of_nat (length (omap id os)))) /\
    attempts anchors s s' os /\ inner_step s s' /\ once (pending s').
Proof.
  induction anchors as [|a l IH]; intros s Hinv Hle.
  { exists s, []. split_and!; [done|apply NoMore|done|done]. }
  destruct (recover_one_spec a s Hinv) as (s1 & o & E1 & Hi1 & Ha1 & Hh1).
  destruct (IH s1 (step_inv _ _ Hi1 Hinv) (hooked_once _ _ _ Hh1 Hle)) as (s2 & os & E2 & Ha2 & Hi2 & Hle2).
  cbn [recover_each]. rewrite (bind_eq_ok _ _ _ _ _ E1), (bind_eq_ok _ _ _ _ _ E2).
  exists s2, (o :: os). split_and!; [|by eapply OneMore|by etrans|done].
  destruct o as [i|]; [|done]. change (omap id (Some i :: os)) with (i :: omap id os).
  rewrite bool_decide_true by done. cbn [length]. unfold ret. do 2 f_equal. lia.
Qed.

(** ** The fan-outs that wait *)

(** The block was an expired sign-in of its owner, which is expired still. *)
Definition signed_out (connections : list UserCodexConnection) (e : event_row) : Prop :=
  (forall reason, payload_text "reason" e = Some reason ->
     str_contains "provider=openai" reason = true /\ str_contains "credential=OpenAI Codex / ChatGPT" reason = true) /\
  exists owner c, payload_text "owner_user_id" e = Some owner /\ c ∈ connections /\
    undashed (ucc_user_id c) = undashed owner /\ ucc_is_active c = true /\
    ucc_credential_error_code c = Some "credential_expired".

(** The fan-out of [r] was blocked and waits: nothing was queued for it since, its
    recovery was not given up, and its owner, who is [user] if one is given, is not
    signed out. *)
Definition waits (connections : list UserCodexConnection) (user : option string) (d : db) (r : run_row) : Prop :=
  exists e, e ∈ events d /\ ev_type e = CONTINUATION_AUTH_BLOCKED_EVENT /\ runs d !! ev_run_id e = Some r /\
    ~ signed_out connections e /\
    (forall u, user = Some u -> payload_text "owner_user_id" e = Some u) /\
    forall e', e' ∈ events d -> ev_run_id e' = run_id r ->
      ev_type e' <> CONTINUATION_QUEUED_EVENT /\ ev_type e' <> GENERIC_CONTINUATION_QUEUED_EVENT /\
      ev_type e' <> CONTINUATION_RECOVERY_FAILED_EVENT.

(** [a] was touched longer ago than [b], or at the same time and is older. *)
Definition earlier (a b : run_row) : Prop :=
  (updated_at a < updated_at b \/ updated_at a = updated_at b /\ run_id a <= run_id b)%Z.

Lemma expired_owner connections o :
  credential_expired_for connections o = true <->
  exists owner c, o = Some owner /\ c ∈ connections /\ undashed (ucc_user_id c) = undashed owner /\
    ucc_is_active c = true /\ ucc_credential_error_code c = Some "credential_expired".
Proof.
  unfold credential_expired_for. destruct o as [owner|]; [|naive_solver].
  rewrite existsb_exists. split.
  - intros (c & Hc & [[Hu%String.eqb_eq Ha]%andb_true_iff He%bool_decide_eq_true]%andb_true_iff).
    exists owner, c. by rewrite list_elem_of_In.
  - intros (? & c & [= <-] & Hc%list_elem_of_In & Hu%String.eqb_eq & Ha & He). exists c. split; [done|].
    by rewrite Hu, Ha, bool_decide_true.
Qed.

Lemma may_recover_spec connections e : may_recover connections e = true <-> ~ signed_out connections e.
Proof.
  unfold may_recover, signed_out. rewrite <- expired_owner.
  destruct (payload_text "reason" e) as [reason|].
  - rewrite negb_true_iff, <- not_true_iff_false, !andb_true_iff. naive_solver.
  - rewrite negb_true_iff, <- not_true_iff_false. naive_solver.
Qed.

Lemma owned_spec user e :
  owned_by user e = true <-> forall u, user = Some u -> payload_text "owner_user_id" e = Some u.
Proof. unfold owned_by. destruct user; [rewrite bool_decide_eq_true|]; naive_solver. Qed.

Lemma unconsumed i d :
  existsb (fun e' => str_in (ev_type e') consumed_types) (run_events i d) = false <->
  forall e', e' ∈ events d -> ev_run_id e' = i ->
    ev_type e' <> CONTINUATION_QUEUED_EVENT /\ ev_type e' <> GENERIC_CONTINUATION_QUEUED_EVENT /\
    ev_type e' <> CONTINUATION_RECOVERY_FAILED_EVENT.
Proof.
  rewrite <- not_true_iff_false, existsb_exists. unfold run_events.
  assert (Hty : forall ty, str_in ty consumed_types = true <-> ty = CONTINUATION_QUEUED_EVENT \/
    ty = GENERIC_CONTINUATION_QUEUED_EVENT \/ ty = CONTINUATION_RECOVERY_FAILED_EVENT).
  { intros ty. unfold str_in, consumed_types. cbn [existsb]. rewrite !orb_true_iff, !String.eqb_eq. naive_solver. }
  split.
  - intros Hn e' He Hi. repeat split; intros Ht; apply Hn; exists e'; rewrite <- list_elem_of_In, list_elem_of_filter, Hty; auto.
  - intros Hn (e' & He & Ht). rewrite <- list_elem_of_In, list_elem_of_filter in He. rewrite Hty in Ht.
    destruct He as [Hi He]. destruct (Hn e' He Hi) as (?&?&?). tauto.
Qed.

Lemma blocked_waits connections user d r : r ∈ blocked_fanouts connections user d <-> waits connections user d r.
Proof.
  unfold blocked_fanouts, waits. rewrite elem_of_py_sorted, list_elem_of_bind. apply exist_proper. intros e.
  rewrite list_elem_of_filter, may_recover_spec, owned_spec.
  destruct (runs d !! ev_run_id e) as [x|]; [|set_solver].
  pose proof (unconsumed (run_id x) d) as Hu. destruct (existsb _ _).
  - split; [set_solver|]. intros (_ & _ & [= ->] & _ & _ & Hn). by apply Hu in Hn.
  - destruct Hu as [Hu _]. specialize (Hu eq_refl). rewrite list_elem_of_singleton. naive_solver.
Qed.

Lemma blocked_sorted connections user d : StronglySorted earlier (blocked_fanouts connections user d).
Proof.
  unfold blocked_fanouts. set (leb := fun a b : run_row => Z.ltb (updated_at a) (updated_at b) || _).
  assert (Hleb : forall a b, leb a b = true <-> earlier a b) by (intros a b; unfold leb, earlier; lia).
  assert (Hs : forall l, ordered leb (py_sorted leb l)).
  { intros l. apply py_sorted_ordered; intros *; rewrite !Hleb; unfold earlier; lia. }
  match goal with |- StronglySorted _ (py_sorted _ ?l) => specialize (Hs l) end. revert Hs.
  unfold ordered. induction 1 as [|a l _ IH Hall]; constructor; [done|].
  eapply Forall_impl; [exact Hall|]. intros b. apply Hleb.
Qed.

(** C12. Recovery of blocked fan-outs survives every failure.  The pass takes the first
    [limit] of the waiting fan-outs, the longest untouched first, and tries each of
    them in turn whatever admission and the store raise for those before it; a fan-out
    it cannot continue queues nothing and goes to the end of the line.  It returns how
    many tries were answered with a run, which are those that queued one event or found
    one queued; no fan-out has two events of a type; and nothing is committed behind
    the caller: the committed tables grow by what others committed. *)
Theorem recovery_never_fails (connections : list UserCodexConnection) (user : option string) (limit : nat)
    (s : store) :
  store_inv s -> once (pending s) ->
  exists s1 chosen rest os,
    recover_auth_blocked_continuations connections user limit s =
      (set_auto_commit (auto_commit s) s1, Ok (Z.of_nat (length (omap id os)))) /\
    (forall r, r ∈ chosen ++ rest <-> waits connections user (pending s) r) /\
    StronglySorted earlier (chosen ++ rest) /\
    (length chosen = limit \/ length chosen < limit /\ rest = []) /\
    attempts (run_id <$> chosen) (set_auto_commit false s) s1 os /\
    store_inv s1 /\ arrives s s1 /\ db_evolves (pending s) (pending s1) /\ once (pending s1).
Proof.
  intros Hinv Hle. set (sa := set_auto_commit false s).
  set (all := blocked_fanouts connections user (pending s)).
  destruct (recover_each_spec (run_id <$> take limit all) sa (own_inv false s Hinv) Hle)
    as (s1 & os & E & Ht & [Hs Ha Hc Hg] & Hle1).
  exists s1, (take limit all), (drop limit all), os. rewrite take_drop. split_and!.
  - unfold recover_auth_blocked_continuations, own_store. fold sa.
    rewrite (bind_eq_ok _ _ sa sa (run_id <$> take limit all) eq_refl). by rewrite E.
  - apply blocked_waits.
  - apply blocked_sorted.
  - destruct (decide (limit <= length all)) as [Hl|Hl]; [left; rewrite length_take; lia|].
    right. rewrite length_take, drop_ge by lia. split; [lia|done].
  - exact Ht.
  - by apply Hs, own_inv.
  - destruct (Hc eq_refl) as (l & El & Hl'). exists l. split; [done|]. intros Hi. by apply Hl', own_inv.
  - apply Hg. by apply own_inv.
  - done.
Qed.

(** * The fan-out of a worker *)

(** [w] was itself spawned by another run. *)
Definition nested (w : Z) (d : db) : Prop :=
  exists r p, runs d !! w = Some r /\ _is_spawned_worker (metadata_ r) = true /\
    parent_run_id (spec r) = Some p /\ p <> w.

(** The reports of a fan-out whose parent settles last: those of other runs come while
    [w] is still open. *)
Inductive early_report (w : Z) (s : store) : store -> Prop :=
| OtherReports t : barrier w (pending s) = false ->
    early_report w s (queue_chantier_continuation_for_terminal_run t s).1
| OwnReport : nested w (pending s) ->
    early_report w s (queue_chantier_continuation_for_terminal_run w s).1.

Lemma report_elsewhere t w s :
  store_inv s -> (queue_due t (pending s)).1 <> w \/ (queue_due t (pending s)).2 = [] ->
  hook_events w (pending (queue_chantier_continuation_for_terminal_run t s).1) = hook_events w (pending s).
Proof.
  intros Hinv Hd. pose proof (queue_spec t s Hinv) as Hq.
  destruct (queue_chantier_continuation_for_terminal_run t s) as [s' res].
  destruct Hq as [[_ [[Hs _]|(ty & id & Hty & (e & _ & _ & _ & He) & _)]] _]; [done|]. cbn [fst].
  destruct Hd as [Hne|Hnil]; [|rewrite Hnil in Hty; set_solver].
  by rewrite He, decide_False, app_nil_r.
Qed.

(** A run that was spawned by another reports for the fan-out of its parent only, so
    its own fan-out is never continued when it settles after its workers. *)
Lemma nested_fanout_lost w s s' :
  store_inv s -> rtc (early_report w) s s' ->
  store_inv s' /\ hook_events w (pending s') = hook_events w (pending s).
Proof.
  intros Hinv Hs. induction Hs as [|s1 s2 s3 H12 _ IH]; [done|].
  assert (Hstep : store_inv s2 /\ hook_events w (pending s2) = hook_events w (pending s1)).
  { destruct H12 as [t Hb|(r & p & Hr & Hsp & Hp & Hne)].
    - split; [apply (step_inv s1); [apply inner_queue|done]|]. apply report_elsewhere; [done|].
      unfold queue_due. destruct ((runs (pending s1) !! t) ≫= _) as [a|]; [|by right]. cbn [fst snd].
      destruct (decide (a = w)) as [->|]; [right; by rewrite Hb|by left].
    - split; [apply (step_inv s1); [apply inner_queue|done]|]. apply report_elsewhere; [done|].
      unfold queue_due. rewrite Hr. cbn [mbind option_bind]. unfold fanout_anchor_id. rewrite Hsp, Hp. by left. }
  destruct Hstep as [Hi He]. destruct (IH Hi) as [Hi3 He3]. split; [done|congruence].
Qed.

(** * The collaborator of the engine *)

Definition fanout_collaborators (guarantee : db -> run_row -> string -> result guarantee_outcome) : Collaborators :=
  {| guarantee_chantier_record_for_run := guarantee;
     RunEngine.queue_chantier_continuation_for_terminal_run :=
       Continuation.queue_chantier_continuation_for_terminal_run |}.

#[export] Instance fanout_laws guarantee : @CollaboratorLaws (fanout_collaborators guarantee).
Proof. constructor. apply inner_queue. Qed.
End recovery.

(** * Concrete fan-outs *)

(** Admission that always answers with run 77. *)
#[export] Instance demo_intake : WorkIntake :=
  {| admit_work _ := ret {| wi_ok := true; wi_run_id := Some 77%Z; wi_skipped_reason := None |} |}.
#[export] Instance demo_intake_laws : WorkIntakeLaws.
Proof. constructor. by intros e s. Qed.
Lemma demo_admits anchor s : admits true anchor s (fun _ id _ => id = 77%Z).
Proof. intros e s1 _ _. by eexists _, _, _. Qed.

Definition with_parent (p : Z) (r : run_row) : run_row :=
  let sp := spec r in
  {| run_id := run_id r;
     spec := {| trace_id := trace_id sp; org_id := org_id sp; user_id := user_id sp; thread_id := thread_id sp;
       parent_run_id := Some p; root_run_id := Some p; profile := profile sp; recipe := recipe sp;
       input_message := input_message sp; target_ref := target_ref sp; workspace_ref := workspace_ref sp;
       model_policy := model_policy sp; context_summary := context_summary sp;
       source_idempotency_scope := None; source_idempotency_key := None;
       parent_step_key_hash := Some "step"; created_at := created_at sp; deadline_at := deadline_at sp |};
     status := status r; metadata_ := metadata_ r; closeout_expires_at := closeout_expires_at r;
     execution_token := execution_token r; execution_attempt := execution_attempt r; started_at := started_at r;
     paused_at := paused_at r; completed_at := completed_at r; failed_at := failed_at r;
     canceled_at := canceled_at r; expired_at := expired_at r; updated_at := updated_at r |}.

Definition joined (shard : string) : dict :=
  [("spawned_by_tool", JBool true); ("join_parent", JBool true); ("worker_shard", JStr shard)].
Definition demo_anchor : run_row := demo_row 1 COMPLETED [] None 1 10.
Definition demo_child (i : Z) (st : RunStatus) (shard : string) : run_row :=
  with_parent 1 (demo_row i st (joined shard) None 1 20).

(** A parent and two workers, the last of which is about to report. *)
Definition demo_fanout : store :=
  demo_store false (demo_db [demo_anchor; demo_child 2 COMPLETED "api"; demo_child 3 FAILED "web"] []).

Lemma demo_child_wf i st shard : row_wf (demo_child i st shard).
Proof. split; simpl; try done. apply value_in_db. Qed.

Lemma demo_fanout_inv : store_inv demo_fanout.
Proof.
  apply demo_store_inv. repeat (apply Forall_cons; split); try done; (split; [|done]); try apply demo_child_wf.
  apply demo_row_wf; [lia|done].
Qed.

Lemma demo_fanout_ready : parent_ready demo_fanout 1 demo_anchor empty_receipt.
Proof.
  split; [done|done|by eexists|done|apply empty_receipt_wf|].
  intros i c. simpl. by rewrite lookup_empty.
Qed.

Lemma demo_once l es : (forall e, e ∈ es -> ev_type e ∉ hook_types) -> once (demo_db l es).
Proof.
  intros Hes a ty Hty. unfold queued_of, hook_events. rewrite filter_nothing; [simpl; lia|].
  intros e He Ht. apply list_elem_of_filter in He as [Hh He]. unfold run_events in He.
  apply list_elem_of_filter in He as [_ He]. by apply (Hes e).
Qed.

Lemma continuation_behind_barrier_witness :
  let '(s', res) := queue_chantier_continuation_for_terminal_run 3 demo_fanout in
  res = Ok (Some 77%Z) /\ store_inv s' /\ arrives demo_fanout s' /\
  length (hook_events 1 (pending s')) = 1.
Proof.
  pose proof (continuation_behind_barrier demo_fanout 3 demo_fanout_inv) as Hq.
  assert (E : (queue_chantier_continuation_for_terminal_run 3 demo_fanout).2 = Ok (Some 77%Z)) by (vm_compute; reflexivity).
  assert (L : length (hook_events 1 (pending (queue_chantier_continuation_for_terminal_run 3 demo_fanout).1)) = 1)
    by (vm_compute; reflexivity).
  destruct (queue_chantier_continuation_for_terminal_run 3 demo_fanout) as [s' res].
  destruct Hq as (Hi & Hc & _). by split_and!.
Defined.

Lemma continuation_queued_once_witness :
  let s1 := (queue_chantier_continuation_for_terminal_run 3 demo_fanout).1 in
  let s2 := (queue_chantier_continuation_for_terminal_run 2 s1).1 in
  store_inv s2 /\ length (queued_of GENERIC_CONTINUATION_QUEUED_EVENT 1 (pending s2)) <= 1.
Proof.
  intros s1 s2. apply (continuation_queued_once demo_fanout s2 1 GENERIC_CONTINUATION_QUEUED_EVENT).
  - apply demo_fanout_inv.
  - apply demo_once. intros e He. by apply not_elem_of_nil in He.
  - eapply rtc_l; [apply (RunReports _ 3)|]. eapply rtc_l; [apply (RunReports _ 2)|]. apply rtc_refl.
  - unfold hook_types. set_solver.
Defined.

Lemma demo_fanout_complete : fanout_complete 1 (pending demo_fanout).
Proof. apply barrier_complete. vm_compute. reflexivity. Qed.

Lemma last_settlement_continues_witness :
  exists s', queue_chantier_continuation_for_terminal_run 3 demo_fanout = (s', Ok (Some 77%Z)) /\
    length (hook_events 1 (pending s')) = 1.
Proof.
  destruct (last_settlement_continues true (fun _ id _ => id = 77%Z) demo_fanout 3 1
    (demo_child 3 FAILED "web") demo_anchor empty_receipt)
    as (s' & id & E & ty & e & _ & (ev & _ & _ & _ & He) & _ & ->).
  - apply demo_fanout_inv.
  - apply demo_admits.
  - reflexivity.
  - reflexivity.
  - apply demo_fanout_ready.
  - apply demo_fanout_complete.
  - vm_compute. reflexivity.
  - intros ty _. reflexivity.
  - by left.
  - exists s'. split; [exact E|]. rewrite He. reflexivity.
Defined.

(** A fan-out whose continuation was blocked on a credential. *)
Definition blocked_event : event_row :=
  event_row_of 5 (hook_event demo_anchor CONTINUATION_AUTH_BLOCKED_EVENT
    [("reason", JStr "credential_expired: no token"); ("owner_user_id", JStr "user")]) (pending demo_fanout).
Definition demo_blocked : store :=
  demo_store false (demo_db [demo_anchor; demo_child 2 COMPLETED "api"; demo_child 3 FAILED "web"] [blocked_event]).

Lemma demo_blocked_inv : store_inv demo_blocked.
Proof.
  destruct demo_fanout_inv as [[C1 C2 _] _ _ _ _].
  assert (Hwf : db_wf (pending demo_blocked)) by (split; [apply C1|apply C2|simpl; repeat constructor; set_solver]).
  split; simpl; try done; constructor.
Qed.

Lemma recovery_never_fails_witness :
  exists s' (os : list (option Z)), recover_auth_blocked_continuations [] (Some "user") 10 demo_blocked =
      (s', Ok (Z.of_nat (length (omap id os)))) /\
    Z.of_nat (length (omap id os)) = 1%Z /\ once (pending s').
Proof.
  destruct (recovery_never_fails [] (Some "user") 10 demo_blocked demo_blocked_inv)
    as (s1 & chosen & rest & os & E & _ & _ & _ & _ & _ & _ & _ & Ho).
  - apply demo_once. intros e ->%list_elem_of_singleton. unfold hook_types. set_solver.
  - eexists _, os. split; [exact E|]. split; [|exact Ho].
    assert (En : (recover_auth_blocked_continuations [] (Some "user") 10 demo_blocked).2 = Ok 1%Z)
      by (vm_compute; reflexivity).
    rewrite E in En. by injection En.
Defined.

(** A worker of run 9 that spawned a worker itself and settles after it: its fan-out is
    complete and asks to be joined, its report is about run 9, and nothing is queued. *)
Definition demo_nested : store :=
  demo_store false (demo_db [demo_row 9 RUNNING [] None 1 5;
    with_parent 9 (demo_row 1 COMPLETED (joined "outer") None 1 10); demo_child 2 COMPLETED "inner"] []).

Example nested_fanout_complete :
  fanout_complete 1 (pending demo_nested) /\
  _wants_generic_continuation (spawned_workers 1 (pending demo_nested)) = true /\
  queue_due 1 (pending demo_nested) = (9%Z, []).
Proof. split; [apply barrier_complete; vm_compute; reflexivity|]. by vm_compute. Qed.
