(* ===== verification/StatusQuestions.v ===== *)
(** Whether a message asks how earlier work is going, and what the runs of its thread
    say about it, [brain/systems/runs/status_questions.py].  The regular expressions of
    the module are values of a small language of patterns. *)
From Stdlib Require Import Ascii.
From S2P Require Import Prelude.
From S2P Require Import PyStr.
From S2P Require Import Json.
From S2P Require Import Status.
From S2P Require Import RunStore.
From S2P Require Import RunCreate.
From S2P Require Import RunMessages.
From S2P Require Import EvidenceHealth.
Open Scope string_scope.
Open Scope bool_scope.
Open Scope list_scope.

(** * Patterns *)

(** What the expressions are made of: literals, [\s+], [\b], sequence and choice. *)
Inductive pattern : Type :=
| Lit (text : string)
| Spaces
| Boundary
| Seq (a b : pattern)
| Alt (a b : pattern).

(** A place in a text: the character before it and the rest. *)
Abbreviation place := (option ascii * string)%type.

(** [\w] below 256: letters, digits and numerals of Latin-1, and the underscore. *)
Definition is_word (a : ascii) : bool :=
  let n := N_of_ascii a in
  (N.leb 48 n && N.leb n 57) || (N.leb 65 n && N.leb n 90) || (N.leb 97 n && N.leb n 122) || N.eqb n 95
  || existsb (N.eqb n) [170; 178; 179; 181; 185; 186; 188; 189; 190]%N
  || (N.leb 192 n && negb (N.eqb n 215) && negb (N.eqb n 247)).

Definition word_before (p : place) : bool := match p.1 with Some a => is_word a | None => false end.
Definition word_after (p : place) : bool := match p.2 with String a _ => is_word a | EmptyString => false end.

Fixpoint literal (text : string) (p : place) : list place :=
  match text, p.2 with
  | EmptyString, _ => [p]
  | String a text', String b rest => if Ascii.eqb a b then literal text' (Some b, rest) else []
  | _, EmptyString => []
  end.

(** One white space or more. *)
Fixpoint spaces (rest : string) : list place :=
  match rest with
  | String a rest' => if is_space a then (Some a, rest') :: spaces rest' else []
  | EmptyString => []
  end.

(** The places where a match that starts at [p] can end. *)
Fixpoint ends (r : pattern) (p : place) : list place :=
  match r with
  | Lit text => literal text p
  | Spaces => spaces p.2
  | Boundary => if xorb (word_before p) (word_after p) then [p] else []
  | Seq a b => ends a p ≫= ends b
  | Alt a b => ends a p ++ ends b p
  end.

Fixpoint places (before : option ascii) (text : string) : list place :=
  (before, text) :: match text with String a rest => places (Some a) rest | EmptyString => [] end.

(** [re.search] with [re.IGNORECASE]; the patterns are in lower case. *)
Definition search (r : pattern) (text : string) : bool :=
  existsb (fun p => negb (Nat.eqb (length (ends r p)) 0)) (places None (lower text)).

Fixpoint choice (first : pattern) (others : list pattern) : pattern :=
  match others with
  | [] => first
  | r :: others' => Alt first (choice r others')
  end.
Definition words (first : string) (others : list string) : pattern := choice (Lit first) (Lit <$> others).
Fixpoint sequence (first : pattern) (others : list pattern) : pattern :=
  match others with
  | [] => first
  | r :: others' => Seq first (sequence r others')
  end.
Definition whole (r : pattern) : pattern := sequence Boundary [r; Boundary].

(** * The expressions of the module *)

Definition _STATUS_QUESTION_RE : pattern :=
  choice
    (sequence Boundary
       [words "was" ["is"; "are"]; Spaces;
        choice (words "it" ["that"; "this"])
               [sequence (Lit "the") [Spaces; words "work" ["task"; "ticket"; "issue"]]];
        Spaces; words "done" ["complete"; "completed"; "finished"; "ready"]; Boundary])
    [sequence Boundary
       [Lit "did"; Spaces; words "you" ["illo"; "it"]; Spaces;
        words "do" ["finish"; "complete"; "create"; "file"; "open"; "send"; "assign"]; Boundary];
     whole (choice
       (sequence (Lit "what") [words "'s" [" is"]; Spaces; Lit "the"; Spaces; Lit "status"])
       [sequence (Lit "status") [Spaces; Lit "update"];
        sequence (Lit "any") [Spaces; words "update" ["progress"]];
        sequence (Lit "how") [words "'s" [" is"]; Spaces;
          choice (words "it" ["that"]) [sequence (Lit "the") [Spaces; words "work" ["task"]]];
          Spaces; Lit "going"]])].
Definition _TICKET_RE : pattern := whole (words "ticket" ["issue"]).
Definition _GITHUB_RE : pattern := whole (Lit "github").
Definition _CUSTOMER_BUG_RE : pattern :=
  whole (words "bug" ["customer"; "client"; "support"; "email"; "reported"; "complaint"]).
Definition _ASSIGNMENT_RE : pattern :=
  whole (words "assigned" ["assignment"; "assign"; "owner"; "assignee"]).

(** * Questions and deliverables *)

Definition SAME_THREAD_COORDINATION_POLICY : list RunStatus := OPEN_RUN_STATUSES.

Definition is_status_question (message : string) : bool := search _STATUS_QUESTION_RE message.

Definition deliverable (kind label : string) : dict := [("kind", JStr kind); ("label", JStr label)].

Definition enumerate_status_deliverables (request : option string) : list dict :=
  let text := str_or request "" in
  let ticket := if search _TICKET_RE text
                then if search _GITHUB_RE text || search _CUSTOMER_BUG_RE text
                     then [deliverable "github_issue" "GitHub ticket"]
                     else [deliverable "ticket" "ticket"]
                else [] in
  let assignment := if search _ASSIGNMENT_RE text then [deliverable "assignment" "ticket assignment"] else [] in
  match ticket ++ assignment with
  | [] => [deliverable "request" "originating request"]
  | l => l
  end.

(** * The runs of a thread *)

(** Top-level runs of the thread, newest first. *)
Definition same_thread_runs (thread_id_ : string) (org : option string) (d : db) : list run_row :=
  let clean_org := strip (str_or org "") in
  reverse (by_created (filter (fun r => thread_id (spec r) = thread_id_
    /\ parent_run_id (spec r) = None
    /\ (clean_org = "" \/ org_id (spec r) = Some clean_org)) (all_runs d))).

Definition _latest_final_output (id : Z) : DB string := latest_artifact_text id (Member FINAL_ANSWER).

Definition live_sibling (r : run_row) : json :=
  JObj [("run_id", JInt (run_id r)); ("status", JStr (value (row_status r)))].

Definition build_same_thread_run_context (thread_id_ : string) (org : option string) (origin_search_limit : Z)
    (include_status_details : bool) : DB dict :=
  let clean_thread_id := strip thread_id_ in
  if String.eqb clean_thread_id "" then
    ret [("thread_id", JStr ""); ("lookup_status", JStr "failed"); ("lookup_error", JStr "missing thread id");
         ("status_question", JBool include_status_details); ("originating_run", JNull);
         ("live_sibling_runs", JList []); ("deliverables", JList [])]
  else
    rows <- gets (fun s => same_thread_runs clean_thread_id org (pending s)) ;;
    let live := filter (fun r => status r ∈ value <$> SAME_THREAD_COORDINATION_POLICY) rows in
    let origin_rows := if include_status_details then take (Z.to_nat (Z.max 1 origin_search_limit)) rows else [] in
    origin <- match find (fun r => negb (is_status_question (input_message (spec r)))) origin_rows with
              | Some r =>
                  final_output <- _latest_final_output (run_id r) ;;
                  ret (Some [("run_id", JInt (run_id r)); ("status", JStr (value (row_status r)));
                             ("request", JStr (input_message (spec r)));
                             ("final_output", opt_str (if String.eqb final_output "" then None else Some final_output))])
              | None => ret None
              end ;;
    ret [("thread_id", JStr clean_thread_id); ("lookup_status", JStr "verified");
         ("status_question", JBool include_status_details);
         ("originating_run", match origin with Some o => JObj o | None => JNull end);
         ("live_sibling_runs", JList (live_sibling <$> live));
         ("deliverables", JList (if include_status_details
            then JObj <$> enumerate_status_deliverables
                   (match origin with Some o => Some (str_or_empty (jget_or_null "request" o)) | None => None end)
            else []))].

Definition build_status_question_context (thread_id_ message : string) (org : option string)
    (origin_search_limit : Z) : DB (option dict) :=
  if negb (is_status_question message) then ret None
  else c <- build_same_thread_run_context thread_id_ org origin_search_limit true ;; ret (Some c).

(** * What the prompt says about them *)

(** [[item for item in list(value.get(key) or []) if isinstance(item, Mapping)]]. *)
Definition mapping_items (key : string) (v : dict) : result (list dict) :=
  items ← py_iter (jget_or_null key v); Ok (mappings items).

Definition or_text (j : json) (dflt : string) : string :=
  let t := str_or_empty j in if String.eqb t "" then dflt else t.

Definition origin_lines (lookup_status : string) (origin : option dict) : list string :=
  if negb (String.eqb lookup_status "verified")
  then ["The same-thread run lookup could not verify an originating outcome. "
          +:+ "Do not report the prior request as done."]
  else match origin with
       | None => ["No originating run outcome was found on this thread. "
                    +:+ "Do not infer completion from an incidental record."]
       | Some o =>
           let request := squeeze (str_or_empty (jget_or_null "request" o)) in
           ("Originating run " +:+ py_str (jget_or_null "run_id" o) +:+ " status: "
              +:+ or_text (jget_or_null "status" o) "unknown" +:+ ".")
           :: if String.eqb request "" then [] else ["Originating ask: " +:+ request]
       end.

Definition final_output_lines (origin : option dict) : list string :=
  let final_output := strip (str_or_empty (jget_or_null "final_output" (default [] origin))) in
  if negb (String.eqb final_output "")
  then ["Originating run final outcome: " +:+ str_take 1600 final_output]
  else match origin with
       | Some _ => ["The originating run has no verified final outcome with refs yet."]
       | None => []
       end.

Definition format_status_question_context (v : json) : result string :=
  match v with
  | JObj (e :: l) =>
      let value := e :: l in
      let lookup_status := lower (strip (str_or_empty (jget_or_null "lookup_status" value))) in
      let origin := match jget_or_null "originating_run" value with JObj o => Some o | _ => None end in
      live_runs ← mapping_items "live_sibling_runs" value;
      items ← mapping_items "deliverables" value;
      let deliverables := filter (fun t => t <> "")
        ((fun item => strip (str_or_empty (jor (jget_or_null "label" item) (jget_or_null "kind" item)))) <$> items) in
      Ok (join newline
        (["Authoritative status-check evidence:"] ++ origin_lines lookup_status origin
         ++ ((fun run => "Sibling run " +:+ py_str (jget_or_null "run_id" run) +:+ " is "
                +:+ py_str (jget_or_null "status" run)
                +:+ "; you must report the request as in progress, never yes/done.") <$> live_runs)
         ++ match deliverables with
            | [] => []
            | _ => ["Deliverables to verify individually: " +:+ join ", " deliverables +:+ "."]
            end
         ++ final_output_lines origin
         ++ ["A downstream Domain/tracker record proves only that a partial step ran. "
               +:+ "State each unresolved deliverable explicitly."]))
  | _ => Ok ""
  end.

Definition format_active_sibling_context (v : json) : result string :=
  match v with
  | JObj (e :: l) =>
      active_runs ← mapping_items "live_sibling_runs" (e :: l);
      match active_runs with
      | [] => Ok ""
      | _ => Ok (join newline
          (["Authoritative active-sibling evidence captured at admission:"]
           ++ ((fun run => "Sibling run " +:+ py_str (jget_or_null "run_id" run) +:+ " status: "
                  +:+ or_text (jget_or_null "status" run) "unknown" +:+ ".") <$> active_runs)
           ++ ["Do not answer as if this is the only active work on the Slack thread. "
                 +:+ "Your final reply must wait for the active work, reference an active sibling "
                 +:+ "run, or explicitly hand the question off.";
               "Declare that choice in the reply tool's coordination field as "
                 +:+ "{'action': 'wait'}, {'action': 'reference', 'run_id': N}, or "
                 +:+ "{'action': 'handoff'}.";
               "This admission snapshot is authoritative even if the sibling work seems "
                 +:+ "unrelated or may have finished since admission."]))
      end
  | _ => Ok ""
  end.

Example asks_status :
  is_status_question "Hey, IS  it done?" = true /\ is_status_question "What's the status" = true
  /\ is_status_question "did you open a ticket" = true /\ is_status_question "this is done" = false
  /\ is_status_question "how is the work going" = true /\ is_status_question "is it undone" = false.
Proof. by vm_compute. Qed.
