(* ===== verification/RunRouting.v ===== *)
(** From an event of the work intake to the request of a run: profiles, recipes and
    model policies named by metadata, slash commands, reply surfaces, and the requests
    of chat messages, Slack messages, direct targets and continuations.
    [brain/systems/runs/work_intake.py], [work_intake_slack.py], [direct_targets.py],
    [skill_commands.py], [interactive_reply.py]. *)
From Stdlib Require Import Ascii.
From S2P Require Import Prelude.
From S2P Require Import PyStr.
From S2P Require Import Json.
From S2P Require Import Status.
From S2P Require Import Failures.
From S2P Require Import RunStore.
From S2P Require Import RunCreate.
From S2P Require Import RunMessages.
From S2P Require Import Models.
From S2P Require Import EvidenceHealth.
From S2P Require Import Continuation.
Open Scope string_scope.
Open Scope bool_scope.
Open Scope list_scope.

(** * Slash commands, [skill_commands.py] *)

Definition _is_command_char (a : ascii) : bool :=
  let n := N_of_ascii a in
  (N.leb 48 n && N.leb n 57) || (N.leb 65 n && N.leb n 90) || (N.leb 97 n && N.leb n 122)
  || N.eqb n 95 || N.eqb n 45.

(** The longest prefix of command characters, and the rest. *)
Fixpoint command_name (s : string) : string * string :=
  match s with
  | String a s' => if _is_command_char a then let '(n, r) := command_name s' in (String a n, r) else ("", s)
  | EmptyString => ("", "")
  end.

(** [boundary]: the text starts here or a white space comes before.  Every round
    consumes a character, so the length of the text is fuel enough. *)
Fixpoint slash_names (fuel : nat) (boundary : bool) (text : string) : list string :=
  match fuel, text with
  | Datatypes.S fuel', String a rest =>
      if negb (Ascii.eqb a slash && boundary) then slash_names fuel' (is_space a) rest
      else match command_name rest with
           | ("", _) => slash_names fuel' (is_space a) rest
           | (name, String b rest') =>
               if Ascii.eqb b slash then slash_names fuel' false rest'
               else name :: slash_names fuel' false (String b rest')
           | (name, EmptyString) => [name]
           end
  | _, _ => []
  end.
Definition iter_slash_skill_commands (message : string) : list string :=
  slash_names (String.length message) true message.

Definition parse_slash_skill_names (message : string) : list string := fromkeys (iter_slash_skill_commands message).

Definition skill_command (name : string) : json :=
  JObj [("name", JStr name); ("token", JStr ("/" +:+ name)); ("kind", JStr "skill_command");
        ("source", JStr "user_message")].

Definition annotate_metadata_with_slash_skill_commands (metadata : dict) (message : string) : dict :=
  match parse_slash_skill_names message with
  | [] => metadata
  | names => jset "slash_skill_commands" (JList (skill_command <$> names))
               (jset "slash_skill_names" (JList (JStr <$> names)) metadata)
  end.

(** * Reply surfaces, [interactive_reply.py] *)

Definition INTERACTIVE_SLACK_ORIGINS : list string := ["slack_teammate"; "slack_channel_monitor"].

(** The mappings that are looked at: a context and, in each, the mappings under its
    two keys of provenance. *)
Fixpoint contexts_of (j : json) : list dict :=
  match j with
  | JObj d => d :: (fix go l := match l with
                    | [] => []
                    | (k, v) :: l' =>
                        (if String.eqb k "execution_provenance" || String.eqb k "target_ref"
                         then contexts_of v else []) ++ go l'
                    end) d
  | _ => []
  end.

Definition normalized_text (key : string) (d : dict) : string := lower (strip (str_or_empty (jget_or_null key d))).

Definition is_interactive_slack_reply_context (contexts : list dict) : bool :=
  let all := contexts ≫= fun c => contexts_of (JObj c) in
  let has_interactive_origin := existsb (fun c => str_in (normalized_text "origin" c) INTERACTIVE_SLACK_ORIGINS) all in
  let targets_slack := existsb (fun c => String.eqb (normalized_text "final_answer_target_surface" c) "slack") all in
  let is_headless := existsb (fun c => truthy (jget_or_null "headless" c)
    || String.eqb (normalized_text "final_answer_target_surface" c) "headless") all in
  negb is_headless && (has_interactive_origin || targets_slack).

(** * Direct targets, [direct_targets.py] *)

Record DirectHeadlessTarget : Type := { dt_kind : string; dt_thread_id : string; dt_value : dict }.

Definition direct_from_mapping (target : dict) : result DirectHeadlessTarget :=
  let kind := strip (str_or_empty (jget_or_null "kind" target)) in
  let thread_id := strip (str_or_empty (jget_or_null "thread_id" target)) in
  if String.eqb thread_id ""
  then Err (ValueError ((if String.eqb kind "" then "Direct/headless" else kind) +:+ " target requires thread_id"))
  else Ok {| dt_kind := kind; dt_thread_id := thread_id; dt_value := target |}.

Definition DIRECT_TARGET_KINDS : list string :=
  ["app_report"; "external_agent_headless_ask"; "inbound_submission"; "knowledge_distillation"].

Definition resolve_direct_target (target : dict) : result (option DirectHeadlessTarget) :=
  if str_in (strip (str_or_empty (jget_or_null "kind" target))) DIRECT_TARGET_KINDS
  then t ← direct_from_mapping target; Ok (Some t) else Ok None.

(** * Choices by metadata, [work_intake.py] *)

Definition _VALID_MODEL_PROVIDERS : list string := ["anthropic"; "ollama"; "openai"].
Definition THREAD_DISCUSSION_SURFACE : string := "thread_discussion".
Definition THREAD_DISCUSSION_REPLY_TOOL : string := "post_thread_discussion_reply".
Definition AGENT_RUN_CONTINUATION_TARGET : string := "agent_run_continuation".

(** A value that is not valid is passed over. *)
Fixpoint metadata_choice (metadata : dict) (keys valid_values : list string) (dflt : string) : string :=
  match keys with
  | [] => dflt
  | key :: keys' =>
      match jget_or_null key metadata with
      | JNull => metadata_choice metadata keys' valid_values dflt
      | raw => let value := lower (strip (py_str raw)) in
               if str_in value valid_values then value else metadata_choice metadata keys' valid_values dflt
      end
  end.

Definition set_text (key v : string) (d : dict) : dict := if String.eqb v "" then d else jset key (JStr v) d.

Definition model_policy_from_metadata (metadata : dict) : dict :=
  let thinking := metadata_choice metadata ["thinking_tier"; "effort"; "effort_level"; "thinking"] EFFORT_TIERS "" in
  let model := match jor (jget_or_null "model" metadata) (jget_or_null "model_name" metadata) with
               | JStr t => colon_to_slash (strip t)
               | _ => ""
               end in
  let provider := metadata_choice metadata ["provider"; "preferred_provider"; "model_provider"]
                    _VALID_MODEL_PROVIDERS "" in
  set_text "provider" provider (set_text "model" model (set_text "thinking" thinking [])).

(** The deep profile is retired. *)
Definition profile_from_metadata (metadata : dict) : RunProfile :=
  let get k := jget_or_null k metadata in
  let raw := jor (get "execution_profile") (jor (get "requested_run_profile")
               (jor (get "run_profile") (jor (get "profile") (JStr "fast")))) in
  match first_member (lower (strip (py_str raw))) members with
  | Some PROFILE_DEEP | None => PROFILE_FAST
  | Some p => p
  end.

Definition recipe_for_profile (profile : RunProfile) (metadata : dict) : RunRecipe :=
  let raw := jget_or_null "recipe" metadata in
  if negb (truthy raw) then RECIPE_FAST
  else match first_member (lower (strip (py_str raw))) members with
       | Some RECIPE_DEEP | Some RECIPE_SCOUT | None => RECIPE_FAST
       | Some r => r
       end.

(** * Triggers *)

Definition _trigger_payload (trigger : dict) : dict := as_dict (jget_or_null "payload" trigger).
Definition _trigger_target (trigger : dict) : dict := as_dict (jget_or_null "target" trigger).
Definition _trigger_policy (trigger : dict) : dict := as_dict (jget_or_null "policy" trigger).

Definition or_none_text (t : string) : option string := if String.eqb t "" then None else Some t.

Definition _trigger_actor_user_id (trigger : dict) (org : option string) : option string :=
  match jget_or_null "actor" trigger with
  | JObj actor =>
      if is_jbool true (jget_or_null "internal" actor) then None
      else if match org with
              | None | Some "" => false
              | Some o => negb (str_in (str_or_empty (jget_or_null "org_id" actor)) [""; o])
              end then None
      else or_none_text (strip (str_or_empty (jget_or_null "id" actor)))
  | _ => None
  end.

(** An actor is a mapping or [None]. *)
Definition _actor_org_id (actor : dict) : option string :=
  or_none_text (strip (str_or_empty (jget_or_null "org_id" actor))).

Definition _trigger_org_id (trigger : dict) : option string :=
  text_or (Some (strip (str_or_empty (jget_or_null "org_id" trigger))))
          (_actor_org_id (as_dict (jget_or_null "actor" trigger))).

Definition _merge_trigger_metadata (trigger metadata : dict) : dict :=
  let get k := jget_or_null k trigger in
  jset "illo_trigger" (JObj [("source", get "source"); ("event_type", get "event_type");
    ("idempotency_key", get "idempotency_key"); ("target", JObj (as_dict (get "target")));
    ("policy", JObj (as_dict (get "policy"))); ("actor", get "actor")]) metadata.

(** [t.split(".", 1)[-1]]. *)
Definition after_dot (t : string) : string :=
  match split_first "."%char t with Some (_, rest) => rest | None => t end.

Definition _run_event (trigger policy : dict) : string :=
  let event_type := str_or_empty (jget_or_null "event_type" trigger) in
  py_str (jor (jget_or_null "run_event" policy) (JStr (after_dot event_type))).

Definition _priority (payload policy : dict) : Z :=
  default 0%Z (py_int (jor (jget_or_null "priority" policy) (jor (jget_or_null "priority" payload) (JInt 0)))).

Definition _payload_user_id (payload trigger : dict) (org : option string) : option string :=
  let raw := jget_or_null "user_id" payload in
  if truthy raw && negb (py_eqb raw (JStr "system")) then Some (py_str raw)
  else _trigger_actor_user_id trigger org.

(** * Events *)

(** [WorkIntakeEvent.from_trigger_payload]. *)
Definition from_trigger_payload (trigger : dict) : WorkIntakeEvent :=
  {| wi_source := str_or_empty (jget_or_null "source" trigger);
     wi_event_type := str_or_empty (jget_or_null "event_type" trigger);
     wi_org_id := str_or (_trigger_org_id trigger) "";
     wi_actor := as_dict (jget_or_null "actor" trigger);
     wi_target := _trigger_target trigger; wi_payload := _trigger_payload trigger;
     wi_policy := setdefault (setdefault (_trigger_policy trigger) "idempotency_key"
                    (jget_or_null "idempotency_key" trigger)) "producer" (JStr "trigger") |}.

Definition _event_actor_user_id (event : WorkIntakeEvent) : option string :=
  let actor := wi_actor event in
  if is_jbool true (jget_or_null "internal" actor) then None
  else or_none_text (strip (str_or_empty (jor (jget_or_null "id" actor) (jget_or_null "user_id" actor)))).

Definition _event_org_id (event : WorkIntakeEvent) : option string :=
  text_or (Some (strip (wi_org_id event))) (_actor_org_id (wi_actor event)).

Definition _event_target (event : WorkIntakeEvent) : dict :=
  let target := jpop "extra" (wi_target event) in
  match jget_or_null "extra" (wi_target event) with JObj extra => jupdate target extra | _ => target end.

Definition _event_metadata (event : WorkIntakeEvent) : dict :=
  let metadata := as_dict (jget_or_null "metadata" (wi_payload event)) in
  let org := _event_org_id event in
  let metadata := match org with Some o => jset "org_id" (JStr o) metadata | None => metadata end in
  jset "work_intake" (JObj [("source", JStr (wi_source event)); ("event_type", JStr (wi_event_type event));
    ("org_id", opt_str org); ("target", JObj (_event_target event)); ("policy", JObj (wi_policy event));
    ("actor", JObj (wi_actor event))]) metadata.

Definition _event_message (event : WorkIntakeEvent) : string :=
  let get k := jget_or_null k (wi_payload event) in
  str_or_empty (jor (get "run_message") (jor (get "message") (get "thread_message"))).

Definition _event_priority (event : WorkIntakeEvent) : Z := _priority (wi_payload event) (wi_policy event).

Definition _event_idempotency_key (event : WorkIntakeEvent) : json :=
  jor (jget_or_null "idempotency_key" (wi_policy event)) (jget_or_null "idempotencyKey" (wi_policy event)).

Definition _event_producer (event : WorkIntakeEvent) : string :=
  py_str (jor (jget_or_null "producer" (wi_policy event)) (JStr "work_intake")).

Definition _event_run_event (event : WorkIntakeEvent) : string :=
  py_str (jor (jget_or_null "run_event" (wi_policy event))
            (jor (JStr (after_dot (wi_event_type event))) (JStr (wi_event_type event)))).

Definition _event_workspace_ref (event : WorkIntakeEvent) : dict :=
  as_dict (jget_or_null "workspace_ref" (wi_payload event)).

Definition _event_model_policy (event : WorkIntakeEvent) (metadata : dict) : dict :=
  match jget_or_null "model_policy" (wi_payload event) with
  | JObj p => p
  | _ =>
      match String.eqb (wi_source event) "inbound" && String.eqb (wi_event_type event) "inbound.submission_received",
            jget_or_null "submission_metadata" (wi_payload event) with
      | true, JObj m => model_policy_from_metadata m
      | _, _ => model_policy_from_metadata metadata
      end
  end.

(** * Requests *)

(** [AgentRunRequest(..)]; a request without an organization is refused. *)
Definition agent_run_request (org user : option string) (thread message : string) (metadata_for_recipe : dict)
    (target_ref workspace_ref model_policy metadata : dict) (deadline : option instant) : result AgentRunRequest :=
  let profile := profile_from_metadata metadata_for_recipe in
  AgentRunRequest_post_init
    {| req_thread_id := thread; req_message := message; req_org_id := str_or org ""; req_user_id := user;
       req_profile := Member profile; req_recipe := Some (Member (recipe_for_profile profile metadata_for_recipe));
       req_parent_run_id := None; req_root_run_id := None; req_target_ref := target_ref;
       req_workspace_ref := workspace_ref; req_model_policy := model_policy; req_metadata := metadata;
       req_deadline_at := deadline |}.

Definition with_metadata (f : dict -> dict) (r : AgentRunRequest) : AgentRunRequest :=
  {| req_thread_id := req_thread_id r; req_message := req_message r; req_org_id := req_org_id r;
     req_user_id := req_user_id r; req_profile := req_profile r; req_recipe := req_recipe r;
     req_parent_run_id := req_parent_run_id r; req_root_run_id := req_root_run_id r;
     req_target_ref := req_target_ref r; req_workspace_ref := req_workspace_ref r;
     req_model_policy := req_model_policy r; req_metadata := f (req_metadata r);
     req_deadline_at := req_deadline_at r |}.

Definition with_model_policy (p : dict) (r : AgentRunRequest) : AgentRunRequest :=
  {| req_thread_id := req_thread_id r; req_message := req_message r; req_org_id := req_org_id r;
     req_user_id := req_user_id r; req_profile := req_profile r; req_recipe := req_recipe r;
     req_parent_run_id := req_parent_run_id r; req_root_run_id := req_root_run_id r;
     req_target_ref := req_target_ref r; req_workspace_ref := req_workspace_ref r;
     req_model_policy := p; req_metadata := req_metadata r; req_deadline_at := req_deadline_at r |}.

(** [dict(x or {})]: a mapping, or pairs with text keys. *)
Definition pair_of (j : json) : result (string * json) :=
  match j with JList [JStr k; v] => Ok (k, v) | _ => Err (TypeError "cannot convert to a sequence of pairs") end.
Definition py_dict (j : json) : result dict :=
  if negb (truthy j) then Ok []
  else match j with
       | JObj d => Ok d
       | JList l => pairs ← mapM pair_of l; Ok (jupdate [] pairs)
       | JStr _ => Err (ValueError "dictionary update sequence element has the wrong length")
       | _ => Err (TypeError "object is not iterable")
       end.

(** What a trigger's request adds to its metadata. *)
Definition trigger_metadata (trigger metadata : dict) (source : json) (run_event : string) (priority : Z)
    (org : option string) : dict :=
  jupdate metadata [("event", JStr run_event); ("priority", JInt priority); ("source", source);
    ("producer", JStr "trigger"); ("idempotency_key", jget_or_null "idempotency_key" trigger);
    ("org_id", opt_str org)].

Definition trigger_source (trigger : dict) : json := JStr ("trigger:" +:+ py_str (jget_or_null "source" trigger)).

(** Chat messages. *)
Definition _chat_thread_id (chat_trigger target : dict) : result string :=
  let conversation_id := str_or_empty (jor (jget_or_null "conversation_id" chat_trigger)
                                           (jget_or_null "conversation_id" target)) in
  let message_id := jor (jget_or_null "thread_root_message_id" chat_trigger) (jget_or_null "message_id" chat_trigger) in
  if String.eqb conversation_id "" || negb (truthy message_id)
  then Err (ValueError "Chat run triggers require conversation_id and message_id")
  else Ok ("chat:" +:+ conversation_id +:+ ":" +:+ py_str message_id).

Definition _agent_run_request_for_chat (trigger : dict) : result AgentRunRequest :=
  let target := _trigger_target trigger in
  let payload := _trigger_payload trigger in
  let policy := _trigger_policy trigger in
  let org := _trigger_org_id trigger in
  let metadata := _merge_trigger_metadata trigger (as_dict (jget_or_null "metadata" payload)) in
  chat_trigger ← py_dict (jor (jget_or_null "chat_trigger" metadata) (jget_or_null "chat" payload));
  let run_event := _run_event trigger policy in
  thread_id ← _chat_thread_id chat_trigger target;
  agent_run_request org (_payload_user_id payload trigger org) thread_id
    (str_or_empty (jor (jget_or_null "run_message" payload) (jget_or_null "message" payload))) metadata
    (jupdate target [("kind", JStr "chat_message"); ("event", JStr run_event); ("chat_trigger", JObj chat_trigger)])
    [] (model_policy_from_metadata metadata)
    (trigger_metadata trigger metadata (trigger_source trigger) run_event (_priority payload policy) org) None.

(** Slack messages, [work_intake_slack.py]. *)
Definition SLACK_SURFACE : string := "slack".
Definition SLACK_REPLY_TOOL : string := "post_slack_reply".

Definition either (key : string) (a b : dict) : json := jor (jget_or_null key a) (jget_or_null key b).

Definition _slack_thread_id (slack_trigger target : dict) : result string :=
  let team_id := str_or_empty (either "team_id" slack_trigger target) in
  let channel_id := str_or_empty (either "channel_id" slack_trigger target) in
  let message_ts := str_or_empty
    (jor (jor (jget_or_null "thread_ts" slack_trigger) (jget_or_null "message_ts" slack_trigger))
         (jor (jget_or_null "thread_ts" target) (jget_or_null "message_ts" target))) in
  if String.eqb team_id "" || String.eqb channel_id ""
  then Err (ValueError "Slack run triggers require team_id and channel_id")
  else Ok ("slack:" +:+ team_id +:+ ":" +:+ channel_id
           +:+ if String.eqb message_ts "" then "" else ":" +:+ message_ts).

Definition slack_surface_context (metadata : dict) : dict :=
  let surfaces := [("originating_surface", JStr SLACK_SURFACE); ("triggering_surface", JStr SLACK_SURFACE);
                   ("source_surface", JStr SLACK_SURFACE)] in
  if truthy (jget_or_null "headless" metadata)
  then
    let tool := strip (str_or_empty (jget_or_null "required_response_tool" metadata)) in
    set_text "required_response_tool" tool
      (surfaces ++ [("final_answer_target_surface", JStr "headless"); ("headless", JBool true)])
  else surfaces ++ [("required_response_tool", JStr SLACK_REPLY_TOOL);
                    ("final_answer_target_surface", JStr SLACK_SURFACE)].

Definition set_defaults (defaults d : dict) : dict := fold_left (fun d kv => setdefault d kv.1 kv.2) defaults d.

Definition slack_related_surface (slack_thread_id : string) (slack_trigger target : dict) : json :=
  JObj [("slack", JObj [("kind", JStr "slack"); ("thread_id", JStr slack_thread_id);
    ("team_id", either "team_id" slack_trigger target); ("channel_id", either "channel_id" slack_trigger target);
    ("message_ts", either "message_ts" slack_trigger target); ("thread_ts", either "thread_ts" slack_trigger target)])].

Definition agent_run_request_for_slack (trigger : dict) : result AgentRunRequest :=
  let target := _trigger_target trigger in
  let payload := _trigger_payload trigger in
  let policy := _trigger_policy trigger in
  let org := _trigger_org_id trigger in
  let metadata := _merge_trigger_metadata trigger (as_dict (jget_or_null "metadata" payload)) in
  slack_trigger ← py_dict (jor (jget_or_null "slack_trigger" metadata) (jget_or_null "slack" payload));
  let surface_context := slack_surface_context metadata in
  let metadata := jset "slack_trigger" (JObj slack_trigger) (set_defaults surface_context metadata) in
  let run_event := _run_event trigger policy in
  slack_thread_id ← _slack_thread_id slack_trigger target;
  let cortex_thread_id := strip (str_or_empty (jor (jget_or_null "idea_id" target) (jget_or_null "thread_id" target))) in
  let target_ref := jupdate (jupdate target
    [("kind", JStr "slack_message"); ("event", JStr run_event);
     ("surface", jor (either "surface" slack_trigger target) (JStr SLACK_SURFACE));
     ("slack_thread_id", JStr slack_thread_id); ("slack_trigger", JObj slack_trigger)]) surface_context in
  let target_ref := if String.eqb cortex_thread_id "" then target_ref
    else jupdate target_ref [("idea_id", JStr cortex_thread_id); ("thread_id", JStr cortex_thread_id);
           ("related_surfaces", slack_related_surface slack_thread_id slack_trigger target)] in
  agent_run_request org (_payload_user_id payload trigger org)
    (if String.eqb cortex_thread_id "" then slack_thread_id else cortex_thread_id)
    (str_or_empty (jor (jget_or_null "run_message" payload) (jget_or_null "message" payload))) metadata
    target_ref [] (model_policy_from_metadata metadata)
    (trigger_metadata trigger metadata (trigger_source trigger) run_event (_priority payload policy) org) None.

(** Direct targets and continuations. *)
Definition event_request_metadata (event : WorkIntakeEvent) (metadata : dict) : dict :=
  jupdate metadata [("event", JStr (_event_run_event event)); ("priority", JInt (_event_priority event));
    ("source", JStr (wi_source event)); ("producer", JStr (_event_producer event));
    ("idempotency_key", _event_idempotency_key event)].

Definition _build_direct_target_request (event : WorkIntakeEvent) (target : DirectHeadlessTarget)
    (metadata : dict) : result AgentRunRequest :=
  agent_run_request (_event_org_id event) (_event_actor_user_id event) (dt_thread_id target) (_event_message event)
    metadata (dt_value target) (_event_workspace_ref event) (_event_model_policy event metadata)
    (event_request_metadata event metadata) None.

Definition _build_agent_run_continuation_request (event : WorkIntakeEvent) (target metadata : dict)
    : result AgentRunRequest :=
  let thread_id := strip (str_or_empty (jget_or_null "thread_id" target)) in
  if String.eqb thread_id "" then Err (ValueError "Agent run continuation requires thread_id")
  else match jget_or_null "target_ref" target with
       | JObj target_ref =>
           agent_run_request (_event_org_id event) (_event_actor_user_id event) thread_id (_event_message event)
             metadata target_ref (_event_workspace_ref event) (_event_model_policy event metadata)
             (event_request_metadata event metadata) None
       | _ => Err (ValueError "Agent run continuation requires target_ref")
       end.

Example slash_commands :
  parse_slash_skill_names "/plan do /plan and /deep-dive, not /etc/passwd or a/b" = ["plan"; "deep-dive"].
Proof. reflexivity. Qed.
