(* ===== verification/Admission.v ===== *)
(** Admission of work, [admit_work] of [brain/systems/runs/work_intake.py]: the request
    of a run from an event, its model and credentials, and the run with its open ask
    and its thought, created together.  The status of a thought changes as
    [brain/systems/cortex/thought_lifecycle.py] says. *)
From Stdlib Require Import Ascii.
From S2P Require Import Prelude.
From S2P Require Import PyStr.
From S2P Require Import Json.
From S2P Require Import Status.
From S2P Require Import Failures.
From S2P Require Import RunStore.
From S2P Require Import RunCreate.
From S2P Require Import Models.
From S2P Require Import ProviderErrors.
From S2P Require Import EvidenceHealth.
From S2P Require Import Continuation.
From S2P Require Import Obligations.
From S2P Require Import StatusQuestions.
From S2P Require Import RunRouting.
Open Scope string_scope.
Open Scope bool_scope.
Open Scope list_scope.

(** * Thoughts *)

(** A row of [ideas], the columns admission reads or writes. *)
Record Idea : Type := {
  idea_id : string;
  title : option string;
  idea_org_id : option string;
  idea_user_id : option string;
  idea_status : string;
  archived_at : option instant;
  idea_updated_at : instant;
}.

(** A row of [idea_state_log]. *)
Record IdeaStateLog : Type := {
  log_idea_id : string;
  from_state : option string;
  to_state : string;
  changed_at : instant;
  log_trigger : option string;
}.

(** What a session of admission works on: the tables of runs, the ledger of obligations,
    the thoughts and their log. *)
Record intake : Type := {
  tables : store;
  obligations : ledger;
  ideas : gmap string Idea;
  state_log : list IdeaStateLog;
}.

Definition set_tables (s : store) (w : intake) : intake :=
  Build_intake s (obligations w) (ideas w) (state_log w).
Definition set_obligations (l : ledger) (w : intake) : intake :=
  Build_intake (tables w) l (ideas w) (state_log w).
Definition set_thought (i : Idea) (entry : IdeaStateLog) (w : intake) : intake :=
  Build_intake (tables w) (obligations w) (<[idea_id i := i]> (ideas w)) (state_log w ++ [entry]).

Abbreviation IN := (M intake).

Definition on_tables {A} (m : DB A) : IN A := fun w =>
  let r := m (tables w) in (set_tables r.1 w, r.2).
Definition on_obligations {A} (m : L A) : IN A := fun w =>
  let r := m (obligations w) in (set_obligations r.1 w, r.2).

Record ThoughtStatusCommand : Type := {
  cmd_to_status : string;
  cmd_trigger : option string;
  cmd_run_id : option Z;
  cmd_changed_at : option instant;
}.

(** A thought in its new status. *)
Definition with_status (new_status : string) (now : instant) (i : Idea) : Idea :=
  {| idea_id := idea_id i; title := title i; idea_org_id := idea_org_id i; idea_user_id := idea_user_id i;
     idea_status := new_status;
     archived_at := if String.eqb new_status "archived" then Some now
                    else if String.eqb (idea_status i) "archived" then None else archived_at i;
     idea_updated_at := now |}.

Definition _status_change_payload (i : Idea) (old_status new_status : string) (run : option Z) : dict :=
  let payload := [("idea_id", JStr (idea_id i)); ("old_status", JStr old_status); ("new_status", JStr new_status)] in
  let payload := match idea_org_id i with
                 | None | Some "" => payload
                 | Some o => jset "org_id" (JStr o) payload
                 end in
  match run with Some id => jset "run_id" (JInt id) payload | None => payload end.

(** A thought that is archived already is stamped if it was not. *)
Definition transition_thought_status (i : Idea) (c : ThoughtStatusCommand) : IN (option dict) :=
  let old_status := idea_status i in
  let new_status := strip (cmd_to_status c) in
  if String.eqb new_status "" then ret None
  else if String.eqb old_status new_status
          && negb (String.eqb new_status "archived" && bool_decide (archived_at i = None))
  then ret None
  else
    w <- get ;;
    let now := default (now (tables w)) (cmd_changed_at c) in
    modify (set_thought (with_status new_status now i)
      {| log_idea_id := idea_id i; from_state := or_none_text old_status; to_state := new_status;
         changed_at := now; log_trigger := cmd_trigger c |}) ;;;
    ret (Some (_status_change_payload i old_status new_status (cmd_run_id c))).

(** * What admission takes from other components *)

Record ProjectContextResolution : Type := {
  pc_context : dict;
  pc_snapshot : option dict;
  pc_errors : list json;
}.

(** [ProviderAuthBlockedPreflightResult]. *)
Record auth_blocked : Type := { ab_credential : string; ab_error_code : string }.

(** Project contexts, thread contexts, default models and the state of credentials are
    read from tables and services the session does not hold. *)
Class AdmissionServices : Type := {
  resolve_effective_project_context : intake -> Idea -> string -> dict -> result ProjectContextResolution;
  build_agent_visible_thread_context : intake -> string -> option Z -> string -> result (option dict);
  default_model : intake -> option string -> option string -> string -> result string;
  probe_provider_auth : intake -> option string -> string -> string -> string -> result (option auth_blocked);
  environ : string -> option string;
}.

(** * Requests of thoughts and discussions *)

Section admission.
Context `{Platform} `{AdmissionServices}.

Definition service {A} (f : intake -> result A) : IN A := w <- get ;; lift_result (f w).

(** The second SELECT of the code reads the row the first one did not find; on SQLite a
    thought that is not there is made up. *)
Definition _a_get_idea_for_intake (id : string) (fallback_user_id : option string) : IN (option Idea) :=
  gets (fun w =>
    match ideas w !! id with
    | Some i => Some i
    | None => if bool_decide (dialect (tables w) = Sqlite)
              then Some {| idea_id := id; title := None; idea_org_id := None; idea_user_id := fallback_user_id;
                           idea_status := ""; archived_at := None; idea_updated_at := 0 |}
              else None
    end).

(** What a project context does to metadata, target and workspace of a request. *)
Definition attach_project_context (r : ProjectContextResolution) (metadata target_ref : dict)
    : dict * dict * dict :=
  let metadata := match pc_errors r with
                  | [] => metadata
                  | errors => jset "project_context_validation_errors" (JList errors) metadata
                  end in
  match pc_snapshot r with
  | None | Some [] => (jpop "project_context_snapshot" (jpop "project_context" metadata), target_ref, [])
  | Some snapshot =>
      (jpop "project_context_snapshot" (jset "project_context" (JObj (pc_context r)) metadata),
       jset "project_context_snapshot" (JObj snapshot) target_ref,
       jset "project_context_snapshot" (JObj snapshot) (pc_context r))
  end.

Definition attach_thread_context (id : string) (current_message_id : option Z) (message : string) (metadata : dict)
    : IN dict :=
  if is_obj (jget_or_null "thread_context" metadata) then ret metadata
  else
    context <- service (fun w => build_agent_visible_thread_context w id current_message_id message) ;;
    ret match context with
        | None | Some [] => metadata
        | Some c => jset "thread_context" (JObj c) metadata
        end.

Definition _thread_discussion_parent_thread_id (discussion_trigger target : dict) : result string :=
  let response_target := as_dict (jget_or_null "response_target" discussion_trigger) in
  let thread_id := strip (str_or_empty
    (jor (either "thread_id" response_target discussion_trigger)
         (jor (jget_or_null "parent_thread_id" target) (jget_or_null "idea_id" target)))) in
  if String.eqb thread_id "" then Err (ValueError "Thread Discussion run triggers require a parent Thread id")
  else Ok thread_id.

Definition THREAD_DISCUSSION_THREAD_PREFIX : string := "thread-discussion:".
Definition _thread_discussion_thread_id (parent_thread_id : string) : string :=
  THREAD_DISCUSSION_THREAD_PREFIX +:+ parent_thread_id.

Definition discussion_surface_context : dict :=
  [("originating_surface", JStr THREAD_DISCUSSION_SURFACE); ("triggering_surface", JStr THREAD_DISCUSSION_SURFACE);
   ("source_surface", JStr THREAD_DISCUSSION_SURFACE);
   ("required_response_tool", JStr THREAD_DISCUSSION_REPLY_TOOL);
   ("final_answer_target_surface", JStr THREAD_DISCUSSION_SURFACE)].

Definition discussion_target (target : dict) (run_event parent_thread_id : string) (discussion_trigger : dict) : dict :=
  jset "related_surfaces"
    (JObj [("ai_timeline", JObj [("kind", JStr "ai_timeline"); ("thread_id", JStr parent_thread_id)])])
    (jupdate (jupdate target
       [("kind", JStr THREAD_DISCUSSION_SURFACE); ("event", JStr run_event);
        ("surface", JStr THREAD_DISCUSSION_SURFACE); ("idea_id", JStr parent_thread_id);
        ("parent_thread_id", JStr parent_thread_id); ("discussion_trigger", JObj discussion_trigger)])
       discussion_surface_context).

Definition _agent_run_request_for_thread_discussion (trigger : dict) : IN AgentRunRequest :=
  let target := _trigger_target trigger in
  let payload := _trigger_payload trigger in
  let policy := _trigger_policy trigger in
  let org := _trigger_org_id trigger in
  let actor := _payload_user_id payload trigger org in
  let metadata := _merge_trigger_metadata trigger (as_dict (jget_or_null "metadata" payload)) in
  discussion_trigger <- lift_result (py_dict (jor (jget_or_null "discussion_trigger" metadata)
                                                  (jget_or_null "discussion" payload))) ;;
  parent_thread_id <- lift_result (_thread_discussion_parent_thread_id discussion_trigger target) ;;
  idea <- _a_get_idea_for_intake parent_thread_id actor ;;
  match idea with
  | None => raise (LookupError ("Thread " +:+ parent_thread_id +:+ " not found"))
  | Some idea =>
      let get k := jget_or_null k payload in
      let message := str_or_empty (jor (get "run_message") (jor (get "message") (get "thread_message"))) in
      let metadata := annotate_metadata_with_slash_skill_commands
        (jset "discussion_trigger" (JObj discussion_trigger) (set_defaults discussion_surface_context metadata)) message in
      let run_event := _run_event trigger policy in
      resolution <- service (fun w => resolve_effective_project_context w idea parent_thread_id metadata) ;;
      let '(metadata', target_ref, workspace_ref) := attach_project_context resolution metadata
        (discussion_target target run_event parent_thread_id discussion_trigger) in
      metadata' <- attach_thread_context parent_thread_id None message metadata' ;;
      lift_result (agent_run_request (text_or (idea_org_id idea) org) (text_or actor (idea_user_id idea))
        (_thread_discussion_thread_id parent_thread_id) message metadata target_ref workspace_ref
        (model_policy_from_metadata metadata')
        (trigger_metadata trigger metadata' (jget_or_null "source" trigger) run_event (_priority payload policy) org)
        None)
  end.

(** The first of the keys whose value reads as an integer. *)
Definition _metadata_int (metadata : dict) (keys : list string) : option Z :=
  head (omap (fun key => match jget_or_null key metadata with
                         | JNull | JStr "" => None
                         | raw => int_of_str (py_str raw)
                         end) keys).

Definition _surface_context_for_target (metadata : dict) : dict :=
  let surface_context := omap (fun key => match jget_or_null key metadata with
      | JStr t => if String.eqb (strip t) "" then None else Some (key, JStr (strip t))
      | _ => None
      end)
    ["originating_surface"; "triggering_surface"; "source_surface"; "required_response_tool";
     "final_answer_target_surface"] in
  match jget_or_null "discussion_trigger" metadata with
  | JObj t => jset "discussion_trigger" (JObj t) surface_context
  | _ => surface_context
  end.

Definition _agent_run_request_for_cortex (id : string) (event : WorkIntakeEvent) (metadata : dict)
    : IN AgentRunRequest :=
  let message := _event_message event in
  let user := _event_actor_user_id event in
  idea <- _a_get_idea_for_intake id user ;;
  match idea with
  | None => raise (LookupError ("Idea " +:+ id +:+ " not found"))
  | Some idea =>
      let metadata := annotate_metadata_with_slash_skill_commands metadata message in
      resolution <- service (fun w => resolve_effective_project_context w idea id metadata) ;;
      let target_ref := jupdate [("kind", JStr "cortex_idea"); ("idea_id", JStr id);
        ("event", JStr (_event_run_event event)); ("title", opt_str (title idea))] (_surface_context_for_target metadata) in
      let '(metadata', target_ref, workspace_ref) := attach_project_context resolution metadata target_ref in
      metadata' <- attach_thread_context id
        (_metadata_int metadata' ["thread_message_id"; "current_thread_message_id"]) message metadata' ;;
      let org := or_none_text (str_or (text_or (idea_org_id idea)
                   (or_none_text (str_or_empty (jget_or_null "org_id" metadata')))) "") in
      lift_result (agent_run_request org (text_or user (idea_user_id idea)) id message metadata target_ref workspace_ref
        (match jget_or_null "model_policy" (wi_payload event) with
         | JObj (e :: p) => e :: p
         | _ => model_policy_from_metadata metadata'
         end)
        (jset "org_id" (opt_str org) (event_request_metadata event metadata'))
        (strict_int (jget_or_null "deadline_at" (wi_payload event))))
  end.

(** * The request of an event *)

(** The trigger that stands for an event of a message. *)
Definition event_trigger (event : WorkIntakeEvent) (metadata : dict) : dict :=
  [("source", JStr (wi_source event)); ("event_type", JStr (wi_event_type event)); ("actor", JObj (wi_actor event));
   ("org_id", opt_str (_event_org_id event)); ("target", JObj (_event_target event));
   ("payload", JObj (jupdate (wi_payload event) [("message", JStr (_event_message event)); ("metadata", JObj metadata)]));
   ("idempotency_key", _event_idempotency_key event);
   ("policy", JObj (jset "priority" (JInt (_event_priority event)) (wi_policy event)))].

Definition of_event (event : WorkIntakeEvent) (metadata : dict) (r : AgentRunRequest) : AgentRunRequest :=
  with_metadata (fun m => jupdate m [("source", JStr (wi_source event)); ("producer", JStr (_event_producer event));
    ("idempotency_key", _event_idempotency_key event); ("work_intake", jget_or_null "work_intake" metadata)]) r.

Definition _build_agent_run_request (event : WorkIntakeEvent) : IN AgentRunRequest :=
  let target := _event_target event in
  let metadata := _event_metadata event in
  let kind := jget_or_null "kind" target in
  if String.eqb (wi_source event) "chat" || py_eqb kind (JStr "chat_message") then
    r <- lift_result (_agent_run_request_for_chat (event_trigger event metadata)) ;; ret (of_event event metadata r)
  else if String.eqb (wi_source event) "slack" || py_eqb kind (JStr "slack_message") then
    r <- lift_result (agent_run_request_for_slack (event_trigger event metadata)) ;; ret (of_event event metadata r)
  else if py_eqb kind (JStr THREAD_DISCUSSION_SURFACE) then
    r <- _agent_run_request_for_thread_discussion (event_trigger event metadata) ;; ret (of_event event metadata r)
  else
    direct <- lift_result (resolve_direct_target target) ;;
    match direct with
    | Some direct => lift_result (_build_direct_target_request event direct metadata)
    | None =>
        if py_eqb kind (JStr AGENT_RUN_CONTINUATION_TARGET)
        then lift_result (_build_agent_run_continuation_request event target metadata)
        else
          let id := str_or_empty (jget_or_null "idea_id" target) in
          if String.eqb id ""
          then raise (ValueError "Work intake target requires idea_id for Cortex run admission")
          else _agent_run_request_for_cortex id event metadata
    end.

Definition model_of_policy (model_policy : dict) : string :=
  strip (str_or_empty (jor (jget_or_null "model" model_policy) (jget_or_null "model_override" model_policy))).

(** A model that an API key would be needed for is replaced, and the override of a model
    becomes the model. *)
Definition route_model (model_policy : dict) : dict :=
  let requested := model_of_policy model_policy in
  if String.eqb requested "" then model_policy
  else
    let normalized := normalize_model_name (Some requested) in
    let target_model := default normalized (coerce_openai_api_key_model normalized) in
    if negb (py_eqb (jget_or_null "model" model_policy) (JStr target_model)) || jhas "model_override" model_policy
    then jpop "model_override" (jset "model" (JStr target_model) model_policy)
    else model_policy.

Definition _is_interactive_slack_thread (r : AgentRunRequest) : bool :=
  startswith "slack:" (req_thread_id r)
  && py_eqb (jget_or_null "kind" (req_target_ref r)) (JStr "slack_message")
  && is_interactive_slack_reply_context [req_metadata r; req_target_ref r].

Definition build_agent_run_request (event : WorkIntakeEvent) : IN AgentRunRequest :=
  request <- _build_agent_run_request event ;;
  let request := with_model_policy (route_model (req_model_policy request)) request in
  let status_question := is_status_question (req_message request) in
  if negb status_question && negb (_is_interactive_slack_thread request) then ret request
  else
    context <- on_tables (build_same_thread_run_context (req_thread_id request) (Some (req_org_id request)) 32
                            status_question) ;;
    if negb status_question && negb (truthy (jget_or_null "live_sibling_runs" context)) then ret request
    else ret (with_metadata (jset "same_thread_run_context" (JObj context)) request).

(** * Admission *)

Definition _mark_cortex_working_if_possible (request : AgentRunRequest) (run : Z) : IN unit :=
  let target := req_target_ref request in
  if negb (py_eqb (jget_or_null "kind" target) (JStr "cortex_idea")) then ret tt
  else
    let id := str_or_empty (jor (jget_or_null "idea_id" target) (JStr (req_thread_id request))) in
    if String.eqb id "" then ret tt
    else
      idea <- gets (fun w => ideas w !! id) ;;
      match idea with
      | None => ret tt
      | Some idea =>
          if str_in (idea_status idea) ["archived"; "resolved"; "working"] then ret tt
          else
            transition_thought_status idea
              {| cmd_to_status := "working"; cmd_trigger := Some "agent_run_admitted"; cmd_run_id := Some run;
                 cmd_changed_at := None |} ;;;
            ret tt
      end.

Definition _admit_and_record (request : AgentRunRequest) (context : option open_ask_context) : IN AgentRun :=
  run <- on_tables (own_store (create_run request (Member QUEUED) None)) ;;
  on_obligations (record_open_ask context (ar_id run) None) ;;;
  _mark_cortex_working_if_possible request (ar_id run) ;;;
  ret run.

(** The obligations after ROLLBACK TO SAVEPOINT: as before, with what arrived. *)
Definition ledger_rollback (before after : ledger) : ledger :=
  let l := match incoming_asks after with [] => receive_asks before | _ => before end in
  match incoming_notices after with [] => receive_notices l | _ => l end.

Definition nested {A} (body : IN A) : IN A :=
  w0 <- get ;;
  catch body (fun e =>
    on_tables (rollback_to (pending (tables w0))) ;;;
    modify (fun w => {| tables := tables w; obligations := ledger_rollback (obligations w0) (obligations w);
                        ideas := ideas w0; state_log := state_log w0 |}) ;;;
    raise e).

(** The model the run is admitted for; a provider that was asked for is given its model. *)
Definition choose_model (request : AgentRunRequest) : IN (AgentRunRequest * string) :=
  let model_policy := req_model_policy request in
  let model := model_of_policy model_policy in
  let requested_provider := lower (strip (str_or_empty (jget_or_null "provider" model_policy))) in
  if negb (String.eqb model "") then ret (request, model)
  else
    model <- service (fun w => default_model w (or_none_text requested_provider) (req_user_id request) (req_org_id request)) ;;
    ret (if String.eqb requested_provider "" then request
         else with_model_policy (jset "model" (JStr model) model_policy) request, model).

(** The refusal of a credential that does not work. *)
Definition preflight (request : AgentRunRequest) (model : string) (requested_provider : string) : IN (option string) :=
  let provider := infer_provider_from_model environ (Some model) (or_none_text requested_provider) in
  if negb (str_in provider ["anthropic"; "openai"]) then ret None
  else
    blocked <- service (fun w => probe_provider_auth w (req_user_id request) (req_org_id request) provider model) ;;
    ret ((fun b => ab_error_code b +:+ ": provider=" +:+ provider +:+ " model=" +:+ model +:+ " credential="
            +:+ (if String.eqb (ab_credential b) "" then "unavailable" else ab_credential b)) <$> blocked).

Definition refused (reason : string) : WorkIntakeResult :=
  {| wi_ok := false; wi_run_id := None; wi_skipped_reason := Some reason |}.
Definition admitted (run : Z) : WorkIntakeResult :=
  {| wi_ok := true; wi_run_id := Some run; wi_skipped_reason := None |}.

Definition admit_work_body (event : WorkIntakeEvent) : IN WorkIntakeResult :=
  request <- build_agent_run_request event ;;
  chosen <- choose_model request ;;
  let '(request, model) := chosen in
  blocked <- preflight request model
    (lower (strip (str_or_empty (jget_or_null "provider" (req_model_policy request))))) ;;
  match blocked with
  | Some reason => ret (refused reason)
  | None =>
      let '(request, context) := annotate_request_with_open_ask request in
      run <- match context with
             | Some _ => nested (_admit_and_record request context)
             | None => _admit_and_record request context
             end ;;
      ret (admitted (ar_id run))
  end.

Definition admit_work (event : WorkIntakeEvent) : IN WorkIntakeResult :=
  catch (admit_work_body event) (fun e => ret (refused (exn_str e))).
End admission.
