(* ===== verification/AdmissionTheorems.v ===== *)
(** What admission promises: building a request reads, an event is admitted as a whole
    or refused without a trace, no request asks for a retired profile or recipe, and
    the run of a continuation is the one its fan-out expects; admission is the intake
    that continuations ask for. *)
From Stdlib Require Import Ascii.
From S2P Require Import Prelude.
From S2P Require Import PyStr.
From S2P Require Import Json.
From S2P Require Import Status.
From S2P Require Import Failures.
From S2P Require Import RunStore.
From S2P Require Import RunCreate.
From S2P Require Import RunLifecycle.
From S2P Require Import RunMessages.
From S2P Require Import Models.
From S2P Require Import ProviderErrors.
From S2P Require Import RunEvolution.
From S2P Require Import RunOutcome.
From S2P Require Import RunDemo.
From S2P Require Import RunTransitions.
From S2P Require Import RunQueue.
From S2P Require Import RunCreation.
From S2P Require Import RunEngine.
From S2P Require Import EngineTheorems.
From S2P Require Import EngineSettlement.
From S2P Require Import EvidenceHealth.
From S2P Require Import EvidenceTheorems.
From S2P Require Import Continuation.
From S2P Require Import ContinuationTheorems.
From S2P Require Import ContinuationRecovery.
From S2P Require Import Obligations.
From S2P Require Import ObligationLedger.
From S2P Require Import ObligationOps.
From S2P Require Import ObligationTheorems.
From S2P Require Import StatusQuestions.
From S2P Require Import RunRouting.
From S2P Require Import Admission.
Open Scope string_scope.
Open Scope bool_scope.
Open Scope list_scope.

(** * Building a request only reads *)

Abbreviation reads m := (preserves eq m).

Section admission.
Context `{Platform} `{AdmissionServices}.

Lemma set_tables_same w : set_tables (tables w) w = w.
Proof. by destruct w. Qed.

Lemma reads_on_tables {A} (m : DB A) : reads m -> reads (on_tables m).
Proof. intros Hm w. unfold on_tables. cbn [fst]. by rewrite <- (Hm (tables w)), set_tables_same. Qed.

Lemma reads_service {A} (f : intake -> result A) : reads (service f).
Proof. by intros w. Qed.

Lemma reads_idea i u : reads (_a_get_idea_for_intake i u).
Proof. by intros w. Qed.

Ltac read_only := frame_by ltac:(first [ apply reads_service | apply reads_idea ]).

Lemma reads_thread_context i m t d : reads (attach_thread_context i m t d).
Proof. unfold attach_thread_context. read_only. Qed.

Lemma reads_discussion t : reads (_agent_run_request_for_thread_discussion t).
Proof.
  pose proof reads_thread_context. unfold _agent_run_request_for_thread_discussion, attach_project_context.
  cbv zeta. frame_by ltac:(first [ apply reads_service | apply reads_idea | auto ]).
Qed.

Lemma reads_cortex i e d : reads (_agent_run_request_for_cortex i e d).
Proof.
  pose proof reads_thread_context. unfold _agent_run_request_for_cortex, attach_project_context.
  cbv zeta. frame_by ltac:(first [ apply reads_service | apply reads_idea | auto ]).
Qed.

Lemma reads_request e : reads (_build_agent_run_request e).
Proof.
  pose proof reads_discussion. pose proof reads_cortex. unfold _build_agent_run_request. cbv zeta.
  frame_by ltac:(auto).
Qed.

Lemma reads_same_thread t o n b : reads (build_same_thread_run_context t o n b).
Proof.
  unfold build_same_thread_run_context, _latest_final_output, latest_artifact_text. cbv zeta.
  frame_by ltac:(fail).
Qed.

Lemma reads_build e : reads (build_agent_run_request e).
Proof.
  pose proof reads_request. pose proof reads_same_thread. unfold build_agent_run_request. cbv zeta.
  frame_by ltac:(first [ apply reads_on_tables; auto | auto ]).
Qed.

Lemma reads_choose r : reads (choose_model r).
Proof. unfold choose_model. cbv zeta. read_only. Qed.

Lemma reads_preflight r m p : reads (preflight r m p).
Proof. unfold preflight. cbv zeta. read_only. Qed.

(** * Admission works inside the session of its caller *)

(** Nothing is committed, no continuation is queued; what others commit arrives. *)
Record insider_step (s s' : store) : Prop := {
  is_quiet : quiet_step s s';
  is_arrives : arrives s s';
}.

#[local] Instance insider_step_preorder : PreOrder insider_step.
Proof.
  split; [by intros s|]. intros s1 s2 s3 [Q1 (l1 & E1 & D1)] [Q2 (l2 & E2 & D2)]. split; [by etrans|].
  exists (l1 ++ l2). split; [rewrite E2, E1; unfold merge_incoming; by rewrite fold_left_app|].
  intros Hi. apply Forall_app. split; [auto|].
  eapply Forall_impl; [exact (D2 (quiet_step_inv _ _ Q1 Hi))|]. intros r Hr.
  eapply evolves_absent; [by apply (in_grows _ _ (q_inner _ _ Q1))|done].
Qed.

Lemma merge_incoming_evolves l : forall d, db_evolves d (merge_incoming l d).
Proof. induction l as [|r l IH]; intros d; [reflexivity|]. etrans; [apply merge_run_evolves|apply IH]. Qed.

Lemma received_arrives s : arrives s (received s).
Proof.
  exists (incoming s). split; [done|]. intros Hi. eapply Forall_impl; [exact (inv_incoming _ Hi)|]. by intros r [_ ?].
Qed.

Lemma received_quiet s : quiet_step s (received s).
Proof.
  destruct (merge_events (incoming s) (pending s)) as [Ee _]. split.
  - split; try done; [exact (safe_receive_incoming s)|intros _; apply received_arrives|].
    intros _. apply merge_incoming_evolves.
  - intros a. unfold hook_events, run_events. simpl. by rewrite Ee.
Qed.

Lemma fresh_id d : db_wf d -> runs d !! next_run_id d = None.
Proof. intros Hwf. destruct (runs d !! next_run_id d) eqn:E; [destruct (RunEvolution.wf_ids _ Hwf _ _ E); lia|done]. Qed.

Lemma inserted_evolves d row : run_id row = next_run_id d -> db_wf d -> db_evolves d (inserted_db d row).
Proof.
  intros Hid Hwf. apply insert_evolves; [|lia]. rewrite Hid. by apply fresh_id.
Qed.

(** A new row is inserted, or a constraint refuses it. *)
Lemma quiet_insert mk : (forall i, row_wf (mk i) /\ run_id (mk i) = i) -> quiet (insert_run mk).
Proof.
  intros Hmk s. pose proof (safe_insert_run mk Hmk s) as Hs. rewrite insert_run_eq in Hs |- *.
  pose proof (received_quiet s) as Hq. destruct (clashes _ _); [done|]. cbn [fst] in Hs |- *.
  destruct Hq as [[Sr Ar Cr Gr] Hr]. split; [|exact Hr]. split; try done.
  intros Hi. etrans; [by apply Gr|]. apply inserted_evolves; [apply Hmk|]. apply (inv_pending _ (proj1 (Sr Hi))).
Qed.

Lemma quiet_acquire ids a b c : quiet (_acquire_agent_run_locks ids a b c).
Proof. intros s. edestruct acquire_spec as (s' & l & E & Hl & _). rewrite E. by apply locked_silent. Qed.

Lemma quiet_create r st hash : quiet (create_run r st hash).
Proof.
  unfold create_run, _run_for_parent_step, _run_for_source_idempotency. cbv zeta.
  frame_by ltac:(first
    [ apply quiet_insert; intros; split; [apply new_run_row_wf|done]
    | apply quiet_acquire
    | apply silent_append_event; [done|unfold hook_types; set_solver] ]).
Qed.

(** The tables of a session of admission take steps of that kind. *)
Definition insider (w w' : intake) : Prop := insider_step (tables w) (tables w').
#[local] Instance insider_preorder : PreOrder insider.
Proof. split; unfold insider; [by intros w|]. intros w1 w2 w3 H12 H23. by etrans. Qed.

Lemma insider_same w w' : tables w' = tables w -> insider w w'.
Proof. unfold insider. by intros ->. Qed.

Lemma insider_reads {A} (m : IN A) : reads m -> preserves insider m.
Proof. intros Hm w. rewrite <- (Hm w). done. Qed.

Lemma insider_transition i c : preserves insider (transition_thought_status i c).
Proof.
  unfold transition_thought_status. cbv zeta.
  frame_by ltac:(apply preserves_modify; intros; by apply insider_same).
Qed.

Lemma insider_mark r i : preserves insider (_mark_cortex_working_if_possible r i).
Proof.
  pose proof insider_transition. unfold _mark_cortex_working_if_possible. cbv zeta. frame_by ltac:(auto).
Qed.

Lemma insider_record r c : preserves insider (_admit_and_record r c).
Proof.
  unfold _admit_and_record. apply preserves_bind; [apply _| |intros run].
  - intros w. split; [apply quiet_own, quiet_create|].
    apply own_arrives, inner_of_quiet, quiet_create.
  - apply preserves_bind; [apply _|by intros w|intros _].
    apply preserves_bind; [apply _|apply insider_mark|intros _]. apply preserves_ret, _.
Qed.

Lemma insider_nested {A} (m : IN A) : preserves insider m -> preserves insider (nested m).
Proof.
  intros Hm w. unfold nested, bind at 1, get, catch. specialize (Hm w).
  destruct (m w) as [w1 [a|e]]; [done|]. cbn [fst] in Hm. destruct Hm as [[Hi Hh] Ha].
  split; [split; [by apply inner_rollback|done]|]. exact Ha.
Qed.

Lemma insider_admit e : preserves insider (admit_work e).
Proof.
  pose proof insider_record. unfold admit_work, admit_work_body.
  apply preserves_catch; [apply _| |intros x; apply preserves_ret, _].
  frame_by ltac:(first
    [ apply insider_reads; first [ apply reads_build | apply reads_choose | apply reads_preflight ]
    | by apply insider_nested | auto ]).
Qed.

(** ** Admission as the intake continuations ask for *)

(** The obligations and thoughts of the session, as they are when an event is admitted,
    are given by [rest]. *)
Definition store_intake (rest : WorkIntakeEvent -> store -> intake) : WorkIntake :=
  {| Continuation.admit_work e := fun s =>
       let r := admit_work e (set_tables s (rest e s)) in (tables r.1, r.2) |}.

#[export] Instance store_intake_laws rest : @WorkIntakeLaws (store_intake rest).
Proof. constructor. intros e s. apply (insider_admit e (set_tables s (rest e s))). Qed.

(** * What a request asks for *)

(** The deep profile and the deep and scout recipes are retired; a request of an event
    is the request of a root run of an organization. *)
Record routed (r : AgentRunRequest) : Prop := {
  routed_org : req_org_id r <> "";
  routed_root : req_parent_run_id r = None;
  routed_profile : req_profile r = Member PROFILE_FAST;
  routed_recipe : req_recipe r = Some (Member RECIPE_FAST) \/ req_recipe r = Some (Member RECIPE_WORKER);
}.

Lemma profile_fast d : profile_from_metadata d = PROFILE_FAST.
Proof. unfold profile_from_metadata. by destruct (first_member _ _) as [[]|]. Qed.

Lemma recipe_kept p d : recipe_for_profile p d = RECIPE_FAST \/ recipe_for_profile p d = RECIPE_WORKER.
Proof. unfold recipe_for_profile. destruct (negb _); [by left|]. destruct (first_member _ _) as [[]|]; auto. Qed.

Lemma request_routed org user t msg m tr wr mp md dl r :
  agent_run_request org user t msg m tr wr mp md dl = Ok r -> routed r.
Proof.
  unfold agent_run_request, AgentRunRequest_post_init. simpl. destruct (String.eqb _ "") eqn:E; [done|].
  intros [= <-]. split; simpl; [by apply String.eqb_neq|done|by rewrite profile_fast|].
  destruct (recipe_kept (profile_from_metadata m) m) as [->| ->]; auto.
Qed.

Lemma with_metadata_routed f r : routed r -> routed (with_metadata f r).
Proof. by intros []. Qed.
Lemma with_policy_routed p r : routed r -> routed (with_model_policy p r).
Proof. by intros []. Qed.

Ltac route := repeat first
  [ progress intros
  | apply returning_raise
  | match goal with
    | |- returning _ (lift_result _) => apply returning_lift; intros
    | |- returning _ (match ?x with _ => _ end) => destruct x
    | |- returning _ (bind _ _) => apply returning_bind; intros
    end ].

Lemma chat_routed t r : _agent_run_request_for_chat t = Ok r -> routed r.
Proof.
  unfold _agent_run_request_for_chat. intros (x & _ & (y & _ & Hr)%result_bind_ok)%result_bind_ok.
  by eapply request_routed.
Qed.

Lemma slack_routed t r : agent_run_request_for_slack t = Ok r -> routed r.
Proof.
  unfold agent_run_request_for_slack. intros (x & _ & (y & _ & Hr)%result_bind_ok)%result_bind_ok.
  by eapply request_routed.
Qed.

Lemma continuation_routed e t m r : _build_agent_run_continuation_request e t m = Ok r -> routed r.
Proof.
  unfold _build_agent_run_continuation_request. destruct (String.eqb _ ""); [done|].
  destruct (jget_or_null _ _); try done. apply request_routed.
Qed.

Lemma discussion_routed t : returning routed (_agent_run_request_for_thread_discussion t).
Proof.
  unfold _agent_run_request_for_thread_discussion. cbv zeta. route. by eapply request_routed.
Qed.

Lemma cortex_routed i e m : returning routed (_agent_run_request_for_cortex i e m).
Proof. unfold _agent_run_request_for_cortex. cbv zeta. route. by eapply request_routed. Qed.

Lemma returning_of_event e m (x : IN AgentRunRequest) :
  returning routed x -> returning routed (r <- x ;; ret (of_event e m r)).
Proof.
  intros Hx. eapply returning_with; [exact Hx|]. intros r Hr. apply returning_ret. by apply with_metadata_routed.
Qed.

Lemma event_routed e : returning routed (_build_agent_run_request e).
Proof.
  unfold _build_agent_run_request. cbv zeta. destruct (_ || _).
  { apply returning_of_event, returning_lift, chat_routed. }
  destruct (_ || _); [apply returning_of_event, returning_lift, slack_routed|].
  destruct (py_eqb _ _); [apply returning_of_event, discussion_routed|].
  apply returning_bind. intros [d|]; [apply returning_lift, request_routed|].
  destruct (py_eqb _ _); [apply returning_lift, continuation_routed|].
  destruct (String.eqb _ _); [apply returning_raise|apply cortex_routed].
Qed.

(** A model the policy names is not one an API key would be needed for. *)
Definition model_routed (p : dict) : Prop :=
  model_of_policy p = "" \/
  exists m, jget_or_null "model" p = JStr m /\ coerce_openai_api_key_model m = None.

Lemma coerced_default m t : coerce_openai_api_key_model m = Some t -> t = default_openai_model.
Proof.
  unfold coerce_openai_api_key_model. cbv zeta. repeat case_match; try done; by intros [= <-].
Qed.

Lemma route_model_routed p : model_routed (route_model p).
Proof.
  unfold route_model. destruct (String.eqb (model_of_policy p) "") eqn:E; [left; by apply String.eqb_eq|].
  right. set (n := normalize_model_name _).
  assert (Ht : coerce_openai_api_key_model (default n (coerce_openai_api_key_model n)) = None).
  { destruct (coerce_openai_api_key_model n) as [t|] eqn:En; [|done]. apply coerced_default in En as ->. by vm_compute. }
  destruct (negb _ || _) eqn:Ek.
  - eexists. split; [|exact Ht]. unfold jget_or_null. by rewrite jget_jpop_ne, jget_jset_eq.
  - apply orb_false_iff in Ek as [Ek _]. apply negb_false_iff in Ek.
    destruct (jget_or_null "model" p) as [|b|z|m|l|d]; try done. apply String.eqb_eq in Ek as ->. by eexists.
Qed.

Lemma build_routed e : returning (fun r => routed r /\ model_routed (req_model_policy r)) (build_agent_run_request e).
Proof.
  unfold build_agent_run_request. eapply returning_with; [apply event_routed|]. intros r Hr. cbv zeta.
  assert (Hr' := with_policy_routed (route_model (req_model_policy r)) r Hr). pose proof (route_model_routed (req_model_policy r)).
  destruct (negb _ && negb _); [by apply returning_ret|]. apply returning_bind. intros c.
  destruct (negb _ && negb _); apply returning_ret; [done|]. split; [by apply with_metadata_routed|done].
Qed.

(** * What admission leaves *)

(** The row of the run that answers the request [r]: one with its key that was there or
    arrived, or a new one. *)
Inductive answers (r : AgentRunRequest) (s s' : store) (row : run_row) : Prop :=
| RunFound d : same_source r row = true -> d = pending s \/ d = pending (received s) ->
    runs d !! run_id row = Some row -> pending s' = d -> answers r s s' row
| RunAdded e : let d := pending (received s) in
    row = request_row r QUEUED None s (next_run_id d) -> runs d !! run_id row = None ->
    runs (pending s') = <[run_id row := row]> (runs d) -> events (pending s') = events d ++ [e] ->
    ev_type e = "run.created" -> ev_run_id e = run_id row -> answers r s s' row.

Lemma existing_keyed r d row :
  db_wf d -> existing r None d = Some row -> same_source r row = true /\ runs d !! run_id row = Some row.
Proof.
  intros Hd. unfold existing. rewrite (proj2 (head_by_id_none (same_step r None) d)).
  - intros [Hin Hs]%first_by_id_some. split; [done|]. by apply all_runs_lookup.
  - intros x _. unfold same_step. by destruct (req_parent_run_id r).
Qed.

Lemma create_answers r s :
  store_inv s -> routed r ->
  exists s' a, create_run r (Member QUEUED) None s = (s', Ok a) /\ answers r s s' (ar_row a) /\
    runs (pending s') !! ar_id a = Some (ar_row a) /\
    (has_key r None = true -> existing r None (pending s') = Some (ar_row a)) /\
    (forall x, existing r None (pending s) = Some x -> ar_row a = x /\ pending s' = pending s).
Proof.
  intros Hinv [Ho Hroot _ _].
  destruct (create_run_ok s r (Member QUEUED) QUEUED None Hinv eq_refl Ho (or_intror Hroot)) as (s' & a & E & Ha).
  exists s', a. split; [done|]. pose proof (inv_pending _ (proj1 (safe_receive_incoming s Hinv))) as Hwf.
  change (db_wf (pending (received s))) in Hwf. cbv zeta in Ha.
  destruct (existing r None (pending s)) as [row|] eqn:E1.
  { destruct Ha as [<- ->]. destruct (existing_keyed _ _ _ (inv_pending _ Hinv) E1) as [Hs Hr].
    split; [by apply (RunFound _ _ _ _ (pending s)); [|left| |]|]. split; [done|]. split; [done|]. by intros x [= <-]. }
  destruct (existing r None (pending (received s))) as [row|] eqn:E2.
  { destruct Ha as (<- & s1 & [l ->] & ->). destruct (existing_keyed _ _ _ Hwf E2) as [Hs Hr].
    split; [by apply (RunFound _ _ _ _ (pending (received s))); [|right| |]|by split]. }
  destruct Ha as (s1 & e & Hl & Ht & Hi & Hr & _ & W).
  assert (Hp : pending s' = add_event (event_row_of (now s1) e (inserted_db (pending (received s)) (ar_row a)))
                 (inserted_db (pending (received s)) (ar_row a))) by (by destruct W).
  split; [|rewrite Hp; split; [apply lookup_insert_eq|]].
  2:{ split; [|done]. intros Hk. rewrite Hr. by apply existing_inserted. }
  eapply (RunAdded r s s' (ar_row a)); rewrite ?Hp; try done.
  - rewrite Hr. destruct Hl as [l ->]. done.
  - rewrite Hr. by apply fresh_id.
  - simpl. rewrite Hi, Hr. done.
Qed.

Lemma answers_own r s s' row b :
  answers r (set_auto_commit false s) s' row -> answers r s (set_auto_commit b s') row.
Proof.
  intros [d Hs Hd Hr Hp|e d Hrow Hn Hr He Ht Hi].
  - by apply (RunFound _ _ _ _ d).
  - by apply (RunAdded _ _ _ _ e).
Qed.

(** The open ask of the request, if it is one, names the run. *)
Definition ask_recorded (c : option open_ask_context) (run : Z) (l l' : ledger) : Prop :=
  match c with
  | None => l' = l
  | Some c => exists a name, recorded_ask c run name (clock l) l l' a /\ noticed c l' a
  end.

(** The thought the request is about. *)
Definition thought_of (r : AgentRunRequest) : option string :=
  if py_eqb (jget_or_null "kind" (req_target_ref r)) (JStr "cortex_idea")
  then or_none_text (str_or_empty (jor (jget_or_null "idea_id" (req_target_ref r)) (JStr (req_thread_id r))))
  else None.

Definition thoughts_ok (w : intake) : Prop := forall i t, ideas w !! i = Some t -> idea_id t = i.

(** It is working now, unless it was closed; nothing else changes. *)
Record marked (r : AgentRunRequest) (w w' : intake) : Prop := {
  marked_others : forall i, thought_of r <> Some i -> ideas w' !! i = ideas w !! i;
  marked_thought : forall i t, thought_of r = Some i -> ideas w !! i = Some t ->
    exists t', ideas w' !! i = Some t' /\ idea_id t' = i /\
      idea_status t' = (if str_in (idea_status t) ["archived"; "resolved"] then idea_status t else "working");
  marked_log : state_log w' = state_log w \/
    exists entry, state_log w' = state_log w ++ [entry] /\ to_state entry = "working" /\ log_trigger entry = Some "agent_run_admitted";
}.

Lemma mark_unfold r run :
  _mark_cortex_working_if_possible r run =
  match thought_of r with
  | None => ret tt
  | Some i =>
      idea <- gets (fun w => ideas w !! i) ;;
      match idea with
      | None => ret tt
      | Some idea =>
          if str_in (idea_status idea) ["archived"; "resolved"; "working"] then ret tt
          else transition_thought_status idea {| cmd_to_status := "working"; cmd_trigger := Some "agent_run_admitted";
                 cmd_run_id := Some run; cmd_changed_at := None |} ;;; ret tt
      end
  end.
Proof.
  unfold _mark_cortex_working_if_possible, thought_of, or_none_text. cbv zeta.
  destruct (py_eqb _ _); [|done]. cbn [negb]. by destruct (String.eqb _ "").
Qed.

Lemma unmarked r w : (forall i t, thought_of r = Some i -> ideas w !! i = Some t ->
    idea_id t = i /\ idea_status t = (if str_in (idea_status t) ["archived"; "resolved"] then idea_status t else "working")) ->
  marked r w w.
Proof. intros Hu. split; [done| |by left]. intros i t Ht Hi. exists t. destruct (Hu i t Ht Hi). done. Qed.

Lemma closed_or_working x :
  str_in x ["archived"; "resolved"; "working"] = true ->
  x = if str_in x ["archived"; "resolved"] then x else "working".
Proof.
  simpl. destruct (String.eqb x "archived"), (String.eqb x "resolved"); try done. simpl.
  destruct (String.eqb x "working") eqn:Ew; [|done]. by apply String.eqb_eq in Ew.
Qed.

Lemma mark_ok r run w :
  thoughts_ok w ->
  exists w', _mark_cortex_working_if_possible r run w = (w', Ok tt) /\ marked r w w' /\
    tables w' = tables w /\ obligations w' = obligations w /\ thoughts_ok w'.
Proof.
  intros Hok. pose proof (unmarked r w) as Hu. rewrite mark_unfold.
  destruct (thought_of r) as [i|] eqn:Ei; [|exists w; split; [done|]; split; [by apply Hu|done]].
  unfold bind at 1, gets. destruct (ideas w !! i) as [t|] eqn:Et.
  2:{ exists w. split; [done|]. split; [|done]. apply Hu. intros j t [= <-] Hj. congruence. }
  pose proof (Hok _ _ Et) as Hid. destruct (str_in (idea_status t) _) eqn:Es.
  { exists w. split; [done|]. split; [|done]. apply Hu. intros j t' [= <-] Hj. rewrite Et in Hj. injection Hj as <-.
    split; [done|]. by apply closed_or_working. }
  unfold transition_thought_status. cbn [cmd_to_status cmd_changed_at cmd_trigger].
  change (strip "working") with "working". cbv zeta. simpl in Es.
  assert (String.eqb (idea_status t) "working" = false) as -> by (bool_simpl; by apply String.eqb_neq).
  eexists. split; [reflexivity|]. split; [split; simpl|split; [done|split; [done|]]].
  - intros j Hj. rewrite Ei in Hj. rewrite lookup_insert_ne; [done|]. congruence.
  - rewrite Ei. intros j t' [= <-] Hj. rewrite Et in Hj.
    injection Hj as <-. eexists. rewrite Hid, lookup_insert_eq. split; [done|]. split; [done|]. cbn [with_status idea_status].
    revert Es. simpl. by destruct (String.eqb (idea_status t) "archived"), (String.eqb (idea_status t) "resolved").
  - right. eexists. by split.
  - intros j t'. simpl. rewrite lookup_insert. case_decide; [intros [= <-]; simpl; congruence|apply Hok].
Qed.

(** What admission of the request [r] with the open ask [c] leaves. *)
Record admission (r : AgentRunRequest) (c : option open_ask_context) (w w' : intake) (row : run_row) : Prop := {
  adm_run : answers r (tables w) (tables w') row;
  adm_row : runs (pending (tables w')) !! run_id row = Some row;
  adm_retry : has_key r None = true -> existing r None (pending (tables w')) = Some row;
  adm_found : forall x, existing r None (pending (tables w)) = Some x ->
    row = x /\ pending (tables w') = pending (tables w);
  adm_ask : ask_recorded c (run_id row) (obligations w) (obligations w');
  adm_thought : marked r w w';
}.

(** The invariants of what a session of admission works on. *)
Record intake_ok (w : intake) : Prop := {
  ok_tables : store_inv (tables w);
  ok_ledger : ledger_wf (obligations w);
  ok_thoughts : thoughts_ok w;
}.

Definition asks_well (c : option open_ask_context) : Prop := match c with Some c => notice_wanted c | None => True end.

Lemma record_ok r c w :
  intake_ok w -> routed r -> asks_well c ->
  exists w' a, _admit_and_record r c w = (w', Ok a) /\ admission r c w w' (ar_row a) /\ intake_ok w'.
Proof.
  intros [Ht Hl Ho] Hr Hc.
  destruct (create_answers r (set_auto_commit false (tables w)) (own_inv false _ Ht) Hr) as (s1 & a & E1 & Ha & Hrow & Hkey & Hfound).
  set (w1 := set_tables (set_auto_commit (auto_commit (tables w)) s1) w).
  assert (E1' : on_tables (own_store (create_run r (Member QUEUED) None)) w = (w1, Ok a)).
  { unfold on_tables, own_store. by rewrite E1. }
  assert (Hask : exists l y, record_open_ask c (ar_id a) None (obligations w) = (l, Ok y) /\
    ask_recorded c (ar_id a) (obligations w) l /\ ledger_wf l).
  { destruct c as [c|]; [|by exists (obligations w), None].
    destruct (record_open_ask_ok c (ar_id a) None (obligations w) Hl Hc) as (l & y & name & E & Hst & Hrec & Hn).
    exists l, (Some y). split; [done|]. split; [by exists y, name|]. by apply Hst. }
  destruct Hask as (l & y & E2 & Hrec & Hwf).
  set (w2 := set_obligations l w1).
  assert (E2' : on_obligations (record_open_ask c (ar_id a) None) w1 = (w2, Ok y)) by (unfold on_obligations; simpl; by rewrite E2).
  destruct (mark_ok r (ar_id a) w2 Ho) as (w3 & E3 & [M1 M2 M3] & Et & El & Hth).
  exists w3, a. split; [|split].
  - unfold _admit_and_record. by rewrite (bind_eq_ok _ _ _ _ _ E1'), (bind_eq_ok _ _ _ _ _ E2'), (bind_eq_ok _ _ _ _ _ E3).
  - split; [rewrite Et; by apply answers_own|by rewrite Et|by rewrite Et|by rewrite Et|by rewrite El|by split].
  - split; [|by rewrite El|done]. rewrite Et. apply (quiet_step_inv (tables w)); [|done].
    pose proof (quiet_own _ (quiet_create r (Member QUEUED) None) (tables w)) as Hq. unfold own_store in Hq. by rewrite E1 in Hq.
Qed.

Lemma spec_wanted v sp : obligation_spec_from_metadata v = Some sp -> strip (condition sp) <> "".
Proof.
  unfold obligation_spec_from_metadata. destruct v as [| | | | |d]; try done.
  destruct (spec_from_metadata d) as [sp'|] eqn:E; [|done]. intros [= ->]. revert E. unfold spec_from_metadata.
  do 3 (case_match; try done). intros (x & _ & Hs)%result_bind_ok. revert Hs. destruct (Z.ltb _ _); [done|].
  unfold spec_post_init. repeat case_match; try done. intros [= <-]. bool_simpl. done.
Qed.

Lemma context_wanted r c : open_ask_context_for_request r = Some c -> notice_wanted c.
Proof.
  unfold open_ask_context_for_request, notice_wanted. cbv zeta. destruct (_ || _); [done|].
  destruct (obligation_spec_from_metadata _) as [sp|] eqn:E; cbn [negb bool_decide andb].
  - repeat (case_match; try done). intros [= <-]. simplify_eq/=. by eapply spec_wanted.
  - repeat (case_match; try done). intros [= <-]. simplify_eq/=.
Qed.

Lemma annotated r r' c : annotate_request_with_open_ask r = (r', c) -> routed r -> routed r' /\ asks_well c.
Proof.
  unfold annotate_request_with_open_ask. destruct (open_ask_context_for_request r) as [x|] eqn:E.
  - intros [= <- <-] []. split; [by split|]. by eapply context_wanted.
  - by intros [= <- <-].
Qed.

(** The request [r'] asks for what [r] asks for. *)
Definition same_ask (r r' : AgentRunRequest) : Prop :=
  req_thread_id r' = req_thread_id r /\ req_message r' = req_message r /\ req_org_id r' = req_org_id r /\
  req_user_id r' = req_user_id r /\ req_profile r' = req_profile r /\ req_recipe r' = req_recipe r /\
  source_key r' = source_key r.

Lemma annotated_same r r' c : annotate_request_with_open_ask r = (r', c) -> same_ask r r'.
Proof.
  unfold annotate_request_with_open_ask. destruct (open_ask_context_for_request r); intros [= <- <-]; [|done].
  do 6 (split; [done|]). unfold source_key, _source_idempotency_parts. simpl. unfold jget_or_null.
  by rewrite !jget_jset_ne by done.
Qed.

Lemma reads_eq {A} (m : IN A) w : reads m -> m w = (w, (m w).2).
Proof. intros Hm. pose proof (Hm w) as E. destruct (m w). by rewrite E. Qed.

Lemma chosen_same r : returning (fun c => same_ask r c.1 /\ (routed r -> routed c.1)) (choose_model r).
Proof.
  unfold choose_model. cbv zeta. destruct (negb _); [by apply returning_ret|].
  apply returning_bind. intros m. apply returning_ret. cbn [fst]. destruct (String.eqb _ ""); [done|].
  split; [done|apply with_policy_routed].
Qed.

Lemma nested_ok {A} (m : IN A) w w' a : m w = (w', Ok a) -> nested m w = (w', Ok a).
Proof. intros E. unfold nested, bind, get, catch. by rewrite E. Qed.

(** How admission ends: refused, or with the run of the request. *)
Definition concludes (e : WorkIntakeEvent) (w w' : intake) (res : result WorkIntakeResult) : Prop :=
  (w' = w /\ ((exists x, res = Err x) \/ exists reason, res = Ok (refused reason))) \/
  exists r0 r c row, res = Ok (admitted (run_id row)) /\ intake_ok w' /\
    (build_agent_run_request e w).2 = Ok r0 /\ same_ask r0 r /\ routed r /\ admission r c w w' row.

Lemma body_concludes e w : intake_ok w -> let '(w', res) := admit_work_body e w in concludes e w w' res.
Proof.
  intros Hok. unfold admit_work_body. pose proof (reads_eq _ w (reads_build e)) as B.
  destruct (build_agent_run_request e w).2 as [r0|x] eqn:E0; [|rewrite (bind_eq_err _ _ _ _ _ B); left; eauto].
  destruct (build_routed e w r0 E0) as [Hr0 _]. rewrite (bind_eq_ok _ _ _ _ _ B).
  pose proof (reads_eq _ w (reads_choose r0)) as C.
  destruct (choose_model r0 w).2 as [[r1 m]|x] eqn:E1; [|rewrite (bind_eq_err _ _ _ _ _ C); left; eauto].
  destruct (chosen_same r0 w _ E1) as [Hs1 Hr1]. cbn [fst] in Hs1, Hr1. rewrite (bind_eq_ok _ _ _ _ _ C).
  match goal with |- context [preflight r1 m ?p] => pose proof (reads_eq _ w (reads_preflight r1 m p)) as D end.
  destruct (preflight _ _ _ _).2 as [[b|]|x];
    [rewrite (bind_eq_ok _ _ _ _ _ D); left; eauto| |rewrite (bind_eq_err _ _ _ _ _ D); left; eauto].
  rewrite (bind_eq_ok _ _ _ _ _ D).
  destruct (annotate_request_with_open_ask r1) as [r c] eqn:E2. destruct (annotated _ _ _ E2 (Hr1 Hr0)) as [Hr Hc].
  pose proof (annotated_same _ _ _ E2) as Hs. destruct (record_ok r c w Hok Hr Hc) as (w' & a & E3 & Ha & Hok').
  assert (E3' : match c with Some _ => nested (_admit_and_record r c) | None => _admit_and_record r c end w = (w', Ok a)).
  { destruct c; [by apply nested_ok|done]. }
  rewrite (bind_eq_ok _ _ _ _ _ E3'). right. exists r0, r, c, (ar_row a). split; [done|]. split; [done|]. split; [done|].
  unfold same_ask in *. split; [|done]. destruct Hs1 as (?&?&?&?&?&?&?), Hs as (?&?&?&?&?&?&?). split_and!; congruence.
Qed.

Lemma admit_cases e w :
  intake_ok w ->
  (exists reason, admit_work e w = (w, Ok (refused reason))) \/
  exists r0 r c w' row, admit_work e w = (w', Ok (admitted (run_id row))) /\ intake_ok w' /\
    (build_agent_run_request e w).2 = Ok r0 /\ same_ask r0 r /\ routed r /\ admission r c w w' row.
Proof.
  intros Hok. pose proof (body_concludes e w Hok) as Hb. unfold admit_work, catch.
  destruct (admit_work_body e w) as [w' res].
  destruct Hb as [[-> [[x ->]|[reason ->]]]|(r0 & r & c & row & -> & Hrest)]; [left; by eexists..|].
  right. by exists r0, r, c, w', row.
Qed.

Lemma admitted_ok e w w' res : intake_ok w -> admit_work e w = (w', Ok res) -> intake_ok w'.
Proof.
  intros Hok E. destruct (admit_cases e w Hok) as [[reason F]|(r0 & r & c & w1 & row & F & Hok' & _)];
    rewrite E in F; by injection F as -> _.
Qed.

(** C14. Admission is all or nothing.  Whatever the event, the services and the tables,
    admission answers and never raises.  A refusal says why and leaves no trace.  An
    event that is admitted has one run, found by its key or new and queued; its open
    ask, if it is one, names that run; the thought it is about is working unless it
    was closed; and no other thought changes.  Either way the tables, the ledger of
    obligations and the thoughts stay in order, and nothing is committed. *)
Theorem admission_all_or_nothing (e : WorkIntakeEvent) (w : intake) :
  intake_ok w ->
  exists w' res, admit_work e w = (w', Ok res) /\ intake_ok w' /\ arrives (tables w) (tables w') /\
    match wi_run_id res with
    | None => w' = w /\ wi_ok res = false /\ is_Some (wi_skipped_reason res)
    | Some i => wi_ok res = true /\
        exists r0 r c row, (build_agent_run_request e w).2 = Ok r0 /\ same_ask r0 r /\ routed r /\
          run_id row = i /\ admission r c w w' row
    end.
Proof.
  intros Hok. pose proof (is_arrives _ _ (insider_admit e w)) as Ha.
  destruct (admit_cases e w Hok) as [[reason E]|(r0 & r & c & w' & row & E & Hok' & Hrest)]; rewrite E in Ha.
  - exists w, (refused reason). by split_and!.
  - exists w', (admitted (run_id row)). do 4 (split; [done|]). exists r0, r, c, row. by destruct Hrest as (?&?&?&?).
Qed.

(** C16. Retired routes are gone.  Whatever an event asks for, its request is for a root
    run of an organization, in the fast profile and with the recipe of a fast run or of
    a worker, and a model it names is not one that an API key would be needed for;
    building it changes nothing. *)
Theorem requests_routed (e : WorkIntakeEvent) (w w' : intake) (r : AgentRunRequest) :
  build_agent_run_request e w = (w', Ok r) ->
  w' = w /\ routed r /\ model_routed (req_model_policy r).
Proof.
  intros E. pose proof (reads_build e w) as Hw. rewrite E in Hw. split; [done|].
  apply (build_routed e w). by rewrite E.
Qed.

Lemma same_has_key r r' :
  source_key r' = source_key r -> routed r -> routed r' -> has_key r' None = has_key r None.
Proof. intros Hk [_ Hp _ _] [_ Hp' _ _]. unfold has_key. by rewrite Hp, Hp', Hk. Qed.

(** The unique constraints of the table of runs hold in [d]. *)
Definition unique_rows (d : db) : Prop :=
  forall i j x y, runs d !! i = Some x -> runs d !! j = Some y -> unique_clash (spec x) (spec y) = true -> i = j.

Lemma sql_eq_str_some c v : sql_eq_str c v = true <-> c = Some v.
Proof. destruct c as [c|]; simpl; [rewrite String.eqb_eq|]; naive_solver. Qed.

Lemma same_source_clash r x y : same_source r x = true -> same_source r y = true -> unique_clash (spec x) (spec y) = true.
Proof.
  unfold same_source, unique_clash. destruct (source_key r) as [[sc|] [k|]]; [|done..].
  rewrite !andb_true_iff, !sql_eq_str_some. intros [[-> ->] ->] [[-> ->] ->]. simpl. by rewrite !String.eqb_refl.
Qed.

(** Where the constraints hold, the row with the key of a request is the one found. *)
Lemma existing_unique r d x :
  db_wf d -> unique_rows d -> routed r -> runs d !! run_id x = Some x -> same_source r x = true ->
  existing r None d = Some x.
Proof.
  intros Hd Hu [_ Hp _ _] Hx Hs. unfold existing.
  rewrite (proj2 (head_by_id_none (same_step r None) d)) by (intros y _; unfold same_step; by rewrite Hp).
  apply first_by_id_unique; [by apply all_runs_lookup|done|]. intros y Hy Hsy.
  apply (all_runs_lookup _ _ Hd) in Hy.
  assert (run_id y = run_id x) by (apply (Hu _ _ y x); [done..|by apply (same_source_clash r)]). congruence.
Qed.

Lemma same_source_spec r r' x y :
  source_key r' = source_key r -> req_org_id r' = req_org_id r -> spec y = spec x ->
  same_source r' y = same_source r x.
Proof. unfold same_source. by intros -> -> ->. Qed.

(** C15. A repeated event is the same run.  After an event was admitted, at any later
    time, when its run may be running, settled or changed in any way the store
    allows, an event whose request has the same key and organization, delivered again
    or worded anew, whatever the services answer by then, is either refused or admitted
    with that run; it writes nothing to the tables.  The tables it finds are those the
    first admission left or grew from them, and satisfy their unique constraints. *)
Theorem repeated_event_same_run (e e' : WorkIntakeEvent) (w w' v v' : intake) (i : Z)
    (r r' : AgentRunRequest) (res : WorkIntakeResult) :
  intake_ok w -> admit_work e w = (w', Ok (admitted i)) ->
  intake_ok v -> db_evolves (pending (tables w')) (pending (tables v)) -> unique_rows (pending (tables v)) ->
  admit_work e' v = (v', Ok res) ->
  (build_agent_run_request e w).2 = Ok r -> (build_agent_run_request e' v).2 = Ok r' ->
  has_key r None = true -> source_key r' = source_key r -> req_org_id r' = req_org_id r ->
  pending (tables v') = pending (tables v) /\ (res = admitted i \/ wi_ok res = false).
Proof.
  intros Hw E Hv Hgrown Hu E' B B' Hk Hkey Horg.
  destruct (admit_cases e w Hw) as [[reason F]|(r0 & r1 & c & w1 & row & F & _ & B0 & Hs & Hr1 & Ha)];
    rewrite E in F; [done|].
  pose proof (admitted_ok _ _ _ _ Hw E) as Hok.
  injection F as -> F. assert (i = run_id row) as -> by (unfold admitted in F; congruence).
  rewrite B in B0. injection B0 as <-.
  destruct (admit_cases e' v Hv) as [[reason F']|(r0' & r1' & c' & v1 & row' & F' & _ & B0' & Hs' & Hr1' & Ha')];
    rewrite E' in F'; [injection F' as -> ->; by split; [|right]|].
  injection F' as -> ->. rewrite B' in B0'. injection B0' as <-.
  destruct Hs as (_ & _ & So & _ & _ & _ & Sk), Hs' as (_ & _ & So' & _ & _ & _ & Sk').
  pose proof (build_routed e w r B) as [Hr _].
  assert (Hex : existing r1 None (pending (tables w1)) = Some row)
    by (apply Ha; by rewrite (same_has_key r r1)).
  destruct (existing_keyed _ _ _ (inv_pending _ (ok_tables _ Hok)) Hex) as [Hsame Hrow].
  destruct (RunEvolution.ev_runs _ _ Hgrown _ _ Hrow) as (x & Hx & He).
  assert (Hfound : existing r1' None (pending (tables v)) = Some x).
  { apply existing_unique; [apply inv_pending, (ok_tables _ Hv)|done|done|by rewrite (ev_same_id _ _ He)|].
    rewrite (same_source_spec r1 r1' row x); [done|congruence|congruence|apply He]. }
  destruct (adm_found _ _ _ _ _ Ha' x Hfound) as [-> Hp]. rewrite Hp, (ev_same_id _ _ He). split; [done|by left].
Qed.

(** * The run of a continuation *)

(** The services know a model for the owner of a run and a credential that works. *)
Record credentials_work (w : intake) (user : option string) (org : string) : Prop := {
  work_default p : exists m, default_model w p user org = Ok m;
  work_probe p m : probe_provider_auth w user org p m = Ok None;
}.

Lemma choose_ok r w :
  credentials_work w (req_user_id r) (req_org_id r) ->
  exists r' m, choose_model r w = (w, Ok (r', m)) /\ (exists p, r' = with_model_policy p r).
Proof.
  intros Hc. unfold choose_model. cbv zeta. destruct (negb _).
  { eexists _, _. split; [done|]. exists (req_model_policy r). by destruct r. }
  match goal with |- context [default_model _ ?p _ _] => destruct (work_default _ _ _ Hc p) as [m Hm] end.
  unfold service, bind, get, lift_result. rewrite Hm. eexists _, _. split; [done|].
  destruct (String.eqb _ ""); [exists (req_model_policy r); by destruct r|by eexists].
Qed.

Lemma preflight_ok r m p w :
  credentials_work w (req_user_id r) (req_org_id r) -> preflight r m p w = (w, Ok None).
Proof.
  intros Hc. unfold preflight. cbv zeta. destruct (negb _); [done|].
  unfold service, bind, get, lift_result. by rewrite (work_probe _ _ _ Hc).
Qed.

(** What is kept of a request by its annotation. *)
Definition carried (r r' : AgentRunRequest) : Prop :=
  same_ask r r' /\ req_workspace_ref r' = req_workspace_ref r /\
  forall k, k <> "origin_ref" -> jget k (req_target_ref r') = jget k (req_target_ref r).

Lemma carried_policy p r : carried r (with_model_policy p r).
Proof. by destruct r. Qed.

Lemma annotated_carried r r' c : annotate_request_with_open_ask r = (r', c) -> carried r r'.
Proof.
  intros E. split; [by eapply annotated_same|]. revert E. unfold annotate_request_with_open_ask.
  destruct (open_ask_context_for_request r); intros [= <- <-]; [|done].
  split; [done|]. intros k Hk. simpl. by apply jget_jset_ne.
Qed.

(** An event whose request can be built is admitted when the credentials work. *)
Lemma built_admitted e w r0 :
  intake_ok w -> (build_agent_run_request e w).2 = Ok r0 ->
  credentials_work w (req_user_id r0) (req_org_id r0) ->
  exists r c w' row, admit_work e w = (w', Ok (admitted (run_id row))) /\ intake_ok w' /\
    carried r0 r /\ routed r /\ admission r c w w' row.
Proof.
  intros Hok B Hc. destruct (build_routed e w r0 B) as [Hr0 _].
  destruct (choose_ok r0 w Hc) as (r1 & m & C & p & ->).
  destruct (annotate_request_with_open_ask (with_model_policy p r0)) as [r c] eqn:A.
  destruct (annotated _ _ _ A (with_policy_routed p r0 Hr0)) as [Hr Hwant].
  destruct (record_ok r c w Hok Hr Hwant) as (w' & a & R & Ha & Hok').
  exists r, c, w', (ar_row a). split; [|split; [done|split; [by apply (annotated_carried _ _ _ A)|done]]].
  unfold admit_work. apply catch_ok. unfold admit_work_body.
  pose proof (reads_eq _ w (reads_build e)) as B'. rewrite B in B'. rewrite (bind_eq_ok _ _ _ _ _ B').
  rewrite (bind_eq_ok _ _ _ _ _ C). erewrite bind_eq_ok by (by apply preflight_ok). rewrite A.
  erewrite bind_eq_ok; [reflexivity|]. destruct c; [by apply nested_ok|done].
Qed.

Lemma same_thread_ok t o n b s : exists c, build_same_thread_run_context t o n b s = (s, Ok c).
Proof.
  unfold build_same_thread_run_context. cbv zeta. destruct (String.eqb _ ""); [by eexists|].
  unfold bind at 1, gets. destruct (find _ _); by eexists.
Qed.

(** What is done to every request once it is built. *)
Lemma build_of e w r :
  (_build_agent_run_request e w).2 = Ok r ->
  exists r', (build_agent_run_request e w).2 = Ok r' /\ carried r r' /\
    req_target_ref r' = req_target_ref r.
Proof.
  intros B. unfold build_agent_run_request.
  pose proof (reads_eq _ w (reads_request e)) as B'. rewrite B in B'. rewrite (bind_eq_ok _ _ _ _ _ B'). cbv zeta.
  set (r1 := with_model_policy _ r). destruct (negb _ && negb _); [exists r1; split; [done|]; split; [apply carried_policy|done]|].
  match goal with |- context [build_same_thread_run_context ?t ?o ?n ?b] =>
    destruct (same_thread_ok t o n b (tables w)) as [c Hc] end.
  unfold bind, on_tables. rewrite Hc. cbn [fst snd].
  destruct (negb _ && negb _); [exists r1; split; [done|]; split; [apply carried_policy|done]|].
  eexists. split; [done|]. split; [|done]. split; [|done]. do 6 (split; [done|]).
  unfold source_key, _source_idempotency_parts. simpl.
  unfold jget_or_null. by rewrite !jget_jset_ne by done.
Qed.

Definition anchor_org (anchor : run_row) : string := strip (str_or (org_id (spec anchor)) "").
Definition anchor_owner (anchor : run_row) : option string :=
  or_none_text (strip (str_or (user_id (spec anchor)) "")).

(** The request [r] continues the work of [anchor]. *)
Record resumes (anchor : run_row) (r : AgentRunRequest) : Prop := {
  res_thread : req_thread_id r = strip (thread_id (spec anchor));
  res_org : req_org_id r = anchor_org anchor;
  res_owner : req_user_id r = anchor_owner anchor;
  res_workspace : req_workspace_ref r = workspace_ref (spec anchor);
  res_target k : k <> "origin_ref" -> jget k (req_target_ref r) = jget k (target_ref (spec anchor));
  res_key : source_key r = (Some GENERIC_CONTINUATION_SOURCE, Some (generic_key (run_id anchor)));
}.

Lemma generic_key_solid a : strip (generic_key a) = generic_key a.
Proof. apply solid_strip, solid_app; [by repeat constructor|apply solid_number]. Qed.

(** The key of a request whose metadata names it. *)
Lemma keyed_request r d source key :
  req_parent_run_id r = None -> jget "idempotency_key" (req_metadata r) = Some (JStr key) ->
  jget "work_intake" (req_metadata r) = Some (JObj d) -> jget "source" d = Some (JStr source) ->
  strip key = key -> startswith "worker:continuation:" key = true ->
  strip source = source -> startswith "trigger:" source = false -> source <> "" -> str_take 80 source = source ->
  source_key r = (Some source, Some key).
Proof.
  intros Hp Hk Hw Hs Kk Kp Ks Kt Kn Kl. unfold source_key, _source_idempotency_parts. rewrite Hp.
  revert Kl. generalize (str_take 80). intros tk Kl. simpl. unfold jget_or_null. rewrite Hk, Hw. simpl default. rewrite str_or_empty_str, Kk.
  destruct (String.eqb key "") eqn:E; [apply String.eqb_eq in E; by subst|]. rewrite E, Kp, !orb_true_r. cbn [negb orb].
  rewrite Hs. simpl default. rewrite str_or_empty_str, Ks.
  assert (String.eqb source "" = false) as Hn by by apply String.eqb_neq. by rewrite Hn, Kt, Hn, Kl.
Qed.

Lemma request_ok org user t msg m tr wr mp md dl :
  strip (str_or org "") <> "" ->
  exists r, agent_run_request org user t msg m tr wr mp md dl = Ok r /\ req_thread_id r = t /\
    req_org_id r = strip (str_or org "") /\ req_user_id r = user /\ req_target_ref r = tr /\
    req_workspace_ref r = wr /\ req_metadata r = md /\ req_parent_run_id r = None.
Proof.
  intros Ho%String.eqb_neq. unfold agent_run_request, AgentRunRequest_post_init. cbn [req_org_id]. rewrite Ho.
  by eexists.
Qed.

(** The event of a continuation names the organization and the owner of the anchor. *)
Lemma generic_event_org anchor workers results receipt context :
  anchor_org anchor <> "" ->
  _event_org_id (generic_event anchor workers results receipt context) = Some (anchor_org anchor).
Proof.
  unfold _event_org_id, text_or, anchor_org. intros Ho. cbn [generic_event wi_org_id].
  by destruct (strip (str_or (org_id (spec anchor)) "")).
Qed.

Lemma generic_event_owner anchor workers results receipt context :
  _event_actor_user_id (generic_event anchor workers results receipt context) = anchor_owner anchor.
Proof.
  transitivity (or_none_text (strip (str_or_empty (jor (opt_str (user_id (spec anchor))) JNull)))); [reflexivity|].
  unfold anchor_owner. destruct (user_id (spec anchor)) as [[|c u]|]; done.
Qed.

Lemma generic_request anchor workers results receipt context w :
  anchor_org anchor <> "" -> strip (thread_id (spec anchor)) <> "" ->
  exists r, (_build_agent_run_request (generic_event anchor workers results receipt context) w).2 = Ok r /\
    resumes anchor r.
Proof.
  intros Ho Ht. set (e := generic_event anchor workers results receipt context).
  assert (B : _build_agent_run_request e w =
    (w, _build_agent_run_continuation_request e (_generic_continuation_target anchor) (_event_metadata e))) by reflexivity.
  rewrite B. cbn [snd]. unfold _build_agent_run_continuation_request.
  change (jget_or_null "target_ref" (_generic_continuation_target anchor)) with (JObj (target_ref (spec anchor))).
  change (str_or_empty (jget_or_null "thread_id" (_generic_continuation_target anchor)))
    with (str_or_empty (JStr (thread_id (spec anchor)))). rewrite str_or_empty_str.
  destruct (String.eqb _ "") eqn:Et; [by apply String.eqb_eq in Et|]. clear Et.
  unfold e. rewrite generic_event_org, generic_event_owner by done. fold e.
  assert (Hso : strip (str_or (Some (anchor_org anchor)) "") = anchor_org anchor).
  { transitivity (strip (anchor_org anchor)); [by destruct (anchor_org anchor)|apply strip_idem]. }
  edestruct (request_ok (Some (anchor_org anchor))) as (r & -> & R1 & R2 & R3 & R4 & R5 & R6 & R7); [by rewrite Hso|].
  exists r. split; [done|]. split; try done.
  - by rewrite R2.
  - by rewrite R4.
  - eapply (keyed_request r _ GENERIC_CONTINUATION_SOURCE (generic_key (run_id anchor)));
      [done| | | |apply generic_key_solid|idtac..]; rewrite ?R6; unfold event_request_metadata, _event_metadata.
    + by rewrite jget_jupdate.
    + rewrite jget_jupdate. simpl. by rewrite jget_jset_eq.
    + done.
    + unfold generic_key. by destruct (str_of_Z _).
    + done.
    + done.
    + done.
    + done.
Qed.

Lemma carried_resumes anchor r r' : carried r r' -> resumes anchor r -> resumes anchor r'.
Proof.
  intros [(Et & _ & Eo & Eu & _ & _ & Ek) [Ew Ex]] []. split; try congruence.
  intros k Hk. rewrite Ex by done. by apply res_target0.
Qed.

Lemma generic_built anchor workers results receipt context w :
  anchor_org anchor <> "" -> strip (thread_id (spec anchor)) <> "" ->
  exists r, (build_agent_run_request (generic_event anchor workers results receipt context) w).2 = Ok r /\
    resumes anchor r.
Proof.
  intros Ho Ht. destruct (generic_request anchor workers results receipt context w Ho Ht) as (r & B & Hr).
  destruct (build_of _ _ _ B) as (r' & B' & Hc & _). exists r'. split; [done|]. by eapply carried_resumes.
Qed.

Lemma generic_admitted anchor workers results receipt context w :
  intake_ok w -> anchor_org anchor <> "" -> strip (thread_id (spec anchor)) <> "" ->
  credentials_work w (anchor_owner anchor) (anchor_org anchor) ->
  exists r c w' row,
    admit_work (generic_event anchor workers results receipt context) w = (w', Ok (admitted (run_id row))) /\
    intake_ok w' /\ resumes anchor r /\ routed r /\ admission r c w w' row.
Proof.
  intros Hok Ho Ht Hc. destruct (generic_built anchor workers results receipt context w Ho Ht) as (r0 & B & Hr0).
  destruct (built_admitted _ w r0 Hok B) as (r & c & w' & row & E & Hok' & Hcar & Hr & Ha).
  { by destruct Hr0 as [_ -> -> _ _ _]. }
  exists r, c, w', row. split; [done|]. split; [done|]. split; [by eapply carried_resumes|done].
Qed.

(** The continuation takes up where its fan-out left off.  When the anchor has an
    organization and a thread and the credentials of its owner work, the event of its
    continuation is admitted: the run answers in the anchor's thread and organization,
    for its owner, at its target and in its workspace, under the key of the fan-out
    alone, so that whichever report comes first, the fan-out has one such run. *)
Theorem continuation_run_admitted (anchor : run_row) (workers : list run_row) (results : list child_result)
    (receipt : WorkerEvidenceReceipt) (context : dict) (w : intake) :
  intake_ok w -> anchor_org anchor <> "" -> strip (thread_id (spec anchor)) <> "" ->
  credentials_work w (anchor_owner anchor) (anchor_org anchor) ->
  exists r c w' row,
    admit_work (generic_event anchor workers results receipt context) w = (w', Ok (admitted (run_id row))) /\
    intake_ok w' /\ resumes anchor r /\ routed r /\ admission r c w w' row.
Proof. apply generic_admitted. Qed.

(** The row [row] carries the key of the fan-out of [anchor]. *)
Definition keyed_for (anchor row : run_row) : Prop :=
  org_id (spec row) = Some (anchor_org anchor) /\
  source_idempotency_scope (spec row) = Some GENERIC_CONTINUATION_SOURCE /\
  source_idempotency_key (spec row) = Some (generic_key (run_id anchor)).

Lemma answers_keyed anchor r s s' row : answers r s s' row -> resumes anchor r -> routed r -> keyed_for anchor row.
Proof.
  intros Ha [_ Ho _ _ _ Hk] _. unfold keyed_for. destruct Ha as [d Hs _ _ _|e d -> _ _ _ _ _].
  - unfold same_source in Hs. rewrite Hk, Ho in Hs. unfold sql_eq_str in Hs.
    repeat case_match; bool_simpl; try done. by subst.
  - unfold request_row. simpl. by rewrite Hk, Ho.
Qed.

(** ** The continuation of a fan-out, with this admission *)

Lemma keyed_same anchor row x : run_id row = run_id anchor -> spec row = spec anchor -> keyed_for row x -> keyed_for anchor x.
Proof. unfold keyed_for, anchor_org. by intros -> ->. Qed.

(** What admission has to find when a report that found [s] continues the fan-out of
    [anchor]: ledger and thoughts beside the store in order, a default model for the
    owner of the anchor and credentials of the owner that work. *)
Definition ready_for (rest : WorkIntakeEvent -> store -> intake) (anchor : run_row) (s : store) : Prop :=
  forall e s1, reporting s s1 -> continues false anchor e ->
    intake_ok (set_tables s1 (rest e s1)) /\
    credentials_work (set_tables s1 (rest e s1)) (anchor_owner anchor) (anchor_org anchor).

Lemma store_admits rest anchor s0 :
  ready_for rest anchor s0 -> anchor_org anchor <> "" -> strip (thread_id (spec anchor)) <> "" ->
  @admits (store_intake rest) false anchor s0
    (fun _ id l => exists row, l !! id = Some row /\ run_id row = id /\ keyed_for anchor row).
Proof.
  intros Hready Ho Ht e s Hrep (row & workers & results & receipt & context & Hid & Hsp & [->|[? _]]); [|done].
  destruct (Hready (generic_event row workers results receipt context) s Hrep) as [Hok Hc].
  { exists row, workers, results, receipt, context. by split_and!; [..|left]. }
  assert (Ho' : anchor_org row = anchor_org anchor) by (unfold anchor_org; by rewrite Hsp).
  assert (Hu : anchor_owner row = anchor_owner anchor) by (unfold anchor_owner; by rewrite Hsp).
  destruct (generic_admitted row workers results receipt context _ Hok) as (r & c & w' & x & E & _ & Hr & Hrt & Ha);
    [by rewrite Ho'|by rewrite Hsp|by rewrite Hu, Ho'|].
  exists (tables w'), (run_id x), None. split.
  - unfold store_intake. cbn [Continuation.admit_work]. by rewrite E.
  - exists x. split; [by destruct Ha|]. split; [done|]. eapply keyed_same; [done..|]. eapply answers_keyed; [by destruct Ha|done..].
Qed.
End admission.

Section fanout.
Context `{Platform} `{ProviderErrorTaxonomy} `{AdmissionServices}.

(** C11. The last settlement resumes the work of its parent.  With this admission as the
    intake, when a run reports and its fan-out is complete, one of its workers asked to
    be joined, nothing was queued for it yet and the code finds no chantier for it in
    the lineage and the earlier runs of the parent's thread, then the run that carries
    the key of the fan-out in the organization of the parent is there, and one new event
    of the parent names it.  It needs the parent to have an organization and a thread,
    its row and receipt and the cycle runs to be readable ([parent_ready]), and, when
    the report comes to admitting the continuation ([ready_for]), the ledger and the
    thoughts to be in order, a default model for the owner and probes of the owner's
    credentials that succeed. *)
Theorem last_settlement_resumes (rest : WorkIntakeEvent -> store -> intake) (s : store) (t a : Z)
    (r anchor : run_row) (before : WorkerEvidenceReceipt) :
  store_inv s -> ready_for rest anchor s -> anchor_org anchor <> "" -> strip (thread_id (spec anchor)) <> "" ->
  runs (pending s) !! t = Some r -> fanout_anchor_id r (pending s) = Some a ->
  parent_ready s a anchor before -> fanout_complete a (pending s) ->
  _wants_generic_continuation (spawned_workers a (pending s)) = true ->
  (forall ty, ty ∈ hook_types -> has_hook ty a (pending s) = false) -> resolve_scope anchor (pending s) = None ->
  exists s' row ty,
    @Continuation.queue_chantier_continuation_for_terminal_run (store_intake rest) t s =
      (s', Ok (Some (run_id row))) /\
    runs (pending s') !! run_id row = Some row /\ keyed_for anchor row /\
    ty ∈ hook_types /\ queued_one a ty (run_id row) s s'.
Proof.
  intros Hinv Hready Ho Ht Hr Ha Hp Hc Hw Hn Hch.
  destruct (@last_settlement (store_intake rest) _ false _ s t a r anchor before Hinv
    (store_admits rest anchor s Hready Ho Ht) Hr Ha Hp Hc Hw Hn (or_intror Hch))
    as (s' & id & E & ty & e & Hty & Hq & _ & row & Hrow & <- & Hk).
  exists s', row, ty. destruct Hp as [_ <- _ _ _ _]. done.
Qed.
End fanout.

(** * Instances *)

(** Services that know no project, one model, and credentials that work. *)
#[export] Instance demo_services : AdmissionServices :=
  {| resolve_effective_project_context _ _ _ _ := Ok {| pc_context := []; pc_snapshot := None; pc_errors := [] |};
     build_agent_visible_thread_context _ _ _ _ := Ok None;
     default_model _ _ _ _ := Ok "anthropic/claude";
     probe_provider_auth _ _ _ _ _ := Ok None;
     environ _ := None |}.

Definition demo_thought : Idea :=
  {| idea_id := "idea"; title := Some "Idea"; idea_org_id := Some "org"; idea_user_id := Some "user";
     idea_status := "review"; archived_at := None; idea_updated_at := 1 |}.

Definition demo_world (s : store) : intake :=
  {| tables := s; obligations := empty_ledger; ideas := {["idea" := demo_thought]}; state_log := [] |}.

Lemma demo_world_ok s : store_inv s -> intake_ok (demo_world s).
Proof.
  intros Hs. split; [exact Hs|exact empty_ledger_wf|]. intros i t. simpl. rewrite lookup_singleton.
  case_decide; [|done]. by intros [= <-].
Qed.

Definition demo_event : WorkIntakeEvent :=
  {| wi_source := "cortex"; wi_event_type := "thread.message"; wi_org_id := "org"; wi_actor := [];
     wi_target := [("idea_id", JStr "idea")];
     wi_payload := [("message", JStr "go on"); ("metadata", JObj [("profile", JStr "deep"); ("recipe", JStr "scout")])];
     wi_policy := [("idempotency_key", JStr "slack:1")] |}.

Lemma admission_all_or_nothing_witness :
  exists w', @admit_work demo_platform demo_services demo_event (demo_world demo_session) =
      (w', Ok (admitted 100)) /\ intake_ok w' /\
    idea_status <$> ideas w' !! "idea" = Some "working".
Proof.
  destruct (@admission_all_or_nothing demo_platform demo_services demo_event (demo_world demo_session))
    as (w' & res & E & Hok & _).
  - apply demo_world_ok, demo_session_inv.
  - exists w'. assert (F : (@admit_work demo_platform demo_services demo_event (demo_world demo_session)).2 =
      Ok (admitted 100)) by (vm_compute; reflexivity).
    assert (G : idea_status <$> ideas (@admit_work demo_platform demo_services demo_event (demo_world demo_session)).1
      !! "idea" = Some "working") by (vm_compute; reflexivity).
    rewrite E in F, G. cbn [fst snd] in F, G. rewrite E, F. split; [reflexivity|]. split; [exact Hok|exact G].
Defined.

Lemma requests_routed_witness :
  exists w' r, build_agent_run_request demo_event (demo_world demo_session) = (w', Ok r) /\ routed r /\
    req_profile r = Member PROFILE_FAST.
Proof.
  assert (F : (fun r => req_profile r) <$> (build_agent_run_request demo_event (demo_world demo_session)).2 =
    Ok (Member PROFILE_FAST)) by (vm_compute; reflexivity).
  destruct (build_agent_run_request demo_event (demo_world demo_session)) as [w' [r|x]] eqn:E; [|discriminate].
  destruct (requests_routed demo_event (demo_world demo_session) w' r E) as (_ & Hr & _).
  exists w', r. split; [reflexivity|]. split; [exact Hr|]. by injection F.
Defined.

(** The same event with other words. *)
Definition demo_event_again : WorkIntakeEvent :=
  {| wi_source := "cortex"; wi_event_type := "thread.message"; wi_org_id := "org"; wi_actor := [];
     wi_target := [("idea_id", JStr "idea")]; wi_payload := [("message", JStr "please go on")];
     wi_policy := [("idempotency_key", JStr "slack:1")] |}.

Definition demo_admitted : intake := (@admit_work demo_platform demo_services demo_event (demo_world demo_session)).1.

Lemma demo_admission :
  @admit_work demo_platform demo_services demo_event (demo_world demo_session) = (demo_admitted, Ok (admitted 100)).
Proof.
  assert (F : (@admit_work demo_platform demo_services demo_event (demo_world demo_session)).2 =
    Ok (admitted 100)) by (vm_compute; reflexivity).
  unfold demo_admitted. rewrite <- F. apply surjective_pairing.
Qed.

Lemma demo_admitted_ok : intake_ok demo_admitted.
Proof. exact (admitted_ok _ _ _ _ (demo_world_ok _ demo_session_inv) demo_admission). Qed.

(** Later, when the run was canceled. *)
Definition demo_canceled_row (r : run_row) : run_row :=
  apply_assigns [SetStatus (value CANCELED); SetToken None; SetUpdatedAt 99] r.
Definition demo_cancel (w : intake) : intake :=
  set_tables (set_pending (with_runs (pending (tables w)) (alter demo_canceled_row 100%Z (runs (pending (tables w)))))
    (tables w)) w.
Definition demo_later : intake := demo_cancel demo_admitted.

Lemma demo_canceled_evolves r :
  row_wf r -> is_terminal (row_status r) = false -> row_wf (demo_canceled_row r) /\ row_evolves r (demo_canceled_row r).
Proof.
  destruct r as [i sp st m cl tok att sa pa co fa ca ex up]. intros [_ Hp Hr Ha _] Ho. split; [split; simpl in *|]; try done.
  { apply (bool_decide_unpack (value CANCELED ∈ AGENT_RUN_DB_STATUS_VALUES)). vm_compute. exact I. }
  apply row_evolves_intro; try done. apply rtc_once.
  change (RunLease.lease_step {| RunLease.phase := row_status (Build_run_row i sp st m cl tok att sa pa co fa ca ex up);
                        RunLease.attempt := att; RunLease.holder := tok |}
                     {| RunLease.phase := CANCELED; RunLease.attempt := att; RunLease.holder := if RunLease.gives_up CANCELED then None else tok |}).
  apply (RunLease.lease_move false). apply open_run_can_settle; [done|set_solver].
Qed.

(** Altering a row by an evolution of it. *)
Lemma alter_evolves f i s :
  store_inv s -> (forall r, runs (pending s) !! i = Some r -> row_wf r -> row_wf (f r) /\ row_evolves r (f r)) ->
  let s' := set_pending (with_runs (pending s) (alter f i (runs (pending s)))) s in
  store_inv s' /\ db_evolves (pending s) (pending s').
Proof.
  intros [C [P1 P2 P3] V I N] Hf s'.
  assert (Hev : db_evolves (pending s) (pending s')).
  { split; simpl; try done. intros j r Hr. destruct (decide (i = j)) as [<-|Hne].
    - exists (f r). rewrite lookup_alter_eq, Hr. split; [done|]. by apply Hf, (P1 i).
    - exists r. by rewrite lookup_alter_ne. }
  assert (Hrow : forall j r', runs (pending s') !! j = Some r' -> exists r, runs (pending s) !! j = Some r /\ row_wf r' /\ run_id r' = run_id r).
  { intros j r'. simpl. destruct (decide (i = j)) as [<-|Hne].
    - rewrite lookup_alter_eq. intros (r & Hr & ->)%fmap_Some. exists r. destruct (Hf r Hr (P1 _ _ Hr)) as [Hw He].
      split_and!; [done..|apply He].
    - rewrite lookup_alter_ne by done. intros Hr. exists r'. split_and!; [done|by apply (P1 j)|done]. }
  split; [|done]. split; simpl; [done|split; simpl; [..|done]|by etrans|..|done].
  - intros j r' Hr'. by destruct (Hrow j r' Hr') as (r & _ & Hw & _).
  - intros j r' Hr'. destruct (Hrow j r' Hr') as (r & Hr & _ & ->). by apply P2.
  - eapply Forall_impl; [exact I|]. intros r [Hw Hn]. split; [done|].
    destruct (alter f i (runs (pending s)) !! run_id r) as [r'|] eqn:E; [|done].
    destruct (Hrow _ _ E) as (? & ? & _). congruence.
Qed.

Example demo_admitted_queued :
  (row_status <$> runs (pending (tables demo_admitted)) !! 100%Z) = Some QUEUED.
Proof. vm_compute. reflexivity. Qed.

Lemma found_value {A B} (f : A -> B) (o : option A) (r : A) (b : B) : o = Some r -> f <$> o = Some b -> f r = b.
Proof. by intros -> [= ->]. Qed.

Lemma demo_cancel_ok w :
  intake_ok w -> row_status <$> runs (pending (tables w)) !! 100%Z = Some QUEUED ->
  intake_ok (demo_cancel w) /\ db_evolves (pending (tables w)) (pending (tables (demo_cancel w))).
Proof.
  intros [Hs Hl Ht] Hq. destruct (alter_evolves demo_canceled_row 100 (tables w) Hs) as [Hs' He].
  - intros r Hr Hw. apply demo_canceled_evolves; [exact Hw|]. by rewrite (found_value _ _ _ _ Hr Hq).
  - by split; [split|].
Qed.

Lemma demo_later_ok : intake_ok demo_later /\ db_evolves (pending (tables demo_admitted)) (pending (tables demo_later)).
Proof. exact (demo_cancel_ok demo_admitted demo_admitted_ok demo_admitted_queued). Qed.

Lemma unique_rows_check d :
  db_wf d ->
  forallb (fun x => forallb (fun y => implb (unique_clash (spec x) (spec y)) (Z.eqb (run_id x) (run_id y)))
    (all_runs d)) (all_runs d) = true -> unique_rows d.
Proof.
  intros Hd Hf i j x y Hx Hy Hc. destruct (RunEvolution.wf_ids _ Hd _ _ Hx) as [<- _]. destruct (RunEvolution.wf_ids _ Hd _ _ Hy) as [<- _].
  rewrite forallb_forall in Hf. specialize (Hf x). rewrite forallb_forall in Hf.
  rewrite <- !list_elem_of_In, !(all_runs_lookup _ _ Hd) in Hf. specialize (Hf Hx y).
  rewrite <- !list_elem_of_In, !(all_runs_lookup _ _ Hd), Hc in Hf. by apply Z.eqb_eq, Hf.
Qed.

Lemma demo_later_unique : unique_rows (pending (tables demo_later)).
Proof. apply unique_rows_check; [apply inv_pending, demo_later_ok|]. vm_compute. reflexivity. Qed.

Example demo_repeated : (@admit_work demo_platform demo_services demo_event_again demo_later).2 = Ok (admitted 100).
Proof. vm_compute. reflexivity. Qed.

Example demo_same_request : exists r r', (build_agent_run_request demo_event (demo_world demo_session)).2 = Ok r /\
  (build_agent_run_request demo_event_again demo_later).2 = Ok r' /\ has_key r None = true /\
  source_key r' = source_key r /\ req_org_id r' = req_org_id r.
Proof.
  eexists _, _. split; [vm_compute; reflexivity|]. split; [vm_compute; reflexivity|].
  split; [vm_compute; reflexivity|]. split; vm_compute; reflexivity.
Qed.

Lemma repeated_event_same_run_witness :
  exists v', @admit_work demo_platform demo_services demo_event_again demo_later = (v', Ok (admitted 100)) /\
    pending (tables v') = pending (tables demo_later).
Proof.
  destruct (@admit_work demo_platform demo_services demo_event_again demo_later) as [v' res] eqn:E.
  pose proof demo_repeated as F. rewrite E in F. cbn [snd] in F. subst res. exists v'. split; [reflexivity|].
  destruct demo_same_request as (r & r' & B & B' & Hk & Hs & Ho).
  apply (@repeated_event_same_run demo_platform demo_services demo_event demo_event_again (demo_world demo_session)
    demo_admitted demo_later v' 100 r r' (admitted 100)
    (demo_world_ok _ demo_session_inv) demo_admission (proj1 demo_later_ok) (proj2 demo_later_ok) demo_later_unique
    E B B' Hk Hs Ho).
Defined.

Lemma demo_credentials w user org : credentials_work w user org.
Proof. split; [intros p; by eexists|done]. Qed.

Lemma continuation_run_admitted_witness :
  exists w' row, @admit_work demo_platform demo_services
      (generic_event demo_anchor [demo_child 2 COMPLETED "api"] [] empty_receipt []) (demo_world demo_fanout) =
      (w', Ok (admitted (run_id row))) /\ intake_ok w' /\
    runs (pending (tables w')) !! run_id row = Some row.
Proof.
  destruct (@continuation_run_admitted demo_platform demo_services demo_anchor [demo_child 2 COMPLETED "api"] []
    empty_receipt [] (demo_world demo_fanout)) as (r & c & w' & row & E & Hok & _ & _ & [_ Hrow _ _ _ _]).
  - apply demo_world_ok, demo_fanout_inv.
  - discriminate.
  - discriminate.
  - apply demo_credentials.
  - exists w', row. split; [exact E|]. split; [exact Hok|exact Hrow].
Defined.

Definition demo_rest (_ : WorkIntakeEvent) (s : store) : intake := demo_world s.

Lemma demo_ready anchor s : ready_for demo_rest anchor s.
Proof. intros e s1 [Hs _] _. split; [by apply demo_world_ok|apply demo_credentials]. Qed.

Lemma last_settlement_resumes_witness :
  exists s' row, @Continuation.queue_chantier_continuation_for_terminal_run
      (@store_intake demo_platform demo_services demo_rest) 3 demo_fanout = (s', Ok (Some (run_id row))) /\
    runs (pending s') !! run_id row = Some row /\ keyed_for demo_anchor row /\ length (hook_events 1 (pending s')) = 1.
Proof.
  destruct (@last_settlement_resumes demo_platform demo_services demo_rest demo_fanout 3 1
    (demo_child 3 FAILED "web") demo_anchor empty_receipt) as (s' & row & ty & E & Hrow & Hk & _ & ev & _ & _ & _ & He).
  - apply demo_fanout_inv.
  - apply demo_ready.
  - discriminate.
  - discriminate.
  - reflexivity.
  - reflexivity.
  - apply demo_fanout_ready.
  - apply demo_fanout_complete.
  - vm_compute. reflexivity.
  - intros ty _. reflexivity.
  - vm_compute. reflexivity.
  - exists s', row. split; [exact E|]. split; [exact Hrow|]. split; [exact Hk|]. rewrite He. reflexivity.
Defined.
