(* ===== verification/ReplyAdmission.v ===== *)
(** Admission of the replies a run posts.  A reply says how it stands to the other open
    runs of its thread ([direct_loop/reply_coordination.py]); what admission of the run
    found on the thread is evidence ([direct_loop/final_reply_evidence.py]); a reply
    that ignores it is blocked, twice at most ([outbound_reply_admission.py]).  The
    count of blocks lives in the context of the run's tool calls
    ([execution_context.py], [tools.py]), in its metadata, and in the context the next
    execution of the run is opened with ([direct_agent.py], [recipes/fast.py]).  All
    are modules of brain/systems/runs. *)
From Stdlib Require Import Ascii.
From S2P Require Import Prelude.
From S2P Require Import PyStr.
From S2P Require Import Json.
From S2P Require Import JsonText.
From S2P Require Import Status.
From S2P Require Import Failures.
From S2P Require Import RunStore.
From S2P Require Import RunMessages.
From S2P Require Import EvidenceHealth.
From S2P Require Import Continuation.
From S2P Require Import StatusQuestions.
From S2P Require Import RunEngine.
Open Scope string_scope.
Open Scope bool_scope.
Open Scope list_scope.

(** * Declarations of coordination *)

Inductive ReplyCoordinationAction : Type := WAIT | REFERENCE | HANDOFF.
#[export] Instance action_eq_dec : EqDecision ReplyCoordinationAction.
Proof. solve_decision. Defined.

Definition action_value (a : ReplyCoordinationAction) : string :=
  match a with WAIT => "wait" | REFERENCE => "reference" | HANDOFF => "handoff" end.

(** [ReplyCoordinationAction(text)]; [None] is the [ValueError]. *)
Definition action_of (text : string) : option ReplyCoordinationAction :=
  find (fun a => String.eqb (action_value a) text) [WAIT; REFERENCE; HANDOFF].

Record ReplyCoordination : Type := {
  co_action : ReplyCoordinationAction;
  co_run_id : option Z;
}.

(** [x in (None, "")]. *)
Definition is_unset (j : json) : bool := py_in j [JNull; JStr ""].

(** [ReplyCoordination.from_value]; on a declaration that was read before it is the
    identity. *)
Definition coordination_from_value (value : json) : option ReplyCoordination :=
  match value with
  | JObj d =>
      action ← action_of (lower (strip (str_or_empty (jget_or_null "action" d))));
      let raw_run_id := jget_or_null "run_id" d in
      run ← (if is_unset raw_run_id then Some None else Some <$> py_int raw_run_id);
      if bool_decide (action = REFERENCE) && bool_decide (run = None) then None
      else Some {| co_action := action; co_run_id := run |}
  | _ => None
  end.

Definition coordination_cache_payload (c : ReplyCoordination) : dict :=
  let payload := [("action", JStr (action_value (co_action c)))] in
  match co_run_id c with Some id => jset "run_id" (JInt id) payload | None => payload end.

(** * Evidence about the thread *)

Record SameThreadRunSnapshot : Type := {
  sn_run_id : option Z;
  sn_status : RunStatus;
  sn_request : string;
  sn_final_output : option string;
}.

Definition _coerce_optional_int (value : json) : option Z :=
  if is_unset value then None else int_of_str (py_str value).

(** [str(x).strip() if x else None]. *)
Definition stripped_text (j : json) : option string := if truthy j then Some (strip (py_str j)) else None.

Definition snapshot_from_mapping (v : dict) : SameThreadRunSnapshot :=
  {| sn_run_id := _coerce_optional_int (jget_or_null "run_id" v);
     sn_status := coerce_run_status (Raw (str_or_empty (jget_or_null "status" v))) FAILED;
     sn_request := str_or_empty (jget_or_null "request" v);
     sn_final_output := stripped_text (jget_or_null "final_output" v) |}.

Definition snapshot_cache_payload (s : SameThreadRunSnapshot) : dict :=
  [("run_id", opt_int (sn_run_id s)); ("status", JStr (value (sn_status s)));
   ("request", JStr (sn_request s)); ("final_output", opt_str (sn_final_output s))].

Record StatusDeliverableEvidence : Type := { sd_kind : string; sd_label : string }.

Definition deliverable_from_mapping (v : dict) : option StatusDeliverableEvidence :=
  let kind := lower (strip (str_or_empty (jget_or_null "kind" v))) in
  let label := strip (py_str (jor (jget_or_null "label" v) (JStr kind))) in
  if negb (String.eqb kind "") && negb (String.eqb label "")
  then Some {| sd_kind := kind; sd_label := label |} else None.

Definition deliverable_cache_payload (d : StatusDeliverableEvidence) : dict :=
  [("kind", JStr (sd_kind d)); ("label", JStr (sd_label d))].

Record SameThreadRunContextEvidence : Type := {
  st_thread_id : string;
  st_lookup_status : string;
  st_lookup_error : option string;
  st_status_question : bool;
  st_originating_run : option SameThreadRunSnapshot;
  st_live_sibling_runs : list SameThreadRunSnapshot;
  st_deliverables : list StatusDeliverableEvidence;
}.

Definition context_from_mapping (v : dict) : result SameThreadRunContextEvidence :=
  live_runs ← mapping_items "live_sibling_runs" v;
  deliverables ← mapping_items "deliverables" v;
  Ok {| st_thread_id := strip (str_or_empty (jget_or_null "thread_id" v));
        st_lookup_status := lower (strip (str_or_empty (jget_or_null "lookup_status" v)));
        st_lookup_error := stripped_text (jget_or_null "lookup_error" v);
        st_status_question := truthy (jget_or_null "status_question" v);
        st_originating_run := match jget_or_null "originating_run" v with
                              | JObj o => Some (snapshot_from_mapping o)
                              | _ => None
                              end;
        st_live_sibling_runs := snapshot_from_mapping <$> live_runs;
        st_deliverables := omap deliverable_from_mapping deliverables |}.

Definition has_live_sibling (e : SameThreadRunContextEvidence) : bool :=
  match st_live_sibling_runs e with [] => false | _ => true end.

Definition context_cache_payload (e : SameThreadRunContextEvidence) : dict :=
  [("thread_id", JStr (st_thread_id e)); ("lookup_status", JStr (st_lookup_status e));
   ("lookup_error", opt_str (st_lookup_error e)); ("status_question", JBool (st_status_question e));
   ("originating_run", match st_originating_run e with
                       | Some o => JObj (snapshot_cache_payload o)
                       | None => JNull
                       end);
   ("live_sibling_runs", JList (JObj ∘ snapshot_cache_payload <$> st_live_sibling_runs e));
   ("deliverables", JList (JObj ∘ deliverable_cache_payload <$> st_deliverables e))].

(** [_find_context_mapping], [levels] being four less the depth. *)
Fixpoint find_at (levels : nat) (context_key : string) (v : json) : option dict :=
  match levels, v with
  | Datatypes.S levels', JObj d =>
      match jget_or_null context_key d with
      | JObj direct => Some direct
      | _ =>
          match find_at levels' context_key (jget_or_null "execution_provenance" d) with
          | Some found => Some found
          | None =>
              match find_at levels' context_key (jget_or_null "metadata" d) with
              | Some found => Some found
              | None => find_at levels' context_key (jget_or_null "request_metadata" d)
              end
          end
      end
  | _, _ => None
  end.
Definition _find_context_mapping (v : json) (context_key : string) : option dict := find_at 4 context_key v.

(** * The context of tool calls, [execution_context.py] *)

(** What an attribute of the context holds: data, or the state the tool calls of a run
    share, which is an object of its own.  Other live objects are not modelled. *)
Inductive attribute : Type :=
| Data (j : json)
| RunState (at_ : nat).

(** The attributes of the task, the states by namespace, the tables. *)
Record agent_world : Type := {
  context_values : gmap string attribute;
  run_states : list (gmap string dict);
  run_tables : store;
}.

Definition set_values (c : gmap string attribute) (w : agent_world) : agent_world :=
  Build_agent_world c (run_states w) (run_tables w).
Definition set_states (l : list (gmap string dict)) (w : agent_world) : agent_world :=
  Build_agent_world (context_values w) l (run_tables w).
Definition set_run_tables (s : store) (w : agent_world) : agent_world :=
  Build_agent_world (context_values w) (run_states w) s.

Abbreviation AW := (M agent_world).

Definition on_store {A} (m : DB A) : AW A := fun w =>
  let r := m (run_tables w) in (set_run_tables r.1 w, r.2).

(** [getattr(context, name, default)]. *)
Definition get_attr (name : string) (dflt : json) (c : gmap string attribute) : json :=
  match c !! name with Some (Data j) => j | _ => dflt end.
Definition set_attr (name : string) (j : json) : AW unit :=
  modify (fun w => set_values (<[name := Data j]> (context_values w)) w).

(** A state and where it is kept; without a holder it is kept nowhere. *)
Abbreviation state_ref := (option (nat * string) * dict)%type.

Definition keep_state (r : option (nat * string)) (state : dict) : AW unit :=
  match r with
  | Some (l, namespace) => modify (fun w => set_states (alter (insert namespace state) l (run_states w)) w)
  | None => ret tt
  end.

Definition get_or_create_agent_run_state (namespace : string) (factory : AW dict) : AW state_ref :=
  w <- get ;;
  match context_values w !! "_run_state" with
  | Some (RunState l) =>
      match (run_states w !! l) ≫= (!!) namespace with
      | Some state => ret (Some (l, namespace), state)
      | None => state <- factory ;; keep_state (Some (l, namespace)) state ;;; ret (Some (l, namespace), state)
      end
  | _ => state <- factory ;; ret (None, state)
  end.

(** Bound attributes are clones, the shared state excepted; what the body binds is
    forgotten when it ends.  Without a state of its own the binding makes one. *)
Definition bind_agent_context {A} (attrs : gmap string attribute) (body : AW A) : AW A := fun w =>
  let next := attrs ∪ context_values w in
  let w1 := match attrs !! "_run_state" with
            | Some (RunState _) => set_values next w
            | _ => set_states (run_states w ++ [∅])
                     (set_values (<["_run_state" := RunState (length (run_states w))]> next) w)
            end in
  let r := body w1 in (set_values (context_values w) r.1, r.2).

(** * Same-thread evidence of a context *)

Definition _same_thread_run_context_evidence (c : gmap string attribute)
    : result (option SameThreadRunContextEvidence) :=
  match match _find_context_mapping (get_attr "execution_metadata" JNull c) "same_thread_run_context" with
        | Some mapping => Some mapping
        | None => _find_context_mapping (get_attr "metadata" JNull c) "same_thread_run_context"
        end with
  | Some mapping => e ← context_from_mapping mapping; Ok (Some e)
  | None => Ok None
  end.

(** * What a reply owes the open runs of its thread, [final_reply_checker.py] *)

Definition run_label (r : SameThreadRunSnapshot) : string :=
  py_str (opt_int (sn_run_id r)) +:+ " (" +:+ value (sn_status r) +:+ ")".

Definition active_sibling_contract_issue (declaration : option ReplyCoordination)
    (same_thread : option SameThreadRunContextEvidence) : option string :=
  match same_thread with
  | None => None
  | Some e =>
      if st_status_question e || negb (String.eqb (st_lookup_status e) "verified") || negb (has_live_sibling e)
      then None
      else
        let runs := join ", " (run_label <$> st_live_sibling_runs e) in
        match declaration with
        | None => Some ("Admission evidence names active sibling run(s) " +:+ runs +:+ ", but the reply "
                          +:+ "has no valid coordination declaration.")
        | Some d =>
            if bool_decide (co_action d = WAIT \/ co_action d = HANDOFF) then None
            else if bool_decide (is_Some (co_run_id d))
                    && existsb (fun r => bool_decide (sn_run_id r = co_run_id d)) (st_live_sibling_runs e)
            then None
            else Some ("Admission evidence names active sibling run(s) " +:+ runs +:+ ", but the reply "
                         +:+ "references run " +:+ py_str (opt_int (co_run_id d))
                         +:+ ", which is not in that snapshot.")
        end
  end.

(** * Admission, [outbound_reply_admission.py] *)

Inductive FinalReplyEnforcement : Type := ADVISORY | BLOCK.
#[export] Instance enforcement_eq_dec : EqDecision FinalReplyEnforcement.
Proof. solve_decision. Defined.
Definition enforcement_value (e : FinalReplyEnforcement) : json :=
  JStr match e with ADVISORY => "advisory" | BLOCK => "block" end.

Definition MAX_OUTBOUND_REPLY_BLOCKS : Z := 2.
Definition REPLY_ADMISSION_BLOCK_COUNT_METADATA_KEY : string := "reply_admission_block_count".

Record OutboundReplyAdmission : Type := {
  admitted : bool;
  review : dict;
  blocked_result : option dict;
}.

Definition coordination_verdict (status : string) (approved : bool) (rationale : string)
    (missing : list json) (e : FinalReplyEnforcement) : dict :=
  [("status", JStr status); ("approved", JBool approved); ("rationale", JStr rationale);
   ("missing_requirements", JList missing); ("raw_output", JStr "deterministic_active_sibling_contract");
   ("enforcement", enforcement_value e)].

Definition _coordination_review (coordination : option ReplyCoordination)
    (same_thread : option SameThreadRunContextEvidence) : dict :=
  match active_sibling_contract_issue coordination same_thread with
  | None => coordination_verdict "resolved" true "Outbound reply coordination is admitted." [] ADVISORY
  | Some issue => coordination_verdict "continue" false issue
      [JStr "Declare coordination as wait, reference an active run id, or handoff."] BLOCK
  end.

(** What is not an enforcement is advisory. *)
Definition _enforcement (review : dict) : FinalReplyEnforcement :=
  if py_eqb (default (enforcement_value ADVISORY) (jget "enforcement" review)) (enforcement_value BLOCK)
  then BLOCK else ADVISORY.

(** [int(x or 0)]. *)
Definition int_or_zero (j : json) : result Z :=
  match py_int (jor j (JInt 0)) with
  | Some z => Ok z
  | None => match j with
            | JStr _ => Err (ValueError "invalid literal for int() with base 10")
            | _ => Err (TypeError "int() argument must be a string or a number")
            end
  end.

Definition _block_state : AW state_ref :=
  get_or_create_agent_run_state "outbound_reply_admission"
    (c <- gets context_values ;;
     blocked <- lift_result (int_or_zero (get_attr "reply_admission_block_count" (JInt 0) c)) ;;
     ret [("blocked_attempts", JInt blocked)]).

Definition blocked_payload (review : dict) (blocked_attempts : Z) : dict :=
  [("ok", JBool false); ("posted", JBool false); ("blocked", JBool true);
   ("error", JStr "outbound_reply_admission_blocked");
   ("checker_status", default (JStr "continue") (jget "status" review));
   ("checker_reason", jget_or_null "rationale" review);
   ("missing_requirements", jor (jget_or_null "missing_requirements" review) (JList []));
   ("reply_admission_block_count", JInt blocked_attempts);
   ("instruction", JStr ("Revise the reply and its typed coordination declaration. "
                           +:+ "The gate degrades after two blocked attempts."))].

Definition downgraded_review (review : dict) : dict :=
  jset "rationale" (JStr (strip (strip (str_or_empty (jget_or_null "rationale" review)) +:+ " "
    +:+ "Outbound reply admission already blocked two replies in this run, so this "
    +:+ "verdict is now advisory and cannot prevent a human-visible reply.")))
    (jset "enforcement" (enforcement_value ADVISORY) review).

(** The block is written down in the state, in the context and in its metadata. *)
Definition count_block (r : option (nat * string)) (state : dict) (blocked_attempts : Z) : AW unit :=
  keep_state r (jset "blocked_attempts" (JInt blocked_attempts) state) ;;;
  set_attr "reply_admission_block_count" (JInt blocked_attempts) ;;;
  c <- gets context_values ;;
  match get_attr "execution_metadata" JNull c with
  | JObj execution_metadata =>
      set_attr "execution_metadata"
        (JObj (jset REPLY_ADMISSION_BLOCK_COUNT_METADATA_KEY (JInt blocked_attempts) execution_metadata))
  | _ => ret tt
  end.

Definition _bounded_admission (review_ : dict) : AW OutboundReplyAdmission :=
  if negb (bool_decide (_enforcement review_ = BLOCK))
  then ret {| admitted := true; review := review_; blocked_result := None |}
  else
    r <- _block_state ;;
    blocked <- lift_result (int_or_zero (default (JInt 0) (jget "blocked_attempts" r.2))) ;;
    if Z.ltb blocked MAX_OUTBOUND_REPLY_BLOCKS
    then
      count_block r.1 r.2 (blocked + 1) ;;;
      ret {| admitted := false; review := review_;
             blocked_result := Some (blocked_payload review_ (blocked + 1)) |}
    else ret {| admitted := true; review := downgraded_review review_; blocked_result := None |}.

(** The review of a completed answer, [review_final_reply_once]: checks of its text and
    the answer of a model, from the context, the text, the declaration and the
    evidence. *)
Class FinalReplyReviewer : Type := {
  review_final_reply_once : gmap string attribute -> string -> option ReplyCoordination ->
    option SameThreadRunContextEvidence -> result dict;
}.

Section admission.
Context `{FinalReplyReviewer}.

Definition admit_outbound_reply (content : string) (coordination : json) (review_completion : bool)
    : AW OutboundReplyAdmission :=
  c <- gets context_values ;;
  evidence <- lift_result (_same_thread_run_context_evidence c) ;;
  let declared_coordination := coordination_from_value coordination in
  verdict <- (if review_completion
              then lift_result (review_final_reply_once c content declared_coordination evidence)
              else ret (_coordination_review declared_coordination evidence)) ;;
  _bounded_admission verdict.

(** * The reply tool, [tool_catalog/handlers/slack.py] *)

(** What comes after admission: the claims and times the text makes, alerts, and the
    post itself. *)
Variable deliver : gmap string attribute -> string -> result json.

(** [image]: what the code makes of the image data, an error or whether there is one. *)
Definition _handle_post_slack_reply (body : string) (image : string + bool) (coordination : json) : AW json :=
  match image with
  | inl error => ret (JStr (dumps ", " ": " (JObj [("error", JStr error)])))
  | inr has_image =>
      if String.eqb (strip body) "" && negb has_image
      then ret (JStr (dumps ", " ": "
             (JObj [("error", JStr "post_slack_reply requires body or image_data")])))
      else
        admission <- admit_outbound_reply body coordination false ;;
        if negb (admitted admission)
        then ret (JStr (dumps ", " ": "
               (match blocked_result admission with Some d => JObj d | None => JNull end)))
        else c <- gets context_values ;; lift_result (deliver c body)
  end.

(** * The tool calls of a run, [tools.py] *)

(** [str(x or "").strip() or None]. *)
Definition text_or_null (t : option string) : json :=
  let t := strip (str_or t "") in if String.eqb t "" then JNull else JStr t.

Definition _action_context (id : Z) (root : option Z) : DB dict :=
  run <- require_run id ;;
  let org := strip (str_or (org_id (spec run)) "") in
  if String.eqb org "" then raise (RuntimeError "AgentRun missing workspace org_id")
  else
    let recipe_ := strip (recipe (spec run)) in
    ret [("actor", JStr ("agent-run-" +:+ str_of_Z id)); ("actor_id", text_or_null (user_id (spec run)));
         ("actor_kind", JStr "agent"); ("org_id", JStr org); ("run_id", JInt id);
         ("trace_id", opt_str (trace_id (spec run)));
         ("worker_name", JStr (if String.eqb recipe_ "" then "runtime" else recipe_));
         ("idea_id", text_or_null (Some (thread_id (spec run))));
         ("root_run_id", opt_int (match root with Some _ => root | None => root_run_id (spec run) end));
         ("target_ref", JObj (target_ref (spec run)))].

Definition data_attributes (d : dict) : gmap string attribute :=
  list_to_map ((fun kv => (kv.1, Data kv.2)) <$> d).

Definition _handler_context_from_action_context (action_context : dict) (current : gmap string attribute)
    : gmap string attribute :=
  let context := [("org_id", jget_or_null "org_id" action_context);
                  ("user_id", jget_or_null "actor_id" action_context);
                  ("run_id", jget_or_null "run_id" action_context);
                  ("trace_id", jget_or_null "trace_id" action_context);
                  ("worker_name", jget_or_null "worker_name" action_context);
                  ("idea_id", jget_or_null "idea_id" action_context);
                  ("root_run_id", jget_or_null "root_run_id" action_context);
                  ("target_ref", jget_or_null "target_ref" action_context)] in
  let metadata := fold_left (fun m key => jset key (jget_or_null key context) (jpop key m))
    ["org_id"; "user_id"; "run_id"; "trace_id"; "worker_name"; "idea_id"; "root_run_id"]
    (as_dict (get_attr "execution_metadata" JNull current)) in
  let attrs := <["execution_metadata" := Data (JObj metadata)]> (data_attributes context) in
  match current !! "_run_state" with
  | Some (Data JNull) | None => attrs
  | Some run_state => <["_run_state" := run_state]> attrs
  end.

(** The count a blocked result carries, [None] for any other result. *)
Definition blocked_count (answer : json) : option Z :=
  let payload := match answer with JStr text => loads text | _ => Some answer end in
  match payload with
  | Some (JObj d) =>
      if is_jbool true (jget_or_null "blocked" d)
         && py_eqb (jget_or_null "error" d) (JStr "outbound_reply_admission_blocked")
      then Z.max 0 <$> (jget REPLY_ADMISSION_BLOCK_COUNT_METADATA_KEY d ≫= py_int)
      else None
  | _ => None
  end.

Definition _persist_reply_admission_block_count (id : Z) (answer : json) : AW unit :=
  match blocked_count answer with
  | Some block_count =>
      on_store (update_metadata id [(REPLY_ADMISSION_BLOCK_COUNT_METADATA_KEY, JInt block_count)]) ;;; ret tt
  | None => ret tt
  end.

(** The handler of a call runs in a context of its own. *)
Definition in_handler_context {A} (id : Z) (root : option Z) (handler : AW A) : AW A :=
  action_context <- on_store (_action_context id root) ;;
  c <- gets context_values ;;
  bind_agent_context (_handler_context_from_action_context action_context c) handler.

(** The part of [AsyncRunToolExecutor.execute] around the handler, and the commit a call
    ends with. *)
Definition execute (id : Z) (root : option Z) (handler : AW json) : AW json :=
  answer <- in_handler_context id root handler ;;
  _persist_reply_admission_block_count id answer ;;;
  on_store commit_event_boundary ;;;
  ret answer.

(** A call that is cancelled once the reply has been through admission: what the handler
    answers is not looked at. *)
Definition execute_cancelled (id : Z) (root : option Z) (handler : AW json) : AW json :=
  in_handler_context id root handler ;;;
  raise (RuntimeError "CancelledError").

(** * The context of an execution of the run *)

Definition _thread_attachment_context (metadata target workspace : dict) : json :=
  match jget_or_null "thread_attachment_context" metadata with
  | JObj d => JObj d
  | _ => match jget_or_null "thread_attachment_context" target with
         | JObj d => JObj d
         | _ => match jget_or_null "thread_attachment_context" workspace with
                | JObj d => JObj d
                | _ => JNull
                end
         end
  end.

(** The metadata the fast recipe invokes the agent with. *)
Definition fast_metadata (request : AgentRunRequest) : dict :=
  let metadata := req_metadata request in
  [("profile", JStr "fast"); ("recipe", JStr "fast");
   ("org_id", jor (JStr (req_org_id request)) (jget_or_null "org_id" metadata));
   ("user_id", jor (opt_str (req_user_id request)) (jget_or_null "user_id" metadata));
   ("execution_provenance", JObj metadata);
   ("target_ref", JObj (req_target_ref request)); ("workspace_ref", JObj (req_workspace_ref request));
   ("thread_attachment_context",
     _thread_attachment_context metadata (req_target_ref request) (req_workspace_ref request));
   ("max_parallel_tool_calls", JInt 4)].

(** [RunEnvelope] of kernel/runtime/envelope.py, what the metadata of the agent is made
    of; the payload, with its digest, comes with the envelope. *)
Record RunEnvelope : Type := {
  env_payload : dict;
  env_run_id : option Z;
  env_invocation_id : string;
  env_trace_id : option string;
  env_origin : string;
  env_org_id : option string;
  env_provider_operation_type : option string;
  env_workspace_root : option string;
}.

Definition to_metadata (e : RunEnvelope) : dict :=
  [("runtime_envelope", JObj (env_payload e)); ("runtime_run_id", opt_int (env_run_id e));
   ("runtime_invocation_id", JStr (env_invocation_id e)); ("runtime_trace_id", opt_str (env_trace_id e));
   ("runtime_origin", JStr (env_origin e));
   ("runtime_envelope_digest", jget_or_null "digest" (env_payload e))].

(** [if given and not metadata.get(key): metadata[key] = given]. *)
Definition fill (key : string) (given : json) (metadata : dict) : dict :=
  if truthy given && negb (truthy (jget_or_null key metadata)) then jset key given metadata else metadata.

(** The metadata of [to_run_agent_kwargs]. *)
Definition to_run_agent_metadata (e : RunEnvelope) (metadata : dict) : dict :=
  fill "provider_operation_type" (opt_str (env_provider_operation_type e))
    (fill "org_id" (opt_str (env_org_id e)) (jupdate metadata (to_metadata e))).

Definition _metadata_int (metadata : dict) (key : string) (dflt : Z) : Z :=
  match jget_or_null key metadata with
  | JNull => dflt
  | v => default dflt (py_int v)
  end.

(** The arguments of [run_agent_async] its context is made of. *)
Record agent_arguments : Type := {
  aa_session_id : string;
  aa_workspace_root : option string;
  aa_user_id : option string;
  aa_org_id : option string;
  aa_run_id : option Z;
  aa_idea_id : option string;
  aa_metadata : dict;
}.

Definition set_if (key : string) (j : json) (d : dict) : dict := if truthy j then jset key j d else d.
Definition set_if_dict (key : string) (j : json) (d : dict) : dict := if is_obj j then jset key j d else d.
Definition first_dict (a b : json) : json := if is_obj a then a else b.

(** [org_id or metadata.get(..) or ..]. *)
Definition effective (given : option string) (key : string) (metadata : dict) : json :=
  jor (opt_str given) (jor (jget_or_null key metadata)
    (jor (jget_or_null key (as_dict (jget_or_null "execution_provenance" metadata)))
         (jget_or_null key (as_dict (jget_or_null "runtime_envelope" metadata))))).

Definition own_metadata (a : agent_arguments) : dict :=
  let metadata := aa_metadata a in
  fill "user_id" (effective (aa_user_id a) "user_id" metadata)
    (fill "org_id" (effective (aa_org_id a) "org_id" metadata) metadata).

Definition context_idea_id (a : agent_arguments) : json :=
  if truthy (opt_str (aa_idea_id a)) then opt_str (aa_idea_id a)
  else match jget_or_null "target_ref" (own_metadata a) with
       | JObj target =>
           match jor (jget_or_null "idea_id" target) (jget_or_null "thread_id" target) with
           | JStr candidate => if String.eqb (strip candidate) "" then opt_str (aa_idea_id a)
                               else JStr (strip candidate)
           | _ => opt_str (aa_idea_id a)
           end
       | _ => opt_str (aa_idea_id a)
       end.

(** The attributes [run_agent_async] binds; the clock, the loop control and the model
    are not among the data. *)
Definition context_attrs (a : agent_arguments) : dict :=
  let metadata := own_metadata a in
  let provenance := as_dict (jget_or_null "execution_provenance" metadata) in
  let target := jget_or_null "target_ref" metadata in
  let attrs := [("session_id", JStr (aa_session_id a)); ("reply_contents", JList []);
                ("tool_calls_log", JList []); ("recent_tool_results", JList []);
                ("final_reply_review", JNull); ("resolved_llm_context", JNull);
                ("reply_admission_block_count",
                  JInt (_metadata_int provenance REPLY_ADMISSION_BLOCK_COUNT_METADATA_KEY
                    (_metadata_int metadata REPLY_ADMISSION_BLOCK_COUNT_METADATA_KEY 0)))] in
  let attrs := set_if "workspace_root" (opt_str (aa_workspace_root a)) attrs in
  let attrs := set_if "idea_id" (context_idea_id a) attrs in
  let attrs := set_if "user_id" (effective (aa_user_id a) "user_id" (aa_metadata a)) attrs in
  let attrs := set_if "org_id" (effective (aa_org_id a) "org_id" (aa_metadata a)) attrs in
  let attrs := set_if_dict "target_ref" target attrs in
  let attrs := set_if_dict "workspace_ref" (jget_or_null "workspace_ref" metadata) attrs in
  let attrs := set_if_dict "chat_trigger" (first_dict (jget_or_null "chat_trigger" metadata)
                 (jget_or_null "chat_trigger" (as_dict target))) attrs in
  let attrs := set_if_dict "slack_trigger" (first_dict (jget_or_null "slack_trigger" metadata)
                 (jget_or_null "slack_trigger" (as_dict target))) attrs in
  match aa_run_id a with Some id => jset "run_id" (JInt id) attrs | None => attrs end.

Definition execution_metadata_of (a : agent_arguments) : dict :=
  let metadata := own_metadata a in
  let m := as_dict (jget_or_null "execution_provenance" metadata) in
  let m := fold_left (fun m kv => if String.eqb kv.1 "execution_provenance" then m else setdefault m kv.1 kv.2)
             metadata m in
  let m := set_if "org_id" (effective (aa_org_id a) "org_id" (aa_metadata a)) m in
  let m := set_if "user_id" (effective (aa_user_id a) "user_id" (aa_metadata a)) m in
  let m := match aa_run_id a with Some id => setdefault m "run_id" (JInt id) | None => m end in
  if truthy (context_idea_id a) then setdefault m "idea_id" (context_idea_id a) else m.

(** The opening of [run_agent_async] around the turns of the agent. *)
Definition in_agent_context {A} (a : agent_arguments) (turns : AW A) : AW A :=
  bind_agent_context (data_attributes (context_attrs a))
    (match execution_metadata_of a with
     | [] => turns
     | e :: l =>
         set_attr "execution_metadata" (JObj (e :: l)) ;;;
         c <- gets context_values ;;
         when_ (py_eqb (get_attr "execution_artifacts" JNull c) JNull)
           (set_attr "execution_artifacts" (JList [])) ;;;
         turns
     end).

(** * Replies of a run over its executions *)

Record reply_call : Type := {
  rc_body : string;
  rc_image : string + bool;
  rc_coordination : json;
  rc_cancelled : bool;
}.

Definition call_reply (id : Z) (root : option Z) (c : reply_call) : AW json :=
  (if rc_cancelled c then execute_cancelled else execute) id root
    (_handle_post_slack_reply (rc_body c) (rc_image c) (rc_coordination c)).

(** The reply tool is not among those that run side by side: the calls come one after
    the other, each with its answer or its exception. *)
Fixpoint call_replies (id : Z) (root : option Z) (calls : list reply_call) : AW (list (result json)) :=
  match calls with
  | [] => ret []
  | c :: calls' => fun w =>
      let '(w1, answer) := call_reply id root c w in
      (answers <- call_replies id root calls' ;; ret (answer :: answers)) w1
  end.

(** The arguments the fast recipe invokes the agent with. *)
Definition fast_arguments (id : Z) (envelope : RunEnvelope) (request : AgentRunRequest) : agent_arguments :=
  {| aa_session_id := "agent-run-" +:+ str_of_Z id; aa_workspace_root := env_workspace_root envelope;
     aa_user_id := req_user_id request; aa_org_id := Some (req_org_id request); aa_run_id := Some id;
     aa_idea_id := None; aa_metadata := to_run_agent_metadata envelope (fast_metadata request) |}.

(** An execution of the run: the request is made of its row, the agent is opened with
    the metadata of the request. *)
Definition execute_run (id : Z) (envelope : RunEnvelope) (calls : list reply_call) : AW (list (result json)) :=
  run <- on_store (require_run id) ;;
  request <- lift_result (request_of run) ;;
  in_agent_context (fast_arguments id envelope request) (call_replies id (root_run_id (spec run)) calls).

(** What happens to a run: it is executed, once or again, or its metadata is added to. *)
Inductive occurrence : Type :=
| Executed (envelope : RunEnvelope) (calls : list reply_call)
| Annotated (patch : dict).

Definition occur (id : Z) (o : occurrence) : AW (list (result json)) :=
  match o with
  | Executed envelope calls => execute_run id envelope calls
  | Annotated patch => on_store (update_metadata id patch) ;;; ret []
  end.

(** The answers of all the calls; an execution that fails to start has none. *)
Fixpoint replies (id : Z) (history : list occurrence) (w : agent_world) : list (result json) :=
  match history with
  | [] => []
  | o :: history' =>
      let '(w1, r) := occur id o w in
      match r with Ok answers => answers | Err _ => [] end ++ replies id history' w1
  end.

(** A blocked reply the agent is told about. *)
Definition told_blocked (r : result json) : bool :=
  match r with Ok answer => bool_decide (is_Some (blocked_count answer)) | Err _ => false end.

End admission.
