(* ===== verification/ReplyTheorems.v ===== *)
(** Theorems on the admission of replies: what a reply is answered, as a function of the
    declaration it makes, of the runs that were open on its thread and of the blocks
    there were; and that a run is blocked twice at most, over all its executions. *)
From Stdlib Require Import Ascii Decimal DecimalString DecimalZ.
From S2P Require Import Prelude.
From S2P Require Import PyStr.
From S2P Require Import Json.
From S2P Require Import JsonText.
From S2P Require Import Status.
From S2P Require Import Failures.
From S2P Require Import RunStore.
From S2P Require Import RunMessages.
From S2P Require Import RunOutcome.
From S2P Require Import RunMailbox.
From S2P Require Import EvidenceHealth.
From S2P Require Import EvidenceTheorems.
From S2P Require Import Continuation.
From S2P Require Import StatusQuestions.
From S2P Require Import RunEngine.
From S2P Require Import ReplyAdmission.
From S2P Require Import RunDemo.
Open Scope string_scope.
Open Scope bool_scope.
Open Scope list_scope.

(** * Numbers written and read *)

Lemma digits_from p u : digits_acc (Z.pos p) true (NilEmpty.string_of_uint u) = Some (Z.pos (Pos.of_uint_acc u p)).
Proof. revert p. induction u; intros p; simpl; try done; rewrite <- IHu; f_equal; lia. Qed.

Lemma digits_uint b u : u <> Nil \/ b = true ->
  digits_acc 0 b (NilEmpty.string_of_uint u) = Some (Z.of_N (Pos.of_uint u)).
Proof.
  revert b. induction u; intros b Hb; simpl; try (rewrite <- digits_from; done).
  - destruct b; [done|]. by destruct Hb.
  - apply IHu. by right.
Qed.

Lemma int_of_str_of_Z z : int_of_str (str_of_Z z) = Some z.
Proof.
  unfold int_of_str. rewrite (solid_strip _ (solid_number z)). unfold str_of_Z.
  pose proof (DecimalZ.of_to z) as Hz. destruct (Z.to_int z) as [u|u]; simpl in Hz; subst z.
  - assert (E : digits_acc 0 false (NilZero.string_of_uint u) = Some (Z.of_uint u)).
    { unfold Z.of_uint. destruct u; [done|..]; apply (digits_uint false); by left. }
    unfold NilZero.string_of_int. rewrite <- E. by destruct u.
  - assert (E : digits_acc 0 false (NilZero.string_of_uint u) = Some (Z.of_uint u)).
    { unfold Z.of_uint. destruct u; [done|..]; apply (digits_uint false); by left. }
    simpl. by rewrite E.
Qed.

(** * Contexts *)

Lemma data_attributes_get d k : data_attributes d !! k = Data <$> jget k d.
Proof.
  unfold data_attributes. induction d as [|[k' j] d IH]; simpl; [done|].
  destruct (String.eqb_spec k k') as [->|Hne]; [by rewrite lookup_insert_eq|].
  by rewrite lookup_insert_ne.
Qed.

Lemma bind_context_eq {A} attrs (body : AW A) w l :
  attrs !! "_run_state" = Some (RunState l) ->
  bind_agent_context attrs body w =
    (set_values (context_values w) (body (set_values (attrs ∪ context_values w) w)).1,
     (body (set_values (attrs ∪ context_values w) w)).2).
Proof. intros E. unfold bind_agent_context. by rewrite E. Qed.

(** The keys the context of a handler says anew. *)
Definition handler_keys : list string :=
  ["org_id"; "user_id"; "run_id"; "trace_id"; "worker_name"; "idea_id"; "root_run_id"].

Lemma handler_metadata_get (g : string -> json) k keys : forall m,
  k ∉ keys ->
  jget k (fold_left (fun m key => jset key (g key) (jpop key m)) keys m) = jget k m.
Proof.
  induction keys as [|key keys IH]; intros m Hk; [done|]. simpl. apply not_elem_of_cons in Hk as [Hne Hk].
  rewrite IH by done. rewrite jget_jset_ne by done. by rewrite jget_jpop_ne by done.
Qed.

Lemma handler_context_spec ac c :
  let attrs := _handler_context_from_action_context ac c in
  (forall l, c !! "_run_state" = Some (RunState l) -> attrs !! "_run_state" = Some (RunState l)) /\
  attrs !! "reply_admission_block_count" = None /\ attrs !! "metadata" = None /\
  exists m, attrs !! "execution_metadata" = Some (Data (JObj m)) /\
    (forall k, k ∉ handler_keys -> jget k m = jget k (as_dict (get_attr "execution_metadata" JNull c))).
Proof.
  cbv zeta. unfold _handler_context_from_action_context. cbv zeta.
  set (m := fold_left _ _ _).
  assert (Hm : forall k, k ∉ handler_keys -> jget k m = jget k (as_dict (get_attr "execution_metadata" JNull c))).
  { intros k Hk. apply handler_metadata_get. exact Hk. }
  clearbody m. set (d := [("org_id", _); _; _; _; _; _; _; _]).
  assert (Hd : forall k, k ∉ ["org_id"; "user_id"; "run_id"; "trace_id"; "worker_name"; "idea_id"; "root_run_id"; "target_ref"] ->
    data_attributes d !! k = None).
  { intros k Hk. rewrite data_attributes_get. unfold d. repeat (apply not_elem_of_cons in Hk as [? Hk]). simpl.
    by rewrite !(proj2 (String.eqb_neq _ _)) by done. }
  split_and!.
  - intros l ->. by rewrite lookup_insert_eq.
  - destruct (c !! "_run_state") as [[[]|]|]; rewrite !lookup_insert_ne by done; by apply Hd; set_solver.
  - destruct (c !! "_run_state") as [[[]|]|]; rewrite !lookup_insert_ne by done; by apply Hd; set_solver.
  - exists m. split; [|done].
    destruct (c !! "_run_state") as [[[]|]|];
      rewrite ?(lookup_insert_ne _ "_run_state") by done; by rewrite lookup_insert_eq.
Qed.

(** * The count of blocks *)

Abbreviation namespace := "outbound_reply_admission".

(** The replies blocked so far, in the state or, before there is one, in the context. *)
Definition attempts (w : agent_world) (l : nat) (n : Z) : Prop :=
  context_values w !! "_run_state" = Some (RunState l) /\ (l < length (run_states w))%nat /\
  match (run_states w !! l) ≫= (!!) namespace with
  | Some state => state = [("blocked_attempts", JInt n)]
  | None => get_attr "reply_admission_block_count" (JInt 0) (context_values w) = JInt n
  end.

Lemma int_or_zero_int z : int_or_zero (JInt z) = Ok z.
Proof. unfold int_or_zero, jor. simpl. by destruct (Z.eqb_spec z 0) as [->|]. Qed.

Lemma keep_state_spec l ns state w :
  keep_state (Some (l, ns)) state w = (set_states (alter (insert ns state) l (run_states w)) w, Ok tt).
Proof. done. Qed.

Lemma kept_state l ns state (w : agent_world) : (l < length (run_states w))%nat ->
  (alter (insert ns state) l (run_states w) !! l) ≫= (!!) ns = Some state.
Proof.
  intros Hl. destruct (lookup_lt_is_Some_2 _ _ Hl) as [m Hm].
  rewrite list_lookup_alter_eq, Hm. simpl. by rewrite lookup_insert_eq.
Qed.

Lemma block_state_spec w l n : attempts w l n ->
  exists w', _block_state w = (w', Ok (Some (l, namespace), [("blocked_attempts", JInt n)])) /\
    context_values w' = context_values w /\ run_tables w' = run_tables w /\
    length (run_states w') = length (run_states w) /\
    (run_states w' !! l) ≫= (!!) namespace = Some [("blocked_attempts", JInt n)].
Proof.
  intros (Hr & Hl & Hs). unfold _block_state, get_or_create_agent_run_state, bind at 1, get. rewrite Hr.
  destruct (_ ≫= _) as [state|] eqn:E.
  - subst. by exists w.
  - rewrite (bind_eq_ok _ _ w w [("blocked_attempts", JInt n)]).
    2: { unfold bind, gets, lift_result. by rewrite Hs, int_or_zero_int. }
    eexists. split; [reflexivity|]. simpl. rewrite length_alter. split_and!; try done. by apply kept_state.
Qed.

(** What admission makes of a verdict. *)
Lemma bounded_admission_spec rv w l n : attempts w l n ->
  exists w' a n', _bounded_admission rv w = (w', Ok a) /\
    run_tables w' = run_tables w /\ length (run_states w') = length (run_states w) /\
    (forall c, context_values w = c -> attempts (set_values c w') l n') /\
    (if bool_decide (_enforcement rv = BLOCK) && Z.ltb n MAX_OUTBOUND_REPLY_BLOCKS
     then n' = (n + 1)%Z /\ admitted a = false /\ blocked_result a = Some (blocked_payload rv n')
     else n' = n /\ admitted a = true /\ context_values w' = context_values w).
Proof.
  intros Ha. unfold _bounded_admission. destruct (bool_decide _) eqn:Eb; cbn [negb andb].
  2: { eexists w, _, n. split; [done|]. split_and!; try done. intros c <-. by destruct w. }
  destruct (block_state_spec w l n Ha) as (w1 & E1 & Ec & Et & El & Es).
  rewrite (bind_eq_ok _ _ _ _ _ E1). cbn [fst snd jget String.eqb Ascii.eqb Bool.eqb default from_option].
  rewrite (bind_eq_ok _ _ w1 w1 n) by (unfold lift_result; simpl; by rewrite int_or_zero_int).
  destruct Ha as (Hr & Hl & _).
  destruct (Z.ltb n MAX_OUTBOUND_REPLY_BLOCKS).
  - set (w2 := set_states (alter (insert namespace [("blocked_attempts", JInt (n + 1))]) l (run_states w1)) w1).
    assert (Hc : exists c', count_block (Some (l, namespace)) [("blocked_attempts", JInt n)] (n + 1) w1
                   = (set_values c' w2, Ok tt)).
    { unfold count_block. rewrite (bind_eq_ok _ _ w1 w2 tt) by done.
      unfold set_attr, modify, bind at 1, bind at 1, gets.
      destruct (get_attr "execution_metadata" JNull _); by eexists. }
    destruct Hc as [c' Hc]. rewrite (bind_eq_ok _ _ _ _ _ Hc).
    eexists _, _, (n + 1)%Z. split; [reflexivity|]. simpl. rewrite length_alter.
    split_and!; try done. intros c <-. split; [done|]. simpl. rewrite length_alter. split; [lia|].
    rewrite kept_state by lia. done.
  - eexists w1, _, n. split; [reflexivity|]. split_and!; try done.
    intros c <-. split; [done|]. simpl. split; [lia|]. by rewrite Es.
Qed.

(** * The row of the run *)

Record present (s : store) (id : Z) (row : run_row) : Prop := {
  p_row : runs (pending s) !! id = Some row;
  p_id : run_id row = id;
  p_root : root_present s row;
}.

(** The count the metadata of a run carries. *)
Definition recorded (row : run_row) : Z := _metadata_int (metadata_ row) REPLY_ADMISSION_BLOCK_COUNT_METADATA_KEY 0.

Lemma update_metadata_spec s id row patch : present s id row ->
  exists s' row' m, update_metadata id patch s = (s', Ok m) /\ present s' id row' /\ spec row' = spec row /\
    (metadata_ row' = jupdate (metadata_ row) patch \/
     row' = row /\ py_eqb (JObj (jupdate (metadata_ row) patch)) (JObj (metadata_ row)) = true).
Proof.
  intros [Hr Hid Hroot]. unfold update_metadata.
  destruct (locked_run_ok s id None row Hr Hid Hroot) as (s1 & Hl & E1); [by left|].
  rewrite (bind_eq_ok _ _ _ _ _ E1). cbv zeta.
  destruct (locked_fields _ _ Hl) as (Ep & _). subst id.
  destruct (flush_metadata_writes row (jupdate (metadata_ row) patch) s1) as [[He E2]|(row' & Hm & Hi & Hsp & _ & E2)];
    [by rewrite Ep|..]; rewrite (bind_eq_ok _ _ _ _ _ E2).
  - eexists _, row, _. split; [reflexivity|]. split; [|split; [done|by right]].
    split; [by rewrite Ep|done|]. unfold root_present. by rewrite Ep.
  - eexists _, row', _. split; [reflexivity|]. split; [|split; [done|by left]].
    split; [simpl; by rewrite lookup_insert_eq|done|]. unfold root_present in *. simpl. rewrite Ep, Hi, Hsp.
    destruct (decide (int_or (root_run_id (spec row)) (run_id row) = run_id row)) as [->|Hne];
      [by rewrite lookup_insert_eq|]. by rewrite lookup_insert_ne.
Qed.

Lemma recorded_new s id row z : present s id row ->
  exists s' row' m,
    update_metadata id [(REPLY_ADMISSION_BLOCK_COUNT_METADATA_KEY, JInt z)] s = (s', Ok m) /\
    present s' id row' /\ spec row' = spec row /\ recorded row' = z.
Proof.
  intros Hp. destruct (update_metadata_spec s id row [(REPLY_ADMISSION_BLOCK_COUNT_METADATA_KEY, JInt z)] Hp)
    as (s' & row' & m & E & Hp' & Hsp & Hm).
  exists s', row', m. split_and!; try done. unfold recorded, _metadata_int, jget_or_null.
  destruct Hm as [->|[-> He]]; [by rewrite jget_jupdate|].
  destruct (py_eqb_obj_get REPLY_ADMISSION_BLOCK_COUNT_METADATA_KEY _ _ (JInt z) He) as (v & -> & Hv);
    [by rewrite jget_jupdate|]. apply py_eqb_int in Hv. destruct v; simpl in *; try done; first [by rewrite Hv | congruence].
Qed.

Lemma recorded_same s id row patch : present s id row ->
  jhas REPLY_ADMISSION_BLOCK_COUNT_METADATA_KEY (rev patch) = false ->
  exists s' row' m, update_metadata id patch s = (s', Ok m) /\ present s' id row' /\
    spec row' = spec row /\ recorded row' = recorded row.
Proof.
  intros Hp Hk. destruct (update_metadata_spec s id row patch Hp) as (s' & row' & m & E & Hp' & Hsp & Hm).
  exists s', row', m. split_and!; try done. destruct Hm as [Hm|[-> _]]; [|done].
  unfold recorded, _metadata_int, jget_or_null. rewrite Hm, jget_jupdate.
  unfold jhas in Hk. by destruct (jget _ (rev patch)).
Qed.

Lemma action_context_spec id root s row : present s id row ->
  (exists d, _action_context id root s = (s, Ok d)) \/
  strip (str_or (org_id (spec row)) "") = "" /\ exists e, _action_context id root s = (s, Err e).
Proof.
  intros [Hr _ _]. unfold _action_context, require_run, get_run, bind, gets. rewrite Hr. simpl. cbv zeta.
  destruct (String.eqb_spec (strip (str_or (org_id (spec row)) "")) ""); [right|left]; eauto.
Qed.

(** * Evidence *)

Lemma find_at_agree n key m d :
  (forall k, k = key \/ k = "execution_provenance" \/ k = "metadata" \/ k = "request_metadata" ->
     jget k m = jget k d) ->
  find_at n key (JObj m) = find_at n key (JObj d).
Proof. intros Hk. destruct n as [|n]; [done|]. simpl. unfold jget_or_null. rewrite !Hk by tauto. done. Qed.

Lemma find_at_direct n key d c : jget key d = Some (JObj c) -> find_at (S n) key (JObj d) = Some c.
Proof. intros E. simpl. unfold jget_or_null at 1. by rewrite E. Qed.

Lemma find_at_other n key j : as_dict j = [] -> find_at n key (JObj []) = find_at n key j.
Proof.
  intros Hj. destruct n as [|n]; [by destruct j|]. destruct j as [| | | | |[]]; try done; simpl; by destruct n.
Qed.

(** A handler sees the evidence of the context its call was made in. *)
Lemma handler_evidence ac c :
  _same_thread_run_context_evidence (_handler_context_from_action_context ac c ∪ c) =
  _same_thread_run_context_evidence c.
Proof.
  destruct (handler_context_spec ac c) as (_ & _ & Hmeta & m & Hem & Hm).
  unfold _same_thread_run_context_evidence, get_attr at 1 2.
  rewrite (lookup_union_Some_l _ _ _ _ Hem), lookup_union_r by done.
  assert (E : _find_context_mapping (JObj m) "same_thread_run_context" =
              _find_context_mapping (get_attr "execution_metadata" JNull c) "same_thread_run_context").
  { unfold _find_context_mapping.
    rewrite (find_at_agree 4 _ m (as_dict (get_attr "execution_metadata" JNull c))).
    - destruct (get_attr _ _ c); try (by apply find_at_other); done.
    - intros k [->|[->|[->| ->]]]; apply Hm; unfold handler_keys; set_solver. }
  by rewrite E.
Qed.

(** * What a reply is answered *)

(** The specification of the reply tool. *)
Inductive verdict : Type :=
| Refused
| Unreadable (e : exn)
| Blocked (issue : string) (count : Z)
| Posted.

Definition verdict_of (evidence : result (option SameThreadRunContextEvidence)) (n : Z) (c : reply_call) : verdict :=
  match rc_image c with
  | inl _ => Refused
  | inr has_image =>
      if String.eqb (strip (rc_body c)) "" && negb has_image then Refused
      else match evidence with
           | Err e => Unreadable e
           | Ok same_thread =>
               match active_sibling_contract_issue (coordination_from_value (rc_coordination c)) same_thread with
               | Some issue => if Z.ltb n MAX_OUTBOUND_REPLY_BLOCKS then Blocked issue (n + 1) else Posted
               | None => Posted
               end
           end
  end.

Definition count_after (n : Z) (v : verdict) : Z := match v with Blocked _ k => k | _ => n end.

(** The verdicts of a sequence of calls. *)
Fixpoint verdicts (evidence : result (option SameThreadRunContextEvidence)) (n : Z) (calls : list reply_call)
    : list verdict :=
  match calls with
  | [] => []
  | c :: calls' => let v := verdict_of evidence n c in v :: verdicts evidence (count_after n v) calls'
  end.

Definition blocked_review (issue : string) : dict :=
  coordination_verdict "continue" false issue
    [JStr "Declare coordination as wait, reference an active run id, or handoff."] BLOCK.

Lemma blocked_payload_wf issue n : jwf (JObj (blocked_payload (blocked_review issue) n)).
Proof. simpl. split; [|tauto]. repeat constructor; set_solver. Qed.

Lemma blocked_count_payload issue n : (0 <= n)%Z ->
  blocked_count (JStr (dumps ", " ": " (JObj (blocked_payload (blocked_review issue) n)))) = Some n.
Proof.
  intros Hn. unfold blocked_count. rewrite loads_dumps by apply blocked_payload_wf. simpl. f_equal. lia.
Qed.

Lemma blocked_count_error e : blocked_count (JStr (dumps ", " ": " (JObj [("error", JStr e)]))) = None.
Proof.
  unfold blocked_count. rewrite loads_dumps; [done|]. simpl. split; [|tauto]. repeat constructor; set_solver.
Qed.

(** How many blocked replies the agent is told about. *)
Abbreviation told answers := (Z.of_nat (length (filter (fun r => told_blocked r = true) answers))).

Section replies.
Context `{FinalReplyReviewer}.
Variable deliver : gmap string attribute -> string -> result json.

(** What is posted is not taken for a blocked reply. *)
Hypothesis deliver_posts : forall c text answer, deliver c text = Ok answer -> blocked_count answer = None.

(** The answer of a call that was not cancelled. *)
Definition meets (c : reply_call) (v : verdict) (r : result json) : Prop :=
  match v with
  | Refused => exists error, r = Ok (JStr (dumps ", " ": " (JObj [("error", JStr error)])))
  | Unreadable e => r = Err e
  | Blocked issue count => r = Ok (JStr (dumps ", " ": " (JObj (blocked_payload (blocked_review issue) count))))
  | Posted => exists context, r = deliver context (rc_body c)
  end.

Lemma admit_eq content coordination w :
  admit_outbound_reply content coordination false w =
  match _same_thread_run_context_evidence (context_values w) with
  | Ok same_thread => _bounded_admission (_coordination_review (coordination_from_value coordination) same_thread) w
  | Err e => (w, Err e)
  end.
Proof.
  unfold admit_outbound_reply, bind, gets, lift_result. by destruct (_same_thread_run_context_evidence _).
Qed.

Lemma handler_spec w l n c : attempts w l n ->
  let v := verdict_of (_same_thread_run_context_evidence (context_values w)) n c in
  exists w' r, _handle_post_slack_reply deliver (rc_body c) (rc_image c) (rc_coordination c) w = (w', r) /\
    run_tables w' = run_tables w /\ length (run_states w') = length (run_states w) /\
    (forall values, context_values w = values -> attempts (set_values values w') l (count_after n v)) /\
    meets c v r.
Proof.
  intros Ha. cbv zeta. unfold _handle_post_slack_reply, verdict_of.
  assert (Hsame : forall values, context_values w = values -> attempts (set_values values w) l n)
    by (intros ? <-; by destruct w).
  destruct (rc_image c) as [e|has_image]; [eexists w, _; split_and!; try done; by eexists|].
  destruct (_ && _); [eexists w, _; split_and!; try done; by eexists|].
  unfold bind at 1. rewrite admit_eq.
  destruct (_same_thread_run_context_evidence _) as [same_thread|e];
    [|eexists w, _; split; [reflexivity|]; by split_and!].
  destruct (bounded_admission_spec (_coordination_review (coordination_from_value (rc_coordination c)) same_thread)
              w l n Ha) as (w1 & a & n' & E & Et & El & Hatt & Hcase).
  rewrite E. unfold _coordination_review in Hcase.
  destruct (active_sibling_contract_issue _ _) as [issue|].
  - rewrite (bool_decide_eq_true_2 (_enforcement _ = BLOCK)) in Hcase by done. cbn [andb] in Hcase.
    destruct (Z.ltb n MAX_OUTBOUND_REPLY_BLOCKS); destruct Hcase as (-> & -> & Hb); cbn [negb].
    + rewrite Hb. eexists w1, _. by split_and!.
    + eexists w1, _. split; [reflexivity|]. split_and!; try done. by eexists.
  - rewrite (bool_decide_eq_false_2 (_enforcement _ = BLOCK)) in Hcase by done. cbn [andb] in Hcase.
    destruct Hcase as (-> & -> & Hb); cbn [negb].
    eexists w1, _. split; [reflexivity|]. split_and!; try done. by eexists.
Qed.

Lemma attempts_agree w w' l n : attempts w l n ->
  context_values w' !! "_run_state" = context_values w !! "_run_state" ->
  get_attr "reply_admission_block_count" (JInt 0) (context_values w') =
    get_attr "reply_admission_block_count" (JInt 0) (context_values w) ->
  run_states w' = run_states w -> attempts w' l n.
Proof. intros (H1 & H2 & H3) E1 E2 E3. split; [by rewrite E1|]. rewrite E3. split; [done|]. by rewrite E2. Qed.

Lemma verdict_blocked evidence n c issue k : verdict_of evidence n c = Blocked issue k -> k = (n + 1)%Z /\ (k <= 2)%Z.
Proof.
  unfold verdict_of, MAX_OUTBOUND_REPLY_BLOCKS. repeat case_match; intros [= <- <-]; try done.
  match goal with E : Z.ltb _ _ = true |- _ => apply Z.ltb_lt in E end. lia.
Qed.

(** The world with what is pending committed. *)
Definition settled_world (w : agent_world) : agent_world :=
  set_run_tables (set_committed (pending (run_tables w)) (run_tables w)) w.

Definition settle_answer (id : Z) (answer : json) : AW json :=
  _persist_reply_admission_block_count id answer ;;; on_store commit_event_boundary ;;; ret answer.

Lemma not_persisted id answer w : blocked_count answer = None ->
  settle_answer id answer w = (settled_world w, Ok answer).
Proof. intros E. unfold settle_answer, _persist_reply_admission_block_count. by rewrite E. Qed.

Lemma persisted id answer row k w : blocked_count answer = Some k -> present (run_tables w) id row ->
  exists s' row', settle_answer id answer w = (settled_world (set_run_tables s' w), Ok answer) /\
    present s' id row' /\ spec row' = spec row /\ recorded row' = k.
Proof.
  intros E Hp. destruct (recorded_new _ id row k Hp) as (s' & row' & m & Eu & Hp' & Hsp & Hrec).
  exists s', row'. split_and!; try done.
  unfold settle_answer, _persist_reply_admission_block_count, on_store, bind. rewrite E, Eu. reflexivity.
Qed.

Lemma settled_present id row w : present (run_tables w) id row -> present (run_tables (settled_world w)) id row.
Proof. by intros []. Qed.

(** A reply of a run: it is answered as specified, the count goes on from the one there
    was, and the row of the run carries it once the agent is told. *)
Lemma call_spec id root c w l n row :
  attempts w l n -> (0 <= n)%Z -> present (run_tables w) id row ->
  strip (str_or (org_id (spec row)) "") <> "" ->
  let v := verdict_of (_same_thread_run_context_evidence (context_values w)) n c in
  exists w' r row', call_reply deliver id root c w = (w', r) /\
    context_values w' = context_values w /\ attempts w' l (count_after n v) /\
    present (run_tables w') id row' /\ spec row' = spec row /\
    recorded row' = (if rc_cancelled c then recorded row
                     else match v with Blocked _ k => k | _ => recorded row end) /\
    (if rc_cancelled c then is_ok r = false else meets c v r).
Proof.
  intros Ha Hn Hp Horg. cbv zeta. set (v := verdict_of _ n c).
  destruct (action_context_spec id root _ row Hp) as [[ac E]|[]]; [|done].
  destruct (handler_context_spec ac (context_values w)) as (Hrs & Hcount & _ & _).
  pose proof Ha as (Hr & Hl & Hs). specialize (Hrs _ Hr).
  set (w1 := set_values (_handler_context_from_action_context ac (context_values w) ∪ context_values w) w).
  assert (Ha1 : attempts w1 l n).
  { split; [by apply lookup_union_Some_l|]. split; [done|]. simpl.
    unfold get_attr. rewrite lookup_union_r by done. exact Hs. }
  destruct (handler_spec w1 l n c Ha1) as (w2 & r & E2 & Et & El & Hatt & Hmeets).
  fold v in Hmeets, Hatt. unfold w1 in Hmeets, Hatt. cbn [context_values set_values] in Hmeets, Hatt.
  rewrite handler_evidence in Hmeets, Hatt. fold v in Hmeets, Hatt.
  assert (Hin : forall root', root' = root ->
    in_handler_context id root' (_handle_post_slack_reply deliver (rc_body c) (rc_image c) (rc_coordination c)) w
      = (set_values (context_values w) w2, r)).
  { intros ? ->. unfold in_handler_context. rewrite (bind_eq_ok _ _ w w ac).
    2: { unfold on_store. rewrite E. by destruct w. }
    unfold bind, gets. rewrite (bind_context_eq _ _ _ _ Hrs). fold w1. by rewrite E2. }
  set (w3 := set_values (context_values w) w2) in Hin.
  assert (Ha3 : attempts w3 l (count_after n v)).
  { apply (attempts_agree _ _ _ _ (Hatt _ eq_refl)); simpl.
    - by rewrite (lookup_union_Some_l _ _ _ _ Hrs).
    - unfold get_attr. by rewrite lookup_union_r.
    - done. }
  assert (Hp3 : present (run_tables w3) id row) by (simpl; by rewrite Et).
  unfold call_reply. destruct (rc_cancelled c).
  - exists w3. unfold execute_cancelled, bind. rewrite Hin by done. destruct r; (eexists _, row); by split_and!.
  - change (execute id root ?h) with (bind (in_handler_context id root h) (settle_answer id)).
    destruct v as [|e|issue k|] eqn:Ev; cbn [meets] in Hmeets.
    + destruct Hmeets as [error ->]. rewrite (bind_eq_ok _ _ _ _ _ (Hin _ eq_refl)).
      exists (settled_world w3), (Ok (JStr (dumps ", " ": " (JObj [("error", JStr error)])))), row.
      rewrite not_persisted by apply blocked_count_error.
      split_and!; try done; [by apply settled_present|by eexists].
    + subst r. rewrite (bind_eq_err _ _ _ _ _ (Hin _ eq_refl)). by exists w3, (Err e), row.
    + subst r. rewrite (bind_eq_ok _ _ _ _ _ (Hin _ eq_refl)).
      destruct (verdict_blocked _ _ _ _ _ Ev) as [Hk _].
      destruct (persisted id _ row k w3 (blocked_count_payload issue k ltac:(lia)) Hp3)
        as (s' & row' & E' & Hp' & Hsp & Hrec).
      rewrite E'. eexists _, _, row'. split; [reflexivity|].
      split_and!; try done. by apply settled_present.
    + destruct Hmeets as [c' ->]. destruct (deliver c' (rc_body c)) as [answer|e] eqn:Ed.
      * rewrite (bind_eq_ok _ _ _ _ _ (Hin _ eq_refl)).
        exists (settled_world w3), (Ok answer), row.
        rewrite not_persisted by (by eapply deliver_posts).
        split_and!; try done; [by apply settled_present|by exists c'].
      * rewrite (bind_eq_err _ _ _ _ _ (Hin _ eq_refl)). exists w3, (Err e), row.
        split_and!; try done. by exists c'.
Qed.

(** * The replies of an execution *)

Lemma meets_told c v r : meets c v r -> told_blocked r = true -> exists issue k, v = Blocked issue k.
Proof.
  destruct v as [|e|issue k|]; cbn [meets]; [|by intros ->| |].
  - intros [error ->]. unfold told_blocked. by rewrite blocked_count_error.
  - by exists issue, k.
  - intros [context Hr]. unfold told_blocked. subst r. destruct (deliver context _) as [answer|e] eqn:E; [|done].
    by rewrite (deliver_posts _ _ _ E).
Qed.

(** Each call gets its verdict, cancelled calls an exception. *)
Definition answered (cv : reply_call * verdict) (r : result json) : Prop :=
  if rc_cancelled cv.1 then is_ok r = false else meets cv.1 cv.2 r.

Lemma calls_spec id root l calls : forall w n row,
  attempts w l n -> (0 <= n)%Z -> present (run_tables w) id row ->
  strip (str_or (org_id (spec row)) "") <> "" ->
  exists w' answers row',
    call_replies deliver id root calls w = (w', Ok answers) /\
    present (run_tables w') id row' /\ spec row' = spec row /\
    Forall2 answered
      (zip calls (verdicts (_same_thread_run_context_evidence (context_values w)) n calls)) answers /\
    ((recorded row <= n <= 2)%Z -> (recorded row + told answers <= recorded row' <= 2)%Z).
Proof.
  induction calls as [|c calls IH]; intros w n row Ha Hn Hp Horg.
  - exists w, [], row. split_and!; try done. simpl. lia.
  - destruct (call_spec id root c w l n row Ha Hn Hp Horg)
      as (w1 & r & row1 & E & Ec & Ha1 & Hp1 & Hsp1 & Hrec & Hr).
    cbn [verdicts zip zip_with]. set (v := verdict_of _ n c) in *.
    assert (Hk : forall issue k, v = Blocked issue k -> k = (n + 1)%Z /\ (k <= 2)%Z)
      by (intros issue k Hv; by eapply verdict_blocked).
    assert (Hn1 : (n <= count_after n v)%Z).
    { destruct v as [| |issue k|]; simpl; try lia. destruct (Hk _ _ eq_refl). lia. }
    destruct (IH w1 (count_after n v) row1 Ha1) as (w2 & answers & row2 & E2 & Hp2 & Hsp2 & Hf & Ht);
      [lia|done|by rewrite Hsp1|].
    exists w2, (r :: answers), row2. cbn [call_replies]. rewrite E. rewrite (bind_eq_ok _ _ _ _ _ E2).
    split; [done|]. split; [done|]. split; [by rewrite Hsp2|]. split; [constructor; [done|by rewrite <- Ec]|].
    intros Hle. assert (Hstep : (recorded row + told [r] <= recorded row1 <= count_after n v)%Z
                                /\ (count_after n v <= 2)%Z).
    { rewrite Hrec. destruct (rc_cancelled c).
      - replace (told [r]) with 0%Z by (by destruct r).
        destruct v as [| |issue k|]; simpl; try lia. destruct (Hk _ _ eq_refl). lia.
      - destruct (told_blocked r) eqn:Er.
        + destruct (meets_told _ _ _ Hr Er) as (issue & k & Hv). rewrite Hv. destruct (Hk _ _ Hv).
          rewrite filter_cons_True by done. simpl. lia.
        + rewrite filter_cons_False by (by rewrite Er). simpl length.
          destruct v as [| |issue k|]; simpl; try lia. destruct (Hk _ _ eq_refl). lia. }
    specialize (Ht ltac:(lia)).
    assert (told (r :: answers) = told [r] + told answers)%Z as ->; [|lia].
    change (r :: answers) with ([r] ++ answers). rewrite filter_app, length_app. lia.
Qed.

(** * The context of an execution *)

Definition opening_count (a : agent_arguments) : Z :=
  _metadata_int (as_dict (jget_or_null "execution_provenance" (own_metadata a)))
    REPLY_ADMISSION_BLOCK_COUNT_METADATA_KEY
    (_metadata_int (own_metadata a) REPLY_ADMISSION_BLOCK_COUNT_METADATA_KEY 0).

Lemma set_if_get k key j d : k <> key -> jget k (set_if key j d) = jget k d.
Proof. intros Hk. unfold set_if. destruct (truthy j); [|done]. by apply jget_jset_ne. Qed.
Lemma set_if_dict_get k key j d : k <> key -> jget k (set_if_dict key j d) = jget k d.
Proof. intros Hk. unfold set_if_dict. destruct (is_obj j); [|done]. by apply jget_jset_ne. Qed.
Lemma fill_get k key j d : k <> key -> jget k (fill key j d) = jget k d.
Proof. intros Hk. unfold fill. destruct (_ && _); [|done]. by apply jget_jset_ne. Qed.

Lemma context_attrs_count a :
  jget "reply_admission_block_count" (context_attrs a) = Some (JInt (opening_count a)).
Proof.
  unfold context_attrs. cbv zeta. destruct (aa_run_id a); rewrite ?jget_jset_ne by done;
    rewrite !set_if_dict_get, !set_if_get by done; reflexivity.
Qed.

Lemma context_attrs_state a : jget "_run_state" (context_attrs a) = None.
Proof.
  unfold context_attrs. cbv zeta. destruct (aa_run_id a); rewrite ?jget_jset_ne by done;
    rewrite !set_if_dict_get, !set_if_get by done; reflexivity.
Qed.

(** The turns of an execution start with a state of their own and the count of the
    metadata, and what they bind ends with them. *)
Lemma agent_context_spec {A} a (turns : AW A) w :
  exists w1, in_agent_context a turns w = (set_values (context_values w) (turns w1).1, (turns w1).2) /\
    run_tables w1 = run_tables w /\ attempts w1 (length (run_states w)) (opening_count a) /\
    (execution_metadata_of a <> [] ->
     get_attr "execution_metadata" JNull (context_values w1) = JObj (execution_metadata_of a)).
Proof.
  unfold in_agent_context, bind_agent_context.
  rewrite data_attributes_get, context_attrs_state. cbn [fmap option_fmap option_map].
  set (c := <["_run_state" := _]> (data_attributes (context_attrs a) ∪ context_values w)).
  set (w1 := set_states _ _).
  assert (Hrs : c !! "_run_state" = Some (RunState (length (run_states w)))) by apply lookup_insert_eq.
  assert (Hcount : get_attr "reply_admission_block_count" (JInt 0) c = JInt (opening_count a)).
  { unfold get_attr, c. rewrite lookup_insert_ne by done.
    rewrite (lookup_union_Some_l _ _ _ (Data (JInt (opening_count a)))); [done|].
    by rewrite data_attributes_get, context_attrs_count. }
  assert (Hat : forall c', c' !! "_run_state" = c !! "_run_state" ->
    c' !! "reply_admission_block_count" = c !! "reply_admission_block_count" ->
    attempts (set_values c' w1) (length (run_states w)) (opening_count a)).
  { intros c' E1 E2. split; [by rewrite <- Hrs|]. simpl. rewrite length_app. simpl. split; [lia|].
    rewrite list_lookup_middle by done. simpl. rewrite lookup_empty. unfold get_attr in *. by rewrite E2. }
  destruct (execution_metadata_of a) as [|e l] eqn:Ee.
  - exists w1. split; [done|]. split; [done|]. split; [|done]. by apply (Hat c).
  - set (c1 := <["execution_metadata" := Data (JObj (e :: l))]> c).
    set (c2 := if py_eqb (get_attr "execution_artifacts" JNull c1) JNull
               then <["execution_artifacts" := Data (JList [])]> c1 else c1).
    exists (set_values c2 w1). split; [|split; [done|split]].
    + match goal with |- (set_values _ (?m w1).1, _) = _ =>
        assert (Em : m w1 = turns (set_values c2 w1)); [|by rewrite Em] end.
      unfold bind, set_attr, modify, gets. cbn [context_values set_values]. fold c1. unfold c2.
      by destruct (py_eqb _ _).
    + apply Hat; subst c2; destruct (py_eqb _ _); unfold c1; by rewrite !lookup_insert_ne.
    + intros _. subst c2. unfold get_attr at 1. cbn [context_values set_values].
      destruct (py_eqb _ _); unfold c1; rewrite ?(lookup_insert_ne _ "execution_artifacts") by done;
        by rewrite lookup_insert_eq.
Qed.

(** * Executions of a run *)

Lemma fast_metadata_get id envelope request k :
  k ∉ ["user_id"; "org_id"; "provider_operation_type"] -> jhas k (rev (to_metadata envelope)) = false ->
  jget k (own_metadata (fast_arguments id envelope request)) = jget k (fast_metadata request).
Proof.
  intros Hk Hm. unfold own_metadata, fast_arguments, to_run_agent_metadata. cbn [aa_metadata aa_user_id aa_org_id].
  repeat (apply not_elem_of_cons in Hk as [? Hk]). rewrite !fill_get by done. rewrite jget_jupdate.
  unfold jhas in Hm. by destruct (jget k (rev _)).
Qed.

Lemma fast_provenance id envelope request :
  as_dict (jget_or_null "execution_provenance" (own_metadata (fast_arguments id envelope request))) =
  req_metadata request.
Proof. unfold jget_or_null. rewrite fast_metadata_get; [done|set_solver|done]. Qed.

Lemma fast_opening_count id envelope request :
  opening_count (fast_arguments id envelope request) =
  _metadata_int (req_metadata request) REPLY_ADMISSION_BLOCK_COUNT_METADATA_KEY 0.
Proof.
  unfold opening_count. rewrite fast_provenance. f_equal. unfold _metadata_int at 1, jget_or_null.
  rewrite fast_metadata_get; [done|set_solver|done].
Qed.

Lemma setdefault_keeps k v k' v' d : jget k d = Some v -> jget k (setdefault d k' v') = Some v.
Proof.
  intros Hk. unfold setdefault, jhas. destruct (jget k' d) eqn:E; [done|].
  rewrite jget_jset_ne; [done|]. intros <-. congruence.
Qed.

Lemma execution_metadata_keeps id envelope request k v :
  k <> "org_id" -> k <> "user_id" -> jget k (req_metadata request) = Some v ->
  jget k (execution_metadata_of (fast_arguments id envelope request)) = Some v.
Proof.
  intros H1 H2 Hk. unfold execution_metadata_of. cbv zeta. rewrite fast_provenance.
  assert (Hfold : forall l d, jget k d = Some v -> jget k (fold_left (fun m kv =>
    if String.eqb kv.1 "execution_provenance" then m else setdefault m kv.1 kv.2) l d) = Some v).
  { induction l as [|[k' v'] l IH]; intros d Hd; [done|]. simpl. apply IH.
    destruct (String.eqb _ _); [done|]. by apply setdefault_keeps. }
  cbn [aa_run_id fast_arguments]. destruct (truthy (context_idea_id _)); repeat apply setdefault_keeps;
    rewrite !set_if_get by done; by apply Hfold.
Qed.

Lemma request_of_spec row :
  strip (str_or (org_id (spec row)) "") <> "" ->
  exists request, request_of row = Ok request /\ req_metadata request = metadata_ row.
Proof.
  intros Ho. unfold request_of, AgentRunRequest_post_init. cbn [req_org_id]. cbv zeta.
  destruct (String.eqb_spec (strip (str_or (org_id (spec row)) "")) ""); [done|]. by eexists.
Qed.

Lemma request_of_blank row :
  strip (str_or (org_id (spec row)) "") = "" -> exists e, request_of row = Err e.
Proof.
  intros Ho. unfold request_of, AgentRunRequest_post_init. cbn [req_org_id]. cbv zeta. rewrite Ho. by eexists.
Qed.

Lemma execute_run_eq id envelope calls w row :
  present (run_tables w) id row ->
  execute_run deliver id envelope calls w =
    match request_of row with
    | Ok request => in_agent_context (fast_arguments id envelope request)
                      (call_replies deliver id (root_run_id (spec row)) calls) w
    | Err e => (w, Err e)
    end.
Proof.
  intros [Hr _ _]. unfold execute_run. rewrite (bind_eq_ok _ _ w w row).
  - unfold bind, lift_result. by destruct (request_of row).
  - unfold on_store, require_run, get_run, bind, gets. rewrite Hr. by destruct w.
Qed.

(** An execution: its calls get the verdicts of the evidence its metadata holds, from
    the count the metadata holds. *)
Lemma execution_spec id envelope calls w row :
  present (run_tables w) id row -> strip (str_or (org_id (spec row)) "") <> "" -> (0 <= recorded row)%Z ->
  exists w' answers row' context,
    execute_run deliver id envelope calls w = (w', Ok answers) /\
    present (run_tables w') id row' /\ spec row' = spec row /\
    Forall2 answered (zip calls (verdicts (_same_thread_run_context_evidence context) (recorded row) calls)) answers /\
    ((recorded row <= 2)%Z -> (recorded row + told answers <= recorded row' <= 2)%Z) /\
    (forall c, jget "same_thread_run_context" (metadata_ row) = Some (JObj c) ->
      _same_thread_run_context_evidence context = e ← context_from_mapping c; Ok (Some e)).
Proof.
  intros Hp Ho Hn. rewrite (execute_run_eq _ _ _ _ _ Hp).
  destruct (request_of_spec row Ho) as (request & -> & Hm).
  destruct (agent_context_spec (fast_arguments id envelope request)
              (call_replies deliver id (root_run_id (spec row)) calls) w) as (w1 & E & Et & Ha & Hem).
  rewrite fast_opening_count, Hm in Ha. fold (recorded row) in Ha.
  destruct (calls_spec id (root_run_id (spec row)) _ calls w1 (recorded row) row Ha Hn)
    as (w2 & answers & row' & E2 & Hp2 & Hsp & Hf & Ht); [by rewrite Et|done|].
  rewrite E2 in E. cbn [fst snd] in E.
  exists (set_values (context_values w) w2), answers, row', (context_values w1). split_and!; try done.
  - intros Hle. apply Ht. lia.
  - intros c Hc. rewrite <- Hm in Hc.
    pose proof (execution_metadata_keeps id envelope request "same_thread_run_context" _ ltac:(done) ltac:(done) Hc) as Hk.
    unfold _same_thread_run_context_evidence. rewrite Hem by (intros E0; by rewrite E0 in Hk).
    unfold _find_context_mapping. by rewrite (find_at_direct 3 _ _ _ Hk).
Qed.

(** * The runs of the thread *)

(** The runs that were open on a thread. *)
Definition open_runs (thread : string) (org : option string) (s : store) : list run_row :=
  if String.eqb (strip thread) "" then []
  else filter (fun r => status r ∈ value <$> SAME_THREAD_COORDINATION_POLICY)
         (same_thread_runs (strip thread) org (pending s)).

(** A declaration that takes account of them: the reply waits, hands the question off,
    or refers to one of them. *)
Definition coordinated (siblings : list run_row) (coordination : json) : bool :=
  match coordination_from_value coordination with
  | None => false
  | Some d =>
      match co_action d with
      | REFERENCE => bool_decide (co_run_id d ∈ Some ∘ run_id <$> siblings)
      | _ => true
      end
  end.

Definition sendable (c : reply_call) : bool :=
  match rc_image c with
  | inl _ => false
  | inr has_image => negb (String.eqb (strip (rc_body c)) "" && negb has_image)
  end.

(** The counts of the blocks: which calls are blocked, from the runs of the thread
    alone. *)
Fixpoint blocks (status_question : bool) (siblings : list run_row) (n : Z) (calls : list reply_call)
    : list (option Z) :=
  match calls with
  | [] => []
  | c :: calls' =>
      if sendable c && negb status_question && negb (bool_decide (siblings = []))
         && negb (coordinated siblings (rc_coordination c)) && Z.ltb n 2
      then Some (n + 1)%Z :: blocks status_question siblings (n + 1) calls'
      else None :: blocks status_question siblings n calls'
  end.

(** What a call is answered: an exception when it is cancelled, the block, the error of
    a reply that has nothing to send, or what posting it answers. *)
Definition conforms (cb : reply_call * option Z) (r : result json) : Prop :=
  if rc_cancelled cb.1 then is_ok r = false
  else match cb.2 with
       | Some k => exists issue,
           r = Ok (JStr (dumps ", " ": " (JObj (blocked_payload (blocked_review issue) k))))
       | None => if sendable cb.1 then exists context, r = deliver context (rc_body cb.1)
                 else exists error, r = Ok (JStr (dumps ", " ": " (JObj [("error", JStr error)])))
       end.

Lemma mappings_dicts l : mappings (JObj <$> l) = l.
Proof. unfold mappings. induction l as [|d l IH]; [done|]. cbn. by rewrite IH. Qed.

Lemma mapping_items_list key v l :
  jget_or_null key v = JList (JObj <$> l) -> mapping_items key v = Ok l.
Proof.
  intros E. unfold mapping_items. rewrite E. unfold py_iter, mbind, result_bind. simpl truthy.
  destruct l as [|d l]; [done|]. 
  change (Ok (mappings (JObj <$> d :: l)) = Ok (d :: l)). by rewrite mappings_dicts.
Qed.

Lemma live_sibling_read row : sn_run_id (snapshot_from_mapping (as_dict (live_sibling row))) = Some (run_id row).
Proof. simpl. unfold _coerce_optional_int. simpl. apply int_of_str_of_Z. Qed.

Lemma Ok_inj {A} (a b : A) : Ok a = Ok b -> a = b.
Proof. by intros [= ->]. Qed.

(** The evidence read back from what admission found on the thread. *)
Lemma evidence_of_thread t o k sq s c :
  build_same_thread_run_context t o k sq s = (s, Ok c) ->
  exists e, context_from_mapping c = Ok e /\ st_status_question e = sq /\
    (open_runs t o s = [] \/ st_lookup_status e = "verified") /\
    sn_run_id <$> st_live_sibling_runs e = Some ∘ run_id <$> open_runs t o s.
Proof.
  unfold build_same_thread_run_context, open_runs. cbv zeta. destruct (String.eqb _ "").
  { intros [= <-]. eexists. split; [reflexivity|]. split; [done|]. by split; [left|]. }
  set (live := filter _ _). unfold bind at 1, gets. intros E.
  assert (Hc : exists origin deliverables thread, c =
    [("thread_id", JStr thread); ("lookup_status", JStr "verified"); ("status_question", JBool sq);
     ("originating_run", origin); ("live_sibling_runs", JList (live_sibling <$> live));
     ("deliverables", JList (JObj <$> deliverables))]).
  { destruct (find _ _); cbv beta iota delta [bind ret gets _latest_final_output latest_artifact_text] in E;
      apply (f_equal snd), Ok_inj in E; subst c; destruct sq;
      first [eexists _, _, _; reflexivity | eexists _, [], _; reflexivity]. }
  destruct Hc as (origin & deliverables & thread & ->).
  unfold context_from_mapping.
  rewrite (mapping_items_list "live_sibling_runs" _ (as_dict ∘ live_sibling <$> live)).
  2: { unfold jget_or_null. simpl. f_equal. rewrite <- list_fmap_compose. by apply list_fmap_ext. }
  rewrite (mapping_items_list "deliverables" _ deliverables) by done.
  eexists. split; [reflexivity|]. split; [done|]. split; [by right|]. simpl.
  rewrite <- !list_fmap_compose. apply list_fmap_ext. intros i row _. apply live_sibling_read.
Qed.

Lemma issue_of_thread e siblings coordination :
  (siblings = [] \/ st_lookup_status e = "verified") ->
  sn_run_id <$> st_live_sibling_runs e = Some ∘ run_id <$> siblings ->
  bool_decide (is_Some (active_sibling_contract_issue (coordination_from_value coordination) (Some e))) =
  negb (st_status_question e) && negb (bool_decide (siblings = [])) && negb (coordinated siblings coordination).
Proof.
  intros Hv Hids. unfold active_sibling_contract_issue, coordinated, has_live_sibling.
  destruct siblings as [|r0 siblings0] eqn:Es.
  { apply fmap_nil_inv in Hids. rewrite Hids. rewrite !orb_true_r. simpl. by rewrite andb_false_r. }
  rewrite <- Es in *. destruct Hv as [->|Hv]; [done|]. rewrite Hv. simpl negb.
  destruct (st_live_sibling_runs e) as [|x l] eqn:El; [by rewrite Es in Hids|]. rewrite <- El in *.
  rewrite (bool_decide_eq_false_2 (siblings = [])) by (by rewrite Es).
  destruct (st_status_question e); [done|]. simpl orb. cbn match. simpl negb. cbn [andb].
  destruct (coordination_from_value coordination) as [d|]; [|done].
  destruct (co_action d); [done| |done].
  rewrite (bool_decide_eq_false_2 (REFERENCE = WAIT \/ _)) by (by intros []).
  assert (E : bool_decide (is_Some (co_run_id d))
              && existsb (fun r => bool_decide (sn_run_id r = co_run_id d)) (st_live_sibling_runs e)
              = bool_decide (co_run_id d ∈ Some ∘ run_id <$> siblings)).
  { apply eq_bool_prop_intro. rewrite andb_True, !bool_decide_spec, <- Hids, Is_true_true, existsb_exists.
    rewrite list_elem_of_fmap. split.
    - intros [_ (r & Hin & Hr)]. apply bool_decide_eq_true in Hr. exists r. split; [done|].
      by apply list_elem_of_In.
    - intros (r & Hr & Hin). split.
      + assert (Hr' : sn_run_id r ∈ Some ∘ run_id <$> siblings) by (rewrite <- Hids; by apply list_elem_of_fmap_2).
        apply list_elem_of_fmap in Hr' as (y & Hy & _). rewrite Hr, Hy. by eexists.
      + exists r. split; [by apply list_elem_of_In|]. by apply bool_decide_eq_true. }
  rewrite E. by destruct (bool_decide (co_run_id d ∈ _)).
Qed.

Lemma verdicts_of_thread e siblings calls : forall n,
  (siblings = [] \/ st_lookup_status e = "verified") ->
  sn_run_id <$> st_live_sibling_runs e = Some ∘ run_id <$> siblings ->
  forall answers, Forall2 answered (zip calls (verdicts (Ok (Some e)) n calls)) answers ->
  Forall2 conforms (zip calls (blocks (st_status_question e) siblings n calls)) answers.
Proof.
  intros n Hv Hids. revert n. induction calls as [|c calls IH]; intros n answers Hf; [by apply Forall2_nil_inv_l in Hf as ->; constructor|].
  pose proof (issue_of_thread e siblings (rc_coordination c) Hv Hids) as Hi.
  cbn [verdicts blocks] in *. unfold verdict_of in Hf. unfold sendable at 1. cbv zeta in Hf.
  destruct (rc_image c) as [err|has_image] eqn:Eimg.
  { cbn [andb zip zip_with] in *. apply Forall2_cons_inv_l in Hf as (r & l & Hr & Hl & ->).
    constructor; [|by apply IH]. unfold answered, conforms, sendable in *. cbn [fst snd] in *. by rewrite Eimg. }
  destruct (String.eqb (strip (rc_body c)) "" && negb has_image) eqn:Eb.
  { cbn [negb andb zip zip_with] in *. apply Forall2_cons_inv_l in Hf as (r & l & Hr & Hl & ->).
    constructor; [|by apply IH]. unfold answered, conforms, sendable in *. cbn [fst snd] in *. by rewrite Eimg, Eb. }
  cbn [negb andb]. rewrite <- Hi. unfold MAX_OUTBOUND_REPLY_BLOCKS in Hf.
  assert (Hs : sendable c = true) by (unfold sendable; by rewrite Eimg, Eb).
  destruct (active_sibling_contract_issue _ _) as [issue|]; [destruct (Z.ltb n 2)|];
    cbn in Hf; cbn;
    apply Forall2_cons_inv_l in Hf as (r & l & Hr & Hl & ->); (constructor; [|by apply IH]);
    unfold answered, conforms in *; cbn [fst snd] in *; rewrite ?Hs; destruct (rc_cancelled c); try done.
  by exists issue.
Qed.

(** C30. The replies of an execution of a run, against the runs of its thread: the
    metadata of the run hold what admission found on the thread.  A reply is blocked
    exactly if it has something to send, the message was not a question of status, runs
    were open on the thread, the reply does not wait, hand off or refer to one of them,
    and it is not yet two replies of the run that were blocked, in this execution or
    before; the block carries the number of the blocks.  Every other reply is posted,
    or refused when there is nothing to send; the call that was cancelled counts its
    block all the same. *)
Theorem replies_follow_thread id envelope calls w row thread org limit status_question s c :
  present (run_tables w) id row -> strip (str_or (org_id (spec row)) "") <> "" -> (0 <= recorded row)%Z ->
  build_same_thread_run_context thread org limit status_question s = (s, Ok c) ->
  jget "same_thread_run_context" (metadata_ row) = Some (JObj c) ->
  exists w' answers, execute_run deliver id envelope calls w = (w', Ok answers) /\
    Forall2 conforms (zip calls (blocks status_question (open_runs thread org s) (recorded row) calls)) answers.
Proof.
  intros Hp Ho Hn Hb Hc.
  destruct (execution_spec id envelope calls w row Hp Ho Hn) as (w' & answers & row' & ctx & E & _ & _ & Hf & _ & Hctx).
  destruct (evidence_of_thread _ _ _ _ _ _ Hb) as (e & He & <- & Hv & Hids).
  rewrite (Hctx c Hc), He in Hf. exists w', answers. split; [done|]. by apply verdicts_of_thread.
Qed.

(** What else happens to the metadata of the run leaves the count alone. *)
Definition leaves_count (o : occurrence) : Prop :=
  match o with
  | Executed _ _ => True
  | Annotated patch => REPLY_ADMISSION_BLOCK_COUNT_METADATA_KEY ∉ patch.*1
  end.

Lemma occur_spec id o w row :
  present (run_tables w) id row -> leaves_count o -> (0 <= recorded row <= 2)%Z ->
  exists w' r row', occur deliver id o w = (w', r) /\ present (run_tables w') id row' /\
    (recorded row + told (match r with Ok answers => answers | Err _ => [] end) <= recorded row' <= 2)%Z.
Proof.
  intros Hp Ho Hn. destruct o as [envelope calls|patch]; simpl.
  - destruct (String.eqb_spec (strip (str_or (org_id (spec row)) "")) "") as [Eo|Eo].
    + rewrite (execute_run_eq _ _ _ _ _ Hp). destruct (request_of_blank row Eo) as [e ->].
      exists w, (Err e), row. split_and!; try done; simpl; lia.
    + destruct (execution_spec id envelope calls w row Hp Eo) as (w' & answers & row' & ctx & E & Hp' & _ & _ & Ht & _);
        [lia|]. exists w', (Ok answers), row'. split_and!; try done; apply Ht; lia.
  - destruct (recorded_same _ id row patch Hp) as (s' & row' & m & E & Hp' & _ & Hr).
    { unfold jhas. destruct (jget _ (rev patch)) as [v|] eqn:Ej; [|done]. exfalso. apply Ho.
      apply jget_elem in Ej. apply list_elem_of_fmap. exists (REPLY_ADMISSION_BLOCK_COUNT_METADATA_KEY, v).
      split; [done|]. by apply list_elem_of_In, in_rev, list_elem_of_In. }
    exists (set_run_tables s' w), (Ok []), row'. unfold on_store, bind. rewrite E. split_and!; try done; simpl; lia.
Qed.

Lemma replies_bounded id history : forall w row,
  present (run_tables w) id row -> Forall leaves_count history -> (0 <= recorded row <= 2)%Z ->
  (recorded row + told (replies deliver id history w) <= 2)%Z.
Proof.
  induction history as [|o history IH]; intros w row Hp Hh Hn; [simpl; lia|].
  apply Forall_cons in Hh as [Ho Hh].
  destruct (occur_spec id o w row Hp Ho Hn) as (w' & r & row' & E & Hp' & Ht).
  cbn [replies]. rewrite E, filter_app, length_app.
  specialize (IH w' row' Hp' Hh ltac:(lia)). lia.
Qed.

(** C31. A run is told twice at most that a reply is blocked, over all its executions:
    whatever replies it makes, by whatever workers it is executed again, whichever calls
    are cancelled, and whatever else is written to its metadata meanwhile.  The count
    lives in the state its tool calls share, and in its metadata from one execution to
    the next. *)
Theorem reply_blocks_bounded id history w row :
  present (run_tables w) id row -> jget REPLY_ADMISSION_BLOCK_COUNT_METADATA_KEY (metadata_ row) = None ->
  Forall leaves_count history ->
  (told (replies deliver id history w) <= 2)%Z.
Proof.
  intros Hp Hk Hh. assert (Hr : recorded row = 0%Z).
  { unfold recorded, _metadata_int, jget_or_null. by rewrite Hk. }
  pose proof (replies_bounded id history w row Hp Hh ltac:(lia)). lia.
Qed.

End replies.

(** * Instances *)

Definition demo_reviewer : FinalReplyReviewer :=
  {| review_final_reply_once _ _ _ _ := Ok [("status", JStr "resolved")] |}.
Definition demo_deliver (_ : gmap string attribute) (text : string) : result json :=
  Ok (JObj [("ok", JBool true); ("posted", JBool true); ("text", JStr text)]).

Lemma demo_deliver_posts c text answer : demo_deliver c text = Ok answer -> blocked_count answer = None.
Proof. by intros [= <-]. Qed.

Definition demo_thread : dict :=
  [("thread_id", JStr "thread"); ("lookup_status", JStr "verified"); ("status_question", JBool false);
   ("originating_run", JNull);
   ("live_sibling_runs", JList [JObj [("run_id", JInt 2); ("status", JStr "queued")];
                                JObj [("run_id", JInt 1); ("status", JStr "running")]]);
   ("deliverables", JList [])].
Definition demo_replying : run_row :=
  demo_row 3 RUNNING [("same_thread_run_context", JObj demo_thread)] (Some "token") 1 30.
Definition demo_agent : agent_world :=
  {| context_values := ∅; run_states := [];
     run_tables := demo_store true (demo_db [demo_running; demo_queued; demo_replying] []) |}.
Definition demo_envelope : RunEnvelope :=
  {| env_payload := [("digest", JStr "d")]; env_run_id := Some 3%Z; env_invocation_id := "i"; env_trace_id := None;
     env_origin := "manual_api"; env_org_id := Some "org"; env_provider_operation_type := None;
     env_workspace_root := None |}.
Definition demo_reply (coordination : json) : reply_call :=
  {| rc_body := "She does not say."; rc_image := inr false; rc_coordination := coordination; rc_cancelled := false |}.
Definition demo_calls : list reply_call :=
  [demo_reply JNull; demo_reply (JObj [("action", JStr "reference"); ("run_id", JStr "2")]);
   demo_reply (JObj [("action", JStr "reference"); ("run_id", JInt 9)]); demo_reply JNull].

Lemma demo_replying_present : present (run_tables demo_agent) 3 demo_replying.
Proof. split; [reflexivity..|]. by eexists. Qed.

Lemma replies_follow_thread_witness :
  exists w' answers,
    @execute_run demo_reviewer demo_deliver 3 demo_envelope demo_calls demo_agent = (w', Ok answers) /\
    Forall2 (conforms demo_deliver) (zip demo_calls [Some 1%Z; None; Some 2%Z; None]) answers.
Proof.
  destruct (@replies_follow_thread demo_reviewer demo_deliver demo_deliver_posts 3 demo_envelope demo_calls demo_agent
    demo_replying "thread" (Some "org") 50 false demo_session demo_thread) as (w' & answers & E & Hf).
  - apply demo_replying_present.
  - discriminate.
  - discriminate.
  - vm_compute. reflexivity.
  - reflexivity.
  - exists w', answers. split; [exact E|].
    assert (Hb : blocks false (open_runs "thread" (Some "org") demo_session) (recorded demo_replying) demo_calls
              = [Some 1%Z; None; Some 2%Z; None]) by (vm_compute; reflexivity).
    rewrite Hb in Hf. exact Hf.
Defined.

(** Four replies that ignore the other runs, over two executions: two are blocked. *)
Definition demo_history : list occurrence :=
  [Executed demo_envelope [demo_reply JNull]; Annotated [("note", JStr "swapped")];
   Executed demo_envelope [demo_reply JNull; demo_reply JNull; demo_reply JNull]].

Lemma reply_blocks_bounded_witness :
  (told (@replies demo_reviewer demo_deliver 3 demo_history demo_agent) <= 2)%Z.
Proof.
  apply (@reply_blocks_bounded demo_reviewer demo_deliver demo_deliver_posts 3 demo_history demo_agent demo_replying).
  - apply demo_replying_present.
  - reflexivity.
  - repeat constructor. simpl. intros Hin. apply list_elem_of_singleton in Hin. discriminate.
Defined.

Example demo_two_blocks :
  told (@replies demo_reviewer demo_deliver 3 demo_history demo_agent) = 2%Z.
Proof. vm_compute. reflexivity. Qed.
